(* ===== verification/_CoqProject ===== *)
-Q . S2P
Prelude.v
KVStore.v
Sdk.v
EvmConfig.v
BankModel.v
PreciseBank.v
PreciseBankInv.v
PreciseBankOps.v
PreciseBankSpec.v
PreciseBankCoins.v
PreciseBankGen.v
PreciseBankThms.v
FeeMarket.v
FeeMarketThms.v
FeePolicy.v
FeePolicyThms.v
FeeChecker.v
DeductFee.v
AnteThms.v
BigFloat.v
Oracle.v
OracleInv.v
OracleThms.v
SnapshotStore.v
StateDB.v
StateDBInv.v
StateDBRun.v
StateDBOps.v
StateDBMachine.v
StateDBThms.v
StateDBType.v
StateDBCommit.v
StateDBReach.v
Wrappers.v
PreciseBankEvm.v
VmKeeper.v
VmKeeperThms.v
EvmCompose.v
TxData.v
TxDataThms.v
VmParams.v
EthModel.v
VmGas.v
StateTransition.v
StateTransitionThms.v
EthAnte.v
EthAnteThms.v
EthCompose.v
Erc20.v
Erc20Reg.v
Erc20Keeper.v
Erc20Ibc.v
Erc20Thms.v
Erc20Conv.v
Erc20Gen.v
Erc20Model.v
Precompile.v
PrecompileThms.v
PrecompileErc20.v
PrecompileErc20Thms.v
PrecompileApp.v
PrecompileBank.v
PrecompileSdk.v
PrecompileStaking.v
PrecompileDistr.v
PrecompileGov.v
PrecompileIcs20.v
PrecompileSdkThms.v
PrecompileSdkSpec.v
PrecompileSdkModel.v
CallEvm.v
VmQuery.v
VmQueryThms.v
CosmosAnte.v
CosmosAnteThms.v
Indexer.v
IndexerThms.v
Rpc.v
RpcThms.v
Daemon.v
