(* ===== verification/Prelude.v ===== *)
(** * Guru: a verification of the state machine of the chain

    Guru is a Cosmos SDK application with an EVM.  Its own logic is in a few
    modules, in the ante handlers and in the precompiled contracts, which this
    library models and proves:

    - x/precisebank keeps balances with 18 decimals on top of an x/bank coin
      that has fewer: an integer balance in x/bank, a fractional balance per
      account and a remainder in its own store, and a reserve account in x/bank
      that backs the fractions.
    - x/vm runs Ethereum transactions: a journaled state database over the
      keeper's stores and x/precisebank, the state transition around the
      interpreter of go-ethereum, parameters and gas.
    - x/erc20 pairs ERC-20 contracts with coins and converts between them, also
      on the way of ICS-20 transfers.
    - The precompiled contracts give contracts access to coins (the ERC-20
      interface of a coin, the wrapped native coin, bank, bech32 and P-256) and
      to the modules of the SDK (staking, distribution, governance, slashing,
      evidence, ICS-20 transfers).
    - x/feemarket computes the EIP-1559 base fee at the end of each block.
    - x/oracle collects signed values from listed accounts and aggregates them
      at the beginning of each block; its hook lets x/feemarket move the
      minimum gas price with the aggregate.
    - x/feepolicy keeps discounts for fee payers.
    - The ante handlers check transactions: which handler a transaction goes to,
      the messages it may hold, the fee of a Cosmos transaction with its discount,
      and every check of an Ethereum transaction.
    - The indexer of the node parses the events of Ethereum transactions and keeps
      an index of them, which a service loop advances with the chain.
    - JSON-RPC answers in the terms of Ethereum: blocks, transactions, receipts,
      logs and fees out of the blocks and results of the node, with filters that
      are installed and polled, and makes transactions of the chain out of those of
      Ethereum.
    - The oracle daemon runs beside the chain for an account that x/oracle lists: it
      follows the documents and completions, fetches values and submits them.

    ** Files

    - [Prelude]: outcomes of Go calls ([Ok], [Err] with the wrapped sentinel,
      [Panic]), the state monad [M] that keeps the writes made before a
      failure, its notations and its inversion tactic [run_inv], machine
      integers with their wrap-around, sums over finite maps, hint databases.
    - [KVStore]: byte keys, fixed-width big-endian numbers, the order and the
      prefix iteration of a module's store.
    - [Sdk]: what is used of the Cosmos SDK, whose code is not in this
      repository: integers and decimals as their representation; coins,
      addresses, x/bank and x/auth as classes of operations with classes of
      documented laws.  [BankModel] instantiates every class, so the laws can
      hold together; the witnesses run on it.
    - [EvmConfig]: the coin configuration and the 18-decimal conversions
      (x/vm/types/denom.go, denom_config.go, scaling.go).
    - [PreciseBank]: x/precisebank, keeper, types and genesis; [PreciseBankInv]
      the ledger view, the well-formedness of the store and the backing of the
      reserve; [PreciseBankOps] send, mint and burn on one denom;
      [PreciseBankSpec] the abstract ledger they refine and when they succeed;
      [PreciseBankCoins] the operations on coin sets;
      [PreciseBankGen] genesis; [PreciseBankThms] the theorems.
    - [FeeMarket] and [FeeMarketThms]: x/feemarket, with the EIP-1559
      reference on integers that [CalculateBaseFee] is proved equal to.
    - [FeePolicy] and [FeePolicyThms]: x/feepolicy.
    - [FeeChecker], [DeductFee] and [AnteThms]: ante/evm/fee_checker.go,
      ante/cosmos/min_gas_price.go, gurud/ante/cosmos_fees.go and
      gurud/ante/validator_tx_fee.go.
    - [BigFloat]: the part of math/big.Float and sort.Slice the oracle uses;
      [Oracle]: x/oracle; [OracleInv] keys, documents and the invariant of the
      store, the aggregation loops and ranks, a block; [OracleThms] the theorems.
    - [SnapshotStore]: x/vm/store.  [StateDB]: x/vm/statedb; [StateDBInv] to
      [StateDBReach] what undoing an entry gives back, that every operation is
      journaled, the machine of operations, snapshots and reverts, machine
      types, commits and reachable states.
    - [Wrappers]: x/vm/wrappers over the interface of the EVM's bank;
      [PreciseBankEvm] discharges the interface by x/precisebank.  [VmKeeper]
      and [VmKeeperThms]: the storage keeper of x/vm, an instance of the keeper
      the state database is written over.  [EvmCompose]: all of these together.
    - [TxData], [TxDataThms]: Ethereum transactions, their validation and
      conversion, the gas search.  [VmParams]: parameters, access
      control, active precompiles.  [VmGas]: gas meter, fees, refunds.
      [StateTransition], [StateTransitionThms]: messages and transactions.
      [EthAnte], [EthAnteThms]: the ante handler of Ethereum transactions.
      [EthModel], [EthCompose]: a concrete go-ethereum and concrete
      transactions.  [CallEvm]: calls of contracts by modules.  [VmQuery],
      [VmQueryThms]: the arguments of calls, queries, simulated calls, gas
      estimation, tracing and genesis of x/vm.
    - [CosmosAnte], [CosmosAnteThms]: the limiter of authz messages, the rejection
      of Ethereum messages, signature gas and the choice of the handler
      (ante/cosmos, ante/sigverify.go, gurud/ante).
    - [Indexer], [IndexerThms]: the parsing of events
      (rpc/types/events.go), the index (indexer/kv_indexer.go) and the service loop
      (server/indexer_service.go), with a concrete chain.
    - [Rpc], [RpcThms]: the backend of JSON-RPC (rpc/backend, rpc/types), log queries,
      installed filters and the event system (rpc/namespaces/ethereum/eth/filters),
      the event bus (rpc/ethereum/pubsub), with a concrete node.
    - [Daemon]: the oracle daemon (oralce): worker pool with shared jobs, client of the
      endpoints, submitter, subscriber, event loop and configuration, with its
      theorems and concrete runs against x/oracle.
    - [Erc20]: the registry of x/erc20; [Erc20Keeper] its messages over the EVM
      and the bank; [Erc20Ibc] packet callbacks, both versions of the middleware
      and the transfer message; [Erc20Reg] the consistency of the registry,
      [Erc20Thms] its preservation, [Erc20Conv] conversions, [Erc20Gen] genesis,
      [Erc20Model] a concrete world.
    - [Precompile]: what precompiled contracts share (precompiles/common);
      [PrecompileErc20] the ERC-20 and wrapped coin contracts; [PrecompileThms]
      and [PrecompileErc20Thms] their theorems; [PrecompileApp] the stores of
      the chain behind them and a concrete chain;
      [PrecompileBank] the bank, bech32 and P-256 contracts.
    - [PrecompileSdk]: what the contracts over modules of the SDK share, with the
      messages, their signers and the message servers as a class;
      [PrecompileStaking], [PrecompileDistr], [PrecompileGov] (governance,
      slashing and evidence) and [PrecompileIcs20] the contracts, arguments,
      events, transactions and queries; [PrecompileSdkThms] authorisation, undoing
      and the balances; [PrecompileSdkSpec] keys, claims and the methods that
      fail; [PrecompileSdkModel] a concrete chain.

    A file of definitions follows the Go files function by function, under the
    Go names; PROJECT.json maps each definition to its lines.  A keeper method
    that can fail or write is a function into [M] over the record of the
    module's stores and events; one that only reads takes the state.  Stores
    are maps from the bytes the keys.go files build, so two records meet
    exactly when their keys do.  A value that protobuf stores as text is read
    back through [dec_stored].  Code outside the repository (the SDK, ibc-go,
    go-ethereum with its interpreter, signatures, ABI and Keccak) is a class of
    operations with a class of the laws the code relies on, and each such class
    has an instance.

    ** What is proved

    - x/precisebank: send, mint and burn of extended coins refine a transfer,
      an issue and a withdrawal on an abstract ledger through every borrow and
      carry; in every state reached without a call that names the reserve the
      reserve is worth exactly the fractional balances and the remainder; a transfer within the spendable
      balance succeeds and one beyond it returns the documented error; genesis
      round trip; what the views and the events show.
    - x/feemarket: the base fee equals the EIP-1559 reference and keeps its
      bounds, the end blocker does exactly its two writes, the oracle hook is
      limited by the change rate and keeps the parameters valid on positive
      data.
    - Ante handlers: what is charged with and without a discount, and that it
      moves from the payer or granter to the fee collector; what an accepted
      Ethereum transaction has been checked for and has paid, and that its nonce
      cannot be used again.
    - x/feepolicy: authority, the choice of the discount, validity of the
      store, removals, genesis round trip.
    - x/oracle: the exact guards of a submission, injectivity of the signed
      bytes, what a block does to each document, that the begin blocker
      returns, the robustness of the median, the invariant over all messages
      and blocks, genesis round trip.
    - State database: a revert gives back every answer of the database and the
      stores of precompile calls, whatever was done since the snapshot; the
      machine types and the invariant hold in every reachable state; a commit
      writes exactly the changed accounts and, over x/precisebank, moves the
      ledger of extended balances to the balances of the database and that of a
      destroyed contract to zero.
    - State transition: gas is charged between the minimum and the limit; a
      transaction commits a database the interpreter reached; one that fails
      costs its gas and changes nothing else, from the ante handler to the
      refund; a query of a module changes its gas meter only.
    - Queries of x/vm: a gas estimate is the least gas that works, unless it is the
      cap by funds, which is never tried; a simulated call
      changes nothing and runs the message its arguments stand for; a transaction
      traced alone is traced as in its block; contracts and parameters survive an
      export and an import.
    - x/erc20: the registry stays consistent through all messages, packets and
      failures; a conversion mints exactly its amount on top of what the call of
      the contract did, re-entered conversions included, and coins stay backed by
      the tokens of the module if the contract is fair; transfers convert what is missing; genesis round
      trip.
    - Precompiles: the ERC-20 contract of a coin refines an abstract ERC-20
      token, an account that approved nobody loses nothing, native balances
      follow the bank, every call can be undone by the EVM.  The contracts over
      the modules of the SDK hand over messages of their caller only, whatever the
      modules do; their calls can be undone, the stores of the modules included,
      and mirror the bank events of the call in the state database; a claim of
      rewards withdraws from exactly the listed validators and reports the sum;
      consensus keys survive their text.
    - Routing and indexer: Ethereum messages pass through the handler of the EVM
      and no other way, also inside authz; what the chain emits about a transaction
      is parsed back; an indexed message is found by hash and by place; the service
      indexes the blocks once and in order as long as no fetch fails.
    - JSON-RPC: a log query returns exactly the matching logs, blooms hide none; the
      index, the block and the hash lead to the same transaction and the same
      receipt; a poll loses and repeats nothing that was delivered; no channel of the
      event bus is closed twice; the fee history has the entries asked for, with the
      rewards of the percentiles; defaults of a transaction are stable; a raw
      transaction that is accepted passes the stateless checks of the ante handler;
      the requests for traces of a transaction and of its block agree.
    - Oracle daemon: the accounts of a document share its endpoints out; after
      any history a completion that finds its job not ahead leads to the nonce that
      x/oracle waits for, whatever happens to other requests; a fetch gives a body
      exactly if an attempt within the limits does; a path leads to the value that is
      extracted; a submitter with a wrong sequence recovers.

    Where the code differs from what it says, a theorem states what it does
    (the doubled event amounts, the unguarded module transfer, the removal that
    removes nothing, the percentages that panic, negative oracle prices, the
    provider that is not checked against the account list, the events lost after
    a reverted precompile call, the hook events emitted twice, refunds kept by
    the module, the failed conversion acknowledged as a success, the approval
    event that always reports zero, the contract methods that never answer or that
    panic, the indexer service that stops at the first failed fetch, the gas
    estimate capped by funds that is never run, the filter whose removal ends the
    others, the log query beyond the head, the transaction that is never resent, the
    stale prediction of the base fee, the first block reported twice, the daemon that
    stays ahead of its document, the document that stops a daemon).

    ** Bounds

    Loops run over lists, so most definitions need no fuel.  The exceptions take
    a bound that is the exact number of rounds needed: the binary search of the
    gas estimator (the bits of its interval), the search for a revision (the
    number of revisions) and the removal of invalid prefixes of a token name
    (its length); the theorems about them show that the result is reached.  The
    bounds in theorems are those of the machine types, of [sdkmath.Int] (256
    bits) and of [LegacyDec], whose products and quotients are known up to half
    a unit of the last decimal; the base fee theorem asks for a fee of at most
    191 bits so that no intermediate product overflows.

    ** Not modelled

    Tracers, their timeout and block hashes, which belong to the interpreter of
    go-ethereum: the report of a tracer is a function of its configuration, the
    place, the message and the response, not of the steps it sees; the deprecated EIP-712 decorator, which the chain does not
    install, with its JSON type builder.  Protobuf encoding, logging, telemetry,
    the command line and the Solidity sources are left out: they are generated code
    or input and output around the modules.  Of the oracle daemon HTTP, JSON, the
    keyring and the node are parameters, and tasks start in any order.  Of JSON-RPC the
    connections, websocket notifications, key management, proofs of accounts and the
    namespaces that forward to the backend are left out; what a goroutine receives is
    an input of the model, which says nothing of events that are dropped before.  The
    theorem on log queries assumes that the bloom of a block covers its logs, as the
    blocks of x/vm are built.  The bank behind the ERC-20 contracts moves coins without
    its events. *)
From stdpp Require Export prelude gmap strings list fin_maps sorting.
From Stdlib Require Export ZArith Lia.

#[global] Open Scope Z_scope.

(** * Outcomes

    A Go call of the modelled code ends in one of three ways: it returns
    normally, it returns a non-nil [error], or it panics.  [Error] keeps the
    sentinel an error wraps ([errors.Is] looks at nothing else) and the text
    that tells the return statements of one function apart. *)

Inductive errkind :=
  | ErrInsufficientFunds | ErrInvalidCoins | ErrUnauthorized
  | ErrUnknownAddress | ErrInvalidAddress | ErrInvalidRequest
  | ErrSendDisabled | ErrInvalidGasLimit | ErrInsufficientFee | ErrTxDecode
  | ErrInvalidSigner | ErrUnknownRequest
  | ErrWrongModerator | ErrInvalidRequestId | ErrInvalidNonce
  | ErrInvalidProvider | ErrInvalidRawData
  | ErrInvalidGasPrice | ErrInvalidGasFee | ErrInvalidGasCap | ErrInvalidAmount
  | ErrInvalidChainID | ErrGasOverflow | ErrInvalidRefund | ErrInvalidBaseFee
  | ErrCreateDisabled | ErrCallDisabled | ErrInvalidSequence | ErrOutOfGas
  | ErrInvalidType | ErrNotSupported | ErrIntrinsicGas | ErrNoSignatures
  | ErrERC20Disabled | ErrTokenPairNotFound | ErrTokenPairAlreadyExists | ErrERC20TokenPairDisabled
  | ErrNativeConversionDisabled | ErrUndefinedOwner | ErrEVMCall | ErrBalanceInvariance | ErrLogic
  | ErrExpectedEvent | ErrUnexpectedEvent | ErrNegativeToken | ErrInvalidAllowance | ErrInternalTokenPair
  | ErrABIPack | ErrABIUnpack | ErrVMExecution | ErrInvalidDenomForTransfer
  | ErrNoIBCVoucherDenom | ErrDenomNotFound | ErrInvalidBaseDenom | ErrExecutionReverted | ErrWriteProtection
  | ErrUnknownExtensionOptions | ErrInvalidPubKey | ErrTooManySignatures | ErrWrongSequence | ErrNotFound
  | ErrOther.

#[global] Instance errkind_eq_dec : EqDecision errkind.
Proof. solve_decision. Defined.

Record error := Error { e_kind : errkind; e_msg : string }.

Inductive res (A : Type) :=
  | Ok (a : A)
  | Err (e : error)
  | Panic (msg : string).
Arguments Ok {A} a.
Arguments Err {A} e.
Arguments Panic {A} msg.

Definition rbind {A B} (m : res A) (f : A -> res B) : res B :=
  match m with
  | Ok a => f a
  | Err e => Err e
  | Panic s => Panic s
  end.

(** A keeper method reads and writes the state it is given.  The state is
    returned on every outcome: a Go method that fails half way leaves its
    earlier writes behind (the transaction runner discards them, the method
    does not). *)

Definition M (S A : Type) : Type := S -> res A * S.

Definition ret {S A} (a : A) : M S A := fun s => (Ok a, s).
Definition fail {S A} (k : errkind) (msg : string) : M S A :=
  fun s => (Err (Error k msg), s).
Definition throw {S A} (e : error) : M S A := fun s => (Err e, s).
Definition panic {S A} (msg : string) : M S A := fun s => (Panic msg, s).
Definition lift {S A} (r : res A) : M S A := fun s => (r, s).
Definition gets {S A} (f : S -> A) : M S A := fun s => (Ok (f s), s).
Definition modify {S} (f : S -> S) : M S unit := fun s => (Ok tt, f s).

Definition bind {S A B} (m : M S A) (f : A -> M S B) : M S B := fun s =>
  match m s with
  | (Ok a, s') => f a s'
  | (Err e, s') => (Err e, s')
  | (Panic p, s') => (Panic p, s')
  end.

(** [try m] reifies the outcome of [m]: what [if err := m(); err != nil] does.
    A panic is not caught. *)
Definition try {S A} (m : M S A) : M S (A + error) := fun s =>
  match m s with
  | (Ok a, s') => (Ok (inl a), s')
  | (Err e, s') => (Ok (inr e), s')
  | (Panic p, s') => (Panic p, s')
  end.

(** Run a method of a component whose state is a field of the caller's. *)
Definition zoom {S T A} (get : S -> T) (set : T -> S -> S) (m : M T A) : M S A :=
  fun s => let '(r, t) := m (get s) in (r, set t s).

Declare Scope guru_scope.
Delimit Scope guru_scope with guru.
#[global] Open Scope guru_scope.

Notation "'let!' x := c 'in' k" := (bind c (fun x => k))
  (at level 10, x name, c at level 100, k at level 200) : guru_scope.
Notation "'do!' c ; k" := (bind c (fun _ => k))
  (at level 10, c at level 100, k at level 200) : guru_scope.
Notation "'let?' x := c 'in' k" := (rbind c (fun x => k))
  (at level 10, x name, c at level 100, k at level 200) : guru_scope.
Notation "'do?' c ; k" := (rbind c (fun _ => k))
  (at level 10, c at level 100, k at level 200) : guru_scope.

(** The loop [for _, x := range l { if err := f(x); err != nil { return err } }]. *)
Fixpoint each {S A} (f : A -> M S unit) (l : list A) : M S unit :=
  match l with
  | [] => ret tt
  | x :: l => do! f x; each f l
  end.

Fixpoint each_res {A} (f : A -> res unit) (l : list A) : res unit :=
  match l with
  | [] => Ok tt
  | x :: l => do? f x; each_res f l
  end.

Definition is_ok {A} (r : res A) : bool :=
  match r with Ok _ => true | _ => false end.
Definition is_panic {A} (r : res A) : bool :=
  match r with Panic _ => true | _ => false end.

(** ** Inversion of monadic runs *)

Lemma rbind_ok {A B} (m : res A) (f : A -> res B) b :
  rbind m f = Ok b -> exists a, m = Ok a /\ f a = Ok b.
Proof. destruct m; simpl; eauto; discriminate. Qed.

Lemma bind_ok {S A B} (m : M S A) (f : A -> M S B) s b s' :
  bind m f s = (Ok b, s') ->
  exists a s1, m s = (Ok a, s1) /\ f a s1 = (Ok b, s').
Proof.
  unfold bind. destruct (m s) as [[a|e|p] s1] eqn:E; intros H; simplify_eq; eauto.
Qed.

Lemma bind_run {S A B} (m : M S A) (f : A -> M S B) s a s1 :
  m s = (Ok a, s1) -> bind m f s = f a s1.
Proof. unfold bind. by intros ->. Qed.

Lemma bind_gets {S A B} (g : S -> A) (f : A -> M S B) s : bind (gets g) f s = f (g s) s.
Proof. done. Qed.

Lemma bind_lift_ok {S A B} (r : res A) (f : A -> M S B) s b s' :
  bind (lift r) f s = (Ok b, s') -> exists a, r = Ok a /\ f a s = (Ok b, s').
Proof. unfold bind, lift. destruct r; intros; simplify_eq; eauto. Qed.

Lemma bind_panic {S A B} (m : M S A) (f : A -> M S B) s p s' :
  bind m f s = (Panic p, s') ->
  m s = (Panic p, s') \/ exists a s1, m s = (Ok a, s1) /\ f a s1 = (Panic p, s').
Proof.
  unfold bind. destruct (m s) as [[a|e|p'] s1] eqn:E; intros H; simplify_eq; eauto.
Qed.

Lemma zoom_ok {S T A} (get : S -> T) set (m : M T A) s a s' :
  zoom get set m s = (Ok a, s') ->
  exists t, m (get s) = (Ok a, t) /\ s' = set t s.
Proof. unfold zoom. destruct (m (get s)) as [r t]. intros. simplify_eq. eauto. Qed.

Lemma zoom_run {S T A} (get : S -> T) set (m : M T A) s r t :
  m (get s) = (r, t) -> zoom get set m s = (r, set t s).
Proof. unfold zoom. by intros ->. Qed.

Lemma zoom_panic {S T A} (get : S -> T) set (m : M T A) s p s' :
  zoom get set m s = (Panic p, s') -> exists t, m (get s) = (Panic p, t).
Proof. unfold zoom. destruct (m (get s)) as [r t]. intros. simplify_eq. eauto. Qed.

Lemma try_ok {S A} (m : M S A) s r s' :
  try m s = (Ok r, s') ->
  match r with
  | inl a => m s = (Ok a, s')
  | inr e => m s = (Err e, s')
  end.
Proof. unfold try. destruct (m s) as [[a|e|p] s1]; intros; by simplify_eq. Qed.

Lemma run_fst {S A} (m : M S A) s r : (m s).1 = r -> m s = (r, (m s).2).
Proof. destruct (m s). simpl. by intros ->. Qed.

(** [run_inv] opens the successful runs among the hypotheses: binds, tests on
    booleans, pure steps; [simplify_eq] solves the impossible branches. *)
Ltac run_inv_step :=
  match goal with
  | H : bind _ _ _ = (Ok _, _) |- _ =>
      apply bind_ok in H; destruct H as (? & ? & ? & H)
  | H : rbind _ _ = Ok _ |- _ => apply rbind_ok in H; destruct H as (? & ? & H)
  | H : ret _ _ = _ |- _ => unfold ret in H
  | H : lift _ _ = _ |- _ => unfold lift in H
  | H : gets _ _ = _ |- _ => unfold gets in H
  | H : modify _ _ = _ |- _ => unfold modify in H
  | H : panic _ _ = _ |- _ => unfold panic in H
  | H : fail _ _ _ = _ |- _ => unfold fail in H
  | H : throw _ _ = _ |- _ => unfold throw in H
  | H : (if ?b then _ else _) _ = (Ok _, _) |- _ => destruct b eqn:?
  | H : (if ?b then _ else _) = (Ok _, _) |- _ => destruct b eqn:?
  | H : (if ?b then _ else _) = Ok _ |- _ => destruct b eqn:?
  | H : (match ?o with Some _ => _ | None => _ end) _ = (Ok _, _) |- _ =>
      destruct o eqn:?
  | H : (match ?o with Some _ => _ | None => _ end) = Ok _ |- _ =>
      destruct o eqn:?
  end.
Ltac run_inv := repeat (run_inv_step; simplify_eq/=).

(** Boolean comparisons on [Z] into propositions, everywhere. *)
Ltac zbool :=
  repeat match goal with
  | H : andb _ _ = true |- _ => apply andb_true_iff in H; destruct H
  | H : orb _ _ = false |- _ => apply orb_false_iff in H; destruct H
  | H : negb _ = true |- _ => apply negb_true_iff in H
  | H : negb _ = false |- _ => apply negb_false_iff in H
  | H : (_ <? _) = true |- _ => apply Z.ltb_lt in H
  | H : (_ <? _) = false |- _ => apply Z.ltb_ge in H
  | H : (_ <=? _) = true |- _ => apply Z.leb_le in H
  | H : (_ <=? _) = false |- _ => apply Z.leb_gt in H
  | H : (_ =? _) = true |- _ => apply Z.eqb_eq in H
  | H : (_ =? _) = false |- _ => apply Z.eqb_neq in H
  | H : bool_decide _ = true |- _ => apply bool_decide_eq_true in H
  | H : bool_decide _ = false |- _ => apply bool_decide_eq_false in H
  end.

Lemma each_res_ok {A} (f : A -> res unit) l :
  each_res f l = Ok tt <-> Forall (fun x => f x = Ok tt) l.
Proof.
  induction l as [|x l IH]; simpl.
  - split; [constructor | done].
  - rewrite Forall_cons, <- IH. split.
    + intros H. run_inv. destruct x0. done.
    + intros [-> H]. done.
Qed.

(** * Machine integers *)

Definition max_uint64 : Z := 2 ^ 64 - 1.
Definition max_int64 : Z := 2 ^ 63 - 1.
Definition wrap64 (n : Z) : Z := n mod 2 ^ 64.
Definition wrap32 (n : Z) : Z := n mod 2 ^ 32.
(** [int64(n)] of a Go [uint64]. *)
Definition to_int64 (n : Z) : Z :=
  let m := wrap64 n in if m <? 2 ^ 63 then m else m - 2 ^ 64.
Definition to_int32 (n : Z) : Z := let m := n mod 2 ^ 32 in if m <? 2 ^ 31 then m else m - 2 ^ 32.
Definition is_uint64 (n : Z) : bool := (0 <=? n) && (n <=? max_uint64).
Definition is_int64 (n : Z) : bool := (- 2 ^ 63 <=? n) && (n <=? max_int64).

Lemma wrap64_small n : 0 <= n <= max_uint64 -> wrap64 n = n.
Proof. unfold wrap64, max_uint64. intros. apply Z.mod_small. lia. Qed.

Lemma wrap32_small n : 0 <= n < 2 ^ 32 -> wrap32 n = n.
Proof. unfold wrap32. intros. by apply Z.mod_small. Qed.

(** * Sums over finite maps *)

Section msum.
Context {K V : Type} `{Countable K}.
Implicit Types (m : gmap K V) (f : K -> V -> Z).

Definition msum f m : Z := map_fold (fun k v acc => f k v + acc) 0 m.

Definition mat f m k : Z := match m !! k with Some v => f k v | None => 0 end.

Lemma msum_empty f : msum f ∅ = 0.
Proof. apply map_fold_empty. Qed.

Lemma msum_insert_new f m k v :
  m !! k = None -> msum f (<[k:=v]> m) = f k v + msum f m.
Proof.
  intros Hk. unfold msum. rewrite map_fold_insert_L; [done| |done].
  intros. lia.
Qed.

Lemma msum_delete f m k : msum f (delete k m) = msum f m - mat f m k.
Proof.
  unfold mat. destruct (m !! k) as [v|] eqn:Hk.
  - rewrite <- (insert_id m k v) at 2 by done.
    rewrite <- insert_delete_eq.
    rewrite msum_insert_new by apply lookup_delete_eq. lia.
  - rewrite delete_id by done. lia.
Qed.

Lemma msum_insert f m k v :
  msum f (<[k:=v]> m) = msum f m - mat f m k + f k v.
Proof.
  rewrite <- insert_delete_eq, msum_insert_new by apply lookup_delete_eq.
  rewrite msum_delete. lia.
Qed.

Lemma msum_nonneg f m :
  (forall k v, m !! k = Some v -> 0 <= f k v) -> 0 <= msum f m.
Proof.
  induction m as [|k v m Hk IH] using map_ind; intros Hf.
  - by rewrite msum_empty.
  - rewrite msum_insert_new by done.
    assert (0 <= f k v) by (apply Hf; by simplify_map_eq).
    assert (0 <= msum f m); [|lia]. apply IH. intros k' v' Hk'. apply Hf.
    rewrite lookup_insert_ne; [done|]. intros ->. congruence.
Qed.

Lemma msum_ge f m k :
  (forall k v, m !! k = Some v -> 0 <= f k v) -> mat f m k <= msum f m.
Proof.
  intros Hf. assert (0 <= msum f (delete k m)) as Hd.
  { apply msum_nonneg. intros k' v' [_ Hk']%lookup_delete_Some. by apply Hf. }
  rewrite msum_delete in Hd. lia.
Qed.

Lemma msum_ge2 f m k1 k2 :
  k1 <> k2 -> (forall k v, m !! k = Some v -> 0 <= f k v) ->
  mat f m k1 + mat f m k2 <= msum f m.
Proof.
  intros Hne Hf. assert (mat f (delete k1 m) k2 <= msum f (delete k1 m)) as Hd.
  { apply msum_ge. intros k v [_ Hk]%lookup_delete_Some. by apply Hf. }
  rewrite msum_delete in Hd. unfold mat at 1 in Hd.
  rewrite lookup_delete_ne in Hd by done. unfold mat in *. lia.
Qed.
End msum.

Definition lsum (l : list Z) : Z := foldr Z.add 0 l.

Lemma lsum_perm l1 l2 : l1 ≡ₚ l2 -> lsum l1 = lsum l2.
Proof. induction 1; simpl in *; lia. Qed.

Lemma lsum_app l1 l2 : lsum (l1 ++ l2) = lsum l1 + lsum l2.
Proof. induction l1; simpl in *; lia. Qed.

(** A loop that appends one item per element. *)
Lemma foldl_snoc {A B} (f : A -> B) l acc :
  foldl (fun acc x => acc ++ [f x]) acc l = acc ++ map f l.
Proof.
  revert acc. induction l as [|x l IH]; intros acc; simpl; [by rewrite app_nil_r|].
  by rewrite IH, <- app_assoc.
Qed.

(** * Integer division, truncated as Go's [Quo] *)

Lemma quot_nonneg a b : 0 <= a -> 0 < b -> Z.quot a b = a / b.
Proof. intros. apply Z.quot_div_nonneg; lia. Qed.

Lemma div_mod_lt a b : 0 < b -> a = b * (a / b) + a mod b /\ 0 <= a mod b < b.
Proof. intros. split; [apply Z.div_mod; lia | by apply Z.mod_pos_bound]. Qed.

Create HintDb guru.
Create Rewrite HintDb guru_sums.
#[export] Hint Resolve msum_nonneg msum_ge wrap64_small wrap32_small : guru.
#[export] Hint Rewrite @msum_empty @msum_insert @msum_delete : guru_sums.
