(* ===== verification/KVStore.v ===== *)
(** The key-value store of a module: a finite map from byte keys, read with
    [Get], written with [Set] and [Delete], and iterated over a key prefix in
    ascending key order ([prefix.NewStore] and [KVStorePrefixIterator]).  Keys
    are byte strings built as the [types/keys.go] files build them, so two
    records collide exactly when their byte keys do.  The fixed-width
    big-endian encodings of [encoding/binary] are here too. *)
From S2P Require Import Prelude.

(** Bytes are integers in [0, 256). *)
Abbreviation bytes := (list Z) (only parsing).

(** A Go string as the bytes it holds. *)
Definition str_bytes (s : string) : bytes :=
  map (fun a => Z.of_nat (Ascii.nat_of_ascii a)) (String.list_ascii_of_string s).

Lemma str_bytes_inj s1 s2 : str_bytes s1 = str_bytes s2 -> s1 = s2.
Proof.
  intros H. rewrite <- (String.string_of_list_ascii_of_string s1),
    <- (String.string_of_list_ascii_of_string s2). f_equal.
  unfold str_bytes in H. revert H.
  generalize (String.list_ascii_of_string s1) as l1,
    (String.list_ascii_of_string s2) as l2.
  induction l1 as [|a l1 IH]; intros [|b l2]; simpl; intros H; try done.
  injection H as Hab Hl. f_equal; [|auto].
  rewrite <- (Ascii.ascii_nat_embedding a), <- (Ascii.ascii_nat_embedding b).
  f_equal. lia.
Qed.

(** * Big-endian encoding on a fixed number of bytes *)

Fixpoint be (w : nat) (n : Z) : bytes :=
  match w with
  | O => []
  | S w => be w (n / 256) ++ [n mod 256]
  end.

Fixpoint be_decode (acc : Z) (l : bytes) : Z :=
  match l with
  | [] => acc
  | b :: l => be_decode (acc * 256 + b) l
  end.

Lemma be_length w n : length (be w n) = w.
Proof. revert n. induction w; intros n; simpl; [done|]. rewrite length_app, IHw. simpl. lia. Qed.

Lemma be_decode_app acc l b : be_decode acc (l ++ [b]) = be_decode acc l * 256 + b.
Proof. revert acc. induction l; intros acc; simpl; [lia|]. by rewrite IHl. Qed.

Lemma be_roundtrip w n : 0 <= n < 256 ^ Z.of_nat w -> be_decode 0 (be w n) = n.
Proof.
  revert n. induction w as [|w IH]; intros n Hn.
  - simpl in *. lia.
  - cbn [be]. rewrite be_decode_app, IH.
    + pose proof (Z.div_mod n 256). lia.
    + rewrite Nat2Z.inj_succ, Z.pow_succ_r in Hn by lia. split.
      * apply Z.div_pos; lia.
      * apply Z.div_lt_upper_bound; lia.
Qed.

Lemma be_inj w n1 n2 :
  0 <= n1 < 256 ^ Z.of_nat w -> 0 <= n2 < 256 ^ Z.of_nat w ->
  be w n1 = be w n2 -> n1 = n2.
Proof. intros H1 H2 E. by rewrite <- (be_roundtrip w n1), E, be_roundtrip. Qed.

Definition is_bytes (l : bytes) : Prop := Forall (fun b => 0 <= b < 256) l.

Lemma be_bytes w n : is_bytes (be w n).
Proof.
  revert n. induction w as [|w IH]; intros n; simpl; [constructor|].
  apply Forall_app_2; [apply IH|]. repeat constructor; by apply Z.mod_pos_bound.
Qed.

(** [binary.BigEndian.PutUint64] and [Uint64]. *)
Definition be64 (n : Z) : bytes := be 8 n.
Definition be32 (n : Z) : bytes := be 4 n.
Definition be64_decode (l : bytes) : Z := be_decode 0 l.

Lemma be64_inj n1 n2 :
  0 <= n1 <= max_uint64 -> 0 <= n2 <= max_uint64 -> be64 n1 = be64 n2 -> n1 = n2.
Proof. unfold max_uint64. intros. apply (be_inj 8); simpl; lia || done. Qed.

Lemma be64_roundtrip n : 0 <= n <= max_uint64 -> be64_decode (be64 n) = n.
Proof. unfold max_uint64. intros. apply be_roundtrip. simpl. lia. Qed.

(** * Lexicographic order on keys *)

Fixpoint bytes_le (a b : bytes) : bool :=
  match a, b with
  | [], _ => true
  | _ :: _, [] => false
  | x :: a, y :: b => (x <? y) || ((x =? y) && bytes_le a b)
  end.

Lemma bytes_le_total a b : bytes_le a b = true \/ bytes_le b a = true.
Proof.
  revert b. induction a as [|x a IH]; intros [|y b]; simpl; auto.
  destruct (Z.ltb_spec x y), (Z.ltb_spec y x), (Z.eqb_spec x y), (Z.eqb_spec y x);
    simpl; auto; lia.
Qed.

Lemma bytes_le_trans a b c :
  bytes_le a b = true -> bytes_le b c = true -> bytes_le a c = true.
Proof.
  revert b c. induction a as [|x a IH]; intros [|y b] [|z c]; simpl; auto; try done.
  destruct (Z.ltb_spec x y), (Z.ltb_spec y z), (Z.eqb_spec x y), (Z.eqb_spec y z),
    (Z.ltb_spec x z), (Z.eqb_spec x z); simpl; intros; try done; try lia; eauto.
Qed.

Lemma bytes_le_antisym a b : bytes_le a b = true -> bytes_le b a = true -> a = b.
Proof.
  revert b. induction a as [|x a IH]; intros [|y b]; simpl; try done.
  destruct (Z.ltb_spec x y), (Z.ltb_spec y x), (Z.eqb_spec x y), (Z.eqb_spec y x);
    simpl; intros; try done; try lia. subst. f_equal. auto.
Qed.

Lemma bytes_le_app p a b : bytes_le (p ++ a) (p ++ b) = bytes_le a b.
Proof. induction p as [|x p IH]; simpl; [done|]. by rewrite Z.ltb_irrefl, Z.eqb_refl. Qed.

Lemma bytes_le_snoc a b x y :
  length a = length b ->
  bytes_le (a ++ [x]) (b ++ [y]) =
    (bytes_le a b && negb (bool_decide (a = b))) || (bool_decide (a = b) && (x <=? y)).
Proof.
  revert b. induction a as [|u a IH]; intros [|v b] Hl; simpl in *; try done.
  - destruct (Z.ltb_spec x y), (Z.eqb_spec x y), (Z.leb_spec x y); simpl; lia || done.
  - injection Hl as Hl. rewrite IH by done.
    destruct (Z.ltb_spec u v), (Z.eqb_spec u v); simpl; try lia; subst;
      repeat case_bool_decide; simplify_eq/=; rewrite ?andb_true_r, ?orb_false_r; try done.
Qed.

(** The encoding keeps the order, so a prefix iterator visits the records keyed
    by a [uint64] in increasing numerical order. *)
Lemma be_le w n1 n2 :
  0 <= n1 < 256 ^ Z.of_nat w -> 0 <= n2 < 256 ^ Z.of_nat w ->
  bytes_le (be w n1) (be w n2) = (n1 <=? n2).
Proof.
  revert n1 n2. induction w as [|w IH]; intros n1 n2 H1 H2.
  - simpl in *. symmetry. apply Z.leb_le. lia.
  - rewrite Nat2Z.inj_succ, Z.pow_succ_r in H1, H2 by lia.
    assert (forall n, 0 <= n < 256 * 256 ^ Z.of_nat w ->
      0 <= n / 256 < 256 ^ Z.of_nat w) as Hd.
    { intros n Hn. split; [apply Z.div_pos; lia | apply Z.div_lt_upper_bound; lia]. }
    cbn [be]. rewrite bytes_le_snoc by by rewrite !be_length.
    rewrite IH by auto.
    pose proof (Z.div_mod n1 256). pose proof (Z.div_mod n2 256).
    pose proof (Z.mod_pos_bound n1 256). pose proof (Z.mod_pos_bound n2 256).
    case_bool_decide as Hb; simpl.
    + apply be_inj in Hb; auto. rewrite andb_false_r. simpl.
      destruct (Z.leb_spec (n1 mod 256) (n2 mod 256)), (Z.leb_spec n1 n2); lia || done.
    + assert (n1 / 256 <> n2 / 256) by congruence. rewrite andb_true_r, orb_false_r.
      destruct (Z.leb_spec (n1 / 256) (n2 / 256)), (Z.leb_spec n1 n2); lia || done.
Qed.

(** [strings.ToLower] on ASCII text. *)
Definition ascii_lower (a : Ascii.ascii) : Ascii.ascii :=
  let n := Ascii.nat_of_ascii a in
  if (65 <=? n)%nat && (n <=? 90)%nat then Ascii.ascii_of_nat (n + 32) else a.
Definition to_lower (s : string) : string :=
  String.string_of_list_ascii (map ascii_lower (String.list_ascii_of_string s)).

(** * Prefix iteration *)

Fixpoint is_prefix (p k : bytes) : bool :=
  match p, k with
  | [], _ => true
  | _ :: _, [] => false
  | x :: p, y :: k => (x =? y) && is_prefix p k
  end.

Lemma is_prefix_spec p k : is_prefix p k = true <-> exists t, k = p ++ t.
Proof.
  revert k. induction p as [|x p IH]; intros [|y k]; simpl.
  - naive_solver.
  - naive_solver.
  - split; [done|]. intros (t & Ht). done.
  - rewrite andb_true_iff, Z.eqb_eq, IH. naive_solver.
Qed.

Lemma is_prefix_app p t : is_prefix p (p ++ t) = true.
Proof. apply is_prefix_spec. eauto. Qed.

Section store.
Context {V : Type}.
Implicit Types (m : gmap bytes V) (p k : bytes).

Definition key_le (a b : bytes * V) : Prop := bytes_le a.1 b.1 = true.
#[global] Instance key_le_dec a b : Decision (key_le a b).
Proof. unfold key_le. apply _. Defined.
#[global] Instance key_le_total : Total key_le.
Proof. intros a b. apply bytes_le_total. Qed.
#[global] Instance key_le_trans : Transitive key_le.
Proof. intros a b c. apply bytes_le_trans. Qed.

(** The pairs an iterator over prefix [p] yields, in order. *)
Definition iterate (p : bytes) m : list (bytes * V) :=
  merge_sort key_le (filter (fun kv => is_prefix p kv.1 = true) (map_to_list m)).

Lemma iterate_perm p m :
  iterate p m ≡ₚ filter (fun kv => is_prefix p kv.1 = true) (map_to_list m).
Proof. apply merge_sort_Permutation. Qed.

Lemma elem_of_iterate p m k v :
  (k, v) ∈ iterate p m <-> m !! k = Some v /\ is_prefix p k = true.
Proof.
  rewrite iterate_perm, list_elem_of_filter, elem_of_map_to_list. naive_solver.
Qed.

Lemma iterate_sorted p m : StronglySorted key_le (iterate p m).
Proof. apply StronglySorted_merge_sort; apply _. Qed.

Lemma iterate_NoDup p m : NoDup (iterate p m).*1.
Proof.
  rewrite iterate_perm. apply NoDup_fmap_fst.
  - intros k v1 v2 H1 H2. apply list_elem_of_filter in H1 as [_ H1].
    apply list_elem_of_filter in H2 as [_ H2].
    apply elem_of_map_to_list in H1, H2. congruence.
  - apply NoDup_filter, NoDup_map_to_list.
Qed.

(** Two stores that agree on a prefix are iterated alike. *)
Lemma iterate_ext p m1 m2 :
  (forall k, is_prefix p k = true -> m1 !! k = m2 !! k) ->
  iterate p m1 = iterate p m2.
Proof.
  intros Heq. apply (StronglySorted_unique_strong key_le);
    [|apply iterate_sorted|apply iterate_sorted|].
  - intros [k1 v1] [k2 v2] H1 H2 Hle1 Hle2. unfold key_le in *. simpl in *.
    assert (k1 = k2) as -> by by apply bytes_le_antisym.
    apply elem_of_iterate in H1 as [H1 Hp], H2 as [H2 _].
    rewrite Heq in H1 by done. congruence.
  - apply NoDup_Permutation.
    + apply (NoDup_fmap_1 fst), iterate_NoDup.
    + apply (NoDup_fmap_1 fst), iterate_NoDup.
    + intros [k v]. rewrite !elem_of_iterate. split; intros [? Hp]; split; try done.
      * by rewrite <- Heq.
      * by rewrite Heq.
Qed.

Lemma iterate_nil p m :
  (forall k, is_prefix p k = true -> m !! k = None) -> iterate p m = [].
Proof.
  intros Hn. rewrite (iterate_ext p m ∅); [done|]. intros k Hk.
  by rewrite lookup_empty, Hn.
Qed.

(** Summing the values of a prefix: what an iterator loop with an
    accumulator computes, as a sum over the map. *)
Definition prefix_weight (p : bytes) (f : V -> Z) (k : bytes) (v : V) : Z :=
  if is_prefix p k then f v else 0.

Lemma iterate_sum p (f : V -> Z) m :
  lsum (map (fun kv => f kv.2) (iterate p m)) = msum (prefix_weight p f) m.
Proof.
  rewrite (lsum_perm _ (map (fun kv => f kv.2)
    (filter (fun kv => is_prefix p kv.1 = true) (map_to_list m))))
    by by rewrite iterate_perm.
  induction m as [|k v m Hk IH] using map_ind.
  - by rewrite map_to_list_empty.
  - rewrite msum_insert_new by done. rewrite <- IH.
    transitivity (lsum (map (fun kv => f kv.2)
      (filter (fun kv => is_prefix p kv.1 = true) ((k, v) :: map_to_list m)))).
    + apply lsum_perm. by rewrite map_to_list_insert.
    + rewrite filter_cons. unfold prefix_weight. simpl.
      destruct (is_prefix p k); [rewrite decide_True by done|rewrite decide_False by done];
        simpl; lia.
Qed.

(** Writing a list of records with distinct keys, one after the other. *)
Definition put_list (m : gmap bytes V) (l : list (bytes * V)) : gmap bytes V :=
  foldl (fun m kv => <[kv.1 := kv.2]> m) m l.

Lemma put_list_lookup l m k :
  NoDup l.*1 ->
  put_list m l !! k = match list_find (fun kv => kv.1 = k) l with
                      | Some (_, kv) => Some kv.2
                      | None => m !! k
                      end.
Proof.
  unfold put_list. revert m. induction l as [|[k0 v0] l IH]; intros m Hnd; [done|].
  apply NoDup_cons in Hnd as [Hn Hnd]. simpl. rewrite IH by done. case_decide as Hk.
  - subst k0. rewrite lookup_insert_eq. destruct (list_find _ l) as [[i kv]|] eqn:E; [|done].
    exfalso. apply Hn. apply list_find_Some in E as (Hi & <- & _).
    apply list_elem_of_fmap. exists kv. split; [done|]. by eapply list_elem_of_lookup_2.
  - destruct (list_find _ l) as [[i kv]|]; simpl; [done|]. by rewrite lookup_insert_ne.
Qed.

(** The records an iteration yields rebuild the store when every key has the
    prefix. *)
Lemma put_list_iterate_prefix p m :
  (forall k v, m !! k = Some v -> is_prefix p k = true) -> put_list ∅ (iterate p m) = m.
Proof.
  intros Hp. apply map_eq. intros k. rewrite put_list_lookup by apply iterate_NoDup.
  destruct (list_find _ _) as [[i [k' v]]|] eqn:E.
  - apply list_find_Some in E as (Hi & <- & _). symmetry.
    eapply list_elem_of_lookup_2, elem_of_iterate in Hi as [Hi _]. exact Hi.
  - rewrite lookup_empty. destruct (m !! k) as [v|] eqn:Hk; [|done]. exfalso.
    eapply list_find_None, Forall_forall in E; [|by apply elem_of_iterate; eauto]. done.
Qed.

Lemma put_list_iterate m : put_list ∅ (iterate [] m) = m.
Proof. by apply put_list_iterate_prefix. Qed.
End store.
