(* ===== verification/Sdk.v ===== *)
(** What the modelled modules use of the Cosmos SDK, whose sources are not in
    this repository: the integer and decimal types as their representation,
    and every service ([sdk.Coins], bech32 addresses, the x/bank and x/auth
    keepers, the rounding of [LegacyDec]) as a class of operations with a
    second class of the documented laws the modules rely on.  [BankModel]
    gives instances of all of them, so no law is vacuous. *)
From S2P Require Import Prelude KVStore.

(** * sdkmath.Int: integers of at most 256 bits, panicking beyond *)

Definition int_fits (z : Z) : bool := Z.abs z <? 2 ^ 256.
Definition int_chk (z : Z) : res Z :=
  if int_fits z then Ok z else Panic "Int overflow".
Definition int_add (a b : Z) : res Z := int_chk (a + b).
Definition int_sub (a b : Z) : res Z := int_chk (a - b).
Definition int_mul (a b : Z) : res Z := int_chk (a * b).
Definition int_quo (a b : Z) : res Z :=
  if b =? 0 then Panic "division by zero" else int_chk (Z.quot a b).
(** [Mod] is [big.Int.Mod], the Euclidean remainder. *)
Definition int_mod (a b : Z) : res Z :=
  if b =? 0 then Panic "division by zero" else Ok (a mod (Z.abs b)).

Lemma int_chk_ok z r : int_chk z = Ok r -> r = z.
Proof. unfold int_chk. case_match; congruence. Qed.

Lemma int_chk_fits z : Z.abs z < 2 ^ 256 -> int_chk z = Ok z.
Proof. unfold int_chk, int_fits. by intros ->%Z.ltb_lt. Qed.

Lemma int_add_ok a b r : int_add a b = Ok r -> r = a + b.
Proof. apply int_chk_ok. Qed.
Lemma int_sub_ok a b r : int_sub a b = Ok r -> r = a - b.
Proof. apply int_chk_ok. Qed.
Lemma int_mul_ok a b r : int_mul a b = Ok r -> r = a * b.
Proof. apply int_chk_ok. Qed.
Lemma int_quo_ok a b r : int_quo a b = Ok r -> r = Z.quot a b.
Proof. unfold int_quo. case_match; [done|]. apply int_chk_ok. Qed.
Lemma int_mod_ok a b r : int_mod a b = Ok r -> b <> 0 /\ r = a mod (Z.abs b).
Proof. unfold int_mod. destruct (Z.eqb_spec b 0); [done|]. intros. by simplify_eq. Qed.

(** Replace successful integer operations by the equations they establish. *)
Ltac int_inv :=
  repeat match goal with
  | H : int_add _ _ = Ok _ |- _ => apply int_add_ok in H; subst
  | H : int_sub _ _ = Ok _ |- _ => apply int_sub_ok in H; subst
  | H : int_mul _ _ = Ok _ |- _ => apply int_mul_ok in H; subst
  | H : int_quo _ _ = Ok _ |- _ => apply int_quo_ok in H; subst
  | H : int_mod _ _ = Ok _ |- _ => apply int_mod_ok in H; destruct H as [? ->]
  | H : int_chk _ = Ok _ |- _ => apply int_chk_ok in H; subst
  end.

(** * sdkmath.LegacyDec: 18 decimals, held as the scaled integer

    A [LegacyDec] holds a pointer; the zero value of the struct is nil, which
    [IsNil] tests and which every other method dereferences: [None] here. *)

Abbreviation dec := (option Z) (only parsing).
Definition dec_one : Z := 10 ^ 18.

Definition dec_val (d : dec) : res Z :=
  match d with Some z => Ok z | None => Panic "nil LegacyDec" end.
Definition dec_of_int (n : Z) : Z := n * dec_one.
Definition dec_trunc_int (d : Z) : res Z := int_chk (Z.quot d dec_one).
(** [Ceil().RoundInt()] *)
Definition dec_ceil_int (d : Z) : res Z :=
  int_chk (- ((- d) / dec_one)).

Class DecLib := {
  dec_fits : Z -> bool;
  dec_mul : Z -> Z -> res Z;
  dec_quo : Z -> Z -> res Z;
  (** [LegacyNewDecFromStr]; [None] when it returns an error. *)
  dec_of_str : string -> option Z;
  (** What reading back a stored [LegacyDec] gives. *)
  dec_stored : dec -> dec;
}.

Class DecLaws `{DecLib} := {
  dec_fits_256 : forall z, Z.abs z < 2 ^ 256 -> dec_fits z = true;
  dec_mul_round : forall a b r,
    dec_mul a b = Ok r -> 2 * Z.abs (r * dec_one - a * b) <= dec_one;
  dec_mul_total : forall a b,
    Z.abs (a * b) < dec_one * 2 ^ 255 -> is_ok (dec_mul a b) = true;
  dec_quo_round : forall a b r,
    dec_quo a b = Ok r ->
    b <> 0 /\ 2 * dec_one * Z.abs (r * b - a * dec_one) <= (dec_one + 2) * Z.abs b;
  dec_quo_total : forall a b,
    b <> 0 -> Z.abs a * dec_one < 2 ^ 255 -> is_ok (dec_quo a b) = true;
  dec_stored_some : forall z, dec_stored (Some z) = Some z;
}.

Lemma dec_quo_near `{DecLaws} a b r :
  dec_quo a b = Ok r -> b <> 0 /\ Z.abs (r * b - a * dec_one) <= Z.abs b.
Proof.
  intros [Hb Hr]%dec_quo_round. split; [done|]. assert (2 < dec_one) by done. nia.
Qed.

Section dec_ops.
Context `{DecLib}.
Definition dec_chk (z : Z) : res Z :=
  if dec_fits z then Ok z else Panic "Int overflow".
Definition dec_add (a b : Z) : res Z := dec_chk (a + b).
Definition dec_sub (a b : Z) : res Z := dec_chk (a - b).
Definition dec_mul_int (a n : Z) : res Z := dec_chk (a * n).
Definition dec_quo_int (a n : Z) : res Z :=
  if n =? 0 then Panic "division by zero" else Ok (Z.quot a n).

Lemma dec_chk_ok z r : dec_chk z = Ok r -> r = z.
Proof. unfold dec_chk. case_match; congruence. Qed.
Lemma dec_quo_int_ok a n r : dec_quo_int a n = Ok r -> n <> 0 /\ r = Z.quot a n.
Proof. unfold dec_quo_int. destruct (Z.eqb_spec n 0); [done|]. intros. by simplify_eq. Qed.
End dec_ops.

Lemma dec_chk_256 `{DecLaws} z : Z.abs z < 2 ^ 256 -> dec_chk z = Ok z.
Proof. intros. unfold dec_chk. by rewrite dec_fits_256. Qed.

(** The product of an integer and a decimal is exact. *)
Lemma dec_mul_of_int `{DecLaws} n d r : dec_mul (dec_of_int n) d = Ok r -> r = n * d.
Proof.
  intros Hr%dec_mul_round. unfold dec_of_int in Hr. assert (0 < dec_one) by done.
  replace (r * dec_one - n * dec_one * d) with ((r - n * d) * dec_one) in Hr by ring.
  rewrite Z.abs_mul, (Z.abs_eq dec_one) in Hr by lia. nia.
Qed.

Lemma dec_mul_int_run `{DecLaws} n d :
  Z.abs (n * d) < 2 ^ 255 -> dec_mul (dec_of_int n) d = Ok (n * d).
Proof.
  intros Hlt. assert (Z.abs (dec_of_int n * d) < dec_one * 2 ^ 255) as Ht.
  { unfold dec_of_int. replace (n * dec_one * d) with (dec_one * (n * d)) by ring.
    rewrite Z.abs_mul, (Z.abs_eq dec_one) by done. by apply Z.mul_lt_mono_pos_l. }
  apply dec_mul_total in Ht. destruct (dec_mul (dec_of_int n) d) as [r| |] eqn:Hr; [|discriminate Ht..].
  by apply dec_mul_of_int in Hr as ->.
Qed.

Ltac dec_inv :=
  repeat match goal with
  | H : dec_add _ _ = Ok _ |- _ => apply dec_chk_ok in H; subst
  | H : dec_sub _ _ = Ok _ |- _ => apply dec_chk_ok in H; subst
  | H : dec_mul_int _ _ = Ok _ |- _ => apply dec_chk_ok in H; subst
  | H : dec_quo_int _ _ = Ok _ |- _ => apply dec_quo_int_ok in H; destruct H as [? ->]
  | H : dec_trunc_int _ = Ok _ |- _ => apply int_chk_ok in H; subst
  | H : dec_ceil_int _ = Ok _ |- _ => apply int_chk_ok in H; subst
  end.

(** * Addresses *)

(** [sdk.AccAddress] is a byte slice; [Empty] is length zero. *)
Abbreviation addr := (list Z) (only parsing).

Class AddressCodec := {
  (** [sdk.AccAddressFromBech32]; [None] when it returns an error. *)
  acc_of_bech32 : string -> option addr;
  (** [AccAddress.String] *)
  bech32_of : addr -> string;
}.

Class AddressLaws `{AddressCodec} := {
  bech32_roundtrip : forall a, a <> [] ->
    Forall (fun z => 0 <= z < 256) a -> acc_of_bech32 (bech32_of a) = Some a;
  acc_of_bech32_nonempty : forall s a, acc_of_bech32 s = Some a -> a <> [];
  (** An address has one encoding, up to the case of the whole text. *)
  bech32_canonical : forall s a, acc_of_bech32 s = Some a -> to_lower s = bech32_of a;
  bech32_bytes : forall s a, acc_of_bech32 s = Some a -> Forall (fun z => 0 <= z < 256) a;
}.

(** * sdk.Coin and sdk.Coins *)

Record coin := Coin { c_denom : string; c_amt : Z }.
Abbreviation coins := (list coin) (only parsing).

Class CoinsLib := {
  denom_ok : string -> bool;                 (** [sdk.ValidateDenom] *)
  coins_valid : coins -> bool;               (** [Coins.IsValid] *)
  (** What [Add] and [Sub] expect: sorted denoms, no amount below zero (zero
      amounts, which [IsValid] rejects, are accepted and dropped). *)
  coins_wf : coins -> bool;
  amount_of : coins -> string -> Z;          (** [Coins.AmountOf] *)
  coins_add : coins -> coins -> res coins;   (** [Coins.Add] *)
  coins_sub : coins -> coins -> res coins;   (** [Coins.Sub], panics below zero *)
  new_coins : coins -> res coins;            (** [sdk.NewCoins] *)
  coins_any_gte : coins -> coins -> bool;    (** [Coins.IsAnyGTE] *)
}.

(** [sdk.NewCoin] validates: an invalid denom or a negative amount panics. *)
Definition new_coin `{CoinsLib} (d : string) (a : Z) : res coin :=
  if denom_ok d && (0 <=? a) then Ok (Coin d a) else Panic "invalid coin".
Definition coins_is_zero (cs : coins) : bool := forallb (fun c => c_amt c =? 0) cs.
Definition coins_empty (cs : coins) : bool := match cs with [] => true | _ => false end.
Definition coins_all_positive (cs : coins) : bool :=
  negb (coins_empty cs) && forallb (fun c => 0 <? c_amt c) cs.

Class CoinsLaws `{CoinsLib} := {
  amount_of_nil : forall d, amount_of [] d = 0;
  amount_of_one : forall d a d',
    amount_of [Coin d a] d' = if decide (d = d') then a else 0;
  valid_nil : coins_valid [] = true;
  valid_one : forall d a, denom_ok d = true -> 0 < a -> coins_valid [Coin d a] = true;
  valid_nonneg : forall cs d, coins_valid cs = true -> 0 <= amount_of cs d;
  valid_positive : forall cs, coins_valid cs = true -> Forall (fun c => 0 < c_amt c) cs;
  valid_wf : forall cs, coins_valid cs = true -> coins_wf cs = true;
  wf_one : forall d a, denom_ok d = true -> 0 <= a -> coins_wf [Coin d a] = true;
  wf_nonneg : forall cs d, coins_wf cs = true -> 0 <= amount_of cs d;
  coins_add_law : forall cs ds, coins_wf cs = true -> coins_wf ds = true ->
    exists r, coins_add cs ds = Ok r /\ coins_valid r = true /\
      forall d, amount_of r d = amount_of cs d + amount_of ds d;
  coins_sub_law : forall cs ds, coins_wf cs = true -> coins_wf ds = true ->
    (forall d, amount_of ds d <= amount_of cs d) ->
    exists r, coins_sub cs ds = Ok r /\ coins_valid r = true /\
      forall d, amount_of r d = amount_of cs d - amount_of ds d;
  coins_sub_inv : forall cs ds r, coins_wf cs = true -> coins_wf ds = true ->
    coins_sub cs ds = Ok r -> forall d, amount_of ds d <= amount_of cs d;
  (** Valid coins of one denom are one coin, or none. *)
  coins_single : forall cs d, coins_valid cs = true ->
    (forall d', d' <> d -> amount_of cs d' = 0) ->
    cs = if amount_of cs d =? 0 then [] else [Coin d (amount_of cs d)];
  new_coins_one : forall d a, denom_ok d = true -> 0 <= a ->
    new_coins [Coin d a] = Ok (if a =? 0 then [] else [Coin d a]);
}.

Lemma new_coin_ok `{CoinsLib} d a c :
  new_coin d a = Ok c -> c = Coin d a /\ denom_ok d = true /\ 0 <= a.
Proof.
  unfold new_coin. destruct (denom_ok d) eqn:?; simpl; [|done].
  destruct (Z.leb_spec 0 a); intros; by simplify_eq.
Qed.

Lemma new_coin_run `{CoinsLib} d a :
  denom_ok d = true -> 0 <= a -> new_coin d a = Ok (Coin d a).
Proof. unfold new_coin. intros ->. destruct (Z.leb_spec 0 a); simpl; done || lia. Qed.

(** * Events: the attribute values before they are formatted *)

Inductive attr :=
  | AStr (s : string) | AInt (n : Z) | ACoins (cs : coins) | AAddr (a : addr)
  | ADec (d : dec).
Record event := Event { ev_type : string; ev_attrs : list (string * attr) }.

(** * x/auth and x/bank keepers *)

Class AccountKeeper := {
  (** [GetModuleAddress]: nil for an unregistered module. *)
  ak_module_address : string -> option addr;
  (** [GetModuleAccount]: the address and the permissions of the account. *)
  ak_module_account : string -> option (addr * list string);
}.

Class BankKeeper `{CoinsLib} := {
  BankState : Type;
  bk_balance : BankState -> addr -> string -> Z;
  bk_spendable : BankState -> addr -> string -> Z;
  bk_locked : BankState -> addr -> string -> Z;
  bk_supply : BankState -> string -> Z;
  bk_blocked : addr -> bool;
  bk_send_enabled : BankState -> coin -> bool;
  (** the send restriction function of the keeper rejects the pair *)
  bk_restricted : addr -> addr -> bool;
  bk_SendCoins : addr -> addr -> coins -> M BankState unit;
  bk_SendCoinsFromAccountToModule : addr -> string -> coins -> M BankState unit;
  bk_SendCoinsFromModuleToModule : string -> string -> coins -> M BankState unit;
  bk_SendCoinsFromModuleToAccount : string -> addr -> coins -> M BankState unit;
  bk_MintCoins : string -> coins -> M BankState unit;
  bk_BurnCoins : string -> coins -> M BankState unit;
}.

Section bank_laws.
Context `{CoinsLib, !BankKeeper, !AccountKeeper}.

(** The balances after [cs] left [from] and reached [to]. *)
Definition moved (b b' : BankState) (from to : addr) (cs : coins) : Prop :=
  forall a d, bk_balance b' a d = bk_balance b a d
    - (if decide (a = from) then amount_of cs d else 0)
    + (if decide (a = to) then amount_of cs d else 0).

(** [n] times [cs] was added to the account [a0] and to the supply. *)
Definition issued (b b' : BankState) (n : Z) (a0 : addr) (cs : coins) : Prop :=
  (forall a d, bk_balance b' a d = bk_balance b a d
    + (if decide (a = a0) then n * amount_of cs d else 0)) /\
  (forall d, bk_supply b' d = bk_supply b d + n * amount_of cs d).

Definition same_locks (b b' : BankState) : Prop :=
  forall a d, bk_locked b' a d = bk_locked b a d.

Class BankLaws := {
  bank_nonneg : forall b a d, 0 <= bk_balance b a d;
  bank_locked_nonneg : forall b a d, 0 <= bk_locked b a d;
  bank_spendable : forall b a d,
    bk_spendable b a d = Z.max 0 (bk_balance b a d - bk_locked b a d);
  bank_send_ok : forall f t cs b b',
    bk_SendCoins f t cs b = (Ok tt, b') ->
    moved b b' f t cs /\ same_locks b b' /\
    (forall d, bk_supply b' d = bk_supply b d) /\
    (forall d, amount_of cs d <= bk_spendable b f d);
  bank_send_run : forall f t cs b,
    coins_valid cs = true -> bk_restricted f t = false ->
    (forall d, amount_of cs d <= bk_spendable b f d) ->
    exists b', bk_SendCoins f t cs b = (Ok tt, b');
  bank_send_short : forall f t cs b d,
    coins_valid cs = true -> bk_restricted f t = false ->
    bk_spendable b f d < amount_of cs d ->
    exists e b', bk_SendCoins f t cs b = (Err e, b') /\
      e_kind e = ErrInsufficientFunds /\
      (forall a d', bk_balance b' a d' <= bk_balance b a d') /\ same_locks b b';
  bank_send_to_module : forall f m a cs,
    ak_module_address m = Some a ->
    bk_SendCoinsFromAccountToModule f m cs = bk_SendCoins f a cs;
  bank_send_modules : forall m1 m2 a1 a2 cs,
    ak_module_address m1 = Some a1 -> ak_module_address m2 = Some a2 ->
    bk_SendCoinsFromModuleToModule m1 m2 cs = bk_SendCoins a1 a2 cs;
  bank_mint_ok : forall m a cs b b',
    ak_module_address m = Some a ->
    bk_MintCoins m cs b = (Ok tt, b') -> issued b b' 1 a cs /\ same_locks b b';
  bank_mint_run : forall m a ps cs b,
    ak_module_account m = Some (a, ps) -> "minter" ∈ ps ->
    coins_valid cs = true ->
    (forall d, bk_supply b d + amount_of cs d < 2 ^ 256) ->
    exists b', bk_MintCoins m cs b = (Ok tt, b');
  bank_burn_ok : forall m a cs b b',
    ak_module_address m = Some a ->
    bk_BurnCoins m cs b = (Ok tt, b') ->
    issued b b' (-1) a cs /\ same_locks b b' /\
    (forall d, amount_of cs d <= bk_spendable b a d);
  bank_burn_run : forall m a ps cs b,
    ak_module_account m = Some (a, ps) -> "burner" ∈ ps ->
    coins_valid cs = true ->
    (forall d, amount_of cs d <= bk_spendable b a d) ->
    exists b', bk_BurnCoins m cs b = (Ok tt, b');
  auth_module_account : forall m a ps,
    ak_module_account m = Some (a, ps) -> ak_module_address m = Some a;
}.
End bank_laws.
