(* ===== verification/EvmConfig.v ===== *)
(** The EVM coin configuration (x/vm/types: [denom.go], [denom_config.go],
    [scaling.go]): the decimals of the coin, the conversion factor to 18
    decimals, the write-once global [evmCoinInfo] and the conversions between
    the coin's own decimals and 18. *)
From S2P Require Import Prelude KVStore Sdk.

Record EvmCoinInfo := mkEvmCoinInfo {
  Denom : string;
  ExtendedDenom : string;
  DisplayDenom : string;
  Decimals : Z;
}.

Definition EighteenDecimals : Z := 18.

(** The literal map; a missing key reads as the zero value of [math.Int],
    whose pointer is nil. *)
Definition ConversionFactorMap : gmap Z Z :=
  list_to_map [
    (1, 100000000000000000); (2, 10000000000000000); (3, 1000000000000000);
    (4, 100000000000000); (5, 10000000000000); (6, 1000000000000);
    (7, 100000000000); (8, 10000000000); (9, 1000000000);
    (10, 100000000); (11, 10000000); (12, 1000000);
    (13, 100000); (14, 10000); (15, 1000);
    (16, 100); (17, 10); (18, 1)].

Definition Decimals_Validate (d : Z) : res unit :=
  if (0 <? d) && (d <=? EighteenDecimals) then Ok tt
  else Err (Error ErrOther "received unsupported decimals").

Definition Decimals_ConversionFactor (d : Z) : option Z := ConversionFactorMap !! d.

Section config.
Context `{CoinsLib}.

Definition CoinInfoState : Type := option EvmCoinInfo.

(** The setters dereference the global, which [setEVMCoinInfo] allocates. *)
Definition on_info (f : EvmCoinInfo -> EvmCoinInfo) : M CoinInfoState unit := fun s =>
  match s with
  | Some i => (Ok tt, Some (f i))
  | None => (Panic "nil evmCoinInfo", s)
  end.

Definition setEVMCoinDecimals (d : Z) : M CoinInfoState unit :=
  do! lift (Decimals_Validate d);
  on_info (fun i => mkEvmCoinInfo (Denom i) (ExtendedDenom i) (DisplayDenom i) d).

Definition setEVMCoinDenom (denom : string) : M CoinInfoState unit :=
  if denom_ok denom
  then on_info (fun i => mkEvmCoinInfo denom (ExtendedDenom i) (DisplayDenom i) (Decimals i))
  else fail ErrOther "setting EVM coin denom".

Definition setEVMCoinExtendedDenom (denom : string) : M CoinInfoState unit :=
  if denom_ok denom
  then on_info (fun i => mkEvmCoinInfo (Denom i) denom (DisplayDenom i) (Decimals i))
  else fail ErrOther "invalid denom".

(** Note that the global is allocated before the fields are validated, and
    that [DisplayDenom] is not copied. *)
Definition setEVMCoinInfo (eci : EvmCoinInfo) : M CoinInfoState unit :=
  let! cur := gets id in
  match cur with
  | Some _ => fail ErrOther "EVM coin info already set"
  | None =>
      if (Decimals eci =? EighteenDecimals)
         && negb (bool_decide (Denom eci = ExtendedDenom eci))
      then fail ErrOther "denom and extended denom must be the same for 18 decimals"
      else
        do! modify (fun _ => Some (mkEvmCoinInfo EmptyString EmptyString EmptyString 0));
        do! setEVMCoinDenom (Denom eci);
        do! setEVMCoinExtendedDenom (ExtendedDenom eci);
        setEVMCoinDecimals (Decimals eci)
  end.

(** A configuration the application can run with. *)
Definition info_valid (i : EvmCoinInfo) : Prop :=
  1 <= Decimals i <= 18 /\ denom_ok (Denom i) = true /\
  denom_ok (ExtendedDenom i) = true /\
  (Decimals i = 18 -> Denom i = ExtendedDenom i).

Lemma setEVMCoinInfo_run eci s' :
  setEVMCoinInfo eci None = (Ok tt, s') ->
  info_valid eci /\
  s' = Some (mkEvmCoinInfo (Denom eci) (ExtendedDenom eci) EmptyString (Decimals eci)).
Proof.
  unfold setEVMCoinInfo, setEVMCoinDenom, setEVMCoinExtendedDenom,
    setEVMCoinDecimals, Decimals_Validate, EighteenDecimals.
  intros Hrun. run_inv. unfold on_info in *. simplify_eq/=. zbool.
  split; [|done]. repeat split; try done; try lia.
  intros E. rewrite E in *. simpl in *. zbool. done.
Qed.
End config.

Section scaling.
Context `{DecLib}.
Variable info : EvmCoinInfo.

(** The factor the running node uses; a nil [Int] is never seen once the
    configuration passed [setEVMCoinInfo] ([factor_valid]). *)
Definition ConversionFactor : Z :=
  match Decimals_ConversionFactor (Decimals info) with Some f => f | None => 0 end.

Definition ConvertAmountTo18DecimalsLegacy (amt : Z) : res Z :=
  dec_mul_int amt ConversionFactor.

Definition ConvertAmountTo18DecimalsBigInt (amt : Z) : Z := amt * ConversionFactor.

(** [uint256] multiplication wraps. *)
Definition ConvertAmountTo18Decimals256Int (amt : Z) : Z :=
  (amt * ConversionFactor) mod 2 ^ 256.

Definition ConvertBigIntFrom18DecimalsToLegacyDec (amt : Z) : res Z :=
  dec_quo_int (dec_of_int amt) ConversionFactor.

Definition ConvertEvmCoinDenomToExtendedDenom (c : coin) : res coin :=
  if bool_decide (c_denom c = Denom info)
  then Ok (Coin (ExtendedDenom info) (c_amt c))
  else Err (Error ErrOther "expected coin denom").
End scaling.

(** Lookup of the eighteen entries by computation. *)
Lemma factor_pow d : 1 <= d <= 18 -> Decimals_ConversionFactor d = Some (10 ^ (18 - d)).
Proof.
  intros Hd. assert (d = 1 \/ d = 2 \/ d = 3 \/ d = 4 \/ d = 5 \/ d = 6 \/ d = 7 \/ d = 8 \/
    d = 9 \/ d = 10 \/ d = 11 \/ d = 12 \/ d = 13 \/ d = 14 \/ d = 15 \/ d = 16 \/
    d = 17 \/ d = 18) as Hc by lia.
  repeat (destruct Hc as [->|Hc]; [vm_compute; reflexivity|]).
  subst. vm_compute. reflexivity.
Qed.

Lemma factor_none d : d < 1 \/ 18 < d -> Decimals_ConversionFactor d = None.
Proof.
  intros Hd. unfold Decimals_ConversionFactor, ConversionFactorMap.
  apply not_elem_of_list_to_map_1. cbn [list_fmap fmap fst].
  rewrite !not_elem_of_cons. repeat split; try lia. apply not_elem_of_nil.
Qed.

Section factor.
Context `{CoinsLib}.

Lemma factor_valid info :
  info_valid info -> ConversionFactor info = 10 ^ (18 - Decimals info).
Proof. intros [Hd _]. unfold ConversionFactor. by rewrite factor_pow. Qed.

Lemma factor_pos info : info_valid info -> 0 < ConversionFactor info.
Proof. intros Hi. rewrite factor_valid by done. apply Z.pow_pos_nonneg; destruct Hi; lia. Qed.

Lemma factor_le info : info_valid info -> ConversionFactor info <= 10 ^ 17.
Proof.
  intros Hi. rewrite factor_valid by done. apply Z.pow_le_mono_r; destruct Hi; lia.
Qed.

Lemma factor_one info :
  info_valid info -> Decimals info = 18 -> ConversionFactor info = 1.
Proof. intros Hi Hd. rewrite factor_valid, Hd by done. done. Qed.
End factor.
#[export] Hint Resolve factor_pos factor_le : guru.

(** The map is only looked up by the lemmas above. *)
#[global] Opaque ConversionFactor.
