(* ===== verification/BankModel.v ===== *)
(** Instances of the classes of [Sdk]: a small bank, coin sets as lists
    without repeated denoms, decimal strings outside the interface, addresses
    spelled by their bytes.  They show that the laws the other files assume
    can hold together, and the concrete examples of the development run on
    them; nothing else depends on this file. *)
From S2P Require Import Prelude KVStore Sdk.
From Stdlib Require Import Ascii.

(** * Coins *)

Definition m_weight (d : string) (c : coin) : Z :=
  if decide (c_denom c = d) then c_amt c else 0.
Definition m_amount_of (cs : coins) (d : string) : Z := lsum (map (m_weight d) cs).
Definition m_denom_ok (d : string) : bool := negb (bool_decide (d = EmptyString)).
Definition m_denoms (cs : coins) : list string := map c_denom cs.
Definition m_valid (cs : coins) : bool :=
  bool_decide (NoDup (m_denoms cs)) && forallb (fun c => (0 <? c_amt c) && m_denom_ok (c_denom c)) cs.
(** What [m_add] and [m_sub] accept: amounts may be zero. *)
Definition m_wf (cs : coins) : bool :=
  bool_decide (NoDup (m_denoms cs)) && forallb (fun c => (0 <=? c_amt c) && m_denom_ok (c_denom c)) cs.
Definition m_nonzero (cs : coins) : coins := filter (fun c => c_amt c <> 0) cs.
Definition m_shift (f : string -> Z) (cs : coins) : coins :=
  map (fun c => Coin (c_denom c) (c_amt c + f (c_denom c))) cs.
Definition m_add (cs ds : coins) : res coins :=
  if m_wf cs && m_wf ds
  then Ok (m_nonzero (m_shift (m_amount_of ds) cs
                      ++ filter (fun c => c_denom c ∉ m_denoms cs) ds))
  else Panic "coins not valid".
Definition m_sub (cs ds : coins) : res coins :=
  if m_wf cs && m_wf ds
     && forallb (fun c => c_amt c <=? m_amount_of cs (c_denom c)) ds
  then Ok (m_nonzero (m_shift (fun d => - m_amount_of ds d) cs))
  else Panic "negative coin amount".

#[global] Instance ModelCoins : CoinsLib := {|
  denom_ok := m_denom_ok;
  coins_valid := m_valid;
  coins_wf := m_wf;
  amount_of := m_amount_of;
  coins_add := m_add;
  coins_sub := m_sub;
  new_coins cs :=
    let cs := filter (fun c => c_amt c <> 0) cs in
    if m_valid cs then Ok cs else Panic "invalid coins";
  coins_any_gte cs ds :=
    bool_decide (ds = []) || existsb (fun c => m_amount_of ds (c_denom c) <=? c_amt c)
      (filter (fun c => c_denom c ∈ m_denoms ds) cs);
|}.

Lemma m_valid_spec cs : m_valid cs = true <->
  NoDup (m_denoms cs) /\ Forall (fun c => 0 < c_amt c /\ m_denom_ok (c_denom c) = true) cs.
Proof.
  unfold m_valid. rewrite andb_true_iff, bool_decide_eq_true, forallb_forall, Forall_forall.
  split; intros [Hn Hf]; (split; [done|]); intros c Hc.
  - apply list_elem_of_In, Hf, andb_true_iff in Hc. by rewrite Z.ltb_lt in Hc.
  - apply andb_true_iff. rewrite Z.ltb_lt. by apply Hf, list_elem_of_In.
Qed.

Lemma m_wf_spec cs : m_wf cs = true <->
  NoDup (m_denoms cs) /\ Forall (fun c => 0 <= c_amt c /\ m_denom_ok (c_denom c) = true) cs.
Proof.
  unfold m_wf. rewrite andb_true_iff, bool_decide_eq_true, forallb_forall, Forall_forall.
  split; intros [Hn Hf]; (split; [done|]); intros c Hc.
  - apply list_elem_of_In, Hf, andb_true_iff in Hc. by rewrite Z.leb_le in Hc.
  - apply andb_true_iff. rewrite Z.leb_le. by apply Hf, list_elem_of_In.
Qed.

Lemma m_amount_app cs ds d : m_amount_of (cs ++ ds) d = m_amount_of cs d + m_amount_of ds d.
Proof. unfold m_amount_of. by rewrite map_app, lsum_app. Qed.

Lemma m_amount_absent cs d : d ∉ m_denoms cs -> m_amount_of cs d = 0.
Proof.
  induction cs as [|c cs IH]; [done|]. unfold m_amount_of, m_denoms in *. simpl.
  rewrite not_elem_of_cons. intros [Hne Hin]. rewrite IH by done. unfold m_weight.
  case_decide; congruence || lia.
Qed.

Lemma m_amount_nonneg cs d : Forall (fun c => 0 <= c_amt c) cs -> 0 <= m_amount_of cs d.
Proof.
  induction 1 as [|c cs Hc _ IH]; [done|]. unfold m_amount_of in *. simpl.
  unfold m_weight at 1. case_decide; lia.
Qed.

Lemma m_amount_shift f cs d : NoDup (m_denoms cs) ->
  m_amount_of (m_shift f cs) d =
  m_amount_of cs d + (if decide (d ∈ m_denoms cs) then f d else 0).
Proof.
  unfold m_denoms. induction cs as [|c cs IH]; intros Hnd; [done|]; cbn [map] in *.
  apply NoDup_cons in Hnd as [Hc Hnd]. specialize (IH Hnd).
    unfold m_amount_of, m_shift in *. cbn [map lsum foldr]. unfold lsum in *. rewrite IH. clear IH.
    assert (m_weight d (Coin (c_denom c) (c_amt c + f (c_denom c))) =
      m_weight d c + (if decide (c_denom c = d) then f d else 0)) as ->.
    { unfold m_weight. simpl. case_decide; subst; lia. }
    pose proof (elem_of_cons (map c_denom cs) d (c_denom c)) as Hin.
    repeat case_decide; subst; try lia; exfalso; naive_solver.
Qed.

Lemma m_amount_filter_nonzero cs d :
  m_amount_of (m_nonzero cs) d = m_amount_of cs d.
Proof.
  unfold m_nonzero. induction cs as [|c cs IH]; [done|]. rewrite filter_cons. unfold m_amount_of in *.
  case_decide as Hc; simpl; rewrite IH; [done|].
  unfold m_weight at 2. case_decide; lia.
Qed.

Lemma m_denoms_shift f cs : m_denoms (m_shift f cs) = m_denoms cs.
Proof. unfold m_denoms, m_shift. by rewrite map_map. Qed.

Lemma m_denoms_filter (P : coin -> Prop) `{!forall c, Decision (P c)} cs :
  NoDup (m_denoms cs) -> NoDup (m_denoms (filter P cs)).
Proof.
  unfold m_denoms. induction cs as [|c cs IH]; simpl; [constructor|].
  intros [Hc Hnd]%NoDup_cons. rewrite filter_cons. case_decide; simpl; [|auto].
  constructor; [|auto]. intros (c' & Hd & Hin)%list_elem_of_fmap. apply Hc.
  apply list_elem_of_filter in Hin as [_ Hin]. apply list_elem_of_fmap. eauto.
Qed.

Lemma m_amount_filter_new cs ds d :
  m_amount_of (filter (fun c => c_denom c ∉ m_denoms cs) ds) d =
  if decide (d ∈ m_denoms cs) then 0 else m_amount_of ds d.
Proof.
  induction ds as [|c ds IH]; [by case_decide|]. rewrite filter_cons.
  unfold m_amount_of in *. destruct (decide (c_denom c ∉ m_denoms cs)) as [Hc|Hc];
    simpl; rewrite IH; clear IH; unfold m_weight; repeat case_decide; subst; try lia; done.
Qed.

(** Dropping the zero coins of a well-formed set leaves a valid one. *)
Lemma m_nonzero_valid cs : m_wf cs = true -> m_valid (m_nonzero cs) = true.
Proof.
  intros [Hn Hp]%m_wf_spec. apply m_valid_spec. split; [by apply m_denoms_filter|].
  rewrite Forall_forall in *. intros c [Hnz Hc]%list_elem_of_filter.
  destruct (Hp c Hc) as [? ?]. split; [lia|done].
Qed.

Lemma m_wf_amount cs d : m_wf cs = true -> 0 <= m_amount_of cs d.
Proof.
  intros [_ Hp]%m_wf_spec. apply m_amount_nonneg. eapply Forall_impl; [exact Hp|]. by intros ? [].
Qed.

Lemma m_add_law cs ds : m_wf cs = true -> m_wf ds = true ->
  exists r, m_add cs ds = Ok r /\ m_valid r = true /\
    forall d, m_amount_of r d = m_amount_of cs d + m_amount_of ds d.
Proof.
  intros Hc Hd. unfold m_add. rewrite Hc, Hd. simpl. eexists. split; [done|].
  pose proof (m_wf_amount ds) as Hnn. specialize (fun d => Hnn d Hd).
  apply m_wf_spec in Hc as [Hcn Hcp], Hd as [Hdn Hdp]. split.
  - apply m_nonzero_valid, m_wf_spec. split.
    + unfold m_denoms at 1. rewrite map_app. apply NoDup_app. split_and!.
      * fold (m_denoms (m_shift (m_amount_of ds) cs)). by rewrite m_denoms_shift.
      * intros d Hin (c & -> & Hin')%list_elem_of_fmap.
        apply list_elem_of_filter in Hin' as [Hn _]. apply Hn.
        fold (m_denoms (m_shift (m_amount_of ds) cs)) in Hin. by rewrite m_denoms_shift in Hin.
      * by apply m_denoms_filter.
    + apply Forall_app. split.
      * unfold m_shift. apply Forall_map. eapply Forall_impl; [exact Hcp|].
        intros c [H1 H2]. simpl. split; [|done]. specialize (Hnn (c_denom c)). lia.
      * rewrite Forall_forall in *. intros c [_ Hc]%list_elem_of_filter. by apply Hdp.
  - intros d. rewrite m_amount_filter_nonzero, m_amount_app, m_amount_shift, m_amount_filter_new by done.
    case_decide; lia.
Qed.

Lemma m_amount_in ds c : NoDup (m_denoms ds) -> c ∈ ds -> m_amount_of ds (c_denom c) = c_amt c.
Proof.
  induction ds as [|c' ds IH]; [by intros _ ?%not_elem_of_nil|].
  unfold m_denoms. simpl. intros [Hn Hnd]%NoDup_cons [->|Hin]%elem_of_cons;
    unfold m_amount_of; simpl; unfold m_weight at 1.
  - rewrite decide_True by done. fold (m_amount_of ds (c_denom c')).
    rewrite m_amount_absent by done. lia.
  - rewrite decide_False; [by apply IH|]. intros Heq. apply Hn. rewrite Heq.
    apply list_elem_of_fmap. eauto.
Qed.

Lemma m_sub_cond cs ds : m_wf cs = true -> m_wf ds = true ->
  forallb (fun c => c_amt c <=? m_amount_of cs (c_denom c)) ds = true <->
  (forall d, m_amount_of ds d <= m_amount_of cs d).
Proof.
  intros Hc Hd. pose proof (m_wf_amount cs) as Hnn. apply m_wf_spec in Hd as [Hdn Hdp].
  rewrite forallb_forall. split.
  - intros Hall d. destruct (decide (d ∈ m_denoms ds)) as [Hin|Hout].
    + apply list_elem_of_fmap in Hin as (c & -> & Hin). rewrite (m_amount_in ds) by done.
      apply Z.leb_le, Hall. by apply list_elem_of_In.
    + rewrite m_amount_absent by done. by apply Hnn.
  - intros Hle c Hin. apply Z.leb_le. rewrite <- (m_amount_in ds); [done..|].
    by apply list_elem_of_In.
Qed.

Lemma m_sub_law cs ds : m_wf cs = true -> m_wf ds = true ->
  (forall d, m_amount_of ds d <= m_amount_of cs d) ->
  exists r, m_sub cs ds = Ok r /\ m_valid r = true /\
    forall d, m_amount_of r d = m_amount_of cs d - m_amount_of ds d.
Proof.
  intros Hc Hd Hle. unfold m_sub. rewrite (proj2 (m_sub_cond cs ds Hc Hd) Hle), Hc, Hd. simpl.
  eexists. split; [done|]. pose proof (fun d => m_wf_amount ds d Hd) as Hnn.
  apply m_wf_spec in Hc as [Hcn Hcp]. split.
  - apply m_nonzero_valid, m_wf_spec. rewrite m_denoms_shift. split; [done|].
    unfold m_shift. apply Forall_map, Forall_forall. intros c Hin. simpl.
    rewrite Forall_forall in Hcp. destruct (Hcp _ Hin) as [? ?]. split; [|done].
    specialize (Hle (c_denom c)). rewrite (m_amount_in cs) in Hle by done. lia.
  - intros d. rewrite m_amount_filter_nonzero, m_amount_shift by done.
    case_decide as Hin; [lia|]. specialize (Hle d). specialize (Hnn d).
    rewrite (m_amount_absent cs) in * by done. lia.
Qed.

Lemma m_single cs d : m_valid cs = true ->
  (forall d', d' <> d -> m_amount_of cs d' = 0) ->
  cs = if m_amount_of cs d =? 0 then [] else [Coin d (m_amount_of cs d)].
Proof.
  intros [Hn Hp]%m_valid_spec Hz.
  assert (forall c, c ∈ cs -> c_denom c = d) as Hd.
  { intros c Hc. destruct (decide (c_denom c = d)) as [|Hne]; [done|]. specialize (Hz _ Hne).
    rewrite (m_amount_in cs c) in Hz by done. rewrite Forall_forall in Hp. apply Hp in Hc as [? _]. lia. }
  destruct cs as [|c [|c' cs]]; [done| |].
  - rewrite Forall_singleton in Hp. destruct Hp as [Hp _]. specialize (Hd c ltac:(by left)).
    destruct c as [d0 a]. simpl in *. subst d0. unfold m_amount_of, m_weight. simpl.
    rewrite decide_True by done. rewrite Z.add_0_r. by destruct (Z.eqb_spec a 0); [lia|].
  - exfalso. unfold m_denoms in Hn. simpl in Hn. apply NoDup_cons in Hn as [Hn _]. apply Hn.
    rewrite (Hd c), <- (Hd c') by set_solver. by left.
Qed.

#[global] Instance ModelCoinsLaws : CoinsLaws.
Proof.
  split; simpl.
  - done.
  - intros. unfold m_amount_of, m_weight. simpl. repeat case_decide; subst; lia || done.
  - done.
  - intros d a Hd Ha. apply m_valid_spec. split.
    + apply NoDup_singleton.
    + by repeat constructor.
  - intros cs d [_ Hp]%m_valid_spec. apply m_amount_nonneg.
    eapply Forall_impl; [exact Hp|]. intros c [? _]. lia.
  - intros cs [_ Hp]%m_valid_spec. eapply Forall_impl; [exact Hp|]. by intros ? [].
  - intros cs [Hn Hp]%m_valid_spec. apply m_wf_spec. split; [done|].
    eapply Forall_impl; [exact Hp|]. intros c [? ?]. split; [lia|done].
  - intros d a Hd Ha. apply m_wf_spec. split; [apply NoDup_singleton|]. by repeat constructor.
  - intros cs d. apply m_wf_amount.
  - apply m_add_law.
  - apply m_sub_law.
  - intros cs ds r Hc Hd Hs. unfold m_sub in Hs. rewrite Hc, Hd in Hs. simpl in Hs.
    apply m_sub_cond; [done..|]. by destruct (forallb _ ds).
  - apply m_single.
  - intros d a Hd Ha. rewrite filter_cons. simpl. destruct (Z.eqb_spec a 0) as [->|Hne].
    + by rewrite decide_False by lia.
    + rewrite decide_True by done. rewrite filter_nil.
      rewrite (proj2 (m_valid_spec _)); [done|]. split; [apply NoDup_singleton|].
      repeat constructor; simpl; [lia|done].
Qed.

(** * Decimals: banker's rounding *)

(** [chopPrecisionAndRound]: divide by 10^18, half to even, away from the sign. *)
Definition m_chop (x : Z) : Z :=
  let q := Z.abs x / dec_one in
  let r := Z.abs x mod dec_one in
  let q' := if 2 * r <? dec_one then q
            else if dec_one <? 2 * r then q + 1
            else if Z.even q then q else q + 1 in
  Z.sgn x * q'.

Definition m_dec_fits (z : Z) : bool := Z.abs z <? 2 ^ 315.
Definition m_dec_chk (z : Z) : res Z := if m_dec_fits z then Ok z else Panic "Int overflow".

(** Whole numbers only: an optional minus sign and digits. *)
Fixpoint m_digits (acc : Z) (s : string) : option Z :=
  match s with
  | EmptyString => Some acc
  | String c s =>
      let n := Z.of_nat (nat_of_ascii c) - 48 in
      if (0 <=? n) && (n <=? 9) then m_digits (10 * acc + n) s else None
  end.
Definition m_dec_of_str (s : string) : option Z :=
  match s with
  | EmptyString => None
  | String c t =>
      if bool_decide (c = "-"%char)
      then (if bool_decide (t = EmptyString) then None
            else option_map (fun z => - z * dec_one) (m_digits 0 t))
      else option_map (fun z => z * dec_one) (m_digits 0 s)
  end.

#[global] Instance ModelDec : DecLib := {|
  dec_fits := m_dec_fits;
  dec_mul a b := m_dec_chk (m_chop (a * b));
  dec_quo a b := if b =? 0 then Panic "division by zero"
                 else m_dec_chk (m_chop (Z.quot (a * dec_one * dec_one) b));
  dec_of_str := m_dec_of_str;
  dec_stored d := Some (default 0 d);
|}.

Lemma m_chop_abs x : 0 <= x ->
  2 * Z.abs (m_chop x * dec_one - x) <= dec_one /\ 0 <= m_chop x /\ m_chop x <= x / dec_one + 1.
Proof.
  intros Hx. unfold m_chop. rewrite (Z.abs_eq x) by done.
  pose proof (div_mod_lt x dec_one ltac:(done)) as [He Hm].
  assert (0 <= x / dec_one) by (apply Z.div_pos; done).
  assert (0 < dec_one) by done. generalize dependent dec_one. intros P He Hm HP HP'.
  destruct (Z.sgn_spec x) as [[H0 ->]|[[H0 ->]|[H0 ->]]]; [| |lia].
  - destruct (Z.ltb_spec (2 * (x mod P)) P), (Z.ltb_spec P (2 * (x mod P))), (Z.even (x / P));
      nia.
  - subst x. rewrite Z.div_0_l in * by lia. lia.
Qed.

Lemma m_chop_opp x : m_chop (- x) = - m_chop x.
Proof. unfold m_chop. rewrite Z.abs_opp, Z.sgn_opp. lia. Qed.

Lemma m_chop_round x :
  2 * Z.abs (m_chop x * dec_one - x) <= dec_one /\ Z.abs (m_chop x) <= Z.abs x / dec_one + 1.
Proof.
  destruct (Z.le_gt_cases 0 x) as [Hx|Hx].
  - destruct (m_chop_abs x Hx) as (? & ? & ?). rewrite (Z.abs_eq x), (Z.abs_eq (m_chop x)); lia.
  - destruct (m_chop_abs (- x)) as (H1 & H2 & H3); [lia|].
    rewrite m_chop_opp in H1, H2, H3.
    rewrite (Z.abs_neq x), (Z.abs_neq (m_chop x)); try lia.
Qed.

Lemma m_dec_chk_small z : Z.abs z < 2 ^ 256 -> m_dec_fits z = true.
Proof. unfold m_dec_fits. intros. apply Z.ltb_lt. assert (2 ^ 256 < 2 ^ 315) by done. lia. Qed.

Lemma m_quot_le a b : b <> 0 -> Z.abs (Z.quot a b) <= Z.abs a.
Proof.
  intros Hb. rewrite <- Z.quot_abs by done. apply Z.quot_le_upper_bound; nia.
Qed.

Lemma m_quot_round a b : b <> 0 -> Z.abs (Z.quot a b * b - a) < Z.abs b.
Proof.
  intros Hb. pose proof (Z.quot_rem a b Hb). pose proof (Z.rem_bound_abs a b Hb).
  replace (Z.quot a b * b - a) with (- Z.rem a b) by lia. rewrite Z.abs_opp. done.
Qed.

#[global] Instance ModelDecLaws : DecLaws.
Proof.
  split.
  - intros z Hz. by apply m_dec_chk_small.
  - simpl. intros a b r Hr. unfold m_dec_chk in Hr. case_match; [|done].
    injection Hr as <-. apply m_chop_round.
  - simpl. intros a b Hab. unfold m_dec_chk. rewrite m_dec_chk_small; [done|].
    destruct (m_chop_round (a * b)) as [_ H2].
    assert (Z.abs (a * b) / dec_one < 2 ^ 255); [by apply Z.div_lt_upper_bound|].
    assert (2 ^ 255 + 1 < 2 ^ 256) by done. lia.
  - simpl. intros a b r Hr. destruct (Z.eqb_spec b 0) as [|Hb]; [done|].
    unfold m_dec_chk in Hr. case_match; [|done]. injection Hr as <-. split; [done|].
    destruct (m_chop_round (Z.quot (a * dec_one * dec_one) b)) as [H1 _].
    pose proof (m_quot_round (a * dec_one * dec_one) b Hb) as H2.
    assert (2 < dec_one) by done.
    generalize dependent dec_one. intros P _ H1 H2 HP.
    set (q := Z.quot (a * P * P) b) in *. set (r := m_chop q) in *.
    assert (2 * Z.abs (r * P * b - a * P * P) <= (P + 2) * Z.abs b) as H3.
    { replace (r * P * b - a * P * P) with ((r * P - q) * b + (q * b - a * P * P)) by ring.
      pose proof (Z.abs_triangle ((r * P - q) * b) (q * b - a * P * P)) as Ht.
      rewrite Z.abs_mul in Ht. nia. }
    replace (r * P * b - a * P * P) with (P * (r * b - a * P)) in H3 by ring.
    rewrite Z.abs_mul, (Z.abs_eq P) in H3 by lia. lia.
  - simpl. intros a b Hb Ha. destruct (Z.eqb_spec b 0) as [|_]; [done|].
    unfold m_dec_chk. rewrite m_dec_chk_small; [done|].
    destruct (m_chop_round (Z.quot (a * dec_one * dec_one) b)) as [_ H2].
    pose proof (m_quot_le (a * dec_one * dec_one) b Hb) as H3.
    assert (Z.abs (a * dec_one * dec_one) < 2 ^ 255 * dec_one).
    { rewrite Z.abs_mul, Z.abs_mul, (Z.abs_eq dec_one) by done.
      assert (0 < dec_one) by done. nia. }
    assert (Z.abs (Z.quot (a * dec_one * dec_one) b) / dec_one < 2 ^ 255).
    { apply Z.div_lt_upper_bound; [done|]. lia. }
    assert (2 ^ 255 + 1 < 2 ^ 256) by done. lia.
  - done.
Qed.

(** * Addresses: two letters per byte, in lower case *)

Definition nibble (n : Z) : ascii := ascii_of_nat (Z.to_nat (97 + n)).
Definition nibble_of (c : ascii) : option Z :=
  let n := Z.of_nat (nat_of_ascii c) - 97 in
  if (0 <=? n) && (n <? 16) then Some n else None.
Fixpoint m_encode (a : addr) : list ascii :=
  match a with
  | [] => []
  | z :: a => nibble (z / 16) :: nibble (z mod 16) :: m_encode a
  end.
Fixpoint m_decode (l : list ascii) : option addr :=
  match l with
  | [] => Some []
  | [_] => None
  | c1 :: c2 :: l =>
      match nibble_of c1, nibble_of c2, m_decode l with
      | Some h, Some lo, Some a => Some (16 * h + lo :: a)
      | _, _, _ => None
      end
  end.

#[global] Instance ModelAddress : AddressCodec := {|
  acc_of_bech32 s :=
    match m_decode (String.list_ascii_of_string s) with
    | Some (z :: a) => Some (z :: a)
    | _ => None
    end;
  bech32_of a := String.string_of_list_ascii (m_encode a);
|}.

Lemma nibble_code n : 0 <= n < 16 -> Z.of_nat (nat_of_ascii (nibble n)) = 97 + n.
Proof.
  intros Hn. unfold nibble. rewrite nat_ascii_embedding; [lia|].
  apply Nat2Z.inj_lt. rewrite Z2Nat.id; lia.
Qed.

Lemma nibble_roundtrip n : 0 <= n < 16 -> nibble_of (nibble n) = Some n.
Proof.
  intros Hn. unfold nibble_of. rewrite nibble_code by done.
  destruct (Z.leb_spec 0 (97 + n - 97)), (Z.ltb_spec (97 + n - 97) 16); try lia.
  simpl. f_equal. lia.
Qed.

Lemma nibble_of_inv c n : nibble_of c = Some n -> 0 <= n < 16 /\ c = nibble n.
Proof.
  unfold nibble_of. intros Hc. destruct (andb _ _) eqn:He; [|done]. injection Hc as Hn. zbool.
  split; [lia|]. subst n. unfold nibble. rewrite <- (ascii_nat_embedding c) at 1. f_equal. lia.
Qed.

Lemma nibble_lower n : 0 <= n < 16 -> ascii_lower (nibble n) = nibble n.
Proof.
  intros Hn. unfold ascii_lower. pose proof (nibble_code n Hn).
  destruct (Nat.leb_spec 65 (nat_of_ascii (nibble n))), (Nat.leb_spec (nat_of_ascii (nibble n)) 90);
    simpl; done || lia.
Qed.

Lemma m_decode_encode a : Forall (fun z => 0 <= z < 256) a -> m_decode (m_encode a) = Some a.
Proof.
  induction 1 as [|z a Hz _ IH]; [done|]. cbn [m_encode m_decode].
  pose proof (div_mod_lt z 16 ltac:(lia)).
  rewrite !nibble_roundtrip, IH by (try split; try apply Z.div_lt_upper_bound; try apply Z.div_pos; lia).
  do 2 f_equal. lia.
Qed.

Lemma m_decode_inv l a : m_decode l = Some a ->
  l = m_encode a /\ map ascii_lower l = l /\ Forall (fun z => 0 <= z < 256) a.
Proof.
  remember (length l) as n eqn:Hn. revert l a Hn.
  induction n as [n IH] using lt_wf_ind. intros [|c1 [|c2 l]] a Hn Hd; simplify_eq/=; [by split|].
  destruct (nibble_of c1) as [h|] eqn:E1; [|done]. destruct (nibble_of c2) as [lo|] eqn:E2; [|done].
  destruct (m_decode l) as [a'|] eqn:E3; [|done]. injection Hd as <-.
  apply nibble_of_inv in E1 as [Hh ->], E2 as [Hlo ->].
  apply (IH (length l)) in E3 as (-> & Hl & Hf); [|lia|done]. cbn [m_encode].
  replace ((16 * h + lo) / 16) with h by (apply (Z.div_unique _ _ _ lo); lia).
  replace ((16 * h + lo) mod 16) with lo by (apply (Z.mod_unique _ _ h); lia).
  rewrite !nibble_lower, Hl by done. split_and!; try done. constructor; [lia|done].
Qed.

#[global] Instance ModelAddressLaws : AddressLaws.
Proof.
  split; simpl.
  - intros a Hne Hb. rewrite String.list_ascii_of_string_of_list_ascii, m_decode_encode by done.
    by destruct a.
  - intros s a Hs. repeat case_match; by simplify_eq.
  - intros s a Hs. destruct (m_decode _) as [[|z a']|] eqn:E; simplify_eq.
    apply m_decode_inv in E as (He & Hl & _). unfold to_lower. by rewrite Hl, He.
  - intros s a Hs. destruct (m_decode _) as [[|z a']|] eqn:E; simplify_eq.
    by apply m_decode_inv in E as (_ & _ & ?).
Qed.

(** * A bank whose state is the balances and the supply *)

Record m_bank := MBank { mb_bal : addr -> string -> Z; mb_supply : string -> Z }.

Definition mb_balance (b : m_bank) (a : addr) (d : string) : Z := Z.max 0 (mb_bal b a d).

Definition mb_module (m : string) : addr := str_bytes m.

Definition mb_enough (cs : coins) (b : m_bank) (f : addr) : bool :=
  forallb (fun c => m_amount_of cs (c_denom c) <=? mb_balance b f (c_denom c)) cs.

Definition mb_send (f t : addr) (cs : coins) : M m_bank unit := fun b =>
  if negb (m_valid cs) then (Err (Error ErrInvalidCoins "invalid coins"), b)
  else if mb_enough cs b f then
    (Ok tt, MBank (fun a d => mb_balance b a d
        - (if decide (a = f) then m_amount_of cs d else 0)
        + (if decide (a = t) then m_amount_of cs d else 0)) (mb_supply b))
  else (Err (Error ErrInsufficientFunds "spendable balance is smaller"), b).

Definition mb_issue (n : Z) (a0 : addr) (cs : coins) (b : m_bank) : m_bank :=
  MBank (fun a d => mb_balance b a d + (if decide (a = a0) then n * m_amount_of cs d else 0))
    (fun d => mb_supply b d + n * m_amount_of cs d).

#[global] Instance ModelAccounts : AccountKeeper := {|
  ak_module_address m := Some (mb_module m);
  ak_module_account m := Some (mb_module m, ["minter"; "burner"]);
|}.

#[global] Instance ModelBank : BankKeeper := {|
  BankState := m_bank;
  bk_balance := mb_balance;
  bk_spendable := mb_balance;
  bk_locked _ _ _ := 0;
  bk_supply := mb_supply;
  bk_blocked a := bool_decide (a = mb_module "precisebank");
  bk_send_enabled _ _ := true;
  bk_restricted _ _ := false;
  bk_SendCoins := mb_send;
  bk_SendCoinsFromAccountToModule f m := mb_send f (mb_module m);
  bk_SendCoinsFromModuleToModule m1 m2 := mb_send (mb_module m1) (mb_module m2);
  bk_SendCoinsFromModuleToAccount m a := mb_send (mb_module m) a;
  bk_MintCoins m cs b :=
    if m_valid cs then (Ok tt, mb_issue 1 (mb_module m) cs b)
    else (Err (Error ErrInvalidCoins "invalid coins"), b);
  bk_BurnCoins m cs b :=
    if negb (m_valid cs) then (Err (Error ErrInvalidCoins "invalid coins"), b)
    else if mb_enough cs b (mb_module m) then (Ok tt, mb_issue (-1) (mb_module m) cs b)
    else (Err (Error ErrInsufficientFunds "spendable balance is smaller"), b);
|}.

Lemma mb_enough_spec cs b f : m_valid cs = true ->
  mb_enough cs b f = true <-> (forall d, m_amount_of cs d <= mb_balance b f d).
Proof.
  intros Hv. apply m_valid_spec in Hv as [Hn Hp]. unfold mb_enough. rewrite forallb_forall.
  split.
  - intros Hall d. destruct (decide (d ∈ m_denoms cs)) as [Hin|Hout].
    + apply list_elem_of_fmap in Hin as (c & -> & Hin).
      apply Z.leb_le, (Hall c). by apply list_elem_of_In.
    + rewrite m_amount_absent by done. unfold mb_balance. lia.
  - intros Hle c _. apply Z.leb_le. apply Hle.
Qed.

Lemma mb_enough_short cs b f d :
  m_valid cs = true -> mb_balance b f d < m_amount_of cs d -> mb_enough cs b f = false.
Proof.
  intros Hv Hlt. apply not_true_iff_false. rewrite mb_enough_spec by done.
  intros Hle. specialize (Hle d). lia.
Qed.

Lemma mb_amount_nonneg cs d : m_valid cs = true -> 0 <= m_amount_of cs d.
Proof. exact (@valid_nonneg ModelCoins ModelCoinsLaws cs d). Qed.

Lemma mb_issue_ok n a0 cs b :
  m_valid cs = true -> (forall d, 0 <= mb_balance b a0 d + n * m_amount_of cs d) ->
  issued b (mb_issue n a0 cs b) n a0 cs.
Proof.
  intros Hv Hge. split; [|done]. intros a d. simpl. unfold mb_issue, mb_balance at 1. simpl.
  specialize (Hge d). case_decide; subst; unfold mb_balance in *; lia.
Qed.

#[global] Instance ModelBankLaws : BankLaws.
Proof.
  split; simpl; try done.
  - intros b a d. unfold mb_balance. lia.
  - intros b a d. unfold mb_balance. lia.
  - intros f t cs b b' Hs. unfold mb_send in Hs.
    destruct (m_valid cs) eqn:Hv; simpl in Hs; [|done].
    destruct (mb_enough cs b f) eqn:He; [|done]. injection Hs as <-.
    pose proof (proj1 (mb_enough_spec cs b f Hv) He) as Hle. split_and!; try done.
    intros a d. simpl. unfold mb_balance at 1. simpl. specialize (Hle d).
    pose proof (mb_amount_nonneg cs d Hv). repeat case_decide; subst; unfold mb_balance in *; lia.
  - intros f t cs b Hv _ Hle. unfold mb_send. rewrite Hv. simpl.
    rewrite (proj2 (mb_enough_spec cs b f Hv) Hle). eauto.
  - intros f t cs b d Hv _ Hlt. unfold mb_send. rewrite Hv. simpl.
    rewrite (mb_enough_short cs b f d) by done. do 2 eexists. split_and!; done.
  - intros f m a cs Ha. congruence.
  - intros m1 m2 a1 a2 cs H1 H2. congruence.
  - intros m a cs b b' [= <-] Hm. destruct (m_valid cs) eqn:Hv; [|done]. injection Hm as <-.
    split; [|done]. apply mb_issue_ok; [done|]. intros d.
    pose proof (mb_amount_nonneg cs d Hv). unfold mb_balance. lia.
  - intros m a ps cs b _ _ -> _. eauto.
  - intros m a cs b b' [= <-] Hm. destruct (m_valid cs) eqn:Hv; simpl in Hm; [|done].
    destruct (mb_enough _ _ _) eqn:He; [|done]. injection Hm as <-.
    pose proof (proj1 (mb_enough_spec cs b _ Hv) He) as Hle.
    split_and!; [|done|done]. apply mb_issue_ok; [done|]. intros d. specialize (Hle d). lia.
  - intros m a ps cs b [= <- _] _ Hv Hle. rewrite Hv. simpl.
    rewrite (proj2 (mb_enough_spec cs b _ Hv) Hle). eauto.
  - intros m a ps [= <- _]. done.
Qed.
