(* ===== verification/PreciseBank.v ===== *)
(** x/precisebank: extended-precision balances on top of x/bank.

    An account holds an integer balance in x/bank and a fractional balance,
    below [ConversionFactor], in this module's store.  The module account is
    the reserve that backs the fractional balances together with the
    remainder, the fractional amount the reserve holds for nobody.

    The state is the module's key-value store, the state of the x/bank keeper
    and the events emitted so far; the definitions follow [keeper/*.go],
    [types/*.go] and [genesis.go] function by function. *)
From S2P Require Import Prelude KVStore Sdk EvmConfig.

Definition ModuleName : string := "precisebank".
Definition FractionalBalancePrefix : bytes := [1].
Definition RemainderBalanceKey : bytes := [2].
Definition FractionalBalanceKey (address : addr) : bytes := address.

(** The key a prefix store really uses. *)
Definition frac_key (a : addr) : bytes := FractionalBalancePrefix ++ FractionalBalanceKey a.

Record FractionalBalance := mkFractionalBalance { fb_Address : string; fb_Amount : Z }.
Record GenesisState := mkGenesisState { gs_Balances : list FractionalBalance; gs_Remainder : Z }.

Section keeper.
Context `{CoinsLib, !BankKeeper, !AccountKeeper, AddressCodec}.
Variable info : EvmCoinInfo.

Record pb_state := PB {
  pb_kv : gmap bytes Z;
  pb_bank : BankState;
  pb_events : list event;
}.

Definition set_kv (f : gmap bytes Z -> gmap bytes Z) : M pb_state unit :=
  modify (fun s => PB (f (pb_kv s)) (pb_bank s) (pb_events s)).
Definition on_bank {A} (m : M BankState A) : M pb_state A :=
  zoom pb_bank (fun b s => PB (pb_kv s) b (pb_events s)) m.
Definition emit (es : list event) : M pb_state unit :=
  modify (fun s => PB (pb_kv s) (pb_bank s) (pb_events s ++ es)).
(** [if err := m(); err != nil { return h(err) }] *)
Definition or_return {A} (m : M pb_state A) (h : error -> M pb_state A) : M pb_state A :=
  let! r := try m in match r with inl a => ret a | inr e => h e end.

Definition IntegerCoinDenom : string := Denom info.
Definition ExtendedCoinDenom : string := ExtendedDenom info.
Definition CF : Z := ConversionFactor info.

(** ** types *)

Definition ValidateFractionalAmount (amt : Z) : res unit :=
  if amt <=? 0 then Err (Error ErrOther "non-positive amount")
  else if CF <=? amt then Err (Error ErrOther "amount exceeds max")
  else Ok tt.

Definition FractionalBalance_Validate (fb : FractionalBalance) : res unit :=
  match acc_of_bech32 (fb_Address fb) with
  | None => Err (Error ErrOther "invalid address")
  | Some _ => ValidateFractionalAmount (fb_Amount fb)
  end.

(** [seenAddresses] is the map of the Go loop. *)
Fixpoint FractionalBalances_Validate_loop (seen : gset string)
    (fbs : list FractionalBalance) : res unit :=
  match fbs with
  | [] => Ok tt
  | fb :: fbs =>
      do? FractionalBalance_Validate fb;
      let lowerAddr := to_lower (fb_Address fb) in
      if bool_decide (lowerAddr ∈ seen) then Err (Error ErrOther "duplicate address")
      else FractionalBalances_Validate_loop ({[lowerAddr]} ∪ seen) fbs
  end.
Definition FractionalBalances_Validate (fbs : list FractionalBalance) : res unit :=
  FractionalBalances_Validate_loop ∅ fbs.

(** [sum = sum.Add(fb.Amount)] *)
Fixpoint SumAmount_loop (sum : Z) (fbs : list FractionalBalance) : res Z :=
  match fbs with
  | [] => Ok sum
  | fb :: fbs => let? sum := int_add sum (fb_Amount fb) in SumAmount_loop sum fbs
  end.
Definition SumAmount (fbs : list FractionalBalance) : res Z := SumAmount_loop 0 fbs.

Definition GenesisState_Validate (gs : GenesisState) : res unit :=
  do? FractionalBalances_Validate (gs_Balances gs);
  if gs_Remainder gs <? 0 then Err (Error ErrOther "negative remainder amount")
  else if CF <=? gs_Remainder gs then Err (Error ErrOther "remainder exceeds max")
  else
    let? sum := SumAmount (gs_Balances gs) in
    let? sumWithRemainder := int_add sum (gs_Remainder gs) in
    let? offBy := int_mod sumWithRemainder CF in
    if offBy =? 0 then Ok tt
    else Err (Error ErrOther "sum of fractional balances + remainder is not a multiple").

Definition TotalAmountWithRemainder (gs : GenesisState) : res Z :=
  let? sum := SumAmount (gs_Balances gs) in int_add sum (gs_Remainder gs).

Definition SumExtendedCoin (amt : coins) : res coin :=
  let? integerAmount := int_mul (amount_of amt IntegerCoinDenom) CF in
  let extendedAmount := amount_of amt ExtendedCoinDenom in
  let? fullEmissionAmount := int_add integerAmount extendedAmount in
  new_coin ExtendedCoinDenom fullEmissionAmount.

(** ** Fractional balances and remainder *)

Definition GetFractionalBalance (s : pb_state) (address : addr) : Z :=
  match pb_kv s !! frac_key address with Some bal => bal | None => 0 end.

Definition DeleteFractionalBalance (address : addr) : M pb_state unit :=
  set_kv (delete (frac_key address)).

Definition SetFractionalBalance (address : addr) (amount : Z) : M pb_state unit :=
  if bool_decide (address = []) then panic "address cannot be empty"
  else if amount =? 0 then DeleteFractionalBalance address
  else
    match ValidateFractionalAmount amount with
    | Ok _ => set_kv (insert (frac_key address) amount)
    | _ => panic "amount is invalid"
    end.

(** The iterator hands [cb] the address, the key without the store prefix,
    and the amount; [cb] returns true to stop. *)
Fixpoint iterate_cb {A} (cb : addr -> Z -> A -> A * bool) (l : list (bytes * Z)) (acc : A) : A :=
  match l with
  | [] => acc
  | (k, v) :: l =>
      let '(acc, stop) := cb (drop (length FractionalBalancePrefix) k) v acc in
      if stop then acc else iterate_cb cb l acc
  end.
Definition IterateFractionalBalances {A} (s : pb_state)
    (cb : addr -> Z -> A -> A * bool) (acc : A) : A :=
  iterate_cb cb (iterate FractionalBalancePrefix (pb_kv s)) acc.

(** The accumulator is the outcome so far: [sum.Add] may panic. *)
Definition GetTotalSumFractionalBalances (s : pb_state) : res Z :=
  IterateFractionalBalances s
    (fun _ amount sum => (rbind sum (fun z => int_add z amount), false)) (Ok 0).

Definition GetRemainderAmount (s : pb_state) : Z :=
  match pb_kv s !! RemainderBalanceKey with Some bal => bal | None => 0 end.

Definition DeleteRemainderAmount : M pb_state unit := set_kv (delete RemainderBalanceKey).

Definition SetRemainderAmount (amount : Z) : M pb_state unit :=
  if amount =? 0 then DeleteRemainderAmount
  else
    match ValidateFractionalAmount amount with
    | Ok _ => set_kv (insert RemainderBalanceKey amount)
    | _ => panic "remainder amount is invalid"
    end.

(** ** Views *)

Definition reserve_is (a : addr) : bool :=
  bool_decide (default [] (ak_module_address ModuleName) = a).

Definition GetBalance (s : pb_state) (a : addr) (denom : string) : res coin :=
  if bool_decide (denom = ExtendedCoinDenom) && reserve_is a then new_coin denom 0
  else if negb (bool_decide (denom = ExtendedCoinDenom))
  then Ok (Coin denom (bk_balance (pb_bank s) a denom))
  else
    let integerCoins := bk_balance (pb_bank s) a IntegerCoinDenom in
    let fractionalAmount := GetFractionalBalance s a in
    let? scaled := int_mul integerCoins CF in
    let? fullAmount := int_add scaled fractionalAmount in
    new_coin ExtendedCoinDenom fullAmount.

Definition SpendableCoin (s : pb_state) (a : addr) (denom : string) : res coin :=
  if bool_decide (denom = ExtendedCoinDenom) && reserve_is a then new_coin denom 0
  else if negb (bool_decide (denom = ExtendedCoinDenom))
  then Ok (Coin denom (bk_spendable (pb_bank s) a denom))
  else
    let integerCoin := bk_spendable (pb_bank s) a IntegerCoinDenom in
    let fractionalAmount := GetFractionalBalance s a in
    let? scaled := int_mul integerCoin CF in
    let? fullAmount := int_add scaled fractionalAmount in
    new_coin ExtendedCoinDenom fullAmount.

(** ** Send *)

Definition subFromFractionalBalance (currentFractionalBalance amountToSub : Z)
    : res (Z * bool) :=
  if CF <=? currentFractionalBalance
  then Panic "currentFractionalBalance must be less than ConversionFactor"
  else if CF <=? amountToSub
  then Panic "amountToSub must be less than ConversionFactor"
  else
    let? newFractionalBalance := int_sub currentFractionalBalance amountToSub in
    let borrowRequired := newFractionalBalance <? 0 in
    if borrowRequired
    then let? n := int_add newFractionalBalance CF in Ok (n, borrowRequired)
    else Ok (newFractionalBalance, borrowRequired).

Definition addToFractionalBalance (currentFractionalBalance amountToAdd : Z)
    : res (Z * bool) :=
  if CF <=? currentFractionalBalance
  then Panic "currentFractionalBalance must be less than ConversionFactor"
  else if CF <=? amountToAdd
  then Panic "amountToAdd must be less than ConversionFactor"
  else
    let? newFractionalBalance := int_add currentFractionalBalance amountToAdd in
    let carryRequired := CF <=? newFractionalBalance in
    if carryRequired
    then let? n := int_sub newFractionalBalance CF in Ok (n, carryRequired)
    else Ok (newFractionalBalance, carryRequired).

(** Returns an error in every case; the spendable balance is read for the
    message, which can panic on a balance beyond 256 bits. *)
Definition updateInsufficientFundsError {A} (a : addr) (amt : Z) (err : error)
    : M pb_state A :=
  if negb (bool_decide (e_kind err = ErrInsufficientFunds)) then throw err
  else
    let! bal := (fun s => (SpendableCoin s a ExtendedCoinDenom, s)) in
    let! coin := lift (new_coin ExtendedCoinDenom amt) in
    fail ErrInsufficientFunds "spendable balance is smaller".

(** [sdk.NewCoins(sdk.NewCoin(denom, amt))] *)
Definition one_coin (denom : string) (amt : Z) : M pb_state coins :=
  let! c := lift (new_coin denom amt) in lift (new_coins [c]).

Definition sendExtendedCoins (from to : addr) (amt : Z) : M pb_state unit :=
  if bool_decide (from = to) then ret tt
  else
    let! senderFracBal := gets (fun s => GetFractionalBalance s from) in
    let! recipientFracBal := gets (fun s => GetFractionalBalance s to) in
    let! integerAmt := lift (int_quo amt CF) in
    let! fractionalAmt := lift (int_mod amt CF) in
    let! sub := lift (subFromFractionalBalance senderFracBal fractionalAmt) in
    let! add := lift (addToFractionalBalance recipientFracBal fractionalAmt) in
    let senderNewFracBal := sub.1 in let senderNeedsBorrow := sub.2 in
    let recipientNewFracBal := add.1 in let recipientNeedsCarry := add.2 in
    (* Case #1 *)
    let! integerAmt := (if senderNeedsBorrow && recipientNeedsCarry
                        then lift (int_add integerAmt 1) else ret integerAmt) in
    do! (if 0 <? integerAmt then
           let! transferCoins := one_coin IntegerCoinDenom integerAmt in
           or_return (on_bank (bk_SendCoins from to transferCoins))
             (updateInsufficientFundsError from amt)
         else ret tt);
    (* Case #2 *)
    do! (if senderNeedsBorrow && negb recipientNeedsCarry then
           let! borrowCoins := one_coin IntegerCoinDenom 1 in
           or_return (on_bank (bk_SendCoinsFromAccountToModule from ModuleName borrowCoins))
             (updateInsufficientFundsError from amt)
         else ret tt);
    (* Case #3 *)
    do! (if negb senderNeedsBorrow && recipientNeedsCarry then
           let reserveAddr := default [] (ak_module_address ModuleName) in
           let! carryCoins := one_coin IntegerCoinDenom 1 in
           or_return (on_bank (bk_SendCoins reserveAddr to carryCoins))
             (fun _ => panic "failed to carry fractional coins")
         else ret tt);
    (* Case #4: nothing to do *)
    do! SetFractionalBalance from senderNewFracBal;
    SetFractionalBalance to recipientNewFracBal.

(** The part of [amt] that x/bank handles itself. *)
Definition split_extended (amt : coins) : M pb_state (coins * Z) :=
  let extendedAmount := amount_of amt ExtendedCoinDenom in
  if 0 <? extendedAmount then
    let! subCoin := lift (new_coin ExtendedCoinDenom extendedAmount) in
    let! passthroughCoins := lift (coins_sub amt [subCoin]) in
    ret (passthroughCoins, extendedAmount)
  else ret (amt, extendedAmount).

Definition fullEmission (amt : coins) : M pb_state coins :=
  let! c := lift (SumExtendedCoin amt) in lift (new_coins [c]).

Definition coin_spent (a : addr) (cs : coins) : event :=
  Event "coin_spent" [("spender", AAddr a); ("amount", ACoins cs)].
Definition coin_received (a : addr) (cs : coins) : event :=
  Event "coin_received" [("receiver", AAddr a); ("amount", ACoins cs)].

Definition SendCoins (from to : addr) (amt : coins) : M pb_state unit :=
  if negb (coins_valid amt) then fail ErrInvalidCoins "invalid coins"
  else
    let! sp := split_extended amt in
    let passthroughCoins := sp.1 in let extendedCoinAmount := sp.2 in
    do! (if coins_all_positive passthroughCoins
         then on_bank (bk_SendCoins from to passthroughCoins) else ret tt);
    do! (if 0 <? extendedCoinAmount
         then sendExtendedCoins from to extendedCoinAmount else ret tt);
    let! fullEmissionCoins := fullEmission amt in
    if coins_is_zero fullEmissionCoins then ret tt
    else emit [Event "transfer" [("recipient", AAddr to); ("sender", AAddr from);
                 ("amount", ACoins fullEmissionCoins)];
               coin_spent from fullEmissionCoins; coin_received to fullEmissionCoins].

Definition SendCoinsFromAccountToModule (senderAddr : addr) (recipientModule : string)
    (amt : coins) : M pb_state unit :=
  match ak_module_account recipientModule with
  | None => panic "module account does not exist"
  | Some acc =>
      if bool_decide (recipientModule = ModuleName)
      then fail ErrUnauthorized "module account is not allowed to receive funds"
      else SendCoins senderAddr acc.1 amt
  end.

Definition SendCoinsFromModuleToAccount (senderModule : string) (recipientAddr : addr)
    (amt : coins) : M pb_state unit :=
  match ak_module_address senderModule with
  | None => panic "module account does not exist"
  | Some senderAddr =>
      if bool_decide (senderModule = ModuleName)
      then fail ErrUnauthorized "module account is not allowed to send funds"
      else if bk_blocked recipientAddr
      then fail ErrUnauthorized "not allowed to receive funds"
      else SendCoins senderAddr recipientAddr amt
  end.

Definition SendCoinsFromModuleToModule (senderModule recipientModule : string)
    (amt : coins) : M pb_state unit :=
  match ak_module_address senderModule with
  | None => panic "module account does not exist"
  | Some senderAddr =>
      match ak_module_account recipientModule with
      | None => panic "module account does not exist"
      | Some recipientAcc =>
          if bool_decide (recipientModule = ModuleName)
          then fail ErrUnauthorized "module account is not allowed to receive funds"
          else SendCoins senderAddr recipientAcc.1 amt
      end
  end.

Definition IsSendEnabledCoin (s : pb_state) (c : coin) : res bool :=
  if bool_decide (c_denom c = ExtendedCoinDenom) then
    let? q := int_quo (c_amt c) CF in
    let? c' := new_coin IntegerCoinDenom q in
    Ok (bk_send_enabled (pb_bank s) c')
  else Ok (bk_send_enabled (pb_bank s) c).

Fixpoint IsSendEnabledCoins (s : pb_state) (cs : list coin) : res unit :=
  match cs with
  | [] => Ok tt
  | c :: cs =>
      let? enabled := IsSendEnabledCoin s c in
      if enabled then IsSendEnabledCoins s cs
      else Err (Error ErrSendDisabled "transfers are currently disabled")
  end.

Record MsgSend := mkMsgSend { ms_From : string; ms_To : string; ms_Amount : coins }.

Definition Send (msg : MsgSend) : M pb_state unit :=
  match acc_of_bech32 (ms_From msg) with
  | None => fail ErrInvalidAddress "invalid from address"
  | Some from =>
      match acc_of_bech32 (ms_To msg) with
      | None => fail ErrInvalidAddress "invalid to address"
      | Some to =>
          if negb (coins_valid (ms_Amount msg)) then fail ErrInvalidCoins "invalid coins"
          else if negb (coins_all_positive (ms_Amount msg))
          then fail ErrInvalidCoins "coins not positive"
          else
            do! (fun s => (IsSendEnabledCoins s (ms_Amount msg), s));
            if bk_blocked to then fail ErrUnauthorized "not allowed to receive funds"
            else SendCoins from to (ms_Amount msg)
      end
  end.

(** ** Mint *)

Definition mintExtendedCoin (recipientModuleName : string) (amt : Z) : M pb_state unit :=
  let moduleAddr := default [] (ak_module_address recipientModuleName) in
  let! fractionalAmount := gets (fun s => GetFractionalBalance s moduleAddr) in
  let! integerMintAmount := lift (int_quo amt CF) in
  let! fractionalMintAmount := lift (int_mod amt CF) in
  let! prevRemainder := gets GetRemainderAmount in
  let! newRemainder := lift (int_sub prevRemainder fractionalMintAmount) in
  let! newFractionalBalance := lift (int_add fractionalAmount fractionalMintAmount) in
  (* Case #3 *)
  do! (if (CF <=? newFractionalBalance) && (0 <=? newRemainder) then
         let! carryCoins := one_coin IntegerCoinDenom 1 in
         on_bank (bk_SendCoinsFromModuleToModule ModuleName recipientModuleName carryCoins)
       else ret tt);
  (* Case #4 *)
  let! integerMintAmount :=
    (if (CF <=? newFractionalBalance) && (newRemainder <? 0)
     then lift (int_add integerMintAmount 1) else ret integerMintAmount) in
  let! newFractionalBalance :=
    (if CF <=? newFractionalBalance
     then lift (int_sub newFractionalBalance CF) else ret newFractionalBalance) in
  do! (if 0 <? integerMintAmount then
         let! integerMintCoins := one_coin IntegerCoinDenom integerMintAmount in
         on_bank (bk_MintCoins recipientModuleName integerMintCoins)
       else ret tt);
  do! SetFractionalBalance moduleAddr newFractionalBalance;
  let! total := lift (int_add fractionalAmount fractionalMintAmount) in
  let wasCarried := CF <=? total in
  do! (if (prevRemainder <? fractionalMintAmount) && negb wasCarried then
         let! reserveMintCoins := one_coin IntegerCoinDenom 1 in
         on_bank (bk_MintCoins ModuleName reserveMintCoins)
       else ret tt);
  let! newRemainder := (if newRemainder <? 0
                        then lift (int_add newRemainder CF) else ret newRemainder) in
  SetRemainderAmount newRemainder.

Definition MintCoins (moduleName : string) (amt : coins) : M pb_state unit :=
  if bool_decide (moduleName = ModuleName) then panic "module account cannot be minted to"
  else
    match ak_module_account moduleName with
    | None => panic "module account does not exist"
    | Some acc =>
        if negb (bool_decide ("minter" ∈ acc.2))
        then panic "module account does not have permissions to mint tokens"
        else if negb (coins_valid amt) then fail ErrInvalidCoins "invalid coins"
        else
          let! sp := split_extended amt in
          let passthroughCoins := sp.1 in let extendedAmount := sp.2 in
          do! (if negb (coins_empty passthroughCoins)
               then on_bank (bk_MintCoins moduleName passthroughCoins) else ret tt);
          do! (if 0 <? extendedAmount
               then mintExtendedCoin moduleName extendedAmount else ret tt);
          let! fullEmissionCoins := fullEmission amt in
          if coins_is_zero fullEmissionCoins then ret tt
          else emit [Event "coinbase" [("minter", AAddr acc.1);
                       ("amount", ACoins fullEmissionCoins)];
                     coin_received acc.1 fullEmissionCoins]
    end.

(** ** Burn *)

Definition burnExtendedCoin (moduleName : string) (amt : Z) : M pb_state unit :=
  let moduleAddr := default [] (ak_module_address moduleName) in
  let! prevFractionalBalance := gets (fun s => GetFractionalBalance s moduleAddr) in
  let! prevRemainder := gets GetRemainderAmount in
  let! integerBurnAmount := lift (int_quo amt CF) in
  let! fractionalBurnAmount := lift (int_mod amt CF) in
  let! newFractionalBalance := lift (int_sub prevFractionalBalance fractionalBurnAmount) in
  let requiresBorrow := newFractionalBalance <? 0 in
  let! newRemainder := lift (int_add prevRemainder fractionalBurnAmount) in
  let overflowingRemainder := CF <=? newRemainder in
  (* Case #1 *)
  let! c1 :=
    (if requiresBorrow && overflowingRemainder then
       let! f := lift (int_add newFractionalBalance CF) in
       let! r := lift (int_sub newRemainder CF) in
       let! i := lift (int_add integerBurnAmount 1) in
       ret (f, r, i)
     else ret (newFractionalBalance, newRemainder, integerBurnAmount)) in
  let newFractionalBalance := c1.1.1 in
  let newRemainder := c1.1.2 in
  let integerBurnAmount := c1.2 in
  (* Case #2 *)
  let! newFractionalBalance :=
    (if requiresBorrow && negb overflowingRemainder then
       let! f := lift (int_add newFractionalBalance CF) in
       let! borrowCoins := one_coin IntegerCoinDenom 1 in
       do! or_return (on_bank (bk_SendCoinsFromModuleToModule moduleName ModuleName borrowCoins))
             (updateInsufficientFundsError moduleAddr amt);
       ret f
     else ret newFractionalBalance) in
  (* Case #3 *)
  let! newRemainder :=
    (if negb requiresBorrow && overflowingRemainder then
       let! reserveBurnCoins := one_coin IntegerCoinDenom 1 in
       do! on_bank (bk_BurnCoins ModuleName reserveBurnCoins);
       lift (int_sub newRemainder CF)
     else ret newRemainder) in
  (* Case #4: nothing to do *)
  do! (if negb (integerBurnAmount =? 0) then
         let! burnCoins := one_coin IntegerCoinDenom integerBurnAmount in
         or_return (on_bank (bk_BurnCoins moduleName burnCoins))
           (updateInsufficientFundsError moduleAddr amt)
       else ret tt);
  do! SetFractionalBalance moduleAddr newFractionalBalance;
  SetRemainderAmount newRemainder.

Definition BurnCoins (moduleName : string) (amt : coins) : M pb_state unit :=
  if bool_decide (moduleName = ModuleName) then panic "module account cannot be burned from"
  else
    match ak_module_account moduleName with
    | None => panic "module account does not exist"
    | Some acc =>
        if negb (bool_decide ("burner" ∈ acc.2))
        then panic "module account does not have permissions to burn tokens"
        else if negb (coins_valid amt) then fail ErrInvalidCoins "invalid coins"
        else
          let! sp := split_extended amt in
          let passthroughCoins := sp.1 in let extendedAmount := sp.2 in
          do! (if negb (coins_empty passthroughCoins)
               then on_bank (bk_BurnCoins moduleName passthroughCoins) else ret tt);
          do! (if 0 <? extendedAmount
               then burnExtendedCoin moduleName extendedAmount else ret tt);
          let! fullEmissionCoins := fullEmission amt in
          if coins_is_zero fullEmissionCoins then ret tt
          else emit [Event "burn" [("burner", AAddr acc.1);
                       ("amount", ACoins fullEmissionCoins)];
                     coin_spent acc.1 fullEmissionCoins]
    end.

(** ** Genesis *)

Definition InitGenesis (gs : GenesisState) : M pb_state unit :=
  match GenesisState_Validate gs with
  | Err _ => panic "failed to validate genesis state"
  | Panic p => panic p
  | Ok _ =>
      match ak_module_account ModuleName with
      | None => panic "module account has not been set"
      | Some _ =>
          let! totalAmt := lift (TotalAmountWithRemainder gs) in
          let moduleAddr := default [] (ak_module_address ModuleName) in
          let! moduleBal := gets (fun s => bk_balance (pb_bank s) moduleAddr IntegerCoinDenom) in
          let! moduleBalExtended := lift (int_mul moduleBal CF) in
          if negb (totalAmt =? moduleBalExtended)
          then panic "module account balance does not match"
          else
            do! each (fun bal =>
                  match acc_of_bech32 (fb_Address bal) with
                  | None => panic "MustAccAddressFromBech32"
                  | Some a => SetFractionalBalance a (fb_Amount bal)
                  end) (gs_Balances gs);
            SetRemainderAmount (gs_Remainder gs)
      end
  end.

Definition ExportGenesis (s : pb_state) : GenesisState :=
  let balances := IterateFractionalBalances s
    (fun a amount acc => (acc ++ [mkFractionalBalance (bech32_of a) amount], false)) [] in
  mkGenesisState balances (GetRemainderAmount s).

(** ** Queries *)

Definition Query_Remainder (s : pb_state) : res coin :=
  new_coin ExtendedCoinDenom (GetRemainderAmount s).

Definition Query_FractionalBalance (s : pb_state) (address : string) : res coin :=
  match acc_of_bech32 address with
  | None => Err (Error ErrInvalidAddress "invalid address")
  | Some a => new_coin ExtendedCoinDenom (GetFractionalBalance s a)
  end.
End keeper.

Arguments pb_state {_ _}.
