(* ===== verification/PreciseBankInv.v ===== *)
(** Lemmas about x/precisebank shared by its theorems: the effect of every
    operation on the store and on the bank, and the backing invariant. *)
From S2P Require Import Prelude KVStore Sdk EvmConfig PreciseBank.

(** * The store *)

Definition get_frac (kv : gmap bytes Z) (a : addr) : Z := default 0 (kv !! frac_key a).
Definition get_rem (kv : gmap bytes Z) : Z := default 0 (kv !! RemainderBalanceKey).
Definition put_frac (kv : gmap bytes Z) (a : addr) (v : Z) : gmap bytes Z :=
  if v =? 0 then delete (frac_key a) kv else <[frac_key a := v]> kv.
Definition put_rem (kv : gmap bytes Z) (v : Z) : gmap bytes Z :=
  if v =? 0 then delete RemainderBalanceKey kv else <[RemainderBalanceKey := v]> kv.
(** The sum of the fractional balances. *)
Definition frac_sum (kv : gmap bytes Z) : Z :=
  msum (prefix_weight FractionalBalancePrefix id) kv.

Lemma frac_key_inj a b : frac_key a = frac_key b -> a = b.
Proof. unfold frac_key, FractionalBalancePrefix, FractionalBalanceKey. simpl. congruence. Qed.

Lemma frac_key_prefix a : is_prefix FractionalBalancePrefix (frac_key a) = true.
Proof. apply is_prefix_app. Qed.

Lemma frac_key_remainder a : frac_key a <> RemainderBalanceKey.
Proof. done. Qed.

Lemma get_put_frac kv a b v :
  get_frac (put_frac kv a v) b = if decide (a = b) then v else get_frac kv b.
Proof.
  unfold get_frac, put_frac. destruct (Z.eqb_spec v 0) as [->|]; case_decide as E.
  - subst. by rewrite lookup_delete_eq.
  - rewrite lookup_delete_ne; [done|]. intros ?%frac_key_inj. done.
  - subst. by rewrite lookup_insert_eq.
  - rewrite lookup_insert_ne; [done|]. intros ?%frac_key_inj. done.
Qed.

Lemma get_rem_put_frac kv a v : get_rem (put_frac kv a v) = get_rem kv.
Proof.
  unfold get_rem, put_frac. case_match; by rewrite ?lookup_delete_ne, ?lookup_insert_ne.
Qed.

Lemma get_rem_put_rem kv v : get_rem (put_rem kv v) = v.
Proof.
  unfold get_rem, put_rem. destruct (Z.eqb_spec v 0) as [->|].
  - by rewrite lookup_delete_eq.
  - by rewrite lookup_insert_eq.
Qed.

Lemma get_frac_put_rem kv a v : get_frac (put_rem kv v) a = get_frac kv a.
Proof.
  unfold get_frac, put_rem. case_match; by rewrite ?lookup_delete_ne, ?lookup_insert_ne.
Qed.

Lemma mat_frac kv a : mat (prefix_weight FractionalBalancePrefix id) kv (frac_key a) = get_frac kv a.
Proof.
  unfold mat, prefix_weight, get_frac. rewrite frac_key_prefix. by destruct (kv !! frac_key a).
Qed.

Lemma frac_sum_put_frac kv a v : frac_sum (put_frac kv a v) = frac_sum kv - get_frac kv a + v.
Proof.
  unfold frac_sum, put_frac. rewrite <- mat_frac. destruct (Z.eqb_spec v 0) as [->|].
  - rewrite msum_delete. lia.
  - rewrite msum_insert. unfold prefix_weight at 3. rewrite frac_key_prefix. simpl. lia.
Qed.

Lemma frac_sum_put_rem kv v : frac_sum (put_rem kv v) = frac_sum kv.
Proof.
  unfold frac_sum, put_rem. case_match; rewrite ?msum_delete, ?msum_insert;
    unfold mat, prefix_weight; case_match; simpl; lia.
Qed.

(** Every stored amount is a fractional amount: zero is never stored. *)
Definition kv_wf (cf : Z) (kv : gmap bytes Z) : Prop :=
  forall k v, kv !! k = Some v -> 0 < v < cf.

Lemma kv_wf_put_frac cf kv a v : kv_wf cf kv -> 0 <= v < cf -> kv_wf cf (put_frac kv a v).
Proof.
  unfold kv_wf, put_frac. intros Hwf Hv k w. destruct (Z.eqb_spec v 0).
  - intros [_ ?]%lookup_delete_Some. eauto.
  - intros [[_ <-]|[_ ?]]%lookup_insert_Some; [lia|eauto].
Qed.

Lemma kv_wf_put_rem cf kv v : kv_wf cf kv -> 0 <= v < cf -> kv_wf cf (put_rem kv v).
Proof.
  unfold kv_wf, put_rem. intros Hwf Hv k w. destruct (Z.eqb_spec v 0).
  - intros [_ ?]%lookup_delete_Some. eauto.
  - intros [[_ <-]|[_ ?]]%lookup_insert_Some; [lia|eauto].
Qed.

Lemma kv_wf_frac cf kv a : 0 < cf -> kv_wf cf kv -> 0 <= get_frac kv a < cf.
Proof.
  intros Hcf Hwf. unfold get_frac. destruct (kv !! frac_key a) eqn:E; simpl; [|lia].
  apply Hwf in E. lia.
Qed.

Lemma kv_wf_rem cf kv : 0 < cf -> kv_wf cf kv -> 0 <= get_rem kv < cf.
Proof.
  intros Hcf Hwf. unfold get_rem. destruct (kv !! RemainderBalanceKey) eqn:E; simpl; [|lia].
  apply Hwf in E. lia.
Qed.

Lemma kv_wf_weight cf kv : kv_wf cf kv ->
  forall k v, kv !! k = Some v -> 0 <= prefix_weight FractionalBalancePrefix id k v.
Proof.
  intros Hwf k v Hk%Hwf. unfold prefix_weight. case_match; simpl; lia.
Qed.

Lemma frac_sum_nonneg cf kv : kv_wf cf kv -> 0 <= frac_sum kv.
Proof. intros Hwf. apply msum_nonneg. by apply (kv_wf_weight cf). Qed.

Lemma frac_sum_ge2 cf kv a b :
  a <> b -> kv_wf cf kv -> get_frac kv a + get_frac kv b <= frac_sum kv.
Proof.
  intros Hne Hwf. rewrite <- !mat_frac. apply msum_ge2; [|by apply (kv_wf_weight cf)].
  intros ?%frac_key_inj. done.
Qed.

Lemma frac_sum_ge cf kv a : kv_wf cf kv -> get_frac kv a <= frac_sum kv.
Proof. intros Hwf. rewrite <- mat_frac. apply msum_ge. by apply (kv_wf_weight cf). Qed.

#[export] Hint Rewrite get_put_frac get_rem_put_frac get_rem_put_rem get_frac_put_rem
  frac_sum_put_frac frac_sum_put_rem : guru_sums.
#[export] Hint Resolve kv_wf_put_frac kv_wf_put_rem kv_wf_frac kv_wf_rem : guru.

(** * Runs of the helpers *)

Section runs.
Context `{CoinsLib, !CoinsLaws, !BankKeeper, !AccountKeeper, !BankLaws, AddressCodec}.
Variable info : EvmCoinInfo.
Implicit Types s : pb_state.

Abbreviation cf := (CF info).

Lemma one_coin_ok d a s cs s' :
  one_coin d a s = (Ok cs, s') ->
  s' = s /\ (0 < a -> coins_valid cs = true) /\
  forall d', amount_of cs d' = if decide (d = d') then a else 0.
Proof.
  unfold one_coin. intros Hr. run_inv.
  match goal with Hc : new_coin _ _ = Ok _ |- _ => apply new_coin_ok in Hc as (-> & Hd & Ha) end.
  rewrite new_coins_one in * by done. simplify_eq. split_and!; [done| |].
  - intros. destruct (Z.eqb_spec a 0); [lia|]. by apply valid_one.
  - intros d'. destruct (Z.eqb_spec a 0) as [->|].
    + rewrite amount_of_nil. by case_decide.
    + apply amount_of_one.
Qed.

Lemma one_coin_run d a s :
  denom_ok d = true -> 0 < a ->
  exists cs, one_coin d a s = (Ok cs, s) /\ coins_valid cs = true /\
    forall d', amount_of cs d' = if decide (d = d') then a else 0.
Proof.
  intros Hd Ha. exists [Coin d a]. unfold one_coin.
  rewrite new_coin_run by (done || lia). split_and!.
  - unfold lift, bind. rewrite new_coins_one by (done || lia).
    destruct (Z.eqb_spec a 0); [lia|done].
  - by apply valid_one.
  - intros. apply amount_of_one.
Qed.

Lemma on_bank_ok {A} (m : M BankState A) s a s' :
  on_bank m s = (Ok a, s') ->
  m (pb_bank s) = (Ok a, pb_bank s') /\ pb_kv s' = pb_kv s /\ pb_events s' = pb_events s.
Proof. unfold on_bank. intros (b & Hm & ->)%zoom_ok. done. Qed.

Lemma on_bank_run {A} (m : M BankState A) s a b :
  m (pb_bank s) = (Ok a, b) -> on_bank m s = (Ok a, PB (pb_kv s) b (pb_events s)).
Proof. intros Hm. unfold on_bank. by erewrite zoom_run. Qed.

Lemma update_error_fails {A} a amt e s (x : A) s' :
  updateInsufficientFundsError info a amt e s = (Ok x, s') -> False.
Proof. unfold updateInsufficientFundsError. intros. run_inv. Qed.

Lemma or_return_ok {A} (m : M pb_state A) h s a s' :
  (forall e t t', h e t = (Ok a, t') -> False) ->
  or_return m h s = (Ok a, s') -> m s = (Ok a, s').
Proof.
  intros Hh. unfold or_return. intros Hr. run_inv.
  match goal with Ht : try _ _ = _ |- _ => apply try_ok in Ht end.
  destruct x; run_inv; [done|]. exfalso. eauto.
Qed.

Lemma or_return_run {A} (m : M pb_state A) h s a s' :
  m s = (Ok a, s') -> or_return m h s = (Ok a, s').
Proof. intros Hm. unfold or_return, bind, try. by rewrite Hm. Qed.

Lemma SetFractionalBalance_ok a v s u s' :
  SetFractionalBalance info a v s = (Ok u, s') ->
  a <> [] /\ 0 <= v /\ (v = 0 \/ v < cf) /\
  s' = PB (put_frac (pb_kv s) a v) (pb_bank s) (pb_events s).
Proof.
  unfold SetFractionalBalance, ValidateFractionalAmount, DeleteFractionalBalance, put_frac, set_kv.
  intros Hr. run_inv; zbool; subst.
  - split_and!; try done. by left.
  - destruct (Z.leb_spec v 0); [done|]. destruct (Z.leb_spec (CF info) v); [done|].
    run_inv. split_and!; [done|lia|lia|].
    destruct (Z.eqb_spec v 0); [lia|done].
Qed.

Lemma SetFractionalBalance_run a v s :
  a <> [] -> 0 <= v < cf ->
  SetFractionalBalance info a v s =
    (Ok tt, PB (put_frac (pb_kv s) a v) (pb_bank s) (pb_events s)).
Proof.
  intros Ha Hv. unfold SetFractionalBalance, ValidateFractionalAmount, put_frac.
  rewrite bool_decide_eq_false_2 by done. destruct (Z.eqb_spec v 0); [done|].
  destruct (Z.leb_spec v 0); [lia|]. destruct (Z.leb_spec (CF info) v); [lia|done].
Qed.

Lemma SetRemainderAmount_ok v s u s' :
  SetRemainderAmount info v s = (Ok u, s') ->
  0 <= v /\ (v = 0 \/ v < cf) /\
  s' = PB (put_rem (pb_kv s) v) (pb_bank s) (pb_events s).
Proof.
  unfold SetRemainderAmount, ValidateFractionalAmount, DeleteRemainderAmount, put_rem, set_kv.
  intros Hr. run_inv; zbool; subst.
  - split_and!; try done. by left.
  - destruct (Z.leb_spec v 0); [done|]. destruct (Z.leb_spec (CF info) v); [done|].
    run_inv. split_and!; [lia|lia|].
    destruct (Z.eqb_spec v 0); [lia|done].
Qed.

Lemma SetRemainderAmount_run v s :
  0 <= v < cf ->
  SetRemainderAmount info v s = (Ok tt, PB (put_rem (pb_kv s) v) (pb_bank s) (pb_events s)).
Proof.
  intros Hv. unfold SetRemainderAmount, ValidateFractionalAmount, put_rem.
  destruct (Z.eqb_spec v 0); [done|].
  destruct (Z.leb_spec v 0); [lia|]. destruct (Z.leb_spec (CF info) v); [lia|done].
Qed.

(** ** The pure borrow and carry computations *)

Lemma subFrom_ok c x r :
  0 <= c -> subFromFractionalBalance info c x = Ok r ->
  r.1 = c - x + (if r.2 then cf else 0) /\ r.2 = (c <? x) /\ c < cf /\ x < cf.
Proof.
  unfold subFromFractionalBalance. intros Hc Hr. run_inv; zbool; int_inv; simpl.
  - destruct (Z.ltb_spec c x); lia || (split_and!; reflexivity || lia).
  - destruct (Z.ltb_spec c x); lia || (split_and!; reflexivity || lia).
Qed.

Lemma addTo_ok c x r :
  0 <= x -> addToFractionalBalance info c x = Ok r ->
  r.1 = c + x - (if r.2 then cf else 0) /\ r.2 = (cf <=? c + x) /\ c < cf /\ x < cf.
Proof.
  unfold addToFractionalBalance. intros Hc Hr. run_inv; zbool; int_inv; simpl.
  - destruct (Z.leb_spec cf (c + x)); lia || (split_and!; reflexivity || lia).
  - destruct (Z.leb_spec cf (c + x)); lia || (split_and!; reflexivity || lia).
Qed.

Hypothesis Hinfo : info_valid info.

Lemma cf_small : 0 < cf <= 10 ^ 17.
Proof. split; [by apply factor_pos | by apply factor_le]. Qed.

Lemma int_chk_small z : - (4 * cf) <= z <= 4 * cf -> int_chk z = Ok z.
Proof.
  intros Hz. apply int_chk_fits. pose proof cf_small.
  assert (4 * 10 ^ 17 < 2 ^ 256) by done. lia.
Qed.

Lemma subFrom_run c x :
  0 <= c < cf -> 0 <= x < cf ->
  subFromFractionalBalance info c x = Ok (c - x + (if c <? x then cf else 0), c <? x).
Proof.
  intros Hc Hx. unfold subFromFractionalBalance, int_sub, int_add.
  destruct (Z.leb_spec cf c), (Z.leb_spec cf x); try lia.
  rewrite int_chk_small by lia. simpl.
  destruct (Z.ltb_spec (c - x) 0), (Z.ltb_spec c x); try lia; simpl.
  - rewrite int_chk_small by lia. done.
  - by rewrite Z.add_0_r.
Qed.

Lemma addTo_run c x :
  0 <= c < cf -> 0 <= x < cf ->
  addToFractionalBalance info c x = Ok (c + x - (if cf <=? c + x then cf else 0), cf <=? c + x).
Proof.
  intros Hc Hx. unfold addToFractionalBalance, int_sub, int_add.
  destruct (Z.leb_spec cf c), (Z.leb_spec cf x); try lia.
  rewrite int_chk_small by lia. simpl.
  destruct (Z.leb_spec cf (c + x)); simpl.
  - rewrite int_chk_small by lia. done.
  - by rewrite Z.sub_0_r.
Qed.

(** ** Splitting an amount *)

Lemma quo_cf amt : 0 <= amt < 2 ^ 256 -> int_quo amt cf = Ok (amt / cf).
Proof.
  intros Ha. pose proof cf_small. unfold int_quo. destruct (Z.eqb_spec cf 0); [lia|].
  rewrite quot_nonneg by lia. apply int_chk_fits.
  assert (0 <= amt / cf <= amt); [|lia]. split; [by apply Z.div_pos; lia|].
  apply Z.div_le_upper_bound; nia.
Qed.

Lemma mod_cf amt : int_mod amt cf = Ok (amt mod cf).
Proof.
  pose proof cf_small. unfold int_mod. destruct (Z.eqb_spec cf 0); [lia|].
  by rewrite Z.abs_eq by lia.
Qed.

Lemma quo_cf_ok amt q : 0 <= amt -> int_quo amt cf = Ok q -> q = amt / cf.
Proof. intros Ha Hq. int_inv. apply quot_nonneg; [done|]. apply cf_small. Qed.

Lemma mod_cf_ok amt q : int_mod amt cf = Ok q -> q = amt mod cf.
Proof. rewrite mod_cf. congruence. Qed.
End runs.
