(* ===== verification/PreciseBankOps.v ===== *)
(** The effect of the three x/precisebank operations on extended coins, as a
    change of the store and a net change of the integer balances. *)
From S2P Require Import Prelude KVStore Sdk EvmConfig PreciseBank PreciseBankInv.

(** What one transfer of [n] integer coins adds to the balance of [a]. *)
Definition pays (f t : addr) (n : Z) (a : addr) : Z :=
  (if decide (a = t) then n else 0) - (if decide (a = f) then n else 0).
Definition gets_ (t : addr) (n : Z) (a : addr) : Z := if decide (a = t) then n else 0.

Section ops.
Context `{CoinsLib, !CoinsLaws, !BankKeeper, !AccountKeeper, !BankLaws, AddressCodec}.
Variable info : EvmCoinInfo.
Variable reserve : addr.
Hypothesis Hinfo : info_valid info.
Hypothesis Hreserve : ak_module_address ModuleName = Some reserve.
Implicit Types s : pb_state.

Abbreviation cf := (CF info).
Abbreviation int := (IntegerCoinDenom info).
Abbreviation frac s a := (get_frac (pb_kv s) a).

(** The integer balances move by [dl], the integer supply by [ds]; nothing
    else of the bank changes. *)
Record bank_delta (b b' : BankState) (dl : addr -> Z) (ds : Z) : Prop := {
  bd_balance : forall a d, bk_balance b' a d =
    bk_balance b a d + (if decide (d = int) then dl a else 0);
  bd_locks : same_locks b b';
  bd_supply : forall d, bk_supply b' d =
    bk_supply b d + (if decide (d = int) then ds else 0);
}.

Lemma bank_delta_refl b : bank_delta b b (fun _ => 0) 0.
Proof. split; intros; rewrite ?Z.add_0_r; repeat case_decide; lia || done. Qed.

Lemma bank_delta_trans b b1 b2 dl1 ds1 dl2 ds2 :
  bank_delta b b1 dl1 ds1 -> bank_delta b1 b2 dl2 ds2 ->
  bank_delta b b2 (fun a => dl1 a + dl2 a) (ds1 + ds2).
Proof.
  intros [B1 L1 S1] [B2 L2 S2]. split.
  - intros a d. rewrite B2, B1. case_decide; lia.
  - intros a d. by rewrite L2, L1.
  - intros d. rewrite S2, S1. case_decide; lia.
Qed.

Lemma bank_delta_ext b b' dl ds dl' ds' :
  bank_delta b b' dl ds -> (forall a, dl a = dl' a) -> ds = ds' -> bank_delta b b' dl' ds'.
Proof.
  intros [B1 L1 S1] He ->. split; [|done..]. intros a d. by rewrite B1, He.
Qed.

(** ** Bank calls on one integer coin *)

Definition framed (s s' : pb_state) : Prop :=
  pb_kv s' = pb_kv s /\ pb_events s' = pb_events s.

Lemma send_delta f t n cs b b' :
  (forall d, amount_of cs d = if decide (int = d) then n else 0) ->
  bk_SendCoins f t cs b = (Ok tt, b') ->
  bank_delta b b' (pays f t n) 0 /\ n <= bk_spendable b f int.
Proof.
  intros Hcs (Hm & Hl & Hs & Hsp)%bank_send_ok. split.
  - split; [|done|].
    + intros a d. rewrite (Hm a d), !Hcs. unfold pays. repeat case_decide; subst; done || lia.
    + intros d. rewrite Hs. case_decide; lia.
  - specialize (Hsp int). rewrite Hcs in Hsp. by rewrite decide_True in Hsp.
Qed.

Lemma mint_delta m a n cs b b' :
  ak_module_address m = Some a ->
  (forall d, amount_of cs d = if decide (int = d) then n else 0) ->
  bk_MintCoins m cs b = (Ok tt, b') -> bank_delta b b' (gets_ a n) n.
Proof.
  intros Ha Hcs [[Hi Hsu] Hl]%(bank_mint_ok m a); [|done]. split; [|done|].
  - intros a' d. rewrite Hi, Hcs. unfold gets_. repeat case_decide; subst; done || lia.
  - intros d. rewrite Hsu, Hcs. repeat case_decide; subst; done || lia.
Qed.

Lemma burn_delta m a n cs b b' :
  ak_module_address m = Some a ->
  (forall d, amount_of cs d = if decide (int = d) then n else 0) ->
  bk_BurnCoins m cs b = (Ok tt, b') ->
  bank_delta b b' (gets_ a (- n)) (- n) /\ n <= bk_spendable b a int.
Proof.
  intros Ha Hcs ([Hi Hsu] & Hl & Hsp)%(bank_burn_ok m a); [|done]. split.
  - split; [|done|].
    + intros a' d. rewrite Hi, Hcs. unfold gets_. repeat case_decide; subst; done || lia.
    + intros d. rewrite Hsu, Hcs. repeat case_decide; subst; done || lia.
  - specialize (Hsp int). rewrite Hcs in Hsp. by rewrite decide_True in Hsp.
Qed.

(** The blocks of the Go code that move integer coins, each with its guard.
    [h] is what the block does with an error; it never makes it succeed. *)
Lemma send_block_spends (c : bool) f t n h s u s' (call : coins -> M BankState unit) :
  (forall e t1 t2, h e t1 = (Ok u, t2) -> False) ->
  (forall cs, call cs = bk_SendCoins f t cs) ->
  (if c then let! cs := one_coin int n in or_return (on_bank (call cs)) h
   else ret tt) s = (Ok u, s') ->
  framed s s' /\ bank_delta (pb_bank s) (pb_bank s') (if c then pays f t n else fun _ => 0) 0 /\
  (c = true -> n <= bk_spendable (pb_bank s) f int).
Proof.
  intros Hh Hcall Hr. destruct c; run_inv.
  - match goal with Ho : one_coin _ _ _ = _ |- _ => apply one_coin_ok in Ho as (-> & _ & Hcs) end.
    apply or_return_ok in Hr; [|done]. rewrite Hcall in Hr.
    apply on_bank_ok in Hr as (Hr & Hkv & Hev). destruct u.
    apply (send_delta f t n) in Hr as [Hd Hn]; done.
  - split_and!; [done|apply bank_delta_refl|done].
Qed.

Corollary send_block_ok (c : bool) f t n h s u s' (call : coins -> M BankState unit) :
  (forall e t1 t2, h e t1 = (Ok u, t2) -> False) ->
  (forall cs, call cs = bk_SendCoins f t cs) ->
  (if c then let! cs := one_coin int n in or_return (on_bank (call cs)) h
   else ret tt) s = (Ok u, s') ->
  framed s s' /\ bank_delta (pb_bank s) (pb_bank s') (if c then pays f t n else fun _ => 0) 0.
Proof.
  intros Hh Hc Hr. by destruct (send_block_spends c f t n h s u s' call Hh Hc Hr) as (? & ? & _).
Qed.

Lemma mint_block_ok (c : bool) m a n s u s' :
  ak_module_address m = Some a ->
  (if c then let! cs := one_coin int n in on_bank (bk_MintCoins m cs)
   else ret tt) s = (Ok u, s') ->
  framed s s' /\
  bank_delta (pb_bank s) (pb_bank s') (if c then gets_ a n else fun _ => 0) (if c then n else 0).
Proof.
  intros Ha Hr. destruct c; run_inv.
  - match goal with Ho : one_coin _ _ _ = _ |- _ => apply one_coin_ok in Ho as (-> & _ & Hcs) end.
    apply on_bank_ok in Hr as (Hr & Hkv & Hev). destruct u.
    eapply (mint_delta m a n) in Hr; done.
  - split; [done|]. apply bank_delta_refl.
Qed.

(** Two payments in a row, each within what its payer could spend. *)
Lemma bank_delta_spends (c1 c2 : bool) f t n b b1 :
  f <> t ->
  bank_delta b b1 (if c1 then pays f t n else fun _ => 0) 0 ->
  (c1 = true -> n <= bk_spendable b f int) ->
  (c2 = true -> 1 <= bk_spendable b1 f int) ->
  (c1 = true -> n <= bk_spendable b f int) /\
  (c2 = true -> 1 + (if c1 then n else 0) <= bk_spendable b f int).
Proof.
  intros Hne [B1 L1 _] Hp Hq. split; [done|]. intros Hc. specialize (Hq Hc).
  rewrite bank_spendable, B1, (L1 f int), decide_True in Hq by done.
  rewrite bank_spendable. destruct c1; [|lia].
  unfold pays in Hq. rewrite decide_False, decide_True in Hq by done. lia.
Qed.

(** ** sendExtendedCoins *)

Lemma sendExtendedCoins_effect from to amt s u s' :
  0 <= amt -> from <> to -> kv_wf cf (pb_kv s) ->
  sendExtendedCoins info from to amt s = (Ok u, s') ->
  let F := amt mod cf in
  let borrow := frac s from <? F in
  let carry := cf <=? frac s to + F in
  pb_kv s' = put_frac (put_frac (pb_kv s)
               from (frac s from - F + (if borrow then cf else 0)))
               to (frac s to + F - (if carry then cf else 0)) /\
  pb_events s' = pb_events s /\
  bank_delta (pb_bank s) (pb_bank s')
    (fun a => pays from to (amt / cf) a
       + (if borrow then pays from reserve 1 a else 0)
       + (if carry then pays reserve to 1 a else 0)) 0 /\
  amt <= bk_spendable (pb_bank s) from int * cf + frac s from.
Proof.
  intros Hamt Hne Hwf Hr. simpl. unfold sendExtendedCoins in Hr.
  rewrite bool_decide_eq_false_2 in Hr by done. pose proof (cf_small info Hinfo) as Hcf.
  rewrite !bind_gets in Hr.
  apply bind_lift_ok in Hr as (I & Hq & Hr). apply quo_cf_ok in Hq; [|done..]. subst I.
  apply bind_lift_ok in Hr as (F & Hq & Hr). apply mod_cf_ok in Hq; [|done]. subst F.
  pose proof (Z.mod_pos_bound amt cf ltac:(lia)) as HF.
  apply bind_lift_ok in Hr as (sb & Hsub & Hr). apply bind_lift_ok in Hr as (rc & Hadd & Hr).
  pose proof (kv_wf_frac cf (pb_kv s) from ltac:(lia) Hwf) as Hf.
  pose proof (kv_wf_frac cf (pb_kv s) to ltac:(lia) Hwf) as Ht.
  apply subFrom_ok in Hsub as (Hs1 & Hs2 & _); [|by apply Hf].
  apply addTo_ok in Hadd as (Ha1 & Ha2 & _); [|lia].
  change (GetFractionalBalance s from) with (frac s from) in *.
  change (GetFractionalBalance s to) with (frac s to) in *.
  apply bind_ok in Hr as (I & s0 & Hi & Hr).
  assert (I = amt / cf + (if sb.2 && rc.2 then 1 else 0) /\ s0 = s) as [-> ->].
  { destruct (sb.2 && rc.2); run_inv; int_inv; split; done || lia. }
  apply bind_ok in Hr as (u1 & s1 & Hb1 & Hr).
  apply (send_block_spends _ from to _ _ _ _ _ (bk_SendCoins from to)) in Hb1 as ([Hk1 He1] & Hd1 & Hp1);
    [|intros *; apply update_error_fails|done].
  apply bind_ok in Hr as (u2 & s2 & Hb2 & Hr).
  apply (send_block_spends _ from reserve _ _ _ _ _ _) in Hb2 as ([Hk2 He2] & Hd2 & Hp2);
    [|intros *; apply update_error_fails|intros; by apply bank_send_to_module].
  apply bind_ok in Hr as (u3 & s3 & Hb3 & Hr). rewrite Hreserve in Hb3. simpl in Hb3.
  apply (send_block_spends _ reserve to _ _ _ _ _ (bk_SendCoins reserve to)) in Hb3 as ([Hk3 He3] & Hd3 & _);
    [|intros; unfold panic in *; simplify_eq|done].
  apply bind_ok in Hr as (u4 & s4 & Hset & Hr).
  apply SetFractionalBalance_ok in Hset as (_ & _ & _ & ->).
  apply SetFractionalBalance_ok in Hr as (_ & _ & _ & ->). cbn [pb_kv pb_events pb_bank].
  split_and!; [|congruence| |].
  - rewrite Hk3, Hk2, Hk1, Hs1, Ha1, Hs2, Ha2. done.
  - eapply bank_delta_ext; [exact (bank_delta_trans _ _ _ _ _ _ _ Hd1
      (bank_delta_trans _ _ _ _ _ _ _ Hd2 Hd3))| |done].
    intros a. simpl. rewrite Hs2, Ha2.
    assert (0 <= amt / cf) by (apply Z.div_pos; lia).
    destruct (frac s from <? amt mod cf), (cf <=? frac s to + amt mod cf); simpl;
      match goal with |- context [0 <? ?z] => destruct (Z.ltb_spec 0 z) end;
      unfold pays; repeat case_decide; lia.
  - rewrite Hs2, Ha2 in *. pose proof (bank_delta_spends _ _ _ _ _ _ _ Hne Hd1 Hp1 Hp2) as [Hq1 Hq2].
    pose proof (div_mod_lt amt cf ltac:(lia)) as [Hdm _].
    pose proof (bank_spendable (pb_bank s) from int) as H5.
    assert (amt / cf + (if frac s from <? amt mod cf then 1 else 0)
            <= bk_spendable (pb_bank s) from int); [|destruct (Z.ltb_spec (frac s from) (amt mod cf)); nia].
    assert (0 <= amt / cf) as H6 by (apply Z.div_pos; lia). clear - Hq1 Hq2 H5 H6.
    destruct (frac s from <? amt mod cf), (cf <=? frac s to + amt mod cf); simpl in *;
      match goal with H : context [0 <? ?z] |- _ => destruct (Z.ltb_spec 0 z) end; lia.
Qed.

(** ** mintExtendedCoin *)

Lemma mintExtendedCoin_effect m a amt s u s' :
  0 <= amt -> ak_module_address m = Some a -> kv_wf cf (pb_kv s) ->
  mintExtendedCoin info m amt s = (Ok u, s') ->
  let F := amt mod cf in
  let r := get_rem (pb_kv s) in
  let carry := cf <=? frac s a + F in
  let short := r <? F in
  pb_kv s' = put_rem (put_frac (pb_kv s) a (frac s a + F - (if carry then cf else 0)))
               (r - F + (if short then cf else 0)) /\
  pb_events s' = pb_events s /\
  bank_delta (pb_bank s) (pb_bank s')
    (fun x => gets_ a (amt / cf) x
       + (if carry then pays reserve a 1 x else 0)
       + (if short then gets_ reserve 1 x else 0))
    (amt / cf + (if short then 1 else 0)).
Proof.
  intros Hamt Ha Hwf Hr. simpl. unfold mintExtendedCoin in Hr. rewrite Ha in Hr.
  change (default [] (Some a)) with a in Hr. pose proof (cf_small info Hinfo) as Hcf.
  rewrite !bind_gets in Hr.
  apply bind_lift_ok in Hr as (I & Hq & Hr). apply quo_cf_ok in Hq; [|done..]. subst I.
  apply bind_lift_ok in Hr as (F & Hq & Hr). apply mod_cf_ok in Hq; [|done]. subst F.
  pose proof (Z.mod_pos_bound amt cf ltac:(lia)) as HF.
  rewrite !bind_gets in Hr.
  apply bind_lift_ok in Hr as (R & Hq & Hr). int_inv.
  apply bind_lift_ok in Hr as (N & Hq & Hr). int_inv.
  change (GetFractionalBalance s a) with (frac s a) in *.
  change (GetRemainderAmount s) with (get_rem (pb_kv s)) in *.
  set (F := amt mod cf) in *. set (f := frac s a) in *. set (r := get_rem (pb_kv s)) in *.
  apply bind_ok in Hr as (u1 & s1 & Hb1 & Hr).
  assert (framed s s1 /\ bank_delta (pb_bank s) (pb_bank s1)
    (if (cf <=? f + F) && (0 <=? r - F) then pays reserve a 1 else fun _ => 0) 0)
    as [[Hk1 He1] Hd1].
  { apply (send_block_ok _ reserve a 1 (fun e => panic (e_msg e)) _ u1 _
      (fun cs => bk_SendCoinsFromModuleToModule ModuleName m cs)).
    - intros. unfold panic in *. simplify_eq.
    - intros. by apply bank_send_modules.
    - revert Hb1. destruct ((cf <=? f + F) && (0 <=? r - F)); intros Hb1; [|exact Hb1].
      apply bind_ok in Hb1 as (cs & t & Ho & Hb1). rewrite (bind_run _ _ _ _ _ Ho).
      by apply or_return_run. }
  apply bind_ok in Hr as (I & s0 & Hi & Hr).
  assert (I = amt / cf + (if (cf <=? f + F) && (r - F <? 0) then 1 else 0) /\ s0 = s1)
    as [-> ->].
  { destruct ((cf <=? f + F) && (r - F <? 0)); run_inv; int_inv; split; done || lia. }
  clear Hi. apply bind_ok in Hr as (N & s0 & Hi & Hr).
  assert (N = f + F - (if cf <=? f + F then cf else 0) /\ s0 = s1) as [-> ->].
  { destruct (cf <=? f + F); run_inv; int_inv; split; done || lia. }
  apply bind_ok in Hr as (u2 & s2 & Hb2 & Hr).
  apply (mint_block_ok _ m a) in Hb2 as [[Hk2 He2] Hd2]; [|done].
  apply bind_ok in Hr as (u3 & s3 & Hset & Hr).
  apply SetFractionalBalance_ok in Hset as (_ & _ & _ & ->).
  apply bind_lift_ok in Hr as (T & Hq & Hr). int_inv.
  apply bind_ok in Hr as (u4 & s4 & Hb4 & Hr).
  apply (mint_block_ok _ ModuleName reserve) in Hb4 as [[Hk4 He4] Hd4]; [|done].
  clear Hi. apply bind_ok in Hr as (R & s0 & Hi & Hr).
  assert (R = r - F + (if r <? F then cf else 0) /\ s0 = s4) as [-> ->].
  { destruct (Z.ltb_spec (r - F) 0), (Z.ltb_spec r F); try lia; run_inv; int_inv; split; done || lia. }
  apply SetRemainderAmount_ok in Hr as (_ & _ & ->). cbn [pb_kv pb_events pb_bank] in *.
  split_and!; [|congruence|].
  - rewrite Hk4, Hk2, Hk1. done.
  - assert (0 <= amt / cf) by (apply Z.div_pos; lia).
    eapply bank_delta_ext; [exact (bank_delta_trans _ _ _ _ _ _ _ Hd1
      (bank_delta_trans _ _ _ _ _ _ _ Hd2 Hd4))| |]; simpl; [intros x|];
    destruct (Z.ltb_spec (r - F) 0), (Z.ltb_spec r F), (Z.leb_spec 0 (r - F)),
      (Z.leb_spec cf (f + F)); try lia; simpl;
    match goal with |- context [0 <? ?z] => destruct (Z.ltb_spec 0 z) end;
    unfold pays, gets_; repeat case_decide; lia.
Qed.

(** ** burnExtendedCoin *)

Lemma burnExtendedCoin_effect m a amt s u s' :
  0 <= amt -> ak_module_address m = Some a -> kv_wf cf (pb_kv s) ->
  burnExtendedCoin info m amt s = (Ok u, s') ->
  let F := amt mod cf in
  let r := get_rem (pb_kv s) in
  let borrow := frac s a <? F in
  let over := cf <=? r + F in
  pb_kv s' = put_rem (put_frac (pb_kv s) a (frac s a - F + (if borrow then cf else 0)))
               (r + F - (if over then cf else 0)) /\
  pb_events s' = pb_events s /\
  bank_delta (pb_bank s) (pb_bank s')
    (fun x => gets_ a (- (amt / cf)) x
       + (if borrow then pays a reserve 1 x else 0)
       + (if over then gets_ reserve (-1) x else 0))
    (- (amt / cf) - (if over then 1 else 0)).
Proof.
  intros Hamt Ha Hwf Hr. simpl. unfold burnExtendedCoin in Hr. rewrite Ha in Hr.
  change (default [] (Some a)) with a in Hr. pose proof (cf_small info Hinfo) as Hcf.
  rewrite !bind_gets in Hr.
  apply bind_lift_ok in Hr as (I & Hq & Hr). apply quo_cf_ok in Hq; [|done..]. subst I.
  apply bind_lift_ok in Hr as (F & Hq & Hr). apply mod_cf_ok in Hq; [|done]. subst F.
  pose proof (Z.mod_pos_bound amt cf ltac:(lia)) as HF.
  apply bind_lift_ok in Hr as (N & Hq & Hr). int_inv.
  apply bind_lift_ok in Hr as (R & Hq & Hr). int_inv.
  change (GetFractionalBalance s a) with (frac s a) in *.
  change (GetRemainderAmount s) with (get_rem (pb_kv s)) in *.
  set (F := amt mod cf) in *. set (f := frac s a) in *. set (r := get_rem (pb_kv s)) in *.
  apply bind_ok in Hr as (c1 & s0 & Hi & Hr).
  assert (c1 = (if (f - F <? 0) && (cf <=? r + F)
                then (f - F + cf, r + F - cf, amt / cf + 1)
                else (f - F, r + F, amt / cf)) /\ s0 = s) as [-> ->].
  { clear Hr. destruct ((f - F <? 0) && (cf <=? r + F)); run_inv; int_inv; done. }
  apply bind_ok in Hr as (N & s1 & Hb1 & Hr).
  assert (N = f - F + (if f - F <? 0 then cf else 0) /\ framed s s1 /\
    bank_delta (pb_bank s) (pb_bank s1)
      (if (f - F <? 0) && negb (cf <=? r + F) then pays a reserve 1 else fun _ => 0) 0)
    as (-> & [Hk1 He1] & Hd1).
  { clear Hr. destruct (f - F <? 0), (cf <=? r + F); cbn [andb negb fst snd] in *; run_inv; int_inv;
      try (split_and!; [lia|done|apply bank_delta_refl]).
    match goal with Ho : one_coin _ _ _ = (Ok ?cs, _), Hs : or_return _ _ _ = (Ok ?v, _) |- _ =>
      split; [done|]; apply (send_block_ok true a reserve 1
        (updateInsufficientFundsError info a amt) _ v _
        (fun cs => bk_SendCoinsFromModuleToModule m ModuleName cs));
        [intros *; apply update_error_fails|intros; by apply bank_send_modules|
        by rewrite (bind_run _ _ _ _ _ Ho)] end. }
  clear Hb1. apply bind_ok in Hr as (R & s2 & Hb2 & Hr).
  assert (R = r + F - (if cf <=? r + F then cf else 0) /\ framed s1 s2 /\
    bank_delta (pb_bank s1) (pb_bank s2)
      (if negb (f - F <? 0) && (cf <=? r + F) then gets_ reserve (-1) else fun _ => 0)
      (if negb (f - F <? 0) && (cf <=? r + F) then -1 else 0))
    as (-> & [Hk2 He2] & Hd2).
  { clear Hr. destruct (f - F <? 0), (cf <=? r + F); cbn [andb negb fst snd] in *; run_inv; int_inv;
      try (split_and!; [lia|done|apply bank_delta_refl]).
    match goal with Ho : one_coin _ _ _ = _, Hs : on_bank _ _ = (Ok ?v, _) |- _ =>
      apply one_coin_ok in Ho as (-> & _ & Hcs);
      apply on_bank_ok in Hs as (Hs & ? & ?); destruct v;
      apply (burn_delta ModuleName reserve 1) in Hs as [Hs _]; done end. }
  apply bind_ok in Hr as (u3 & s3 & Hb3 & Hr).
  set (B := amt / cf + (if (f - F <? 0) && (cf <=? r + F) then 1 else 0)) in *.
  assert (framed s2 s3 /\ bank_delta (pb_bank s2) (pb_bank s3) (gets_ a (- B)) (- B))
    as [[Hk3 He3] Hd3].
  { clear Hr Hb2 Hi. replace ((if (f - F <? 0) && (cf <=? r + F)
                then (f - F + cf, r + F - cf, amt / cf + 1)
                else (f - F, r + F, amt / cf)).2) with B in Hb3
      by (subst B; destruct ((f - F <? 0) && (cf <=? r + F)); simpl; lia).
    clearbody B. destruct (Z.eqb_spec B 0) as [HB|HB]; cbn [negb] in Hb3; run_inv.
    - split; [done|]. eapply bank_delta_ext; [apply bank_delta_refl| |lia].
      intros x. unfold gets_. case_decide; lia.
    - match goal with Ho : one_coin _ _ _ = _ |- _ => apply one_coin_ok in Ho as (-> & _ & Hcs) end.
      apply or_return_ok in Hb3; [|intros *; apply update_error_fails].
      apply on_bank_ok in Hb3 as (Hs & ? & ?). destruct u3.
      apply (burn_delta m a B) in Hs as [Hs _]; done. }
  apply bind_ok in Hr as (u4 & s4 & Hset & Hr).
  apply SetFractionalBalance_ok in Hset as (_ & _ & _ & ->).
  apply SetRemainderAmount_ok in Hr as (_ & _ & ->). cbn [pb_kv pb_events pb_bank] in *.
  assert ((f - F <? 0) = (f <? F)) as HfF
    by (destruct (Z.ltb_spec (f - F) 0), (Z.ltb_spec f F); done || lia).
  rewrite <- HfF. split_and!; [|congruence|].
  - rewrite Hk3, Hk2, Hk1. done.
  - eapply bank_delta_ext; [exact (bank_delta_trans _ _ _ _ _ _ _ Hd1
      (bank_delta_trans _ _ _ _ _ _ _ Hd2 Hd3))| |]; simpl; [intros x|]; subst B;
    destruct (f - F <? 0), (cf <=? r + F); simpl;
    unfold pays, gets_; repeat case_decide; lia.
Qed.
End ops.
