(* ===== verification/PreciseBankSpec.v ===== *)
(** The contract of x/precisebank: a ledger of extended balances and an
    extended supply, the backing invariant of the reserve, and the proof that
    the three operations on extended coins implement transfer, issue and
    withdrawal on that ledger; and when they succeed: a transfer of extended coins
    within the sender's spendable extended balance always does, one beyond it
    always ends in [ErrInsufficientFunds]; the reserve never runs dry. *)
From S2P Require Import Prelude KVStore Sdk EvmConfig PreciseBank PreciseBankInv PreciseBankOps.

(** * The abstract ledger *)

Record ledger := Ledger { l_balance : addr -> Z; l_supply : Z }.

Definition l_transfer (from to : addr) (n : Z) (l : ledger) : ledger :=
  Ledger (fun a => l_balance l a - (if decide (a = from) then n else 0)
                                 + (if decide (a = to) then n else 0))
         (l_supply l).
(** Issue [n] to [a0]; withdraw when [n] is negative. *)
Definition l_issue (a0 : addr) (n : Z) (l : ledger) : ledger :=
  Ledger (fun a => l_balance l a + (if decide (a = a0) then n else 0)) (l_supply l + n).

(** Two ledgers are the same when they give the same answers. *)
Definition ledger_eq (l1 l2 : ledger) : Prop :=
  (forall a, l_balance l1 a = l_balance l2 a) /\ l_supply l1 = l_supply l2.
Infix "≡l" := ledger_eq (at level 70) : guru_scope.

#[export] Instance ledger_eq_equiv : Equivalence ledger_eq.
Proof.
  split.
  - by intros l.
  - intros l1 l2 [Hb Hs]. by split.
  - intros l1 l2 l3 [Hb Hs] [Hb' Hs']. split; [|congruence]. intros a. by rewrite Hb.
Qed.

#[export] Instance l_transfer_proper f t n : Proper (ledger_eq ==> ledger_eq) (l_transfer f t n).
Proof. intros l1 l2 [Hb Hs]. split; simpl; [|done]. intros a. by rewrite Hb. Qed.

#[export] Instance l_issue_proper a n : Proper (ledger_eq ==> ledger_eq) (l_issue a n).
Proof. intros l1 l2 [Hb Hs]. split; simpl; [|by rewrite Hs]. intros a'. by rewrite Hb. Qed.

Lemma l_transfer_add f t n m l : l_transfer f t m (l_transfer f t n l) ≡l l_transfer f t (n + m) l.
Proof. split; simpl; [|done]. intros a. repeat case_decide; lia. Qed.

Lemma l_issue_add a n m l : l_issue a m (l_issue a n l) ≡l l_issue a (n + m) l.
Proof. split; simpl; [|lia]. intros x. repeat case_decide; lia. Qed.

Lemma l_transfer_0 f t l : l_transfer f t 0 l ≡l l.
Proof. split; simpl; [|done]. intros a. repeat case_decide; lia. Qed.

Lemma l_issue_0 a l : l_issue a 0 l ≡l l.
Proof. split; simpl; [|lia]. intros x. repeat case_decide; lia. Qed.

Lemma l_transfer_self f n l : l_transfer f f n l ≡l l.
Proof. split; simpl; [|done]. intros a. repeat case_decide; lia. Qed.

Section spec.
Context `{CoinsLib, !CoinsLaws, !BankKeeper, !AccountKeeper, !BankLaws, AddressCodec}.
Variable info : EvmCoinInfo.
Variable reserve : addr.
Implicit Types s : pb_state.

Abbreviation cf := (CF info).
Abbreviation int := (IntegerCoinDenom info).
Abbreviation frac s a := (get_frac (pb_kv s) a).
Abbreviation bal s a := (bk_balance (pb_bank s) a int).

(** What [GetBalance] shows for the extended denom ([GetBalance_abs] in
    [PreciseBankThms]): the reserve always shows zero. *)
Definition abs_balance s (a : addr) : Z :=
  if decide (a = reserve) then 0 else bal s a * cf + frac s a.
Definition abs s : ledger :=
  Ledger (abs_balance s) (bk_supply (pb_bank s) int * cf - get_rem (pb_kv s)).

(** The reserve backs the fractional balances and the remainder exactly. *)
Record pb_inv s : Prop := {
  inv_wf : kv_wf cf (pb_kv s);
  inv_backed : bal s reserve * cf = frac_sum (pb_kv s) + get_rem (pb_kv s);
}.

(** The part of the state no operation on extended coins touches. *)
Definition untouched s s' : Prop :=
  (forall a d, d <> int -> bk_balance (pb_bank s') a d = bk_balance (pb_bank s) a d) /\
  (forall d, d <> int -> bk_supply (pb_bank s') d = bk_supply (pb_bank s) d) /\
  same_locks (pb_bank s) (pb_bank s').

Lemma untouched_refl s : untouched s s.
Proof. split_and!; by intros. Qed.

Lemma untouched_trans s1 s2 s3 : untouched s1 s2 -> untouched s2 s3 -> untouched s1 s3.
Proof.
  intros (B1 & S1 & L1) (B2 & S2 & L2). split_and!.
  - intros. by rewrite B2, B1.
  - intros. by rewrite S2, S1.
  - intros a d. by rewrite L2, L1.
Qed.

Lemma bank_delta_untouched s s' dl ds :
  bank_delta info (pb_bank s) (pb_bank s') dl ds -> untouched s s'.
Proof.
  intros [B L S]. split_and!; [| |done]; intros; rewrite ?B, ?S, decide_False by done; lia.
Qed.

Lemma abs_delta s s' dl ds a :
  bank_delta info (pb_bank s) (pb_bank s') dl ds ->
  abs_balance s' a = abs_balance s a +
    (if decide (a = reserve) then 0 else dl a * cf + (frac s' a - frac s a)).
Proof.
  intros [B _ _]. unfold abs_balance. case_decide; [lia|]. rewrite B, decide_True by done. lia.
Qed.

Hypothesis Hinfo : info_valid info.
Hypothesis Hreserve : ak_module_address ModuleName = Some reserve.

Ltac use_inv Hinv :=
  destruct Hinv as [Hwf Hback]; pose proof (cf_small info Hinfo) as Hcf;
  pose proof (kv_wf_rem cf _ ltac:(lia) Hwf) as Hrem.

Lemma send_refines from to amt s u s' :
  pb_inv s -> 0 <= amt -> from <> reserve -> to <> reserve ->
  sendExtendedCoins info from to amt s = (Ok u, s') ->
  pb_inv s' /\ abs s' ≡l l_transfer from to amt (abs s) /\ untouched s s' /\
  pb_events s' = pb_events s.
Proof.
  intros Hinv Hamt Hf Ht Hr. destruct (decide (from = to)) as [->|Hne].
  { unfold sendExtendedCoins in Hr. rewrite bool_decide_eq_true_2 in Hr by done. run_inv.
    split_and!; [done| |apply untouched_refl|done]. by rewrite l_transfer_self. }
  use_inv Hinv. apply (sendExtendedCoins_effect info reserve) in Hr as (Hkv & He & Hd & _); [|done..].
  pose proof (kv_wf_frac cf (pb_kv s) from ltac:(lia) Hwf) as Hff.
  pose proof (kv_wf_frac cf (pb_kv s) to ltac:(lia) Hwf) as Hft.
  pose proof (div_mod_lt amt cf ltac:(lia)) as [Hdm HF].
  split_and!; [split| |by eapply bank_delta_untouched|done].
  - rewrite Hkv. repeat apply kv_wf_put_frac; [done|..].
    + destruct (Z.ltb_spec (frac s from) (amt mod cf)); lia.
    + destruct (Z.leb_spec cf (frac s to + amt mod cf)); lia.
  - rewrite (bd_balance _ _ _ _ _ Hd), decide_True by done.
    rewrite Hkv. autorewrite with guru_sums. rewrite decide_False by done. unfold pays.
    destruct (frac s from <? amt mod cf), (cf <=? frac s to + amt mod cf);
      repeat case_decide; congruence || lia.
  - split; simpl.
    + intros a. rewrite (abs_delta _ _ _ _ _ Hd), Hkv. autorewrite with guru_sums. unfold pays.
      destruct (frac s from <? amt mod cf), (cf <=? frac s to + amt mod cf);
        repeat case_decide; subst; congruence || lia.
    + rewrite (bd_supply _ _ _ _ _ Hd), decide_True, Hkv by done.
      autorewrite with guru_sums. lia.
Qed.

Lemma mint_refines m a amt s u s' :
  pb_inv s -> 0 <= amt -> ak_module_address m = Some a -> a <> reserve ->
  mintExtendedCoin info m amt s = (Ok u, s') ->
  pb_inv s' /\ abs s' ≡l l_issue a amt (abs s) /\ untouched s s' /\
  pb_events s' = pb_events s.
Proof.
  intros Hinv Hamt Hm Ha Hr. use_inv Hinv.
  apply (mintExtendedCoin_effect info reserve Hinfo Hreserve m a) in Hr as (Hkv & He & Hd); [|done..].
  pose proof (kv_wf_frac cf (pb_kv s) a ltac:(lia) Hwf) as Hff.
  pose proof (div_mod_lt amt cf ltac:(lia)) as [Hdm HF].
  split_and!; [split| |by eapply bank_delta_untouched|done].
  - rewrite Hkv. apply kv_wf_put_rem; [apply kv_wf_put_frac; [done|]|].
    + destruct (Z.leb_spec cf (frac s a + amt mod cf)); lia.
    + destruct (Z.ltb_spec (get_rem (pb_kv s)) (amt mod cf)); lia.
  - rewrite (bd_balance _ _ _ _ _ Hd), decide_True by done.
    rewrite Hkv. autorewrite with guru_sums. unfold pays, gets_.
    destruct (cf <=? frac s a + amt mod cf), (get_rem (pb_kv s) <? amt mod cf);
      repeat case_decide; congruence || lia.
  - split; simpl.
    + intros x. rewrite (abs_delta _ _ _ _ _ Hd), Hkv. autorewrite with guru_sums.
      unfold pays, gets_. destruct (cf <=? frac s a + amt mod cf), (get_rem (pb_kv s) <? amt mod cf);
        repeat case_decide; subst; congruence || lia.
    + rewrite (bd_supply _ _ _ _ _ Hd), decide_True, Hkv by done. autorewrite with guru_sums.
      destruct (get_rem (pb_kv s) <? amt mod cf); lia.
Qed.

Lemma burn_refines m a amt s u s' :
  pb_inv s -> 0 <= amt -> ak_module_address m = Some a -> a <> reserve ->
  burnExtendedCoin info m amt s = (Ok u, s') ->
  pb_inv s' /\ abs s' ≡l l_issue a (- amt) (abs s) /\ untouched s s' /\
  pb_events s' = pb_events s.
Proof.
  intros Hinv Hamt Hm Ha Hr. use_inv Hinv.
  apply (burnExtendedCoin_effect info reserve Hinfo Hreserve m a) in Hr as (Hkv & He & Hd); [|done..].
  pose proof (kv_wf_frac cf (pb_kv s) a ltac:(lia) Hwf) as Hff.
  pose proof (div_mod_lt amt cf ltac:(lia)) as [Hdm HF].
  split_and!; [split| |by eapply bank_delta_untouched|done].
  - rewrite Hkv. apply kv_wf_put_rem; [apply kv_wf_put_frac; [done|]|].
    + destruct (Z.ltb_spec (frac s a) (amt mod cf)); lia.
    + destruct (Z.leb_spec cf (get_rem (pb_kv s) + amt mod cf)); lia.
  - rewrite (bd_balance _ _ _ _ _ Hd), decide_True by done.
    rewrite Hkv. autorewrite with guru_sums. unfold pays, gets_.
    destruct (frac s a <? amt mod cf), (cf <=? get_rem (pb_kv s) + amt mod cf);
      repeat case_decide; congruence || lia.
  - split; simpl.
    + intros x. rewrite (abs_delta _ _ _ _ _ Hd), Hkv. autorewrite with guru_sums.
      unfold pays, gets_. destruct (frac s a <? amt mod cf), (cf <=? get_rem (pb_kv s) + amt mod cf);
        repeat case_decide; subst; congruence || lia.
    + rewrite (bd_supply _ _ _ _ _ Hd), decide_True, Hkv by done. autorewrite with guru_sums.
      destruct (cf <=? get_rem (pb_kv s) + amt mod cf); lia.
Qed.
End spec.

(** * When the operations succeed *)

Section progress.
Context `{CoinsLib, !CoinsLaws, !BankKeeper, !AccountKeeper, !BankLaws, AddressCodec}.
Variable info : EvmCoinInfo.
Variable reserve : addr.
Implicit Types s : pb_state.

Abbreviation cf := (CF info).
Abbreviation int := (IntegerCoinDenom info).
Abbreviation ext := (ExtendedCoinDenom info).
Abbreviation frac s a := (get_frac (pb_kv s) a).
Abbreviation spendable s a := (bk_spendable (pb_bank s) a int).
Abbreviation pb_inv := (pb_inv info reserve).

Hypothesis Hinfo : info_valid info.
Hypothesis Hreserve : ak_module_address ModuleName = Some reserve.

(** The extended amount an account may spend. *)
Definition ext_spendable s a : Z := spendable s a * cf + frac s a.

Lemma spendable_nonneg b a d : 0 <= bk_spendable b a d.
Proof. rewrite bank_spendable. lia. Qed.

Abbreviation send_block c n h call :=
  (if c : bool then let! cs := one_coin int n in or_return (on_bank (call cs)) h
   else ret tt).

Lemma send_block_run (c : bool) f t n h s (call : coins -> M BankState unit) :
  (forall cs, call cs = bk_SendCoins f t cs) -> bk_restricted f t = false ->
  (c = true -> 0 < n <= spendable s f) ->
  exists s1, send_block c n h call s = (Ok tt, s1) /\ framed s s1 /\
    bank_delta info (pb_bank s) (pb_bank s1) (if c then pays f t n else fun _ => 0) 0.
Proof.
  intros Hcall Hres Hn. destruct c; [|exists s; split_and!; [done..|apply bank_delta_refl]].
  destruct (Hn eq_refl) as [Hpos Hle]. destruct (one_coin_run int n s) as (cs & Ho & Hv & Hcs);
    [apply Hinfo|done|].
  destruct (bank_send_run f t cs (pb_bank s)) as [b Hb]; [done|done| |].
  { intros d. rewrite Hcs. case_decide; [by subst|apply spendable_nonneg]. }
  exists (PB (pb_kv s) b (pb_events s)). rewrite (bind_run _ _ _ _ _ Ho). split_and!; [|done|].
  - apply or_return_run, on_bank_run. by rewrite Hcall.
  - by apply (send_delta info f t n) in Hb as [Hd _].
Qed.

(** A failing call leaves an error that is still [ErrInsufficientFunds] after
    the amounts of the message have been read. *)
Lemma send_block_short f t n s amt (call : coins -> M BankState unit) :
  (forall cs, call cs = bk_SendCoins f t cs) -> bk_restricted f t = false ->
  kv_wf cf (pb_kv s) -> 0 <= amt -> 0 < n -> spendable s f < n ->
  (spendable s f + 1) * cf < 2 ^ 256 ->
  exists e s1, send_block true n (updateInsufficientFundsError info f amt) call s
    = (Err e, s1) /\ e_kind e = ErrInsufficientFunds.
Proof.
  intros Hcall Hres Hwf Hamt Hpos Hlt Hfit.
  destruct (one_coin_run int n s) as (cs & Ho & Hv & Hcs); [apply Hinfo|done|].
  destruct (bank_send_short f t cs (pb_bank s) int) as (e & b & Hb & Hk & Hle & Hl);
    [done..|rewrite Hcs; by rewrite decide_True|].
  rewrite (bind_run _ _ _ _ _ Ho).
  set (s1 := PB (pb_kv s) b (pb_events s)).
  assert (exists c, SpendableCoin info s1 f ext = Ok c) as [c Hc].
  { pose proof (spendable_nonneg b f int). pose proof (cf_small info Hinfo).
    pose proof (kv_wf_frac cf (pb_kv s) f ltac:(lia) Hwf) as Hf.
    assert (bk_spendable b f int <= spendable s f).
    { rewrite !bank_spendable. specialize (Hle f int). rewrite (Hl f int). lia. }
    assert (denom_ok ext = true) by apply Hinfo.
    unfold SpendableCoin. rewrite bool_decide_eq_true_2 by done. simpl.
    change (GetFractionalBalance s1 f) with (frac s f). unfold int_mul, int_add.
    destruct (reserve_is f); [rewrite new_coin_run by done; eauto|].
    rewrite int_chk_fits by nia. simpl. rewrite int_chk_fits by nia. simpl.
    rewrite new_coin_run; [eauto|done|nia]. }
  assert (denom_ok ext = true) by apply Hinfo.
  unfold or_return, try, bind, on_bank, zoom. rewrite Hcall, Hb.
  unfold updateInsufficientFundsError. rewrite bool_decide_eq_true_2 by done. simpl.
  unfold bind. fold s1. rewrite Hc. simpl. rewrite new_coin_run by done.
  do 2 eexists. done.
Qed.

(** The parts of [sendExtendedCoins] before the first transfer. *)
Lemma send_unfold from to amt s :
  pb_inv s -> 0 <= amt < 2 ^ 256 -> from <> to ->
  let borrow := frac s from <? amt mod cf in
  let carry := cf <=? frac s to + amt mod cf in
  let I := amt / cf + (if borrow && carry then 1 else 0) in
  sendExtendedCoins info from to amt s =
  (do! send_block (0 <? I) I (updateInsufficientFundsError info from amt)
         (bk_SendCoins from to);
   do! send_block (borrow && negb carry) 1
         (updateInsufficientFundsError info from amt)
         (bk_SendCoinsFromAccountToModule from ModuleName);
   do! send_block (negb borrow && carry) 1
         (fun _ => panic "failed to carry fractional coins") (bk_SendCoins reserve to);
   do! SetFractionalBalance info from (frac s from - amt mod cf + (if borrow then cf else 0));
   SetFractionalBalance info to (frac s to + amt mod cf - (if carry then cf else 0))) s.
Proof.
  intros [Hwf _] Hamt Hne borrow carry I. pose proof (cf_small info Hinfo) as Hcf.
  pose proof (kv_wf_frac cf (pb_kv s) from ltac:(lia) Hwf) as Hff.
  pose proof (kv_wf_frac cf (pb_kv s) to ltac:(lia) Hwf) as Hft.
  pose proof (div_mod_lt amt cf ltac:(lia)) as [Hdm HF].
  unfold sendExtendedCoins. rewrite bool_decide_eq_false_2 by done. rewrite !bind_gets.
  change (GetFractionalBalance s from) with (frac s from).
  change (GetFractionalBalance s to) with (frac s to).
  rewrite (bind_run _ _ s (amt / cf) s) by (unfold lift; by rewrite quo_cf).
  rewrite (bind_run _ _ s (amt mod cf) s) by (unfold lift; by rewrite mod_cf).
  rewrite (bind_run _ _ s _ s) by (unfold lift; by rewrite subFrom_run).
  rewrite (bind_run _ _ s _ s) by (unfold lift; by rewrite addTo_run).
  cbn [fst snd]. fold borrow carry. rewrite (bind_run _ _ s I s); [by rewrite Hreserve|].
  subst I. destruct (borrow && carry) eqn:Hbc; [|by rewrite Z.add_0_r].
  unfold lift, int_add. rewrite int_chk_fits; [done|]. subst borrow carry. zbool. nia.
Qed.

Record send_side (from to : addr) s amt : Prop := {
  ss_inv : pb_inv s;
  ss_amt : 0 <= amt < 2 ^ 256;
  ss_from : from <> reserve /\ from <> [];
  ss_to : to <> reserve /\ to <> [];
  ss_allowed : bk_restricted from to = false /\ bk_restricted from reserve = false /\
               bk_restricted reserve to = false;
  ss_reserve : bk_locked (pb_bank s) reserve int = 0;
}.

Lemma reserve_covers_carry s from to F :
  pb_inv s -> from <> to -> F <= frac s from -> cf <= frac s to + F ->
  1 <= bk_balance (pb_bank s) reserve int.
Proof.
  intros [Hwf Hb] Hne HF Hc. pose proof (cf_small info Hinfo).
  pose proof (frac_sum_ge2 cf (pb_kv s) from to Hne Hwf).
  pose proof (kv_wf_rem cf (pb_kv s) ltac:(lia) Hwf). nia.
Qed.

Lemma send_progress from to amt s :
  send_side from to s amt -> amt <= ext_spendable s from ->
  exists s', sendExtendedCoins info from to amt s = (Ok tt, s').
Proof.
  intros [Hi Hamt [Hf Hf0] [Ht Ht0] (R1 & R2 & R3) Hlk] Hsp.
  destruct (decide (from = to)) as [->|Hne].
  { unfold sendExtendedCoins. rewrite bool_decide_eq_true_2 by done. by eexists. }
  rewrite send_unfold by done. pose proof Hi as [Hwf _].
  pose proof (cf_small info Hinfo) as Hcf. unfold ext_spendable in Hsp.
  pose proof (kv_wf_frac cf (pb_kv s) from ltac:(lia) Hwf) as Hff.
  pose proof (kv_wf_frac cf (pb_kv s) to ltac:(lia) Hwf) as Hft.
  pose proof (div_mod_lt amt cf ltac:(lia)) as [Hdm HF].
  assert (0 <= amt / cf) by (apply Z.div_pos; lia).
  assert (frac s from < amt mod cf -> amt / cf + 1 <= spendable s from) as Hborrow by nia.
  assert (amt / cf <= spendable s from) as Hwhole by nia.
  assert (amt mod cf <= frac s from -> cf <= frac s to + amt mod cf ->
    1 <= bk_balance (pb_bank s) reserve int) as Hres by (intros; by eapply reserve_covers_carry).
  set (borrow := frac s from <? amt mod cf). set (carry := cf <=? frac s to + amt mod cf).
  set (I := amt / cf + (if borrow && carry then 1 else 0)).
  assert (I <= spendable s from) as HI.
  { subst I borrow. destruct (Z.ltb_spec (frac s from) (amt mod cf)), carry; simpl; lia. }
  destruct (send_block_run (0 <? I) from to I (updateInsufficientFundsError info from amt) s
    (bk_SendCoins from to)) as (s1 & E1 & [K1 _] & D1); [done..|intros; zbool; lia|].
  rewrite (bind_run _ _ _ _ _ E1).
  destruct (send_block_run (borrow && negb carry) from reserve 1
    (updateInsufficientFundsError info from amt) s1
    (bk_SendCoinsFromAccountToModule from ModuleName)) as (s2 & E2 & [K2 _] & D2);
    [intros; by apply bank_send_to_module|done| |].
  { intros [Hb Hc]%andb_true_iff. rewrite bank_spendable in *.
    rewrite (bd_balance _ _ _ _ _ D1), (bd_locks _ _ _ _ _ D1 from int), decide_True by done.
    subst I. apply negb_true_iff in Hc. rewrite Hb, Hc in *. simpl. subst borrow. zbool.
    specialize (Hborrow Hb). unfold pays.
    destruct (Z.ltb_spec 0 (amt / cf + 0)); rewrite ?decide_False, ?decide_True by done; lia. }
  rewrite (bind_run _ _ _ _ _ E2).
  destruct (send_block_run (negb borrow && carry) reserve to 1
    (fun _ => panic "failed to carry fractional coins") s2
    (bk_SendCoins reserve to)) as (s3 & E3 & [K3 _] & D3); [done..| |].
  { intros [Hb Hc]%andb_true_iff. rewrite bank_spendable.
    rewrite (bd_balance _ _ _ _ _ D2), (bd_locks _ _ _ _ _ D2 reserve int), decide_True by done.
    rewrite (bd_balance _ _ _ _ _ D1), (bd_locks _ _ _ _ _ D1 reserve int), decide_True by done.
    rewrite Hlk. apply negb_true_iff in Hb. rewrite Hb. simpl. subst borrow carry. zbool.
    specialize (Hres Hb Hc). unfold pays.
    destruct (0 <? I); rewrite ?decide_False by congruence; lia. }
  rewrite (bind_run _ _ _ _ _ E3).
  assert (0 <= frac s from - amt mod cf + (if borrow then cf else 0) < cf).
  { subst borrow. destruct (Z.ltb_spec (frac s from) (amt mod cf)); lia. }
  rewrite (bind_run _ _ _ _ _ (SetFractionalBalance_run info from _ s3 Hf0 ltac:(eassumption))).
  rewrite SetFractionalBalance_run; [by eexists|done|].
  subst carry. destruct (Z.leb_spec cf (frac s to + amt mod cf)); lia.
Qed.

Lemma send_insufficient from to amt s :
  send_side from to s amt -> from <> to -> ext_spendable s from < amt ->
  (spendable s from + 1) * cf < 2 ^ 256 ->
  exists e s', sendExtendedCoins info from to amt s = (Err e, s') /\
    e_kind e = ErrInsufficientFunds.
Proof.
  intros [Hi Hamt [Hf Hf0] [Ht Ht0] (R1 & R2 & R3) Hlk] Hne Hsp Hfit.
  rewrite send_unfold by done. pose proof Hi as [Hwf _].
  pose proof (cf_small info Hinfo) as Hcf. unfold ext_spendable in Hsp.
  pose proof (kv_wf_frac cf (pb_kv s) from ltac:(lia) Hwf) as Hff.
  pose proof (div_mod_lt amt cf ltac:(lia)) as [Hdm HF].
  pose proof (spendable_nonneg (pb_bank s) from int) as HS.
  assert (0 <= amt / cf) by (apply Z.div_pos; lia).
  set (borrow := frac s from <? amt mod cf). set (carry := cf <=? frac s to + amt mod cf).
  set (I := amt / cf + (if borrow && carry then 1 else 0)).
  destruct (decide (spendable s from < I)) as [Hlt|Hge].
  { destruct (send_block_short from to I s amt (bk_SendCoins from to)) as (e & s1 & He & Hk);
      [done..|lia|lia|done|done|].
    exists e, s1. split; [|done]. unfold bind at 1.
    destruct (Z.ltb_spec 0 I); [|lia]. by rewrite He. }
  assert (borrow && negb carry = true /\ spendable s from = amt / cf) as [Hbc HSI].
  { subst I borrow. destruct (Z.ltb_spec (frac s from) (amt mod cf)), carry; simpl in *; nia || (split; [done|nia]). }
  assert (I = amt / cf) as HI.
  { subst I. apply andb_true_iff in Hbc as [-> Hc]. apply negb_true_iff in Hc as ->. simpl. lia. }
  destruct (send_block_run (0 <? I) from to I (updateInsufficientFundsError info from amt) s
    (bk_SendCoins from to)) as (s1 & E1 & [K1 _] & D1); [done..|intros; zbool; lia|].
  rewrite (bind_run _ _ _ _ _ E1).
  assert (spendable s1 from = 0) as HS1.
  { rewrite bank_spendable in *.
    rewrite (bd_balance _ _ _ _ _ D1), (bd_locks _ _ _ _ _ D1 from int), decide_True by done.
    unfold pays. destruct (Z.ltb_spec 0 I); rewrite ?decide_False, ?decide_True by done; lia. }
  destruct (send_block_short from reserve 1 s1 amt
    (bk_SendCoinsFromAccountToModule from ModuleName)) as (e & s2 & He & Hk);
    [intros; by apply bank_send_to_module|done|by rewrite K1|lia|lia|lia|nia|].
  exists e, s2. split; [|done]. rewrite Hbc. unfold bind at 1. by rewrite He.
Qed.
End progress.
