(* ===== verification/PreciseBankCoins.v ===== *)
(** The operations of x/precisebank on [sdk.Coins]: the split between the
    coins x/bank handles itself and the extended coin, the passthrough calls
    and the events, composed into SendCoins, MintCoins and BurnCoins. *)
From S2P Require Import Prelude KVStore Sdk EvmConfig.
From S2P Require Import PreciseBank PreciseBankInv PreciseBankOps PreciseBankSpec.

Section coins.
Context `{CoinsLib, !CoinsLaws, !BankKeeper, !AccountKeeper, !BankLaws, AddressCodec}.
Variable info : EvmCoinInfo.
Variable reserve : addr.
Implicit Types s : pb_state.

Abbreviation cf := (CF info).
Abbreviation int := (IntegerCoinDenom info).
Abbreviation ext := (ExtendedCoinDenom info).
Abbreviation abs := (abs info reserve).
Abbreviation pb_inv := (pb_inv info reserve).

(** What a coin set is worth in the extended denom. *)
Definition ext_amount (amt : coins) : Z :=
  (if decide (ext = int) then 0 else amount_of amt int) * cf + amount_of amt ext.

(** The part of a coin set that reaches x/bank unchanged. *)
Definition pass_amount (amt : coins) (d : string) : Z :=
  if decide (ext = d) then 0 else amount_of amt d.

Lemma split_extended_ok amt s sp s' :
  coins_valid amt = true -> split_extended info amt s = (Ok sp, s') ->
  s' = s /\ sp.2 = amount_of amt ext /\ coins_valid sp.1 = true /\
  forall d, amount_of sp.1 d = pass_amount amt d.
Proof.
  intros Hv Hr. pose proof (valid_nonneg amt ext Hv) as Hn.
  unfold split_extended, pass_amount in *. run_inv; zbool; simpl.
  - match goal with Hc : new_coin _ _ = Ok _ |- _ => apply new_coin_ok in Hc as (-> & Hd & _) end.
    destruct (coins_sub_law amt [Coin ext (amount_of amt ext)]) as (r & Hs & Hvr & Ham);
      [by apply valid_wf|by apply valid_wf, valid_one|intros d; rewrite amount_of_one; case_decide;
       [by subst|by apply valid_nonneg]|].
    assert (r = x1) as -> by congruence. split_and!; try done. intros d. rewrite Ham, amount_of_one.
    case_decide; [subst|]; lia.
  - split_and!; try done. intros d. case_decide; [subst; lia|done].
Qed.

Lemma split_extended_run amt s :
  coins_valid amt = true -> denom_ok ext = true ->
  exists sp, split_extended info amt s = (Ok sp, s).
Proof.
  intros Hv Hd. unfold split_extended. destruct (Z.ltb_spec 0 (amount_of amt ext)); [|by eexists].
  rewrite new_coin_run by (done || lia).
  destruct (coins_sub_law amt [Coin ext (amount_of amt ext)]) as (r & Hs & _);
    [by apply valid_wf|by apply valid_wf, valid_one|intros d; rewrite amount_of_one; case_decide;
     [by subst|by apply valid_nonneg]|].
  unfold bind, lift. rewrite Hs. by eexists.
Qed.

Lemma fullEmission_ok amt s cs s' :
  fullEmission info amt s = (Ok cs, s') -> s' = s.
Proof. unfold fullEmission. intros. by run_inv. Qed.

(** Coins that are valid and not all positive are no coins. *)
Lemma valid_not_positive cs :
  coins_valid cs = true -> coins_all_positive cs = false -> cs = [].
Proof.
  intros Hv%valid_positive. unfold coins_all_positive. destruct cs as [|c cs]; [done|].
  simpl coins_empty. simpl negb. rewrite andb_true_l. intros Hf.
  assert (forallb (fun c => 0 <? c_amt c) (c :: cs) = true); [|congruence].
  apply forallb_forall. intros x Hx. apply Z.ltb_lt. rewrite Forall_forall in Hv.
  by apply Hv, list_elem_of_In.
Qed.

(** ** The passthrough calls, on the ledger *)

Definition pass_rel (f t : addr) cs s s' : Prop :=
  moved (pb_bank s) (pb_bank s') f t cs /\ same_locks (pb_bank s) (pb_bank s') /\
  (forall d, bk_supply (pb_bank s') d = bk_supply (pb_bank s) d) /\ framed s s'.

Lemma pass_send f t cs s u s' :
  coins_valid cs = true ->
  (if coins_all_positive cs then on_bank (bk_SendCoins f t cs) else ret tt) s = (Ok u, s') ->
  pass_rel f t cs s s'.
Proof.
  intros Hv Hr. destruct (coins_all_positive cs) eqn:Hp; run_inv.
  - apply on_bank_ok in Hr as (Hr & Hk & He). destruct u.
    apply bank_send_ok in Hr as (? & ? & ? & _). done.
  - apply valid_not_positive in Hp; [subst|done]. split_and!; try done.
    intros a d. rewrite amount_of_nil. repeat case_decide; lia.
Qed.

Lemma pass_send_refines f t cs s s' :
  pass_rel f t cs s s' -> pb_inv s -> f <> reserve -> t <> reserve ->
  pb_inv s' /\ abs s' ≡l l_transfer f t (amount_of cs int * cf) (abs s).
Proof.
  intros (Hm & _ & Hs & Hk & _) [Hwf Hb] Hf Ht. split; [split|split; simpl].
  - by rewrite Hk.
  - rewrite (Hm reserve int), Hk, !decide_False by congruence. lia.
  - intros a. unfold abs_balance. rewrite (Hm a int), Hk. repeat case_decide; subst; congruence || lia.
  - by rewrite Hs, Hk.
Qed.

Definition issue_rel (n : Z) (a : addr) cs s s' : Prop :=
  issued (pb_bank s) (pb_bank s') n a cs /\ same_locks (pb_bank s) (pb_bank s') /\ framed s s'.

Lemma issue_rel_nil n a s : issue_rel n a [] s s.
Proof.
  split_and!; [split; intros; rewrite amount_of_nil; try case_decide; lia|done..].
Qed.

Lemma pass_mint m a cs s u s' :
  ak_module_address m = Some a ->
  (if negb (coins_empty cs) then on_bank (bk_MintCoins m cs) else ret tt) s = (Ok u, s') ->
  issue_rel 1 a cs s s'.
Proof.
  intros Ha Hr. destruct cs as [|c cs]; simpl in Hr; run_inv; [apply issue_rel_nil|].
  apply on_bank_ok in Hr as (Hr & Hk & He). destruct u.
  apply (bank_mint_ok m a) in Hr as [Hi Hl]; [|done]. done.
Qed.

Lemma pass_burn m a cs s u s' :
  ak_module_address m = Some a ->
  (if negb (coins_empty cs) then on_bank (bk_BurnCoins m cs) else ret tt) s = (Ok u, s') ->
  issue_rel (-1) a cs s s'.
Proof.
  intros Ha Hr. destruct cs as [|c cs]; simpl in Hr; run_inv; [apply issue_rel_nil|].
  apply on_bank_ok in Hr as (Hr & Hk & He). destruct u.
  apply (bank_burn_ok m a) in Hr as (Hi & Hl & _); [|done]. done.
Qed.

Lemma issue_refines n a cs s s' :
  issue_rel n a cs s s' -> pb_inv s -> a <> reserve ->
  pb_inv s' /\ abs s' ≡l l_issue a (n * amount_of cs int * cf) (abs s).
Proof.
  intros ([Hi Hs] & _ & Hk & _) [Hwf Hb] Ha. split; [split|split; simpl].
  - by rewrite Hk.
  - rewrite Hi, Hk, decide_False by congruence. lia.
  - intros x. unfold abs_balance. rewrite Hi, Hk. repeat case_decide; subst; congruence || lia.
  - rewrite Hs, Hk. lia.
Qed.

(** ** The composed operations *)

Hypothesis Hinfo : info_valid info.
Hypothesis Hreserve : ak_module_address ModuleName = Some reserve.

Lemma pass_amount_ext amt :
  pass_amount amt int * cf + amount_of amt ext = ext_amount amt.
Proof. unfold pass_amount, ext_amount. repeat case_decide; lia. Qed.

Lemma emission_framed amt es s u s' :
  (let! c := fullEmission info amt in
   if coins_is_zero c then ret tt else emit (es c)) s = (Ok u, s') ->
  pb_kv s' = pb_kv s /\ pb_bank s' = pb_bank s.
Proof.
  intros Hr. run_inv.
  - match goal with Hf : fullEmission _ _ _ = _ |- _ => by apply fullEmission_ok in Hf; subst end.
  - match goal with Hf : fullEmission _ _ _ = _ |- _ => apply fullEmission_ok in Hf; subst end.
    unfold emit in Hr. by run_inv.
Qed.

(** The ledger, the invariant and the coins read the store and the bank only. *)
Lemma framed_abs s s' : pb_kv s' = pb_kv s -> pb_bank s' = pb_bank s -> abs s' = abs s.
Proof. intros Hk Hb. unfold PreciseBankSpec.abs, abs_balance. by rewrite Hk, Hb. Qed.
Lemma framed_inv s s' : pb_kv s' = pb_kv s -> pb_bank s' = pb_bank s -> pb_inv s -> pb_inv s'.
Proof. intros Hk Hb [Hw Hv]. split; by rewrite Hk, ?Hb. Qed.

Lemma optional_send from to n s u s' :
  pb_inv s -> 0 <= n -> from <> reserve -> to <> reserve ->
  (if 0 <? n then sendExtendedCoins info from to n else ret tt) s = (Ok u, s') ->
  pb_inv s' /\ abs s' ≡l l_transfer from to n (abs s) /\ untouched info s s'.
Proof.
  intros Hi Hn Hf Ht Hr. destruct (Z.ltb_spec 0 n).
  - apply (send_refines info reserve) in Hr as (? & ? & ? & _); done.
  - run_inv. replace n with 0 by lia. split_and!; [done| |apply untouched_refl].
    by rewrite l_transfer_0.
Qed.

Lemma SendCoins_correct from to amt s u s' :
  pb_inv s -> from <> reserve -> to <> reserve ->
  SendCoins info from to amt s = (Ok u, s') ->
  pb_inv s' /\ abs s' ≡l l_transfer from to (ext_amount amt) (abs s) /\
  (forall a d, d <> int -> bk_balance (pb_bank s') a d = bk_balance (pb_bank s) a d
     - (if decide (a = from) then pass_amount amt d else 0)
     + (if decide (a = to) then pass_amount amt d else 0)).
Proof.
  intros Hi Hf Ht Hr. unfold SendCoins in Hr. destruct (coins_valid amt) eqn:Hv; [|run_inv].
  cbn [negb] in Hr. apply bind_ok in Hr as (sp & s0 & Hsp & Hr).
  apply split_extended_ok in Hsp as (-> & He & Hvp & Hpass); [|done].
  apply bind_ok in Hr as (u1 & s1 & Hb & Hr). apply pass_send in Hb as Hb; [|done].
  apply (pass_send_refines _ _ _ _ _ Hb) in Hi as [Hi1 Ha1]; [|done..].
  apply bind_ok in Hr as (u2 & s2 & Hx & Hr).
  apply optional_send in Hx as (Hi2 & Ha2 & Hu & _); [|rewrite ?He; auto using valid_nonneg..].
  apply emission_framed in Hr as [Hk3 Hb3]. split_and!.
  - by apply (framed_inv s2).
  - rewrite (framed_abs s2) by done. rewrite Ha2, Ha1, l_transfer_add, Hpass, He.
    by rewrite pass_amount_ext.
  - intros a d Hd. rewrite Hb3, Hu by done. destruct Hb as (Hm & _).
    by rewrite (Hm a d), Hpass.
Qed.

Lemma MintCoins_correct m a ps amt s u s' :
  pb_inv s -> ak_module_account m = Some (a, ps) -> a <> reserve ->
  MintCoins info m amt s = (Ok u, s') ->
  pb_inv s' /\ abs s' ≡l l_issue a (ext_amount amt) (abs s) /\
  (forall x d, d <> int -> bk_balance (pb_bank s') x d = bk_balance (pb_bank s) x d
     + (if decide (x = a) then pass_amount amt d else 0)) /\
  (forall d, d <> int -> bk_supply (pb_bank s') d = bk_supply (pb_bank s) d + pass_amount amt d).
Proof.
  intros Hi Hm Ha Hr. pose proof (auth_module_account _ _ _ Hm) as Hma. unfold MintCoins in Hr.
  rewrite Hm in Hr. case_bool_decide; [run_inv|]. destruct (negb _); [run_inv|].
  destruct (coins_valid amt) eqn:Hv; [|run_inv].
  cbn [negb] in Hr. apply bind_ok in Hr as (sp & s0 & Hsp & Hr).
  apply split_extended_ok in Hsp as (-> & He & Hvp & Hpass); [|done].
  apply bind_ok in Hr as (u1 & s1 & Hb & Hr). apply (pass_mint m a) in Hb as Hb; [|done].
  apply (issue_refines _ _ _ _ _ Hb) in Hi as [Hi1 Ha1]; [|done..].
  apply bind_ok in Hr as (u2 & s2 & Hx & Hr).
  assert (pb_inv s2 /\ abs s2 ≡l l_issue a sp.2 (abs s1) /\ untouched info s1 s2)
    as (Hi2 & Ha2 & Hu & Hus & _).
  { clear Hr. destruct (Z.ltb_spec 0 sp.2).
    - apply (mint_refines info reserve Hinfo Hreserve m a) in Hx as (? & ? & ? & _); done || lia.
    - pose proof (valid_nonneg amt ext Hv). run_inv. replace sp.2 with 0 by lia.
      split_and!; [done| |apply untouched_refl]. by rewrite l_issue_0. }
  apply emission_framed in Hr as [Hk3 Hb3]. destruct Hb as ([Hib His] & _). split_and!.
  - by apply (framed_inv s2).
  - rewrite (framed_abs s2) by done. rewrite Ha2, Ha1, l_issue_add, Hpass, He, Z.mul_1_l.
    by rewrite pass_amount_ext.
  - intros x d Hd. by rewrite Hb3, Hu, Hib, Hpass, Z.mul_1_l by done.
  - intros d Hd. by rewrite Hb3, Hus, His, Hpass, Z.mul_1_l by done.
Qed.

Lemma BurnCoins_correct m a ps amt s u s' :
  pb_inv s -> ak_module_account m = Some (a, ps) -> a <> reserve ->
  BurnCoins info m amt s = (Ok u, s') ->
  pb_inv s' /\ abs s' ≡l l_issue a (- ext_amount amt) (abs s) /\
  (forall x d, d <> int -> bk_balance (pb_bank s') x d = bk_balance (pb_bank s) x d
     - (if decide (x = a) then pass_amount amt d else 0)) /\
  (forall d, d <> int -> bk_supply (pb_bank s') d = bk_supply (pb_bank s) d - pass_amount amt d).
Proof.
  intros Hi Hm Ha Hr. pose proof (auth_module_account _ _ _ Hm) as Hma. unfold BurnCoins in Hr.
  rewrite Hm in Hr. case_bool_decide; [run_inv|]. destruct (negb _); [run_inv|].
  destruct (coins_valid amt) eqn:Hv; [|run_inv].
  cbn [negb] in Hr. apply bind_ok in Hr as (sp & s0 & Hsp & Hr).
  apply split_extended_ok in Hsp as (-> & He & Hvp & Hpass); [|done].
  apply bind_ok in Hr as (u1 & s1 & Hb & Hr). apply (pass_burn m a) in Hb as Hb; [|done].
  apply (issue_refines _ _ _ _ _ Hb) in Hi as [Hi1 Ha1]; [|done..].
  apply bind_ok in Hr as (u2 & s2 & Hx & Hr).
  assert (pb_inv s2 /\ abs s2 ≡l l_issue a (- sp.2) (abs s1) /\ untouched info s1 s2)
    as (Hi2 & Ha2 & Hu & Hus & _).
  { clear Hr. destruct (Z.ltb_spec 0 sp.2).
    - apply (burn_refines info reserve Hinfo Hreserve m a) in Hx as (? & ? & ? & _); done || lia.
    - pose proof (valid_nonneg amt ext Hv). run_inv. replace (- sp.2) with 0 by lia.
      split_and!; [done| |apply untouched_refl]. by rewrite l_issue_0. }
  apply emission_framed in Hr as [Hk3 Hb3]. destruct Hb as ([Hib His] & _). split_and!.
  - by apply (framed_inv s2).
  - rewrite (framed_abs s2) by done. rewrite Ha2, Ha1, l_issue_add, Hpass, He.
    rewrite <- pass_amount_ext. f_equiv. lia.
  - intros x d Hd. rewrite Hb3, Hu, Hib, Hpass by done. case_decide; lia.
  - intros d Hd. rewrite Hb3, Hus, His, Hpass by done. lia.
Qed.
End coins.
