(* ===== verification/PreciseBankGen.v ===== *)
(** Genesis of x/precisebank: the iterator loops as sums and maps, import
    establishes the backing invariant, export followed by import restores the
    store. *)
From S2P Require Import Prelude KVStore Sdk EvmConfig.
From S2P Require Import PreciseBank PreciseBankInv PreciseBankOps PreciseBankSpec.

Section genesis.
Context `{CoinsLib, !CoinsLaws, !BankKeeper, !AccountKeeper, !BankLaws}
  `{AddressCodec, !AddressLaws}.
Variable info : EvmCoinInfo.
Variable reserve : addr.
Implicit Types s : pb_state.

Abbreviation cf := (CF info).
Abbreviation int := (IntegerCoinDenom info).
Abbreviation frac s a := (get_frac (pb_kv s) a).

Hypothesis Hinfo : info_valid info.
Hypothesis Hreserve : ak_module_address ModuleName = Some reserve.

(** ** Iteration *)

Lemma iterate_cb_foldl {A} (f : addr -> Z -> A -> A) l acc :
  iterate_cb (fun a v acc => (f a v acc, false)) l acc =
  foldl (fun acc kv => f (drop 1 kv.1) kv.2 acc) acc l.
Proof. revert acc. induction l as [|[k v] l IH]; intros acc; simpl; [done|]. apply IH. Qed.

Lemma sum_loop (l : list (bytes * Z)) z :
  Forall (fun kv => 0 <= kv.2) l -> 0 <= z -> z + lsum (map snd l) < 2 ^ 256 ->
  foldl (fun acc kv => rbind acc (fun z => int_add z kv.2)) (Ok z) l =
    Ok (z + lsum (map snd l)).
Proof.
  intros Hl. revert z. induction Hl as [|[k v] l Hv Hl IH]; intros z Hz Hs; simpl in *.
  - by rewrite Z.add_0_r.
  - assert (0 <= lsum (map snd l)).
    { clear - Hl. unfold lsum. induction Hl; simpl; lia. }
    unfold lsum in *. unfold int_add at 2. rewrite int_chk_fits by lia.
    rewrite IH by lia. f_equal. lia.
Qed.

Lemma lsum_iterate kv : lsum (map snd (iterate FractionalBalancePrefix kv)) = frac_sum kv.
Proof. unfold frac_sum. rewrite <- iterate_sum. done. Qed.

Lemma iterate_nonneg kv : kv_wf cf kv ->
  Forall (fun x => 0 <= x.2) (iterate FractionalBalancePrefix kv).
Proof.
  intros Hwf. apply Forall_forall. intros [k v] [Hk _]%elem_of_iterate. apply Hwf in Hk. simpl. lia.
Qed.

Lemma total_sum s :
  kv_wf cf (pb_kv s) -> frac_sum (pb_kv s) < 2 ^ 256 ->
  GetTotalSumFractionalBalances s = Ok (frac_sum (pb_kv s)).
Proof.
  intros Hwf Hlt. unfold GetTotalSumFractionalBalances, IterateFractionalBalances.
  rewrite iterate_cb_foldl, sum_loop; rewrite ?lsum_iterate; [done|by apply iterate_nonneg|done|done].
Qed.

(** ** Validation *)

(** The addresses of a list of balances. *)
Definition decoded (fbs : list FractionalBalance) (l : list (addr * Z)) : Prop :=
  Forall2 (fun fb p => acc_of_bech32 (fb_Address fb) = Some p.1 /\ fb_Amount fb = p.2 /\
                       0 < p.2 < cf) fbs l.

Lemma validate_fractional v : ValidateFractionalAmount info v = Ok tt <-> 0 < v < cf.
Proof.
  unfold ValidateFractionalAmount.
  destruct (Z.leb_spec v 0), (Z.leb_spec (CF info) v); split; intros; done || lia.
Qed.

Lemma validate_loop fbs seen :
  FractionalBalances_Validate_loop info seen fbs = Ok tt ->
  exists l, decoded fbs l /\ NoDup l.*1 /\ forall a, a ∈ l.*1 -> bech32_of a ∉ seen.
Proof.
  revert seen. induction fbs as [|fb fbs IH]; intros seen Hv; simpl in Hv.
  - exists []. split_and!; [constructor|constructor|]. intros a Ha. by apply not_elem_of_nil in Ha.
  - run_inv. apply IH in Hv as (l & Hd & Hnd & Hs). unfold FractionalBalance_Validate in *.
    destruct (acc_of_bech32 (fb_Address fb)) as [a|] eqn:Ha; [|done]. destruct x.
    zbool. rewrite validate_fractional in *. exists ((a, fb_Amount fb) :: l).
    rewrite (bech32_canonical _ _ Ha) in *. split_and!.
    + by constructor.
    + simpl. constructor; [|done]. intros Hin. apply (Hs _ Hin). set_solver.
    + simpl. intros a' [->|Hin]%elem_of_cons; [done|]. specialize (Hs a' Hin). set_solver.
Qed.

Lemma validate_loop_run fbs l seen :
  decoded fbs l -> NoDup l.*1 -> (forall a, a ∈ l.*1 -> bech32_of a ∉ seen) ->
  FractionalBalances_Validate_loop info seen fbs = Ok tt.
Proof.
  intros Hd. revert seen. induction Hd as [|fb [a v] fbs l (Ha & Hv & Hr) Hd IH]; intros seen Hnd Hs; [done|].
  simpl in *. apply NoDup_cons in Hnd as [Hn Hnd]. unfold FractionalBalance_Validate.
  rewrite Ha, Hv. rewrite (proj2 (validate_fractional v)) by done. simpl.
  rewrite (bech32_canonical _ _ Ha), bool_decide_eq_false_2 by (apply Hs; by left).
  apply IH; [done|]. intros a' Hin. rewrite not_elem_of_union, not_elem_of_singleton. split.
  - intros He. assert (a' = a) as ->; [|done].
    assert (exists t, acc_of_bech32 t = Some a') as [s' Hs'].
    { apply list_elem_of_fmap in Hin as (p & -> & Hin).
      apply list_elem_of_lookup in Hin as [i Hi].
      eapply Forall2_lookup_r in Hd as (fb' & _ & Hfb & _); [|done]. eauto. }
    pose proof (acc_of_bech32_nonempty _ _ Hs'). pose proof (acc_of_bech32_nonempty _ _ Ha).
    pose proof (bech32_roundtrip a' ltac:(done) (bech32_bytes _ _ Hs')) as R1.
    pose proof (bech32_roundtrip a ltac:(done) (bech32_bytes _ _ Ha)) as R2. congruence.
  - apply Hs. by right.
Qed.

Lemma sum_amount_ok fbs z r : SumAmount_loop z fbs = Ok r -> r = z + lsum (map fb_Amount fbs).
Proof.
  revert z. induction fbs as [|fb fbs IH]; intros z Hr; simpl in Hr; run_inv; simpl.
  - injection Hr as <-. lia.
  - apply IH in Hr. int_inv. unfold lsum in *. lia.
Qed.

Lemma sum_amount_run fbs z :
  Forall (fun fb => 0 <= fb_Amount fb) fbs -> 0 <= z -> z + lsum (map fb_Amount fbs) < 2 ^ 256 ->
  SumAmount_loop z fbs = Ok (z + lsum (map fb_Amount fbs)).
Proof.
  intros Hl. revert z. induction Hl as [|fb l Hv Hl IH]; intros z Hz Hs; simpl in *.
  - by rewrite Z.add_0_r.
  - assert (0 <= lsum (map fb_Amount l)).
    { clear - Hl. unfold lsum. induction Hl; simpl; lia. }
    unfold lsum in *. unfold int_add. rewrite int_chk_fits by lia. simpl.
    rewrite IH by lia. f_equal. lia.
Qed.

(** ** The import loop *)

Definition put_all (kv : gmap bytes Z) (l : list (addr * Z)) : gmap bytes Z :=
  foldl (fun kv p => put_frac kv p.1 p.2) kv l.

Lemma init_loop fbs l s :
  decoded fbs l ->
  each (fun bal =>
    match acc_of_bech32 (fb_Address bal) with
    | None => panic "MustAccAddressFromBech32"
    | Some a => SetFractionalBalance info a (fb_Amount bal)
    end) fbs s = (Ok tt, PB (put_all (pb_kv s) l) (pb_bank s) (pb_events s)).
Proof.
  intros Hd. revert s. induction Hd as [|fb [a v] fbs l (Ha & Hv & Hr) Hd IH]; intros s.
  - by destruct s.
  - simpl in *. rewrite Ha, Hv. pose proof (acc_of_bech32_nonempty _ _ Ha).
    erewrite bind_run by (apply SetFractionalBalance_run; [done|lia]). by rewrite IH.
Qed.

Lemma put_all_sum l kv :
  NoDup l.*1 -> (forall a, a ∈ l.*1 -> get_frac kv a = 0) ->
  frac_sum (put_all kv l) = frac_sum kv + lsum (map snd l).
Proof.
  revert kv. induction l as [|[a v] l IH]; intros kv Hnd Hz; simpl in *; [by rewrite Z.add_0_r|].
  apply NoDup_cons in Hnd as [Hn Hnd]. unfold put_all in *. simpl. rewrite IH; [|done|].
  - rewrite frac_sum_put_frac, (Hz a) by by left. unfold lsum. simpl. lia.
  - intros a' Hin. rewrite get_put_frac, decide_False by (intros ->; done). apply Hz. by right.
Qed.

Lemma put_all_rem l kv : get_rem (put_all kv l) = get_rem kv.
Proof.
  revert kv. induction l as [|[a v] l IH]; intros kv; [done|]. unfold put_all in *. simpl.
  by rewrite IH, get_rem_put_frac.
Qed.

Lemma put_all_wf l kv :
  kv_wf cf kv -> Forall (fun p => 0 < p.2 < cf) l -> kv_wf cf (put_all kv l).
Proof.
  intros Hwf Hl. revert kv Hwf. induction Hl as [|[a v] l Hv Hl IH]; intros kv Hwf; [done|].
  apply IH, kv_wf_put_frac; [done|]. simpl in *. lia.
Qed.

Lemma put_all_lookup l kv k :
  NoDup l.*1 -> Forall (fun p => p.2 <> 0) l ->
  put_all kv l !! k =
    match list_find (fun p => frac_key p.1 = k) l with
    | Some (_, p) => Some p.2
    | None => kv !! k
    end.
Proof.
  intros Hnd Hl. revert kv Hnd. induction Hl as [|[a v] l Hv Hl IH]; intros kv Hnd; [done|].
  apply NoDup_cons in Hnd as [Hn Hnd]. unfold put_all in *. simpl in *. rewrite IH by done.
  unfold put_frac. destruct (Z.eqb_spec v 0) as [|_]; [done|].
  case_decide as Hk.
  - subst k. rewrite lookup_insert_eq. destruct (list_find _ l) as [[i p]|] eqn:E; [|done].
    exfalso. apply Hn. apply list_find_Some in E as (Hi & Hp & _).
    apply frac_key_inj in Hp as <-. apply list_elem_of_fmap. exists p. split; [done|].
    by eapply list_elem_of_lookup_2.
  - destruct (list_find _ l) as [[i p]|]; simpl; [done|]. by rewrite lookup_insert_ne.
Qed.

Lemma decoded_amounts fbs l : decoded fbs l ->
  lsum (map snd l) = lsum (map fb_Amount fbs) /\ Forall (fun p => 0 < p.2 < cf) l.
Proof.
  induction 1 as [|fb [a v] fbs l (Ha & Hv & Hr) Hd [IH1 IH2]]; [done|]. simpl in *.
  unfold lsum in *. simpl. split; [lia|]. by constructor.
Qed.

(** ** Import *)

Lemma InitGenesis_inv gs s u s' :
  pb_kv s = ∅ -> InitGenesis info gs s = (Ok u, s') ->
  pb_inv info reserve s' /\ pb_bank s' = pb_bank s /\
  get_rem (pb_kv s') = gs_Remainder gs /\
  frac_sum (pb_kv s') = lsum (map fb_Amount (gs_Balances gs)).
Proof.
  intros Hkv Hr. unfold InitGenesis in Hr.
  destruct (GenesisState_Validate info gs) as [[]|e|p] eqn:Hval; [|run_inv..].
  destruct (ak_module_account ModuleName) as [[ma ps]|]; [|run_inv].
  rewrite Hreserve in Hr. change (default [] (Some reserve)) with reserve in Hr.
  unfold GenesisState_Validate in Hval. apply rbind_ok in Hval as ([] & Hfb & Hval).
  apply validate_loop in Hfb as (l & Hdec & Hnd & _).
  destruct (decoded_amounts _ _ Hdec) as [Hsum Hpos].
  apply bind_lift_ok in Hr as (tot & Htot & Hr). rewrite bind_gets in Hr.
  apply bind_lift_ok in Hr as (mb & Hmb & Hr). int_inv.
  destruct (Z.eqb_spec tot (bk_balance (pb_bank s) reserve int * cf)) as [He|]; [|run_inv].
  cbn [negb] in Hr. rewrite (bind_run _ _ _ _ _ (init_loop _ _ s Hdec)) in Hr.
  apply SetRemainderAmount_ok in Hr as (Hr0 & Hr1 & ->). cbn [pb_kv pb_bank] in *.
  unfold TotalAmountWithRemainder in Htot. apply rbind_ok in Htot as (sm & Hsm & Htot).
  apply sum_amount_ok in Hsm. int_inv. pose proof (cf_small info Hinfo).
  assert (frac_sum (put_all (pb_kv s) l) = lsum (map fb_Amount (gs_Balances gs))) as Hfs.
  { rewrite Hkv, put_all_sum; [|done|done]. unfold frac_sum. rewrite msum_empty. lia. }
  split_and!; [split| | |]; cbn [pb_kv pb_bank]; autorewrite with guru_sums; [|lia|done..].
  apply kv_wf_put_rem; [|lia]. apply put_all_wf; [|done]. rewrite Hkv. by intros k v ?.
Qed.

(** ** Export, then import *)

(** The keys the module writes. *)
Definition keys_ok (kv : gmap bytes Z) : Prop :=
  forall k v, kv !! k = Some v -> k = RemainderBalanceKey \/
    exists a, k = frac_key a /\ a <> [] /\ Forall (fun z => 0 <= z < 256) a.

Definition entries (kv : gmap bytes Z) : list (addr * Z) :=
  map (fun kv => (drop 1 kv.1, kv.2)) (iterate FractionalBalancePrefix kv).

Lemma export_balances s :
  gs_Balances (ExportGenesis s) =
  map (fun p => mkFractionalBalance (bech32_of p.1) p.2) (entries (pb_kv s)).
Proof.
  unfold ExportGenesis, IterateFractionalBalances, entries. cbn [gs_Balances].
  rewrite iterate_cb_foldl, map_map.
  by rewrite (foldl_snoc (fun kv : bytes * Z => mkFractionalBalance (bech32_of (drop 1 kv.1)) kv.2)).
Qed.

Lemma elem_of_entries kv a v :
  (a, v) ∈ entries kv <-> kv !! frac_key a = Some v.
Proof.
  unfold entries. rewrite list_elem_of_fmap. split.
  - intros ([k w] & [= -> ->] & [Hk Hp]%elem_of_iterate).
    apply is_prefix_spec in Hp as [t ->]. exact Hk.
  - intros Hk. exists (frac_key a, v). split; [done|]. apply elem_of_iterate.
    split; [done|]. apply frac_key_prefix.
Qed.

Lemma entries_NoDup kv : NoDup (entries kv).*1.
Proof.
  unfold entries. rewrite map_map. pose proof (iterate_NoDup FractionalBalancePrefix kv) as Hn.
  assert (Forall (fun x => is_prefix FractionalBalancePrefix x.1 = true)
    (iterate FractionalBalancePrefix kv)) as Hp.
  { apply Forall_forall. by intros [k v] [_ ?]%elem_of_iterate. }
  induction (iterate FractionalBalancePrefix kv) as [|[k v] l IH]; simpl; [constructor|].
  apply Forall_cons in Hp as [Hk Hp]. apply NoDup_cons in Hn as [Hn Hnd].
  constructor; [|by apply IH]. intros ([k' v'] & He & Hin)%list_elem_of_fmap. apply Hn.
  rewrite Forall_forall in Hp. specialize (Hp _ Hin). cbn [fst snd] in *.
  apply is_prefix_spec in Hk as [t ->], Hp as [t' ->]. change (t = t') in He. subst t.
  change (FractionalBalancePrefix ++ t' ∈ l.*1). apply list_elem_of_fmap. by exists (FractionalBalancePrefix ++ t', v').
Qed.

Lemma export_decoded s :
  kv_wf cf (pb_kv s) -> keys_ok (pb_kv s) ->
  decoded (gs_Balances (ExportGenesis s)) (entries (pb_kv s)).
Proof.
  intros Hwf Hk. rewrite export_balances. unfold decoded.
  rewrite Forall2_fmap_l. apply Forall_Forall2_diag, Forall_forall.
  intros [a v] Hin%elem_of_entries. simpl. pose proof (Hwf _ _ Hin). split_and!; [|done|lia..].
  destruct (Hk _ _ Hin) as [Heq|(a' & <-%frac_key_inj & Hne & Hb)].
  - by apply frac_key_remainder in Heq.
  - by apply bech32_roundtrip.
Qed.

Lemma put_all_entries kv : kv_wf cf kv -> keys_ok kv -> put_rem (put_all ∅ (entries kv)) (get_rem kv) = kv.
Proof.
  intros Hwf Hk. pose proof (entries_NoDup kv) as Hnd.
  assert (Forall (fun p => p.2 <> 0) (entries kv)) as Hnz.
  { apply Forall_forall. intros [a v] Hin%elem_of_entries. apply Hwf in Hin. simpl. lia. }
  apply map_eq. intros k.
  assert (k <> RemainderBalanceKey -> put_all ∅ (entries kv) !! k = kv !! k) as Hfr.
  { intros Hne. rewrite put_all_lookup by done. destruct (list_find _ _) as [[i [a v]]|] eqn:E.
    - apply list_find_Some in E as (Hi & <- & _). symmetry. apply elem_of_entries.
      by eapply list_elem_of_lookup_2.
    - rewrite lookup_empty. destruct (kv !! k) as [v|] eqn:Hkv; [|done].
      destruct (Hk _ _ Hkv) as [|(a & -> & _)]; [done|]. apply elem_of_entries in Hkv.
      eapply list_find_None, Forall_forall in E; [|exact Hkv]. done. }
  unfold put_rem. destruct (decide (k = RemainderBalanceKey)) as [->|Hne].
  - destruct (kv !! RemainderBalanceKey) as [v|] eqn:Hv.
    + assert (get_rem kv = v) as -> by (unfold get_rem; by rewrite Hv). apply Hwf in Hv.
      destruct (Z.eqb_spec v 0); [lia|]. by rewrite lookup_insert_eq.
    + assert (get_rem kv = 0) as -> by (unfold get_rem; by rewrite Hv).
      rewrite Z.eqb_refl. by rewrite lookup_delete_eq.
  - case_match; rewrite ?lookup_delete_ne, ?lookup_insert_ne by done; auto.
Qed.

Lemma export_import s ps :
  pb_inv info reserve s -> keys_ok (pb_kv s) ->
  ak_module_account ModuleName = Some (reserve, ps) ->
  frac_sum (pb_kv s) + get_rem (pb_kv s) < 2 ^ 256 ->
  InitGenesis info (ExportGenesis s) (PB ∅ (pb_bank s) (pb_events s)) = (Ok tt, s).
Proof.
  intros [Hwf Hback] Hk Hacc Hfit. pose proof (cf_small info Hinfo) as Hcf.
  pose proof (export_decoded s Hwf Hk) as Hdec. destruct (decoded_amounts _ _ Hdec) as [Hsum Hpos].
  pose proof (kv_wf_rem cf (pb_kv s) ltac:(lia) Hwf) as Hrem.
  pose proof (frac_sum_nonneg cf (pb_kv s) Hwf) as Hnn.
  assert (lsum (map snd (entries (pb_kv s))) = frac_sum (pb_kv s)) as Hes.
  { rewrite <- lsum_iterate. unfold entries. by rewrite map_map. }
  assert (SumAmount (gs_Balances (ExportGenesis s)) = Ok (frac_sum (pb_kv s))) as Hsa.
  { unfold SumAmount. rewrite sum_amount_run, <- Hsum, Hes; [done| |done|lia].
    apply Forall_forall. intros fb [i Hi]%list_elem_of_lookup.
    destruct (Forall2_lookup_l _ _ _ _ _ Hdec Hi) as (p & _ & _ & -> & Hp). lia. }
  assert (gs_Remainder (ExportGenesis s) = get_rem (pb_kv s)) as Hgr by done.
  unfold InitGenesis, GenesisState_Validate, FractionalBalances_Validate.
  rewrite (validate_loop_run _ _ _ Hdec (entries_NoDup _)) by done. cbn [rbind].
  rewrite Hgr, Hsa. cbn [rbind]. unfold int_add.
  destruct (Z.ltb_spec (get_rem (pb_kv s)) 0), (Z.leb_spec (CF info) (get_rem (pb_kv s))); [lia..|].
  rewrite int_chk_fits by lia. cbn [rbind]. rewrite <- Hback. rewrite mod_cf, Z.mod_mul by (done || lia).
  cbn [rbind]. change (0 =? 0) with true. rewrite Hacc. unfold TotalAmountWithRemainder. rewrite Hsa.
  cbn [rbind]. rewrite Hgr. unfold int_add. rewrite int_chk_fits by lia.
  rewrite Hreserve. unfold int_mul, lift.
  rewrite (bind_run _ _ _ _ _ eq_refl), bind_gets. cbn [pb_bank].
  change (default [] (Some reserve)) with reserve. rewrite int_chk_fits by lia.
  rewrite (bind_run _ _ _ _ _ eq_refl). rewrite <- Hback, Z.eqb_refl. cbn [negb].
  rewrite (bind_run _ _ _ _ _ (init_loop _ _ _ Hdec)). cbn [pb_kv pb_bank pb_events].
  rewrite SetRemainderAmount_run by done. cbn [pb_kv pb_bank pb_events].
  rewrite put_all_entries by done. by destruct s.
Qed.
End genesis.
