(* ===== verification/PreciseBankThms.v ===== *)
(** The theorems about x/precisebank, each with an instance on a concrete
    chain whose coin has six decimals. *)
From S2P Require Import Prelude KVStore Sdk EvmConfig BankModel.
From S2P Require Import PreciseBank PreciseBankInv PreciseBankOps PreciseBankSpec.
From S2P Require Import PreciseBankCoins PreciseBankGen.

(** * The concrete chain of the examples *)

Definition x_info : EvmCoinInfo := mkEvmCoinInfo "uguru" "aguru" "guru" 6.
Definition x_alice : addr := [1].
Definition x_bob : addr := [2].
Definition x_reserve : addr := str_bytes ModuleName.
Definition x_cf : Z := 10 ^ 12.

Lemma x_info_valid : info_valid x_info.
Proof. split_and!; done. Qed.

Lemma x_cf_eq : CF x_info = x_cf.
Proof. apply (factor_valid x_info), x_info_valid. Qed.

(** Alice holds 5 integer coins and 3 units of fraction, Bob one unit less than
    an integer coin; the reserve holds 2 integer coins. *)
Definition x_bank : m_bank :=
  MBank (fun a d => if bool_decide (d = "uguru") then
                      if bool_decide (a = x_alice) then 5
                      else if bool_decide (a = x_reserve) then 2 else 0
                    else 0)
        (fun d => if bool_decide (d = "uguru") then 7 else 0).
Definition x_kv : gmap bytes Z :=
  list_to_map [(frac_key x_alice, 3); (frac_key x_bob, x_cf - 1); (RemainderBalanceKey, x_cf - 2)].
Definition x_state : pb_state := PB x_kv x_bank [].

Lemma kv_wf_alt cf kv : kv_wf cf kv <-> map_Forall (fun _ v => 0 < v < cf) kv.
Proof. done. Qed.

Lemma x_inv : pb_inv x_info x_reserve x_state.
Proof.
  split; rewrite x_cf_eq.
  - apply kv_wf_alt, (bool_decide_unpack _). vm_compute. exact I.
  - vm_compute. reflexivity.
Qed.

(** * Reachable states *)

Section steps.
Context `{CoinsLib, !CoinsLaws, !BankKeeper, !AccountKeeper, !BankLaws}
  `{AddressCodec, !AddressLaws}.
Variable info : EvmCoinInfo.
Variable reserve : addr.

(** The calls that reach the module: the bank message and the methods of the keeper. *)
Inductive pb_call :=
  | CallSend (msg : MsgSend)
  | CallSendCoins (from to : addr) (amt : coins)
  | CallToModule (from : addr) (m : string) (amt : coins)
  | CallFromModule (m : string) (to : addr) (amt : coins)
  | CallModules (m1 m2 : string) (amt : coins)
  | CallMint (m : string) (amt : coins)
  | CallBurn (m : string) (amt : coins).
Definition pb_exec (c : pb_call) : M pb_state unit :=
  match c with
  | CallSend msg => Send info msg
  | CallSendCoins from to amt => SendCoins info from to amt
  | CallToModule from m amt => SendCoinsFromAccountToModule info from m amt
  | CallFromModule m to amt => SendCoinsFromModuleToAccount info m to amt
  | CallModules m1 m2 amt => SendCoinsFromModuleToModule info m1 m2 amt
  | CallMint m amt => MintCoins info m amt
  | CallBurn m amt => BurnCoins info m amt
  end.
(** A call that spends from the reserve, or sends to it by [SendCoins], which looks at
    no address: the calls the code leaves to the discipline of its callers.  The other
    methods refuse x/precisebank themselves. *)
Definition names_reserve (c : pb_call) : Prop :=
  match c with
  | CallSend msg => acc_of_bech32 (ms_From msg) = Some reserve
  | CallSendCoins from to _ => from = reserve \/ to = reserve
  | CallToModule from _ _ => from = reserve
  | CallModules m1 _ _ => m1 = ModuleName
  | CallFromModule _ _ _ | CallMint _ _ | CallBurn _ _ => False
  end.
(** What happens to the module between two observations: a successful call that is
    [allowed], or a change of x/bank that leaves the balance of the reserve alone. *)
Inductive pb_step (allowed : pb_call -> Prop) : pb_state -> pb_state -> Prop :=
  | step_call c s s' : allowed c -> pb_exec c s = (Ok tt, s') -> pb_step allowed s s'
  | step_bank b s :
      bk_balance b reserve (IntegerCoinDenom info) =
        bk_balance (pb_bank s) reserve (IntegerCoinDenom info) ->
      pb_step allowed s (PB (pb_kv s) b (pb_events s)).

Inductive reachable (allowed : pb_call -> Prop) : pb_state -> Prop :=
  | reach_init gs b es s : InitGenesis info gs (PB ∅ b es) = (Ok tt, s) -> reachable allowed s
  | reach_step s s' : reachable allowed s -> pb_step allowed s s' -> reachable allowed s'.

(** The wiring of the application: the reserve is a blocked address, and no
    other module shares its account. *)
Record wired : Prop := {
  w_info : info_valid info;
  w_reserve : ak_module_address ModuleName = Some reserve;
  w_blocked : bk_blocked reserve = true;
  w_distinct : forall m, ak_module_address m = Some reserve -> m = ModuleName;
}.

Lemma send_ok_inner msg s s' : Send info msg s = (Ok tt, s') ->
  exists from to, acc_of_bech32 (ms_From msg) = Some from /\ bk_blocked to = false /\ SendCoins info from to (ms_Amount msg) s = (Ok tt, s').
Proof.
  unfold Send. intros Hr. destruct (acc_of_bech32 (ms_From msg)) as [from|]; [|run_inv].
  destruct (acc_of_bech32 (ms_To msg)) as [to|]; [|run_inv].
  destruct (negb (coins_valid _)); [run_inv|]. destruct (negb (coins_all_positive _)); [run_inv|].
  apply bind_ok in Hr as (u & s1 & He & Hr). simplify_eq.
  destruct (bk_blocked to) eqn:Hb; [run_inv|]. eauto.
Qed.

Lemma step_inv s s' : wired -> pb_step (fun c => ~ names_reserve c) s s' -> pb_inv info reserve s -> pb_inv info reserve s'.
Proof.
  intros [Hi Hres Hbl Hd] Hst Hinv.
  assert (forall m a ps, ak_module_account m = Some (a, ps) -> m <> ModuleName -> a <> reserve) as Hacc.
  { intros m a ps Hm Hne ->. apply auth_module_account, Hd in Hm. done. }
  destruct Hst as [c s s' Hal Hr|b s Hb]; [|destruct Hinv as [Hw Hv]; split; simpl; [done|]; by rewrite Hb].
  destruct c as [msg|from to amt|from m amt|m to amt|m1 m2 amt|m amt|m amt]; cbn [pb_exec names_reserve] in Hr, Hal.
  - apply send_ok_inner in Hr as (from & to & Hf & Hto & Hr).
    apply (SendCoins_correct info reserve) in Hr as [? _]; try done; congruence.
  - apply (SendCoins_correct info reserve) in Hr as [? _]; try done; tauto.
  - unfold SendCoinsFromAccountToModule in Hr.
    destruct (ak_module_account m) as [[a ps]|] eqn:Hm; [|run_inv].
    case_bool_decide; [run_inv|]. apply (SendCoins_correct info reserve) in Hr as [? _]; try done.
    simpl. eauto.
  - unfold SendCoinsFromModuleToAccount in Hr.
    destruct (ak_module_address m) as [a|] eqn:Hm; [|run_inv].
    case_bool_decide; [run_inv|]. destruct (bk_blocked to) eqn:Hto; [run_inv|].
    apply (SendCoins_correct info reserve) in Hr as [? _]; try done; [|congruence].
    intros ->. by apply Hd in Hm.
  - unfold SendCoinsFromModuleToModule in Hr.
    destruct (ak_module_address m1) as [a1|] eqn:Ha1; [|run_inv].
    destruct (ak_module_account m2) as [[a2 ps]|] eqn:Ha2; [|run_inv].
    case_bool_decide; [run_inv|]. apply (SendCoins_correct info reserve) in Hr as [? _]; try done.
    + intros ->. by apply Hd in Ha1.
    + simpl. eauto.
  - pose proof Hr as Hr'. unfold MintCoins in Hr'. case_bool_decide; [run_inv|].
    destruct (ak_module_account m) as [[a ps]|] eqn:Hm; [|run_inv]. clear Hr'.
    apply (MintCoins_correct info reserve Hi Hres m a ps) in Hr as [? _]; eauto.
  - pose proof Hr as Hr'. unfold BurnCoins in Hr'. case_bool_decide; [run_inv|].
    destruct (ak_module_account m) as [[a ps]|] eqn:Hm; [|run_inv]. clear Hr'.
    apply (BurnCoins_correct info reserve Hi Hres m a ps) in Hr as [? _]; eauto.
Qed.
End steps.

(** * Theorems *)

Section theorems.
Context `{CoinsLib, !CoinsLaws, !BankKeeper, !AccountKeeper, !BankLaws}
  `{AddressCodec, !AddressLaws}.
Variable info : EvmCoinInfo.
Variable reserve : addr.
Implicit Types s : pb_state.

(** C1.  A successful [sendExtendedCoins] is a transfer of exactly [amt] on the
    ledger of extended balances: the sender loses it, the recipient gains it,
    no other account and not the supply changes, whatever borrow and carry
    through the reserve it takes; the reserve stays exactly backed. *)
Theorem sendExtendedCoins_transfers from to amt s s' :
  wired info reserve -> pb_inv info reserve s -> 0 <= amt ->
  from <> reserve -> to <> reserve ->
  sendExtendedCoins info from to amt s = (Ok tt, s') ->
  pb_inv info reserve s' /\
  abs info reserve s' ≡l l_transfer from to amt (abs info reserve s) /\
  untouched info s s' /\ pb_events s' = pb_events s.
Proof. intros [Hi Hr _ _] ? ? ? ? ?. by eapply (send_refines info reserve). Qed.

(** C11.  A successful [mintExtendedCoin] issues exactly [amt] to the module
    account and to the extended supply (integer supply times the factor, less
    the remainder), and keeps the reserve exactly backed. *)
Theorem mintExtendedCoin_issues m a amt s s' :
  wired info reserve -> pb_inv info reserve s -> 0 <= amt ->
  ak_module_address m = Some a -> a <> reserve ->
  mintExtendedCoin info m amt s = (Ok tt, s') ->
  pb_inv info reserve s' /\
  abs info reserve s' ≡l l_issue a amt (abs info reserve s) /\
  untouched info s s' /\ pb_events s' = pb_events s.
Proof. intros [Hi Hr _ _] ? ? ? ? ?. by eapply (mint_refines info reserve). Qed.

(** C12.  A successful [burnExtendedCoin] takes exactly [amt] from the module
    account and from the extended supply, and keeps the reserve exactly
    backed. *)
Theorem burnExtendedCoin_withdraws m a amt s s' :
  wired info reserve -> pb_inv info reserve s -> 0 <= amt ->
  ak_module_address m = Some a -> a <> reserve ->
  burnExtendedCoin info m amt s = (Ok tt, s') ->
  pb_inv info reserve s' /\
  abs info reserve s' ≡l l_issue a (- amt) (abs info reserve s) /\
  untouched info s s' /\ pb_events s' = pb_events s.
Proof. intros [Hi Hr _ _] ? ? ? ? ?. by eapply (burn_refines info reserve). Qed.

(**  [SendCoins] on any coin set: the extended ledger moves by the worth of
    the integer and the extended coins together, every other denom moves in
    x/bank by its own amount, and the backing is preserved. *)
Theorem SendCoins_moves_all_denoms from to amt s s' :
  wired info reserve -> pb_inv info reserve s -> from <> reserve -> to <> reserve ->
  SendCoins info from to amt s = (Ok tt, s') ->
  pb_inv info reserve s' /\
  abs info reserve s' ≡l l_transfer from to (ext_amount info amt) (abs info reserve s) /\
  (forall a d, d <> IntegerCoinDenom info ->
     bk_balance (pb_bank s') a d = bk_balance (pb_bank s) a d
       - (if decide (a = from) then pass_amount info amt d else 0)
       + (if decide (a = to) then pass_amount info amt d else 0)).
Proof. intros [Hi Hr _ _] ? ? ? ?. by eapply (SendCoins_correct info reserve). Qed.

(** C13.  In every state reached from an imported genesis through bank messages,
    keeper calls and x/bank changes that leave the reserve alone, the integer coins
    of the reserve are worth exactly the fractional balances plus the remainder, and
    every stored amount is a proper fraction, as long as no caller names the reserve:
    [SendCoinsFromModuleToModule] with x/precisebank as the sender, which the code
    does not refuse, would empty it. *)
Theorem reachable_backed s :
  wired info reserve -> reachable info reserve (fun c => ~ names_reserve reserve c) s -> pb_inv info reserve s.
Proof.
  intros Hw. induction 1 as [gs b es s Hg|s s' _ IH Hst].
  - destruct Hw as [Hi Hr _ _]. by apply (InitGenesis_inv info reserve) in Hg as [? _].
  - by apply (step_inv info reserve) in Hst.
Qed.

(** C33.  A transfer within the sender's spendable extended balance succeeds:
    no borrow can fail and the reserve always holds the carry, so the panic
    for a failed carry is never reached. *)
Theorem sendExtendedCoins_succeeds from to amt s :
  wired info reserve -> send_side info reserve from to s amt ->
  amt <= ext_spendable info s from ->
  exists s', sendExtendedCoins info from to amt s = (Ok tt, s').
Proof. intros [Hi Hr _ _] ? ?. by apply (send_progress info reserve). Qed.

(**  A transfer beyond the spendable extended balance returns
    [ErrInsufficientFunds]; it neither succeeds nor panics. *)
Theorem sendExtendedCoins_insufficient from to amt s :
  wired info reserve -> send_side info reserve from to s amt -> from <> to ->
  ext_spendable info s from < amt ->
  (bk_spendable (pb_bank s) from (IntegerCoinDenom info) + 1) * CF info < 2 ^ 256 ->
  exists e s', sendExtendedCoins info from to amt s = (Err e, s') /\
    e_kind e = ErrInsufficientFunds.
Proof. intros [Hi Hr _ _] ? ? ? ?. by apply (send_insufficient info reserve). Qed.

(**  Exporting the module's genesis and importing it over the same bank
    restores the store exactly. *)
Theorem genesis_roundtrip s ps :
  wired info reserve -> pb_inv info reserve s -> keys_ok (pb_kv s) ->
  ak_module_account ModuleName = Some (reserve, ps) ->
  frac_sum (pb_kv s) + get_rem (pb_kv s) < 2 ^ 256 ->
  InitGenesis info (ExportGenesis s) (PB ∅ (pb_bank s) (pb_events s)) = (Ok tt, s).
Proof. intros [Hi Hr _ _] ? ? ? ?. by eapply (export_import info reserve). Qed.

(**  What [GetBalance] returns for the extended denom is the ledger
    balance, zero for the reserve; other denoms show x/bank's balance. *)
Theorem GetBalance_shows_ledger s a :
  wired info reserve -> pb_inv info reserve s ->
  abs_balance info reserve s a < 2 ^ 256 ->
  GetBalance info s a (ExtendedCoinDenom info) =
    Ok (Coin (ExtendedCoinDenom info) (abs_balance info reserve s a)).
Proof.
  intros [Hi Hr _ _] [Hwf _] Hlt. unfold GetBalance, abs_balance, reserve_is in *. rewrite Hr.
  change (default [] (Some reserve)) with reserve. assert (denom_ok (ExtendedCoinDenom info) = true) by apply Hi.
  rewrite bool_decide_eq_true_2 by done. case_decide as Ha.
  - rewrite bool_decide_eq_true_2 by done. by apply new_coin_run.
  - rewrite bool_decide_eq_false_2 by done. simpl. pose proof (cf_small info Hi).
    pose proof (kv_wf_frac (CF info) (pb_kv s) a ltac:(lia) Hwf).
    pose proof (bank_nonneg (pb_bank s) a (IntegerCoinDenom info)).
    change (GetFractionalBalance s a) with (get_frac (pb_kv s) a).
    unfold int_mul, int_add. rewrite int_chk_fits by nia. simpl. rewrite int_chk_fits by nia.
    simpl. apply new_coin_run; [done|nia].
Qed.

(** The iterator loop [GetTotalSumFractionalBalances] returns the sum of
    all fractional balances, never panicking while it is within 256 bits. *)
Theorem total_sum_is_sum s :
  wired info reserve -> pb_inv info reserve s -> frac_sum (pb_kv s) < 2 ^ 256 ->
  GetTotalSumFractionalBalances s = Ok (frac_sum (pb_kv s)).
Proof. intros _ [Hwf _] ?. by apply (total_sum info). Qed.

(**  The amount in the events of SendCoins, MintCoins and BurnCoins is the
    worth of the coins when the two denoms differ; when the coin has 18
    decimals, so that both denoms are the same, it is twice the amount. *)
Theorem SumExtendedCoin_amount amt c :
  info_valid info -> SumExtendedCoin info amt = Ok c ->
  c_denom c = ExtendedCoinDenom info /\
  c_amt c = ext_amount info amt +
    (if decide (ExtendedCoinDenom info = IntegerCoinDenom info)
     then amount_of amt (IntegerCoinDenom info) * CF info else 0).
Proof.
  intros Hi Hc. unfold SumExtendedCoin in Hc. run_inv. int_inv.
  apply new_coin_ok in Hc as (-> & _ & _). simpl. split; [done|].
  unfold ext_amount. case_decide; lia.
Qed.
End theorems.

(** * The theorems on the concrete chain *)

Lemma x_wired : wired x_info x_reserve.
Proof.
  split; [apply x_info_valid|done|done|].
  intros m Hm. injection Hm as Hm. by apply str_bytes_inj in Hm.
Qed.

Definition x_amt : Z := x_cf + 5.
Abbreviation x_next m := (m x_state).2.

Lemma sendExtendedCoins_transfers_witness :
  (sendExtendedCoins x_info x_alice x_bob x_amt x_state).1 = Ok tt /\
  abs x_info x_reserve (x_next (sendExtendedCoins x_info x_alice x_bob x_amt))
    ≡l l_transfer x_alice x_bob x_amt (abs x_info x_reserve x_state).
Proof.
  assert ((sendExtendedCoins x_info x_alice x_bob x_amt x_state).1 = Ok tt) as E
    by (vm_compute; reflexivity).
  split; [exact E|].
  apply (sendExtendedCoins_transfers x_info x_reserve x_alice x_bob x_amt x_state);
    [apply x_wired|apply x_inv|done|done|done|by apply run_fst].
Defined.

Definition x_mod : string := "evm".
Lemma x_mod_addr : ak_module_address x_mod = Some (mb_module x_mod).
Proof. done. Qed.
Definition x_mint : M pb_state unit := mintExtendedCoin x_info x_mod x_amt.

Lemma mintExtendedCoin_issues_witness :
  (x_mint x_state).1 = Ok tt /\
  abs x_info x_reserve (x_next x_mint)
    ≡l l_issue (mb_module x_mod) x_amt (abs x_info x_reserve x_state).
Proof.
  assert ((x_mint x_state).1 = Ok tt) as E by (vm_compute; reflexivity).
  split; [exact E|].
  apply (mintExtendedCoin_issues x_info x_reserve x_mod (mb_module x_mod) x_amt x_state);
    [apply x_wired|apply x_inv|done|done|done|by apply run_fst].
Defined.

Definition x_burn : M pb_state unit := burnExtendedCoin x_info x_mod (x_cf + 3).
Definition x_minted : pb_state := x_next x_mint.

Lemma x_minted_inv : pb_inv x_info x_reserve x_minted.
Proof.
  assert ((x_mint x_state).1 = Ok tt) as E by (vm_compute; reflexivity).
  apply run_fst in E.
  by apply (mint_refines x_info x_reserve x_info_valid (w_reserve _ _ x_wired) x_mod
    (mb_module x_mod) x_amt x_state tt x_minted x_inv ltac:(done) x_mod_addr ltac:(done) E).
Qed.

Lemma burnExtendedCoin_withdraws_witness :
  (x_burn x_minted).1 = Ok tt /\
  abs x_info x_reserve (x_burn x_minted).2
    ≡l l_issue (mb_module x_mod) (- (x_cf + 3)) (abs x_info x_reserve x_minted).
Proof.
  assert ((x_burn x_minted).1 = Ok tt) as E by (vm_compute; reflexivity).
  split; [exact E|].
  apply (burnExtendedCoin_withdraws x_info x_reserve x_mod (mb_module x_mod) (x_cf + 3) x_minted);
    [apply x_wired|apply x_minted_inv|done|done|done|by apply run_fst].
Defined.

Definition x_coins : coins := [Coin "aguru" x_amt; Coin "uguru" 2].
Definition x_send : M pb_state unit := SendCoins x_info x_alice x_bob x_coins.

Lemma SendCoins_moves_all_denoms_witness :
  (x_send x_state).1 = Ok tt /\
  abs x_info x_reserve (x_next x_send)
    ≡l l_transfer x_alice x_bob (ext_amount x_info x_coins) (abs x_info x_reserve x_state).
Proof.
  assert ((x_send x_state).1 = Ok tt) as E by (vm_compute; reflexivity).
  split; [exact E|].
  apply (SendCoins_moves_all_denoms x_info x_reserve x_alice x_bob x_coins x_state);
    [apply x_wired|apply x_inv|done|done|by apply run_fst].
Defined.

Definition x_genesis : GenesisState :=
  mkGenesisState [mkFractionalBalance (bech32_of x_alice) 3;
                  mkFractionalBalance (bech32_of x_bob) (x_cf - 1)] (x_cf - 2).
Definition x_import : M pb_state unit := InitGenesis x_info x_genesis.
Definition x_empty : pb_state := PB ∅ x_bank [].

Lemma reachable_backed_witness :
  (x_import x_empty).1 = Ok tt /\ pb_inv x_info x_reserve (x_send (x_import x_empty).2).2.
Proof.
  assert ((x_import x_empty).1 = Ok tt) as E by (vm_compute; reflexivity).
  assert ((x_send (x_import x_empty).2).1 = Ok tt) as E2 by (vm_compute; reflexivity).
  split; [exact E|].
  apply (reachable_backed x_info x_reserve); [apply x_wired|].
  eapply reach_step; [eapply reach_init; by apply run_fst|].
  apply (step_call _ _ _ (CallSendCoins x_alice x_bob x_coins)); [by intros [[=]|[=]]|by apply run_fst].
Defined.

Lemma x_side amt : 0 <= amt < 2 ^ 256 -> send_side x_info x_reserve x_alice x_bob x_state amt.
Proof. intros. split; try done. apply x_inv. Qed.

Lemma x_spendable : ext_spendable x_info x_state x_alice = 5 * x_cf + 3.
Proof. unfold ext_spendable. rewrite x_cf_eq. vm_compute. reflexivity. Qed.

Lemma sendExtendedCoins_succeeds_witness :
  ext_spendable x_info x_state x_alice = 5 * x_cf + 3 /\
  exists s', sendExtendedCoins x_info x_alice x_bob (5 * x_cf + 3) x_state = (Ok tt, s').
Proof.
  split; [apply x_spendable|].
  apply (sendExtendedCoins_succeeds x_info x_reserve);
    [apply x_wired|apply x_side; done|by rewrite x_spendable].
Defined.

Lemma sendExtendedCoins_insufficient_witness :
  exists e s', sendExtendedCoins x_info x_alice x_bob (5 * x_cf + 4) x_state = (Err e, s') /\
    e_kind e = ErrInsufficientFunds.
Proof.
  apply (sendExtendedCoins_insufficient x_info x_reserve);
    [apply x_wired|apply x_side; done|done|by rewrite x_spendable|by rewrite x_cf_eq].
Defined.

Lemma x_keys_ok : keys_ok x_kv.
Proof.
  intros k v Hk. apply elem_of_list_to_map_2 in Hk.
  rewrite !elem_of_cons in Hk. destruct Hk as [[= -> _]|[[= -> _]|[[= -> _]|Hk]]].
  - right. exists x_alice. split_and!; [done|done|]. repeat constructor; lia.
  - right. exists x_bob. split_and!; [done|done|]. repeat constructor; lia.
  - by left.
  - by apply not_elem_of_nil in Hk.
Qed.

Lemma genesis_roundtrip_witness :
  InitGenesis x_info (ExportGenesis x_state) (PB ∅ x_bank []) = (Ok tt, x_state).
Proof.
  apply (genesis_roundtrip x_info x_reserve x_state ["minter"; "burner"]);
    [apply x_wired|apply x_inv|apply x_keys_ok|done|vm_compute; reflexivity].
Defined.

Lemma GetBalance_shows_ledger_witness :
  GetBalance x_info x_state x_alice "aguru" =
    Ok (Coin "aguru" (abs_balance x_info x_reserve x_state x_alice)).
Proof.
  apply (GetBalance_shows_ledger x_info x_reserve);
    [apply x_wired|apply x_inv|unfold abs_balance; rewrite x_cf_eq; vm_compute; reflexivity].
Defined.

Lemma total_sum_is_sum_witness :
  GetTotalSumFractionalBalances x_state = Ok (frac_sum x_kv) /\ frac_sum x_kv = x_cf + 2.
Proof.
  split; [|vm_compute; reflexivity].
  apply (total_sum_is_sum x_info x_reserve); [apply x_wired|apply x_inv|vm_compute; reflexivity].
Defined.

(** A chain whose coin has 18 decimals: one unit sent, two units in the event. *)
Definition x_info18 : EvmCoinInfo := mkEvmCoinInfo "aguru" "aguru" "guru" 18.

Lemma SumExtendedCoin_amount_witness :
  SumExtendedCoin x_info18 [Coin "aguru" 7] = Ok (Coin "aguru" 14) /\
  14 = ext_amount x_info18 [Coin "aguru" 7] + 7 * CF x_info18.
Proof.
  assert (SumExtendedCoin x_info18 [Coin "aguru" 7] = Ok (Coin "aguru" 14)) as E
    by (vm_compute; reflexivity).
  split; [exact E|].
  exact (proj2 (SumExtendedCoin_amount x_info18 _ _ ltac:(split_and!; done) E)).
Defined.

(**  [SendCoinsFromModuleToModule] checks the recipient but, unlike
      [SendCoinsFromModuleToAccount], not the sender: a caller that names
      x/precisebank as the sender takes integer coins out of the reserve, which
      is then no longer backed. *)
Theorem SendCoinsFromModuleToModule_drains_reserve :
  pb_inv x_info x_reserve x_state /\
  exists s', SendCoinsFromModuleToModule x_info ModuleName x_mod [Coin "uguru" 1] x_state
      = (Ok tt, s') /\ ~ pb_inv x_info x_reserve s'.
Proof.
  split; [apply x_inv|].
  set (m := SendCoinsFromModuleToModule x_info ModuleName x_mod [Coin "uguru" 1]).
  exists (m x_state).2. split.
  - apply run_fst. vm_compute. reflexivity.
  - intros [_ Hb]. rewrite x_cf_eq in Hb. vm_compute in Hb. discriminate.
Qed.
