(* ===== verification/FeeMarket.v ===== *)
(** x/feemarket: the EIP-1559 base fee.

    The store holds the parameters, with the base fee among them, and the gas
    wanted by the last block as eight big-endian bytes; a transient store sums
    the gas wanted by the transactions of the block.  [EndBlock] turns the sum
    into the block's gas and sets the base fee of the next block; the oracle
    hook [AfterOracleEnd] moves the minimum gas price.  The definitions follow
    [keeper/*.go], [types/params.go], [types/msg.go] and [genesis.go]. *)
From S2P Require Import Prelude KVStore Sdk.

Record Params := mkParams {
  NoBaseFee : bool;
  BaseFeeChangeDenominator : Z;  (** uint32 *)
  ElasticityMultiplier : Z;      (** uint32 *)
  EnableHeight : Z;              (** int64 *)
  BaseFee : dec;
  MinGasPrice : dec;
  MinGasMultiplier : dec;
  GasPriceAdjustmentFactor : dec;
  MaxChangeRate : dec;
}.

(** What the Go code reads of [sdk.Context]: the height, the block gas limit of
    the consensus parameters (nil when unset) and the gas of the block meter
    (nil without a meter). *)
Record Ctx := mkCtx {
  BlockHeight : Z;
  BlockMaxGas : option Z;        (** int64 *)
  BlockGasMeter : option Z;      (** uint64, [GasConsumedToLimit] *)
}.

Record GenesisState := mkGenesis { gs_Params : Params; gs_BlockGas : Z }.

Record fm_state := FM {
  fm_params : option Params;
  fm_block_gas : option bytes;
  fm_transient : option bytes;
  fm_events : list event;
}.

(** [sdkmath.LegacyMaxDec] *)
Definition dec_max (d1 d2 : Z) : Z := if d1 <? d2 then d2 else d1.

(** [sdk.BigEndianToUint64]: zero on an empty slice. *)
Definition be_uint64 (bz : option bytes) : Z :=
  match bz with Some (b :: l) => be64_decode (b :: l) | _ => 0 end.

(** The zero value of the protobuf struct: its decimals are nil. *)
Definition zero_params : Params := mkParams false 0 0 0 None None None None None.

(** [math.LegacyNewDecWithPrec(50, 2)] and the other defaults; the two
    go-ethereum constants are 8 and 2. *)
Definition DefaultParams : Params :=
  mkParams false 8 2 0 (Some (dec_of_int 1000000000)) (Some 0) (Some (dec_one / 2))
    (Some dec_one) (Some dec_one).
Definition DefaultGenesisState : GenesisState := mkGenesis DefaultParams 0.

(** ** types *)

Definition IsBaseFeeEnabled (p : Params) (height : Z) : bool :=
  negb (NoBaseFee p) && (EnableHeight p <=? height).

Definition validateMinGasPrice (gasPrice : dec) : res unit :=
  match gasPrice with
  | None => Err (Error ErrOther "invalid parameter: nil")
  | Some z => if z <? 0 then Err (Error ErrOther "value cannot be negative") else Ok tt
  end.

Definition validateMinGasMultiplier (multiplier : dec) : res unit :=
  match multiplier with
  | None => Err (Error ErrOther "invalid parameter: nil")
  | Some z =>
      if z <? 0 then Err (Error ErrOther "value cannot be negative")
      else if dec_one <? z then Err (Error ErrOther "value cannot be greater than 1")
      else Ok tt
  end.

Definition validateGasPriceAdjustmentFactor (rate : dec) : res unit :=
  match rate with
  | None => Err (Error ErrOther "invalid parameter: nil")
  | Some z => if z <? 0 then Err (Error ErrOther "value cannot be negative") else Ok tt
  end.

Definition Params_Validate (p : Params) : res unit :=
  if BaseFeeChangeDenominator p =? 0
  then Err (Error ErrOther "base fee change denominator cannot be 0")
  else
    let? baseFee := dec_val (BaseFee p) in
    if baseFee <? 0 then Err (Error ErrOther "initial base fee cannot be negative")
    else if EnableHeight p <? 0 then Err (Error ErrOther "enable height cannot be negative")
    else if ElasticityMultiplier p =? 0
    then Err (Error ErrOther "elasticity multiplier cannot be zero")
    else
      do? validateMinGasMultiplier (MinGasMultiplier p);
      do? validateMinGasPrice (MinGasPrice p);
      validateGasPriceAdjustmentFactor (GasPriceAdjustmentFactor p).

Definition GenesisState_Validate (gs : GenesisState) : res unit := Params_Validate (gs_Params gs).

Record MsgUpdateParams := mkMsgUpdateParams { up_Authority : string; up_Params : Params }.

Definition MsgUpdateParams_ValidateBasic `{AddressCodec} (m : MsgUpdateParams) : res unit :=
  match acc_of_bech32 (up_Authority m) with
  | None => Err (Error ErrOther "invalid authority address")
  | Some _ => Params_Validate (up_Params m)
  end.

Section keeper.
Context `{DecLib}.

(** ** Stores *)

Definition GetParams (s : fm_state) : Params :=
  match fm_params s with Some p => p | None => zero_params end.

(** The parameters as they are read back: protobuf stores each decimal as text. *)
Definition stored_params (p : Params) : Params :=
  mkParams (NoBaseFee p) (BaseFeeChangeDenominator p) (ElasticityMultiplier p) (EnableHeight p)
    (dec_stored (BaseFee p)) (dec_stored (MinGasPrice p)) (dec_stored (MinGasMultiplier p))
    (dec_stored (GasPriceAdjustmentFactor p)) (dec_stored (MaxChangeRate p)).

Definition SetParams (p : Params) : M fm_state unit :=
  modify (fun s => FM (Some (stored_params p)) (fm_block_gas s) (fm_transient s) (fm_events s)).

Definition SetBlockGasWanted (gas : Z) : M fm_state unit :=
  modify (fun s => FM (fm_params s) (Some (be64 gas)) (fm_transient s) (fm_events s)).
Definition GetBlockGasWanted (s : fm_state) : Z := be_uint64 (fm_block_gas s).

Definition GetTransientGasWanted (s : fm_state) : Z := be_uint64 (fm_transient s).
Definition SetTransientBlockGasWanted (gasWanted : Z) : M fm_state unit :=
  modify (fun s => FM (fm_params s) (fm_block_gas s) (Some (be64 gasWanted)) (fm_events s)).
(** Go's [uint64] addition wraps. *)
Definition AddTransientGasWanted (gasWanted : Z) : M fm_state Z :=
  let! cur := gets GetTransientGasWanted in
  let result := wrap64 (cur + gasWanted) in
  do! SetTransientBlockGasWanted result;
  ret result.

Definition emit (e : event) : M fm_state unit :=
  modify (fun s => FM (fm_params s) (fm_block_gas s) (fm_transient s) (fm_events s ++ [e])).

Definition GetBaseFeeEnabled (c : Ctx) (s : fm_state) : bool :=
  negb (NoBaseFee (GetParams s)) && (EnableHeight (GetParams s) <=? BlockHeight c).

Definition GetBaseFee (s : fm_state) : dec :=
  if NoBaseFee (GetParams s) then None else BaseFee (GetParams s).

Definition with_base_fee (p : Params) (f : dec) : Params :=
  mkParams (NoBaseFee p) (BaseFeeChangeDenominator p) (ElasticityMultiplier p) (EnableHeight p)
    f (MinGasPrice p) (MinGasMultiplier p) (GasPriceAdjustmentFactor p) (MaxChangeRate p).
Definition with_min_gas_price (p : Params) (f : dec) : Params :=
  mkParams (NoBaseFee p) (BaseFeeChangeDenominator p) (ElasticityMultiplier p) (EnableHeight p)
    (BaseFee p) f (MinGasMultiplier p) (GasPriceAdjustmentFactor p) (MaxChangeRate p).

Definition SetBaseFee (baseFee : dec) : M fm_state unit :=
  let! params := gets GetParams in SetParams (with_base_fee params baseFee).

(** ** EIP-1559 *)

Definition CalculateBaseFee (c : Ctx) (s : fm_state) : res dec :=
  let params := GetParams s in
  if negb (IsBaseFeeEnabled params (BlockHeight c)) then Ok None
  else if BlockHeight c =? EnableHeight params then Ok (BaseFee params)
  else
    match BaseFee params with
    | None => Ok None
    | Some parentBaseFee =>
        let parentGasUsed := GetBlockGasWanted s in
        let gasLimit :=
          match BlockMaxGas c with
          | Some maxGas => if -1 <? maxGas then maxGas else max_uint64
          | None => max_uint64
          end in
        let? parentGasTarget := int_quo gasLimit (ElasticityMultiplier params) in
        if negb (is_uint64 parentGasTarget) then Ok None
        else if parentGasUsed =? parentGasTarget then Ok (Some parentBaseFee)
        else if parentGasTarget =? 0 then Ok (Some 0)
        else if parentGasTarget <? parentGasUsed then
          let gasUsedDelta := parentGasUsed - parentGasTarget in
          let? x := dec_mul_int parentBaseFee gasUsedDelta in
          let? y := dec_quo_int x parentGasTarget in
          let? z := dec_quo_int y (BaseFeeChangeDenominator params) in
          let baseFeeDelta := dec_max z dec_one in
          let? r := dec_add parentBaseFee baseFeeDelta in
          Ok (Some r)
        else
          let gasUsedDelta := parentGasTarget - parentGasUsed in
          let? x := dec_mul_int parentBaseFee gasUsedDelta in
          let? y := dec_quo_int x parentGasTarget in
          let? baseFeeDelta := dec_quo_int y (BaseFeeChangeDenominator params) in
          let? r := dec_sub parentBaseFee baseFeeDelta in
          let? minGasPrice := dec_val (MinGasPrice params) in
          Ok (Some (dec_max r minGasPrice))
    end.

(** [Int.Uint64], which panics out of range. *)
Definition int_uint64 (z : Z) : res Z :=
  if is_uint64 z then Ok z else Panic "Uint64() out of bounds".

Definition EndBlock (c : Ctx) : M fm_state unit :=
  match BlockGasMeter c with
  | None => fail ErrOther "block gas meter is nil when setting block gas wanted"
  | Some gasUsed =>
      let! gasWanted := gets GetTransientGasWanted in
      if negb (is_int64 gasWanted) then fail ErrOther "Gas wanted > MaxInt64"
      else if negb (is_int64 gasUsed) then fail ErrOther "Gas used > MaxInt64"
      else
        let! params := gets GetParams in
        let! minGasMultiplier := lift (dec_val (MinGasMultiplier params)) in
        let! limitedGasWanted := lift (dec_mul (dec_of_int gasWanted) minGasMultiplier) in
        let! updated := lift (dec_trunc_int (dec_max limitedGasWanted (dec_of_int gasUsed))) in
        let! updatedGasWanted := lift (int_uint64 updated) in
        do! SetBlockGasWanted updatedGasWanted;
        let! nextBaseFee := (fun s => (CalculateBaseFee c s, s)) in
        do! (match nextBaseFee with
             | None => ret tt
             | Some _ =>
                 do! SetBaseFee nextBaseFee;
                 emit (Event "fee_market" [("base_fee", ADec nextBaseFee);
                         ("calculated_at_block", AInt (BlockHeight c))])
             end);
        emit (Event "block_gas" [("height", AInt (BlockHeight c)); ("amount", AInt updatedGasWanted)])
  end.

(** ** The oracle hook *)

(** [rawData] is the field of the oracle's data set. *)
Definition AfterOracleEnd (rawData : string) : M fm_state unit :=
  let! params := gets GetParams in
  let! gasPriceAdjustmentFactor := lift (dec_val (GasPriceAdjustmentFactor params)) in
  if gasPriceAdjustmentFactor =? 0 then ret tt
  else
    match dec_of_str rawData with
    | None => ret tt
    | Some rawDataDec =>
        if rawDataDec =? 0 then ret tt
        else
          let! q := lift (dec_quo gasPriceAdjustmentFactor rawDataDec) in
          let! newMinGasPrice := lift (dec_trunc_int q) in
          let! maxChangeRate := lift (dec_val (MaxChangeRate params)) in
          let! newMinGasPrice :=
            (if maxChangeRate =? 0 then ret newMinGasPrice
             else
               let! currentMinGasPrice := lift (dec_val (MinGasPrice params)) in
               if currentMinGasPrice =? 0 then ret newMinGasPrice
               else
                 let! maxChange := lift (dec_mul currentMinGasPrice maxChangeRate) in
                 let! upperBound := lift (dec_add currentMinGasPrice maxChange) in
                 let! lowerBound := lift (dec_sub currentMinGasPrice maxChange) in
                 let newMinGasPriceDec := dec_of_int newMinGasPrice in
                 if upperBound <? newMinGasPriceDec then lift (dec_trunc_int upperBound)
                 else if newMinGasPriceDec <? lowerBound then lift (dec_trunc_int lowerBound)
                 else ret newMinGasPrice) in
          do! SetParams (with_min_gas_price params (Some (dec_of_int newMinGasPrice)));
          emit (Event "change_min_gas_price" [("min_gas_price", AInt newMinGasPrice)])
    end.

(** ** Messages, queries, genesis *)

Definition UpdateParams (authority : string) (req : MsgUpdateParams) : M fm_state unit :=
  if negb (bool_decide (authority = up_Authority req))
  then fail ErrInvalidSigner "invalid authority"
  else SetParams (up_Params req).

Definition Query_Params (s : fm_state) : res Params := Ok (GetParams s).
Definition Query_BaseFee (s : fm_state) : res dec := Ok (GetBaseFee s).
Definition Query_BlockGas (s : fm_state) : res Z :=
  let gas := GetBlockGasWanted s in
  if is_int64 gas then Ok gas else Err (Error ErrOther "block gas is higher than MaxInt64").

Definition InitGenesis (data : GenesisState) : M fm_state unit :=
  do! SetParams (gs_Params data);
  SetBlockGasWanted (gs_BlockGas data).
Definition ExportGenesis (s : fm_state) : GenesisState :=
  mkGenesis (GetParams s) (GetBlockGasWanted s).
End keeper.
