(* ===== verification/FeeMarketThms.v ===== *)
(** Theorems about x/feemarket: the base fee against a reference definition of
    EIP-1559, the block gas, the limiter of the oracle hook, the validity of
    the parameters across blocks, genesis. *)
From S2P Require Import Prelude KVStore Sdk BankModel FeeMarket.

(** * The reference definition *)

(** EIP-1559 with floor division: base fee [f], gas [used] against the target
    [T], change denominator [D], and the minimum gas price as a floor when the
    fee falls. *)
Definition eip1559 (f used T D minprice : Z) : Z :=
  if used =? T then f
  else if T <? used then f + Z.max (f * (used - T) / T / D) dec_one
  else Z.max (f - f * (T - used) / T / D) minprice.

Definition gas_target (c : Ctx) (p : Params) : Z :=
  (match BlockMaxGas c with
   | Some g => if -1 <? g then g else max_uint64
   | None => max_uint64
   end) / ElasticityMultiplier p.

Lemma eip1559_up f used T D m :
  T < used -> f + dec_one <= eip1559 f used T D m.
Proof.
  intros Hu. unfold eip1559. destruct (Z.eqb_spec used T); [lia|].
  destruct (Z.ltb_spec T used); lia.
Qed.

Lemma div_div_le f d T D : 0 <= f -> 0 < T -> 0 < D -> 0 <= d <= T -> f * d / T / D <= f / D.
Proof.
  intros. apply Z.div_le_mono; [done|].
  apply (Z.le_trans _ (f * T / T)); [apply Z.div_le_mono; nia|]. by rewrite Z.div_mul by lia.
Qed.

(** The parameters [Params_Validate] accepts. *)
Record params_ok (p : Params) : Prop := {
  po_denominator : BaseFeeChangeDenominator p <> 0;
  po_elasticity : ElasticityMultiplier p <> 0;
  po_height : 0 <= EnableHeight p;
  po_fee : exists z, BaseFee p = Some z /\ 0 <= z;
  po_price : exists z, MinGasPrice p = Some z /\ 0 <= z;
  po_multiplier : exists z, MinGasMultiplier p = Some z /\ 0 <= z <= dec_one;
  po_factor : exists z, GasPriceAdjustmentFactor p = Some z /\ 0 <= z;
}.

Lemma Params_Validate_spec p : Params_Validate p = Ok tt <-> params_ok p.
Proof.
  unfold Params_Validate, validateMinGasMultiplier, validateMinGasPrice,
    validateGasPriceAdjustmentFactor. split.
  - intros Hv. run_inv. zbool. destruct (BaseFee p) as [f|] eqn:Hf; simplify_eq/=.
    destruct (MinGasMultiplier p) as [mu|] eqn:Hm; simplify_eq/=.
    destruct (MinGasPrice p) as [mp|] eqn:Hp; simplify_eq/=.
    destruct (GasPriceAdjustmentFactor p) as [g|] eqn:Hg; simplify_eq/=.
    run_inv. zbool. split; try done; eauto with lia.
  - intros [Hd He Hh (f & -> & Hf) (mp & -> & Hp) (mu & -> & Hm) (g & -> & Hg)]. simpl.
    destruct (Z.eqb_spec (BaseFeeChangeDenominator p) 0); [done|].
    destruct (Z.ltb_spec f 0); [lia|]. destruct (Z.ltb_spec (EnableHeight p) 0); [lia|].
    destruct (Z.eqb_spec (ElasticityMultiplier p) 0); [done|].
    destruct (Z.ltb_spec mu 0); [lia|]. destruct (Z.ltb_spec dec_one mu); [lia|]. simpl.
    destruct (Z.ltb_spec mp 0); [lia|]. simpl. destruct (Z.ltb_spec g 0); [lia|]. done.
Qed.

(** Machine widths of the fields and of the context. *)
Record widths (c : Ctx) (p : Params) : Prop := {
  wd_denominator : 0 <= BaseFeeChangeDenominator p < 2 ^ 32;
  wd_elasticity : 0 <= ElasticityMultiplier p < 2 ^ 32;
  wd_max_gas : forall g, BlockMaxGas c = Some g -> - 2 ^ 63 <= g <= max_int64;
}.

Section lemmas.
Context `{DecLib, !DecLaws}.
Implicit Types (c : Ctx) (s : fm_state).

Lemma be_uint64_be64 n : 0 <= n <= max_uint64 -> be_uint64 (Some (be64 n)) = n.
Proof.
  intros Hn. pose proof (be64_roundtrip n Hn) as Hr. unfold be_uint64.
  pose proof (be_length 8 n) as Hl. unfold be64 in *. by destruct (be 8 n).
Qed.

Lemma gas_target_ok c p :
  widths c p -> ElasticityMultiplier p <> 0 ->
  int_quo (match BlockMaxGas c with
           | Some g => if -1 <? g then g else max_uint64
           | None => max_uint64
           end) (ElasticityMultiplier p) = Ok (gas_target c p) /\
  0 <= gas_target c p <= max_uint64.
Proof.
  intros [_ He Hg] Hne. unfold gas_target.
  set (L := match BlockMaxGas c with Some g => _ | None => _ end).
  assert (0 <= L <= max_uint64) as HL.
  { subst L. unfold max_int64, max_uint64 in *. destruct (BlockMaxGas c) as [g|]; [|lia].
    specialize (Hg g eq_refl). destruct (Z.ltb_spec (-1) g); lia. }
  assert (0 <= L / ElasticityMultiplier p <= L).
  { split; [apply Z.div_pos; lia|]. apply Z.div_le_upper_bound; nia. }
  split; [|lia]. unfold int_quo. destruct (Z.eqb_spec (ElasticityMultiplier p) 0); [done|].
  rewrite quot_nonneg by lia. apply int_chk_fits. unfold max_uint64 in *. lia.
Qed.

Lemma dec_max_max a b : dec_max a b = Z.max a b.
Proof. unfold dec_max. destruct (Z.ltb_spec a b); lia. Qed.

Lemma quot_div_div f d T D :
  0 <= f -> 0 <= d -> 0 < T -> 0 < D ->
  f * d < 2 ^ 256 ->
  (let? x := dec_mul_int f d in let? y := dec_quo_int x T in dec_quo_int y D)
    = Ok (f * d / T / D).
Proof.
  intros Hf Hd HT HD Hlt. unfold dec_mul_int. rewrite dec_chk_256 by nia. simpl.
  unfold dec_quo_int. destruct (Z.eqb_spec T 0), (Z.eqb_spec D 0); try lia. simpl.
  assert (0 <= f * d / T) by (apply Z.div_pos; nia).
  by rewrite (quot_nonneg (f * d)), quot_nonneg by nia.
Qed.

Lemma rbind_assoc3 {A B C D} (x : res A) (f : A -> res B) (g : A -> B -> res C) (h : C -> res D) :
  (let? a := x in let? b := f a in let? z := g a b in h z) =
  (let? z := (let? a := x in let? b := f a in g a b) in h z).
Proof. destruct x; simpl; [|done..]. destruct (f a); simpl; done. Qed.

Lemma calculate_reference c s f mp :
  params_ok (GetParams s) -> widths c (GetParams s) ->
  NoBaseFee (GetParams s) = false -> EnableHeight (GetParams s) < BlockHeight c ->
  BaseFee (GetParams s) = Some f -> MinGasPrice (GetParams s) = Some mp ->
  0 < gas_target c (GetParams s) -> 0 <= GetBlockGasWanted s <= max_uint64 ->
  f < 2 ^ 191 ->
  CalculateBaseFee c s = Ok (Some (eip1559 f (GetBlockGasWanted s) (gas_target c (GetParams s))
                                    (BaseFeeChangeDenominator (GetParams s)) mp)).
Proof.
  intros [Hd He _ (f' & Hf' & Hf) _ _ _] Hw Hno Hh Hfee Hmp HT Hu Hlt.
  assert (f' = f) as -> by congruence. destruct (gas_target_ok c (GetParams s) Hw He) as [Hq Hb].
  destruct Hw as [[HD _] _ _]. unfold CalculateBaseFee, IsBaseFeeEnabled. rewrite Hno, Hfee.
  destruct (Z.leb_spec (EnableHeight (GetParams s)) (BlockHeight c)); [|lia].
  destruct (Z.eqb_spec (BlockHeight c) (EnableHeight (GetParams s))); [lia|]. cbn [negb andb].
  rewrite Hq. cbn [rbind]. set (T := gas_target c (GetParams s)) in *.
  set (used := GetBlockGasWanted s) in *. set (D := BaseFeeChangeDenominator (GetParams s)) in *.
  unfold is_uint64. destruct (Z.leb_spec 0 T), (Z.leb_spec T max_uint64); try lia. cbn [andb negb].
  unfold eip1559. destruct (Z.eqb_spec used T) as [|Hne]; [done|].
  destruct (Z.eqb_spec T 0); [lia|]. unfold max_uint64 in *.
  assert (forall d, 0 <= d <= 2 ^ 64 -> f * d < 2 ^ 256 /\ 0 <= f * d / T / D < 2 ^ 255) as Hbig.
  { intros d Hd'. assert (2 ^ 191 * 2 ^ 64 = 2 ^ 255) as E by done. assert (f * d <= 2 ^ 191 * 2 ^ 64) by nia.
    assert (f * d < 2 ^ 255).
    { destruct (decide (d = 0)); [subst; lia|]. nia. }
    assert (2 ^ 255 < 2 ^ 256) by done. split; [lia|]. split; [apply Z.div_pos; [apply Z.div_pos|]; nia|].
    apply Z.div_lt_upper_bound; [lia|]. apply Z.div_lt_upper_bound; nia. }
  assert (2 ^ 191 + 2 ^ 255 < 2 ^ 256) by done. assert (dec_one < 2 ^ 255) by done.
  destruct (Z.ltb_spec T used).
  - destruct (Hbig (used - T)) as [Hl1 Hl2]; [lia|].
    rewrite rbind_assoc3. rewrite quot_div_div by lia. cbn [rbind]. unfold dec_add.
    rewrite dec_max_max, dec_chk_256 by lia. done.
  - destruct (Hbig (T - used)) as [Hl1 Hl2]; [lia|].
    rewrite rbind_assoc3. rewrite quot_div_div by lia. cbn [rbind]. unfold dec_sub.
    rewrite dec_chk_256 by lia. cbn [rbind]. rewrite Hmp. simpl. by rewrite dec_max_max.
Qed.

Lemma multiplier_total gw mu :
  0 <= gw <= max_int64 -> 0 <= mu <= dec_one -> dec_mul (dec_of_int gw) mu = Ok (gw * mu).
Proof.
  intros Hgw Hmu. apply dec_mul_int_run. rewrite Z.abs_eq by nia.
  assert (gw * mu <= max_int64 * dec_one) by (apply Z.mul_le_mono_nonneg; lia).
  assert (max_int64 * dec_one < 2 ^ 255) by reflexivity. lia.
Qed.

(** What [EndBlock] writes as the gas of the block. *)
Definition block_gas_of (gw m gu : Z) : Z := Z.max (gw * m / dec_one) gu.

Lemma block_gas_trunc gw m gu :
  0 <= gw -> 0 <= m -> 0 <= gu ->
  Z.quot (Z.max (gw * m) (dec_of_int gu)) dec_one = block_gas_of gw m gu.
Proof.
  intros. assert (0 < dec_one) by done. unfold dec_of_int. rewrite quot_nonneg by nia.
  unfold block_gas_of. destruct (Z.max_spec (gw * m) (gu * dec_one)) as [[Hc ->]|[Hc ->]].
  - rewrite Z.div_mul by lia. rewrite Z.max_r; [done|]. apply Z.div_le_upper_bound; lia.
  - rewrite Z.max_l; [done|]. apply Z.div_le_lower_bound; lia.
Qed.

Lemma block_gas_bound gw m gu :
  0 <= gw <= max_int64 -> 0 <= m <= dec_one -> 0 <= gu <= max_int64 ->
  0 <= block_gas_of gw m gu <= max_int64.
Proof.
  intros Hw Hm Hu. unfold block_gas_of. assert (0 < dec_one) by done.
  assert (0 <= gw * m / dec_one <= gw); [|lia]. split; [apply Z.div_pos; nia|].
  apply Z.div_le_upper_bound; nia.
Qed.

Lemma calculate_total c s f :
  params_ok (GetParams s) -> widths c (GetParams s) ->
  BaseFee (GetParams s) = Some f -> f < 2 ^ 191 -> 0 <= GetBlockGasWanted s <= max_uint64 ->
  exists nf, CalculateBaseFee c s = Ok nf /\ forall z, nf = Some z -> 0 <= z.
Proof.
  intros Hok Hw Hf Hlt Hu. pose proof Hok as [Hd He _ (f' & Hf' & Hfn) (mp & Hmp & Hmpn) _ _].
  assert (f' = f) as -> by congruence. destruct (gas_target_ok c (GetParams s) Hw He) as [Hq Hb].
  destruct (decide (NoBaseFee (GetParams s) = false /\ EnableHeight (GetParams s) < BlockHeight c /\
    0 < gas_target c (GetParams s))) as [(Hno & Hh & HT)|Hcase].
  - eexists. split; [by apply (calculate_reference c s f mp)|]. intros z [= <-]. unfold eip1559.
    destruct (_ =? _); [done|]. destruct (_ <? _); [|lia]. assert (0 < dec_one) by done. lia.
  - unfold CalculateBaseFee, IsBaseFeeEnabled. destruct (NoBaseFee (GetParams s)) eqn:Hno;
      [by exists None|]. destruct (Z.leb_spec (EnableHeight (GetParams s)) (BlockHeight c)); [|by exists None].
    cbn [negb andb]. destruct (Z.eqb_spec (BlockHeight c) (EnableHeight (GetParams s))).
    { exists (Some f). rewrite Hf. split; [done|]. by intros z [= <-]. }
    assert (gas_target c (GetParams s) = 0) as HT by (destruct (decide (0 < gas_target c (GetParams s))); [exfalso; apply Hcase|]; lia).
    rewrite Hf, Hq, HT. simpl. destruct (Z.eqb_spec (GetBlockGasWanted s) 0); eexists; (split; [done|]);
      intros z [= <-]; done.
Qed.

(** The state after the gas of the block is written. *)
Definition with_block_gas (s : fm_state) (g : Z) : fm_state :=
  FM (fm_params s) (Some (be64 g)) (fm_transient s) (fm_events s).

Lemma with_block_gas_get s g : 0 <= g <= max_uint64 -> GetBlockGasWanted (with_block_gas s g) = g.
Proof. apply be_uint64_be64. Qed.

Lemma EndBlock_run c s mu gu nf :
  MinGasMultiplier (GetParams s) = Some mu -> 0 <= mu <= dec_one ->
  BlockGasMeter c = Some gu -> 0 <= gu <= max_int64 ->
  0 <= GetTransientGasWanted s <= max_int64 ->
  let g := block_gas_of (GetTransientGasWanted s) mu gu in
  CalculateBaseFee c (with_block_gas s g) = Ok nf ->
  exists s', EndBlock c s = (Ok tt, s') /\ GetBlockGasWanted s' = g /\
    fm_transient s' = fm_transient s /\
    GetParams s' = match nf with
                   | None => GetParams s
                   | Some _ => stored_params (with_base_fee (GetParams s) nf)
                   end.
Proof.
  intros Hmu Hmub Hgm Hgu Hgw g Hnf. unfold EndBlock. rewrite Hgm, bind_gets.
  assert (forall z, 0 <= z <= max_int64 -> is_int64 z = true) as H64.
  { intros z Hz. unfold is_int64. destruct (Z.leb_spec (- 2 ^ 63) z), (Z.leb_spec z max_int64); lia || done. }
  rewrite !H64 by done. cbn [negb]. rewrite bind_gets.
  rewrite (bind_run _ _ s mu s) by (unfold lift, dec_val; by rewrite Hmu).
  rewrite (bind_run _ _ s _ s) by (unfold lift; by rewrite multiplier_total).
  pose proof (block_gas_bound (GetTransientGasWanted s) mu gu Hgw Hmub Hgu) as Hb.
  assert (max_int64 < max_uint64 /\ max_uint64 < 2 ^ 256) as [Hm1 Hm2] by done.
  rewrite (bind_run _ _ s g s).
  2:{ unfold lift, dec_trunc_int. rewrite dec_max_max, block_gas_trunc by lia.
      rewrite int_chk_fits by (fold g; subst g; lia). done. }
  rewrite (bind_run _ _ s g s).
  2:{ unfold lift, int_uint64, is_uint64. subst g.
      destruct (Z.leb_spec 0 (block_gas_of (GetTransientGasWanted s) mu gu)),
        (Z.leb_spec (block_gas_of (GetTransientGasWanted s) mu gu) max_uint64); lia || done. }
  rewrite (bind_run _ _ s tt (with_block_gas s g)) by done.
  rewrite (bind_run _ _ _ nf (with_block_gas s g)) by by rewrite Hnf.
  destruct nf as [z|]; (eexists; split; [reflexivity|]); (split; [|by split]);
    apply be_uint64_be64; subst g; lia.
Qed.

Lemma params_ok_base_fee p z : params_ok p -> 0 <= z -> params_ok (stored_params (with_base_fee p (Some z))).
Proof.
  intros [? ? ? _ (a & Ha & ?) (b & Hb & ?) (g & Hg & ?)] Hz.
  split; simpl; try done; rewrite ?Ha, ?Hb, ?Hg, dec_stored_some; eauto.
Qed.

(** ** The oracle hook *)

(** The price the hook stores: from the quotient [n0], clipped to the bounds
    around the current price [cur] when both it and the rate are non-zero. *)
Inductive hook_price (cur rate : dec) (n0 : Z) : Z -> Prop :=
  | hp_free : rate = Some 0 \/ cur = Some 0 -> hook_price cur rate n0 n0
  | hp_clip (c r m n : Z) :
      cur = Some c -> rate = Some r -> c <> 0 -> r <> 0 -> dec_mul c r = Ok m ->
      n = (if c + m <? dec_of_int n0 then Z.quot (c + m) dec_one
           else if dec_of_int n0 <? c - m then Z.quot (c - m) dec_one else n0) ->
      hook_price cur rate n0 n.

Lemma AfterOracleEnd_ok raw s u s' :
  AfterOracleEnd raw s = (Ok u, s') ->
  (s' = s /\ (GasPriceAdjustmentFactor (GetParams s) = Some 0 \/
             dec_of_str raw = None \/ dec_of_str raw = Some 0)) \/
  exists f d q n,
    GasPriceAdjustmentFactor (GetParams s) = Some f /\ f <> 0 /\
    dec_of_str raw = Some d /\ d <> 0 /\ dec_quo f d = Ok q /\
    hook_price (MinGasPrice (GetParams s)) (MaxChangeRate (GetParams s)) (Z.quot q dec_one) n /\
    fm_params s' = Some (stored_params (with_min_gas_price (GetParams s) (Some (dec_of_int n)))) /\
    fm_block_gas s' = fm_block_gas s /\ fm_transient s' = fm_transient s.
Proof.
  unfold AfterOracleEnd. intros Hr. rewrite bind_gets in Hr.
  apply bind_lift_ok in Hr as (f & Hf & Hr).
  destruct (GasPriceAdjustmentFactor (GetParams s)) as [f'|] eqn:Hfac; simplify_eq/=.
  destruct (Z.eqb_spec f 0) as [->|Hf0]; [run_inv; auto|].
  destruct (dec_of_str raw) as [d|] eqn:Hd; [|run_inv; auto].
  destruct (Z.eqb_spec d 0) as [->|Hd0]; [run_inv; auto 6|].
  apply bind_lift_ok in Hr as (q & Hq & Hr). apply bind_lift_ok in Hr as (k0 & Hk0 & Hr). dec_inv.
  apply bind_lift_ok in Hr as (r & Hrate & Hr). apply bind_ok in Hr as (n & s1 & Hn & Hr).
  right. exists f, d, q, n.
  assert (s1 = s /\ hook_price (MinGasPrice (GetParams s)) (MaxChangeRate (GetParams s))
    (Z.quot q dec_one) n) as [-> Hp].
  { clear Hr. destruct (MaxChangeRate (GetParams s)) as [r'|] eqn:Hr'; simplify_eq/=.
    destruct (Z.eqb_spec r 0) as [->|Hr0]; [run_inv; split; [done|]; by apply hp_free; left|].
    apply bind_lift_ok in Hn as (c & Hc & Hn).
    destruct (MinGasPrice (GetParams s)) as [c'|] eqn:Hc'; simplify_eq/=.
    destruct (Z.eqb_spec c 0) as [->|Hc0]; [run_inv; split; [done|]; by apply hp_free; right|].
    apply bind_lift_ok in Hn as (m & Hm & Hn). apply bind_lift_ok in Hn as (ub & Hub & Hn).
    apply bind_lift_ok in Hn as (lb & Hlb & Hn). dec_inv.
    destruct (c + m <? dec_of_int (Z.quot q dec_one)) eqn:E1;
      [|destruct (dec_of_int (Z.quot q dec_one) <? c - m) eqn:E2]; run_inv; dec_inv;
      (split; [done|]); eapply hp_clip; eauto; by rewrite ?E1, ?E2. }
  unfold SetParams, emit, modify, bind in Hr. simplify_eq/=. by split_and!.
Qed.

Lemma quot_trunc x : 0 <= x -> x - dec_one < Z.quot x dec_one * dec_one <= x.
Proof.
  intros. rewrite quot_nonneg by done. pose proof (div_mod_lt x dec_one ltac:(done)). lia.
Qed.

Lemma quot_trunc_neg x : x <= 0 -> x <= Z.quot x dec_one * dec_one <= 0.
Proof.
  intros. replace x with (- - x) by lia. rewrite Z.quot_opp_l by done.
  pose proof (quot_trunc (- x) ltac:(lia)). assert (0 < dec_one) by done.
  assert (0 <= Z.quot (- x) dec_one) by (apply Z.quot_pos; lia). nia.
Qed.

Lemma hook_price_bounds (c r n0 n : Z) :
  0 < c -> 0 < r -> hook_price (Some c) (Some r) n0 n ->
  exists m, 2 * Z.abs (m * dec_one - c * r) <= dec_one /\
    c - m - dec_one < dec_of_int n <= c + m.
Proof.
  intros Hc Hr Hp. remember (Some c) as cur eqn:Ec. remember (Some r) as rate eqn:Er.
  destruct Hp as [[|]|c' r' m n' Ec' Er' _ _ Hm Hn]; [simplify_eq; lia..|].
  assert (c' = c) as -> by congruence. assert (r' = r) as -> by congruence. subst n'. exists m. apply dec_mul_round in Hm as Hm'. split; [done|].
  assert (0 < dec_one) by done. assert (0 <= m) by nia. unfold dec_of_int in *.
  destruct (Z.ltb_spec (c + m) (n0 * dec_one)).
  - pose proof (quot_trunc (c + m)). lia.
  - destruct (Z.ltb_spec (n0 * dec_one) (c - m)); [|lia].
    destruct (Z.le_ge_cases 0 (c - m)) as [Hs|Hs].
    + pose proof (quot_trunc (c - m) Hs). lia.
    + pose proof (quot_trunc_neg (c - m) Hs). lia.
Qed.

Lemma quo_nonneg_trunc f d q : 0 <= f -> 0 < d -> dec_quo f d = Ok q -> 0 <= Z.quot q dec_one.
Proof.
  intros Hf Hd [_ Hq]%dec_quo_near. assert (0 < dec_one) by done. assert (-1 <= q) by nia.
  destruct (decide (q = -1)) as [->|]; [done|]. apply Z.quot_pos; lia.
Qed.

Lemma hook_price_nonneg cur rate n0 n :
  0 <= n0 -> (forall z, cur = Some z -> 0 <= z) -> (forall z, rate = Some z -> 0 <= z) ->
  hook_price cur rate n0 n -> 0 <= n.
Proof.
  intros Hn0 Hc Hr Hp. destruct Hp as [|c r m n Ec Er _ _ Hm Hn]; [done|].
  specialize (Hc c Ec). specialize (Hr r Er). apply dec_mul_round in Hm.
  assert (0 < dec_one) by done. assert (0 <= m) by nia. unfold dec_of_int in *. subst n.
  destruct (Z.ltb_spec (c + m) (n0 * dec_one)); [apply Z.quot_pos; lia|].
  destruct (Z.ltb_spec (n0 * dec_one) (c - m)); [apply Z.quot_pos; nia|done].
Qed.
End lemmas.

(** * Theorems *)

Section theorems.
Context `{DecLib, !DecLaws}.
Implicit Types (c : Ctx) (s : fm_state).

(** The situation in which the base fee is computed from the parent block. *)
Record fee_active c s (f mp : Z) : Prop := {
  fa_ok : params_ok (GetParams s);
  fa_widths : widths c (GetParams s);
  fa_on : NoBaseFee (GetParams s) = false;
  fa_height : EnableHeight (GetParams s) < BlockHeight c;
  fa_fee : BaseFee (GetParams s) = Some f;
  fa_price : MinGasPrice (GetParams s) = Some mp;
  fa_target : 0 < gas_target c (GetParams s);
  fa_used : 0 <= GetBlockGasWanted s <= max_uint64;
  fa_fits : f < 2 ^ 191;
}.

(** C17.  With valid parameters and a base fee of at most 191 bits the decimal
    arithmetic of [CalculateBaseFee] never panics and computes EIP-1559 exactly
    as the reference defines it on integers with floor division. *)
Theorem CalculateBaseFee_is_eip1559 c s f mp :
  fee_active c s f mp ->
  CalculateBaseFee c s =
    Ok (Some (eip1559 f (GetBlockGasWanted s) (gas_target c (GetParams s))
                (BaseFeeChangeDenominator (GetParams s)) mp)).
Proof. intros []. by apply calculate_reference. Qed.

(**  The base fee moves as EIP-1559 promises: it is kept at the target, it
    rises by at least one unit above it and, up to twice the target, by at most
    the parent fee over the change denominator or one unit; below the target it
    falls by at most that share and never under the minimum gas price. *)
Theorem CalculateBaseFee_bounds c s f mp :
  fee_active c s f mp ->
  exists r, CalculateBaseFee c s = Ok (Some r) /\
    let used := GetBlockGasWanted s in
    let T := gas_target c (GetParams s) in
    let share := f / BaseFeeChangeDenominator (GetParams s) in
    (used = T -> r = f) /\
    (T < used -> f + dec_one <= r) /\
    (T < used <= 2 * T -> r <= f + Z.max share dec_one) /\
    (used < T -> mp <= r /\ f - share <= r <= Z.max f mp).
Proof.
  intros [Hok Hw Hon Hh Hf Hmp HT Hu Hfit]. eexists. split; [by apply calculate_reference|]. simpl.
  destruct Hok as [HD _ _ (f' & Hf' & Hfn) _ _ _]. assert (f' = f) as -> by congruence.
  destruct Hw as [[HD0 _] _ _]. set (T := gas_target c (GetParams s)) in *.
  set (D := BaseFeeChangeDenominator (GetParams s)) in *. set (used := GetBlockGasWanted s) in *.
  unfold eip1559. destruct (Z.eqb_spec used T), (Z.ltb_spec T used); split_and!; intros; try lia.
  - pose proof (div_div_le f (used - T) T D Hfn HT ltac:(lia) ltac:(lia)). lia.
  - pose proof (div_div_le f (T - used) T D Hfn HT ltac:(lia) ltac:(lia)).
    assert (0 <= f * (T - used) / T / D) by (apply Z.div_pos; [apply Z.div_pos|]; nia). lia.
Qed.

(**  [EndBlock] with a block gas meter, valid parameters and gas amounts of
    at most 63 bits never fails: the stored gas of the block is exactly the
    greater of the gas used and the share of the gas wanted the multiplier
    leaves, which the block gas query can return; the parameters stay valid and
    only their base fee changes, to what [CalculateBaseFee] returns. *)
Theorem EndBlock_exact c s f mu gu :
  params_ok (GetParams s) -> widths c (GetParams s) ->
  BaseFee (GetParams s) = Some f -> f < 2 ^ 191 ->
  MinGasMultiplier (GetParams s) = Some mu -> BlockGasMeter c = Some gu ->
  0 <= gu <= max_int64 -> 0 <= GetTransientGasWanted s <= max_int64 ->
  let g := block_gas_of (GetTransientGasWanted s) mu gu in
  exists s' nf, EndBlock c s = (Ok tt, s') /\
    GetBlockGasWanted s' = g /\ Query_BlockGas s' = Ok g /\
    CalculateBaseFee c (with_block_gas s g) = Ok nf /\
    GetParams s' = match nf with
                   | None => GetParams s
                   | Some _ => stored_params (with_base_fee (GetParams s) nf)
                   end /\
    params_ok (GetParams s').
Proof.
  intros Hok Hw Hf Hfit Hmu Hgm Hgu Hgw g. pose proof Hok as [_ _ _ _ _ (mu' & Hmu' & Hmb) _].
  assert (mu' = mu) as -> by congruence.
  pose proof (block_gas_bound _ mu gu Hgw Hmb Hgu) as Hb. fold g in Hb.
  assert (max_int64 < max_uint64) by done.
  destruct (calculate_total c (with_block_gas s g) f) as (nf & Hnf & Hpos);
    [done..|rewrite with_block_gas_get; lia|].
  destruct (EndBlock_run c s mu gu nf Hmu Hmb Hgm Hgu Hgw Hnf) as (s' & Hr & Hg & _ & Hp).
  exists s', nf. split_and!; try done.
  - unfold Query_BlockGas. rewrite Hg. fold g. unfold is_int64.
    destruct (Z.leb_spec (- 2 ^ 63) g), (Z.leb_spec g max_int64); lia || done.
  - rewrite Hp. destruct nf as [z|]; [|done]. by apply params_ok_base_fee; [|apply Hpos].
Qed.

(** [EndBlock] without a gas meter, or with gas beyond 63 bits, returns an
    error and leaves the state as it was. *)
Theorem EndBlock_errors c s :
  (BlockGasMeter c = None \/
   (exists gu, BlockGasMeter c = Some gu /\
     (is_int64 (GetTransientGasWanted s) = false \/ is_int64 gu = false))) ->
  exists e, EndBlock c s = (Err e, s).
Proof.
  intros [Hn|(gu & Hg & Hb)]; unfold EndBlock.
  - rewrite Hn. by eexists.
  - rewrite Hg, bind_gets. destruct (is_int64 (GetTransientGasWanted s)); simpl; [|by eexists].
    destruct Hb as [|Hb]; [done|]. rewrite Hb. by eexists.
Qed.

(**  The limiter of the oracle hook: with a positive current price and a
    positive change rate, the new minimum gas price is at most the current
    price plus the allowed change, and at least the current price less the
    allowed change, to within the unit lost to truncation; no other parameter
    changes. *)
Theorem AfterOracleEnd_limited raw s s' cur rate :
  MinGasPrice (GetParams s) = Some cur -> 0 < cur ->
  MaxChangeRate (GetParams s) = Some rate -> 0 < rate ->
  AfterOracleEnd raw s = (Ok tt, s') ->
  s' = s \/
  exists n m, GetParams s' =
      stored_params (with_min_gas_price (GetParams s) (Some (dec_of_int n))) /\
    2 * Z.abs (m * dec_one - cur * rate) <= dec_one /\
    cur - m - dec_one < dec_of_int n <= cur + m.
Proof.
  intros Hc Hc0 Hr Hr0 [[? _]|(f & d & q & n & _ & _ & _ & _ & _ & Hp & Hs & _)]%AfterOracleEnd_ok;
    [by left|right].
  rewrite Hc, Hr in Hp. apply hook_price_bounds in Hp as (m & Hm & Hb); [|done..].
  exists n, m. unfold GetParams at 1. by rewrite Hs.
Qed.

(**  Positive oracle data and a change rate that is not negative keep the
    parameters valid. *)
Theorem AfterOracleEnd_keeps_valid raw s s' d rate :
  params_ok (GetParams s) -> MaxChangeRate (GetParams s) = Some rate -> 0 <= rate ->
  dec_of_str raw = Some d -> 0 < d ->
  AfterOracleEnd raw s = (Ok tt, s') -> params_ok (GetParams s').
Proof.
  intros Hok Hr Hr0 Hd Hd0 [[-> _]|(f & d' & q & n & Hf & _ & Hd' & _ & Hq & Hp & Hs & _)]%AfterOracleEnd_ok;
    [done|]. assert (d' = d) as -> by congruence. unfold GetParams at 1. rewrite Hs.
  destruct Hok as [? ? ? (a & Ha & ?) (b & Hb & ?) (g & Hg & ?) (f' & Hf' & ?)].
  assert (f' = f) as -> by congruence. apply quo_nonneg_trunc in Hq; [|done..].
  apply hook_price_nonneg in Hp; [|done|naive_solver..]. assert (0 < dec_one) by done.
  split; simpl; try done; rewrite ?Ha, ?Hb, ?Hg, ?Hf, dec_stored_some; eauto.
  eexists. split; [done|]. unfold dec_of_int. nia.
Qed.

(**  Negative oracle data make the minimum gas price negative while the
    limiter is off, which is the state of the default parameters: the hook
    stores parameters that [Params_Validate] rejects. *)
Theorem AfterOracleEnd_negative raw s s' f d :
  GasPriceAdjustmentFactor (GetParams s) = Some f -> 2 * dec_one <= f ->
  MinGasPrice (GetParams s) = Some 0 ->
  dec_of_str raw = Some d -> - dec_one <= d < 0 ->
  AfterOracleEnd raw s = (Ok tt, s') ->
  (exists z, MinGasPrice (GetParams s') = Some z /\ z < 0) /\
  Params_Validate (GetParams s') <> Ok tt.
Proof.
  intros Hf Hf2 Hmin Hd Hd0 Hr. assert (0 < dec_one) by done.
  assert (exists z, MinGasPrice (GetParams s') = Some z /\ z < 0) as (z & Hz & Hz0).
  { apply AfterOracleEnd_ok in Hr as [[_ Hc]|(f' & d' & q & n & Hf' & _ & Hd' & _ & Hq & Hp & Hs & _)].
    - exfalso. rewrite Hf, Hd in Hc. destruct Hc as [[= ->]|[?|[= ->]]]; lia || done.
    - assert (f' = f) as -> by congruence. assert (d' = d) as -> by congruence.
      unfold GetParams at 1. rewrite Hs. simpl. rewrite dec_stored_some. eexists. split; [done|].
      apply dec_quo_near in Hq as [_ Hq]. assert (q <= - dec_one) by nia.
      assert (Z.quot q dec_one <= -1).
      { replace q with (- - q) by lia. rewrite Z.quot_opp_l, quot_nonneg by lia.
        assert (1 <= - q / dec_one); [apply Z.div_le_lower_bound|]; lia. }
      inversion Hp as [? Heq|]; simplify_eq; unfold dec_of_int; nia. }
  split; [eauto|]. rewrite Params_Validate_spec. intros [_ _ _ _ (z' & Hz' & Hp) _ _].
  assert (z' = z) by congruence. lia.
Qed.

(** Importing a genesis and exporting it gives the same parameters, block
    gas included. *)
Theorem feemarket_genesis_roundtrip gs s :
  stored_params (gs_Params gs) = gs_Params gs -> 0 <= gs_BlockGas gs <= max_uint64 ->
  exists s', InitGenesis gs s = (Ok tt, s') /\ ExportGenesis s' = gs.
Proof.
  intros Hp Hg. eexists. split; [done|]. unfold ExportGenesis, GetParams, GetBlockGasWanted.
  cbn [fm_params fm_block_gas]. rewrite be_uint64_be64, Hp by done. by destruct gs.
Qed.
End theorems.

(** * The theorems on a concrete chain *)

Definition y_ctx : Ctx := mkCtx 7 (Some 100) (Some 80).
Definition y_params : Params :=
  mkParams false 8 2 0 (Some (dec_of_int 1000)) (Some (dec_of_int 10)) (Some (dec_one / 2))
    (Some (dec_of_int 60)) (Some (dec_one / 4)).
Definition y_state : fm_state := FM (Some y_params) (Some (be64 70)) (Some (be64 90)) [].

Lemma y_params_ok : params_ok y_params.
Proof. apply Params_Validate_spec. reflexivity. Qed.

Lemma y_widths : widths y_ctx y_params.
Proof. split; [done..|]. intros g [= <-]. done. Qed.

Lemma y_active : fee_active y_ctx y_state (dec_of_int 1000) (dec_of_int 10).
Proof. split; try done; [apply y_params_ok|apply y_widths]. Qed.

Lemma CalculateBaseFee_is_eip1559_witness :
  CalculateBaseFee y_ctx y_state = Ok (Some (eip1559 (dec_of_int 1000) 70 50 8 (dec_of_int 10))).
Proof. exact (CalculateBaseFee_is_eip1559 y_ctx y_state _ _ y_active). Defined.

Lemma CalculateBaseFee_bounds_witness :
  exists r, CalculateBaseFee y_ctx y_state = Ok (Some r) /\ dec_of_int 1001 <= r.
Proof.
  destruct (CalculateBaseFee_bounds y_ctx y_state _ _ y_active) as (r & Hr & _ & Hup & _).
  exists r. split; [exact Hr|]. apply Hup. vm_compute. reflexivity.
Defined.

Lemma EndBlock_exact_witness :
  exists s', EndBlock y_ctx y_state = (Ok tt, s') /\ GetBlockGasWanted s' = 80.
Proof.
  destruct (EndBlock_exact y_ctx y_state (dec_of_int 1000) (dec_one / 2) 80)
    as (s' & nf & Hr & Hg & _);
    [apply y_params_ok|apply y_widths|vm_compute; reflexivity|vm_compute; reflexivity
    |vm_compute; reflexivity|vm_compute; reflexivity|done|by vm_compute|].
  exists s'. split; [exact Hr|]. rewrite Hg. vm_compute. reflexivity.
Defined.

Lemma EndBlock_errors_witness : exists e, EndBlock (mkCtx 7 None None) y_state = (Err e, y_state).
Proof. apply (EndBlock_errors (mkCtx 7 None None) y_state). by left. Defined.

Definition y_hook (raw : string) : fm_state := (AfterOracleEnd raw y_state).2.

(** The factor over the data is 60, the limiter allows 12. *)
Lemma AfterOracleEnd_limited_witness :
  exists n m, GetParams (y_hook "1") =
      stored_params (with_min_gas_price y_params (Some (dec_of_int n))) /\
    dec_of_int 10 - m - dec_one < dec_of_int n <= dec_of_int 10 + m.
Proof.
  destruct (AfterOracleEnd_limited "1" y_state (y_hook "1") (dec_of_int 10) (dec_one / 4))
    as [He|(n & m & Hp & _ & Hb)];
    [vm_compute; reflexivity|done|vm_compute; reflexivity|done|vm_compute; reflexivity| |].
  - exfalso. apply (f_equal (fun s => MinGasPrice (GetParams s))) in He. vm_compute in He. discriminate.
  - exists n, m. split; [exact Hp|exact Hb].
Defined.

Lemma AfterOracleEnd_keeps_valid_witness : params_ok (GetParams (y_hook "2")).
Proof.
  apply (AfterOracleEnd_keeps_valid "2" y_state (y_hook "2") (2 * dec_one) (dec_one / 4));
    [apply y_params_ok|vm_compute; reflexivity|by vm_compute|vm_compute; reflexivity|by vm_compute
    |vm_compute; reflexivity].
Defined.

Definition y_off : fm_state :=
  FM (Some (with_min_gas_price y_params (Some 0))) (Some (be64 70)) None [].

Lemma AfterOracleEnd_negative_witness :
  Params_Validate (GetParams (AfterOracleEnd "-1" y_off).2) <> Ok tt.
Proof.
  refine (proj2 (AfterOracleEnd_negative "-1" y_off (AfterOracleEnd "-1" y_off).2 (dec_of_int 60)
    (- dec_one) _ _ _ _ _ _));
    [vm_compute; reflexivity|by vm_compute|vm_compute; reflexivity|vm_compute; reflexivity
    |split; by vm_compute|vm_compute; reflexivity].
Defined.

Lemma feemarket_genesis_roundtrip_witness :
  exists s', InitGenesis DefaultGenesisState y_state = (Ok tt, s') /\
    ExportGenesis s' = DefaultGenesisState.
Proof.
  apply (feemarket_genesis_roundtrip DefaultGenesisState y_state); [vm_compute; reflexivity|done].
Defined.
