(* ===== verification/FeePolicy.v ===== *)
(** x/feepolicy: the discounts a moderator registers for fee payers.

    The store holds the moderator address under one key and, under the prefix
    of the discounts, one record per account keyed by the bytes of its address
    text; a record lists modules, a module lists discounts by message type.
    The definitions follow [keeper/*.go], [types/*.go] and [genesis.go]. *)
From S2P Require Import Prelude KVStore Sdk.

Record Discount := mkDiscount { DiscountType : string; MsgType : string; Amount : dec }.
Record ModuleDiscount := mkModuleDiscount { md_Module : string; md_Discounts : list Discount }.
Record AccountDiscount := mkAccountDiscount { ad_Address : string; ad_Modules : list ModuleDiscount }.
Record GenesisState := mkGenesisState { gs_Moderator : string; gs_Discounts : list AccountDiscount }.

Record MsgChangeModerator := mkMsgChangeModerator {
  cm_ModeratorAddress : string; cm_NewModeratorAddress : string }.
Record MsgRegisterDiscounts := mkMsgRegisterDiscounts {
  rd_ModeratorAddress : string; rd_Discounts : list AccountDiscount }.
Record MsgRemoveDiscounts := mkMsgRemoveDiscounts {
  rm_ModeratorAddress : string; rm_Address : string; rm_Module : string; rm_MsgType : string }.

(** The values of the two keys; the key of a discount is without the prefix of
    its prefix store. *)
Record fp_state := FP {
  fp_moderator : option string;
  fp_discounts : gmap bytes AccountDiscount;
  fp_events : list event;
}.

Definition FeeDiscountTypePercent : string := "percent".
Definition FeeDiscountTypeFixed : string := "fixed".

(** The zero value [types.Discount{}]. *)
Definition no_discount : Discount := mkDiscount EmptyString EmptyString None.

(** [append(l[:j], l[j+1:]...)] on the backing array of [l], read again through
    the header of [l], whose length has not changed. *)
Definition shift_remove {A} (j : nat) (l : list A) : list A :=
  take j l ++ drop (S j) l ++ match last l with Some x => [x] | None => [] end.

(** The position of the first element a loop with [break] stops at. *)
Fixpoint first_index {A} (p : A -> bool) (l : list A) : option nat :=
  match l with
  | [] => None
  | x :: l => if p x then Some O else option_map S (first_index p l)
  end.

Section types.
Context `{AddressCodec}.

Definition ValidateFeeDiscount (discount : Discount) : res unit :=
  if negb (bool_decide (DiscountType discount = FeeDiscountTypePercent))
     && negb (bool_decide (DiscountType discount = FeeDiscountTypeFixed))
  then Err (Error ErrInvalidRequest "invalid discount type")
  else if bool_decide (MsgType discount = EmptyString)
  then Err (Error ErrInvalidRequest "msg type is required")
  else
    let? amount := dec_val (Amount discount) in
    if (amount <? 0) || (amount =? 0)
    then Err (Error ErrInvalidRequest "discount value must be greater than 0")
    else Ok tt.

Definition ValidateAccountDiscount (discount : AccountDiscount) : res unit :=
  match acc_of_bech32 (ad_Address discount) with
  | None => Err (Error ErrInvalidAddress "string could not be parsed as address")
  | Some _ =>
      each_res (fun moduleDiscount =>
        if bool_decide (md_Module moduleDiscount = EmptyString)
        then Err (Error ErrInvalidRequest "module is required")
        else each_res ValidateFeeDiscount (md_Discounts moduleDiscount)) (ad_Modules discount)
  end.

Definition validateAddress (i : string) : res unit :=
  match acc_of_bech32 i with
  | None => Err (Error ErrInvalidAddress "invalid address")
  | Some _ => Ok tt
  end.

Definition GenesisState_Validate (gs : GenesisState) : res unit :=
  do? validateAddress (gs_Moderator gs);
  each_res ValidateAccountDiscount (gs_Discounts gs).

Definition MsgChangeModerator_ValidateBasic (msg : MsgChangeModerator) : res unit :=
  do? validateAddress (cm_ModeratorAddress msg);
  validateAddress (cm_NewModeratorAddress msg).

Definition MsgRegisterDiscounts_ValidateBasic (msg : MsgRegisterDiscounts) : res unit :=
  do? validateAddress (rd_ModeratorAddress msg);
  match rd_Discounts msg with
  | [] => Err (Error ErrInvalidRequest "no discounts provided")
  | ds => each_res ValidateAccountDiscount ds
  end.

Definition MsgRemoveDiscounts_ValidateBasic (msg : MsgRemoveDiscounts) : res unit :=
  do? validateAddress (rm_ModeratorAddress msg);
  validateAddress (rm_Address msg).
End types.

Section keeper.
Context `{AddressCodec, DecLib}.

(** Messages are opaque; [sdk.MsgTypeURL] names their type. *)
Variable Msg : Type.
Variable MsgTypeURL : Msg -> string.
(** The keepers with a checker of their own, [Keeper.moduleKeepers]. *)
Variable moduleKeepers : string -> option (Discount -> list Msg -> bool).
Variable authority : string.

Definition emit (e : event) : M fp_state unit :=
  modify (fun s => FP (fp_moderator s) (fp_discounts s) (fp_events s ++ [e])).

(** ** Moderator *)

Definition GetModeratorAddress : M fp_state string := fun s =>
  match fp_moderator s with
  | None => (Err (Error ErrInvalidRequest "moderator address not found"), s)
  | Some moderator => (Ok moderator, s)
  end.

Definition SetModeratorAddress (moderator : string) : M fp_state unit :=
  modify (fun s => FP (Some moderator) (fp_discounts s) (fp_events s)).

(** ** Discounts *)

Definition GetAccountDiscounts (s : fp_state) (accStr : string) : option AccountDiscount :=
  fp_discounts s !! str_bytes accStr.

Fixpoint find_module (module : string) (l : list ModuleDiscount) : option (list Discount) :=
  match l with
  | [] => None
  | discount :: l =>
      if bool_decide (md_Module discount = module) then Some (md_Discounts discount)
      else find_module module l
  end.
Definition GetModuleDiscounts (s : fp_state) (accStr module : string) : option (list Discount) :=
  match GetAccountDiscounts s accStr with
  | None => None
  | Some accDiscount => find_module module (ad_Modules accDiscount)
  end.

(** What is read back: each amount went through its text. *)
Definition stored_discount (d : Discount) : Discount :=
  mkDiscount (DiscountType d) (MsgType d) (dec_stored (Amount d)).
Definition stored_module (d : ModuleDiscount) : ModuleDiscount :=
  mkModuleDiscount (md_Module d) (map stored_discount (md_Discounts d)).
Definition stored_account (d : AccountDiscount) : AccountDiscount :=
  mkAccountDiscount (ad_Address d) (map stored_module (ad_Modules d)).

Definition SetAccountDiscounts (discount : AccountDiscount) : M fp_state unit :=
  modify (fun s => FP (fp_moderator s)
    (<[str_bytes (ad_Address discount) := stored_account discount]> (fp_discounts s))
    (fp_events s)).

Definition DeleteAccountDiscounts (accStr : string) : M fp_state unit :=
  modify (fun s => FP (fp_moderator s) (delete (str_bytes accStr) (fp_discounts s)) (fp_events s)).

(** [append] here assigns the shortened slice to the record that is stored. *)
Definition remove_module (module : string) (l : list ModuleDiscount) : list ModuleDiscount :=
  match first_index (fun d => bool_decide (md_Module d = module)) l with
  | Some i => take i l ++ drop (S i) l
  | None => l
  end.
Definition DeleteModuleDiscounts (accStr module : string) : M fp_state unit :=
  let! found := gets (fun s => GetAccountDiscounts s accStr) in
  match found with
  | None => ret tt
  | Some discounts =>
      SetAccountDiscounts
        (mkAccountDiscount (ad_Address discounts) (remove_module module (ad_Modules discounts)))
  end.

(** The outer loop variable is a copy of the module's struct: the shortened
    slice is assigned to the copy and lost, the elements of the shared backing
    array have moved. *)
Definition remove_msg_type (msgType : string) (m : ModuleDiscount) : ModuleDiscount :=
  match first_index (fun d => bool_decide (MsgType d = msgType)) (md_Discounts m) with
  | Some j => mkModuleDiscount (md_Module m) (shift_remove j (md_Discounts m))
  | None => m
  end.
Definition DeleteMsgTypeDiscounts (accStr msgType : string) : M fp_state unit :=
  let! found := gets (fun s => GetAccountDiscounts s accStr) in
  match found with
  | None => ret tt
  | Some discounts =>
      SetAccountDiscounts
        (mkAccountDiscount (ad_Address discounts)
           (map (remove_msg_type msgType) (ad_Modules discounts)))
  end.

(** The page the SDK's [query.Paginate] returns: the records in key order, at
    most [limit] of them, 100 when the request sets none. *)
Definition GetPaginatedDiscounts (s : fp_state) (limit : Z) : list AccountDiscount :=
  let all := map snd (iterate [] (fp_discounts s)) in
  let limit := if limit =? 0 then 100 else limit in
  take (Z.to_nat (Z.min limit (Z.of_nat (length all)))) all.

(** [break] leaves the innermost loop only, so the last module and the last
    message that match decide. *)
Fixpoint scan_discounts (t : string) (l : list Discount) : option Discount :=
  match l with
  | [] => None
  | d :: l => if bool_decide (MsgType d = t) then Some d else scan_discounts t l
  end.
Fixpoint scan_modules (t : string) (l : list ModuleDiscount) (acc : Discount * string)
    : Discount * string :=
  match l with
  | [] => acc
  | moduleDiscount :: l =>
      scan_modules t l
        (match scan_discounts t (md_Discounts moduleDiscount) with
         | Some d => (d, md_Module moduleDiscount)
         | None => acc
         end)
  end.
Fixpoint scan_msgs (modules : list ModuleDiscount) (msgs : list Msg) (acc : Discount * string)
    : Discount * string :=
  match msgs with
  | [] => acc
  | m :: msgs => scan_msgs modules msgs (scan_modules (MsgTypeURL m) modules acc)
  end.

Definition GetDiscount (s : fp_state) (feePayerAddr : string) (msgs : list Msg) : Discount :=
  match GetAccountDiscounts s feePayerAddr with
  | None => no_discount
  | Some accDiscount =>
      let '(discount, module) := scan_msgs (ad_Modules accDiscount) msgs (no_discount, EmptyString) in
      match moduleKeepers module with
      | None => discount
      | Some check => if check discount msgs then discount else no_discount
      end
  end.

(** ** Messages *)

Definition ChangeModerator (msg : MsgChangeModerator) : M fp_state unit :=
  let! moderator := GetModeratorAddress in
  if negb (bool_decide (cm_ModeratorAddress msg = moderator))
  then fail ErrWrongModerator "the operation is allowed only from moderator address"
  else
    match acc_of_bech32 (cm_NewModeratorAddress msg) with
    | None => fail ErrOther "invalid address"
    | Some _ =>
        do! SetModeratorAddress (cm_NewModeratorAddress msg);
        emit (Event "change_moderator_address"
          [("moderator", AStr (cm_ModeratorAddress msg));
           ("address", AStr (cm_NewModeratorAddress msg))])
    end.

Definition discount_attrs (discount : Discount) : list (string * attr) :=
  [("msg_type", AStr (MsgType discount)); ("discount_type", AStr (DiscountType discount));
   ("amount", ADec (Amount discount))].
Definition module_attrs (m : ModuleDiscount) : list (string * attr) :=
  ("module", AStr (md_Module m)) :: flat_map discount_attrs (md_Discounts m).
Definition account_attrs (a : AccountDiscount) : list (string * attr) :=
  ("address", AStr (ad_Address a)) :: flat_map module_attrs (ad_Modules a).

Definition RegisterDiscounts (msg : MsgRegisterDiscounts) : M fp_state unit :=
  let! moderator := GetModeratorAddress in
  if negb (bool_decide (rd_ModeratorAddress msg = moderator))
  then fail ErrWrongModerator "the operation is allowed only from moderator address"
  else
    do! each (fun discount =>
          do! lift (ValidateAccountDiscount discount);
          SetAccountDiscounts discount) (rd_Discounts msg);
    emit (Event "register_discounts"
      (("moderator", AStr (rd_ModeratorAddress msg)) :: flat_map account_attrs (rd_Discounts msg))).

Definition RemoveDiscounts (msg : MsgRemoveDiscounts) : M fp_state unit :=
  let! moderator := GetModeratorAddress in
  if negb (bool_decide (rm_ModeratorAddress msg = moderator))
  then fail ErrWrongModerator "the operation is allowed only from moderator address"
  else
    do! (if bool_decide (rm_Module msg = EmptyString) then DeleteAccountDiscounts (rm_Address msg)
         else if bool_decide (rm_MsgType msg = EmptyString)
         then DeleteModuleDiscounts (rm_Address msg) (rm_Module msg)
         else DeleteMsgTypeDiscounts (rm_Address msg) (rm_MsgType msg));
    emit (Event "remove_discounts"
      [("moderator", AStr (rm_ModeratorAddress msg)); ("address", AStr (rm_Address msg));
       ("module", AStr (rm_Module msg)); ("msg_type", AStr (rm_MsgType msg))]).

(** ** Queries and genesis *)

Definition Query_ModeratorAddress : M fp_state string := GetModeratorAddress.
Definition Query_Discounts (s : fp_state) : list AccountDiscount := GetPaginatedDiscounts s 0.
Definition Query_Discount (s : fp_state) (address : string) : AccountDiscount :=
  match GetAccountDiscounts s address with
  | None => mkAccountDiscount EmptyString []
  | Some discount => discount
  end.

Definition InitGenesis (data : GenesisState) : M fp_state unit :=
  let moderator := if bool_decide (gs_Moderator data = EmptyString) then authority
                   else gs_Moderator data in
  match acc_of_bech32 moderator with
  | None => panic "invalid moderator address"
  | Some _ =>
      do! SetModeratorAddress moderator;
      each SetAccountDiscounts (gs_Discounts data)
  end.

Definition ExportGenesis : M fp_state GenesisState := fun s =>
  match GetModeratorAddress s with
  | (Ok moderator, s) => (Ok (mkGenesisState moderator (GetPaginatedDiscounts s max_uint64)), s)
  | (_, s) => (Panic "moderator address not found", s)
  end.
End keeper.
