(* ===== verification/FeePolicyThms.v ===== *)
(** Theorems about x/feepolicy: who may change the discounts, which discount a
    transaction gets, what each removal removes, validity of the store,
    genesis. *)
From S2P Require Import Prelude KVStore Sdk BankModel FeePolicy.

(** * Loops *)

Lemma first_index_app {A} (p : A -> bool) l x :
  Forall (fun y => p y = false) l -> p x = true -> first_index p (l ++ [x]) = Some (length l).
Proof.
  intros Hl Hx. induction Hl as [|y l Hy _ IH]; simpl; [by rewrite Hx|]. by rewrite Hy, IH.
Qed.

Lemma shift_remove_length {A} j (l : list A) :
  (j < length l)%nat -> length (shift_remove j l) = length l.
Proof.
  intros Hj. unfold shift_remove. rewrite !length_app, length_take, length_drop.
  destruct l as [|x l] using rev_ind; [simpl in *; lia|]. rewrite last_snoc. simpl. lia.
Qed.

Lemma shift_remove_last {A} (l : list A) x : shift_remove (length l) (l ++ [x]) = l ++ [x].
Proof.
  unfold shift_remove. rewrite take_app_length, last_snoc.
  rewrite drop_ge; [done|]. rewrite length_app. simpl. lia.
Qed.

Lemma first_index_lt {A} (p : A -> bool) l j :
  first_index p l = Some j -> (j < length l)%nat.
Proof.
  revert j. induction l as [|x l IH]; intros j; simpl; [done|].
  destruct (p x); [intros [= <-]; lia|].
  destruct (first_index p l) as [i|]; simpl; [|done]. intros [= <-]. specialize (IH i eq_refl). lia.
Qed.

Lemma shift_remove_Forall {A} (P : A -> Prop) j l : Forall P l -> Forall P (shift_remove j l).
Proof.
  intros Hl. unfold shift_remove. rewrite !Forall_app. split_and!.
  - by apply Forall_take.
  - by apply Forall_drop.
  - destruct (last l) eqn:E; [|constructor]. apply last_Some_elem_of in E.
    rewrite Forall_forall in Hl. constructor; [by apply Hl|constructor].
Qed.

Section lemmas.
Context `{AddressCodec, DecLib, !DecLaws}.
Variable Msg : Type.
Variable MsgTypeURL : Msg -> string.
Variable moduleKeepers : string -> option (Discount -> list Msg -> bool).

(** ** Validity *)

Lemma ValidateFeeDiscount_spec d :
  ValidateFeeDiscount d = Ok tt <->
  (DiscountType d = FeeDiscountTypePercent \/ DiscountType d = FeeDiscountTypeFixed) /\
  MsgType d <> EmptyString /\ exists z, Amount d = Some z /\ 0 < z.
Proof.
  unfold ValidateFeeDiscount. split.
  - intros Hv. run_inv. zbool. destruct (Amount d) as [z|] eqn:Hz; simplify_eq/=. split_and!.
    + destruct (decide (DiscountType d = FeeDiscountTypePercent)); [by left|right].
      rewrite bool_decide_eq_false_2 in Heqb by done. simpl in Heqb. by zbool.
    + done.
    + exists x. split; [done|]. lia.
  - intros (Ht & Hm & z & -> & Hz). rewrite (bool_decide_eq_false_2 (MsgType d = _)) by done. simpl.
    destruct (Z.ltb_spec z 0), (Z.eqb_spec z 0); try lia. simpl.
    by destruct Ht as [-> | ->].
Qed.

Lemma valid_discount_stored d : ValidateFeeDiscount d = Ok tt -> stored_discount d = d.
Proof.
  intros (_ & _ & z & Hz & _)%ValidateFeeDiscount_spec. destruct d; simpl in *. subst.
  unfold stored_discount. simpl. by rewrite dec_stored_some.
Qed.

Definition module_ok (m : ModuleDiscount) : Prop :=
  md_Module m <> EmptyString /\ Forall (fun d => ValidateFeeDiscount d = Ok tt) (md_Discounts m).

Lemma ValidateAccountDiscount_spec a :
  ValidateAccountDiscount a = Ok tt <->
  acc_of_bech32 (ad_Address a) <> None /\ Forall module_ok (ad_Modules a).
Proof.
  unfold ValidateAccountDiscount. destruct (acc_of_bech32 (ad_Address a)) as [x|]; [|split; [done|by intros []]].
  rewrite each_res_ok. split.
  - intros Hf. split; [done|]. eapply Forall_impl; [exact Hf|]. simpl. intros m Hm.
    case_bool_decide; [done|]. split; [done|]. by apply each_res_ok.
  - intros [_ Hf]. eapply Forall_impl; [exact Hf|]. simpl. intros m [Hm Hd].
    rewrite bool_decide_eq_false_2 by done. by apply each_res_ok.
Qed.

Lemma map_id_Forall {A} (f : A -> A) l : Forall (fun x => f x = x) l -> map f l = l.
Proof. induction 1; simpl; congruence. Qed.

Lemma valid_account_stored a : ValidateAccountDiscount a = Ok tt -> stored_account a = a.
Proof.
  intros [_ Hf]%ValidateAccountDiscount_spec. destruct a as [ad ms]. unfold stored_account. simpl in *.
  f_equal. apply map_id_Forall. eapply Forall_impl; [exact Hf|]. intros [m ds] [_ Hd]. simpl in *.
  unfold stored_module. simpl. f_equal. apply map_id_Forall.
  eapply Forall_impl; [exact Hd|]. apply valid_discount_stored.
Qed.

(** Every record is valid and stored under its own address. *)
Definition store_ok (m : gmap bytes AccountDiscount) : Prop :=
  map_Forall (fun k a => k = str_bytes (ad_Address a) /\ ValidateAccountDiscount a = Ok tt) m.

Lemma store_ok_insert m a :
  store_ok m -> ValidateAccountDiscount a = Ok tt ->
  store_ok (<[str_bytes (ad_Address a) := stored_account a]> m).
Proof.
  intros Hm Ha. rewrite valid_account_stored by done. apply map_Forall_insert_2; [|done]. by split.
Qed.

Lemma remove_module_ok n l : Forall module_ok l -> Forall module_ok (remove_module n l).
Proof.
  intros Hl. unfold remove_module. destruct (first_index _ l) as [i|]; [|done].
  apply Forall_app. split; [by apply Forall_take|by apply Forall_drop].
Qed.

Lemma remove_msg_type_ok t m : module_ok m -> module_ok (remove_msg_type t m).
Proof.
  intros [Hm Hd]. unfold remove_msg_type. destruct (first_index _ _) as [j|]; [|done].
  split; simpl; [done|]. by apply shift_remove_Forall.
Qed.

Lemma register_loop ds s u s' :
  store_ok (fp_discounts s) ->
  each (fun discount => do! lift (ValidateAccountDiscount discount); SetAccountDiscounts discount) ds s
    = (Ok u, s') ->
  store_ok (fp_discounts s') /\ fp_moderator s' = fp_moderator s /\
  Forall (fun a => ValidateAccountDiscount a = Ok tt) ds.
Proof.
  revert s. induction ds as [|a ds IH]; intros s Hs Hr; simpl in Hr.
  - run_inv. split_and!; [done..|constructor].
  - apply bind_ok in Hr as (u1 & s1 & Ha & Hr). apply bind_lift_ok in Ha as ([] & Hv & Ha).
    unfold SetAccountDiscounts in Ha. run_inv. apply IH in Hr as (Hs' & Hm & Hf).
    + split_and!; [done|done|by constructor].
    + simpl. by apply store_ok_insert.
Qed.

Lemma moderator_read s m s' : GetModeratorAddress s = (Ok m, s') -> fp_moderator s = Some m /\ s' = s.
Proof. unfold GetModeratorAddress. destruct (fp_moderator s) as [x|]; [|done]. by intros [= -> ->]. Qed.

Lemma register_loop_get l s u s' :
  store_ok (fp_discounts s) ->
  each (fun discount => do! lift (ValidateAccountDiscount discount); SetAccountDiscounts discount) l s
    = (Ok u, s') ->
  (forall x, x ∉ map ad_Address l -> GetAccountDiscounts s' x = GetAccountDiscounts s x) /\
  (forall b l0, l = l0 ++ [b] -> GetAccountDiscounts s' (ad_Address b) = Some b).
Proof.
  revert s. induction l as [|b l IH]; intros s Hs Hr; simpl in Hr.
  - run_inv. split; [done|]. intros b l0 Hl. by destruct l0.
  - apply bind_ok in Hr as ([] & s1 & Ha & Hr). apply bind_lift_ok in Ha as ([] & Hv & Ha).
    unfold SetAccountDiscounts, modify in Ha. injection Ha as <-.
    pose proof (store_ok_insert _ _ Hs Hv) as Hs1.
    apply IH in Hr as [I1 I2]; [|exact Hs1]. split.
    + intros x Hx. rewrite I1 by (intros Hin; apply Hx; by right). unfold GetAccountDiscounts. simpl.
      rewrite lookup_insert_ne; [done|]. intros Heq%str_bytes_inj. apply Hx. rewrite <- Heq. by left.
    + intros c [|b' l0] Hl; injection Hl as <- Hl; [|by eapply I2].
      subst l. rewrite I1 by apply not_elem_of_nil. unfold GetAccountDiscounts. simpl.
      rewrite lookup_insert_eq. by rewrite valid_account_stored.
Qed.

(** ** Which discount a transaction gets *)

(** The candidates in the order the loops visit them. *)
Definition candidates (modules : list ModuleDiscount) (msgs : list Msg) : list (Discount * string) :=
  flat_map (fun m => flat_map (fun md =>
    match scan_discounts (MsgTypeURL m) (md_Discounts md) with
    | Some d => [(d, md_Module md)]
    | None => []
    end) modules) msgs.

Lemma last_app_default {A} (l1 l2 : list A) x : default x (last (l1 ++ l2)) = default (default x (last l1)) (last l2).
Proof. rewrite last_app. by destruct (last l2). Qed.

Lemma scan_modules_last t l acc :
  scan_modules t l acc =
  default acc (last (flat_map (fun md =>
    match scan_discounts t (md_Discounts md) with
    | Some d => [(d, md_Module md)]
    | None => []
    end) l)).
Proof.
  revert acc. induction l as [|md l IH]; intros acc; simpl; [done|].
  rewrite IH, last_app_default. by destruct (scan_discounts t (md_Discounts md)).
Qed.

Lemma scan_msgs_last modules msgs acc :
  scan_msgs Msg MsgTypeURL modules msgs acc = default acc (last (candidates modules msgs)).
Proof.
  revert acc. induction msgs as [|m msgs IH]; intros acc; simpl; [done|].
  by rewrite IH, last_app_default, <- scan_modules_last.
Qed.

Lemma scan_discounts_in t l d : scan_discounts t l = Some d -> d ∈ l /\ MsgType d = t.
Proof.
  induction l as [|x l IH]; simpl; [done|]. case_bool_decide.
  - intros [= <-]. split; [by left|done].
  - intros [Hin Ht]%IH. split; [by right|done].
Qed.

Lemma candidates_in modules msgs d n :
  (d, n) ∈ candidates modules msgs ->
  exists m md, m ∈ msgs /\ md ∈ modules /\ md_Module md = n /\ d ∈ md_Discounts md /\
    MsgType d = MsgTypeURL m.
Proof.
  unfold candidates. rewrite list_elem_of_In, in_flat_map.
  intros (m & Hm & (md & Hmd & Hin)%in_flat_map). exists m, md.
  destruct (scan_discounts (MsgTypeURL m) (md_Discounts md)) as [x|] eqn:E; [|done].
  destruct Hin as [[= -> ->]|[]]. apply scan_discounts_in in E as [? ?].
  split_and!; try done; by apply list_elem_of_In.
Qed.

(** ** Removals *)

(** The record a removal leaves at an address whose record was [a]. *)
Lemma removal_record s x a f (del : M fp_state unit) u s' :
  store_ok (fp_discounts s) -> GetAccountDiscounts s x = Some a ->
  Forall module_ok (f (ad_Modules a)) ->
  del s = SetAccountDiscounts (mkAccountDiscount (ad_Address a) (f (ad_Modules a))) s ->
  del s = (Ok u, s') ->
  GetAccountDiscounts s' x = Some (mkAccountDiscount x (f (ad_Modules a))).
Proof.
  intros Hs Ha Hf Hd Hr. rewrite Hd in Hr. unfold SetAccountDiscounts, modify in Hr. injection Hr as <- <-.
  unfold GetAccountDiscounts in *. apply Hs in Ha as [Hk Ha]. apply str_bytes_inj in Hk as ->.
  apply ValidateAccountDiscount_spec in Ha as [Haa _]. simpl. rewrite lookup_insert_eq.
  rewrite valid_account_stored; [done|]. by apply ValidateAccountDiscount_spec.
Qed.

Lemma RemoveDiscounts_inner msg s s' :
  RemoveDiscounts msg s = (Ok tt, s') ->
  exists u s1, (if bool_decide (rm_Module msg = EmptyString) then DeleteAccountDiscounts (rm_Address msg)
         else if bool_decide (rm_MsgType msg = EmptyString)
         then DeleteModuleDiscounts (rm_Address msg) (rm_Module msg)
         else DeleteMsgTypeDiscounts (rm_Address msg) (rm_MsgType msg)) s = (Ok u, s1) /\
    fp_discounts s' = fp_discounts s1.
Proof.
  intros Hr. unfold RemoveDiscounts in Hr. apply bind_ok in Hr as (m & s0 & Hm & Hr).
  apply moderator_read in Hm as [_ ->]. destruct (negb _); [run_inv|].
  apply bind_ok in Hr as (u & s1 & Hd & Hr). exists u, s1. split; [done|].
  unfold emit, modify in Hr. by injection Hr as <-.
Qed.

Lemma find_module_remove n n' l :
  NoDup (map md_Module l) ->
  find_module n' (remove_module n l) = if bool_decide (n = n') then None else find_module n' l.
Proof.
  unfold remove_module. induction l as [|m l IH]; intros Hnd; simpl; [by case_bool_decide|].
  apply NoDup_cons in Hnd as [Hn Hnd]. specialize (IH Hnd).
  destruct (decide (md_Module m = n)) as [Hm|Hm];
    [rewrite (bool_decide_eq_true_2 (md_Module m = n)) by done
    |rewrite (bool_decide_eq_false_2 (md_Module m = n)) by done].
  - cbn [take app drop]. rewrite ?drop_0, Hm.
    destruct (decide (n = n')) as [<-|Hn']; [|by rewrite bool_decide_eq_false_2].
    rewrite bool_decide_eq_true_2 by done. subst n. clear - Hn.
    induction l as [|m' l IH]; simpl; [done|]. simpl in Hn. apply not_elem_of_cons in Hn as [Hne Hn].
    rewrite bool_decide_eq_false_2 by congruence. by apply IH.
  - destruct (first_index _ l) as [i|]; simpl in *; rewrite IH; repeat case_bool_decide; congruence.
Qed.

Lemma remove_msg_type_length t m :
  length (md_Discounts (remove_msg_type t m)) = length (md_Discounts m).
Proof.
  unfold remove_msg_type. destruct (first_index _ _) as [j|] eqn:E; [|done]. simpl.
  apply shift_remove_length. by eapply first_index_lt.
Qed.

Lemma remove_msg_type_last n l d :
  Forall (fun x => MsgType x <> MsgType d) l ->
  remove_msg_type (MsgType d) (mkModuleDiscount n (l ++ [d])) = mkModuleDiscount n (l ++ [d]).
Proof.
  intros Hl. unfold remove_msg_type. cbn [md_Discounts md_Module]. rewrite first_index_app.
  - by rewrite shift_remove_last.
  - eapply Forall_impl; [exact Hl|]. intros x Hx. by apply bool_decide_eq_false_2.
  - by apply bool_decide_eq_true_2.
Qed.

(** ** Genesis *)

Lemma set_loop l s :
  each SetAccountDiscounts l s =
  (Ok tt, FP (fp_moderator s)
    (put_list (fp_discounts s) (map (fun a => (str_bytes (ad_Address a), stored_account a)) l))
    (fp_events s)).
Proof.
  revert s. induction l as [|a l IH]; intros s; [by destruct s|]. simpl.
  rewrite (bind_run _ _ s tt (FP (fp_moderator s)
    (<[str_bytes (ad_Address a) := stored_account a]> (fp_discounts s)) (fp_events s))) by done.
  by rewrite IH.
Qed.

Lemma iterate_records m :
  store_ok m ->
  map (fun a => (str_bytes (ad_Address a), stored_account a)) (map snd (iterate [] m)) = iterate [] m.
Proof.
  intros Hm. rewrite map_map. apply map_id_Forall, Forall_forall. intros [k a] [Hk _]%elem_of_iterate.
  apply Hm in Hk as [-> Ha]. simpl. by rewrite valid_account_stored.
Qed.
End lemmas.

(** * Theorems *)

Section theorems.
Context `{AddressCodec, DecLib, !DecLaws}.
Variable Msg : Type.
Variable MsgTypeURL : Msg -> string.
Variable moduleKeepers : string -> option (Discount -> list Msg -> bool).
Variable authority : string.

(**  Only the moderator changes the moderator or the discounts: a message
    from anyone else returns [ErrWrongModerator] and leaves the state as it
    was. *)
Theorem only_moderator s m :
  fp_moderator s = Some m ->
  (forall msg, cm_ModeratorAddress msg <> m ->
     exists e, ChangeModerator msg s = (Err e, s) /\ e_kind e = ErrWrongModerator) /\
  (forall msg, rd_ModeratorAddress msg <> m ->
     exists e, RegisterDiscounts msg s = (Err e, s) /\ e_kind e = ErrWrongModerator) /\
  (forall msg, rm_ModeratorAddress msg <> m ->
     exists e, RemoveDiscounts msg s = (Err e, s) /\ e_kind e = ErrWrongModerator).
Proof.
  intros Hm. split_and!; intros msg Hne;
    unfold ChangeModerator, RegisterDiscounts, RemoveDiscounts, GetModeratorAddress, bind;
    rewrite Hm, bool_decide_eq_false_2 by done; by eexists.
Qed.

(**  The discount of a transaction is the last candidate in the order of its
    messages and, for each message, of the modules of the payer's record, a
    module offering its first discount for the message type; a module with a
    checker of its own may refuse it.  One message that matches is enough. *)
Theorem GetDiscount_last_candidate s payer msgs acc :
  GetAccountDiscounts s payer = Some acc ->
  GetDiscount Msg MsgTypeURL moduleKeepers s payer msgs =
    let '(d, n) := default (no_discount, EmptyString)
                     (last (candidates Msg MsgTypeURL (ad_Modules acc) msgs)) in
    match moduleKeepers n with
    | None => d
    | Some check => if check d msgs then d else no_discount
    end.
Proof. intros Ha. unfold GetDiscount. by rewrite Ha, scan_msgs_last. Qed.

(**  A discount that is granted was registered for the payer, for the type
    of one of the messages of the transaction. *)
Theorem GetDiscount_registered s payer msgs d :
  GetDiscount Msg MsgTypeURL moduleKeepers s payer msgs = d -> d <> no_discount ->
  exists acc m md, GetAccountDiscounts s payer = Some acc /\ m ∈ msgs /\
    md ∈ ad_Modules acc /\ d ∈ md_Discounts md /\ MsgType d = MsgTypeURL m.
Proof.
  unfold GetDiscount. destruct (GetAccountDiscounts s payer) as [acc|] eqn:Ha; [|congruence].
  rewrite scan_msgs_last.
  destruct (last (candidates Msg MsgTypeURL (ad_Modules acc) msgs)) as [[d' n]|] eqn:Hl; simpl.
  - intros Hd Hne. assert (d' = d) as -> by (repeat case_match; congruence).
    apply last_Some_elem_of, candidates_in in Hl as (m & md & ? & ? & _ & ? & ?). naive_solver.
  - intros Hd Hne. exfalso. repeat case_match; congruence.
Qed.

(**  Registering stores exactly the records of the message: afterwards the
    account of the last record with an address has that record, an account that
    is not named keeps its own. *)
Theorem RegisterDiscounts_stores msg s s' a ds :
  store_ok (fp_discounts s) -> rd_Discounts msg = ds ++ [a] ->
  RegisterDiscounts msg s = (Ok tt, s') ->
  GetAccountDiscounts s' (ad_Address a) = Some a /\
  (forall x, x ∉ map ad_Address (rd_Discounts msg) ->
     GetAccountDiscounts s' x = GetAccountDiscounts s x).
Proof.
  intros Hs Hds Hr. unfold RegisterDiscounts in Hr. apply bind_ok in Hr as (m & s0 & Hm & Hr).
  apply moderator_read in Hm as [_ ->].
  destruct (negb _); [run_inv|]. apply bind_ok in Hr as (u & s1 & Hl & Hr).
  destruct (register_loop_get _ _ _ _ Hs Hl) as [I1 I2]. unfold emit in Hr. run_inv. split.
  - by apply (I2 a ds).
  - done.
Qed.

(**  The records stay valid and stored under their own addresses through
    every message. *)
Theorem feepolicy_store_valid s s' :
  store_ok (fp_discounts s) ->
  ((exists msg, ChangeModerator msg s = (Ok tt, s')) \/
   (exists msg, RegisterDiscounts msg s = (Ok tt, s')) \/
   (exists msg, RemoveDiscounts msg s = (Ok tt, s'))) ->
  store_ok (fp_discounts s').
Proof.
  intros Hs [[msg Hr]|[[msg Hr]|[msg Hr]]].
  - unfold ChangeModerator, GetModeratorAddress, bind in Hr. destruct (fp_moderator s); [|done].
    destruct (negb _); [done|]. destruct (acc_of_bech32 _); [|done].
    unfold SetModeratorAddress, emit, modify in Hr. by simplify_eq/=.
  - unfold RegisterDiscounts in Hr. apply bind_ok in Hr as (m & s0 & Hm & Hr).
    apply moderator_read in Hm as [_ ->].
    destruct (negb _); [run_inv|]. apply bind_ok in Hr as (u & s1 & Hl & Hr).
    apply register_loop in Hl as (Hl & _); [|done]. unfold emit in Hr. by run_inv.
  - unfold RemoveDiscounts in Hr. apply bind_ok in Hr as (m & s0 & Hm & Hr).
    apply moderator_read in Hm as [_ ->].
    destruct (negb _); [run_inv|]. apply bind_ok in Hr as (u & s1 & Hd & Hr).
    assert (store_ok (fp_discounts s1)) as Hs1; [|unfold emit in Hr; by run_inv].
    clear Hr. repeat case_bool_decide.
    + unfold DeleteAccountDiscounts in Hd. run_inv. by apply map_Forall_delete.
    + unfold DeleteModuleDiscounts in Hd. rewrite bind_gets in Hd. unfold GetAccountDiscounts in Hd.
      destruct (fp_discounts s !! _) as [a|] eqn:Ha; [|by run_inv]. unfold SetAccountDiscounts in Hd.
      run_inv. apply Hs in Ha as [_ Ha]. apply ValidateAccountDiscount_spec in Ha as [Haa Ham].
      apply (store_ok_insert (fp_discounts s) (mkAccountDiscount _ _)); [done|].
      apply ValidateAccountDiscount_spec. split; [done|]. by apply remove_module_ok.
    + unfold DeleteMsgTypeDiscounts in Hd. rewrite bind_gets in Hd. unfold GetAccountDiscounts in Hd.
      destruct (fp_discounts s !! _) as [a|] eqn:Ha; [|by run_inv]. unfold SetAccountDiscounts in Hd.
      run_inv. apply Hs in Ha as [_ Ha]. apply ValidateAccountDiscount_spec in Ha as [Haa Ham].
      apply (store_ok_insert (fp_discounts s) (mkAccountDiscount _ _)); [done|].
      apply ValidateAccountDiscount_spec. split; [done|]. simpl. apply Forall_map.
      eapply Forall_impl; [exact Ham|]. intros md. apply remove_msg_type_ok.
Qed.

(**  Removing a module's discounts leaves the account without that module
    and with every other module as it was. *)
Theorem RemoveDiscounts_module s s' msg a :
  store_ok (fp_discounts s) -> GetAccountDiscounts s (rm_Address msg) = Some a ->
  NoDup (map md_Module (ad_Modules a)) ->
  rm_Module msg <> EmptyString -> rm_MsgType msg = EmptyString ->
  RemoveDiscounts msg s = (Ok tt, s') ->
  forall n, GetModuleDiscounts s' (rm_Address msg) n =
    if bool_decide (rm_Module msg = n) then None else GetModuleDiscounts s (rm_Address msg) n.
Proof.
  intros Hs Ha Hnd Hm Ht (u & s1 & Hd & Hf)%RemoveDiscounts_inner n.
  rewrite bool_decide_eq_false_2, bool_decide_eq_true_2 in Hd by done.
  pose proof Ha as Ha'. apply Hs in Ha' as [_ [_ Hok]%ValidateAccountDiscount_spec].
  eapply (removal_record _ _ _ (remove_module (rm_Module msg))) in Hd;
    [|done|done|by apply remove_module_ok|].
  2:{ unfold DeleteModuleDiscounts. by rewrite bind_gets, Ha. }
  unfold GetModuleDiscounts. rewrite Ha. unfold GetAccountDiscounts in *. rewrite Hf, Hd.
  by apply find_module_remove.
Qed.

(**  Removing the discount of one message type removes none: every module of
    the account keeps as many discounts as it had, whatever the module the
    message names, and a discount that is the last of its module stays as it
    is. *)
Theorem RemoveDiscounts_msg_type_keeps s s' msg a :
  store_ok (fp_discounts s) -> GetAccountDiscounts s (rm_Address msg) = Some a ->
  rm_Module msg <> EmptyString -> rm_MsgType msg <> EmptyString ->
  RemoveDiscounts msg s = (Ok tt, s') ->
  exists a', GetAccountDiscounts s' (rm_Address msg) = Some a' /\
    Forall2 (fun m m' => md_Module m' = md_Module m /\
      length (md_Discounts m') = length (md_Discounts m) /\
      (forall l d, md_Discounts m = l ++ [d] -> MsgType d = rm_MsgType msg ->
         Forall (fun x => MsgType x <> MsgType d) l -> m' = m))
      (ad_Modules a) (ad_Modules a').
Proof.
  intros Hs Ha Hm Ht (u & s1 & Hd & Hf)%RemoveDiscounts_inner.
  rewrite !bool_decide_eq_false_2 in Hd by done.
  pose proof Ha as Ha'. apply Hs in Ha' as [_ [_ Hok]%ValidateAccountDiscount_spec].
  eapply (removal_record _ _ _ (map (remove_msg_type (rm_MsgType msg)))) in Hd;
    [|done|done|apply Forall_map; eapply Forall_impl; [exact Hok|]; intros md; apply remove_msg_type_ok|].
  2:{ unfold DeleteMsgTypeDiscounts. by rewrite bind_gets, Ha. }
  eexists. split; [unfold GetAccountDiscounts in *; by rewrite Hf|]. simpl.
  rewrite Forall2_fmap_r. apply Forall_Forall2_diag, Forall_forall. intros m _. split_and!.
  - unfold remove_msg_type. by case_match.
  - apply remove_msg_type_length.
  - intros l d Hl <- Hne. destruct m as [n ds]. simpl in Hl. subst ds. by apply remove_msg_type_last.
Qed.

(**  Exporting the discounts and importing them restores the moderator and
    every record. *)
Theorem feepolicy_genesis_roundtrip s m b es :
  store_ok (fp_discounts s) -> fp_moderator s = Some m -> m <> EmptyString ->
  acc_of_bech32 m = Some b ->
  Z.of_nat (length (iterate [] (fp_discounts s))) <= max_uint64 ->
  exists gs, ExportGenesis s = (Ok gs, s) /\
    InitGenesis authority gs (FP None ∅ es) = (Ok tt, FP (Some m) (fp_discounts s) es).
Proof.
  intros Hs Hm Hne Hb Hlen.
  exists (mkGenesisState m (GetPaginatedDiscounts s max_uint64)). split.
  { unfold ExportGenesis, GetModeratorAddress. by rewrite Hm. }
  assert (GetPaginatedDiscounts s max_uint64 = map snd (iterate [] (fp_discounts s))) as Hall.
  { unfold GetPaginatedDiscounts. change (max_uint64 =? 0) with false. cbv iota.
    apply take_ge. rewrite length_map. lia. }
  unfold InitGenesis. cbn [gs_Moderator gs_Discounts]. rewrite bool_decide_eq_false_2, Hb, Hall by done.
  rewrite (bind_run _ _ _ tt (FP (Some m) ∅ es)) by done. rewrite set_loop. cbn [fp_discounts fp_moderator fp_events].
  by rewrite iterate_records, put_list_iterate.
Qed.
End theorems.

(** * The theorems on a concrete store *)

Definition z_mod : string := bech32_of [7].
Definition z_payer : string := bech32_of [8].
Definition z_disc : Discount := mkDiscount "percent" "/bank.MsgSend" (Some (25 * dec_one)).
Definition z_rec : AccountDiscount :=
  mkAccountDiscount z_payer [mkModuleDiscount "bank" [z_disc]; mkModuleDiscount "gov" []].
Definition z_state : fp_state := FP (Some z_mod) {[ str_bytes z_payer := z_rec ]} [].
Definition z_keepers (_ : string) : option (Discount -> list string -> bool) := None.

Lemma z_store_ok : store_ok (fp_discounts z_state).
Proof. apply map_Forall_singleton. split; vm_compute; reflexivity. Qed.

Lemma only_moderator_witness :
  exists e, ChangeModerator (mkMsgChangeModerator z_payer z_payer) z_state = (Err e, z_state) /\
    e_kind e = ErrWrongModerator.
Proof. by apply (only_moderator z_state z_mod). Defined.

Lemma GetDiscount_last_candidate_witness :
  GetDiscount string id z_keepers z_state z_payer ["/x.Y"; "/bank.MsgSend"] = z_disc.
Proof.
  rewrite (GetDiscount_last_candidate string id z_keepers z_state z_payer _ z_rec);
    vm_compute; reflexivity.
Defined.

Lemma GetDiscount_registered_witness :
  exists acc m md, GetAccountDiscounts z_state z_payer = Some acc /\ m ∈ ["/bank.MsgSend"] /\
    md ∈ ad_Modules acc /\ z_disc ∈ md_Discounts md /\ MsgType z_disc = m.
Proof.
  apply (GetDiscount_registered string id z_keepers z_state z_payer ["/bank.MsgSend"] z_disc);
    [vm_compute; reflexivity|done].
Defined.

Definition z_register : MsgRegisterDiscounts := mkMsgRegisterDiscounts z_mod [z_rec].
Definition z_empty : fp_state := FP (Some z_mod) ∅ [].

Lemma RegisterDiscounts_stores_witness :
  GetAccountDiscounts (RegisterDiscounts z_register z_empty).2 z_payer = Some z_rec.
Proof.
  refine (proj1 (RegisterDiscounts_stores z_register z_empty _ z_rec [] _ _ _));
    [apply map_Forall_empty|reflexivity|vm_compute; reflexivity].
Defined.

Lemma feepolicy_store_valid_witness : store_ok (fp_discounts (RegisterDiscounts z_register z_empty).2).
Proof.
  apply (feepolicy_store_valid z_empty); [apply map_Forall_empty|].
  right. left. exists z_register. vm_compute. reflexivity.
Defined.

Definition z_rm_module : MsgRemoveDiscounts := mkMsgRemoveDiscounts z_mod z_payer "bank" EmptyString.

Lemma RemoveDiscounts_module_witness :
  GetModuleDiscounts (RemoveDiscounts z_rm_module z_state).2 z_payer "bank" = None.
Proof.
  refine (RemoveDiscounts_module z_state _ z_rm_module z_rec _ _ _ _ _ _ "bank");
    [apply z_store_ok|vm_compute; reflexivity|apply (bool_decide_unpack _); vm_compute; exact I
    |done|done|vm_compute; reflexivity].
Defined.

Definition z_rm_type : MsgRemoveDiscounts := mkMsgRemoveDiscounts z_mod z_payer "bank" "/bank.MsgSend".

(** The only discount of the account, removed, is still granted. *)
Lemma RemoveDiscounts_msg_type_keeps_witness :
  (RemoveDiscounts z_rm_type z_state).1 = Ok tt /\
  GetDiscount string id z_keepers (RemoveDiscounts z_rm_type z_state).2 z_payer ["/bank.MsgSend"] = z_disc /\
  exists a', GetAccountDiscounts (RemoveDiscounts z_rm_type z_state).2 z_payer = Some a' /\
    length (ad_Modules a') = 2%nat.
Proof.
  split; [vm_compute; reflexivity|]. split; [vm_compute; reflexivity|].
  destruct (RemoveDiscounts_msg_type_keeps z_state (RemoveDiscounts z_rm_type z_state).2 z_rm_type z_rec)
    as (a' & Ha & Hf); [apply z_store_ok|vm_compute; reflexivity|done|done|vm_compute; reflexivity|].
  exists a'. split; [exact Ha|]. apply Forall2_length in Hf. by rewrite <- Hf.
Defined.

Lemma feepolicy_genesis_roundtrip_witness :
  exists gs, ExportGenesis z_state = (Ok gs, z_state) /\
    InitGenesis z_mod gs (FP None ∅ []) = (Ok tt, FP (Some z_mod) (fp_discounts z_state) []).
Proof.
  apply (feepolicy_genesis_roundtrip z_mod z_state z_mod [7]);
    [apply z_store_ok|done|done|vm_compute; reflexivity|vm_compute; discriminate].
Defined.
