(* ===== verification/FeeChecker.v ===== *)
(** The fee checks of Cosmos transactions in the ante handlers: the dynamic fee
    checker ([ante/evm/fee_checker.go]), which computes the effective fee, the
    tip and the priority from the base fee, and the minimum gas price decorator
    ([ante/cosmos/min_gas_price.go]). *)
From S2P Require Import Prelude KVStore Sdk EvmConfig FeeMarket.

(** An extension option of a transaction: the dynamic fee option or another. *)
Inductive ExtensionOption :=
  | ExtensionOptionDynamicFeeTx (MaxPriorityPrice : dec)
  | OtherOption.

(** What the handlers read of a transaction.  [tx_fee] is nil when no fee is
    given; [tx_ext] is nil when the transaction type has no extension options. *)
Record FeeTx (Msg : Type) := mkFeeTx {
  tx_is_fee_tx : bool;
  tx_gas : Z;                             (** uint64 *)
  tx_fee : option coins;
  tx_payer : addr;
  tx_granter : option addr;
  tx_msgs : list Msg;
  tx_ext : option (list ExtensionOption);
}.
Arguments tx_is_fee_tx {Msg}.
Arguments tx_gas {Msg}.
Arguments tx_fee {Msg}.
Arguments tx_payer {Msg}.
Arguments tx_granter {Msg}.
Arguments tx_msgs {Msg}.
Arguments tx_ext {Msg}.

Definition GetFee {Msg} (tx : FeeTx Msg) : coins := default [] (tx_fee tx).

(** What they read of the context. *)
Record AnteCtx := mkAnteCtx {
  ac_height : Z;
  ac_check_tx : bool;
  ac_min_gas_prices : list (string * Z);  (** [sdk.DecCoins] *)
}.

Definition dec_min (d1 d2 : Z) : Z := if d1 <? d2 then d1 else d2.
Definition deccoins_is_zero (l : list (string * Z)) : bool := forallb (fun gp => gp.2 =? 0) l.
(** [Int.IsInt64] with the fallback [math.MaxInt64]. *)
Definition clamp_int64 (z : Z) : Z := if is_int64 z then z else max_int64.

(** [if priority == 0 || p < priority] over the coins of a fee. *)
Fixpoint min_priority (p : coin -> res Z) (fees : coins) (priority : Z) : res Z :=
  match fees with
  | [] => Ok priority
  | fee :: fees =>
      let? v := p fee in
      min_priority p fees (if (priority =? 0) || (v <? priority) then v else priority)
  end.

Section checker.
Context `{CoinsLib, DecLib}.
Context {Msg : Type}.
(** [sdk.DefaultPowerReduction] and the London switch of the chain config. *)
Variable DefaultPriorityReduction : Z.
Variable IsLondon : Z -> bool.
Implicit Types tx : FeeTx Msg.

(** [fee = ceil(minGasPrice * gasLimit)] for every price. *)
Fixpoint required_fees (glDec : Z) (prices : list (string * Z)) : res coins :=
  match prices with
  | [] => Ok []
  | gp :: prices =>
      let? fee := dec_mul gp.2 glDec in
      let? amt := dec_ceil_int fee in
      let? c := new_coin gp.1 amt in
      let? rest := required_fees glDec prices in
      Ok (c :: rest)
  end.

Definition getTxPriority (fees : coins) (gas : Z) : res Z :=
  min_priority (fun fee =>
    let? gasPrice := int_quo (c_amt fee) gas in
    let? amt := int_quo gasPrice DefaultPriorityReduction in
    Ok (clamp_int64 amt)) fees 0.

Definition checkTxFeeWithValidatorMinGasPrices (ctx : AnteCtx) tx : res (coins * coins * Z) :=
  let feeCoins := GetFee tx in
  let gas := to_int64 (tx_gas tx) in
  do? (if ac_check_tx ctx && negb (deccoins_is_zero (ac_min_gas_prices ctx)) then
         let? requiredFees := required_fees (dec_of_int gas) (ac_min_gas_prices ctx) in
         if coins_any_gte feeCoins requiredFees then Ok tt
         else Err (Error ErrInsufficientFee "insufficient fees")
       else Ok tt);
  let? priority := getTxPriority feeCoins gas in
  Ok (feeCoins, [], priority).

Definition effectiveGasPriceLegacyDec (baseFee feeCap tipCap : Z) : res Z :=
  let? s := dec_add tipCap baseFee in Ok (dec_min s feeCap).

(** The price of the first dynamic fee option, [MaxInt64] without one. *)
Fixpoint max_priority_price (opts : list ExtensionOption) : Z :=
  match opts with
  | [] => dec_of_int max_int64
  | ExtensionOptionDynamicFeeTx p :: _ => default 0 p
  | OtherOption :: opts => max_priority_price opts
  end.

Definition FeeChecker (ctx : AnteCtx) (s : fm_state) (denom : string) tx
    : res (coins * coins * Z) :=
  if negb (IsLondon (ac_height ctx)) then checkTxFeeWithValidatorMinGasPrices ctx tx
  else
    let baseFee := default 0 (GetBaseFee s) in
    let maxPriorityPrice :=
      match tx_ext tx with
      | None => dec_of_int max_int64
      | Some opts => max_priority_price opts
      end in
    if maxPriorityPrice <? 0
    then Err (Error ErrInsufficientFee "max priority price cannot be negative")
    else
      let gas := tx_gas tx in
      if gas =? 0 then Err (Error ErrInvalidRequest "gas cannot be zero")
      else
        let feeAmtDec := dec_of_int (amount_of (GetFee tx) denom) in
        let? feeCap := dec_quo_int feeAmtDec gas in
        if feeCap <? baseFee then Err (Error ErrInsufficientFee "gas prices too low")
        else
          let? effectivePrice := effectiveGasPriceLegacyDec baseFee feeCap maxPriorityPrice in
          let? effectiveFeeDec := dec_mul_int effectivePrice gas in
          let? effectiveFeeAmt := dec_ceil_int effectiveFeeDec in
          let effectiveFee := [Coin denom effectiveFeeAmt] in
          let? tipPrice := dec_sub effectivePrice baseFee in
          let? totalTipDec := dec_mul_int tipPrice gas in
          let? totalTipAmt := dec_ceil_int totalTipDec in
          let totalTipAmt := if totalTipAmt =? effectiveFeeAmt then 0 else totalTipAmt in
          let totalTip := [Coin denom totalTipAmt] in
          let? q := dec_quo_int tipPrice DefaultPriorityReduction in
          let? priorityInt := dec_trunc_int q in
          Ok (effectiveFee, totalTip, clamp_int64 priorityInt).

Definition NewDynamicFeeChecker (info : EvmCoinInfo) (ctx : AnteCtx) (s : fm_state) tx
    : res (coins * coins * Z) :=
  if negb (tx_is_fee_tx tx) then Err (Error ErrTxDecode "Tx must be a FeeTx")
  else if ac_height ctx =? 0 then checkTxFeeWithValidatorMinGasPrices ctx tx
  else FeeChecker ctx s (Denom info) tx.

(** The decorator; [Ok tt] is the call of the next handler. *)
Definition MinGasPriceDecorator_AnteHandle (info : EvmCoinInfo) (s : fm_state) tx (simulate : bool)
    : res unit :=
  if negb (tx_is_fee_tx tx) then Err (Error ErrOther "invalid transaction type")
  else
    let minGasPrice := MinGasPrice (GetParams s) in
    let feeCoins := GetFee tx in
    let evmDenom := Denom info in
    let validFees :=
      match feeCoins with
      | [] => true
      | [c] => bool_decide (c_denom c = evmDenom) || bool_decide (c_denom c = "stake")
      | _ => false
      end in
    if negb validFees && negb simulate then Err (Error ErrOther "expected only native token for fee")
    else
      let? minGasPrice := dec_val minGasPrice in
      if (minGasPrice =? 0) || simulate then Ok tt
      else
        let gasLimit := dec_of_int (tx_gas tx) in
        let? required := dec_mul minGasPrice gasLimit in
        let? fee := dec_ceil_int required in
        let? requiredFees := (if 0 <? fee then coins_add [] [Coin evmDenom fee] else Ok []) in
        match tx_fee tx with
        | None => Err (Error ErrInsufficientFee "fee not provided")
        | Some _ =>
            if coins_any_gte feeCoins requiredFees then Ok tt
            else Err (Error ErrInsufficientFee "provided fee < minimum global fee")
        end.
End checker.
