(* ===== verification/DeductFee.v ===== *)
(** The fee deduction of Cosmos transactions ([gurud/ante/cosmos_fees.go]) and
    its default fee checker ([gurud/ante/validator_tx_fee.go]): the fee is
    checked, discounted by x/feepolicy, charged to the payer or its granter and
    sent to the fee collector. *)
From S2P Require Import Prelude KVStore Sdk EvmConfig FeeMarket FeePolicy FeeChecker.

(** ** The default checker of the decorator *)

Section default_checker.
Context `{CoinsLib, DecLib}.
Context {Msg : Type}.

Definition getTxPriority (fee : coins) (gas : Z) : res Z :=
  min_priority (fun c => let? gasPrice := int_quo (c_amt c) gas in Ok (clamp_int64 gasPrice)) fee 0.

Definition checkTxFeeWithValidatorMinGasPrices (ctx : AnteCtx) (tx : FeeTx Msg)
    : res (coins * coins * Z) :=
  if negb (tx_is_fee_tx tx) then Err (Error ErrTxDecode "Tx must be a FeeTx")
  else
    let feeCoins := GetFee tx in
    let gas := to_int64 (tx_gas tx) in
    do? (if ac_check_tx ctx && negb (deccoins_is_zero (ac_min_gas_prices ctx)) then
           let? requiredFees := required_fees (dec_of_int gas) (ac_min_gas_prices ctx) in
           if coins_any_gte feeCoins requiredFees then Ok tt
           else Err (Error ErrInsufficientFee "insufficient fees")
         else Ok tt);
    let? priority := getTxPriority feeCoins gas in
    Ok (feeCoins, [], priority).
End default_checker.

(** ** The decorator *)

Section decorator.
Context `{CoinsLib, DecLib, !BankKeeper, !AccountKeeper}.
Context {Msg : Type}.

(** The state of x/feegrant and the use of an allowance. *)
Variable GrantState : Type.
Variable UseGrantedFees : addr -> addr -> coins -> list Msg -> M GrantState unit.
(** [feegrantKeeper] is nil when fee grants are off. *)
Variable feegrant_enabled : bool.
(** [accountKeeper.GetAccount] finds the account. *)
Variable has_account : addr -> bool.
(** [authante.DeductFees] *)
Variable DeductFees : addr -> coins -> M BankState unit.
(** [address.Bech32Codec.BytesToString] *)
Variable BytesToString : addr -> res string.
(** The configured [txFeeChecker], the discounts of x/feepolicy. *)
Variable txFeeChecker : AnteCtx -> FeeTx Msg -> res (coins * coins * Z).
Variable GetDiscount : string -> list Msg -> Discount.

Record df_state := DF { df_bank : BankState; df_grants : GrantState; df_events : list event }.

Definition FeeCollectorName : string := "fee_collector".

Definition checkDeductFee (tx : FeeTx Msg) (fee : coins) : M df_state unit :=
  if negb (tx_is_fee_tx tx) then fail ErrTxDecode "Tx must be a FeeTx"
  else
    match ak_module_address FeeCollectorName with
    | None => fail ErrOther "fee collector module account has not been set"
    | Some _ =>
        let feePayer := tx_payer tx in
        let! deductFeesFrom :=
          (match tx_granter tx with
           | None => ret feePayer
           | Some feeGranterAddr =>
               if negb feegrant_enabled then fail ErrInvalidRequest "fee grants are not enabled"
               else
                 do! (if bool_decide (feeGranterAddr = feePayer) then ret tt
                      else zoom df_grants (fun g s => DF (df_bank s) g (df_events s))
                             (UseGrantedFees feeGranterAddr feePayer fee (tx_msgs tx)));
                 ret feeGranterAddr
           end) in
        if negb (has_account deductFeesFrom)
        then fail ErrUnknownAddress "fee payer address does not exist"
        else
          do! (if negb (coins_is_zero fee)
               then zoom df_bank (fun b s => DF b (df_grants s) (df_events s))
                      (DeductFees deductFeesFrom fee)
               else ret tt);
          modify (fun s => DF (df_bank s) (df_grants s)
            (df_events s ++ [Event "tx" [("fee", ACoins fee); ("fee_payer", AAddr deductFeesFrom)]]))
    end.

(** [deductedFee = deductedFee.Add(sdk.NewCoin(f.Denom, amount(f)))] over the coins. *)
Fixpoint add_each (amount : coin -> res Z) (base acc : coins) : res coins :=
  match base with
  | [] => Ok acc
  | f :: base =>
      let? a := amount f in
      let? c := new_coin (c_denom f) a in
      let? acc := coins_add acc [c] in
      add_each amount base acc
  end.

(** The discounted base fee; the tips are added without discount. *)
Definition discounted_fee (discount : Discount) (fee tips : coins) : res coins :=
  let? baseFee := coins_sub fee tips in
  let? deductedFee :=
    (if bool_decide (DiscountType discount = FeeDiscountTypePercent) then
       add_each (fun f =>
         let? amount := dec_val (Amount discount) in
         let? left := dec_sub (dec_of_int 100) amount in
         let? discountMultiplier := dec_quo left (dec_of_int 100) in
         let? finalDec := dec_mul (dec_of_int (c_amt f)) discountMultiplier in
         dec_trunc_int finalDec) baseFee []
     else if bool_decide (DiscountType discount = FeeDiscountTypeFixed) then
       add_each (fun f => let? amount := dec_val (Amount discount) in dec_trunc_int amount) baseFee []
     else Ok baseFee) in
  coins_add deductedFee tips.

(** The result is the priority the next handler is called with. *)
Definition AnteHandle (ctx : AnteCtx) (tx : FeeTx Msg) (simulate : bool) : M df_state Z :=
  if negb (tx_is_fee_tx tx) then fail ErrTxDecode "Tx must be a FeeTx"
  else if negb simulate && (0 <? ac_height ctx) && (tx_gas tx =? 0)
  then fail ErrInvalidGasLimit "must provide positive gas"
  else
    let! checked := lift (if simulate then Ok (GetFee tx, [], 0) else txFeeChecker ctx tx) in
    let fee := checked.1.1 in let tips := checked.1.2 in let priority := checked.2 in
    let! feePayer := lift (BytesToString (tx_payer tx)) in
    let! feeGranter := lift (match tx_granter tx with
                             | None => Ok feePayer
                             | Some g => BytesToString g
                             end) in
    let discount := GetDiscount feeGranter (tx_msgs tx) in
    let! deductedFee := lift (discounted_fee discount fee tips) in
    do! checkDeductFee tx deductedFee;
    ret priority.
End decorator.
