(* ===== verification/AnteThms.v ===== *)
(** Theorems about the fees of Cosmos transactions: what the fee checker
    accepts and charges, what a discount leaves to pay, and that the ante
    handler moves exactly that to the fee collector. *)
From S2P Require Import Prelude KVStore Sdk EvmConfig BankModel FeeMarket FeePolicy.
From S2P Require Import FeeChecker DeductFee.

(** * Decimal arithmetic *)

(** [Ceil] of a decimal, as an integer. *)
Definition dec_ceil (d : Z) : Z := - ((- d) / dec_one).

Lemma dec_ceil_spec d : d <= dec_ceil d * dec_one < d + dec_one.
Proof. unfold dec_ceil. pose proof (div_mod_lt (- d) dec_one ltac:(done)). lia. Qed.

Lemma dec_ceil_mono a b : a <= b -> dec_ceil a <= dec_ceil b.
Proof. intros. unfold dec_ceil. assert (- b / dec_one <= - a / dec_one) by (apply Z.div_le_mono; done || lia). lia. Qed.

Lemma dec_ceil_int_run d : 0 <= d < 2 ^ 255 -> dec_ceil_int d = Ok (dec_ceil d).
Proof.
  intros Hd. unfold dec_ceil_int. apply int_chk_fits. fold (dec_ceil d).
  pose proof (dec_ceil_spec d). assert (1 < dec_one) by done. assert (2 ^ 255 < 2 ^ 256) by done. nia.
Qed.

Lemma dec_ceil_of_int n : dec_ceil (dec_of_int n) = n.
Proof.
  unfold dec_ceil, dec_of_int. replace (- (n * dec_one)) with (- n * dec_one) by ring.
  rewrite Z.div_mul by done. lia.
Qed.

Section checker.
Context `{CoinsLib, !CoinsLaws, DecLib, !DecLaws}.
Context {Msg : Type}.
Variable DefaultPriorityReduction : Z.
Variable IsLondon : Z -> bool.
Implicit Types tx : FeeTx Msg.

(** What a transaction declares as its highest priority price. *)
Definition tip_cap tx : Z :=
  match tx_ext tx with
  | None => dec_of_int max_int64
  | Some opts => max_priority_price opts
  end.

(** The effective price of EIP-1559: the base fee plus the tip cap, capped by
    what the offered fee allows per unit of gas. *)
Definition effective_price (b offered gas tip : Z) : Z := Z.min (tip + b) (offered * dec_one / gas).

Record fee_side (ctx : AnteCtx) (s : fm_state) tx (b offered : Z) : Prop := {
  fs_london : IsLondon (ac_height ctx) = true;
  fs_base : default 0 (GetBaseFee s) = b /\ 0 <= b < 2 ^ 255;
  fs_gas : 0 < tx_gas tx <= max_uint64;
  fs_tip : 0 <= tip_cap tx < 2 ^ 255;
  fs_offered : 0 <= offered < 2 ^ 190;
  fs_reduction : 0 < DefaultPriorityReduction;
}.

Lemma dec_chk_255 z : 0 <= z < 2 ^ 256 -> dec_chk z = Ok z.
Proof. intros. unfold dec_chk. rewrite dec_fits_256 by lia. done. Qed.

Lemma dec_quo_int_run a n : 0 <= a -> 0 < n -> dec_quo_int a n = Ok (a / n).
Proof.
  intros. unfold dec_quo_int. destruct (Z.eqb_spec n 0); [lia|]. by rewrite quot_nonneg.
Qed.

Lemma dec_min_min a b : dec_min a b = Z.min a b.
Proof. unfold dec_min. destruct (Z.ltb_spec a b); lia. Qed.

Lemma clamp_range z : - 2 ^ 63 <= clamp_int64 z <= max_int64.
Proof.
  unfold clamp_int64, is_int64, max_int64. destruct (andb _ _) eqn:E; [zbool; unfold max_int64 in *; lia|lia].
Qed.

(**  The dynamic fee checker accepts a transaction exactly when the offered
    fee covers the base fee for all its gas, and then charges the effective
    price of EIP-1559 rounded up: at least the base fee, at most the offer, the
    tip a part of it; otherwise it returns [ErrInsufficientFee].  It never
    panics within these bounds. *)
Theorem FeeChecker_charges ctx s denom tx b offered :
  fee_side ctx s tx b offered -> amount_of (GetFee tx) denom = offered ->
  let gas := tx_gas tx in
  let a := dec_ceil (effective_price b offered gas (tip_cap tx) * gas) in
  (b * gas <= offered * dec_one ->
    exists t p, FeeChecker DefaultPriorityReduction IsLondon ctx s denom tx =
        Ok ([Coin denom a], [Coin denom t], p) /\
      b * gas <= a * dec_one /\ a <= offered /\ 0 <= t <= a /\
      - 2 ^ 63 <= p <= max_int64) /\
  (offered * dec_one < b * gas ->
    exists e, FeeChecker DefaultPriorityReduction IsLondon ctx s denom tx = Err e /\
      e_kind e = ErrInsufficientFee).
Proof.
  intros [Hlon [Hb Hbb] Hgas Htip Hoff Hred] Hamt gas a. unfold max_uint64 in Hgas.
  assert (0 < dec_one) as Hone by done. assert (2 ^ 190 * dec_one < 2 ^ 255) as Hbig by done.
  assert (0 <= offered * dec_one < 2 ^ 255) as Ho by nia.
  pose proof (div_mod_lt (offered * dec_one) gas ltac:(subst gas; lia)) as [Hdm Hmod].
  assert (b <= offered * dec_one / gas <-> b * gas <= offered * dec_one) as Hcmp.
  { split; intros; [nia|]. apply Z.div_le_lower_bound; subst gas; lia. }
  unfold FeeChecker. rewrite Hlon, Hb, Hamt. fold (tip_cap tx). cbn [negb]. fold gas.
  destruct (Z.ltb_spec (tip_cap tx) 0); [lia|]. destruct (Z.eqb_spec gas 0); [subst gas; lia|].
  unfold dec_of_int. rewrite dec_quo_int_run by (subst gas; lia). cbn [rbind].
  split; [intros Hle|intros Hgt].
  2:{ destruct (Z.ltb_spec (offered * dec_one / gas) b); [eexists; split; [reflexivity|reflexivity]|lia]. }
  destruct (Z.ltb_spec (offered * dec_one / gas) b); [lia|].
  unfold effectiveGasPriceLegacyDec, dec_add.
  assert (2 ^ 255 + 2 ^ 255 = 2 ^ 256) as H256 by done.
  rewrite dec_chk_255 by lia. cbn [rbind]. rewrite dec_min_min.
  fold (effective_price b offered gas (tip_cap tx)). set (ep := effective_price b offered gas (tip_cap tx)) in *.
  assert (b <= ep /\ ep * gas <= offered * dec_one) as [Hep1 Hep2].
  { subst ep. unfold effective_price. split; [lia|]. nia. }
  assert (0 <= ep * gas /\ 0 <= (ep - b) * gas <= ep * gas) as [Hn1 Hn2] by (subst gas; nia).
  unfold dec_mul_int. rewrite dec_chk_255 by lia. cbn [rbind].
  rewrite dec_ceil_int_run by lia. cbn [rbind]. fold a.
  unfold dec_sub. assert (0 <= ep - b < 2 ^ 256) as Hs by (subst gas; nia).
  rewrite dec_chk_255 by exact Hs. cbn [rbind]. rewrite dec_chk_255 by lia. cbn [rbind].
  rewrite dec_ceil_int_run by lia. cbn [rbind]. rewrite dec_quo_int_run by lia. cbn [rbind].
  unfold dec_trunc_int. rewrite int_chk_fits.
  2:{ rewrite quot_nonneg by (try apply Z.div_pos; lia).
      assert (0 <= (ep - b) / DefaultPriorityReduction <= ep - b).
      { split; [apply Z.div_pos; lia|]. apply Z.div_le_upper_bound; nia. }
      assert (0 <= (ep - b) / DefaultPriorityReduction / dec_one <= (ep - b) / DefaultPriorityReduction).
      { split; [apply Z.div_pos; lia|]. apply Z.div_le_upper_bound; nia. }
      lia. }
  cbn [rbind]. do 2 eexists. split; [reflexivity|].
  pose proof (dec_ceil_spec (ep * gas)) as Hc. fold a in Hc.
  assert (a <= offered).
  { subst a. rewrite <- (dec_ceil_of_int offered). apply dec_ceil_mono. unfold dec_of_int. lia. }
  assert (dec_ceil ((ep - b) * gas) <= a) by (subst a; apply dec_ceil_mono; lia).
  assert (0 <= dec_ceil ((ep - b) * gas)).
  { pose proof (dec_ceil_spec ((ep - b) * gas)). nia. }
  split_and!; [nia|lia|destruct (_ =? a); lia|destruct (_ =? a); lia|apply clamp_range|apply clamp_range].
Qed.
End checker.

(** * Discounts *)

Section discounts.
Context `{CoinsLib, !CoinsLaws, DecLib, !DecLaws}.

(** The share of the base fee a percentage leaves, as the code computes it: a
    decimal multiplier, rounded to 18 decimals. *)
Lemma percent_multiplier p m :
  0 <= p <= 100 * dec_one ->
  dec_quo (dec_of_int 100 - p) (dec_of_int 100) = Ok m ->
  0 <= m <= dec_one /\ 2 * Z.abs (100 * m - (100 * dec_one - p)) <= 101.
Proof.
  intros Hp [_ Hq]%dec_quo_round. unfold dec_of_int in Hq. assert (200 < dec_one) by done.
  revert Hp Hq. generalize dependent dec_one. intros P HP Hp Hq.
  rewrite (Z.abs_eq (100 * P)) in Hq by lia.
  replace (m * (100 * P) - (100 * P - p) * P) with (P * (100 * m - (100 * P - p))) in Hq by ring.
  rewrite Z.abs_mul, (Z.abs_eq P) in Hq by lia.
  assert (2 * Z.abs (100 * m - (100 * P - p)) <= 101) as Hm.
  { assert (2 * P * (P * Z.abs (100 * m - (100 * P - p))) = P * (P * (2 * Z.abs (100 * m - (100 * P - p))))) by ring.
    assert ((P + 2) * (100 * P) <= P * (P * 100 + 200)) by nia.
    set (x := 2 * Z.abs (100 * m - (100 * P - p))) in *. nia. }
  split; [lia|done].
Qed.

(** The fee of a transaction in one denom: [n] of which [t] is the tip. *)
Lemma base_of_single d n t :
  denom_ok d = true -> 0 <= t <= n ->
  coins_sub [Coin d n] [Coin d t] = Ok (if n - t =? 0 then [] else [Coin d (n - t)]).
Proof.
  intros Hd Ht. destruct (coins_sub_law [Coin d n] [Coin d t]) as (r & Hr & Hv & Ha);
    [apply wf_one; done || lia..|intros d'; rewrite !amount_of_one; case_decide; lia|].
  rewrite Hr. f_equal. rewrite (coins_single r d Hv).
  - rewrite Ha, !amount_of_one, !decide_True by done. reflexivity.
  - intros d' Hne. rewrite Ha, !amount_of_one, !decide_False by congruence. lia.
Qed.

Lemma add_single d a r :
  denom_ok d = true -> 0 <= a -> coins_wf r = true ->
  exists r', coins_add r [Coin d a] = Ok r' /\ coins_valid r' = true /\
    forall d', amount_of r' d' = amount_of r d' + (if decide (d = d') then a else 0).
Proof.
  intros Hd Ha Hr. destruct (coins_add_law r [Coin d a] Hr (wf_one d a Hd Ha)) as (r' & Hr' & Hv & Hq).
  exists r'. split_and!; [done..|]. intros d'. by rewrite Hq, amount_of_one.
Qed.

(** One coin through the loop, then the tips. *)
Lemma add_each_single amount d x a t :
  denom_ok d = true -> 0 <= a -> 0 <= t -> amount (Coin d x) = Ok a ->
  exists r, (let? ded := add_each amount [Coin d x] [] in coins_add ded [Coin d t]) = Ok r /\
    coins_valid r = true /\ forall d', amount_of r d' = if decide (d = d') then a + t else 0.
Proof.
  intros Hd Ha Ht Hx. simpl. rewrite Hx. simpl. rewrite new_coin_run by done. simpl.
  destruct (add_single d a []) as (r1 & -> & Hv1 & Hq1); [done..|apply valid_wf, valid_nil|]. simpl.
  destruct (add_single d t r1) as (r2 & -> & Hv2 & Hq2); [done..|by apply valid_wf|].
  exists r2. split_and!; [done..|]. intros d'. rewrite Hq2, Hq1, amount_of_nil. case_decide; lia.
Qed.

Lemma percent_amount x m : 0 <= x < 2 ^ 190 -> 0 <= m <= dec_one ->
  (let? f := dec_mul (dec_of_int x) m in dec_trunc_int f) = Ok (x * m / dec_one).
Proof.
  intros Hx Hm. assert (0 < dec_one) as Hone by reflexivity.
  assert (2 ^ 190 * dec_one < 2 ^ 255) as Hbig by reflexivity.
  assert (0 <= x * m <= 2 ^ 190 * dec_one) by (split; [|apply Z.mul_le_mono_nonneg]; nia).
  rewrite dec_mul_int_run by lia. cbn [rbind].
  unfold dec_trunc_int. rewrite quot_nonneg by lia. apply int_chk_fits.
  assert (0 <= x * m / dec_one <= x * m).
  { split; [apply Z.div_pos; lia|]. apply Z.div_le_upper_bound; nia. }
  assert (2 ^ 255 < 2 ^ 256) by reflexivity. lia.
Qed.

(** Beyond one hundred percent the multiplier is negative. *)
Lemma percent_multiplier_neg p m :
  200 * dec_one <= p < 2 ^ 190 ->
  dec_quo (dec_of_int 100 - p) (dec_of_int 100) = Ok m -> - 2 ^ 190 <= m <= - dec_one.
Proof.
  intros Hp [_ Hm]%dec_quo_round. assert (200 < dec_one) as Hone by reflexivity.
  assert (100 * dec_one < 2 ^ 190) as HB by reflexivity. unfold dec_of_int in *.
  revert Hone Hp Hm HB. generalize dec_one (2 ^ 190). clear. intros P B Hone Hp Hm HB.
  rewrite (Z.abs_eq (100 * P)) in Hm by lia.
  replace (m * (100 * P) - (100 * P - p) * P) with (P * (100 * m - (100 * P - p))) in Hm by ring.
  rewrite Z.abs_mul, (Z.abs_eq P) in Hm by lia.
  assert (2 * Z.abs (100 * m - (100 * P - p)) <= 101); [|lia].
  set (x := Z.abs (100 * m - (100 * P - p))) in *. assert (0 <= x) by (subst x; lia). nia.
Qed.

Lemma trunc_negative x m : 1 <= x -> m <= - dec_one -> Z.quot (x * m) dec_one <= -1.
Proof.
  intros Hx Hm. assert (0 < dec_one) by reflexivity.
  replace (x * m) with (- (x * - m)) by ring. rewrite Z.quot_opp_l, quot_nonneg by nia.
  assert (1 <= x * - m / dec_one); [apply Z.div_le_lower_bound; nia|lia].
Qed.

(**  A percentage discount between zero and one hundred leaves the tip and
    at most the base fee to pay, namely the base fee times a multiplier that is
    the exact share to within one unit of the eighteenth decimal; the
    computation never panics. *)
Theorem percent_discount_charges discount d n t p :
  DiscountType discount = FeeDiscountTypePercent -> Amount discount = Some p ->
  0 <= p <= 100 * dec_one -> denom_ok d = true -> 0 <= t <= n -> n < 2 ^ 190 ->
  exists m r, discounted_fee discount [Coin d n] [Coin d t] = Ok r /\
    2 * Z.abs (100 * m - (100 * dec_one - p)) <= 101 /\ 0 <= m <= dec_one /\
    (forall d', amount_of r d' = if decide (d = d') then (n - t) * m / dec_one + t else 0) /\
    amount_of r d <= n.
Proof.
  intros Hty Ham Hp Hd Ht Hn. unfold discounted_fee. rewrite base_of_single by done. cbn [rbind].
  rewrite Hty, (bool_decide_eq_true_2 (_ = _)) by reflexivity. rewrite Ham. cbn [dec_val rbind].
  assert (0 < dec_one) as Hone by reflexivity.
  assert (dec_sub (dec_of_int 100) p = Ok (dec_of_int 100 - p)) as Hsub.
  { unfold dec_sub. apply dec_chk_255. unfold dec_of_int. assert (100 * dec_one < 2 ^ 256) by reflexivity. lia. }
  assert (is_ok (dec_quo (dec_of_int 100 - p) (dec_of_int 100)) = true) as Hq.
  { apply dec_quo_total; [discriminate|]. unfold dec_of_int. rewrite Z.abs_eq by lia.
    assert (100 * dec_one * dec_one < 2 ^ 255) by reflexivity. nia. }
  destruct (dec_quo (dec_of_int 100 - p) (dec_of_int 100)) as [m| |] eqn:Hm; [|discriminate Hq..].
  apply percent_multiplier in Hm as Hmm; [|done]. destruct Hmm as [Hm0 Hm1]. exists m.
  set (amt := fun f : coin => _).
  assert (forall x, 0 <= x < 2 ^ 190 -> amt (Coin d x) = Ok (x * m / dec_one)) as Hamt.
  { intros x Hx. unfold amt. rewrite Hsub. cbn [rbind]. rewrite Hm. cbn [rbind c_amt]. by apply percent_amount. }
  assert (0 <= (n - t) * m / dec_one <= n - t) as Hshare.
  { split; [apply Z.div_pos; nia|]. apply Z.div_le_upper_bound; nia. }
  destruct (Z.eqb_spec (n - t) 0) as [Hz|Hz].
  - cbn [add_each rbind]. destruct (add_single d t []) as (r & Hr & Hv & Hqr);
      [done|lia|apply valid_wf, valid_nil|]. exists r. rewrite Hr.
    assert (forall d', amount_of r d' = if decide (d = d') then (n - t) * m / dec_one + t else 0) as Hall.
    { intros d'. rewrite Hqr, amount_of_nil, Hz, Z.mul_0_l, Z.div_0_l by lia. case_decide; lia. }
    split_and!; try done; try lia. rewrite Hall, decide_True by reflexivity. lia.
  - destruct (add_each_single amt d (n - t) ((n - t) * m / dec_one) t) as (r & Hr & Hv & Hqr);
      [done|lia|lia|apply Hamt; lia|].
    exists r. split_and!; try done; try lia. rewrite Hqr, decide_True by reflexivity. lia.
Qed.

(**  A fixed discount charges its own amount whatever the base fee is, also
    when it is more than the whole fee that was offered. *)
Theorem fixed_discount_charges discount d n t z :
  DiscountType discount = FeeDiscountTypeFixed -> Amount discount = Some z ->
  0 <= z < 2 ^ 255 -> denom_ok d = true -> 0 <= t < n ->
  exists r, discounted_fee discount [Coin d n] [Coin d t] = Ok r /\
    forall d', amount_of r d' = if decide (d = d') then z / dec_one + t else 0.
Proof.
  intros Hty Ham Hz Hd Ht. unfold discounted_fee. rewrite base_of_single by (done || lia). cbn [rbind].
  rewrite Hty, (bool_decide_eq_false_2 (FeeDiscountTypeFixed = FeeDiscountTypePercent)) by done.
  rewrite (bool_decide_eq_true_2 (_ = _)) by reflexivity.
  destruct (Z.eqb_spec (n - t) 0); [lia|]. rewrite Ham. cbn [dec_val rbind].
  assert (0 < dec_one) as Hone by reflexivity.
  assert (0 <= z / dec_one <= z) by (split; [apply Z.div_pos; lia|apply Z.div_le_upper_bound; nia]).
  destruct (add_each_single (fun _ => dec_trunc_int z) d (n - t) (z / dec_one) t) as (r & Hr & _ & Hqr);
    [done|lia|lia| |].
  { unfold dec_trunc_int. rewrite quot_nonneg by lia. apply int_chk_fits.
    assert (2 ^ 255 < 2 ^ 256) by reflexivity. lia. }
  by exists r.
Qed.

(**  A percentage of two hundred or more, which [ValidateFeeDiscount]
    accepts, makes the deduction panic: the discounted amount is negative. *)
Theorem percent_above_panics discount d n t p :
  DiscountType discount = FeeDiscountTypePercent -> Amount discount = Some p ->
  200 * dec_one <= p < 2 ^ 190 -> denom_ok d = true -> 0 <= t < n -> n < 2 ^ 60 ->
  ValidateFeeDiscount (mkDiscount FeeDiscountTypePercent "/x" (Some p)) = Ok tt /\
  is_panic (discounted_fee discount [Coin d n] [Coin d t]) = true.
Proof.
  intros Hty Ham Hp Hd Ht Hn. assert (200 < dec_one) as Hone by reflexivity. split.
  { unfold ValidateFeeDiscount. cbn [DiscountType MsgType Amount dec_val rbind].
    rewrite (bool_decide_eq_true_2 (_ = _)) by reflexivity. cbn [negb andb].
    rewrite bool_decide_eq_false_2 by discriminate.
    destruct (Z.ltb_spec p 0), (Z.eqb_spec p 0); lia || reflexivity. }
  unfold discounted_fee. rewrite base_of_single by (done || lia). cbn [rbind].
  rewrite Hty, (bool_decide_eq_true_2 (_ = _)) by reflexivity. rewrite Ham.
  destruct (Z.eqb_spec (n - t) 0); [lia|]. cbn [dec_val rbind add_each c_amt].
  assert (2 ^ 190 * dec_one < 2 ^ 254) as Hb1 by reflexivity.
  assert (2 ^ 254 * 2 < 2 ^ 256) as Hb2 by reflexivity.
  assert (100 * dec_one < 2 ^ 190) as Hb3 by reflexivity.
  assert (Z.abs (dec_of_int 100 - p) < 2 ^ 190) as Habs by (unfold dec_of_int; lia).
  assert (2 ^ 190 < 2 ^ 256) as Hb4 by reflexivity.
  unfold dec_sub, dec_chk. rewrite dec_fits_256 by lia. cbn [rbind].
  assert (is_ok (dec_quo (dec_of_int 100 - p) (dec_of_int 100)) = true) as Hq.
  { apply dec_quo_total; [discriminate|]. assert (2 ^ 254 < 2 ^ 255) by reflexivity. nia. }
  destruct (dec_quo (dec_of_int 100 - p) (dec_of_int 100)) as [m| |] eqn:Hm; [|discriminate Hq..].
  apply percent_multiplier_neg in Hm as [Hm2 Hm1]; [|done]. cbn [rbind].
  rewrite dec_mul_int_run.
  2:{ rewrite Z.abs_mul, (Z.abs_eq (n - t)) by lia.
      assert ((n - t) * Z.abs m <= 2 ^ 60 * 2 ^ 190) by (apply Z.mul_le_mono_nonneg; lia).
      assert (2 ^ 60 * 2 ^ 190 < 2 ^ 255) by reflexivity. lia. }
  cbn [rbind]. unfold dec_trunc_int. pose proof (trunc_negative (n - t) m ltac:(lia) Hm1).
  unfold int_chk. destruct (int_fits _); [|reflexivity]. cbn [rbind c_denom]. unfold new_coin.
  destruct (Z.leb_spec 0 (Z.quot ((n - t) * m) dec_one)); [lia|]. rewrite andb_false_r. reflexivity.
Qed.
End discounts.

(** * The decorator *)

Section decorator.
Context `{CoinsLib, !CoinsLaws, DecLib, !BankKeeper, !AccountKeeper, !BankLaws}.
Context {Msg : Type}.
Variable GrantState : Type.
Variable UseGrantedFees : addr -> addr -> coins -> list Msg -> M GrantState unit.
Variable feegrant_enabled : bool.
Variable has_account : addr -> bool.
Variable DeductFees : addr -> coins -> M BankState unit.
Variable BytesToString : addr -> res string.
Variable txFeeChecker : AnteCtx -> FeeTx Msg -> res (coins * coins * Z).
Variable GetDiscount : string -> list Msg -> Discount.

(** [authante.DeductFees] sends the fee to the fee collector. *)
Definition deducts_to_collector : Prop := forall a fee b b',
  DeductFees a fee b = (Ok tt, b') ->
  bk_SendCoinsFromAccountToModule a FeeCollectorName fee b = (Ok tt, b').

Abbreviation handle := (AnteHandle GrantState UseGrantedFees feegrant_enabled has_account DeductFees
  BytesToString txFeeChecker GetDiscount).
Abbreviation state := (df_state GrantState).

(** The account that is charged. *)
Definition charged (tx : FeeTx Msg) : addr := default (tx_payer tx) (tx_granter tx).

(** [fee] moved from [a] to the collector, or nothing when it is zero. *)
Definition paid (a collector : addr) (fee : coins) (s s' : state) : Prop :=
  if coins_is_zero fee then df_bank _ s' = df_bank _ s
  else moved (df_bank _ s) (df_bank _ s') a collector fee /\
       (forall d, amount_of fee d <= bk_spendable (df_bank _ s) a d).

Lemma checkDeductFee_ok tx fee collector (s s' : state) u :
  deducts_to_collector -> ak_module_address FeeCollectorName = Some collector ->
  checkDeductFee GrantState UseGrantedFees feegrant_enabled has_account DeductFees tx fee s = (Ok u, s') ->
  has_account (charged tx) = true /\ (tx_granter tx <> None -> feegrant_enabled = true) /\
  paid (charged tx) collector fee s s' /\
  df_events _ s' = df_events _ s ++
    [Event "tx" [("fee", ACoins fee); ("fee_payer", AAddr (charged tx))]].
Proof.
  intros Hlaw Hcol Hr. unfold checkDeductFee in Hr. destruct (tx_is_fee_tx tx); [|run_inv].
  rewrite Hcol in Hr. cbn [negb] in Hr. apply bind_ok in Hr as (from & s1 & Hfrom & Hr).
  assert (from = charged tx /\ df_bank _ s1 = df_bank _ s /\ df_events _ s1 = df_events _ s /\
    (tx_granter tx <> None -> feegrant_enabled = true)) as (-> & Hb1 & He1 & Hg).
  { clear Hr. unfold charged. destruct (tx_granter tx) as [g|]; [|by run_inv].
    destruct feegrant_enabled; [|run_inv]. cbn [negb] in Hfrom. apply bind_ok in Hfrom as (v & s2 & Hz & Hf).
    unfold ret in Hf. injection Hf as <- <-. case_bool_decide; [by run_inv|].
    apply zoom_ok in Hz as (gs & _ & ->). done. }
  clear Hfrom. destruct (has_account (charged tx)); [|run_inv]. cbn [negb] in Hr.
  apply bind_ok in Hr as (v & s2 & Hd & Hr). unfold modify in Hr. injection Hr as <- <-.
  split_and!; try done; unfold paid; destruct (coins_is_zero fee); cbn [negb df_bank df_events] in *.
  - unfold ret in Hd. by injection Hd as _ <-.
  - apply zoom_ok in Hd as (b & Hd & ->). cbn [df_bank]. destruct v. apply Hlaw in Hd.
    rewrite (bank_send_to_module _ _ collector) in Hd by done. rewrite Hb1 in Hd.
    apply bank_send_ok in Hd as (Hm & _ & _ & Hs). done.
  - unfold ret in Hd. injection Hd as _ <-. by rewrite He1.
  - apply zoom_ok in Hd as (b & Hd & ->). cbn [df_events]. congruence.
Qed.

(** C18.  A transaction that passes the fee decorator paid exactly the checked
    fee after the payer's discount: that amount left the granter, or the payer
    without one, within what the account could spend, and reached the fee
    collector; the account exists, a granter is only charged when fee grants
    are on, and the priority handed on is the checker's. *)
Theorem AnteHandle_charges ctx tx collector (s s' : state) priority :
  deducts_to_collector -> ak_module_address FeeCollectorName = Some collector ->
  handle ctx tx false s = (Ok priority, s') ->
  exists fee tips payer deducted,
    txFeeChecker ctx tx = Ok (fee, tips, priority) /\
    BytesToString (charged tx) = Ok payer /\
    discounted_fee (GetDiscount payer (tx_msgs tx)) fee tips = Ok deducted /\
    paid (charged tx) collector deducted s s' /\
    has_account (charged tx) = true /\
    (tx_granter tx <> None -> feegrant_enabled = true).
Proof.
  intros Hlaw Hcol Hr. unfold AnteHandle in Hr. destruct (tx_is_fee_tx tx); [|run_inv]. cbn [negb] in Hr.
  destruct (_ && (tx_gas tx =? 0)); [run_inv|].
  apply bind_lift_ok in Hr as ([[fee tips] pr] & Hchk & Hr). cbn [fst snd] in Hr.
  apply bind_lift_ok in Hr as (ps & Hps & Hr). apply bind_lift_ok in Hr as (gs & Hgs & Hr).
  apply bind_lift_ok in Hr as (ded & Hded & Hr). apply bind_ok in Hr as (u & s1 & Hd & Hr).
  unfold ret in Hr. injection Hr as <- <-.
  apply (checkDeductFee_ok tx ded collector) in Hd as (Ha & Hg & Hp & _); [|done..].
  exists fee, tips, gs, ded. split_and!; try done. unfold charged. destruct (tx_granter tx); cbn; [done|congruence].
Qed.
End decorator.

(** * The theorems on a concrete chain *)

Definition q_ctx : AnteCtx := mkAnteCtx 9 false [].
Definition q_params : Params :=
  mkParams false 8 2 0 (Some (dec_of_int 10)) (Some 0) (Some (dec_one / 2)) (Some dec_one) (Some dec_one).
Definition q_fm : fm_state := FM (Some q_params) None None [].
(** 5000 coins for 100 gas, with a tip of at most 3 per gas. *)
Definition q_tx : FeeTx string :=
  mkFeeTx string true 100 (Some [Coin "agxn" 5000]) [1] None ["/bank.MsgSend"]
    (Some [OtherOption; ExtensionOptionDynamicFeeTx (Some (dec_of_int 3))]).
Definition q_london (_ : Z) : bool := true.

Lemma q_side : fee_side (10 ^ 6) q_london q_ctx q_fm q_tx (dec_of_int 10) 5000.
Proof. split; split_and?; vm_compute; discriminate || reflexivity. Qed.

Lemma FeeChecker_charges_witness :
  exists t p, FeeChecker (10 ^ 6) q_london q_ctx q_fm "agxn" q_tx =
    Ok ([Coin "agxn" 1300], [Coin "agxn" t], p).
Proof.
  assert (amount_of (GetFee q_tx) "agxn" = 5000) as E by (vm_compute; reflexivity).
  destruct (FeeChecker_charges (10 ^ 6) q_london q_ctx q_fm "agxn" q_tx (dec_of_int 10) 5000 q_side E)
    as [Hok _].
  destruct Hok as (t & p & Hf & _); [vm_compute; discriminate|].
  exists t, p. exact Hf.
Defined.

Definition q_percent (p : Z) : Discount := mkDiscount "percent" "/bank.MsgSend" (Some p).

Lemma percent_discount_charges_witness :
  exists m r, discounted_fee (q_percent (25 * dec_one)) [Coin "agxn" 1300] [Coin "agxn" 300] = Ok r /\
    amount_of r "agxn" = 1000 * m / dec_one + 300.
Proof.
  destruct (percent_discount_charges (q_percent (25 * dec_one)) "agxn" 1300 300 (25 * dec_one))
    as (m & r & Hr & _ & _ & Ha & _);
    [reflexivity|reflexivity|split; vm_compute; discriminate|reflexivity|lia|vm_compute; reflexivity|].
  exists m, r. split; [exact Hr|]. exact (Ha "agxn").
Defined.

(** A fixed discount of 9000 on a fee of 1300. *)
Lemma fixed_discount_charges_witness :
  exists r, discounted_fee (mkDiscount "fixed" "/bank.MsgSend" (Some (dec_of_int 9000)))
      [Coin "agxn" 1300] [Coin "agxn" 300] = Ok r /\ amount_of r "agxn" = 9300.
Proof.
  destruct (fixed_discount_charges (mkDiscount "fixed" "/bank.MsgSend" (Some (dec_of_int 9000)))
    "agxn" 1300 300 (dec_of_int 9000)) as (r & Hr & Ha);
    [reflexivity|reflexivity|split; vm_compute; [discriminate|reflexivity]|reflexivity|lia|].
  exists r. split; [exact Hr|]. rewrite (Ha "agxn"). vm_compute. reflexivity.
Defined.

Lemma percent_above_panics_witness :
  is_panic (discounted_fee (q_percent (250 * dec_one)) [Coin "agxn" 1300] [Coin "agxn" 300]) = true.
Proof.
  refine (proj2 (percent_above_panics (q_percent (250 * dec_one)) "agxn" 1300 300 (250 * dec_one) _ _ _ _ _ _));
    [reflexivity|reflexivity|split; vm_compute; [discriminate|reflexivity]|reflexivity|lia
    |vm_compute; reflexivity].
Defined.

Definition q_bank : m_bank :=
  MBank (fun a d => if bool_decide (a = [1]) then 100000 else 0) (fun _ => 100000).
Definition q_grants (_ _ : addr) (_ : coins) (_ : list string) : M unit unit := ret tt.
Definition q_deduct (a : addr) (fee : coins) : M BankState unit :=
  bk_SendCoinsFromAccountToModule a FeeCollectorName fee.
Definition q_state : df_state unit := DF unit q_bank tt [].
Definition q_handle : M (df_state unit) Z :=
  AnteHandle unit q_grants true (fun _ => true) q_deduct (fun a => Ok (bech32_of a))
    (fun ctx tx => FeeChecker (10 ^ 6) q_london ctx q_fm "agxn" tx)
    (fun _ _ => q_percent (25 * dec_one)) q_ctx q_tx false.

Lemma AnteHandle_charges_witness :
  exists priority deducted, (q_handle q_state).1 = Ok priority /\
    paid unit [1] (str_bytes FeeCollectorName) deducted q_state (q_handle q_state).2.
Proof.
  assert ((q_handle q_state).1 = Ok 0) as E by (vm_compute; reflexivity).
  destruct (AnteHandle_charges unit q_grants true (fun _ => true) q_deduct (fun a => Ok (bech32_of a))
    (fun ctx tx => FeeChecker (10 ^ 6) q_london ctx q_fm "agxn" tx)
    (fun _ _ => q_percent (25 * dec_one)) q_ctx q_tx (str_bytes FeeCollectorName)
    q_state (q_handle q_state).2 0) as (fee & tips & payer & ded & _ & _ & _ & Hp & _);
    [intros a fee b b' Hd; exact Hd|reflexivity|exact (run_fst _ _ _ E)|].
  exists 0, ded. split; [exact E|exact Hp].
Defined.
