(* ===== verification/BigFloat.v ===== *)
(** What x/oracle uses of Go's [math/big.Float] and of [sort.Slice].

    A [Float] is a precision and a value.  Values are those of a binary float
    with a mantissa of 64 bits, the precision [SetString] and [SetInt64] give a
    new variable and the largest one in the code, rounded to nearest even:
    [SpecFloat]'s, with the exponent bound of [big.Float].  Below 2^(2 - emax)
    [SpecFloat] loses digits where [big.Float] goes on for two more binary
    places before it gives zero; nothing else differs.  There is no NaN in
    [big.Float]: an operation that has none to give panics.  The decimal text
    of a value ([SetString], [Text]) and [sort.Slice] are classes with their
    documented laws. *)
From Stdlib Require Import SpecFloat Ascii.
From stdpp Require pretty.
From S2P Require Import Prelude KVStore.

(** [MaxExp] of [math/big]; mantissas are below one. *)
Definition float_prec : Z := 64.
Definition float_emax : Z := 2147483647.

Record Float := mkFloat { f_prec : Z; f_val : spec_float }.

(** [new(big.Float)] *)
Definition float_new : Float := mkFloat 0 (S754_zero false).
Definition float_set_int64 (n : Z) : Float :=
  mkFloat float_prec (binary_normalize float_prec float_emax n 0 false).
(** [SetFloat64(math.MaxFloat64)], (2^53 - 1) * 2^971, at precision 53; the
    mantissa is shown with 64 bits like every other. *)
Definition float_max_float64 : Float :=
  mkFloat 53 (S754_finite false (Z.to_pos ((2 ^ 53 - 1) * 2 ^ 11)) 960).

Definition float_cmp (x y : Float) : Z :=
  match SFcompare (f_val x) (f_val y) with
  | Some Lt => -1
  | Some Gt => 1
  | _ => 0
  end.

Definition float_res (v : spec_float) (msg : string) : res Float :=
  match v with
  | S754_nan => Panic msg
  | v => Ok (mkFloat float_prec v)
  end.
Definition float_add (x y : Float) : res Float :=
  float_res (SFadd float_prec float_emax (f_val x) (f_val y))
    "addition of infinities with opposite signs".
Definition float_quo (x y : Float) : res Float :=
  float_res (SFdiv float_prec float_emax (f_val x) (f_val y))
    "division of zero by zero or infinity by infinity".

Class FloatText := {
  (** [SetString]; [None] when the text is not a number. *)
  float_parse : string -> option spec_float;
  (** [Text('f', -1)] of a value at a precision. *)
  float_text : Z -> spec_float -> string;
}.
Class FloatTextLaws `{FloatText} := {
  float_parse_number : forall s v, float_parse s = Some v -> v <> S754_nan;
}.

Definition float_set_string `{FloatText} (s : string) : option Float :=
  option_map (mkFloat float_prec) (float_parse s).
Definition float_Text `{FloatText} (x : Float) : string := float_text (f_prec x) (f_val x).

(** * The order of values *)

Definition float_le (x y : Float) : Prop := float_cmp x y <= 0.
#[global] Instance float_le_dec x y : Decision (float_le x y).
Proof. unfold float_le. apply _. Defined.
Definition float_num (x : Float) : Prop := f_val x <> S754_nan.

(** [sort.Slice(values, Cmp < 0)]: some ordered rearrangement, not a stable one. *)
Class SortSlice := { sort_slice : list Float -> list Float }.
Class SortSliceLaws `{SortSlice} := {
  sort_slice_perm : forall l, sort_slice l ≡ₚ l;
  sort_slice_sorted : forall l, Forall float_num l -> StronglySorted float_le (sort_slice l);
}.

(** The order is lexicographic on a triple. *)
Definition rank (v : spec_float) : Z * Z * Z :=
  match v with
  | S754_infinity true => (-2, 0, 0)
  | S754_finite true m e => (-1, - e, - Z.pos m)
  | S754_zero _ | S754_nan => (0, 0, 0)
  | S754_finite false m e => (1, e, Z.pos m)
  | S754_infinity false => (2, 0, 0)
  end.
Definition rank_le (a b : Z * Z * Z) : Prop :=
  let '(a1, a2, a3) := a in let '(b1, b2, b3) := b in
  a1 < b1 \/ (a1 = b1 /\ (a2 < b2 \/ (a2 = b2 /\ a3 <= b3))).

Lemma float_le_rank x y :
  float_num x -> float_num y -> float_le x y <-> rank_le (rank (f_val x)) (rank (f_val y)).
Proof.
  unfold float_le, float_cmp, float_num.
  destruct (f_val x) as [[]|[]| |[] m e], (f_val y) as [[]|[]| |[] m' e']; intros Hx Hy;
    try congruence; unfold rank, rank_le, SFcompare; try lia.
  all: destruct (Z.compare_spec e e'); try lia;
    change (Pos.compare_cont Eq m m') with (Pos.compare m m');
    destruct (Pos.compare_spec m m'); simpl; lia.
Qed.

Lemma float_le_trans x y z :
  float_num x -> float_num y -> float_num z -> float_le x y -> float_le y z -> float_le x z.
Proof.
  intros Hx Hy Hz. rewrite !float_le_rank by done.
  destruct (rank (f_val x)) as [[]], (rank (f_val y)) as [[]], (rank (f_val z)) as [[]].
  unfold rank_le. lia.
Qed.

Lemma float_le_refl x : float_num x -> float_le x x.
Proof. intros Hx. rewrite float_le_rank by done. destruct (rank _) as [[]]. unfold rank_le. lia. Qed.

Lemma float_le_total x y : float_num x -> float_num y -> float_le x y \/ float_le y x.
Proof.
  intros Hx Hy. rewrite !float_le_rank by done.
  destruct (rank (f_val x)) as [[]], (rank (f_val y)) as [[]]. unfold rank_le. lia.
Qed.

Lemma float_cmp_anti x y : float_num x -> float_num y -> float_cmp x y = - float_cmp y x.
Proof.
  unfold float_cmp, float_num.
  destruct (f_val x) as [[]|[]| |[] m e], (f_val y) as [[]|[]| |[] m' e']; intros Hx Hy;
    try congruence; unfold SFcompare; try done.
  all: rewrite (Z.compare_antisym e e'); destruct (Z.compare_spec e e'); simpl; try done;
    change (Pos.compare_cont Eq m m') with (Pos.compare m m');
    change (Pos.compare_cont Eq m' m) with (Pos.compare m' m);
    rewrite (Pos.compare_antisym m m'); by destruct (Pos.compare_spec m m').
Qed.

(** * Rounding gives a number *)

Lemma iter_pos_inv {A} (P : A -> Prop) (f : A -> A) n x :
  (forall y, P y -> P (f y)) -> P x -> P (SpecFloat.iter_pos f n x).
Proof. intros Hf. revert x. induction n; intros x Hx; simpl; auto. Qed.

Lemma shr_fexp_nonneg prec emax m e l : 0 <= m -> 0 <= shr_m (shr_fexp prec emax m e l).1.
Proof.
  intros Hm. unfold shr_fexp, shr.
  assert (0 <= shr_m (shr_record_of_loc m l)) as H0 by by destruct l as [|[]].
  case_match; [exact H0| |exact H0]. simpl. apply (iter_pos_inv (fun r => 0 <= shr_m r)); [|done].
  intros [[|[]|[]] r s'] Hr; simpl in *; lia.
Qed.

Lemma binary_round_aux_num prec emax sx mx ex lx :
  0 <= mx -> binary_round_aux prec emax sx mx ex lx <> S754_nan.
Proof.
  intros Hm. unfold binary_round_aux.
  pose proof (shr_fexp_nonneg prec emax mx ex lx Hm) as H1.
  destruct (shr_fexp prec emax mx ex lx) as [r1 e1]. simpl in H1.
  assert (0 <= round_nearest_even (shr_m r1) (loc_of_shr_record r1)) as H2.
  { unfold round_nearest_even. repeat case_match; lia. }
  apply (shr_fexp_nonneg prec emax _ e1 loc_Exact) in H2.
  destruct (shr_fexp _ _ _ _ _) as [r2 e2]. simpl in H2.
  repeat case_match; done || lia.
Qed.

Lemma binary_normalize_num prec emax m e sz : binary_normalize prec emax m e sz <> S754_nan.
Proof.
  destruct m as [|p|p]; simpl; [done| |]; unfold binary_round;
    destruct (shl_align _ _ _); apply binary_round_aux_num; lia.
Qed.

(** Addition panics on infinities of opposite signs only. *)
Definition float_finite (x : Float) : Prop :=
  match f_val x with S754_infinity _ | S754_nan => False | _ => True end.

Lemma float_add_panics x y :
  float_num x -> float_num y ->
  (is_panic (float_add x y) = true <->
   exists sx, f_val x = S754_infinity sx /\ f_val y = S754_infinity (negb sx)).
Proof.
  unfold float_num, float_add, float_res.
  destruct (f_val x) as [[]|[]| |sx mx ex], (f_val y) as [[]|[]| |sy my ey]; intros Hx Hy;
    try congruence; unfold SFadd; simpl; try (split; [done|]; by intros ([] & ? & ?)).
  1,2: split; [|done]; intros _; eexists; split; reflexivity.
  pose proof (binary_normalize_num float_prec float_emax
    (cond_Zopp sx (Z.pos (shl_align mx ex (ex `min` ey)).1) +
     cond_Zopp sy (Z.pos (shl_align my ey (ex `min` ey)).1)) (ex `min` ey) false) as Hn.
  destruct (binary_normalize _ _ _ _ _); try congruence; (split; [done|]; by intros (? & ? & ?)).
Qed.

(** * Instances *)

(** Insertion sort, which is what [sort.Slice] runs on at most twelve elements. *)
Fixpoint insert_float (x : Float) (l : list Float) : list Float :=
  match l with
  | [] => [x]
  | y :: l' => if decide (float_le x y) then x :: l else y :: insert_float x l'
  end.
#[global] Instance ModelSort : SortSlice := {| sort_slice := foldr insert_float [] |}.

Lemma insert_float_perm x l : insert_float x l ≡ₚ x :: l.
Proof.
  induction l as [|y l IH]; simpl; [done|]. case_decide; [done|].
  rewrite IH. constructor.
Qed.

Lemma insert_float_sorted x l :
  float_num x -> Forall float_num l ->
  StronglySorted float_le l -> StronglySorted float_le (insert_float x l).
Proof.
  intros Hx Hl Hs. induction Hs as [|y l Hs IH Hy]; simpl.
  - constructor; constructor.
  - apply Forall_cons in Hl as [Hny Hl]. case_decide as Hle.
    + constructor; [by constructor|]. constructor; [done|].
      rewrite Forall_forall in Hy, Hl |- *. intros z Hz. apply (float_le_trans x y z); auto.
    + constructor; [by apply IH|]. rewrite insert_float_perm. constructor; [|done].
      destruct (float_le_total x y); done.
Qed.

#[global] Instance ModelSortLaws : SortSliceLaws.
Proof.
  assert (forall l, foldr insert_float [] l ≡ₚ l) as Hp.
  { induction l as [|x l IH]; simpl; [done|]. by rewrite insert_float_perm, IH. }
  constructor; [exact Hp|]. intros l. simpl. induction l as [|x l IH]; intros Hf; [constructor|].
  apply Forall_cons in Hf as [Hx Hf]. apply insert_float_sorted; [done| |by apply IH].
  by rewrite Hp.
Qed.

(** Text for integers only: digits, with a sign. *)
Definition digit (a : Ascii.ascii) : option Z :=
  let n := Z.of_nat (Ascii.nat_of_ascii a) in
  if (48 <=? n) && (n <=? 57) then Some (n - 48) else None.
Fixpoint digits (acc : Z) (s : string) : option Z :=
  match s with
  | EmptyString => Some acc
  | String a s => match digit a with Some d => digits (10 * acc + d) s | None => None end
  end.
Definition float_of_Z (z : Z) : spec_float := f_val (float_set_int64 z).
Definition m_float_parse (s : string) : option spec_float :=
  match s with
  | EmptyString => None
  | String a t =>
      if Ascii.eqb a "-" then
        (if bool_decide (t = EmptyString) then None
         else option_map (fun z => float_of_Z (- z)) (digits 0 t))
      else option_map float_of_Z (digits 0 s)
  end.
Definition m_float_text (_ : Z) (v : spec_float) : string :=
  match v with
  | S754_zero false => "0"
  | S754_zero true => "-0"
  | S754_infinity false => "+Inf"
  | S754_infinity true => "-Inf"
  | S754_nan => "NaN"
  | S754_finite sg m e =>
      let n := Z.shiftl (Z.pos m) e in pretty.pretty (if sg then - n else n)%Z
  end.
#[global] Instance ModelFloatText : FloatText :=
  {| float_parse := m_float_parse; float_text := m_float_text |}.

#[global] Instance ModelFloatTextLaws : FloatTextLaws.
Proof.
  assert (forall z, float_of_Z z <> S754_nan) as Hn by (intros; apply binary_normalize_num).
  constructor. intros s v Hv. cbv [float_parse ModelFloatText m_float_parse] in Hv.
  assert (forall (f : Z -> spec_float) o, (forall z, f z <> S754_nan) ->
    option_map f o = Some v -> v <> S754_nan) as Ho.
  { intros f [z|] Hf; simpl; [|done]. intros [= <-]. apply Hf. }
  destruct s as [|a t]; [done|]. destruct (Ascii.eqb a "-").
  - case_bool_decide; [done|]. eapply Ho; [|exact Hv]. intros z. apply Hn.
  - eapply Ho; [|exact Hv]. intros z. apply Hn.
Qed.
