(* ===== verification/Oracle.v ===== *)
(** x/oracle: request documents, submissions of providers, aggregation.

    A moderator registers request documents; authorised accounts submit one
    value per document and nonce; the begin blocker aggregates the submissions
    of every enabled document that has its quorum, stores the result, tells the
    hooks and moves the document to the next nonce.  The store is one map per
    kind of record, under the byte keys of [types/keys.go].  The definitions
    follow [keeper/*.go], [types/*.go], [genesis.go] and [handler.go]. *)
From S2P Require Import Prelude KVStore Sdk BigFloat.

(** Protobuf enums are open: any [int32] may be read.  The named values: *)
Abbreviation OracleType := Z (only parsing).
Definition ORACLE_TYPE_UNSPECIFIED : Z := 0.
Definition ORACLE_TYPE_MIN_GAS_PRICE : Z := 1.
Abbreviation RequestStatus := Z (only parsing).
Definition REQUEST_STATUS_UNSPECIFIED : Z := 0.
Definition REQUEST_STATUS_ENABLED : Z := 1.
Definition REQUEST_STATUS_PAUSED : Z := 2.
Definition REQUEST_STATUS_DISABLED : Z := 3.
Abbreviation AggregationRule := Z (only parsing).
Definition AGGREGATION_RULE_UNSPECIFIED : Z := 0.
Definition AGGREGATION_RULE_AVG : Z := 1.
Definition AGGREGATION_RULE_MIN : Z := 2.
Definition AGGREGATION_RULE_MAX : Z := 3.
Definition AGGREGATION_RULE_MEDIAN : Z := 4.

Record OracleEndpoint := mkEndpoint { Url : string; ParseRule : string }.

Record OracleRequestDoc := mkDoc {
  d_RequestId : Z;               (** uint64 *)
  d_OracleType : OracleType;
  d_Name : string;
  d_Description : string;
  d_Period : Z;                  (** uint32 *)
  d_AccountList : list string;
  d_Quorum : Z;                  (** uint32 *)
  d_Endpoints : list OracleEndpoint;
  d_AggregationRule : AggregationRule;
  d_Status : RequestStatus;
  d_Nonce : Z;                   (** uint64 *)
}.

Record SubmitDataSet := mkSubmit {
  sd_RequestId : Z; sd_Nonce : Z; sd_RawData : string; sd_Provider : string;
  sd_Signature : bytes;
}.

Record DataSet := mkDataSet {
  ds_RequestId : Z; ds_Nonce : Z; ds_BlockHeight : Z; ds_BlockTime : Z; ds_RawData : string;
}.

Record Params := mkParams {
  EnableOracle : bool;
  SubmitWindow : Z;              (** uint64 *)
  MinSubmitPerWindow : dec;
  SlashFractionDowntime : dec;
  MaxAccountListSize : Z;        (** uint64 *)
}.

Record GenesisState := mkGenesis {
  gs_Params : Params; gs_Count : Z; gs_Docs : list OracleRequestDoc; gs_Moderator : string;
}.

Record MsgRegisterOracleRequestDoc := mkRegister { mr_Moderator : string; mr_Doc : OracleRequestDoc }.
Record MsgUpdateOracleRequestDoc := mkUpdate {
  mu_Moderator : string; mu_Doc : OracleRequestDoc; mu_Reason : string }.
Record MsgSubmitOracleData := mkMsgSubmit { ms_Authority : string; ms_DataSet : option SubmitDataSet }.
Record MsgUpdateModeratorAddress := mkUpdateModerator { mm_Moderator : string; mm_New : string }.
Record MsgUpdateParams := mkUpdateParams { mp_Authority : string; mp_Params : Params }.

(** The messages the handler switches on. *)
Inductive Msg :=
  | MRegister (m : MsgRegisterOracleRequestDoc)
  | MUpdate (m : MsgUpdateOracleRequestDoc)
  | MSubmit (m : MsgSubmitOracleData)
  | MUpdateModerator (m : MsgUpdateModeratorAddress)
  | MOther.

Record or_state := OR {
  or_params : option Params;
  or_moderator : option string;
  or_count : option bytes;
  or_docs : gmap bytes OracleRequestDoc;
  or_submits : gmap bytes SubmitDataSet;
  or_datasets : gmap bytes DataSet;
  or_events : list event;
}.

(** The height and the Unix time of the block. *)
Record Ctx := mkCtx { BlockHeight : Z; BlockTime : Z }.

(** x/auth's [GetAccount] (nil for no account), the public key of an account
    (nil until it has one) and [VerifySignature]. *)
Class OracleAccounts := {
  PubKey : Type;
  GetAccount : addr -> option (option PubKey);
  VerifySignature : PubKey -> bytes -> bytes -> bool;
}.

(** Go's [string(n)] of an integer: the UTF-8 text of the code point [n]. *)
Definition of_bytes (l : bytes) : string :=
  String.string_of_list_ascii (map (fun b => Ascii.ascii_of_nat (Z.to_nat b)) l).
Definition rune_string (n : Z) : string :=
  of_bytes (
    if (0 <=? n) && (n <? 128) then [n]
    else if (0 <=? n) && (n <? 2048) then [192 + n / 64; 128 + n mod 64]
    else if (n <? 0) || (1114111 <? n) || ((55296 <=? n) && (n <? 57344)) then [239; 191; 189]
    else if n <? 65536 then [224 + n / 4096; 128 + n / 64 mod 64; 128 + n mod 64]
    else [240 + n / 262144; 128 + n / 4096 mod 64; 128 + n / 64 mod 64; 128 + n mod 64]).

(** ** types/keys.go *)

Definition IDToBytes (id : Z) : bytes := be64 id.
Definition IDToBytes32 (id : Z) : bytes := be32 id.
Definition StringToBytes (str : string) : bytes := str_bytes str.
Definition KeyOracleRequestDoc : bytes := [3].
Definition KeyOracleData : bytes := [5].
Definition KeyOracleDataSet : bytes := [6].

Definition GetOracleRequestDocKey (id : Z) : bytes := KeyOracleRequestDoc ++ IDToBytes id.
Definition GetOracleDataKey (id : Z) : bytes := KeyOracleData ++ be64 id.
Definition ParseOracleDataKey (key : bytes) : res Z :=
  if negb (Nat.eqb (length key) 9) then Err (Error ErrOther "invalid oracle data key length")
  else Ok (be64_decode (drop 1 key)).
Definition GetSubmitDataKey (request_id nonce : Z) : bytes :=
  if nonce =? 0 then KeyOracleData ++ IDToBytes request_id
  else (KeyOracleData ++ IDToBytes request_id) ++ IDToBytes nonce.
Definition GetSubmitDataKeyByProvider (request_id nonce : Z) (provider : string) : bytes :=
  GetSubmitDataKey request_id nonce ++ StringToBytes provider.
(** The nonce is not part of the key. *)
Definition GetDataSetKey (request_id nonce : Z) : bytes := KeyOracleDataSet ++ IDToBytes request_id.

(** ** types/params.go, oracle.go, genesis.go, msgs.go *)

Definition DefaultParams : Params :=
  mkParams true 3600 (Some (dec_of_int 1)) (Some (dec_one / 100)) 1000.

Definition Params_Validate (p : Params) : res unit :=
  if SubmitWindow p =? 0 then Err (Error ErrOther "submit window cannot be zero")
  else
    let? minSubmit := dec_val (MinSubmitPerWindow p) in
    if minSubmit <? 0 then Err (Error ErrOther "min submit per window cannot be negative")
    else
      let? slash := dec_val (SlashFractionDowntime p) in
      if slash <? 0 then Err (Error ErrOther "slash fraction downtime cannot be negative")
      else if MaxAccountListSize p =? 0
      then Err (Error ErrOther "max account list size cannot be zero")
      else if 1000 <? MaxAccountListSize p
      then Err (Error ErrOther "max account list size cannot exceed 1000")
      else Ok tt.

Section types.
Context `{AddressCodec}.

(** A Go length is an [int], below 2^63; [uint32] of it wraps. *)
Definition zlen {A} (l : list A) : Z := Z.of_nat (length l).

(** Unspecified enum values are zero, so the source's second test of each is
    the first; a nil slice has length zero. *)
Definition ValidateWithParams (doc : OracleRequestDoc) (params : Params) : res unit :=
  if d_OracleType doc =? ORACLE_TYPE_UNSPECIFIED
  then Err (Error ErrOther "oracle type cannot be unspecified")
  else if bool_decide (d_Name doc = EmptyString) then Err (Error ErrOther "name cannot be empty")
  else if zlen (d_Endpoints doc) =? 0 then Err (Error ErrOther "endpoints cannot be empty")
  else if d_AggregationRule doc =? AGGREGATION_RULE_UNSPECIFIED
  then Err (Error ErrOther "aggregation rule cannot be unspecified")
  else if zlen (d_AccountList doc) =? 0 then Err (Error ErrOther "account list cannot be empty")
  else if MaxAccountListSize params <? zlen (d_AccountList doc)
  then Err (Error ErrOther "account list size exceeds maximum allowed")
  else
    do? each_res (fun account =>
          match acc_of_bech32 account with
          | None => Err (Error ErrOther "account address is not valid bech32")
          | Some _ => Ok tt
          end) (d_AccountList doc);
    if d_Quorum doc =? 0 then Err (Error ErrOther "quorum cannot be 0")
    else if wrap32 (zlen (d_AccountList doc)) <? d_Quorum doc
    then Err (Error ErrOther "quorum cannot be greater than account list length")
    else if MaxAccountListSize params <? d_Quorum doc
    then Err (Error ErrOther "quorum exceeds maximum allowed")
    else if d_Status doc =? REQUEST_STATUS_UNSPECIFIED
    then Err (Error ErrOther "status cannot be unspecified")
    else Ok tt.

Definition Doc_Validate (doc : OracleRequestDoc) : res unit := ValidateWithParams doc DefaultParams.

(** The bytes a provider signs. *)
Definition Bytes (sds : SubmitDataSet) : res bytes :=
  let buf := str_bytes "guru.oracle.SubmitDataSet" ++ be64 (sd_RequestId sds) ++
    be64 (sd_Nonce sds) ++ be32 (wrap32 (zlen (str_bytes (sd_RawData sds)))) ++
    str_bytes (sd_RawData sds) in
  match acc_of_bech32 (sd_Provider sds) with
  | None => Err (Error ErrOther "invalid provider bech32")
  | Some acc => Ok (buf ++ acc)
  end.

Definition DefaultGenesisState : GenesisState := mkGenesis DefaultParams 0 [] EmptyString.

Definition GenesisState_Validate (gs : GenesisState) : res unit :=
  do? Params_Validate (gs_Params gs);
  if bool_decide (gs_Moderator gs = EmptyString)
  then Err (Error ErrOther "moderator address must be set in genesis")
  else
    do? each_res Doc_Validate (gs_Docs gs);
    match acc_of_bech32 (gs_Moderator gs) with
    | None => Err (Error ErrOther "invalid moderator address")
    | Some _ => Ok tt
    end.

Definition wrap_err (k : errkind) {A} (r : res A) : res A :=
  match r with Err e => Err (Error k (e_msg e)) | r => r end.

Definition MsgRegister_ValidateBasic (msg : MsgRegisterOracleRequestDoc) : res unit :=
  match acc_of_bech32 (mr_Moderator msg) with
  | None => Err (Error ErrInvalidAddress "invalid from address(Moderator)")
  | Some _ => wrap_err ErrInvalidRequest (ValidateWithParams (mr_Doc msg) DefaultParams)
  end.
Definition MsgUpdate_ValidateBasic (msg : MsgUpdateOracleRequestDoc) : res unit :=
  match acc_of_bech32 (mu_Moderator msg) with
  | None => Err (Error ErrInvalidAddress "invalid from address(Moderator)")
  | Some _ => wrap_err ErrInvalidRequest (ValidateWithParams (mu_Doc msg) DefaultParams)
  end.
(** A message decoded from the wire has a nil signature exactly when the field
    is empty. *)
Definition MsgSubmit_ValidateBasic `{FloatText} (msg : MsgSubmitOracleData) : res unit :=
  match ms_DataSet msg with
  | None => Err (Error ErrInvalidRequest "DataSet must be provided")
  | Some d =>
      match acc_of_bech32 (sd_Provider d) with
      | None => Err (Error ErrInvalidAddress "invalid provider address")
      | Some _ =>
          if sd_RequestId d =? 0 then Err (Error ErrInvalidRequest "request ID cannot be empty")
          else if bool_decide (sd_RawData d = EmptyString)
          then Err (Error ErrInvalidRequest "raw data cannot be empty")
          else match float_set_string (sd_RawData d) with
               | None => Err (Error ErrInvalidRequest "raw data must be a valid decimal number")
               | Some _ =>
                   if bool_decide (sd_Signature d = [])
                   then Err (Error ErrInvalidRequest "signature cannot be empty")
                   else Ok tt
               end
      end
  end.
Definition MsgUpdateModerator_ValidateBasic (msg : MsgUpdateModeratorAddress) : res unit :=
  if bool_decide (mm_Moderator msg = EmptyString)
  then Err (Error ErrInvalidRequest "moderator address cannot be empty")
  else if bool_decide (mm_New msg = EmptyString)
  then Err (Error ErrInvalidRequest "new moderator address cannot be empty")
  else if bool_decide (mm_Moderator msg = mm_New msg)
  then Err (Error ErrInvalidRequest "moderator address and new moderator address cannot be the same")
  else match acc_of_bech32 (mm_Moderator msg), acc_of_bech32 (mm_New msg) with
       | None, _ => Err (Error ErrInvalidAddress "invalid moderator address")
       | _, None => Err (Error ErrInvalidAddress "invalid new moderator address")
       | _, _ => Ok tt
       end.
End types.

Section keeper.
Context `{AddressCodec, DecLib, OracleAccounts, FloatText, SortSlice}.
Variable authority : string.
(** [json.Marshal] of the endpoints. *)
Variable endpoints_json : list OracleEndpoint -> string.

(** ** Store *)

Definition stored_params (p : Params) : Params :=
  mkParams (EnableOracle p) (SubmitWindow p) (dec_stored (MinSubmitPerWindow p))
    (dec_stored (SlashFractionDowntime p)) (MaxAccountListSize p).

Definition SetParams (params : Params) : M or_state unit :=
  modify (fun s => OR (Some (stored_params params)) (or_moderator s) (or_count s) (or_docs s)
    (or_submits s) (or_datasets s) (or_events s)).
Definition GetParams (s : or_state) : Params :=
  match or_params s with None => DefaultParams | Some params => params end.
Definition GetAuthority : string := authority.

Definition SetModeratorAddress (address : string) : M or_state unit :=
  modify (fun s => OR (or_params s) (Some address) (or_count s) (or_docs s) (or_submits s)
    (or_datasets s) (or_events s)).
Definition GetModeratorAddress (s : or_state) : string :=
  match or_moderator s with None => EmptyString | Some bz => bz end.

Definition SetOracleRequestDocCount (count : Z) : M or_state unit :=
  modify (fun s => OR (or_params s) (or_moderator s) (Some (be64 count)) (or_docs s) (or_submits s)
    (or_datasets s) (or_events s)).
Definition GetOracleRequestDocCount (s : or_state) : Z :=
  match or_count s with None => 0 | Some bz => be64_decode bz end.

Definition SetOracleRequestDoc (doc : OracleRequestDoc) : M or_state unit :=
  modify (fun s => OR (or_params s) (or_moderator s) (or_count s)
    (<[GetOracleRequestDocKey (d_RequestId doc) := doc]> (or_docs s)) (or_submits s)
    (or_datasets s) (or_events s)).
(** A stored document has a name, so its encoding is not empty. *)
Definition GetOracleRequestDoc (s : or_state) (id : Z) : res OracleRequestDoc :=
  match or_docs s !! GetOracleRequestDocKey id with
  | None => Err (Error ErrOther "not exist RequestDoc")
  | Some doc => Ok doc
  end.
Definition GetOracleRequestDocs (s : or_state) : list OracleRequestDoc :=
  map snd (iterate KeyOracleRequestDoc (or_docs s)).
Definition GetOracleRequestDocsByStatus (s : or_state) (status : RequestStatus)
    : list OracleRequestDoc :=
  filter (fun doc => d_Status doc = status) (GetOracleRequestDocs s).

(** The document with the fields of an update that are set. *)
Definition merge_doc (existingDoc doc : OracleRequestDoc) : OracleRequestDoc :=
  mkDoc (d_RequestId existingDoc) (d_OracleType existingDoc) (d_Name existingDoc)
    (d_Description existingDoc)
    (if d_Period doc =? 0 then d_Period existingDoc else d_Period doc)
    (if zlen (d_AccountList doc) =? 0 then d_AccountList existingDoc else d_AccountList doc)
    (if d_Quorum doc =? 0 then d_Quorum existingDoc else d_Quorum doc)
    (if zlen (d_Endpoints doc) =? 0 then d_Endpoints existingDoc else d_Endpoints doc)
    (if d_AggregationRule doc =? AGGREGATION_RULE_UNSPECIFIED then d_AggregationRule existingDoc
     else d_AggregationRule doc)
    (if d_Status doc =? REQUEST_STATUS_UNSPECIFIED then d_Status existingDoc else d_Status doc)
    (d_Nonce existingDoc).
Definition updateOracleRequestDoc (doc : OracleRequestDoc) : M or_state unit :=
  let! found := gets (fun s => GetOracleRequestDoc s (d_RequestId doc)) in
  let! existingDoc := lift found in
  if (d_Status existingDoc =? REQUEST_STATUS_DISABLED)
     && (d_Status doc =? REQUEST_STATUS_UNSPECIFIED)
  then fail ErrOther "cannot modify disabled Request Doc except status"
  else
    let updated := merge_doc existingDoc doc in
    let! params := gets GetParams in
    do! lift (ValidateWithParams updated params);
    SetOracleRequestDoc updated.

Definition SetSubmitData (data : SubmitDataSet) : M or_state unit :=
  modify (fun s => OR (or_params s) (or_moderator s) (or_count s) (or_docs s)
    (<[GetSubmitDataKeyByProvider (sd_RequestId data) (sd_Nonce data) (sd_Provider data) := data]>
       (or_submits s)) (or_datasets s) (or_events s)).
Definition GetSubmitDatas (s : or_state) (requestId nonce : Z) : list SubmitDataSet :=
  map snd (iterate (GetSubmitDataKey requestId nonce) (or_submits s)).
Definition GetSubmitData (s : or_state) (requestId nonce : Z) (provider : string)
    : res (list SubmitDataSet) :=
  if bool_decide (provider = EmptyString) then Ok (GetSubmitDatas s requestId nonce)
  else match or_submits s !! GetSubmitDataKeyByProvider requestId nonce provider with
       | None => Err (Error ErrOther "not exist SubmitData")
       | Some data => Ok [data]
       end.

Definition SetDataSet (dataSet : DataSet) : M or_state unit :=
  modify (fun s => OR (or_params s) (or_moderator s) (or_count s) (or_docs s) (or_submits s)
    (<[GetDataSetKey (ds_RequestId dataSet) (ds_Nonce dataSet) := dataSet]> (or_datasets s))
    (or_events s)).
Definition GetDataSet (s : or_state) (requestId nonce : Z) : res DataSet :=
  match or_datasets s !! GetDataSetKey requestId nonce with
  | None => Err (Error ErrOther "not exist DataSet")
  | Some dataSet => Ok dataSet
  end.

Definition emit (e : event) : M or_state unit :=
  modify (fun s => OR (or_params s) (or_moderator s) (or_count s) (or_docs s) (or_submits s)
    (or_datasets s) (or_events s ++ [e])).

Fixpoint checkAccountAuthorized (accountList : list string) (fromAddress : string) : bool :=
  match accountList with
  | [] => false
  | account :: l =>
      if bool_decide (account = fromAddress) then true else checkAccountAuthorized l fromAddress
  end.

Definition validateSubmitData (data : SubmitDataSet) : res unit :=
  if sd_RequestId data =? 0 then Err (Error ErrInvalidRequestId "request id is 0")
  else if sd_Nonce data =? 0 then Err (Error ErrInvalidNonce "nonce is 0")
  else if bool_decide (sd_Provider data = EmptyString)
  then Err (Error ErrInvalidProvider "provider is empty")
  else if bool_decide (sd_RawData data = EmptyString)
  then Err (Error ErrInvalidRawData "raw data is empty")
  else Ok tt.

Definition GetOracleData (s : or_state) (requestId : Z) : res DataSet :=
  let? doc := GetOracleRequestDoc s requestId in
  GetDataSet s (d_RequestId doc) (d_Nonce doc).

(** ** Aggregation *)

Definition set_raw (data : SubmitDataSet) : res Float :=
  match float_set_string (sd_RawData data) with
  | None => Err (Error ErrOther "invalid decimal number in raw data")
  | Some value => Ok value
  end.

Fixpoint max_loop (max : Float) (l : list SubmitDataSet) : res Float :=
  match l with
  | [] => Ok max
  | data :: l =>
      let? value := set_raw data in
      max_loop (if 0 <? float_cmp value max then value else max) l
  end.
Definition calculateMax (submitDatas : list SubmitDataSet) : res string :=
  if zlen submitDatas =? 0 then Err (Error ErrOther "no data to calculate max")
  else let? max := max_loop float_new submitDatas in Ok (float_Text max).

Fixpoint min_loop (min : Float) (l : list SubmitDataSet) : res Float :=
  match l with
  | [] => Ok min
  | data :: l =>
      let? value := set_raw data in
      min_loop (if float_cmp value min <? 0 then value else min) l
  end.
Definition calculateMin (submitDatas : list SubmitDataSet) : res string :=
  if zlen submitDatas =? 0 then Err (Error ErrOther "no data to calculate min")
  else let? min := min_loop float_max_float64 submitDatas in Ok (float_Text min).

Fixpoint sum_loop (sum : Float) (l : list SubmitDataSet) : res Float :=
  match l with
  | [] => Ok sum
  | data :: l =>
      let? value := set_raw data in
      let? sum := float_add sum value in
      sum_loop sum l
  end.
Definition calculateAverage (submitDatas : list SubmitDataSet) : res string :=
  if zlen submitDatas =? 0 then Err (Error ErrOther "no data to average")
  else
    let? sum := sum_loop float_new submitDatas in
    let? avg := float_quo sum (float_set_int64 (zlen submitDatas)) in
    Ok (float_Text avg).

Fixpoint parse_all (l : list SubmitDataSet) : res (list Float) :=
  match l with
  | [] => Ok []
  | data :: l => let? value := set_raw data in let? values := parse_all l in Ok (value :: values)
  end.

(** An index in range: the slice has the element. *)
Definition at_index (values : list Float) (i : nat) : res Float :=
  match values !! i with Some v => Ok v | None => Panic "index out of range" end.

Definition calculateMedian (s : or_state) (submitDatas : list SubmitDataSet) : res string :=
  if zlen submitDatas =? 0 then Err (Error ErrOther "no data to calculate median")
  else if MaxAccountListSize (GetParams s) <? zlen submitDatas
  then Err (Error ErrOther "too many submissions")
  else
    let? parsed := parse_all submitDatas in
    let values := sort_slice parsed in
    let mid := Nat.div (length values) 2 in
    if Nat.even (length values) then
      let? a := at_index values (mid - 1) in
      let? b := at_index values mid in
      let? sum := float_add a b in
      let? median := float_quo sum (float_set_int64 2) in
      Ok (float_Text median)
    else let? m := at_index values mid in Ok (float_Text m).

Definition AggregateData (s : or_state) (rule : AggregationRule) (submitDatas : list SubmitDataSet)
    : res string :=
  if rule =? AGGREGATION_RULE_AVG then calculateAverage submitDatas
  else if rule =? AGGREGATION_RULE_MIN then calculateMin submitDatas
  else if rule =? AGGREGATION_RULE_MAX then calculateMax submitDatas
  else if rule =? AGGREGATION_RULE_MEDIAN then calculateMedian s submitDatas
  else Err (Error ErrOther "unsupported aggregation rule").

(** ** The begin blocker, beside the state [W] of the modules it calls *)

Variable W : Type.
Record OracleHooks := mkHooks {
  h_AfterOracleEnd : DataSet -> M W unit;
  h_BeforeOracleStart : DataSet -> M W unit;
}.

Definition MultiOracleHooks_AfterOracleEnd (mh : list OracleHooks) (dataSet : DataSet) : M W unit :=
  each (fun h => h_AfterOracleEnd h dataSet) mh.
Definition MultiOracleHooks_BeforeOracleStart (mh : list OracleHooks) (dataSet : DataSet) : M W unit :=
  each (fun h => h_BeforeOracleStart h dataSet) mh.

(** [Keeper.hooks]; nil until [SetHooks], and then a call panics. *)
Variable hooks : option (list OracleHooks).

Definition SetHooks (cur : option (list OracleHooks)) (eh : list OracleHooks)
    : res (option (list OracleHooks)) :=
  match cur with
  | Some _ => Panic "cannot set oracle hooks twice"
  | None => Ok (Some eh)
  end.

Definition AfterOracleEnd (dataSet : DataSet) : M W unit :=
  match hooks with
  | None => panic "invalid memory address or nil pointer dereference"
  | Some mh => MultiOracleHooks_AfterOracleEnd mh dataSet
  end.
Definition BeforeOracleStart (dataSet : DataSet) : M W unit :=
  match hooks with
  | None => panic "invalid memory address or nil pointer dereference"
  | Some mh => MultiOracleHooks_BeforeOracleStart mh dataSet
  end.

Definition on_oracle {A} (m : M or_state A) : M (or_state * W) A :=
  zoom fst (fun t s => (t, s.2)) m.
Definition on_hooks {A} (m : M W A) : M (or_state * W) A :=
  zoom snd (fun t s => (s.1, t)) m.

Definition with_nonce (doc : OracleRequestDoc) (nonce : Z) : OracleRequestDoc :=
  mkDoc (d_RequestId doc) (d_OracleType doc) (d_Name doc) (d_Description doc) (d_Period doc)
    (d_AccountList doc) (d_Quorum doc) (d_Endpoints doc) (d_AggregationRule doc) (d_Status doc) nonce.

(** The body of the loop; [continue] is [ret tt]. *)
Definition process_doc (ctx : Ctx) (doc : OracleRequestDoc) : M (or_state * W) unit :=
  if negb (d_Status doc =? REQUEST_STATUS_ENABLED) then ret tt
  else
    let nextNonce := wrap64 (d_Nonce doc + 1) in
    let! submitDatas := on_oracle (gets (fun s => GetSubmitDatas s (d_RequestId doc) nextNonce)) in
    if wrap32 (zlen submitDatas) <? d_Quorum doc then ret tt
    else
      let! aggregated := try (on_oracle (fun s =>
        (AggregateData s (d_AggregationRule doc) submitDatas, s))) in
      match aggregated with
      | inr _ => ret tt
      | inl aggregatedValue =>
          let dataSet := mkDataSet (d_RequestId doc) nextNonce (wrap64 (BlockHeight ctx))
                           (wrap64 (BlockTime ctx)) aggregatedValue in
          do! on_oracle (SetDataSet dataSet);
          do! (if d_OracleType doc =? ORACLE_TYPE_MIN_GAS_PRICE
               then on_hooks (AfterOracleEnd dataSet) else ret tt);
          do! on_oracle (SetOracleRequestDoc (with_nonce doc nextNonce));
          on_oracle (emit (Event "complete_oracle_data_set"
            [("request_id", AInt (d_RequestId doc)); ("nonce", AInt nextNonce);
             ("raw_data", AStr aggregatedValue); ("block_height", AInt (BlockHeight ctx));
             ("block_time", AInt (BlockTime ctx))]))
      end.

Definition ProcessOracleDataSetAggregation (ctx : Ctx) : M (or_state * W) unit :=
  let! requestDocs := on_oracle (gets GetOracleRequestDocs) in
  each (process_doc ctx) requestDocs.

Definition BeginBlocker (ctx : Ctx) : M (or_state * W) unit :=
  let! params := on_oracle (gets GetParams) in
  if negb (EnableOracle params) then ret tt else ProcessOracleDataSetAggregation ctx.

(** ** Messages *)

Definition check_moderator (address : string) : M or_state unit :=
  let! moderatorAddress := gets GetModeratorAddress in
  if bool_decide (moderatorAddress = EmptyString)
  then fail ErrInvalidRequest "moderator address is not set"
  else if negb (bool_decide (moderatorAddress = address))
  then fail ErrUnauthorized "moderator address is not authorized"
  else ret tt.

Definition doc_attrs (doc : OracleRequestDoc) : list (string * attr) :=
  [("request_id", AInt (d_RequestId doc));
   ("oracle_type", AStr (rune_string (d_OracleType doc)));
   ("name", AStr (d_Name doc)); ("description", AStr (d_Description doc));
   ("period", AInt (d_Period doc));
   ("account_list", AStr (String.concat "," (d_AccountList doc)));
   ("endpoints", AStr (endpoints_json (d_Endpoints doc)));
   ("aggregation_rule", AStr (rune_string (d_AggregationRule doc)));
   ("status", AStr (rune_string (d_Status doc)))].

Definition RegisterOracleRequestDoc (msg : MsgRegisterOracleRequestDoc) : M or_state Z :=
  do! check_moderator (mr_Moderator msg);
  let! count := gets GetOracleRequestDocCount in
  let d := mr_Doc msg in
  let oracleRequestDoc := mkDoc (wrap64 (count + 1)) (d_OracleType d) (d_Name d) (d_Description d)
    (d_Period d) (d_AccountList d) (d_Quorum d) (d_Endpoints d) (d_AggregationRule d) (d_Status d) 0 in
  let! params := gets GetParams in
  do! lift (wrap_err ErrInvalidRequest (ValidateWithParams oracleRequestDoc params));
  do! SetOracleRequestDoc oracleRequestDoc;
  do! SetOracleRequestDocCount (wrap64 (count + 1));
  do! emit (Event "register_oracle_request_doc" (doc_attrs oracleRequestDoc));
  ret (d_RequestId oracleRequestDoc).

Definition UpdateOracleRequestDoc (msg : MsgUpdateOracleRequestDoc) : M or_state Z :=
  do! check_moderator (mu_Moderator msg);
  let! updated := try (updateOracleRequestDoc (mu_Doc msg)) in
  match updated with
  | inr e => fail ErrInvalidRequest (e_msg e)
  | inl _ =>
      do! emit (Event "update_oracle_request_doc"
        (doc_attrs (mu_Doc msg) ++ [("nonce", AInt (d_Nonce (mu_Doc msg)))]));
      ret (d_RequestId (mu_Doc msg))
  end.

(** The recovery byte is normalised in the message's own slice, so the data set
    that is stored afterwards has it normalised: the data set is returned. *)
Definition verifySubmitData (data : SubmitDataSet) : res SubmitDataSet :=
  let? signBytes := wrap_err ErrInvalidRequest (Bytes data) in
  let sig := sd_Signature data in
  if negb (Nat.eqb (length sig) 65) then Err (Error ErrUnauthorized "invalid signature length")
  else
    let v := match sig !! 64%nat with Some v => v | None => 0 end in
    let v := if 27 <=? v then v - 27 else v in
    let sig := <[64%nat := v]> sig in
    if negb (v =? 0) && negb (v =? 1)
    then Err (Error ErrUnauthorized "invalid signature recovery id")
    else
      match acc_of_bech32 (sd_Provider data) with
      | None => Err (Error ErrInvalidAddress "invalid provider address")
      | Some providerAcc =>
          match GetAccount providerAcc with
          | None => Err (Error ErrUnauthorized "account not found")
          | Some None => Err (Error ErrUnauthorized "public key not found")
          | Some (Some pubKey) =>
              if negb (VerifySignature pubKey signBytes sig)
              then Err (Error ErrUnauthorized "invalid dataset signature")
              else Ok (mkSubmit (sd_RequestId data) (sd_Nonce data) (sd_RawData data)
                         (sd_Provider data) sig)
          end
      end.

Definition SubmitOracleData (msg : MsgSubmitOracleData) : M or_state unit :=
  match ms_DataSet msg with
  | None => fail ErrInvalidRequest "DataSet must be provided"
  | Some data =>
      do! lift (wrap_err ErrInvalidRequest (validateSubmitData data));
      let! found := gets (fun s => GetOracleRequestDoc s (sd_RequestId data)) in
      match found with
      | Err _ | Panic _ => fail ErrInvalidRequest "request document not found"
      | Ok requestDoc =>
          if negb (d_Status requestDoc =? REQUEST_STATUS_ENABLED)
          then fail ErrInvalidRequest "request document is not enabled"
          else if negb (checkAccountAuthorized (d_AccountList requestDoc) (ms_Authority msg))
          then fail ErrInvalidRequest "account is not authorized"
          else if negb (sd_Nonce data =? wrap64 (d_Nonce requestDoc + 1))
          then fail ErrInvalidRequest "nonce is not correct"
          else
            let! data := lift (wrap_err ErrInvalidRequest (verifySubmitData data)) in
            do! SetSubmitData data;
            emit (Event "submit_oracle_data"
              [("request_id", AInt (sd_RequestId data)); ("nonce", AInt (sd_Nonce data));
               ("raw_data", AStr (sd_RawData data)); ("from_address", AStr (ms_Authority msg))])
      end
  end.

Definition UpdateParams (msg : MsgUpdateParams) : M or_state unit :=
  if negb (bool_decide (authority = mp_Authority msg))
  then fail ErrUnauthorized "invalid authority"
  else
    do! lift (wrap_err ErrInvalidRequest (Params_Validate (mp_Params msg)));
    do! SetParams (mp_Params msg);
    emit (Event "oracle_params_updated"
      [("authority", AStr (mp_Authority msg));
       ("submit_window", AInt (SubmitWindow (mp_Params msg)));
       ("min_submit_per_window", ADec (MinSubmitPerWindow (mp_Params msg)));
       ("slash_fraction_downtime", ADec (SlashFractionDowntime (mp_Params msg)))]).

Definition UpdateModeratorAddress (msg : MsgUpdateModeratorAddress) : M or_state unit :=
  let! currentModeratorAddress := gets GetModeratorAddress in
  if negb (bool_decide (currentModeratorAddress = mm_Moderator msg))
  then fail ErrInvalidRequest "from address is different from current moderator address"
  else if bool_decide (currentModeratorAddress = EmptyString)
  then fail ErrInvalidRequest "moderator address is not set"
  else if bool_decide (currentModeratorAddress = mm_New msg)
  then fail ErrInvalidRequest "new moderator address is same as current moderator address"
  else
    do! SetModeratorAddress (mm_New msg);
    emit (Event "update_moderator_address" [("moderator_address", AStr (mm_New msg))]).

(** The handler has no case for [MsgUpdateParams]. *)
Definition NewHandler (msg : Msg) : M or_state (option Z) :=
  match msg with
  | MRegister m => let! id := RegisterOracleRequestDoc m in ret (Some id)
  | MUpdate m => let! id := UpdateOracleRequestDoc m in ret (Some id)
  | MSubmit m => do! SubmitOracleData m; ret None
  | MUpdateModerator m => do! UpdateModeratorAddress m; ret None
  | MOther => fail ErrUnknownRequest "unrecognized oracle message type"
  end.

(** ** Queries and genesis *)

Definition Query_Params (s : or_state) : Params := GetParams s.
Definition Query_OracleData (s : or_state) (requestId : Z) : res DataSet :=
  let? doc := GetOracleRequestDoc s requestId in
  GetDataSet s requestId (d_Nonce doc).
Definition Query_OracleRequestDoc (s : or_state) (requestId : Z) : res OracleRequestDoc :=
  GetOracleRequestDoc s requestId.
Definition Query_OracleRequestDocs (s : or_state) (status : RequestStatus) : list OracleRequestDoc :=
  if status =? REQUEST_STATUS_UNSPECIFIED then GetOracleRequestDocs s
  else GetOracleRequestDocsByStatus s status.
Definition Query_ModeratorAddress (s : or_state) : string := GetModeratorAddress s.
Definition Query_OracleSubmitData (s : or_state) (requestId nonce : Z) (provider : string)
    : res (list SubmitDataSet) :=
  GetSubmitData s requestId nonce provider.

Definition panic_err {A} (r : res A) : res A :=
  match r with Err e => Panic (e_msg e) | r => r end.

Definition InitGenesis (data : GenesisState) : M or_state unit :=
  do! SetParams (gs_Params data);
  let moderatorAddress := if bool_decide (gs_Moderator data = EmptyString) then GetAuthority
                          else gs_Moderator data in
  match acc_of_bech32 moderatorAddress with
  | None => panic "invalid moderator address"
  | Some _ =>
      do! SetModeratorAddress moderatorAddress;
      do! each (fun doc => do! lift (panic_err (Doc_Validate doc)); SetOracleRequestDoc doc)
            (gs_Docs data);
      if negb (zlen (gs_Docs data) =? gs_Count data)
      then panic "oracle request doc count must match actual documents"
      else SetOracleRequestDocCount (gs_Count data)
  end.

Definition ExportGenesis (s : or_state) : GenesisState :=
  mkGenesis (GetParams s) (GetOracleRequestDocCount s) (GetOracleRequestDocs s)
    (GetModeratorAddress s).
End keeper.
