(* ===== verification/OracleInv.v ===== *)
(** Lemmas of x/oracle: keys, validity of documents and the invariant of the store;
    the aggregation rules, what the loops over the submitted values compute, the
    ranks of a sorted slice and when aggregation cannot panic; one pass of the begin
    blocker. *)
From Stdlib Require Import SpecFloat.
From S2P Require Import Prelude KVStore Sdk BigFloat Oracle.

Definition uint64 (n : Z) : Prop := 0 <= n <= max_uint64.

(** * Keys *)

Lemma doc_key_inj i j :
  uint64 i -> uint64 j -> GetOracleRequestDocKey i = GetOracleRequestDocKey j -> i = j.
Proof. intros Hi Hj Hk%(app_inv_head KeyOracleRequestDoc). by apply be64_inj. Qed.

Lemma dataset_key_inj i j n m :
  uint64 i -> uint64 j -> GetDataSetKey i n = GetDataSetKey j m -> i = j.
Proof. intros Hi Hj Hk%(app_inv_head KeyOracleDataSet). by apply be64_inj. Qed.

Lemma be64_app_inj i j (a b : bytes) :
  uint64 i -> uint64 j -> be64 i ++ a = be64 j ++ b -> i = j /\ a = b.
Proof.
  intros Hi Hj Heq. apply app_inj_1 in Heq as [Hb ->]; [|unfold be64; by rewrite !be_length].
  split; [by apply be64_inj|done].
Qed.

Lemma submit_key_prefix id nonce id' nonce' p :
  uint64 id -> uint64 id' -> 0 < nonce <= max_uint64 -> 0 < nonce' <= max_uint64 ->
  is_prefix (GetSubmitDataKey id nonce) (GetSubmitDataKeyByProvider id' nonce' p) = true <->
  id' = id /\ nonce' = nonce.
Proof.
  intros Hi Hi' Hn Hn'. unfold GetSubmitDataKeyByProvider, GetSubmitDataKey, IDToBytes.
  destruct (Z.eqb_spec nonce 0), (Z.eqb_spec nonce' 0); try lia. rewrite <- !app_assoc. split.
  - intros (t & Ht)%is_prefix_spec. rewrite <- !app_assoc in Ht. apply app_inv_head in Ht.
    apply be64_app_inj in Ht as [-> Ht]; [|done..].
    apply be64_app_inj in Ht as [-> _]; [done|unfold uint64; lia..].
  - intros [-> ->]. rewrite !app_assoc. apply is_prefix_app.
Qed.

Lemma submit_key_inj id nonce id' nonce' p p' :
  uint64 id -> uint64 id' -> 0 < nonce <= max_uint64 -> 0 < nonce' <= max_uint64 ->
  GetSubmitDataKeyByProvider id nonce p = GetSubmitDataKeyByProvider id' nonce' p' ->
  id = id' /\ nonce = nonce' /\ p = p'.
Proof.
  intros Hi Hi' Hn Hn'. unfold GetSubmitDataKeyByProvider, GetSubmitDataKey, IDToBytes.
  destruct (Z.eqb_spec nonce 0), (Z.eqb_spec nonce' 0); try lia. rewrite <- !app_assoc.
  intros Ht%app_inv_head. apply be64_app_inj in Ht as [-> Ht]; [|done..].
  apply be64_app_inj in Ht as [-> Ht]; [|unfold uint64; lia..]. split_and!; try done.
  by apply str_bytes_inj.
Qed.

Section inv.
Context `{AddressCodec, DecLib, OracleAccounts, FloatText, SortSlice}.

(** * Documents *)

Definition doc_ok (d : OracleRequestDoc) : Prop :=
  d_OracleType d <> ORACLE_TYPE_UNSPECIFIED /\ d_Name d <> EmptyString /\ d_Endpoints d <> [] /\
  d_AggregationRule d <> AGGREGATION_RULE_UNSPECIFIED /\
  Forall (fun a => acc_of_bech32 a <> None) (d_AccountList d) /\
  1 <= d_Quorum d <= zlen (d_AccountList d) /\ d_Status d <> REQUEST_STATUS_UNSPECIFIED.

Lemma zlen_0 {A} (l : list A) : (zlen l =? 0) = false <-> l <> [].
Proof. unfold zlen. rewrite Z.eqb_neq. destruct l; simpl; split; lia || done. Qed.

Lemma ValidateWithParams_ok d p :
  0 <= d_Quorum d -> ValidateWithParams d p = Ok tt ->
  doc_ok d /\ zlen (d_AccountList d) <= MaxAccountListSize p.
Proof.
  intros Hq Hv. unfold ValidateWithParams in Hv. run_inv. destruct x.
  repeat match goal with
  | H : (zlen _ =? 0) = false |- _ => apply zlen_0 in H
  end. zbool.
  assert (wrap32 (zlen (d_AccountList d)) <= zlen (d_AccountList d)).
  { unfold wrap32, zlen. apply Z.mod_le; lia. }
  split; [|lia]. unfold doc_ok. split_and!; try done; try lia.
  apply each_res_ok in H4. eapply Forall_impl; [exact H4|]. intros a Ha. simpl in Ha.
  by destruct (acc_of_bech32 a).
Qed.

Lemma ValidateWithParams_intro d p :
  doc_ok d -> zlen (d_AccountList d) <= MaxAccountListSize p -> zlen (d_AccountList d) < 2 ^ 32 ->
  ValidateWithParams d p = Ok tt.
Proof.
  intros (Ht & Hn & He & Hr & Ha & Hq & Hs) Hm Hw. unfold ValidateWithParams.
  assert (d_AccountList d <> []) as Hal.
  { intros Hnil. rewrite Hnil in Hq. unfold zlen in Hq. simpl in Hq. lia. }
  apply zlen_0 in He, Hal.
  rewrite (proj2 (Z.eqb_neq _ _) Ht), bool_decide_eq_false_2, He, (proj2 (Z.eqb_neq _ _) Hr), Hal by done.
  rewrite (proj2 (Z.ltb_ge _ _) Hm).
  rewrite (proj2 (each_res_ok _ _)); [|eapply Forall_impl; [exact Ha|]; intros a; simpl; by case_match].
  simpl. rewrite wrap32_small by (unfold zlen in *; lia).
  rewrite (proj2 (Z.eqb_neq (d_Quorum d) 0)), (proj2 (Z.ltb_ge (zlen _) _)),
    (proj2 (Z.ltb_ge (MaxAccountListSize p) _)), (proj2 (Z.eqb_neq _ _) Hs) by lia. done.
Qed.

(** ** The store *)

Record oracle_wf (s : or_state) : Prop := {
  wf_docs : forall k d, or_docs s !! k = Some d ->
    k = GetOracleRequestDocKey (d_RequestId d) /\
    1 <= d_RequestId d <= GetOracleRequestDocCount s /\ uint64 (d_Nonce d) /\ doc_ok d;
  wf_all : forall id, 1 <= id <= GetOracleRequestDocCount s ->
    is_Some (or_docs s !! GetOracleRequestDocKey id);
  wf_count : uint64 (GetOracleRequestDocCount s);
  wf_submits : forall k d, or_submits s !! k = Some d ->
    k = GetSubmitDataKeyByProvider (sd_RequestId d) (sd_Nonce d) (sd_Provider d) /\
    uint64 (sd_RequestId d) /\ 0 < sd_Nonce d <= max_uint64;
}.

Lemma wf_id s k d : oracle_wf s -> or_docs s !! k = Some d -> uint64 (d_RequestId d).
Proof.
  intros Hs Hk. apply (wf_docs _ Hs) in Hk as (_ & Hid & _). pose proof (wf_count _ Hs).
  unfold uint64 in *. lia.
Qed.

Lemma docs_elem s d :
  oracle_wf s ->
  d ∈ GetOracleRequestDocs s <-> or_docs s !! GetOracleRequestDocKey (d_RequestId d) = Some d.
Proof.
  intros Hs. unfold GetOracleRequestDocs. rewrite list_elem_of_fmap. split.
  - intros ([k d'] & -> & [Hk _]%elem_of_iterate). simpl.
    pose proof (wf_docs _ Hs _ _ Hk) as (-> & _). done.
  - intros Hk. eexists (_, d). split; [done|]. by apply elem_of_iterate.
Qed.

Lemma docs_keys s :
  oracle_wf s ->
  (fun d => GetOracleRequestDocKey (d_RequestId d)) <$> GetOracleRequestDocs s =
  (iterate KeyOracleRequestDoc (or_docs s)).*1.
Proof.
  intros Hs. unfold GetOracleRequestDocs. rewrite <- list_fmap_compose. apply list_fmap_ext.
  intros i [k d] Hi%list_elem_of_lookup_2. apply elem_of_iterate in Hi as [Hk _].
  by apply (wf_docs _ Hs) in Hk as [-> _].
Qed.

Lemma docs_NoDup s :
  oracle_wf s -> NoDup ((fun d => GetOracleRequestDocKey (d_RequestId d)) <$> GetOracleRequestDocs s).
Proof. intros Hs. rewrite docs_keys by done. apply iterate_NoDup. Qed.

(** The submissions an aggregation reads: those of the document and nonce, one
    per provider. *)
Lemma GetSubmitDatas_elem s id nonce d :
  oracle_wf s -> uint64 id -> 0 < nonce <= max_uint64 ->
  d ∈ GetSubmitDatas s id nonce <->
  or_submits s !! GetSubmitDataKeyByProvider id nonce (sd_Provider d) = Some d /\
  sd_RequestId d = id /\ sd_Nonce d = nonce.
Proof.
  intros Hs Hid Hn. unfold GetSubmitDatas. rewrite list_elem_of_fmap. split.
  - intros ([k d'] & -> & [Hk Hp]%elem_of_iterate). simpl.
    pose proof (wf_submits _ Hs _ _ Hk) as (-> & Hi & Hn').
    apply submit_key_prefix in Hp as [<- <-]; done.
  - intros (Hk & <- & <-). eexists (_, d). split; [done|]. apply elem_of_iterate.
    split; [done|]. by apply submit_key_prefix.
Qed.

Lemma GetSubmitDatas_providers s id nonce :
  oracle_wf s -> uint64 id -> 0 < nonce <= max_uint64 ->
  NoDup (sd_Provider <$> GetSubmitDatas s id nonce).
Proof.
  intros Hs Hid Hn.
  apply (NoDup_fmap_1 (fun p => GetSubmitDataKeyByProvider id nonce p)).
  rewrite <- list_fmap_compose.
  replace (_ <$> GetSubmitDatas s id nonce) with
    ((iterate (GetSubmitDataKey id nonce) (or_submits s)).*1); [apply iterate_NoDup|].
  unfold GetSubmitDatas. rewrite <- list_fmap_compose. apply list_fmap_ext.
  intros i [k d] Hi%list_elem_of_lookup_2. apply elem_of_iterate in Hi as [Hk Hp].
  pose proof (wf_submits _ Hs _ _ Hk) as (-> & Hi & Hn').
  by apply submit_key_prefix in Hp as [-> ->].
Qed.
End inv.

(** * Ranks in a sorted list *)

Section ranks.
Variables lo hi : Float.
Hypothesis Hlo : float_num lo.
Hypothesis Hhi : float_num hi.

Definition between (v : Float) : Prop := float_le lo v /\ float_le v hi.
#[global] Instance between_dec v : Decision (between v).
Proof. unfold between. apply _. Defined.

Lemma filter_none (l : list Float) : (forall v, v ∈ l -> ~ between v) -> filter between l = [].
Proof.
  intros Hl. induction l as [|v l IH]; [done|]. rewrite filter_cons_False by (apply Hl; by left).
  apply IH. intros w Hw. apply Hl. by right.
Qed.

Lemma sorted_split l i x :
  StronglySorted float_le l -> Forall float_num l -> l !! i = Some x ->
  (forall y, y ∈ take i l -> float_le y x) /\ (forall y, y ∈ drop i l -> float_le x y).
Proof.
  intros Hs Hn Hi. rewrite <- (take_drop_middle l i x) in Hs by done.
  assert (float_num x) as Hx by (eapply Forall_lookup_1; done). split.
  - intros y Hy. eapply StronglySorted_app_1_elem_of; [exact Hs|done|by left].
  - intros y Hy. apply drop_S in Hi as Hd. rewrite Hd in Hy.
    apply elem_of_cons in Hy as [->|Hy]; [by apply float_le_refl|].
    apply StronglySorted_app_1_r, StronglySorted_inv in Hs as [_ Hf].
    rewrite Forall_forall in Hf. by apply Hf.
Qed.

(** An element of a sorted list is inside an interval that holds enough others. *)
Lemma rank_between l i x :
  StronglySorted float_le l -> Forall float_num l -> l !! i = Some x ->
  (length l - length (filter between l) <= i)%nat ->
  (i < length (filter between l))%nat -> between x.
Proof.
  intros Hs Hn Hi Hlow Hup. destruct (sorted_split l i x Hs Hn Hi) as [Hb Ha].
  assert (float_num x) as Hx by (eapply Forall_lookup_1; done).
  pose proof (lookup_lt_Some _ _ _ Hi) as Hlt.
  assert (forall k, length (filter between l) =
    (length (filter between (take k l)) + length (filter between (drop k l)))%nat) as Hsplit.
  { intros k. rewrite <- (take_drop k l) at 1. by rewrite filter_app, length_app. }
  rewrite Forall_forall in Hn. split.
  - destruct (decide (float_le lo x)) as [|Hne]; [done|exfalso].
    specialize (Hsplit (S i)). rewrite (filter_none (take (S i) l)) in Hsplit.
    + pose proof (length_filter between (drop (S i) l)) as Hd. rewrite length_drop in Hd.
      simpl in Hsplit. lia.
    + intros y Hy [Hy1 _]. apply Hne. apply (float_le_trans lo y x); try done.
      * apply Hn. eapply subseteq_take; eauto.
      * rewrite (take_S_r _ _ x) in Hy by done. apply elem_of_app in Hy as [Hy|Hy]; [by apply Hb|].
        apply list_elem_of_singleton in Hy as ->. by apply float_le_refl.
  - destruct (decide (float_le x hi)) as [|Hne]; [done|exfalso].
    specialize (Hsplit i). rewrite (filter_none (drop i l)) in Hsplit.
    + pose proof (length_filter between (take i l)) as Hd. rewrite length_take in Hd.
      simpl in Hsplit. lia.
    + intros y Hy [_ Hy2]. apply Hne. apply (float_le_trans x y hi); try done.
      * apply Hn. eapply subseteq_drop; eauto.
      * by apply Ha.
Qed.
End ranks.

Section agg.
Context `{AddressCodec, DecLib, OracleAccounts, FloatText, !FloatTextLaws, SortSlice, !SortSliceLaws}.

Lemma set_raw_num d v : set_raw d = Ok v -> float_num v.
Proof.
  unfold set_raw, float_set_string, float_num.
  destruct (float_parse (sd_RawData d)) as [w|] eqn:Hw; simpl; [|done].
  intros [= <-]. by eapply float_parse_number.
Qed.

Lemma set_raw_no_panic d : is_panic (set_raw d) = false.
Proof. unfold set_raw. by case_match. Qed.

Lemma parse_all_num l vs : parse_all l = Ok vs -> Forall float_num vs /\ length vs = length l.
Proof.
  revert vs. induction l as [|d l IH]; intros vs Hp; simpl in Hp; [by simplify_eq|].
  apply rbind_ok in Hp as (v & Hv%set_raw_num & Hp). apply rbind_ok in Hp as (vs' & Hvs & Hp).
  apply IH in Hvs as [Hf Hl]. simplify_eq/=. split; [by constructor|lia].
Qed.

(** * Least and greatest *)

(** A loop that keeps the better of the value it holds and the next one ends
    with the best of them all. *)
Lemma extremal_loop (R : Float -> Float -> Prop) pick loop :
  (forall x, float_num x -> R x x) ->
  (forall x y z, float_num x -> float_num y -> float_num z -> R x y -> R y z -> R x z) ->
  (forall v m, float_num v -> float_num m -> pick v m = v /\ R v m \/ pick v m = m /\ R m v) ->
  (forall m, loop m [] = Ok m) ->
  (forall m d l, loop m (d :: l) = rbind (set_raw d) (fun v => loop (pick v m) l)) ->
  forall l m r, float_num m -> loop m l = Ok r ->
  exists vs, parse_all l = Ok vs /\ r ∈ m :: vs /\ Forall (R r) (m :: vs).
Proof.
  intros Hrefl Htrans Hpick Hnil Hcons l. induction l as [|d l IH]; intros m r Hm Hr.
  - rewrite Hnil in Hr. injection Hr as <-. exists []. split_and!; [done|by left|by repeat constructor; apply Hrefl].
  - rewrite Hcons in Hr. apply rbind_ok in Hr as (v & Hv & Hr).
    pose proof (set_raw_num _ _ Hv) as Hnv. pose proof (Hpick v m Hnv Hm) as Hp.
    assert (float_num (pick v m)) as Hn' by by destruct Hp as [[-> _]|[-> _]].
    apply IH in Hr as (vs & Hps & Hin & Hf); [|done]. exists (v :: vs). simpl. rewrite Hv, Hps. simpl.
    pose proof (parse_all_num _ _ Hps) as [Hnv' _]. rewrite Forall_forall in Hnv'. split; [done|].
    assert (float_num r) as Hnr by (apply elem_of_cons in Hin as [->|Hin]; auto).
    rewrite !Forall_cons in *. destruct Hf as [Hrm Hf].
    destruct Hp as [[Hme Hle]|[Hme Hle]]; rewrite Hme in *; split_and!; try done; try set_solver;
      by eapply Htrans; [..|exact Hrm|exact Hle].
Qed.

Lemma float_pick v m :
  float_num v -> float_num m -> float_cmp v m < 0 /\ float_le v m \/ 0 <= float_cmp v m /\ float_le m v.
Proof.
  intros Hv Hm. unfold float_le. pose proof (float_cmp_anti v m Hv Hm). lia.
Qed.

Lemma min_loop_spec l m r :
  float_num m -> min_loop m l = Ok r ->
  exists vs, parse_all l = Ok vs /\ r ∈ m :: vs /\ Forall (float_le r) (m :: vs).
Proof.
  apply (extremal_loop float_le (fun v m => if float_cmp v m <? 0 then v else m));
    eauto using float_le_refl, float_le_trans.
  intros v m' Hv Hm. destruct (float_pick v m' Hv Hm), (Z.ltb_spec (float_cmp v m') 0); tauto || lia.
Qed.

Lemma max_loop_spec l m r :
  float_num m -> max_loop m l = Ok r ->
  exists vs, parse_all l = Ok vs /\ r ∈ m :: vs /\ Forall (fun v => float_le v r) (m :: vs).
Proof.
  apply (extremal_loop (fun a b => float_le b a) (fun v m => if 0 <? float_cmp v m then v else m));
    eauto using float_le_refl, float_le_trans.
  intros v m' Hv Hm. pose proof (float_cmp_anti v m' Hv Hm).
  destruct (float_pick m' v Hm Hv), (Z.ltb_spec 0 (float_cmp v m')); tauto || lia.
Qed.

(** * No panic on finite values *)

Definition finite_data (d : SubmitDataSet) : Prop :=
  match float_parse (sd_RawData d) with
  | Some (S754_infinity _) => False
  | _ => True
  end.

Lemma set_raw_finite d v : finite_data d -> set_raw d = Ok v -> float_finite v.
Proof.
  unfold finite_data, set_raw, float_set_string, float_finite.
  destruct (float_parse (sd_RawData d)) as [w|] eqn:Hw; simpl; [|done]. intros Hf [= <-]. simpl.
  destruct w; try done. by apply float_parse_number in Hw.
Qed.

Lemma finite_num x : float_finite x -> float_num x.
Proof. unfold float_finite, float_num. by destruct (f_val x). Qed.

Lemma float_add_finite x y :
  float_num x -> float_finite y -> exists z, float_add x y = Ok z /\ float_num z.
Proof.
  intros Hx Hy. destruct (float_add x y) as [z|e|m] eqn:Hz.
  - exists z. split; [done|]. unfold float_add, float_res in Hz. case_match; simplify_eq; done.
  - unfold float_add, float_res in Hz. by case_match.
  - pose proof (proj1 (float_add_panics x y Hx (finite_num _ Hy))) as Hp. rewrite Hz in Hp.
    destruct Hp as (sx & _ & Hi); [done|]. unfold float_finite in Hy. by rewrite Hi in Hy.
Qed.

Lemma sum_loop_no_panic l m :
  float_num m -> Forall finite_data l -> is_panic (sum_loop m l) = false /\
  (forall r, sum_loop m l = Ok r -> float_num r).
Proof.
  intros Hm Hl. revert m Hm. induction Hl as [|d l Hd Hl IH]; intros m Hm; simpl.
  - split; [done|]. by intros r [= <-].
  - pose proof (set_raw_no_panic d). destruct (set_raw d) as [v| |] eqn:Hv; simpl; try done.
    apply set_raw_finite in Hv; [|done]. destruct (float_add_finite m v Hm Hv) as (z & -> & Hz).
    simpl. by apply IH.
Qed.

Lemma parse_all_no_panic l : is_panic (parse_all l) = false.
Proof.
  induction l as [|d l IH]; simpl; [done|]. pose proof (set_raw_no_panic d).
  destruct (set_raw d); simpl; try done. by destruct (parse_all l).
Qed.

Lemma parse_all_finite l vs : Forall finite_data l -> parse_all l = Ok vs -> Forall float_finite vs.
Proof.
  intros Hl. revert vs. induction Hl as [|d l Hd Hl IH]; intros vs Hp; simpl in Hp; [by simplify_eq|].
  apply rbind_ok in Hp as (v & Hv%set_raw_finite & Hp); [|done].
  apply rbind_ok in Hp as (vs' & Hvs & Hp). simplify_eq. constructor; auto.
Qed.
End agg.

(** A small integer is a finite float other than zero, so dividing by it gives
    a number. *)
Lemma digits2_iter m k : Z.pos (digits2_pos (Pos.iter xO m k)) = Z.pos (digits2_pos m) + Z.pos k.
Proof.
  revert m. induction k using Pos.peano_ind; intros m.
  - simpl. lia.
  - rewrite Pos.iter_succ. simpl. rewrite Pos2Z.inj_succ, IHk. lia.
Qed.

Lemma digits2_bound p k : Z.pos p < 2 ^ k -> 0 <= k -> Z.pos (digits2_pos p) <= k.
Proof.
  revert k. induction p as [p IH|p IH|]; intros k Hp Hk; simpl.
  1,2: assert (0 < k) by (destruct (decide (k = 0)) as [->|]; simpl in *; lia);
       replace k with (Z.succ (k - 1)) in Hp by lia; rewrite Z.pow_succ_r in Hp by lia;
       specialize (IH (k - 1)); lia.
  destruct (decide (k = 0)) as [->|]; simpl in *; lia.
Qed.

Lemma set_int64_finite n :
  0 < n < 2 ^ 63 -> exists m e, f_val (float_set_int64 n) = S754_finite false m e.
Proof.
  intros Hn. destruct n as [|p|p]; try lia. unfold float_set_int64, f_val.
  pose proof (digits2_bound p 63 ltac:(lia) ltac:(lia)) as Hd.
  cbn [binary_normalize]. unfold binary_round, fexp, emin.
  set (d := Z.pos (digits2_pos p)) in *. assert (0 < d) by done.
  assert (Z.max (d + 0 - float_prec) (3 - float_emax - float_prec) = d - 64) as ->
    by (unfold float_prec, float_emax; lia).
  unfold shl_align. destruct (d - 64 - 0) as [|k|k] eqn:Hk; [lia|lia|].
  assert (Zdigits2 (Z.pos (Pos.iter xO p k)) = 64) as Hm.
  { unfold Zdigits2. rewrite digits2_iter. fold d. lia. }
  unfold binary_round_aux, shr_fexp, fexp, emin. rewrite Hm.
  assert (Z.max (64 + (d - 64) - float_prec) (3 - float_emax - float_prec) - (d - 64) = 0) as ->
    by (unfold float_prec, float_emax; lia).
  cbn [shr shr_record_of_loc shr_m loc_of_shr_record round_nearest_even fst snd]. rewrite Hm.
  assert (Z.max (64 + (d - 64) - float_prec) (3 - float_emax - float_prec) - (d - 64) = 0) as ->
    by (unfold float_prec, float_emax; lia).
  cbn [shr shr_record_of_loc shr_m].
  rewrite (proj2 (Z.leb_le _ _)) by (unfold float_prec, float_emax; lia). eauto.
Qed.

Lemma float_quo_ok x n :
  float_num x -> 0 < n < 2 ^ 63 -> exists r, float_quo x (float_set_int64 n) = Ok r.
Proof.
  intros Hx Hn. destruct (set_int64_finite n Hn) as (m & e & Hy).
  unfold float_quo, float_res, float_num in *. rewrite Hy.
  destruct (f_val x) as [sx|sx| |sx mx ex]; cbn [SFdiv]; eauto; try done.
  destruct (SFdiv_core_binary float_prec float_emax (Z.pos mx) ex (Z.pos m) e) as [[q e'] l] eqn:Hq.
  assert (0 <= q) as Hq0.
  { unfold SFdiv_core_binary in Hq.
    match type of Hq with context [IntDef.Z.div_eucl ?a ?b] =>
      assert (0 <= a) as Ha by (clear Hq; case_match; [lia|apply Z.shiftl_nonneg; lia|lia]);
      pose proof (Z.div_pos a b Ha) as Hdiv; unfold Z.div in Hdiv;
      change (IntDef.Z.div_eucl a b) with (Z.div_eucl a b) in Hq; destruct (Z.div_eucl a b)
    end. simplify_eq. lia. }
  pose proof (binary_round_aux_num float_prec float_emax (xorb sx false) q e' l Hq0).
  destruct (binary_round_aux _ _ _ _ _ _); eauto; done.
Qed.

Section no_panic.
Context `{AddressCodec, DecLib, OracleAccounts, FloatText, !FloatTextLaws, SortSlice, !SortSliceLaws}.

Lemma at_index_ok vs i : (i < length vs)%nat -> exists v, at_index vs i = Ok v /\ v ∈ vs.
Proof.
  intros Hi. unfold at_index. destruct (lookup_lt_is_Some_2 vs i Hi) as [v Hv]. rewrite Hv.
  exists v. split; [done|]. by eapply list_elem_of_lookup_2.
Qed.

Lemma calculateMedian_no_panic s l :
  Forall finite_data l -> is_panic (calculateMedian s l) = false.
Proof.
  intros Hl. unfold calculateMedian. destruct (zlen l =? 0) eqn:Hz; [done|].
  destruct (_ <? _); [done|]. pose proof (parse_all_no_panic l).
  destruct (parse_all l) as [vs| |] eqn:Hp; cbn [rbind]; try done.
  pose proof (parse_all_num _ _ Hp) as [Hn Hlen]. apply parse_all_finite in Hp; [|done].
  pose proof (sort_slice_perm vs) as Hperm. pose proof (Permutation_length Hperm) as Hlp.
  apply zlen_0 in Hz. assert (0 < length (sort_slice vs))%nat as Hpos.
  { destruct l; [done|]. simpl in Hlen. lia. }
  rewrite <- Hperm in Hp. clear Hperm Hlp. set (sv := sort_slice vs) in *.
  assert (Nat.div (length sv) 2 < length sv)%nat as Hmid by (apply Nat.div_lt; lia).
  destruct (Nat.even (length sv)).
  - destruct (at_index_ok sv (Nat.div (length sv) 2 - 1)) as (a & -> & Ha); [lia|].
    destruct (at_index_ok sv (Nat.div (length sv) 2) Hmid) as (b & -> & Hb). cbn [rbind].
    rewrite Forall_forall in Hp.
    destruct (float_add_finite a b (finite_num _ (Hp _ Ha)) (Hp _ Hb)) as (z & -> & Hnz). simpl.
    destruct (float_quo_ok z 2 Hnz) as (r & ->); [lia|done].
  - destruct (at_index_ok sv _ Hmid) as (a & -> & _). done.
Qed.

Lemma extremal_no_panic loop pick :
  (forall m, loop m [] = Ok m) ->
  (forall m d l, loop m (d :: l) = rbind (set_raw d) (fun v => loop (pick v m) l)) ->
  forall l m, is_panic (loop m l : res Float) = false.
Proof.
  intros Hnil Hcons l. induction l as [|d l IH]; intros m; [by rewrite Hnil|].
  rewrite Hcons. pose proof (set_raw_no_panic d). destruct (set_raw d); simpl; auto.
Qed.

Lemma AggregateData_no_panic s rule l :
  Forall finite_data l -> zlen l < 2 ^ 63 -> is_panic (AggregateData s rule l) = false.
Proof.
  intros Hl Hlen. unfold AggregateData. repeat case_match; try done.
  - unfold calculateAverage. destruct (zlen l =? 0) eqn:Hz; [done|].
    destruct (sum_loop_no_panic l float_new ltac:(done) Hl) as [Hs Hn].
    destruct (sum_loop float_new l) as [z| |]; simpl; try done.
    destruct (float_quo_ok z (zlen l) (Hn _ eq_refl)) as (r & ->); [|done].
    zbool. unfold zlen in *. lia.
  - unfold calculateMin. case_match; [done|].
    pose proof (extremal_no_panic min_loop (fun v m => if float_cmp v m <? 0 then v else m)
      (fun _ => eq_refl) (fun _ _ _ => eq_refl) l float_max_float64).
    by destruct (min_loop _ l).
  - unfold calculateMax. case_match; [done|].
    pose proof (extremal_no_panic max_loop (fun v m => if 0 <? float_cmp v m then v else m)
      (fun _ => eq_refl) (fun _ _ _ => eq_refl) l float_new).
    by destruct (max_loop _ l).
  - by apply calculateMedian_no_panic.
Qed.
End no_panic.

Section run.
Context `{AddressCodec, DecLib, OracleAccounts, FloatText, SortSlice}.
Variable W : Type.
Variable hooks : option (list (OracleHooks W)).

(** The value a document would be given in this block; [None] when it is left
    alone. *)
Definition doc_result (s : or_state) (doc : OracleRequestDoc) : option string :=
  if negb (d_Status doc =? REQUEST_STATUS_ENABLED) then None
  else
    let submitDatas := GetSubmitDatas s (d_RequestId doc) (wrap64 (d_Nonce doc + 1)) in
    if wrap32 (zlen submitDatas) <? d_Quorum doc then None
    else match AggregateData s (d_AggregationRule doc) submitDatas with
         | Ok v => Some v
         | _ => None
         end.

Definition next_doc (s : or_state) (doc : OracleRequestDoc) : OracleRequestDoc :=
  match doc_result s doc with
  | Some _ => with_nonce doc (wrap64 (d_Nonce doc + 1))
  | None => doc
  end.
Definition result_set (ctx : Ctx) (doc : OracleRequestDoc) (v : string) : DataSet :=
  mkDataSet (d_RequestId doc) (wrap64 (d_Nonce doc + 1)) (wrap64 (BlockHeight ctx))
    (wrap64 (BlockTime ctx)) v.

(** What the loop reads of the oracle's state and does not write. *)
Definition same_inputs (s s' : or_state) : Prop :=
  or_params s' = or_params s /\ or_moderator s' = or_moderator s /\ or_count s' = or_count s /\
  or_submits s' = or_submits s.

Lemma doc_result_same s s' doc : same_inputs s s' -> doc_result s' doc = doc_result s doc.
Proof.
  intros (Hp & _ & _ & Hs). unfold doc_result, GetSubmitDatas, AggregateData, calculateMedian, GetParams.
  by rewrite Hp, Hs.
Qed.

Lemma process_doc_spec ctx doc s w u s' w' :
  process_doc W hooks ctx doc (s, w) = (Ok u, (s', w')) ->
  same_inputs s s' /\
  match doc_result s doc with
  | None => s' = s /\ w' = w
  | Some v =>
      or_docs s' = <[GetOracleRequestDocKey (d_RequestId doc) := next_doc s doc]> (or_docs s) /\
      or_datasets s' =
        <[GetDataSetKey (d_RequestId doc) (wrap64 (d_Nonce doc + 1)) := result_set ctx doc v]>
          (or_datasets s) /\
      (if d_OracleType doc =? ORACLE_TYPE_MIN_GAS_PRICE
       then (AfterOracleEnd W hooks (result_set ctx doc v) w) = (Ok tt, w') else w' = w)
  end.
Proof.
  unfold process_doc, next_doc, doc_result. intros Hr.
  destruct (negb _); [by run_inv|].
  apply bind_ok in Hr as (ds & s1 & Hds & Hr). unfold on_oracle, zoom, gets in Hds. simplify_eq/=.
  destruct (_ <? _); [by run_inv|]. apply bind_ok in Hr as (agg & s1 & Ha & Hr).
  unfold try, on_oracle, zoom in Ha. simpl in Ha.
  destruct (AggregateData s (d_AggregationRule doc) _) as [v| |] eqn:Hagg; simplify_eq/=; [|by run_inv].
  apply bind_ok in Hr as (? & s2 & Hset & Hr). unfold on_oracle, zoom, SetDataSet, modify in Hset. simplify_eq/=.
  apply bind_ok in Hr as ([] & s3 & Hh & Hr).
  apply bind_ok in Hr as (? & s4 & Hd & Hr). unfold on_oracle, zoom, SetOracleRequestDoc, modify in Hd.
  unfold on_oracle, zoom, emit, modify in Hr. simplify_eq/=.
  assert (s3 = (OR (or_params s) (or_moderator s) (or_count s) (or_docs s) (or_submits s)
    (<[GetDataSetKey (d_RequestId doc) (wrap64 (d_Nonce doc + 1)) := result_set ctx doc v]>
       (or_datasets s)) (or_events s), s3.2) /\
    (if d_OracleType doc =? ORACLE_TYPE_MIN_GAS_PRICE
     then AfterOracleEnd W hooks (result_set ctx doc v) w = (Ok tt, s3.2) else s3.2 = w)) as [-> Hw].
  { destruct (_ =? _).
    - unfold on_hooks, zoom in Hh. simpl in Hh. unfold result_set.
      destruct (AfterOracleEnd _ _ _ _) as [r w1]. by simplify_eq/=.
    - unfold ret in Hh. by simplify_eq/=. }
  simpl. split; [done|]. split_and!; done.
Qed.

(** The step returns when the hooks do and no submitted value is infinite. *)
Lemma process_doc_returns `{!FloatTextLaws, !SortSliceLaws} ctx doc s w :
  (forall ds w, exists w', AfterOracleEnd W hooks ds w = (Ok tt, w')) ->
  Forall finite_data (GetSubmitDatas s (d_RequestId doc) (wrap64 (d_Nonce doc + 1))) ->
  zlen (GetSubmitDatas s (d_RequestId doc) (wrap64 (d_Nonce doc + 1))) < 2 ^ 63 ->
  exists s' w', process_doc W hooks ctx doc (s, w) = (Ok tt, (s', w')).
Proof.
  intros Hhk Hf Hl. unfold process_doc. destruct (negb _); [by repeat eexists|].
  rewrite (bind_run _ _ (s, w) (GetSubmitDatas s (d_RequestId doc) (wrap64 (d_Nonce doc + 1))) (s, w))
    by done.
  set (ds := GetSubmitDatas _ _ _) in *. destruct (_ <? _); [by repeat eexists|].
  pose proof (AggregateData_no_panic s (d_AggregationRule doc) ds Hf Hl) as Hnp.
  unfold bind at 1. unfold try, on_oracle at 1, zoom. simpl.
  destruct (AggregateData s (d_AggregationRule doc) ds) as [v| |]; simpl; [|by repeat eexists|done].
  unfold bind, on_oracle, on_hooks, zoom, SetDataSet, SetOracleRequestDoc, emit, modify. simpl.
  destruct (_ =? _); [|by repeat eexists]. simpl.
  destruct (Hhk (mkDataSet (d_RequestId doc) (wrap64 (d_Nonce doc + 1)) (wrap64 (BlockHeight ctx))
    (wrap64 (BlockTime ctx)) v) w) as [w' ->]. by repeat eexists.
Qed.

(** ** The loop *)

Definition dataset_after (ctx : Ctx) (s : or_state) (d : OracleRequestDoc) (n : Z) : option DataSet :=
  match doc_result s d with
  | Some v => Some (result_set ctx d v)
  | None => or_datasets s !! GetDataSetKey (d_RequestId d) n
  end.

Lemma process_doc_frame ctx d s w u s' w' :
  process_doc W hooks ctx d (s, w) = (Ok u, (s', w')) ->
  same_inputs s s' /\
  (forall k, k <> GetOracleRequestDocKey (d_RequestId d) -> or_docs s' !! k = or_docs s !! k) /\
  (forall k, k <> GetDataSetKey (d_RequestId d) 0 -> or_datasets s' !! k = or_datasets s !! k) /\
  (or_docs s !! GetOracleRequestDocKey (d_RequestId d) = Some d ->
   or_docs s' !! GetOracleRequestDocKey (d_RequestId d) = Some (next_doc s d)) /\
  or_datasets s' !! GetDataSetKey (d_RequestId d) 0 = dataset_after ctx s d 0.
Proof.
  intros [Hin Hd]%process_doc_spec. split; [done|]. unfold next_doc, dataset_after in *.
  destruct (doc_result s d) as [v|].
  - destruct Hd as (-> & -> & _). split_and!.
    + intros k Hk. by rewrite lookup_insert_ne.
    + intros k Hk. by rewrite lookup_insert_ne.
    + intros _. by rewrite lookup_insert_eq.
    + by rewrite lookup_insert_eq.
  - by destruct Hd as [-> _].
Qed.

Lemma same_inputs_trans s1 s2 s3 : same_inputs s1 s2 -> same_inputs s2 s3 -> same_inputs s1 s3.
Proof. intros (? & ? & ? & ?) (? & ? & ? & ?). unfold same_inputs. split_and!; congruence. Qed.

Lemma process_loop ctx l s w u s' w' :
  NoDup ((fun d => GetOracleRequestDocKey (d_RequestId d)) <$> l) ->
  Forall (fun d => uint64 (d_RequestId d)) l ->
  each (process_doc W hooks ctx) l (s, w) = (Ok u, (s', w')) ->
  same_inputs s s' /\
  (forall d, d ∈ l -> or_docs s !! GetOracleRequestDocKey (d_RequestId d) = Some d ->
     or_docs s' !! GetOracleRequestDocKey (d_RequestId d) = Some (next_doc s d) /\
     forall n, or_datasets s' !! GetDataSetKey (d_RequestId d) n = dataset_after ctx s d n) /\
  (forall k, (forall d, d ∈ l -> k <> GetOracleRequestDocKey (d_RequestId d)) ->
     or_docs s' !! k = or_docs s !! k) /\
  (forall k, (forall d, d ∈ l -> k <> GetDataSetKey (d_RequestId d) 0) ->
     or_datasets s' !! k = or_datasets s !! k).
Proof.
  revert s w. induction l as [|d l IH]; intros s w Hnd Hids Hr; simpl in Hr.
  - run_inv. split_and!; try done; set_solver.
  - apply bind_ok in Hr as (? & [s1 w1] & Hd & Hr). apply NoDup_cons in Hnd as [Hn Hnd].
    apply Forall_cons in Hids as [Hid Hids]. apply process_doc_frame in Hd as (Hin & Hd1 & Hs1 & Hdd & Hds).
    apply IH in Hr as (Hin' & Hdocs & Hk & Hks); [|done..].
    assert (forall d', d' ∈ l -> GetOracleRequestDocKey (d_RequestId d') <> GetOracleRequestDocKey (d_RequestId d)
      /\ GetDataSetKey (d_RequestId d') 0 <> GetDataSetKey (d_RequestId d) 0) as Hkne.
    { intros d' Hd'. rewrite Forall_forall in Hids.
      assert (d_RequestId d' <> d_RequestId d) as Hne.
      { intros Heq. apply Hn, list_elem_of_fmap. exists d'. by rewrite Heq. }
      split; intros Heq; apply Hne;
        [apply doc_key_inj in Heq|apply dataset_key_inj in Heq]; auto; by apply Hids. }
    split; [by eapply same_inputs_trans|]. split; [|split].
    + intros d' Hd' Hs. apply elem_of_cons in Hd' as [->|Hd'].
      * rewrite Hk by (intros d' Hd'; symmetry; by apply Hkne). split; [by apply Hdd|].
        intros n. change (GetDataSetKey (d_RequestId d) n) with (GetDataSetKey (d_RequestId d) 0).
        by rewrite Hks by (intros d' Hd'; symmetry; by apply Hkne).
      * destruct (Hdocs d' Hd') as [Hx Hy]; [by rewrite Hd1 by by apply Hkne|].
        unfold next_doc, dataset_after in *. rewrite (doc_result_same s s1) in Hx, Hy by done.
        split; [done|]. intros n. rewrite Hy, (Hs1 (GetDataSetKey (d_RequestId d') n)) by by apply Hkne. done.
    + intros k Hkk. rewrite Hk by (intros d' Hd'; apply Hkk; by right). apply Hd1, Hkk. by left.
    + intros k Hkk. rewrite Hks by (intros d' Hd'; apply Hkk; by right). apply Hs1, Hkk. by left.
Qed.

Lemma process_loop_returns `{!FloatTextLaws, !SortSliceLaws} ctx l s w :
  (forall ds w, exists w', AfterOracleEnd W hooks ds w = (Ok tt, w')) ->
  map_Forall (fun _ => finite_data) (or_submits s) ->
  (forall id n, zlen (GetSubmitDatas s id n) < 2 ^ 63) ->
  exists s' w', each (process_doc W hooks ctx) l (s, w) = (Ok tt, (s', w')).
Proof.
  intros Hhk. revert s w. induction l as [|d l IH]; intros s w Hf Hl; [by repeat eexists|]. simpl.
  destruct (process_doc_returns ctx d s w Hhk) as (s1 & w1 & Hd); [|by apply Hl|].
  { apply Forall_forall. intros x Hx. unfold GetSubmitDatas in Hx.
    apply list_elem_of_fmap in Hx as ([k x'] & -> & [Hk _]%elem_of_iterate). by eapply Hf. }
  rewrite (bind_run _ _ _ _ _ Hd). apply process_doc_spec in Hd as [(_ & _ & _ & Hs) _].
  apply IH; unfold GetSubmitDatas; by rewrite Hs.
Qed.
End run.
