(* ===== verification/OracleThms.v ===== *)
(** Theorems about x/oracle: which submissions are accepted, what the signed
    bytes determine, what each aggregation rule returns, what a block does to
    the documents, the invariant of the store, genesis. *)
From Stdlib Require Import SpecFloat.
From S2P Require Import Prelude KVStore Sdk BigFloat BankModel Oracle OracleInv.

Section lemmas.
Context `{AddressCodec, DecLib, OracleAccounts, FloatText, SortSlice}.

Lemma checkAccountAuthorized_spec l a : checkAccountAuthorized l a = true <-> a ∈ l.
Proof.
  induction l as [|x l IH]; simpl; [split; [done|by intros ?%elem_of_nil]|].
  rewrite elem_of_cons, <- IH. case_bool_decide; naive_solver.
Qed.

Lemma wrap_err_ok k {A} (r : res A) a : wrap_err k r = Ok a <-> r = Ok a.
Proof. by destruct r. Qed.

Lemma validateSubmitData_ok d :
  validateSubmitData d = Ok tt <->
  sd_RequestId d <> 0 /\ sd_Nonce d <> 0 /\ sd_Provider d <> EmptyString /\ sd_RawData d <> EmptyString.
Proof.
  unfold validateSubmitData. destruct (Z.eqb_spec (sd_RequestId d) 0); [naive_solver|].
  destruct (Z.eqb_spec (sd_Nonce d) 0); [naive_solver|].
  repeat case_bool_decide; naive_solver.
Qed.

(** The provider signed the data set: its account has a key that verifies, over the
    bytes of the data, the signature of 65 bytes whose last byte, the recovery id, is 0
    or 1, also written as 27 or 28; [sig] is the signature with the id as 0 or 1. *)
Definition signed_by_provider (d : SubmitDataSet) (sig : bytes) : Prop :=
  exists signBytes acc pubKey v, Bytes d = Ok signBytes /\ acc_of_bech32 (sd_Provider d) = Some acc /\
    GetAccount acc = Some (Some pubKey) /\ length (sd_Signature d) = 65%nat /\
    sd_Signature d !! 64%nat = Some v /\ v ∈ [0; 1; 27; 28] /\ sig = <[64%nat := v mod 27]> (sd_Signature d) /\
    VerifySignature pubKey signBytes sig = true.
Definition with_signature (d : SubmitDataSet) (sig : bytes) : SubmitDataSet :=
  mkSubmit (sd_RequestId d) (sd_Nonce d) (sd_RawData d) (sd_Provider d) sig.

Lemma recovery_id v : let v' := if 27 <=? v then v - 27 else v in
  negb (v' =? 0) && negb (v' =? 1) = false <-> v ∈ [0; 1; 27; 28] /\ v' = v mod 27.
Proof.
  cbv zeta. rewrite !elem_of_cons. split.
  - intros Hv. destruct (Z.leb_spec 27 v); rewrite andb_false_iff, !negb_false_iff, !Z.eqb_eq in Hv;
      (assert (v = 0 \/ v = 1 \/ v = 27 \/ v = 28) as Hc by lia); (split; [tauto|]); destruct Hc as [->|[->|[->| ->]]]; (reflexivity || lia).
  - intros [[->|[->|[->|[->|[]%elem_of_nil]]]] _]; reflexivity.
Qed.
Lemma verifySubmitData_spec d d' :
  verifySubmitData d = Ok d' <-> exists sig, signed_by_provider d sig /\ d' = with_signature d sig.
Proof.
  unfold verifySubmitData, signed_by_provider, with_signature. split.
  - intros Hv. apply rbind_ok in Hv as (sb & Hsb%wrap_err_ok & Hv).
    destruct (negb (Nat.eqb _ _)) eqn:Hl; [done|]. apply negb_false_iff, Nat.eqb_eq in Hl.
    destruct (lookup_lt_is_Some_2 (sd_Signature d) 64) as [v Hlv]; [lia|]. rewrite Hlv in Hv.
    destruct (_ && _) eqn:Hid; [done|]. apply recovery_id in Hid as [Hin Hmod]. rewrite Hmod in Hv.
    destruct (acc_of_bech32 (sd_Provider d)) as [acc|]; [|done].
    destruct (GetAccount acc) as [[pk|]|] eqn:Hpk; [|done..].
    destruct (negb (VerifySignature _ _ _)) eqn:Hvs; [done|]. apply negb_false_iff in Hvs. injection Hv as <-.
    eexists. split; [|reflexivity]. exists sb, acc, pk, v. done.
  - intros (sig & (sb & acc & pk & v & -> & -> & Hpk & -> & Hlv & Hin & -> & Hvs) & ->). cbn [wrap_err rbind Nat.eqb negb].
    rewrite Hlv. pose proof (recovery_id v) as Hid. cbv zeta in Hid.
    assert ((if 27 <=? v then v - 27 else v) = v mod 27) as Hm
      by (rewrite !elem_of_cons in Hin; by destruct Hin as [->|[->|[->|[->|[]%elem_of_nil]]]]).
    rewrite (proj2 Hid (conj Hin Hm)), Hm, Hpk, Hvs. done.
Qed.

(** The state after a submission has been stored. *)
Definition submitted (msg : MsgSubmitOracleData) (data data' : SubmitDataSet) (s : or_state) : or_state :=
  OR (or_params s) (or_moderator s) (or_count s) (or_docs s)
    (<[GetSubmitDataKeyByProvider (sd_RequestId data) (sd_Nonce data) (sd_Provider data) := data']>
       (or_submits s)) (or_datasets s)
    (or_events s ++ [Event "submit_oracle_data"
       [("request_id", AInt (sd_RequestId data)); ("nonce", AInt (sd_Nonce data));
        ("raw_data", AStr (sd_RawData data)); ("from_address", AStr (ms_Authority msg))]]).

Definition submit_guards (msg : MsgSubmitOracleData) (s : or_state) (data data' : SubmitDataSet) : Prop :=
  ms_DataSet msg = Some data /\
  (sd_RequestId data <> 0 /\ sd_Nonce data <> 0 /\ sd_Provider data <> EmptyString /\
   sd_RawData data <> EmptyString) /\
  exists doc, GetOracleRequestDoc s (sd_RequestId data) = Ok doc /\
    d_Status doc = REQUEST_STATUS_ENABLED /\ ms_Authority msg ∈ d_AccountList doc /\
    sd_Nonce data = wrap64 (d_Nonce doc + 1) /\
    exists sig, signed_by_provider data sig /\ data' = with_signature data sig.

Lemma submit_run msg s data data' :
  submit_guards msg s data data' -> SubmitOracleData msg s = (Ok tt, submitted msg data data' s).
Proof.
  intros (Hd & Hv%validateSubmitData_ok & doc & Hg & Hst & Ha%checkAccountAuthorized_spec & Hn & Hver%verifySubmitData_spec).
  unfold SubmitOracleData. rewrite Hd, Hv, (bind_run _ _ s tt s), bind_gets, Hg, Hst, Ha by done.
  rewrite (proj2 (Z.eqb_eq _ _) Hn), Z.eqb_refl. cbn [negb]. rewrite Hver, (bind_run _ _ s data' s) by done.
  apply verifySubmitData_spec in Hver as (sig & _ & ->).
  unfold bind, SetSubmitData, emit, modify, submitted. done.
Qed.

Lemma submit_inv msg s r s' :
  SubmitOracleData msg s = (r, s') ->
  (r <> Ok tt /\ s' = s) \/
  exists data data', r = Ok tt /\ submit_guards msg s data data' /\ s' = submitted msg data data' s.
Proof.
  unfold SubmitOracleData. destruct (ms_DataSet msg) as [data|] eqn:Hd; [|by intros [= <- <-]; left].
  destruct (validateSubmitData data) as [[]| |] eqn:Hv; [|by intros [= <- <-]; left..].
  rewrite (bind_run _ _ s tt s), bind_gets by done.
  destruct (GetOracleRequestDoc s (sd_RequestId data)) as [doc| |] eqn:Hg; [|by intros [= <- <-]; left..].
  destruct (Z.eqb_spec (d_Status doc) REQUEST_STATUS_ENABLED) as [Hst|_]; [|by intros [= <- <-]; left].
  destruct (checkAccountAuthorized _ _) eqn:Ha; [|by intros [= <- <-]; left].
  destruct (Z.eqb_spec (sd_Nonce data) (wrap64 (d_Nonce doc + 1))) as [Hn|_]; [|by intros [= <- <-]; left].
  cbn [negb]. destruct (verifySubmitData data) as [data'| |] eqn:Hver; [|by intros [= <- <-]; left..].
  rewrite (bind_run _ _ s data' s) by done. intros Hr. right. exists data, data'.
  unfold bind, SetSubmitData, emit, modify in Hr. injection Hr as <- <-. split; [done|]. split.
  - split; [done|]. split; [by apply validateSubmitData_ok|]. exists doc.
    split_and!; try done; [by apply checkAccountAuthorized_spec|by apply verifySubmitData_spec].
  - apply verifySubmitData_spec in Hver as (sig & _ & ->). done.
Qed.
End lemmas.

(** * Theorems *)

Section theorems.
Context `{AddressCodec, DecLib, OracleAccounts, FloatText, SortSlice}.

(** C19.  An account submits its own data: the message is accepted exactly when the
    data set has an id, a nonce, a provider and a value, the document exists and is
    enabled, the account is on its list, the nonce is the next one of the document,
    and the key of the account signed the data with a signature of 65 bytes; the data
    set is then stored under document, nonce and provider and nothing else changes.
    A message that names another provider is not accepted without that provider's
    signature either, and the sender must be on the list.  Whatever is not accepted
    leaves the state as it was. *)
Theorem SubmitOracleData_accepts msg s :
  (forall data, ms_DataSet msg = Some data -> sd_Provider data = ms_Authority msg -> forall s',
     SubmitOracleData msg s = (Ok tt, s') <->
     exists data', submit_guards msg s data data' /\ s' = submitted msg data data' s) /\
  (forall s', SubmitOracleData msg s = (Ok tt, s') ->
     exists data data', submit_guards msg s data data' /\ s' = submitted msg data data' s) /\
  (forall r s', SubmitOracleData msg s = (r, s') -> r <> Ok tt -> s' = s).
Proof.
  split_and!.
  - intros data Hd _ s'. split.
    + intros [[? _]|(data1 & data' & _ & Hg & ->)]%submit_inv; [done|]. pose proof (proj1 Hg) as Hd'.
      rewrite Hd in Hd'. injection Hd' as <-. by exists data'.
    + intros (data' & Hg & ->). by apply submit_run.
  - intros s' [[? _]|(data & data' & _ & ?)]%submit_inv; [done|by exists data, data'].
  - intros r s' [[_ ?]|(data & data' & Hr & _)]%submit_inv Hne; done.
Qed.

(**  The bytes a provider signs determine the data set: two data sets with
    the same bytes have the same document, nonce, value and provider account. *)
Theorem Bytes_injective d1 d2 b :
  uint64 (sd_RequestId d1) -> uint64 (sd_RequestId d2) ->
  uint64 (sd_Nonce d1) -> uint64 (sd_Nonce d2) ->
  zlen (str_bytes (sd_RawData d1)) < 2 ^ 32 -> zlen (str_bytes (sd_RawData d2)) < 2 ^ 32 ->
  Bytes d1 = Ok b -> Bytes d2 = Ok b ->
  sd_RequestId d1 = sd_RequestId d2 /\ sd_Nonce d1 = sd_Nonce d2 /\
  sd_RawData d1 = sd_RawData d2 /\
  acc_of_bech32 (sd_Provider d1) = acc_of_bech32 (sd_Provider d2).
Proof.
  intros Hi1 Hi2 Hn1 Hn2 Hl1 Hl2. unfold Bytes.
  destruct (acc_of_bech32 (sd_Provider d1)) as [a1|]; [|done].
  destruct (acc_of_bech32 (sd_Provider d2)) as [a2|]; [|done].
  intros E1 E2. apply (f_equal (fun r => match r with Ok x => x | _ => [] end)) in E1, E2.
  rewrite <- E2 in E1. clear E2. rewrite <- !app_assoc in E1. apply app_inv_head in E1.
  apply be64_app_inj in E1 as [-> E]; [|done..]. apply be64_app_inj in E as [-> E]; [|done..].
  apply app_inj_1 in E as [El E]; [|unfold be32; by rewrite !be_length].
  rewrite !wrap32_small in El by (unfold zlen in *; lia).
  apply be_inj in El; [|change (256 ^ Z.of_nat 4) with (2 ^ 32); unfold zlen in *; lia..].
  apply app_inj_1 in E as [Er ->]; [|unfold zlen in El; lia].
  apply str_bytes_inj in Er as ->. done.
Qed.

(**  The submissions an aggregation reads are exactly those stored for the
    document and the nonce, each provider at most once. *)
Theorem GetSubmitDatas_exact s id nonce :
  oracle_wf s -> uint64 id -> 0 < nonce <= max_uint64 ->
  (forall d, d ∈ GetSubmitDatas s id nonce <->
     or_submits s !! GetSubmitDataKeyByProvider id nonce (sd_Provider d) = Some d /\
     sd_RequestId d = id /\ sd_Nonce d = nonce) /\
  NoDup (sd_Provider <$> GetSubmitDatas s id nonce).
Proof.
  intros Hs Hi Hn. split; [|by apply GetSubmitDatas_providers].
  intros d. by apply GetSubmitDatas_elem.
Qed.
End theorems.

Section aggregation.
Context `{AddressCodec, DecLib, OracleAccounts, FloatText, !FloatTextLaws, SortSlice, !SortSliceLaws}.

Lemma median_indices (n k : nat) :
  (2 * k > n)%nat -> (k <= n)%nat ->
  (n - k <= n / 2 /\ n / 2 < k)%nat /\
  (Nat.even n = true -> n - k <= n / 2 - 1 /\ n / 2 - 1 < k /\ 0 < n / 2)%nat.
Proof.
  intros Hk Hn. pose proof (Nat.div_mod n 2 ltac:(lia)) as Hd.
  pose proof (Nat.mod_upper_bound n 2 ltac:(lia)). split; [lia|].
  intros He%Nat.even_spec. destruct He as [m ->].
  rewrite (Nat.mul_comm 2 m), Nat.div_mul in * by lia. lia.
Qed.

(**  The median withstands a minority: when more than half of the submitted
    values lie between two bounds, the median is one of the submitted values
    between them, or for an even number the rounded mean of two of them. *)
Theorem calculateMedian_majority s ds t vs lo hi :
  float_num lo -> float_num hi ->
  parse_all ds = Ok vs -> (2 * length (filter (between lo hi) vs) > length vs)%nat ->
  calculateMedian s ds = Ok t ->
  exists a b, a ∈ vs /\ b ∈ vs /\ between lo hi a /\ between lo hi b /\
    if Nat.even (length ds)
    then exists sum mean, float_add a b = Ok sum /\
           float_quo sum (float_set_int64 2) = Ok mean /\ t = float_Text mean
    else t = float_Text b.
Proof.
  intros Hlo Hhi Hp Hmaj Ht. unfold calculateMedian in Ht.
  destruct (zlen ds =? 0); [done|]. destruct (_ <? _); [done|]. rewrite Hp in Ht. cbn [rbind] in Ht.
  pose proof (parse_all_num _ _ Hp) as [Hn Hlen].
  pose proof (sort_slice_perm vs) as Hperm. pose proof (sort_slice_sorted vs Hn) as Hs.
  pose proof (Permutation_length Hperm) as Hl. rewrite <- Hperm in Hmaj, Hn.
  setoid_rewrite <- Hperm. rewrite <- Hlen, <- Hl. set (sv := sort_slice vs) in *.
  pose proof (length_filter (between lo hi) sv) as Hle.
  destruct (median_indices _ _ Hmaj Hle) as [[Hm1 Hm2] Hev].
  assert (forall i v, at_index sv i = Ok v -> sv !! i = Some v) as Hat.
  { intros i v. unfold at_index. destruct (sv !! i); congruence. }
  destruct (Nat.even (length sv)).
  - destruct (Hev eq_refl) as (Hm3 & Hm4 & _).
    apply rbind_ok in Ht as (a & Ha%Hat & Ht). apply rbind_ok in Ht as (b & Hb%Hat & Ht).
    apply rbind_ok in Ht as (sum & Hsum & Ht). apply rbind_ok in Ht as (mean & Hmean & Ht).
    injection Ht as <-. exists a, b. split_and!; [by eapply list_elem_of_lookup_2..| | |by eauto].
    + by eapply rank_between.
    + by eapply rank_between.
  - apply rbind_ok in Ht as (b & Hb%Hat & Ht). injection Ht as <-. exists b, b.
    split_and!; [by eapply list_elem_of_lookup_2..| | |done]; by eapply rank_between.
Qed.

(**  The minimum is the least of the submitted values and the largest
    float64, the maximum the greatest of the submitted values and zero. *)
Theorem calculateMinMax_extremal ds t :
  (calculateMin ds = Ok t -> exists vs r, parse_all ds = Ok vs /\ t = float_Text r /\
     r ∈ float_max_float64 :: vs /\ Forall (float_le r) (float_max_float64 :: vs)) /\
  (calculateMax ds = Ok t -> exists vs r, parse_all ds = Ok vs /\ t = float_Text r /\
     r ∈ float_new :: vs /\ Forall (fun v => float_le v r) (float_new :: vs)).
Proof.
  split; unfold calculateMin, calculateMax; (destruct (zlen ds =? 0); [done|]); intros Ht;
    apply rbind_ok in Ht as (r & Hr & Ht); injection Ht as <-.
  - apply min_loop_spec in Hr as (vs & ? & ? & ?); [|done]. by exists vs, r.
  - apply max_loop_spec in Hr as (vs & ? & ? & ?); [|done]. by exists vs, r.
Qed.
End aggregation.

Section blocks.
Context `{AddressCodec, DecLib, OracleAccounts, FloatText, SortSlice}.
Variable W : Type.
Variable hooks : option (list (OracleHooks W)).

Lemma begin_block_docs ctx s w u s' w' :
  oracle_wf s -> BeginBlocker W hooks ctx (s, w) = (Ok u, (s', w')) ->
  same_inputs s s' /\
  (forall k, or_docs s' !! k =
     (fun d => if EnableOracle (GetParams s) then next_doc s d else d) <$> or_docs s !! k) /\
  (forall d, or_docs s !! GetOracleRequestDocKey (d_RequestId d) = Some d ->
     forall n, or_datasets s' !! GetDataSetKey (d_RequestId d) n =
       if EnableOracle (GetParams s) then dataset_after ctx s d n
       else or_datasets s !! GetDataSetKey (d_RequestId d) n).
Proof.
  intros Hs Hr. unfold BeginBlocker in Hr. apply bind_ok in Hr as (p & s1 & Hp & Hr).
  unfold on_oracle, zoom, gets in Hp. simplify_eq/=.
  destruct (EnableOracle (GetParams s)); simpl in Hr.
  - unfold ProcessOracleDataSetAggregation in Hr. apply bind_ok in Hr as (l & s1 & Hl & Hr).
    unfold on_oracle, zoom, gets in Hl. simplify_eq/=.
    apply process_loop in Hr as (Hin & Hd & Hk & _); [|by apply docs_NoDup|].
    2:{ apply Forall_forall. intros d Hd%docs_elem; [|done]. by eapply wf_id. }
    split; [done|]. split.
    + intros k. destruct (or_docs s !! k) as [d|] eqn:Hkd.
      * pose proof (wf_docs _ Hs _ _ Hkd) as (-> & _). apply Hd; [by apply docs_elem|done].
      * rewrite Hk; [by rewrite Hkd|]. intros d Hin' ->. apply docs_elem in Hin'; [|done]. congruence.
    + intros d Hd' n. apply Hd; [by apply docs_elem|done].
  - run_inv. split; [done|]. split; [|done]. intros k. by destruct (or_docs s' !! k).
Qed.

(** C16.  What a block does to the oracle, document by document: with the module
    enabled, a document that is enabled, has at least its quorum of submissions
    for the next nonce and whose rule gives a value moves to that nonce and
    nothing else of it changes, and the value is its data set; every other
    document and data set stays, as do the parameters, the moderator, the count
    and the submissions. *)
Theorem BeginBlocker_documents ctx s w s' w' :
  oracle_wf s -> BeginBlocker W hooks ctx (s, w) = (Ok tt, (s', w')) ->
  same_inputs s s' /\
  forall id, uint64 id ->
    match GetOracleRequestDoc s id with
    | Ok doc =>
        match (if EnableOracle (GetParams s) then doc_result s doc else None) with
        | Some value =>
            GetOracleRequestDoc s' id = Ok (with_nonce doc (wrap64 (d_Nonce doc + 1))) /\
            GetOracleData s' id = Ok (result_set ctx doc value)
        | None =>
            GetOracleRequestDoc s' id = Ok doc /\ GetOracleData s' id = GetOracleData s id
        end
    | _ => is_ok (GetOracleRequestDoc s' id) = false
    end.
Proof.
  intros Hs Hr. destruct (begin_block_docs _ _ _ _ _ _ Hs Hr) as (Hin & Hd & Hds). split; [done|].
  intros id Hid. unfold GetOracleData, GetOracleRequestDoc, GetDataSet in *. rewrite Hd.
  destruct (or_docs s !! GetOracleRequestDocKey id) as [doc|] eqn:Hdoc; simpl; [|done].
  pose proof (wf_docs _ Hs _ _ Hdoc) as (Hk & Hrange & _).
  pose proof (wf_id _ _ _ Hs Hdoc) as Hu. apply doc_key_inj in Hk as ->; [|done..].
  pose proof (Hds doc Hdoc) as Hx. destruct (EnableOracle (GetParams s)).
  - unfold next_doc, dataset_after in *. destruct (doc_result s doc) as [v|]; simpl; by rewrite ?Hx.
  - simpl. by rewrite Hx.
Qed.

(**  The begin blocker returns: no submitted value is infinite, and the
    hooks return on every data set, then so does the block, whatever the
    documents, the rules and the texts that were submitted. *)
Theorem BeginBlocker_returns `{!FloatTextLaws, !SortSliceLaws} ctx s w :
  (forall ds w, exists w', AfterOracleEnd W hooks ds w = (Ok tt, w')) ->
  map_Forall (fun _ => finite_data) (or_submits s) ->
  (forall id n, zlen (GetSubmitDatas s id n) < 2 ^ 63) ->
  exists s' w', BeginBlocker W hooks ctx (s, w) = (Ok tt, (s', w')).
Proof.
  intros Hh Hf Hl. unfold BeginBlocker. rewrite (bind_run _ _ (s, w) (GetParams s) (s, w)) by done.
  destruct (EnableOracle (GetParams s)); simpl; [|by repeat eexists].
  unfold ProcessOracleDataSetAggregation.
  rewrite (bind_run _ _ (s, w) (GetOracleRequestDocs s) (s, w)) by done.
  by apply process_loop_returns.
Qed.

(** ** The invariant *)

Variable authority : string.
Variable endpoints_json : list OracleEndpoint -> string.

(** The fields of a message are within the ranges of their Go types. *)
Definition msg_typed (m : Msg) : Prop :=
  match m with
  | MRegister m => 0 <= d_Quorum (mr_Doc m)
  | MUpdate m => 0 <= d_Quorum (mu_Doc m)
  | MSubmit m => match ms_DataSet m with
                 | Some d => uint64 (sd_RequestId d) /\ uint64 (sd_Nonce d)
                 | None => True
                 end
  | _ => True
  end.

Inductive oracle_step : or_state * W -> or_state * W -> Prop :=
  | step_msg s w m r s' :
      msg_typed m -> GetOracleRequestDocCount s < max_uint64 ->
      NewHandler endpoints_json m s = (Ok r, s') -> oracle_step (s, w) (s', w)
  | step_params s w m s' :
      UpdateParams authority m s = (Ok tt, s') -> oracle_step (s, w) (s', w)
  | step_begin ctx s w s' w' :
      BeginBlocker W hooks ctx (s, w) = (Ok tt, (s', w')) -> oracle_step (s, w) (s', w').

(** What a step keeps of the documents there are. *)
Definition docs_kept (s s' : or_state) : Prop :=
  forall k d, or_docs s !! k = Some d -> exists d', or_docs s' !! k = Some d' /\
    d_RequestId d' = d_RequestId d /\ d_OracleType d' = d_OracleType d /\ d_Name d' = d_Name d /\
    d_Description d' = d_Description d.

Lemma docs_kept_refl s s' : or_docs s' = or_docs s -> docs_kept s s'.
Proof. intros Hd k d Hk. exists d. rewrite Hd. done. Qed.

Lemma wf_same_docs s s' :
  oracle_wf s -> or_docs s' = or_docs s -> or_count s' = or_count s -> or_submits s' = or_submits s ->
  oracle_wf s'.
Proof.
  intros [Hd Ha Hc Hs] E1 E2 E3. unfold GetOracleRequestDocCount in *.
  constructor; unfold GetOracleRequestDocCount; rewrite ?E1, ?E2, ?E3; done.
Qed.

Lemma count_some s n : uint64 n -> or_count s = Some (be64 n) -> GetOracleRequestDocCount s = n.
Proof. intros Hn Hc. unfold GetOracleRequestDocCount. rewrite Hc. by apply be64_roundtrip. Qed.

Lemma check_moderator_ok a s u s' :
  check_moderator a s = (Ok u, s') -> s' = s /\ GetModeratorAddress s = a.
Proof.
  unfold check_moderator. rewrite bind_gets. repeat case_bool_decide; simpl; intros Hr; run_inv. done.
Qed.

Lemma register_inv m s id s' :
  RegisterOracleRequestDoc endpoints_json m s = (Ok id, s') ->
  exists doc, id = d_RequestId doc /\ d_RequestId doc = wrap64 (GetOracleRequestDocCount s + 1) /\
    d_Nonce doc = 0 /\ d_Quorum doc = d_Quorum (mr_Doc m) /\
    ValidateWithParams doc (GetParams s) = Ok tt /\
    or_docs s' = <[GetOracleRequestDocKey (d_RequestId doc) := doc]> (or_docs s) /\
    or_count s' = Some (be64 (d_RequestId doc)) /\ or_submits s' = or_submits s.
Proof.
  unfold RegisterOracleRequestDoc. intros Hr. apply bind_ok in Hr as (u & s0 & [-> _]%check_moderator_ok & Hr).
  rewrite !bind_gets in Hr. apply bind_lift_ok in Hr as ([] & Hv%wrap_err_ok & Hr).
  unfold bind, SetOracleRequestDoc, SetOracleRequestDocCount, emit, modify, ret in Hr.
  injection Hr as <- <-. match type of Hv with ValidateWithParams ?d _ = _ => by exists d end.
Qed.

Lemma register_wf m s id s' :
  oracle_wf s -> 0 <= d_Quorum (mr_Doc m) -> GetOracleRequestDocCount s < max_uint64 ->
  RegisterOracleRequestDoc endpoints_json m s = (Ok id, s') -> oracle_wf s' /\ docs_kept s s'.
Proof.
  intros Hs Hq Hlt (doc & -> & Hid & Hn & Hdq & Hv & Ed & Ec & Es)%register_inv.
  pose proof (wf_count _ Hs) as Hc.
  rewrite wrap64_small in Hid by (unfold uint64 in *; lia).
  assert (GetOracleRequestDocCount s' = GetOracleRequestDocCount s + 1) as Hcount.
  { rewrite <- Hid. apply count_some; [unfold uint64 in *; lia|done]. }
  apply ValidateWithParams_ok in Hv as [Hok _]; [|lia].
  assert (or_docs s !! GetOracleRequestDocKey (d_RequestId doc) = None) as Hfresh.
  { destruct (or_docs s !! _) as [d|] eqn:Hd; [|done]. exfalso.
    pose proof (wf_id _ _ _ Hs Hd). apply (wf_docs _ Hs) in Hd as (Hk & Hr & _).
    apply doc_key_inj in Hk; unfold uint64 in *; lia. }
  split.
  - constructor; rewrite ?Hcount, ?Ed, ?Es.
    + intros k d [[<- <-]|[Hne Hd]]%lookup_insert_Some.
      * split_and!; try done; unfold uint64 in *; lia.
      * apply (wf_docs _ Hs) in Hd as (-> & Hr & Hr' & Hdok). split_and!; try done; lia.
    + intros i Hi. destruct (decide (i = d_RequestId doc)) as [->|Hne]; [by rewrite lookup_insert_eq|].
      rewrite lookup_insert_ne; [apply (wf_all _ Hs); lia|].
      intros Hk%doc_key_inj; unfold uint64 in *; lia.
    + unfold uint64 in *. lia.
    + apply Hs.
  - intros k d Hd. exists d. rewrite Ed, lookup_insert_ne by congruence. done.
Qed.

Lemma merge_doc_ok d d' p :
  0 <= d_Quorum d' -> doc_ok d -> ValidateWithParams (merge_doc d d') p = Ok tt -> doc_ok (merge_doc d d').
Proof.
  intros Hq Hd Hv. apply ValidateWithParams_ok in Hv as [Hv _]; [done|]. simpl.
  destruct Hd as (_ & _ & _ & _ & _ & Hdq & _). case_match; lia.
Qed.

Lemma update_wf m s id s' :
  oracle_wf s -> 0 <= d_Quorum (mu_Doc m) ->
  UpdateOracleRequestDoc endpoints_json m s = (Ok id, s') -> oracle_wf s' /\ docs_kept s s'.
Proof.
  intros Hs Hq Hr. unfold UpdateOracleRequestDoc in Hr.
  apply bind_ok in Hr as (u & s0 & [-> _]%check_moderator_ok & Hr).
  apply bind_ok in Hr as (x & s1 & Hu & Hr). apply try_ok in Hu.
  destruct x as [[]|e]; [|by run_inv]. unfold bind, emit, modify, ret in Hr. injection Hr as _ <-.
  unfold updateOracleRequestDoc in Hu. rewrite bind_gets in Hu.
  apply bind_lift_ok in Hu as (d & Hd & Hu). destruct (_ && _); [by run_inv|].
  rewrite bind_gets in Hu. apply bind_lift_ok in Hu as ([] & Hv & Hu).
  unfold SetOracleRequestDoc, modify in Hu. injection Hu as <-.
  unfold GetOracleRequestDoc in Hd. destruct (or_docs s !! _) as [d0|] eqn:Hk; [|done].
  injection Hd as ->. pose proof (wf_docs _ Hs _ _ Hk) as (Hkey & Hr & Hn & Hok).
  rewrite Hkey in Hk. apply merge_doc_ok in Hv; [|done..].
  split; [constructor; simpl|].
  - intros k x [[<- <-]|[Hne Hx]]%lookup_insert_Some; [done|by apply (wf_docs _ Hs)].
  - intros i Hi. apply lookup_insert_is_Some'. right. by apply (wf_all _ Hs).
  - apply Hs.
  - apply Hs.
  - intros k x Hx. simpl. destruct (decide (k = GetOracleRequestDocKey (d_RequestId d))) as [->|Hne].
    + exists (merge_doc d (mu_Doc m)). rewrite lookup_insert_eq. assert (x = d) as -> by congruence. done.
    + exists x. rewrite lookup_insert_ne by done. done.
Qed.

Lemma submit_wf m s u s' :
  oracle_wf s -> msg_typed (MSubmit m) -> SubmitOracleData m s = (Ok u, s') ->
  oracle_wf s' /\ docs_kept s s'.
Proof.
  intros Hs Ht [[Hne _]|(data & data' & _ & Hg & ->)]%submit_inv; [by destruct u|].
  split; [|by apply docs_kept_refl].
  destruct Hg as (Hd & (_ & Hn & _) & doc & _ & _ & _ & _ & sig & _ & ->).
  simpl in Ht. rewrite Hd in Ht. destruct Ht as [Hi Hn'].
  constructor; simpl; [apply Hs..|]. intros k x [[<- <-]|[_ Hx]]%lookup_insert_Some.
  - split_and!; try done; unfold uint64 in *; simpl; lia.
  - by apply (wf_submits _ Hs).
Qed.

Lemma begin_wf ctx s w s' w' :
  oracle_wf s -> BeginBlocker W hooks ctx (s, w) = (Ok tt, (s', w')) -> oracle_wf s' /\ docs_kept s s'.
Proof.
  intros Hs Hr. destruct (begin_block_docs _ _ _ _ _ _ Hs Hr) as ((_ & _ & Ec & Es) & Hd & _).
  set (f := fun d => if EnableOracle (GetParams s) then next_doc s d else d) in *.
  assert (forall d, uint64 (d_Nonce d) -> d_RequestId (f d) = d_RequestId d /\ uint64 (d_Nonce (f d)) /\
    (doc_ok d -> doc_ok (f d)) /\ d_OracleType (f d) = d_OracleType d /\ d_Name (f d) = d_Name d /\
    d_Description (f d) = d_Description d) as Hf.
  { intros d Hn. unfold f, next_doc. case_match; [|done]. destruct (doc_result s d); [|done].
    split_and!; try done. simpl. unfold wrap64, uint64, max_uint64. pose proof (Z.mod_pos_bound (d_Nonce d + 1) (2^64)). lia. }
  split; [constructor; unfold GetOracleRequestDocCount; rewrite ?Ec, ?Es; [| |apply Hs..]|].
  - intros k d. rewrite Hd. intros Hk. apply fmap_Some in Hk as (d0 & Hk & ->).
    apply (wf_docs _ Hs) in Hk as (-> & Hr' & Hn & Hok). destruct (Hf d0 Hn) as (-> & ? & ? & _).
    split_and!; auto; apply Hr'.
  - intros i Hi. rewrite Hd. apply fmap_is_Some. by apply (wf_all _ Hs).
  - intros k d Hk. exists (f d). rewrite Hd, Hk. split; [done|].
    apply (wf_docs _ Hs) in Hk as (_ & _ & Hn & _). destruct (Hf d Hn) as (? & _ & _ & ? & ? & ?). done.
Qed.

Lemma step_wf x y : oracle_step x y -> oracle_wf x.1 -> oracle_wf y.1 /\ docs_kept x.1 y.1.
Proof.
  intros Hst Hs. destruct Hst as [s w m r s' Ht Hlt Hr|s w m s' Hr|ctx s w s' w' Hr]; simpl in *.
  - destruct m as [m|m|m|m|]; unfold NewHandler in Hr; try (apply bind_ok in Hr as (a & s1 & Hm & Hr);
      unfold ret in Hr; injection Hr as _ <-); [by eapply register_wf|by eapply update_wf
      |by eapply submit_wf| |by run_inv].
    unfold UpdateModeratorAddress in Hm. rewrite bind_gets in Hm. run_inv.
    unfold SetModeratorAddress, emit in *. run_inv.
    split; [by eapply wf_same_docs|by apply docs_kept_refl].
  - unfold UpdateParams in Hr. destruct (negb _); [by run_inv|].
    apply bind_lift_ok in Hr as ([] & _ & Hr). unfold bind, SetParams, emit, modify in Hr.
    injection Hr as <-. split; [by eapply wf_same_docs|by apply docs_kept_refl].
  - by eapply begin_wf.
Qed.

(** C29.  Whatever messages and blocks run from a well-formed store, it stays
    well-formed: ids are 1 up to the count without a gap, every document is
    valid, with a quorum its account list can reach, every submission is stored
    under its own document, nonce and provider; and no document is lost or
    changes its id, type, name or description. *)
Theorem oracle_reachable_wf x y :
  oracle_wf x.1 -> rtc oracle_step x y -> oracle_wf y.1 /\ docs_kept x.1 y.1.
Proof.
  intros Hs Hr. induction Hr as [x|x y z Hxy Hyz IH]; [split; [done|by apply docs_kept_refl]|].
  apply step_wf in Hxy as [Hy Hk]; [|done]. destruct (IH Hy) as [Hz Hk']. split; [done|].
  intros k d Hd. destruct (Hk _ _ Hd) as (d1 & Hd1 & E1 & E2 & E3 & E4).
  destruct (Hk' _ _ Hd1) as (d2 & Hd2 & F1 & F2 & F3 & F4). exists d2. split_and!; congruence.
Qed.

(**  Registering is the moderator's: it gives the new document the next id,
    which no document had, and nonce zero, and the count grows by one. *)
Theorem RegisterOracleRequestDoc_fresh m s id s' :
  oracle_wf s -> GetOracleRequestDocCount s < max_uint64 ->
  RegisterOracleRequestDoc endpoints_json m s = (Ok id, s') ->
  mr_Moderator m = GetModeratorAddress s /\
  id = GetOracleRequestDocCount s + 1 /\ GetOracleRequestDocCount s' = id /\
  is_ok (GetOracleRequestDoc s id) = false /\
  (exists doc, GetOracleRequestDoc s' id = Ok doc /\ d_Nonce doc = 0) /\
  (forall i, uint64 i -> i <> id -> GetOracleRequestDoc s' i = GetOracleRequestDoc s i).
Proof.
  intros Hs Hlt Hr. pose proof (wf_count _ Hs) as Hc. split.
  { unfold RegisterOracleRequestDoc in Hr. by apply bind_ok in Hr as (u & s0 & [_ ?]%check_moderator_ok & _). }
  apply register_inv in Hr as (doc & -> & Hid & Hn & _ & _ & Ed & Ec & _).
  rewrite wrap64_small in Hid by (unfold uint64 in *; lia).
  assert (uint64 (d_RequestId doc)) as Hu by (unfold uint64 in *; lia).
  unfold GetOracleRequestDoc. rewrite Ed. split_and!; [done|by apply count_some| | |].
  - destruct (or_docs s !! _) as [d|] eqn:Hd; [|done]. exfalso.
    pose proof (wf_id _ _ _ Hs Hd). apply (wf_docs _ Hs) in Hd as (Hk & Hr & _).
    apply doc_key_inj in Hk; [|done..]. lia.
  - exists doc. by rewrite lookup_insert_eq.
  - intros i Hi Hne. rewrite lookup_insert_ne; [done|]. intros Hk%doc_key_inj; [|done..]. done.
Qed.
End blocks.

Section genesis.
Context `{AddressCodec, DecLib, !DecLaws, OracleAccounts, FloatText, SortSlice}.
Variable authority : string.

Lemma docs_count s : oracle_wf s -> zlen (GetOracleRequestDocs s) = GetOracleRequestDocCount s.
Proof.
  intros Hs. pose proof (wf_count _ Hs) as Hc.
  assert (d_RequestId <$> GetOracleRequestDocs s ≡ₚ seqZ 1 (GetOracleRequestDocCount s)) as Hp.
  { apply NoDup_Permutation.
    - apply (NoDup_fmap_1 GetOracleRequestDocKey). rewrite <- list_fmap_compose. by apply docs_NoDup.
    - apply NoDup_seqZ.
    - intros i. rewrite list_elem_of_fmap, elem_of_seqZ. split.
      + intros (d & -> & Hd%docs_elem); [|done]. apply (wf_docs _ Hs) in Hd as (_ & ? & _). lia.
      + intros Hi. destruct (wf_all _ Hs i) as [d Hd]; [lia|].
        pose proof (wf_id _ _ _ Hs Hd). pose proof (wf_docs _ Hs _ _ Hd) as (Hk & _).
        apply doc_key_inj in Hk as ->; [|unfold uint64 in *; lia|done].
        exists d. split; [done|]. by apply docs_elem. }
  apply Permutation_length in Hp. rewrite length_fmap, length_seqZ in Hp.
  unfold zlen. rewrite Hp. unfold uint64 in Hc. lia.
Qed.

Lemma genesis_loop l s :
  Forall (fun d => Doc_Validate d = Ok tt) l ->
  each (fun doc => do! lift (panic_err (Doc_Validate doc)); SetOracleRequestDoc doc) l s =
  (Ok tt, OR (or_params s) (or_moderator s) (or_count s)
    (put_list (or_docs s) (map (fun d => (GetOracleRequestDocKey (d_RequestId d), d)) l))
    (or_submits s) (or_datasets s) (or_events s)).
Proof.
  intros Hl. revert s. induction Hl as [|d l Hd Hl IH]; intros s; [by destruct s|].
  cbn [each]. unfold bind at 1. rewrite Hd. unfold bind at 1, lift, panic_err, SetOracleRequestDoc, modify.
  by rewrite IH.
Qed.

Lemma docs_records s :
  oracle_wf s ->
  map (fun d => (GetOracleRequestDocKey (d_RequestId d), d)) (GetOracleRequestDocs s) =
  iterate KeyOracleRequestDoc (or_docs s).
Proof.
  intros Hs. unfold GetOracleRequestDocs. rewrite map_map. rewrite <- (map_id (iterate _ _)) at 2.
  apply map_ext_Forall, Forall_forall. intros [k d] [Hk _]%elem_of_iterate.
  by apply (wf_docs _ Hs) in Hk as [-> _].
Qed.

(**  Exporting the oracle and importing it into an empty store restores the
    parameters, the moderator, the count and every document with its nonce (the
    submissions and the data sets are not exported), provided no account list
    is longer than the default limit. *)
Theorem oracle_genesis_roundtrip s m b es :
  oracle_wf s -> GetModeratorAddress s = m -> m <> EmptyString -> acc_of_bech32 m = Some b ->
  is_Some (MinSubmitPerWindow (GetParams s)) -> is_Some (SlashFractionDowntime (GetParams s)) ->
  map_Forall (fun _ d => zlen (d_AccountList d) <= 1000) (or_docs s) ->
  InitGenesis authority (ExportGenesis s) (OR None None None ∅ ∅ ∅ es) =
  (Ok tt, OR (Some (GetParams s)) (Some m) (Some (be64 (GetOracleRequestDocCount s))) (or_docs s) ∅ ∅ es).
Proof.
  intros Hs Hm Hne Hb [x1 Hx1] [x2 Hx2] Hlist.
  assert (stored_params (GetParams s) = GetParams s) as Hst.
  { destruct (GetParams s). simpl in *. subst. unfold stored_params. simpl. by rewrite !dec_stored_some. }
  unfold InitGenesis, ExportGenesis. cbn [gs_Params gs_Count gs_Docs gs_Moderator].
  rewrite Hm, bool_decide_eq_false_2, Hb by done.
  unfold bind at 1, SetParams, modify at 1. rewrite Hst.
  unfold bind at 1, SetModeratorAddress, modify at 1.
  rewrite (bind_run _ _ _ _ _ (genesis_loop _ _ ltac:(
    apply Forall_forall; intros d Hd%docs_elem; [|done]; pose proof (wf_docs _ Hs _ _ Hd) as (_ & _ & _ & Hok);
    apply Hlist in Hd; apply ValidateWithParams_intro; [done|cbn; lia|lia]))).
  rewrite docs_count, Z.eqb_refl, docs_records by done. cbn [negb].
  unfold SetOracleRequestDocCount, modify. cbn [or_docs or_params or_moderator or_submits or_datasets or_events].
  rewrite put_list_iterate_prefix; [done|].
  intros k d Hd. by apply (wf_docs _ Hs) in Hd as [-> _].
Qed.
End genesis.

(** * The theorems on a concrete store *)

(** Every account has its address as key; a signature starts with the checksum
    of the key and the signed bytes. *)
#[global] Instance ModelOracleAccounts : OracleAccounts := {|
  PubKey := list Z;
  GetAccount a := Some (Some a);
  VerifySignature pk msg sig := bool_decide (head sig = Some (lsum (pk ++ msg) mod 256));
|}.

Definition o_mod : string := bech32_of [7].
Definition o_p1 : string := bech32_of [1].
Definition o_p2 : string := bech32_of [2].
Definition o_p3 : string := bech32_of [3].
Definition o_json (_ : list OracleEndpoint) : string := "[]".
Definition o_hooks : option (list (OracleHooks Z)) :=
  Some [mkHooks Z (fun _ => modify (fun n => n + 1)) (fun _ => ret tt)].
Definition o_doc (rule : Z) : OracleRequestDoc :=
  mkDoc 0 ORACLE_TYPE_MIN_GAS_PRICE "gas" "gas price" 60 [o_p1; o_p2; o_p3] 2 [mkEndpoint "u" "p"] rule
    REQUEST_STATUS_ENABLED 0.
Definition o_register : MsgRegisterOracleRequestDoc := mkRegister o_mod (o_doc AGGREGATION_RULE_MEDIAN).
Definition o_empty : or_state := OR (Some DefaultParams) (Some o_mod) None ∅ ∅ ∅ [].
Definition o_docs : or_state := (RegisterOracleRequestDoc o_json o_register o_empty).2.

(** A data set signed by its provider. *)
Definition o_unsigned (p v : string) : SubmitDataSet := mkSubmit 1 1 v p [].
Definition o_data (p v : string) : SubmitDataSet :=
  mkSubmit 1 1 v p
    ((match acc_of_bech32 p, Bytes (o_unsigned p v) with
      | Some a, Ok b => lsum (a ++ b) mod 256
      | _, _ => 0
      end) :: repeat 0 63 ++ [28]).
Definition o_submit (p v : string) : MsgSubmitOracleData := mkMsgSubmit p (Some (o_data p v)).
Definition o_two : or_state :=
  (SubmitOracleData (o_submit o_p2 "12") (SubmitOracleData (o_submit o_p1 "10") o_docs).2).2.
Definition o_three : or_state := (SubmitOracleData (o_submit o_p3 "900") o_two).2.
Definition o_ctx : Ctx := mkCtx 9 100.

Lemma o_wf_empty : oracle_wf o_empty.
Proof.
  constructor; simpl; try (intros k d Hk; by rewrite lookup_empty in Hk);
    unfold GetOracleRequestDocCount, uint64; simpl; unfold max_uint64; lia.
Qed.

Lemma o_wf_docs : oracle_wf o_docs.
Proof.
  refine (proj1 (register_wf o_json o_register o_empty 1 _ _ _ _ _));
    [apply o_wf_empty|done|by vm_compute|vm_compute; reflexivity].
Qed.

Lemma o_wf_submit p v s : oracle_wf s -> (SubmitOracleData (o_submit p v) s).1 = Ok tt ->
  oracle_wf (SubmitOracleData (o_submit p v) s).2.
Proof.
  intros Hs Hr. refine (proj1 (submit_wf (o_submit p v) s tt _ Hs _ (run_fst _ _ _ Hr))).
  unfold msg_typed, uint64, max_uint64. simpl. lia.
Qed.

Lemma o_wf_two : oracle_wf o_two.
Proof.
  apply o_wf_submit; [apply o_wf_submit; [apply o_wf_docs|]|]; vm_compute; reflexivity.
Qed.

Lemma o_wf_three : oracle_wf o_three.
Proof. apply o_wf_submit; [apply o_wf_two|]; vm_compute; reflexivity. Qed.

Lemma o_accepted : (SubmitOracleData (o_submit o_p1 "10") o_docs).1 = Ok tt.
Proof. vm_compute. reflexivity. Qed.

(** The recovery byte 28 is stored as 1; an account that is not listed is
    refused. *)
Lemma SubmitOracleData_accepts_witness :
  (exists data', submit_guards (o_submit o_p1 "10") o_docs (o_data o_p1 "10") data' /\
     nth 64 (sd_Signature data') 0 = 1) /\
  (SubmitOracleData (mkMsgSubmit o_mod (Some (o_data o_p1 "10"))) o_docs).2 = o_docs.
Proof.
  split.
  - destruct (proj1 (proj1 (SubmitOracleData_accepts (o_submit o_p1 "10") o_docs) (o_data o_p1 "10") eq_refl eq_refl _)
      (run_fst _ _ _ o_accepted)) as (data' & Hg & _).
    exists data'. split; [exact Hg|]. destruct Hg as (_ & _ & doc & _ & _ & _ & _ & Hv%verifySubmitData_spec).
    vm_compute in Hv. injection Hv as <-. reflexivity.
  - apply (proj2 (proj2 (SubmitOracleData_accepts (mkMsgSubmit o_mod (Some (o_data o_p1 "10"))) o_docs))
      (Err (Error ErrInvalidRequest "account is not authorized")));
      [vm_compute; reflexivity|discriminate].
Defined.

Lemma Bytes_injective_witness :
  sd_RawData (o_data o_p1 "10") = sd_RawData (o_unsigned o_p1 "10").
Proof.
  destruct (Bytes (o_data o_p1 "10")) as [b| |] eqn:E; [|discriminate E..].
  refine (proj1 (proj2 (proj2 (Bytes_injective (o_data o_p1 "10") (o_unsigned o_p1 "10") b
    _ _ _ _ _ _ E _))));
    [unfold uint64, max_uint64; simpl; lia..|vm_compute; reflexivity|vm_compute; reflexivity|exact E].
Defined.

Lemma GetSubmitDatas_exact_witness :
  NoDup (sd_Provider <$> GetSubmitDatas o_three 1 1) /\ length (GetSubmitDatas o_three 1 1) = 3%nat.
Proof.
  split; [|vm_compute; reflexivity].
  refine (proj2 (GetSubmitDatas_exact o_three 1 1 o_wf_three _ _));
    unfold uint64, max_uint64; lia.
Defined.

Definition o_datas : list SubmitDataSet := [o_data o_p1 "10"; o_data o_p2 "12"; o_data o_p3 "900"].
Definition o_vals : list Float := [float_set_int64 10; float_set_int64 12; float_set_int64 900].

(** One provider of three is off by far; the median is what the others say. *)
Lemma calculateMedian_majority_witness :
  exists a b, a ∈ o_vals /\ b ∈ o_vals /\
    between (float_set_int64 9) (float_set_int64 13) a /\
    between (float_set_int64 9) (float_set_int64 13) b /\ "12" = float_Text b.
Proof.
  refine (calculateMedian_majority o_three o_datas "12" o_vals (float_set_int64 9) (float_set_int64 13)
    _ _ _ _ _); [discriminate|discriminate|vm_compute; reflexivity|vm_compute; lia|vm_compute; reflexivity].
Defined.

Lemma calculateMinMax_extremal_witness :
  (exists vs r, parse_all o_datas = Ok vs /\ "10" = float_Text r /\
     r ∈ float_max_float64 :: vs /\ Forall (float_le r) (float_max_float64 :: vs)) /\
  calculateMax [o_data o_p1 "-5"] = Ok "0".
Proof.
  split; [|vm_compute; reflexivity].
  apply (proj1 (calculateMinMax_extremal o_datas "10")). vm_compute. reflexivity.
Defined.

Lemma BeginBlocker_documents_witness :
  GetOracleData (BeginBlocker Z o_hooks o_ctx (o_three, 0)).2.1 1 = Ok (mkDataSet 1 1 9 100 "12") /\
  (BeginBlocker Z o_hooks o_ctx (o_three, 0)).2.2 = 1.
Proof.
  split; [|vm_compute; reflexivity].
  assert (BeginBlocker Z o_hooks o_ctx (o_three, 0) = (Ok tt, ((BeginBlocker Z o_hooks o_ctx (o_three, 0)).2.1,
    (BeginBlocker Z o_hooks o_ctx (o_three, 0)).2.2))) as Hr by (vm_compute; reflexivity).
  destruct (BeginBlocker_documents Z o_hooks o_ctx o_three 0 _ _ o_wf_three Hr) as [_ Hd].
  specialize (Hd 1 ltac:(unfold uint64, max_uint64; lia)).
  destruct (GetOracleRequestDoc o_three 1) as [doc| |] eqn:Hdoc; [|vm_compute in Hdoc; discriminate Hdoc..].
  vm_compute in Hdoc. injection Hdoc as <-.
  destruct (if EnableOracle (GetParams o_three) then doc_result o_three _ else None) as [v|] eqn:Hv;
    vm_compute in Hv; [|discriminate Hv].
  injection Hv as <-. exact (proj2 Hd).
Defined.

Lemma BeginBlocker_returns_witness :
  exists s' w', BeginBlocker Z o_hooks o_ctx (o_docs, 0) = (Ok tt, (s', w')).
Proof.
  apply (BeginBlocker_returns Z o_hooks o_ctx o_docs 0).
  - intros ds w. exists (w + 1). reflexivity.
  - intros k d Hd. vm_compute in Hd. discriminate Hd.
  - intros id n. vm_compute. reflexivity.
Defined.

Lemma oracle_reachable_wf_witness :
  oracle_wf (BeginBlocker Z o_hooks o_ctx (o_three, 0)).2.1.
Proof.
  refine (proj1 (oracle_reachable_wf Z o_hooks o_mod o_json (o_three, 0)
    (BeginBlocker Z o_hooks o_ctx (o_three, 0)).2 o_wf_three (rtc_once _ _ _))).
  pose proof (step_begin Z o_hooks o_mod o_json o_ctx o_three 0
    (BeginBlocker Z o_hooks o_ctx (o_three, 0)).2.1 (BeginBlocker Z o_hooks o_ctx (o_three, 0)).2.2) as Hst.
  apply Hst. vm_compute. reflexivity.
Defined.

Lemma RegisterOracleRequestDoc_fresh_witness :
  is_ok (GetOracleRequestDoc o_docs 2) = false /\
  exists doc, GetOracleRequestDoc (RegisterOracleRequestDoc o_json o_register o_docs).2 2 = Ok doc /\
    d_Nonce doc = 0.
Proof.
  destruct (RegisterOracleRequestDoc_fresh o_json o_register o_docs 2
    (RegisterOracleRequestDoc o_json o_register o_docs).2 o_wf_docs) as (_ & _ & _ & Hn & Hd & _);
    [vm_compute; reflexivity|vm_compute; reflexivity|]. split; [exact Hn|exact Hd].
Defined.

Lemma oracle_genesis_roundtrip_witness :
  InitGenesis o_p1 (ExportGenesis o_three) (OR None None None ∅ ∅ ∅ []) =
  (Ok tt, OR (Some DefaultParams) (Some o_mod) (Some (be64 1)) (or_docs o_three) ∅ ∅ []).
Proof.
  apply (oracle_genesis_roundtrip o_p1 o_three o_mod [7] []);
    [apply o_wf_three|vm_compute; reflexivity|vm_compute; discriminate|vm_compute; reflexivity
    |vm_compute; eauto|vm_compute; eauto|].
  apply (bool_decide_unpack _). vm_compute. exact I.
Defined.
