(* ===== verification/SnapshotStore.v ===== *)
(** x/vm/store: the stack of cached stores behind the snapshots of precompile
    calls ([snapshotkv/store.go]) and the same stack for every module store
    ([snapshotmulti/store.go]).

    A cached store of the SDK ([cachekv.Store]) is a class: a layer of pending
    writes over a parent, with the laws its documentation gives.  The stack
    gives the content of a snapshot back exactly, whatever was written and
    snapshotted since, and a write flushes the whole stack to its root. *)
From S2P Require Import Prelude KVStore.

(** What a store reads at a key; [None] is nil. *)
Abbreviation content := (list Z -> option (list Z)) (only parsing).

Definition put (c : content) (k : bytes) (v : option bytes) : content :=
  fun k' => if decide (k' = k) then v else c k'.

Class CacheKV := {
  layer : Type;
  l_new : layer;                                        (** [cachekv.NewStore] *)
  l_get : layer -> content -> bytes -> option bytes;    (** [Get], given the parent *)
  l_put : layer -> bytes -> option bytes -> layer;      (** [Set]; [Delete] puts nil *)
  l_writes : layer -> list (bytes * option bytes);      (** what [Write] does to the parent *)
}.

Class CacheKVLaws `{CacheKV} := {
  l_get_new : forall p k, l_get l_new p k = p k;
  l_get_put : forall l p k v k', l_get (l_put l k v) p k' = if decide (k' = k) then v else l_get l p k';
  l_get_ext : forall l p q k, (forall k, p k = q k) -> l_get l p k = l_get l q k;
  l_get_writes : forall l p k,
    foldl (fun c w => put c w.1 w.2) p (l_writes l) k = l_get l p k;
}.

Section kv.
Context `{CacheKV}.

(** ** snapshotkv *)

Record Store := mkStore { initialStore : layer; cacheStores : list layer }.

Definition snapshotkv_NewStore (store : layer) : Store := mkStore store [].

(** The content of the top of a stack over a parent. *)
Definition stack_content (ls : list layer) (p : content) : content :=
  foldl (fun c l => l_get l c) p ls.

(** What [CurrentStore] reads, over the store below the initial one. *)
Definition CurrentStore (cs : Store) (root : content) : content :=
  stack_content (initialStore cs :: cacheStores cs) root.

(** A [Set] or [Delete] on the current store. *)
Definition store_put (cs : Store) (k : bytes) (v : option bytes) : Store :=
  match last (cacheStores cs) with
  | None => mkStore (l_put (initialStore cs) k v) []
  | Some top =>
      mkStore (initialStore cs)
        (take (length (cacheStores cs) - 1) (cacheStores cs) ++ [l_put top k v])
  end.

Definition snapshotkv_Snapshot (cs : Store) : Store * Z :=
  let stores := cacheStores cs ++ [l_new] in
  (mkStore (initialStore cs) stores, Z.of_nat (length stores) - 1).

Definition snapshotkv_RevertToSnapshot (cs : Store) (target : Z) : res Store :=
  if (target <? 0) || (Z.of_nat (length (cacheStores cs)) <=? target)
  then Panic "snapshot index out of bound"
  else Ok (mkStore (initialStore cs) (take (Z.to_nat target) (cacheStores cs))).

(** [Write] of a layer applies its pending writes to the layer below, which
    then holds them too, and empties the layer; the last one goes to the root. *)
Definition write_to (l below : layer) : layer :=
  foldl (fun b w => l_put b w.1 w.2) below (l_writes l).
Fixpoint commit_layers (below : layer) (ls : list layer) : layer :=
  match ls with
  | [] => below
  | l :: ls => write_to (commit_layers l ls) below
  end.
Definition snapshotkv_Commit (cs : Store) (root : content) : Store * content :=
  let bottom := commit_layers (initialStore cs) (cacheStores cs) in
  (mkStore l_new [], foldl (fun c w => put c w.1 w.2) root (l_writes bottom)).

(** ** snapshotmulti *)

(** The stores of the modules in the order of their keys, and the head. *)
Record MultiStore := mkMulti { stores : list Store; head : Z }.

Definition InitialHead : Z := 0.
Definition snapshotmulti_NewStore (layers : list layer) : MultiStore :=
  mkMulti (map snapshotkv_NewStore layers) InitialHead.

Definition snapshotmulti_Snapshot (s : MultiStore) : MultiStore * Z :=
  let head' := head s + 1 in
  (mkMulti (map (fun cs => (snapshotkv_Snapshot cs).1) (stores s)) head', head' - 1).

Fixpoint revert_all (target : Z) (l : list Store) : res (list Store) :=
  match l with
  | [] => Ok []
  | cs :: l =>
      let? cs := snapshotkv_RevertToSnapshot cs target in
      let? l := revert_all target l in
      Ok (cs :: l)
  end.
Definition snapshotmulti_RevertToSnapshot (s : MultiStore) (target : Z) : res MultiStore :=
  let? l := revert_all target (stores s) in Ok (mkMulti l target).

Definition GetKVStore (s : MultiStore) (roots : list content) (i : nat) : res content :=
  match stores s !! i, roots !! i with
  | Some cs, Some root => Ok (CurrentStore cs root)
  | _, _ => Panic "kv store has not been registered in stores"
  end.

Definition multi_put (s : MultiStore) (i : nat) (k : bytes) (v : option bytes) : MultiStore :=
  mkMulti (alter (fun cs => store_put cs k v) i (stores s)) (head s).

Definition Write (s : MultiStore) (roots : list content) : MultiStore * list content :=
  let l := zip_with snapshotkv_Commit (stores s) roots in
  (mkMulti (map fst l) InitialHead, map snd l).

Definition CacheMultiStore (s : MultiStore) : MultiStore := (snapshotmulti_Snapshot s).1.
Definition LatestVersion (s : MultiStore) : Z := head s.
End kv.

Section thms.
Context `{CacheKV, !CacheKVLaws}.

Lemma stack_content_ext ls p q k :
  (forall k, p k = q k) -> stack_content ls p k = stack_content ls q k.
Proof.
  revert p q. induction ls as [|l ls IH]; intros p q Hpq; simpl; [done|].
  apply IH. intros k'. by apply l_get_ext.
Qed.

Lemma store_put_content cs root k v k' :
  CurrentStore (store_put cs k v) root k' = put (CurrentStore cs root) k v k'.
Proof.
  unfold CurrentStore, store_put, put. destruct cs as [i l].
  destruct l as [|top l _] using rev_ind; simpl; [by rewrite l_get_put|].
  rewrite last_snoc, length_app. simpl. rewrite Nat.add_sub, take_app_length.
  unfold stack_content. rewrite !foldl_app. simpl. by rewrite l_get_put.
Qed.

(** A flushed layer reads, over its parent, as the layer above did. *)
Lemma write_to_content l below p k : l_get (write_to l below) p k = l_get l (l_get below p) k.
Proof.
  unfold write_to. rewrite <- (l_get_writes l). generalize (l_writes l). intros ws.
  assert (forall b c, (forall k, l_get b p k = c k) ->
    l_get (foldl (fun b w => l_put b w.1 w.2) b ws) p k = foldl (fun c w => put c w.1 w.2) c ws k) as Hw.
  { induction ws as [|[k1 v1] ws IH]; intros b c Hbc; simpl; [done|]. apply IH.
    intros k2. rewrite l_get_put. unfold put. by rewrite Hbc. }
  by apply Hw.
Qed.

Lemma commit_layers_content below ls p k :
  l_get (commit_layers below ls) p k = stack_content (below :: ls) p k.
Proof.
  revert below p k. induction ls as [|l ls IH]; intros below p k; simpl; [done|].
  rewrite write_to_content. unfold stack_content in IH. simpl in IH. by rewrite IH.
Qed.

Lemma snapshotkv_Commit_content cs root k :
  (snapshotkv_Commit cs root).2 k = CurrentStore cs root k /\
  CurrentStore (snapshotkv_Commit cs root).1 (snapshotkv_Commit cs root).2 k = CurrentStore cs root k.
Proof.
  assert ((snapshotkv_Commit cs root).2 k = CurrentStore cs root k) as Hk.
  { unfold snapshotkv_Commit. simpl. rewrite l_get_writes. apply commit_layers_content. }
  split; [done|]. unfold CurrentStore at 1. simpl. by rewrite l_get_new.
Qed.

(** ** Runs between a snapshot and its revert *)

Inductive store_op :=
  | OpPut (i : nat) (k : bytes) (v : option bytes)
  | OpSnapshot
  | OpRevert (target : Z).

Definition run_op (s : MultiStore) (o : store_op) : res MultiStore :=
  match o with
  | OpPut i k v => Ok (multi_put s i k v)
  | OpSnapshot => Ok (snapshotmulti_Snapshot s).1
  | OpRevert target => snapshotmulti_RevertToSnapshot s target
  end.
Fixpoint run_ops (s : MultiStore) (ops : list store_op) : res MultiStore :=
  match ops with
  | [] => Ok s
  | o :: ops => let? s := run_op s o in run_ops s ops
  end.

(** Every stack is as high as the head says. *)
Definition multi_wf (s : MultiStore) : Prop :=
  0 <= head s /\ Forall (fun cs => Z.of_nat (length (cacheStores cs)) = head s) (stores s).

(** A store whose stack is above [n], with the layers below as in [base]. *)
Definition above (n : Z) (base : list Store) (s : MultiStore) : Prop :=
  n < head s /\
  Forall2 (fun b cs => initialStore cs = initialStore b /\
    Z.of_nat (length (cacheStores cs)) = head s /\
    take (Z.to_nat n) (cacheStores cs) = cacheStores b) base (stores s).

Lemma revert_all_ok t l :
  0 <= t -> Forall (fun cs => t < Z.of_nat (length (cacheStores cs))) l ->
  revert_all t l = Ok (map (fun cs => mkStore (initialStore cs) (take (Z.to_nat t) (cacheStores cs))) l).
Proof.
  intros Ht Hl. induction Hl as [|cs l Hcs Hl IH]; simpl; [done|].
  unfold snapshotkv_RevertToSnapshot. rewrite (proj2 (Z.ltb_ge t 0)), (proj2 (Z.leb_gt _ _)) by lia.
  simpl. by rewrite IH.
Qed.

Lemma revert_all_inv t l l' :
  revert_all t l = Ok l' -> l <> [] -> 0 <= t /\ Forall (fun cs => t < Z.of_nat (length (cacheStores cs))) l.
Proof.
  revert l'. induction l as [|cs l IH]; intros l' Hr Hne; [done|]. simpl in Hr.
  apply rbind_ok in Hr as (c & Hc & Hr). apply rbind_ok in Hr as (l2 & Hl & _).
  unfold snapshotkv_RevertToSnapshot in Hc.
  destruct (Z.ltb_spec t 0), (Z.leb_spec (Z.of_nat (length (cacheStores cs))) t); simpl in Hc; try done.
  split; [lia|]. constructor; [lia|]. destruct l; [constructor|]. by eapply IH.
Qed.

Lemma store_put_prefix n cs k v :
  n < Z.of_nat (length (cacheStores cs)) -> 0 <= n ->
  initialStore (store_put cs k v) = initialStore cs /\
  length (cacheStores (store_put cs k v)) = length (cacheStores cs) /\
  take (Z.to_nat n) (cacheStores (store_put cs k v)) = take (Z.to_nat n) (cacheStores cs).
Proof.
  intros Hn Hn0. destruct cs as [i l]. unfold store_put. simpl in *.
  destruct l as [|top l _] using rev_ind; simpl in *; [lia|]. rewrite length_app in Hn. simpl in Hn.
  rewrite last_snoc, length_app. simpl. rewrite Nat.add_sub, take_app_length. split_and!; [done| |].
  - by rewrite length_app.
  - rewrite !take_app_le by lia. done.
Qed.

Lemma multi_above_op n base s o s' :
  0 <= n -> above n base s -> (forall t, o = OpRevert t -> n < t) -> run_op s o = Ok s' -> above n base s'.
Proof.
  intros Hn [Hh Hf] Ht Hr. destruct o as [i k v| |t]; simpl in Hr.
  - injection Hr as <-. split; [done|]. simpl.
    apply Forall2_lookup. rewrite Forall2_lookup in Hf. intros j.
    specialize (Hf j). destruct (decide (j = i)) as [->|Hne].
    + rewrite list_lookup_alter_eq. destruct Hf as [b cs (E1 & E2 & E3)|]; simpl; constructor.
      destruct (store_put_prefix n cs k v) as (F1 & F2 & F3); [lia|done|].
      rewrite F1, F2, F3. done.
    + rewrite list_lookup_alter_ne by done. done.
  - injection Hr as <-. split; [simpl; lia|]. simpl. apply Forall2_fmap_r.
    eapply Forall2_impl; [exact Hf|]. intros b cs (E1 & E2 & E3). simpl. rewrite length_app. simpl.
    split_and!; [done|lia|]. rewrite take_app_le by lia. done.
  - unfold snapshotmulti_RevertToSnapshot in Hr. apply rbind_ok in Hr as (l & Hl & Hr).
    injection Hr as <-. specialize (Ht t eq_refl). split; [done|]. simpl.
    destruct (stores s) as [|c0 l0] eqn:Es.
    { simpl in Hl. injection Hl as <-. by apply Forall2_nil_inv_r in Hf as ->. }
    rewrite <- Es in *. destruct (revert_all_inv _ _ _ Hl) as [Ht0 Hlt]; [by rewrite Es|].
    rewrite revert_all_ok in Hl by done. injection Hl as <-. apply Forall2_fmap_r.
    rewrite Forall_forall in Hlt. apply Forall2_same_length_lookup.
    pose proof (Forall2_length _ _ _ Hf). split; [done|].
    intros j b cs Hb Hc. rewrite Forall2_lookup in Hf. specialize (Hf j). rewrite Hb, Hc in Hf.
    inversion Hf as [? ? (E1 & E2 & E3)|]. subst. simpl.
    assert (t < Z.of_nat (length (cacheStores cs))) by (apply Hlt; by eapply list_elem_of_lookup_2).
    rewrite length_take, take_take. split_and!; [done|lia|]. by rewrite Nat.min_l by lia.
Qed.

Lemma multi_above_run n base ops s s' :
  0 <= n -> above n base s -> Forall (fun o => forall t, o = OpRevert t -> n < t) ops ->
  run_ops s ops = Ok s' -> above n base s'.
Proof.
  intros Hn Ha Hops. revert s Ha. induction Hops as [|o ops Ho Hops IH]; intros s Ha Hr; simpl in Hr.
  - by injection Hr as <-.
  - apply rbind_ok in Hr as (s1 & Hs & Hr). eapply IH; [|exact Hr]. by eapply multi_above_op.
Qed.

(**  Whatever is written, snapshot and reverted above a snapshot of the
    module stores, reverting to the snapshot never panics and gives back
    exactly the stores there were, all of them together. *)
Theorem snapshot_revert_exact s s1 id ops s2 :
  multi_wf s -> snapshotmulti_Snapshot s = (s1, id) -> run_ops s1 ops = Ok s2 ->
  Forall (fun o => forall t, o = OpRevert t -> id < t) ops ->
  snapshotmulti_RevertToSnapshot s2 id = Ok s.
Proof.
  intros [Hh Hw] Hs Hr Hops. unfold snapshotmulti_Snapshot in Hs. injection Hs as <- <-.
  replace (head s + 1 - 1) with (head s) in * by lia.
  assert (above (head s) (stores s) (mkMulti (map (fun cs => (snapshotkv_Snapshot cs).1) (stores s)) (head s + 1)))
    as Ha.
  { split; [simpl; lia|]. simpl. apply Forall2_fmap_r, Forall_Forall2_diag.
    eapply Forall_impl; [exact Hw|]. intros cs Hcs. simpl in *. rewrite length_app. simpl.
    split_and!; [done|lia|]. rewrite take_app_le by lia. apply take_ge. lia. }
  apply (multi_above_run _ _ _ _ _ Hh Ha Hops) in Hr as [Hlt Hf]. unfold snapshotmulti_RevertToSnapshot.
  rewrite revert_all_ok; [|done|].
  - simpl. f_equal. destruct s as [st hd]. simpl in *. f_equal. clear - Hf.
    induction Hf as [|b cs bs css (E1 & _ & E3) _ IH]; simpl; [done|].
    rewrite IH, E1, E3. by destruct b.
  - clear - Hf Hlt. induction Hf as [|b cs bs css (_ & E2 & _) _ IH]; constructor; auto. lia.
Qed.

(**  Writing the stores out makes the content below every one of them what
    it read before, and leaves stores without pending writes on top. *)
Theorem Write_flushes s roots i c :
  GetKVStore s roots i = Ok c ->
  exists root' c', (Write s roots).2 !! i = Some root' /\
    GetKVStore (Write s roots).1 (Write s roots).2 i = Ok c' /\
    forall k, root' k = c k /\ c' k = c k.
Proof.
  unfold GetKVStore, Write. simpl. intros Hc.
  destruct (stores s !! i) as [cs|] eqn:Hcs; [|done]. destruct (roots !! i) as [root|] eqn:Hroot; [|done].
  injection Hc as <-. rewrite !list_lookup_fmap.
  assert (zip_with snapshotkv_Commit (stores s) roots !! i = Some (snapshotkv_Commit cs root)) as ->.
  { rewrite lookup_zip_with, Hcs, Hroot. done. }
  simpl. eexists _, _. split; [done|]. split; [done|]. intros k. apply snapshotkv_Commit_content.
Qed.
End thms.

(** * Layers as finite maps *)

#[global] Instance ModelCacheKV : CacheKV := {|
  layer := gmap bytes (option bytes);
  l_new := ∅;
  l_get l p k := match l !! k with Some v => v | None => p k end;
  l_put l k v := <[k := v]> l;
  l_writes l := map_to_list l;
|}.

#[global] Instance ModelCacheKVLaws : CacheKVLaws.
Proof.
  constructor; simpl.
  - intros p k. by rewrite lookup_empty.
  - intros l p k v k'. case_decide as Hk; [subst; by rewrite lookup_insert_eq|by rewrite lookup_insert_ne].
  - intros l p q k Hpq. by destruct (l !! k).
  - intros l p k.
    assert (forall ws (c : content), NoDup ws.*1 ->
      foldl (fun c w => put c w.1 w.2) c ws k =
      match list_to_map (M:=gmap bytes (option bytes)) ws !! k with Some v => v | None => c k end) as Hw.
    { induction ws as [|[k1 v1] ws IH]; intros c Hnd; simpl; [by rewrite lookup_empty|].
      apply NoDup_cons in Hnd as [Hn Hnd]. rewrite IH by done. unfold put. simpl.
      destruct (decide (k = k1)) as [->|Hne].
      - rewrite lookup_insert_eq. rewrite not_elem_of_list_to_map_1 by done. done.
      - rewrite lookup_insert_ne by done. done. }
    rewrite Hw by apply NoDup_fst_map_to_list. by rewrite list_to_map_to_list.
Qed.

Definition w_multi : MultiStore := snapshotmulti_NewStore [ {[ [1] := Some [9] ]}; ∅ ].

Lemma snapshot_revert_exact_witness :
  snapshotmulti_RevertToSnapshot
    (multi_put (multi_put (snapshotmulti_Snapshot w_multi).1 0 [1] None) 1 [2] (Some [5])) 0 = Ok w_multi.
Proof.
  refine (snapshot_revert_exact w_multi (snapshotmulti_Snapshot w_multi).1 0
    [OpPut 0 [1] None; OpSnapshot; OpPut 1 [7] None; OpRevert 1; OpPut 1 [2] (Some [5])] _ _ _ _ _).
  - split; [done|]. by repeat constructor.
  - reflexivity.
  - vm_compute. reflexivity.
  - repeat constructor; intros t [= <-]; lia.
Defined.

Lemma Write_flushes_witness :
  exists root', (Write (multi_put (snapshotmulti_Snapshot w_multi).1 0 [2] (Some [4]))
      [fun _ => None; fun _ => None]).2 !! 0%nat = Some root' /\
    root' [1] = Some [9] /\ root' [2] = Some [4].
Proof.
  destruct (Write_flushes (multi_put (snapshotmulti_Snapshot w_multi).1 0 [2] (Some [4]))
    [fun _ => None; fun _ => None] 0 _ eq_refl) as (root' & c' & Hr & _ & Hk).
  exists root'. split; [exact Hr|]. split; rewrite (proj1 (Hk _)); vm_compute; reflexivity.
Defined.
