(* ===== verification/StateDB.v ===== *)
(** x/vm/statedb: the journaled state of one Ethereum transaction
    ([statedb.go], [journal.go], [state_object.go], [access_list.go],
    [transient_storage.go], [config.go]).

    The state database holds live account objects over the keeper's store, a
    journal of the changes with the data to undo them, the access list, the
    transient storage, the logs and the refund counter, and the cached context
    a precompile call works on.  Addresses and hashes are the numbers their
    20 and 32 bytes spell, so that [bytes.Compare] is [Z.compare].

    A [*stateObject] is reached through the map of live objects only, and an
    object that was replaced is kept by nothing but the journal entry that
    puts it back; a method of an object is therefore a method of the database
    at the object's address. *)
From S2P Require Import Prelude KVStore Sdk.

Abbreviation Address := Z (only parsing).
Abbreviation Hash := Z (only parsing).

(** * Accounts as the keeper sees them ([Account]; nil pointers are [None]) *)

Record Account := mkAccount {
  Nonce : Z;
  Balance : option Z;
  CodeHash : option Hash;
}.

(** [crypto.Keccak256Hash] of go-ethereum, with the hash of no bytes. *)
Class Keccak := { Keccak256Hash : bytes -> Hash }.

(** The storage behind the database ([Keeper] in [interfaces.go]).  [KS] is the
    content of a context's stores. *)
Class StateKeeper := {
  KS : Type;
  (** on the left the message it panics with *)
  k_GetAccount : KS -> Address -> string + option Account;
  k_GetState : KS -> Address -> Hash -> Hash;
  k_GetCode : KS -> Hash -> option bytes;
  k_ForEachStorage : KS -> Address -> list (Hash * Hash);   (** in iteration order *)
  k_SetAccount : Address -> Account -> M KS unit;
  k_DeleteState : Address -> Hash -> KS -> KS;
  k_SetState : Address -> Hash -> bytes -> KS -> KS;
  k_DeleteCode : Hash -> KS -> KS;
  k_SetCode : Hash -> bytes -> KS -> KS;
  k_DeleteAccount : Address -> M KS unit;
}.

Definition uint256 (n : Z) : Z := n mod 2 ^ 256.
Definition MaxPrecompileCalls : Z := 7.

(** * Access list ([access_list.go]) *)

Module AccessList.
Record accessList := mkAL { addresses : gmap Address Z; slots : list (gset Hash) }.

Definition newAccessList : accessList := mkAL ∅ [].

Definition ContainsAddress (al : accessList) (a : Address) : bool :=
  bool_decide (is_Some (addresses al !! a)).

Definition Contains (al : accessList) (a : Address) (slot : Hash) : res (bool * bool) :=
  match addresses al !! a with
  | None => Ok (false, false)
  | Some idx =>
      if idx =? -1 then Ok (true, false)
      else match slots al !! Z.to_nat idx with
           | Some m => Ok (true, bool_decide (slot ∈ m))
           | None => Panic "index out of range"
           end
  end.

Definition AddAddress (al : accessList) (a : Address) : accessList * bool :=
  match addresses al !! a with
  | Some _ => (al, false)
  | None => (mkAL (<[a := -1]> (addresses al)) (slots al), true)
  end.

Definition AddSlot (al : accessList) (a : Address) (slot : Hash)
    : res (accessList * (bool * bool)) :=
  let fresh addrPresent :=
    Ok (mkAL (<[a := Z.of_nat (length (slots al))]> (addresses al)) (slots al ++ [{[slot]}]),
        (negb addrPresent, true)) in
  match addresses al !! a with
  | None => fresh false
  | Some idx =>
      if idx =? -1 then fresh true
      else match slots al !! Z.to_nat idx with
           | None => Panic "index out of range"
           | Some slotmap =>
               if bool_decide (slot ∈ slotmap) then Ok (al, (false, false))
               else Ok (mkAL (addresses al)
                          (<[Z.to_nat idx := {[slot]} ∪ slotmap]> (slots al)), (false, true))
           end
  end.

Definition DeleteSlot (al : accessList) (a : Address) (slot : Hash) : res accessList :=
  match addresses al !! a with
  | None => Panic "reverting slot change, address not present in list"
  | Some idx =>
      match (if idx <? 0 then None else slots al !! Z.to_nat idx) with
      | None => Panic "index out of range"
      | Some slotmap =>
          let slotmap := slotmap ∖ {[slot]} in
          if bool_decide (slotmap = ∅)
          then Ok (mkAL (<[a := -1]> (addresses al)) (take (Z.to_nat idx) (slots al)))
          else Ok (mkAL (addresses al) (<[Z.to_nat idx := slotmap]> (slots al)))
      end
  end.

Definition DeleteAddress (al : accessList) (a : Address) : accessList :=
  mkAL (delete a (addresses al)) (slots al).
End AccessList.
Import AccessList.

(** * Transient storage ([transient_storage.go]) *)

Module Transient.
Abbreviation transientStorage := (gmap Z (gmap Z Z)) (only parsing).
Definition newTransientStorage : transientStorage := ∅.

Definition Set_ (t : transientStorage) (a : Address) (key value : Hash) : transientStorage :=
  if value =? 0 then
    match t !! a with
    | None => t
    | Some st =>
        let st := delete key st in
        if bool_decide (st = ∅) then delete a t else <[a := st]> t
    end
  else <[a := <[key := value]> (default ∅ (t !! a))]> t.

Definition Get (t : transientStorage) (a : Address) (key : Hash) : Hash :=
  match t !! a with
  | None => 0
  | Some st => default 0 (st !! key)
  end.
End Transient.
Import Transient.

(** * Account objects ([state_object.go]) *)

Abbreviation Storage := (gmap Z Z) (only parsing).

(** [SortedKeys] and [sortedDirties] list the keys of a map in increasing order. *)
Definition SortedKeys {V} (m : gmap Z V) : list Z := merge_sort Z.le (map_to_list m).*1.

Record stateObject := mkObject {
  address : Address;
  nonce : Z;
  balance : Z;
  codehash : Hash;
  code : option bytes;
  originStorage : Storage;
  dirtyStorage : Storage;
  dirtyCode : bool;
  selfDestructed : bool;
  newContract : bool;
}.

Section objects.
Context `{Keccak}.

Definition EmptyCodeHash : Hash := Keccak256Hash [].
Definition IsEmptyCodeHash (h : Hash) : bool := h =? EmptyCodeHash.

Definition newObject (a : Address) (account : Account) : stateObject :=
  mkObject a (Nonce account) (default 0 (Balance account))
    (default EmptyCodeHash (CodeHash account)) None ∅ ∅ false false false.

Definition NewEmptyAccount : Account := mkAccount 0 (Some 0) (Some EmptyCodeHash).
Definition IsContract (acct : Account) : bool :=
  match CodeHash acct with Some h => negb (IsEmptyCodeHash h) | None => true end.

Definition empty (o : stateObject) : bool :=
  (nonce o =? 0) && (balance o =? 0) && IsEmptyCodeHash (codehash o).

Definition setBalance (v : Z) (o : stateObject) : stateObject :=
  mkObject (address o) (nonce o) v (codehash o) (code o) (originStorage o) (dirtyStorage o)
    (dirtyCode o) (selfDestructed o) (newContract o).
Definition setNonce (v : Z) (o : stateObject) : stateObject :=
  mkObject (address o) v (balance o) (codehash o) (code o) (originStorage o) (dirtyStorage o)
    (dirtyCode o) (selfDestructed o) (newContract o).
Definition setCode (h : Hash) (c : option bytes) (o : stateObject) : stateObject :=
  mkObject (address o) (nonce o) (balance o) h c (originStorage o) (dirtyStorage o)
    true (selfDestructed o) (newContract o).
Definition setState (key value : Hash) (o : stateObject) : stateObject :=
  mkObject (address o) (nonce o) (balance o) (codehash o) (code o) (originStorage o)
    (<[key := value]> (dirtyStorage o)) (dirtyCode o) (selfDestructed o) (newContract o).
Definition setDestructed (b : bool) (o : stateObject) : stateObject :=
  mkObject (address o) (nonce o) (balance o) (codehash o) (code o) (originStorage o)
    (dirtyStorage o) (dirtyCode o) b (newContract o).
Definition markSelfDestructed : stateObject -> stateObject := setDestructed true.
Definition setNewContract (b : bool) (o : stateObject) : stateObject :=
  mkObject (address o) (nonce o) (balance o) (codehash o) (code o) (originStorage o)
    (dirtyStorage o) (dirtyCode o) (selfDestructed o) b.
(** The two caches that reads fill. *)
Definition cacheCode (c : option bytes) (o : stateObject) : stateObject :=
  mkObject (address o) (nonce o) (balance o) (codehash o) c (originStorage o)
    (dirtyStorage o) (dirtyCode o) (selfDestructed o) (newContract o).
Definition cacheOrigin (key value : Hash) (o : stateObject) : stateObject :=
  mkObject (address o) (nonce o) (balance o) (codehash o) (code o)
    (<[key := value]> (originStorage o)) (dirtyStorage o) (dirtyCode o)
    (selfDestructed o) (newContract o).
Definition account (o : stateObject) : Account :=
  mkAccount (nonce o) (Some (balance o)) (Some (codehash o)).
End objects.

(** * Journal ([journal.go]) *)

Inductive JournalEntry :=
  | createObjectChange (a : Address)
  | resetObjectChange (prev : stateObject)
  | selfDestructChange (a : Address) (prev : bool) (prevbalance : Z)
  | balanceChange (a : Address) (prev : Z)
  | nonceChange (a : Address) (prev : Z)
  | storageChange (a : Address) (key prevalue : Hash)
  | transientStorageChange (a : Address) (key prevalue : Hash)
  | codeChange (a : Address) (prevcode : option bytes) (prevhash : Hash)
  | refundChange (prev : Z)
  | addLogChange
  | accessListAddAccountChange (a : Address)
  | accessListAddSlotChange (a : Address) (slot : Hash)
  | precompileCallChange (snapshot : Z) (events : list event)
  | createContractChange (a : Address).

Definition Dirtied (e : JournalEntry) : option Address :=
  match e with
  | createObjectChange a | selfDestructChange a _ _ | balanceChange a _
  | nonceChange a _ | codeChange a _ _ | storageChange a _ _ => Some a
  | resetObjectChange _ | transientStorageChange _ _ _ | refundChange _ | addLogChange
  | accessListAddAccountChange _ | accessListAddSlotChange _ _
  | precompileCallChange _ _ | createContractChange _ => None
  end.

Record journal := mkJournal { entries : list JournalEntry; dirties : gmap Address Z }.
Definition newJournal : journal := mkJournal [] ∅.

Definition inc (d : gmap Address Z) (o : option Address) : gmap Address Z :=
  match o with Some a => <[a := default 0 (d !! a) + 1]> d | None => d end.
Definition dec1 (d : gmap Address Z) (o : option Address) : gmap Address Z :=
  match o with
  | Some a => let n := default 0 (d !! a) - 1 in if n =? 0 then delete a d else <[a := n]> d
  | None => d
  end.

Definition journal_append (e : JournalEntry) (j : journal) : journal :=
  mkJournal (entries j ++ [e]) (inc (dirties j) (Dirtied e)).
Definition sortedDirties (j : journal) : list Address := SortedKeys (dirties j).

(** * The database ([statedb.go], [config.go]) *)

Record TxConfig := mkTxConfig { BlockHash : Hash; TxHash : Hash; TxIndex : Z; LogIndex : Z }.
Definition NewTxConfig (bhash thash : Hash) (txIndex logIndex : Z) : TxConfig :=
  mkTxConfig bhash thash txIndex logIndex.
Definition NewEmptyTxConfig (bhash : Hash) : TxConfig := mkTxConfig bhash 0 0 0.

Record Log := mkLog {
  lg_Address : Address; lg_Topics : list Hash; lg_Data : bytes; lg_BlockNumber : Z;
  lg_TxHash : Hash; lg_BlockHash : Hash; lg_TxIndex : Z; lg_Index : Z;
}.

(** [revision]: an auto-increment id and a journal index. *)
Record revision := mkRevision { id : Z; journalIndex : nat }.

(** What [writeCache] emits when it is called: the events of the cached
    context at that time, or the events [RevertMultiStore] was given. *)
Inductive pending := CacheEvents | GivenEvents (events : list event).

Section db.
Context `{Keccak, StateKeeper}.

(** The cached context: its layered store, bottom first, where [None] is a
    layer without pending writes and [Some] the content below with the pending
    writes applied; and the events of its event manager. *)
Record CacheCtx := mkCache { cc_layers : list (option KS); cc_events : list event }.

Record StateDB := mkStateDB {
  ctx : KS;
  ctx_events : list event;
  cacheCtx : option CacheCtx;
  writeCache : option pending;
  transient : transientStorage;
  jrnl : journal;
  validRevisions : list revision;
  nextRevisionID : Z;
  stateObjects : gmap Address stateObject;
  txConfig : TxConfig;
  refund : Z;
  logs : list Log;
  access : accessList;
  precompileCallsCounter : Z;
}.

Definition New (c : KS) (evs : list event) (txc : TxConfig) : StateDB :=
  mkStateDB c evs None None newTransientStorage newJournal [] 0 ∅ txc 0 [] newAccessList 0.

(** Field updates. *)
Definition with_ctx (c : KS) (s : StateDB) : StateDB :=
  mkStateDB c (ctx_events s) (cacheCtx s) (writeCache s) (transient s) (jrnl s)
    (validRevisions s) (nextRevisionID s) (stateObjects s) (txConfig s) (refund s) (logs s)
    (access s) (precompileCallsCounter s).
Definition with_events (e : list event) (s : StateDB) : StateDB :=
  mkStateDB (ctx s) e (cacheCtx s) (writeCache s) (transient s) (jrnl s)
    (validRevisions s) (nextRevisionID s) (stateObjects s) (txConfig s) (refund s) (logs s)
    (access s) (precompileCallsCounter s).
Definition with_cache (c : option CacheCtx) (s : StateDB) : StateDB :=
  mkStateDB (ctx s) (ctx_events s) c (writeCache s) (transient s) (jrnl s)
    (validRevisions s) (nextRevisionID s) (stateObjects s) (txConfig s) (refund s) (logs s)
    (access s) (precompileCallsCounter s).
Definition with_write (w : option pending) (s : StateDB) : StateDB :=
  mkStateDB (ctx s) (ctx_events s) (cacheCtx s) w (transient s) (jrnl s)
    (validRevisions s) (nextRevisionID s) (stateObjects s) (txConfig s) (refund s) (logs s)
    (access s) (precompileCallsCounter s).
Definition with_transient (t : transientStorage) (s : StateDB) : StateDB :=
  mkStateDB (ctx s) (ctx_events s) (cacheCtx s) (writeCache s) t (jrnl s)
    (validRevisions s) (nextRevisionID s) (stateObjects s) (txConfig s) (refund s) (logs s)
    (access s) (precompileCallsCounter s).
Definition with_jrnl (j : journal) (s : StateDB) : StateDB :=
  mkStateDB (ctx s) (ctx_events s) (cacheCtx s) (writeCache s) (transient s) j
    (validRevisions s) (nextRevisionID s) (stateObjects s) (txConfig s) (refund s) (logs s)
    (access s) (precompileCallsCounter s).
Definition with_revisions (l : list revision) (n : Z) (s : StateDB) : StateDB :=
  mkStateDB (ctx s) (ctx_events s) (cacheCtx s) (writeCache s) (transient s) (jrnl s)
    l n (stateObjects s) (txConfig s) (refund s) (logs s)
    (access s) (precompileCallsCounter s).
Definition with_objects (m : gmap Address stateObject) (s : StateDB) : StateDB :=
  mkStateDB (ctx s) (ctx_events s) (cacheCtx s) (writeCache s) (transient s) (jrnl s)
    (validRevisions s) (nextRevisionID s) m (txConfig s) (refund s) (logs s)
    (access s) (precompileCallsCounter s).
Definition with_refund (r : Z) (s : StateDB) : StateDB :=
  mkStateDB (ctx s) (ctx_events s) (cacheCtx s) (writeCache s) (transient s) (jrnl s)
    (validRevisions s) (nextRevisionID s) (stateObjects s) (txConfig s) r (logs s)
    (access s) (precompileCallsCounter s).
Definition with_logs (l : list Log) (s : StateDB) : StateDB :=
  mkStateDB (ctx s) (ctx_events s) (cacheCtx s) (writeCache s) (transient s) (jrnl s)
    (validRevisions s) (nextRevisionID s) (stateObjects s) (txConfig s) (refund s) l
    (access s) (precompileCallsCounter s).
Definition with_access (al : accessList) (s : StateDB) : StateDB :=
  mkStateDB (ctx s) (ctx_events s) (cacheCtx s) (writeCache s) (transient s) (jrnl s)
    (validRevisions s) (nextRevisionID s) (stateObjects s) (txConfig s) (refund s) (logs s)
    al (precompileCallsCounter s).
Definition with_counter (n : Z) (s : StateDB) : StateDB :=
  mkStateDB (ctx s) (ctx_events s) (cacheCtx s) (writeCache s) (transient s) (jrnl s)
    (validRevisions s) (nextRevisionID s) (stateObjects s) (txConfig s) (refund s) (logs s)
    (access s) n.

Definition append (e : JournalEntry) : M StateDB unit :=
  modify (fun s => with_jrnl (journal_append e (jrnl s)) s).
Definition setStateObject (o : stateObject) : M StateDB unit :=
  modify (fun s => with_objects (<[address o := o]> (stateObjects s)) s).

(** ** Objects *)

Definition getStateObject (a : Address) : M StateDB (option stateObject) :=
  let! s := gets (fun s => s) in
  match stateObjects s !! a with
  | Some obj => ret (Some obj)
  | None =>
      match k_GetAccount (ctx s) a with
      | inl p => panic p
      | inr None => ret None
      | inr (Some acct) =>
          let obj := newObject a acct in
          do! setStateObject obj; ret (Some obj)
      end
  end.

(** [prev] is the object that was replaced. *)
Definition createObject (a : Address) : M StateDB (stateObject * option stateObject) :=
  let! prev := getStateObject a in
  let newobj := newObject a (mkAccount 0 None None) in
  do! (match prev with
       | None => append (createObjectChange a)
       | Some p => append (resetObjectChange p)
       end);
  do! setStateObject newobj;
  ret (newobj, prev).

Definition getOrNewStateObject (a : Address) : M StateDB stateObject :=
  let! o := getStateObject a in
  match o with
  | Some o => ret o
  | None => let! r := createObject a in ret r.1
  end.

(** A write through the pointer to the live object [o]. *)
Definition update (o : stateObject) (f : stateObject -> stateObject) : M StateDB unit :=
  modify (fun s => with_objects (<[address o := f o]> (stateObjects s)) s).

Definition object_SetBalance (o : stateObject) (amount : Z) : M StateDB Z :=
  do! append (balanceChange (address o) (balance o));
  do! update o (setBalance amount);
  ret (balance o).
Definition object_AddBalance (o : stateObject) (amount : Z) : M StateDB Z :=
  if amount =? 0 then ret (balance o)
  else object_SetBalance o (uint256 (balance o + amount)).
Definition object_SubBalance (o : stateObject) (amount : Z) : M StateDB Z :=
  if amount =? 0 then ret (balance o)
  else object_SetBalance o (uint256 (balance o - amount)).
Definition object_SetNonce (o : stateObject) (n : Z) : M StateDB unit :=
  do! append (nonceChange (address o) (nonce o));
  update o (setNonce n).

(** [Code] with the object after its cache was filled. *)
Definition object_Code (o : stateObject) : M StateDB (option bytes * stateObject) :=
  match code o with
  | Some c => ret (Some c, o)
  | None =>
      if IsEmptyCodeHash (codehash o) then ret (None, o)
      else
        let! s := gets (fun s => s) in
        let c := k_GetCode (ctx s) (codehash o) in
        do! update o (cacheCode c);
        ret (c, cacheCode c o)
  end.
Definition object_SetCode (o : stateObject) (h : Hash) (c : option bytes) : M StateDB unit :=
  let! r := object_Code o in
  let o := r.2 in
  do! append (codeChange (address o) r.1 (codehash o));
  update o (setCode h c).

Definition object_GetCommittedState (o : stateObject) (key : Hash)
    : M StateDB (Hash * stateObject) :=
  match originStorage o !! key with
  | Some v => ret (v, o)
  | None =>
      let! s := gets (fun s => s) in
      let v := k_GetState (ctx s) (address o) key in
      do! update o (cacheOrigin key v);
      ret (v, cacheOrigin key v o)
  end.
Definition object_GetState (o : stateObject) (key : Hash) : M StateDB (Hash * stateObject) :=
  match dirtyStorage o !! key with
  | Some v => ret (v, o)
  | None => object_GetCommittedState o key
  end.
Definition object_SetState (o : stateObject) (key value : Hash) : M StateDB Hash :=
  let! r := object_GetState o key in
  let prev := r.1 in let o := r.2 in
  if prev =? value then ret prev
  else
    do! append (storageChange (address o) key prev);
    do! update o (setState key value);
    ret prev.

(** ** Getters *)

Definition Exist (a : Address) : M StateDB bool :=
  let! o := getStateObject a in ret (bool_decide (is_Some o)).
Definition Empty (a : Address) : M StateDB bool :=
  let! o := getStateObject a in
  ret (match o with None => true | Some o => empty o end).
Definition GetBalance (a : Address) : M StateDB Z :=
  let! o := getStateObject a in
  ret (match o with Some o => balance o | None => 0 end).
Definition GetNonce (a : Address) : M StateDB Z :=
  let! o := getStateObject a in
  ret (match o with Some o => nonce o | None => 0 end).
Definition GetCode (a : Address) : M StateDB (option bytes) :=
  let! o := getStateObject a in
  match o with
  | Some o => let! r := object_Code o in ret r.1
  | None => ret None
  end.
Definition GetCodeSize (a : Address) : M StateDB Z :=
  let! c := GetCode a in ret (Z.of_nat (length (default [] c))).
Definition GetCodeHash (a : Address) : M StateDB Hash :=
  let! o := getStateObject a in
  ret (match o with Some o => codehash o | None => 0 end).
Definition GetState (a : Address) (key : Hash) : M StateDB Hash :=
  let! o := getStateObject a in
  match o with
  | Some o => let! r := object_GetState o key in ret r.1
  | None => ret 0
  end.
Definition GetCommittedState (a : Address) (key : Hash) : M StateDB Hash :=
  let! o := getStateObject a in
  match o with
  | Some o => let! r := object_GetCommittedState o key in ret r.1
  | None => ret 0
  end.
Definition HasSelfDestructed (a : Address) : M StateDB bool :=
  let! o := getStateObject a in
  ret (match o with Some o => selfDestructed o | None => false end).
Definition GetRefund : M StateDB Z := gets refund.
Definition Logs : M StateDB (list Log) := gets logs.

(** The callback returns the new accumulator and whether to go on; a value of
    the store is 32 bytes long, so its length is never zero. *)
Fixpoint each_slot {A} (dirty : Storage) (cb : A -> Hash -> Hash -> A * bool) (acc : A)
    (l : list (Hash * Hash)) : A :=
  match l with
  | [] => acc
  | (key, value) :: l =>
      let value := default value (dirty !! key) in
      let '(acc, go_on) := cb acc key value in
      if go_on then each_slot dirty cb acc l else acc
  end.
Definition ForEachStorage {A} (a : Address) (cb : A -> Hash -> Hash -> A * bool) (acc : A)
    : M StateDB A :=
  let! so := getStateObject a in
  match so with
  | None => ret acc
  | Some so =>
      let! s := gets (fun s => s) in
      ret (each_slot (dirtyStorage so) cb acc (k_ForEachStorage (ctx s) a))
  end.

(** ** Setters *)

Definition AddBalance (a : Address) (amount : Z) : M StateDB Z :=
  let! o := getOrNewStateObject a in object_AddBalance o amount.
Definition SubBalance (a : Address) (amount : Z) : M StateDB Z :=
  let! o := getOrNewStateObject a in
  if amount =? 0 then ret (balance o) else object_SubBalance o amount.
Definition SetNonce (a : Address) (n : Z) : M StateDB unit :=
  let! o := getOrNewStateObject a in object_SetNonce o n.
Definition SetCode (a : Address) (c : option bytes) : M StateDB (option bytes) :=
  let! o := getOrNewStateObject a in
  do! object_SetCode o (Keccak256Hash (default [] c)) c;
  ret (code o).
Definition SetState (a : Address) (key value : Hash) : M StateDB Hash :=
  let! o := getOrNewStateObject a in object_SetState o key value.

Definition CreateAccount (a : Address) : M StateDB unit :=
  let! r := createObject a in
  match r.2 with
  | Some prev => update r.1 (setBalance (balance prev))
  | None => ret tt
  end.

Definition CreateContract (a : Address) : M StateDB unit :=
  let! o := getStateObject a in
  match o with
  | None => panic "nil pointer dereference"
  | Some o =>
      if newContract o then ret tt
      else
        do! update o (setNewContract true);
        append (createContractChange a)
  end.

Definition SelfDestruct (a : Address) : M StateDB Z :=
  let! o := getStateObject a in
  match o with
  | None => ret 0
  | Some o =>
      do! append (selfDestructChange a (selfDestructed o) (balance o));
      do! update o (fun o => setBalance 0 (markSelfDestructed o));
      ret (balance o)
  end.
Definition SelfDestruct6780 (a : Address) : M StateDB (Z * bool) :=
  let! o := getStateObject a in
  match o with
  | None => ret (0, false)
  | Some o =>
      if newContract o
      then let! b := SelfDestruct a in ret (b, true)
      else ret (balance o, false)
  end.

Definition AddLog (l : Log) : M StateDB unit :=
  do! append addLogChange;
  modify (fun s =>
    let c := txConfig s in
    with_logs (logs s ++ [mkLog (lg_Address l) (lg_Topics l) (lg_Data l) (lg_BlockNumber l) (TxHash c)
      (BlockHash c) (TxIndex c) (wrap64 (LogIndex c + Z.of_nat (length (logs s))))]) s).

Definition AddRefund (gas : Z) : M StateDB unit :=
  let! r := gets refund in
  do! append (refundChange r);
  modify (fun s => with_refund (wrap64 (refund s + gas)) s).
Definition SubRefund (gas : Z) : M StateDB unit :=
  let! r := gets refund in
  do! append (refundChange r);
  if r <? gas then panic "Refund counter below zero"
  else modify (fun s => with_refund (refund s - gas) s).

Definition setTransientState (a : Address) (key value : Hash) : M StateDB unit :=
  modify (fun s => with_transient (Set_ (transient s) a key value) s).
Definition GetTransientState (a : Address) (key : Hash) : M StateDB Hash :=
  gets (fun s => Get (transient s) a key).
Definition SetTransientState (a : Address) (key value : Hash) : M StateDB unit :=
  let! prev := GetTransientState a key in
  if prev =? value then ret tt
  else
    do! append (transientStorageChange a key prev);
    setTransientState a key value.

Definition AddAddressToAccessList (a : Address) : M StateDB unit :=
  let! s := gets (fun s => s) in
  let '(al, added) := AddAddress (access s) a in
  do! modify (with_access al);
  if added then append (accessListAddAccountChange a) else ret tt.
Definition AddSlotToAccessList (a : Address) (slot : Hash) : M StateDB unit :=
  let! s := gets (fun s => s) in
  let! r := lift (AddSlot (access s) a slot) in
  do! modify (with_access r.1);
  do! (if r.2.1 then append (accessListAddAccountChange a) else ret tt);
  if r.2.2 then append (accessListAddSlotChange a slot) else ret tt.
Definition AddressInAccessList (a : Address) : M StateDB bool :=
  gets (fun s => ContainsAddress (access s) a).
Definition SlotInAccessList (a : Address) (slot : Hash) : M StateDB (bool * bool) :=
  let! s := gets (fun s => s) in lift (Contains (access s) a slot).

(** [params.Rules] and the transaction's access list. *)
Record Rules := mkRules { IsEIP2929 : bool; IsEIP4762 : bool; IsShanghai : bool }.
Definition AccessTuple : Type := Address * list Hash.

Fixpoint add_slots (al : accessList) (a : Address) (keys : list Hash) : res accessList :=
  match keys with
  | [] => Ok al
  | key :: keys => let? r := AddSlot al a key in add_slots r.1 a keys
  end.
Fixpoint add_tuples (al : accessList) (l : list AccessTuple) : res accessList :=
  match l with
  | [] => Ok al
  | (a, keys) :: l =>
      let? al := add_slots (AddAddress al a).1 a keys in add_tuples al l
  end.
Definition prepared_list (rules : Rules) (sender coinbase : Address) (dst : option Address)
    (precompiles : list Address) (l : list AccessTuple) : res accessList :=
  let al := (AddAddress newAccessList sender).1 in
  let al := match dst with Some d => (AddAddress al d).1 | None => al end in
  let al := foldl (fun al a => (AddAddress al a).1) al precompiles in
  let? al := add_tuples al l in
  Ok (if IsShanghai rules then (AddAddress al coinbase).1 else al).
Definition Prepare (rules : Rules) (sender coinbase : Address) (dst : option Address)
    (precompiles : list Address) (l : list AccessTuple) : M StateDB unit :=
  if IsEIP2929 rules && IsEIP4762 rules
  then panic "eip2929 and eip4762 are both activated"
  else
    do! (if IsEIP2929 rules then
           let! al := lift (prepared_list rules sender coinbase dst precompiles l) in
           modify (with_access al)
         else ret tt);
    modify (with_transient newTransientStorage).

Definition Finalise (deleteEmptyObjects : bool) : M StateDB unit :=
  modify (fun s => with_objects
    (foldl (fun m a =>
       match m !! a with
       | None => m
       | Some o =>
           if selfDestructed o || (deleteEmptyObjects && empty o) then delete (address o) m else m
       end) (stateObjects s) (map_to_list (dirties (jrnl s))).*1) s).

(** ** The cached context of precompile calls *)

(** What the top of the layered store reads. *)
Definition layers_view (c : KS) (ls : list (option KS)) : KS :=
  foldl (fun below l => default below l) c ls.
Definition layers_set (ls : list (option KS)) (v : KS) : list (option KS) :=
  take (length ls - 1) ls ++ [Some v].

Definition cache_view (s : StateDB) : KS :=
  match cacheCtx s with Some cc => layers_view (ctx s) (cc_layers cc) | None => ctx s end.
Definition set_cache_view (v : KS) (s : StateDB) : StateDB :=
  with_cache (option_map (fun cc => mkCache (layers_set (cc_layers cc) v) (cc_events cc))
    (cacheCtx s)) s.

(** [cache] opens a cached context with an event manager of its own. *)
Definition GetCacheContext : M StateDB unit :=
  modify (fun s =>
    match writeCache s with
    | Some _ => s
    | None => with_write (Some CacheEvents) (with_cache (Some (mkCache [None] [])) s)
    end).

Definition MultiStoreSnapshot : M StateDB Z :=
  let! c := gets cacheCtx in
  match c with
  | None => panic "nil pointer dereference"
  | Some cc =>
      do! modify (with_cache (Some (mkCache (cc_layers cc ++ [None]) (cc_events cc))));
      ret (Z.of_nat (length (cc_layers cc)) - 1)
  end.

Definition RevertMultiStore (snapshot : Z) (events : list event) : M StateDB unit :=
  let! c := gets cacheCtx in
  match c with
  | None => panic "nil pointer dereference"
  | Some cc =>
      if (snapshot <? 0) || (Z.of_nat (length (cc_layers cc)) - 1 <=? snapshot)
      then panic "snapshot index out of bound"
      else
        modify (fun s => with_write (Some (GivenEvents events))
          (with_cache (Some (mkCache (take (Z.to_nat (snapshot + 1)) (cc_layers cc)) (cc_events cc))) s))
  end.

(** The call counter is a [uint8]. *)
Definition AddPrecompileFn (a : Address) (snapshot : Z) (events : list event) : M StateDB unit :=
  do! getOrNewStateObject a;
  do! append (precompileCallChange snapshot events);
  do! modify (fun s => with_counter ((precompileCallsCounter s + 1) mod 256) s);
  let! n := gets precompileCallsCounter in
  if MaxPrecompileCalls <? n then fail ErrOther "max calls to precompiles reached" else ret tt.

(** ** Undoing entries *)

(** [s.getStateObject(a).f()]: a nil object panics. *)
Definition on_object (a : Address) (f : stateObject -> stateObject) : M StateDB unit :=
  let! o := getStateObject a in
  match o with
  | None => panic "nil pointer dereference"
  | Some o => update o f
  end.

Definition Revert_entry (e : JournalEntry) : M StateDB unit :=
  match e with
  | createContractChange a => on_object a (setNewContract false)
  | precompileCallChange snapshot events => RevertMultiStore snapshot events
  | createObjectChange a =>
      modify (fun s => with_objects (delete a (stateObjects s)) s)
  | resetObjectChange prev => setStateObject prev
  | selfDestructChange a prev prevbalance =>
      let! o := getStateObject a in
      match o with
      | None => ret tt
      | Some o => update o (fun o => setBalance prevbalance (setDestructed prev o))
      end
  | balanceChange a prev => on_object a (setBalance prev)
  | nonceChange a prev => on_object a (setNonce prev)
  | codeChange a prevcode prevhash => on_object a (setCode prevhash prevcode)
  | storageChange a key prevalue => on_object a (setState key prevalue)
  | transientStorageChange a key prevalue => setTransientState a key prevalue
  | refundChange prev => modify (with_refund prev)
  | addLogChange =>
      let! l := gets logs in
      match l with
      | [] => panic "slice bounds out of range"
      | _ => modify (with_logs (take (length l - 1) l))
      end
  | accessListAddAccountChange a =>
      modify (fun s => with_access (DeleteAddress (access s) a) s)
  | accessListAddSlotChange a slot =>
      let! s := gets (fun s => s) in
      let! al := lift (DeleteSlot (access s) a slot) in
      modify (with_access al)
  end.

Definition undo_entry (e : JournalEntry) : M StateDB unit :=
  do! Revert_entry e;
  modify (fun s => with_jrnl (mkJournal (entries (jrnl s)) (dec1 (dirties (jrnl s)) (Dirtied e))) s).

(** [journal.Revert]: the entries from the last down to [snapshot]. *)
Definition journal_Revert (snapshot : nat) : M StateDB unit :=
  let! s := gets (fun s => s) in
  do! each undo_entry (rev (drop snapshot (entries (jrnl s))));
  modify (fun s => with_jrnl (mkJournal (take snapshot (entries (jrnl s))) (dirties (jrnl s))) s).

Definition Snapshot : M StateDB Z :=
  let! s := gets (fun s => s) in
  let id := nextRevisionID s in
  do! modify (with_revisions
    (validRevisions s ++ [mkRevision id (length (entries (jrnl s)))]) (id + 1));
  ret id.

(** [sort.Search]: the least index at which a monotone test holds, by bisection
    of [i, j).  The interval halves, so [n] steps are enough. *)
Fixpoint search (fuel : nat) (f : nat -> bool) (i j : nat) : nat :=
  match fuel with
  | O => i
  | S fuel =>
      if (i <? j)%nat then
        let h := Nat.div (i + j) 2 in
        if f h then search fuel f i h else search fuel f (h + 1) j
      else i
  end.
Definition sort_Search (n : nat) (f : nat -> bool) : nat := search n f 0 n.

Definition RevertToSnapshot (revid : Z) : M StateDB unit :=
  let! s := gets (fun s => s) in
  let rs := validRevisions s in
  let idx := sort_Search (length rs) (fun i =>
    match rs !! i with Some r => revid <=? id r | None => true end) in
  match rs !! idx with
  | None => panic "revision id cannot be reverted"
  | Some r =>
      if negb (id r =? revid) then panic "revision id cannot be reverted"
      else
        do! journal_Revert (journalIndex r);
        modify (fun s => with_revisions (take idx (validRevisions s)) (nextRevisionID s) s)
  end.

(** ** Commit *)

(** [common.Hash.Bytes] has 32 bytes. *)
Definition hash_bytes (h : Hash) : bytes := be 32 h.

Definition commit_slot (a : Address) (key value : Hash) : M KS unit :=
  let valueBytes := hash_bytes value in
  if (length valueBytes =? 0)%nat then modify (k_DeleteState a key)
  else modify (k_SetState a key valueBytes).

Definition commit_object (obj : stateObject) : M KS unit :=
  if selfDestructed obj then k_DeleteAccount (address obj)
  else
    do! (match code obj with
         | Some c =>
             if dirtyCode obj then
               if (length c =? 0)%nat then modify (k_DeleteCode (codehash obj))
               else modify (k_SetCode (codehash obj) c)
             else ret tt
         | None => ret tt
         end);
    do! k_SetAccount (address obj) (account obj);
    each (fun key => commit_slot (address obj) key (default 0 (dirtyStorage obj !! key)))
      (SortedKeys (dirtyStorage obj)).

Definition commit_dirty (objs : gmap Address stateObject) (a : Address) : M KS unit :=
  match objs !! a with
  | None => panic "nil pointer dereference"
  | Some obj => commit_object obj
  end.

(** [commitWithCtx] on the store of a context. *)
Definition commitWithCtx (s : StateDB) : M KS unit :=
  each (commit_dirty (stateObjects s)) (sortedDirties (jrnl s)).

Definition CommitWithCacheCtx : M StateDB unit :=
  let! s := gets (fun s => s) in
  match cacheCtx s with
  | None => if bool_decide (sortedDirties (jrnl s) = []) then ret tt
            else panic "nil pointer dereference"
  | Some _ => zoom cache_view set_cache_view (commitWithCtx s)
  end.

(** [writeCache()]: the events, then the pending writes of the layers, which
    are empty afterwards. *)
Definition run_writeCache : M StateDB unit :=
  modify (fun s =>
    match writeCache s, cacheCtx s with
    | Some w, Some cc =>
        let evs := match w with CacheEvents => cc_events cc | GivenEvents evs => evs end in
        with_cache (Some (mkCache [None] (cc_events cc)))
          (with_ctx (cache_view s) (with_events (ctx_events s ++ evs) s))
    | _, _ => s
    end).

Definition Commit : M StateDB unit :=
  do! run_writeCache;
  let! s := gets (fun s => s) in
  zoom ctx with_ctx (commitWithCtx s).

(** * Precompile calls (precompiles/common: the part of [RunSetup] that
    touches the state) *)

Definition RunSetup (p : Address) : M StateDB unit :=
  do! GetCacheContext;
  let! snapshot := MultiStoreSnapshot in
  let! c := gets cacheCtx in
  let events := match c with Some cc => cc_events cc | None => [] end in
  do! AddPrecompileFn p snapshot events;
  CommitWithCacheCtx.
End db.
