(* ===== verification/StateDBInv.v ===== *)
(** What undoing the journal gives back: the view of an object that its caches
    do not change, the preorder [restores] ("the second state shows what the
    first did"), for which the undo of every entry is monotone, and the
    invariant of the database. *)
From S2P Require Import Prelude KVStore Sdk StateDB.
Import AccessList Transient.

Section inv.
Context `{Keccak, StateKeeper}.
Implicit Types (s t : StateDB) (o : stateObject) (a : Z).

(** * Views *)

(** What the getters answer for an object over a store. *)
Definition view_code (c : KS) o : option bytes :=
  match code o with
  | Some b => Some b
  | None => if IsEmptyCodeHash (codehash o) then None else k_GetCode c (codehash o)
  end.
Definition view_committed (c : KS) o (k : Z) : Z :=
  match originStorage o !! k with Some v => v | None => k_GetState c (address o) k end.
Definition view_storage (c : KS) o (k : Z) : Z :=
  match dirtyStorage o !! k with Some v => v | None => view_committed c o k end.

(** Two objects no getter tells apart. *)
Record obj_eq (c : KS) o1 o2 : Prop := {
  oe_address : address o1 = address o2;
  oe_nonce : nonce o1 = nonce o2;
  oe_balance : balance o1 = balance o2;
  oe_codehash : codehash o1 = codehash o2;
  oe_destructed : selfDestructed o1 = selfDestructed o2;
  oe_new : newContract o1 = newContract o2;
  oe_code : view_code c o1 = view_code c o2;
  oe_committed : forall k, view_committed c o1 k = view_committed c o2 k;
  oe_storage : forall k, view_storage c o1 k = view_storage c o2 k;
}.

#[global] Instance obj_eq_equiv c : Equivalence (obj_eq c).
Proof.
  split.
  - intros o. by constructor.
  - intros o1 o2 []. by constructor.
  - intros o1 o2 o3 [] []. constructor; intros; etrans; eauto.
Qed.

(** The object a keeper account is loaded as. *)
Definition load (c : KS) a : res (option stateObject) :=
  match k_GetAccount c a with
  | inl p => Panic p
  | inr acct => Ok (option_map (newObject a) acct)
  end.

(** The object a database shows at an address: live, or loaded. *)
Definition obj_at s a : res (option stateObject) :=
  match stateObjects s !! a with
  | Some o => Ok (Some o)
  | None => load (ctx s) a
  end.

Definition obj_rel (c : KS) (r1 r2 : res (option stateObject)) : Prop :=
  match r1, r2 with
  | Ok (Some o1), Ok (Some o2) => obj_eq c o1 o2
  | Ok None, Ok None => True
  | Err e1, Err e2 => e1 = e2
  | Panic p1, Panic p2 => p1 = p2
  | _, _ => False
  end.

#[global] Instance obj_rel_equiv c : Equivalence (obj_rel c).
Proof.
  split.
  - intros [[o|]| |]; simpl; done.
  - intros [[o1|]| |] [[o2|]| |]; simpl; done.
  - intros [[o1|]| |] [[o2|]| |] [[o3|]| |]; simpl; try done; [apply transitivity|congruence|congruence].
Qed.

(** The layers of the cached context; a context that is not open reads as one
    layer without writes. *)
Definition layers_of s : list (option KS) :=
  match cacheCtx s with Some cc => cc_layers cc | None => [None] end.

(** [t] shows what [s] shows, and has at least its live objects. *)
Record restores s t : Prop := {
  rs_ctx : ctx t = ctx s;
  rs_events : ctx_events t = ctx_events s;
  rs_objects : forall a, obj_rel (ctx s) (obj_at s a) (obj_at t a);
  rs_live : dom (stateObjects s) ⊆ dom (stateObjects t);
  rs_dirties : dirties (jrnl t) = dirties (jrnl s);
  rs_refund : refund t = refund s;
  rs_logs : logs t = logs s;
  rs_config : txConfig t = txConfig s;
  rs_access : access t = access s;
  rs_transient : forall a k, Get (transient t) a k = Get (transient s) a k;
  rs_layers : layers_of t = layers_of s;
}.

#[global] Instance restores_preorder : PreOrder restores.
Proof.
  split.
  - intros s. constructor; done || reflexivity.
  - intros s t u [] []. constructor; try congruence.
    + intros a. etrans; [eauto|]. replace (ctx s) with (ctx t) by done. eauto.
    + by etrans.
Qed.

(** * Loading and updating objects *)

Definition addr_wf s : Prop := map_Forall (fun a o => address o = a) (stateObjects s).

Definition put_obj a o s : StateDB := with_objects (<[a := o]> (stateObjects s)) s.

Lemma with_objects_id s : with_objects (stateObjects s) s = s.
Proof. by destruct s. Qed.

Lemma obj_at_address s a o : addr_wf s -> obj_at s a = Ok (Some o) -> address o = a.
Proof.
  intros Hw. unfold obj_at. destruct (stateObjects s !! a) as [o1|] eqn:E; intros Ho.
  - injection Ho as <-. by apply (Hw a).
  - unfold load in Ho. by destruct (k_GetAccount (ctx s) a) as [|[acct|]]; simplify_eq/=.
Qed.

Lemma getStateObject_spec s a :
  addr_wf s ->
  getStateObject a s = match obj_at s a with
    | Ok (Some o) => (Ok (Some o), put_obj a o s)
    | Ok None => (Ok None, s)
    | Err e => (Err e, s)
    | Panic p => (Panic p, s)
    end.
Proof.
  intros Hw. unfold getStateObject, obj_at, put_obj. rewrite bind_gets.
  destruct (stateObjects s !! a) as [o|] eqn:E.
  - rewrite insert_id by done. by rewrite with_objects_id.
  - unfold load. by destruct (k_GetAccount (ctx s) a) as [p|[acct|]].
Qed.

Lemma addr_wf_put s a o : addr_wf s -> address o = a -> addr_wf (put_obj a o s).
Proof. intros Hw Ha. by apply map_Forall_insert_2. Qed.

Lemma put_put s a o1 o2 : put_obj a o2 (put_obj a o1 s) = put_obj a o2 s.
Proof. unfold put_obj, with_objects. simpl. by rewrite insert_insert_eq. Qed.

Lemma update_put s a o f :
  address o = a -> update o f (put_obj a o s) = (Ok tt, put_obj a (f o) s).
Proof.
  intros Ha. unfold update, modify. f_equal. rewrite Ha.
  change (put_obj a (f o) (put_obj a o s) = put_obj a (f o) s). apply put_put.
Qed.

Lemma obj_at_put s a o b : obj_at (put_obj a o s) b = if decide (b = a) then Ok (Some o) else obj_at s b.
Proof.
  unfold obj_at, put_obj. simpl. case_decide as Hb.
  - subst. by rewrite lookup_insert_eq.
  - by rewrite lookup_insert_ne.
Qed.

Lemma put_mono s t a o1 o2 :
  restores s t -> obj_eq (ctx s) o1 o2 -> restores (put_obj a o1 s) (put_obj a o2 t).
Proof.
  intros [] Ho. constructor; try done.
  - intros b. rewrite !obj_at_put. by case_decide.
  - simpl. rewrite !dom_insert_L. set_solver.
Qed.

(** Loading an object, or filling its caches, shows the same. *)
Lemma put_restores s a o o' :
  obj_at s a = Ok (Some o) -> obj_eq (ctx s) o o' -> restores s (put_obj a o' s).
Proof.
  intros Ho Hoo. constructor; try done.
  - intros b. rewrite obj_at_put. case_decide; [subst; by rewrite Ho|reflexivity].
  - simpl. rewrite dom_insert_L. set_solver.
Qed.

(** * Monotonicity of the undo *)

(** A run that succeeds on [s] succeeds on every state that restores [s], and
    keeps the two in step. *)
Definition mono (m : M StateDB unit) : Prop := forall s t s',
  addr_wf s -> addr_wf t -> restores s t -> m s = (Ok tt, s') ->
  exists t', m t = (Ok tt, t') /\ restores s' t' /\ addr_wf s' /\ addr_wf t'.

Lemma mono_bind (m1 m2 : M StateDB unit) : mono m1 -> mono m2 -> mono (do! m1; m2).
Proof.
  intros H1 H2 s t s' Hs Ht Hr Hrun. run_inv. destruct x.
  destruct (H1 _ _ _ Hs Ht Hr H3) as (t1 & E1 & Hr1 & Hs1 & Ht1).
  destruct (H2 _ _ _ Hs1 Ht1 Hr1 Hrun) as (t2 & E2 & ?). exists t2.
  by rewrite (bind_run _ _ _ _ _ E1).
Qed.

Lemma mono_modify (f : StateDB -> StateDB) :
  (forall s t, restores s t -> restores (f s) (f t)) ->
  (forall s, addr_wf s -> addr_wf (f s)) -> mono (modify f).
Proof.
  intros Hf Hw s t s' Hs Ht Hr [= <-]. exists (f t). split_and!; auto.
Qed.

Lemma mono_on_object a f :
  (forall o, address (f o) = address o) ->
  (forall c o1 o2, obj_eq c o1 o2 -> obj_eq c (f o1) (f o2)) -> mono (on_object a f).
Proof.
  intros Ha Hf s t s' Hs Ht Hr. unfold on_object, bind.
  rewrite !getStateObject_spec by done. pose proof (rs_objects _ _ Hr a) as Hrel.
  destruct (obj_at s a) as [[o1|]| |] eqn:E1, (obj_at t a) as [[o2|]| |] eqn:E2; try done.
  pose proof (obj_at_address _ _ _ Hs E1) as A1. pose proof (obj_at_address _ _ _ Ht E2) as A2.
  rewrite !update_put by done. intros [= <-]. exists (put_obj a (f o2) t). split_and!.
  - done.
  - apply put_mono; [done|]. by apply Hf.
  - apply addr_wf_put; [done|]. by rewrite Ha.
  - apply addr_wf_put; [done|]. by rewrite Ha.
Qed.

Ltac obj_cong := intros ? ? ? []; constructor; simpl; done.

Lemma setState_cong c k v o1 o2 : obj_eq c o1 o2 -> obj_eq c (setState k v o1) (setState k v o2).
Proof.
  intros Ho. pose proof (oe_storage _ _ _ Ho) as Hst. destruct Ho. constructor; simpl; try done.
  intros k'. specialize (Hst k'). unfold view_storage in *. cbn [dirtyStorage setState].
  destruct (decide (k' = k)) as [->|Hk]; [by rewrite !lookup_insert_eq|].
  rewrite !lookup_insert_ne by done. apply Hst.
Qed.

Lemma setCode_cong c h b o1 o2 : obj_eq c o1 o2 -> obj_eq c (setCode h b o1) (setCode h b o2).
Proof. revert o1 o2. intros o1 o2 []. constructor; simpl; done. Qed.

(** The reads and writes of a transient slot. *)
Lemma Get_Set (t : gmap Z (gmap Z Z)) a k v a' k' :
  Get (Set_ t a k v) a' k' = if decide (a' = a /\ k' = k) then v else Get t a' k'.
Proof.
  unfold Get, Set_. destruct (Z.eqb_spec v 0) as [->|Hv].
  - destruct (t !! a) as [st|] eqn:Ea.
    + case_bool_decide as Hst.
      * destruct (decide (a' = a)) as [->|Hne].
        -- rewrite lookup_delete_eq, Ea. case_decide as Hk; [done|].
           assert (k' <> k) as Hk' by naive_solver.
           rewrite <- (lookup_delete_ne st k k') by done. by rewrite Hst, lookup_empty.
        -- rewrite lookup_delete_ne by done. rewrite decide_False by naive_solver. done.
      * destruct (decide (a' = a)) as [->|Hne].
        -- rewrite lookup_insert_eq, Ea. case_decide as Hk.
           ++ destruct Hk as [_ ->]. by rewrite lookup_delete_eq.
           ++ rewrite lookup_delete_ne by naive_solver. done.
        -- rewrite lookup_insert_ne by done. rewrite decide_False by naive_solver. done.
    + case_decide as Hk; [destruct Hk as [-> _]; by rewrite Ea|done].
  - destruct (decide (a' = a)) as [->|Hne].
    + rewrite lookup_insert_eq. case_decide as Hk.
      * destruct Hk as [_ ->]. by rewrite lookup_insert_eq.
      * rewrite lookup_insert_ne by naive_solver. by destruct (t !! a); simpl; rewrite ?lookup_empty.
    + rewrite lookup_insert_ne by done. rewrite decide_False by naive_solver. done.
Qed.

Lemma obj_at_delete s a b :
  obj_at (with_objects (delete a (stateObjects s)) s) b =
  if decide (b = a) then load (ctx s) a
  else obj_at s b.
Proof.
  unfold obj_at. simpl. case_decide as Hb.
  - subst. by rewrite lookup_delete_eq.
  - by rewrite lookup_delete_ne.
Qed.

Lemma mono_delete a : mono (modify (fun s => with_objects (delete a (stateObjects s)) s)).
Proof.
  apply mono_modify.
  - intros s t Hr. destruct Hr. constructor; try done.
    + intros b. rewrite !obj_at_delete. simpl. case_decide; [|done]. replace (ctx t) with (ctx s) by done.
      reflexivity.
    + simpl. rewrite !dom_delete_L. set_solver.
  - intros s Hw. by apply map_Forall_delete.
Qed.

Lemma mono_revert_store n evs : mono (RevertMultiStore n evs).
Proof.
  intros s t s' Hs Ht Hr. unfold RevertMultiStore. rewrite !bind_gets.
  pose proof (rs_layers _ _ Hr) as Hl. unfold layers_of in Hl.
  destruct (cacheCtx s) as [cc|] eqn:Es; [|done].
  destruct (_ || _) eqn:Hb; [done|]. unfold modify. intros [= <-].
  destruct (cacheCtx t) as [cc'|] eqn:Et.
  - rewrite Hl, Hb. eexists. split; [reflexivity|]. split_and!; [|done..].
    destruct Hr. constructor; try done.
  - rewrite <- Hl in Hb. simpl in Hb. apply orb_false_iff in Hb as [Hb1 Hb2]. zbool. lia.
Qed.

Lemma mono_lookup_object a f :
  (forall o, address (f o) = address o) ->
  (forall c o1 o2, obj_eq c o1 o2 -> obj_eq c (f o1) (f o2)) ->
  mono (let! o := getStateObject a in match o with None => ret tt | Some o => update o f end).
Proof.
  intros Ha Hf s t s' Hs Ht Hr Hrun. pose proof (rs_objects _ _ Hr a) as Hrel.
  pose proof (mono_on_object a f Ha Hf s t s' Hs Ht Hr) as Hon.
  unfold on_object, bind in *. rewrite !getStateObject_spec in * by done.
  destruct (obj_at s a) as [[o1|]| |], (obj_at t a) as [[o2|]| |]; try done; [by apply Hon|].
  injection Hrun as <-. by exists t.
Qed.

Lemma mono_Revert_entry e : mono (Revert_entry e).
Proof.
  destruct e; simpl.
  - apply mono_delete.
  - apply mono_modify; [intros s t Hr; by apply put_mono|intros s Hw; by apply addr_wf_put].
  - apply mono_lookup_object; [done|obj_cong].
  - apply mono_on_object; [done|obj_cong].
  - apply mono_on_object; [done|obj_cong].
  - apply mono_on_object; [done|]. intros. by apply setState_cong.
  - apply mono_modify; [|done]. intros s t Hr. destruct Hr. constructor; try done.
    intros a' k'. simpl. rewrite !Get_Set. by case_decide.
  - apply mono_on_object; [done|]. intros. by apply setCode_cong.
  - apply mono_modify; [|done]. intros s t Hr. destruct Hr. by constructor.
  - intros s t s' Hs Ht Hr. rewrite !bind_gets. rewrite (rs_logs _ _ Hr).
    destruct (logs s) eqn:El; [done|]. intros [= <-]. eexists. split; [reflexivity|].
    split_and!; [|done..]. destruct Hr. by constructor.
  - apply mono_modify; [|done]. intros s t Hr. destruct Hr. constructor; try done. simpl. congruence.
  - intros s t s' Hs Ht Hr. rewrite !bind_gets. rewrite (rs_access _ _ Hr). unfold bind, lift.
    destruct (DeleteSlot (access s) a slot); [|done..]. intros [= <-]. eexists. split; [reflexivity|].
    split_and!; [|done..]. destruct Hr. by constructor.
  - apply mono_revert_store.
  - apply mono_on_object; [done|obj_cong].
Qed.

Lemma mono_undo_entry e : mono (undo_entry e).
Proof.
  apply mono_bind; [apply mono_Revert_entry|]. apply mono_modify; [|done].
  intros s t Hr. destruct Hr. constructor; try done. simpl. congruence.
Qed.

Lemma mono_ret : mono (ret tt).
Proof. intros s t s' Hs Ht Hr [= <-]. by exists t. Qed.

Lemma mono_undo l : mono (each undo_entry l).
Proof.
  induction l as [|e l IH]; [apply mono_ret|]. apply mono_bind; [apply mono_undo_entry|done].
Qed.

Lemma undo_addr l s t : addr_wf s -> each undo_entry l s = (Ok tt, t) -> addr_wf t.
Proof.
  intros Hs Hu. destruct (mono_undo l s s t Hs Hs (reflexivity s) Hu) as (t' & _ & _ & ? & _). done.
Qed.

Lemma undo_along l s t u :
  addr_wf s -> addr_wf t -> restores s t -> each undo_entry l s = (Ok tt, u) ->
  exists u', each undo_entry l t = (Ok tt, u') /\ restores u u'.
Proof.
  intros Hs Ht Hr Hu. destruct (mono_undo l s t u Hs Ht Hr Hu) as (u' & ? & ? & _). eauto.
Qed.

Lemma undo_app l1 l2 s : each undo_entry (l1 ++ l2) s = (do! each undo_entry l1; each undo_entry l2) s.
Proof.
  revert s. induction l1 as [|e l1 IH]; intros s; [done|]. simpl. unfold bind in *.
  destruct (undo_entry e s) as [[[]| |] s1]; [|done..]. apply IH.
Qed.
End inv.
