(* ===== verification/StateDBRun.v ===== *)
(** The state database as a machine: the invariant of its journal, and that
    every operation is a sequence of steps each of which appends at most one
    entry that undoes it. *)
From S2P Require Import Prelude KVStore Sdk StateDB StateDBInv.
Import AccessList Transient.

Section run.
Context `{Keccak, StateKeeper}.
Implicit Types (s t : StateDB) (o : stateObject) (a : Z).

(** * The invariant *)

Record al_wf (al : accessList) : Prop := {
  al_index : forall a i, addresses al !! a = Some i -> i = -1 \/ 0 <= i < Z.of_nat (length (slots al));
  al_slots : Forall (fun m => m <> ∅) (slots al);
  al_inj : forall a b i, addresses al !! a = Some i -> addresses al !! b = Some i -> i = -1 \/ a = b;
}.

Definition count_dirties (l : list JournalEntry) : gmap Z Z :=
  foldl (fun d e => inc d (Dirtied e)) ∅ l.

(** Every dirty address has a live object, the access list is well formed and
    the cached context has a bottom layer. *)
Record hist_ok s : Prop := {
  ho_access : al_wf (access s);
  ho_dirty : dom (dirties (jrnl s)) ⊆ dom (stateObjects s);
  ho_layers : layers_of s <> [];
}.

Definition revs_wf (rs : list revision) (next : Z) (n : nat) : Prop :=
  StronglySorted (fun r1 r2 => id r1 < id r2 /\ (journalIndex r1 <= journalIndex r2)%nat) rs /\
  Forall (fun r => id r < next /\ (journalIndex r <= n)%nat) rs.

(** The journal can be undone down to every length, and what is met on the way
    is well formed. *)
Record sdb_wf s : Prop := {
  wf_addr : addr_wf s;
  wf_sync : writeCache s = None -> cacheCtx s = None;
  wf_dirties : dirties (jrnl s) = count_dirties (entries (jrnl s));
  wf_hist : forall m, (m <= length (entries (jrnl s)))%nat ->
    exists t, each undo_entry (rev (drop m (entries (jrnl s)))) s = (Ok tt, t) /\ hist_ok t;
  wf_revs : revs_wf (validRevisions s) (nextRevisionID s) (length (entries (jrnl s)));
}.

Lemma wf_now s : sdb_wf s -> hist_ok s.
Proof.
  intros Hw. destruct (wf_hist _ Hw (length (entries (jrnl s)))) as (t & Ht & Ho); [done|].
  rewrite drop_all in Ht. simpl in Ht. by injection Ht as <-.
Qed.

Lemma hist_ok_restores s t : restores s t -> hist_ok s -> hist_ok t.
Proof.
  intros Hr [Ha Hd Hl]. constructor.
  - by rewrite (rs_access _ _ Hr).
  - rewrite (rs_dirties _ _ Hr). pose proof (rs_live _ _ Hr). set_solver.
  - by rewrite (rs_layers _ _ Hr).
Qed.

Lemma count_pos l a n : count_dirties l !! a = Some n -> 0 < n.
Proof.
  revert a n. unfold count_dirties. induction l as [|e l IH] using rev_ind; intros a n; [done|].
  rewrite foldl_app. simpl. unfold inc. destruct (Dirtied e) as [b|]; [|by apply IH].
  destruct (decide (a = b)) as [->|Hne].
  - rewrite lookup_insert_eq. intros [= <-].
    destruct (foldl _ _ _ !! b) as [m|] eqn:E; simpl; [apply IH in E; lia|lia].
  - rewrite lookup_insert_ne by done. apply IH.
Qed.

Lemma dec_inc l (o : option Z) : dec1 (inc (count_dirties l) o) o = count_dirties l.
Proof.
  destruct o as [a|]; [|done]. simpl. rewrite lookup_insert_eq. simpl.
  destruct (count_dirties l !! a) as [n|] eqn:E; simpl.
  - pose proof (count_pos _ _ _ E). destruct (Z.eqb_spec (n + 1 - 1) 0); [lia|].
    rewrite insert_insert_eq. replace (n + 1 - 1) with n by lia. by apply insert_id.
  - by rewrite delete_insert_id.
Qed.

Lemma count_app l e : count_dirties (l ++ [e]) = inc (count_dirties l) (Dirtied e).
Proof. unfold count_dirties. by rewrite foldl_app. Qed.

(** * Steps *)

Record same_revs s s' : Prop := {
  sr_valid : validRevisions s' = validRevisions s;
  sr_next : nextRevisionID s' = nextRevisionID s;
}.

(** A step that appends at most one entry, which undoes it. *)
Record jstep s s' : Prop := {
  js_addr : addr_wf s';
  js_sync : writeCache s' = None -> cacheCtx s' = None;
  js_ok : hist_ok s';
  js_revs : same_revs s s';
  js_undo : exists es t, (length es <= 1)%nat /\
    entries (jrnl s') = entries (jrnl s) ++ es /\
    dirties (jrnl s') = foldl (fun d e => inc d (Dirtied e)) (dirties (jrnl s)) es /\
    each undo_entry (rev es) s' = (Ok tt, t) /\ restores s t;
}.

Lemma jstep_wf s s' : sdb_wf s -> jstep s s' -> sdb_wf s'.
Proof.
  intros Hw [Ha Hsy Ho Hrv (es & t & Hlen & He & Hd & Hu & Hr)]. constructor; [done|done|..].
  - rewrite Hd, He, (wf_dirties _ Hw). unfold count_dirties. by rewrite foldl_app.
  - intros m Hm. rewrite He in *. rewrite length_app in Hm.
    destruct (decide (m <= length (entries (jrnl s)))%nat) as [Hle|Hgt].
    + destruct (wf_hist _ Hw m Hle) as (u & Hu1 & Hu2).
      destruct (undo_along _ s t u (wf_addr _ Hw) (undo_addr _ _ _ Ha Hu) Hr Hu1) as (u' & Eu & Hru).
      exists u'. rewrite drop_app_le, rev_app_distr, undo_app by done.
      rewrite (bind_run _ _ _ _ _ Hu). split; [done|]. by eapply hist_ok_restores.
    + exists s'. rewrite drop_ge by (rewrite length_app; lia). done.
  - destruct Hrv as [-> ->]. destruct (wf_revs _ Hw) as [Hso Hf]. split; [done|].
    eapply Forall_impl; [exact Hf|]. simpl. intros r [? ?]. rewrite He, length_app. split; [done|lia].
Qed.

Lemma jsteps_wf s s' : sdb_wf s -> rtc jstep s s' -> sdb_wf s'.
Proof. intros Hw Hs. induction Hs; eauto using jstep_wf. Qed.

(** A step without an entry. *)
Lemma jstep_quiet s s' :
  sdb_wf s -> addr_wf s' -> (writeCache s' = None -> cacheCtx s' = None) ->
  jrnl s' = jrnl s -> same_revs s s' -> restores s s' -> jstep s s'.
Proof.
  intros Hw Ha Hsy Hj Hrv Hr. constructor; [done|done| |done|].
  - eapply hist_ok_restores; [done|]. by apply wf_now.
  - exists [], s'. rewrite Hj, app_nil_r. split_and!; [simpl; lia|done..].
Qed.

(** A step with one entry. *)
Lemma jstep_entry s s' e t :
  sdb_wf s -> addr_wf s' -> (writeCache s' = None -> cacheCtx s' = None) ->
  al_wf (access s') -> layers_of s' <> [] ->
  jrnl s' = journal_append e (jrnl s) -> same_revs s s' ->
  dom (stateObjects s) ⊆ dom (stateObjects s') ->
  (forall a, Dirtied e = Some a -> a ∈ dom (stateObjects s')) ->
  Revert_entry e s' = (Ok tt, t) -> jrnl t = jrnl s' ->
  restores s (with_jrnl (jrnl s) t) -> jstep s s'.
Proof.
  intros Hw Ha Hsy Hal Hla Hj Hrv Hdom Hdir Hrun Hjt Hr. constructor; [done|done| |done|].
  - constructor; [done| |done]. rewrite Hj. simpl. pose proof (ho_dirty _ (wf_now _ Hw)) as Hd.
    destruct (Dirtied e) as [a|] eqn:He; simpl; [|set_solver].
    rewrite dom_insert_L. specialize (Hdir a eq_refl). set_solver.
  - exists [e]. eexists. rewrite Hj. simpl. split_and!; [lia|done|done| |].
    + unfold undo_entry. rewrite (bind_run _ _ s' tt (with_jrnl (mkJournal (entries (jrnl t))
        (dec1 (dirties (jrnl t)) (Dirtied e))) t)); [reflexivity|].
      by rewrite (bind_run _ _ _ _ _ Hrun).
    + destruct Hr. constructor; try done. simpl. rewrite Hjt, Hj. simpl.
      rewrite (wf_dirties _ Hw). apply dec_inc.
Qed.

(** * Objects *)

Lemma layers_wf s : sdb_wf s -> layers_of s <> [].
Proof. intros Hw. apply (ho_layers _ (wf_now _ Hw)). Qed.
Lemma access_wf s : sdb_wf s -> al_wf (access s).
Proof. intros Hw. apply (ho_access _ (wf_now _ Hw)). Qed.

Lemma getStateObject_step s a r s' :
  sdb_wf s -> getStateObject a s = (Ok r, s') ->
  jstep s s' /\
  match r with
  | Some o => stateObjects s' !! a = Some o /\ address o = a /\ obj_at s a = Ok (Some o)
  | None => s' = s /\ obj_at s a = Ok None
  end.
Proof.
  intros Hw. rewrite getStateObject_spec by apply Hw.
  destruct (obj_at s a) as [[o|]| |] eqn:Ho; intros Hr; simplify_eq.
  - pose proof (obj_at_address _ _ _ (wf_addr _ Hw) Ho) as Ha. split.
    + apply jstep_quiet; [done|..].
      * apply addr_wf_put; [apply Hw|done].
      * apply Hw.
      * done.
      * done.
      * by eapply put_restores.
    + simpl. by rewrite lookup_insert_eq.
  - split; [|done]. apply jstep_quiet; [done|apply Hw|apply Hw|done|done|reflexivity].
Qed.

(** Filling a cache of a live object. *)
Lemma jstep_cache s a o o' :
  sdb_wf s -> stateObjects s !! a = Some o -> address o' = a -> obj_eq (ctx s) o o' ->
  jstep s (put_obj a o' s).
Proof.
  intros Hw Ho Ha Heq. apply jstep_quiet; [done| |apply Hw|done|done|].
  - apply addr_wf_put; [apply Hw|done].
  - eapply put_restores; [|done]. unfold obj_at. by rewrite Ho.
Qed.

(** A journaled change of a live object. *)
Lemma jstep_object s a o o' o'' e :
  sdb_wf s -> stateObjects s !! a = Some o -> address o' = a ->
  (Dirtied e = Some a \/ Dirtied e = None) ->
  (forall st, addr_wf st -> stateObjects st !! a = Some o' -> Revert_entry e st = (Ok tt, put_obj a o'' st)) ->
  obj_eq (ctx s) o o'' -> jstep s (put_obj a o' (with_jrnl (journal_append e (jrnl s)) s)).
Proof.
  intros Hw Ho Ha Hd Hrev Heq.
  assert (addr_wf (put_obj a o' (with_jrnl (journal_append e (jrnl s)) s))) as Haw
    by (apply addr_wf_put; [apply Hw|done]).
  apply jstep_entry with (e := e)
    (t := put_obj a o'' (put_obj a o' (with_jrnl (journal_append e (jrnl s)) s)));
    [done|done|apply Hw|by apply (access_wf s)|by apply (layers_wf s)|done|done|..].
  - simpl. rewrite dom_insert_L. set_solver.
  - intros b Hb. simpl. rewrite dom_insert_L. destruct Hd as [Hd|Hd]; rewrite Hd in Hb; simplify_eq. set_solver.
  - apply Hrev; [done|]. simpl. by rewrite lookup_insert_eq.
  - done.
  - rewrite put_put. change (restores s (put_obj a o'' (with_jrnl (jrnl s) s))).
    replace (with_jrnl (jrnl s) s) with s by by destruct s.
    eapply put_restores; [|done]. unfold obj_at. by rewrite Ho.
Qed.

Lemma on_object_live st a o f :
  addr_wf st -> stateObjects st !! a = Some o -> on_object a f st = (Ok tt, put_obj a (f o) st).
Proof.
  intros Hw Ho. unfold on_object, bind. rewrite getStateObject_spec by done.
  unfold obj_at. rewrite Ho. apply update_put. by apply (Hw a).
Qed.

Lemma update_live st a o f :
  addr_wf st -> stateObjects st !! a = Some o -> update o f st = (Ok tt, put_obj a (f o) st).
Proof. intros Hw Ho. unfold update, put_obj. by rewrite (Hw a o Ho). Qed.

(** A new object at an address without account. *)
Lemma create_step s a o :
  sdb_wf s -> obj_at s a = Ok None -> address o = a ->
  jstep s (put_obj a o (with_jrnl (journal_append (createObjectChange a) (jrnl s)) s)).
Proof.
  intros Hw Hn Ha. assert (stateObjects s !! a = None) as Hl.
  { unfold obj_at in Hn. by destruct (stateObjects s !! a). }
  eapply jstep_entry with (e := createObjectChange a);
    [done|apply addr_wf_put; [apply Hw|done]|apply Hw|by apply (access_wf s)|by apply (layers_wf s)|done|done|..].
  - simpl. rewrite dom_insert_L. set_solver.
  - intros b [= <-]. simpl. rewrite dom_insert_L. set_solver.
  - simpl. reflexivity.
  - done.
  - match goal with |- restores _ ?x => assert (x = s) as -> end; [|reflexivity].
    unfold put_obj, with_objects, with_jrnl. simpl. rewrite delete_insert_id by done. by destruct s.
Qed.

(** ** The methods of the database as step sequences *)

Definition steps {A} (m : M StateDB A) : Prop := forall s r s',
  sdb_wf s -> m s = (Ok r, s') -> rtc jstep s s'.

Lemma steps_ret {A} (x : A) : steps (ret x).
Proof. intros s r s' Hw [= <- <-]. done. Qed.

Lemma steps_gets {A} (f : StateDB -> A) : steps (gets f).
Proof. intros s r s' Hw [= <- <-]. done. Qed.

Lemma steps_lift {A} (x : res A) : steps (lift x).
Proof. intros s r s' Hw. unfold lift. intros [= -> <-]. done. Qed.

Lemma steps_bind {A B} (m : M StateDB A) (f : A -> M StateDB B) :
  steps m -> (forall x, steps (f x)) -> steps (bind m f).
Proof.
  intros Hm Hf s r s' Hw Hrun. apply bind_ok in Hrun as (x & s1 & H1 & H2).
  pose proof (Hm _ _ _ Hw H1) as Hs. etrans; [exact Hs|]. eapply Hf; [|done]. by eapply jsteps_wf.
Qed.

(** [let! o := getStateObject a in k o], where the rest may use what is known
    of the object. *)
Lemma steps_get {A} a (k : option stateObject -> M StateDB A) :
  (forall s o r s', sdb_wf s -> stateObjects s !! a = Some o -> address o = a ->
    k (Some o) s = (Ok r, s') -> rtc jstep s s') ->
  (forall s r s', sdb_wf s -> obj_at s a = Ok None -> k None s = (Ok r, s') -> rtc jstep s s') ->
  steps (let! o := getStateObject a in k o).
Proof.
  intros H1 H2 s r s' Hw Hrun. apply bind_ok in Hrun as (x & s1 & Hg & Hk).
  destruct (getStateObject_step _ _ _ _ Hw Hg) as [Hj Hx].
  eapply rtc_l; [exact Hj|]. destruct x as [o|].
  - destruct Hx as (Ho & Ha & _). eapply H1; [|done..]. by eapply jstep_wf.
  - destruct Hx as [-> Hn]. by eapply H2.
Qed.

Lemma getOrNew_live s a o s' :
  sdb_wf s -> getOrNewStateObject a s = (Ok o, s') ->
  rtc jstep s s' /\ stateObjects s' !! a = Some o /\ address o = a.
Proof.
  intros Hw Hrun. unfold getOrNewStateObject in Hrun. apply bind_ok in Hrun as (x & s1 & Hg & Hk).
  destruct (getStateObject_step _ _ _ _ Hw Hg) as [Hj Hx]. destruct x as [o1|].
  - injection Hk as <- <-. destruct Hx as (Ho & Ha & _). split; [by apply rtc_once|done].
  - destruct Hx as [-> Hn]. unfold createObject in Hk.
    unfold bind, append, setStateObject, modify, ret in Hk. rewrite Hg in Hk. injection Hk as <- <-. split.
    + apply rtc_once. by apply (create_step s a (newObject a (mkAccount 0 None None))).
    + simpl. by rewrite lookup_insert_eq.
Qed.

Lemma steps_new {A} a (k : stateObject -> M StateDB A) :
  (forall s o r s', sdb_wf s -> stateObjects s !! a = Some o -> address o = a ->
    k o s = (Ok r, s') -> rtc jstep s s') ->
  steps (let! o := getOrNewStateObject a in k o).
Proof.
  intros H1 s r s' Hw Hrun. apply bind_ok in Hrun as (o & s1 & Hg & Hk).
  destruct (getOrNew_live _ _ _ _ Hw Hg) as (Hs & Ho & Ha).
  etrans; [exact Hs|]. eapply H1; [|done..]. by eapply jsteps_wf.
Qed.
End run.
