(* ===== verification/StateDBOps.v ===== *)
(** Every operation of the state database is a sequence of journaled steps:
    accounts, storage, code, logs, refund, transient storage, access list and
    precompile calls. *)
From S2P Require Import Prelude KVStore Sdk StateDB StateDBInv StateDBRun.
Import AccessList Transient.

Section ops.
Context `{Keccak, StateKeeper}.
Implicit Types (s t : StateDB) (o : stateObject) (a : Z).

(** Undo of an entry that sets a field of a live object. *)
Ltac undo_object := intros; apply on_object_live; done.
Ltac same_view := constructor; simpl; done.

(** * Objects *)

Lemma append_run e s : append e s = (Ok tt, with_jrnl (journal_append e (jrnl s)) s).
Proof. done. Qed.

(** The entry then the write, as the methods do it. *)
Lemma logged_update s a o e f o'' :
  sdb_wf s -> stateObjects s !! a = Some o -> address o = a -> address (f o) = address o ->
  (Dirtied e = Some a \/ Dirtied e = None) ->
  (forall st, addr_wf st -> stateObjects st !! a = Some (f o) -> Revert_entry e st = (Ok tt, put_obj a o'' st)) ->
  obj_eq (ctx s) o o'' ->
  forall s', (do! append e; update o f) s = (Ok tt, s') -> jstep s s'.
Proof.
  intros Hw Ho Ha Hf Hd Hrev Heq s' Hrun. unfold bind in Hrun. rewrite append_run in Hrun.
  rewrite (update_live _ a) in Hrun; [|apply Hw|done]. injection Hrun as <-.
  eapply jstep_object; try done. congruence.
Qed.

Lemma SetBalance_step s a o v r s' :
  sdb_wf s -> stateObjects s !! a = Some o -> address o = a ->
  object_SetBalance o v s = (Ok r, s') -> rtc jstep s s'.
Proof.
  intros Hw Ho Ha Hrun. apply rtc_once. eapply (logged_update s a o
    (balanceChange a (balance o)) (setBalance v) (setBalance (balance o) (setBalance v o)));
    [done..|by left|undo_object|same_view|].
  unfold object_SetBalance, bind, ret in Hrun. rewrite Ha in Hrun. simpl in *. by injection Hrun as _ <-.
Qed.

Lemma SetNonce_step s a o v r s' :
  sdb_wf s -> stateObjects s !! a = Some o -> address o = a ->
  object_SetNonce o v s = (Ok r, s') -> rtc jstep s s'.
Proof.
  intros Hw Ho Ha Hrun. apply rtc_once. eapply (logged_update s a o
    (nonceChange a (nonce o)) (setNonce v) (setNonce (nonce o) (setNonce v o)));
    [done..|by left|undo_object|same_view|].
  unfold object_SetNonce in Hrun. rewrite Ha in Hrun. by destruct r.
Qed.

(** [Code] fills the cache with what the object shows. *)
Lemma object_Code_step s a o r s' :
  sdb_wf s -> stateObjects s !! a = Some o -> address o = a ->
  object_Code o s = (Ok r, s') ->
  jstep s s' /\ stateObjects s' !! a = Some r.2 /\ address r.2 = a /\
  codehash r.2 = codehash o /\ r.1 = view_code (ctx s') r.2.
Proof.
  intros Hw Ho Ha. unfold object_Code, view_code.
  destruct (code o) as [c|] eqn:Hc.
  { intros [= <- <-]. simpl. rewrite Hc. split; [|done].
    apply jstep_quiet; [done|apply Hw|apply Hw|done|done|reflexivity]. }
  destruct (IsEmptyCodeHash (codehash o)) eqn:He.
  { intros [= <- <-]. simpl. rewrite Hc, He. split; [|done].
    apply jstep_quiet; [done|apply Hw|apply Hw|done|done|reflexivity]. }
  rewrite bind_gets. unfold bind, ret. rewrite (update_live _ a); [|apply Hw|done].
  intros [= <- <-]. simpl. split; [|rewrite lookup_insert_eq; split_and!; try done].
  - eapply jstep_cache; try done. constructor; simpl; try done. unfold view_code. simpl. rewrite Hc, He.
    by destruct (k_GetCode (ctx s) (codehash o)).
  - rewrite He. by destruct (k_GetCode (ctx s) (codehash o)).
Qed.

Lemma SetCode_step s a o h c r s' :
  sdb_wf s -> stateObjects s !! a = Some o -> address o = a ->
  object_SetCode o h c s = (Ok r, s') -> rtc jstep s s'.
Proof.
  intros Hw Ho Ha Hrun. unfold object_SetCode in Hrun. apply bind_ok in Hrun as ([pc o1] & s1 & Hc & Hrun).
  destruct (object_Code_step _ _ _ _ _ Hw Ho Ha Hc) as (Hj & Ho1 & Ha1 & Hh & Hv). simpl in *.
  pose proof (jstep_wf _ _ Hw Hj) as Hw1. eapply rtc_l; [exact Hj|]. apply rtc_once. rewrite Ha1 in Hrun.
  destruct r. eapply (logged_update s1 a o1 (codeChange a pc (codehash o1)) (setCode h c)
    (setCode (codehash o1) pc (setCode h c o1))); [done..|by left|undo_object| |exact Hrun].
  constructor; simpl; try done. subst pc. unfold view_code. simpl.
  by destruct (code o1), (IsEmptyCodeHash (codehash o1)), (k_GetCode (ctx s1) (codehash o1)).
Qed.

Lemma GetCommittedState_step s a o k r s' :
  sdb_wf s -> stateObjects s !! a = Some o -> address o = a ->
  object_GetCommittedState o k s = (Ok r, s') ->
  jstep s s' /\ stateObjects s' !! a = Some r.2 /\ address r.2 = a /\
  dirtyStorage r.2 = dirtyStorage o /\ r.1 = view_committed (ctx s') r.2 k.
Proof.
  intros Hw Ho Ha. unfold object_GetCommittedState, view_committed.
  destruct (originStorage o !! k) as [v|] eqn:Hk.
  { intros [= <- <-]. simpl. rewrite Hk. split; [|done].
    apply jstep_quiet; [done|apply Hw|apply Hw|done|done|reflexivity]. }
  rewrite bind_gets. unfold bind, ret. rewrite (update_live _ a); [|apply Hw|done].
  intros [= <- <-]. simpl. rewrite !lookup_insert_eq. split; [|done].
  assert (forall k', view_committed (ctx s) o k' =
    view_committed (ctx s) (cacheOrigin k (k_GetState (ctx s) (address o) k) o) k') as Hv.
  { intros k'. unfold view_committed. simpl. destruct (decide (k' = k)) as [->|Hne].
    - by rewrite lookup_insert_eq, Hk.
    - by rewrite lookup_insert_ne. }
  eapply jstep_cache; try done. constructor; simpl; try done.
  intros k'. unfold view_storage. simpl. by rewrite Hv.
Qed.

Lemma GetState_step s a o k r s' :
  sdb_wf s -> stateObjects s !! a = Some o -> address o = a ->
  object_GetState o k s = (Ok r, s') ->
  jstep s s' /\ stateObjects s' !! a = Some r.2 /\ address r.2 = a /\
  r.1 = view_storage (ctx s') r.2 k.
Proof.
  intros Hw Ho Ha. unfold object_GetState, view_storage.
  destruct (dirtyStorage o !! k) as [v|] eqn:Hk; intros Hrun.
  - injection Hrun as <- <-. simpl. rewrite Hk. split; [|done].
    apply jstep_quiet; [done|apply Hw|apply Hw|done|done|reflexivity].
  - destruct (GetCommittedState_step _ _ _ _ _ _ Hw Ho Ha Hrun) as (Hj & Ho1 & Ha1 & Hd & Hv).
    rewrite Hd, Hk. done.
Qed.

Lemma SetState_step s a o k v r s' :
  sdb_wf s -> stateObjects s !! a = Some o -> address o = a ->
  object_SetState o k v s = (Ok r, s') -> rtc jstep s s'.
Proof.
  intros Hw Ho Ha Hrun. unfold object_SetState in Hrun. apply bind_ok in Hrun as ([prev o1] & s1 & Hg & Hrun).
  destruct (GetState_step _ _ _ _ _ _ Hw Ho Ha Hg) as (Hj & Ho1 & Ha1 & Hv). simpl in *.
  pose proof (jstep_wf _ _ Hw Hj) as Hw1. eapply rtc_l; [exact Hj|].
  destruct (prev =? v); [by injection Hrun as _ <-|]. apply rtc_once. rewrite Ha1 in Hrun.
  eapply (logged_update s1 a o1 (storageChange a k prev) (setState k v)
    (setState k prev (setState k v o1))); [done..|by left|undo_object| |].
  - constructor; simpl; try done. intros k'. unfold view_storage. simpl.
    destruct (decide (k' = k)) as [->|Hne].
    + rewrite !lookup_insert_eq. by rewrite Hv.
    + by rewrite !lookup_insert_ne.
  - unfold bind, ret in *. simpl in *. by injection Hrun as _ <-.
Qed.

(** * Account operations *)

Lemma AddBalance_steps a v : steps (AddBalance a v).
Proof.
  apply steps_new. intros s o r s' Hw Ho Ha. unfold object_AddBalance.
  destruct (v =? 0); [by intros [= _ <-]|]. intros; by eapply SetBalance_step.
Qed.
Lemma SubBalance_steps a v : steps (SubBalance a v).
Proof.
  apply steps_new. intros s o r s' Hw Ho Ha. unfold object_SubBalance.
  destruct (v =? 0); [by intros [= _ <-]|]. intros; by eapply SetBalance_step.
Qed.
Lemma SetNonce_steps a n : steps (SetNonce a n).
Proof. apply steps_new. intros. by eapply SetNonce_step. Qed.
Lemma SetCode_steps a c : steps (SetCode a c).
Proof.
  apply steps_new. intros s o r s' Hw Ho Ha Hrun. apply bind_ok in Hrun as (x & s1 & Hc & Hr).
  injection Hr as _ <-. by eapply SetCode_step.
Qed.
Lemma SetState_steps a k v : steps (SetState a k v).
Proof. apply steps_new. intros. by eapply SetState_step. Qed.

(** The object that [CreateAccount] replaces is put back by its entry. *)
Lemma reset_step s a o o' :
  sdb_wf s -> stateObjects s !! a = Some o -> address o' = a -> address o = a ->
  jstep s (put_obj a o' (with_jrnl (journal_append (resetObjectChange o) (jrnl s)) s)).
Proof.
  intros Hw Ho Ha' Ha. eapply jstep_object; [done|done|done|by right| |reflexivity].
  intros st Hst Hl. simpl. unfold setStateObject, modify, put_obj. by rewrite Ha.
Qed.

Lemma CreateAccount_steps a : steps (CreateAccount a).
Proof.
  intros s r s' Hw Hrun. unfold CreateAccount, createObject in Hrun.
  apply bind_ok in Hrun as ([newobj prev] & s1 & Hcr & Hrun).
  apply bind_ok in Hcr as (x & s2 & Hg & Hcr).
  destruct (getStateObject_step _ _ _ _ Hw Hg) as [Hj Hx]. pose proof (jstep_wf _ _ Hw Hj) as Hw2.
  eapply rtc_l; [exact Hj|]. unfold bind, append, setStateObject, modify, ret in Hcr.
  destruct x as [p|].
  - destruct Hx as (Hl & Ha & _). injection Hcr as <- <- <-. simpl in Hrun.
    unfold update, modify in Hrun. injection Hrun as _ <-. apply rtc_once.
    match goal with |- jstep _ ?x =>
      replace x with (put_obj a (setBalance (balance p) (newObject a (mkAccount 0 None None)))
        (with_jrnl (journal_append (resetObjectChange p) (jrnl s2)) s2)) end.
    + by apply reset_step.
    + unfold put_obj, with_objects. simpl. by rewrite insert_insert_eq.
  - destruct Hx as [-> Hn]. injection Hcr as <- <- <-. simpl in Hrun. injection Hrun as _ <-.
    apply rtc_once. by apply create_step.
Qed.

Lemma CreateContract_steps a : steps (CreateContract a).
Proof.
  apply steps_get; [|by intros s r s' _ _]. intros s o r s' Hw Ho Ha.
  destruct (newContract o) eqn:Hn; [by intros [= _ <-]|].
  unfold bind. rewrite (update_live _ a); [|apply Hw|done]. rewrite append_run. intros [= _ <-].
  apply rtc_once. eapply (jstep_object s a o (setNewContract true o)
    (setNewContract false (setNewContract true o))); [done|done|done|by right|undo_object|].
  constructor; simpl; done.
Qed.

Lemma SelfDestruct_steps a : steps (SelfDestruct a).
Proof.
  apply steps_get; [|by intros s r s' _ _ [= _ <-]]. intros s o r s' Hw Ho Ha Hrun.
  apply rtc_once. eapply (logged_update s a o
    (selfDestructChange a (selfDestructed o) (balance o)) (fun o => setBalance 0 (markSelfDestructed o))
    (setBalance (balance o) (setDestructed (selfDestructed o) (setBalance 0 (markSelfDestructed o)))));
    [done..|by left| |same_view|].
  - intros st Hst Hl. simpl. unfold bind. rewrite getStateObject_spec by done. unfold obj_at. rewrite Hl.
    by apply (update_put st a (setBalance 0 (markSelfDestructed o))
      (fun o' => setBalance (balance o) (setDestructed (selfDestructed o) o'))).
  - unfold bind, ret in *. simpl in *. by injection Hrun as _ <-.
Qed.

Lemma SelfDestruct6780_steps a : steps (SelfDestruct6780 a).
Proof.
  apply steps_get; [|by intros s r s' _ _ [= _ <-]]. intros s o r s' Hw Ho Ha.
  destruct (newContract o); [|by intros [= _ <-]]. intros Hrun.
  apply bind_ok in Hrun as (x & s1 & Hs & [= _ <-]). by eapply SelfDestruct_steps.
Qed.

(** * Reads *)

Lemma GetCode_steps a : steps (GetCode a).
Proof.
  apply steps_get; [|by intros s r s' _ _ [= _ <-]]. intros s o r s' Hw Ho Ha Hrun.
  apply bind_ok in Hrun as (x & s1 & Hc & [= _ <-]). apply rtc_once.
  by destruct (object_Code_step _ _ _ _ _ Hw Ho Ha Hc).
Qed.
Lemma GetState_steps a k : steps (GetState a k).
Proof.
  apply steps_get; [|by intros s r s' _ _ [= _ <-]]. intros s o r s' Hw Ho Ha Hrun.
  apply bind_ok in Hrun as (x & s1 & Hc & [= _ <-]). apply rtc_once.
  by destruct (GetState_step _ _ _ _ _ _ Hw Ho Ha Hc).
Qed.
Lemma GetCommittedState_steps a k : steps (GetCommittedState a k).
Proof.
  apply steps_get; [|by intros s r s' _ _ [= _ <-]]. intros s o r s' Hw Ho Ha Hrun.
  apply bind_ok in Hrun as (x & s1 & Hc & [= _ <-]). apply rtc_once.
  by destruct (GetCommittedState_step _ _ _ _ _ _ Hw Ho Ha Hc).
Qed.
Lemma getStateObject_steps a : steps (getStateObject a).
Proof. intros s r s' Hw Hg. apply rtc_once. by destruct (getStateObject_step _ _ _ _ Hw Hg). Qed.

(** * The fields of the database *)

(** A journaled change of a field other than the objects. *)
Lemma field_step s s' e t :
  sdb_wf s -> jrnl s' = journal_append e (jrnl s) -> Dirtied e = None ->
  stateObjects s' = stateObjects s -> same_revs s s' ->
  (writeCache s' = None -> cacheCtx s' = None) -> al_wf (access s') -> layers_of s' <> [] ->
  Revert_entry e s' = (Ok tt, t) -> jrnl t = jrnl s' -> restores s (with_jrnl (jrnl s) t) ->
  jstep s s'.
Proof.
  intros Hw Hj Hd Hobj Hrv Hsy Hal Hla Hrun Hjt Hr. eapply jstep_entry; try done.
  - unfold addr_wf. rewrite Hobj. apply Hw.
  - by rewrite Hobj.
  - intros a Ha. congruence.
Qed.

Lemma same_db s : with_jrnl (jrnl s) s = s.
Proof. by destruct s. Qed.

Lemma AddLog_steps l : steps (AddLog l).
Proof.
  intros s r s' Hw. unfold AddLog, bind. rewrite append_run. intros [= _ <-]. apply rtc_once.
  eapply field_step with (e := addLogChange);
    [done|done|done|done|done|apply Hw|by apply (access_wf s)|by apply (layers_wf s)|..].
  - simpl. rewrite bind_gets. simpl. destruct (logs s ++ _) eqn:E; [by destruct (logs s)|].
    rewrite <- E. reflexivity.
  - done.
  - simpl. constructor; try done || reflexivity. simpl. rewrite length_app. simpl.
    rewrite Nat.add_sub. apply take_app_length.
Qed.

Lemma AddRefund_steps g : steps (AddRefund g).
Proof.
  intros s r s' Hw. unfold AddRefund. rewrite bind_gets. unfold bind. rewrite append_run.
  intros [= _ <-]. apply rtc_once. eapply field_step with (e := refundChange (refund s));
    [done|done|done|done|done|apply Hw|by apply (access_wf s)|by apply (layers_wf s)|done|done|].
  constructor; done || reflexivity.
Qed.
Lemma SubRefund_steps g : steps (SubRefund g).
Proof.
  intros s r s' Hw. unfold SubRefund. rewrite bind_gets. unfold bind. rewrite append_run.
  destruct (refund s <? g); [done|].
  intros [= _ <-]. apply rtc_once. eapply field_step with (e := refundChange (refund s));
    [done|done|done|done|done|apply Hw|by apply (access_wf s)|by apply (layers_wf s)|done|done|].
  constructor; done || reflexivity.
Qed.

Lemma SetTransientState_steps a k v : steps (SetTransientState a k v).
Proof.
  intros s r s' Hw. unfold SetTransientState, GetTransientState. rewrite bind_gets.
  destruct (_ =? v); [by intros [= _ <-]|]. unfold bind. rewrite append_run.
  intros [= _ <-]. apply rtc_once.
  eapply field_step with (e := transientStorageChange a k (Get (transient s) a k));
    [done|done|done|done|done|apply Hw|by apply (access_wf s)|by apply (layers_wf s)|done|done|].
  constructor; try done || reflexivity. intros a' k'. simpl. rewrite !Get_Set.
  case_decide as Hk; [by destruct Hk as [-> ->]|done].
Qed.

(** * Access list *)

Lemma AddAddress_undo al a :
  al_wf al -> addresses al !! a = None ->
  al_wf (mkAL (<[a := -1]> (addresses al)) (slots al)) /\
  DeleteAddress (mkAL (<[a := -1]> (addresses al)) (slots al)) a = al.
Proof.
  intros [Hi Hs Hinj] Ha. split.
  - constructor; simpl; [|done|].
    + intros b i [[-> <-]|[_ Hb]]%lookup_insert_Some; [by left|by apply Hi in Hb].
    + intros b1 b2 i [[-> <-]|[_ H1]]%lookup_insert_Some; [by left|].
      intros [[-> <-]|[_ H2]]%lookup_insert_Some; [by left|by apply (Hinj b1 b2)].
  - unfold DeleteAddress. simpl. rewrite delete_insert_id by done. by destruct al.
Qed.

(** Adding a slot to an address of the list keeps the indices and is undone. *)
Lemma AddSlot_undo al a slot r :
  al_wf al -> is_Some (addresses al !! a) -> AddSlot al a slot = Ok r ->
  r = (al, (false, false)) \/
  (r.2 = (false, true) /\ al_wf r.1 /\ DeleteSlot r.1 a slot = Ok al).
Proof.
  intros [Hi Hs Hinj] [i Ha]. unfold AddSlot. rewrite Ha. destruct (Z.eqb_spec i (-1)) as [->|Hne].
  - intros [= <-]. right. simpl. split_and!; [done| |].
    + constructor; simpl.
      * intros b j. rewrite length_app. simpl. intros [[-> <-]|[_ Hb]]%lookup_insert_Some; [lia|].
        specialize (Hi b j Hb). lia.
      * apply Forall_app_2; [done|]. constructor; [set_solver|done].
      * intros b1 b2 j [[-> <-]|[_ B1]]%lookup_insert_Some [[-> E]|[_ B2]]%lookup_insert_Some; [by right|..].
        -- specialize (Hi _ _ B2). lia.
        -- subst j. specialize (Hi _ _ B1). lia.
        -- by apply (Hinj b1 b2).
    + unfold DeleteSlot. simpl. rewrite lookup_insert_eq.
      destruct (Z.ltb_spec (Z.of_nat (length (slots al))) 0); [lia|]. rewrite Nat2Z.id, list_lookup_middle by done.
      rewrite bool_decide_true by set_solver. rewrite insert_insert_eq, take_app_length.
      rewrite insert_id by done. by destruct al.
  - destruct (Hi a i Ha) as [|Hr]; [done|].
    destruct (slots al !! Z.to_nat i) as [m|] eqn:Hm; [|done].
    case_bool_decide as Hin; intros [= <-]; [by left|]. right. simpl.
    assert (m <> ∅) as Hne' by (by eapply (Forall_lookup_1 _ _ _ _ Hs)).
    split_and!; [done| |].
    + constructor; simpl.
      * intros b j Hj. rewrite length_insert. by apply (Hi b).
      * apply Forall_insert; [done|]. set_solver.
      * done.
    + unfold DeleteSlot. simpl. rewrite Ha. destruct (Z.ltb_spec i 0); [lia|].
      rewrite list_lookup_insert_eq by (apply lookup_lt_is_Some_1; by rewrite Hm).
      assert (({[slot]} ∪ m) ∖ {[slot]} = m) as -> by set_solver.
      rewrite bool_decide_false by done. rewrite list_insert_insert_eq, list_insert_id by done. by destruct al.
Qed.

Lemma access_step s e al t :
  sdb_wf s -> Dirtied e = None -> al_wf al ->
  Revert_entry e (with_jrnl (journal_append e (jrnl s)) (with_access al s)) = (Ok tt, t) ->
  t = with_jrnl (journal_append e (jrnl s)) s ->
  jstep s (with_jrnl (journal_append e (jrnl s)) (with_access al s)).
Proof.
  intros Hw Hd Hal Hrun ->. eapply field_step with (e := e);
    [done|done|done|done|done|apply Hw|done|by apply (layers_wf s)|exact Hrun|done|].
  constructor; done || reflexivity.
Qed.

Lemma AddAddress_step s a :
  sdb_wf s -> addresses (access s) !! a = None ->
  jstep s (with_jrnl (journal_append (accessListAddAccountChange a) (jrnl s))
    (with_access (mkAL (<[a := -1]> (addresses (access s))) (slots (access s))) s)).
Proof.
  intros Hw Ha. destruct (AddAddress_undo _ _ (access_wf _ Hw) Ha) as [Hal Hdel].
  eapply access_step; [done|done|done|reflexivity|].
  cbn [access with_jrnl with_access]. rewrite Hdel. by destruct s.
Qed.

Lemma AddAddressToAccessList_steps a : steps (AddAddressToAccessList a).
Proof.
  intros s r s' Hw. unfold AddAddressToAccessList, AddAddress. rewrite bind_gets.
  destruct (addresses (access s) !! a) eqn:Ha; unfold bind, modify, append, ret; intros [= _ <-].
  - by replace (with_access (access s) s) with s by by destruct s.
  - apply rtc_once. by apply AddAddress_step.
Qed.

Lemma AddSlot_present_steps s a slot s' :
  sdb_wf s -> is_Some (addresses (access s) !! a) ->
  AddSlotToAccessList a slot s = (Ok tt, s') -> rtc jstep s s'.
Proof.
  intros Hw Ha. unfold AddSlotToAccessList. rewrite bind_gets. unfold bind, lift.
  destruct (AddSlot (access s) a slot) as [r| |] eqn:Hr; [|done..].
  destruct (AddSlot_undo _ _ _ _ (access_wf _ Hw) Ha Hr) as [->|(Hf & Hal & Hdel)].
  - unfold modify, ret. simpl. intros [= <-]. by replace (with_access (access s) s) with s by by destruct s.
  - rewrite Hf. unfold modify, append, ret. simpl. intros [= <-]. apply rtc_once.
    eapply access_step; [done|done|done| |reflexivity].
    simpl. rewrite bind_gets. unfold bind, lift. cbn [access with_jrnl with_access].
    rewrite Hdel. unfold modify. by destruct s.
Qed.

Lemma AddSlotToAccessList_steps a slot : steps (AddSlotToAccessList a slot).
Proof.
  intros s [] s' Hw Hrun. destruct (addresses (access s) !! a) eqn:Ha.
  { eapply AddSlot_present_steps; eauto. }
  pose proof (AddAddress_step s a Hw Ha) as Hj. eapply rtc_l; [exact Hj|].
  eapply AddSlot_present_steps; [by eapply jstep_wf| |].
  { simpl. rewrite lookup_insert_eq. eauto. }
  rewrite <- Hrun. unfold AddSlotToAccessList, AddSlot. rewrite !bind_gets. simpl.
  rewrite Ha, lookup_insert_eq. simpl. unfold bind, lift, modify, append, ret. simpl.
  f_equal. unfold with_jrnl, with_access. simpl. by rewrite insert_insert_eq.
Qed.
End ops.
