(* ===== verification/StateDBMachine.v ===== *)
(** The state database as a machine: its operations, snapshots and reverts, and
    the preservation of the invariant by all of them. *)
From S2P Require Import Prelude KVStore Sdk StateDB StateDBInv StateDBRun StateDBOps.
Import AccessList Transient.

(** * sort.Search *)

(** Bisection finds the boundary of a monotone test. *)
Lemma search_spec fuel f i j :
  (j - i <= fuel)%nat -> (i <= j)%nat ->
  (forall x y, (i <= x <= y)%nat -> (y < j)%nat -> f x = true -> f y = true) ->
  let r := search fuel f i j in
  (i <= r <= j)%nat /\ (forall x, (i <= x < r)%nat -> f x = false) /\ ((r < j)%nat -> f r = true).
Proof.
  revert i j. induction fuel as [|fuel IH]; intros i j Hf Hij Hmono.
  { simpl. split_and!; [lia|lia|intros; lia|intros; lia]. }
  cbn [search]. destruct (Nat.ltb_spec i j) as [Hlt|Hge].
  2:{ split_and!; [lia|lia|intros; lia|intros; lia]. }
  assert (i <= Nat.div (i + j) 2 < j)%nat as Hh.
  { split; [apply Nat.div_le_lower_bound; lia|apply Nat.Div0.div_lt_upper_bound; lia]. }
  set (h := Nat.div (i + j) 2) in *. destruct (f h) eqn:Hfh.
  - destruct (IH i h) as (Hr & Hlo & Hhi); [lia|lia|intros x y ? ? Hx; by apply (Hmono x y); [lia..|]|].
    cbv zeta. split_and!; [lia|lia|done|]. intros _.
    destruct (decide (search fuel f i h < h)%nat) as [Hc|Hc]; [by apply Hhi|].
    replace (search fuel f i h) with h by lia. done.
  - destruct (IH (h + 1)%nat j) as (Hr & Hlo & Hhi); [lia|lia|intros x y ? ? Hx; by apply (Hmono x y); [lia..|]|].
    cbv zeta. split_and!; [lia|lia| |done]. intros x Hx.
    destruct (decide (x <= h)%nat) as [Hc|Hc]; [|apply Hlo; lia].
    destruct (f x) eqn:Hfx; [|done]. rewrite (Hmono x h) in Hfh; [done|lia|lia|done].
Qed.

Lemma sorted_lookup {A} (R : relation A) l i j x y :
  StronglySorted R l -> (i < j)%nat -> l !! i = Some x -> l !! j = Some y -> R x y.
Proof.
  intros Hs. revert i j. induction Hs as [|z l Hs IH Hz]; intros i j Hij Hi Hj; [done|].
  destruct i as [|i], j as [|j]; simpl in *; try lia.
  - simplify_eq. by eapply Forall_lookup_1.
  - eapply IH; [|done..]. lia.
Qed.

Section machine.
Context `{Keccak, StateKeeper}.
Implicit Types (s t : StateDB) (o : stateObject) (a : Z).

(** * Precompile calls *)

(** A call of a precompile: the set-up, and whatever its body writes and emits
    in the cached context.  A set-up that fails ends the call. *)
Definition precompile_call (p : Z) (body : KS -> KS * list event) : M StateDB unit :=
  let! r := try (RunSetup p) in
  match r with
  | inr _ => ret tt
  | inl _ => modify (fun s =>
      let '(v, evs) := body (cache_view s) in
      let s := set_cache_view v s in
      with_cache (option_map (fun cc => mkCache (cc_layers cc) (cc_events cc ++ evs)) (cacheCtx s)) s)
  end.

Lemma getOrNew_with_cache a c s :
  getOrNewStateObject a (with_cache c s) =
  let '(r, s') := getOrNewStateObject a s in (r, with_cache c s').
Proof.
  unfold getOrNewStateObject, createObject, getStateObject, bind, gets, lift, ret, append,
    setStateObject, modify. simpl. destruct (stateObjects s !! a) eqn:E; [done|].
  destruct (k_GetAccount (ctx s) a) as [p|[acct|]] eqn:Ek; simpl; try done. by rewrite E, Ek.
Qed.

Lemma with_cache_id s : with_cache (cacheCtx s) s = s.
Proof. by destruct s. Qed.

Lemma getOrNew_cache a s r s' : getOrNewStateObject a s = (r, s') -> cacheCtx s' = cacheCtx s.
Proof.
  intros Hr. pose proof (getOrNew_with_cache a (cacheCtx s) s) as Hc.
  rewrite with_cache_id, Hr in Hc. injection Hc as Hc. by rewrite Hc.
Qed.

Lemma layers_set_snoc (L : list (option KS)) y v : layers_set (L ++ [y]) v = L ++ [Some v].
Proof. unfold layers_set. rewrite length_app. simpl. by rewrite Nat.add_sub, take_app_length. Qed.

(** The commit into the cached context changes its top layer only. *)
Lemma CommitWithCacheCtx_top s L y evs r s' :
  cacheCtx s = Some (mkCache (L ++ [y]) evs) -> CommitWithCacheCtx s = (r, s') ->
  exists x, s' = with_cache (Some (mkCache (L ++ [x]) evs)) s.
Proof.
  intros Hc. unfold CommitWithCacheCtx. rewrite bind_gets, Hc. unfold zoom.
  destruct (commitWithCtx s _) as [r1 v]. intros [= _ <-]. unfold set_cache_view. rewrite Hc. simpl.
  rewrite layers_set_snoc. eauto.
Qed.

(** The journal entry of a call, with any top layer, is a step. *)
Lemma precompile_step s L evs evs' x n :
  sdb_wf s -> cacheCtx s = Some (mkCache L evs) ->
  jstep s (with_cache (Some (mkCache (L ++ [x]) evs')) (with_counter n
    (with_jrnl (journal_append (precompileCallChange (Z.of_nat (length L) - 1) evs) (jrnl s)) s))).
Proof.
  intros Hw Hc. pose proof (layers_wf _ Hw) as Hne. unfold layers_of in Hne. rewrite Hc in Hne. simpl in Hne.
  assert (0 < length L)%nat by (destruct L; [done|simpl; lia]).
  eapply field_step with (e := precompileCallChange (Z.of_nat (length L) - 1) evs);
    [done|done|done|done|done| |by apply (access_wf s)| | |..].
  - intros Hwr. simpl in Hwr. pose proof (wf_sync _ Hw Hwr). congruence.
  - simpl. by destruct L.
  - simpl. unfold RevertMultiStore. rewrite bind_gets. simpl. rewrite length_app. simpl.
    destruct (Z.ltb_spec (Z.of_nat (length L) - 1) 0); [lia|].
    destruct (Z.leb_spec (Z.of_nat (length L + 1) - 1) (Z.of_nat (length L) - 1)); [lia|]. reflexivity.
  - done.
  - constructor; try done || reflexivity. unfold layers_of. simpl. rewrite Hc. simpl.
    replace (Z.to_nat (Z.of_nat (length L) - 1 + 1)) with (length L) by lia. apply take_app_length.
Qed.

Lemma open_step s s' : sdb_wf s -> GetCacheContext s = (Ok tt, s') ->
  jstep s s' /\ exists cc, writeCache s' <> None /\ (cacheCtx s' = None \/ cacheCtx s' = Some cc).
Proof.
  intros Hw. unfold GetCacheContext, modify. destruct (writeCache s) eqn:E; intros [= <-].
  - split; [apply jstep_quiet; [done|apply Hw|apply Hw|done|done|reflexivity]|].
    exists (default (mkCache [] []) (cacheCtx s)). split; [congruence|]. destruct (cacheCtx s); [by right|by left].
  - pose proof (wf_sync _ Hw E) as Hc. split; [|eexists; split; [done|by right]].
    apply jstep_quiet; [done|apply Hw|done|done|done|]. constructor; try done || reflexivity.
    unfold layers_of. simpl. by rewrite Hc.
Qed.

Lemma getOrNew_no_error a s e s' : getOrNewStateObject a s = (Err e, s') -> False.
Proof.
  unfold getOrNewStateObject, createObject, getStateObject, bind, gets, lift, ret, append,
    setStateObject, modify, panic. destruct (stateObjects s !! a) eqn:E; [done|].
  destruct (k_GetAccount (ctx s) a) as [p|[acct|]] eqn:Ek; simpl; try done. by rewrite E, Ek.
Qed.

Lemma AddPrecompileFn_run a n evs s r s' :
  AddPrecompileFn a n evs s = (r, s') ->
  match getOrNewStateObject a s with
  | (Ok _, s1) => s' = with_counter ((precompileCallsCounter s1 + 1) mod 256)
      (with_jrnl (journal_append (precompileCallChange n evs) (jrnl s1)) s1)
  | (_, s1) => is_panic r = true
  end.
Proof.
  unfold AddPrecompileFn, bind. destruct (getOrNewStateObject a s) as [[o|e|p] s1] eqn:E.
  - rewrite append_run. unfold modify, gets, fail, ret. simpl. case_match; by intros [= _ <-].
  - by apply getOrNew_no_error in E.
  - by intros [= <- <-].
Qed.

Lemma precompile_call_steps p body : steps (precompile_call p body).
Proof.
  intros s [] s' Hw Hrun. unfold precompile_call in Hrun. apply bind_ok in Hrun as (q & s5 & Htry & Hbody).
  apply try_ok in Htry.
  assert (exists r, RunSetup p s = (r, s5) /\ is_panic r = false) as (r & Hset & Hnp)
    by (destruct q; eauto).
  unfold RunSetup in Hset. unfold bind at 1 in Hset.
  destruct (GetCacheContext s) as [[[]| |] s1] eqn:Hopen; [|unfold GetCacheContext, modify in Hopen; done..].
  destruct (open_step _ _ Hw Hopen) as [Hj1 _]. pose proof (jstep_wf _ _ Hw Hj1) as Hw1.
  eapply rtc_l; [exact Hj1|]. clear Hopen Hj1 Htry.
  unfold bind at 1, MultiStoreSnapshot in Hset. rewrite bind_gets in Hset.
  destruct (cacheCtx s1) as [[L evs]|] eqn:Hc; [|simpl in Hset; by simplify_eq].
  unfold bind at 1, modify, ret in Hset. rewrite bind_gets in Hset.
  cbn [cc_layers cc_events cacheCtx with_cache] in Hset. unfold bind in Hset.
  destruct (AddPrecompileFn p (Z.of_nat (length L) - 1) evs _) as [r1 s3] eqn:Hadd.
  apply AddPrecompileFn_run in Hadd. rewrite getOrNew_with_cache in Hadd.
  destruct (getOrNewStateObject p s1) as [[o|e|m] s2] eqn:Hnew;
    [|destruct r1; done || by simplify_eq..].
  destruct (getOrNew_live _ _ _ _ Hw1 Hnew) as (Hs2 & _ & _). pose proof (jsteps_wf _ _ Hw1 Hs2) as Hw2.
  apply getOrNew_cache in Hnew. rewrite Hc in Hnew. etrans; [exact Hs2|]. apply rtc_once.
  assert (exists x evs', s' = with_cache (Some (mkCache (L ++ [x]) evs')) s3) as (x & evs' & ->).
  { assert (exists x, s5 = with_cache (Some (mkCache (L ++ [x]) evs)) s3) as (x & ->).
    { destruct r1 as [[]| |]; [by eapply CommitWithCacheCtx_top; [by rewrite Hadd|]|exists None..];
        by simplify_eq. }
    destruct q; simpl in Hbody; [|injection Hbody as <-; by eauto].
    unfold modify in Hbody. destruct (body _) as [v evs2]. injection Hbody as <-. simpl.
    rewrite layers_set_snoc. by eauto. }
  rewrite Hadd. by apply (precompile_step s2 L evs).
Qed.

(** * Reverting *)

(** What the undo of an entry leaves alone. *)
Lemma Revert_entry_keeps e s t :
  Revert_entry e s = (Ok tt, t) ->
  jrnl t = jrnl s /\ validRevisions t = validRevisions s /\ nextRevisionID t = nextRevisionID s /\
  ((writeCache t = writeCache s /\ cacheCtx t = cacheCtx s) \/ writeCache t <> None).
Proof.
  assert (forall a (o : option stateObject) s1, getStateObject a s = (Ok o, s1) ->
    s1 = with_objects (stateObjects s1) s) as Hget.
  { intros a o s1. unfold getStateObject. rewrite bind_gets.
    destruct (stateObjects s !! a); [intros [= _ <-]; by destruct s|].
    destruct (k_GetAccount (ctx s) a) as [p|[acct|]]; [done|..].
    - unfold bind, setStateObject, modify, ret. by intros [= _ <-].
    - intros [= _ <-]. by destruct s. }
  assert (forall a f, on_object a f s = (Ok tt, t) -> t = with_objects (stateObjects t) s) as Hon.
  { intros a f. unfold on_object, bind. destruct (getStateObject a s) as [[[o|]| |] s1] eqn:E; try done.
    apply Hget in E. rewrite E. unfold update, modify. by intros [= <-]. }
  assert (t = with_objects (stateObjects t) s -> jrnl t = jrnl s /\ validRevisions t = validRevisions s /\
    nextRevisionID t = nextRevisionID s /\
    ((writeCache t = writeCache s /\ cacheCtx t = cacheCtx s) \/ writeCache t <> None)) as Hsame.
  { intros ->. simpl. split_and!; [done..|by left]. }
  destruct e; simpl; intros Hrun; try (by apply Hsame; eapply Hon);
    try (unfold setStateObject, setTransientState, modify in Hrun; injection Hrun as <-; simpl; by eauto 6).
  - apply Hsame. unfold bind in Hrun. destruct (getStateObject a s) as [[[o|]| |] s1] eqn:E; try done;
      apply Hget in E; rewrite E in Hrun; unfold update, modify, ret in Hrun; by injection Hrun as <-.
  - rewrite bind_gets in Hrun. destruct (logs s); [done|]. injection Hrun as <-. simpl. by eauto 6.
  - rewrite bind_gets in Hrun. apply bind_lift_ok in Hrun as (al & _ & [= <-]). simpl. by eauto 6.
  - unfold RevertMultiStore in Hrun. rewrite bind_gets in Hrun. destruct (cacheCtx s); [|done].
    destruct (_ || _); [done|]. injection Hrun as <-. simpl. split_and!; [done..|by right].
Qed.

Lemma undo_keeps l s t :
  each undo_entry l s = (Ok tt, t) ->
  entries (jrnl t) = entries (jrnl s) /\ validRevisions t = validRevisions s /\
  nextRevisionID t = nextRevisionID s /\
  dirties (jrnl t) = foldl (fun d e => dec1 d (Dirtied e)) (dirties (jrnl s)) l /\
  ((writeCache s = None -> cacheCtx s = None) -> writeCache t = None -> cacheCtx t = None).
Proof.
  revert s. induction l as [|e l IH]; intros s Hrun; simpl in Hrun; [by injection Hrun as <-|].
  apply bind_ok in Hrun as ([] & s1 & H1 & H2). unfold undo_entry in H1.
  apply bind_ok in H1 as ([] & s2 & H1 & [= <-]). apply Revert_entry_keeps in H1 as (Hj & Hv & Hn & Hc).
  apply IH in H2 as (E1 & E2 & E3 & E4 & E5). simpl in *. rewrite E1, E2, E3, E4, Hj, Hv, Hn.
  split_and!; [done..|]. intros Hs Hwt. apply E5; [|done]. intros Hw2.
  destruct Hc as [[Hc1 Hc2]|Hc]; [rewrite Hc2; apply Hs; congruence|done].
Qed.

Lemma foldl_dec_rev l m :
  foldl (fun d e => dec1 d (Dirtied e)) (count_dirties (l ++ m)) (rev m) = count_dirties l.
Proof.
  revert l. induction m as [|e m IH] using rev_ind; intros l; [by rewrite app_nil_r|].
  rewrite rev_app_distr, app_assoc, count_app. simpl. by rewrite dec_inc.
Qed.

(** A revert, opened: the revision found, the undo, the truncation. *)
Lemma RevertToSnapshot_run rid s s' :
  RevertToSnapshot rid s = (Ok tt, s') ->
  exists i r t, validRevisions s !! i = Some r /\ id r = rid /\
    each undo_entry (rev (drop (journalIndex r) (entries (jrnl s)))) s = (Ok tt, t) /\
    s' = with_revisions (take i (validRevisions s)) (nextRevisionID s)
      (with_jrnl (mkJournal (take (journalIndex r) (entries (jrnl s))) (dirties (jrnl t))) t).
Proof.
  unfold RevertToSnapshot. rewrite bind_gets. set (i := sort_Search _ _).
  destruct (validRevisions s !! i) as [r|] eqn:Hr; [|done].
  destruct (Z.eqb_spec (id r) rid) as [Hid|]; [|done]. simpl. intros Hrun.
  apply bind_ok in Hrun as ([] & s1 & Hj & [= <-]). unfold journal_Revert in Hj. rewrite bind_gets in Hj.
  apply bind_ok in Hj as ([] & t & Hu & [= <-]). exists i, r, t. simpl.
  destruct (undo_keeps _ _ _ Hu) as (E1 & E2 & E3 & _ & _). rewrite E1, E2, E3. done.
Qed.

Lemma truncated_restores t l n j :
  dirties j = dirties (jrnl t) -> restores t (with_revisions l n (with_jrnl j t)).
Proof. intros Hd. constructor; done || reflexivity. Qed.

(** Undoing to [m] goes through undoing to [j]. *)
Lemma undo_split (es : list JournalEntry) m j :
  (m <= j <= length es)%nat ->
  rev (drop m es) = rev (drop j es) ++ rev (drop m (take j es)).
Proof.
  intros Hm. rewrite <- rev_app_distr. f_equal. rewrite <- (take_drop j es) at 1.
  rewrite drop_app_le by (rewrite length_take; lia). done.
Qed.

Lemma RevertToSnapshot_wf rid s s' :
  sdb_wf s -> RevertToSnapshot rid s = (Ok tt, s') -> sdb_wf s'.
Proof.
  intros Hw Hrun. apply RevertToSnapshot_run in Hrun as (i & r & t & Hi & Hid & Hu & ->).
  destruct (wf_revs _ Hw) as [Hso Hf]. pose proof (Forall_lookup_1 _ _ _ _ Hf Hi) as [_ Hj].
  destruct (undo_keeps _ _ _ Hu) as (E1 & E2 & E3 & E4 & E5).
  pose proof (undo_addr _ _ _ (wf_addr _ Hw) Hu) as Hat. constructor; simpl.
  - exact Hat.
  - apply E5, Hw.
  - rewrite E4, (wf_dirties _ Hw). rewrite <- (take_drop (journalIndex r) (entries (jrnl s))) at 1.
    apply foldl_dec_rev.
  - intros m Hm. rewrite length_take in Hm.
    destruct (wf_hist _ Hw m) as (u & Hum & Hok); [lia|].
    rewrite (undo_split _ m (journalIndex r)), undo_app in Hum by lia.
    rewrite (bind_run _ _ _ _ _ Hu) in Hum.
    eapply (undo_along _ t (with_revisions (take i (validRevisions s)) (nextRevisionID s)
      (with_jrnl (mkJournal (take (journalIndex r) (entries (jrnl s))) (dirties (jrnl t))) t)))
      in Hum as (u' & Hu' & Hr); [|done|exact Hat|by apply truncated_restores].
    exists u'. split; [done|]. by eapply hist_ok_restores.
  - rewrite length_take. split.
    + rewrite <- (take_drop i (validRevisions s)) in Hso. by apply StronglySorted_app_1_l in Hso.
    + apply Forall_lookup. intros k r' Hk. apply lookup_take_Some in Hk as [Hk Hki].
      pose proof (Forall_lookup_1 _ _ _ _ Hf Hk) as [? ?]. split; [done|].
      assert (journalIndex r' <= journalIndex r)%nat; [|lia].
      by apply (sorted_lookup _ _ k i r' r Hso).
Qed.

Lemma Snapshot_wf s i s' :
  sdb_wf s -> Snapshot s = (Ok i, s') ->
  i = nextRevisionID s /\ sdb_wf s' /\ restores s s' /\ jrnl s' = jrnl s /\
  validRevisions s' = validRevisions s ++ [mkRevision i (length (entries (jrnl s)))].
Proof.
  intros Hw. unfold Snapshot. rewrite bind_gets. unfold bind, modify, ret. intros [= <- <-].
  set (s' := with_revisions _ _ s). assert (restores s s') as Hr by (constructor; done || reflexivity).
  split_and!; [done| |done|done|done]. constructor; [apply Hw|apply Hw|apply Hw|..].
  - intros m Hm. destruct (wf_hist _ Hw m Hm) as (u & Hu & Hok).
    eapply (undo_along _ s s') in Hu as (u' & Hu' & Hru); [|apply Hw|apply Hw|done].
    exists u'. split; [done|]. by eapply hist_ok_restores.
  - destruct (wf_revs _ Hw) as [Hso Hf]. split; simpl.
    + apply StronglySorted_app. split_and!; [|done|by repeat constructor].
      intros r1 r2 H1 H2%list_elem_of_singleton. subst r2. simpl.
      rewrite Forall_forall in Hf. destruct (Hf r1 H1). lia.
    + apply Forall_app_2.
      * eapply Forall_impl; [exact Hf|]. simpl. intros r [? ?]. lia.
      * constructor; [simpl; lia|done].
Qed.
End machine.
