(* ===== verification/StateDBThms.v ===== *)
(** The theorems about the state database: what a revert gives back, the
    invariant of every reachable state, and what a commit writes. *)
From S2P Require Import Prelude KVStore Sdk StateDB StateDBInv StateDBRun StateDBOps StateDBMachine.
Import AccessList Transient.

Section thms.
Context `{Keccak, StateKeeper}.
Implicit Types (s t : StateDB) (o : stateObject) (a : Z).

(** * The operations of a transaction *)

Inductive sdb_op :=
  | OAddBalance (a v : Z) | OSubBalance (a v : Z) | OSetNonce (a n : Z)
  | OSetCode (a : Z) (c : option bytes) | OSetState (a k v : Z)
  | OCreateAccount (a : Z) | OCreateContract (a : Z)
  | OSelfDestruct (a : Z) | OSelfDestruct6780 (a : Z)
  | OAddLog (l : Log) | OAddRefund (g : Z) | OSubRefund (g : Z)
  | OSetTransientState (a k v : Z) | OAddAddress (a : Z) | OAddSlot (a k : Z)
  | OLoad (a : Z) | OGetCode (a : Z) | OGetState (a k : Z) | OGetCommittedState (a k : Z)
  | OPrecompile (p : Z) (body : KS -> KS * list event)
  | OSnapshot | ORevert (rid : Z).

Definition void {A} (m : M StateDB A) : M StateDB unit := do! m; ret tt.

Definition run_op (op : sdb_op) : M StateDB unit :=
  match op with
  | OAddBalance a v => void (AddBalance a v)
  | OSubBalance a v => void (SubBalance a v)
  | OSetNonce a n => SetNonce a n
  | OSetCode a c => void (SetCode a c)
  | OSetState a k v => void (SetState a k v)
  | OCreateAccount a => CreateAccount a
  | OCreateContract a => CreateContract a
  | OSelfDestruct a => void (SelfDestruct a)
  | OSelfDestruct6780 a => void (SelfDestruct6780 a)
  | OAddLog l => AddLog l
  | OAddRefund g => AddRefund g
  | OSubRefund g => SubRefund g
  | OSetTransientState a k v => SetTransientState a k v
  | OAddAddress a => AddAddressToAccessList a
  | OAddSlot a k => AddSlotToAccessList a k
  | OLoad a => void (getStateObject a)
  | OGetCode a => void (GetCode a)
  | OGetState a k => void (GetState a k)
  | OGetCommittedState a k => void (GetCommittedState a k)
  | OPrecompile p body => precompile_call p body
  | OSnapshot => void Snapshot
  | ORevert rid => RevertToSnapshot rid
  end.

(** The operations that are neither a snapshot nor a revert. *)
Definition is_step (op : sdb_op) : bool :=
  match op with OSnapshot | ORevert _ => false | _ => true end.

Lemma steps_void {A} (m : M StateDB A) : steps m -> steps (void m).
Proof. intros Hm. apply steps_bind; [done|]. intros x. apply steps_ret. Qed.

Hint Resolve steps_void AddBalance_steps SubBalance_steps SetNonce_steps SetCode_steps
  SetState_steps CreateAccount_steps CreateContract_steps SelfDestruct_steps
  SelfDestruct6780_steps AddLog_steps AddRefund_steps SubRefund_steps SetTransientState_steps
  AddAddressToAccessList_steps AddSlotToAccessList_steps getStateObject_steps GetCode_steps
  GetState_steps GetCommittedState_steps precompile_call_steps : guru.

Lemma op_steps op : is_step op = true -> steps (run_op op).
Proof. destruct op; intros; try done; simpl; eauto with guru. Qed.

Lemma op_wf op s s' : sdb_wf s -> run_op op s = (Ok tt, s') -> sdb_wf s'.
Proof.
  intros Hw Hrun. destruct (is_step op) eqn:Hop.
  - eapply jsteps_wf; [done|]. by eapply op_steps.
  - destruct op; try done; simpl in Hrun.
    + apply bind_ok in Hrun as (i & s1 & Hs & [= <-]). by apply Snapshot_wf in Hs as (_ & ? & _).
    + by eapply RevertToSnapshot_wf.
Qed.

(** * Reverting to a snapshot *)

(** [s] was reached from [s0], of which a snapshot [i] was taken, without
    reverting to it or below. *)
Record above_snapshot s0 (i : Z) s : Prop := {
  as_prefix : take (length (entries (jrnl s0))) (entries (jrnl s)) = entries (jrnl s0);
  as_undo : exists t,
    each undo_entry (rev (drop (length (entries (jrnl s0))) (entries (jrnl s)))) s = (Ok tt, t) /\
    restores s0 t;
  as_revs : exists newer, validRevisions s =
    validRevisions s0 ++ mkRevision i (length (entries (jrnl s0))) :: newer;
}.

Lemma prefix_length {A} (l l' : list A) : take (length l) l' = l -> (length l <= length l')%nat.
Proof. intros Ht. apply (f_equal length) in Ht. rewrite length_take in Ht. lia. Qed.

Lemma above_step s0 i s s' : sdb_wf s -> above_snapshot s0 i s -> jstep s s' -> above_snapshot s0 i s'.
Proof.
  intros Hw [Hp (t & Hu & Hr) Hv] [Ha _ _ [Hsv _] (es & t1 & _ & He & _ & Hu1 & Hr1)].
  pose proof (prefix_length _ _ Hp) as Hl. constructor.
  - rewrite He, take_app_le by done. done.
  - destruct (undo_along _ s t1 t (wf_addr _ Hw) (undo_addr _ _ _ Ha Hu1) Hr1 Hu) as (t' & Hu' & Hr').
    exists t'. rewrite He, drop_app_le, rev_app_distr, undo_app by done.
    rewrite (bind_run _ _ _ _ _ Hu1). split; [done|]. by etrans.
  - by rewrite Hsv.
Qed.

Lemma above_steps s0 i s s' : sdb_wf s -> above_snapshot s0 i s -> rtc jstep s s' -> above_snapshot s0 i s'.
Proof.
  intros Hw Ha Hs. induction Hs as [|s s1 s2 Hj Hs IH]; [done|].
  apply IH; [by eapply jstep_wf|by eapply above_step].
Qed.

Lemma above_Snapshot s0 i s j s' :
  sdb_wf s -> above_snapshot s0 i s -> Snapshot s = (Ok j, s') -> above_snapshot s0 i s'.
Proof.
  intros Hw [Hp (t & Hu & Hr) (newer & Hv)] Hs.
  destruct (Snapshot_wf _ _ _ Hw Hs) as (_ & Hw' & Hr' & Hj & Hv').
  constructor; [by rewrite Hj| |].
  - destruct (undo_along _ s s' t (wf_addr _ Hw) (wf_addr _ Hw') Hr' Hu) as (t' & Hu' & Hrt).
    exists t'. rewrite Hj. split; [done|]. by etrans.
  - rewrite Hv', Hv, <- app_assoc. simpl. eauto.
Qed.

(** The position of a revision is found from its id. *)
Lemma revision_after s0 i s k r :
  sdb_wf s -> above_snapshot s0 i s -> validRevisions s !! k = Some r -> i < id r ->
  (length (validRevisions s0) < k)%nat /\ (length (entries (jrnl s0)) <= journalIndex r)%nat.
Proof.
  intros Hw [_ _ (newer & Hv)] Hk Hlt. destruct (wf_revs _ Hw) as [Hso _].
  assert (validRevisions s !! length (validRevisions s0) = Some (mkRevision i (length (entries (jrnl s0)))))
    as Hi by (rewrite Hv; by apply list_lookup_middle).
  destruct (decide (k = length (validRevisions s0))) as [->|Hne]; [simplify_eq; simpl in *; lia|].
  destruct (decide (k < length (validRevisions s0))%nat) as [Hc|Hc].
  - destruct (sorted_lookup _ _ _ _ _ _ Hso Hc Hk Hi). simpl in *. lia.
  - assert (length (validRevisions s0) < k)%nat as Hc' by lia.
    destruct (sorted_lookup _ _ _ _ _ _ Hso Hc' Hi Hk). done.
Qed.

Lemma above_Revert s0 i s rid s' :
  sdb_wf s -> above_snapshot s0 i s -> i < rid -> RevertToSnapshot rid s = (Ok tt, s') ->
  above_snapshot s0 i s'.
Proof.
  intros Hw Hab Hlt Hrun. apply RevertToSnapshot_run in Hrun as (k & r & t & Hk & Hid & Hu & ->).
  subst rid. destruct (revision_after _ _ _ _ _ Hw Hab Hk Hlt) as [Hkl Hjl].
  destruct (wf_revs _ Hw) as [_ Hf]. pose proof (Forall_lookup_1 _ _ _ _ Hf Hk) as [_ Hjle].
  destruct Hab as [Hp (t0 & Hu0 & Hr0) (newer & Hv)]. constructor; simpl.
  - rewrite take_take, Nat.min_l by lia. done.
  - rewrite (undo_split _ _ (journalIndex r)), undo_app, (bind_run _ _ _ _ _ Hu) in Hu0 by lia.
    pose proof (undo_addr _ _ _ (wf_addr _ Hw) Hu) as Hat.
    eapply (undo_along _ t (with_revisions (take k (validRevisions s)) (nextRevisionID s)
      (with_jrnl (mkJournal (take (journalIndex r) (entries (jrnl s))) (dirties (jrnl t))) t)))
      in Hu0 as (u & Hu0 & Hru); [|done|exact Hat|by apply truncated_restores].
    exists u. split; [done|]. by etrans.
  - rewrite Hv, take_app_ge by lia.
    destruct (k - length (validRevisions s0))%nat as [|m] eqn:Hm; [lia|]. simpl. eauto.
Qed.

Lemma above_op s0 i s op s' :
  sdb_wf s -> above_snapshot s0 i s -> (forall rid, op = ORevert rid -> i < rid) ->
  run_op op s = (Ok tt, s') -> above_snapshot s0 i s'.
Proof.
  intros Hw Hab Hrid Hrun. destruct (is_step op) eqn:Hop.
  - eapply above_steps; [done..|]. by eapply op_steps.
  - destruct op; try done; simpl in Hrun.
    + apply bind_ok in Hrun as (j & s1 & Hs & [= <-]). by eapply above_Snapshot.
    + eapply above_Revert; [done..| |done]. by apply Hrid.
Qed.

Lemma above_run s0 i ops s s' :
  sdb_wf s -> above_snapshot s0 i s -> Forall (fun op => forall rid, op = ORevert rid -> i < rid) ops ->
  each run_op ops s = (Ok tt, s') -> sdb_wf s' /\ above_snapshot s0 i s'.
Proof.
  intros Hw Hab Hops. revert s Hw Hab. induction Hops as [|op ops Hop Hops IH]; intros s Hw Hab Hrun.
  - by injection Hrun as <-.
  - simpl in Hrun. apply bind_ok in Hrun as ([] & s1 & H1 & H2).
    eapply IH; [by eapply op_wf|by eapply above_op|done].
Qed.

(** The binary search finds the snapshot. *)
Lemma search_revision rs p r :
  StronglySorted (fun r1 r2 => id r1 < id r2 /\ (journalIndex r1 <= journalIndex r2)%nat) rs ->
  rs !! p = Some r ->
  sort_Search (length rs) (fun i => match rs !! i with Some r' => id r <=? id r' | None => true end) = p.
Proof.
  intros Hso Hp. set (f := fun i => match rs !! i with Some r' => id r <=? id r' | None => true end).
  assert (forall k, (k < p)%nat -> f k = false) as Hlo.
  { intros k Hk. unfold f. apply lookup_lt_Some in Hp as Hpl.
    destruct (lookup_lt_is_Some_2 rs k) as [r' Hr']; [lia|]. rewrite Hr'.
    apply Z.leb_gt. by destruct (sorted_lookup _ _ _ _ _ _ Hso Hk Hr' Hp). }
  assert (forall k, (p <= k)%nat -> f k = true) as Hhi.
  { intros k Hk. unfold f. destruct (rs !! k) as [r'|] eqn:Hr'; [|done]. apply Z.leb_le.
    destruct (decide (k = p)) as [->|]; [simplify_eq; lia|].
    assert (p < k)%nat as Hpk by lia. destruct (sorted_lookup _ _ _ _ _ _ Hso Hpk Hp Hr'). lia. }
  unfold sort_Search. destruct (search_spec (length rs) f 0 (length rs)) as (Hb & Hf & Ht); [lia|lia| |].
  { intros x y Hxy _ Hx. apply Hhi. destruct (decide (p <= x)%nat); [lia|].
    rewrite Hlo in Hx by lia. done. }
  set (k := search (length rs) f 0 (length rs)) in *. apply lookup_lt_Some in Hp as Hpl.
  destruct (decide (k < p)%nat) as [Hc|Hc].
  - assert (f k = true) by (apply Ht; lia). rewrite Hlo in *; done.
  - destruct (decide (p < k)%nat) as [Hc'|]; [|lia].
    assert (f p = false) by (apply Hf; lia). rewrite Hhi in *; done.
Qed.

Lemma above_reverts s0 i s :
  sdb_wf s -> above_snapshot s0 i s ->
  exists t, RevertToSnapshot i s = (Ok tt, t) /\ restores s0 t /\ jrnl t = jrnl s0 /\
    validRevisions t = validRevisions s0.
Proof.
  intros Hw [Hp (t & Hu & Hr) (newer & Hv)]. destruct (wf_revs _ Hw) as [Hso _].
  assert (validRevisions s !! length (validRevisions s0) = Some (mkRevision i (length (entries (jrnl s0)))))
    as Hi by (rewrite Hv; by apply list_lookup_middle).
  unfold RevertToSnapshot. rewrite bind_gets.
  pose proof (search_revision _ _ _ Hso Hi) as Hse. cbn [id] in Hse. rewrite Hse, Hi. cbn [id journalIndex].
  rewrite Z.eqb_refl. simpl. unfold journal_Revert, bind. unfold gets. rewrite Hu. simpl.
  destruct (undo_keeps _ _ _ Hu) as (E1 & E2 & _). eexists. split; [reflexivity|]. simpl. split_and!.
  - etrans; [exact Hr|]. by apply truncated_restores.
  - rewrite E1, Hp, (rs_dirties _ _ Hr). by destruct (jrnl s0).
  - rewrite E2, Hv. apply take_app_length.
Qed.

(** * What the getters answer *)

Record same_answers s t : Prop := {
  sa_exist : forall a, (Exist a t).1 = (Exist a s).1;
  sa_empty : forall a, (Empty a t).1 = (Empty a s).1;
  sa_balance : forall a, (GetBalance a t).1 = (GetBalance a s).1;
  sa_nonce : forall a, (GetNonce a t).1 = (GetNonce a s).1;
  sa_codehash : forall a, (GetCodeHash a t).1 = (GetCodeHash a s).1;
  sa_code : forall a, (GetCode a t).1 = (GetCode a s).1;
  sa_state : forall a k, (GetState a k t).1 = (GetState a k s).1;
  sa_committed : forall a k, (GetCommittedState a k t).1 = (GetCommittedState a k s).1;
  sa_destructed : forall a, (HasSelfDestructed a t).1 = (HasSelfDestructed a s).1;
  sa_transient : forall a k, (GetTransientState a k t).1 = (GetTransientState a k s).1;
  sa_address : forall a, (AddressInAccessList a t).1 = (AddressInAccessList a s).1;
  sa_slot : forall a k, (SlotInAccessList a k t).1 = (SlotInAccessList a k s).1;
  sa_refund : (GetRefund t).1 = (GetRefund s).1;
  sa_logs : (Logs t).1 = (Logs s).1;
}.

Lemma getter_same {A} (f : option stateObject -> A) s t a :
  addr_wf s -> addr_wf t -> restores s t ->
  (forall o1 o2, obj_eq (ctx s) o1 o2 -> f (Some o1) = f (Some o2)) ->
  ((let! o := getStateObject a in ret (f o)) t).1 = ((let! o := getStateObject a in ret (f o)) s).1.
Proof.
  intros Hs Ht Hr Hf. unfold bind. rewrite !getStateObject_spec by done.
  pose proof (rs_objects _ _ Hr a) as Ho.
  destruct (obj_at s a) as [[o1|]| |], (obj_at t a) as [[o2|]| |]; simpl in *; try done; try congruence.
  f_equal. symmetry. by apply Hf.
Qed.

(** The getters that may fill a cache answer with the view of the object. *)
Lemma object_answer {A} (f : stateObject -> M StateDB (A * stateObject)) (view : KS -> stateObject -> A)
    (d : A) s t a :
  (forall st o, exists o' st', f o st = (Ok (view (ctx st) o, o'), st')) ->
  (forall c o1 o2, obj_eq c o1 o2 -> view c o1 = view c o2) ->
  addr_wf s -> addr_wf t -> restores s t ->
  let g := let! o := getStateObject a in
    match o with Some o => let! r := f o in ret r.1 | None => ret d end in
  (g t).1 = (g s).1.
Proof.
  intros Hf Hv Hs Ht Hr. cbv zeta. unfold bind. rewrite !getStateObject_spec by done.
  pose proof (rs_objects _ _ Hr a) as Ho.
  destruct (obj_at s a) as [[o1|]| |], (obj_at t a) as [[o2|]| |]; simpl in *; try done; try congruence.
  destruct (Hf (put_obj a o1 s) o1) as (? & ? & ->), (Hf (put_obj a o2 t) o2) as (? & ? & ->). simpl.
  f_equal. rewrite (rs_ctx _ _ Hr). symmetry. by apply Hv.
Qed.

Lemma restores_answers s t : addr_wf s -> addr_wf t -> restores s t -> same_answers s t.
Proof.
  intros Hs Ht Hr. constructor; intros.
  - by apply (getter_same (fun o : option stateObject => bool_decide (is_Some o))).
  - apply (getter_same (fun o : option stateObject => match o with None => true | Some o => empty o end)); [done..|].
    intros o1 o2 Ho. unfold empty. by rewrite (oe_nonce _ _ _ Ho), (oe_balance _ _ _ Ho), (oe_codehash _ _ _ Ho).
  - apply (getter_same (fun o : option stateObject => match o with Some o => balance o | None => 0 end)); [done..|].
    intros. by eapply oe_balance.
  - apply (getter_same (fun o : option stateObject => match o with Some o => nonce o | None => 0 end)); [done..|].
    intros. by eapply oe_nonce.
  - apply (getter_same (fun o : option stateObject => match o with Some o => codehash o | None => 0 end)); [done..|].
    intros. by eapply oe_codehash.
  - apply (object_answer object_Code view_code None); [|intros; by apply oe_code|done..].
    intros st o. unfold object_Code, view_code.
    destruct (code o); [by repeat eexists|]. destruct (IsEmptyCodeHash (codehash o)); by repeat eexists.
  - apply (object_answer (fun o => object_GetState o k) (fun c o => view_storage c o k) 0);
      [|intros; by apply oe_storage|done..].
    intros st o. unfold object_GetState, object_GetCommittedState, view_storage, view_committed.
    destruct (dirtyStorage o !! k); [by repeat eexists|]. destruct (originStorage o !! k); by repeat eexists.
  - apply (object_answer (fun o => object_GetCommittedState o k) (fun c o => view_committed c o k) 0);
      [|intros; by apply oe_committed|done..].
    intros st o. unfold object_GetCommittedState, view_committed.
    destruct (originStorage o !! k); by repeat eexists.
  - apply (getter_same (fun o : option stateObject => match o with Some o => selfDestructed o | None => false end)); [done..|].
    intros. by eapply oe_destructed.
  - simpl. f_equal. by apply rs_transient.
  - simpl. by rewrite (rs_access _ _ Hr).
  - unfold SlotInAccessList. rewrite !bind_gets. simpl. by rewrite (rs_access _ _ Hr).
  - simpl. by rewrite (rs_refund _ _ Hr).
  - simpl. by rewrite (rs_logs _ _ Hr).
Qed.

(** A snapshot is above itself, and what is above it can be reverted. *)
Lemma snapshot_above s i s1 : sdb_wf s -> Snapshot s = (Ok i, s1) -> sdb_wf s1 /\ above_snapshot s i s1.
Proof.
  intros Hw Hsnap. destruct (Snapshot_wf _ _ _ Hw Hsnap) as (_ & Hw1 & Hr1 & Hj1 & Hv1). split; [done|].
  constructor; [by rewrite Hj1, firstn_all| |by exists []]. exists s1. rewrite Hj1, drop_all. done.
Qed.

Lemma above_restored s i s2 : sdb_wf s -> sdb_wf s2 -> above_snapshot s i s2 ->
  exists t, RevertToSnapshot i s2 = (Ok tt, t) /\ same_answers s t /\
    jrnl t = jrnl s /\ validRevisions t = validRevisions s /\
    ctx t = ctx s /\ ctx_events t = ctx_events s /\ cache_view t = cache_view s.
Proof.
  intros Hw Hw2 Hab. destruct (above_reverts _ _ _ Hw2 Hab) as (t & Ht & Hr & Hj & Hv). exists t.
  pose proof (wf_addr _ (RevertToSnapshot_wf _ _ _ Hw2 Ht)) as Hat.
  split_and!; [done|by apply restores_answers; [apply Hw|..]|done|done|apply Hr|apply Hr|].
  assert (forall u, cache_view u = layers_view (ctx u) (layers_of u)) as Hcv
    by (intros u; unfold cache_view, layers_of; by destruct (cacheCtx u)).
  rewrite !Hcv. by rewrite (rs_layers _ _ Hr), (rs_ctx _ _ Hr).
Qed.

(** C2.  Whatever a transaction does after a snapshot (transfers, storage,
    code, logs, refunds, new and destroyed contracts, access list, precompile
    calls, further snapshots and reverts above it), reverting to the snapshot
    does not panic, every getter answers as before, the journal with its dirty
    accounts and the list of revisions are those of before, the context's
    store is untouched and the cached store of precompile calls reads as it
    did. *)
Theorem RevertToSnapshot_restores s i s1 ops s2 :
  sdb_wf s -> Snapshot s = (Ok i, s1) -> each run_op ops s1 = (Ok tt, s2) ->
  Forall (fun op => forall rid, op = ORevert rid -> i < rid) ops ->
  exists t, RevertToSnapshot i s2 = (Ok tt, t) /\ same_answers s t /\
    jrnl t = jrnl s /\ validRevisions t = validRevisions s /\
    ctx t = ctx s /\ ctx_events t = ctx_events s /\ cache_view t = cache_view s.
Proof.
  intros Hw Hsnap Hrun Hops. destruct (snapshot_above _ _ _ Hw Hsnap) as [Hw1 Hab].
  destruct (above_run _ _ _ _ _ Hw1 Hab Hops Hrun) as [Hw2 Hab2]. by apply above_restored.
Qed.
End thms.
