(* ===== verification/StateDBType.v ===== *)
(** The machine types of the state database: every operation, snapshot and
    revert keeps nonces, the refund counter and log indices in 64 bits, addresses
    in 160, balances, code hashes, storage keys and words in 256 and the call
    counter in 8, on every outcome, panics included. *)
From S2P Require Import Prelude KVStore Sdk StateDB.
From S2P Require Import StateDBInv StateDBRun StateDBOps StateDBMachine StateDBThms.
Import AccessList Transient.

Definition u64 (n : Z) : Prop := 0 <= n < 2 ^ 64.
Definition u160 (n : Z) : Prop := 0 <= n < 2 ^ 160.
Definition u256 (n : Z) : Prop := 0 <= n < 2 ^ 256.

Section types.
Context `{Keccak, StateKeeper}.
Implicit Types (s t : StateDB) (o : stateObject) (a : Z).

(** What the keeper and the hash return. *)
Class KeeperTypes := {
  kt_ok : KS -> Prop;      (** stores that hold bytes *)
  kt_keccak : forall b, u256 (Keccak256Hash b);
  kt_account : forall c a acct, kt_ok c -> k_GetAccount c a = inr (Some acct) ->
    u64 (Nonce acct) /\ (forall b, Balance acct = Some b -> u256 b) /\
    (forall h, CodeHash acct = Some h -> u256 h);
  kt_state : forall c a k, kt_ok c -> u256 (k_GetState c a k);
}.
Context `{!KeeperTypes}.

Definition words (m : gmap Z Z) : Prop := map_Forall (fun k v => u256 k /\ u256 v) m.

Record obj_typed o : Prop := {
  ot_address : u160 (address o);
  ot_nonce : u64 (nonce o);
  ot_balance : u256 (balance o);
  ot_codehash : u256 (codehash o);
  ot_origin : words (originStorage o);
  ot_dirty : words (dirtyStorage o);
}.

Definition entry_typed (e : JournalEntry) : Prop :=
  match e with
  | resetObjectChange prev => obj_typed prev
  | selfDestructChange a _ b | balanceChange a b => u160 a /\ u256 b
  | nonceChange a n => u160 a /\ u64 n
  | refundChange n => u64 n
  | storageChange a k v => u160 a /\ u256 k /\ u256 v
  | transientStorageChange _ k v => u256 k /\ u256 v
  | codeChange a _ h => u160 a /\ u256 h
  | createContractChange a => u160 a
  | _ => True
  end.

Record sdb_typed s : Prop := {
  st_ctx : kt_ok (ctx s);
  st_objects : map_Forall (fun _ o => obj_typed o) (stateObjects s);
  st_entries : Forall entry_typed (entries (jrnl s));
  st_refund : u64 (refund s);
  st_logs : Forall (fun l => u64 (lg_Index l)) (logs s);
  st_transient : map_Forall (fun _ m => words m) (transient s);
  st_counter : 0 <= precompileCallsCounter s < 256;
}.

(** [m] keeps the types, and its result has the property [Q]. *)
Definition keeps {A} (m : M StateDB A) (Q : A -> Prop) : Prop := forall s r s',
  sdb_typed s -> m s = (r, s') -> sdb_typed s' /\ forall x, r = Ok x -> Q x.

Lemma keeps_bind {A B} (m : M StateDB A) (f : A -> M StateDB B) P Q :
  keeps m P -> (forall x, P x -> keeps (f x) Q) -> keeps (bind m f) Q.
Proof.
  intros Hm Hf s r s' Ht. unfold bind. destruct (m s) as [[x|e|p] s1] eqn:E.
  - destruct (Hm _ _ _ Ht E) as [Ht1 Hx]. intros Hr. eapply Hf; [by apply Hx|done..].
  - intros [= <- <-]. by destruct (Hm _ _ _ Ht E).
  - intros [= <- <-]. by destruct (Hm _ _ _ Ht E).
Qed.

Lemma keeps_ret {A} (x : A) (Q : A -> Prop) : Q x -> keeps (ret x) Q.
Proof. intros Hx s r s' Ht [= <- <-]. split; [done|]. by intros y [= <-]. Qed.
Lemma keeps_panic {A} p (Q : A -> Prop) : keeps (panic p) Q.
Proof. intros s r s' Ht [= <- <-]. done. Qed.
Lemma keeps_fail {A} k p (Q : A -> Prop) : keeps (fail k p) Q.
Proof. intros s r s' Ht [= <- <-]. done. Qed.
Lemma keeps_lift {A} (x : res A) (Q : A -> Prop) : (forall y, x = Ok y -> Q y) -> keeps (lift x) Q.
Proof. intros Hx s r s' Ht [= <- <-]. done. Qed.
Lemma keeps_gets {A} (f : StateDB -> A) (Q : A -> Prop) :
  (forall s, sdb_typed s -> Q (f s)) -> keeps (gets f) Q.
Proof. intros Hf s r s' Ht [= <- <-]. split; [done|]. intros y [= <-]. by apply Hf. Qed.
Lemma keeps_modify f (Q : unit -> Prop) :
  (forall s, sdb_typed s -> sdb_typed (f s)) -> Q tt -> keeps (modify f) Q.
Proof. intros Hf HQ s r s' Ht [= <- <-]. split; [by apply Hf|]. by intros [] _. Qed.
Lemma keeps_weaken {A} (m : M StateDB A) (P Q : A -> Prop) :
  keeps m P -> (forall x, P x -> Q x) -> keeps m Q.
Proof. intros Hm HPQ s r s' Ht Hr. destruct (Hm _ _ _ Ht Hr). split; [done|]. eauto. Qed.
Lemma keeps_if {A} (b : bool) (m1 m2 : M StateDB A) Q :
  keeps m1 Q -> keeps m2 Q -> keeps (if b then m1 else m2) Q.
Proof. by destruct b. Qed.
Lemma keeps_each {A} (f : A -> M StateDB unit) (P : A -> Prop) l :
  (forall x, P x -> keeps (f x) (fun _ => True)) -> Forall P l -> keeps (each f l) (fun _ => True).
Proof.
  intros Hf Hl. induction Hl as [|x l Hx Hl IH]; [by apply keeps_ret|].
  eapply keeps_bind; [by apply Hf|]. done.
Qed.

Abbreviation any := (fun _ => True) (only parsing).

Lemma newObject_typed a acct :
  u160 a -> u64 (Nonce acct) -> (forall b, Balance acct = Some b -> u256 b) ->
  (forall h, CodeHash acct = Some h -> u256 h) -> obj_typed (newObject a acct).
Proof.
  intros Ha Hn Hb Hh. constructor; simpl; [done|done| | |apply map_Forall_empty|apply map_Forall_empty].
  - destruct (Balance acct); simpl; [by apply Hb|by split].
  - destruct (CodeHash acct); simpl; [by apply Hh|apply kt_keccak].
Qed.

Lemma typed_put s a o : sdb_typed s -> obj_typed o -> sdb_typed (with_objects (<[a := o]> (stateObjects s)) s).
Proof. intros [] Ho. constructor; try done. by apply map_Forall_insert_2. Qed.

Lemma keeps_setStateObject o Q : obj_typed o -> Q tt -> keeps (setStateObject o) Q.
Proof. intros Ho HQ. apply keeps_modify; [|done]. intros. by apply typed_put. Qed.
Lemma keeps_update o f Q : obj_typed (f o) -> Q tt -> keeps (update o f) Q.
Proof. intros Ho HQ. apply keeps_modify; [|done]. intros. by apply typed_put. Qed.
Lemma keeps_append e Q : entry_typed e -> Q tt -> keeps (append e) Q.
Proof.
  intros He HQ. apply keeps_modify; [|done]. intros s []. constructor; try done. simpl.
  apply Forall_app_2; [done|by repeat constructor].
Qed.

Definition some_typed (o : option stateObject) : Prop :=
  match o with Some o => obj_typed o | None => True end.

Lemma keeps_getStateObject a : u160 a -> keeps (getStateObject a) some_typed.
Proof.
  intros Ha160. eapply keeps_bind; [apply (keeps_gets _ sdb_typed); done|]. intros s Hs.
  destruct (stateObjects s !! a) as [o|] eqn:Ho; [apply keeps_ret; by apply (st_objects _ Hs a)|].
  destruct (k_GetAccount (ctx s) a) as [p|[acct|]] eqn:Ha; [apply keeps_panic| |by apply keeps_ret].
  apply kt_account in Ha as (? & ? & ?); [|apply Hs]. assert (obj_typed (newObject a acct)) by by apply newObject_typed.
  eapply keeps_bind; [by apply (keeps_setStateObject _ any)|]. intros _ _. by apply keeps_ret.
Qed.

Lemma fresh_typed a : u160 a -> obj_typed (newObject a (mkAccount 0 None None)).
Proof. intros Ha. by apply newObject_typed; [|split|..]. Qed.

Lemma keeps_createObject a :
  u160 a -> keeps (createObject a) (fun r => obj_typed r.1 /\ some_typed r.2).
Proof.
  intros Ha. eapply keeps_bind; [by apply keeps_getStateObject|]. intros prev Hp.
  eapply (keeps_bind _ _ any); [destruct prev; by apply keeps_append|]. intros _ _.
  eapply (keeps_bind _ _ any); [apply keeps_setStateObject; [by apply fresh_typed|done]|]. intros _ _.
  apply keeps_ret. split; [by apply fresh_typed|done].
Qed.

Lemma keeps_getOrNew a : u160 a -> keeps (getOrNewStateObject a) obj_typed.
Proof.
  intros Ha. eapply keeps_bind; [by apply keeps_getStateObject|]. intros [o|] Ho; [by apply keeps_ret|].
  eapply keeps_bind; [by apply keeps_createObject|]. intros r [Hr _]. by apply keeps_ret.
Qed.

(** The field updates of objects. *)
Lemma setBalance_typed v o : obj_typed o -> u256 v -> obj_typed (setBalance v o).
Proof. intros [] Hv. by constructor. Qed.
Lemma setNonce_typed v o : obj_typed o -> u64 v -> obj_typed (setNonce v o).
Proof. intros [] Hv. by constructor. Qed.
Lemma setCode_typed h c o : obj_typed o -> u256 h -> obj_typed (setCode h c o).
Proof. intros [] Hv. by constructor. Qed.
Lemma setState_typed k v o : obj_typed o -> u256 k -> u256 v -> obj_typed (setState k v o).
Proof. intros [] Hk Hv. constructor; try done. by apply map_Forall_insert_2. Qed.
Lemma setDestructed_typed b o : obj_typed o -> obj_typed (setDestructed b o).
Proof. intros []. by constructor. Qed.
Lemma setNewContract_typed b o : obj_typed o -> obj_typed (setNewContract b o).
Proof. intros []. by constructor. Qed.
Lemma cacheCode_typed c o : obj_typed o -> obj_typed (cacheCode c o).
Proof. intros []. by constructor. Qed.
Lemma cacheOrigin_typed k v o : obj_typed o -> u256 k -> u256 v -> obj_typed (cacheOrigin k v o).
Proof. intros [] Hk Hv. constructor; try done. by apply map_Forall_insert_2. Qed.
Lemma uint256_typed n : u256 (uint256 n).
Proof. by apply Z.mod_pos_bound. Qed.
Lemma zero_typed : u256 0.
Proof. by split. Qed.

Create HintDb typed.
Hint Resolve setBalance_typed setNonce_typed setCode_typed setState_typed setDestructed_typed
  setNewContract_typed cacheCode_typed cacheOrigin_typed uint256_typed zero_typed ot_nonce ot_balance
  ot_codehash ot_address kt_keccak kt_state I conj : typed.
Hint Extern 3 (keeps (ret _) _) => apply keeps_ret : typed.
Hint Extern 3 (keeps (panic _) _) => apply keeps_panic : typed.
Hint Extern 3 (keeps (append _) _) => apply keeps_append : typed.
Hint Extern 3 (keeps (update _ _) _) => apply keeps_update : typed.
Hint Extern 3 (entry_typed _) => simpl : typed.

Ltac seq := eapply (keeps_bind _ _ any); [solve [eauto 8 with typed]|intros _ _].

Lemma keeps_SetBalance o v : obj_typed o -> u256 v -> keeps (object_SetBalance o v) u256.
Proof. intros Ho Hv. unfold object_SetBalance. seq. seq. eauto with typed. Qed.

Lemma keeps_object_Code o :
  obj_typed o -> keeps (object_Code o) (fun r => obj_typed r.2).
Proof.
  intros Ho. unfold object_Code. destruct (code o); [by apply keeps_ret|].
  apply keeps_if; [by apply keeps_ret|]. eapply (keeps_bind _ _ any); [by apply keeps_gets|]. intros s _.
  seq. apply keeps_ret. simpl. eauto with typed.
Qed.

Lemma keeps_object_SetCode o h c : obj_typed o -> u256 h -> keeps (object_SetCode o h c) any.
Proof.
  intros Ho Hh. eapply keeps_bind; [by apply keeps_object_Code|]. intros r Hr. seq. eauto with typed.
Qed.

Lemma keeps_GetCommittedState o k :
  obj_typed o -> u256 k -> keeps (object_GetCommittedState o k) (fun r => u256 r.1 /\ obj_typed r.2).
Proof.
  intros Ho Hk256. unfold object_GetCommittedState. destruct (originStorage o !! k) as [v|] eqn:Hk.
  - apply keeps_ret. split; [by apply (ot_origin _ Ho k)|done].
  - eapply keeps_bind; [apply (keeps_gets _ sdb_typed); done|]. intros s Hs.
    assert (u256 (k_GetState (ctx s) (address o) k)) by (apply kt_state, Hs). seq.
    apply keeps_ret. simpl. eauto with typed.
Qed.

Lemma keeps_GetState o k :
  obj_typed o -> u256 k -> keeps (object_GetState o k) (fun r => u256 r.1 /\ obj_typed r.2).
Proof.
  intros Ho Hk256. unfold object_GetState. destruct (dirtyStorage o !! k) as [v|] eqn:Hk.
  - apply keeps_ret. split; [by apply (ot_dirty _ Ho k)|done].
  - by apply keeps_GetCommittedState.
Qed.

Lemma keeps_object_SetState o k v : obj_typed o -> u256 k -> u256 v -> keeps (object_SetState o k v) any.
Proof.
  intros Ho Hk Hv. eapply keeps_bind; [by apply keeps_GetState|]. intros r [Hr Ho']. cbv zeta.
  apply keeps_if; [by apply keeps_ret|]. seq. seq. by apply keeps_ret.
Qed.

Lemma keeps_on_object a f :
  u160 a -> (forall o, obj_typed o -> obj_typed (f o)) -> keeps (on_object a f) any.
Proof.
  intros Ha Hf. eapply keeps_bind; [by apply keeps_getStateObject|]. intros [o|] Ho; [|apply keeps_panic].
  apply keeps_update; [by apply Hf|done].
Qed.

(** Updates that touch none of the typed fields. *)
Lemma keeps_same f Q :
  (forall s, ctx (f s) = ctx s /\ stateObjects (f s) = stateObjects s /\ entries (jrnl (f s)) = entries (jrnl s) /\
    refund (f s) = refund s /\ logs (f s) = logs s /\ transient (f s) = transient s /\
    precompileCallsCounter (f s) = precompileCallsCounter s) ->
  Q tt -> keeps (modify f) Q.
Proof.
  intros Hf HQ. apply keeps_modify; [|done]. intros s [].
  destruct (Hf s) as (E0 & E1 & E2 & E3 & E4 & E5 & E6). by constructor; rewrite ?E0, ?E1, ?E2, ?E3, ?E4, ?E5, ?E6.
Qed.

Lemma Set_typed tr a k v :
  map_Forall (fun _ m => words m) tr -> u256 k -> u256 v -> map_Forall (fun _ m => words m) (Set_ tr a k v).
Proof.
  intros Ht Hk Hv. unfold Set_. destruct (v =? 0).
  - destruct (tr !! a) as [st|] eqn:Ha; [|done]. pose proof (Ht a st Ha) as Hst.
    case_bool_decide; [by apply map_Forall_delete|]. apply map_Forall_insert_2; [|done].
    by apply map_Forall_delete.
  - apply map_Forall_insert_2; [|done]. apply map_Forall_insert_2; [done|].
    destruct (tr !! a) as [st|] eqn:Ha; simpl; [by apply (Ht a)|apply map_Forall_empty].
Qed.

Lemma Get_typed tr a k : map_Forall (fun _ m => words m) tr -> u256 (Get tr a k).
Proof.
  intros Ht. unfold Get. destruct (tr !! a) as [st|] eqn:Ha; [|apply zero_typed].
  destruct (st !! k) as [v|] eqn:Hk; simpl; [by apply (Ht a st Ha k)|apply zero_typed].
Qed.

Lemma keeps_setTransient a k v : u256 k -> u256 v -> keeps (setTransientState a k v) any.
Proof.
  intros Hk Hv. apply keeps_modify; [|done]. intros s []. constructor; try done. by apply Set_typed.
Qed.

Lemma keeps_Revert_entry e : entry_typed e -> keeps (Revert_entry e) any.
Proof.
  destruct e; simpl; intros He; try (apply keeps_on_object; [naive_solver|]; destruct_and?; by eauto with typed).
  - apply keeps_modify; [|done]. intros s []. constructor; try done. by apply map_Forall_delete.
  - by apply keeps_setStateObject.
  - destruct He as [Ha He]. eapply keeps_bind; [by apply keeps_getStateObject|]. intros [o|] Ho; [|by apply keeps_ret].
    apply keeps_update; [|done]. simpl in *. eauto with typed.
  - destruct He. by apply keeps_setTransient.
  - apply keeps_modify; [|done]. intros s []. by constructor.
  - eapply keeps_bind; [by apply (keeps_gets _ (Forall (fun l => u64 (lg_Index l)))); intros s []|].
    intros [|l0 l] Hl; [apply keeps_panic|]. apply keeps_modify; [|done]. intros s [].
    constructor; try done. by apply Forall_take.
  - by apply keeps_same.
  - eapply (keeps_bind _ _ any); [by apply keeps_gets|]. intros s _.
    eapply (keeps_bind _ _ any); [by apply keeps_lift|]. intros al _. by apply keeps_same.
  - eapply (keeps_bind _ _ any); [by apply keeps_gets|]. intros [cc|] _; [|apply keeps_panic].
    apply keeps_if; [apply keeps_panic|]. by apply keeps_same.
Qed.

Lemma keeps_journal_Revert n : keeps (journal_Revert n) any.
Proof.
  eapply keeps_bind; [apply (keeps_gets _ sdb_typed); done|]. intros s Hs.
  eapply (keeps_bind _ _ any).
  - apply (keeps_each _ entry_typed).
    + intros e He. eapply (keeps_bind _ _ any); [by apply keeps_Revert_entry|]. intros _ _. by apply keeps_same.
    + apply Forall_rev, Forall_drop, Hs.
  - intros _ _. apply keeps_modify; [|done]. intros s' []. constructor; try done. by apply Forall_take.
Qed.

Lemma keeps_RevertToSnapshot i : keeps (RevertToSnapshot i) any.
Proof.
  eapply (keeps_bind _ _ any); [by apply keeps_gets|]. intros s _. cbv zeta.
  destruct (validRevisions s !! _); [|apply keeps_panic]. apply keeps_if; [apply keeps_panic|].
  eapply (keeps_bind _ _ any); [apply keeps_journal_Revert|]. intros _ _. by apply keeps_same.
Qed.

Lemma keeps_void {A} (m : M StateDB A) Q : keeps m Q -> keeps (void m) any.
Proof. intros Hm. eapply keeps_bind; [exact Hm|]. intros x _. by apply keeps_ret. Qed.

Lemma keeps_new {A} a (k : stateObject -> M StateDB A) Q :
  u160 a -> (forall o, obj_typed o -> keeps (k o) Q) -> keeps (let! o := getOrNewStateObject a in k o) Q.
Proof. intros Ha Hk. eapply keeps_bind; [by apply keeps_getOrNew|done]. Qed.

Lemma keeps_get {A} a (k : option stateObject -> M StateDB A) Q :
  u160 a -> (forall o, obj_typed o -> keeps (k (Some o)) Q) -> keeps (k None) Q ->
  keeps (let! o := getStateObject a in k o) Q.
Proof. intros Ha Hs Hn. eapply keeps_bind; [by apply keeps_getStateObject|]. by intros [o|] Ho; [apply Hs|]. Qed.

Lemma keeps_SelfDestruct a : u160 a -> keeps (SelfDestruct a) any.
Proof.
  intros Ha. apply keeps_get; [done| |by apply keeps_ret]. intros o Ho. seq.
  eapply (keeps_bind _ _ any); [apply keeps_update; [|done]; unfold markSelfDestructed; eauto with typed|].
  intros _ _. by apply keeps_ret.
Qed.

Lemma keeps_CreateAccount a : u160 a -> keeps (CreateAccount a) any.
Proof.
  intros Ha. eapply keeps_bind; [by apply keeps_createObject|]. intros r [Hr Hp].
  destruct r.2; [|by apply keeps_ret]. apply keeps_update; [|done]. simpl in Hp. eauto with typed.
Qed.

Lemma keeps_zoom_cache {A} (m : M KS A) Q :
  (forall x, Q x) -> keeps (zoom cache_view set_cache_view m) Q.
Proof.
  intros HQ s r s' []. unfold zoom. destruct (m (cache_view s)) as [r1 v]. intros [= <- <-].
  split; [by constructor|done].
Qed.

Lemma keeps_precompile_call p body : u160 p -> keeps (precompile_call p body) any.
Proof.
  intros Hp160.
  assert (keeps (RunSetup p) any) as Hs.
  { eapply (keeps_bind _ _ any).
    { apply keeps_same; [|done]. intros s. by destruct (writeCache s). }
    intros _ _. eapply (keeps_bind _ _ any).
    { eapply (keeps_bind _ _ any); [by apply keeps_gets|]. intros [cc|] _; [|apply keeps_panic].
      eapply (keeps_bind _ _ any); [by apply keeps_same|]. intros _ _. by apply keeps_ret. }
    intros n _. eapply (keeps_bind _ _ any); [by apply keeps_gets|]. intros c _.
    eapply (keeps_bind _ _ any).
    { eapply keeps_new; [done|]. intros o Ho. seq. eapply (keeps_bind _ _ any).
      { apply keeps_modify; [|done]. intros s []. constructor; try done. simpl. by apply Z.mod_pos_bound. }
      intros _ _. eapply (keeps_bind _ _ any); [by apply keeps_gets|]. intros k _.
      apply keeps_if; [apply keeps_fail|by apply keeps_ret]. }
    intros _ _. eapply (keeps_bind _ _ any); [by apply keeps_gets|]. intros s _.
    destruct (cacheCtx s); [by apply keeps_zoom_cache|].
    apply keeps_if; [by apply keeps_ret|apply keeps_panic]. }
  eapply (keeps_bind _ _ any).
  - intros s r s' Ht. unfold try. destruct (RunSetup p s) as [r1 s1] eqn:E.
    destruct (Hs _ _ _ Ht E). destruct r1; by intros [= <- <-].
  - intros [u|e] _; [|by apply keeps_ret]. apply keeps_same; [|done]. intros s. by destruct (body _).
Qed.

(** * The operations *)

(** The arguments of an operation have their types. *)
Definition op_typed (op : sdb_op) : Prop :=
  match op with
  | OAddBalance a _ | OSubBalance a _ | OSetCode a _ | OCreateAccount a | OCreateContract a
  | OSelfDestruct a | OSelfDestruct6780 a | OLoad a | OGetCode a | OPrecompile a _ => u160 a
  | OSetNonce a n => u160 a /\ u64 n
  | OSubRefund n => u64 n
  | OSetState a k v => u160 a /\ u256 k /\ u256 v
  | OSetTransientState _ k v => u256 k /\ u256 v
  | OGetState a k | OGetCommittedState a k => u160 a /\ u256 k
  | _ => True
  end.

Lemma keeps_op op : op_typed op -> keeps (run_op op) any.
Proof.
  destruct op; simpl; intros Hop; destruct_and?.
  - eapply keeps_void, keeps_new; [done|]. intros o Ho. apply keeps_if; [by apply (keeps_ret _ any)|].
    eapply keeps_weaken; [apply keeps_SetBalance; eauto with typed|done].
  - eapply keeps_void, keeps_new; [done|]. intros o Ho. unfold object_SubBalance.
    repeat apply keeps_if; try by apply (keeps_ret _ any).
    eapply keeps_weaken; [apply keeps_SetBalance; eauto with typed|done].
  - apply keeps_new; [done|]. intros o Ho. unfold object_SetNonce. seq. eauto with typed.
  - eapply keeps_void, keeps_new; [done|]. intros o Ho.
    eapply (keeps_bind _ _ any); [apply keeps_object_SetCode; eauto with typed|].
    intros _ _. by apply (keeps_ret _ any).
  - eapply keeps_void, keeps_new; [done|]. intros o Ho. by apply keeps_object_SetState.
  - by apply keeps_CreateAccount.
  - apply keeps_get; [done| |apply keeps_panic]. intros o Ho. apply keeps_if; [by apply keeps_ret|].
    seq. eauto with typed.
  - by eapply keeps_void, keeps_SelfDestruct.
  - eapply keeps_void, keeps_get; [done| |by apply (keeps_ret _ any)]. intros o Ho.
    apply keeps_if; [|by apply (keeps_ret _ any)].
    eapply keeps_bind; [by apply keeps_SelfDestruct|]. intros b _. by apply keeps_ret.
  - unfold AddLog. seq. apply keeps_modify; [|done]. intros s []. constructor; try done. simpl.
    apply Forall_app_2; [done|]. repeat constructor; simpl; by apply Z.mod_pos_bound.
  - eapply keeps_bind; [by apply (keeps_gets _ u64); intros s []|]. intros r Hr. seq.
    apply keeps_modify; [|done]. intros s []. constructor; try done. by apply Z.mod_pos_bound.
  - unfold SubRefund. intros s r s' Ht. rewrite bind_gets. unfold bind.
    destruct (keeps_append (refundChange (refund s)) any (st_refund _ Ht) I s _ _ Ht eq_refl) as [Ht1 _].
    rewrite append_run. destruct (Z.ltb_spec (refund s) g) as [Hlt|Hge]; intros [= <- <-]; [done|].
    split; [|done]. destruct Ht1. constructor; try done. simpl in *. unfold u64 in *. lia.
  - eapply keeps_bind; [by apply (keeps_gets _ u256); intros s []; apply Get_typed|]. intros v' Hv'.
    apply keeps_if; [by apply keeps_ret|]. seq. by apply keeps_setTransient.
  - eapply (keeps_bind _ _ any); [by apply keeps_gets|]. intros s _. destruct (AddAddress _ _) as [al b].
    eapply (keeps_bind _ _ any); [by apply keeps_same|]. intros _ _.
    apply keeps_if; [by apply keeps_append|by apply keeps_ret].
  - eapply (keeps_bind _ _ any); [by apply keeps_gets|]. intros s _.
    eapply (keeps_bind _ _ any); [by apply keeps_lift|]. intros r _.
    eapply (keeps_bind _ _ any); [by apply keeps_same|]. intros _ _.
    eapply (keeps_bind _ _ any); [apply keeps_if; [by apply keeps_append|by apply keeps_ret]|]. intros _ _.
    apply keeps_if; [by apply keeps_append|by apply keeps_ret].
  - by eapply keeps_void, keeps_getStateObject.
  - eapply keeps_void, keeps_get; [done| |by apply (keeps_ret _ any)]. intros o Ho.
    eapply keeps_bind; [by apply keeps_object_Code|]. intros r _. by apply keeps_ret.
  - eapply keeps_void, keeps_get; [done| |by apply (keeps_ret _ any)]. intros o Ho.
    eapply keeps_bind; [by apply keeps_GetState|]. intros r _. by apply keeps_ret.
  - eapply keeps_void, keeps_get; [done| |by apply (keeps_ret _ any)]. intros o Ho.
    eapply keeps_bind; [by apply keeps_GetCommittedState|]. intros r _. by apply keeps_ret.
  - by apply keeps_precompile_call.
  - eapply keeps_void. eapply (keeps_bind _ _ any); [by apply keeps_gets|]. intros s _. cbv zeta.
    eapply (keeps_bind _ _ any); [by apply keeps_same|]. intros _ _. by apply (keeps_ret _ any).
  - apply keeps_RevertToSnapshot.
Qed.
Lemma run_typed ops s r s' :
  sdb_typed s -> Forall op_typed ops -> each run_op ops s = (r, s') -> sdb_typed s'.
Proof.
  intros Ht Hops Hrun. apply (keeps_each run_op op_typed ops keeps_op Hops s r s' Ht Hrun).
Qed.

(**  Whatever sequence of operations a transaction runs, with arguments of
    their types, every nonce, balance, code hash, storage word, journal entry,
    log index and counter of the database keeps its machine type, even when the
    sequence ends in an error or a panic. *)
Theorem ops_typed ops s r s' :
  sdb_typed s -> Forall op_typed ops -> each run_op ops s = (r, s') -> sdb_typed s'.
Proof. apply run_typed. Qed.

Lemma New_typed c evs txc : kt_ok c -> sdb_typed (New c evs txc).
Proof.
  intros Hc. constructor; simpl; [done|apply map_Forall_empty|constructor|by split|constructor|
    apply map_Forall_empty|lia].
Qed.
End types.
