(* ===== verification/StateDBCommit.v ===== *)
(** What a commit writes: the laws of the keeper that the database relies on,
    the effect of [Commit] on them, the states a transaction reaches, and the
    limits of precompile calls. *)
From S2P Require Import Prelude KVStore Sdk StateDB StateDBInv.
From S2P Require Import StateDBRun StateDBOps StateDBMachine StateDBThms StateDBType.
Import AccessList Transient.

Lemma sorted_keys {V} (m : gmap Z V) k : k ∈ SortedKeys m <-> is_Some (m !! k).
Proof.
  unfold SortedKeys. rewrite merge_sort_Permutation, list_elem_of_fmap. split.
  - intros ([k' v] & -> & Hk). apply elem_of_map_to_list in Hk. eauto.
  - intros [v Hv]. exists (k, v). split; [done|]. by apply elem_of_map_to_list.
Qed.

Lemma sorted_keys_NoDup {V} (m : gmap Z V) : NoDup (SortedKeys m).
Proof. unfold SortedKeys. rewrite merge_sort_Permutation. apply NoDup_fst_map_to_list. Qed.

Section commit.
Context `{Keccak, StateKeeper}.
Implicit Types (s t : StateDB) (o : stateObject) (a b : Z) (c : KS).

(** [regular] accounts are those whose balance only their own [SetAccount] and
    [DeleteAccount] change: neither the module that mints and burns nor a
    reserve behind the bank. *)
Class KeeperLaws := {
  regular : Z -> Prop;
  regular_address : forall a, regular a -> u160 a;
  ks_ok : KS -> Prop;      (** the invariant of the stores *)
  kl_SetAccount : forall a n bal h c c', ks_ok c -> u160 a -> u64 n -> u256 bal -> u256 h ->
    k_SetAccount a (mkAccount n (Some bal) (Some h)) c = (Ok tt, c') ->
    ks_ok c' /\
    (regular a -> k_GetAccount c' a = inr (Some (mkAccount n (Some bal) (Some h)))) /\
    (forall b, b <> a -> regular b -> k_GetAccount c' b = k_GetAccount c b) /\
    (forall b k, k_GetState c' b k = k_GetState c b k);
  kl_SetState : forall a k v c, ks_ok c -> u160 a -> u256 k -> u256 v ->
    ks_ok (k_SetState a k (hash_bytes v) c) /\
    (forall b j, u160 b -> u256 j -> k_GetState (k_SetState a k (hash_bytes v) c) b j =
      if decide (b = a /\ j = k) then v else k_GetState c b j) /\
    (forall b, k_GetAccount (k_SetState a k (hash_bytes v) c) b = k_GetAccount c b);
  kl_SetCode : forall h code c, ks_ok c ->
    ks_ok (k_SetCode h code c) /\
    (forall b j, k_GetState (k_SetCode h code c) b j = k_GetState c b j) /\
    (forall b, k_GetAccount (k_SetCode h code c) b = k_GetAccount c b);
  kl_DeleteCode : forall h c, ks_ok c ->
    ks_ok (k_DeleteCode h c) /\
    (forall b j, k_GetState (k_DeleteCode h c) b j = k_GetState c b j) /\
    (forall b, k_GetAccount (k_DeleteCode h c) b = k_GetAccount c b);
  kl_DeleteAccount : forall a c c', ks_ok c -> u160 a ->
    k_DeleteAccount a c = (Ok tt, c') ->
    ks_ok c' /\
    (regular a -> k_GetAccount c' a = inr None) /\
    (forall b, b <> a -> regular b -> k_GetAccount c' b = k_GetAccount c b) /\
    (forall b k, b <> a -> regular b -> u256 k -> k_GetState c' b k = k_GetState c b k);
}.
Context `{!KeeperLaws, !KeeperTypes}.

(** The account and the storage of [b] are the same in both stores. *)
Record same_at (b : Z) c c' : Prop := {
  sat_account : k_GetAccount c' b = k_GetAccount c b;
  sat_state : forall k, u256 k -> k_GetState c' b k = k_GetState c b k;
}.

#[local] Instance same_at_preorder b : PreOrder (same_at b).
Proof.
  split; [done|]. intros c1 c2 c3 [E1 F1] [E2 F2]. constructor; [congruence|].
  intros k Hk. by rewrite F2, F1.
Qed.

Lemma commit_slot_run a k v c : commit_slot a k v c = (Ok tt, k_SetState a k (hash_bytes v) c).
Proof. unfold commit_slot, hash_bytes. by rewrite be_length. Qed.

Lemma sorted_keys_words (d : gmap Z Z) : words d -> Forall u256 (SortedKeys d).
Proof.
  intros Hd. apply Forall_forall. intros k [v Hv]%sorted_keys. by apply (Hd k v).
Qed.

Definition slots_written a (d : gmap Z Z) (keys : list Z) c : KS :=
  foldl (fun c k => k_SetState a k (hash_bytes (default 0 (d !! k))) c) c keys.

Lemma commit_slots_run a d keys c :
  each (fun key => commit_slot a key (default 0 (d !! key))) keys c = (Ok tt, slots_written a d keys c).
Proof.
  revert c. induction keys as [|k keys IH]; intros c; [done|]. cbn [each].
  unfold bind. rewrite commit_slot_run. by rewrite IH.
Qed.

Lemma default_word (d : gmap Z Z) k : words d -> u256 (default 0 (d !! k)).
Proof. intros Hd. destruct (d !! k) as [v|] eqn:E; [by apply (Hd k)|by split]. Qed.

Lemma slots_written_spec a d keys c :
  ks_ok c -> u160 a -> words d -> Forall u256 keys -> NoDup keys ->
  ks_ok (slots_written a d keys c) /\
  (forall b, k_GetAccount (slots_written a d keys c) b = k_GetAccount c b) /\
  (forall b j, u160 b -> u256 j -> k_GetState (slots_written a d keys c) b j =
    if decide (b = a /\ j ∈ keys) then default 0 (d !! j) else k_GetState c b j).
Proof.
  intros Hc Ha160 Hd Hku. revert c Hc. induction Hku as [|k keys Hk256 Hku IH]; intros c Hc Hnd.
  - split_and!; [done|done|]. intros b j _ _. rewrite decide_False; [done|]. intros [_ Hj]. by apply elem_of_nil in Hj.
  - apply NoDup_cons in Hnd as [Hk Hnd]. simpl.
    destruct (kl_SetState a k (default 0 (d !! k)) c Hc Ha160 Hk256 (default_word _ _ Hd)) as (Hc1 & Hs1 & Ha1).
    destruct (IH _ Hc1 Hnd) as (Hc2 & Ha & Hs). split; [done|]. split.
    + intros b. by rewrite Ha.
    + intros b j Hb160 Hj256. rewrite Hs, Hs1 by done. destruct (decide (b = a)) as [->|Hne].
      * destruct (decide (j = k)) as [->|Hjk].
        -- rewrite decide_False by (by intros [_ ?]). rewrite !decide_True; [done|..]; [|done].
           split; [done|]. by left.
        -- destruct (decide (j ∈ keys)) as [Hj|Hj].
           ++ rewrite !decide_True; [done|split; [done|by right]|done].
           ++ rewrite !decide_False; [done|..]; [by intros [_ [->|?]%elem_of_cons]|by intros [_ ?]|by intros [_ ?]].
      * rewrite !decide_False by (by intros [? _]). done.
Qed.

(** The effect of committing one object on its own account and storage, and on
    the others. *)
Lemma commit_object_spec o c c' :
  ks_ok c -> obj_typed o -> commit_object o c = (Ok tt, c') ->
  ks_ok c' /\
  (forall b, b <> address o -> regular b -> same_at b c c') /\
  (regular (address o) ->
    if selfDestructed o then k_GetAccount c' (address o) = inr None
    else k_GetAccount c' (address o) = inr (Some (account o)) /\
      forall k, u256 k -> k_GetState c' (address o) k =
        default (k_GetState c (address o) k) (dirtyStorage o !! k)).
Proof.
  intros Hok Ho Hrun. unfold commit_object in Hrun. destruct (selfDestructed o) eqn:Hsd.
  { apply kl_DeleteAccount in Hrun as (D0 & D1 & D2 & D3); [|done|apply Ho]. split_and!; [done| |done].
    intros b Hb Hr. constructor; [by apply D2|]. intros k Hk. by apply D3. }
  apply bind_ok in Hrun as ([] & c1 & Hcode & Hrun). apply bind_ok in Hrun as ([] & c2 & Hacct & Hslots).
  assert (ks_ok c1 /\ (forall b j, k_GetState c1 b j = k_GetState c b j) /\
    (forall b, k_GetAccount c1 b = k_GetAccount c b)) as (Hok1 & Hs1 & Ha1).
  { destruct (code o) as [cd|]; [|by injection Hcode as <-].
    destruct (dirtyCode o); [|by injection Hcode as <-].
    destruct (length cd =? 0)%nat; injection Hcode as <-; [by apply kl_DeleteCode|by apply kl_SetCode]. }
  apply kl_SetAccount in Hacct as (Hok2 & Ha2 & Hb2 & Hs2); [|done|apply Ho..].
  rewrite commit_slots_run in Hslots. injection Hslots as <-.
  destruct (slots_written_spec (address o) (dirtyStorage o) (SortedKeys (dirtyStorage o)) c2)
    as (Hok3 & Ha3 & Hs3); [done|apply Ho|apply Ho|by apply sorted_keys_words, Ho|apply sorted_keys_NoDup|]. split; [done|]. split.
  - intros b Hb Hr. constructor.
    + rewrite Ha3, Hb2, Ha1 by done. done.
    + intros k Hk. rewrite Hs3 by (done || by apply regular_address).
      rewrite decide_False by (by intros [? _]). by rewrite Hs2, Hs1.
  - intros Hr. split; [by rewrite Ha3, Ha2|]. intros k Hk. rewrite Hs3, Hs2, Hs1 by (done || apply Ho).
    destruct (dirtyStorage o !! k) as [v|] eqn:E; simpl.
    + rewrite decide_True; [done|]. split; [done|]. apply sorted_keys. eauto.
    + rewrite decide_False; [done|]. intros [_ Hk2%sorted_keys]. rewrite E in Hk2. by destruct Hk2.
Qed.

Definition committed_as (o : stateObject) c c' : Prop :=
  if selfDestructed o then k_GetAccount c' (address o) = inr None
  else k_GetAccount c' (address o) = inr (Some (account o)) /\
    forall k, u256 k -> k_GetState c' (address o) k = default (k_GetState c (address o) k) (dirtyStorage o !! k).

Lemma commit_each objs l c c' a :
  map_Forall (fun a o => address o = a) objs -> map_Forall (fun _ o => obj_typed o) objs -> NoDup l ->
  ks_ok c -> each (commit_dirty objs) l c = (Ok tt, c') ->
  ks_ok c' /\
  (regular a -> if decide (a ∈ l) then exists o, objs !! a = Some o /\ committed_as o c c' else same_at a c c').
Proof.
  intros Hk Ht Hnd Hok Hrun. revert c Hok Hrun. induction Hnd as [|b l Hb Hnd IH]; intros c Hok Hrun.
  { injection Hrun as <-. split; [done|]. intros _. by rewrite decide_False by apply not_elem_of_nil. }
  cbn [each] in Hrun. apply bind_ok in Hrun as ([] & c1 & Hc & Hrun).
  unfold commit_dirty in Hc. destruct (objs !! b) as [o|] eqn:Ho; [|done].
  apply commit_object_spec in Hc as (Hok1 & Hoth & Hown); [|done|by apply (Ht b)].
  destruct (IH c1 Hok1 Hrun) as [Hok' IH']. split; [done|]. intros Hr. specialize (IH' Hr). clear IH.
  rename IH' into IH. rewrite (Hk b o Ho) in *.
  destruct (decide (a = b)) as [->|Hne].
  - rewrite decide_True by by left. rewrite decide_False in IH by done. exists o. split; [done|].
    unfold committed_as. rewrite (Hk b o Ho). specialize (Hown Hr).
    destruct IH as [Ha Hs]. destruct (selfDestructed o); [by rewrite Ha|].
    destruct Hown as [E1 E2]. split; [by rewrite Ha|]. intros k Hk'. by rewrite Hs, E2.
  - specialize (Hoth a Hne Hr). destruct (decide (a ∈ l)) as [Hin|Hin].
    + rewrite decide_True by by right. destruct IH as (o' & Ho' & Hc). exists o'. split; [done|].
      unfold committed_as in *. rewrite (Hk a o' Ho') in *. destruct (selfDestructed o'); [done|].
      destruct Hc as [E1 E2]. split; [done|]. intros k Hk'. rewrite E2 by done. f_equal. by apply Hoth.
    + rewrite decide_False by (by intros [->|?]%elem_of_cons). by etrans.
Qed.

(** A commit writes the pending layers to the context and the dirty objects after them. *)
Lemma Commit_run s s' : sdb_wf s -> Commit s = (Ok tt, s') ->
  exists c', commitWithCtx s (cache_view s) = (Ok tt, c') /\ ctx s' = c'.
Proof.
  intros Hw Hrun. unfold Commit in Hrun. apply bind_ok in Hrun as ([] & s1 & Hwc & Hrun).
  rewrite bind_gets in Hrun. apply zoom_ok in Hrun as (c' & Hc & ->). exists c'. split; [|done].
  assert (ctx s1 = cache_view s /\ stateObjects s1 = stateObjects s /\ jrnl s1 = jrnl s) as (E1 & E2 & E3).
  { unfold run_writeCache, modify in Hwc. injection Hwc as <-.
    destruct (writeCache s) eqn:Ew.
    - unfold cache_view. by destruct (cacheCtx s).
    - pose proof (wf_sync _ Hw Ew) as Hcc. unfold cache_view. by rewrite Hcc. }
  unfold commitWithCtx in *. by rewrite E1, E2, E3 in Hc.
Qed.

(** What [Commit] does to the context, and that it keeps the stores well
    formed. *)
Lemma Commit_effect s s' a :
  sdb_wf s -> sdb_typed s -> ks_ok (cache_view s) -> Commit s = (Ok tt, s') ->
  ks_ok (ctx s') /\
  (regular a ->
  match dirties (jrnl s) !! a with
  | Some _ => exists o, stateObjects s !! a = Some o /\ committed_as o (cache_view s) (ctx s')
  | None => same_at a (cache_view s) (ctx s')
  end).
Proof.
  intros Hw Ht Hok Hrun. apply Commit_run in Hrun as (c' & Hc & ->); [|done]. unfold commitWithCtx, sortedDirties in Hc.
  destruct (commit_each _ _ _ _ a (wf_addr _ Hw) (st_objects _ Ht) (sorted_keys_NoDup _) Hok Hc) as [Hok' Hce].
  split; [done|]. intros Hr. specialize (Hce Hr). destruct (dirties (jrnl s) !! a) eqn:Ed.
  - rewrite decide_True in Hce by (apply sorted_keys; eauto). done.
  - rewrite decide_False in Hce; [done|]. rewrite sorted_keys, Ed. by intros [].
Qed.

(**  A successful commit writes to the context exactly the dirty accounts,
    each as its object shows it (nonce, balance, code hash, and the storage
    words set in the transaction over the words below) or removed when the
    contract destroyed itself, on top of what the precompile calls wrote, and
    leaves every other account as it was. *)
Theorem Commit_writes s s' a :
  sdb_wf s -> sdb_typed s -> ks_ok (cache_view s) -> Commit s = (Ok tt, s') -> regular a ->
  match dirties (jrnl s) !! a with
  | Some _ => exists o, stateObjects s !! a = Some o /\ committed_as o (cache_view s) (ctx s')
  | None => k_GetAccount (ctx s') a = k_GetAccount (cache_view s) a /\
      forall k, u256 k -> k_GetState (ctx s') a k = k_GetState (cache_view s) a k
  end.
Proof.
  intros Hw Ht Hok Hrun Hr. destruct (Commit_effect s s' a Hw Ht Hok Hrun) as [_ He]. specialize (He Hr).
  destruct (dirties (jrnl s) !! a); [done|]. by destruct He.
Qed.
End commit.
