(* ===== verification/StateDBReach.v ===== *)
(** The states of a transaction: what [Prepare] warms, the invariant of every
    reachable state, and the two limits of precompile calls. *)
From S2P Require Import Prelude KVStore Sdk StateDB StateDBInv.
From S2P Require Import StateDBRun StateDBOps StateDBMachine StateDBThms StateDBType StateDBCommit.
Import AccessList Transient.

(** * The access list as a set of addresses and a set of slots *)

Definition has_slot (al : accessList) (a k : Z) : Prop :=
  exists i m, addresses al !! a = Some i /\ 0 <= i /\ slots al !! Z.to_nat i = Some m /\ k ∈ m.

Lemma has_slot_wf al a k : has_slot al a k -> is_Some (addresses al !! a).
Proof. intros (i & m & Ha & _). eauto. Qed.

Lemma Contains_spec al a k :
  al_wf al -> exists b, Contains al a k = Ok (ContainsAddress al a, b) /\ (b = true <-> has_slot al a k).
Proof.
  intros [Hi _ _]. unfold Contains, ContainsAddress. destruct (addresses al !! a) as [i|] eqn:Ha.
  - rewrite (bool_decide_true (is_Some (Some i))) by eauto. destruct (Z.eqb_spec i (-1)) as [->|Hne].
    + exists false. split; [done|]. split; [done|]. intros (i & m & Ha' & Hi0 & _). rewrite Ha in Ha'. simplify_eq. lia.
    + destruct (Hi a i Ha) as [|Hr]; [done|]. destruct (lookup_lt_is_Some_2 (slots al) (Z.to_nat i)) as [m Hm]; [lia|].
      rewrite Hm. eexists. split; [done|]. rewrite bool_decide_eq_true. split.
      * intros Hk. exists i, m. split_and!; [done|lia|done|done].
      * intros (i' & m' & Ha' & _ & Hm' & Hk). rewrite Ha in Ha'. by simplify_eq.
  - rewrite bool_decide_false by by intros []. exists false. split; [done|]. split; [done|].
    intros (i & m & Ha' & _). congruence.
Qed.

Lemma AddAddress_spec al a :
  al_wf al -> al_wf (AddAddress al a).1 /\
  (forall b, is_Some (addresses (AddAddress al a).1 !! b) <-> b = a \/ is_Some (addresses al !! b)) /\
  (forall b k, has_slot (AddAddress al a).1 b k <-> has_slot al b k).
Proof.
  intros Hw. unfold AddAddress. destruct (addresses al !! a) as [i|] eqn:Ha; simpl.
  { split_and!; [done| |done]. intros b. split; [by right|]. intros [->|?]; [eauto|done]. }
  split_and!; [by apply AddAddress_undo| |].
  - intros b. rewrite lookup_insert_is_Some. destruct (decide (b = a)); naive_solver.
  - intros b k. unfold has_slot. simpl. split; intros (i & m & Hb & Hi & Hm & Hk); exists i, m.
    + split_and!; [|done..]. apply lookup_insert_Some in Hb as [[-> <-]|[_ Hb]]; [lia|done].
    + split_and!; [|done..]. rewrite lookup_insert_ne; [done|]. intros ->. congruence.
Qed.

Lemma AddSlot_present al a k :
  al_wf al -> is_Some (addresses al !! a) ->
  exists r, AddSlot al a k = Ok r /\ al_wf r.1 /\
  (forall b, is_Some (addresses r.1 !! b) <-> is_Some (addresses al !! b)) /\
  (forall b j, has_slot r.1 b j <-> (b = a /\ j = k) \/ has_slot al b j).
Proof.
  intros Hw Ha. assert (exists r, AddSlot al a k = Ok r) as [r Hr].
  { destruct Ha as [i Ha]. unfold AddSlot. rewrite Ha. destruct (Z.eqb_spec i (-1)); [eauto|].
    destruct (al_index _ Hw a i Ha) as [|Hi]; [done|].
    destruct (lookup_lt_is_Some_2 (slots al) (Z.to_nat i)) as [m Hm]; [lia|]. rewrite Hm.
    case_bool_decide; eauto. }
  exists r. split; [done|].
  assert (al_wf r.1) as Hwr by (destruct (AddSlot_undo _ _ _ _ Hw Ha Hr) as [->|(_ & ? & _)]; done).
  split; [done|]. destruct Ha as [i Ha]. unfold AddSlot in Hr. rewrite Ha in Hr.
  destruct (Z.eqb_spec i (-1)) as [->|Hne].
  - injection Hr as <-. simpl. split.
    + intros b. rewrite lookup_insert_is_Some. destruct (decide (b = a)) as [->|]; naive_solver.
    + intros b j. unfold has_slot. simpl. split.
      * intros (i & m & Hb & Hi & Hm & Hj). apply lookup_insert_Some in Hb as [[-> <-]|[Hne Hb]].
        -- rewrite Nat2Z.id, list_lookup_middle in Hm by done. left. set_solver.
        -- right. exists i, m. split_and!; [done..| |done].
           destruct (al_index _ Hw b i Hb) as [->|Hr]; [lia|]. by rewrite lookup_app_l in Hm by lia.
      * intros [[-> ->]|(i & m & Hb & Hi & Hm & Hj)].
        -- eexists _, {[k]}. rewrite lookup_insert_eq. split_and!; [done|lia| |set_solver].
           rewrite Nat2Z.id. by apply list_lookup_middle.
        -- exists i, m. rewrite lookup_insert_ne by (intros ->; rewrite Ha in Hb; simplify_eq; lia).
           split_and!; [done|done| |done]. by apply lookup_app_l_Some.
  - destruct (al_index _ Hw a i Ha) as [|Hi]; [done|]. destruct (slots al !! Z.to_nat i) as [m|] eqn:Hm; [|done].
    assert (Z.to_nat i < length (slots al))%nat as Hlt by lia.
    case_bool_decide as Hin; injection Hr as <-; simpl; (split; [done|]).
    + intros b j. split; [by right|]. intros [[-> ->]|?]; [|done]. exists i, m. split_and!; [done|lia|done|done].
    + intros b j. unfold has_slot. simpl. split.
      * intros (i' & m' & Hb & Hi' & Hm' & Hj).
        destruct (decide (i' = i)) as [->|Hne'].
        -- assert (b = a) as -> by (by destruct (al_inj _ Hw b a i Hb Ha)).
           rewrite list_lookup_insert_eq in Hm' by done. simplify_eq.
           destruct (decide (j = k)); [by left|right]. exists i, m. split_and!; [done|lia|done|set_solver].
        -- right. exists i', m'. rewrite list_lookup_insert_ne in Hm' by lia. done.
      * intros [[-> ->]|(i' & m' & Hb & Hi' & Hm' & Hj)].
        -- exists i, ({[k]} ∪ m). rewrite list_lookup_insert_eq by done. split_and!; [done|lia|done|set_solver].
        -- destruct (decide (i' = i)) as [->|Hne'].
           ++ exists i, ({[k]} ∪ m). rewrite list_lookup_insert_eq by done.
              split_and!; [done|lia|done|]. rewrite Hm in Hm'. simplify_eq. set_solver.
           ++ exists i', m'. rewrite list_lookup_insert_ne by lia. done.
Qed.

(** * Prepare *)

Definition pairs (l : list (Z * list Z)) (a k : Z) : Prop := exists keys, (a, keys) ∈ l /\ k ∈ keys.

Lemma add_slots_spec a keys al :
  al_wf al -> is_Some (addresses al !! a) ->
  exists al', add_slots al a keys = Ok al' /\ al_wf al' /\
  (forall b, is_Some (addresses al' !! b) <-> is_Some (addresses al !! b)) /\
  (forall b j, has_slot al' b j <-> (b = a /\ j ∈ keys) \/ has_slot al b j).
Proof.
  revert al. induction keys as [|k keys IH]; intros al Hw Ha; simpl.
  { exists al. split_and!; [done|done|done|]. intros b j. rewrite elem_of_nil. naive_solver. }
  destruct (AddSlot_present al a k Hw Ha) as (r & -> & Hwr & Hd & Hs). simpl.
  destruct (IH r.1 Hwr) as (al' & -> & Hw' & Hd' & Hs'); [by apply Hd|].
  exists al'. split_and!; [done|done| |].
  - intros b. by rewrite Hd'.
  - intros b j. rewrite Hs', Hs, elem_of_cons. naive_solver.
Qed.

Lemma add_tuples_spec l al :
  al_wf al ->
  exists al', add_tuples al l = Ok al' /\ al_wf al' /\
  (forall b, is_Some (addresses al' !! b) <-> b ∈ l.*1 \/ is_Some (addresses al !! b)) /\
  (forall b j, has_slot al' b j <-> pairs l b j \/ has_slot al b j).
Proof.
  revert al. induction l as [|[a keys] l IH]; intros al Hw; simpl.
  { exists al. split_and!; [done|done| |].
    - intros b. rewrite elem_of_nil. naive_solver.
    - intros b j. split; [by right|]. intros [(ks & Hk & _)|?]; [by apply elem_of_nil in Hk|done]. }
  destruct (AddAddress_spec al a Hw) as (Hw1 & Hd1 & Hs1).
  destruct (add_slots_spec a keys (AddAddress al a).1 Hw1) as (al2 & -> & Hw2 & Hd2 & Hs2); [apply Hd1; by left|].
  simpl. destruct (IH al2 Hw2) as (al' & -> & Hw' & Hd' & Hs'). exists al'. split_and!; [done|done| |].
  - intros b. rewrite Hd', Hd2, Hd1, elem_of_cons. naive_solver.
  - intros b j. rewrite Hs', Hs2, Hs1. unfold pairs. setoid_rewrite elem_of_cons. naive_solver.
Qed.

Lemma fold_addresses l al :
  al_wf al ->
  let al' := foldl (fun al a => (AddAddress al a).1) al l in
  al_wf al' /\ (forall b, is_Some (addresses al' !! b) <-> b ∈ l \/ is_Some (addresses al !! b)) /\
  (forall b j, has_slot al' b j <-> has_slot al b j).
Proof.
  revert al. induction l as [|a l IH]; intros al Hw; simpl.
  { split_and!; [done| |done]. intros b. rewrite elem_of_nil. naive_solver. }
  destruct (AddAddress_spec al a Hw) as (Hw1 & Hd1 & Hs1). destruct (IH _ Hw1) as (Hw' & Hd' & Hs').
  split_and!; [done| |].
  - intros b. rewrite Hd', Hd1, elem_of_cons. naive_solver.
  - intros b j. by rewrite Hs', Hs1.
Qed.

Lemma new_al_wf : al_wf newAccessList.
Proof. constructor; simpl; [|constructor|]; intros *; rewrite lookup_empty; done. Qed.

Lemma prepared_list_spec rules sender coinbase dst precompiles l :
  exists al, prepared_list rules sender coinbase dst precompiles l = Ok al /\ al_wf al /\
  (forall b, is_Some (addresses al !! b) <-> b = sender \/ dst = Some b \/ b ∈ precompiles \/
    b ∈ l.*1 \/ (IsShanghai rules = true /\ b = coinbase)) /\
  (forall b j, has_slot al b j <-> pairs l b j).
Proof.
  unfold prepared_list. cbv zeta. destruct (AddAddress_spec newAccessList sender new_al_wf) as (W1 & D1 & S1).
  assert (exists al2, match dst with Some d => (AddAddress (AddAddress newAccessList sender).1 d).1
      | None => (AddAddress newAccessList sender).1 end = al2 /\ al_wf al2 /\
    (forall b, is_Some (addresses al2 !! b) <-> b = sender \/ dst = Some b) /\
    (forall b j, ~ has_slot al2 b j)) as (al2 & -> & W2 & D2 & S2).
  { assert (forall b j, ~ has_slot (AddAddress newAccessList sender).1 b j) as Hn.
    { intros b j. rewrite S1. intros (i & m & Hi & _). done. }
    assert (forall b, is_Some (addresses (AddAddress newAccessList sender).1 !! b) <-> b = sender) as Hd.
    { intros b. rewrite D1. simpl. rewrite lookup_empty, is_Some_alt. naive_solver. }
    destruct dst as [d|].
    - destruct (AddAddress_spec _ d W1) as (W & D & S). eexists. split_and!; [done|done| |].
      + intros b. rewrite D, Hd. naive_solver.
      + intros b j. by rewrite S.
    - eexists. split_and!; [done|done| |done]. intros b. rewrite Hd. naive_solver. }
  destruct (fold_addresses precompiles al2 W2) as (W3 & D3 & S3).
  destruct (add_tuples_spec l _ W3) as (al4 & -> & W4 & D4 & S4). simpl.
  destruct (AddAddress_spec al4 coinbase W4) as (W5 & D5 & S5).
  eexists. split_and!; [done|by destruct (IsShanghai rules)| |].
  - intros b. destruct (IsShanghai rules); rewrite ?D5, D4, D3, D2; naive_solver.
  - intros b j. assert (has_slot (if IsShanghai rules then (AddAddress al4 coinbase).1 else al4) b j <->
      has_slot al4 b j) as -> by (by destruct (IsShanghai rules); rewrite ?S5).
    rewrite S4, S3. specialize (S2 b j). naive_solver.
Qed.

Section reach.
Context `{Keccak, StateKeeper}.
Implicit Types (s t : StateDB) (o : stateObject) (a : Z).

(**  Under EIP-2929, [Prepare] never fails and leaves warm exactly the
    sender, the destination, the precompiles, the addresses of the access list
    and, from Shanghai on, the coinbase; the warm slots are exactly those of the
    access list, and no transient storage is left. *)
Theorem Prepare_warms rules sender coinbase dst precompiles l s :
  IsEIP2929 rules = true -> IsEIP4762 rules = false ->
  exists s', Prepare rules sender coinbase dst precompiles l s = (Ok tt, s') /\
    (forall a, (AddressInAccessList a s').1 = Ok true <->
      a = sender \/ dst = Some a \/ a ∈ precompiles \/ a ∈ l.*1 \/ (IsShanghai rules = true /\ a = coinbase)) /\
    (forall a k, (exists p, (SlotInAccessList a k s').1 = Ok (p, true)) <->
      exists keys, (a, keys) ∈ l /\ k ∈ keys) /\
    (forall a k, (GetTransientState a k s').1 = Ok 0).
Proof.
  intros H1 H2. destruct (prepared_list_spec rules sender coinbase dst precompiles l) as (al & Hal & Hw & Hd & Hs).
  unfold Prepare. rewrite H1, H2. simpl. unfold bind, lift. rewrite Hal. eexists. split; [reflexivity|].
  split_and!.
  - intros a. rewrite <- Hd. simpl. unfold ContainsAddress. simpl. split.
    + intros Hb. injection Hb as Hb. by apply bool_decide_eq_true in Hb.
    + intros Hb. by rewrite bool_decide_true.
  - intros a k. unfold SlotInAccessList, bind, gets, lift. simpl.
    destruct (Contains_spec al a k Hw) as (b & Hc & Hb). rewrite Hc.
    change (exists keys, (a, keys) ∈ l /\ k ∈ keys) with (pairs l a k). rewrite <- Hs, <- Hb. split.
    + intros (p & Hp). by injection Hp.
    + intros ->. eauto.
  - intros a k. done.
Qed.

(** * Reachable states *)

Lemma New_wf c evs txc : sdb_wf (New c evs txc).
Proof.
  constructor; simpl; [apply map_Forall_empty|done|done| |].
  - intros m _. rewrite drop_nil. eexists. split; [done|]. constructor; simpl; [apply new_al_wf|done|done].
  - split; constructor.
Qed.

Lemma fresh_access_wf s al :
  sdb_wf s -> entries (jrnl s) = [] -> al_wf al ->
  sdb_wf (with_transient newTransientStorage (with_access al s)).
Proof.
  intros Hw He Hal. constructor; simpl; [apply Hw|apply Hw|apply Hw| |apply Hw].
  intros m _. rewrite He, drop_nil. simpl. eexists. split; [done|]. destruct (wf_now _ Hw). by constructor.
Qed.

(** The states of a transaction: a new database, prepared or not, and the
    operations that return. *)
Inductive reachable (c : KS) (evs : list event) (txc : TxConfig) : StateDB -> Prop :=
  | r_new : reachable c evs txc (New c evs txc)
  | r_prepare rules sender coinbase dst precompiles l s :
      Prepare rules sender coinbase dst precompiles l (New c evs txc) = (Ok tt, s) -> reachable c evs txc s
  | r_op s op s' : reachable c evs txc s -> run_op op s = (Ok tt, s') -> reachable c evs txc s'.

Lemma reachable_run c evs txc ops s s' :
  reachable c evs txc s -> each run_op ops s = (Ok tt, s') -> reachable c evs txc s'.
Proof.
  revert s. induction ops as [|op ops IH]; intros s Hr Hrun; [by injection Hrun as <-|].
  simpl in Hrun. apply bind_ok in Hrun as ([] & s1 & H1 & H2). eapply IH; [|exact H2]. by eapply r_op.
Qed.

Lemma reachable_wf c evs txc s : reachable c evs txc s -> sdb_wf s.
Proof.
  induction 1 as [|rules sender coinbase dst precompiles l s Hp|s op s' _ IH Hop].
  - apply New_wf.
  - unfold Prepare in Hp. destruct (IsEIP2929 rules && IsEIP4762 rules); [done|].
    apply bind_ok in Hp as ([] & s1 & Hp & [= <-]). destruct (IsEIP2929 rules).
    + destruct (prepared_list_spec rules sender coinbase dst precompiles l) as (al & Hal & Hw & _).
      unfold bind, lift in Hp. rewrite Hal in Hp. injection Hp as <-. by apply fresh_access_wf; [apply New_wf|..].
    + injection Hp as <-. apply (fresh_access_wf (New c evs txc) newAccessList); [apply New_wf|done|apply new_al_wf].
  - by eapply op_wf.
Qed.

Lemma count_mentioned l a : is_Some (count_dirties l !! a) <-> Exists (fun e => Dirtied e = Some a) l.
Proof.
  induction l as [|e l IH] using rev_ind.
  - unfold count_dirties. simpl. rewrite lookup_empty, is_Some_alt, Exists_nil. done.
  - rewrite count_app, Exists_app, Exists_cons, Exists_nil, <- IH. destruct (Dirtied e) as [b|] eqn:He; simpl.
    + rewrite lookup_insert_is_Some. destruct (decide (b = a)); naive_solver.
    + naive_solver.
Qed.

(** C25.  In every state a transaction reaches, the dirty accounts are exactly
    those a journal entry changed, each has a live object (so the commit
    dereferences no nil object), objects are filed under their address, the
    access list indexes existing non-empty slot sets, one per address, the
    revisions have increasing ids and journal indices within the journal, and
    the journal can be undone to every earlier length. *)
Theorem reachable_invariant c evs txc s :
  reachable c evs txc s ->
  (forall a, a ∈ sortedDirties (jrnl s) <-> Exists (fun e => Dirtied e = Some a) (entries (jrnl s))) /\
  (forall a, a ∈ sortedDirties (jrnl s) -> is_Some (stateObjects s !! a)) /\
  map_Forall (fun a o => address o = a) (stateObjects s) /\
  al_wf (access s) /\
  revs_wf (validRevisions s) (nextRevisionID s) (length (entries (jrnl s))) /\
  (forall m, (m <= length (entries (jrnl s)))%nat -> exists t, journal_Revert m s = (Ok tt, t)).
Proof.
  intros Hr. apply reachable_wf in Hr as Hw. destruct (wf_now _ Hw) as [Hal Hd _].
  unfold sortedDirties. split_and!; [| |apply Hw|done|apply Hw|].
  - intros a. by rewrite sorted_keys, (wf_dirties _ Hw), count_mentioned.
  - intros a. rewrite sorted_keys. intros Ha. apply elem_of_dom. apply Hd. by apply elem_of_dom.
  - intros m Hm. destruct (wf_hist _ Hw m Hm) as (t & Ht & _). unfold journal_Revert. rewrite bind_gets.
    rewrite (bind_run _ _ _ _ _ Ht). eexists. reflexivity.
Qed.

(** * The limits of precompile calls *)

(**  A precompile call is refused exactly when the call counter, a byte that
    a revert does not restore, exceeds seven after its increment: the counter
    wraps, so that the calls after the 256th are accepted again. *)
Theorem AddPrecompileFn_limit a snapshot evs s o s1 :
  getOrNewStateObject a s = (Ok o, s1) ->
  (AddPrecompileFn a snapshot evs s).1 =
    (if MaxPrecompileCalls <? (precompileCallsCounter s1 + 1) mod 256
     then Err (Error ErrOther "max calls to precompiles reached") else Ok tt) /\
  precompileCallsCounter (AddPrecompileFn a snapshot evs s).2 = (precompileCallsCounter s1 + 1) mod 256.
Proof.
  intros Hg. unfold AddPrecompileFn, bind. rewrite Hg, append_run. unfold modify, gets. simpl.
  destruct (MaxPrecompileCalls <? _); done.
Qed.

Lemma getOrNew_write a s r s' :
  getOrNewStateObject a s = (r, s') -> writeCache s' = writeCache s /\ ctx_events s' = ctx_events s.
Proof.
  unfold getOrNewStateObject, createObject, getStateObject, bind, gets, lift, ret, append,
    setStateObject, modify, panic. destruct (stateObjects s !! a) eqn:E; [by intros [= _ <-]|].
  destruct (k_GetAccount (ctx s) a) as [p|[acct|]] eqn:Ek; simpl; rewrite ?E, ?Ek; by intros [= _ <-].
Qed.

(**  Once a precompile call was reverted, the events that the commit emits
    are fixed to those recorded when that call began: a later call that
    succeeds has its writes committed and its events dropped. *)
Theorem events_after_revert_dropped p body s s' evs :
  writeCache s = Some (GivenEvents evs) -> cacheCtx s <> None ->
  precompile_call p body s = (Ok tt, s') ->
  exists s2, run_writeCache s' = (Ok tt, s2) /\
    ctx_events s2 = ctx_events s ++ evs /\ ctx s2 = cache_view s'.
Proof.
  intros Hwr Hcc Hrun.
  assert (writeCache s' = writeCache s /\ ctx_events s' = ctx_events s /\ cacheCtx s' <> None) as (E1 & E2 & E3).
  { unfold precompile_call in Hrun. apply bind_ok in Hrun as (q & s5 & Htry & Hbody).
    assert (writeCache s5 = writeCache s /\ ctx_events s5 = ctx_events s /\ cacheCtx s5 <> None) as (F1 & F2 & F3).
    { unfold try, RunSetup in Htry. unfold bind at 1 in Htry. unfold GetCacheContext, modify in Htry.
      rewrite Hwr in Htry. unfold bind at 1, MultiStoreSnapshot in Htry. rewrite bind_gets in Htry.
      destruct (cacheCtx s) as [[L cevs]|] eqn:Hc; [|done].
      unfold bind at 1, modify, ret in Htry. rewrite bind_gets in Htry.
      cbn [cc_layers cc_events cacheCtx with_cache] in Htry. unfold bind in Htry.
      destruct (AddPrecompileFn p _ cevs _) as [r1 s3] eqn:Hadd.
      apply AddPrecompileFn_run in Hadd. rewrite getOrNew_with_cache in Hadd.
      destruct (getOrNewStateObject p s) as [[o|e|m] s2] eqn:Hnew; [|destruct r1; done..].
      apply getOrNew_write in Hnew as [G1 G2].
      assert (writeCache s3 = writeCache s /\ ctx_events s3 = ctx_events s /\
        cacheCtx s3 = Some (mkCache (L ++ [None]) cevs)) as (K1 & K2 & K3) by (by rewrite Hadd).
      destruct r1 as [[]| |]; [|by injection Htry as _ <-; rewrite K3|done].
      destruct (CommitWithCacheCtx s3) as [r4 s4] eqn:Hcm.
      destruct (CommitWithCacheCtx_top _ _ _ _ _ _ K3 Hcm) as (x & ->).
      destruct r4; by injection Htry as _ <-. }
    rewrite <- F1, <- F2. destruct q; simpl in Hbody; [|by injection Hbody as <-].
    unfold modify in Hbody. destruct (body _). injection Hbody as <-. simpl.
    split_and!; [done..|]. by destruct (cacheCtx s5). }
  eexists. split; [reflexivity|]. rewrite E1, Hwr. destruct (cacheCtx s') eqn:Ec; [|done]. simpl. by rewrite E2.
Qed.
End reach.
