(* ===== verification/Wrappers.v ===== *)
(** x/vm/wrappers/bank.go: the bank keeper as the EVM sees it, with 18 decimals,
    over the interface [types.BankKeeper] that x/precisebank implements.

    The interface is a class with the promises the EVM relies on; the theorems
    of this file are proved against it, and [PreciseBankEvm] discharges it. *)
From S2P Require Import Prelude KVStore Sdk EvmConfig.

Definition EvmModuleName : string := "evm".
(** [authtypes.FeeCollectorName] *)
Definition FeeCollector : string := "fee_collector".

(** * The bank keeper of the EVM ([types.BankKeeper]) *)

Class EvmBank := {
  EB : Type;
  eb_GetBalance : EB -> addr -> string -> res coin;
  eb_SpendableCoin : EB -> addr -> string -> res coin;
  eb_MintCoins : string -> coins -> M EB unit;
  eb_BurnCoins : string -> coins -> M EB unit;
  eb_SendCoinsFromAccountToModule : addr -> string -> coins -> M EB unit;
  eb_SendCoinsFromModuleToAccount : string -> addr -> coins -> M EB unit;
}.

Section bank.
Context `{EvmBank}.
Variable info : EvmCoinInfo.

(** [sdk.Coins.Sort]: by denom. *)
Definition denom_le (c1 c2 : coin) : Prop :=
  bytes_le (str_bytes (c_denom c1)) (str_bytes (c_denom c2)) = true.
#[global] Instance denom_le_dec c1 c2 : Decision (denom_le c1 c2).
Proof. unfold denom_le. apply _. Defined.

Definition ConvertCoinsDenomToExtendedDenom (cs : coins) : coins :=
  merge_sort denom_le (map (fun c =>
    if bool_decide (c_denom c = Denom info)
    then match ConvertEvmCoinDenomToExtendedDenom info c with Ok c => c | _ => c end
    else c) cs).

(** [errors.Wrap] keeps the sentinel. *)
Definition wrap {A} (msg : string) (m : M EB A) : M EB A := fun s =>
  match m s with
  | (Err e, s') => (Err (Error (e_kind e) msg), s')
  | r => r
  end.

(** [sdkmath.NewIntFromBigInt] panics beyond 256 bits. *)
Definition MintAmountToAccount (recipient : addr) (amt : Z) : M EB unit :=
  let! amt := lift (int_chk amt) in
  let! convertedCoin := wrap "failed to mint coin to account in bank wrapper"
    (lift (ConvertEvmCoinDenomToExtendedDenom info (Coin (Denom info) amt))) in
  let coinsToMint := [convertedCoin] in
  do! wrap "failed to mint coins to account in bank wrapper" (eb_MintCoins EvmModuleName coinsToMint);
  eb_SendCoinsFromModuleToAccount EvmModuleName recipient coinsToMint.

Definition BurnAmountFromAccount (account : addr) (amt : Z) : M EB unit :=
  let! amt := lift (int_chk amt) in
  let! convertedCoin := wrap "failed to burn coins from account in bank wrapper"
    (lift (ConvertEvmCoinDenomToExtendedDenom info (Coin (Denom info) amt))) in
  let coinsToBurn := [convertedCoin] in
  do! wrap "failed to burn coins from account in bank wrapper"
    (eb_SendCoinsFromAccountToModule account EvmModuleName coinsToBurn);
  eb_BurnCoins EvmModuleName coinsToBurn.

Definition wrapper_GetBalance (s : EB) (a : addr) (denom : string) : res coin :=
  if bool_decide (denom = Denom info) then eb_GetBalance s a (ExtendedDenom info)
  else Panic "expected evm denom".
Definition wrapper_SpendableCoin (s : EB) (a : addr) (denom : string) : res coin :=
  if bool_decide (denom = Denom info) then eb_SpendableCoin s a (ExtendedDenom info)
  else Panic "expected evm denom".

Definition wrapper_SendCoinsFromAccountToModule (sender : addr) (recipientModule : string)
    (cs : coins) : M EB unit :=
  let convertedCoins := ConvertCoinsDenomToExtendedDenom cs in
  if coins_is_zero convertedCoins then ret tt
  else eb_SendCoinsFromAccountToModule sender recipientModule convertedCoins.
Definition wrapper_SendCoinsFromModuleToAccount (senderModule : string) (recipient : addr)
    (cs : coins) : M EB unit :=
  let convertedCoins := ConvertCoinsDenomToExtendedDenom cs in
  if coins_is_zero convertedCoins then ret tt
  else eb_SendCoinsFromModuleToAccount senderModule recipient convertedCoins.

(** ** What the bank promises to the EVM

    [eb_balance] is the extended balance of a [eb_plain] account: one whose
    coins are all spendable, and that is neither the EVM module account nor an
    account the bank uses itself. *)
Class EvmBankLaws := {
  eb_ok : EB -> Prop;
  eb_plain : addr -> Prop;
  eb_balance : EB -> addr -> Z;
  eb_balance_nonneg : forall s a, eb_ok s -> eb_plain a -> 0 <= eb_balance s a;
  eb_spendable_is : forall s a, eb_ok s -> eb_plain a ->
    eb_SpendableCoin s a (ExtendedDenom info) =
      if eb_balance s a <? 2 ^ 256 then Ok (Coin (ExtendedDenom info) (eb_balance s a))
      else Panic "Int overflow";
  eb_mint : forall n s s', eb_ok s -> 0 < n ->
    eb_MintCoins EvmModuleName [Coin (ExtendedDenom info) n] s = (Ok tt, s') ->
    eb_ok s' /\ forall a, eb_plain a -> eb_balance s' a = eb_balance s a;
  eb_burn : forall n s s', eb_ok s -> 0 < n ->
    eb_BurnCoins EvmModuleName [Coin (ExtendedDenom info) n] s = (Ok tt, s') ->
    eb_ok s' /\ forall a, eb_plain a -> eb_balance s' a = eb_balance s a;
  (** the address of a module account, and the two modules the EVM pays from or to *)
  eb_module : string -> option addr;
  eb_evm_module : forall a, eb_module EvmModuleName = Some a -> ~ eb_plain a;
  eb_pay : forall m n to s s', m = EvmModuleName \/ m = FeeCollector -> eb_ok s -> 0 < n ->
    eb_SendCoinsFromModuleToAccount m to [Coin (ExtendedDenom info) n] s = (Ok tt, s') ->
    eb_ok s' /\ exists ma, eb_module m = Some ma /\ forall a, eb_plain a ->
      eb_balance s' a = eb_balance s a + (if decide (a = to) then n else 0) - (if decide (a = ma) then n else 0);
  eb_take : forall m n from s s', m = EvmModuleName \/ m = FeeCollector -> eb_ok s -> 0 < n ->
    eb_SpendableCoin s from (ExtendedDenom info) <> Ok (Coin (ExtendedDenom info) 0) ->
    eb_SendCoinsFromAccountToModule from m [Coin (ExtendedDenom info) n] s = (Ok tt, s') ->
    eb_ok s' /\ exists ma, eb_module m = Some ma /\ forall a, eb_plain a ->
      eb_balance s' a = eb_balance s a - (if decide (a = from) then n else 0) + (if decide (a = ma) then n else 0);
}.
Context `{!EvmBankLaws}.

Lemma wrap_ok {A} msg (m : M EB A) s x s' : wrap msg m s = (Ok x, s') -> m s = (Ok x, s').
Proof. unfold wrap. destruct (m s) as [[]]; congruence. Qed.

Lemma convert_own n : ConvertEvmCoinDenomToExtendedDenom info (Coin (Denom info) n) =
  Ok (Coin (ExtendedDenom info) n).
Proof. unfold ConvertEvmCoinDenomToExtendedDenom. simpl. by rewrite bool_decide_true. Qed.

Lemma mint_correct to n s s' :
  eb_ok s -> 0 < n -> MintAmountToAccount to n s = (Ok tt, s') ->
  eb_ok s' /\ forall a, eb_plain a -> eb_balance s' a = eb_balance s a + (if decide (a = to) then n else 0).
Proof.
  intros Hs Hn Hrun. unfold MintAmountToAccount in Hrun.
  apply bind_lift_ok in Hrun as (n' & Hn' & Hrun). apply int_chk_ok in Hn' as ->.
  apply bind_ok in Hrun as (c & s1 & Hc & Hrun). apply wrap_ok in Hc. rewrite convert_own in Hc.
  injection Hc as <- <-. apply bind_ok in Hrun as ([] & s2 & Hm & Hrun). apply wrap_ok in Hm.
  apply eb_mint in Hm as [H2 Hm]; [|done..]. apply eb_pay in Hrun as (H3 & ma & Hma & Hp); [|by auto|done..].
  split; [done|]. intros a Ha. rewrite Hp, Hm by done.
  rewrite (decide_False (P := a = ma)); [lia|]. intros ->. by eapply eb_evm_module.
Qed.

Lemma burn_correct from n s s' :
  eb_ok s -> 0 < n -> eb_SpendableCoin s from (ExtendedDenom info) <> Ok (Coin (ExtendedDenom info) 0) ->
  BurnAmountFromAccount from n s = (Ok tt, s') ->
  eb_ok s' /\ forall a, eb_plain a -> eb_balance s' a = eb_balance s a - (if decide (a = from) then n else 0).
Proof.
  intros Hs Hn Hz Hrun. unfold BurnAmountFromAccount in Hrun.
  apply bind_lift_ok in Hrun as (n' & Hn' & Hrun). apply int_chk_ok in Hn' as ->.
  apply bind_ok in Hrun as (c & s1 & Hc & Hrun). apply wrap_ok in Hc. rewrite convert_own in Hc.
  injection Hc as <- <-. apply bind_ok in Hrun as ([] & s2 & Hm & Hrun). apply wrap_ok in Hm.
  apply eb_take in Hm as (H2 & ma & Hma & Hm); [|by auto|done..]. apply eb_burn in Hrun as [H3 Hp]; [|done..].
  split; [done|]. intros a Ha. rewrite Hp, Hm by done.
  rewrite (decide_False (P := a = ma)); [lia|]. intros ->. by eapply eb_evm_module.
Qed.
End bank.
