(* ===== verification/PreciseBankEvm.v ===== *)
(** x/precisebank as the bank of the EVM: the instance of the interface of
    [Wrappers] and the proof of its promises. *)
From S2P Require Import Prelude KVStore Sdk EvmConfig PreciseBank PreciseBankInv PreciseBankOps.
From S2P Require Import PreciseBankSpec PreciseBankCoins PreciseBankThms Wrappers.

Section evm.
Context `{CoinsLib, !CoinsLaws, !BankKeeper, !AccountKeeper, !BankLaws} `{AddressCodec, !AddressLaws}.
Variable info : EvmCoinInfo.
Variable reserve : addr.
Hypothesis Hwired : wired info reserve.
Implicit Types s : pb_state.

Abbreviation ext := (ExtendedCoinDenom info).
Abbreviation int := (IntegerCoinDenom info).
Abbreviation cf := (CF info).

Definition PreciseEvmBank : EvmBank := {|
  EB := pb_state;
  eb_GetBalance := GetBalance info;
  eb_SpendableCoin := SpendableCoin info;
  eb_MintCoins := MintCoins info;
  eb_BurnCoins := BurnCoins info;
  eb_SendCoinsFromAccountToModule := SendCoinsFromAccountToModule info;
  eb_SendCoinsFromModuleToAccount := SendCoinsFromModuleToAccount info;
|}.

(** The accounts that never have locked coins. *)
Variable unlocked : addr -> Prop.
Definition unlocked_ok s : Prop := forall a, unlocked a -> bk_locked (pb_bank s) a int = 0.
Definition evm_ok s : Prop := pb_inv info reserve s /\ unlocked_ok s.
Definition plain (a : addr) : Prop :=
  unlocked a /\ a <> reserve /\ ak_module_address EvmModuleName <> Some a.

Lemma info_ok : info_valid info.
Proof. apply Hwired. Qed.
Lemma reserve_ok : ak_module_address ModuleName = Some reserve.
Proof. apply Hwired. Qed.
Lemma evm_not_reserve a : ak_module_address EvmModuleName = Some a -> a <> reserve.
Proof. intros Ha ->. by apply (w_distinct _ _ Hwired) in Ha. Qed.
(** The modules the EVM pays from or to are not the reserve. *)
Lemma open_module m a :
  m = EvmModuleName \/ m = FeeCollector -> ak_module_address m = Some a -> a <> reserve /\ m <> ModuleName.
Proof. intros Hm Ha. split; [intros ->; apply (w_distinct _ _ Hwired) in Ha; by destruct Hm; subst|by destruct Hm; subst]. Qed.

(** One extended coin leaves nothing for x/bank itself. *)
Lemma split_one n s sp s' :
  0 < n -> split_extended info [Coin ext n] s = (Ok sp, s') -> s' = s /\ sp = ([], n).
Proof.
  intros Hn Hr. assert (denom_ok ext = true) as Hd by apply info_ok.
  apply split_extended_ok in Hr as (-> & He & Hv & Hp); [|by apply valid_one]. split; [done|].
  destruct sp as [p m]. simpl in *. rewrite amount_of_one, decide_True in He by done. subst m. f_equal.
  rewrite (coins_single p ext Hv).
  - by rewrite Hp; unfold pass_amount; rewrite decide_True by done.
  - intros d' Hd'. rewrite Hp. unfold pass_amount. rewrite decide_False by congruence.
    rewrite amount_of_one. by rewrite decide_False by congruence.
Qed.

Lemma send_one from to n s s' :
  evm_ok s -> 0 < n -> from <> reserve -> to <> reserve ->
  SendCoins info from to [Coin ext n] s = (Ok tt, s') ->
  evm_ok s' /\ abs info reserve s' ≡l l_transfer from to n (abs info reserve s).
Proof.
  intros [Hi Hu] Hn Hf Ht Hr. unfold SendCoins in Hr. rewrite valid_one in Hr; [|apply info_ok|done].
  cbn [negb] in Hr. apply bind_ok in Hr as (sp & s0 & Hsp & Hr). apply split_one in Hsp as [-> ->]; [|done].
  simpl in Hr. apply bind_ok in Hr as (u & s1 & [= <- <-] & Hr).
  apply bind_ok in Hr as (u2 & s2 & Hx & Hr). destruct (Z.ltb_spec 0 n); [|lia].
  apply (send_refines info reserve) in Hx as (Hi2 & Ha2 & (_ & _ & Hl) & _);
    [|apply info_ok|apply reserve_ok|done|lia|done|done].
  apply emission_framed in Hr as [Hk Hb]. split.
  - split; [by apply (framed_inv info reserve s2)|]. intros a Ha. rewrite Hb, Hl. by apply Hu.
  - by rewrite (framed_abs info reserve s2) by done.
Qed.

Lemma mint_one m a ps n s s' :
  evm_ok s -> 0 < n -> ak_module_account m = Some (a, ps) -> a <> reserve ->
  MintCoins info m [Coin ext n] s = (Ok tt, s') ->
  evm_ok s' /\ abs info reserve s' ≡l l_issue a n (abs info reserve s).
Proof.
  intros [Hi Hu] Hn Hm Ha Hr. unfold MintCoins in Hr. rewrite Hm in Hr.
  case_bool_decide; [run_inv|]. destruct (negb (bool_decide _)); [run_inv|].
  rewrite valid_one in Hr; [|apply info_ok|done].
  cbn [negb] in Hr. apply bind_ok in Hr as (sp & s0 & Hsp & Hr). apply split_one in Hsp as [-> ->]; [|done].
  simpl in Hr. apply bind_ok in Hr as (u & s1 & [= <- <-] & Hr).
  apply bind_ok in Hr as (u2 & s2 & Hx & Hr). destruct (Z.ltb_spec 0 n); [|lia].
  apply (mint_refines info reserve info_ok reserve_ok m a) in Hx as (Hi2 & Ha2 & (_ & _ & Hl) & _);
    [|done|lia|by eapply auth_module_account|done].
  apply emission_framed in Hr as [Hk Hb]. split.
  - split; [by apply (framed_inv info reserve s2)|]. intros b Hb'. rewrite Hb, Hl. by apply Hu.
  - by rewrite (framed_abs info reserve s2) by done.
Qed.

Lemma burn_one m a ps n s s' :
  evm_ok s -> 0 < n -> ak_module_account m = Some (a, ps) -> a <> reserve ->
  BurnCoins info m [Coin ext n] s = (Ok tt, s') ->
  evm_ok s' /\ abs info reserve s' ≡l l_issue a (- n) (abs info reserve s).
Proof.
  intros [Hi Hu] Hn Hm Ha Hr. unfold BurnCoins in Hr. rewrite Hm in Hr.
  case_bool_decide; [run_inv|]. destruct (negb (bool_decide _)); [run_inv|].
  rewrite valid_one in Hr; [|apply info_ok|done].
  cbn [negb] in Hr. apply bind_ok in Hr as (sp & s0 & Hsp & Hr). apply split_one in Hsp as [-> ->]; [|done].
  simpl in Hr. apply bind_ok in Hr as (u & s1 & [= <- <-] & Hr).
  apply bind_ok in Hr as (u2 & s2 & Hx & Hr). destruct (Z.ltb_spec 0 n); [|lia].
  apply (burn_refines info reserve info_ok reserve_ok m a) in Hx as (Hi2 & Ha2 & (_ & _ & Hl) & _);
    [|done|lia|by eapply auth_module_account|done].
  apply emission_framed in Hr as [Hk Hb]. split.
  - split; [by apply (framed_inv info reserve s2)|]. intros b Hb'. rewrite Hb, Hl. by apply Hu.
  - by rewrite (framed_abs info reserve s2) by done.
Qed.

(** What an account without locked coins may spend is its ledger balance. *)
Lemma spendable_is s a :
  evm_ok s -> plain a ->
  SpendableCoin info s a ext =
    if abs_balance info reserve s a <? 2 ^ 256 then Ok (Coin ext (abs_balance info reserve s a))
    else Panic "Int overflow".
Proof.
  intros [[Hwf Hback] Hu] (Hun & Hne & _). unfold SpendableCoin, reserve_is. rewrite reserve_ok.
  change (default [] (Some reserve)) with reserve. rewrite (bool_decide_true (ext = ext)) by done.
  rewrite (bool_decide_false (reserve = a)) by congruence. simpl.
  unfold abs_balance. rewrite decide_False by done.
  rewrite bank_spendable, (Hu a Hun). pose proof (bank_nonneg (pb_bank s) a int) as Hb.
  replace (Z.max 0 (bk_balance (pb_bank s) a int - 0)) with (bk_balance (pb_bank s) a int) by lia.
  pose proof (cf_small info info_ok) as Hcf. pose proof (kv_wf_frac cf (pb_kv s) a ltac:(lia) Hwf) as Hfr.
  change (GetFractionalBalance s a) with (get_frac (pb_kv s) a).
  unfold int_mul, int_add, int_chk, int_fits. rewrite !Z.abs_eq by nia.
  destruct (Z.ltb_spec (bk_balance (pb_bank s) a int * cf + get_frac (pb_kv s) a) (2 ^ 256)) as [Hlt|Hge].
  - destruct (Z.ltb_spec (bk_balance (pb_bank s) a int * cf) (2 ^ 256)); [|lia]. simpl.
    rewrite Z.abs_eq by nia. rewrite (proj2 (Z.ltb_lt _ _) Hlt). simpl. apply new_coin_run; [apply info_ok|nia].
  - destruct (Z.ltb_spec (bk_balance (pb_bank s) a int * cf) (2 ^ 256)); [|done]. simpl.
    rewrite Z.abs_eq by nia. by rewrite (proj2 (Z.ltb_ge _ _) Hge).
Qed.

Lemma plain_not_evm a b : plain a -> ak_module_address EvmModuleName = Some b -> a <> b.
Proof. intros (_ & _ & Hne) Hb ->. done. Qed.

#[export] Instance PreciseEvmBankLaws : @EvmBankLaws PreciseEvmBank info.
Proof.
  refine (@Build_EvmBankLaws PreciseEvmBank info evm_ok plain (abs_balance info reserve) _ _ _ _ ak_module_address _ _ _); simpl.
  - intros s a [[Hwf _] _] _. unfold abs_balance. case_decide; [done|].
    pose proof (cf_small info info_ok). pose proof (kv_wf_frac cf (pb_kv s) a ltac:(lia) Hwf).
    pose proof (bank_nonneg (pb_bank s) a int). nia.
  - intros s a Hs Ha. by apply spendable_is.
  - intros n s s' Hs Hn Hr. pose proof Hr as Hr'. unfold MintCoins in Hr'. rewrite bool_decide_false in Hr' by done.
    destruct (ak_module_account EvmModuleName) as [[b ps]|] eqn:Hm; [|run_inv]. clear Hr'.
    pose proof (auth_module_account _ _ _ Hm) as Hb.
    destruct (mint_one _ _ _ _ _ _ Hs Hn Hm (evm_not_reserve _ Hb) Hr) as [Hs' [Ha _]]. split; [done|].
    intros a Hpa. specialize (Ha a). simpl in Ha. rewrite Ha, decide_False; [lia|]. by eapply plain_not_evm.
  - intros n s s' Hs Hn Hr. pose proof Hr as Hr'. unfold BurnCoins in Hr'. rewrite bool_decide_false in Hr' by done.
    destruct (ak_module_account EvmModuleName) as [[b ps]|] eqn:Hm; [|run_inv]. clear Hr'.
    pose proof (auth_module_account _ _ _ Hm) as Hb.
    destruct (burn_one _ _ _ _ _ _ Hs Hn Hm (evm_not_reserve _ Hb) Hr) as [Hs' [Ha _]]. split; [done|].
    intros a Hpa. specialize (Ha a). simpl in Ha. rewrite Ha, decide_False; [lia|]. by eapply plain_not_evm.
  - intros a Ha (_ & _ & Hne). done.
  - intros m n to s s' Hm Hs Hn Hr. unfold SendCoinsFromModuleToAccount in Hr.
    destruct (ak_module_address m) as [b|] eqn:Hb; [|run_inv]. destruct (open_module m b Hm Hb) as [Hbr Hne].
    rewrite bool_decide_false in Hr by done. destruct (bk_blocked to) eqn:Hbl; [run_inv|].
    assert (to <> reserve) as Ht by (intros ->; by rewrite (w_blocked _ _ Hwired) in Hbl).
    destruct (send_one _ _ _ _ _ Hs Hn Hbr Ht Hr) as [Hs' [Ha _]].
    split; [done|]. exists b. split; [done|]. intros a Hpa. specialize (Ha a). simpl in Ha. rewrite Ha. lia.
  - intros m n from s s' Hm Hs Hn Hsp Hr. unfold SendCoinsFromAccountToModule in Hr.
    destruct (ak_module_account m) as [[b ps]|] eqn:Hb; [|run_inv].
    pose proof (auth_module_account _ _ _ Hb) as Hb'. destruct (open_module m b Hm Hb') as [Hbr Hne].
    rewrite bool_decide_false in Hr by done.
    assert (from <> reserve) as Hf.
    { intros ->. apply Hsp. unfold SpendableCoin, reserve_is. rewrite reserve_ok, !bool_decide_true by done.
      simpl. apply new_coin_run; [apply info_ok|done]. }
    destruct (send_one _ _ _ _ _ Hs Hn Hf Hbr Hr) as [Hs' [Ha _]].
    split; [done|]. exists b. split; [done|]. intros a Hpa. specialize (Ha a). simpl in Ha. rewrite Ha. lia.
Defined.
End evm.
