(* ===== verification/VmKeeper.v ===== *)
(** x/vm/keeper: the storage behind the state database ([keeper/statedb.go],
    the account section of [keeper/keeper.go], [keeper/utils.go], the keys of
    [types/key.go]).

    The state is the module's key-value store, the accounts of x/auth and the
    bank behind the bank wrapper.  x/auth is a class with its documented laws;
    the bank is the interface of [Wrappers]. *)
From S2P Require Import Prelude KVStore Sdk EvmConfig StateDB StateDBInv StateDBType StateDBCommit Wrappers.

(** * The account keeper of the EVM ([types.AccountKeeper]) *)

Class EvmAccounts := {
  AK : Type;
  acct : Type;
  ea_address : acct -> addr;
  ea_sequence : acct -> Z;
  ea_SetSequence : Z -> acct -> res acct;
  ea_NewBaseAccount : acct -> acct;       (** [NewBaseAccount] with its key, number and sequence *)
  ea_GetAccount : AK -> addr -> option acct;
  ea_NewAccountWithAddress : addr -> AK -> acct * AK;
  ea_SetAccount : acct -> AK -> AK;
  ea_RemoveAccount : acct -> AK -> AK;
}.

Class EvmAccountsLaws `{EvmAccounts} := {
  ea_set_sequence : forall n x y, ea_SetSequence n x = Ok y -> ea_address y = ea_address x /\ ea_sequence y = n;
  ea_base : forall x, ea_address (ea_NewBaseAccount x) = ea_address x;
  ea_sequence_u64 : forall k a x, ea_GetAccount k a = Some x -> 0 <= ea_sequence x < 2 ^ 64;
  ea_get_address : forall k a x, ea_GetAccount k a = Some x -> ea_address x = a;
  ea_new : forall a k, ea_address (ea_NewAccountWithAddress a k).1 = a /\
    forall b, ea_GetAccount (ea_NewAccountWithAddress a k).2 b = ea_GetAccount k b;
  ea_new_sequence : forall a k, ea_sequence (ea_NewAccountWithAddress a k).1 = 0;
  ea_get_set : forall x k b, ea_GetAccount (ea_SetAccount x k) b =
    if decide (b = ea_address x) then Some x else ea_GetAccount k b;
  ea_get_remove : forall x k b, ea_GetAccount (ea_RemoveAccount x k) b =
    if decide (b = ea_address x) then None else ea_GetAccount k b;
}.

(** * Keys ([types/key.go]) *)

Definition KeyPrefixCode : bytes := [1].
Definition KeyPrefixStorage : bytes := [2].
Definition KeyPrefixCodeHash : bytes := [4].

(** [common.Address.Bytes]; the same bytes are the Cosmos address. *)
Definition address_bytes (a : Z) : bytes := be 20 a.
Definition AddressStoragePrefix (a : Z) : bytes := KeyPrefixStorage ++ address_bytes a.
Definition StateKey (a : Z) (key : bytes) : bytes := AddressStoragePrefix a ++ key.

(** [common.BytesToHash]: the last 32 bytes. *)
Definition BytesToHash (b : bytes) : Z := be_decode 0 (drop (length b - 32) b).
Definition BytesToAddress (b : bytes) : Z := be_decode 0 (drop (length b - 20) b).

Section keeper.
Context `{Keccak, EvmAccounts, EvmBank}.
Variable info : EvmCoinInfo.

Record vm_state := mkVm { vm_kv : gmap bytes bytes; vm_accounts : AK; vm_bank : EB }.

Definition on_kv (f : gmap bytes bytes -> gmap bytes bytes) (s : vm_state) : vm_state :=
  mkVm (f (vm_kv s)) (vm_accounts s) (vm_bank s).
Definition on_accounts (f : AK -> AK) (s : vm_state) : vm_state :=
  mkVm (vm_kv s) (f (vm_accounts s)) (vm_bank s).
Definition with_bank {A} (m : M EB A) : M vm_state A :=
  zoom vm_bank (fun b s => mkVm (vm_kv s) (vm_accounts s) b) m.

(** ** Reads *)

Definition vm_GetState (s : vm_state) (a key : Z) : Z :=
  let value := default [] (vm_kv s !! StateKey a (hash_bytes key)) in
  if (length value =? 0)%nat then 0 else BytesToHash value.
Definition GetFastState (s : vm_state) (a key : Z) : option bytes :=
  vm_kv s !! StateKey a (hash_bytes key).
Definition vm_GetCodeHash (s : vm_state) (a : Z) : Z :=
  let bz := default [] (vm_kv s !! (KeyPrefixCodeHash ++ address_bytes a)) in
  if (length bz =? 0)%nat then EmptyCodeHash else BytesToHash bz.
Definition vm_GetCode (s : vm_state) (h : Z) : option bytes := vm_kv s !! (KeyPrefixCode ++ hash_bytes h).
Definition vm_ForEachStorage (s : vm_state) (a : Z) : list (Z * Z) :=
  map (fun kv => (BytesToHash kv.1, BytesToHash kv.2)) (iterate (AddressStoragePrefix a) (vm_kv s)).
Definition IterateContracts (s : vm_state) : list (Z * Z) :=
  map (fun kv => (BytesToAddress kv.1, BytesToHash kv.2)) (iterate KeyPrefixCodeHash (vm_kv s)).
Definition vm_IsContract (s : vm_state) (a : Z) : bool :=
  bool_decide (is_Some (vm_kv s !! (KeyPrefixCodeHash ++ address_bytes a))).

(** [utils.Uint256FromBigInt]; nil when it returns an error. *)
Definition Uint256FromBigInt (i : Z) : option Z :=
  if (i <? 0) || (2 ^ 256 <=? i) then None else Some i.

Definition vm_SpendableCoin (s : vm_state) (a : Z) : res (option Z) :=
  let? c := wrapper_SpendableCoin info (vm_bank s) (address_bytes a) (Denom info) in
  Ok (Uint256FromBigInt (c_amt c)).
Definition vm_GetBalance (s : vm_state) (a : Z) : res (option Z) :=
  let? c := wrapper_GetBalance info (vm_bank s) (address_bytes a) (Denom info) in
  Ok (Uint256FromBigInt (c_amt c)).

Definition GetAccountWithoutBalance (s : vm_state) (a : Z) : option Account :=
  match ea_GetAccount (vm_accounts s) (address_bytes a) with
  | None => None
  | Some x => Some (mkAccount (ea_sequence x) None (Some (vm_GetCodeHash s a)))
  end.

(** The left side carries the message of a panic. *)
Definition vm_GetAccount (s : vm_state) (a : Z) : string + option Account :=
  match GetAccountWithoutBalance s a with
  | None => inr None
  | Some acct =>
      match vm_SpendableCoin s a with
      | Ok b => inr (Some (mkAccount (Nonce acct) b (CodeHash acct)))
      | Panic p => inl p
      | Err e => inl (e_msg e)
      end
  end.
Definition GetAccountOrEmpty (s : vm_state) (a : Z) : string + Account :=
  match vm_GetAccount s a with
  | inl p => inl p
  | inr (Some acct) => inr acct
  | inr None => inr (mkAccount 0 (Some 0) (Some EmptyCodeHash))
  end.
Definition vm_GetNonce (s : vm_state) (a : Z) : Z :=
  match ea_GetAccount (vm_accounts s) (address_bytes a) with
  | None => 0
  | Some x => ea_sequence x
  end.

(** ** Writes *)

Definition vm_SetState (a key : Z) (value : bytes) : vm_state -> vm_state :=
  on_kv (<[StateKey a (hash_bytes key) := value]>).
Definition vm_DeleteState (a key : Z) : vm_state -> vm_state :=
  on_kv (delete (StateKey a (hash_bytes key))).
Definition SetCodeHash (addrBytes hashBytes : bytes) : vm_state -> vm_state :=
  on_kv (<[KeyPrefixCodeHash ++ addrBytes := hashBytes]>).
Definition DeleteCodeHash (a : Z) : vm_state -> vm_state :=
  on_kv (delete (KeyPrefixCodeHash ++ address_bytes a)).
Definition vm_SetCode (h : Z) (code : bytes) : vm_state -> vm_state :=
  on_kv (<[KeyPrefixCode ++ hash_bytes h := code]>).
Definition vm_DeleteCode (h : Z) : vm_state -> vm_state :=
  on_kv (delete (KeyPrefixCode ++ hash_bytes h)).

Definition vm_SetBalance (a : Z) (amount : option Z) : M vm_state unit :=
  match amount with
  | None => ret tt
  | Some amount =>
      let cosmosAddr := address_bytes a in
      let! s := gets (fun s => s) in
      let! coin := lift (wrapper_SpendableCoin info (vm_bank s) cosmosAddr (Denom info)) in
      let delta := amount - c_amt coin in
      if 0 <? delta then with_bank (MintAmountToAccount info cosmosAddr delta)
      else if delta <? 0 then with_bank (BurnAmountFromAccount info cosmosAddr (- delta))
      else ret tt
  end.

(** A store refuses a nil value. *)
Definition vm_SetAccount (a : Z) (account : Account) : M vm_state unit :=
  let! s := gets (fun s => s) in
  let '(x, accounts) :=
    match ea_GetAccount (vm_accounts s) (address_bytes a) with
    | Some x => (x, vm_accounts s)
    | None => ea_NewAccountWithAddress (address_bytes a) (vm_accounts s)
    end in
  do! modify (on_accounts (fun _ => accounts));
  let! x := lift (ea_SetSequence (Nonce account) x) in
  do! (match CodeHash account with
       | None => panic "value is nil"
       | Some h =>
           if IsEmptyCodeHash h then modify (DeleteCodeHash a)
           else modify (SetCodeHash (address_bytes a) (hash_bytes h))
       end);
  do! modify (on_accounts (ea_SetAccount x));
  vm_SetBalance a (Balance account).

Definition vm_DeleteAccount (a : Z) : M vm_state unit :=
  let! s := gets (fun s => s) in
  match ea_GetAccount (vm_accounts s) (address_bytes a) with
  | None => ret tt
  | Some x =>
      if negb (vm_IsContract s a) then fail ErrOther "only smart contracts can be self-destructed"
      else
        do! modify (on_accounts (ea_SetAccount (ea_NewBaseAccount x)));
        do! vm_SetBalance a (Some 0);
        let! s := gets (fun s => s) in
        do! modify (fun s' => foldl (fun s' kv => vm_DeleteState a kv.1 s') s' (vm_ForEachStorage s a));
        do! modify (DeleteCodeHash a);
        modify (on_accounts (ea_RemoveAccount x))
  end.

Definition VmStateKeeper : StateKeeper := {|
  KS := vm_state;
  k_GetAccount := vm_GetAccount;
  k_GetState := vm_GetState;
  k_GetCode := vm_GetCode;
  k_ForEachStorage := vm_ForEachStorage;
  k_SetAccount := vm_SetAccount;
  k_DeleteState := vm_DeleteState;
  k_SetState := vm_SetState;
  k_DeleteCode := vm_DeleteCode;
  k_SetCode := vm_SetCode;
  k_DeleteAccount := vm_DeleteAccount;
|}.
End keeper.
