(* ===== verification/VmKeeperThms.v ===== *)
(** The EVM keeper implements the storage the state database expects: its keys
    do not meet, its balances are the ledger balances of the bank, and a commit
    of the database moves exactly those. *)
From S2P Require Import Prelude KVStore Sdk EvmConfig StateDB StateDBInv StateDBRun StateDBType StateDBCommit.
From S2P Require Import Wrappers VmKeeper.

(** * Bytes *)

Lemma be_decode_bound l : is_bytes l -> 0 <= be_decode 0 l < 256 ^ Z.of_nat (length l).
Proof.
  induction l as [|b l IH] using rev_ind; intros Hl; [done|].
  apply Forall_app in Hl as [Hl Hb]. apply Forall_cons in Hb as [Hb _]. specialize (IH Hl).
  rewrite be_decode_app, length_app, Nat2Z.inj_add. simpl length. rewrite Z.pow_add_r by lia.
  change (256 ^ Z.of_nat 1) with 256. nia.
Qed.

Lemma BytesToHash_typed l : is_bytes l -> u256 (BytesToHash l).
Proof.
  intros Hl. unfold BytesToHash, u256. set (t := drop (length l - 32) l).
  assert (is_bytes t) as Ht by by apply Forall_drop.
  pose proof (be_decode_bound t Ht) as Hb. split; [lia|].
  assert (length t <= 32)%nat as Hlen by (unfold t; rewrite length_drop; lia).
  eapply Z.lt_le_trans; [apply Hb|]. change (2 ^ 256) with (256 ^ 32). apply Z.pow_le_mono_r; lia.
Qed.

Lemma hash_bytes_length v : length (hash_bytes v) = 32%nat.
Proof. apply be_length. Qed.

Lemma hash_bytes_bytes v : is_bytes (hash_bytes v).
Proof. apply be_bytes. Qed.

Lemma BytesToHash_be v : u256 v -> BytesToHash (hash_bytes v) = v.
Proof.
  intros Hv. unfold BytesToHash, hash_bytes. rewrite be_length, Nat.sub_diag, drop_0.
  by apply be_roundtrip.
Qed.

(** [BytesToHash] of a full storage key is the word it ends in. *)
Lemma BytesToHash_suffix p v : u256 v -> BytesToHash (p ++ hash_bytes v) = v.
Proof.
  intros Hv. rewrite <- (BytesToHash_be v Hv) at 2. unfold BytesToHash, hash_bytes.
  rewrite length_app, be_length, Nat.sub_diag, drop_0.
  replace (length p + 32 - 32)%nat with (length p) by lia. by rewrite drop_app_length.
Qed.

Lemma address_bytes_inj a b : u160 a -> u160 b -> address_bytes a = address_bytes b -> a = b.
Proof. intros Ha Hb. apply (be_inj 20); done. Qed.

Lemma hash_bytes_inj a b : u256 a -> u256 b -> hash_bytes a = hash_bytes b -> a = b.
Proof. intros Ha Hb. apply (be_inj 32); done. Qed.

Lemma StateKey_inj a b x y :
  u160 a -> u160 b -> length x = length y -> StateKey a x = StateKey b y -> a = b /\ x = y.
Proof.
  intros Ha Hb Hl Hk. unfold StateKey, AddressStoragePrefix in Hk.
  apply app_inj_2 in Hk as [Hk ->]; [|done]. apply app_inj_1 in Hk as [_ Hk]; [|done]. split; [|done].
  by apply address_bytes_inj.
Qed.

Lemma state_code_key a x y : StateKey a x <> KeyPrefixCode ++ y.
Proof. done. Qed.
Lemma state_codehash_key a x y : StateKey a x <> KeyPrefixCodeHash ++ y.
Proof. done. Qed.
Lemma code_codehash_key x y : KeyPrefixCode ++ x <> KeyPrefixCodeHash ++ y.
Proof. done. Qed.

#[local] Opaque hash_bytes address_bytes.

Section thms.
Context `{Keccak, EvmAccounts, !EvmAccountsLaws, EvmBank}.
Variable info : EvmCoinInfo.
Context `{!EvmBankLaws info}.
Hypothesis Hkeccak : forall b, u256 (Keccak256Hash b).
Implicit Types (s : vm_state) (a b : Z).

(** * Balances *)

Lemma with_bank_ok {A} (m : M EB A) s x s' :
  with_bank m s = (Ok x, s') ->
  m (vm_bank s) = (Ok x, vm_bank s') /\ vm_kv s' = vm_kv s /\ vm_accounts s' = vm_accounts s.
Proof. unfold with_bank. intros (e & Hm & ->)%zoom_ok. done. Qed.

Lemma SetBalance_spec a amount s s' :
  eb_ok info (vm_bank s) -> 0 <= amount -> vm_SetBalance info a (Some amount) s = (Ok tt, s') ->
  eb_ok info (vm_bank s') /\ vm_kv s' = vm_kv s /\ vm_accounts s' = vm_accounts s /\
  forall b : bytes, eb_plain info b -> eb_balance info (vm_bank s') b =
    if decide (b = address_bytes a) then amount else eb_balance info (vm_bank s) b.
Proof.
  intros Hok Ha Hrun. unfold vm_SetBalance in Hrun. rewrite bind_gets in Hrun.
  apply bind_lift_ok in Hrun as (c & Hc & Hrun).
  unfold wrapper_SpendableCoin in Hc. rewrite bool_decide_true in Hc by done.
  assert (forall b : bytes, eb_plain info b -> b = address_bytes a ->
    eb_balance info (vm_bank s) b = c_amt c) as Hbal.
  { intros b Hb ->. rewrite (eb_spendable_is info) in Hc by done. destruct (_ <? 2 ^ 256); [|discriminate Hc]. by injection Hc as <-. }
  destruct (Z.ltb_spec 0 (amount - c_amt c)).
  - apply with_bank_ok in Hrun as (Hm & Hk & Hac). apply (mint_correct info) in Hm as [Hok' Hb]; [|done..].
    split_and!; [done..|]. intros b Hpb. rewrite Hb by done. case_decide as E; [|lia].
    rewrite (Hbal b Hpb E). lia.
  - destruct (Z.ltb_spec (amount - c_amt c) 0).
    + apply with_bank_ok in Hrun as (Hm & Hk & Hac).
      apply (burn_correct info) in Hm as [Hok' Hb]; [|done|lia|].
      * split_and!; [done..|]. intros b Hpb. rewrite Hb by done. case_decide as E; [|lia].
        rewrite (Hbal b Hpb E). lia.
      * rewrite Hc. intros [= Hz]. rewrite Hz in *. simpl in *. lia.
    + injection Hrun as <-. split_and!; [done..|]. intros b Hpb. case_decide as E; [|done].
      rewrite (Hbal b Hpb E). lia.
Qed.

(** * The interface of the state database *)

(** What the module store holds: words and hashes are bytes, and a storage key
    has its form. *)
Record kv_ok (kv : gmap bytes bytes) : Prop := {
  kv_bytes : map_Forall (fun k v => is_prefix KeyPrefixCode k = false -> is_bytes v) kv;
  kv_keys : map_Forall (fun k _ => is_prefix KeyPrefixStorage k = true ->
    exists a x, u160 a /\ u256 x /\ k = StateKey a (hash_bytes x)) kv;
}.
Definition vm_regular a : Prop := u160 a /\ eb_plain info (address_bytes a).
Definition vm_ok s : Prop := kv_ok (vm_kv s) /\ eb_ok info (vm_bank s).

Lemma kv_ok_insert kv k v :
  kv_ok kv -> (is_prefix KeyPrefixCode k = false -> is_bytes v) ->
  (is_prefix KeyPrefixStorage k = true -> exists a x, u160 a /\ u256 x /\ k = StateKey a (hash_bytes x)) ->
  kv_ok (<[k := v]> kv).
Proof. intros [Hb Hk] Hv Hkey. by constructor; apply map_Forall_insert_2. Qed.
Lemma kv_ok_delete kv k : kv_ok kv -> kv_ok (delete k kv).
Proof. intros [Hb Hk]. by constructor; apply map_Forall_delete. Qed.

Lemma GetState_bytes s a k : kv_ok (vm_kv s) -> u256 (vm_GetState s a k).
Proof.
  intros [Hb _]. unfold vm_GetState. destruct (vm_kv s !! _) as [v|] eqn:E; simpl; [|by split].
  destruct (length v =? 0)%nat; [by split|]. apply BytesToHash_typed. by apply (Hb _ _ E).
Qed.

Lemma GetCodeHash_bytes s a : kv_ok (vm_kv s) -> u256 (vm_GetCodeHash s a).
Proof.
  intros [Hb _]. unfold vm_GetCodeHash. destruct (vm_kv s !! _) as [v|] eqn:E; simpl; [|apply Hkeccak].
  destruct (length v =? 0)%nat; [apply Hkeccak|]. apply BytesToHash_typed. by apply (Hb _ _ E).
Qed.

(** The answers of the keeper depend on the account, the code hash and the
    balance only. *)
Lemma GetAccount_cong s s' a :
  eb_ok info (vm_bank s) -> eb_ok info (vm_bank s') -> eb_plain info (address_bytes a) ->
  ea_GetAccount (vm_accounts s') (address_bytes a) = ea_GetAccount (vm_accounts s) (address_bytes a) ->
  vm_GetCodeHash s' a = vm_GetCodeHash s a ->
  eb_balance info (vm_bank s') (address_bytes a) = eb_balance info (vm_bank s) (address_bytes a) ->
  vm_GetAccount info s' a = vm_GetAccount info s a.
Proof.
  intros Hs Hs' Hp Ha Hc Hb. unfold vm_GetAccount, GetAccountWithoutBalance, vm_SpendableCoin,
    wrapper_SpendableCoin. rewrite Ha, Hc, bool_decide_true, !(eb_spendable_is info) by done. by rewrite Hb.
Qed.

Lemma GetAccount_is s a x bal :
  eb_ok info (vm_bank s) -> eb_plain info (address_bytes a) -> u256 bal ->
  ea_GetAccount (vm_accounts s) (address_bytes a) = Some x ->
  eb_balance info (vm_bank s) (address_bytes a) = bal ->
  vm_GetAccount info s a = inr (Some (mkAccount (ea_sequence x) (Some bal) (Some (vm_GetCodeHash s a)))).
Proof.
  intros Hs Hp Hbal Hx Hb. unfold vm_GetAccount, GetAccountWithoutBalance, vm_SpendableCoin,
    wrapper_SpendableCoin. rewrite Hx, bool_decide_true, (eb_spendable_is info), Hb by done.
  destruct Hbal as [Hb0 Hb1]. rewrite (proj2 (Z.ltb_lt _ _) Hb1). simpl. unfold Uint256FromBigInt. simpl.
  rewrite (proj2 (Z.ltb_ge bal 0)), (proj2 (Z.leb_gt _ _)) by done. done.
Qed.

(** What a store change does to the reads. *)
Lemma state_insert s a k v b j :
  u160 a -> u160 b -> u256 k -> u256 j -> u256 v ->
  vm_GetState (vm_SetState a k (hash_bytes v) s) b j =
    if decide (b = a /\ j = k) then v else vm_GetState s b j.
Proof.
  intros Ha Hb Hk Hj Hv. unfold vm_GetState, vm_SetState. simpl. case_decide as E.
  - destruct E as [-> ->]. rewrite lookup_insert_eq. simpl. rewrite hash_bytes_length. simpl.
    by apply BytesToHash_be.
  - rewrite lookup_insert_ne; [done|]. intros Hkey.
    apply StateKey_inj in Hkey as [-> Hh]; [|done|done|by rewrite !hash_bytes_length].
    apply hash_bytes_inj in Hh as ->; [|done..]. by destruct E.
Qed.

Lemma codehash_frame s s' a :
  vm_kv s' !! (KeyPrefixCodeHash ++ address_bytes a) = vm_kv s !! (KeyPrefixCodeHash ++ address_bytes a) ->
  vm_GetCodeHash s' a = vm_GetCodeHash s a.
Proof. intros Hk. unfold vm_GetCodeHash. by rewrite Hk. Qed.

Lemma state_frame s s' a k :
  vm_kv s' !! StateKey a (hash_bytes k) = vm_kv s !! StateKey a (hash_bytes k) ->
  vm_GetState s' a k = vm_GetState s a k.
Proof. intros Hk. unfold vm_GetState. by rewrite Hk. Qed.

(** ** SetAccount *)

Definition code_written a (h : Z) (kv : gmap bytes bytes) : gmap bytes bytes :=
  if IsEmptyCodeHash h then delete (KeyPrefixCodeHash ++ address_bytes a) kv
  else <[KeyPrefixCodeHash ++ address_bytes a := hash_bytes h]> kv.

Lemma SetAccount_run a n bal h s s' :
  vm_SetAccount info a (mkAccount n (Some bal) (Some h)) s = (Ok tt, s') ->
  exists y s1, ea_address y = address_bytes a /\ ea_sequence y = n /\
    vm_kv s1 = code_written a h (vm_kv s) /\ vm_bank s1 = vm_bank s /\
    (forall b : bytes, ea_GetAccount (vm_accounts s1) b =
      if decide (b = address_bytes a) then Some y else ea_GetAccount (vm_accounts s) b) /\
    vm_SetBalance info a (Some bal) s1 = (Ok tt, s').
Proof.
  unfold vm_SetAccount. rewrite bind_gets. intros Hrun.
  destruct (match ea_GetAccount (vm_accounts s) (address_bytes a) with
    | Some x => (x, vm_accounts s)
    | None => ea_NewAccountWithAddress (address_bytes a) (vm_accounts s)
    end) as [x acs] eqn:Hx.
  assert (ea_address x = address_bytes a /\
    forall b : bytes, ea_GetAccount acs b = ea_GetAccount (vm_accounts s) b) as [Hxa Hacs].
  { destruct (ea_GetAccount (vm_accounts s) (address_bytes a)) as [x0|] eqn:E.
    - injection Hx as <- <-. split; [by eapply ea_get_address|done].
    - destruct (ea_new (address_bytes a) (vm_accounts s)) as [E1 E2]. rewrite Hx in E1, E2. done. }
  apply bind_ok in Hrun as ([] & s1 & [= <-] & Hrun).
  apply bind_lift_ok in Hrun as (y & Hy & Hrun). simpl in Hy. apply ea_set_sequence in Hy as [Hya Hyn].
  apply bind_ok in Hrun as ([] & s2 & Hcode & Hrun). apply bind_ok in Hrun as ([] & s3 & [= <-] & Hrun).
  simpl in Hcode, Hrun. eexists y, _. split; [congruence|]. split; [done|].
  split_and!; [| | |exact Hrun]; unfold code_written;
    destruct (IsEmptyCodeHash h); injection Hcode as <-; simpl; try done;
    intros b; rewrite ea_get_set, Hya, Hxa, Hacs; done.
Qed.

Lemma codehash_written_same a h s :
  u256 h -> vm_GetCodeHash (mkVm (code_written a h (vm_kv s)) (vm_accounts s) (vm_bank s)) a = h.
Proof.
  intros Hh. unfold vm_GetCodeHash, code_written, IsEmptyCodeHash. simpl.
  destruct (Z.eqb_spec h EmptyCodeHash) as [->|Hne].
  - by rewrite lookup_delete_eq.
  - rewrite lookup_insert_eq. simpl. rewrite hash_bytes_length. simpl. by apply BytesToHash_be.
Qed.

Lemma code_written_other a h kv k :
  k <> KeyPrefixCodeHash ++ address_bytes a -> code_written a h kv !! k = kv !! k.
Proof.
  intros Hne. unfold code_written. destruct (IsEmptyCodeHash h); [by rewrite lookup_delete_ne|by rewrite lookup_insert_ne].
Qed.

Lemma code_written_ok a h kv : kv_ok kv -> kv_ok (code_written a h kv).
Proof.
  intros Hkv. unfold code_written. destruct (IsEmptyCodeHash h); [by apply kv_ok_delete|].
  apply kv_ok_insert; [done|intros; apply hash_bytes_bytes|]. done.
Qed.

Lemma codehash_key_inj a b :
  u160 a -> u160 b -> KeyPrefixCodeHash ++ address_bytes a = KeyPrefixCodeHash ++ address_bytes b -> a = b.
Proof. intros Ha Hb Hk. apply app_inj_1 in Hk as [_ Hk]; [|done]. by apply address_bytes_inj. Qed.

Lemma vm_SetAccount_law a n bal h s s' :
  vm_ok s -> u160 a -> u64 n -> u256 bal -> u256 h ->
  vm_SetAccount info a (mkAccount n (Some bal) (Some h)) s = (Ok tt, s') ->
  vm_ok s' /\
  (vm_regular a -> vm_GetAccount info s' a = inr (Some (mkAccount n (Some bal) (Some h)))) /\
  (forall b, b <> a -> vm_regular b -> vm_GetAccount info s' b = vm_GetAccount info s b) /\
  (forall b k, vm_GetState s' b k = vm_GetState s b k).
Proof.
  intros [Hkv Hb] Ha Hn Hbal Hh Hrun.
  apply SetAccount_run in Hrun as (y & s1 & Hya & Hyn & Hk1 & Hb1 & Hacs & Hset).
  apply SetBalance_spec in Hset as (Hb' & Hk' & Hac' & Hbs); [|by rewrite Hb1|apply Hbal].
  split_and!; [| | |].
  - split; [|done]. rewrite Hk', Hk1. by apply code_written_ok.
  - intros [_ Hp]. rewrite (GetAccount_is s' a y bal); [|done|done|done| |].
    + rewrite Hyn. do 4 f_equal. etrans; [|apply (codehash_written_same a h s Hh)].
      apply codehash_frame. simpl. by rewrite Hk', Hk1.
    + rewrite Hac', Hacs. by rewrite decide_True.
    + rewrite Hbs by done. by rewrite decide_True.
  - intros b Hne [Hb160 Hp]. assert (address_bytes b <> address_bytes a) as Hab
      by (intros E; by apply address_bytes_inj in E).
    apply GetAccount_cong; [done|done|done| | |].
    + by rewrite Hac', Hacs, decide_False.
    + apply codehash_frame. rewrite Hk', Hk1. apply code_written_other.
      intros E. by apply codehash_key_inj in E.
    + rewrite Hbs, decide_False by done. by rewrite Hb1.
  - intros b k. apply state_frame. rewrite Hk', Hk1. apply code_written_other. apply state_codehash_key.
Qed.

(** ** DeleteAccount *)

Lemma delete_states_kv a l s :
  vm_kv (foldl (fun s' kv => vm_DeleteState a (kv : Z * Z).1 s') s l) =
    foldl (fun m kv => delete (StateKey a (hash_bytes (kv : Z * Z).1)) m) (vm_kv s) l /\
  vm_accounts (foldl (fun s' kv => vm_DeleteState a (kv : Z * Z).1 s') s l) = vm_accounts s /\
  vm_bank (foldl (fun s' kv => vm_DeleteState a (kv : Z * Z).1 s') s l) = vm_bank s.
Proof.
  revert s. induction l as [|kv l IH]; intros s; [done|]. simpl.
  destruct (IH (vm_DeleteState a kv.1 s)) as (-> & -> & ->). done.
Qed.

Lemma delete_all_lookup {A} (f : A -> bytes) (l : list A) (m : gmap bytes bytes) k :
  foldl (fun m x => delete (f x) m) m l !! k = if decide (k ∈ map f l) then None else m !! k.
Proof.
  revert m. induction l as [|x l IH]; intros m; cbn [foldl map].
  { rewrite decide_False; [done|]. apply not_elem_of_nil. }
  rewrite IH. destruct (decide (k ∈ map f l)) as [Hin|Hin].
  - rewrite decide_True by by right. done.
  - destruct (decide (k = f x)) as [->|Hne].
    + rewrite lookup_delete_eq, decide_True by by left. done.
    + rewrite lookup_delete_ne by done. rewrite decide_False; [done|]. intros [?|?]%elem_of_cons; done.
Qed.

Lemma kv_ok_delete_all {A} (f : A -> bytes) (l : list A) kv :
  kv_ok kv -> kv_ok (foldl (fun m x => delete (f x) m) kv l).
Proof. revert kv. induction l as [|x l IH]; intros kv Hkv; [done|]. apply IH. by apply kv_ok_delete. Qed.

(** The storage keys an iteration collects are all those of the account. *)
Lemma storage_keys_complete s a k :
  kv_ok (vm_kv s) -> u160 a -> u256 k -> is_Some (vm_kv s !! StateKey a (hash_bytes k)) ->
  StateKey a (hash_bytes k) ∈
    map (fun kv => StateKey a (hash_bytes (kv : Z * Z).1)) (vm_ForEachStorage s a).
Proof.
  intros Hkv Ha Hk [v Hv]. unfold vm_ForEachStorage. rewrite map_map. apply list_elem_of_fmap.
  exists (StateKey a (hash_bytes k), v). simpl. split.
  - unfold StateKey. by rewrite BytesToHash_suffix.
  - apply elem_of_iterate. split; [done|]. unfold StateKey. apply is_prefix_app.
Qed.

Lemma DeleteAccount_run a s s' :
  vm_DeleteAccount info a s = (Ok tt, s') ->
  (ea_GetAccount (vm_accounts s) (address_bytes a) = None /\ s' = s) \/
  exists x s1 s2, ea_GetAccount (vm_accounts s) (address_bytes a) = Some x /\
    vm_IsContract s a = true /\
    s1 = on_accounts (ea_SetAccount (ea_NewBaseAccount x)) s /\
    vm_SetBalance info a (Some 0) s1 = (Ok tt, s2) /\
    vm_kv s' = delete (KeyPrefixCodeHash ++ address_bytes a)
      (foldl (fun m kv => delete (StateKey a (hash_bytes (kv : Z * Z).1)) m) (vm_kv s2) (vm_ForEachStorage s2 a)) /\
    vm_accounts s' = ea_RemoveAccount x (vm_accounts s2) /\ vm_bank s' = vm_bank s2.
Proof.
  unfold vm_DeleteAccount. rewrite bind_gets. intros Hrun.
  destruct (ea_GetAccount (vm_accounts s) (address_bytes a)) as [x|]; [right|left; by injection Hrun as <-].
  destruct (vm_IsContract s a); [|done]. simpl in Hrun.
  apply bind_ok in Hrun as ([] & s1 & [= <-] & Hrun). apply bind_ok in Hrun as ([] & s2 & Hset & Hrun).
  rewrite bind_gets in Hrun. apply bind_ok in Hrun as ([] & s3 & [= <-] & Hrun).
  apply bind_ok in Hrun as ([] & s4 & [= <-] & [= <-]). eexists x, _, s2. split_and!; [done..|exact Hset| | |].
  all: simpl; destruct (delete_states_kv a (vm_ForEachStorage s2 a) s2) as (E1 & E2 & E3).
  - by rewrite E1.
  - by rewrite E2.
  - by rewrite E3.
Qed.

Lemma vm_DeleteAccount_law a s s' :
  vm_ok s -> u160 a -> vm_DeleteAccount info a s = (Ok tt, s') ->
  vm_ok s' /\
  (vm_regular a -> vm_GetAccount info s' a = inr None) /\
  (forall b, b <> a -> vm_regular b -> vm_GetAccount info s' b = vm_GetAccount info s b) /\
  (forall b k, b <> a -> vm_regular b -> u256 k -> vm_GetState s' b k = vm_GetState s b k).
Proof.
  intros [Hkv Hb] Ha Hrun. apply DeleteAccount_run in Hrun as [[Hnone ->]|(x & s1 & s2 & Hx & _ & -> & Hset & Hk & Hac & Hbk)].
  { split_and!; [done| |done|done]. intros _. unfold vm_GetAccount, GetAccountWithoutBalance. by rewrite Hnone. }
  apply ea_get_address in Hx as Hxa.
  apply SetBalance_spec in Hset as (Hb2 & Hk2 & Hac2 & Hbs); [|done|done]. simpl in *.
  assert (forall b k, u160 b -> b <> a -> vm_kv s' !! StateKey b (hash_bytes k) = vm_kv s !! StateKey b (hash_bytes k))
    as Hst.
  { intros b k Hb160 Hne. rewrite Hk, lookup_delete_ne by done. rewrite delete_all_lookup, Hk2, decide_False; [done|].
    intros (kv & Hkey & _)%list_elem_of_fmap. apply StateKey_inj in Hkey as [? _]; [done|done|done|].
    by rewrite !hash_bytes_length. }
  split_and!.
  - split; [|by rewrite Hbk]. rewrite Hk, Hk2. by apply kv_ok_delete, kv_ok_delete_all.
  - intros _. unfold vm_GetAccount, GetAccountWithoutBalance. rewrite Hac, ea_get_remove, Hxa.
    by rewrite decide_True.
  - intros b Hne [Hb160 Hp]. assert (address_bytes b <> address_bytes a) as Hab
      by (intros E; by apply address_bytes_inj in E).
    apply GetAccount_cong; [done|by rewrite Hbk|done| | |].
    + rewrite Hac, ea_get_remove, Hxa, decide_False, Hac2, ea_get_set, ea_base, Hxa, decide_False by done. done.
    + apply codehash_frame. rewrite Hk, lookup_delete_ne by (intros E; by apply codehash_key_inj in E).
      rewrite delete_all_lookup, Hk2, decide_False; [done|]. by intros (kv & Hkey & _)%list_elem_of_fmap.
    + by rewrite Hbk, Hbs, decide_False.
  - intros b k Hne [Hb160 _] Hk256. apply state_frame. by apply Hst.
Qed.

(** ** The instances *)

#[export] Instance VmKeeperLaws : @KeeperLaws (VmStateKeeper info).
Proof.
  refine (@Build_KeeperLaws (VmStateKeeper info) vm_regular _ vm_ok _ _ _ _ _); simpl.
  - by intros a [? _].
  - intros a n bal h s s' Hs Ha Hn Hbal Hh Hrun. by eapply vm_SetAccount_law.
  - intros a k v s [Hkv Hb] Ha Hk Hv. split_and!.
    + split; [|done]. simpl. apply kv_ok_insert; [done|intros; apply hash_bytes_bytes|]. eauto.
    + intros b j Hb160 Hj. by apply state_insert.
    + intros b. unfold vm_GetAccount, GetAccountWithoutBalance.
      rewrite (codehash_frame s (vm_SetState a k (hash_bytes v) s) b); [done|].
      simpl. rewrite lookup_insert_ne; [done|]. by intros ?%state_codehash_key.
  - intros h code s [Hkv Hb]. split_and!.
    + split; [|done]. by apply kv_ok_insert.
    + intros b j. apply state_frame. simpl. by rewrite lookup_insert_ne.
    + intros b. unfold vm_GetAccount, GetAccountWithoutBalance.
      rewrite (codehash_frame s (vm_SetCode h code s) b); [done|]. simpl. by rewrite lookup_insert_ne.
  - intros h s [Hkv Hb]. split_and!.
    + split; [|done]. by apply kv_ok_delete.
    + intros b j. apply state_frame. simpl. by rewrite lookup_delete_ne.
    + intros b. unfold vm_GetAccount, GetAccountWithoutBalance.
      rewrite (codehash_frame s (vm_DeleteCode h s) b); [done|]. simpl. by rewrite lookup_delete_ne.
  - intros a s s' Hs Ha Hrun. by apply vm_DeleteAccount_law.
Defined.
#[export] Instance VmKeeperTypes : @KeeperTypes _ (VmStateKeeper info).
Proof.
  refine (@Build_KeeperTypes _ (VmStateKeeper info) (fun s => kv_ok (vm_kv s)) Hkeccak _ _); simpl.
  - intros s a acct Hs. unfold vm_GetAccount, GetAccountWithoutBalance.
    destruct (ea_GetAccount (vm_accounts s) (address_bytes a)) as [x|] eqn:Hx; [|done].
    destruct (vm_SpendableCoin info s a) as [ob| |] eqn:Hsp; [|done..]. intros [= <-]. simpl. split_and!.
    + by eapply ea_sequence_u64.
    + intros n ->. unfold vm_SpendableCoin in Hsp. apply rbind_ok in Hsp as (c & _ & [= Hu]).
      unfold Uint256FromBigInt in Hu. destruct (Z.ltb_spec (c_amt c) 0), (Z.leb_spec (2 ^ 256) (c_amt c));
        simpl in Hu; simplify_eq. by split.
    + intros h [= <-]. by apply GetCodeHash_bytes.
  - intros s a k Hs. by apply GetState_bytes.
Defined.

(** * Theorems *)

(**  [SetBalance] makes the spendable amount of a plain account exactly the
    given one, by minting or burning the difference in extended coins, and
    changes nothing else: no other plain account, no account record and no
    entry of the EVM store. *)
Theorem vm_SetBalance_exact a amount s s' :
  vm_ok s -> vm_regular a -> u256 amount -> vm_SetBalance info a (Some amount) s = (Ok tt, s') ->
  vm_ok s' /\ vm_SpendableCoin info s' a = Ok (Some amount) /\
  (forall b, vm_regular b -> b <> a -> vm_SpendableCoin info s' b = vm_SpendableCoin info s b) /\
  vm_kv s' = vm_kv s /\ vm_accounts s' = vm_accounts s.
Proof.
  intros [Hkv Hb] [Ha Hp] [Hge0 H256] Hrun. apply SetBalance_spec in Hrun as (Hb' & Hk & Hac & Hbs); [|done|done].
  unfold vm_SpendableCoin, wrapper_SpendableCoin. rewrite bool_decide_true by done. split_and!; [|..|done|done].
  - split; [by rewrite Hk|done].
  - rewrite (eb_spendable_is info), Hbs, decide_True by done. rewrite (proj2 (Z.ltb_lt _ _) H256). simpl.
    unfold Uint256FromBigInt. simpl. by rewrite (proj2 (Z.ltb_ge amount 0)), (proj2 (Z.leb_gt _ _)).
  - intros b [Hb160 Hpb] Hne. rewrite !(eb_spendable_is info) by done. rewrite Hbs, decide_False; [done| |done].
    intros E. by apply address_bytes_inj in E.
Qed.

(**  Deleting an account that exists is refused unless it is a contract,
    without any change; for a contract it removes the account, all of its
    storage, its code hash and its balance.  Deleting an account that does not
    exist does nothing. *)
Theorem vm_DeleteAccount_clears a s :
  vm_ok s -> vm_regular a ->
  match ea_GetAccount (vm_accounts s) (address_bytes a) with
  | None => vm_DeleteAccount info a s = (Ok tt, s)
  | Some _ =>
      if vm_IsContract s a then forall s', vm_DeleteAccount info a s = (Ok tt, s') ->
        vm_ok s' /\ vm_GetAccount info s' a = inr None /\ vm_IsContract s' a = false /\
        vm_SpendableCoin info s' a = Ok (Some 0) /\ forall k, u256 k -> vm_GetState s' a k = 0
      else exists e, vm_DeleteAccount info a s = (Err e, s)
  end.
Proof.
  intros Hok Hr. destruct (ea_GetAccount (vm_accounts s) (address_bytes a)) as [x|] eqn:Hx.
  2:{ unfold vm_DeleteAccount. rewrite bind_gets. by rewrite Hx. }
  destruct (vm_IsContract s a) eqn:Hc.
  2:{ unfold vm_DeleteAccount. rewrite bind_gets, Hx, Hc. simpl. eauto. }
  intros s' Hrun. destruct Hr as [Ha Hp]. destruct (vm_DeleteAccount_law a s s' Hok Ha Hrun) as (Hok' & Hnone & _).
  destruct Hok as [Hkv Hb].
  apply DeleteAccount_run in Hrun as [[Hn _]|(x' & s1 & s2 & _ & _ & -> & Hset & Hk & _ & Hbk)]; [congruence|].
  apply SetBalance_spec in Hset as (Hb2 & Hk2 & _ & Hbs); [|done|done]. simpl in *. split_and!.
  - done.
  - by apply Hnone.
  - unfold vm_IsContract. rewrite Hk, lookup_delete_eq. apply bool_decide_false. by intros [].
  - unfold vm_SpendableCoin, wrapper_SpendableCoin. rewrite bool_decide_true, Hbk by done.
    rewrite (eb_spendable_is info), Hbs, decide_True by done. done.
  - intros k Hk256. unfold vm_GetState. rewrite Hk, lookup_delete_ne by done. rewrite delete_all_lookup.
    case_decide as Hin; [done|]. destruct (vm_kv s2 !! StateKey a (hash_bytes k)) as [v|] eqn:E; [|done].
    exfalso. apply Hin. apply storage_keys_complete; [by rewrite Hk2|done|done|by rewrite E].
Qed.
End thms.
