(* ===== verification/EvmCompose.v ===== *)
(** The EVM's state over x/precisebank: the state database, the EVM keeper, the
    bank wrapper and x/precisebank put together, what a commit does to the
    ledger of extended balances, and a concrete chain on which the theorems
    about these components are instantiated. *)
From S2P Require Import Prelude KVStore Sdk EvmConfig BankModel.
From S2P Require Import PreciseBank PreciseBankInv PreciseBankSpec PreciseBankThms Wrappers PreciseBankEvm.
From S2P Require Import StateDB StateDBInv StateDBRun StateDBOps StateDBMachine.
From S2P Require Import StateDBThms StateDBType StateDBCommit StateDBReach VmKeeper VmKeeperThms.

Section compose.
Context `{CoinsLib, !CoinsLaws, !BankKeeper, !AccountKeeper, !BankLaws} `{AddressCodec, !AddressLaws}.
Context `{Keccak, EvmAccounts, !EvmAccountsLaws}.
Variable info : EvmCoinInfo.
Variable reserve : addr.
Variable unlocked : addr -> Prop.
Hypothesis Hwired : wired info reserve.
Hypothesis Hkeccak : forall b, u256 (Keccak256Hash b).

#[local] Instance c_bank : EvmBank := PreciseEvmBank info.
#[local] Instance c_bank_laws : EvmBankLaws info := PreciseEvmBankLaws info reserve Hwired unlocked.
#[local] Instance c_keeper : StateKeeper := VmStateKeeper info.
#[local] Instance c_laws : KeeperLaws := VmKeeperLaws info.
#[local] Instance c_types : KeeperTypes := VmKeeperTypes info Hkeccak.

(** The extended balance of an Ethereum address in a context. *)
Definition ledger_of (c : vm_state) (a : Z) : Z := abs_balance info reserve (vm_bank c) (address_bytes a).

(** The keeper answers with the ledger balance. *)
Lemma GetAccount_ledger (c : vm_state) a acct :
  vm_ok info c -> vm_regular info a -> vm_GetAccount info c a = inr (Some acct) ->
  Balance acct = Some (ledger_of c a).
Proof.
  intros [_ Hb] [_ Hp]. unfold vm_GetAccount, GetAccountWithoutBalance, vm_SpendableCoin, wrapper_SpendableCoin.
  destruct (ea_GetAccount _ _) as [x|]; [|done]. rewrite bool_decide_true by done.
  rewrite (eb_spendable_is info) by done.
  pose proof (eb_balance_nonneg info _ _ Hb Hp) as Hn. simpl in Hn.
  change (eb_balance info (vm_bank c) (address_bytes a)) with (ledger_of c a) in *.
  destruct (Z.ltb_spec (ledger_of c a) (2 ^ 256)) as [Hlt|]; [|done]. simpl. intros [= <-]. simpl.
  unfold Uint256FromBigInt. fold (ledger_of c a) in Hn.
  by rewrite (proj2 (Z.ltb_ge _ 0)), (proj2 (Z.leb_gt _ _)).
Qed.

Definition vm_exists (c : vm_state) (a : Z) : bool :=
  match ea_GetAccount (vm_accounts c) (address_bytes a) with Some _ => true | None => false end.
Lemma vm_exists_get (c c' : vm_state) a : vm_GetAccount info c' a = vm_GetAccount info c a -> vm_exists c' a = vm_exists c a.
Proof.
  unfold vm_GetAccount, GetAccountWithoutBalance, vm_exists.
  destruct (ea_GetAccount (vm_accounts c') _), (ea_GetAccount (vm_accounts c) _); repeat case_match; done.
Qed.
(** What an object leaves as the balance of its account: a contract that is destroyed
    keeps nothing, also of what it got after its destruction; the destruction of a
    contract that was never stored writes nothing. *)
Definition settled (o : stateObject) (stored : bool) (before : Z) : Z :=
  if selfDestructed o then (if stored then 0 else before) else balance o.

Lemma slots_bank a d keys (c : vm_state) : vm_bank (slots_written a d keys c) = vm_bank c.
Proof. unfold slots_written. revert c. induction keys as [|k keys IH]; intros c; [done|]. cbn [foldl]. by rewrite IH. Qed.
Lemma SetBalance_ledger a b amount (c c' : vm_state) : eb_ok info (vm_bank c) -> vm_regular info a -> u160 b -> 0 <= amount ->
  vm_SetBalance info b (Some amount) c = (Ok tt, c') -> ledger_of c' a = if decide (a = b) then amount else ledger_of c a.
Proof.
  intros Hok [Ha Hp] Hb Hn Hset. apply (SetBalance_spec info) in Hset as (_ & _ & _ & Hbs); [|done..].
  specialize (Hbs _ Hp). etrans; [exact Hbs|]. destruct (decide (a = b)) as [->|Hne]; [by rewrite decide_True|].
  rewrite decide_False; [done|]. intros E. by apply address_bytes_inj in E.
Qed.
Lemma commit_object_ledger o (c c' : vm_state) a :
  vm_ok info c -> obj_typed o -> vm_regular info a -> commit_object o c = (Ok tt, c') ->
  ledger_of c' a = if decide (a = address o) then settled o (vm_exists c a) (ledger_of c a) else ledger_of c a.
Proof.
  intros Hok Ho Hr Hrun. unfold commit_object in Hrun. unfold settled. destruct (selfDestructed o).
  - apply (DeleteAccount_run info) in Hrun as [[Hnone ->]|(x & s1 & s2 & Hx & _ & -> & Hset & _ & _ & Hbk)].
    + case_decide as E; [|done]. unfold vm_exists. by rewrite E, Hnone.
    + apply (SetBalance_ledger a) in Hset as Hl; [|apply Hok|done|apply Ho|done]. unfold ledger_of at 1. rewrite Hbk.
      etrans; [exact Hl|]. case_decide as E; [|done]. unfold vm_exists. by rewrite E, Hx.
  - apply bind_ok in Hrun as ([] & c1 & Hcode & Hrun). apply bind_ok in Hrun as ([] & c2 & Hacct & Hslots).
    assert (vm_bank c1 = vm_bank c) as Hb1 by (repeat (case_match; try (by injection Hcode as <-))).
    unfold account in Hacct. apply (SetAccount_run info) in Hacct as (y & s1 & _ & _ & Hkv & Hbk & _ & Hset).
    apply (SetBalance_ledger a) in Hset as Hl; [|rewrite Hbk, Hb1; apply Hok|done|apply Ho..].
    rewrite commit_slots_run in Hslots. injection Hslots as <-. unfold ledger_of at 1. rewrite slots_bank.
    etrans; [exact Hl|]. unfold ledger_of. by rewrite Hbk, Hb1.
Qed.
Lemma commit_each_ledger objs l (c c' : vm_state) a :
  map_Forall (fun a o => address o = a) objs -> map_Forall (fun _ o => obj_typed o) objs -> NoDup l ->
  vm_ok info c -> vm_regular info a -> each (commit_dirty objs) l c = (Ok tt, c') ->
  ledger_of c' a = match objs !! a with
    | Some o => if decide (a ∈ l) then settled o (vm_exists c a) (ledger_of c a) else ledger_of c a
    | None => ledger_of c a
    end.
Proof.
  intros Hk Ht Hnd Hok Hr. revert c Hok. induction Hnd as [|b l Hb Hnd IH]; intros c Hok Hrun.
  { injection Hrun as <-. destruct (objs !! a); [|done]. by rewrite decide_False by apply not_elem_of_nil. }
  cbn [each] in Hrun. apply bind_ok in Hrun as ([] & c1 & Hc & Hrun). unfold commit_dirty in Hc. destruct (objs !! b) as [o|] eqn:Ho; [|done].
  pose proof (Ht b o Ho) as Hot. pose proof (commit_object_ledger _ _ _ a Hok Hot Hr Hc) as Hl.
  apply commit_object_spec in Hc as (Hok1 & Hoth & _); [|exact Hok|exact Hot]. rewrite (Hk b o Ho) in *. rewrite (IH c1 Hok1 Hrun), Hl.
  destruct (decide (a = b)) as [->|Hne].
  - rewrite Ho. rewrite decide_False by done. by rewrite decide_True by by left.
  - rewrite (vm_exists_get _ _ _ (sat_account _ _ _ (Hoth a Hne Hr))). destruct (objs !! a); [|done].
    destruct (decide (a ∈ l)) as [Hin|Hin]; [by rewrite decide_True by by right|]. rewrite decide_False; [done|].
    by intros [->|?]%elem_of_cons.
Qed.

(** C15.  Through the keeper, the bank wrapper and x/precisebank, a successful
    commit keeps the reserve of x/precisebank exactly backed and settles the extended
    ledger: a dirty account gets the balance its object shows, a stored contract that
    was destroyed gets zero, whatever its object shows, and every other account,
    stored or not, keeps its balance.  The accounts meant are all but those that the
    bank itself moves or locks: the module that mints and burns, the reserve, and
    vesting accounts with locked coins. *)
Theorem Commit_moves_ledger s s' a :
  sdb_wf s -> sdb_typed s -> vm_ok info (cache_view s) -> Commit s = (Ok tt, s') -> vm_regular info a ->
  pb_inv info reserve (vm_bank (ctx s')) /\
  ledger_of (ctx s') a =
    match stateObjects s !! a with
    | Some o => if decide (a ∈ sortedDirties (jrnl s))
        then settled o (vm_exists (cache_view s) a) (ledger_of (cache_view s) a) else ledger_of (cache_view s) a
    | None => ledger_of (cache_view s) a
    end.
Proof.
  intros Hw Ht Hok Hrun Hr. assert (ks_ok (cache_view s)) as Hks by exact Hok.
  split; [apply (Commit_effect s s' a Hw Ht Hks Hrun)|].
  apply Commit_run in Hrun as (c' & Hc & ->); [|done].
  exact (commit_each_ledger _ _ _ _ a (wf_addr _ Hw) (st_objects _ Ht) (sorted_keys_NoDup _) Hok Hr Hc).
Qed.
End compose.

(** * A concrete chain *)

(** Accounts as a map from addresses to a number and a sequence. *)
Record m_acct := MAcct { ma_address : addr; ma_number : Z; ma_sequence : Z }.

#[global] Instance ModelEvmAccounts : EvmAccounts := {|
  AK := gmap bytes (Z * Z) * Z;
  acct := m_acct;
  ea_address := ma_address;
  ea_sequence x := wrap64 (ma_sequence x);
  ea_SetSequence n x :=
    if is_uint64 n then Ok (MAcct (ma_address x) (ma_number x) n) else Err (Error ErrOther "overflow");
  ea_NewBaseAccount x := x;
  ea_GetAccount k a := (fun p => MAcct a p.1 p.2) <$> (k.1 !! a);
  ea_NewAccountWithAddress a k := (MAcct a k.2 0, (k.1, k.2 + 1));
  ea_SetAccount x k := (<[ma_address x := (ma_number x, ma_sequence x)]> k.1, k.2);
  ea_RemoveAccount x k := (delete (ma_address x) k.1, k.2);
|}.

#[global] Instance ModelEvmAccountsLaws : EvmAccountsLaws.
Proof.
  split; simpl.
  - intros n x y. destruct (is_uint64 n) eqn:E; [|done]. intros [= <-]. simpl. split; [done|].
    unfold is_uint64, max_uint64 in E. zbool. unfold wrap64. apply Z.mod_small. lia.
  - done.
  - intros k a x _. by apply Z.mod_pos_bound.
  - intros k a x Hx. destruct (k.1 !! a); [|done]. by injection Hx as <-.
  - done.
  - done.
  - intros x k b. case_decide as E.
    + subst. rewrite lookup_insert_eq. simpl. by destruct x.
    + by rewrite lookup_insert_ne.
  - intros x k b. case_decide as E; [subst; by rewrite lookup_delete_eq|by rewrite lookup_delete_ne].
Qed.

(** A hash for the examples. *)
#[global] Instance ModelKeccak : Keccak := {| Keccak256Hash b := (be_decode 7 b + 1) mod 2 ^ 256 |}.
Lemma model_keccak b : u256 (Keccak256Hash b).
Proof. by apply Z.mod_pos_bound. Qed.

Definition e_alice : Z := 11.
Definition e_bob : Z := 12.
Definition e_dapp : Z := 13.
Definition e_unlocked (a : addr) : Prop := True.

(** Alice has 5 integer coins and 3 units, in six decimals; the contract has a
    storage word and one unit less than a coin. *)
Definition e_bank : m_bank :=
  MBank (fun a d => if bool_decide (d = "uguru") then
                      if bool_decide (a = address_bytes e_alice) then 5
                      else if bool_decide (a = x_reserve) then 2 else 0
                    else 0)
        (fun d => if bool_decide (d = "uguru") then 7 else 0).
Definition e_pb_kv : gmap bytes Z :=
  list_to_map [(frac_key (address_bytes e_alice), 3); (frac_key (address_bytes e_dapp), x_cf - 1);
    (RemainderBalanceKey, x_cf - 2)].
Definition e_pb : pb_state := PB e_pb_kv e_bank [].
Definition e_kv : gmap bytes bytes :=
  list_to_map [(StateKey e_dapp (hash_bytes 1), hash_bytes 77);
    (KeyPrefixCodeHash ++ address_bytes e_dapp, hash_bytes 99); (KeyPrefixCode ++ hash_bytes 99, [96; 0])].

#[global] Instance e_evm_bank : EvmBank := PreciseEvmBank x_info.
#[global] Instance e_evm_laws : EvmBankLaws x_info := PreciseEvmBankLaws x_info x_reserve x_wired e_unlocked.
#[global] Instance e_keeper : StateKeeper := VmStateKeeper x_info.
#[global] Instance e_laws : KeeperLaws := VmKeeperLaws x_info.
#[global] Instance e_types : KeeperTypes := VmKeeperTypes x_info model_keccak.

Definition e_vm : vm_state :=
  mkVm e_kv (list_to_map [(address_bytes e_alice, (0, 4)); (address_bytes e_dapp, (1, 1))], 2) e_pb.
Definition e_db : StateDB := New e_vm [] (NewEmptyTxConfig 5).

Lemma e_pb_inv : pb_inv x_info x_reserve e_pb.
Proof.
  split; rewrite x_cf_eq.
  - apply kv_wf_alt, (bool_decide_unpack _). vm_compute. exact I.
  - vm_compute. reflexivity.
Qed.

Lemma e_kv_ok : kv_ok e_kv.
Proof.
  unfold e_kv. simpl. apply kv_ok_insert; [|intros _; apply be_bytes|].
  - apply kv_ok_insert; [|intros _; apply be_bytes|done]. apply kv_ok_insert; [|done|done].
    split; apply map_Forall_empty.
  - intros _. exists e_dapp, 1. done.
Qed.

Lemma e_vm_ok : vm_ok x_info e_vm.
Proof. split; [apply e_kv_ok|]. split; [apply e_pb_inv|]. intros a _. done. Qed.

Lemma e_regular a : a = e_alice \/ a = e_bob \/ a = e_dapp -> vm_regular x_info a.
Proof.
  intros Ha. split.
  - destruct Ha as [->|[->| ->]]; by split.
  - split; [done|]. destruct Ha as [->|[->| ->]]; by split.
Qed.

(** * The theorems on the concrete chain *)

(** A transaction: a transfer, a storage write, a new contract with code, logs,
    warm slots and a call of a precompile that emits an event. *)
Definition e_event : event := Event "precompile" [("k", AInt 1)].
Definition e_ops : list sdb_op := [
  OSubBalance e_alice 5; OAddBalance e_bob 5; OSetNonce e_alice 5; OSetState e_dapp 1 8;
  OAddLog (mkLog e_dapp [1] [2] 0 0 0 0 0); OAddSlot e_dapp 1; OSetTransientState e_dapp 1 6].
Definition e_more : list sdb_op := e_ops ++ [
  OSnapshot; OCreateAccount e_bob; OCreateContract e_bob; OSetCode e_bob (Some [1; 2]); ORevert 1;
  OPrecompile 256 (fun c => (c, [e_event])); OSelfDestruct e_dapp; OAddRefund 7; OSubRefund 3].
Definition e_final : StateDB := (each run_op e_ops e_db).2.

Lemma e_ops_run : each run_op e_ops e_db = (Ok tt, e_final).
Proof. apply (run_fst (each run_op e_ops) e_db). vm_compute. reflexivity. Qed.
#[global] Opaque e_final.

Lemma e_final_reachable : @reachable _ e_keeper e_vm [] (NewEmptyTxConfig 5) e_final.
Proof. exact (@reachable_run _ e_keeper _ _ _ _ _ _ (@r_new _ e_keeper e_vm [] (NewEmptyTxConfig 5)) e_ops_run). Qed.

Lemma e_final_wf : sdb_wf e_final.
Proof. exact (reachable_wf _ _ _ _ e_final_reachable). Qed.

Lemma e_ops_typed : Forall op_typed e_ops.
Proof. repeat constructor; done. Qed.

Lemma e_final_typed : sdb_typed e_final.
Proof. eapply run_typed; [|apply e_ops_typed|apply e_ops_run]. apply New_typed, e_kv_ok. Qed.

Lemma RevertToSnapshot_restores_witness :
  exists t, RevertToSnapshot 0 (each run_op e_more (Snapshot e_db).2).2 = (Ok tt, t) /\
    (GetBalance e_alice t).1 = Ok (5 * x_cf + 3) /\ (GetState e_dapp 1 t).1 = Ok 77 /\ (Logs t).1 = Ok [].
Proof.
  destruct (RevertToSnapshot_restores e_db 0 (Snapshot e_db).2 e_more (each run_op e_more (Snapshot e_db).2).2)
    as (t & Ht & Hsame & _).
  - apply New_wf.
  - reflexivity.
  - apply (run_fst (each run_op e_more)). vm_compute. reflexivity.
  - repeat constructor; intros rid E; simplify_eq; lia.
  - exists t. split; [exact Ht|].
    rewrite (sa_balance _ _ Hsame), (sa_state _ _ Hsame), (sa_logs _ _ Hsame).
    split_and!; vm_compute; reflexivity.
Defined.

Lemma ops_typed_witness : sdb_typed (each run_op (e_ops ++ [OSubRefund 5]) e_db).2.
Proof.
  refine (ops_typed (e_ops ++ [OSubRefund 5]) e_db (each run_op (e_ops ++ [OSubRefund 5]) e_db).1 _ _ _ _).
  - apply New_typed, e_kv_ok.
  - apply Forall_app_2; [apply e_ops_typed|]. repeat constructor; done.
  - by destruct (each run_op (e_ops ++ [OSubRefund 5]) e_db).
Defined.

(** No operation writes to the context: the typing argument at the one store. *)
Definition e_ctx_only : @KeeperTypes _ e_keeper.
Proof.
  refine (@Build_KeeperTypes _ e_keeper (fun c => c = e_vm) model_keccak _ _).
  - intros c a acct ->. apply (kt_account (KeeperTypes := e_types)), e_kv_ok.
  - intros c a k ->. apply (kt_state (KeeperTypes := e_types)), e_kv_ok.
Defined.

Lemma e_final_ctx : cache_view e_final = e_vm.
Proof.
  assert (@sdb_typed _ e_keeper e_ctx_only e_final) as Ht.
  { eapply (@run_typed _ e_keeper e_ctx_only); [|apply e_ops_typed|apply e_ops_run].
    by apply (@New_typed _ e_keeper e_ctx_only). }
  assert (match cacheCtx e_final with None => true | _ => false end = true) as Hc by (vm_compute; reflexivity).
  unfold cache_view. destruct (cacheCtx e_final); [done|]. apply (st_ctx _ Ht).
Qed.

Lemma e_commit : (Commit e_final).1 = Ok tt.
Proof. vm_compute. reflexivity. Qed.

Lemma e_ks_ok : ks_ok (cache_view e_final).
Proof. rewrite e_final_ctx. apply e_vm_ok. Qed.

Lemma Commit_writes_witness :
  exists o, stateObjects e_final !! e_dapp = Some o /\
    committed_as o (cache_view e_final) (ctx (Commit e_final).2) /\ dirtyStorage o !! 1 = Some 8.
Proof.
  pose proof (Commit_writes e_final (Commit e_final).2 e_dapp e_final_wf e_final_typed e_ks_ok
    (run_fst _ _ _ e_commit) (e_regular e_dapp (or_intror (or_intror eq_refl)))) as Hw.
  assert (is_Some (dirties (jrnl e_final) !! e_dapp)) as [n Hn]
    by (vm_compute; eauto).
  rewrite Hn in Hw. destruct Hw as (o & Ho & Hc). exists o. split; [exact Ho|]. split; [exact Hc|].
  assert (dirtyStorage <$> stateObjects e_final !! e_dapp = Some {[ 1 := 8 ]}) as Hd
    by (vm_compute; reflexivity).
  rewrite Ho in Hd. injection Hd as Hd. rewrite Hd. reflexivity.
Defined.

Lemma Commit_moves_ledger_witness :
  pb_inv x_info x_reserve (vm_bank (ctx (Commit e_final).2)) /\
  ledger_of x_info x_reserve (ctx (Commit e_final).2) e_alice = 5 * x_cf - 2.
Proof.
  destruct (Commit_moves_ledger x_info x_reserve e_unlocked x_wired model_keccak e_final (Commit e_final).2 e_alice
    e_final_wf e_final_typed e_ks_ok (run_fst _ _ _ e_commit) (e_regular e_alice (or_introl eq_refl)))
    as (Hi & Hd).
  split; [exact Hi|].
  etrans; [exact Hd|]. vm_compute. reflexivity.
Defined.

Lemma reachable_invariant_witness :
  is_Some (stateObjects e_final !! e_dapp) /\ exists t, journal_Revert 2 e_final = (Ok tt, t).
Proof.
  destruct (@reachable_invariant _ e_keeper e_vm [] (NewEmptyTxConfig 5) e_final
    e_final_reachable) as (_ & Hl & _ & _ & _ & Hu).
  assert (bool_decide (e_dapp ∈ sortedDirties (jrnl e_final)) = true) as Hin by (vm_compute; reflexivity).
  assert ((2 <=? length (entries (jrnl e_final)))%nat = true) as Hlen by (vm_compute; reflexivity).
  split; [apply Hl, (bool_decide_eq_true_1 _ Hin)|apply Hu, Nat.leb_le, Hlen].
Defined.

Definition e_rules : Rules := mkRules true false true.
Definition e_prepared : StateDB :=
  (Prepare e_rules e_alice 20 (Some e_dapp) [1; 2] [(e_bob, [5; 6])] e_db).2.

Lemma Prepare_warms_witness :
  (AddressInAccessList 20 e_prepared).1 = Ok true /\
  exists p, (SlotInAccessList e_bob 6 e_prepared).1 = Ok (p, true).
Proof.
  destruct (Prepare_warms e_rules e_alice 20 (Some e_dapp) [1; 2] [(e_bob, [5; 6])] e_db eq_refl eq_refl)
    as (s' & Hs & Ha & Hk & _).
  assert (e_prepared = s') as -> by (unfold e_prepared; by rewrite Hs).
  split; [apply Ha; naive_solver|apply Hk; exists [5; 6]; split; set_solver].
Defined.

(** A database that has seen 255 calls: the next one is accepted. *)
Lemma AddPrecompileFn_limit_witness :
  (AddPrecompileFn 256 0 [] (with_counter 255 e_db)).1 = Ok tt /\
  is_ok (AddPrecompileFn 256 0 [] (with_counter 7 e_db)).1 = false.
Proof.
  assert (forall n, getOrNewStateObject 256 (with_counter n e_db) =
    (Ok (newObject 256 (mkAccount 0 None None)), (getOrNewStateObject 256 (with_counter n e_db)).2)) as Hg
    by (intros n; apply (run_fst (getOrNewStateObject 256)); vm_compute; reflexivity).
  destruct (AddPrecompileFn_limit 256 0 [] _ _ _ (Hg 255)) as [E1 _].
  destruct (AddPrecompileFn_limit 256 0 [] _ _ _ (Hg 7)) as [E2 _].
  rewrite E1, E2. split; vm_compute; reflexivity.
Defined.

(** After a call that was reverted, a second call emits an event that the
    commit does not. *)
Definition e_reverted : StateDB :=
  (each run_op [OSnapshot; OPrecompile 256 (fun c => (c, [e_event])); ORevert 0] e_db).2.

Lemma events_after_revert_dropped_witness :
  ctx_events (run_writeCache (precompile_call 256 (fun c => (c, [e_event])) e_reverted).2).2 = [].
Proof.
  assert (match writeCache e_reverted with Some (GivenEvents []) => true | _ => false end = true) as Hw
    by (vm_compute; reflexivity).
  assert (match cacheCtx e_reverted with Some _ => true | _ => false end = true) as Hc
    by (vm_compute; reflexivity).
  assert ((precompile_call 256 (fun c => (c, [e_event])) e_reverted).1 = Ok tt) as Hr
    by (vm_compute; reflexivity).
  assert (ctx_events e_reverted = []) as He by (vm_compute; reflexivity).
  destruct (writeCache e_reverted) as [[|[|]]|] eqn:Ew; try discriminate Hw.
  destruct (events_after_revert_dropped 256 (fun c => (c, [e_event])) e_reverted _ [] Ew
    ltac:(destruct (cacheCtx e_reverted); [discriminate|discriminate Hc]) (run_fst _ _ _ Hr)) as (s2 & Hs2 & Hev & _).
  rewrite Hs2, app_nil_r, He in *. exact Hev.
Defined.

Lemma vm_SetBalance_exact_witness :
  vm_SpendableCoin x_info (vm_SetBalance x_info e_dapp (Some 12) e_vm).2 e_dapp = Ok (Some 12) /\
  vm_SpendableCoin x_info (vm_SetBalance x_info e_dapp (Some 12) e_vm).2 e_alice = Ok (Some (5 * x_cf + 3)).
Proof.
  assert ((vm_SetBalance x_info e_dapp (Some 12) e_vm).1 = Ok tt) as Hr by (vm_compute; reflexivity).
  assert (u256 12) as Hu by (unfold u256; lia).
  destruct (vm_SetBalance_exact x_info e_dapp 12 e_vm _ e_vm_ok
    (e_regular e_dapp (or_intror (or_intror eq_refl))) Hu (run_fst (vm_SetBalance x_info e_dapp (Some 12)) e_vm (Ok tt) Hr))
    as (_ & Hs & Ho & _).
  split; [exact Hs|]. rewrite (Ho e_alice (e_regular e_alice (or_introl eq_refl)) ltac:(done)).
  vm_compute. reflexivity.
Defined.

Lemma vm_DeleteAccount_clears_witness :
  vm_GetState (vm_DeleteAccount x_info e_dapp e_vm).2 e_dapp 1 = 0 /\
  vm_GetAccount x_info (vm_DeleteAccount x_info e_dapp e_vm).2 e_dapp = inr None.
Proof.
  pose proof (vm_DeleteAccount_clears x_info e_dapp e_vm e_vm_ok
    (e_regular e_dapp (or_intror (or_intror eq_refl)))) as Hd.
  assert (match ea_GetAccount (vm_accounts e_vm) (address_bytes e_dapp) with Some _ => true | None => false end = true)
    as Ha by (vm_compute; reflexivity).
  assert (vm_IsContract e_vm e_dapp = true) as Hc by (vm_compute; reflexivity).
  assert ((vm_DeleteAccount x_info e_dapp e_vm).1 = Ok tt) as Hr by (vm_compute; reflexivity).
  destruct (ea_GetAccount (vm_accounts e_vm) (address_bytes e_dapp)); [|discriminate Ha].
  rewrite Hc in Hd. destruct (Hd _ (run_fst _ _ _ Hr)) as (_ & Hn & _ & _ & Hs).
  split; [apply Hs; by split|exact Hn].
Defined.
