(* ===== verification/TxData.v ===== *)
(** Ethereum transactions as the chain carries them ([x/vm/types]: [tx_data.go],
    [legacy_tx.go], [access_list_tx.go], [dynamic_fee_tx.go], [access_list.go],
    [msg.go], [tx.go], [utils.go]; [utils/eth/eth.go], [types/int.go],
    [types/validation.go]).

    A nil pointer is [None].  The transactions of go-ethereum and the text of its
    addresses and hashes are classes with the laws the code relies on. *)
From S2P Require Import Prelude KVStore Sdk StateDB.

(** * go-ethereum: text of addresses and hashes *)

Class EthHex := {
  HexToAddress : string -> Address;
  Address_Hex : Address -> string;
  IsHexAddress : string -> bool;
  HexToHash : string -> Hash;
  Hash_Hex : Hash -> string;
}.

Definition address_ok (a : Address) : Prop := 0 <= a < 2 ^ 160.
Definition hash_ok (h : Hash) : Prop := 0 <= h < 2 ^ 256.

Class EthHexLaws `{EthHex} := {
  hex_address : forall a, address_ok a -> HexToAddress (Address_Hex a) = a;
  hex_is_address : forall a, address_ok a -> IsHexAddress (Address_Hex a) = true;
  hex_address_text : forall a, Address_Hex a <> "";
  hex_range : forall s, address_ok (HexToAddress s);
  hex_digits : forall s, IsHexAddress s = true -> s <> "" /\ 124 ∉ str_bytes s;   (** no vertical bar *)
  hex_hash : forall h, hash_ok h -> HexToHash (Hash_Hex h) = h;
  hex_hash_range : forall s, hash_ok (HexToHash s);
}.

(** * go-ethereum: transactions ([core/types]) *)

Abbreviation EthAccessList := (list (Address * list Hash)) (only parsing).

Record eth_fields := mkEth {
  e_nonce : Z; e_gas : Z; e_to : option Address; e_value : option Z; e_data : bytes;
  e_v : option Z; e_r : option Z; e_s : option Z;
}.

(** The structures [ethtypes.LegacyTx], [AccessListTx] and [DynamicFeeTx]. *)
Inductive EthTxData :=
  | EthLegacyTx (f : eth_fields) (gasPrice : option Z)
  | EthAccessListTx (f : eth_fields) (chainID gasPrice : option Z) (al : option EthAccessList)
  | EthDynamicFeeTx (f : eth_fields) (chainID gasTipCap gasFeeCap : option Z) (al : option EthAccessList).

Definition eth_common (d : EthTxData) : eth_fields :=
  match d with EthLegacyTx f _ | EthAccessListTx f _ _ _ | EthDynamicFeeTx f _ _ _ _ => f end.

(** [NewTx] keeps a copy, with numbers and lists allocated: nil becomes zero or empty. *)
Definition set_ (n : option Z) : option Z := Some (default 0 n).
Definition copy_fields (f : eth_fields) : eth_fields :=
  mkEth (e_nonce f) (e_gas f) (e_to f) (set_ (e_value f)) (e_data f) (set_ (e_v f)) (set_ (e_r f)) (set_ (e_s f)).
Definition eth_copy (d : EthTxData) : EthTxData :=
  match d with
  | EthLegacyTx f p => EthLegacyTx (copy_fields f) (set_ p)
  | EthAccessListTx f c p al => EthAccessListTx (copy_fields f) (set_ c) (set_ p) (Some (default [] al))
  | EthDynamicFeeTx f c t p al =>
      EthDynamicFeeTx (copy_fields f) (set_ c) (set_ t) (set_ p) (Some (default [] al))
  end.

Definition LegacyTxType : Z := 0.
Definition AccessListTxType : Z := 1.
Definition DynamicFeeTxType : Z := 2.

Class EthTypes := {
  Transaction : Type;
  NewTx : EthTxData -> Transaction;
  tx_Type : Transaction -> Z;
  tx_Nonce : Transaction -> Z;
  tx_Data : Transaction -> bytes;
  tx_Gas : Transaction -> Z;
  tx_To : Transaction -> option Address;
  tx_Value : Transaction -> option Z;
  tx_GasPrice : Transaction -> option Z;
  tx_GasTipCap : Transaction -> option Z;
  tx_GasFeeCap : Transaction -> option Z;
  tx_AccessList : Transaction -> option EthAccessList;
  tx_ChainId : Transaction -> option Z;
  tx_RawSignatureValues : Transaction -> option Z * option Z * option Z;
  tx_Hash : Transaction -> Hash;
  tx_Protected : Transaction -> bool;
}.

Definition eth_prices (d : EthTxData) : option Z * option Z * option Z :=   (** price, tip cap, fee cap *)
  match d with
  | EthLegacyTx _ p | EthAccessListTx _ _ p _ => (p, p, p)
  | EthDynamicFeeTx _ _ t p _ => (p, t, p)
  end.
Definition eth_type (d : EthTxData) : Z :=
  match d with
  | EthLegacyTx _ _ => LegacyTxType | EthAccessListTx _ _ _ _ => AccessListTxType
  | EthDynamicFeeTx _ _ _ _ _ => DynamicFeeTxType
  end.
Definition eth_accesses (d : EthTxData) : option EthAccessList :=
  match d with EthLegacyTx _ _ => None | EthAccessListTx _ _ _ al | EthDynamicFeeTx _ _ _ _ al => al end.

Class EthTypesLaws `{EthTypes} := {
  tx_copy : forall d, NewTx (eth_copy d) = NewTx d;
  tx_common : forall d, let t := NewTx d in let f := eth_common (eth_copy d) in
    tx_Nonce t = e_nonce f /\ tx_Data t = e_data f /\ tx_Gas t = e_gas f /\ tx_To t = e_to f /\
    tx_Value t = e_value f /\ tx_RawSignatureValues t = (e_v f, e_r f, e_s f);
  tx_typed : forall d, let t := NewTx d in let c := eth_copy d in
    tx_Type t = eth_type c /\ (tx_GasPrice t, tx_GasTipCap t, tx_GasFeeCap t) = eth_prices c /\
    tx_AccessList t = eth_accesses c;
  tx_chain : forall d,
    match eth_copy d with
    | EthLegacyTx _ _ => True
    | EthAccessListTx _ c _ _ | EthDynamicFeeTx _ c _ _ _ => tx_ChainId (NewTx d) = c
    end;
}.

(** * Numbers ([types/int.go], [math/big]) *)

Definition SafeInt64 (value : Z) : res Z :=
  if max_int64 <? value then Err (Error ErrOther "uint64 value cannot exceed MaxInt64") else Ok value.

(** [BitLen() <= 256] *)
Definition IsValidInt256 (i : option Z) : bool :=
  match i with None => true | Some z => int_fits z end.
Definition SafeNewIntFromBigInt (i : Z) : res Z :=
  if negb (IsValidInt256 (Some i)) then Err (Error ErrOther "big int out of bound") else int_chk i.

(** [big.Int.Bytes]: the magnitude, big endian without leading zeros. *)
Definition big_len (n : Z) : nat := if n =? 0 then O else Z.to_nat (Z.log2 (Z.abs n) / 8 + 1).
Definition big_bytes (n : Z) : bytes := be (big_len n) (Z.abs n).

(** [big.Int.Sign] *)
Definition negative (i : option Z) : bool := match i with Some z => z <? 0 | None => false end.

(** * Signature values ([utils/eth/eth.go]) *)

Definition DeriveChainID (v : option Z) : option Z :=
  match v with
  | None => None
  | Some v =>
      if v <? 1 then None
      else if v <? 2 ^ 64 then
        if (v =? 27) || (v =? 28) then Some 0
        else if v <? 35 then None
        else Some ((v - 35) / 2)
      else Some ((v - 35) / 2)
  end.

Definition raw_value (bz : bytes) : option Z :=
  match bz with [] => None | _ => Some (be_decode 0 bz) end.
Definition RawSignatureValues (vBz rBz sBz : bytes) : option Z * option Z * option Z :=
  (raw_value vBz, raw_value rBz, raw_value sBz).

(** * Addresses ([types/validation.go]) *)

Definition ValidateAddress `{EthHex} (address : string) : res unit :=
  if IsHexAddress address then Ok tt
  else Err (Error ErrInvalidAddress "address is not a valid ethereum hex address").
Definition IsZeroAddress `{EthHex} (address : string) : bool := HexToAddress address =? 0.
Definition ValidateNonZeroAddress `{EthHex} (address : string) : res unit :=
  if IsZeroAddress address then Err (Error ErrInvalidAddress "address must not be zero")
  else ValidateAddress address.

(** * Access lists ([access_list.go]) *)

Record AccessTuple := mkTuple { at_Address : string; at_StorageKeys : list string }.
Abbreviation AccessList := (list AccessTuple) (only parsing).

Section access_list.
Context `{EthHex}.
Definition NewAccessList (ethAccessList : option EthAccessList) : option AccessList :=
  match ethAccessList with
  | None => None
  | Some l => Some (map (fun t => mkTuple (Address_Hex t.1) (map Hash_Hex t.2)) l)
  end.
(** Nothing is appended for an empty list: the result is nil. *)
Definition ToEthAccessList (al : AccessList) : option EthAccessList :=
  match al with
  | [] => None
  | _ => Some (map (fun t => (HexToAddress (at_Address t), map HexToHash (at_StorageKeys t))) al)
  end.
End access_list.

(** * Prices ([tx_data.go], [utils.go]) *)

(** A nil price is dereferenced. *)
Definition fee (gasPrice : option Z) (gas : Z) : res Z :=
  match gasPrice with Some p => Ok (p * gas) | None => Panic "nil pointer dereference" end.
Definition cost (fee : Z) (value : option Z) : Z :=
  match value with Some v => fee + v | None => fee end.
Definition EffectiveGasPrice (baseFee : option Z) (feeCap tipCap : Z) : res Z :=
  match baseFee with
  | None => Panic "nil pointer dereference"
  | Some b => let calcVal := tipCap + b in Ok (if calcVal <? feeCap then calcVal else feeCap)
  end.

(** * The transaction types *)

Record LegacyTx := mkLegacyTx {
  l_Nonce : Z; l_GasPrice : option Z; l_GasLimit : Z; l_To : string; l_Amount : option Z;
  l_Data : bytes; l_V : bytes; l_R : bytes; l_S : bytes;
}.
Record AccessListTx := mkAccessListTx {
  a_ChainID : option Z; a_Nonce : Z; a_GasPrice : option Z; a_GasLimit : Z; a_To : string;
  a_Amount : option Z; a_Data : bytes; a_Accesses : option AccessList; a_V : bytes; a_R : bytes; a_S : bytes;
}.
Record DynamicFeeTx := mkDynamicFeeTx {
  d_ChainID : option Z; d_Nonce : Z; d_GasTipCap : option Z; d_GasFeeCap : option Z; d_GasLimit : Z;
  d_To : string; d_Amount : option Z; d_Data : bytes; d_Accesses : option AccessList;
  d_V : bytes; d_R : bytes; d_S : bytes;
}.

Inductive TxData :=
  | TLegacy (tx : LegacyTx)
  | TAccessList (tx : AccessListTx)
  | TDynamic (tx : DynamicFeeTx).

Definition TxType (tx : TxData) : Z :=
  match tx with TLegacy _ => LegacyTxType | TAccessList _ => AccessListTxType | TDynamic _ => DynamicFeeTxType end.
Definition GetNonce (tx : TxData) : Z :=
  match tx with TLegacy tx => l_Nonce tx | TAccessList tx => a_Nonce tx | TDynamic tx => d_Nonce tx end.
Definition GetGas (tx : TxData) : Z :=
  match tx with TLegacy tx => l_GasLimit tx | TAccessList tx => a_GasLimit tx | TDynamic tx => d_GasLimit tx end.
Definition GetData (tx : TxData) : bytes :=
  match tx with TLegacy tx => l_Data tx | TAccessList tx => a_Data tx | TDynamic tx => d_Data tx end.
Definition GetValue (tx : TxData) : option Z :=
  match tx with TLegacy tx => l_Amount tx | TAccessList tx => a_Amount tx | TDynamic tx => d_Amount tx end.
Definition to_text (tx : TxData) : string :=
  match tx with TLegacy tx => l_To tx | TAccessList tx => a_To tx | TDynamic tx => d_To tx end.
Definition GetGasTipCap (tx : TxData) : option Z :=
  match tx with TLegacy tx => l_GasPrice tx | TAccessList tx => a_GasPrice tx | TDynamic tx => d_GasTipCap tx end.
Definition GetGasFeeCap (tx : TxData) : option Z :=
  match tx with TLegacy tx => l_GasPrice tx | TAccessList tx => a_GasPrice tx | TDynamic tx => d_GasFeeCap tx end.
Definition GetGasPrice (tx : TxData) : option Z :=
  match tx with TLegacy tx => l_GasPrice tx | TAccessList tx => a_GasPrice tx | TDynamic tx => GetGasFeeCap (TDynamic tx) end.
Definition GetRawSignatureValues (tx : TxData) : option Z * option Z * option Z :=
  match tx with
  | TLegacy tx => RawSignatureValues (l_V tx) (l_R tx) (l_S tx)
  | TAccessList tx => RawSignatureValues (a_V tx) (a_R tx) (a_S tx)
  | TDynamic tx => RawSignatureValues (d_V tx) (d_R tx) (d_S tx)
  end.
Definition GetChainID (tx : TxData) : option Z :=
  match tx with
  | TLegacy _ => DeriveChainID (GetRawSignatureValues tx).1.1
  | TAccessList tx => a_ChainID tx
  | TDynamic tx => d_ChainID tx
  end.

Definition Fee (tx : TxData) : res Z :=
  match tx with
  | TLegacy _ | TAccessList _ => fee (GetGasPrice tx) (GetGas tx)
  | TDynamic _ => fee (GetGasFeeCap tx) (GetGas tx)
  end.
Definition Cost (tx : TxData) : res Z := let? f := Fee tx in Ok (cost f (GetValue tx)).

(** The price of a legacy transaction may be nil: callers dereference it. *)
Definition tx_EffectiveGasPrice (tx : TxData) (baseFee : option Z) : res (option Z) :=
  match tx with
  | TLegacy _ | TAccessList _ => Ok (GetGasPrice tx)
  | TDynamic tx =>
      match d_GasFeeCap tx, d_GasTipCap tx with
      | Some feeCap, Some tipCap => let? p := EffectiveGasPrice baseFee feeCap tipCap in Ok (Some p)
      | _, _ => Panic "nil pointer dereference"
      end
  end.
Definition EffectiveFee (tx : TxData) (baseFee : option Z) : res Z :=
  match tx with
  | TLegacy _ | TAccessList _ => Fee tx
  | TDynamic _ => let? p := tx_EffectiveGasPrice tx baseFee in fee p (GetGas tx)
  end.
Definition EffectiveCost (tx : TxData) (baseFee : option Z) : res Z :=
  match tx with
  | TLegacy _ | TAccessList _ => Cost tx
  | TDynamic _ => let? f := EffectiveFee tx baseFee in Ok (cost f (GetValue tx))
  end.

(** ** Stateless validation *)

Section validate.
Context `{EthHex}.

Definition GetTo (tx : TxData) : option Address :=
  if bool_decide (to_text tx = "") then None else Some (HexToAddress (to_text tx)).
Definition GetAccessList (tx : TxData) : option EthAccessList :=
  match tx with
  | TLegacy _ => None
  | TAccessList tx => match a_Accesses tx with None => None | Some al => ToEthAccessList al end
  | TDynamic tx => match d_Accesses tx with None => None | Some al => ToEthAccessList al end
  end.

Definition check (c : bool) (k : errkind) (msg : string) : res unit :=
  if c then Err (Error k msg) else Ok tt.
Definition check_fee (tx : TxData) : res unit :=
  let? f := Fee tx in check (negb (IsValidInt256 (Some f))) ErrInvalidGasFee "out of bound".
Definition check_amount (tx : TxData) : res unit :=
  do? check (negative (GetValue tx)) ErrInvalidAmount "amount cannot be negative";
  check (negb (IsValidInt256 (GetValue tx))) ErrInvalidAmount "out of bound".
Definition check_to (tx : TxData) : res unit :=
  if bool_decide (to_text tx = "") then Ok tt else ValidateAddress (to_text tx).
Definition check_chain (tx : TxData) (msg : string) : res unit :=
  check (bool_decide (GetChainID tx = None)) ErrInvalidChainID msg.

Definition LegacyTx_Validate (tx : LegacyTx) : res unit :=
  match l_GasPrice tx with
  | None => Err (Error ErrInvalidGasPrice "gas price cannot be nil")
  | Some gasPrice =>
      do? check (gasPrice <? 0) ErrInvalidGasPrice "gas price cannot be negative";
      do? check (negb (IsValidInt256 (Some gasPrice))) ErrInvalidGasPrice "out of bound";
      do? check_fee (TLegacy tx);
      do? check_amount (TLegacy tx);
      do? check_to (TLegacy tx);
      check_chain (TLegacy tx) "chain ID must be derived from LegacyTx txs"
  end.

Definition AccessListTx_Validate (tx : AccessListTx) : res unit :=
  match a_GasPrice tx with
  | None => Err (Error ErrInvalidGasPrice "cannot be nil")
  | Some gasPrice =>
      do? check (negb (IsValidInt256 (Some gasPrice))) ErrInvalidGasPrice "out of bound";
      do? check (gasPrice <? 0) ErrInvalidGasPrice "gas price cannot be negative";
      do? check_amount (TAccessList tx);
      do? check_fee (TAccessList tx);
      do? check_to (TAccessList tx);
      check_chain (TAccessList tx) "chain ID must be present on AccessList txs"
  end.

Definition DynamicFeeTx_Validate (tx : DynamicFeeTx) : res unit :=
  match d_GasTipCap tx, d_GasFeeCap tx with
  | None, _ => Err (Error ErrInvalidGasCap "gas tip cap cannot nil")
  | _, None => Err (Error ErrInvalidGasCap "gas fee cap cannot nil")
  | Some gasTipCap, Some gasFeeCap =>
      do? check (gasTipCap <? 0) ErrInvalidGasCap "gas tip cap cannot be negative";
      do? check (gasFeeCap <? 0) ErrInvalidGasCap "gas fee cap cannot be negative";
      do? check (negb (IsValidInt256 (Some gasTipCap))) ErrInvalidGasCap "out of bound";
      do? check (negb (IsValidInt256 (Some gasFeeCap))) ErrInvalidGasCap "out of bound";
      do? check (gasFeeCap <? gasTipCap) ErrInvalidGasCap
            "max priority fee per gas higher than max fee per gas";
      do? check_fee (TDynamic tx);
      do? check_amount (TDynamic tx);
      do? check_to (TDynamic tx);
      check_chain (TDynamic tx) "chain ID must be present on DynamicFee txs"
  end.

Definition Validate (tx : TxData) : res unit :=
  match tx with
  | TLegacy tx => LegacyTx_Validate tx
  | TAccessList tx => AccessListTx_Validate tx
  | TDynamic tx => DynamicFeeTx_Validate tx
  end.
End validate.

(** * From and to go-ethereum *)

Section convert.
Context `{EthHex, EthTypes}.

(** [SafeNewIntFromBigInt] of a number that may be nil. *)
Definition safe_int (i : option Z) : res (option Z) :=
  match i with None => Ok None | Some i => let? z := SafeNewIntFromBigInt i in Ok (Some z) end.
Definition to_hex (to : option Address) : string := match to with Some a => Address_Hex a | None => "" end.

(** [SetSignatureValues]: a nil value leaves the field; the number of the chain
    is turned into an [sdkmath.Int], which panics beyond 256 bits. *)
Definition set_bytes (v : option Z) (old : bytes) : bytes := match v with Some v => big_bytes v | None => old end.
Definition set_chain (c old : option Z) : res (option Z) :=
  match c with Some c => let? z := int_chk c in Ok (Some z) | None => Ok old end.
Definition SetSignatureValues (tx : TxData) (chainID v r s : option Z) : res TxData :=
  match tx with
  | TLegacy (mkLegacyTx n p g to am data V R Sg) =>
      Ok (TLegacy (mkLegacyTx n p g to am data (set_bytes v V) (set_bytes r R) (set_bytes s Sg)))
  | TAccessList (mkAccessListTx c n p g to am data al V R Sg) =>
      let? c := set_chain chainID c in
      Ok (TAccessList (mkAccessListTx c n p g to am data al (set_bytes v V) (set_bytes r R) (set_bytes s Sg)))
  | TDynamic (mkDynamicFeeTx c n t p g to am data al V R Sg) =>
      let? c := set_chain chainID c in
      Ok (TDynamic (mkDynamicFeeTx c n t p g to am data al (set_bytes v V) (set_bytes r R) (set_bytes s Sg)))
  end.
Definition sign_from (tx : Transaction) (td : TxData) : res TxData :=
  let '(v, r, s) := tx_RawSignatureValues tx in SetSignatureValues td (tx_ChainId tx) v r s.

Definition NewLegacyTx (tx : Transaction) : res TxData :=
  let? amount := safe_int (tx_Value tx) in
  let? gasPrice := safe_int (tx_GasPrice tx) in
  sign_from tx (TLegacy (mkLegacyTx (tx_Nonce tx) gasPrice (tx_Gas tx) (to_hex (tx_To tx)) amount
    (tx_Data tx) [] [] [])).
Definition newAccessListTx (tx : Transaction) : res TxData :=
  let? amount := safe_int (tx_Value tx) in
  let? gasPrice := safe_int (tx_GasPrice tx) in
  sign_from tx (TAccessList (mkAccessListTx None (tx_Nonce tx) gasPrice (tx_Gas tx) (to_hex (tx_To tx)) amount
    (tx_Data tx) (NewAccessList (tx_AccessList tx)) [] [] [])).
Definition NewDynamicFeeTx (tx : Transaction) : res TxData :=
  let? amount := safe_int (tx_Value tx) in
  let? gasFeeCap := safe_int (tx_GasFeeCap tx) in
  let? gasTipCap := safe_int (tx_GasTipCap tx) in
  sign_from tx (TDynamic (mkDynamicFeeTx None (tx_Nonce tx) gasTipCap gasFeeCap (tx_Gas tx) (to_hex (tx_To tx))
    amount (tx_Data tx) (NewAccessList (tx_AccessList tx)) [] [] [])).

Definition NewTxDataFromTx (tx : Transaction) : res TxData :=
  if tx_Type tx =? DynamicFeeTxType then NewDynamicFeeTx tx
  else if tx_Type tx =? AccessListTxType then newAccessListTx tx
  else NewLegacyTx tx.

Definition fields_of (tx : TxData) : eth_fields :=
  let '(v, r, s) := GetRawSignatureValues tx in
  mkEth (GetNonce tx) (GetGas tx) (GetTo tx) (GetValue tx) (GetData tx) v r s.
Definition AsEthereumData (tx : TxData) : EthTxData :=
  match tx with
  | TLegacy _ => EthLegacyTx (fields_of tx) (GetGasPrice tx)
  | TAccessList _ => EthAccessListTx (fields_of tx) (GetChainID tx) (GetGasPrice tx) (GetAccessList tx)
  | TDynamic _ =>
      EthDynamicFeeTx (fields_of tx) (GetChainID tx) (GetGasTipCap tx) (GetGasFeeCap tx) (GetAccessList tx)
  end.

(** * The message ([msg.go]) *)

(** [Data] is the unpacked [Any]; [None] is a value that does not unpack. *)
Record MsgEthereumTx := mkMsgEth { m_Data : option TxData; m_Size : Z; m_Hash : string; m_From : string }.

Definition FromEthereumTx (msg : MsgEthereumTx) (tx : Transaction) : res MsgEthereumTx :=
  let? txData := NewTxDataFromTx tx in
  Ok (mkMsgEth (Some txData) (m_Size msg) (Hash_Hex (tx_Hash tx)) (m_From msg)).

Definition AsTransaction (msg : MsgEthereumTx) : option Transaction :=
  match m_Data msg with Some d => Some (NewTx (AsEthereumData d)) | None => None end.

Definition MsgEthereumTx_ValidateBasic (msg : MsgEthereumTx) : res unit :=
  do? (if bool_decide (m_From msg = "") then Ok tt else ValidateAddress (m_From msg));
  do? check (negb (m_Size msg =? 0)) ErrInvalidRequest "tx size is deprecated";
  match m_Data msg with
  | None => Err (Error ErrOther "failed to unpack tx data")
  | Some txData =>
      let gas := GetGas txData in
      do? check (gas =? 0) ErrInvalidGasLimit "gas limit must not be zero";
      do? check (negb (is_int64 gas)) ErrGasOverflow "gas limit must be less than math.MaxInt64";
      do? Validate txData;
      let txHash := Hash_Hex (tx_Hash (NewTx (AsEthereumData txData))) in
      check (negb (bool_decide (m_Hash msg = txHash))) ErrInvalidRequest "invalid tx hash"
  end.

Definition msg_GetGas (msg : MsgEthereumTx) : Z := match m_Data msg with Some d => GetGas d | None => 0 end.
Definition msg_GetFee (msg : MsgEthereumTx) : res (option Z) :=
  match m_Data msg with Some d => let? f := Fee d in Ok (Some f) | None => Ok None end.
Definition GetEffectiveFee (msg : MsgEthereumTx) (baseFee : option Z) : res (option Z) :=
  match m_Data msg with Some d => let? f := EffectiveFee d baseFee in Ok (Some f) | None => Ok None end.
(** The bytes of the address; nil when [From] is empty. *)
Definition GetFrom (msg : MsgEthereumTx) : option Address :=
  if bool_decide (m_From msg = "") then None else Some (HexToAddress (m_From msg)).
End convert.

(** * Priority and gas search ([tx.go], [utils.go]) *)

Definition DefaultPriorityReduction : Z := 10 ^ 6.

Definition GetTxPriority (txData : TxData) (baseFee : option Z) : res Z :=
  let? tipPrice := tx_EffectiveGasPrice txData baseFee in
  match tipPrice with
  | None => Panic "nil pointer dereference"
  | Some tipPrice =>
      let tipPrice := match baseFee with Some b => tipPrice - b | None => tipPrice end in
      let priorityBig := Z.quot tipPrice DefaultPriorityReduction in
      Ok (if is_int64 priorityBig then priorityBig else max_int64)
  end.

(** [BinSearch]; [executable] says whether the run with that gas failed.  Go adds
    and halves [uint64] values.  [fuel] bounds the rounds. *)
Fixpoint BinSearch (fuel : nat) (lo hi : Z) (executable : Z -> res bool) : option (res Z) :=
  if negb (wrap64 (lo + 1) <? hi) then Some (Ok hi)
  else match fuel with
  | O => None
  | S fuel =>
      let mid := wrap64 (hi + lo) / 2 in
      match executable mid with
      | Ok failed => if failed then BinSearch fuel mid hi executable else BinSearch fuel lo mid executable
      | Err e => Some (Err e)
      | Panic m => Some (Panic m)
      end
  end.
