(* ===== verification/TxDataThms.v ===== *)
(** Ethereum transactions: validation is exact and bounds what a transaction may
    cost, conversion to and from go-ethereum loses nothing, and the gas search
    of the estimator ends at the least gas that works. *)
From S2P Require Import Prelude KVStore Sdk StateDB TxData.

(** * Checks *)

Lemma seq_ok (a b : res unit) : (do? a; b) = Ok tt <-> a = Ok tt /\ b = Ok tt.
Proof. destruct a as [[]| |]; simpl; naive_solver. Qed.
Lemma check_ok c k msg : check c k msg = Ok tt <-> c = false.
Proof. unfold check. destruct c; naive_solver. Qed.
Lemma fits_pos z : 0 <= z -> int_fits z = true <-> z < 2 ^ 256.
Proof. intros Hz. unfold int_fits. rewrite Z.abs_eq by lia. apply Z.ltb_lt. Qed.

Definition amount_ok (v : option Z) : Prop := forall z, v = Some z -> 0 <= z < 2 ^ 256.

Section validate.
Context `{EthHex}.

Lemma check_amount_ok tx : check_amount tx = Ok tt <-> amount_ok (GetValue tx).
Proof.
  unfold check_amount, amount_ok. rewrite seq_ok, !check_ok, negb_false_iff.
  destruct (GetValue tx) as [v|]; simpl; [|naive_solver]. rewrite Z.ltb_ge. split.
  - intros [Hn Hf] z [= <-]. rewrite fits_pos in Hf by done. done.
  - intros Hv. specialize (Hv v eq_refl). rewrite fits_pos by lia. lia.
Qed.

Lemma check_fee_ok tx p :
  GetGasFeeCap tx = Some p -> 0 <= p -> 0 <= GetGas tx ->
  Fee tx = Ok (p * GetGas tx) /\ (check_fee tx = Ok tt <-> p * GetGas tx < 2 ^ 256).
Proof.
  intros Hp Hn Hg. assert (Fee tx = Ok (p * GetGas tx)) as HF.
  { destruct tx; simpl in *; unfold fee; by rewrite Hp. }
  split; [done|]. unfold check_fee. rewrite HF. cbn [rbind]. rewrite check_ok, negb_false_iff.
  simpl. apply fits_pos. nia.
Qed.

Lemma check_to_ok tx : check_to tx = Ok tt <-> to_text tx = "" \/ IsHexAddress (to_text tx) = true.
Proof.
  unfold check_to, ValidateAddress. case_bool_decide; [naive_solver|].
  destruct (IsHexAddress (to_text tx)); naive_solver.
Qed.
Lemma check_chain_ok tx msg : check_chain tx msg = Ok tt <-> GetChainID tx <> None.
Proof. unfold check_chain. rewrite check_ok, bool_decide_eq_false. done. Qed.

(** The prices of a transaction: a legacy one has one price for tip and fee. *)
Definition prices_ok (tx : TxData) (tip cap : Z) : Prop :=
  GetGasTipCap tx = Some tip /\ GetGasFeeCap tx = Some cap /\ 0 <= tip <= cap /\ cap < 2 ^ 256.
Definition tx_valid (tx : TxData) (tip cap : Z) : Prop :=
  prices_ok tx tip cap /\ cap * GetGas tx < 2 ^ 256 /\ amount_ok (GetValue tx) /\
  (to_text tx = "" \/ IsHexAddress (to_text tx) = true) /\ GetChainID tx <> None.

Lemma Validate_spec tx :
  0 <= GetGas tx -> Validate tx = Ok tt <-> exists tip cap, tx_valid tx tip cap.
Proof.
  intros Hg. unfold tx_valid, prices_ok.
  destruct tx as [tx|tx|tx]; simpl Validate;
    [unfold LegacyTx_Validate|unfold AccessListTx_Validate|unfold DynamicFeeTx_Validate];
    simpl GetGasTipCap; simpl GetGasFeeCap.
  - destruct (l_GasPrice tx) as [p|] eqn:Hp; [|naive_solver].
    rewrite !seq_ok, !check_ok, check_amount_ok, check_to_ok, check_chain_ok, negb_false_iff, Z.ltb_ge.
    destruct (Z.lt_decidable p 0) as [|Hn].
    { split; [lia|]. intros (? & ? & (? & ? & ? & ?) & _). simplify_eq. lia. }
    destruct (check_fee_ok (TLegacy tx) p Hp ltac:(lia) Hg) as [_ ->]. simpl IsValidInt256.
    rewrite fits_pos by lia. split; [intros; exists p, p; naive_solver lia|naive_solver lia].
  - destruct (a_GasPrice tx) as [p|] eqn:Hp; [|naive_solver].
    rewrite !seq_ok, !check_ok, check_amount_ok, check_to_ok, check_chain_ok, negb_false_iff, Z.ltb_ge.
    destruct (Z.lt_decidable p 0) as [|Hn].
    { split; [lia|]. intros (? & ? & (? & ? & ? & ?) & _). simplify_eq. lia. }
    destruct (check_fee_ok (TAccessList tx) p Hp ltac:(lia) Hg) as [_ ->]. simpl IsValidInt256.
    rewrite fits_pos by lia. split; [intros; exists p, p; naive_solver lia|naive_solver lia].
  - destruct (d_GasTipCap tx) as [t|] eqn:Ht; [|naive_solver].
    destruct (d_GasFeeCap tx) as [p|] eqn:Hp; [|naive_solver].
    rewrite !seq_ok, !check_ok, check_amount_ok, check_to_ok, check_chain_ok, !negb_false_iff, !Z.ltb_ge.
    destruct (Z.lt_decidable p 0) as [|Hn].
    { split; [lia|]. intros (? & ? & (? & ? & ? & ?) & _). simplify_eq. lia. }
    destruct (Z.lt_decidable t 0) as [|Hn'].
    { split; [lia|]. intros (? & ? & (? & ? & ? & ?) & _). simplify_eq. lia. }
    destruct (check_fee_ok (TDynamic tx) p Hp ltac:(lia) Hg) as [_ ->]. simpl IsValidInt256.
    rewrite !fits_pos by lia. split; [intros; exists t, p; naive_solver lia|naive_solver lia].
Qed.

(** What one unit of gas costs with a base fee. *)
Definition price_at (tx : TxData) (b tip cap : Z) : Z :=
  match tx with TDynamic _ => Z.min (tip + b) cap | _ => cap end.

Lemma effective_price tx b tip cap :
  prices_ok tx tip cap -> tx_EffectiveGasPrice tx (Some b) = Ok (Some (price_at tx b tip cap)) /\
  EffectiveFee tx (Some b) = Ok (price_at tx b tip cap * GetGas tx) /\
  Fee tx = Ok (cap * GetGas tx) /\ Cost tx = Ok (cap * GetGas tx + default 0 (GetValue tx)).
Proof.
  intros (Ht & Hp & _). assert (Fee tx = Ok (cap * GetGas tx)) as HF.
  { destruct tx; simpl in *; unfold fee; by rewrite Hp. }
  assert (Cost tx = Ok (cap * GetGas tx + default 0 (GetValue tx))) as HC.
  { unfold Cost. rewrite HF. simpl. unfold cost. destruct (GetValue tx); simpl; f_equal; lia. }
  destruct tx as [tx|tx|tx]; [by simpl in *; rewrite Hp..|]. simpl in Ht, Hp. simpl. rewrite Ht, Hp.
  assert ((if tip + b <? cap then tip + b else cap) = Z.min (tip + b) cap) as E
    by (destruct (Z.ltb_spec (tip + b) cap); lia).
  unfold EffectiveGasPrice. cbn [rbind fee]. rewrite E. split_and!; done.
Qed.

(** Validate accepts a transaction exactly when its tip does not exceed its
    fee cap, both and the amount are unsigned 256-bit numbers, the fee of its gas
    fits 256 bits, the recipient is an address and the chain is known; and for
    such a transaction the price at a base fee is the least of tip plus base fee
    and cap (a legacy price as it is), the effective fee never exceeds the fee,
    and the cost is the fee and the value. *)
Theorem Validate_exact tx :
  0 <= GetGas tx < 2 ^ 64 ->
  (Validate tx = Ok tt <-> exists tip cap, tx_valid tx tip cap) /\
  (Validate tx = Ok tt -> forall b, 0 <= b -> exists tip cap, let p := price_at tx b tip cap in
     prices_ok tx tip cap /\ 0 <= p <= cap /\
     tx_EffectiveGasPrice tx (Some b) = Ok (Some p) /\
     EffectiveFee tx (Some b) = Ok (p * GetGas tx) /\ Fee tx = Ok (cap * GetGas tx) /\
     p * GetGas tx <= cap * GetGas tx < 2 ^ 256 /\
     Cost tx = Ok (cap * GetGas tx + default 0 (GetValue tx))).
Proof.
  intros Hg. split; [apply Validate_spec; lia|]. intros Hv b Hb. apply Validate_spec in Hv as (tip & cap & Hp & Hf & _); [|lia].
  exists tip, cap. destruct (effective_price tx b tip cap Hp) as (E1 & E2 & E3 & E4). destruct Hp as (? & ? & ? & ?).
  assert (0 <= price_at tx b tip cap <= cap) by (destruct tx; simpl; lia). split_and!; try done; nia.
Qed.
End validate.

(** * Round trip with go-ethereum *)

Lemma big_len_bound n : 0 <= n -> n < 256 ^ Z.of_nat (big_len n).
Proof.
  intros Hn. unfold big_len. destruct (Z.eqb_spec n 0) as [->|Hz]; [done|].
  rewrite Z.abs_eq by lia. pose proof (Z.log2_nonneg n) as Hl. pose proof (Z.div_pos (Z.log2 n) 8 Hl ltac:(lia)).
  rewrite Z2Nat.id by lia. change 256 with (2 ^ 8). rewrite <- Z.pow_mul_r by lia.
  apply Z.log2_lt_pow2; [lia|]. pose proof (Z.div_mod (Z.log2 n) 8 ltac:(lia)).
  pose proof (Z.mod_pos_bound (Z.log2 n) 8). lia.
Qed.

Lemma big_bytes_raw n : 0 <= n -> set_ (raw_value (big_bytes n)) = Some n.
Proof.
  intros Hn. assert (be_decode 0 (big_bytes n) = n) as E.
  { unfold big_bytes. rewrite Z.abs_eq by lia. apply be_roundtrip. split; [done|]. by apply big_len_bound. }
  unfold raw_value. destruct (big_bytes n) eqn:Hb; simpl in *; [by rewrite <- E|]. unfold set_. simpl. by rewrite E.
Qed.

Section roundtrip.
Context `{EthHex, !EthHexLaws, EthTypes, !EthTypesLaws}.

Definition number_ok (n : option Z) : Prop := forall z, n = Some z -> Z.abs z < 2 ^ 256.
Definition unsigned (n : option Z) : Prop := forall z, n = Some z -> 0 <= z.
Definition accesses_ok (al : option EthAccessList) : Prop :=
  Forall (fun t => address_ok t.1 /\ Forall hash_ok t.2) (default [] al).
(** The transactions of the network: 160-bit addresses, 256-bit amounts and
    prices, signature values without a sign. *)
Definition eth_ok (d : EthTxData) : Prop :=
  let f := eth_common d in
  (forall a, e_to f = Some a -> address_ok a) /\ number_ok (e_value f) /\
  unsigned (e_v f) /\ unsigned (e_r f) /\ unsigned (e_s f) /\
  match d with
  | EthLegacyTx _ p => number_ok p
  | EthAccessListTx _ c p al => number_ok c /\ number_ok p /\ accesses_ok al
  | EthDynamicFeeTx _ c t p al => number_ok c /\ number_ok t /\ number_ok p /\ accesses_ok al
  end.

Lemma int_chk_number n : number_ok n -> int_chk (default 0 n) = Ok (default 0 n).
Proof.
  intros Hn. unfold int_chk, int_fits. destruct n as [z|]; [|done]. specialize (Hn z eq_refl).
  simpl. by rewrite (proj2 (Z.ltb_lt _ _) Hn).
Qed.
Lemma safe_int_number n : number_ok n -> safe_int (set_ n) = Ok (set_ n).
Proof.
  intros Hn. pose proof (int_chk_number n Hn) as E. unfold safe_int, set_, SafeNewIntFromBigInt. simpl.
  rewrite E. unfold int_chk in E. by destruct (int_fits (default 0 n)).
Qed.
Lemma set_chain_number n old : number_ok n -> set_chain (set_ n) old = Ok (set_ n).
Proof. intros Hn. unfold set_chain, set_. by rewrite int_chk_number. Qed.

Lemma raw_set_bytes v : unsigned v -> set_ (raw_value (set_bytes (set_ v) [])) = set_ v.
Proof.
  intros Hv. unfold set_bytes. simpl. rewrite big_bytes_raw; [done|]. destruct v; simpl; [by apply Hv|done].
Qed.

Lemma to_hex_back to : (forall a, to = Some a -> address_ok a) ->
  (if bool_decide (to_hex to = "") then None else Some (HexToAddress (to_hex to))) = to.
Proof.
  intros Ht. destruct to as [a|]; simpl; [|done].
  rewrite bool_decide_false by apply hex_address_text. by rewrite hex_address by auto.
Qed.

Lemma accesses_back al : accesses_ok al ->
  Some (default [] (match NewAccessList (Some (default [] al)) with
                    | None => None | Some l => ToEthAccessList l end)) = Some (default [] al).
Proof.
  unfold accesses_ok. generalize (default [] al). intros l Hl. simpl. f_equal.
  assert (map (fun t => (HexToAddress (at_Address t), map HexToHash (at_StorageKeys t)))
            (map (fun t => mkTuple (Address_Hex t.1) (map Hash_Hex t.2)) l) = l) as E.
  { induction Hl as [|[a ks] l [Ha Hk] _ IH]; [done|]. simpl in *. rewrite IH, hex_address by done. f_equal. f_equal.
    induction Hk as [|k ks Hk _ IHk]; [done|]. simpl. by rewrite IHk, hex_hash. }
  unfold ToEthAccessList. destruct l; [done|]. simpl in *. by rewrite E.
Qed.

(** The fields of the copy that comes back. *)
Lemma fields_back f td :
  (forall a, e_to f = Some a -> address_ok a) -> unsigned (e_v f) -> unsigned (e_r f) -> unsigned (e_s f) ->
  GetNonce td = e_nonce f -> GetGas td = e_gas f -> to_text td = to_hex (e_to f) ->
  GetValue td = set_ (e_value f) -> GetData td = e_data f ->
  GetRawSignatureValues td = RawSignatureValues (set_bytes (set_ (e_v f)) []) (set_bytes (set_ (e_r f)) [])
    (set_bytes (set_ (e_s f)) []) ->
  copy_fields (fields_of td) = copy_fields f.
Proof.
  intros Ht Hv Hr Hs E1 E2 E3 E4 E5 E6. unfold fields_of. rewrite E6. unfold copy_fields, RawSignatureValues.
  cbn [e_nonce e_gas e_to e_value e_data e_v e_r e_s].
  unfold GetTo. rewrite E1, E2, E3, E4, E5, to_hex_back by done. by rewrite !raw_set_bytes by done.
Qed.

Lemma NewTxDataFromTx_back d :
  eth_ok d -> exists td, NewTxDataFromTx (NewTx d) = Ok td /\ NewTx (AsEthereumData td) = NewTx d.
Proof.
  intros (Hto & Hv & HV & HR & HS & Hk).
  pose proof (tx_common d) as Hc. pose proof (tx_typed d) as Ht. pose proof (tx_chain d) as Hch. cbv zeta in *.
  destruct Hc as (C1 & C2 & C3 & C4 & C5 & C6). destruct Ht as (T1 & T2 & T3).
  unfold NewTxDataFromTx. rewrite T1.
  destruct d as [f p|f c p al|f c t p al]; simpl in C1, C2, C3, C4, C5, C6, T2, T3, Hch, Hto, Hv, HV, HR, HS, Hk;
    injection T2 as P1 P2 P3; simpl.
  - unfold NewLegacyTx, sign_from. rewrite C5, P1, !safe_int_number by done. simpl. rewrite C1, C2, C3, C4, C6. simpl.
    eexists. split; [done|]. rewrite <- tx_copy, <- (tx_copy (EthLegacyTx f p)). f_equal.
    cbn [AsEthereumData eth_copy]. f_equal. by apply fields_back.
  - destruct Hk as (Kc & Kp & Ka). unfold newAccessListTx, sign_from. rewrite C5, P1, !safe_int_number by done. simpl.
    rewrite C1, C2, C3, C4, C6, Hch, T3. cbn [SetSignatureValues]. rewrite set_chain_number by done. cbn [rbind].
    eexists. split; [done|]. rewrite <- tx_copy, <- (tx_copy (EthAccessListTx f c p al)). f_equal.
    cbn [AsEthereumData eth_copy]. f_equal; [by apply fields_back|by apply accesses_back].
  - destruct Hk as (Kc & Kt & Kp & Ka). unfold NewDynamicFeeTx, sign_from.
    rewrite C5, P2, P3, !safe_int_number by done. simpl.
    rewrite C1, C2, C3, C4, C6, Hch, T3. cbn [SetSignatureValues]. rewrite set_chain_number by done. cbn [rbind].
    eexists. split; [done|]. rewrite <- tx_copy, <- (tx_copy (EthDynamicFeeTx f c t p al)). f_equal.
    cbn [AsEthereumData eth_copy]. f_equal; [by apply fields_back|by apply accesses_back].
Qed.

(** C39. A transaction of go-ethereum taken into a message and read back from it
    is the same transaction, whatever its type, so the hash the message carries
    is the one its validation recomputes. *)
Theorem FromEthereumTx_roundtrip d msg0 :
  eth_ok d ->
  exists msg, FromEthereumTx msg0 (NewTx d) = Ok msg /\ AsTransaction msg = Some (NewTx d) /\
    m_Hash msg = Hash_Hex (tx_Hash (NewTx d)).
Proof.
  intros Hd. destruct (NewTxDataFromTx_back d Hd) as (td & Hn & Hb). unfold FromEthereumTx. rewrite Hn. simpl.
  eexists. split; [done|]. split; [unfold AsTransaction; simpl; by rewrite Hb|done].
Qed.
End roundtrip.

(** * The gas search *)

(** Where a search ends. *)
Lemma BinSearch_ends_at fuel lo hi executable :
  0 <= lo < hi -> hi < 2 ^ 63 -> hi - lo <= 2 ^ Z.of_nat fuel ->
  exists r, BinSearch fuel lo hi executable = Some r /\
    match r with
    | Ok g => lo < g <= hi /\ (g = hi \/ executable g = Ok false) /\ (g - 1 = lo \/ executable (g - 1) = Ok true)
    | Err e => exists g, lo < g < hi /\ executable g = Err e
    | Panic m => exists g, lo < g < hi /\ executable g = Panic m
    end.
Proof.
  revert lo hi. induction fuel as [|fuel IH]; intros lo hi Hlo Hhi Hf.
  - exists (Ok hi). simpl in *. unfold wrap64. rewrite Z.mod_small by lia.
    destruct (Z.ltb_spec (lo + 1) hi); [lia|]. simpl. split_and!; [done|lia..|lia|lia].
  - simpl. unfold wrap64. rewrite !Z.mod_small by lia.
    destruct (Z.ltb_spec (lo + 1) hi) as [Hlt|Hge]; simpl; [|exists (Ok hi); split_and!; [done|lia..|lia|lia]].
    rewrite Nat2Z.inj_succ, Z.pow_succ_r in Hf by lia.
    pose proof (Z.div_mod (hi + lo) 2 ltac:(lia)) as Hm. pose proof (Z.mod_pos_bound (hi + lo) 2 ltac:(lia)).
    set (mid := (hi + lo) / 2) in *. destruct (executable mid) as [[|]|e|m] eqn:Hmid; [| |by eexists; split; [done|]; exists mid; split; [lia|]..].
    + destruct (IH mid hi) as (r & Hg & Hr); [lia|lia|lia|]. exists r. split; [done|].
      destruct r as [g|e|m]; [|destruct Hr as (g & ? & ?); exists g; split; [lia|done]..].
      destruct Hr as (? & Hw & Hb). split_and!; [lia..|done|]. destruct Hb as [Hb|]; [right; by rewrite Hb|by right].
    + destruct (IH lo mid) as (r & Hg & Hr); [lia|lia|lia|]. exists r. split; [done|].
      destruct r as [g|e|m]; [|destruct Hr as (g & ? & ?); exists g; split; [lia|done]..].
      destruct Hr as (? & Hw & Hb). split_and!; [lia..| |done]. destruct Hw as [->|]; by right.
Qed.
