(* ===== verification/VmParams.v ===== *)
(** Parameters of x/vm, who may create and call contracts, and which precompiles
    are active ([x/vm/types/params.go], [types/permissions.go],
    [keeper/params.go], [keeper/static_precompiles.go], [keeper/precompiles.go],
    [keeper/msg_server.go], [types/opcodes_hooks.go]). *)
From S2P Require Import Prelude KVStore Sdk StateDB TxData TxDataThms.

Inductive AccessType := Permissionless | Restricted | Permissioned | OtherAccess (n : Z).
#[global] Instance AccessType_eq_dec : EqDecision AccessType.
Proof. solve_decision. Defined.

Record AccessControlType := mkAccess { ac_type : AccessType; AccessControlList : list string }.
Record AccessControl := mkControl { Create : AccessControlType; Call : AccessControlType }.

Record VmParams := mkVmParams {
  EvmDenom : string;
  ExtraEIPs : list Z;
  AllowUnprotectedTxs : bool;
  EVMChannels : list string;
  Access : AccessControl;
  ActiveStaticPrecompiles : list string;
}.

Definition DefaultAccessControl : AccessControl := mkControl (mkAccess Permissionless []) (mkAccess Permissionless []).
Definition vm_DefaultParams : VmParams := mkVmParams "agxn" [] false [] DefaultAccessControl [].
(** The zero value of the structure: no parameters stored. *)
Definition vm_zero_params : VmParams := mkVmParams "" [] false [] DefaultAccessControl [].

(** Go compares strings bytewise. *)
Definition str_le (s t : string) : Prop := bytes_le (str_bytes s) (str_bytes t) = true.
#[global] Instance str_le_dec s t : Decision (str_le s t).
Proof. unfold str_le. apply _. Defined.
(** [slices.Sort] and [utils.SortSlice] *)
Definition sort_strings (l : list string) : list string := merge_sort str_le l.
(** [slices.IsSorted] *)
Fixpoint is_sorted (l : list string) : bool :=
  match l with
  | x :: (y :: _) as l' => bool_decide (str_le x y) && is_sorted l'
  | _ => true
  end.

(** * Validation *)

Section validate.
Context `{EthHex}.
(** [vm.ValidEip] of go-ethereum, [host.ChannelIdentifierValidator] of ibc-go. *)
Variable ValidEip : Z -> bool.
Variable ChannelIdentifierValidator : string -> res unit.

Definition validateChannels (channels : list string) : res unit :=
  each_res (fun c => match ChannelIdentifierValidator c with
                     | Err _ => Err (Error ErrOther "invalid channel identifier")
                     | r => r
                     end) channels.

Fixpoint validate_eips (seen eips : list Z) : res unit :=
  match eips with
  | [] => Ok tt
  | eip :: eips =>
      if negb (ValidEip eip) then Err (Error ErrOther "EIP is not activateable")
      else if bool_decide (eip ∈ seen) then Err (Error ErrOther "found duplicate EIP")
      else validate_eips (eip :: seen) eips
  end.
Definition validateEIPs (eips : list Z) : res unit := validate_eips [] eips.

Fixpoint validate_precompiles (seen l : list string) : res unit :=
  match l with
  | [] => Ok tt
  | p :: l =>
      if bool_decide (p ∈ seen) then Err (Error ErrOther "duplicate precompile")
      else match ValidateAddress p with
           | Ok _ => validate_precompiles (p :: seen) l
           | _ => Err (Error ErrOther "invalid precompile")
           end
  end.
Definition ValidatePrecompiles (l : list string) : res unit :=
  do? validate_precompiles [] l;
  if negb (is_sorted l) then Err (Error ErrOther "precompiles need to be sorted") else Ok tt.

Definition validateAccessType (t : AccessType) : res unit :=
  match t with
  | Permissionless | Restricted | Permissioned => Ok tt
  | OtherAccess _ => Err (Error ErrOther "invalid access type")
  end.
Definition validateAllowlistAddresses (l : list string) : res unit :=
  each_res (fun a => match ValidateAddress a with
                     | Ok _ => Ok tt
                     | _ => Err (Error ErrOther "invalid whitelist address")
                     end) l.
Definition AccessControlType_Validate (act : AccessControlType) : res unit :=
  do? validateAccessType (ac_type act); validateAllowlistAddresses (AccessControlList act).
Definition AccessControl_Validate (ac : AccessControl) : res unit :=
  do? AccessControlType_Validate (Create ac); AccessControlType_Validate (Call ac).

Definition vm_Params_Validate (p : VmParams) : res unit :=
  do? validateEIPs (ExtraEIPs p);
  do? ValidatePrecompiles (ActiveStaticPrecompiles p);
  do? AccessControl_Validate (Access p);
  validateChannels (EVMChannels p).

(** * Reading and writing ([keeper/params.go]) *)

Definition vm_GetParams (s : option VmParams) : VmParams := default vm_zero_params s.

Definition with_precompiles (l : list string) (p : VmParams) : VmParams :=
  mkVmParams (EvmDenom p) (ExtraEIPs p) (AllowUnprotectedTxs p) (EVMChannels p) (Access p) l.
Definition with_eips (l : list Z) (p : VmParams) : VmParams :=
  mkVmParams (EvmDenom p) l (AllowUnprotectedTxs p) (EVMChannels p) (Access p) (ActiveStaticPrecompiles p).

Definition vm_SetParams (params : VmParams) : M (option VmParams) unit :=
  let params := with_precompiles (sort_strings (ActiveStaticPrecompiles params)) params in
  do! lift (vm_Params_Validate params);
  modify (fun _ => Some params).

(** Every address of the call is compared with the existing ones only. *)
Definition appendPrecompiles (existing : list string) (addresses : list Address) : res (list string) :=
  do? each_res (fun a => if bool_decide (Address_Hex a ∈ existing)
                         then Err (Error ErrOther "precompile already registered") else Ok tt) addresses;
  Ok (sort_strings (existing ++ map Address_Hex addresses)).

Definition EnableStaticPrecompiles (addresses : list Address) : M (option VmParams) unit :=
  let! params := gets vm_GetParams in
  let! updated := lift (appendPrecompiles (ActiveStaticPrecompiles params) addresses) in
  vm_SetParams (with_precompiles updated params).

Definition EnableEIPs (eips : list Z) : M (option VmParams) unit :=
  let! params := gets vm_GetParams in
  vm_SetParams (with_eips (merge_sort Z.le (ExtraEIPs params ++ eips)) params).

Definition vm_UpdateParams (authority reqAuthority : string) (p : VmParams) : M (option VmParams) unit :=
  if negb (bool_decide (authority = reqAuthority)) then fail ErrInvalidSigner "invalid authority"
  else vm_SetParams p.

Definition GetActiveStaticPrecompilesAddrs (p : VmParams) : list Address :=
  map HexToAddress (ActiveStaticPrecompiles p).
Definition IsEVMChannel (p : VmParams) (channel : string) : bool := bool_decide (channel ∈ EVMChannels p).

(** * Precompiles *)

(** [vm.PrecompiledAddressesPrague] of go-ethereum and the contracts the
    application registered. *)
Variable PrecompiledAddressesPrague : list Address.
Variable registered : Address -> bool.
(** [erc20Keeper.GetERC20PrecompileInstance] *)
Variable GetERC20PrecompileInstance : Address -> res bool.

Definition IsAvailableStaticPrecompile (p : VmParams) (a : Address) : bool :=
  bool_decide (Address_Hex a ∈ ActiveStaticPrecompiles p) || bool_decide (a ∈ PrecompiledAddressesPrague).
(** Whether an instance is returned. *)
Definition GetStaticPrecompileInstance (p : VmParams) (a : Address) : res bool :=
  if IsAvailableStaticPrecompile p a then
    if registered a then Ok true else Panic "precompiled contract not stored in memory"
  else Ok false.
Definition GetPrecompileInstance (p : VmParams) (a : Address) : res bool :=
  let? found := GetStaticPrecompileInstance p a in
  if found then Ok true else GetERC20PrecompileInstance a.

(** The hook before a call: a precompile's address is warm. *)
Definition GetPrecompilesCallHook `{StateKeeper} (p : VmParams) (recipient : Address) : M StateDB unit :=
  let! found := lift (GetPrecompileInstance p recipient) in
  if found then AddAddressToAccessList recipient else ret tt.

(** * Who may create and call ([types/permissions.go]) *)

Definition permissionlessCheckFn (addresses : list string) (signer caller : Address) : bool :=
  let isSignerBlocked := negb (bool_decide (Address_Hex signer ∈ addresses)) in
  isSignerBlocked && negb (bool_decide (Address_Hex caller ∈ addresses)).
Definition permissionedCheckFn (addresses : list string) (signer caller : Address) : bool :=
  let isSignerAllowed := bool_decide (Address_Hex signer ∈ addresses) in
  isSignerAllowed || bool_decide (Address_Hex caller ∈ addresses).

Definition getCanFn (act : AccessControlType) (signer caller : Address) : bool :=
  match ac_type act with
  | Permissionless => permissionlessCheckFn (AccessControlList act) signer caller
  | Restricted => false
  | Permissioned => permissionedCheckFn (AccessControlList act) signer caller
  | OtherAccess _ => false
  end.
Definition getCanCreateFn (ac : AccessControl) : Address -> Address -> bool := getCanFn (Create ac).
Definition getCanCallFn (ac : AccessControl) : Address -> Address -> bool := getCanFn (Call ac).

Definition GetCallHook (ac : AccessControl) (signer caller recipient : Address) : res unit :=
  if getCanCallFn ac signer caller then Ok tt
  else Err (Error ErrOther "caller address does not have permission to perform a call").
Definition GetCreateHook (ac : AccessControl) (signer caller : Address) : res unit :=
  if getCanCreateFn ac signer caller then Ok tt
  else Err (Error ErrOther "caller address does not have permission to deploy contracts").
End validate.

(** * Theorems

    The parameters of x/vm stay valid, precompiles are enabled exactly, and the
    spelling of an address decides whether a block list applies to it. *)

Lemma is_sorted_spec l : is_sorted l = true <-> Sorted str_le l.
Proof.
  induction l as [|x l IH]; [split; [intros _; constructor|done]|]. destruct l as [|y l].
  { split; [intros _; repeat constructor|done]. }
  cbn [is_sorted]. rewrite andb_true_iff, bool_decide_eq_true, IH. split.
  - intros [Hxy Hs]. constructor; [done|by constructor].
  - inversion_clear 1 as [|? ? Hs Hh]. by inversion_clear Hh.
Qed.

#[global] Instance str_le_total : Total str_le.
Proof. intros s t. unfold str_le. destruct (bytes_le_total (str_bytes s) (str_bytes t)); auto. Qed.
#[global] Instance str_le_trans : Transitive str_le.
Proof. intros s t u. unfold str_le. apply bytes_le_trans. Qed.

Lemma sort_strings_sorted l : Sorted str_le (sort_strings l).
Proof. apply Sorted_merge_sort, _. Qed.
Lemma sort_strings_perm l : sort_strings l ≡ₚ l.
Proof. apply merge_sort_Permutation. Qed.

Section params.
Context `{EthHex}.
Variable ValidEip : Z -> bool.
Variable ChannelIdentifierValidator : string -> res unit.
Abbreviation Set_Params := (vm_SetParams ValidEip ChannelIdentifierValidator).
Abbreviation Params_ok := (vm_Params_Validate ValidEip ChannelIdentifierValidator).
Abbreviation Enable := (EnableStaticPrecompiles ValidEip ChannelIdentifierValidator).

Lemma ValidateAddress_ok a : ValidateAddress a = Ok tt <-> IsHexAddress a = true.
Proof. unfold ValidateAddress. destruct (IsHexAddress a); naive_solver. Qed.

Lemma validate_precompiles_spec seen l :
  validate_precompiles seen l = Ok tt <->
  NoDup l /\ (forall p, p ∈ l -> p ∉ seen) /\ Forall (fun p => IsHexAddress p = true) l.
Proof.
  revert seen. induction l as [|p l IH]; intros seen; simpl.
  { split; [|done]. intros _. split_and!; [constructor|set_solver|constructor]. }
  case_bool_decide as Hin.
  { split; [done|]. intros (_ & Hs & _). set_solver. }
  rewrite NoDup_cons, Forall_cons. unfold ValidateAddress. destruct (IsHexAddress p).
  - rewrite IH. split; [intros (? & Hs & ?)|intros ([? ?] & Hs & _ & ?)]; split_and!; try done; set_solver.
  - split; [done|]. by intros (_ & _ & ? & _).
Qed.

Lemma ValidatePrecompiles_spec l :
  ValidatePrecompiles l = Ok tt <->
  NoDup l /\ Forall (fun p => IsHexAddress p = true) l /\ Sorted str_le l.
Proof.
  unfold ValidatePrecompiles. rewrite seq_ok, validate_precompiles_spec, <- is_sorted_spec.
  destruct (is_sorted l); simpl; [|naive_solver]. split; [naive_solver|]. intros (? & ? & _). split_and!; set_solver.
Qed.

Lemma SetParams_ok p s s' :
  Set_Params p s = (Ok tt, s') ->
  s' = Some (with_precompiles (sort_strings (ActiveStaticPrecompiles p)) p) /\ Params_ok (vm_GetParams s') = Ok tt.
Proof. unfold vm_SetParams. intros Hr. apply bind_lift_ok in Hr as ([] & Hv & [= <-]). by split. Qed.

Lemma SetParams_state p s : (exists s', Set_Params p s = (Ok tt, s')) \/ (Set_Params p s).2 = s.
Proof.
  unfold vm_SetParams, bind, lift. destruct (vm_Params_Validate _ _ _) as [[]| |]; [left; eauto|by right..].
Qed.

(** One way or the other the parameters are written by [SetParams]. *)
Inductive params_op :=
  | OSet (p : VmParams) | OEnablePrecompiles (l : list Address) | OEnableEIPs (l : list Z)
  | OUpdate (authority reqAuthority : string) (p : VmParams).
Definition run_params (o : params_op) : M (option VmParams) unit :=
  match o with
  | OSet p => Set_Params p
  | OEnablePrecompiles l => Enable l
  | OEnableEIPs l => EnableEIPs ValidEip ChannelIdentifierValidator l
  | OUpdate a r p => vm_UpdateParams ValidEip ChannelIdentifierValidator a r p
  end.

Lemma run_params_sets o s :
  (exists p, run_params o s = Set_Params p s) \/ (run_params o s).2 = s.
Proof.
  destruct o as [p|l|l|a r p]; simpl; [left; eauto| |left|].
  - unfold EnableStaticPrecompiles, bind at 1, gets. simpl. unfold bind, lift.
    destruct (appendPrecompiles _ _); [left; eauto|by right..].
  - unfold EnableEIPs, bind at 1, gets. eauto.
  - unfold vm_UpdateParams. destruct (negb _); [by right|left; eauto].
Qed.

(** Whatever messages and upgrades write them, and whether they succeed or
    not, the stored parameters stay valid: known and distinct EIPs, distinct
    precompile addresses in order, known access types over addresses, and channel
    identifiers. *)
Theorem params_stay_valid ops s :
  (forall p, s = Some p -> Params_ok p = Ok tt) ->
  forall p, foldl (fun s o => (run_params o s).2) s ops = Some p -> Params_ok p = Ok tt.
Proof.
  revert s. induction ops as [|o ops IH]; intros s Hs; [exact Hs|]. simpl. apply IH. intros p Hp.
  destruct (run_params_sets o s) as [[q Hq]|Hq]; [|rewrite Hq in Hp; by apply Hs].
  rewrite Hq in Hp. destruct (SetParams_state q s) as [[s' Hr]|Hr]; [|rewrite Hr in Hp; by apply Hs].
  pose proof (SetParams_ok _ _ _ Hr) as [_ Hv]. rewrite Hr in Hp. simpl in Hp. subst s'. exact Hv.
Qed.

Context `{!EthHexLaws}.
Variable Prague : list Address.

Lemma hex_inj a b : address_ok a -> address_ok b -> Address_Hex a = Address_Hex b -> a = b.
Proof. intros Ha Hb E. by rewrite <- (hex_address a), E, hex_address. Qed.

(** Enabling precompiles either fails and changes nothing, or makes available
    exactly the precompiles that were and the ones given, none twice, and keeps
    every other parameter. *)
Theorem EnableStaticPrecompiles_exact addresses s :
  Forall address_ok addresses ->
  match Enable addresses s with
  | (Ok _, s') => let p := vm_GetParams s in let p' := vm_GetParams s' in
      p' = with_precompiles (ActiveStaticPrecompiles p') p /\
      NoDup (ActiveStaticPrecompiles p') /\ Sorted str_le (ActiveStaticPrecompiles p') /\
      forall a, address_ok a -> IsAvailableStaticPrecompile Prague p' a = true <->
        IsAvailableStaticPrecompile Prague p a = true \/ a ∈ addresses
  | (_, s') => s' = s
  end.
Proof.
  intros Hok. unfold EnableStaticPrecompiles, bind at 1, gets. simpl. unfold bind at 1, lift at 1.
  destruct (appendPrecompiles _ _) as [l| |] eqn:Hl; [|done..].
  apply rbind_ok in Hl as ([] & _ & [= <-]). set (q := with_precompiles _ _).
  destruct (Set_Params q s) as [[[]| |] s'] eqn:Hr;
    [|by destruct (SetParams_state q s) as [[? E]|E]; rewrite Hr in E..].
  apply SetParams_ok in Hr as [-> Hv]. cbv zeta. unfold vm_Params_Validate in Hv. rewrite !seq_ok in Hv. simpl in Hv |- *.
  destruct Hv as (_ & Hp & _). apply ValidatePrecompiles_spec in Hp as (Hn & _ & Hs).
  split_and!; [done|done|done|]. intros a Ha. unfold IsAvailableStaticPrecompile. simpl.
  rewrite !orb_true_iff, !bool_decide_eq_true, sort_strings_perm, sort_strings_perm, elem_of_app, list_elem_of_fmap.
  rewrite Forall_forall in Hok. split; [intros [[?|(b & Hb & Hin)]|?]|intros [[?|?]|?]]; try by auto.
  - apply hex_inj in Hb as ->; auto.
  - left. right. eauto.
Qed.

(** A block list holds for an address only in the spelling go-ethereum prints:
    another spelling of the same address passes validation, and its owner may
    still call contracts. *)
Theorem blocklist_spelling ac signer t :
  ac_type (Call ac) = Permissionless -> AccessControlList (Call ac) = [t] ->
  IsHexAddress t = true -> HexToAddress t = signer -> t <> Address_Hex signer ->
  AccessControlType_Validate (Call ac) = Ok tt /\ GetCallHook ac signer signer signer = Ok tt.
Proof.
  intros Ht Hl Hh _ Hne. unfold AccessControlType_Validate, GetCallHook, getCanCallFn, getCanFn.
  rewrite Ht, Hl. unfold validateAllowlistAddresses, each_res, ValidateAddress. rewrite Hh. split; [done|].
  unfold permissionlessCheckFn. by rewrite !bool_decide_false by (rewrite list_elem_of_singleton; congruence).
Qed.
End params.
