(* ===== verification/EthModel.v ===== *)
(** Concrete go-ethereum: the instances of the classes of [TxData], and the
    transactions of the examples. *)
From Stdlib Require Import Ascii.
From S2P Require Import Prelude KVStore Sdk BankModel StateDB TxData TxDataThms VmParams.

(** * Addresses and hashes as text *)

Definition text_of (w : nat) (n : Z) : string :=
  String "0"%char (String "x"%char (String.string_of_list_ascii (m_encode (be w n)))).
Definition value_of (s : string) : Z :=
  match s with
  | String "0"%char (String "x"%char r) =>
      match m_decode (String.list_ascii_of_string r) with Some b => be_decode 0 b | None => 0 end
  | _ => 0
  end.

#[global] Instance ModelEthHex : EthHex := {|
  HexToAddress s := value_of s mod 2 ^ 160;
  Address_Hex := text_of 20;
  IsHexAddress s := match s with
                    | String "0"%char (String "x"%char r) =>
                        match m_decode (String.list_ascii_of_string r) with Some _ => true | None => false end
                    | _ => false
                    end;
  HexToHash s := value_of s mod 2 ^ 256;
  Hash_Hex := text_of 32;
|}.

Lemma value_text w n : 0 <= n < 256 ^ Z.of_nat w -> value_of (text_of w n) = n.
Proof.
  intros Hn. unfold value_of, text_of.
  rewrite String.list_ascii_of_string_of_list_ascii, m_decode_encode by apply be_bytes. by apply be_roundtrip.
Qed.

Lemma m_encode_letters a : is_bytes a -> Forall (fun c => 97 <= Z.of_nat (nat_of_ascii c) < 113) (m_encode a).
Proof.
  intros Ha. induction Ha as [|z a Hz _ IH]; [constructor|]. simpl.
  pose proof (Z.mod_pos_bound z 16). pose proof (Z.div_lt_upper_bound z 16 16). pose proof (Z.div_pos z 16).
  constructor; [rewrite nibble_code; lia|]. constructor; [rewrite nibble_code; lia|done].
Qed.

Lemma m_hex_digits s : IsHexAddress s = true -> s <> "" /\ 124 ∉ str_bytes s.
Proof.
  intros Hs. split; [by intros ->|]. unfold IsHexAddress, ModelEthHex in Hs. repeat case_match; try done. subst.
  match goal with E : m_decode _ = Some _ |- _ => apply m_decode_inv in E as (He & _ & Hb) end.
  unfold str_bytes. cbn [String.list_ascii_of_string map]. rewrite He.
  rewrite !not_elem_of_cons. split_and!; [done|done|]. intros Hin. apply list_elem_of_fmap in Hin as (c & Hc & Hin).
  pose proof (m_encode_letters _ Hb) as Hl. rewrite Forall_forall in Hl. apply Hl in Hin. lia.
Qed.

#[global] Instance ModelEthHexLaws : EthHexLaws.
Proof.
  split.
  - intros a Ha. unfold HexToAddress, Address_Hex, ModelEthHex. rewrite value_text by done. by apply Z.mod_small.
  - intros a Ha. unfold IsHexAddress, Address_Hex, ModelEthHex, text_of.
    by rewrite String.list_ascii_of_string_of_list_ascii, m_decode_encode by apply be_bytes.
  - done.
  - intros s. by apply Z.mod_pos_bound.
  - apply m_hex_digits.
  - intros h Hh. unfold HexToHash, Hash_Hex, ModelEthHex. rewrite value_text by done. by apply Z.mod_small.
  - intros s. by apply Z.mod_pos_bound.
Qed.

(** * Transactions *)

#[global] Instance ModelEthTypes : EthTypes := {|
  Transaction := EthTxData;
  NewTx := eth_copy;
  tx_Type := eth_type;
  tx_Nonce t := e_nonce (eth_common t);
  tx_Data t := e_data (eth_common t);
  tx_Gas t := e_gas (eth_common t);
  tx_To t := e_to (eth_common t);
  tx_Value t := e_value (eth_common t);
  tx_GasPrice t := (eth_prices t).1.1;
  tx_GasTipCap t := (eth_prices t).1.2;
  tx_GasFeeCap t := (eth_prices t).2;
  tx_AccessList := eth_accesses;
  tx_ChainId t := match t with
                  | EthLegacyTx f _ => DeriveChainID (e_v f)
                  | EthAccessListTx _ c _ _ | EthDynamicFeeTx _ c _ _ _ => c
                  end;
  tx_RawSignatureValues t := (e_v (eth_common t), e_r (eth_common t), e_s (eth_common t));
  tx_Hash t := e_nonce (eth_common t) + 1000;
  tx_Protected _ := true;
|}.

#[global] Instance ModelEthTypesLaws : EthTypesLaws.
Proof. split; intros []; done. Qed.

(** A call with an access list, priced by tip and cap, on chain 631. *)
Definition g_fields : eth_fields :=
  mkEth 4 50000 (Some 30) (Some 7) [1; 2] (Some 1) (Some 77) (Some 88).
Definition g_dynamic : EthTxData :=
  EthDynamicFeeTx g_fields (Some 631) (Some 2) (Some 9) (Some [(30, [1; 5]); (20, [])]).

Definition g_data : TxData :=
  match NewTxDataFromTx (NewTx g_dynamic) with Ok d => d | _ => TLegacy (mkLegacyTx 0 None 0 "" None [] [] [] []) end.

Lemma Validate_exact_witness :
  exists tip cap, prices_ok g_data tip cap /\ EffectiveFee g_data (Some 5) = Ok (350000) /\
    Cost g_data = Ok (cap * 50000 + 7).
Proof.
  assert (0 <= GetGas g_data < 2 ^ 64) as Hg by (split; [done|reflexivity]).
  destruct (Validate_exact g_data Hg) as [_ Hv].
  destruct (Hv ltac:(vm_compute; reflexivity) 5 ltac:(lia)) as (tip & cap & Hp & _ & _ & _ & _ & _ & Hc).
  exists tip, cap. split; [exact Hp|]. split; [vm_compute; reflexivity|]. rewrite Hc. reflexivity.
Defined.

Lemma FromEthereumTx_roundtrip_witness :
  exists msg, FromEthereumTx (mkMsgEth None 0 "" "") (NewTx g_dynamic) = Ok msg /\
    AsTransaction msg = Some (NewTx g_dynamic).
Proof.
  destruct (FromEthereumTx_roundtrip g_dynamic (mkMsgEth None 0 "" "")) as (msg & Hm & Ha & _).
  - unfold eth_ok, number_ok, unsigned, accesses_ok. simpl.
    split_and!; intros; simplify_eq; try done; repeat constructor; done.
  - exists msg. by split.
Defined.


(** * Parameters *)

Definition g_eip (n : Z) : bool := n =? 3855.
Definition g_channel (s : string) : res unit :=
  if bool_decide (s = "") then Err (Error ErrOther "blank") else Ok tt.
Definition g_params : option VmParams :=
  Some (mkVmParams "agxn" [3855] false ["channel-1"] DefaultAccessControl [text_of 20 2048]).

Lemma params_stay_valid_witness :
  vm_Params_Validate g_eip g_channel (vm_GetParams g_params) = Ok tt /\
  forall p, foldl (fun s o => (run_params g_eip g_channel o s).2) g_params
    [OEnablePrecompiles [1024]; OEnableEIPs [3855]; OSet vm_zero_params] = Some p ->
    vm_Params_Validate g_eip g_channel p = Ok tt.
Proof.
  assert (vm_Params_Validate g_eip g_channel (vm_GetParams g_params) = Ok tt) as Hv by (vm_compute; reflexivity).
  split; [exact Hv|]. apply (params_stay_valid g_eip g_channel). intros p [= <-]. exact Hv.
Defined.

Lemma EnableStaticPrecompiles_exact_witness :
  IsAvailableStaticPrecompile [1] (vm_GetParams (EnableStaticPrecompiles g_eip g_channel [1024; 512] g_params).2) 512 = true /\
  (EnableStaticPrecompiles g_eip g_channel [2048] g_params).2 = g_params.
Proof.
  assert (Forall address_ok [1024; 512] /\ Forall address_ok [2048]) as [H1 H2]
    by (split; repeat constructor; done).
  pose proof (EnableStaticPrecompiles_exact g_eip g_channel [1] [1024; 512] g_params H1) as E1.
  pose proof (EnableStaticPrecompiles_exact g_eip g_channel [1] [2048] g_params H2) as E2.
  assert (is_ok (EnableStaticPrecompiles g_eip g_channel [1024; 512] g_params).1 = true) as K1 by (vm_compute; reflexivity).
  assert (is_ok (EnableStaticPrecompiles g_eip g_channel [2048] g_params).1 = false) as K2 by (vm_compute; reflexivity).
  destruct (EnableStaticPrecompiles g_eip g_channel [1024; 512] g_params) as [[| |] s1]; try discriminate K1.
  destruct (EnableStaticPrecompiles g_eip g_channel [2048] g_params) as [[| |] s2]; try discriminate K2;
    (split; [|exact E2]); apply E1; [done|right; set_solver|done|right; set_solver].
Defined.

(** The same address with two more zero digits. *)
Lemma blocklist_spelling_witness :
  GetCallHook (mkControl (mkAccess Permissionless []) (mkAccess Permissionless [text_of 21 77])) 77 77 77 = Ok tt.
Proof.
  apply (blocklist_spelling (mkControl (mkAccess Permissionless []) (mkAccess Permissionless [text_of 21 77])) 77
    (text_of 21 77)); [reflexivity|reflexivity|vm_compute; reflexivity|vm_compute; reflexivity|].
  intros E. apply (f_equal String.length) in E. vm_compute in E. discriminate E.
Defined.
