(* ===== verification/VmGas.v ===== *)
(** Gas and fees of the EVM module: the fee market wrapper
    ([x/vm/wrappers/feemarket.go]), the base fee and the transient counters of a
    block ([x/vm/keeper/keeper.go]), the gas meter of an Ethereum transaction
    ([types/gasmeter.go]), the block gas limit ([types/block.go]), the fee checks
    ([x/vm/keeper/fees.go]) and the refund ([x/vm/keeper/gas.go]). *)
From S2P Require Import Prelude KVStore Sdk EvmConfig FeeMarket StateDB Wrappers VmKeeper TxData.

(** * What the chain configuration of go-ethereum says at a height and a time *)

Record ChainConfig := mkChain {
  ChainID : Z;
  IsHomestead : Z -> bool;
  IsIstanbul : Z -> bool;
  IsLondon : Z -> bool;
  IsShanghaiAt : Z -> Z -> bool;
  chain_Rules : Z -> Z -> Rules;
}.

(** * What the code reads of [sdk.Context] *)

Record EvmCtx := mkEvmCtx {
  x_height : Z;                   (** int64 *)
  x_time : Z;                     (** uint64 seconds *)
  x_header_hash : bytes;
  x_proposer : bytes;             (** consensus address of the proposer *)
  x_max_gas : option Z;           (** int64, of the consensus parameters; nil when unset *)
  x_block_meter : option Z;       (** the limit of the block gas meter; nil without a meter *)
  x_check_tx : bool;
  x_recheck_tx : bool;
  x_min_gas_prices : string -> Z; (** [MinGasPrices().AmountOf] *)
}.

Definition BlockGasLimit (c : EvmCtx) : Z :=
  match x_block_meter c with
  | Some limit => if negb (limit =? 0) then limit else
      match x_max_gas c with
      | None => 0
      | Some maxGas => if maxGas =? -1 then max_uint64 else if 0 <? maxGas then maxGas else 0
      end
  | None =>
      match x_max_gas c with
      | None => 0
      | Some maxGas => if maxGas =? -1 then max_uint64 else if 0 <? maxGas then maxGas else 0
      end
  end.

(** * The gas meter ([infiniteGasMeterWithLimit]) *)

Module Meter.
Record gas_meter := mkMeter { consumed : Z; limit : Z }.
Definition NewInfiniteGasMeterWithLimit (limit : Z) : gas_meter := mkMeter 0 limit.
Definition GasConsumed (g : gas_meter) : Z := consumed g.
Definition GasConsumedToLimit (g : gas_meter) : Z := consumed g.
Definition Limit (g : gas_meter) : Z := limit g.
Definition addUint64Overflow (a b : Z) : Z * bool :=
  if max_uint64 - a <? b then (0, true) else (a + b, false).
(** The field is assigned before the overflow is looked at. *)
Definition ConsumeGas (amount : Z) : M gas_meter unit :=
  let! g := gets (fun g => g) in
  let '(n, overflow) := addUint64Overflow (consumed g) amount in
  do! modify (fun g => mkMeter n (limit g));
  if overflow then panic "ErrorGasOverflow" else ret tt.
Definition RefundGas (amount : Z) : M gas_meter unit :=
  let! g := gets (fun g => g) in
  if consumed g <? amount then panic "ErrorNegativeGasConsumed"
  else modify (fun g => mkMeter (consumed g - amount) (limit g)).
Definition IsPastLimit (g : gas_meter) : bool := false.
Definition IsOutOfGas (g : gas_meter) : bool := false.
Definition GasRemaining (g : gas_meter) : Z :=
  if limit g <? consumed g then 0 else limit g - consumed g.

Definition ResetGasMeterAndConsumeGas (gasUsed : Z) : M gas_meter unit :=
  let! n := gets GasConsumed in
  do! RefundGas n;
  ConsumeGas gasUsed.
End Meter.

Section gas.
Context `{DecLib}.
Variable info : EvmCoinInfo.

(** * The fee market wrapper *)

(** [TruncateInt().BigInt()] of the amount with 18 decimals. *)
Definition to_18 (d : dec) : res (option Z) :=
  match d with
  | None => Ok None
  | Some d => let? x := ConvertAmountTo18DecimalsLegacy info d in let? z := dec_trunc_int x in Ok (Some z)
  end.
Definition wrapper_GetBaseFee (s : fm_state) : res (option Z) := to_18 (FeeMarket.GetBaseFee s).
Definition wrapper_CalculateBaseFee (c : Ctx) (s : fm_state) : res (option Z) :=
  let? baseFee := CalculateBaseFee c s in to_18 baseFee.
Definition wrapper_GetParams (s : fm_state) : res Params :=
  let params := GetParams s in
  let? baseFee := (match BaseFee params with
                   | None => Ok None
                   | Some b => let? x := ConvertAmountTo18DecimalsLegacy info b in Ok (Some x)
                   end) in
  let? minGasPrice := dec_val (MinGasPrice params) in
  let? x := ConvertAmountTo18DecimalsLegacy info minGasPrice in
  Ok (with_min_gas_price (with_base_fee params baseFee) (Some x)).

(** * Base fee and minimum prices ([keeper.go]) *)

Definition vm_GetBaseFee (chain : ChainConfig) (c : EvmCtx) (s : fm_state) : res (option Z) :=
  if negb (IsLondon chain (x_height c)) then Ok None
  else let? baseFee := wrapper_GetBaseFee s in Ok (Some (default 0 baseFee)).
Definition GetMinGasMultiplier (s : fm_state) : res dec :=
  let? p := wrapper_GetParams s in Ok (MinGasMultiplier p).
Definition GetMinGasPrice (s : fm_state) : res dec := let? p := wrapper_GetParams s in Ok (MinGasPrice p).
End gas.

(** * Transient counters ([keeper.go]); the store is emptied with every block *)

Abbreviation transient := (gmap bytes bytes) (only parsing).
Definition KeyPrefixTransientBloom : bytes := [1].
Definition KeyPrefixTransientTxIndex : bytes := [2].
Definition KeyPrefixTransientLogSize : bytes := [3].
Definition KeyPrefixTransientGasUsed : bytes := [4].

Definition bloom_key (height : Z) : bytes := KeyPrefixTransientBloom ++ be64 height.
Definition GetBlockBloomTransient (height : Z) (t : transient) : Z :=
  match t !! bloom_key height with Some bz => be_decode 0 bz | None => 0 end.
Definition SetBlockBloomTransient (height bloom : Z) : transient -> transient :=
  <[bloom_key height := big_bytes bloom]>.
Definition SetTxIndexTransient (index : Z) : transient -> transient :=
  <[KeyPrefixTransientTxIndex := be64 index]>.
Definition GetTxIndexTransient (t : transient) : Z := be_uint64 (t !! KeyPrefixTransientTxIndex).
Definition GetLogSizeTransient (t : transient) : Z := be_uint64 (t !! KeyPrefixTransientLogSize).
Definition SetLogSizeTransient (logSize : Z) : transient -> transient :=
  <[KeyPrefixTransientLogSize := be64 logSize]>.
Definition ResetTransientGasUsed : transient -> transient := delete KeyPrefixTransientGasUsed.
Definition GetTransientGasUsed (t : transient) : Z := be_uint64 (t !! KeyPrefixTransientGasUsed).
Definition SetTransientGasUsed (gasUsed : Z) : transient -> transient :=
  <[KeyPrefixTransientGasUsed := be64 gasUsed]>.
Definition AddTransientGasUsed (gasUsed : Z) : M transient Z :=
  let! cur := gets GetTransientGasUsed in
  let result := wrap64 (cur + gasUsed) in
  if result <? gasUsed then fail ErrGasOverflow "transient gas used"
  else do! modify (SetTransientGasUsed result); ret result.

(** * Fees ([fees.go]) and refunds ([gas.go]) *)

(** Of go-ethereum, [core.IntrinsicGas]: data, accesses, authorisations (none of
    the three transaction types has any), creation, homestead, istanbul,
    shanghai. *)
Class EthCore := {
  IntrinsicGas : bytes -> option (list (Address * list Hash)) -> bool -> bool -> bool -> bool -> res Z;
}.
Class EthCoreLaws `{EthCore} := {
  intrinsic_u64 : forall d al c h i s g, IntrinsicGas d al c h i s = Ok g -> 0 <= g < 2 ^ 64;
}.

Definition CheckSenderBalance (balance : Z) (txData : TxData) : res unit :=
  let? cost := Cost txData in
  if cost <? 0 then Err (Error ErrInvalidCoins "tx cost is negative and invalid")
  else if (balance <? 0) || (balance <? cost)
  then Err (Error ErrInsufficientFunds "sender balance < tx cost")
  else Ok tt.

Section fees.
Context `{EthHex, EthCore}.

Definition VerifyFee (txData : TxData) (denom : string) (baseFee : option Z)
    (homestead istanbul shanghai isCheckTx : bool) : res coins :=
  let isContractCreation := bool_decide (GetTo txData = None) in
  let gasLimit := GetGas txData in
  match IntrinsicGas (GetData txData) (GetAccessList txData) isContractCreation homestead istanbul shanghai with
  | Err e => Err (Error (e_kind e) "failed to retrieve intrinsic gas")
  | Panic m => Panic m
  | Ok intrinsicGas =>
      if isCheckTx && (gasLimit <? intrinsicGas) then Err (Error ErrOutOfGas "gas limit too low")
      else
        do? (match baseFee with
             | None => Ok tt
             | Some b =>
                 match GetGasFeeCap txData with
                 | None => Panic "nil pointer dereference"
                 | Some cap => check (cap <? b) ErrInsufficientFee "the tx gasfeecap is lower than the tx baseFee"
                 end
             end);
        let? feeAmt := EffectiveFee txData baseFee in
        if feeAmt =? 0 then Ok []
        else let? amt := int_chk feeAmt in Ok [Coin denom amt]
  end.
End fees.

(** [GasToRefund]; the quotient is never zero. *)
Definition GasToRefund (availableRefund gasConsumed refundQuotient : Z) : Z :=
  let refund := gasConsumed / refundQuotient in
  if availableRefund <? refund then availableRefund else refund.

(** Of the SDK: [authante.GetSignerAcc] and [authante.DeductFees] over the bank
    they are given. *)
Class EvmAuth `{EvmAccounts, EvmBank} := {
  GetSignerAcc : AK -> addr -> res acct;
  DeductFees : (addr -> string -> coins -> M EB unit) -> acct -> coins -> M EB unit;
}.
Class EvmAuthLaws `{EvmAuth} := {
  signer_acc : forall k a x, GetSignerAcc k a = Ok x -> ea_GetAccount k a = Some x;
  deduct_sends : forall send x fees s s', DeductFees send x fees s = (Ok tt, s') ->
    send (ea_address x) FeeCollector fees s = (Ok tt, s');
}.

Section bank.
Context `{CoinsLib, EvmAccounts, EvmBank, !EvmAuth}.
Variable info : EvmCoinInfo.

Definition DeductTxCostsFromUserBalance (fees : coins) (from : Z) : M vm_state unit :=
  let! s := gets (fun s => s) in
  match GetSignerAcc (vm_accounts s) (address_bytes from) with
  | Err e => throw (Error (e_kind e) "account not found for sender")
  | Panic m => panic m
  | Ok signerAcc =>
      with_bank (wrap "failed to deduct full gas cost from the user balance"
        (DeductFees (wrapper_SendCoinsFromAccountToModule info) signerAcc fees))
  end.

(** [errors.Wrapf(ErrInsufficientFunds, ...)]: the sentinel of the bank is lost. *)
Definition vm_RefundGas (from gasPrice leftoverGas : Z) (denom : string) : M vm_state unit :=
  let remaining := leftoverGas * gasPrice in
  if remaining <? 0 then fail ErrInvalidRefund "refunded amount value cannot be negative"
  else if 0 <? remaining then
    let! amt := lift (int_chk remaining) in
    let! coin := lift (new_coin denom amt) in
    fun s =>
      match with_bank (wrapper_SendCoinsFromModuleToAccount info FeeCollector (address_bytes from) [coin]) s with
      | (Err _, s') => (Err (Error ErrInsufficientFunds "failed to refund leftover gas"), s')
      | r => r
      end
  else ret tt.
End bank.
