(* ===== verification/StateTransition.v ===== *)
(** The state transition of an Ethereum transaction
    ([x/vm/keeper/state_transition.go], [config.go], [block_proposer.go],
    [hooks.go], [msg_server.go], [abci.go]).

    The interpreter of go-ethereum is the class [Interp]: it is given a database
    and returns the gas that is left.  [ApplyMessageWithConfig] is written over
    any keeper the database may stand on, [ApplyTransaction] over the keeper of
    x/vm with the bank it charges. *)
From S2P Require Import Prelude KVStore Sdk EvmConfig FeeMarket StateDB Wrappers VmKeeper TxData VmGas VmParams.

(** * go-ethereum: messages, signers, the interpreter *)

(** [core.Message] *)
Record Message := mkMessage {
  msg_From : Address; msg_To : option Address; msg_Nonce : Z; msg_Value : Z; msg_GasLimit : Z;
  msg_GasPrice : Z; msg_GasFeeCap : Z; msg_GasTipCap : Z; msg_Data : bytes;
  msg_AccessList : option (list (Address * list Hash));
}.

Class EthSigner `{EthTypes} := {
  Signer : Type;
  MakeSigner : Z -> Z -> Signer;            (** height and time, of the chain configuration *)
  signer_Sender : Signer -> Transaction -> res Address;
  TransactionToMessage : Transaction -> Signer -> option Z -> res Message;
}.
Class EthSignerLaws `{EthSigner} := {
  message_of : forall t sg b m, TransactionToMessage t sg b = Ok m ->
    signer_Sender sg t = Ok (msg_From m) /\ msg_To m = tx_To t /\ msg_Nonce m = tx_Nonce t /\
    Some (msg_Value m) = tx_Value t /\ msg_GasLimit m = tx_Gas t /\
    Some (msg_GasTipCap m) = tx_GasTipCap t /\ Some (msg_GasFeeCap m) = tx_GasFeeCap t /\
    match b with
    | Some b => msg_GasPrice m = Z.min (msg_GasTipCap m + b) (msg_GasFeeCap m)
    | None => Some (msg_GasPrice m) = tx_GasPrice t
    end;
  (** the Go types of the fields *)
  message_types : forall t sg b m, TransactionToMessage t sg b = Ok m ->
    0 <= msg_From m < 2 ^ 160 /\ (forall a, msg_To m = Some a -> 0 <= a < 2 ^ 160) /\
    0 <= msg_Nonce m < 2 ^ 64 /\ 0 <= msg_GasLimit m < 2 ^ 64;
  message_data : forall t sg b m, TransactionToMessage t sg b = Ok m ->
    msg_Data m = tx_Data t /\ msg_AccessList m = tx_AccessList t;
}.

(** * Configuration ([config.go], [block_proposer.go]) *)

Record EVMConfig := mkEVMConfig { cfg_Params : VmParams; cfg_CoinBase : Address; cfg_BaseFee : option Z }.

(** The block context and the settings the interpreter is built with. *)
Record EvmEnv := mkEnv {
  env_Coinbase : Address; env_GasLimit : Z; env_BlockNumber : Z; env_Time : Z; env_BaseFee : option Z;
  env_NoBaseFee : bool; env_ExtraEips : list Z; env_Signer : Address; env_Access : AccessControl;
}.

(** What a run of the interpreter returns: data, gas left, the text of its error,
    and the return data of the last call. *)
Record run_result := mkRun { rr_ret : bytes; rr_gas : Z; rr_err : option string; rr_returnData : bytes }.

Class Interp `{Keccak, StateKeeper} := {
  evm_ActivePrecompiles : EvmEnv -> list Address;
  evm_Create : EvmEnv -> Address -> bytes -> Z -> Z -> M StateDB run_result;
  evm_Call : EvmEnv -> Address -> Address -> bytes -> Z -> Z -> M StateDB run_result;
}.

Definition wrapping {S A} (msg : string) (m : M S A) : M S A := fun s =>
  match m s with
  | (Err e, s') => (Err (Error (e_kind e) (msg ++ ": " ++ e_msg e)), s')
  | r => r
  end.

Section config.
Context `{DecLib}.
Variable info : EvmCoinInfo.
Variable chain : ChainConfig.
(** [stakingKeeper.GetValidatorByConsAddr], its operator *)
Variable GetValidatorByConsAddr : bytes -> res string.
(** [consensusKeeper.Params]: [None] is an error *)
Variable consensus_params : option (option Z).

Definition GetProposerAddress (c : EvmCtx) (proposerAddress : bytes) : bytes :=
  match proposerAddress with [] => x_proposer c | _ => proposerAddress end.
Definition GetCoinbaseAddress (c : EvmCtx) (proposerAddress : bytes) : res Address :=
  match GetValidatorByConsAddr (GetProposerAddress c proposerAddress) with
  | Ok operator => Ok (BytesToAddress (str_bytes operator))
  | Err _ => Err (Error ErrOther "failed to retrieve validator from block proposer address")
  | Panic m => Panic m
  end.

Definition EVMConfig_of (c : EvmCtx) (params : option VmParams) (fm : fm_state) (proposerAddress : bytes)
    : res EVMConfig :=
  let? coinbase := GetCoinbaseAddress c proposerAddress in
  let? baseFee := vm_GetBaseFee info chain c fm in
  Ok (mkEVMConfig (vm_GetParams params) coinbase baseFee).

Definition TxConfig_of (c : EvmCtx) (txHash : Hash) (t : transient) : TxConfig :=
  NewTxConfig (BytesToHash (x_header_hash c)) txHash (GetTxIndexTransient t) (GetLogSizeTransient t).

Definition VMConfig (c : EvmCtx) (fm : fm_state) : res bool :=   (** [NoBaseFee] *)
  if IsLondon chain (x_height c) then let? p := wrapper_GetParams info fm in Ok (NoBaseFee p) else Ok true.

Definition SetConsensusParamsInCtx (c : EvmCtx) : EvmCtx :=
  match x_max_gas c with
  | Some _ => c
  | None => match consensus_params with
            | None => c
            | Some g => mkEvmCtx (x_height c) (x_time c) (x_header_hash c) (x_proposer c) g (x_block_meter c)
                          (x_check_tx c) (x_recheck_tx c) (x_min_gas_prices c)
            end
  end.

Definition NewEVM (c : EvmCtx) (fm : fm_state) (msg : Message) (cfg : EVMConfig) : res EvmEnv :=
  let c := SetConsensusParamsInCtx c in
  let? noBaseFee := VMConfig c fm in
  Ok (mkEnv (cfg_CoinBase cfg) (BlockGasLimit c) (x_height c) (x_time c) (cfg_BaseFee cfg) noBaseFee
        (ExtraEIPs (cfg_Params cfg)) (msg_From msg) (Access (cfg_Params cfg))).
End config.

(** * Applying a message *)

Record MsgEthereumTxResponse := mkResponse {
  r_Hash : Hash; r_Logs : list Log; r_Ret : bytes; r_VmError : string; r_GasUsed : Z;
}.
Definition Failed (r : MsgEthereumTxResponse) : bool := negb (bool_decide (r_VmError r = "")).
Definition ErrExecutionReverted : string := "execution reverted".

Definition RefundQuotient : Z := 2.
Definition RefundQuotientEIP3529 : Z := 5.

Section message.
Context `{DecLib, Keccak, StateKeeper, EthCore, !Interp}.
Variable info : EvmCoinInfo.
Variable chain : ChainConfig.
Variable consensus_params : option (option Z).

Definition GetEthIntrinsicGas (c : EvmCtx) (msg : Message) (isContractCreation : bool) : res Z :=
  IntrinsicGas (msg_Data msg) (msg_AccessList msg) isContractCreation (IsHomestead chain (x_height c))
    (IsIstanbul chain (x_height c)) (IsShanghaiAt chain (x_height c) (x_time c)).

(** The sender's nonce is set around a creation, whatever its result. *)
Definition execute (env : EvmEnv) (msg : Message) (gas value : Z) : M StateDB run_result :=
  match msg_To msg with
  | None =>
      do! SetNonce (msg_From msg) (msg_Nonce msg);
      let! r := evm_Create env (msg_From msg) (msg_Data msg) gas value in
      do! SetNonce (msg_From msg) (wrap64 (msg_Nonce msg + 1));
      ret r
  | Some to => evm_Call env (msg_From msg) to (msg_Data msg) gas value
  end.

(** The gas charged: what was used and not refunded, but no less than the share
    of the limit the fee market asks for.  Go subtracts and adds [uint64] values
    and converts through [int64]. *)
Definition charged_gas (fm : fm_state) (gasLimit leftoverGas temporaryGasUsed : Z) (internal : bool) : res Z :=
  let? minGasMultiplier := GetMinGasMultiplier info fm in
  let? m := dec_val minGasMultiplier in
  let? minimumGasUsed := dec_mul (dec_of_int gasLimit) m in
  let? minimum := dec_trunc_int minimumGasUsed in
  if negb (is_uint64 minimum) then Err (Error ErrGasOverflow "minimumGasUsed is not a uint64")
  else if gasLimit <? leftoverGas then Err (Error ErrGasOverflow "message gas limit < leftover gas")
  else
    let gasUsed := dec_of_int (to_int64 temporaryGasUsed) in
    let gasUsed := if internal then gasUsed else dec_max gasUsed minimumGasUsed in
    let? used := dec_trunc_int gasUsed in
    int_uint64 used.

Definition apply_message (c : EvmCtx) (fm : fm_state) (msg : Message) (commit : bool) (cfg : EVMConfig)
    (txConfig : TxConfig) (internal : bool) : M StateDB MsgEthereumTxResponse :=
  let! env := lift (NewEVM info chain consensus_params c fm msg cfg) in
  let contractCreation := bool_decide (msg_To msg = None) in
  let! intrinsicGas := wrapping "intrinsic gas failed" (lift (GetEthIntrinsicGas c msg contractCreation)) in
  if msg_GasLimit msg <? intrinsicGas then fail ErrIntrinsicGas "apply message"
  else
    let leftoverGas := msg_GasLimit msg - intrinsicGas in
    do! Prepare (chain_Rules chain (x_height c) (x_time c)) (msg_From msg) 0 (msg_To msg)
          (evm_ActivePrecompiles env) (default [] (msg_AccessList msg));
    match Uint256FromBigInt (msg_Value msg) with
    | None => fail ErrOther "value is not a uint256"
    | Some convertedValue =>
        let! r := execute env msg leftoverGas convertedValue in
        let refundQuotient :=
          if internal then 1
          else if IsLondon chain (x_height c) then RefundQuotientEIP3529 else RefundQuotient in
        if msg_GasLimit msg <? rr_gas r then fail ErrGasOverflow "apply message"
        else
          let temporaryGasUsed := msg_GasLimit msg - rr_gas r in
          let! available := GetRefund in
          let refund := GasToRefund available temporaryGasUsed refundQuotient in
          let leftoverGas := wrap64 (rr_gas r + refund) in
          let temporaryGasUsed := wrap64 (temporaryGasUsed - refund) in
          let vmError := default "" (rr_err r) in
          do! (if commit then wrapping "failed to commit stateDB" Commit else ret tt);
          let! gasUsed := lift (charged_gas fm (msg_GasLimit msg) leftoverGas temporaryGasUsed internal) in
          let data := if bool_decide (vmError = ErrExecutionReverted) then rr_returnData r else rr_ret r in
          let! logs := Logs in
          ret (mkResponse (TxHash txConfig) logs data vmError gasUsed)
    end.

(** On the stores and events of a context. *)
Definition ApplyMessageWithConfig (c : EvmCtx) (fm : fm_state) (msg : Message) (commit : bool) (cfg : EVMConfig)
    (txConfig : TxConfig) (internal : bool) : M (KS * list event) MsgEthereumTxResponse := fun st =>
  let '(r, db) := apply_message c fm msg commit cfg txConfig internal (New st.1 st.2 txConfig) in
  (r, (ctx db, ctx_events db)).

Variable GetValidatorByConsAddr : bytes -> res string.
Definition ApplyMessage (c : EvmCtx) (fm : fm_state) (params : option VmParams) (msg : Message)
    (commit internal : bool) : M (KS * list event) MsgEthereumTxResponse :=
  let! cfg := wrapping "failed to load evm config"
    (lift (EVMConfig_of info chain GetValidatorByConsAddr c params fm (x_proposer c))) in
  ApplyMessageWithConfig c fm msg commit cfg (NewEmptyTxConfig (BytesToHash (x_header_hash c))) internal.
End message.

(** * Applying a transaction *)

(** [ethtypes.Receipt] *)
Record Receipt := mkReceipt {
  rc_Type : Z; rc_CumulativeGasUsed : Z; rc_Bloom : Z; rc_Logs : list Log; rc_TxHash : Hash;
  rc_ContractAddress : Address; rc_GasUsed : Z; rc_BlockHash : Hash; rc_BlockNumber : Z; rc_TransactionIndex : Z;
}.

Definition calculateCumulativeGasFromEthResponse (meter : Meter.gas_meter) (res : MsgEthereumTxResponse) : Z :=
  let cumulativeGasUsed := wrap64 (r_GasUsed res + Meter.GasConsumed meter) in
  if Meter.Limit meter <? cumulativeGasUsed then Meter.Limit meter else cumulativeGasUsed.

(** Of go-ethereum: [CreateBloom] of logs, as a number, and [crypto.CreateAddress]. *)
Class EthReceipts := { CreateBloom : list Log -> Z; CreateAddress : Address -> Z -> Address }.

Section transaction.
Context `{DecLib, CoinsLib, Keccak, EthTypes, !EthSigner, EthCore, EthReceipts}.
Context `{EvmAccounts, EvmBank}.
Variable info : EvmCoinInfo.
#[local] Instance vm_keeper : StateKeeper := VmStateKeeper info.
Context `{!Interp}.
Variable chain : ChainConfig.
Variable consensus_params : option (option Z).
Variable GetValidatorByConsAddr : bytes -> res string.

(** A hook works on the cached context and may change the receipt. *)
Abbreviation hook := (Address -> Message -> Receipt -> M (vm_state * list event) Receipt).

(** [MultiEvmHooks.PostTxProcessing] *)
Fixpoint MultiEvmHooks_PostTxProcessing (mh : list hook) (sender : Address) (msg : Message) (receipt : Receipt)
    : M (vm_state * list event) Receipt :=
  match mh with
  | [] => ret receipt
  | h :: mh =>
      let! receipt := wrapping "EVM hook failed" (h sender msg receipt) in
      MultiEvmHooks_PostTxProcessing mh sender msg receipt
  end.
(** [hooks] is nil until [SetHooks]. *)
Variable hooks : option hook.
Definition PostTxProcessing (sender : Address) (msg : Message) (receipt : Receipt)
    : M (vm_state * list event) Receipt :=
  match hooks with None => ret receipt | Some h => h sender msg receipt end.

Definition initializeBloomFromLogs (c : EvmCtx) (t : transient) (ethLogs : list Log) : option Z :=
  match ethLogs with
  | [] => None
  | _ => Some (Z.lor (GetBlockBloomTransient (x_height c) t) (CreateBloom ethLogs))
  end.

Record evm_state := ES {
  es_store : vm_state;
  es_events : list event;
  es_transient : transient;
  es_meter : Meter.gas_meter;
}.
Definition on_store {A} (m : M vm_state A) : M evm_state A :=
  zoom es_store (fun v s => ES v (es_events s) (es_transient s) (es_meter s)) m.
Definition on_transient {A} (m : M transient A) : M evm_state A :=
  zoom es_transient (fun t s => ES (es_store s) (es_events s) t (es_meter s)) m.
Definition on_meter {A} (m : M Meter.gas_meter A) : M evm_state A :=
  zoom es_meter (fun g s => ES (es_store s) (es_events s) (es_transient s) g) m.
Definition emit_events (l : list event) : M evm_state unit :=
  modify (fun s => ES (es_store s) (es_events s ++ l) (es_transient s) (es_meter s)).

Definition with_vm_error (err : string) (r : MsgEthereumTxResponse) : MsgEthereumTxResponse :=
  mkResponse (r_Hash r) [] (r_Ret r) err (r_GasUsed r).
Definition with_response_logs (l : list Log) (r : MsgEthereumTxResponse) : MsgEthereumTxResponse :=
  mkResponse (r_Hash r) l (r_Ret r) (r_VmError r) (r_GasUsed r).

Definition receipt_of (c : EvmCtx) (tx : Transaction) (msg : Message) (txConfig : TxConfig)
    (meter : Meter.gas_meter) (bloom : option Z) (res : MsgEthereumTxResponse) : Receipt :=
  mkReceipt (tx_Type tx) (calculateCumulativeGasFromEthResponse meter res) (default 0 bloom) (r_Logs res)
    (TxHash txConfig) (match msg_To msg with None => CreateAddress (msg_From msg) (msg_Nonce msg) | Some _ => 0 end)
    (r_GasUsed res) (BlockHash txConfig) (x_height c) (TxIndex txConfig).

(** The hooks and the write of the cached context [tmp] after a run that did not
    fail.  The SDK's write emits the events of the cached context, too. *)
Definition post_process (c : EvmCtx) (tx : Transaction) (msg : Message) (txConfig : TxConfig)
    (res : MsgEthereumTxResponse) (tmp : vm_state * list event) : M evm_state MsgEthereumTxResponse :=
  let! s := gets (fun s => s) in
  let receipt := receipt_of c tx msg txConfig (es_meter s)
    (initializeBloomFromLogs c (es_transient s) (r_Logs res)) res in
  let! signerAddr := wrapping "failed to extract sender address from ethereum transaction"
    (lift (signer_Sender (MakeSigner (x_height c) (x_time c)) tx)) in
  match PostTxProcessing signerAddr msg receipt tmp with
  | (Panic m, _) => panic m
  | (Err e, _) => ret (with_vm_error ("failed to execute post transaction processing: " ++ e_msg e) res)
  | (Ok receipt, (store, events)) =>
      do! modify (fun s => ES store (es_events s ++ events) (es_transient s) (es_meter s));
      do! (if (length tmp.2 <? length events)%nat then emit_events (drop (length tmp.2) events) else ret tt);
      ret (with_response_logs (rc_Logs receipt) res)
  end.

(** Refund, counters of the block and the gas meter of the Cosmos transaction. *)
Definition settle (c : EvmCtx) (msg : Message) (txConfig : TxConfig) (res : MsgEthereumTxResponse)
    : M evm_state MsgEthereumTxResponse :=
  let ethLogs := r_Logs res in
  let! bloom := gets (fun s => initializeBloomFromLogs c (es_transient s) ethLogs) in
  let remainingGas := if r_GasUsed res <? msg_GasLimit msg then msg_GasLimit msg - r_GasUsed res else 0 in
  do! wrapping "failed to refund gas leftover gas to sender"
        (on_store (vm_RefundGas info (msg_From msg) (msg_GasPrice msg) remainingGas (Denom info)));
  do! (match ethLogs with
       | [] => ret tt
       | _ => on_transient (do! modify (SetBlockBloomTransient (x_height c) (default 0 bloom));
                            modify (SetLogSizeTransient (wrap64 (LogIndex txConfig + Z.of_nat (length ethLogs)))))
       end);
  do! on_transient (modify (SetTxIndexTransient (wrap64 (TxIndex txConfig + 1))));
  let! totalGasUsed := wrapping "failed to add transient gas used"
    (on_transient (AddTransientGasUsed (r_GasUsed res))) in
  do! on_meter (Meter.ResetGasMeterAndConsumeGas totalGasUsed);
  ret res.

Definition ApplyTransaction (c : EvmCtx) (fm : fm_state) (params : option VmParams) (tx : Transaction)
    : M evm_state MsgEthereumTxResponse :=
  let! cfg := wrapping "failed to load evm config"
    (lift (EVMConfig_of info chain GetValidatorByConsAddr c params fm (x_proposer c))) in
  let! txConfig := gets (fun s => TxConfig_of c (tx_Hash tx) (es_transient s)) in
  let! msg := wrapping "failed to return ethereum transaction as core message"
    (lift (TransactionToMessage tx (MakeSigner (x_height c) (x_time c)) (cfg_BaseFee cfg))) in
  let! s := gets (fun s => s) in
  match ApplyMessageWithConfig info chain consensus_params c fm msg true cfg txConfig false (es_store s, []) with
  | (Panic m, _) => panic m
  | (Err e, _) =>
      (* the gas meter is shared with the cached context *)
      do! on_meter (let! l := gets Meter.Limit in Meter.ResetGasMeterAndConsumeGas l);
      throw (Error (e_kind e) ("failed to apply ethereum core message: " ++ e_msg e))
  | (Ok res, tmp) =>
      let! res := (if Failed res then ret res else post_process c tx msg txConfig res tmp) in
      settle c msg txConfig res
  end.

(** * The message server and the block ([msg_server.go], [abci.go]) *)

Context `{EthHex}.

Definition EventTypeEthereumTx : string := "ethereum_tx".
(** The events of a message that was applied. *)
Definition ethereum_tx_events (txBytesHash : option string) (logText : Log -> string) (msg : MsgEthereumTx)
    (tx : Transaction) (txIndex : Z) (response : MsgEthereumTxResponse) : list event :=
  [Event EventTypeEthereumTx
     ([("amount", AInt (default 0 (tx_Value tx))); ("ethereumTxHash", AStr (Hash_Hex (r_Hash response)));
       ("txIndex", AInt txIndex); ("txGasUsed", AInt (r_GasUsed response))]
      ++ match txBytesHash with Some h => [("txHash", AStr h)] | None => [] end
      ++ match tx_To tx with Some to => [("recipient", AStr (Address_Hex to))] | None => [] end
      ++ if Failed response then [("ethereumTxFailed", AStr (r_VmError response))] else []);
   Event "tx_log" (map (fun l => ("txLog", AStr (logText l))) (r_Logs response));
   Event "message" [("module", AStr "evm"); ("sender", AStr (m_From msg)); ("txType", AInt (tx_Type tx))]].
Definition EthereumTx (c : EvmCtx) (fm : fm_state) (params : option VmParams) (txBytesHash : option string)
    (logText : Log -> string) (msg : MsgEthereumTx) : M evm_state MsgEthereumTxResponse :=
  match AsTransaction msg with
  | None => panic "nil pointer dereference"
  | Some tx =>
      let! txIndex := gets (fun s => GetTxIndexTransient (es_transient s)) in
      let! response := wrapping "failed to apply transaction" (ApplyTransaction c fm params tx) in
      do! emit_events (ethereum_tx_events txBytesHash logText msg tx txIndex response);
      ret response
  end.

(** [Query/BaseFee]: the base fee as an [sdkmath.Int]. *)
Definition vm_Query_BaseFee (c : EvmCtx) (fm : fm_state) : res (option Z) :=
  let? baseFee := vm_GetBaseFee info chain c fm in
  match baseFee with Some b => let? z := int_chk b in Ok (Some z) | None => Ok None end.
Definition vm_BeginBlock (c : EvmCtx) (fm : fm_state) : M evm_state unit :=
  let! baseFee := lift (vm_Query_BaseFee c fm) in
  match baseFee with
  | Some b => emit_events [Event "evm_fee_market" [("base_fee", AInt b)]]
  | None => ret tt
  end.
Definition vm_EndBlock (c : EvmCtx) : M evm_state unit :=
  let! bloom := gets (fun s => GetBlockBloomTransient (x_height c) (es_transient s)) in
  emit_events [Event "block_bloom" [("bloom", AInt bloom)]].
End transaction.
