(* ===== verification/StateTransitionThms.v ===== *)
(** What a message and a transaction cost and change: gas is charged within the
    limit and the minimum, a transaction commits a database the interpreter
    reached, and one that fails leaves nothing but its gas. *)
From S2P Require Import Prelude KVStore Sdk EvmConfig FeeMarket FeeMarketThms StateDB StateDBInv StateDBRun.
From S2P Require Import StateDBThms StateDBType StateDBCommit StateDBReach.
From S2P Require Import Wrappers VmKeeper VmKeeperThms TxData TxDataThms VmGas VmParams StateTransition.
Import AccessList Transient.

(** What go-ethereum promises of its interpreter: it never returns more gas than
    it was given, and it changes the state only through the operations of the
    database, on values of its types. *)
Class InterpLaws `{Interp} := {
  interp_call : forall env from to data gas v s r s', 0 <= gas -> u160 from -> u160 to -> u256 v ->
    evm_Call env from to data gas v s = (Ok r, s') ->
    0 <= rr_gas r <= gas /\ exists ops, Forall op_typed ops /\ each run_op ops s = (Ok tt, s');
  interp_create : forall env from data gas v s r s', 0 <= gas -> u160 from -> u256 v ->
    evm_Create env from data gas v s = (Ok r, s') ->
    0 <= rr_gas r <= gas /\ exists ops, Forall op_typed ops /\ each run_op ops s = (Ok tt, s');
}.

Lemma wrapping_ok {S A} msg (m : M S A) s x s' : wrapping msg m s = (Ok x, s') -> m s = (Ok x, s').
Proof. unfold wrapping. destruct (m s) as [[]]; congruence. Qed.

Lemma each_app {S A} (f : A -> M S unit) l1 l2 s s1 s2 :
  each f l1 s = (Ok tt, s1) -> each f l2 s1 = (Ok tt, s2) -> each f (l1 ++ l2) s = (Ok tt, s2).
Proof.
  revert s. induction l1 as [|x l1 IH]; intros s H1 H2; simpl in *; [by injection H1 as ->|].
  apply bind_ok in H1 as ([] & s3 & Hx & H1). rewrite (bind_run _ _ _ _ _ Hx). by apply IH.
Qed.

Section message.
Context `{DecLib, !DecLaws, Keccak, StateKeeper, !KeeperTypes, EthCore, !EthCoreLaws, !Interp, !InterpLaws}.
Variable info : EvmCoinInfo.
Variable chain : ChainConfig.
Variable consensus_params : option (option Z).

(** The types of a message. *)
Definition msg_typed (m : Message) : Prop :=
  u160 (msg_From m) /\ (forall a, msg_To m = Some a -> u160 a) /\ u64 (msg_Nonce m) /\ 0 <= msg_GasLimit m < 2 ^ 63.

Lemma value_ok v w : Uint256FromBigInt v = Some w -> w = v /\ u256 v.
Proof.
  unfold Uint256FromBigInt. destruct (Z.ltb_spec v 0); [done|]. destruct (Z.leb_spec (2 ^ 256) v); [done|].
  intros [= <-]. done.
Qed.

Lemma execute_ok env msg gas v s r s' :
  msg_typed msg -> 0 <= gas -> u256 v -> execute env msg gas v s = (Ok r, s') ->
  0 <= rr_gas r <= gas /\ exists ops, Forall op_typed ops /\ each run_op ops s = (Ok tt, s').
Proof.
  intros (Hf & Ht & Hn & _) Hg Hv Hr. unfold execute in Hr. destruct (msg_To msg) as [to|].
  - by eapply interp_call; [..|exact Hr]; auto.
  - apply bind_ok in Hr as ([] & s1 & K1 & Hr). apply bind_ok in Hr as (r' & s2 & K2 & Hr).
    apply bind_ok in Hr as ([] & s3 & K3 & [= <- <-]).
    destruct (interp_create _ _ _ _ _ _ _ _ Hg Hf Hv K2) as [Hgas (ops & Hty & Hops)]. split; [done|].
    exists ([OSetNonce (msg_From msg) (msg_Nonce msg)] ++ ops ++ [OSetNonce (msg_From msg) (wrap64 (msg_Nonce msg + 1))]).
    split.
    + assert (u64 (wrap64 (msg_Nonce msg + 1))) by (apply Z.mod_pos_bound; lia).
      apply Forall_app_2; [|apply Forall_app_2; [done|]]; (apply Forall_cons; split; [done|apply Forall_nil; done]).
    + eapply each_app; [|eapply each_app; [exact Hops|]]; simpl.
      * by rewrite (bind_run _ _ _ _ _ K1).
      * by rewrite (bind_run _ _ _ _ _ K3).
Qed.

Lemma Prepare_typed rules sender coinbase dst precompiles l s s' :
  sdb_typed s -> Prepare rules sender coinbase dst precompiles l s = (Ok tt, s') -> sdb_typed s'.
Proof.
  intros [? ? ? ? ? ? ?] Hr. unfold Prepare in Hr. destruct (IsEIP2929 rules && IsEIP4762 rules); [done|].
  apply bind_ok in Hr as ([] & s1 & Hp & [= <-]).
  assert (exists al, s1 = with_access al s) as [al ->].
  { destruct (IsEIP2929 rules).
    - apply bind_lift_ok in Hp as (al & _ & [= <-]). eauto.
    - injection Hp as <-. exists (access s). by destruct s. }
  by constructor.
Qed.

(** A run of a message, step by step. *)
Lemma apply_message_run c fm msg commit cfg txc internal s res s' :
  apply_message info chain consensus_params c fm msg commit cfg txc internal s = (Ok res, s') ->
  exists env intrinsic s1 r s2, GetEthIntrinsicGas chain c msg (bool_decide (msg_To msg = None)) = Ok intrinsic /\
    intrinsic <= msg_GasLimit msg /\ u256 (msg_Value msg) /\
    Prepare (chain_Rules chain (x_height c) (x_time c)) (msg_From msg) 0 (msg_To msg)
      (evm_ActivePrecompiles env) (default [] (msg_AccessList msg)) s = (Ok tt, s1) /\
    execute env msg (msg_GasLimit msg - intrinsic) (msg_Value msg) s1 = (Ok r, s2) /\
    (if commit then Commit s2 = (Ok tt, s') else s' = s2) /\
    r_VmError res = default "" (rr_err r) /\ r_Logs res = logs s' /\
    let q := if internal then 1 else if IsLondon chain (x_height c) then 5 else 2 in
    let temp := msg_GasLimit msg - rr_gas r in let back := GasToRefund (refund s2) temp q in
    charged_gas info fm (msg_GasLimit msg) (wrap64 (rr_gas r + back)) (wrap64 (temp - back)) internal
      = Ok (r_GasUsed res).
Proof.
  intros Hr. unfold apply_message in Hr. apply bind_lift_ok in Hr as (env & _ & Hr).
  apply bind_ok in Hr as (intrinsic & s0 & Hi & Hr). apply wrapping_ok in Hi. injection Hi as Hi <-.
  destruct (Z.ltb_spec (msg_GasLimit msg) intrinsic); [done|].
  apply bind_ok in Hr as ([] & s1 & Hp & Hr).
  destruct (Uint256FromBigInt (msg_Value msg)) as [v|] eqn:Hv; [|done]. apply value_ok in Hv as [-> Hv].
  apply bind_ok in Hr as (r & s2 & Hx & Hr).
  destruct (Z.ltb_spec (msg_GasLimit msg) (rr_gas r)); [done|].
  unfold GetRefund in Hr. rewrite bind_gets in Hr.
  apply bind_ok in Hr as ([] & s3 & Hc & Hr). apply bind_lift_ok in Hr as (used & Hu & Hr).
  unfold Logs in Hr. rewrite bind_gets in Hr. injection Hr as <- <-.
  exists env, intrinsic, s1, r, s2. split_and!; try done. destruct commit; [by apply wrapping_ok in Hc|by injection Hc].
Qed.

Lemma GetMinGasMultiplier_ok fm d : GetMinGasMultiplier info fm = Ok d -> d = MinGasMultiplier (GetParams fm).
Proof. unfold GetMinGasMultiplier, wrapper_GetParams. intros Hd. run_inv; done. Qed.

Lemma charged_gas_ok fm gl left temp internal used :
  Params_Validate (GetParams fm) = Ok tt -> 0 <= temp <= gl -> gl < 2 ^ 63 ->
  charged_gas info fm gl left temp internal = Ok used ->
  exists m, MinGasMultiplier (GetParams fm) = Some m /\ 0 <= m <= dec_one /\
    used = if internal then temp else Z.max temp (gl * m / dec_one).
Proof.
  intros Hv Ht Hg Hu. apply Params_Validate_spec in Hv. destruct Hv as [_ _ _ _ _ (m & Hm & Hmr) _].
  exists m. split; [done|]. split; [done|]. unfold charged_gas in Hu.
  apply rbind_ok in Hu as (d & Hd & Hu). rewrite (GetMinGasMultiplier_ok _ _ Hd), Hm in Hu. cbn [dec_val rbind] in Hu.
  apply rbind_ok in Hu as (mu & Hmu & Hu). apply dec_mul_of_int in Hmu as ->.
  apply rbind_ok in Hu as (mi & _ & Hu). destruct (negb (is_uint64 mi)); [done|]. destruct (gl <? left); [done|].
  cbv zeta in Hu. apply rbind_ok in Hu as (u & Hu' & Hu). dec_inv. unfold int_uint64 in Hu.
  destruct (is_uint64 _) in Hu; [|done]. injection Hu as <-.
  assert (to_int64 temp = temp) as Hto.
  { unfold to_int64, wrap64. rewrite Z.mod_small by lia. by rewrite (proj2 (Z.ltb_lt _ _)) by lia. }
  assert (0 < dec_one) by done. unfold dec_of_int, dec_max. rewrite Hto. destruct internal; [by rewrite Z.quot_mul by lia|].
  destruct (Z.ltb_spec (temp * dec_one) (gl * m)) as [Hlt|Hge].
  - rewrite Z.quot_div_nonneg by nia. assert (temp <= gl * m / dec_one); [|lia].
    apply Z.div_le_lower_bound; lia.
  - rewrite Z.quot_mul by lia. assert (gl * m / dec_one <= temp); [|lia]. apply Z.div_le_upper_bound; lia.
Qed.
Lemma GasToRefund_range available used q :
  0 <= available -> 0 <= used -> 0 < q -> 0 <= GasToRefund available used q <= used / q.
Proof.
  intros Ha Hu Hq. unfold GasToRefund. pose proof (Z.div_pos used q Hu Hq).
  destruct (Z.ltb_spec available (used / q)); lia.
Qed.

Lemma unrefunded_mono q x y : 0 < q -> x <= y -> x - x / q <= y - y / q.
Proof.
  intros Hq Hxy. assert (y / q <= x / q + (y - x)); [|lia]. rewrite <- Z.div_add by lia.
  apply Z.div_le_mono; [lia|]. nia.
Qed.

(** What a message that returns has done: an interpreter run on a prepared
    database, and the gas it is charged. *)
Lemma message_effect c fm msg commit cfg txc internal st res st' :
  kt_ok st.1 -> msg_typed msg -> Params_Validate (GetParams fm) = Ok tt ->
  ApplyMessageWithConfig info chain consensus_params c fm msg commit cfg txc internal st = (Ok res, st') ->
  exists db db', reachable st.1 st.2 txc db /\ sdb_typed db /\
    (if commit then Commit db = (Ok tt, db') else db' = db) /\ st' = (ctx db', ctx_events db') /\
    r_Logs res = logs db' /\
    exists intrinsic m, GetEthIntrinsicGas chain c msg (bool_decide (msg_To msg = None)) = Ok intrinsic /\
      let q := if internal then 1 else if IsLondon chain (x_height c) then 5 else 2 in
      MinGasMultiplier (GetParams fm) = Some m /\
      intrinsic - intrinsic / q <= r_GasUsed res <= msg_GasLimit msg /\
      (internal = false -> msg_GasLimit msg * m / dec_one <= r_GasUsed res).
Proof.
  intros Hk Hm Hv Hr. unfold ApplyMessageWithConfig in Hr.
  destruct (apply_message _ _ _ _ _ _ _ _ _ _ _) as [r0 db'] eqn:Ha in Hr. injection Hr as -> <-.
  apply apply_message_run in Ha as (env & intrinsic & s1 & r & db & Hi & Hle & Hval & Hp & Hx & Hc & _ & Hl & Hu).
  pose proof (New_typed st.1 st.2 txc Hk) as Ht0. pose proof (Prepare_typed _ _ _ _ _ _ _ _ Ht0 Hp) as Ht1.
  assert (0 <= msg_GasLimit msg - intrinsic) as Hgl by lia.
  destruct (execute_ok _ _ _ _ _ _ _ Hm Hgl Hval Hx) as [Hgas (ops & Hty & Hops)].
  pose proof (run_typed _ _ _ _ Ht1 Hty Hops) as Ht2.
  exists db, db'. split; [eapply reachable_run; [eapply r_prepare; exact Hp|exact Hops]|].
  split_and!; try done. exists intrinsic. apply intrinsic_u64 in Hi as Hi'. destruct Hm as (_ & _ & _ & Hg).
  cbv zeta in Hu. set (q := if internal then 1 else if IsLondon chain (x_height c) then 5 else 2) in *.
  assert (0 < q) as Hq by (unfold q; destruct internal, (IsLondon chain (x_height c)); lia).
  set (temp := msg_GasLimit msg - rr_gas r) in *. assert (intrinsic <= temp <= msg_GasLimit msg) as Htemp by lia.
  pose proof (GasToRefund_range (refund db) temp q ltac:(apply Ht2) ltac:(lia) Hq) as Hb.
  set (back := GasToRefund _ _ _) in *. assert (temp / q <= temp) by (apply Z.div_le_upper_bound; nia).
  unfold wrap64 in Hu. rewrite (Z.mod_small (temp - back)) in Hu by lia.
  assert (0 <= temp - back <= msg_GasLimit msg) as Htb by lia.
  destruct (charged_gas_ok _ _ _ _ _ _ Hv Htb (proj2 Hg) Hu) as (m & Hmul & Hmr & Hused).
  exists m. split; [done|]. split; [done|]. pose proof (unrefunded_mono q intrinsic temp Hq ltac:(lia)).
  assert (msg_GasLimit msg * m / dec_one <= msg_GasLimit msg) by (apply Z.div_le_upper_bound; [done|nia]).
  rewrite Hused. destruct internal; split; try done; lia.
Qed.

(** C26. The gas a message is charged is at most its limit, at least the share of
    the limit the fee market asks for, and at least its intrinsic gas less the
    refund the protocol allows (a fifth of what is used after London, half
    before). *)
Theorem ApplyMessage_gas_bounds c fm msg commit cfg txc st res st' :
  kt_ok st.1 -> msg_typed msg -> Params_Validate (GetParams fm) = Ok tt ->
  ApplyMessageWithConfig info chain consensus_params c fm msg commit cfg txc false st = (Ok res, st') ->
  exists intrinsic m, GetEthIntrinsicGas chain c msg (bool_decide (msg_To msg = None)) = Ok intrinsic /\
    MinGasMultiplier (GetParams fm) = Some m /\
    msg_GasLimit msg * m / dec_one <= r_GasUsed res <= msg_GasLimit msg /\
    intrinsic - intrinsic / (if IsLondon chain (x_height c) then 5 else 2) <= r_GasUsed res.
Proof.
  intros Hk Hm Hv Hr. destruct (message_effect _ _ _ _ _ _ _ _ _ _ Hk Hm Hv Hr)
    as (db & db' & _ & _ & _ & _ & _ & intrinsic & m & Hi & Hmul & Hu & Hmin).
  exists intrinsic, m. specialize (Hmin eq_refl). split_and!; try done; lia.
Qed.
End message.

(** * Transactions *)

Section transaction.
Context `{DecLib, !DecLaws, CoinsLib, Keccak, EthTypes, !EthSigner, !EthSignerLaws, EthCore, !EthCoreLaws, EthReceipts}.
Context `{EvmAccounts, !EvmAccountsLaws, EvmBank}.
Variable info : EvmCoinInfo.
Context `{!EvmBankLaws info}.
Hypothesis Hkeccak : forall b, u256 (Keccak256Hash b).
#[local] Instance t_keeper : StateKeeper := VmStateKeeper info.
#[local] Instance t_types : KeeperTypes := VmKeeperTypes info Hkeccak.
Context `{!Interp, !InterpLaws}.
Variable chain : ChainConfig.
Variable consensus_params : option (option Z).
Variable GetValidatorByConsAddr : bytes -> res string.

(** A payment between an account and the fee collector, as plain accounts see it. *)
Definition collector_paid (b b' : EB) (a : addr) (n : Z) : Prop :=
  forall x, eb_plain info x -> eb_balance info b' x = eb_balance info b x
    - (if decide (x = a) then n else 0) + (if decide (eb_module info FeeCollector = Some x) then n else 0).

Lemma convert_one n : ConvertCoinsDenomToExtendedDenom info [Coin (Denom info) n] = [Coin (ExtendedDenom info) n].
Proof. unfold ConvertCoinsDenomToExtendedDenom. simpl. rewrite bool_decide_true by done. by rewrite convert_own. Qed.

Lemma refund_ok from price left s s' :
  vm_ok info s -> vm_RefundGas info from price left (Denom info) s = (Ok tt, s') ->
  0 <= left * price /\ vm_ok info s' /\ vm_kv s' = vm_kv s /\ vm_accounts s' = vm_accounts s /\
  collector_paid (vm_bank s) (vm_bank s') (address_bytes from) (- (left * price)).
Proof.
  intros [Hk Hb] Hr. unfold vm_RefundGas in Hr. set (n := left * price) in *.
  destruct (Z.ltb_spec n 0); [done|]. destruct (Z.ltb_spec 0 n) as [Hn|Hn].
  - apply bind_lift_ok in Hr as (amt & Ha & Hr). apply int_chk_ok in Ha as ->.
    apply bind_lift_ok in Hr as (coin & Hc & Hr). apply new_coin_ok in Hc as (-> & _).
    destruct (with_bank _ _) as [[[]| |] s1] eqn:E in Hr; try done. injection Hr as <-.
    apply zoom_ok in E as (b & Hs & ->). simpl. unfold wrapper_SendCoinsFromModuleToAccount in Hs.
    rewrite convert_one in Hs. simpl in Hs. destruct (Z.eqb_spec n 0); [lia|]. simpl in Hs.
    apply (eb_pay info) in Hs as (Hb' & ma & Hma & Hbal); [|by right|done|done].
    split_and!; try done. intros x Hx. rewrite Hbal by done. rewrite Hma.
    destruct (decide (x = ma)) as [->|]; [rewrite (decide_True (P := Some ma = Some ma)) by done|
      rewrite (decide_False (P := Some ma = Some x)) by congruence]; destruct (decide (_ = address_bytes from)); lia.
  - injection Hr as <-. assert (n = 0) as -> by lia. split_and!; try done.
    intros x _. destruct (decide (x = _)), (decide (eb_module info FeeCollector = _)); lia.
Qed.

Lemma AddTransientGasUsed_ok used t total t' :
  0 <= GetTransientGasUsed t < 2 ^ 64 -> 0 <= used < 2 ^ 64 ->
  AddTransientGasUsed used t = (Ok total, t') ->
  total = GetTransientGasUsed t + used /\ total < 2 ^ 64 /\ t' = SetTransientGasUsed total t.
Proof.
  intros Hc Hu Hr. unfold AddTransientGasUsed in Hr. rewrite bind_gets in Hr.
  set (cur := GetTransientGasUsed t) in *. destruct (Z.ltb_spec (wrap64 (cur + used)) used) as [|Hge]; [done|].
  apply bind_ok in Hr as ([] & t1 & [= <-] & [= <- <-]). unfold wrap64 in *.
  destruct (Z.lt_ge_cases (cur + used) (2 ^ 64)) as [Hlt|Hover].
  - rewrite Z.mod_small by lia. done.
  - replace (cur + used) with (cur + used - 2 ^ 64 + 1 * 2 ^ 64) in Hge by lia.
    rewrite Z.mod_add, Z.mod_small in Hge by lia. lia.
Qed.

Lemma ResetGasMeter_ok n g g' :
  Meter.ResetGasMeterAndConsumeGas n g = (Ok tt, g') -> g' = Meter.mkMeter n (Meter.limit g).
Proof.
  unfold Meter.ResetGasMeterAndConsumeGas. rewrite bind_gets. intros Hr.
  apply bind_ok in Hr as ([] & g1 & Hf & Hr). unfold Meter.RefundGas in Hf. rewrite bind_gets in Hf.
  destruct (Z.ltb_spec (Meter.consumed g) (Meter.GasConsumed g)); [done|]. injection Hf as <-.
  unfold Meter.ConsumeGas in Hr. rewrite bind_gets in Hr. unfold Meter.addUint64Overflow in Hr. simpl in Hr.
  rewrite Z.sub_diag in Hr. destruct (max_uint64 - 0 <? n); [done|]. by injection Hr as <-.
Qed.

(** The counters of the block after a transaction. *)
Definition counted (c : EvmCtx) (txc : TxConfig) (res : MsgEthereumTxResponse) (s s' : evm_state) : Prop :=
  GetTransientGasUsed (es_transient s') = GetTransientGasUsed (es_transient s) + r_GasUsed res /\
  GetTxIndexTransient (es_transient s') = wrap64 (TxIndex txc + 1) /\
  (r_Logs res <> [] ->
    GetLogSizeTransient (es_transient s') = wrap64 (LogIndex txc + Z.of_nat (length (r_Logs res)))) /\
  Meter.GasConsumed (es_meter s') = GetTransientGasUsed (es_transient s').

Lemma wrap64_u64 n : 0 <= wrap64 n <= max_uint64.
Proof. unfold wrap64, max_uint64. pose proof (Z.mod_pos_bound n (2 ^ 64)). lia. Qed.

Lemma settle_same c msg txc res s res' s' : settle info c msg txc res s = (Ok res', s') -> res' = res.
Proof. intros Hr. unfold settle in Hr. run_inv; done. Qed.

Lemma settle_ok c msg txc res s res' s' :
  0 <= GetTransientGasUsed (es_transient s) < 2 ^ 64 -> 0 <= r_GasUsed res < 2 ^ 64 ->
  settle info c msg txc res s = (Ok res', s') ->
  res' = res /\ es_events s' = es_events s /\ counted c txc res s s' /\
  vm_RefundGas info (msg_From msg) (msg_GasPrice msg)
    (if r_GasUsed res <? msg_GasLimit msg then msg_GasLimit msg - r_GasUsed res else 0) (Denom info) (es_store s)
    = (Ok tt, es_store s').
Proof.
  intros Hg Hu Hr. unfold settle in Hr. rewrite bind_gets in Hr.
  apply bind_ok in Hr as ([] & s1 & Hf & Hr). apply wrapping_ok, zoom_ok in Hf as (v & Hf & ->).
  apply bind_ok in Hr as ([] & s2 & Hl & Hr). apply bind_ok in Hr as ([] & s3 & Hi & Hr).
  apply bind_ok in Hr as (total & s4 & Ht & Hr). apply wrapping_ok, zoom_ok in Ht as (t4 & Ht & ->).
  apply bind_ok in Hr as ([] & s5 & Hm & [= <- <-]). apply zoom_ok in Hm as (g & Hm & ->).
  apply zoom_ok in Hi as (t3 & [= <-] & ->). simpl in *.
  set (b := default 0 _) in Hl.
  set (l := match r_Logs res with [] => es_transient s | _ => SetLogSizeTransient
    (wrap64 (LogIndex txc + Z.of_nat (length (r_Logs res)))) (SetBlockBloomTransient (x_height c) b (es_transient s)) end).
  assert (s2 = ES v (es_events s) l (es_meter s)) as ->.
  { unfold l. destruct (r_Logs res) as [|lg ls]; [by injection Hl|]. apply zoom_ok in Hl as (t & Ht' & ->). simpl in Ht'.
    by injection Ht' as <-. }
  simpl in *. assert (GetTransientGasUsed (SetTxIndexTransient (wrap64 (TxIndex txc + 1)) l) =
    GetTransientGasUsed (es_transient s)) as E.
  { unfold GetTransientGasUsed, SetTxIndexTransient. rewrite lookup_insert_ne by done. unfold l.
    destruct (r_Logs res); [done|]. unfold SetLogSizeTransient, SetBlockBloomTransient.
    by rewrite !lookup_insert_ne by done. }
  apply AddTransientGasUsed_ok in Ht as (-> & Hlt & ->); [|by rewrite E|done]. rewrite E in *.
  apply ResetGasMeter_ok in Hm as ->. split_and!; try done.
  assert (0 <= GetTransientGasUsed (es_transient s) + r_GasUsed res <= max_uint64) by (unfold max_uint64; lia).
  unfold counted, GetTransientGasUsed at 1 3, SetTransientGasUsed, GetTxIndexTransient, GetLogSizeTransient. simpl.
  rewrite lookup_insert_eq, be_uint64_be64 by done. split_and!; try done.
  - rewrite lookup_insert_ne by done. unfold SetTxIndexTransient. rewrite lookup_insert_eq.
    apply be_uint64_be64, wrap64_u64.
  - intros Hne. rewrite lookup_insert_ne by done. unfold SetTxIndexTransient. rewrite lookup_insert_ne by done.
    unfold l. destruct (r_Logs res); [done|]. unfold SetLogSizeTransient. rewrite lookup_insert_eq.
    apply be_uint64_be64, wrap64_u64.
  - unfold GetTransientGasUsed at 2. by rewrite lookup_insert_eq, be_uint64_be64.
Qed.

Abbreviation hook := (Address -> Message -> Receipt -> M (vm_state * list event) Receipt).
Abbreviation apply_tx hooks := (ApplyTransaction info chain consensus_params GetValidatorByConsAddr hooks).
Abbreviation signer_at c := (MakeSigner (x_height c) (x_time c)).

Lemma ApplyTransaction_run hooks c fm params tx s res s' :
  apply_tx hooks c fm params tx s = (Ok res, s') ->
  exists cfg msg res0 tmp res1 s1,
    EVMConfig_of info chain GetValidatorByConsAddr c params fm (x_proposer c) = Ok cfg /\
    TransactionToMessage tx (signer_at c) (cfg_BaseFee cfg) = Ok msg /\
    let txc := TxConfig_of c (tx_Hash tx) (es_transient s) in
    ApplyMessageWithConfig info chain consensus_params c fm msg true cfg txc false (es_store s, []) = (Ok res0, tmp) /\
    (if Failed res0 then res1 = res0 /\ s1 = s else post_process hooks c tx msg txc res0 tmp s = (Ok res1, s1)) /\
    settle info c msg txc res1 s1 = (Ok res, s').
Proof.
  intros Hr. unfold ApplyTransaction in Hr. apply bind_ok in Hr as (cfg & s0 & Hc & Hr). apply wrapping_ok in Hc.
  injection Hc as Hc <-. rewrite bind_gets in Hr. apply bind_ok in Hr as (msg & s0 & Hm & Hr). apply wrapping_ok in Hm.
  injection Hm as Hm <-. rewrite bind_gets in Hr.
  destruct (ApplyMessageWithConfig _ _ _ _ _ _ _ _ _ _ _) as [[res0| |] tmp] eqn:Ha in Hr; [|run_inv|run_inv].
  apply bind_ok in Hr as (res1 & s1 & Hp & Hr). exists cfg, msg, res0, tmp, res1, s1. split_and!; try done.
  destruct (Failed res0); [by injection Hp as <- <-|done].
Qed.

(** After the hooks: either they failed, and nothing was written, or the cached
    context was, with the events of the hooks once more. *)
Lemma post_process_ok hooks c tx msg txc res tmp s res' s' :
  post_process hooks c tx msg txc res tmp s = (Ok res', s') ->
  (Failed res' = true /\ s' = s /\ r_GasUsed res' = r_GasUsed res) \/
  exists sender receipt receipt' store events,
    PostTxProcessing hooks sender msg receipt tmp = (Ok receipt', (store, events)) /\
    rc_Logs receipt = r_Logs res /\ res' = with_response_logs (rc_Logs receipt') res /\
    s' = ES store (es_events s ++ events ++ drop (length tmp.2) events) (es_transient s) (es_meter s).
Proof.
  intros Hr. unfold post_process in Hr. rewrite bind_gets in Hr.
  apply bind_ok in Hr as (sender & s0 & Hs & Hr). apply wrapping_ok in Hs. injection Hs as Hs <-.
  destruct (PostTxProcessing hooks sender msg _ tmp) as [[receipt'|e|] [store events]] eqn:Hp in Hr; [right|left|done].
  - apply bind_ok in Hr as ([] & s1 & [= <-] & Hr). apply bind_ok in Hr as ([] & s2 & He & [= <- <-]).
    eexists _, _, _, _, _. split_and!; [exact Hp|done|done|].
    destruct (Nat.ltb_spec (length tmp.2) (length events)).
    + injection He as <-. simpl. by rewrite <- app_assoc.
    + injection He as <-. simpl. by rewrite (drop_ge events), app_nil_r by done.
  - injection Hr as <- <-. done.
Qed.

Lemma message_typed_ok tx c b msg :
  0 <= tx_Gas tx < 2 ^ 63 -> TransactionToMessage tx (signer_at c) b = Ok msg -> msg_typed msg.
Proof.
  intros Hg Hm. destruct (message_types _ _ _ _ Hm) as (Hf & Ht & Hn & _).
  destruct (message_of _ _ _ _ Hm) as (_ & _ & _ & _ & Hgas & _). rewrite <- Hgas in Hg. exact (conj Hf (conj Ht (conj Hn Hg))).
Qed.

(** [message_effect] on the stores of x/vm. *)
Lemma vm_message_effect c fm msg cfg txc st res tmp :
  kv_ok (vm_kv st) -> msg_typed msg -> Params_Validate (GetParams fm) = Ok tt ->
  ApplyMessageWithConfig info chain consensus_params c fm msg true cfg txc false (st, []) = (Ok res, tmp) ->
  exists db db', reachable st [] txc db /\ sdb_typed db /\ Commit db = (Ok tt, db') /\
    tmp = (ctx db', ctx_events db') /\ r_Logs res = logs db' /\ 0 <= r_GasUsed res <= msg_GasLimit msg.
Proof.
  intros Hk Hm Hv Ha.
  destruct (@message_effect _ _ _ t_keeper t_types _ _ _ _ info chain consensus_params c fm msg true cfg txc false
    (st, []) res tmp Hk Hm Hv Ha) as (db & db' & Hr & Ht & Hc & -> & Hl & intrinsic & m & Hi & _ & [Hlo Hu] & _).
  exists db, db'. split_and!; try done. apply intrinsic_u64 in Hi. revert Hlo.
  destruct (IsLondon chain (x_height c)); intros; [pose proof (Z.div_le_upper_bound intrinsic 5 intrinsic)|
    pose proof (Z.div_le_upper_bound intrinsic 2 intrinsic)]; lia.
Qed.

(** A transaction that fails, in the interpreter or in a hook, changes nothing
    but what it pays: no storage, code, account or event, and of the balances only
    the price of the gas that was not charged goes back from the fee collector to
    the sender; the gas charged is counted for the block and is at most the limit. *)
Lemma failed_transaction_costs_gas hooks c fm params tx s res s' :
  vm_ok info (es_store s) -> Params_Validate (GetParams fm) = Ok tt ->
  0 <= GetTransientGasUsed (es_transient s) < 2 ^ 64 -> 0 <= tx_Gas tx < 2 ^ 63 ->
  apply_tx hooks c fm params tx s = (Ok res, s') -> Failed res = true ->
  exists msg baseFee, vm_GetBaseFee info chain c fm = Ok baseFee /\
    TransactionToMessage tx (signer_at c) baseFee = Ok msg /\ 0 <= r_GasUsed res <= msg_GasLimit msg /\
    vm_kv (es_store s') = vm_kv (es_store s) /\ vm_accounts (es_store s') = vm_accounts (es_store s) /\
    es_events s' = es_events s /\
    collector_paid (vm_bank (es_store s)) (vm_bank (es_store s')) (address_bytes (msg_From msg))
      (- ((msg_GasLimit msg - r_GasUsed res) * msg_GasPrice msg)) /\
    counted c (TxConfig_of c (tx_Hash tx) (es_transient s)) res s s'.
Proof.
  intros Hok Hv Ht Hg Hr Hf. apply ApplyTransaction_run in Hr
    as (cfg & msg & res0 & tmp & res1 & s1 & Hc & Hm & Ha & Hp & Hs). cbv zeta in *.
  exists msg, (cfg_BaseFee cfg). assert (msg_typed msg) as Hmt by by eapply message_typed_ok.
  destruct (vm_message_effect _ _ _ _ _ _ _ _ (proj1 Hok) Hmt Hv Ha)
    as (db & db' & _ & _ & _ & _ & _ & Hu).
  assert (Failed res1 = true -> s1 = s /\ r_GasUsed res1 = r_GasUsed res0) as Hs1.
  { intros Hf1. destruct (Failed res0) eqn:Hf0; [by destruct Hp as [-> ->]|]. apply post_process_ok in Hp
      as [(_ & -> & E)|(? & ? & ? & ? & ? & _ & _ & -> & _)]; [done|]. unfold Failed in *. simpl in Hf1. congruence. }
  assert (res = res1) as -> by by eapply settle_same.
  destruct (Hs1 Hf) as [-> Hgas]. destruct Hmt as (_ & _ & _ & Hgl).
  apply settle_ok in Hs as (_ & He & Hcnt & Hrf); [|done|lia].
  apply refund_ok in Hrf as (_ & _ & Hkv & Hac & Hpaid); [|done].
  assert ((if r_GasUsed res1 <? msg_GasLimit msg then msg_GasLimit msg - r_GasUsed res1 else 0)
    = msg_GasLimit msg - r_GasUsed res1) as E by (destruct (Z.ltb_spec (r_GasUsed res1) (msg_GasLimit msg)); lia).
  rewrite E in Hpaid. unfold EVMConfig_of in Hc. run_inv. rewrite Hgas in *. split_and!; try done; lia.
Qed.

(** C20. Without hooks, a transaction that does not fail leaves the commit of a
    database the interpreter reached from the state before it, the events of that
    commit, its logs in the answer, and the refund of the unused gas. *)
Theorem ApplyTransaction_commits c fm params tx s res s' :
  vm_ok info (es_store s) -> Params_Validate (GetParams fm) = Ok tt ->
  0 <= GetTransientGasUsed (es_transient s) < 2 ^ 64 -> 0 <= tx_Gas tx < 2 ^ 63 ->
  apply_tx None c fm params tx s = (Ok res, s') -> Failed res = false ->
  let txc := TxConfig_of c (tx_Hash tx) (es_transient s) in
  exists msg baseFee db db', vm_GetBaseFee info chain c fm = Ok baseFee /\
    TransactionToMessage tx (signer_at c) baseFee = Ok msg /\ 0 <= r_GasUsed res <= msg_GasLimit msg /\
    reachable (es_store s) [] txc db /\ sdb_typed db /\ Commit db = (Ok tt, db') /\ r_Logs res = logs db' /\
    es_events s' = es_events s ++ ctx_events db' /\
    vm_RefundGas info (msg_From msg) (msg_GasPrice msg) (msg_GasLimit msg - r_GasUsed res) (Denom info) (ctx db')
      = (Ok tt, es_store s') /\
    counted c txc res s s'.
Proof.
  intros Hok Hv Ht Hg Hr Hf. apply ApplyTransaction_run in Hr
    as (cfg & msg & res0 & tmp & res1 & s1 & Hc & Hm & Ha & Hp & Hs). cbv zeta in *.
  exists msg, (cfg_BaseFee cfg). assert (msg_typed msg) as Hmt by by eapply message_typed_ok.
  destruct (vm_message_effect _ _ _ _ _ _ _ _ (proj1 Hok) Hmt Hv Ha)
    as (db & db' & Hre & Hty & Hco & -> & Hl & Hu).
  exists db, db'.
  assert (res = res1) as -> by by eapply settle_same.
  destruct (Failed res0) eqn:Hf0; [by destruct Hp as [-> _]; congruence|].
  apply post_process_ok in Hp as [(Hf1 & _)|(sender & receipt & receipt' & store & events & Hpt & Hrl & -> & ->)];
    [congruence|]. injection Hpt as <- <- <-. destruct Hmt as (_ & _ & _ & Hgl). simpl in Hs.
  rewrite drop_all, app_nil_r in Hs.
  apply settle_ok in Hs as (_ & He & Hcnt & Hrf); [|done|simpl; lia]. simpl in *.
  assert ((if r_GasUsed res0 <? msg_GasLimit msg then msg_GasLimit msg - r_GasUsed res0 else 0)
    = msg_GasLimit msg - r_GasUsed res0) as E by (destruct (Z.ltb_spec (r_GasUsed res0) (msg_GasLimit msg)); lia).
  rewrite E in Hrf. unfold EVMConfig_of in Hc. run_inv. split_and!; try done; try lia. congruence.
Qed.

(** The events a hook emits are emitted twice: the write of the cached context
    emits them, and [ApplyTransaction] emits them again. *)
Theorem hook_events_twice hooks c tx msg txc res tmp s res' s' store new :
  (forall sender receipt, exists receipt',
    PostTxProcessing hooks sender msg receipt tmp = (Ok receipt', (store, tmp.2 ++ new))) ->
  post_process hooks c tx msg txc res tmp s = (Ok res', s') ->
  es_events s' = es_events s ++ tmp.2 ++ new ++ new /\ es_store s' = store.
Proof.
  intros Hh Hr. unfold post_process in Hr. rewrite bind_gets in Hr. apply bind_ok in Hr as (sender & s0 & Hs & Hr).
  apply wrapping_ok in Hs. injection Hs as Hs <-. destruct (Hh sender (receipt_of c tx msg txc (es_meter s)
    (initializeBloomFromLogs c (es_transient s) (r_Logs res)) res)) as (receipt' & E). rewrite E in Hr.
  apply bind_ok in Hr as ([] & s1 & [= <-] & Hr). apply bind_ok in Hr as ([] & s2 & He & [= <- <-]).
  rewrite length_app, drop_app_length in He. destruct (Nat.ltb_spec (length tmp.2) (length tmp.2 + length new)).
  - injection He as <-. simpl. by rewrite <- !app_assoc.
  - injection He as <-. destruct new; [|simpl in *; lia]. simpl. by rewrite !app_nil_r.
Qed.
End transaction.
