(* ===== verification/EthAnte.v ===== *)
(** The ante handler of Ethereum transactions ([ante/evm]: [mono_decorator.go],
    [utils.go] and the numbered checks [01_setup_ctx.go] to
    [11_emit_event.go]). *)
From S2P Require Import Prelude KVStore Sdk EvmConfig FeeMarket StateDB Wrappers VmKeeper TxData VmGas VmParams.
From S2P Require Import StateTransition.

(** * The Cosmos transaction around the messages *)

Record ProtoTx := mkProtoTx {
  p_Memo : string; p_TimeoutHeight : Z; p_NonCriticalExtensionOptions : Z; p_ExtensionOptions : Z;   (** lengths *)
  p_SignerInfos : Z; p_FeePayer : string; p_FeeGranter : string; p_Signatures : Z;
  p_FeeAmount : coins; p_FeeGasLimit : Z;
}.
(** What type assertions on [sdk.Tx] find; a message of another type is [None]. *)
Record EthTx := mkEthTx {
  t_ValidateBasic : option (res unit);
  t_proto : option ProtoTx;
  t_is_gas_tx : bool;
  t_fee_gas : option Z;
  t_msgs : list (option MsgEthereumTx);
}.

(** * Checks without state *)

Definition CheckMempoolFee `{DecLib} (fee mempoolMinGasPrice gasLimit : Z) (isLondon : bool) : res unit :=
  if isLondon then Ok tt
  else
    let? requiredFee := dec_mul mempoolMinGasPrice gasLimit in
    check (fee <? requiredFee) ErrInsufficientFee "minimum required".

Definition CheckGlobalFee `{DecLib} (fee globalMinGasPrice gasLimit : Z) : res unit :=
  if globalMinGasPrice =? 0 then Ok tt
  else
    let? requiredFee := dec_mul globalMinGasPrice gasLimit in
    check (fee <? requiredFee) ErrInsufficientFee "provided fee < minimum global fee".

Definition checkDisabledCreateCall `{EthHex} (txData : TxData) (permissions : AccessControl) : res unit :=
  let blockCreate := bool_decide (ac_type (Create permissions) = Restricted) in
  let blockCall := bool_decide (ac_type (Call permissions) = Restricted) in
  let creates := bool_decide (GetTo txData = None) in
  if blockCreate && creates then Err (Error ErrCreateDisabled "failed to create new contract")
  else if blockCall && negb creates then Err (Error ErrCallDisabled "failed to perform a call")
  else Ok tt.
Definition ValidateMsg `{EthHex} (evmParams : VmParams) (txData : TxData) (from : option Address) : res unit :=
  match from with
  | Some _ => Err (Error ErrInvalidRequest "invalid from address; expected nil")
  | None => checkDisabledCreateCall txData (Access evmParams)
  end.

Definition ValidateTx (tx : EthTx) : res ProtoTx :=
  do? (match t_ValidateBasic tx with
       | Some (Err e) => if bool_decide (e_kind e = ErrNoSignatures) then Ok tt
                         else Err (Error (e_kind e) "tx basic validation failed")
       | Some (Panic m) => Panic m
       | _ => Ok tt
       end);
  match t_proto tx with
  | None => Err (Error ErrUnknownRequest "invalid tx type")
  | Some p =>
      do? check (negb (bool_decide (p_Memo p = "")) || negb (p_TimeoutHeight p =? 0)
                 || (0 <? p_NonCriticalExtensionOptions p)) ErrInvalidRequest "for eth tx body Memo ... should be empty";
      do? check (negb (p_ExtensionOptions p =? 1)) ErrInvalidRequest "length of ExtensionOptions should be 1";
      do? check (0 <? p_SignerInfos p) ErrInvalidRequest "AuthInfo SignerInfos should be empty";
      do? check (negb (bool_decide (p_FeePayer p = "")) || negb (bool_decide (p_FeeGranter p = "")))
            ErrInvalidRequest "AuthInfo Fee payer and granter should be empty";
      do? check (0 <? p_Signatures p) ErrInvalidRequest "Signatures should be empty";
      Ok p
  end.

Definition CheckTxFee `{CoinsLib} (info : EvmCoinInfo) (txFeeInfo : option ProtoTx) (txFee txGasLimit : Z) : res unit :=
  match txFeeInfo with
  | None => Ok tt
  | Some p =>
      let? fee := int_chk txFee in
      do? check (negb (amount_of (p_FeeAmount p) (ExtendedDenom info) =? fee)) ErrInvalidRequest
            "invalid AuthInfo Fee Amount";
      check (negb (p_FeeGasLimit p =? txGasLimit)) ErrInvalidRequest "invalid AuthInfo Fee GasLimit"
  end.

Definition UpdateCumulativeGasWanted (c : EvmCtx) (msgGasWanted maxTxGasWanted cumulativeGasWanted : Z) : Z :=
  wrap64 (cumulativeGasWanted +
    if x_check_tx c && negb (maxTxGasWanted =? 0)
    then (if maxTxGasWanted <? msgGasWanted then maxTxGasWanted else msgGasWanted)
    else msgGasWanted).

Definition GetMsgPriority (txData : TxData) (minPriority : Z) (baseFee : option Z) : res Z :=
  let? priority := GetTxPriority txData baseFee in
  Ok (if priority <? minPriority then priority else minPriority).

Section ante.
Context `{DecLib, CoinsLib, Keccak, EthHex, EthTypes, !EthSigner, EthCore}.
Context `{EvmAccounts, EvmBank, !EvmAuth}.
Variable info : EvmCoinInfo.
#[local] Instance ante_keeper : StateKeeper := VmStateKeeper info.
Variable chain : ChainConfig.
Variable consensus_params : option (option Z).
(** [core.CanTransfer] of go-ethereum *)
Variable core_CanTransfer : Address -> Z -> M StateDB bool.
Variable maxGasWanted : Z.

Record ante_state := AS { as_evm : evm_state; as_fm : fm_state; as_priority : Z }.
Definition ante_evm {A} (m : M evm_state A) : M ante_state A :=
  zoom as_evm (fun e s => AS e (as_fm s) (as_priority s)) m.
Definition ante_store {A} (m : M vm_state A) : M ante_state A := ante_evm (on_store m).
Definition ante_fm {A} (m : M fm_state A) : M ante_state A :=
  zoom as_fm (fun f s => AS (as_evm s) f (as_priority s)) m.
Definition store_of (s : ante_state) : vm_state := es_store (as_evm s).

(** ** 01: the infinite gas meter; the gas of the previous transaction is forgotten *)
Definition SetupContextAndResetTransientGas (tx : EthTx) : M ante_state unit :=
  if negb (t_is_gas_tx tx) then fail ErrInvalidType "invalid transaction type, expected GasTx"
  else
    do! ante_evm (on_meter (modify (fun _ => Meter.NewInfiniteGasMeterWithLimit 0)));
    ante_evm (on_transient (modify ResetTransientGasUsed)).

(** ** utils.go *)
Record DecoratorUtils := mkUtils {
  u_EvmParams : VmParams; u_IsLondon : bool; u_Signer : Signer; u_BaseFee : option Z;
  u_MempoolMinGasPrice : Z; u_GlobalMinGasPrice : dec; u_BlockTxIndex : Z;
  u_TxGasLimit : Z; u_GasWanted : Z; u_MinPriority : Z; u_TxFee : Z;
}.
Definition NewMonoDecoratorUtils (c : EvmCtx) (params : option VmParams) (s : ante_state) : res DecoratorUtils :=
  let? baseFee := vm_GetBaseFee info chain c (as_fm s) in
  let isLondon := IsLondon chain (x_height c) in
  if isLondon && bool_decide (baseFee = None)
  then Err (Error ErrInvalidBaseFee "base fee is supported but evm block context value is nil")
  else
    let? globalMinGasPrice := GetMinGasPrice info (as_fm s) in
    let? mempoolMinGasPrice := ConvertAmountTo18DecimalsLegacy info (x_min_gas_prices c (Denom info)) in
    Ok (mkUtils (vm_GetParams params) isLondon (MakeSigner (x_height c) (x_time c)) baseFee mempoolMinGasPrice
          globalMinGasPrice (GetTxIndexTransient (es_transient (as_evm s))) 0 0 max_int64 0).

(** ** 05: the sender of the signature is written into the message *)
Definition SignatureVerification (msg : MsgEthereumTx) (signer : Signer) (allowUnprotectedTxs : bool)
    : res MsgEthereumTx :=
  match AsTransaction msg with
  | None => Panic "nil pointer dereference"
  | Some ethTx =>
      do? (if allowUnprotectedTxs then Ok tt
           else
             do? check (negb (tx_Protected ethTx)) ErrNotSupported "rejected unprotected ethereum transaction";
             check (negb (wrap64 (default 0 (tx_ChainId ethTx)) =? wrap64 (ChainID chain))) ErrInvalidChainID
               "rejected ethereum transaction with incorrect chain-id");
      match signer_Sender signer ethTx with
      | Ok sender => Ok (mkMsgEth (m_Data msg) (m_Size msg) (m_Hash msg) (Address_Hex sender))
      | Err _ => Err (Error ErrInvalidSigner "couldn't retrieve sender address from the ethereum transaction")
      | Panic m => Panic m
      end
  end.

(** ** 06: a sender without an account gets one *)
Definition VerifyAccountBalance (account : option Account) (from : Address) (txData : TxData) : M ante_state unit :=
  match account with
  | Some a =>
      if IsContract a then fail ErrInvalidType "the sender is not EOA"
      else match Balance a with
           | None => panic "nil pointer dereference"
           | Some b => wrapping "failed to check sender balance" (lift (CheckSenderBalance b txData))
           end
  | None =>
      do! ante_store (modify (fun v =>
        let '(acc, k) := ea_NewAccountWithAddress (address_bytes from) (vm_accounts v) in
        on_accounts (fun _ => ea_SetAccount acc k) v));
      wrapping "failed to check sender balance" (lift (CheckSenderBalance 0 txData))
  end.

(** ** 07 *)
Definition CanTransfer (c : EvmCtx) (msg : Message) (baseFee : option Z) (params : VmParams) (isLondon : bool)
    : M ante_state unit :=
  do! lift (if isLondon then
              match baseFee with
              | None => Panic "nil pointer dereference"
              | Some b => check (msg_GasFeeCap msg <? b) ErrInsufficientFee "max fee per gas less than block base fee"
              end
            else Ok tt);
  let! s := gets (fun s => s) in
  do! lift (let? env := NewEVM info chain consensus_params c (as_fm s) msg (mkEVMConfig params 0 baseFee) in Ok tt);
  match Uint256FromBigInt (msg_Value msg) with
  | None => fail ErrOther "value is not a uint256"
  | Some convertedValue =>
      if 0 <? msg_Value msg then
        match (core_CanTransfer (msg_From msg) convertedValue
                 (New (store_of s) [] (NewEmptyTxConfig (BytesToHash (x_header_hash c))))).1 with
        | Ok true => ret tt
        | Ok false => fail ErrInsufficientFunds "failed to transfer using the EVM block context transfer function"
        | Err e => throw e
        | Panic m => panic m
        end
      else ret tt
  end.

(** ** 08 *)
Definition deductFees (fees : coins) (feePayer : Address) : M ante_state unit :=
  if coins_is_zero fees then ret tt
  else wrapping "failed to deduct transaction costs from user balance"
         (ante_store (DeductTxCostsFromUserBalance info fees feePayer)).
Definition ConsumeFeesAndEmitEvent (fees : coins) (from : Address) : M ante_state unit :=
  do! deductFees fees from;
  ante_evm (emit_events [Event "tx" [("fee", ACoins fees)]]).

Definition CheckBlockGasLimit (c : EvmCtx) (gasWanted minPriority : Z) : M ante_state unit :=
  if BlockGasLimit c <? gasWanted then fail ErrOutOfGas "tx gas exceeds block gas limit"
  else
    do! ante_evm (on_meter (modify (fun _ => Meter.NewInfiniteGasMeterWithLimit gasWanted)));
    modify (fun s => AS (as_evm s) (as_fm s) minPriority).

(** ** 09: Go's [uint64] increment wraps *)
Definition IncrementNonce (account : acct) (txNonce : Z) : M ante_state unit :=
  let nonce := ea_sequence account in
  if negb (txNonce =? nonce) then fail ErrInvalidSequence "invalid nonce"
  else
    let! account := wrapping "failed to set sequence" (lift (ea_SetSequence (wrap64 (nonce + 1)) account)) in
    ante_store (modify (on_accounts (ea_SetAccount account))).

(** ** 10: the gas of the whole transaction, once per message *)
Definition fm_ctx (c : EvmCtx) : Ctx := mkCtx (x_height c) (x_max_gas c) None.
Definition CheckGasWanted (c : EvmCtx) (tx : EthTx) (isLondon : bool) : M ante_state unit :=
  if negb isLondon then ret tt
  else
    match t_fee_gas tx with
    | None => ret tt
    | Some gasWanted =>
        if BlockGasLimit c <? gasWanted then fail ErrOutOfGas "tx gas exceeds block gas limit"
        else
          let! enabled := gets (fun s => GetBaseFeeEnabled (fm_ctx c) (as_fm s)) in
          if negb enabled then ret tt
          else do! ante_fm (AddTransientGasWanted gasWanted); ret tt
    end.

(** ** 11 *)
Definition tx_hash_event (msg : MsgEthereumTx) (blockTxIndex msgIndex : Z) : event :=
  Event EventTypeEthereumTx
    [("ethereumTxHash", AStr (m_Hash msg)); ("txIndex", AInt (wrap64 (blockTxIndex + msgIndex)))].
Definition EmitTxHashEvent (msg : MsgEthereumTx) (blockTxIndex msgIndex : Z) : M ante_state unit :=
  ante_evm (emit_events [tx_hash_event msg blockTxIndex msgIndex]).

(** ** The mono decorator *)

(** The body of the loop over the messages. *)
Definition ante_message (c : EvmCtx) (simulate : bool) (tx : EthTx) (u : DecoratorUtils) (i : Z)
    (msg : option MsgEthereumTx) : M ante_state (DecoratorUtils * MsgEthereumTx) :=
  match msg with
  | None => fail ErrUnknownRequest "invalid message type"
  | Some ethMsg =>
    match m_Data ethMsg with
    | None => fail ErrOther "failed to unpack tx data any for tx"
    | Some txData =>
      let! feeAmt := lift (Fee txData) in
      let gas := GetGas txData in
      let gasLimit := dec_of_int gas in
      do! lift (if x_check_tx c && negb simulate
                then CheckMempoolFee (dec_of_int feeAmt) (u_MempoolMinGasPrice u) gasLimit (u_IsLondon u) else Ok tt);
      let! feeAmt := lift (if (TxType txData =? DynamicFeeTxType) && negb (bool_decide (u_BaseFee u = None))
                           then EffectiveFee txData (u_BaseFee u) else Ok feeAmt) in
      do! lift (let? globalMinGasPrice := dec_val (u_GlobalMinGasPrice u) in
                CheckGlobalFee (dec_of_int feeAmt) globalMinGasPrice gasLimit);
      do! lift (ValidateMsg (u_EvmParams u) txData (GetFrom ethMsg));
      let! ethMsg := lift (SignatureVerification ethMsg (u_Signer u) (AllowUnprotectedTxs (u_EvmParams u))) in
      (* [GetFrom] of a message without a sender is nil, and its address zero *)
      let fromAddr := default 0 (GetFrom ethMsg) in
      let! s := gets (fun s => s) in
      let! account := (match vm_GetAccount info (store_of s) fromAddr with
                       | inl p => panic p
                       | inr account => ret account
                       end) in
      do! VerifyAccountBalance account fromAddr txData;
      let! coreMsg := wrapping "failed to create an ethereum core.Message from signer"
        (match AsTransaction ethMsg with
         | None => panic "nil pointer dereference"
         | Some ethTx => lift (TransactionToMessage ethTx (u_Signer u) (u_BaseFee u))
         end) in
      do! CanTransfer c coreMsg (u_BaseFee u) (u_EvmParams u) (u_IsLondon u);
      let! msgFees := lift (VerifyFee txData (Denom info) (u_BaseFee u) (IsHomestead chain (x_height c))
        (IsIstanbul chain (x_height c)) (IsShanghaiAt chain (x_height c) (x_time c)) (x_check_tx c)) in
      do! ConsumeFeesAndEmitEvent msgFees fromAddr;
      let gasWanted := UpdateCumulativeGasWanted c gas maxGasWanted (u_GasWanted u) in
      let! minPriority := lift (GetMsgPriority txData (u_MinPriority u) (u_BaseFee u)) in
      let! txFee := lift (Fee txData) in
      let u := mkUtils (u_EvmParams u) (u_IsLondon u) (u_Signer u) (u_BaseFee u) (u_MempoolMinGasPrice u)
        (u_GlobalMinGasPrice u) (u_BlockTxIndex u) (wrap64 (u_TxGasLimit u + gas)) gasWanted minPriority
        (u_TxFee u + txFee) in
      let! s := gets (fun s => s) in
      match ea_GetAccount (vm_accounts (store_of s)) (address_bytes fromAddr) with
      | None => fail ErrUnknownAddress "account does not exist"
      | Some acc =>
          do! IncrementNonce acc (GetNonce txData);
          do! CheckGasWanted c tx (u_IsLondon u);
          do! EmitTxHashEvent ethMsg (u_BlockTxIndex u) i;
          ret (u, ethMsg)
      end
    end
  end.

Fixpoint ante_messages (c : EvmCtx) (simulate : bool) (tx : EthTx) (u : DecoratorUtils) (i : Z)
    (msgs : list (option MsgEthereumTx)) : M ante_state (DecoratorUtils * list MsgEthereumTx) :=
  match msgs with
  | [] => ret (u, [])
  | msg :: msgs =>
      let! r := ante_message c simulate tx u i msg in
      let! rs := ante_messages c simulate tx r.1 (i + 1) msgs in
      ret (rs.1, r.2 :: rs.2)
  end.

(** Returns the messages with their senders; the next handler is not part of it. *)
Definition MonoDecorator_AnteHandle (c : EvmCtx) (params : option VmParams) (simulate : bool) (tx : EthTx)
    : M ante_state (list MsgEthereumTx) :=
  let! txFeeInfo := lift (if x_recheck_tx c then Ok None else let? p := ValidateTx tx in Ok (Some p)) in
  do! SetupContextAndResetTransientGas tx;
  let! s := gets (fun s => s) in
  let! u := lift (NewMonoDecoratorUtils c params s) in
  let! r := ante_messages c simulate tx u 0 (t_msgs tx) in
  do! lift (CheckTxFee info txFeeInfo (u_TxFee r.1) (u_TxGasLimit r.1));
  do! CheckBlockGasLimit c (u_GasWanted r.1) (u_MinPriority r.1);
  ret r.2.
End ante.
