(* ===== verification/EthAnteThms.v ===== *)
(** What the ante handler of Ethereum transactions grants: an accepted
    transaction has senders that signed, nonces in order, balances that cover the
    cost, and fees at the base fee paid to the fee collector; and what a failed
    transaction costs from the ante handler to the refund. *)
From S2P Require Import Prelude KVStore Sdk EvmConfig FeeMarket FeeMarketThms StateDB StateDBInv StateDBType.
From S2P Require Import Wrappers VmKeeper VmKeeperThms TxData TxDataThms VmGas VmParams StateTransition.
From S2P Require Import StateTransitionThms EthAnte.

Section ante.
Context `{DecLib, !DecLaws, CoinsLib, Keccak, EthHex, !EthHexLaws, EthTypes, !EthTypesLaws}.
Context `{!EthSigner, !EthSignerLaws, EthCore, !EthCoreLaws}.
Context `{EvmAccounts, !EvmAccountsLaws, EvmBank}.
Variable info : EvmCoinInfo.
Context `{!EvmBankLaws info, !EvmAuth, !EvmAuthLaws}.
Variable chain : ChainConfig.
Variable consensus_params : option (option Z).
Variable core_CanTransfer : Address -> Z -> M (@StateDB (VmStateKeeper info)) bool.
Variable maxGasWanted : Z.

(** ** Balances, fees and nonces *)

Lemma account_balance v a acct :
  vm_ok info v -> vm_regular info a -> vm_GetAccount info v a = inr (Some acct) ->
  Balance acct = Some (eb_balance info (vm_bank v) (address_bytes a)).
Proof.
  intros [_ Hb] [_ Hp]. unfold vm_GetAccount, GetAccountWithoutBalance, vm_SpendableCoin, wrapper_SpendableCoin.
  destruct (ea_GetAccount _ _) as [x|]; [|done]. rewrite bool_decide_true by done.
  rewrite (eb_spendable_is info) by done. pose proof (eb_balance_nonneg info _ _ Hb Hp) as Hn.
  destruct (Z.ltb_spec (eb_balance info (vm_bank v) (address_bytes a)) (2 ^ 256)) as [Hlt|]; [|done].
  intros [= <-]. simpl. unfold Uint256FromBigInt. by rewrite (proj2 (Z.ltb_ge _ 0)), (proj2 (Z.leb_gt _ _)).
Qed.

Lemma CheckSenderBalance_ok b d cost :
  Cost d = Ok cost -> CheckSenderBalance b d = Ok tt -> 0 <= cost <= b.
Proof.
  intros Hc Hr. unfold CheckSenderBalance in Hr. rewrite Hc in Hr. cbn [rbind] in Hr.
  destruct (Z.ltb_spec cost 0); [done|]. destruct ((b <? 0) || (b <? cost)) eqn:E; [done|]. zbool. lia.
Qed.

Lemma collector_paid_zero (b : EB) a : collector_paid info b b a 0.
Proof. intros x _. destruct (decide (x = _)), (decide (eb_module info FeeCollector = _)); lia. Qed.
Lemma collector_paid_trans (b1 b2 b3 : EB) a n m :
  collector_paid info b1 b2 a n -> collector_paid info b2 b3 a m -> collector_paid info b1 b3 a (n + m).
Proof.
  intros P1 P2 x Hx. rewrite (P2 x Hx), (P1 x Hx).
  destruct (decide (x = _)), (decide (eb_module info FeeCollector = _)); lia.
Qed.

Lemma deduct_ok n from v v' :
  vm_ok info v -> vm_regular info from -> 0 < n <= eb_balance info (vm_bank v) (address_bytes from) ->
  DeductTxCostsFromUserBalance info [Coin (Denom info) n] from v = (Ok tt, v') ->
  vm_ok info v' /\ vm_kv v' = vm_kv v /\ vm_accounts v' = vm_accounts v /\
  collector_paid info (vm_bank v) (vm_bank v') (address_bytes from) n.
Proof.
  intros [Hk Hb] [_ Hp] Hn Hr. unfold DeductTxCostsFromUserBalance in Hr. rewrite bind_gets in Hr.
  destruct (GetSignerAcc _ _) as [x| |] eqn:Hx in Hr; [|done..].
  apply signer_acc, ea_get_address in Hx. apply zoom_ok in Hr as (b & Hr & ->). apply wrap_ok, deduct_sends in Hr.
  rewrite Hx in Hr. unfold wrapper_SendCoinsFromAccountToModule in Hr. rewrite convert_one in Hr. simpl in Hr.
  destruct (Z.eqb_spec n 0); [lia|]. simpl in Hr. apply (eb_take info) in Hr as (Hb' & ma & Hma & Hbal).
  - split_and!; try done. simpl. intros y Hy. rewrite Hbal by done. rewrite Hma.
    destruct (decide (y = ma)) as [->|]; [rewrite (decide_True (P := Some ma = Some ma)) by done|
      rewrite (decide_False (P := Some ma = Some y)) by congruence]; done.
  - by right.
  - done.
  - lia.
  - rewrite (eb_spendable_is info) by done. destruct (_ <? _); [|done]. intros [= E]. lia.
Qed.

(** The abstract step: one message of a sender is charged. *)
Record message_charged (b : Z) (sender : Address) (d : TxData) (v v' : vm_state) : Prop := {
  mc_price : exists tip cap, prices_ok d tip cap /\ b <= cap /\
    cap * GetGas d + default 0 (GetValue d) <= eb_balance info (vm_bank v) (address_bytes sender) /\
    collector_paid info (vm_bank v) (vm_bank v') (address_bytes sender) (price_at d b tip cap * GetGas d);
  mc_nonce : vm_GetNonce v sender = GetNonce d;
  mc_next : vm_GetNonce v' sender = wrap64 (GetNonce d + 1);
  mc_others : forall a, u160 a -> a <> sender -> vm_GetNonce v' a = vm_GetNonce v a;
  mc_eoa : is_Some (ea_GetAccount (vm_accounts v) (address_bytes sender)) -> vm_GetCodeHash v sender = EmptyCodeHash;
  mc_kv : vm_kv v' = vm_kv v;
}.

(** What the loop leaves alone: the parameters of the fee market, the counters
    of the block and the meter. *)
Definition undisturbed (s s' : ante_state) : Prop :=
  GetParams (as_fm s') = GetParams (as_fm s) /\ es_transient (as_evm s') = es_transient (as_evm s) /\
  es_meter (as_evm s') = es_meter (as_evm s).
Lemma undisturbed_trans s1 s2 s3 : undisturbed s1 s2 -> undisturbed s2 s3 -> undisturbed s1 s3.
Proof. unfold undisturbed. intuition congruence. Qed.

Lemma ante_store_ok {A} (m : M vm_state A) s x s' :
  ante_store m s = (Ok x, s') -> m (store_of s) = (Ok x, store_of s') /\ undisturbed s s'.
Proof.
  intros Hr. apply zoom_ok in Hr as (e & Hr & ->). apply zoom_ok in Hr as (v & Hr & ->). done.
Qed.
Lemma ante_events_ok l s s' :
  ante_evm (emit_events l) s = (Ok tt, s') -> store_of s' = store_of s /\ undisturbed s s'.
Proof. intros Hr. apply zoom_ok in Hr as (e & [= <-] & ->). done. Qed.

Lemma VerifyAccountBalance_ok account from d cost s s' :
  vm_ok info (store_of s) -> vm_regular info from -> Cost d = Ok cost ->
  vm_GetAccount info (store_of s) from = inr account ->
  VerifyAccountBalance account from d s = (Ok tt, s') ->
  0 <= cost <= eb_balance info (vm_bank (store_of s)) (address_bytes from) /\ undisturbed s s' /\
  vm_kv (store_of s') = vm_kv (store_of s) /\ vm_bank (store_of s') = vm_bank (store_of s) /\
  (forall a, vm_GetNonce (store_of s') a = vm_GetNonce (store_of s) a) /\
  (is_Some (ea_GetAccount (vm_accounts (store_of s)) (address_bytes from)) ->
    vm_GetCodeHash (store_of s) from = EmptyCodeHash).
Proof.
  intros Hok Hreg Hc Hacc Hr. destruct account as [a|]; simpl in Hr.
  - pose proof (account_balance _ _ _ Hok Hreg Hacc) as Hb. destruct (IsContract a) eqn:Hcon; [done|]. rewrite Hb in Hr.
    apply wrapping_ok in Hr. injection Hr as Hr <-. apply (CheckSenderBalance_ok _ _ _ Hc) in Hr.
    split_and!; try done; try lia. intros _. revert Hacc. unfold vm_GetAccount, GetAccountWithoutBalance.
    destruct (ea_GetAccount _ _); [|done]. destruct (vm_SpendableCoin _ _ _); [|done..]. intros [= <-].
    unfold IsContract, IsEmptyCodeHash in Hcon. simpl in Hcon. by apply negb_false_iff, Z.eqb_eq in Hcon.
  - apply bind_ok in Hr as ([] & s1 & Hs & Hr). apply ante_store_ok in Hs as [Hs Hu]. injection Hs as Hs.
    apply wrapping_ok in Hr. injection Hr as Hr <-. apply (CheckSenderBalance_ok _ _ _ Hc) in Hr.
    destruct Hok as [_ Hb]. destruct Hreg as [_ Hp]. pose proof (eb_balance_nonneg info _ _ Hb Hp).
    assert (ea_GetAccount (vm_accounts (store_of s)) (address_bytes from) = None) as Hnone.
    { revert Hacc. unfold vm_GetAccount, GetAccountWithoutBalance.
      destruct (ea_GetAccount _ _); [|done]. by destruct (vm_SpendableCoin _ _ _). }
    destruct (ea_NewAccountWithAddress _ _) as [x k] eqn:Hx in Hs.
    pose proof (ea_new (address_bytes from) (vm_accounts (store_of s))) as [Ha Hk].
    pose proof (ea_new_sequence (address_bytes from) (vm_accounts (store_of s))) as Hq. rewrite Hx in Ha, Hk, Hq.
    simpl in Ha, Hk, Hq. split_and!; try done; try lia; [by rewrite <- Hs..| |].
    + intros a. unfold vm_GetNonce. rewrite <- Hs. simpl. rewrite ea_get_set, Ha, Hk.
      destruct (decide _) as [->|]; [|done]. by rewrite Hnone.
    + by rewrite Hnone; intros [].
Qed.

Lemma CanTransfer_ok c m b params s s' :
  CanTransfer info chain consensus_params core_CanTransfer c m (Some b) params true s = (Ok tt, s') ->
  b <= msg_GasFeeCap m /\ s' = s.
Proof.
  intros Hr. unfold CanTransfer in Hr. apply bind_lift_ok in Hr as ([] & Hc & Hr). apply check_ok, Z.ltb_ge in Hc.
  rewrite bind_gets in Hr. apply bind_lift_ok in Hr as ([] & _ & Hr). split; [done|].
  destruct (Uint256FromBigInt _); [|done]. destruct (0 <? _); [|by injection Hr].
  revert Hr. generalize (core_CanTransfer (msg_From m)). intros f.
  destruct (f _ _) as [[[]| |] ?]; simpl; try done. by intros [= <-].
Qed.

Lemma VerifyFee_ok d b h i sh chk fees F :
  EffectiveFee d (Some b) = Ok F -> VerifyFee d (Denom info) (Some b) h i sh chk = Ok fees ->
  fees = if F =? 0 then [] else [Coin (Denom info) F].
Proof.
  intros HF Hr. unfold VerifyFee in Hr. destruct (IntrinsicGas _ _ _ _ _ _) as [g| |]; [|done..].
  destruct (_ && _); [done|]. apply rbind_ok in Hr as ([] & _ & Hr). rewrite HF in Hr. cbn [rbind] in Hr.
  destruct (F =? 0); [by injection Hr|]. apply rbind_ok in Hr as (x & Hx & [= <-]). by apply int_chk_ok in Hx as ->.
Qed.

Lemma consume_ok F from s s' :
  vm_ok info (store_of s) -> vm_regular info from ->
  0 <= F <= eb_balance info (vm_bank (store_of s)) (address_bytes from) ->
  ConsumeFeesAndEmitEvent info (if F =? 0 then [] else [Coin (Denom info) F]) from s = (Ok tt, s') ->
  vm_ok info (store_of s') /\ undisturbed s s' /\ vm_kv (store_of s') = vm_kv (store_of s) /\
  vm_accounts (store_of s') = vm_accounts (store_of s) /\
  collector_paid info (vm_bank (store_of s)) (vm_bank (store_of s')) (address_bytes from) F.
Proof.
  intros Hok Hreg HF Hr. unfold ConsumeFeesAndEmitEvent in Hr. apply bind_ok in Hr as ([] & s1 & Hd & Hr).
  apply ante_events_ok in Hr as [-> Hu]. unfold deductFees in Hd. destruct (Z.eqb_spec F 0) as [->|Hne]; simpl in Hd.
  - injection Hd as <-. split_and!; try done. apply collector_paid_zero.
  - destruct (Z.eqb_spec F 0); [done|]. simpl in Hd. apply wrapping_ok, ante_store_ok in Hd as [Hd Hu'].
    apply deduct_ok in Hd as (? & ? & ? & ?); [|done|done|lia]. split_and!; try done. by eapply undisturbed_trans.
Qed.

Lemma IncrementNonce_ok acc n from s s' :
  ea_GetAccount (vm_accounts (store_of s)) (address_bytes from) = Some acc -> u160 from ->
  IncrementNonce acc n s = (Ok tt, s') ->
  undisturbed s s' /\ vm_kv (store_of s') = vm_kv (store_of s) /\ vm_bank (store_of s') = vm_bank (store_of s) /\
  vm_GetNonce (store_of s) from = n /\ vm_GetNonce (store_of s') from = wrap64 (n + 1) /\
  (forall a, u160 a -> a <> from -> vm_GetNonce (store_of s') a = vm_GetNonce (store_of s) a).
Proof.
  intros Hacc Hf Hr. unfold IncrementNonce in Hr. destruct (Z.eqb_spec n (ea_sequence acc)) as [->|]; [|done].
  simpl in Hr. apply bind_ok in Hr as (y & s1 & Hy & Hr). apply wrapping_ok in Hy. injection Hy as Hy <-.
  apply ea_set_sequence in Hy as [Ha Hq]. apply ea_get_address in Hacc as Ha'. rewrite Ha' in Ha.
  apply ante_store_ok in Hr as [Hr Hu]. injection Hr as Hr. unfold vm_GetNonce. rewrite <- Hr. simpl.
  split_and!; try done; [by rewrite Hacc|by rewrite ea_get_set, Ha, decide_True by done|].
  intros a Hau Hne. rewrite ea_get_set, Ha, decide_False; [done|]. intros E. by apply address_bytes_inj in E.
Qed.

Lemma CheckGasWanted_ok c tx s s' :
  CheckGasWanted c tx true s = (Ok tt, s') -> store_of s' = store_of s /\ undisturbed s s'.
Proof.
  intros Hr. unfold CheckGasWanted in Hr. simpl in Hr. destruct (t_fee_gas tx) as [g|]; [|by injection Hr as <-].
  destruct (_ <? g); [done|]. rewrite bind_gets in Hr. destruct (GetBaseFeeEnabled _ _); [|by injection Hr as <-].
  simpl in Hr. apply bind_ok in Hr as (z & s1 & Hz & [= <-]). apply zoom_ok in Hz as (f & Hz & ->).
  unfold AddTransientGasWanted in Hz. rewrite bind_gets in Hz. by apply bind_ok in Hz as ([] & f' & [= <-] & [= _ <-]).
Qed.

Lemma SignatureVerification_ok m sg allow m' d :
  m_Data m = Some d -> SignatureVerification chain m sg allow = Ok m' ->
  exists sender, signer_Sender sg (NewTx (AsEthereumData d)) = Ok sender /\ m_Data m' = Some d /\
    m_From m' = Address_Hex sender /\ m_Hash m' = m_Hash m.
Proof.
  intros Hd Hr. unfold SignatureVerification, AsTransaction in Hr. rewrite Hd in Hr.
  apply rbind_ok in Hr as ([] & _ & Hr). destruct (signer_Sender _ _) as [a| |]; [|done..]. injection Hr as <-. eauto.
Qed.

(** The steps of one message that change or read the state. *)
Lemma ante_message_run c simulate tx u i m d b s u' m' s' :
  m_Data m = Some d -> u_IsLondon u = true -> u_BaseFee u = Some b ->
  ante_message info chain consensus_params core_CanTransfer maxGasWanted c simulate tx u i (Some m) s
    = (Ok (u', m'), s') ->
  exists sender core account fees acc s1 s2 s3 s4,
    signer_Sender (u_Signer u) (NewTx (AsEthereumData d)) = Ok sender /\ u160 sender /\
    TransactionToMessage (NewTx (AsEthereumData d)) (u_Signer u) (Some b) = Ok core /\
    m_Data m' = Some d /\ m_From m' = Address_Hex sender /\
    vm_GetAccount info (store_of s) sender = inr account /\
    VerifyAccountBalance account sender d s = (Ok tt, s1) /\ b <= msg_GasFeeCap core /\
    VerifyFee d (Denom info) (Some b) (IsHomestead chain (x_height c)) (IsIstanbul chain (x_height c))
      (IsShanghaiAt chain (x_height c) (x_time c)) (x_check_tx c) = Ok fees /\
    ConsumeFeesAndEmitEvent info fees sender s1 = (Ok tt, s2) /\
    ea_GetAccount (vm_accounts (store_of s2)) (address_bytes sender) = Some acc /\
    IncrementNonce acc (GetNonce d) s2 = (Ok tt, s3) /\ CheckGasWanted c tx true s3 = (Ok tt, s4) /\
    store_of s' = store_of s4 /\ undisturbed s4 s' /\
    (u_EvmParams u', u_IsLondon u', u_Signer u', u_BaseFee u', u_TxGasLimit u', u_GasWanted u') =
      (u_EvmParams u, u_IsLondon u, u_Signer u, u_BaseFee u, wrap64 (u_TxGasLimit u + GetGas d),
       UpdateCumulativeGasWanted c (GetGas d) maxGasWanted (u_GasWanted u)).
Proof.
  intros Hd Hl Hb Hr. unfold ante_message in Hr. rewrite Hd in Hr.
  apply bind_lift_ok in Hr as (F0 & _ & Hr). apply bind_lift_ok in Hr as ([] & _ & Hr).
  apply bind_lift_ok in Hr as (F1 & _ & Hr). apply bind_lift_ok in Hr as ([] & _ & Hr).
  apply bind_lift_ok in Hr as ([] & _ & Hr). apply bind_lift_ok in Hr as (ms & Hs & Hr).
  apply (SignatureVerification_ok _ _ _ _ _ Hd) in Hs as (sender & Hs & Hd' & Hf & _).
  rewrite bind_gets in Hr. apply bind_ok in Hr as (account & s0 & Ha & Hr).
  assert (vm_GetAccount info (store_of s) (default 0 (GetFrom ms)) = inr account /\ s0 = s) as [Ha' ->]
    by (destruct (vm_GetAccount _ _ _); [done|]; by injection Ha as -> ->).
  apply bind_ok in Hr as ([] & s1 & Hbal & Hr). apply bind_ok in Hr as (core & s2 & Hcore & Hr).
  apply wrapping_ok in Hcore. unfold AsTransaction in Hcore. rewrite Hd' in Hcore. injection Hcore as Hcore <-.
  apply bind_ok in Hr as ([] & s2 & Hct & Hr). rewrite Hl, Hb in Hct. apply CanTransfer_ok in Hct as [Hcap ->].
  apply bind_lift_ok in Hr as (fees & Hfees & Hr). apply bind_ok in Hr as ([] & s3 & Hcon & Hr).
  apply bind_lift_ok in Hr as (prio & _ & Hr). apply bind_lift_ok in Hr as (F2 & _ & Hr).
  rewrite bind_gets in Hr. destruct (ea_GetAccount (vm_accounts (store_of s3)) _) as [acc|] eqn:Hacc; [|done].
  apply bind_ok in Hr as ([] & s4 & Hinc & Hr). apply bind_ok in Hr as ([] & s5 & Hgw & Hr). rewrite Hl in Hgw.
  apply bind_ok in Hr as ([] & s6 & Hev & [= <- <- <-]). simpl in Hgw. apply ante_events_ok in Hev as [E6 U6].
  rewrite Hb in Hfees, Hcore. destruct (message_of _ _ _ _ Hcore) as (Hsnd & _).
  destruct (message_types _ _ _ _ Hcore) as (Hu160 & _). rewrite Hs in Hsnd. injection Hsnd as ->.
  assert (GetFrom ms = Some (msg_From core)) as Hfrom.
  { unfold GetFrom. rewrite Hf, bool_decide_false by apply hex_address_text. by rewrite hex_address. }
  rewrite Hfrom in *. simpl in Ha', Hbal, Hcon, Hacc.
  exists (msg_From core), core, account, fees, acc, s1, s3, s4, s5. split_and!; done.
Qed.

(** The core message has the prices of the transaction. *)
Lemma core_prices d sg b tip cap core :
  prices_ok d tip cap -> 0 <= b -> TransactionToMessage (NewTx (AsEthereumData d)) sg (Some b) = Ok core ->
  msg_GasFeeCap core = cap /\ msg_GasPrice core = price_at d b tip cap /\ msg_GasLimit core = GetGas d.
Proof.
  intros (Ht & Hc & Hle & _) Hb Hm. destruct (message_of _ _ _ _ Hm) as (_ & _ & _ & _ & Hg & Htip & Hcap & Hp).
  destruct (tx_common (AsEthereumData d)) as (_ & _ & G & _). destruct (tx_typed (AsEthereumData d)) as (_ & P & _).
  cbv zeta in *. rewrite Hg, G. destruct d as [d|d|d]; simpl in *; unfold fields_of in *; simpl in *;
    injection P as P1 P2 P3; rewrite P2 in Htip; rewrite P3 in Hcap; rewrite Ht in Htip; rewrite Hc in Hcap;
    try rewrite Ht in Hc; unfold set_ in *; simpl in *; simplify_eq; split_and!; try done; lia.
Qed.

(** The run of one message: who signed it, what is charged, what is counted. *)
Lemma ante_message_ok c simulate tx u i m d b s u' m' s' :
  vm_ok info (store_of s) -> m_Data m = Some d -> Validate d = Ok tt -> 0 <= GetGas d ->
  u_IsLondon u = true -> u_BaseFee u = Some b -> 0 <= b ->
  ante_message info chain consensus_params core_CanTransfer maxGasWanted c simulate tx u i (Some m) s
    = (Ok (u', m'), s') ->
  exists sender, signer_Sender (u_Signer u) (NewTx (AsEthereumData d)) = Ok sender /\
    m_Data m' = Some d /\ m_From m' = Address_Hex sender /\
    (u_EvmParams u', u_IsLondon u', u_Signer u', u_BaseFee u', u_TxGasLimit u', u_GasWanted u') =
      (u_EvmParams u, u_IsLondon u, u_Signer u, u_BaseFee u, wrap64 (u_TxGasLimit u + GetGas d),
       UpdateCumulativeGasWanted c (GetGas d) maxGasWanted (u_GasWanted u)) /\
    (vm_regular info sender -> vm_ok info (store_of s') /\ undisturbed s s' /\
      message_charged b sender d (store_of s) (store_of s')).
Proof.
  intros Hok Hd Hv Hg Hl Hb Hbn Hr. apply (ante_message_run _ _ _ _ _ _ _ _ _ _ _ _ Hd Hl Hb) in Hr
    as (sender & core & account & fees & acc & s1 & s2 & s3 & s4 & Hs & Hu160 & Hcore & Hd' & Hf & Ha & Hbal & Hcap
      & Hfees & Hcon & Hacc & Hinc & Hgw & E4 & U4 & Eu).
  exists sender. split_and!; try done. intros Hreg.
  apply Validate_spec in Hv as (tip & cap & Hpr & Hfee & Hval & _); [|done].
  destruct (effective_price d b tip cap Hpr) as (_ & HF & _ & HC).
  destruct (core_prices _ _ _ _ _ _ Hpr Hbn Hcore) as (Hfc & _). rewrite Hfc in Hcap.
  assert (0 <= default 0 (GetValue d)) by (destruct (GetValue d) eqn:E; simpl; [by apply Hval|lia]).
  assert (0 <= price_at d b tip cap <= cap) as Hp by (destruct Hpr as (_ & _ & ? & _); destruct d; simpl; lia).
  apply (VerifyFee_ok _ _ _ _ _ _ _ _ HF) in Hfees as ->.
  apply (VerifyAccountBalance_ok _ _ _ _ _ _ Hok Hreg HC Ha) in Hbal as (Hcost & U1 & K1 & B1 & N1 & Heoa).
  apply consume_ok in Hcon as (O2 & U2 & K2 & A2 & P2); [|by destruct Hok; split; rewrite ?K1, ?B1|done|rewrite B1; nia].
  apply (IncrementNonce_ok _ _ _ _ _ Hacc Hu160) in Hinc as (U3 & K3 & B3 & N & N' & No).
  apply CheckGasWanted_ok in Hgw as [E5 U5]. rewrite E4, E5.
  assert (forall a, vm_GetNonce (store_of s2) a = vm_GetNonce (store_of s) a) as N2.
  { intros a. rewrite <- N1. unfold vm_GetNonce. by rewrite A2. }
  split_and!; [destruct O2; split; congruence|
    by eauto using undisturbed_trans|]. split.
  - exists tip, cap. rewrite B3, <- B1. rewrite <- B1 in Hcost. split_and!; try done; lia.
  - by rewrite <- N2.
  - done.
  - intros a Hau Hne. rewrite No by done. apply N2.
  - done.
  - congruence.
Qed.

(** ** The whole transaction *)

(** The abstract machine of the handler: the messages are charged one after the other. *)
Inductive messages_charged (b : Z) : list (Address * TxData) -> vm_state -> vm_state -> Prop :=
  | charged_nil v : messages_charged b [] v v
  | charged_cons sender d l v1 v2 v3 : message_charged b sender d v1 v2 -> messages_charged b l v2 v3 ->
      messages_charged b ((sender, d) :: l) v1 v3.

Definition tx_of (d : TxData) : Transaction := NewTx (AsEthereumData d).
(** Messages that passed their own validation, and whose signers are plain accounts. *)
Definition message_fit (sg : Signer) (om : option MsgEthereumTx) : Prop :=
  exists m d, om = Some m /\ m_Data m = Some d /\ Validate d = Ok tt /\ 0 <= GetGas d /\
    forall a, signer_Sender sg (tx_of d) = Ok a -> vm_regular info a.
Definition signed_by (sg : Signer) (om : option MsgEthereumTx) (p : Address * TxData) : Prop :=
  exists m, om = Some m /\ m_Data m = Some p.2 /\ signer_Sender sg (tx_of p.2) = Ok p.1.
Definition carries (m : MsgEthereumTx) (p : Address * TxData) : Prop :=
  m_From m = Address_Hex p.1 /\ m_Data m = Some p.2.

Definition total_gas (l : list (Address * TxData)) : Z := foldr (fun p n => GetGas p.2 + n) 0 l.

Lemma ante_messages_ok c simulate tx b msgs u i s u' ms s' :
  x_check_tx c = false -> vm_ok info (store_of s) -> u_IsLondon u = true -> u_BaseFee u = Some b -> 0 <= b ->
  Forall (message_fit (u_Signer u)) msgs -> u64 (u_GasWanted u) ->
  ante_messages info chain consensus_params core_CanTransfer maxGasWanted c simulate tx u i msgs s
    = (Ok (u', ms), s') ->
  exists l, Forall2 (signed_by (u_Signer u)) msgs l /\ Forall2 carries ms l /\ undisturbed s s' /\
    vm_ok info (store_of s') /\ messages_charged b l (store_of s) (store_of s') /\
    u_GasWanted u' = wrap64 (u_GasWanted u + total_gas l).
Proof.
  intros Hch Hok Hl Hb Hbn Hfit Hgw Hr. revert u i s u' ms s' Hok Hl Hb Hfit Hgw Hr.
  induction msgs as [|om msgs IH]; intros u i s u' ms s' Hok Hl Hb Hfit Hgw Hr.
  - injection Hr as <- <- <-. exists []. split_and!; try done; [constructor|]. simpl.
    unfold wrap64. by rewrite Z.add_0_r, Z.mod_small.
  - simpl in Hr. apply bind_ok in Hr as ([u1 m1] & s1 & H1' & Hr). apply bind_ok in Hr as ([u2 ms2] & s2 & H2' & Hr).
    injection Hr as <- <- <-. simpl in H2'. apply Forall_cons in Hfit as [(m & d & -> & Hd & Hv & Hg & Hreg) Hfit].
    apply (ante_message_ok _ _ _ _ _ _ _ _ _ _ _ _ Hok Hd Hv Hg Hl Hb Hbn) in H1' as (sender & Hs & Hd' & Hf & Eu & Hc).
    destruct (Hc (Hreg _ Hs)) as (Hok1 & U1 & Hch1). injection Eu as _ El Es Eb _ Egw.
    rewrite <- El in Hl. rewrite <- Eb in Hb. rewrite <- Es in *.
    unfold UpdateCumulativeGasWanted in Egw. rewrite Hch in Egw. cbn [andb] in Egw.
    assert (u64 (u_GasWanted u1)) as Hgw1 by (rewrite Egw; by apply Z.mod_pos_bound).
    destruct (IH _ _ _ _ _ _ Hok1 Hl Hb Hfit Hgw1 H2') as (l & F1 & F2 & U2 & Hok2 & Hch2 & Eg).
    exists ((sender, d) :: l). split_and!; try done.
    + constructor; [|done]. exists m. done.
    + constructor; done.
    + by eapply undisturbed_trans.
    + by econstructor.
    + rewrite Eg, Egw. unfold wrap64. rewrite Zplus_mod_idemp_l. simpl. f_equal. lia.
Qed.

Lemma base_fee_nonneg fm c b :
  Params_Validate (GetParams fm) = Ok tt -> info_valid info -> vm_GetBaseFee info chain c fm = Ok (Some b) -> 0 <= b.
Proof.
  intros Hv Hi Hr. apply Params_Validate_spec, po_fee in Hv as (z & Hz & Hzn). pose proof (factor_pos info Hi).
  unfold vm_GetBaseFee in Hr. destruct (negb _); [done|]. apply rbind_ok in Hr as (o & Ho & [= <-]).
  unfold wrapper_GetBaseFee, FeeMarket.GetBaseFee, to_18 in Ho. rewrite Hz in Ho.
  destruct (NoBaseFee _); [by injection Ho as <-|]. apply rbind_ok in Ho as (x & Hx & Ho).
  apply rbind_ok in Ho as (y & Hy & [= <-]). unfold ConvertAmountTo18DecimalsLegacy in Hx. dec_inv. simpl.
  apply Z.quot_pos; [nia|done].
Qed.

Lemma base_fee_params fm fm' c :
  GetParams fm' = GetParams fm -> vm_GetBaseFee info chain c fm' = vm_GetBaseFee info chain c fm.
Proof. intros E. unfold vm_GetBaseFee, wrapper_GetBaseFee, FeeMarket.GetBaseFee. by rewrite E. Qed.

Abbreviation signer_at c := (MakeSigner (x_height c) (x_time c)).
Abbreviation handle := (MonoDecorator_AnteHandle info chain consensus_params core_CanTransfer maxGasWanted).

(** What the handler leaves for the transaction that follows. *)
Lemma ante_effect c params simulate tx s ms s' :
  x_check_tx c = false -> IsLondon chain (x_height c) = true -> info_valid info ->
  Params_Validate (GetParams (as_fm s)) = Ok tt -> vm_ok info (store_of s) ->
  Forall (message_fit (signer_at c)) (t_msgs tx) -> handle c params simulate tx s = (Ok ms, s') ->
  exists b l, vm_GetBaseFee info chain c (as_fm s) = Ok (Some b) /\ 0 <= b /\
    Forall2 (signed_by (signer_at c)) (t_msgs tx) l /\ Forall2 carries ms l /\
    vm_ok info (store_of s') /\ messages_charged b l (store_of s) (store_of s') /\
    wrap64 (total_gas l) <= BlockGasLimit c /\ Meter.Limit (es_meter (as_evm s')) = wrap64 (total_gas l) /\
    GetTransientGasUsed (es_transient (as_evm s')) = 0 /\ GetParams (as_fm s') = GetParams (as_fm s).
Proof.
  intros Hch Hl Hi Hv Hok Hfit Hr. unfold MonoDecorator_AnteHandle in Hr.
  apply bind_lift_ok in Hr as (info' & _ & Hr). apply bind_ok in Hr as ([] & s1 & Hset & Hr).
  assert (store_of s1 = store_of s /\ as_fm s1 = as_fm s /\ GetTransientGasUsed (es_transient (as_evm s1)) = 0)
    as (E1 & F1 & T1).
  { unfold SetupContextAndResetTransientGas in Hset. destruct (negb _); [done|].
    apply bind_ok in Hset as ([] & s0 & Ha & Hset). apply zoom_ok in Ha as (e & Ha & ->).
    apply zoom_ok in Ha as (g & [= <-] & ->). apply zoom_ok in Hset as (e & Ha & ->).
    apply zoom_ok in Ha as (t & [= <-] & ->). split_and!; try done.
    unfold GetTransientGasUsed, ResetTransientGasUsed. simpl. by rewrite lookup_delete_eq. }
  rewrite bind_gets in Hr. apply bind_lift_ok in Hr as (u & Hu & Hr). apply bind_ok in Hr as ([u' ms'] & s2 & Hms & Hr).
  apply bind_lift_ok in Hr as ([] & _ & Hr). apply bind_ok in Hr as ([] & s3 & Hb & [= <- <-]). simpl in Hb.
  unfold NewMonoDecoratorUtils in Hu. rewrite F1, Hl in Hu. apply rbind_ok in Hu as (baseFee & Hbf & Hu).
  cbn [andb] in Hu. destruct baseFee as [b|]; [|done]. cbn in Hu. apply rbind_ok in Hu as (mg & _ & Hu).
  apply rbind_ok in Hu as (mp & _ & [= <-]). pose proof (base_fee_nonneg _ _ _ Hv Hi Hbf) as Hbn.
  rewrite <- E1 in Hok.
  apply (ante_messages_ok _ _ _ b) in Hms as (l & G1 & G2 & (P2 & T2 & _) & Hok2 & Hc & Hg); try done.
  simpl in Hg. rewrite Z.add_0_l in Hg. exists b, l. rewrite E1 in Hc. unfold CheckBlockGasLimit in Hb. rewrite Hg in Hb.
  destruct (Z.ltb_spec (BlockGasLimit c) (wrap64 (total_gas l))); [done|].
  apply bind_ok in Hb as ([] & s4 & Hm & [= <-]). apply zoom_ok in Hm as (e & Hm & ->).
  apply zoom_ok in Hm as (g & [= <-] & ->). simpl in *. split_and!; try done; simpl; congruence.
Qed.

(** C4. A transaction the handler accepts after London: every message is signed by
    the account it is charged to, one after the other each has the sender's nonce
    and moves it on by one, is sent by an account without code whose balance
    covers fee cap times gas and the value, and pays exactly the effective price
    at the base fee times its gas limit to the fee collector; the store of the EVM
    is untouched, and the gas of all messages fits the block. *)
Theorem ante_charges c params simulate tx s ms s' :
  x_check_tx c = false -> IsLondon chain (x_height c) = true -> info_valid info ->
  Params_Validate (GetParams (as_fm s)) = Ok tt -> vm_ok info (store_of s) ->
  Forall (message_fit (signer_at c)) (t_msgs tx) -> handle c params simulate tx s = (Ok ms, s') ->
  exists b l, vm_GetBaseFee info chain c (as_fm s) = Ok (Some b) /\
    Forall2 (signed_by (signer_at c)) (t_msgs tx) l /\ Forall2 carries ms l /\
    messages_charged b l (store_of s) (store_of s') /\ vm_kv (store_of s') = vm_kv (store_of s) /\
    wrap64 (total_gas l) <= BlockGasLimit c /\ Meter.Limit (es_meter (as_evm s')) = wrap64 (total_gas l).
Proof.
  intros Hch Hl Hi Hv Hok Hfit Hr.
  destruct (ante_effect _ _ _ _ _ _ _ Hch Hl Hi Hv Hok Hfit Hr) as (b & l & ? & ? & ? & ? & ? & Hc & ? & ? & _).
  exists b, l. split_and!; try done. clear -Hc. induction Hc as [|? ? ? ? ? ? Hm _ IH]; [done|].
  rewrite IH. apply (mc_kv _ _ _ _ _ Hm).
Qed.

(** The nonces of one sender among the messages. *)
Definition nonces_of (a : Address) (l : list (Address * TxData)) : list Z :=
  map (fun p => GetNonce p.2) (filter (fun p => p.1 = a) l).

Lemma charged_nonces b l v v' a :
  u160 a -> messages_charged b l v v' ->
  nonces_of a l = map (fun k => wrap64 (vm_GetNonce v a + Z.of_nat k)) (seq 0 (length (nonces_of a l))) /\
  vm_GetNonce v' a = wrap64 (vm_GetNonce v a + Z.of_nat (length (nonces_of a l))).
Proof.
  intros Ha Hc. assert (forall v, wrap64 (vm_GetNonce v a) = vm_GetNonce v a) as Hw.
  { intros w. apply Z.mod_small. unfold vm_GetNonce. destruct (ea_GetAccount _ _) eqn:E; [|done].
    by eapply ea_sequence_u64. }
  induction Hc as [v|sender d l v1 v2 v3 Hm _ [IH1 IH2]]; [by rewrite Z.add_0_r, Hw|].
  unfold nonces_of in *. rewrite filter_cons. simpl. destruct (decide (sender = a)) as [->|Hne].
  - set (ns := map _ (filter _ l)) in *. cbn [map length]. fold ns. rewrite (mc_next _ _ _ _ _ Hm) in IH1, IH2.
    rewrite (mc_nonce _ _ _ _ _ Hm) in *. split.
    + cbn [seq map]. rewrite Z.add_0_r, <- (mc_nonce _ _ _ _ _ Hm), Hw.
      f_equal; [by rewrite (mc_nonce _ _ _ _ _ Hm)|]. rewrite IH1 at 1.
      rewrite <- seq_shift, map_map. apply map_ext. intros k. unfold wrap64.
      rewrite Zplus_mod_idemp_l, (mc_nonce _ _ _ _ _ Hm). f_equal. lia.
    + rewrite IH2. unfold wrap64. rewrite Zplus_mod_idemp_l. f_equal. lia.
  - rewrite (mc_others _ _ _ _ _ Hm) in IH1, IH2 by done. done.
Qed.

(** C21. No replay: in an accepted transaction the nonces of the messages of any
    one sender are its nonce before and the ones that follow it, without a gap or a
    repetition (modulo 2^64), and its nonce afterwards is the next. *)
Theorem ante_no_replay c params simulate tx s ms s' a :
  x_check_tx c = false -> IsLondon chain (x_height c) = true -> info_valid info ->
  Params_Validate (GetParams (as_fm s)) = Ok tt -> vm_ok info (store_of s) ->
  Forall (message_fit (signer_at c)) (t_msgs tx) -> handle c params simulate tx s = (Ok ms, s') -> u160 a ->
  exists l, Forall2 (signed_by (signer_at c)) (t_msgs tx) l /\
    let n := length (nonces_of a l) in
    nonces_of a l = map (fun k => wrap64 (vm_GetNonce (store_of s) a + Z.of_nat k)) (seq 0 n) /\
    vm_GetNonce (store_of s') a = wrap64 (vm_GetNonce (store_of s) a + Z.of_nat n).
Proof.
  intros Hch Hl Hi Hv Hok Hfit Hr Ha.
  destruct (ante_effect _ _ _ _ _ _ _ Hch Hl Hi Hv Hok Hfit Hr) as (b & l & _ & _ & Hs & _ & _ & Hc & _).
  exists l. split; [done|]. by eapply charged_nonces.
Qed.
End ante.

(** * From the ante handler to the refund *)

Section end_to_end.
Context `{DecLib, !DecLaws, CoinsLib, Keccak, EthHex, !EthHexLaws, EthTypes, !EthTypesLaws}.
Context `{!EthSigner, !EthSignerLaws, EthCore, !EthCoreLaws, EthReceipts}.
Context `{EvmAccounts, !EvmAccountsLaws, EvmBank}.
Variable info : EvmCoinInfo.
Context `{!EvmBankLaws info, !EvmAuth, !EvmAuthLaws}.
Hypothesis Hkeccak : forall b, u256 (Keccak256Hash b).
#[local] Instance ee_keeper : StateKeeper := VmStateKeeper info.
#[local] Instance ee_types : KeeperTypes := VmKeeperTypes info Hkeccak.
Context `{!Interp, !InterpLaws}.
Variable chain : ChainConfig.
Variable consensus_params : option (option Z).
Variable core_CanTransfer : Address -> Z -> M StateDB bool.
Variable maxGasWanted : Z.
Variable GetValidatorByConsAddr : bytes -> res string.

(** C3. From the ante handler to the refund, a transaction of one message that
    fails costs its sender exactly the gas it is charged at the price of the
    block, all of which the fee collector keeps; the nonce of the sender has moved
    on by one, nothing of the store of the EVM has changed, and the block counts
    the gas. *)
Theorem failed_transaction_end_to_end hooks c params simulate m d sender tx s ms s1 res e :
  x_check_tx c = false -> IsLondon chain (x_height c) = true -> info_valid info ->
  Params_Validate (GetParams (as_fm s)) = Ok tt -> vm_ok info (store_of s) ->
  t_msgs tx = [Some m] -> m_Data m = Some d -> Validate d = Ok tt -> 0 <= GetGas d < 2 ^ 63 ->
  signer_Sender (MakeSigner (x_height c) (x_time c)) (tx_of d) = Ok sender -> vm_regular info sender ->
  MonoDecorator_AnteHandle info chain consensus_params core_CanTransfer maxGasWanted c params simulate tx s
    = (Ok ms, s1) ->
  ApplyTransaction info chain consensus_params GetValidatorByConsAddr hooks c (as_fm s1) params (tx_of d)
    (as_evm s1) = (Ok res, e) -> Failed res = true ->
  exists b tip cap, vm_GetBaseFee info chain c (as_fm s) = Ok (Some b) /\ prices_ok d tip cap /\
    collector_paid info (vm_bank (store_of s)) (vm_bank (es_store e)) (address_bytes sender)
      (price_at d b tip cap * r_GasUsed res) /\
    0 <= r_GasUsed res <= GetGas d /\
    vm_GetNonce (es_store e) sender = wrap64 (vm_GetNonce (store_of s) sender + 1) /\
    vm_kv (es_store e) = vm_kv (store_of s) /\ GetTransientGasUsed (es_transient e) = r_GasUsed res.
Proof.
  intros Hch Hl Hi Hv Hok Hmsgs Hd Hval Hg Hs Hreg Hante Happ Hf.
  assert (Forall (message_fit info (MakeSigner (x_height c) (x_time c))) (t_msgs tx)) as Hfit.
  { rewrite Hmsgs. constructor; [|constructor]. exists m, d. split_and!; try done; [lia|]. intros a Ha. congruence. }
  destruct (ante_effect _ _ _ _ _ _ _ _ _ _ _ _ Hch Hl Hi Hv Hok Hfit Hante)
    as (b & l & Hb & Hbn & Hsig & _ & Hok1 & Hc & _ & _ & Ht & Hp).
  rewrite Hmsgs in Hsig. apply Forall2_cons_inv_l in Hsig as ([a d'] & l' & (m' & [= <-] & Hd' & Hs') & Hl' & ->).
  apply Forall2_nil_inv_l in Hl' as ->. simpl in Hd', Hs'. assert (d' = d) as -> by congruence.
  assert (a = sender) as -> by congruence.
  inversion Hc as [|? ? ? ? v2 ? Hm Hnil]; subst. inversion Hnil; subst.
  destruct (tx_common (AsEthereumData d)) as (_ & _ & Hgas & _). cbv zeta in Hgas.
  assert (tx_Gas (tx_of d) = GetGas d) as Hgas' by (unfold tx_of; rewrite Hgas; by destruct d).
  destruct (failed_transaction_costs_gas info Hkeccak chain consensus_params GetValidatorByConsAddr hooks c (as_fm s1)
    params (tx_of d) (as_evm s1) res e) as (msg & bf & Hbf & Hmsg & Hu & Hkv & Hac & _ & Hpaid & Hcnt & _);
    try done; [by rewrite Hp|rewrite Ht; lia|by rewrite Hgas'|].
  rewrite (base_fee_params _ _ _ _ _ Hp), Hb in Hbf. injection Hbf as <-.
  destruct (mc_price _ _ _ _ _ _ Hm) as (tip & cap & Hpr & Hcap & Hbal & Hpay).
  destruct (core_prices _ _ _ _ _ _ Hpr Hbn Hmsg) as (_ & Hprice & Hlimit).
  destruct (message_of _ _ _ _ Hmsg) as (Hsnd & _). rewrite Hs in Hsnd. injection Hsnd as ->.
  exists b, tip, cap. split_and!; try done; try lia.
  - replace (_ * r_GasUsed res) with (price_at d b tip cap * GetGas d
      + - ((msg_GasLimit msg - r_GasUsed res) * msg_GasPrice msg)) by (rewrite Hlimit, Hprice; lia).
    by eapply collector_paid_trans.
  - rewrite (mc_nonce _ _ _ _ _ _ Hm), <- (mc_next _ _ _ _ _ _ Hm). unfold vm_GetNonce. by rewrite Hac.
  - rewrite Hkv. apply (mc_kv _ _ _ _ _ _ Hm).
Qed.
End end_to_end.
