(* ===== verification/EthCompose.v ===== *)
(** A concrete go-ethereum beside the concrete chain of [EvmCompose]: signers, an
    interpreter of two instructions and the SDK's fee deduction, on which the
    theorems about messages, transactions and the ante handler are instantiated. *)
From S2P Require Import Prelude KVStore Sdk EvmConfig BankModel FeeMarket FeeMarketThms PreciseBank PreciseBankThms.
From S2P Require Import StateDB StateDBInv StateDBRun StateDBOps StateDBMachine StateDBThms StateDBType StateDBReach Wrappers VmKeeper VmKeeperThms EvmCompose.
From S2P Require Import TxData TxDataThms VmParams EthModel VmGas StateTransition StateTransitionThms EthAnte EthAnteThms.
Import AccessList Transient.

(** * Signers: the value r of the signature is the sender *)

Definition h_sender (t : EthTxData) : Address := default 0 (e_r (eth_common t)) mod 2 ^ 160.
Definition h_to_ok (o : option Address) : bool := match o with Some a => (0 <=? a) && (a <? 2 ^ 160) | None => true end.
Definition h_message (t : EthTxData) (b : option Z) : res Message :=
  let f := eth_common t in
  match eth_prices t, e_value f with
  | (Some p, Some tip, Some cap), Some v =>
      if is_uint64 (e_nonce f) && is_uint64 (e_gas f) && h_to_ok (e_to f)
      then Ok (mkMessage (h_sender t) (e_to f) (e_nonce f) v (e_gas f)
                 (match b with Some b => Z.min (tip + b) cap | None => p end) cap tip (e_data f) (eth_accesses t))
      else Err (Error ErrOther "not a transaction")
  | _, _ => Err (Error ErrOther "not a transaction")
  end.
#[global] Instance ModelEthSigner : EthSigner := {|
  Signer := unit;
  MakeSigner _ _ := tt;
  signer_Sender _ t := Ok (h_sender t);
  TransactionToMessage t _ b := h_message t b;
|}.
#[global] Instance ModelEthSignerLaws : EthSignerLaws.
Proof.
  split; simpl; intros t _ b m Hm; unfold h_message in Hm;
    destruct (eth_prices t) as [[[p|] [tip|]] [cap|]] eqn:Hp; try done;
    destruct (e_value (eth_common t)) as [v|] eqn:Hv; try done; destruct (_ && _) eqn:Hc; try done;
    injection Hm as <-; simpl.
  - split_and!; try done. by destruct b.
  - unfold is_uint64, max_uint64, h_to_ok in Hc. zbool. split_and!; try lia; [by apply Z.mod_pos_bound..|].
    intros a Ha. rewrite Ha in *. zbool. lia.
  - done.
Qed.

#[global] Instance ModelEthCore : EthCore := {| IntrinsicGas _ _ _ _ _ _ := Ok 21000 |}.
#[global] Instance ModelEthCoreLaws : EthCoreLaws.
Proof. split. intros d al c h i s g [= <-]. done. Qed.
#[global] Instance ModelEthReceipts : EthReceipts := {|
  CreateBloom l := Z.of_nat (length l); CreateAddress a n := (a + n) mod 2 ^ 160;
|}.

(** * The interpreter: a call without data is a transfer; with data 0 it reverts,
    with any other it stores the first byte *)

Definition h_ops (from to : Address) (data : bytes) (v : Z) : list sdb_op :=
  match data with
  | [] => [OSubBalance from v; OAddBalance to v]
  | z :: _ => if z =? 0 then [] else [OSetState to 1 (z mod 2 ^ 256); OAddLog (mkLog to [1] [] 0 0 0 0 0)]
  end.
#[global] Instance ModelInterp : Interp := {|
  evm_ActivePrecompiles _ := [1; 2];
  evm_Create _ _ _ gas _ := ret (mkRun [] 0 None []);
  evm_Call _ from to data gas v :=
    do! each run_op (h_ops from to data v);
    ret (mkRun [] (gas / 2) (match data with 0 :: _ => Some ErrExecutionReverted | _ => None end) []);
|}.

Lemma h_ops_typed from to data v : u160 from -> u160 to -> Forall op_typed (h_ops from to data v).
Proof.
  intros Hf Ht. assert (u256 (default 0 (head data) mod 2 ^ 256)) by by apply Z.mod_pos_bound.
  unfold h_ops. destruct data as [|z data]; [|destruct (z =? 0)]; rewrite ?Forall_cons, Forall_nil; done.
Qed.
#[global] Instance ModelInterpLaws : InterpLaws.
Proof.
  split.
  - intros env from to data gas v s r s' Hg Hf Ht Hv Hr. apply bind_ok in Hr as ([] & s1 & Hops & [= <- <-]). simpl.
    split; [split; [by apply Z.div_pos|apply Z.div_le_upper_bound; lia]|]. eauto using h_ops_typed.
  - intros env from data gas v s r s' Hg Hf Hv [= <- <-]. simpl. split; [lia|]. by exists [].
Qed.

(** * Fee deduction of the SDK *)

#[global] Instance ModelEvmAuth : EvmAuth := {|
  GetSignerAcc k a := match ea_GetAccount k a with Some x => Ok x | None => Err (Error ErrUnknownAddress "account") end;
  DeductFees send x fees := send (ea_address x) FeeCollector fees;
|}.
#[global] Instance ModelEvmAuthLaws : EvmAuthLaws.
Proof.
  split; [|done]. intros k a x Hx. unfold GetSignerAcc, ModelEvmAuth in Hx.
  destruct (ea_GetAccount k a); [by injection Hx as ->|done].
Qed.

(** * A block, its fee market and two transactions of Alice *)

Definition h_chain : ChainConfig :=
  mkChain 631 (fun _ => true) (fun _ => true) (fun _ => true) (fun _ _ => true) (fun _ _ => e_rules).
Definition h_ctx : EvmCtx :=
  mkEvmCtx 7 1700 [1; 2] [9] (Some (-1)) (Some 1000000) false false (fun _ => 0).
Definition h_fm : fm_state :=
  FM (Some (mkParams false 8 2 0 (Some (10 ^ 7)) (Some 0) (Some (dec_one / 2)) (Some 0) (Some (dec_one / 4))))
    None None [].
Definition h_validator (b : bytes) : res string := Ok "guruvaloper".
Definition h_CanTransfer (a : Address) (v : Z) : M StateDB bool := let! b := GetBalance a in ret (v <=? b).

(** A dynamic fee transaction of Alice: nonce 4, 50000 gas, tip 2, cap 20, value 7. *)
Definition h_eth (data : bytes) : EthTxData :=
  EthDynamicFeeTx (mkEth 4 50000 (Some e_dapp) (Some 7) data (Some 1) (Some e_alice) (Some 88))
    (Some 631) (Some 2) (Some 20) None.
Definition h_data (data : bytes) : TxData :=
  match NewTxDataFromTx (h_eth data) with Ok d => d | _ => TLegacy (mkLegacyTx 0 None 0 "" None [] [] [] []) end.
Definition h_msg (data : bytes) : MsgEthereumTx := mkMsgEth (Some (h_data data)) 0 "hash" "".
Definition h_tx (data : bytes) : EthTx :=
  mkEthTx (Some (Err (Error ErrNoSignatures "")))
    (Some (mkProtoTx "" 0 0 1 0 "" "" 0 [Coin (ExtendedDenom x_info) 1000000] 50000)) true (Some 50000)
    [Some (h_msg data)].

Definition h_state : ante_state := AS (ES e_vm [] ∅ (Meter.NewInfiniteGasMeterWithLimit 0)) h_fm 0.
Definition h_ante (data : bytes) : res (list MsgEthereumTx) * ante_state :=
  MonoDecorator_AnteHandle x_info h_chain None h_CanTransfer 0 h_ctx None false (h_tx data) h_state.
Definition h_applied (data : bytes) : res MsgEthereumTxResponse * evm_state :=
  ApplyTransaction x_info h_chain None h_validator None h_ctx (as_fm (h_ante data).2) None (tx_of (h_data data))
    (as_evm (h_ante data).2).

(** What the interpreter and the settlement answer on it. *)
Definition h_answer (data : bytes) : MsgEthereumTxResponse :=
  match (h_applied data).1 with Ok r => r | _ => mkResponse 0 [] [] "" 0 end.
Definition h_accepted (data : bytes) : list MsgEthereumTx :=
  match (h_ante data).1 with Ok l => l | _ => [] end.

Lemma h_ante_ok data : is_ok (h_ante data).1 = true -> h_ante data = (Ok (h_accepted data), (h_ante data).2).
Proof. unfold h_accepted. by destruct (h_ante data) as [[] ?]. Qed.
Lemma h_applied_ok data : is_ok (h_applied data).1 = true ->
  ApplyTransaction x_info h_chain None h_validator None h_ctx (as_fm (h_ante data).2) None (tx_of (h_data data))
    (as_evm (h_ante data).2) = (Ok (h_answer data), (h_applied data).2).
Proof. unfold h_answer. fold (h_applied data). by destruct (h_applied data) as [[] ?]. Qed.

Lemma h_fm_valid : Params_Validate (GetParams h_fm) = Ok tt.
Proof. vm_compute. reflexivity. Qed.
Lemma h_fit data : Validate (h_data data) = Ok tt -> 0 <= GetGas (h_data data) ->
  h_sender (tx_of (h_data data)) = e_alice -> Forall (message_fit x_info (MakeSigner 7 1700)) (t_msgs (h_tx data)).
Proof.
  intros Hv Hg Hs. constructor; [|constructor]. exists (h_msg data), (h_data data). split_and!; try done.
  intros a Ha. change (Ok (h_sender (tx_of (h_data data))) = Ok a) in Ha. rewrite Hs in Ha. injection Ha as <-. apply e_regular. by left.
Qed.

Lemma ante_charges_witness :
  exists l, Forall2 carries (h_accepted [5]) l /\ messages_charged x_info 10 l e_vm (store_of (h_ante [5]).2).
Proof.
  assert (is_ok (h_ante [5]).1 = true) as Hok by (vm_compute; reflexivity).
  assert (Forall (message_fit x_info (MakeSigner 7 1700)) (t_msgs (h_tx [5]))) as Hfit
    by (apply h_fit; vm_compute; [reflexivity|discriminate|reflexivity]).
  destruct (ante_charges x_info h_chain None h_CanTransfer 0 h_ctx None false (h_tx [5]) h_state _ _
    eq_refl eq_refl x_info_valid h_fm_valid e_vm_ok Hfit (h_ante_ok [5] Hok)) as (b & l & Hb & _ & Hc & Hm & _).
  exists l. split; [exact Hc|]. assert (vm_GetBaseFee x_info h_chain h_ctx h_fm = Ok (Some 10)) as Hb' by (vm_compute; reflexivity).
  change (as_fm h_state) with h_fm in Hb. rewrite Hb' in Hb. injection Hb as <-. exact Hm.
Defined.

Lemma ante_no_replay_witness :
  exists l, nonces_of e_alice l = [4] /\ vm_GetNonce (store_of (h_ante [5]).2) e_alice = 5.
Proof.
  assert (is_ok (h_ante [5]).1 = true) as Hok by (vm_compute; reflexivity).
  assert (Forall (message_fit x_info (MakeSigner 7 1700)) (t_msgs (h_tx [5]))) as Hfit
    by (apply h_fit; vm_compute; [reflexivity|discriminate|reflexivity]).
  assert (u160 e_alice) as Ha by (by split).
  destruct (ante_no_replay x_info h_chain None h_CanTransfer 0 h_ctx None false (h_tx [5]) h_state _ _ e_alice
    eq_refl eq_refl x_info_valid h_fm_valid e_vm_ok Hfit (h_ante_ok [5] Hok) Ha) as (l & Hs & Hn & Hv).
  assert (length (nonces_of e_alice l) = 1%nat) as Hl.
  { apply Forall2_cons_inv_l in Hs as ([a d] & l' & (m & [= <-] & [= Hd] & [= Hsn]) & Hl' & ->).
    apply Forall2_nil_inv_l in Hl' as ->. simpl in Hd, Hsn. subst d. unfold nonces_of. rewrite filter_cons. simpl.
    rewrite decide_True; [reflexivity|]. rewrite <- Hsn. vm_compute. reflexivity. }
  assert (vm_GetNonce (store_of h_state) e_alice = 4) as E by (vm_compute; reflexivity).
  rewrite Hl, E in *. exists l. split; [rewrite Hn; vm_compute; reflexivity|rewrite Hv; reflexivity].
Defined.

Lemma failed_transaction_end_to_end_witness :
  collector_paid x_info e_pb (vm_bank (es_store (h_applied [0]).2)) (address_bytes e_alice) (12 * 35500) /\
  vm_GetNonce (es_store (h_applied [0]).2) e_alice = 5.
Proof.
  assert (is_ok (h_ante [0]).1 = true) as Ho1 by (vm_compute; reflexivity).
  assert (is_ok (h_applied [0]).1 = true) as Ho2 by (vm_compute; reflexivity).
  assert (signer_Sender (MakeSigner (x_height h_ctx) (x_time h_ctx)) (tx_of (h_data [0])) = Ok e_alice) as Hs
    by (vm_compute; reflexivity).
  assert (Validate (h_data [0]) = Ok tt) as Hv by (vm_compute; reflexivity).
  assert (Failed (h_answer [0]) = true) as Hf by (vm_compute; reflexivity).
  assert (0 <= GetGas (h_data [0]) < 2 ^ 63) as Hg by (vm_compute; split; [discriminate|reflexivity]).
  destruct (failed_transaction_end_to_end x_info model_keccak h_chain None h_CanTransfer 0 h_validator None h_ctx None
    false (h_msg [0]) (h_data [0]) e_alice (h_tx [0]) h_state _ _ _ _ eq_refl eq_refl x_info_valid h_fm_valid e_vm_ok
    eq_refl eq_refl Hv Hg Hs (e_regular e_alice (or_introl eq_refl)) (h_ante_ok [0] Ho1)
    (h_applied_ok [0] Ho2) Hf) as (b & tip & cap & Hb & (Ht & Hc & _) & Hp & _ & Hn & _).
  assert (vm_GetBaseFee x_info h_chain h_ctx h_fm = Ok (Some 10)) as Hb' by (vm_compute; reflexivity).
  change (as_fm h_state) with h_fm in Hb. rewrite Hb' in Hb. injection Hb as <-.
  assert (GetGasTipCap (h_data [0]) = Some 2 /\ GetGasFeeCap (h_data [0]) = Some 20) as [Ht' Hc'] by (vm_compute; split; reflexivity).
  rewrite Ht' in Ht. rewrite Hc' in Hc. injection Ht as <-. injection Hc as <-.
  assert (price_at (h_data [0]) 10 2 20 * r_GasUsed (h_answer [0]) = 12 * 35500) as E by (vm_compute; reflexivity).
  rewrite E in Hp. split; [exact Hp|]. rewrite Hn. vm_compute. reflexivity.
Defined.

(** A message, on the state before the ante handler. *)
Definition h_message_of : Message := mkMessage e_alice (Some e_dapp) 4 7 50000 12 20 2 [5] None.
Definition h_cfg : EVMConfig := mkEVMConfig vm_DefaultParams 3 (Some 10).
Definition h_run : res MsgEthereumTxResponse * (vm_state * list event) :=
  ApplyMessageWithConfig x_info h_chain None h_ctx h_fm h_message_of true h_cfg (NewEmptyTxConfig 5) false (e_vm, []).
Definition h_response : MsgEthereumTxResponse := match h_run.1 with Ok r => r | _ => mkResponse 0 [] [] "" 0 end.
Lemma h_run_ok : is_ok h_run.1 = true ->
  ApplyMessageWithConfig x_info h_chain None h_ctx h_fm h_message_of true h_cfg (NewEmptyTxConfig 5) false (e_vm, [])
    = (Ok h_response, h_run.2).
Proof. unfold h_response. fold h_run. by destruct h_run as [[] ?]. Qed.
Lemma h_message_typed : msg_typed h_message_of.
Proof. split_and!; try done. intros a [= <-]. done. Qed.

Lemma ApplyMessage_gas_bounds_witness : 25000 <= r_GasUsed h_response <= 50000.
Proof.
  assert (is_ok h_run.1 = true) as Ho by (vm_compute; reflexivity).
  destruct (@ApplyMessage_gas_bounds _ _ _ e_keeper e_types _ _ _ _ x_info h_chain None h_ctx h_fm h_message_of true
    h_cfg (NewEmptyTxConfig 5) (e_vm, []) h_response h_run.2 e_kv_ok h_message_typed h_fm_valid (h_run_ok Ho))
    as (intrinsic & m & _ & Hm & Hu & _).
  assert (m = dec_one / 2) as -> by exact (eq_sym (f_equal (default 0) Hm)). assert (50000 * (dec_one / 2) / dec_one = 25000) as E by (vm_compute; reflexivity).
  change (msg_GasLimit h_message_of) with 50000 in Hu. rewrite E in Hu. exact Hu.
Defined.

(** The storing call after the ante handler. *)
Lemma h_ante_effect : vm_ok x_info (es_store (as_evm (h_ante [5]).2)) /\
  GetTransientGasUsed (es_transient (as_evm (h_ante [5]).2)) = 0 /\ GetParams (as_fm (h_ante [5]).2) = GetParams h_fm.
Proof.
  assert (is_ok (h_ante [5]).1 = true) as Hok by (vm_compute; reflexivity).
  assert (Forall (message_fit x_info (MakeSigner 7 1700)) (t_msgs (h_tx [5]))) as Hfit
    by (apply h_fit; vm_compute; [reflexivity|discriminate|reflexivity]).
  destruct (ante_effect x_info h_chain None h_CanTransfer 0 h_ctx None false (h_tx [5]) h_state _ _
    eq_refl eq_refl x_info_valid h_fm_valid e_vm_ok Hfit (h_ante_ok [5] Hok))
    as (b & l & _ & _ & _ & _ & Hv & _ & _ & _ & Ht & Hp). by split_and!.
Qed.

Lemma ApplyTransaction_commits_witness :
  exists db db' : StateDB, reachable (es_store (as_evm (h_ante [5]).2)) []
      (TxConfig_of h_ctx (tx_Hash (tx_of (h_data [5]))) (es_transient (as_evm (h_ante [5]).2))) db /\
    Commit db = (Ok tt, db') /\ r_Logs (h_answer [5]) = logs db' /\ length (logs db') = 1%nat.
Proof.
  destruct h_ante_effect as (Hv & Ht & Hp).
  assert (is_ok (h_applied [5]).1 = true) as Ho by (vm_compute; reflexivity).
  assert (Failed (h_answer [5]) = false) as Hf by (vm_compute; reflexivity).
  assert (0 <= tx_Gas (tx_of (h_data [5])) < 2 ^ 63) as Hg by (vm_compute; split; [discriminate|reflexivity]).
  assert (0 <= GetTransientGasUsed (es_transient (as_evm (h_ante [5]).2)) < 2 ^ 64) as Ht' by (rewrite Ht; lia).
  assert (Params_Validate (GetParams (as_fm (h_ante [5]).2)) = Ok tt) as Hpv by (rewrite Hp; apply h_fm_valid).
  destruct (ApplyTransaction_commits x_info model_keccak h_chain None h_validator h_ctx (as_fm (h_ante [5]).2) None
    (tx_of (h_data [5])) (as_evm (h_ante [5]).2) (h_answer [5]) (h_applied [5]).2 Hv Hpv Ht' Hg (h_applied_ok [5] Ho) Hf)
    as (msg & bf & db & db' & _ & _ & _ & Hr & _ & Hc & Hl & _).
  assert (length (r_Logs (h_answer [5])) = 1%nat) as E by (vm_compute; reflexivity).
  exists db, db'. split; [exact Hr|]. split; [exact Hc|]. split; [exact Hl|]. exact (eq_trans (f_equal length (eq_sym Hl)) E).
Defined.

(** A hook that emits one event: it is there twice. *)
Definition h_hook (sender : Address) (msg : Message) (receipt : Receipt) : M (vm_state * list event) Receipt :=
  fun st => (Ok receipt, (st.1, st.2 ++ [e_event])).
Definition h_empty : MsgEthereumTxResponse := mkResponse 1 [] [] "" 21000.
Definition h_post : res MsgEthereumTxResponse * evm_state :=
  post_process (Some h_hook) h_ctx (tx_of (h_data [5])) h_message_of (NewEmptyTxConfig 5) h_empty (e_vm, [])
    (as_evm h_state).

Lemma hook_events_twice_witness : es_events h_post.2 = [e_event; e_event].
Proof.
  destruct (hook_events_twice (Some h_hook) h_ctx (tx_of (h_data [5])) h_message_of (NewEmptyTxConfig 5) h_empty
    (e_vm, []) (as_evm h_state) (with_response_logs [] h_empty) h_post.2 e_vm [e_event]) as [He _].
  - intros sender receipt. exists receipt. reflexivity.
  - apply (run_fst (post_process (Some h_hook) h_ctx (tx_of (h_data [5])) h_message_of (NewEmptyTxConfig 5) h_empty
      (e_vm, [])) (as_evm h_state)). vm_compute. reflexivity.
  - exact He.
Defined.
