(* ===== verification/Erc20.v ===== *)
(** x/erc20, the registry: token pairs with their two indices, allowances, the
    parameters and the precompiles the module has enabled ([keeper/token_pairs.go],
    [allowance.go], [params.go], [precompiles.go], [dynamic_precompiles.go];
    [types/token_pair.go], [allowance.go], [keys.go], [genesis.go]).

    The store is one map for each prefix of [types/keys.go], with the values
    decoded. *)
From S2P Require Import Prelude KVStore Sdk StateDB VmKeeper TxData.

(** * Data *)

Inductive Owner := OWNER_UNSPECIFIED | OWNER_MODULE | OWNER_EXTERNAL.
#[global] Instance Owner_eq_dec : EqDecision Owner.
Proof. solve_decision. Defined.

Record TokenPair := mkPair { Erc20Address : string; tp_Denom : string; Enabled : bool; ContractOwner : Owner }.
Record Allowance := mkAllowance { al_Erc20 : string; al_Owner : string; al_Spender : string; al_Value : Z }.
#[global] Instance TokenPair_eq_dec : EqDecision TokenPair.
Proof. solve_decision. Defined.

Record erc20_state := mkErc20 {
  er_enabled : bool;                    (** [EnableErc20] is present *)
  er_permissionless : bool;             (** [PermissionlessRegistration] is present *)
  er_pairs : gmap bytes TokenPair;      (** 0x01 id *)
  er_byERC20 : gmap bytes bytes;        (** 0x02 address *)
  er_byDenom : gmap bytes bytes;        (** 0x03 denom *)
  er_allowances : gmap bytes Allowance; (** 0x05 token owner spender *)
  er_native : gmap bytes bytes;         (** 0x06 text of the address *)
  er_dynamic : gmap bytes bytes;        (** 0x07 text of the address *)
}.

Definition with_pairs f (s : erc20_state) := mkErc20 (er_enabled s) (er_permissionless s) (f (er_pairs s))
  (er_byERC20 s) (er_byDenom s) (er_allowances s) (er_native s) (er_dynamic s).
Definition with_byERC20 f (s : erc20_state) := mkErc20 (er_enabled s) (er_permissionless s) (er_pairs s)
  (f (er_byERC20 s)) (er_byDenom s) (er_allowances s) (er_native s) (er_dynamic s).
Definition with_byDenom f (s : erc20_state) := mkErc20 (er_enabled s) (er_permissionless s) (er_pairs s)
  (er_byERC20 s) (f (er_byDenom s)) (er_allowances s) (er_native s) (er_dynamic s).
Definition with_allowances f (s : erc20_state) := mkErc20 (er_enabled s) (er_permissionless s) (er_pairs s)
  (er_byERC20 s) (er_byDenom s) (f (er_allowances s)) (er_native s) (er_dynamic s).
Definition with_native f (s : erc20_state) := mkErc20 (er_enabled s) (er_permissionless s) (er_pairs s)
  (er_byERC20 s) (er_byDenom s) (er_allowances s) (f (er_native s)) (er_dynamic s).
Definition with_dynamic f (s : erc20_state) := mkErc20 (er_enabled s) (er_permissionless s) (er_pairs s)
  (er_byERC20 s) (er_byDenom s) (er_allowances s) (er_native s) (f (er_dynamic s)).

(** [tmhash.Sum] of CometBFT: SHA-256, which is taken to have no collisions. *)
Class Tmhash := { tmhash_Sum : bytes -> bytes }.
Class TmhashLaws `{Tmhash} := {
  tmhash_inj : forall x y, tmhash_Sum x = tmhash_Sum y -> x = y;
  tmhash_some : forall x, tmhash_Sum x <> [];
}.
(** [ibctransfertypes.ParseHexHash]: [None] when it fails. *)
Class IbcHash := { ParseHexHash : string -> option bytes }.
Class IbcHashLaws `{IbcHash} := {
  hash_bytes : forall s h, ParseHexHash s = Some h -> Forall (fun z => 0 <= z < 256) h;
}.

Definition AllowanceKey (erc20 owner spender : Address) : bytes :=
  address_bytes erc20 ++ address_bytes owner ++ address_bytes spender.

Section registry.
Context `{EthHex, Tmhash, IbcHash}.

(** * Token pairs ([types/token_pair.go]) *)

Definition GetID (tp : TokenPair) : bytes :=
  tmhash_Sum (str_bytes (Erc20Address tp) ++ [124] ++ str_bytes (tp_Denom tp)).
Definition GetERC20Contract (tp : TokenPair) : Address := HexToAddress (Erc20Address tp).
Definition IsNativeCoin (tp : TokenPair) : bool := bool_decide (ContractOwner tp = OWNER_MODULE).
Definition IsNativeERC20 (tp : TokenPair) : bool := bool_decide (ContractOwner tp = OWNER_EXTERNAL).
Definition NewTokenPair (erc20Address : Address) (denom : string) (contractOwner : Owner) : TokenPair :=
  mkPair (Address_Hex erc20Address) denom true contractOwner.
Definition TokenPair_Validate `{CoinsLib} (tp : TokenPair) : res unit :=
  do? (if denom_ok (tp_Denom tp) then Ok tt else Err (Error ErrOther "invalid denom"));
  ValidateAddress (Erc20Address tp).

(** [utils.GetIBCDenomAddress]; a suffix of spaces alone is no hash. *)
Definition all_spaces (l : bytes) : bool := forallb (fun z => (z =? 32) || ((9 <=? z) && (z <=? 13))) l.
Definition GetIBCDenomAddress (denom : string) : res Address :=
  let bz := str_bytes denom in
  if negb (is_prefix (str_bytes "ibc/") bz)
  then Err (Error ErrInvalidDenomForTransfer "coin does not have 'ibc/' prefix")
  else if (length bz <? 5)%nat || all_spaces (drop 4 bz)
  then Err (Error ErrInvalidDenomForTransfer "coin is not a valid IBC voucher hash")
  else match ParseHexHash (String.substring 4 (String.length denom - 4) denom) with
       | None => Err (Error ErrInvalidDenomForTransfer "hash")
       | Some h => Ok (BytesToAddress h)
       end.
Definition NewTokenPairSTRv2 (denom : string) : res TokenPair :=
  let? address := GetIBCDenomAddress denom in
  Ok (mkPair (Address_Hex address) denom true OWNER_MODULE).

(** * The store of pairs ([keeper/token_pairs.go]) *)

Definition GetERC20Map (s : erc20_state) (erc20 : Address) : option bytes := er_byERC20 s !! address_bytes erc20.
Definition GetDenomMap (s : erc20_state) (denom : string) : option bytes := er_byDenom s !! str_bytes denom.
Definition IsTokenPairRegistered (s : erc20_state) (id : bytes) : bool := bool_decide (is_Some (er_pairs s !! id)).
Definition IsERC20Registered (s : erc20_state) (erc20 : Address) : bool := bool_decide (is_Some (GetERC20Map s erc20)).
Definition IsDenomRegistered (s : erc20_state) (denom : string) : bool := bool_decide (is_Some (GetDenomMap s denom)).
Definition GetTokenPairID (s : erc20_state) (token : string) : option bytes :=
  if IsHexAddress token then GetERC20Map s (HexToAddress token) else GetDenomMap s token.
(** The pair without any field set is stored as no bytes. *)
Definition GetTokenPair (s : erc20_state) (id : option bytes) : option TokenPair :=
  match id with
  | None => None
  | Some id =>
      match er_pairs s !! id with
      | Some p => if bool_decide (p = mkPair "" "" false OWNER_UNSPECIFIED) then None else Some p
      | None => None
      end
  end.
Definition GetTokenPairs (s : erc20_state) : list TokenPair := (iterate [] (er_pairs s)).*2.

Definition SetTokenPair (tokenPair : TokenPair) : erc20_state -> erc20_state :=
  with_pairs (<[GetID tokenPair := tokenPair]>).
Definition SetERC20Map (erc20 : Address) (id : bytes) : erc20_state -> erc20_state :=
  with_byERC20 (<[address_bytes erc20 := id]>).
Definition SetDenomMap (denom : string) (id : bytes) : erc20_state -> erc20_state :=
  with_byDenom (<[str_bytes denom := id]>).
Definition SetToken (pair : TokenPair) : M erc20_state unit :=
  let! s := gets (fun s => s) in
  if IsDenomRegistered s (tp_Denom pair) then fail ErrTokenPairAlreadyExists "token already exists for denom"
  else if IsERC20Registered s (GetERC20Contract pair)
  then fail ErrTokenPairAlreadyExists "token already exists for token"
  else
    do! modify (SetTokenPair pair);
    do! modify (SetDenomMap (tp_Denom pair) (GetID pair));
    modify (SetERC20Map (GetERC20Contract pair) (GetID pair)).

Definition deleteAllowances (erc20 : Address) (s : erc20_state) : erc20_state :=
  foldl (fun s kv => with_allowances (delete kv.1) s) s (iterate (address_bytes erc20) (er_allowances s)).
Definition DeleteTokenPair (tokenPair : TokenPair) (s : erc20_state) : erc20_state :=
  deleteAllowances (GetERC20Contract tokenPair)
    (with_byDenom (delete (str_bytes (tp_Denom tokenPair)))
      (with_byERC20 (delete (address_bytes (GetERC20Contract tokenPair)))
        (with_pairs (delete (GetID tokenPair)) s))).

Definition GetCoinAddress (s : erc20_state) (denom : string) : res Address :=
  match GetDenomMap s denom with
  | None | Some [] => GetIBCDenomAddress denom
  | Some id =>
      match GetTokenPair s (Some id) with
      | None => Err (Error ErrTokenPairNotFound "coin not registered")
      | Some p => Ok (GetERC20Contract p)
      end
  end.
Definition GetTokenDenom (s : erc20_state) (tokenAddress : Address) : res string :=
  match GetERC20Map s tokenAddress with
  | None | Some [] => Err (Error ErrTokenPairNotFound "token not registered")
  | Some id =>
      match GetTokenPair s (Some id) with
      | None => Err (Error ErrTokenPairNotFound "token not registered")
      | Some p => Ok (tp_Denom p)
      end
  end.

Definition toggleConversion (token : string) : M erc20_state TokenPair :=
  let! s := gets (fun s => s) in
  match GetTokenPairID s token with
  | None | Some [] => fail ErrTokenPairNotFound "token not registered by id"
  | Some id =>
      match GetTokenPair s (Some id) with
      | None => fail ErrTokenPairNotFound "token not registered"
      | Some p =>
          let p := mkPair (Erc20Address p) (tp_Denom p) (negb (Enabled p)) (ContractOwner p) in
          do! modify (SetTokenPair p);
          ret p
      end
  end.

(** * Allowances ([keeper/allowance.go]) *)

Definition NewAllowance (erc20 owner spender : Address) (value : Z) : res Allowance :=
  let? v := int_chk value in Ok (mkAllowance (Address_Hex erc20) (Address_Hex owner) (Address_Hex spender) v).
Definition Allowance_Validate (a : Allowance) : res unit :=
  if negb (IsHexAddress (al_Erc20 a)) then Err (Error ErrInvalidAddress "invalid erc20 hex address")
  else if negb (IsHexAddress (al_Owner a)) then Err (Error ErrInvalidAddress "invalid owner hex address")
  else if negb (IsHexAddress (al_Spender a)) then Err (Error ErrInvalidAddress "invalid sender hex address")
  else if negb (0 <? al_Value a) then Err (Error ErrInvalidAllowance "invalid allowance value")
  else Ok tt.

Definition GetAllowance (s : erc20_state) (erc20 owner spender : Address) : Z :=
  match er_allowances s !! AllowanceKey erc20 owner spender with Some a => al_Value a | None => 0 end.
Definition setAllowance (erc20 owner spender : Address) (value : option Z) (allowDisabledTokenPair : bool)
    : M erc20_state unit :=
  let! s := gets (fun s => s) in
  match GetTokenPair s (GetERC20Map s erc20) with
  | None => fail ErrTokenPairNotFound "token pair for address not registered"
  | Some tokenPair =>
      if negb allowDisabledTokenPair && negb (Enabled tokenPair)
      then fail ErrERC20TokenPairDisabled "token pair for address is disabled"
      else if owner =? 0 then fail ErrInvalidAddress "owner address is empty"
      else if spender =? 0 then fail ErrInvalidAddress "spender address is empty"
      else match value with
      | None => fail ErrInvalidAllowance "value is nil"
      | Some value =>
          if value <? 0 then fail ErrInvalidAllowance "value is less than zero"
          else if negb (int_fits value)
          then fail ErrInvalidAllowance "value is greater than max value of uint256"
          else
            let allowanceKey := AllowanceKey erc20 owner spender in
            if value =? 0 then modify (with_allowances (delete allowanceKey))
            else
              let! allowance := lift (NewAllowance erc20 owner spender value) in
              modify (with_allowances (<[allowanceKey := allowance]>))
      end
  end.
Definition SetAllowance (erc20 owner spender : Address) (value : option Z) : M erc20_state unit :=
  setAllowance erc20 owner spender value false.
Definition DeleteAllowance (erc20 owner spender : Address) : M erc20_state unit :=
  setAllowance erc20 owner spender (Some 0) false.
Definition UnsafeSetAllowance (erc20 owner spender : Address) (value : option Z) : M erc20_state unit :=
  setAllowance erc20 owner spender value true.
Definition GetAllowances (s : erc20_state) : list Allowance := (iterate [] (er_allowances s)).*2.

(** * Parameters ([keeper/params.go]) *)

Record Erc20Params := mkErc20Params { EnableErc20 : bool; PermissionlessRegistration : bool }.
Definition erc20_DefaultParams : Erc20Params := mkErc20Params true true.
Definition IsERC20Enabled (s : erc20_state) : bool := er_enabled s.
Definition isPermissionlessRegistration (s : erc20_state) : bool := er_permissionless s.
Definition erc20_GetParams (s : erc20_state) : Erc20Params :=
  mkErc20Params (IsERC20Enabled s) (isPermissionlessRegistration s).
Definition setERC20Enabled (enable : bool) (s : erc20_state) : erc20_state :=
  mkErc20 enable (er_permissionless s) (er_pairs s) (er_byERC20 s) (er_byDenom s) (er_allowances s)
    (er_native s) (er_dynamic s).
Definition SetPermissionlessRegistration (permissionless : bool) (s : erc20_state) : erc20_state :=
  mkErc20 (er_enabled s) permissionless (er_pairs s) (er_byERC20 s) (er_byDenom s) (er_allowances s)
    (er_native s) (er_dynamic s).
Definition erc20_SetParams (newParams : Erc20Params) (s : erc20_state) : erc20_state :=
  SetPermissionlessRegistration (PermissionlessRegistration newParams)
    (setERC20Enabled (EnableErc20 newParams) s).

(** * Precompiles ([keeper/precompiles.go]) *)

Definition isTrue : bytes := str_bytes "0x01".
Definition IsNativePrecompileAvailable (s : erc20_state) (precompile : Address) : bool :=
  bool_decide (is_Some (er_native s !! str_bytes (Address_Hex precompile))).
Definition SetNativePrecompile (precompile : Address) : erc20_state -> erc20_state :=
  with_native (<[str_bytes (Address_Hex precompile) := isTrue]>).
Definition DeleteNativePrecompile (precompile : Address) : erc20_state -> erc20_state :=
  with_native (delete (str_bytes (Address_Hex precompile))).
Definition GetNativePrecompiles (s : erc20_state) : list bytes := (iterate [] (er_native s)).*1.
Definition IsDynamicPrecompileAvailable (s : erc20_state) (precompile : Address) : bool :=
  bool_decide (is_Some (er_dynamic s !! str_bytes (Address_Hex precompile))).
Definition SetDynamicPrecompile (precompile : Address) : erc20_state -> erc20_state :=
  with_dynamic (<[str_bytes (Address_Hex precompile) := isTrue]>).
Definition DeleteDynamicPrecompile (precompile : Address) : erc20_state -> erc20_state :=
  with_dynamic (delete (str_bytes (Address_Hex precompile))).
Definition GetDynamicPrecompiles (s : erc20_state) : list bytes := (iterate [] (er_dynamic s)).*1.

(** [InstantiateERC20Precompile]: the pair the instance is built for, and whether
    it has the methods of a wrapped token. *)
Definition InstantiateERC20Precompile (s : erc20_state) (contractAddr : Address) (hasWrappedMethods : bool)
    : res (TokenPair * bool) :=
  match GetTokenPairID s (Address_Hex contractAddr) with
  | None | Some [] => Err (Error ErrOther "precompile id not found")
  | Some id =>
      match GetTokenPair s (Some id) with
      | None => Err (Error ErrOther "token pair not found")
      | Some p => Ok (p, hasWrappedMethods)
      end
  end.
Definition GetERC20PrecompileInstance (s : erc20_state) (address : Address) : res (option (TokenPair * bool)) :=
  let isNative := IsNativePrecompileAvailable s address in
  let isDynamic := IsDynamicPrecompileAvailable s address in
  if negb (isNative || isDynamic) then Ok None
  else match InstantiateERC20Precompile s address isNative with
       | Ok p => Ok (Some p)
       | Err e => Err (Error (e_kind e) "precompiled contract not initialized")
       | Panic m => Panic m
       end.

(** * Genesis ([types/genesis.go]) *)

Record Erc20Genesis := mkErc20Genesis {
  eg_Params : Erc20Params; eg_TokenPairs : list TokenPair; eg_Allowances : list Allowance;
  eg_NativePrecompiles : list string; eg_DynamicPrecompiles : list string;
}.
Definition hasActiveTokenPair (pairs : list TokenPair) (address : string) : bool :=
  existsb (fun p => bool_decide (Erc20Address p = address) && Enabled p) pairs.
Definition validatePrecompiles (tokenPairs : list TokenPair) (precompiles : list string) : res unit :=
  each_res (fun precompile => if negb (hasActiveTokenPair tokenPairs precompile)
    then Err (Error ErrOther "precompile address not found in token pairs") else Ok tt) precompiles.

Fixpoint validate_pairs `{CoinsLib} (seenErc20 seenDenom : list string) (pairs : list TokenPair)
    : res (list string) :=
  match pairs with
  | [] => Ok seenErc20
  | b :: pairs =>
      if bool_decide (Erc20Address b ∈ seenErc20) then Err (Error ErrOther "token ERC20 contract duplicated on genesis")
      else if bool_decide (tp_Denom b ∈ seenDenom) then Err (Error ErrOther "coin denomination duplicated on genesis")
      else
        do? TokenPair_Validate b;
        validate_pairs (Erc20Address b :: seenErc20) (tp_Denom b :: seenDenom) pairs
  end.
Definition allowance_text (a : Allowance) : string := al_Erc20 a ++ al_Owner a ++ al_Spender a.
Fixpoint validate_allowances (seenErc20 seenAllowance : list string) (allowances : list Allowance) : res unit :=
  match allowances with
  | [] => Ok tt
  | a :: allowances =>
      if bool_decide (allowance_text a ∈ seenAllowance) then Err (Error ErrOther "duplicated allowance on genesis")
      else if negb (bool_decide (al_Erc20 a ∈ seenErc20))
      then Err (Error ErrOther "allowance has no corresponding token pair on genesis")
      else
        do? Allowance_Validate a;
        validate_allowances seenErc20 (allowance_text a :: seenAllowance) allowances
  end.
Definition Erc20Genesis_Validate `{CoinsLib} (gs : Erc20Genesis) : res unit :=
  let? seenErc20 := validate_pairs [] [] (eg_TokenPairs gs) in
  do? validatePrecompiles (eg_TokenPairs gs) (eg_DynamicPrecompiles gs);
  do? validatePrecompiles (eg_TokenPairs gs) (eg_NativePrecompiles gs);
  validate_allowances seenErc20 [] (eg_Allowances gs).
End registry.
