(* ===== verification/Erc20Reg.v ===== *)
(** The registry of x/erc20 is consistent: contracts and denoms correspond one to
    one through the pairs, allowances belong to registered contracts, and every
    operation of the registry keeps it so. *)
From S2P Require Import Prelude KVStore Sdk StateDB StateDBInv StateDBType VmKeeper VmKeeperThms TxData Erc20.

#[local] Arguments address_bytes : simpl never.
#[local] Arguments is_prefix : simpl never.

Lemma split_bar (l1 l2 r1 r2 : bytes) :
  124 ∉ l1 -> 124 ∉ l2 -> l1 ++ [124] ++ r1 = l2 ++ [124] ++ r2 -> l1 = l2 /\ r1 = r2.
Proof.
  revert l2. induction l1 as [|x l1 IH]; intros [|y l2] H1 H2 E; simpl in *; simplify_eq; try done.
  - by rewrite not_elem_of_cons in H2; destruct H2.
  - by rewrite not_elem_of_cons in H1; destruct H1.
  - rewrite not_elem_of_cons in H1, H2. destruct (IH l2) as [-> ->]; [by apply H1|by apply H2|done|done].
Qed.

Section registry.
Context `{EthHex, !EthHexLaws, Tmhash, !TmhashLaws, IbcHash}.
Implicit Types (s : erc20_state) (p q : TokenPair).

Abbreviation key_of p := (address_bytes (GetERC20Contract p)).

Definition allowance_ok s (k : bytes) (al : Allowance) : Prop :=
  exists t o sp v, address_ok t /\ address_ok o /\ address_ok sp /\ o <> 0 /\ sp <> 0 /\ 0 < v < 2 ^ 256 /\
    k = AllowanceKey t o sp /\ al = mkAllowance (Address_Hex t) (Address_Hex o) (Address_Hex sp) v /\
    is_Some (er_byERC20 s !! address_bytes t).

(** An enabled precompile stands for a coin that has a pair. *)
Definition precompile_ok s (k : bytes) : Prop :=
  exists t id p, address_ok t /\ k = str_bytes (Address_Hex t) /\ er_byERC20 s !! address_bytes t = Some id /\
    er_pairs s !! id = Some p /\ ContractOwner p = OWNER_MODULE.

Record reg_wf s : Prop := {
  rw_pair : forall id p, er_pairs s !! id = Some p -> GetID p = id /\ IsHexAddress (Erc20Address p) = true /\
    er_byERC20 s !! key_of p = Some id /\ er_byDenom s !! str_bytes (tp_Denom p) = Some id;
  rw_erc20 : forall a id, er_byERC20 s !! a = Some id -> exists p, er_pairs s !! id = Some p /\ a = key_of p;
  rw_denom : forall d id, er_byDenom s !! d = Some id -> exists p, er_pairs s !! id = Some p /\ d = str_bytes (tp_Denom p);
  rw_allowance : forall k al, er_allowances s !! k = Some al -> allowance_ok s k al;
  rw_native : forall k v, er_native s !! k = Some v -> v = isTrue /\ precompile_ok s k;
  rw_dynamic : forall k v, er_dynamic s !! k = Some v -> v = isTrue /\ precompile_ok s k;
}.

Definition reg_empty (enabled permissionless : bool) : erc20_state := mkErc20 enabled permissionless ∅ ∅ ∅ ∅ ∅ ∅.
Lemma reg_empty_wf e b : reg_wf (reg_empty e b).
Proof. split; intros ? ?; simpl; by rewrite lookup_empty. Qed.

(** Hex text has no bar, so the id determines the two parts of the pair. *)
Lemma GetID_inj p q :
  IsHexAddress (Erc20Address p) = true -> IsHexAddress (Erc20Address q) = true -> GetID p = GetID q ->
  Erc20Address p = Erc20Address q /\ tp_Denom p = tp_Denom q.
Proof.
  intros Hp Hq E. apply tmhash_inj in E. destruct (hex_digits _ Hp) as [_ Bp]. destruct (hex_digits _ Hq) as [_ Bq].
  apply split_bar in E as [E1 E2]; [|done|done]. by apply str_bytes_inj in E1, E2.
Qed.

(** A stored pair is found. *)
Lemma GetTokenPair_stored s id p : reg_wf s -> er_pairs s !! id = Some p -> GetTokenPair s (Some id) = Some p.
Proof.
  intros Hw Hp. unfold GetTokenPair. rewrite Hp, bool_decide_false; [done|]. intros ->.
  destruct (rw_pair s Hw _ _ Hp) as (_ & Hx & _). by apply hex_digits in Hx as [? _].
Qed.
Lemma GetTokenPair_inv s o p : GetTokenPair s o = Some p -> exists id, o = Some id /\ er_pairs s !! id = Some p.
Proof.
  unfold GetTokenPair. destruct o as [id|]; [|done]. destruct (er_pairs s !! id) as [q|] eqn:E; [|done].
  case_bool_decide; [done|]. intros [= ->]. eauto.
Qed.
Lemma stored_unique s id1 id2 p q :
  reg_wf s -> er_pairs s !! id1 = Some p -> er_pairs s !! id2 = Some q ->
  key_of p = key_of q \/ tp_Denom p = tp_Denom q -> id1 = id2.
Proof.
  intros Hw Hp Hq E. destruct (rw_pair s Hw _ _ Hp) as (_ & _ & A1 & D1). destruct (rw_pair s Hw _ _ Hq) as (_ & _ & A2 & D2).
  destruct E as [E|E]; rewrite E in *; congruence.
Qed.

Lemma allowance_ok_mono s s' k al :
  (forall a, is_Some (er_byERC20 s !! a) -> is_Some (er_byERC20 s' !! a)) -> allowance_ok s k al -> allowance_ok s' k al.
Proof. intros Hm (t & o & sp & v & ?). exists t, o, sp, v. naive_solver. Qed.

Lemma precompile_ok_mono s s' k :
  (forall t id p, er_byERC20 s !! t = Some id -> er_pairs s !! id = Some p -> ContractOwner p = OWNER_MODULE ->
    exists id' p', er_byERC20 s' !! t = Some id' /\ er_pairs s' !! id' = Some p' /\ ContractOwner p' = OWNER_MODULE) ->
  precompile_ok s k -> precompile_ok s' k.
Proof.
  intros Hm (t & id & p & Ht & -> & Hi & Hp & Ho). destruct (Hm _ _ _ Hi Hp Ho) as (id' & p' & ?).
  exists t, id', p'. naive_solver.
Qed.

(** ** The operations *)

Lemma SetToken_ok p s s' : SetToken p s = (Ok tt, s') ->
  er_byDenom s !! str_bytes (tp_Denom p) = None /\ er_byERC20 s !! key_of p = None /\
  s' = SetERC20Map (GetERC20Contract p) (GetID p) (SetDenomMap (tp_Denom p) (GetID p) (SetTokenPair p s)).
Proof.
  intros Hr. unfold SetToken in Hr. rewrite bind_gets in Hr.
  destruct (IsDenomRegistered s (tp_Denom p)) eqn:Hd; [done|].
  destruct (IsERC20Registered s (GetERC20Contract p)) eqn:He; [done|]. injection Hr as <-.
  apply bool_decide_eq_false, eq_None_not_Some in Hd. apply bool_decide_eq_false, eq_None_not_Some in He. done.
Qed.
Lemma SetToken_fails p s r s' : SetToken p s = (r, s') -> r <> Ok tt -> s' = s.
Proof.
  unfold SetToken. rewrite bind_gets. destruct (IsDenomRegistered _ _); [by intros [= <- <-]|].
  destruct (IsERC20Registered _ _); [by intros [= <- <-]|]. by intros [= <- <-].
Qed.

Lemma SetToken_wf p s r s' :
  reg_wf s -> IsHexAddress (Erc20Address p) = true -> SetToken p s = (r, s') -> reg_wf s'.
Proof.
  intros Hw Hx Hr. destruct r as [[]|e|m]; [|by rewrite (SetToken_fails _ _ _ _ Hr)..].
  apply SetToken_ok in Hr as (Hd & He & ->).
  assert (forall id q, er_pairs s !! id = Some q -> id <> GetID p /\ key_of q <> key_of p /\
    str_bytes (tp_Denom q) <> str_bytes (tp_Denom p)) as Hnew.
  { intros id q Hq. destruct (rw_pair s Hw _ _ Hq) as (Hid & Hqx & Ha & Hdn).
    split_and!; [|intros E; rewrite E in Ha; congruence|intros E; rewrite E in Hdn; congruence].
    intros E. rewrite <- Hid in E. destruct (GetID_inj _ _ Hqx Hx E) as [_ E2]. rewrite E2 in Hdn. congruence. }
  set (s' := SetERC20Map _ _ _).
  assert (forall t id q, er_byERC20 s !! t = Some id -> er_pairs s !! id = Some q -> ContractOwner q = OWNER_MODULE ->
    exists id' q', er_byERC20 s' !! t = Some id' /\ er_pairs s' !! id' = Some q' /\ ContractOwner q' = OWNER_MODULE) as Hold.
  { intros t id q Ht Hq Ho. exists id, q. destruct (Hnew _ _ Hq) as (? & _). simpl.
    rewrite !lookup_insert_ne by congruence. done. }
  subst s'. split; simpl.
  - intros id q. rewrite lookup_insert_Some. intros [[<- <-]|[Hne Hq]].
    + by rewrite !lookup_insert_eq.
    + destruct (rw_pair s Hw _ _ Hq) as (? & ? & ? & ?). destruct (Hnew _ _ Hq) as (_ & Hk & Hdn).
      rewrite !lookup_insert_ne by congruence. done.
  - intros a id. rewrite lookup_insert_Some. intros [[<- <-]|[Hne Ha]].
    + exists p. by rewrite lookup_insert_eq.
    + destruct (rw_erc20 s Hw _ _ Ha) as (q & Hq & ->). exists q. destruct (Hnew _ _ Hq) as (? & _).
      rewrite lookup_insert_ne by congruence. done.
  - intros d id. rewrite lookup_insert_Some. intros [[<- <-]|[Hne Ha]].
    + exists p. by rewrite lookup_insert_eq.
    + destruct (rw_denom s Hw _ _ Ha) as (q & Hq & ->). exists q. destruct (Hnew _ _ Hq) as (? & _).
      rewrite lookup_insert_ne by congruence. done.
  - intros k al Hal. eapply allowance_ok_mono; [|by apply (rw_allowance s Hw)]. intros a Ha. simpl.
    destruct (decide (a = key_of p)) as [->|]; [rewrite lookup_insert_eq; eauto|by rewrite lookup_insert_ne].
  - intros k v [Hv Hk]%(rw_native s Hw). split; [done|]. by eapply precompile_ok_mono.
  - intros k v [Hv Hk]%(rw_dynamic s Hw). split; [done|]. by eapply precompile_ok_mono.
Qed.

Lemma fold_delete (l : list (bytes * Allowance)) (m : gmap bytes Allowance) k :
  foldl (fun m kv => delete kv.1 m) m l !! k = if decide (k ∈ l.*1) then None else m !! k.
Proof.
  revert m. induction l as [|[k' v] l IH]; intros m; [by rewrite decide_False by (apply not_elem_of_nil)|].
  simpl. rewrite IH. destruct (decide (k ∈ l.*1)) as [Hin|Hout].
  - by rewrite decide_True by (by right).
  - destruct (decide (k = k')) as [->|Hne].
    + rewrite lookup_delete_eq, decide_True by (by left). done.
    + rewrite lookup_delete_ne by done. rewrite decide_False; [done|]. by intros [?|?]%elem_of_cons.
Qed.

Lemma deleteAllowances_spec a s :
  exists m, deleteAllowances a s = with_allowances (fun _ => m) s /\
    forall k, m !! k = if is_prefix (address_bytes a) k then None else er_allowances s !! k.
Proof.
  exists (foldl (fun m kv => delete kv.1 m) (er_allowances s) (iterate (address_bytes a) (er_allowances s))). split.
  - unfold deleteAllowances. generalize (iterate (address_bytes a) (er_allowances s)) as l. intros l. revert s.
    induction l as [|kv l IH]; intros s; [by destruct s|]. simpl. by rewrite IH.
  - intros k. rewrite fold_delete. case_decide as Hin.
    + apply list_elem_of_fmap in Hin as ([k' v] & -> & Hin). apply elem_of_iterate in Hin as [_ Hpre]. cbn [fst].
      by rewrite Hpre.
    + destruct (is_prefix (address_bytes a) k) eqn:Hpre; [|done].
      destruct (er_allowances s !! k) as [v|] eqn:Hk; [|done]. destruct Hin.
      apply list_elem_of_fmap. exists (k, v). split; [done|]. by apply elem_of_iterate.
Qed.

Lemma allowance_prefix a t o sp :
  address_ok a -> address_ok t -> is_prefix (address_bytes a) (AllowanceKey t o sp) = true <-> a = t.
Proof.
  intros Ha Ht. rewrite is_prefix_spec. unfold AllowanceKey. split.
  - intros [r E]. apply app_inj_1 in E as [E _]; [|by unfold address_bytes; rewrite !be_length].
    symmetry. by apply address_bytes_inj.
  - intros ->. eauto.
Qed.

Lemma DeleteTokenPair_wf id p s :
  reg_wf s -> er_pairs s !! id = Some p -> ContractOwner p <> OWNER_MODULE -> reg_wf (DeleteTokenPair p s).
Proof.
  intros Hw Hp Hown. destruct (rw_pair s Hw _ _ Hp) as (Hid & Hx & Ha & Hd). unfold DeleteTokenPair.
  destruct (deleteAllowances_spec (GetERC20Contract p) (with_byDenom (delete (str_bytes (tp_Denom p)))
    (with_byERC20 (delete (key_of p)) (with_pairs (delete (GetID p)) s)))) as (m & -> & Hm). simpl in Hm.
  assert (forall id' q, er_pairs s !! id' = Some q -> id' <> id -> key_of q <> key_of p /\
    str_bytes (tp_Denom q) <> str_bytes (tp_Denom p)) as Hother.
  { intros id' q Hq Hne. split; intros E; destruct Hne; eapply (stored_unique s id' id q p); try done;
      [by left|right; by apply str_bytes_inj]. }
  set (s' := with_allowances _ _).
  assert (forall t id' q, er_byERC20 s !! t = Some id' -> er_pairs s !! id' = Some q -> ContractOwner q = OWNER_MODULE ->
    exists id' q', er_byERC20 s' !! t = Some id' /\ er_pairs s' !! id' = Some q' /\ ContractOwner q' = OWNER_MODULE) as Hold.
  { intros t id' q Ht Hq Ho. exists id', q. simpl. assert (id <> id') by (intros ->; congruence).
    rewrite Hid, !lookup_delete_ne by congruence. done. }
  subst s'. split; simpl.
  - intros id' q. rewrite lookup_delete_Some. intros [Hne Hq]. destruct (rw_pair s Hw _ _ Hq) as (? & ? & ? & ?).
    destruct (Hother id' q Hq) as [? ?]; [congruence|]. rewrite !lookup_delete_ne by congruence. done.
  - intros a id'. rewrite lookup_delete_Some. intros [Hne Ha']. destruct (rw_erc20 s Hw _ _ Ha') as (q & Hq & ->).
    exists q. split; [|done]. apply lookup_delete_Some. split; [|done]. intros <-. rewrite Hid in Hq. congruence.
  - intros d id'. rewrite lookup_delete_Some. intros [Hne Hd']. destruct (rw_denom s Hw _ _ Hd') as (q & Hq & ->).
    exists q. split; [|done]. apply lookup_delete_Some. split; [|done]. intros <-. rewrite Hid in Hq. congruence.
  - intros k al. rewrite Hm. destruct (is_prefix _ k) eqn:Hpre; [done|]. intros Hal.
    destruct (rw_allowance s Hw _ _ Hal) as (t & o & sp & v & Ht & Ho & Hsp & No & Ns & Hv & -> & -> & Hreg).
    exists t, o, sp, v. split_and!; try done; try lia. simpl. rewrite lookup_delete_ne; [done|].
    intros E. apply address_bytes_inj in E; [|apply hex_range|done].
    apply not_true_iff_false in Hpre. destruct Hpre. apply allowance_prefix; [apply hex_range|done|done].
  - intros k v [Hv Hk]%(rw_native s Hw). split; [done|]. by eapply precompile_ok_mono.
  - intros k v [Hv Hk]%(rw_dynamic s Hw). split; [done|]. by eapply precompile_ok_mono.
Qed.

Definition toggled p : TokenPair := mkPair (Erc20Address p) (tp_Denom p) (negb (Enabled p)) (ContractOwner p).
Lemma toggled_wf id p s : reg_wf s -> er_pairs s !! id = Some p -> reg_wf (SetTokenPair (toggled p) s).
Proof.
  intros Hw Hp. destruct (rw_pair s Hw _ _ Hp) as (Hid & Hx & Ha & Hd).
  unfold SetTokenPair. assert (GetID (toggled p) = id) as -> by done.
  assert (forall id' q, er_pairs s !! id' = Some q -> exists q', <[id:=toggled p]> (er_pairs s) !! id' = Some q' /\
    key_of q' = key_of q /\ tp_Denom q' = tp_Denom q /\ ContractOwner q' = ContractOwner q) as Hold.
  { intros id' q Hq. destruct (decide (id' = id)) as [->|Hne]; [|exists q; by rewrite lookup_insert_ne].
    exists (toggled p). rewrite lookup_insert_eq. rewrite Hp in Hq. by injection Hq as <-. }
  assert (forall k, precompile_ok s k -> precompile_ok (with_pairs <[id:=toggled p]> s) k) as Hprec.
  { intros k. apply precompile_ok_mono. intros t id' q Ht Hq Ho. destruct (Hold _ _ Hq) as (q' & ? & ? & ? & Hoq).
    exists id', q'. simpl. by rewrite Hoq. }
  split; simpl.
  - intros id' q. rewrite lookup_insert_Some. intros [[<- <-]|[_ Hq]]; [done|by apply (rw_pair s Hw)].
  - intros a id' Ha'. destruct (rw_erc20 s Hw _ _ Ha') as (q & Hq & ->). destruct (Hold _ _ Hq) as (q' & ? & ? & _). eauto.
  - intros d id' Hd'. destruct (rw_denom s Hw _ _ Hd') as (q & Hq & ->).
    destruct (Hold _ _ Hq) as (q' & ? & _ & Hdq & _). exists q'. by rewrite Hdq.
  - intros k al Hal. by apply (rw_allowance s Hw).
  - intros k v [Hv Hk]%(rw_native s Hw). by split; [|apply Hprec].
  - intros k v [Hv Hk]%(rw_dynamic s Hw). by split; [|apply Hprec].
Qed.

(** What a successful [setAllowance] does: zero deletes, a positive value is
    written under the three addresses; everything else is as before. *)
Definition allowance_entry (t o sp : Address) (v : Z) : option Allowance :=
  if v =? 0 then None else Some (mkAllowance (Address_Hex t) (Address_Hex o) (Address_Hex sp) v).
Lemma setAllowance_ok t o sp value b s s' : setAllowance t o sp value b s = (Ok tt, s') ->
  exists v p, value = Some v /\ 0 <= v < 2 ^ 256 /\ o <> 0 /\ sp <> 0 /\
    GetTokenPair s (GetERC20Map s t) = Some p /\ (b || Enabled p = true) /\
    s' = with_allowances (partial_alter (fun _ => allowance_entry t o sp v) (AllowanceKey t o sp)) s.
Proof.
  unfold setAllowance. rewrite bind_gets. destruct (GetTokenPair _ _) as [p|]; [|done].
  destruct (negb b && negb (Enabled p)) eqn:Hb; [done|]. destruct (Z.eqb_spec o 0); [done|].
  destruct (Z.eqb_spec sp 0); [done|]. destruct value as [v|]; [|done]. destruct (Z.ltb_spec v 0); [done|].
  destruct (int_fits v) eqn:Hf; [|done]. simpl. intros Hr. exists v, p. unfold allowance_entry.
  assert (0 <= v < 2 ^ 256) by (unfold int_fits in Hf; zbool; lia).
  assert (b || Enabled p = true) by (by destruct b, (Enabled p)).
  destruct (Z.eqb_spec v 0).
  - by injection Hr as <-.
  - unfold NewAllowance, int_chk in Hr. rewrite Hf in Hr. by injection Hr as <-.
Qed.
Lemma setAllowance_fails t o sp value b s r s' : setAllowance t o sp value b s = (r, s') -> r <> Ok tt -> s' = s.
Proof.
  unfold setAllowance. rewrite bind_gets. destruct (GetTokenPair _ _) as [p|]; [|by intros [= <- <-]].
  destruct (negb b && negb (Enabled p)); [by intros [= <- <-]|]. destruct (o =? 0); [by intros [= <- <-]|].
  destruct (sp =? 0); [by intros [= <- <-]|]. destruct value as [v|]; [|by intros [= <- <-]].
  destruct (v <? 0); [by intros [= <- <-]|]. destruct (int_fits v) eqn:Hf; [|by intros [= <- <-]]. simpl.
  destruct (v =? 0); [by intros [= <- <-]|]. unfold NewAllowance, int_chk. rewrite Hf. by intros [= <- <-].
Qed.
Lemma setAllowance_wf t o sp value b s r s' :
  reg_wf s -> address_ok t -> address_ok o -> address_ok sp -> setAllowance t o sp value b s = (r, s') -> reg_wf s'.
Proof.
  intros Hw Ht Ho Hsp Hr. destruct r as [[]|e|m]; [|by rewrite (setAllowance_fails _ _ _ _ _ _ _ _ Hr)..].
  apply setAllowance_ok in Hr as (v & p & -> & Hv & No & Ns & Hp & _ & ->).
  split; [apply (rw_pair s Hw)|apply (rw_erc20 s Hw)|apply (rw_denom s Hw)| |apply (rw_native s Hw)|apply (rw_dynamic s Hw)].
  simpl. intros k al. destruct (decide (AllowanceKey t o sp = k)) as [<-|Hne].
  - rewrite lookup_partial_alter_eq. unfold allowance_entry. destruct (Z.eqb_spec v 0); [done|]. intros [= <-].
    exists t, o, sp, v. apply GetTokenPair_inv in Hp as (id & Hid & _). unfold GetERC20Map in Hid.
    split_and!; try done; try lia.
  - rewrite lookup_partial_alter_ne by done. apply (rw_allowance s Hw).
Qed.

(** ** The registry as a transition system: what its operations may do *)

Inductive reg_step : erc20_state -> erc20_state -> Prop :=
  | RS_pair p s : IsHexAddress (Erc20Address p) = true -> er_byDenom s !! str_bytes (tp_Denom p) = None ->
      er_byERC20 s !! key_of p = None ->
      reg_step s (SetERC20Map (GetERC20Contract p) (GetID p) (SetDenomMap (tp_Denom p) (GetID p) (SetTokenPair p s)))
  | RS_delete id p s : er_pairs s !! id = Some p -> ContractOwner p = OWNER_EXTERNAL -> reg_step s (DeleteTokenPair p s)
  | RS_toggle id p s : er_pairs s !! id = Some p -> reg_step s (SetTokenPair (toggled p) s)
  | RS_allowance t o sp v b s s' : address_ok t -> address_ok o -> address_ok sp ->
      setAllowance t o sp v b s = (Ok tt, s') -> reg_step s s'
  | RS_params ps s : reg_step s (erc20_SetParams ps s)
  | RS_native t s : address_ok t -> precompile_ok s (str_bytes (Address_Hex t)) -> reg_step s (SetNativePrecompile t s)
  | RS_dynamic t s : address_ok t -> precompile_ok s (str_bytes (Address_Hex t)) -> reg_step s (SetDynamicPrecompile t s).

Lemma reg_step_wf s s' : reg_step s s' -> reg_wf s -> reg_wf s'.
Proof.
  intros Hs Hw. destruct Hs as [p s Hx Hd He|id p s Hp Ho|id p s Hp|t o sp v b s s' Ht Ho Hsp Hr|ps s|t s Ht Hk|t s Ht Hk].
  - apply (SetToken_wf p s (Ok tt)); [done|done|]. unfold SetToken. rewrite bind_gets. unfold IsDenomRegistered, IsERC20Registered.
    rewrite !bool_decide_false by (unfold GetDenomMap, GetERC20Map; rewrite ?Hd, ?He; by intros [? ?]). done.
  - by eapply DeleteTokenPair_wf; [| |rewrite Ho].
  - by eapply toggled_wf.
  - exact (setAllowance_wf _ _ _ _ _ _ _ _ Hw Ht Ho Hsp Hr).
  - destruct Hw. by split.
  - destruct Hw as [? ? ? ? Hn Hd]. split; [done..| |done]. simpl. intros k v. rewrite lookup_insert_Some. intros [[<- <-]|[_ Hv]]; [done|by eapply Hn].
  - destruct Hw as [? ? ? ? Hn Hd]. split; [done..|]. simpl. intros k v. rewrite lookup_insert_Some. intros [[<- <-]|[_ Hv]]; [done|by eapply Hd].
Qed.
Lemma reg_steps_wf s s' : rtc reg_step s s' -> reg_wf s -> reg_wf s'.
Proof. induction 1; eauto using reg_step_wf. Qed.

Lemma toggleConversion_step token s r s' : toggleConversion token s = (r, s') -> rtc reg_step s s'.
Proof.
  unfold toggleConversion. rewrite bind_gets. destruct (GetTokenPairID s token) as [[|z id]|]; try by intros [= <- <-].
  destruct (GetTokenPair s (Some (z :: id))) as [p|] eqn:Hp; [|by intros [= <- <-]]. intros [= <- <-].
  apply GetTokenPair_inv in Hp as (id' & [= <-] & Hp). by eapply rtc_once, RS_toggle.
Qed.
Lemma SetToken_step p s r s' : IsHexAddress (Erc20Address p) = true -> SetToken p s = (r, s') -> rtc reg_step s s'.
Proof.
  intros Hx Hr. destruct r as [[]|e|m]; [|by rewrite (SetToken_fails _ _ _ _ Hr)..].
  apply SetToken_ok in Hr as (? & ? & ->). by apply rtc_once, RS_pair.
Qed.
Lemma setAllowance_step t o sp v b s r s' : address_ok t -> address_ok o -> address_ok sp ->
  setAllowance t o sp v b s = (r, s') -> rtc reg_step s s'.
Proof.
  intros ? ? ? Hr. destruct r as [[]|e|m]; [|by rewrite (setAllowance_fails _ _ _ _ _ _ _ _ Hr)..].
  by apply rtc_once, (RS_allowance t o sp v b).
Qed.

(** ** What a consistent registry answers *)

Lemma id_some id p s : reg_wf s -> er_pairs s !! id = Some p -> id <> [].
Proof. intros Hw Hp ->. destruct (rw_pair s Hw _ _ Hp) as (Hid & _). by apply (tmhash_some _ Hid). Qed.

(** The pair of a registered contract, and of a registered denom. *)
Lemma erc20_pair s t id : reg_wf s -> address_ok t -> GetERC20Map s t = Some id ->
  id <> [] /\ exists p, GetTokenPair s (Some id) = Some p /\ GetERC20Contract p = t /\ er_pairs s !! id = Some p.
Proof.
  intros Hw Ht Hm. destruct (rw_erc20 s Hw _ _ Hm) as (p & Hp & E). split; [by eapply id_some|].
  exists p. split_and!; [by apply GetTokenPair_stored| |done]. symmetry. apply address_bytes_inj; [done|apply hex_range|done].
Qed.
Lemma denom_pair s d id : reg_wf s -> GetDenomMap s d = Some id ->
  id <> [] /\ exists p, GetTokenPair s (Some id) = Some p /\ tp_Denom p = d /\ er_pairs s !! id = Some p.
Proof.
  intros Hw Hm. destruct (rw_denom s Hw _ _ Hm) as (p & Hp & E). split; [by eapply id_some|].
  exists p. split_and!; [by apply GetTokenPair_stored| |done]. symmetry. by apply str_bytes_inj.
Qed.

(** The two directions of the registry are inverse. *)
Lemma lookup_inverse s t d : reg_wf s -> address_ok t ->
  GetTokenDenom s t = Ok d <-> IsDenomRegistered s d = true /\ GetCoinAddress s d = Ok t.
Proof.
  intros Hw Ht. unfold GetTokenDenom, GetCoinAddress, IsDenomRegistered. rewrite bool_decide_eq_true. split.
  - destruct (GetERC20Map s t) as [id|] eqn:Hm; [|done].
    destruct (erc20_pair _ _ _ Hw Ht Hm) as (Hne & p & Hg & Hc & Hp). destruct id as [|z id]; [done|]. rewrite Hg.
    intros [= <-]. destruct (rw_pair s Hw _ _ Hp) as (_ & _ & _ & Hd). unfold GetDenomMap. rewrite Hd, Hg, Hc. eauto.
  - intros [[id Hm] Hr]. rewrite Hm in Hr. destruct (denom_pair _ _ _ Hw Hm) as (Hne & p & Hg & <- & Hp).
    destruct id as [|z id]; [done|]. rewrite Hg in Hr. injection Hr as <-.
    destruct (rw_pair s Hw _ _ Hp) as (_ & _ & Ha & _). unfold GetERC20Map. by rewrite Ha, Hg.
Qed.

Lemma hex_text_inj a b : address_ok a -> address_ok b -> Address_Hex a = Address_Hex b -> a = b.
Proof. intros Ha Hb E. rewrite <- (hex_address a Ha), <- (hex_address b Hb). by rewrite E. Qed.

(** The code of an enabled precompile is found. *)
Lemma precompile_found s t : reg_wf s -> address_ok t ->
  IsNativePrecompileAvailable s t || IsDynamicPrecompileAvailable s t = true ->
  exists p, GetERC20PrecompileInstance s t = Ok (Some (p, IsNativePrecompileAvailable s t)) /\
    GetERC20Contract p = t /\ ContractOwner p = OWNER_MODULE.
Proof.
  intros Hw Ht Hav. assert (precompile_ok s (str_bytes (Address_Hex t))) as (t' & id & p & Ht' & E & Hm & Hp & Ho).
  { apply orb_true_iff in Hav as [[v Hv]%bool_decide_eq_true|[v Hv]%bool_decide_eq_true];
      [by eapply (rw_native s Hw)|by eapply (rw_dynamic s Hw)]. }
  apply str_bytes_inj, hex_text_inj in E; [|done..]. subst t'.
  destruct (erc20_pair s t id Hw Ht Hm) as (Hne & q & Hg & Hc & Hq). assert (q = p) as -> by congruence.
  exists p. split; [|done]. unfold GetERC20PrecompileInstance. rewrite Hav. cbn [negb]. unfold InstantiateERC20Precompile, GetTokenPairID.
  rewrite hex_is_address, hex_address by done. unfold GetERC20Map. rewrite Hm. destruct id as [|z id]; [done|]. by rewrite Hg.
Qed.

Lemma AllowanceKey_inj t o sp t' o' sp' :
  address_ok t -> address_ok o -> address_ok sp -> address_ok t' -> address_ok o' -> address_ok sp' ->
  AllowanceKey t o sp = AllowanceKey t' o' sp' -> t = t' /\ o = o' /\ sp = sp'.
Proof.
  intros ? ? ? ? ? ? E. unfold AllowanceKey in E.
  apply app_inj_1 in E as [E1 E]; [|by unfold address_bytes; rewrite !be_length].
  apply app_inj_1 in E as [E2 E3]; [|by unfold address_bytes; rewrite !be_length].
  split_and!; by apply address_bytes_inj.
Qed.
Lemma allowance_registered s t o sp : reg_wf s -> address_ok t -> address_ok o -> address_ok sp ->
  GetAllowance s t o sp <> 0 -> 0 < GetAllowance s t o sp < 2 ^ 256 /\ IsERC20Registered s t = true.
Proof.
  intros Hw Ht Ho Hsp. unfold GetAllowance. destruct (er_allowances s !! AllowanceKey t o sp) as [al|] eqn:Hal; [|done].
  intros _. destruct (rw_allowance s Hw _ _ Hal) as (t' & o' & sp' & v & ? & ? & ? & _ & _ & Hv & E & -> & Hreg).
  apply AllowanceKey_inj in E as (-> & -> & ->); [|done..]. split; [done|]. by apply bool_decide_eq_true.
Qed.
End registry.
