(* ===== verification/Erc20Keeper.v ===== *)
(** x/erc20, the keeper over the EVM and the bank: registration of contracts,
    conversion of tokens and coins, the message server, genesis and the callbacks
    of ICS-20 transfers ([keeper/msg_server.go], [mint.go], [proposals.go],
    [evm.go], [util.go], [dynamic_precompiles.go], [ibc_callbacks.go];
    [genesis.go]; [ibc/utils.go]; [x/vm/keeper/call_evm.go]).

    The EVM, the bank and the accounts share one state, since a call of a
    contract may move coins: the interface [Erc20Env] has it as a type.  A call
    may also reach the registry, through the precompiles of the chain, so it runs
    on the registry and that state together. *)
From S2P Require Import Prelude KVStore Sdk StateDB VmKeeper TxData StateTransition Erc20.

(** [banktypes.Metadata] *)
Record DenomUnit := mkUnit { du_Denom : string; du_Exponent : Z; du_Aliases : list string }.
Record Metadata := mkMetadata {
  md_Description : string; md_Base : string; md_DenomUnits : list DenomUnit; md_Name : string;
  md_Symbol : string; md_Display : string;
}.

(** [types.BankKeeper], [AccountKeeper], [StakingKeeper] and [EVMKeeper]. *)
Class Erc20Env := {
  X : Type;
  xb_GetBalance : X -> addr -> string -> res coin;
  xb_BlockedAddr : addr -> bool;
  xb_IsSendEnabled : X -> string -> bool;
  xb_MintCoins : string -> coins -> M X unit;
  xb_BurnCoins : string -> coins -> M X unit;
  xb_SendCoinsFromAccountToModule : addr -> string -> coins -> M X unit;
  xb_SendCoinsFromModuleToAccount : string -> addr -> coins -> M X unit;
  xb_GetDenomMetaData : X -> string -> option Metadata;
  xb_SetDenomMetaData : Metadata -> X -> X;
  metadata_Validate : Metadata -> res unit;
  xa_IsModuleAccount : X -> addr -> bool;
  xs_BondDenom : X -> res string;
  xe_GetAccountWithoutBalance : X -> Address -> option Account;
  xe_GetAccount : X -> Address -> string + option Account;
  xe_SetAccount : Address -> Account -> M X unit;
  xe_GetCode : X -> Hash -> option bytes;
  xe_SetCode : Hash -> bytes -> X -> X;
  xe_CallEVMWithData : Address -> option Address -> bytes -> bool -> M (erc20_state * X) MsgEthereumTxResponse;
}.

(** The ABI of the token contracts, packed and unpacked by go-ethereum. *)
Class Erc20Abi := {
  pack_transfer : Address -> Z -> res bytes;
  pack_balanceOf : Address -> res bytes;
  pack_getter : string -> res bytes;          (** a method without arguments *)
  unpack_bool : bytes -> option bool;
  unpack_balance : bytes -> option Z;
  unpack_string : bytes -> option string;
  unpack_uint8 : bytes -> option Z;
  Erc20Bytecode : bytes;
}.

(** [CallEVM] of x/vm. *)
Definition CallEVM `{Erc20Env} (from contract : Address) (commit : bool) (data : res bytes)
    : M (erc20_state * X) MsgEthereumTxResponse :=
  match data with
  | Ok data => wrapping "contract call failed" (xe_CallEVMWithData from (Some contract) data commit)
  | Err e => fail ErrABIPack "failed to create transaction data"
  | Panic m => panic m
  end.

(** * Names ([types/utils.go]), on the bytes of the text *)

Definition is_digit (z : Z) : bool := (48 <=? z) && (z <=? 57).
Definition is_letter (z : Z) : bool := ((65 <=? z) && (z <=? 90)) || ((97 <=? z) && (z <=? 122)).
(** [(?m)^(\d+)] at the start of every line *)
Fixpoint strip_lines (start : bool) (l : bytes) : bytes :=
  match l with
  | [] => []
  | z :: l => if start && is_digit z then strip_lines true l else z :: strip_lines (z =? 10) l
  end.
Definition removeLeadingNumbers (l : bytes) : bytes := strip_lines true l.
(** [^[^A-Za-z]|[^a-zA-Z0-9/:-]] *)
Definition removeSpecialChars (l : bytes) : bytes :=
  let keep z := is_letter z || is_digit z || (z =? 47) || (z =? 58) || (z =? 45) in
  match l with
  | [] => []
  | z :: r => filter (fun z => keep z = true) (if is_letter z then l else r)
  end.
(** Every round removes at least four bytes. *)
Fixpoint removeInvalidPrefixes (fuel : nat) (l : bytes) : bytes :=
  match fuel with
  | O => l
  | S fuel =>
      if is_prefix (str_bytes "ibc/") l then removeInvalidPrefixes fuel (drop 4 l)
      else if is_prefix (str_bytes "erc20/") l then removeInvalidPrefixes fuel (drop 6 l)
      else if is_prefix (str_bytes "erc20:") l then removeInvalidPrefixes fuel (drop 6 l)
      else l
  end.
Definition bytes_str (l : bytes) : string :=
  String.string_of_list_ascii (map (fun z => Ascii.ascii_of_nat (Z.to_nat z)) l).
Definition SanitizeERC20Name (name : string) : string :=
  let l := take 128 (removeSpecialChars (removeLeadingNumbers (str_bytes name))) in
  bytes_str (removeInvalidPrefixes (length l) l).
(** [utils.Bytes32ToString] *)
Fixpoint until_zero (l : bytes) : bytes :=
  match l with [] => [] | z :: l => if z =? 0 then [] else z :: until_zero l end.
Definition Bytes32ToString (data : bytes) : string := bytes_str (until_zero data).

Definition CreateDenomDescription (address : string) : string := "Cosmos coin token representation of " ++ address.
Definition CreateDenom (address : string) : string := "erc20:" ++ address.

(** ** Comparison of metadata *)
Fixpoint EqualStringSlice (aliasesA aliasesB : list string) : bool :=
  match aliasesA, aliasesB with
  | [], [] => true
  | a :: aliasesA, b :: aliasesB => bool_decide (a = b) && EqualStringSlice aliasesA aliasesB
  | _, _ => false
  end.
Definition equal_unit (a b : DenomUnit) : bool :=
  (du_Exponent a =? du_Exponent b) && bool_decide (du_Denom a = du_Denom b) && EqualStringSlice (du_Aliases a) (du_Aliases b).
Definition EqualMetadata (a b : Metadata) : res unit :=
  if bool_decide (md_Base a = md_Base b) && bool_decide (md_Description a = md_Description b)
     && bool_decide (md_Display a = md_Display b) && bool_decide (md_Name a = md_Name b)
     && bool_decide (md_Symbol a = md_Symbol b)
  then
    if negb (length (md_DenomUnits a) =? length (md_DenomUnits b))%nat
    then Err (Error ErrOther "metadata provided has different denom units from stored")
    else if negb (forallb (fun ab => equal_unit ab.1 ab.2) (zip (md_DenomUnits a) (md_DenomUnits b)))
    then Err (Error ErrOther "metadata provided has different denom unit from stored")
    else Ok tt
  else Err (Error ErrOther "metadata provided is different from stored").

(** * Logs ([keeper/util.go]); a log without topics is indexed out of range *)

Section logs.
Context `{Keccak}.
Definition logTransferSigHash : Hash := Keccak256Hash (str_bytes "Transfer(address,address,uint256)").
Fixpoint transfer_logs (tokenAddress : Address) (found : bool) (logs : list Log) : res bool :=
  match logs with
  | [] => Ok found
  | log :: logs =>
      match lg_Topics log with
      | [] => Panic "index out of range"
      | topic :: _ =>
          if topic =? logTransferSigHash then
            if negb (lg_Address log =? tokenAddress)
            then Err (Error ErrUnexpectedEvent "Transfer event from unexpected address")
            else if found then Err (Error ErrUnexpectedEvent "duplicate Transfer event")
            else transfer_logs tokenAddress true logs
          else transfer_logs tokenAddress found logs
      end
  end.
Definition logApprovalSigHash : Hash := Keccak256Hash (str_bytes "Approval(address,address,uint256)").
Fixpoint validateApprovalEventDoesNotExist (logs : list Log) : res unit :=
  match logs with
  | [] => Ok tt
  | log :: logs =>
      match lg_Topics log with
      | [] => Panic "index out of range"
      | topic :: _ =>
          if topic =? logApprovalSigHash then Err (Error ErrUnexpectedEvent "unexpected Approval event")
          else validateApprovalEventDoesNotExist logs
      end
  end.
Definition validateTransferEventExists (logs : list Log) (tokenAddress : Address) : res unit :=
  match logs with
  | [] => Err (Error ErrExpectedEvent "expected Transfer event")
  | _ =>
      let? found := transfer_logs tokenAddress false logs in
      if negb found then Err (Error ErrExpectedEvent "expected Transfer event") else Ok tt
  end.
End logs.

(** [sdk.Coin]: [Add] panics on two denoms. *)
Definition coin_Add (a b : coin) : res coin :=
  if negb (bool_decide (c_denom a = c_denom b)) then Panic "invalid coin denominations"
  else let? n := int_add (c_amt a) (c_amt b) in Ok (Coin (c_denom a) n).
Definition coin_Equal (a b : coin) : bool := bool_decide (c_denom a = c_denom b) && (c_amt a =? c_amt b).

(** * Messages *)

Record MsgConvertERC20 := mkConvertERC20 {
  ce_ContractAddress : string; ce_Amount : Z; ce_Receiver : string; ce_Sender : string;
}.
Record MsgConvertCoin := mkConvertCoin { cc_Coin : coin; cc_Receiver : string; cc_Sender : string }.

Section keeper.
Context `{CoinsLib, AddressCodec, Keccak, EthHex, Tmhash, IbcHash, Erc20Env, Erc20Abi}.
(** the address of the module as an Ethereum address, and the text of the authority *)
Variable ModuleAddress : Address.
Variable authority : string.
Definition erc20_ModuleName : string := "erc20".

Definition MsgConvertERC20_ValidateBasic (msg : MsgConvertERC20) : res unit :=
  if negb (IsHexAddress (ce_ContractAddress msg)) then Err (Error ErrInvalidAddress "invalid contract hex address")
  else if negb (0 <? ce_Amount msg) then Err (Error ErrInvalidCoins "cannot mint a non-positive amount")
  else match acc_of_bech32 (ce_Receiver msg) with
       | None => Err (Error ErrOther "invalid receiver address")
       | Some _ =>
           if negb (IsHexAddress (ce_Sender msg)) then Err (Error ErrInvalidAddress "invalid sender hex address")
           else Ok tt
       end.
Definition MsgConvertCoin_ValidateBasic (msg : MsgConvertCoin) : res unit :=
  if bool_decide (c_denom (cc_Coin msg) = "") then Err (Error ErrInvalidCoins "denom cannot be empty")
  else if negb (0 <? c_amt (cc_Coin msg)) then Err (Error ErrInvalidCoins "cannot mint a non-positive amount")
  else match acc_of_bech32 (cc_Sender msg) with
       | None => Err (Error ErrOther "invalid sender address")
       | Some _ =>
           if negb (IsHexAddress (cc_Receiver msg)) then Err (Error ErrInvalidAddress "invalid receiver hex address")
           else Ok tt
       end.

Definition check_bech32 (text msg : string) : res unit :=
  match acc_of_bech32 text with None => Err (Error ErrOther msg) | Some _ => Ok tt end.
Definition MsgUpdateParams_ValidateBasic (auth : string) : res unit := check_bech32 auth "Invalid authority address".
Definition MsgToggleConversion_ValidateBasic (auth : string) : res unit := check_bech32 auth "Invalid authority address".
Definition MsgRegisterERC20_ValidateBasic (signer : string) (erc20Addresses : list string) : res unit :=
  do? check_bech32 signer "invalid signer address";
  each_res (fun a => if IsHexAddress a then Ok tt else Err (Error ErrInvalidAddress "invalid ERC20 contract address"))
    erc20Addresses.
Definition ValidateErc20Denom (denom : string) : res unit :=
  if is_prefix (str_bytes "erc20:") (str_bytes denom) then
    let trimmed := String.substring 6 (String.length denom - 6) denom in
    if bool_decide (trimmed = "") then Err (Error ErrOther "missing address after prefix")
    else ValidateAddress trimmed
  else Err (Error ErrOther "denomination should be prefixed").
(** Proposals; what x/gov checks of any content is [abstract]. *)
Definition RegisterERC20Proposal_ValidateBasic (erc20Addresses : list string) (abstract : res unit) : res unit :=
  do? each_res (fun a => ValidateAddress a) erc20Addresses;
  abstract.
Definition token_text_ok (token : string) : res unit :=
  match ValidateAddress token with
  | Ok _ => Ok tt
  | Panic m => Panic m
  | Err _ => if denom_ok token then Ok tt else Err (Error ErrOther "invalid denom")
  end.
Definition ToggleTokenConversionProposal_ValidateBasic (token : string) (abstract : res unit) : res unit :=
  do? token_text_ok token;
  abstract.
Definition RegisterCoinProposal_ValidateBasic : res unit := Err (Error ErrOther "deprecated").

(** Queries ([keeper/grpc_query.go]) *)
Definition erc20_Query_TokenPair (s : erc20_state) (token : string) : res TokenPair :=
  match token_text_ok token with
  | Err _ => Err (Error ErrOther "invalid format for token, should be either hex ('0x...') cosmos denom")
  | Panic m => Panic m
  | Ok _ =>
      match GetTokenPairID s token with
      | None | Some [] => Err (Error ErrOther "token pair not found")
      | Some id =>
          match GetTokenPair s (Some id) with
          | None => Err (Error ErrOther "token pair not found")
          | Some p => Ok p
          end
      end
  end.
Definition erc20_Query_Params (s : erc20_state) : Erc20Params := erc20_GetParams s.

Record e20_state := E20 { e_reg : erc20_state; e_x : X; e_events : list event }.
Definition on_reg {A} (m : M erc20_state A) : M e20_state A :=
  zoom e_reg (fun r s => E20 r (e_x s) (e_events s)) m.
Definition on_x {A} (m : M X A) : M e20_state A :=
  zoom e_x (fun x s => E20 (e_reg s) x (e_events s)) m.
Definition on_evm {A} (m : M (erc20_state * X) A) : M e20_state A :=
  zoom (fun s => (e_reg s, e_x s)) (fun x s => E20 x.1 x.2 (e_events s)) m.
Definition e20_emit (l : list event) : M e20_state unit :=
  modify (fun s => E20 (e_reg s) (e_x s) (e_events s ++ l)).

(** ** Calls of a token ([keeper/evm.go]) *)

(** nil when the call or its answer fails; a failed call leaves what it did. *)
Definition BalanceOf (contract account : Address) : M (erc20_state * X) (option Z) := fun x =>
  match CallEVM ModuleAddress contract false (pack_balanceOf account) x with
  | (Ok res, x') => (Ok (unpack_balance (r_Ret res)), x')
  | (Err _, x') => (Ok None, x')
  | (Panic m, x') => (Panic m, x')
  end.
Definition queryERC20String (contract : Address) (method : string) : M (erc20_state * X) string :=
  let! res := CallEVM ModuleAddress contract false (pack_getter method) in
  match unpack_string (r_Ret res) with
  | Some v => ret v
  | None =>
      if (length (r_Ret res) =? 32)%nat then ret (Bytes32ToString (r_Ret res))
      else fail ErrABIUnpack "failed to unpack as both string and raw bytes32"
  end.
Record ERC20Data := mkERC20Data { d_Name : string; d_Symbol : string; d_Decimals : Z }.
Definition QueryERC20 (contract : Address) : M (erc20_state * X) ERC20Data :=
  let! name := queryERC20String contract "name" in
  let! symbol := queryERC20String contract "symbol" in
  let! res := CallEVM ModuleAddress contract false (pack_getter "decimals") in
  match unpack_uint8 (r_Ret res) with
  | None => fail ErrABIUnpack "failed to unpack decimals"
  | Some d => ret (mkERC20Data name symbol d)
  end.

(** ** Registration ([keeper/proposals.go], [dynamic_precompiles.go]) *)

Definition CreateCoinMetadata (contract : Address) : M e20_state Metadata :=
  let strContract := Address_Hex contract in
  let! erc20Data := on_evm (QueryERC20 contract) in
  let! s := gets (fun s => s) in
  let base := CreateDenom strContract in
  match xb_GetDenomMetaData (e_x s) base with
  | Some _ => fail ErrInternalTokenPair "denom metadata already registered"
  | None =>
      if IsDenomRegistered (e_reg s) base
      then fail ErrInternalTokenPair "coin denomination already registered"
      else
        let nameSanitized := SanitizeERC20Name (d_Name erc20Data) in
        let metadata :=
          if 0 <? d_Decimals erc20Data
          then mkMetadata (CreateDenomDescription strContract) base
                 [mkUnit base 0 []; mkUnit nameSanitized (d_Decimals erc20Data) []] base (d_Symbol erc20Data) nameSanitized
          else mkMetadata (CreateDenomDescription strContract) base [mkUnit base 0 []] base (d_Symbol erc20Data) base in
        do! wrapping "ERC20 token data is invalid" (lift (metadata_Validate metadata));
        do! on_x (modify (xb_SetDenomMetaData metadata));
        ret metadata
  end.

Definition registerERC20 (contract : Address) : M e20_state TokenPair :=
  let! s := gets (fun s => s) in
  if IsERC20Registered (e_reg s) contract
  then fail ErrTokenPairAlreadyExists "token ERC20 contract already registered"
  else
    let! metadata := wrapping "failed to create wrapped coin denom metadata for ERC20" (CreateCoinMetadata contract) in
    let p := NewTokenPair contract (md_Name metadata) OWNER_EXTERNAL in
    do! on_reg (SetToken p);
    ret p.

Definition CreateNewTokenPair (denom : string) : M e20_state TokenPair :=
  let! p := lift (NewTokenPairSTRv2 denom) in
  let! s := gets (fun s => s) in
  match xe_GetAccount (e_x s) (GetERC20Contract p) with
  | inl m => panic m
  | inr account =>
      if match account with Some a => IsContract a | None => false end
      then fail ErrTokenPairAlreadyExists "token already exists for token"
      else do! on_reg (SetToken p); ret p
  end.

(** Nonce and balance of an account are kept. *)
Definition set_code_hash (erc20Addr : Address) (h : Hash) : M e20_state unit :=
  let! s := gets (fun s => s) in
  match xe_GetAccount (e_x s) erc20Addr with
  | inl m => panic m
  | inr account =>
      let '(nonce, balance) := match account with Some a => (Nonce a, Balance a) | None => (0, Some 0) end in
      on_x (xe_SetAccount erc20Addr (mkAccount nonce balance (Some h)))
  end.
Definition RegisterERC20CodeHash (erc20Addr : Address) : M e20_state unit :=
  let codeHash := Keccak256Hash Erc20Bytecode in
  let! s := gets (fun s => s) in
  do! (match xe_GetCode (e_x s) codeHash with
       | None | Some [] => on_x (modify (xe_SetCode codeHash Erc20Bytecode))
       | _ => ret tt
       end);
  set_code_hash erc20Addr codeHash.
Definition UnRegisterERC20CodeHash (erc20Addr : Address) : M e20_state unit :=
  set_code_hash erc20Addr EmptyCodeHash.

Inductive PrecompileType := PrecompileTypeNative | PrecompileTypeDynamic.
Definition RegisterCodeHash (addr : Address) (pType : PrecompileType) : M e20_state unit :=
  let! s := gets (fun s => s) in
  let shouldRegister := match pType with
    | PrecompileTypeNative => negb (IsNativePrecompileAvailable (e_reg s) addr)
    | PrecompileTypeDynamic => negb (IsDynamicPrecompileAvailable (e_reg s) addr)
    end in
  if shouldRegister then RegisterERC20CodeHash addr else ret tt.
Definition EnableNativePrecompile (addr : Address) : M e20_state unit :=
  do! RegisterCodeHash addr PrecompileTypeNative;
  on_reg (modify (SetNativePrecompile addr)).
Definition EnableDynamicPrecompile (addr : Address) : M e20_state unit :=
  do! RegisterCodeHash addr PrecompileTypeDynamic;
  on_reg (modify (SetDynamicPrecompile addr)).
Definition RegisterERC20Extension (denom : string) : M e20_state TokenPair :=
  let! p := CreateNewTokenPair denom in
  do! EnableDynamicPrecompile (GetERC20Contract p);
  ret p.

(** ** Conversion ([keeper/mint.go], [msg_server.go]) *)

Definition MintingEnabled (s : e20_state) (sender receiver : addr) (token : string) : res TokenPair :=
  if negb (IsERC20Enabled (e_reg s)) then Err (Error ErrERC20Disabled "module is currently disabled by governance")
  else match GetTokenPairID (e_reg s) token with
  | None | Some [] => Err (Error ErrTokenPairNotFound "token not registered by id")
  | Some id =>
      match GetTokenPair (e_reg s) (Some id) with
      | None => Err (Error ErrTokenPairNotFound "token not registered")
      | Some p =>
          if negb (Enabled p) then Err (Error ErrERC20TokenPairDisabled "minting token is not enabled by governance")
          else if xb_BlockedAddr receiver
          then Err (Error ErrUnauthorized "receiver is not allowed to receive transactions")
          else if negb (bool_decide (sender = receiver)) && negb (xb_IsSendEnabled (e_x s) (tp_Denom p))
          then Err (Error ErrSendDisabled "minting coins to an external address is currently disabled")
          else Ok p
      end
  end.

(** What a transfer call answered: true, or no data and one Transfer log. *)
Definition check_transfer (r : MsgEthereumTxResponse) (contract : Address) (msg : string) : res unit :=
  match r_Ret r with
  | [] => validateTransferEventExists (r_Logs r) contract
  | _ =>
      match unpack_bool (r_Ret r) with
      | None => Err (Error ErrOther "unpack")
      | Some false => Err (Error ErrLogic msg)
      | Some true => Ok tt
      end
  end.

Definition need_balance {S} (b : option Z) : M S Z :=
  match b with None => fail ErrEVMCall "failed to retrieve balance" | Some b => ret b end.

Definition convertERC20IntoCoinsForNativeToken (p : TokenPair) (msg : MsgConvertERC20) (receiver : addr)
    (sender : Address) : M e20_state unit :=
  let contract := GetERC20Contract p in
  let! s := gets (fun s => s) in
  let! balanceCoin := lift (xb_GetBalance (e_x s) receiver (tp_Denom p)) in
  let! b := on_evm (BalanceOf contract ModuleAddress) in
  let! balanceToken := need_balance b in
  let! transferData := lift (pack_transfer ModuleAddress (ce_Amount msg)) in
  let! res := on_evm (xe_CallEVMWithData sender (Some contract) transferData true) in
  do! lift (check_transfer res contract "failed to execute transfer");
  let cs := [Coin (tp_Denom p) (ce_Amount msg)] in
  let! b := on_evm (BalanceOf contract ModuleAddress) in
  let! balanceTokenAfter := need_balance b in
  if negb (balanceTokenAfter =? balanceToken + ce_Amount msg)
  then fail ErrBalanceInvariance "invalid token balance"
  else
    do! on_x (xb_MintCoins erc20_ModuleName cs);
    do! on_x (xb_SendCoinsFromModuleToAccount erc20_ModuleName receiver cs);
    let! s := gets (fun s => s) in
    let! balanceCoinAfter := lift (xb_GetBalance (e_x s) receiver (tp_Denom p)) in
    let! expCoin := lift (coin_Add balanceCoin (Coin (tp_Denom p) (ce_Amount msg))) in
    if negb (coin_Equal balanceCoinAfter expCoin) then fail ErrBalanceInvariance "invalid coin balance"
    else e20_emit [Event "convert_erc20" [("sender", AStr (ce_Sender msg)); ("receiver", AStr (ce_Receiver msg));
      ("amount", AInt (ce_Amount msg)); ("cosmos_coin", AStr (tp_Denom p));
      ("erc20_token", AStr (ce_ContractAddress msg))]].

(** Whether the contract of a pair is gone. *)
Definition selfdestructed (s : e20_state) (p : TokenPair) : bool :=
  match xe_GetAccountWithoutBalance (e_x s) (GetERC20Contract p) with
  | None => true
  | Some acc => negb (IsContract acc)
  end.

Definition ConvertERC20 (msg : MsgConvertERC20) : M e20_state unit :=
  match acc_of_bech32 (ce_Receiver msg) with
  | None => panic "decoding bech32 failed"
  | Some receiver =>
      let sender := HexToAddress (ce_Sender msg) in
      let! s := gets (fun s => s) in
      let! p := lift (MintingEnabled s (address_bytes sender) receiver (ce_ContractAddress msg)) in
      if IsNativeERC20 p then
        if selfdestructed s p then on_reg (modify (DeleteTokenPair p))
        else convertERC20IntoCoinsForNativeToken p msg receiver sender
      else if IsNativeCoin p then fail ErrNativeConversionDisabled ""
      else fail ErrUndefinedOwner ""
  end.

(** [amount]: nil when it was parsed from an invalid text. *)
Definition ConvertCoinNativeERC20 (p : TokenPair) (amount : option Z) (receiver : Address) (sender : addr)
    : M e20_state unit :=
  match amount with
  | None => panic "nil pointer dereference"
  | Some amount =>
      if negb (0 <? amount) then fail ErrNegativeToken "converted coin amount must be positive"
      else
        let contract := GetERC20Contract p in
        let! b := on_evm (BalanceOf contract receiver) in
        let! balanceToken := need_balance b in
        let cs := [Coin (tp_Denom p) amount] in
        do! wrapping "failed to escrow coins"
              (on_x (xb_SendCoinsFromAccountToModule sender erc20_ModuleName cs));
        let! res := on_evm (CallEVM ModuleAddress contract true (pack_transfer receiver amount)) in
        do! lift (check_transfer res contract "failed to execute unescrow tokens from user");
        let! b := on_evm (BalanceOf contract receiver) in
        let! balanceTokenAfter := need_balance b in
        if negb (balanceTokenAfter =? balanceToken + amount)
        then fail ErrBalanceInvariance "invalid token balance"
        else wrapping "failed to burn coins" (on_x (xb_BurnCoins erc20_ModuleName cs))
  end.

Definition ConvertCoin (msg : MsgConvertCoin) : M e20_state unit :=
  match acc_of_bech32 (cc_Sender msg) with
  | None => panic "decoding bech32 failed"
  | Some sender =>
      let receiver := HexToAddress (cc_Receiver msg) in
      let! s := gets (fun s => s) in
      let! p := lift (MintingEnabled s sender (address_bytes receiver) (c_denom (cc_Coin msg))) in
      if IsNativeERC20 p then
        if selfdestructed s p then on_reg (modify (DeleteTokenPair p))
        else ConvertCoinNativeERC20 p (Some (c_amt (cc_Coin msg))) receiver sender
      else if IsNativeCoin p then fail ErrNativeConversionDisabled ""
      else fail ErrUndefinedOwner ""
  end.

(** ** Governance and registration messages *)

Definition validateAuthority (auth : string) : res unit :=
  match acc_of_bech32 auth with
  | None => Err (Error ErrInvalidAddress "invalid authority address")
  | Some _ =>
      if negb (bool_decide (authority = auth)) then Err (Error ErrInvalidSigner "invalid authority") else Ok tt
  end.
Definition erc20_UpdateParams (auth : string) (params : Erc20Params) : M e20_state unit :=
  if negb (bool_decide (authority = auth)) then fail ErrInvalidSigner "invalid authority"
  else on_reg (modify (erc20_SetParams params)).
Definition RegisterERC20 (signer : string) (erc20Addresses : list string) : M e20_state unit :=
  let! s := gets (fun s => s) in
  do! lift (if PermissionlessRegistration (erc20_GetParams (e_reg s)) then Ok tt else validateAuthority signer);
  if negb (IsERC20Enabled (e_reg s)) then fail ErrERC20Disabled "registration is currently disabled by governance"
  else
    each (fun addr =>
      if negb (IsHexAddress addr) then fail ErrInvalidAddress "invalid ERC20 contract address"
      else
        let! p := registerERC20 (HexToAddress addr) in
        e20_emit [Event "register_erc20" [("cosmos_coin", AStr (tp_Denom p)); ("erc20_token", AStr (Erc20Address p))]])
      erc20Addresses.
Definition ToggleConversion (auth token : string) : M e20_state unit :=
  let! s := gets (fun s => s) in
  if negb (IsERC20Enabled (e_reg s)) then fail ErrERC20Disabled "toggle conversion is currently disabled by governance"
  else
    do! lift (validateAuthority auth);
    let! p := on_reg (toggleConversion token) in
    e20_emit [Event "toggle_token_conversion"
      [("cosmos_coin", AStr (tp_Denom p)); ("erc20_token", AStr (Erc20Address p))]].

(** ** Genesis ([genesis.go]); an error of [SetToken] ends it without a word *)

Fixpoint set_tokens (pairs : list TokenPair) : M e20_state bool :=
  match pairs with
  | [] => ret true
  | p :: pairs =>
      let! r := try (on_reg (SetToken p)) in
      match r with inl _ => set_tokens pairs | inr _ => ret false end
  end.
Definition or_panic {A} (m : M e20_state A) : M e20_state A := fun s =>
  match m s with (Err e, s') => (Panic (e_msg e), s') | r => r end.
Variable module_account_set : bool.
Definition erc20_InitGenesis (data : Erc20Genesis) : M e20_state unit :=
  do! on_reg (modify (erc20_SetParams (eg_Params data)));
  if negb module_account_set then panic "the erc20 module account has not been set"
  else
    let! go := set_tokens (eg_TokenPairs data) in
    if negb go then ret tt
    else
      do! each (fun a => or_panic (EnableNativePrecompile (HexToAddress a))) (eg_NativePrecompiles data);
      do! each (fun a => or_panic (EnableDynamicPrecompile (HexToAddress a))) (eg_DynamicPrecompiles data);
      each (fun a => or_panic (on_reg (UnsafeSetAllowance (HexToAddress (al_Erc20 a)) (HexToAddress (al_Owner a))
        (HexToAddress (al_Spender a)) (Some (al_Value a))))) (eg_Allowances data).
Definition erc20_ExportGenesis (s : erc20_state) : Erc20Genesis :=
  mkErc20Genesis (erc20_GetParams s) (GetTokenPairs s) (GetAllowances s)
    (map bytes_str (GetNativePrecompiles s)) (map bytes_str (GetDynamicPrecompiles s)).
End keeper.
