(* ===== verification/Erc20Ibc.v ===== *)
(** x/erc20 and ICS-20 transfers: what the middleware does when coins arrive, when
    a transfer is acknowledged and when it times out, in both versions of IBC, and
    the transfer message that converts tokens first
    ([x/erc20/keeper/ibc_callbacks.go], [x/erc20/ibc_middleware.go],
    [x/erc20/v2/ibc_middleware.go], [x/ibc/transfer/keeper/msg_server.go],
    [ibc/utils.go], [utils/utils.go]). *)
From Stdlib Require Import Ascii.
From S2P Require Import Prelude KVStore Sdk StateDB VmKeeper TxData StateTransition Erc20 Erc20Keeper.

(** * ibc-go *)

(** [transfertypes.Denom]: the path a coin took, and its name where it comes from. *)
Record IbcDenom := mkDenom { dn_Base : string; dn_Trace : list (string * string) }.
(** [channeltypes.Packet] *)
Record Packet := mkPacket {
  pk_SourcePort : string; pk_SourceChannel : string; pk_DestinationPort : string; pk_DestinationChannel : string;
  pk_Data : bytes;
}.
Record FungibleTokenPacketData := mkTokenData {
  fd_Denom : string; fd_Amount : string; fd_Sender : string; fd_Receiver : string;
}.
Class Ics20 := {
  decode_data : bytes -> option FungibleTokenPacketData;    (** JSON *)
  ExtractDenomFromPath : string -> IbcDenom;
  denom_HasPrefix : IbcDenom -> string -> string -> bool;
  IBCDenom : IbcDenom -> string;                            (** the base, or the hash of the path *)
  int_of_string : string -> option Z;                       (** [math.NewIntFromString] *)
  GetFromBech32 : string -> string -> option bytes;         (** the text, the prefix it must have *)
  VerifyAddressFormat : bytes -> bool;
}.

(** * Addresses of other chains ([utils.GetAccAddressFromBech32]) *)

(** [strings.SplitN(address, "1", 2)[0]] *)
Fixpoint before_one (s : string) : string :=
  match s with
  | "" => ""
  | String c s => if Ascii.eqb c "1"%char then "" else String c (before_one s)
  end.
Definition GetAccAddressFromBech32 `{Ics20} (address : string) : res addr :=
  let bech32Prefix := before_one address in
  if bool_decide (bech32Prefix = address) then Err (Error ErrInvalidAddress "invalid bech32 address")
  else match GetFromBech32 address bech32Prefix with
  | None => Err (Error ErrInvalidAddress "invalid address")
  | Some addressBz =>
      if VerifyAddressFormat addressBz then Ok addressBz else Err (Error ErrOther "address format")
  end.

Section ibc.
Context `{Ics20}.

(** The amount is nil when its text is not a number. *)
Definition GetReceivedCoin (packet : Packet) (denom : IbcDenom) (amount : string) : res (string * option Z) :=
  if denom_HasPrefix denom (pk_SourcePort packet) (pk_SourceChannel packet)
  then match dn_Trace denom with
       | [] => Panic "slice bounds out of range"
       | _ :: trace => Ok (IBCDenom (mkDenom (dn_Base denom) trace), int_of_string amount)
       end
  else Ok (IBCDenom (mkDenom (dn_Base denom)
         ((pk_DestinationPort packet, pk_DestinationChannel packet) :: dn_Trace denom)), int_of_string amount).
Definition GetSentCoin (rawDenom rawAmt : string) : string * option Z :=
  (IBCDenom (ExtractDenomFromPath rawDenom), int_of_string rawAmt).
Definition GetTransferSenderRecipient (data : FungibleTokenPacketData) : res (addr * addr) :=
  match GetAccAddressFromBech32 (fd_Sender data) with
  | Err e => Err (Error (e_kind e) ("invalid sender: " ++ e_msg e))
  | Panic m => Panic m
  | Ok sender =>
      match GetAccAddressFromBech32 (fd_Receiver data) with
      | Err e => Err (Error (e_kind e) ("invalid recipient: " ++ e_msg e))
      | Panic m => Panic m
      | Ok recipient => Ok (sender, recipient)
      end
  end.
Definition GetTransferAmount (packet : Packet) : res string :=
  match decode_data (pk_Data packet) with
  | None => Err (Error ErrUnknownRequest "cannot unmarshal ICS-20 transfer packet data")
  | Some data =>
      if bool_decide (fd_Amount data = "") then Err (Error ErrInvalidCoins "empty amount")
      else match int_of_string (fd_Amount data) with
           | None => Err (Error ErrInvalidCoins "invalid amount")
           | Some _ => Ok (fd_Amount data)
           end
  end.
(** [ibc.GetDenom] over the denoms the transfer keeper stores *)
Definition GetDenom `{IbcHash} (stored : bytes -> option IbcDenom) (voucherDenom : string) : res IbcDenom :=
  if negb (is_prefix (str_bytes "ibc/") (str_bytes voucherDenom)) then Err (Error ErrNoIBCVoucherDenom "denom is not an IBC voucher")
  else match ParseHexHash (String.substring 4 (String.length voucherDenom - 4) voucherDenom) with
  | None => Err (Error ErrOther "hash")
  | Some hash => match stored hash with None => Err (Error ErrDenomNotFound "denom not found") | Some d => Ok d end
  end.
Definition DeriveDecimalsFromDenom (baseDenom : string) : res Z :=
  match baseDenom with
  | "" => Err (Error ErrInvalidBaseDenom "Base denom cannot be an empty string")
  | String "u"%char _ => Ok 6
  | String "a"%char _ => Ok 18
  | _ => Err (Error ErrInvalidBaseDenom "Should be either micro ('u[...]') or atto ('a[...]')")
  end.

Context `{CoinsLib, AddressCodec, Keccak, EthHex, Tmhash, IbcHash, Erc20Env, Erc20Abi}.
Variable ModuleAddress : Address.

(** An acknowledgement: [None] is the one that was given, an error is an error
    acknowledgement. *)
Abbreviation ack := (option error).
Definition as_ack {A} (m : M e20_state A) (k : A -> M e20_state ack) : M e20_state ack :=
  let! r := try m in
  match r with inl a => k a | inr e => ret (Some e) end.

Definition OnRecvPacket (packet : Packet) : M e20_state ack :=
  let! s := gets (fun s => s) in
  if negb (IsERC20Enabled (e_reg s)) then ret None
  else match decode_data (pk_Data packet) with
  | None => ret (Some (Error ErrInvalidType "cannot unmarshal ICS-20 transfer packet data"))
  | Some data =>
      as_ack (lift (GetTransferSenderRecipient data)) (fun sr =>
      if xa_IsModuleAccount (e_x s) sr.2 then ret None
      else
        let! coin := lift (GetReceivedCoin packet (ExtractDenomFromPath (fd_Denom data)) (fd_Amount data)) in
        let '(denom, amount) := coin in
        if is_prefix (str_bytes "factory/") (str_bytes (fd_Denom data)) then ret None
        else
          as_ack (lift (xs_BondDenom (e_x s))) (fun bondDenom =>
          if bool_decide (denom = bondDenom) then ret None
          else
            match GetTokenPair (e_reg s) (GetTokenPairID (e_reg s) denom) with
            | None =>
                if is_prefix (str_bytes "ibc/") (str_bytes denom) then
                  as_ack (RegisterERC20Extension denom) (fun tokenPair =>
                  do! e20_emit [Event "register_erc20_extension"
                    [("source_channel", AStr (pk_SourceChannel packet));
                     ("erc20_token", AStr (Erc20Address tokenPair)); ("cosmos_coin", AStr (tp_Denom tokenPair))]];
                  ret None)
                else ret None
            | Some p =>
                if IsNativeERC20 p then
                  if negb (Enabled p) then ret None
                  else
                    match MintingEnabled s sr.1 sr.2 denom with
                    | Panic m => panic m
                    | Err e =>
                        do! e20_emit [Event "erc20_callback_failure"
                          [("convert_coin", AStr "mint_failure"); ("cosmos_coin", AStr denom); ("receiver", AAddr sr.2)]];
                        ret (Some e)
                    | Ok p =>
                        as_ack (ConvertCoinNativeERC20 ModuleAddress p amount (BytesToAddress sr.2) sr.2)
                          (fun _ => ret None)
                    end
                else ret None
            end))
  end.

Definition ConvertCoinToERC20FromPacket (data : FungibleTokenPacketData) : M e20_state unit :=
  match acc_of_bech32 (fd_Sender data) with
  | None => fail ErrInvalidAddress "decoding bech32 failed"
  | Some sender =>
      let! s := gets (fun s => s) in
      match GetTokenPair (e_reg s) (GetTokenPairID (e_reg s) (fd_Denom data)) with
      | None => ret tt
      | Some p =>
          let '(denom, amount) := GetSentCoin (fd_Denom data) (fd_Amount data) in
          if IsNativeCoin p then ret tt
          else if IsNativeERC20 p then
            if negb (EnableErc20 (erc20_GetParams (e_reg s))) || negb (IsDenomRegistered (e_reg s) denom) then ret tt
            else if xa_IsModuleAccount (e_x s) sender then ret tt
            else
              let! r := try (ConvertCoinNativeERC20 ModuleAddress p amount (BytesToAddress sender) sender) in
              match r with
              | inl _ => ret tt
              | inr e => e20_emit [Event "failed_convert_erc20"
                  [("source_channel", AStr (tp_Denom p)); ("erc20_token", AStr (Erc20Address p));
                   ("error", AStr (e_msg e))]]
              end
          else ret tt
      end
  end.

(** [true]: the acknowledgement is an error. *)
Definition OnAcknowledgementPacket (data : FungibleTokenPacketData) (is_error : bool) : M e20_state unit :=
  if is_error then ConvertCoinToERC20FromPacket data else ret tt.
Definition OnTimeoutPacket (data : FungibleTokenPacketData) : M e20_state unit := ConvertCoinToERC20FromPacket data.

(** * The middleware ([ibc_middleware.go]), over the callbacks of the transfer
    application *)

Section middleware.
Variable app_OnRecvPacket : Packet -> M e20_state ack.
Variable app_OnAcknowledgementPacket : Packet -> bytes -> M e20_state unit.
Variable app_OnTimeoutPacket : Packet -> M e20_state unit.
(** JSON of an acknowledgement: whether it is an error. *)
Variable decode_ack : bytes -> option bool.

Definition IBCMiddleware_OnRecvPacket (packet : Packet) : M e20_state ack :=
  let! a := app_OnRecvPacket packet in
  match a with Some e => ret (Some e) | None => OnRecvPacket packet end.
Definition IBCMiddleware_OnAcknowledgementPacket (packet : Packet) (acknowledgement : bytes) : M e20_state unit :=
  match decode_ack acknowledgement with
  | None => fail ErrUnknownRequest "cannot unmarshal ICS-20 transfer packet acknowledgement"
  | Some is_error =>
      match decode_data (pk_Data packet) with
      | None => fail ErrUnknownRequest "cannot unmarshal ICS-20 transfer packet data"
      | Some data =>
          do! app_OnAcknowledgementPacket packet acknowledgement;
          OnAcknowledgementPacket data is_error
      end
  end.
Definition IBCMiddleware_OnTimeoutPacket (packet : Packet) : M e20_state unit :=
  match decode_data (pk_Data packet) with
  | None => fail ErrUnknownRequest "cannot unmarshal ICS-20 transfer packet data"
  | Some data =>
      do! app_OnTimeoutPacket packet;
      OnTimeoutPacket data
  end.
End middleware.

(** * The middleware of IBC v2 ([v2/ibc_middleware.go]) *)

Record Payload := mkPayload {
  pl_SourcePort : string; pl_DestinationPort : string; pl_Version : string; pl_Encoding : string; pl_Value : bytes;
}.
Record RecvPacketResult := mkRecv { rp_Failure : bool; rp_Acknowledgement : bytes }.
(** [transfertypes.InternalTransferRepresentation] *)
Record Representation := mkRepresentation {
  tr_Denom : IbcDenom; tr_Amount : string; tr_Sender : string; tr_Receiver : string;
}.

Section middleware_v2.
Variable UnmarshalPacketData : bytes -> string -> string -> res Representation.
Variable denom_Path : IbcDenom -> string.
Variable json_Marshal : FungibleTokenPacketData -> res bytes.
Variable app_OnRecvPacket : string -> string -> Z -> Payload -> M e20_state RecvPacketResult.
Variable app_OnAcknowledgementPacket : string -> string -> Z -> bytes -> Payload -> M e20_state unit.
Variable app_OnTimeoutPacket : string -> string -> Z -> Payload -> M e20_state unit.
Variable decode_ack : bytes -> option bool.
Variable ErrorAcknowledgement : bytes.

Definition v2ToV1Packet (payload : Payload) (sourceClient destinationClient : string) : res Packet :=
  let? rep := UnmarshalPacketData (pl_Value payload) (pl_Version payload) (pl_Encoding payload) in
  let? bz := json_Marshal (mkTokenData (denom_Path (tr_Denom rep)) (tr_Amount rep) (tr_Sender rep) (tr_Receiver rep)) in
  Ok (mkPacket (pl_SourcePort payload) sourceClient (pl_DestinationPort payload) destinationClient bz).

(** The acknowledgement of the keeper is dropped. *)
Definition v2_OnRecvPacket (sourceClient destinationClient : string) (sequence : Z) (payload : Payload)
    : M e20_state RecvPacketResult :=
  let! recvResult := app_OnRecvPacket sourceClient destinationClient sequence payload in
  if rp_Failure recvResult then ret recvResult
  else match v2ToV1Packet payload sourceClient destinationClient with
  | Panic m => panic m
  | Err _ => ret (mkRecv true [])
  | Ok packet =>
      match decode_ack (rp_Acknowledgement recvResult) with
      | None => ret (mkRecv true [])
      | Some _ =>
          do! OnRecvPacket packet;
          ret recvResult
      end
  end.
Definition v2_OnAcknowledgementPacket (sourceClient destinationClient : string) (sequence : Z)
    (acknowledgement : bytes) (payload : Payload) : M e20_state unit :=
  do! app_OnAcknowledgementPacket sourceClient destinationClient sequence acknowledgement payload;
  let! packet := lift (v2ToV1Packet payload sourceClient destinationClient) in
  match decode_data (pk_Data packet) with
  | None => fail ErrOther "failed to unmarshal packet data"
  | Some data =>
      if bool_decide (acknowledgement = ErrorAcknowledgement) then OnAcknowledgementPacket data true
      else match decode_ack acknowledgement with
           | None => fail ErrOther "failed to unmarshal acknowledgement"
           | Some is_error => OnAcknowledgementPacket data is_error
           end
  end.
Definition v2_OnTimeoutPacket (sourceClient destinationClient : string) (sequence : Z) (payload : Payload)
    : M e20_state unit :=
  let! packet := lift (v2ToV1Packet payload sourceClient destinationClient) in
  match decode_data (pk_Data packet) with
  | None => fail ErrOther "failed to unmarshal packet data"
  | Some data =>
      do! app_OnTimeoutPacket sourceClient destinationClient sequence payload;
      OnTimeoutPacket data
  end.
End middleware_v2.

(** * Sending ([x/ibc/transfer/keeper/msg_server.go]) *)

Record MsgTransfer := mkMsgTransfer {
  mt_SourcePort : string; mt_SourceChannel : string; mt_Token : coin; mt_Sender : string; mt_Receiver : string;
  mt_TimeoutTimestamp : Z; mt_Memo : string;
}.
Definition with_token (c : coin) (msg : MsgTransfer) : MsgTransfer :=
  mkMsgTransfer (mt_SourcePort msg) (mt_SourceChannel msg) c (mt_Sender msg) (mt_Receiver msg)
    (mt_TimeoutTimestamp msg) (mt_Memo msg).

Section transfer.
(** [bankKeeper.SpendableCoin], and the transfer of ibc-go with the sequence it answers *)
Variable SpendableCoin : X -> addr -> string -> coin.
Variable ibc_Transfer : MsgTransfer -> M e20_state Z.

Definition Erc20NativeCoinDenomPrefix : string := "erc20:".
Definition trim_erc20 (denom : string) : string :=
  if is_prefix (str_bytes Erc20NativeCoinDenomPrefix) (str_bytes denom)
  then String.substring 6 (String.length denom - 6) denom else denom.
Definition NewMsgConvertERC20 (amount : Z) (receiver : addr) (contract sender : Address) : MsgConvertERC20 :=
  mkConvertERC20 (Address_Hex contract) amount (bech32_of receiver) (Address_Hex sender).

Definition Transfer (msg : MsgTransfer) : M e20_state Z :=
  let denom := trim_erc20 (c_denom (mt_Token msg)) in
  let! s := gets (fun s => s) in
  match GetTokenPairID (e_reg s) denom with
  | None | Some [] => ibc_Transfer msg
  | Some pairID =>
      match GetTokenPair (e_reg s) (Some pairID) with
      | None => ibc_Transfer msg              (* the pair without any field set is not enabled *)
      | Some p =>
          if negb (Enabled p) then ibc_Transfer msg
          else match acc_of_bech32 (mt_Sender msg) with
          | None => panic "decoding bech32 failed"
          | Some sender =>
              if negb (IsERC20Enabled (e_reg s)) then ibc_Transfer msg
              else
                let msg := with_token (Coin (tp_Denom p) (c_amt (mt_Token msg))) msg in
                if negb (IsNativeERC20 p) then ibc_Transfer msg
                else
                  let balance := SpendableCoin (e_x s) sender (tp_Denom p) in
                  if c_amt (mt_Token msg) <=? c_amt balance then ibc_Transfer msg
                  else
                    let! difference := lift (int_sub (c_amt (mt_Token msg)) (c_amt balance)) in
                    do! ConvertERC20 ModuleAddress
                          (NewMsgConvertERC20 difference sender (GetERC20Contract p) (BytesToAddress sender));
                    ibc_Transfer msg
          end
      end
  end.
End transfer.
End ibc.
