(* ===== verification/Erc20Thms.v ===== *)
(** What the handlers of x/erc20 do to the registry: every message, callback and
    failed run moves it along its transition system, so it stays consistent, and
    the two directions of the registry are inverse. *)
From S2P Require Import Prelude KVStore Sdk StateDB StateDBInv StateDBType VmKeeper VmKeeperThms TxData StateTransition Erc20 Erc20Reg Erc20Keeper Erc20Ibc.

#[local] Arguments address_bytes : simpl never.

Create HintDb erc20_moves.

Section moves.
Context `{CoinsLib, AddressCodec, Keccak, EthHex, !EthHexLaws, Tmhash, !TmhashLaws, IbcHash, Erc20Env, Erc20Abi}.

(** A call of the EVM reaches the registry through the operations of the module. *)
Class Erc20CallLaws := {
  call_registry : forall from to data commit r x a r' x',
    xe_CallEVMWithData from to data commit (r, x) = (a, (r', x')) -> rtc reg_step r r';
}.
Context `{!Erc20CallLaws}.
Variable ModuleAddress : Address.
Variable authority : string.

(** * Runs that move the registry along its steps *)

Definition moves {A} (s : e20_state) (m : M e20_state A) : Prop :=
  forall r s', m s = (r, s') -> rtc reg_step (e_reg s) (e_reg s').

Lemma moves_pure {A} s (m : M e20_state A) : (m s).2 = s -> moves s m.
Proof. intros E r s' Hr. rewrite Hr in E. by rewrite <- E. Qed.
Lemma moves_reg {A} s (m : M e20_state A) : e_reg (m s).2 = e_reg s -> moves s m.
Proof. intros E r s' Hr. rewrite Hr in E. simpl in E. by rewrite E. Qed.
Lemma moves_bind {A B} s (m : M e20_state A) (f : A -> M e20_state B) :
  moves s m -> (forall a s', m s = (Ok a, s') -> moves s' (f a)) -> moves s (bind m f).
Proof.
  intros Hm Hf r s' Hr. unfold bind in Hr. destruct (m s) as [[a|e|p] s1] eqn:E; [|injection Hr as <- <-; by eapply Hm..].
  etrans; [by eapply Hm|]. by eapply Hf.
Qed.
Lemma moves_lift {A B} s (r : res A) (f : A -> M e20_state B) :
  (forall a, r = Ok a -> moves s (f a)) -> moves s (bind (lift r) f).
Proof. intros Hf. apply moves_bind; [by apply moves_pure|]. unfold lift. intros a s' [= -> <-]. by apply Hf. Qed.
Lemma moves_only_lift {A} s (r : res A) : moves s (lift r).
Proof. by apply moves_pure. Qed.
Lemma moves_on_x {A} s (m : M X A) : moves s (on_x m).
Proof. apply moves_reg. unfold on_x, zoom. by destruct (m (e_x s)). Qed.
Lemma moves_emit s l : moves s (e20_emit l).
Proof. by apply moves_reg. Qed.
Lemma moves_on_reg {A} s (m : M erc20_state A) :
  (forall r g, m (e_reg s) = (r, g) -> rtc reg_step (e_reg s) g) -> moves s (on_reg m).
Proof. intros Hm r s' Hr. unfold on_reg, zoom in Hr. destruct (m (e_reg s)) as [a g] eqn:E. injection Hr as <- <-. by eapply Hm. Qed.
Lemma moves_try {A} s (m : M e20_state A) : moves s m -> moves s (try m).
Proof. intros Hm r s' Hr. unfold try in Hr. destruct (m s) as [[]] eqn:E; injection Hr as <- <-; by eapply Hm. Qed.
Lemma moves_wrapping {A} s t (m : M e20_state A) : moves s m -> moves s (wrapping t m).
Proof. intros Hm r s' Hr. unfold wrapping in Hr. destruct (m s) as [[]] eqn:E; injection Hr as <- <-; by eapply Hm. Qed.
Lemma moves_or_panic {A} s (m : M e20_state A) : moves s m -> moves s (or_panic m).
Proof. intros Hm r s' Hr. unfold or_panic in Hr. destruct (m s) as [[]] eqn:E; injection Hr as <- <-; by eapply Hm. Qed.
Lemma moves_each {A} (f : A -> M e20_state unit) l : (forall s a, a ∈ l -> moves s (f a)) -> forall s, moves s (each f l).
Proof.
  induction l as [|a l IH]; intros Hf s; [by apply moves_pure|]. apply moves_bind; [apply Hf; by left|].
  intros _ s' _. apply IH. intros s1 b Hb. apply Hf. by right.
Qed.

(** The calls: whatever the contract answers. *)
Definition evm_moves {A} (m : M (erc20_state * X) A) : Prop :=
  forall g x r g' x', m (g, x) = (r, (g', x')) -> rtc reg_step g g'.
Lemma moves_on_evm {A} s (m : M (erc20_state * X) A) : evm_moves m -> moves s (on_evm m).
Proof.
  intros Hm r s' Hr. unfold on_evm, zoom in Hr. destruct (m (e_reg s, e_x s)) as [a [g x]] eqn:E.
  injection Hr as <- <-. by eapply Hm.
Qed.
Lemma evm_moves_data from to data commit : evm_moves (xe_CallEVMWithData from to data commit).
Proof. intros g x r g' x'. apply call_registry. Qed.
Lemma evm_moves_call from contract commit data : evm_moves (CallEVM from contract commit data).
Proof.
  intros g x r g' x' Hr. unfold CallEVM in Hr. destruct data as [d|e|p]; [|by injection Hr as <- <-..].
  unfold wrapping in Hr. destruct (xe_CallEVMWithData _ _ _ _ _) as [[a|e|p] [g1 x1]] eqn:E; injection Hr as <- <- <-;
    by eapply call_registry.
Qed.
Lemma evm_moves_balance contract account : evm_moves (BalanceOf ModuleAddress contract account).
Proof.
  intros g x r g' x' Hr. unfold BalanceOf in Hr.
  destruct (CallEVM _ _ _ _ _) as [[a|e|p] [g1 x1]] eqn:E; injection Hr as <- <- <-; by eapply evm_moves_call.
Qed.
Lemma evm_moves_bind {A B} (m : M (erc20_state * X) A) (f : A -> M (erc20_state * X) B) :
  evm_moves m -> (forall a, evm_moves (f a)) -> evm_moves (bind m f).
Proof.
  intros Hm Hf g x r g' x' Hr. unfold bind in Hr. destruct (m (g, x)) as [[a|e|p] [g1 x1]] eqn:E;
    [|injection Hr as <- <- <-; by eapply Hm..]. etrans; [by eapply Hm|]. by eapply Hf.
Qed.
Lemma evm_moves_string contract method : evm_moves (queryERC20String ModuleAddress contract method).
Proof.
  apply evm_moves_bind; [apply evm_moves_call|]. intros a g x r g' x' Hr.
  destruct (unpack_string _); [by injection Hr as <- <- <-|]. by destruct (_ =? _)%nat; injection Hr as <- <- <-.
Qed.
Lemma evm_moves_query contract : evm_moves (QueryERC20 ModuleAddress contract).
Proof.
  apply evm_moves_bind; [apply evm_moves_string|]. intros name. apply evm_moves_bind; [apply evm_moves_string|].
  intros symbol. apply evm_moves_bind; [apply evm_moves_call|]. intros a g x r g' x' Hr.
  by destruct (unpack_uint8 _); injection Hr as <- <- <-.
Qed.
End moves.

#[export] Hint Resolve moves_only_lift moves_on_x moves_emit moves_on_evm moves_try moves_wrapping moves_or_panic
  evm_moves_data evm_moves_call evm_moves_balance evm_moves_query : erc20_moves.

(** One statement of a handler: pure steps, steps on the other state, tests. *)
Ltac moves_step :=
  match goal with
  | |- moves ?s (bind (gets ?f) ?k) => change (moves s (k (f s))); cbv beta
  | |- moves _ (bind (lift _) _) => apply moves_lift; intros ? ?
  | |- moves _ (bind _ _) => apply moves_bind; [solve [eauto with erc20_moves | by apply moves_pure]|]; intros ? ? ?
  | |- moves _ (ret _) => by apply moves_pure
  | |- moves _ (fail _ _) => by apply moves_pure
  | |- moves _ (panic _) => by apply moves_pure
  | |- moves _ (lift _) => by apply moves_pure
  | |- moves _ (throw _) => by apply moves_pure
  | |- moves _ (need_balance ?b) => by destruct b; apply moves_pure
  | |- moves _ (bind (need_balance ?b) _) => apply moves_bind; [by destruct b; apply moves_pure|]; intros ? ? ?
  | |- moves _ (if ?b then _ else _) => destruct b eqn:?
  | |- moves _ (match ?o with _ => _ end) => destruct o eqn:?
  | _ => solve [eauto with erc20_moves]
  end.

(** * The handlers *)

Section handlers.
Context `{CoinsLib, AddressCodec, Keccak, EthHex, !EthHexLaws, Tmhash, !TmhashLaws, IbcHash, Erc20Env, Erc20Abi}.
Context `{!Erc20CallLaws, !Ics20, !IbcHashLaws}.
Variable ModuleAddress : Address.
Variable authority : string.

Lemma MintingEnabled_ok s sender receiver token p :
  MintingEnabled s sender receiver token = Ok p ->
  IsERC20Enabled (e_reg s) = true /\ Enabled p = true /\ xb_BlockedAddr receiver = false /\
  (sender = receiver \/ xb_IsSendEnabled (e_x s) (tp_Denom p) = true) /\
  exists id, GetTokenPairID (e_reg s) token = Some id /\ er_pairs (e_reg s) !! id = Some p.
Proof.
  unfold MintingEnabled. destruct (IsERC20Enabled _) eqn:?; [|done]. cbn [negb].
  destruct (GetTokenPairID _ token) as [[|z id]|] eqn:Hid; [done| |done].
  destruct (GetTokenPair _ _) as [q|] eqn:Hq; [|done]. destruct (Enabled q) eqn:?; [|done]. simpl.
  destruct (xb_BlockedAddr receiver); [done|]. destruct (_ && _) eqn:Hb; [done|]. intros [= ->].
  apply GetTokenPair_inv in Hq as (id' & [= <-] & Hq). apply andb_false_iff in Hb. split_and!; try done; [|eauto].
  destruct Hb as [Hb|Hb]; zbool; auto.
Qed.

Lemma delete_moves s id p : er_pairs (e_reg s) !! id = Some p -> IsNativeERC20 p = true ->
  moves s (on_reg (modify (DeleteTokenPair p))).
Proof.
  intros Hp Ho%bool_decide_eq_true. apply moves_on_reg. intros r g [= <- <-]. by eapply rtc_once, RS_delete.
Qed.

Lemma convertERC20_moves s p msg receiver sender :
  moves s (convertERC20IntoCoinsForNativeToken ModuleAddress p msg receiver sender).
Proof. unfold convertERC20IntoCoinsForNativeToken. repeat moves_step. Qed.
Lemma ConvertCoinNativeERC20_moves s p amount receiver sender :
  moves s (ConvertCoinNativeERC20 ModuleAddress p amount receiver sender).
Proof. unfold ConvertCoinNativeERC20. repeat moves_step. Qed.
Hint Resolve convertERC20_moves ConvertCoinNativeERC20_moves : erc20_moves.

(** A conversion deletes the pair of a contract that is gone. *)
Lemma convert_moves s sender receiver token k :
  (forall p, moves s (k p)) ->
  moves s (let! p := lift (MintingEnabled s sender receiver token) in
    if IsNativeERC20 p then if selfdestructed s p then on_reg (modify (DeleteTokenPair p)) else k p
    else if IsNativeCoin p then fail ErrNativeConversionDisabled "" else fail ErrUndefinedOwner "").
Proof.
  intros Hk. apply moves_lift. intros a (_ & _ & _ & _ & id & _ & Hp)%MintingEnabled_ok.
  destruct (IsNativeERC20 a) eqn:Ho; [|by destruct (IsNativeCoin a); apply moves_pure].
  destruct (selfdestructed s a); [by eapply delete_moves|apply Hk].
Qed.
Lemma ConvertERC20_moves s msg : moves s (ConvertERC20 ModuleAddress msg).
Proof.
  unfold ConvertERC20. moves_step; [|by apply moves_pure]. moves_step. apply convert_moves. intros p. apply convertERC20_moves.
Qed.
Lemma ConvertCoin_moves s msg : moves s (ConvertCoin ModuleAddress msg).
Proof.
  unfold ConvertCoin. moves_step; [|by apply moves_pure]. moves_step. apply convert_moves. intros p.
  apply ConvertCoinNativeERC20_moves.
Qed.

(** ** Registration *)

Lemma CreateCoinMetadata_moves s contract : moves s (CreateCoinMetadata ModuleAddress contract).
Proof. unfold CreateCoinMetadata. repeat moves_step. Qed.
Lemma SetToken_moves s p : IsHexAddress (Erc20Address p) = true -> moves s (on_reg (SetToken p)).
Proof. intros Hx. apply moves_on_reg. intros r g. by apply SetToken_step. Qed.
Hint Resolve CreateCoinMetadata_moves : erc20_moves.
Lemma registerERC20_moves s contract : address_ok contract -> moves s (registerERC20 ModuleAddress contract).
Proof.
  intros Hc. unfold registerERC20. moves_step. moves_step; [by apply moves_pure|]. moves_step.
  apply moves_bind; [|intros; by apply moves_pure]. by apply SetToken_moves, hex_is_address.
Qed.
Lemma RegisterERC20_moves s signer l : moves s (RegisterERC20 ModuleAddress authority signer l).
Proof.
  unfold RegisterERC20. moves_step. moves_step. moves_step; [by apply moves_pure|].
  apply moves_each. intros s1 txt _. moves_step; [by apply moves_pure|].
  apply moves_bind; [apply registerERC20_moves, hex_range|]. intros p s2 _. apply moves_emit.
Qed.
Lemma ToggleConversion_moves s auth token : moves s (ToggleConversion authority auth token).
Proof.
  unfold ToggleConversion. moves_step. moves_step; [by apply moves_pure|]. moves_step.
  apply moves_bind; [|intros; apply moves_emit]. apply moves_on_reg. intros r g. apply toggleConversion_step.
Qed.
Lemma UpdateParams_moves s auth params : moves s (erc20_UpdateParams authority auth params).
Proof.
  unfold erc20_UpdateParams. moves_step; [by apply moves_pure|]. apply moves_on_reg. intros r g [= <- <-].
  apply rtc_once, RS_params.
Qed.

Lemma BytesToAddress_ok l : is_bytes l -> address_ok (BytesToAddress l).
Proof.
  intros Hl. unfold BytesToAddress, address_ok. set (t := drop (length l - 20) l).
  assert (is_bytes t) as Ht by by apply Forall_drop.
  pose proof (be_decode_bound t Ht) as Hb. split; [lia|].
  assert (length t <= 20)%nat as Hlen by (unfold t; rewrite length_drop; lia).
  eapply Z.lt_le_trans; [apply Hb|]. change (2 ^ 160) with (256 ^ 20). apply Z.pow_le_mono_r; lia.
Qed.
Lemma NewTokenPairSTRv2_ok denom p : NewTokenPairSTRv2 denom = Ok p ->
  exists a, address_ok a /\ p = mkPair (Address_Hex a) denom true OWNER_MODULE.
Proof.
  unfold NewTokenPairSTRv2, GetIBCDenomAddress. destruct (negb _); [done|]. destruct (_ || _); [done|].
  destruct (ParseHexHash _) as [h|] eqn:Hh; [|done]. intros [= <-]. eexists. split; [|done].
  by eapply BytesToAddress_ok, hash_bytes.
Qed.
Lemma set_code_hash_reg s addr h : e_reg (set_code_hash addr h s).2 = e_reg s.
Proof.
  unfold set_code_hash. rewrite bind_gets. destruct (xe_GetAccount (e_x s) addr) as [m|acc]; [done|].
  destruct acc as [acc|]; unfold on_x, zoom; by destruct (xe_SetAccount _ _ _).
Qed.
Lemma RegisterCodeHash_reg s addr ty : e_reg (RegisterCodeHash addr ty s).2 = e_reg s.
Proof.
  assert (e_reg (RegisterERC20CodeHash addr s).2 = e_reg s) as Hreg.
  { unfold RegisterERC20CodeHash. rewrite bind_gets.
    destruct (xe_GetCode _ _) as [[|]|]; unfold bind; simpl; by rewrite set_code_hash_reg. }
  unfold RegisterCodeHash. rewrite bind_gets. by destruct ty, (negb _).
Qed.
Lemma CreateNewTokenPair_ok denom s p s' : CreateNewTokenPair denom s = (Ok p, s') ->
  exists t, address_ok t /\ p = mkPair (Address_Hex t) denom true OWNER_MODULE /\ SetToken p (e_reg s) = (Ok tt, e_reg s').
Proof.
  intros Hr. apply bind_lift_ok in Hr as (q & Hq & Hr). rewrite bind_gets in Hr.
  apply NewTokenPairSTRv2_ok in Hq as (t & Ht & ->).
  destruct (xe_GetAccount _ _) as [m|acc]; [done|]. run_inv. apply zoom_ok in H12 as (g & Hg & ->). destruct x. eauto.
Qed.
Lemma CreateNewTokenPair_moves s denom : moves s (CreateNewTokenPair denom).
Proof.
  unfold CreateNewTokenPair. apply moves_lift. intros p (t & Ht & ->)%NewTokenPairSTRv2_ok. moves_step.
  moves_step; [by apply moves_pure|]. moves_step; [by apply moves_pure|].
  apply moves_bind; [|intros; by apply moves_pure]. by apply SetToken_moves, hex_is_address.
Qed.
Lemma RegisterERC20Extension_moves s denom : moves s (RegisterERC20Extension denom).
Proof.
  unfold RegisterERC20Extension. apply moves_bind; [apply CreateNewTokenPair_moves|].
  intros p s1 (t & Ht & -> & Hg)%CreateNewTokenPair_ok. set (p := mkPair _ _ _ _) in *.
  apply moves_bind; [|intros; by apply moves_pure]. unfold EnableDynamicPrecompile. apply moves_bind.
  - apply moves_reg, RegisterCodeHash_reg.
  - intros u s2 E2. pose proof (RegisterCodeHash_reg s1 (GetERC20Contract p) PrecompileTypeDynamic) as Hreg.
    rewrite E2 in Hreg. simpl in Hreg. apply moves_on_reg. intros r g2 [= <- <-].
    apply rtc_once, RS_dynamic; [apply hex_range|]. rewrite Hreg. apply SetToken_ok in Hg as (_ & _ & ->).
    exists (GetERC20Contract p), (GetID p), p. simpl. rewrite !lookup_insert_eq. split_and!; try done; apply hex_range.
Qed.
Hint Resolve RegisterERC20Extension_moves : erc20_moves.

(** ** Transfers between chains *)

Lemma as_ack_moves {A} s (m : M e20_state A) k :
  moves s m -> (forall a s', m s = (Ok a, s') -> moves s' (k a)) -> moves s (as_ack m k).
Proof.
  intros Hm Hk. unfold as_ack. apply moves_bind; [by apply moves_try|]. intros [a|e] s' Hr; [|by apply moves_pure].
  apply try_ok in Hr. by apply Hk.
Qed.
Lemma OnRecvPacket_moves s packet : moves s (OnRecvPacket ModuleAddress packet).
Proof.
  unfold OnRecvPacket. moves_step. moves_step; [by apply moves_pure|]. moves_step; [|by apply moves_pure].
  apply as_ack_moves; [apply moves_only_lift|]. unfold lift. intros sr s1 [= _ <-]. moves_step; [by apply moves_pure|].
  moves_step. destruct a as [denom amount]. moves_step; [by apply moves_pure|].
  apply as_ack_moves; [apply moves_only_lift|]. unfold lift. intros bond s1 [= _ <-]. moves_step; [by apply moves_pure|].
  repeat moves_step; apply as_ack_moves; auto with erc20_moves; intros; repeat moves_step.
Qed.
Lemma ConvertCoinToERC20FromPacket_moves s data : moves s (ConvertCoinToERC20FromPacket ModuleAddress data).
Proof. unfold ConvertCoinToERC20FromPacket. repeat moves_step. Qed.
Lemma OnAcknowledgementPacket_moves s data b : moves s (OnAcknowledgementPacket ModuleAddress data b).
Proof. destruct b; [apply ConvertCoinToERC20FromPacket_moves|by apply moves_pure]. Qed.

(** * Sequences of calls, each with whatever it left *)

Inductive erc20_call :=
  | CallConvertERC20 (msg : MsgConvertERC20)
  | CallConvertCoin (msg : MsgConvertCoin)
  | CallRegisterERC20 (signer : string) (l : list string)
  | CallToggleConversion (auth token : string)
  | CallUpdateParams (auth : string) (params : Erc20Params)
  | CallOnRecv (packet : Packet)
  | CallOnAck (data : FungibleTokenPacketData) (is_error : bool)
  | CallOnTimeout (data : FungibleTokenPacketData)
  | CallSetAllowance (t owner spender : Address) (value : option Z)
  | CallDeleteAllowance (t owner spender : Address).
Definition run_call (c : erc20_call) (s : e20_state) : e20_state :=
  match c with
  | CallConvertERC20 msg => (ConvertERC20 ModuleAddress msg s).2
  | CallConvertCoin msg => (ConvertCoin ModuleAddress msg s).2
  | CallRegisterERC20 signer l => (RegisterERC20 ModuleAddress authority signer l s).2
  | CallToggleConversion auth token => (ToggleConversion authority auth token s).2
  | CallUpdateParams auth params => (erc20_UpdateParams authority auth params s).2
  | CallOnRecv packet => (OnRecvPacket ModuleAddress packet s).2
  | CallOnAck data b => (OnAcknowledgementPacket ModuleAddress data b s).2
  | CallOnTimeout data => (OnTimeoutPacket ModuleAddress data s).2
  | CallSetAllowance t o sp v => (on_reg (SetAllowance t o sp v) s).2
  | CallDeleteAllowance t o sp => (on_reg (DeleteAllowance t o sp) s).2
  end.
Definition call_ok (c : erc20_call) : Prop :=
  match c with
  | CallSetAllowance t o sp _ | CallDeleteAllowance t o sp => address_ok t /\ address_ok o /\ address_ok sp
  | _ => True
  end.
Definition run_calls (l : list erc20_call) (s : e20_state) : e20_state := foldl (fun s c => run_call c s) s l.

Lemma moves_state {A} s (m : M e20_state A) : moves s m -> rtc reg_step (e_reg s) (e_reg (m s).2).
Proof. intros Hm. destruct (m s) as [r s'] eqn:E. by eapply Hm. Qed.
Lemma run_call_moves c s : call_ok c -> rtc reg_step (e_reg s) (e_reg (run_call c s)).
Proof.
  destruct c as [msg|msg|signer l|auth token|auth params|packet|data b|data|t o sp v|t o sp]; intros Hok;
    cbn [run_call]; apply moves_state.
  - apply ConvertERC20_moves.
  - apply ConvertCoin_moves.
  - apply RegisterERC20_moves.
  - apply ToggleConversion_moves.
  - apply UpdateParams_moves.
  - apply OnRecvPacket_moves.
  - apply OnAcknowledgementPacket_moves.
  - apply ConvertCoinToERC20FromPacket_moves.
  - destruct Hok as (Ht & Ho & Hsp). apply moves_on_reg. intros r g. exact (setAllowance_step t o sp v false _ r g Ht Ho Hsp).
  - destruct Hok as (Ht & Ho & Hsp). apply moves_on_reg. intros r g.
    exact (setAllowance_step t o sp (Some 0) false _ r g Ht Ho Hsp).
Qed.
Lemma run_calls_moves l s : Forall call_ok l -> rtc reg_step (e_reg s) (e_reg (run_calls l s)).
Proof.
  intros Hl. revert s. induction Hl as [|c l Hc _ IH]; intros s; [done|]. etrans; [by apply run_call_moves|apply IH].
Qed.

(** C6. The registry stays consistent through every sequence of messages, packet
    callbacks and allowance changes, the failed ones and what they left included:
    the contract of a denom and the denom of a contract are inverse, the code of
    every enabled precompile is found, and an allowance is a positive 256-bit
    number for a registered contract. *)
Theorem erc20_registry_consistent l s : reg_wf (e_reg s) -> Forall call_ok l ->
  let g := e_reg (run_calls l s) in
  reg_wf g /\
  (forall t d, address_ok t ->
    GetTokenDenom g t = Ok d <-> IsDenomRegistered g d = true /\ GetCoinAddress g d = Ok t) /\
  (forall t, address_ok t -> IsNativePrecompileAvailable g t || IsDynamicPrecompileAvailable g t = true ->
    exists p, GetERC20PrecompileInstance g t = Ok (Some (p, IsNativePrecompileAvailable g t)) /\
      GetERC20Contract p = t /\ ContractOwner p = OWNER_MODULE) /\
  (forall t o sp, address_ok t -> address_ok o -> address_ok sp -> GetAllowance g t o sp <> 0 ->
    0 < GetAllowance g t o sp < 2 ^ 256 /\ IsERC20Registered g t = true).
Proof.
  intros Hw Hl g. assert (reg_wf g) as Hg by (eapply reg_steps_wf; [by apply run_calls_moves|done]).
  split_and!; [done|intros; by apply lookup_inverse|intros; by apply precompile_found|intros; by apply allowance_registered].
Qed.
End handlers.
