(* ===== verification/Erc20Conv.v ===== *)
(** Conversions between a token and its coin: what a successful message moves, the
    coin stays backed by the tokens the module holds, and what a failed conversion
    of a refunded transfer leaves behind. *)
From S2P Require Import Prelude KVStore Sdk StateDB StateDBInv StateDBType VmKeeper VmKeeperThms TxData StateTransition StateTransitionThms Erc20 Erc20Reg Erc20Keeper Erc20Ibc Erc20Thms.

#[local] Arguments address_bytes : simpl never.

Section conversion.
Context `{CoinsLib, AddressCodec, Keccak, EthHex, Tmhash, IbcHash, Erc20Env, Erc20Abi}.
Variable ModuleAddress : Address.
(** one contract and the denom of its pair, the supply of the denom, and the
    balance the contract keeps for an account *)
Variables (contract : Address) (denom : string) (supply : X -> Z) (tokens : X -> Address -> Z).

(** The bank: only minting and burning change the supply, and no bank operation
    touches a contract. *)
Record bank_laws : Prop := {
  bl_mint : forall n x x', xb_MintCoins erc20_ModuleName [Coin denom n] x = (Ok tt, x') ->
    supply x' = supply x + n /\ forall a, tokens x' a = tokens x a;
  bl_burn : forall n x x', xb_BurnCoins erc20_ModuleName [Coin denom n] x = (Ok tt, x') ->
    supply x' = supply x - n /\ forall a, tokens x' a = tokens x a;
  bl_escrow : forall a n x x', xb_SendCoinsFromAccountToModule a erc20_ModuleName [Coin denom n] x = (Ok tt, x') ->
    supply x' = supply x /\ forall a, tokens x' a = tokens x a;
  bl_send : forall a n x x', xb_SendCoinsFromModuleToAccount erc20_ModuleName a [Coin denom n] x = (Ok tt, x') ->
    supply x' = supply x /\ forall a, tokens x' a = tokens x a;
}.

(** What the module reads of the contract: [balanceOf] tells the balance the contract
    keeps, and the call, which the EVM does not commit, changes nothing. *)
Record token_laws : Prop := {
  tl_balance : forall a g x b g' x', BalanceOf ModuleAddress contract a (g, x) = (Ok (Some b), (g', x')) ->
    b = tokens x a /\ supply x' = supply x /\ forall a, tokens x' a = tokens x a;
}.
(** Nothing is assumed of what [transfer] does: it may move any amount, and it may come
    back to the chain and convert again.  The coin is backed by the difference of the
    tokens of the module and the supply of the coin. *)
Definition slack (x : X) : Z := tokens x ModuleAddress - supply x.
(** A fair contract.  A transfer into the module raises the supply of the coin only by
    conversions it comes back for, and then the module has the amount on top of
    those; a transfer out of the module takes no more than the amount, conversions it
    comes back for apart. *)
Record fair : Prop := {
  fair_in : forall from n data g x r g' x', pack_transfer ModuleAddress n = Ok data ->
    xe_CallEVMWithData from (Some contract) data true (g, x) = (Ok r, (g', x')) ->
    supply x' <= supply x \/ slack x + n <= slack x';
  fair_out : forall to n data g x r g' x', pack_transfer to n = Ok data ->
    xe_CallEVMWithData ModuleAddress (Some contract) data true (g, x) = (Ok r, (g', x')) ->
    slack x - n <= slack x';
}.

Hypothesis Hbank : bank_laws.
Hypothesis Htoken : token_laws.

Lemma on_evm_ok {A} (m : M (erc20_state * X) A) s a s' : on_evm m s = (Ok a, s') ->
  exists g x, m (e_reg s, e_x s) = (Ok a, (g, x)) /\ s' = E20 g x (e_events s).
Proof. intros Hr. apply zoom_ok in Hr as ([g x] & Hr & ->). eauto. Qed.
Lemma on_x_ok {A} (m : M X A) s a s' : on_x m s = (Ok a, s') ->
  exists x, m (e_x s) = (Ok a, x) /\ s' = E20 (e_reg s) x (e_events s).
Proof. intros Hr. apply zoom_ok in Hr as (x & Hr & ->). eauto. Qed.
Lemma need_balance_ok (b : option Z) (s : e20_state) n s' : need_balance b s = (Ok n, s') -> b = Some n /\ s' = s.
Proof. destruct b; [|done]. by intros [= -> ->]. Qed.
Lemma CallEVM_ok from commit data g x r g' x' : CallEVM from contract commit data (g, x) = (Ok r, (g', x')) ->
  exists d, data = Ok d /\ xe_CallEVMWithData from (Some contract) d commit (g, x) = (Ok r, (g', x')).
Proof. unfold CallEVM. destruct data as [d| |]; [|done..]. intros Hr%wrapping_ok. eauto. Qed.

(** A read of the balance followed by the code that needs it. *)
Lemma read_balance {A} a (k : Z -> M e20_state A) s r s' :
  (let! b := on_evm (BalanceOf ModuleAddress contract a) in let! n := need_balance b in k n) s = (Ok r, s') ->
  exists s1, k (tokens (e_x s) a) s1 = (Ok r, s') /\ supply (e_x s1) = supply (e_x s) /\
    (forall a, tokens (e_x s1) a = tokens (e_x s) a).
Proof.
  intros Hr. apply bind_ok in Hr as (b & s1 & Hb & Hr). apply bind_ok in Hr as (n & s2 & Hn & Hr).
  apply need_balance_ok in Hn as [-> ->]. apply on_evm_ok in Hb as (g & x & Hb & ->).
  apply (tl_balance Htoken) in Hb as (-> & Hs & Ht). eauto.
Qed.

(** ** From token to coin *)

(** The call of [transfer] by [from] inside the conversion that leads from [x] to the
    state [x2] after it; before it nothing has changed. *)
Definition transfer_call (from to : Address) (n : Z) (x : X) (x2 : X) : Prop :=
  exists data g1 x1 r g2, pack_transfer to n = Ok data /\
    xe_CallEVMWithData from (Some contract) data true (g1, x1) = (Ok r, (g2, x2)) /\
    supply x1 = supply x /\ forall a, tokens x1 a = tokens x a.

(** The tokens of the module and the coins of the receiver grow by the amount; the
    supply, by the amount on top of what the call of the contract left. *)
Definition token_to_coin (sender : Address) (receiver : addr) (n : Z) (s s' : e20_state) : Prop :=
  tokens (e_x s') ModuleAddress = tokens (e_x s) ModuleAddress + n /\
  (exists x2, transfer_call sender ModuleAddress n (e_x s) x2 /\ supply (e_x s') = supply x2 + n /\
     tokens (e_x s') ModuleAddress = tokens x2 ModuleAddress) /\
  exists c c', xb_GetBalance (e_x s) receiver denom = Ok c /\ xb_GetBalance (e_x s') receiver denom = Ok c' /\
    c_amt c' = c_amt c + n.

Lemma convertERC20_effect p msg receiver sender s s' :
  GetERC20Contract p = contract -> tp_Denom p = denom ->
  convertERC20IntoCoinsForNativeToken ModuleAddress p msg receiver sender s = (Ok tt, s') ->
  token_to_coin sender receiver (ce_Amount msg) s s'.
Proof.
  intros Hc Hd Hr. unfold convertERC20IntoCoinsForNativeToken in Hr. rewrite Hc, Hd in Hr. rewrite bind_gets in Hr.
  apply bind_lift_ok in Hr as (c & Hcoin & Hr). apply read_balance in Hr as (s1 & Hr & Hs1 & Ht1).
  apply bind_lift_ok in Hr as (data & Hdata & Hr). apply bind_ok in Hr as (res & s2 & Hcall & Hr).
  apply on_evm_ok in Hcall as (g2 & x2 & Hcall & ->).
  apply bind_lift_ok in Hr as ([] & _ & Hr). apply read_balance in Hr as (s3 & Hr & Hs3 & Ht3). cbn [e_x] in *.
  match type of Hr with (if negb ?b then _ else _) _ = _ => destruct b eqn:Hb; [zbool|done] end.
  apply bind_ok in Hr as ([] & s4 & Hm & Hr). apply on_x_ok in Hm as (x4 & Hm & ->).
  apply (bl_mint Hbank) in Hm as [Hs4 Ht4]. apply bind_ok in Hr as ([] & s5 & Hm & Hr).
  apply on_x_ok in Hm as (x5 & Hm & ->). apply (bl_send Hbank) in Hm as [Hs5 Ht5]. rewrite bind_gets in Hr. cbn [e_x] in *.
  apply bind_lift_ok in Hr as (c' & Hcoin' & Hr). apply bind_lift_ok in Hr as (ec & Hec & Hr).
  destruct (coin_Equal c' ec) eqn:He; [|done]. injection Hr as <-. unfold token_to_coin. cbn [e_x].
  rewrite !Ht5, !Ht4, !Ht3. split_and!.
  - lia.
  - exists x2. split_and!; [|lia|done]. exists data, (e_reg s1), (e_x s1), res, g2. done.
  - exists c, c'. split_and!; [done..|].
    unfold coin_Add in Hec. destruct (negb _); [done|]. apply rbind_ok in Hec as (n & Hn & [= <-]).
    unfold coin_Equal in He. zbool. int_inv. cbn [c_amt] in *. congruence.
Qed.

(** ** From coin to token: the receiver's tokens grow by the amount, the supply falls
    by it from what the call left *)
Definition coin_to_token (receiver : Address) (n : Z) (s s' : e20_state) : Prop :=
  0 < n /\ tokens (e_x s') receiver = tokens (e_x s) receiver + n /\
  exists x2, transfer_call ModuleAddress receiver n (e_x s) x2 /\ supply (e_x s') = supply x2 - n /\
    tokens (e_x s') ModuleAddress = tokens x2 ModuleAddress.
Lemma ConvertCoin_effect p n receiver sender s s' :
  GetERC20Contract p = contract -> tp_Denom p = denom ->
  ConvertCoinNativeERC20 ModuleAddress p (Some n) receiver sender s = (Ok tt, s') -> coin_to_token receiver n s s'.
Proof.
  intros Hc Hd Hr. unfold ConvertCoinNativeERC20 in Hr. rewrite Hc, Hd in Hr.
  destruct (Z.ltb_spec 0 n) as [Hn|]; [|done]. cbn [negb] in Hr. apply read_balance in Hr as (s1 & Hr & Hs1 & Ht1).
  apply bind_ok in Hr as ([] & s2 & Hm & Hr). apply wrapping_ok, on_x_ok in Hm as (x2 & Hm & ->).
  apply (bl_escrow Hbank) in Hm as [Hs2 Ht2]. apply bind_ok in Hr as (res & s3 & Hcall & Hr).
  apply on_evm_ok in Hcall as (g3 & x3 & Hcall & ->). apply CallEVM_ok in Hcall as (data & Hdata & Hcall).
  apply bind_lift_ok in Hr as ([] & _ & Hr). apply read_balance in Hr as (s4 & Hr & Hs4 & Ht4). cbn [e_x] in *.
  match type of Hr with (if negb ?b then _ else _) _ = _ => destruct b eqn:Hb; [zbool|done] end.
  apply wrapping_ok, on_x_ok in Hr as (x5 & Hm & ->). apply (bl_burn Hbank) in Hm as [Hs5 Ht5].
  unfold coin_to_token. cbn [e_x]. rewrite !Ht5, !Ht4. split_and!; [done|lia|].
  exists x3. split_and!; [|lia|done]. eexists data, _, x2, res, g3. split_and!; [exact Hdata|exact Hcall|congruence|].
  intros a. by rewrite Ht2, Ht1.
Qed.

(** A conversion keeps the slack of a fair contract. *)
Lemma token_to_coin_slack sender receiver n s s' : fair -> token_to_coin sender receiver n s s' -> slack (e_x s) <= slack (e_x s').
Proof.
  intros Hf (Ht & (x2 & (data & g1 & x1 & r & g2 & Hd & Hc & Hs1 & Ht1) & Hs & Ht2) & _).
  apply (fair_in Hf _ _ _ _ _ _ _ _ Hd) in Hc. unfold slack in *. rewrite Hs1, Ht1 in Hc. lia.
Qed.
Lemma coin_to_token_slack receiver n s s' : fair -> coin_to_token receiver n s s' -> slack (e_x s) <= slack (e_x s').
Proof.
  intros Hf (_ & _ & x2 & (data & g1 & x1 & r & g2 & Hd & Hc & Hs1 & Ht1) & Hs & Ht2).
  apply (fair_out Hf _ _ _ _ _ _ _ _ Hd) in Hc. unfold slack in *. rewrite Hs1, Ht1 in Hc. lia.
Qed.

(** ** The messages *)

Lemma ConvertERC20_cases msg s s' : ConvertERC20 ModuleAddress msg s = (Ok tt, s') ->
  exists receiver p, acc_of_bech32 (ce_Receiver msg) = Some receiver /\
    MintingEnabled s (address_bytes (HexToAddress (ce_Sender msg))) receiver (ce_ContractAddress msg) = Ok p /\
    IsNativeERC20 p = true /\
    (if selfdestructed s p then s' = E20 (DeleteTokenPair p (e_reg s)) (e_x s) (e_events s)
     else convertERC20IntoCoinsForNativeToken ModuleAddress p msg receiver (HexToAddress (ce_Sender msg)) s = (Ok tt, s')).
Proof.
  unfold ConvertERC20. destruct (acc_of_bech32 _) as [receiver|]; [|done]. rewrite bind_gets. intros Hr.
  apply bind_lift_ok in Hr as (p & Hp & Hr). exists receiver, p. destruct (IsNativeERC20 p); [|by destruct (IsNativeCoin p)].
  split_and!; try done. destruct (selfdestructed s p); [|done]. by injection Hr as <-.
Qed.
Lemma ConvertCoin_cases msg s s' : ConvertCoin ModuleAddress msg s = (Ok tt, s') ->
  exists sender p, acc_of_bech32 (cc_Sender msg) = Some sender /\
    MintingEnabled s sender (address_bytes (HexToAddress (cc_Receiver msg))) (c_denom (cc_Coin msg)) = Ok p /\
    IsNativeERC20 p = true /\
    (if selfdestructed s p then s' = E20 (DeleteTokenPair p (e_reg s)) (e_x s) (e_events s)
     else ConvertCoinNativeERC20 ModuleAddress p (Some (c_amt (cc_Coin msg))) (HexToAddress (cc_Receiver msg)) sender s
            = (Ok tt, s')).
Proof.
  unfold ConvertCoin. destruct (acc_of_bech32 _) as [sender|]; [|done]. rewrite bind_gets. intros Hr.
  apply bind_lift_ok in Hr as (p & Hp & Hr). exists sender, p. destruct (IsNativeERC20 p); [|by destruct (IsNativeCoin p)].
  split_and!; try done. destruct (selfdestructed s p); [|done]. by injection Hr as <-.
Qed.

(** The messages that are about this pair, where the module itself sends none. *)
Definition resolves (s : e20_state) (token : string) : Prop :=
  forall id p, GetTokenPairID (e_reg s) token = Some id -> er_pairs (e_reg s) !! id = Some p ->
    GetERC20Contract p = contract /\ tp_Denom p = denom.
Inductive conv_step : e20_state -> e20_state -> Prop :=
  | conv_tokens msg s s' : resolves s (ce_ContractAddress msg) ->
      ConvertERC20 ModuleAddress msg s = (Ok tt, s') -> conv_step s s'
  | conv_coins msg s s' : resolves s (c_denom (cc_Coin msg)) ->
      ConvertCoin ModuleAddress msg s = (Ok tt, s') -> conv_step s s'.

(** C14. [ConvertERC20] that succeeds either finds the contract gone and only deletes
    the pair, or the pair is enabled, the contract keeps exactly the amount more for
    the module than before, the receiver has exactly the amount more of the coin, and
    the module has minted exactly the amount on top of the supply that the call of the
    contract left.  The contract is trusted to tell its balances; its [transfer] may
    do anything, also convert again before it returns. *)
Theorem ConvertERC20_exact msg s s' :
  resolves s (ce_ContractAddress msg) -> ConvertERC20 ModuleAddress msg s = (Ok tt, s') ->
  exists receiver p, acc_of_bech32 (ce_Receiver msg) = Some receiver /\ Enabled p = true /\
    xb_BlockedAddr receiver = false /\
    if selfdestructed s p then s' = E20 (DeleteTokenPair p (e_reg s)) (e_x s) (e_events s)
    else token_to_coin (HexToAddress (ce_Sender msg)) receiver (ce_Amount msg) s s'.
Proof.
  intros Hres (receiver & p & Ha & Hm & _ & Hr)%ConvertERC20_cases. exists receiver, p.
  apply MintingEnabled_ok in Hm as (_ & He & Hb & _ & id & Hid & Hp). destruct (Hres _ _ Hid Hp) as [Hc Hd].
  split_and!; try done. destruct (selfdestructed s p); [done|]. by eapply convertERC20_effect.
Qed.

Definition backed (s : e20_state) : Prop := supply (e_x s) <= tokens (e_x s) ModuleAddress.

(** C5. The coin of a pair stays backed through any sequence of successful conversions
    in both directions: the supply of the coin is at most the tokens the module
    holds, and the slack never shrinks.  The contract tells its balances and is fair:
    it may move other amounts than asked into the module, or come back and convert
    again from inside a transfer, but not both at once, and it takes no more from the
    module than the module sends. *)
Theorem conversions_keep_backing s s' : fair -> rtc conv_step s s' ->
  slack (e_x s) <= slack (e_x s') /\ (backed s -> backed s').
Proof.
  intros Hf Hs. assert (slack (e_x s) <= slack (e_x s')) as Hle; [|split; [done|]; unfold slack, backed in *; lia].
  induction Hs as [|s s1 s2 Hstep _ IH]; [done|]. etrans; [|exact IH]. clear IH s2.
  destruct Hstep as [msg s s1 Hres Hr|msg s s1 Hres Hr].
  - apply ConvertERC20_cases in Hr as (receiver & p & _ & Hm & _ & Hr).
    apply MintingEnabled_ok in Hm as (_ & _ & _ & _ & id & Hid & Hp). destruct (Hres _ _ Hid Hp) as [Hc Hd].
    destruct (selfdestructed s p); [by subst s1|]. apply convertERC20_effect in Hr; [|done..]. by eapply token_to_coin_slack.
  - apply ConvertCoin_cases in Hr as (sender & p & _ & Hm & _ & Hr).
    apply MintingEnabled_ok in Hm as (_ & _ & _ & _ & id & Hid & Hp). destruct (Hres _ _ Hid Hp) as [Hc Hd].
    destruct (selfdestructed s p); [by subst s1|]. apply ConvertCoin_effect in Hr; [|done..]. by eapply coin_to_token_slack.
Qed.

(** [ConvertCoin] that succeeds either finds the contract gone and only
    deletes the pair, or the tokens of the receiver have grown by the amount, which
    is positive, and the supply of the coin has fallen by it from what the call of the
    contract left. *)
Theorem ConvertCoin_exact msg s s' :
  resolves s (c_denom (cc_Coin msg)) -> ConvertCoin ModuleAddress msg s = (Ok tt, s') ->
  exists p, Enabled p = true /\
    if selfdestructed s p then s' = E20 (DeleteTokenPair p (e_reg s)) (e_x s) (e_events s)
    else coin_to_token (HexToAddress (cc_Receiver msg)) (c_amt (cc_Coin msg)) s s'.
Proof.
  intros Hres (sender & p & Ha & Hm & _ & Hr)%ConvertCoin_cases. exists p.
  apply MintingEnabled_ok in Hm as (_ & He & Hb & _ & id & Hid & Hp). destruct (Hres _ _ Hid Hp) as [Hc Hd].
  split; [done|]. destruct (selfdestructed s p); [done|]. by eapply ConvertCoin_effect.
Qed.
End conversion.

(** * Sending tokens to another chain *)

Section transfer.
Context `{CoinsLib, AddressCodec, Keccak, EthHex, !EthHexLaws, Tmhash, !TmhashLaws, IbcHash, Erc20Env, Erc20Abi, Ics20}.
Variable ModuleAddress : Address.
Variables (supply : X -> Z) (tokens : X -> Address -> Z).
Variable SpendableCoin : X -> addr -> string -> coin.
Variable ibc_Transfer : MsgTransfer -> M e20_state Z.

(** The text of the contract of a stored pair is resolved to that pair. *)
Lemma resolves_hex s id p : reg_wf (e_reg s) -> er_pairs (e_reg s) !! id = Some p ->
  resolves (GetERC20Contract p) (tp_Denom p) s (Address_Hex (GetERC20Contract p)).
Proof.
  intros Hw Hp id' q Hid Hq. unfold GetTokenPairID in Hid. rewrite hex_is_address, hex_address in Hid by apply hex_range.
  destruct (rw_pair _ Hw _ _ Hp) as (_ & _ & Ha & _). unfold GetERC20Map in Hid. rewrite Ha in Hid. injection Hid as <-.
  rewrite Hp in Hq. by injection Hq as <-.
Qed.

(** A transfer of the coin of a registered token converts exactly what the
    sender is short of, and nothing when the coins are enough; ibc-go then gets the
    message with the denom of the pair and the full amount. *)
Theorem Transfer_converts_missing msg sender id p s seq s' :
  bank_laws (tp_Denom p) supply tokens -> token_laws ModuleAddress (GetERC20Contract p) supply tokens ->
  reg_wf (e_reg s) -> GetTokenPairID (e_reg s) (trim_erc20 (c_denom (mt_Token msg))) = Some id ->
  er_pairs (e_reg s) !! id = Some p -> Enabled p = true -> IsNativeERC20 p = true ->
  IsERC20Enabled (e_reg s) = true -> acc_of_bech32 (mt_Sender msg) = Some sender ->
  Transfer ModuleAddress SpendableCoin ibc_Transfer msg s = (Ok seq, s') ->
  let missing := c_amt (mt_Token msg) - c_amt (SpendableCoin (e_x s) sender (tp_Denom p)) in
  exists s1, ibc_Transfer (with_token (Coin (tp_Denom p) (c_amt (mt_Token msg))) msg) s1 = (Ok seq, s') /\
    if missing <=? 0 then s1 = s
    else if selfdestructed s p then e_x s1 = e_x s
    else exists receiver, acc_of_bech32 (bech32_of sender) = Some receiver /\
      token_to_coin ModuleAddress (GetERC20Contract p) (tp_Denom p) supply tokens
        (HexToAddress (Address_Hex (BytesToAddress sender))) receiver missing s s1.
Proof.
  intros Hb Ht Hw Hid Hp He Hn Hon Ha Hr missing. unfold Transfer in Hr. rewrite bind_gets, Hid in Hr.
  pose proof (id_some _ _ _ Hw Hp) as Hne. pose proof (GetTokenPair_stored _ _ _ Hw Hp) as Hg.
  destruct id as [|z id]; [done|]. rewrite Hg, He, Ha, Hon, Hn in Hr. cbn [negb mt_Token with_token c_amt] in Hr.
  destruct (Z.leb_spec (c_amt (mt_Token msg)) (c_amt (SpendableCoin (e_x s) sender (tp_Denom p)))) as [Hle|Hlt].
  { exists s. split; [done|]. destruct (Z.leb_spec missing 0); [done|unfold missing in *; lia]. }
  apply bind_lift_ok in Hr as (d & Hd & Hr). int_inv. apply bind_ok in Hr as ([] & s1 & Hc & Hr). exists s1.
  split; [done|]. fold missing in Hc. destruct (Z.leb_spec missing 0); [unfold missing in *; lia|].
  apply ConvertERC20_cases in Hc as (receiver & q & Hrec & Hm & _ & Hc). apply MintingEnabled_ok in Hm as (_ & _ & _ & _ & id' & Hid' & Hq).
  cbn [NewMsgConvertERC20 ce_ContractAddress] in Hid'. assert (q = p) as ->.
  { unfold GetTokenPairID in Hid'. rewrite hex_is_address, hex_address in Hid' by apply hex_range.
    destruct (rw_pair _ Hw _ _ Hp) as (_ & _ & Hm & _). unfold GetERC20Map in Hid'. congruence. }
  destruct (selfdestructed s p); [by subst s1|].
  exists receiver. split; [done|].
  exact (convertERC20_effect ModuleAddress _ _ supply tokens Hb Ht p _ _ _ _ _ eq_refl eq_refl Hc).
Qed.
End transfer.

(** * Conversions that fail and are not undone *)

Section refund.
Context `{CoinsLib, AddressCodec, Keccak, EthHex, Tmhash, IbcHash, Erc20Env, Erc20Abi, Ics20}.
Variable ModuleAddress : Address.
(** the coins of a denom an account has; the account of the module *)
Variables (denom : string) (coins_of : X -> addr -> Z) (module_acc : addr).

(** The bank moves coins from an account to the module; neither a read of a
    balance nor a call that fails moves any. *)
Record refund_laws : Prop := {
  rl_escrow : forall a n x x', a <> module_acc ->
    xb_SendCoinsFromAccountToModule a erc20_ModuleName [Coin denom n] x = (Ok tt, x') ->
    coins_of x' a = coins_of x a - n /\ coins_of x' module_acc = coins_of x module_acc + n;
  rl_read : forall c a g x r g' x', BalanceOf ModuleAddress c a (g, x) = (r, (g', x')) ->
    forall b, coins_of x' b = coins_of x b;
  rl_failed : forall from c data g x e g' x', CallEVM from c true data (g, x) = (Err e, (g', x')) ->
    forall b, coins_of x' b = coins_of x b;
}.

(** A conversion of [n] coins of [holder] in the state [s] whose call of the
    contract's transfer fails with [e]. *)
Inductive call_fails (s : e20_state) (p : TokenPair) (holder : addr) (n : Z) (e : error) (g : erc20_state) (x : X) : Prop :=
  | call_fails_at bal g1 x1 x2 :
      BalanceOf ModuleAddress (GetERC20Contract p) (BytesToAddress holder) (e_reg s, e_x s) = (Ok (Some bal), (g1, x1)) ->
      xb_SendCoinsFromAccountToModule holder erc20_ModuleName [Coin denom n] x1 = (Ok tt, x2) ->
      CallEVM ModuleAddress (GetERC20Contract p) true (pack_transfer (BytesToAddress holder) n) (g1, x2) = (Err e, (g, x)) ->
      call_fails s p holder n e g x.

Lemma conversion_stuck s p holder n e g x : tp_Denom p = denom -> 0 < n -> call_fails s p holder n e g x ->
  ConvertCoinNativeERC20 ModuleAddress p (Some n) (BytesToAddress holder) holder s = (Err e, E20 g x (e_events s)).
Proof.
  intros Hd Hn [bal g1 x1 x2 Hb Hs Hc]. unfold ConvertCoinNativeERC20. destruct (Z.ltb_spec 0 n); [|lia]. cbn [negb].
  unfold bind at 1, on_evm at 1, zoom. cbn [e_reg e_x]. rewrite Hb. unfold bind at 1, need_balance at 1, ret.
  unfold bind at 1, wrapping at 1, on_x at 1, zoom. rewrite Hd. cbn [e_x fst snd]. rewrite Hs.
  unfold bind at 1, on_evm at 1, zoom. cbn [e_reg e_x fst snd]. by rewrite Hc.
Qed.
Lemma stuck_coins s p holder n e g x : refund_laws -> holder <> module_acc -> call_fails s p holder n e g x ->
  coins_of x holder = coins_of (e_x s) holder - n /\ coins_of x module_acc = coins_of (e_x s) module_acc + n.
Proof.
  intros Hl Hne [bal g1 x1 x2 Hb Hs Hc]. rewrite !(rl_failed Hl _ _ _ _ _ _ _ _ Hc), <- !(rl_read Hl _ _ _ _ _ _ _ Hb).
  by apply (rl_escrow Hl) in Hs.
Qed.

(** When a transfer is refunded and the conversion back to tokens fails in the
    contract's [transfer], [OnTimeoutPacket] succeeds and the refunded coins are
    left with the module: the sender has neither the tokens nor the coins. *)
Theorem refund_failure_keeps_coins data sender p n s e g x :
  refund_laws -> sender <> module_acc ->
  acc_of_bech32 (fd_Sender data) = Some sender ->
  GetTokenPair (e_reg s) (GetTokenPairID (e_reg s) (fd_Denom data)) = Some p ->
  tp_Denom p = denom -> IsNativeERC20 p = true -> IsERC20Enabled (e_reg s) = true ->
  IsDenomRegistered (e_reg s) (IBCDenom (ExtractDenomFromPath (fd_Denom data))) = true ->
  int_of_string (fd_Amount data) = Some n -> 0 < n -> xa_IsModuleAccount (e_x s) sender = false ->
  call_fails s p sender n e g x ->
  exists s', OnTimeoutPacket ModuleAddress data s = (Ok tt, s') /\
    coins_of (e_x s') sender = coins_of (e_x s) sender - n /\
    coins_of (e_x s') module_acc = coins_of (e_x s) module_acc + n.
Proof.
  intros Hl Hne Ha Hp Hd Hn He Hi Hz Hpos Hm Hc.
  pose proof (conversion_stuck _ _ _ _ _ _ _ Hd Hpos Hc) as Hconv.
  unfold OnTimeoutPacket, ConvertCoinToERC20FromPacket. rewrite Ha, bind_gets, Hp.
  assert (IsNativeCoin p = false) as ->.
  { unfold IsNativeCoin, IsNativeERC20 in *. apply bool_decide_eq_true in Hn. by rewrite Hn. }
  unfold GetSentCoin. rewrite Hn. cbn [erc20_GetParams EnableErc20]. rewrite He, Hi, Hm, Hz. cbn [negb orb].
  unfold bind, try. rewrite Hconv. eexists. split; [reflexivity|]. cbn [e_x]. by eapply stuck_coins.
Qed.

(** ** IBC v2 *)

Variable UnmarshalPacketData : bytes -> string -> string -> res Representation.
Variable denom_Path : IbcDenom -> string.
Variable json_Marshal : FungibleTokenPacketData -> res bytes.
Variable app_recv : string -> string -> Z -> Payload -> M e20_state RecvPacketResult.
Variable decode_ack : bytes -> option bool.

(** A transfer that arrives over IBC v2 and whose conversion fails is
    acknowledged as the success the transfer application reported, with the coins of
    the receiver left in the account of the module; over IBC v1 the same packet
    gets an error acknowledgement. *)
Theorem v2_recv_failure_acknowledged src dst seq payload r packet data sender recipient amt bond p n s s1 e g x :
  refund_laws -> recipient <> module_acc ->
  app_recv src dst seq payload s = (Ok r, s1) -> rp_Failure r = false ->
  is_Some (decode_ack (rp_Acknowledgement r)) ->
  v2ToV1Packet UnmarshalPacketData denom_Path json_Marshal payload src dst = Ok packet ->
  decode_data (pk_Data packet) = Some data -> GetTransferSenderRecipient data = Ok (sender, recipient) ->
  xa_IsModuleAccount (e_x s1) recipient = false ->
  GetReceivedCoin packet (ExtractDenomFromPath (fd_Denom data)) amt = Ok (denom, Some n) -> amt = fd_Amount data ->
  is_prefix (str_bytes "factory/") (str_bytes (fd_Denom data)) = false ->
  xs_BondDenom (e_x s1) = Ok bond -> denom <> bond ->
  MintingEnabled s1 sender recipient denom = Ok p -> tp_Denom p = denom -> IsNativeERC20 p = true -> 0 < n ->
  call_fails s1 p recipient n e g x ->
  let s' := E20 g x (e_events s1) in
  v2_OnRecvPacket ModuleAddress UnmarshalPacketData denom_Path json_Marshal app_recv decode_ack src dst seq payload s
    = (Ok r, s') /\
  OnRecvPacket ModuleAddress packet s1 = (Ok (Some e), s') /\
  coins_of (e_x s') recipient = coins_of (e_x s1) recipient - n /\
  coins_of (e_x s') module_acc = coins_of (e_x s1) module_acc + n.
Proof.
  intros Hl Hne Happ Hf [ack Hack] Hv2 Hdata Hsr Hmod Hcoin -> Hfac Hbond Hnb Hmint Hd Hn Hpos Hc s'.
  assert (OnRecvPacket ModuleAddress packet s1 = (Ok (Some e), s')) as Hrecv.
  { pose proof (conversion_stuck _ _ _ _ _ _ _ Hd Hpos Hc) as Hconv.
    pose proof (MintingEnabled_ok _ _ _ _ _ Hmint) as (Hon & Hen & _ & _ & id & Hid & Hp).
    assert (GetTokenPair (e_reg s1) (GetTokenPairID (e_reg s1) denom) = Some p) as Hg.
    { unfold MintingEnabled in Hmint. rewrite Hon in Hmint. cbn [negb] in Hmint. rewrite Hid in *. destruct id as [|z id]; [done|].
      destruct (GetTokenPair (e_reg s1) (Some (z :: id))) as [q|] eqn:Hq; [|done].
      apply GetTokenPair_inv in Hq as (? & [= <-] & Hq). congruence. }
    unfold OnRecvPacket. rewrite bind_gets, Hon, Hdata. cbn [negb].
    unfold as_ack at 1, bind at 1, try at 1, lift. rewrite Hsr. cbn [fst snd]. rewrite Hmod.
    unfold bind at 1. rewrite Hcoin. rewrite Hfac. unfold as_ack at 1, bind at 1, try at 1. rewrite Hbond.
    rewrite bool_decide_false by done. rewrite Hg, Hn, Hen. cbn [negb]. rewrite Hmint.
    unfold as_ack, bind, try. by rewrite Hconv. }
  split_and!; [|done|cbn [e_x]; by eapply stuck_coins..].
  unfold v2_OnRecvPacket. rewrite (bind_run _ _ _ _ _ Happ), Hf, Hv2, Hack. by rewrite (bind_run _ _ _ _ _ Hrecv).
Qed.
End refund.
