(* ===== verification/Erc20Gen.v ===== *)
(** Genesis of x/erc20: what is exported is imported again, with the registry it
    was exported from; a registry with a disabled pair behind a precompile exports
    a genesis its own validation refuses. *)
From S2P Require Import Prelude KVStore Sdk StateDB StateDBInv StateDBType VmKeeper VmKeeperThms TxData StateTransition StateTransitionThms Erc20 Erc20Reg Erc20Keeper Erc20Ibc Erc20Thms.

#[local] Arguments address_bytes : simpl never.

Lemma put_list_elem {V} (l : list (bytes * V)) m k v : NoDup (map fst l) ->
  (put_list m l !! k = Some v) <-> ((k, v) ∈ l \/ ((k ∉ map fst l) /\ m !! k = Some v)).
Proof.
  unfold put_list. revert m. induction l as [|[k0 v0] l IH]; intros m Hnd; cbn [foldl map] in *.
  { split; [|by intros [?%not_elem_of_nil|[_ ?]]]. right. split; [apply not_elem_of_nil|done]. }
  apply NoDup_cons in Hnd as [Hn Hnd]. rewrite IH by done. rewrite not_elem_of_cons, elem_of_cons, lookup_insert_Some. cbn.
  split.
  - intros [?|[Hk [[<- <-]|[Hne Hm]]]]; [by left; right|by left; left|right; done].
  - intros [[[= -> ->]|?]|[[Hne Hk] Hm]]; [right; by split; [|left]|by left|right; split; [done|right; done]].
Qed.

Lemma bytes_str_back s : bytes_str (str_bytes s) = s.
Proof.
  unfold bytes_str, str_bytes. rewrite map_map. rewrite <- (String.string_of_list_ascii_of_string s) at 2. f_equal.
  induction (String.list_ascii_of_string s) as [|a l IH]; [done|]. cbn [map]. rewrite IH. f_equal.
  by rewrite Nat2Z.id, Ascii.ascii_nat_embedding.
Qed.

Section genesis.
Context `{CoinsLib, AddressCodec, Keccak, EthHex, !EthHexLaws, Tmhash, !TmhashLaws, IbcHash, Erc20Env, Erc20Abi}.

(** The code hash of a precompile can always be written. *)
Definition code_hash_writes : Prop := forall a s, is_ok (RegisterERC20CodeHash a s).1 = true.

Abbreviation key_of p := (address_bytes (GetERC20Contract p)).
Definition with_tokens (l : list TokenPair) (g : erc20_state) : erc20_state :=
  mkErc20 (er_enabled g) (er_permissionless g)
    (put_list (er_pairs g) (map (fun p => (GetID p, p)) l))
    (put_list (er_byERC20 g) (map (fun p => (key_of p, GetID p)) l))
    (put_list (er_byDenom g) (map (fun p => (str_bytes (tp_Denom p), GetID p)) l))
    (er_allowances g) (er_native g) (er_dynamic g).

Lemma set_tokens_run l g x ev :
  NoDup (map (fun p => key_of p) l) -> NoDup (map (fun p => str_bytes (tp_Denom p)) l) ->
  (forall p, p ∈ l -> er_byERC20 g !! key_of p = None /\ er_byDenom g !! str_bytes (tp_Denom p) = None) ->
  set_tokens l (E20 g x ev) = (Ok true, E20 (with_tokens l g) x ev).
Proof.
  revert g. induction l as [|p l IH]; intros g Hk Hd Hfree; [by destruct g|]. cbn [map] in *.
  apply NoDup_cons in Hk as [Hpk Hk], Hd as [Hpd Hd]. destruct (Hfree p ltac:(by left)) as [He Hn]. cbn [set_tokens].
  assert (SetToken p g = (Ok tt, with_tokens [p] g)) as Hset.
  { unfold SetToken. rewrite bind_gets. unfold IsDenomRegistered, IsERC20Registered, GetDenomMap, GetERC20Map.
    rewrite !bool_decide_false by (rewrite ?He, ?Hn; by intros [? ?]). done. }
  unfold bind, try, on_reg, zoom. cbn [e_reg e_x e_events]. rewrite Hset. rewrite IH; [done|done|done|].
  intros q Hq. destruct (Hfree q ltac:(by right)) as [Hqe Hqd]. cbn.
  rewrite !lookup_insert_ne; [done| |]; intros E; [apply Hpd; rewrite E|apply Hpk; rewrite E]; apply list_elem_of_fmap; eauto.
Qed.

(** The loops over precompiles. *)
Definition with_precompiles (ty : PrecompileType) (l : list string) : erc20_state -> erc20_state :=
  let put m := put_list m (map (fun a => (str_bytes (Address_Hex (HexToAddress a)), isTrue)) l) in
  match ty with PrecompileTypeNative => with_native put | PrecompileTypeDynamic => with_dynamic put end.
Definition Enable (ty : PrecompileType) : Address -> M e20_state unit :=
  match ty with PrecompileTypeNative => EnableNativePrecompile | PrecompileTypeDynamic => EnableDynamicPrecompile end.
Lemma enable_run ty a s : code_hash_writes ->
  exists s', or_panic (Enable ty (HexToAddress a)) s = (Ok tt, s') /\ e_reg s' = with_precompiles ty [a] (e_reg s).
Proof.
  intros Hc. pose proof (RegisterCodeHash_reg s (HexToAddress a) ty) as Hreg.
  assert (exists s1, RegisterCodeHash (HexToAddress a) ty s = (Ok tt, s1)) as [s1 Hs1].
  { unfold RegisterCodeHash. rewrite bind_gets. specialize (Hc (HexToAddress a) s).
    assert (exists s1, RegisterERC20CodeHash (HexToAddress a) s = (Ok tt, s1)) as [s1 Hs1].
    { destruct (RegisterERC20CodeHash _ s) as [[[]| |] s1]; try done. eauto. }
    destruct ty, (negb _); eauto. }
  rewrite Hs1 in Hreg. cbn in Hreg. exists (on_reg (modify (with_precompiles ty [a])) s1).2.
  split; [|cbn; by rewrite Hreg]. destruct ty; unfold or_panic, Enable, EnableNativePrecompile, EnableDynamicPrecompile, bind;
    by rewrite Hs1.
Qed.
Lemma enables_run ty l s : code_hash_writes ->
  exists s', each (fun a => or_panic (Enable ty (HexToAddress a))) l s = (Ok tt, s') /\
    e_reg s' = with_precompiles ty l (e_reg s).
Proof.
  intros Hc. revert s. induction l as [|a l IH]; intros s.
  - exists s. split; [done|]. destruct ty; by destruct (e_reg s).
  - destruct (enable_run ty a s Hc) as (s1 & Hs1 & Hr1). destruct (IH s1) as (s2 & Hs2 & Hr2). exists s2.
    split; [|rewrite Hr2, Hr1; by destruct ty]. cbn [each]. by rewrite (bind_run _ _ _ _ _ Hs1).
Qed.

(** The loop over allowances, on a registry with the pairs of [s]. *)
Lemma allowance_run s g x ev k al : reg_wf s -> er_pairs g = er_pairs s -> er_byERC20 g = er_byERC20 s ->
  allowance_ok s k al ->
  or_panic (on_reg (UnsafeSetAllowance (HexToAddress (al_Erc20 al)) (HexToAddress (al_Owner al))
    (HexToAddress (al_Spender al)) (Some (al_Value al)))) (E20 g x ev)
  = (Ok tt, E20 (with_allowances <[k := al]> g) x ev).
Proof.
  intros Hw Hp Hm (t & o & sp & v & Ht & Ho & Hsp & No & Ns & Hv & -> & -> & [id Hid]). cbn [al_Erc20 al_Owner al_Spender al_Value].
  rewrite !hex_address by done. destruct (rw_erc20 s Hw _ _ Hid) as (p & Hpp & _).
  assert (GetTokenPair g (GetERC20Map g t) = Some p) as Hg.
  { unfold GetERC20Map. rewrite Hm, Hid. pose proof (GetTokenPair_stored s id p Hw Hpp) as Hs. unfold GetTokenPair in *.
    by rewrite Hp. }
  assert (int_fits v = true) as Hf by (unfold int_fits; apply Z.ltb_lt; lia).
  unfold or_panic, on_reg, zoom, UnsafeSetAllowance, setAllowance. cbn [e_reg]. rewrite bind_gets, Hg. cbn [negb andb].
  destruct (Z.eqb_spec o 0); [done|]. destruct (Z.eqb_spec sp 0); [done|]. destruct (Z.ltb_spec v 0); [lia|].
  rewrite Hf. cbn [negb]. destruct (Z.eqb_spec v 0); [lia|]. unfold NewAllowance, int_chk. by rewrite Hf.
Qed.
Lemma allowances_run s l g x ev : reg_wf s -> er_pairs g = er_pairs s -> er_byERC20 g = er_byERC20 s ->
  Forall (fun kv => allowance_ok s kv.1 kv.2) l ->
  each (fun a => or_panic (on_reg (UnsafeSetAllowance (HexToAddress (al_Erc20 a)) (HexToAddress (al_Owner a))
    (HexToAddress (al_Spender a)) (Some (al_Value a))))) l.*2 (E20 g x ev)
  = (Ok tt, E20 (with_allowances (fun m => put_list m l) g) x ev).
Proof.
  intros Hw. revert g. induction l as [|[k al] l IH]; intros g Hp Hm Hl; [by destruct g|].
  apply Forall_cons in Hl as [Hal Hl]. cbn [fmap list_fmap each snd].
  rewrite (bind_run _ _ _ _ _ (allowance_run s g x ev k al Hw Hp Hm Hal)). by rewrite IH.
Qed.

(** ** The registry rebuilt *)

Lemma map_iterate {V} (f : bytes * V -> bytes * V) (m : gmap bytes V) :
  (forall k v, m !! k = Some v -> f (k, v) = (k, v)) -> put_list ∅ (map f (iterate [] m)) = m.
Proof.
  intros Hf. rewrite <- (put_list_iterate m) at 2. f_equal. rewrite <- (map_id (iterate [] m)) at 2.
  apply map_ext_in. intros [k v] Hin. apply list_elem_of_In, elem_of_iterate in Hin as [Hk _]. by apply Hf.
Qed.

(** An index of the pairs by a key no two of them share. *)
Lemma index_back (key : TokenPair -> bytes) (m : gmap bytes bytes) s : reg_wf s ->
  (forall id p, er_pairs s !! id = Some p -> m !! key p = Some id) ->
  (forall k id, m !! k = Some id -> exists p, er_pairs s !! id = Some p /\ k = key p) ->
  NoDup (map key (GetTokenPairs s)) /\ put_list ∅ (map (fun p => (key p, GetID p)) (GetTokenPairs s)) = m.
Proof.
  intros Hw Hto Hfrom. set (l := iterate [] (er_pairs s)).
  assert (NoDup (map (fun kv : bytes * TokenPair => key kv.2) l)) as Hnd.
  { apply NoDup_fmap_2_strong; [|apply (NoDup_fmap_1 fst), iterate_NoDup].
    intros [i p] [j q] [Hi _]%elem_of_iterate [Hj _]%elem_of_iterate E. cbn in E.
    pose proof (Hto _ _ Hi) as Ei. pose proof (Hto _ _ Hj) as Ej. rewrite E in Ei. congruence. }
  unfold GetTokenPairs. fold l. change (l.*2) with (map snd l). rewrite !map_map. split; [done|].
  apply map_eq. intros k. apply option_eq. intros id. rewrite put_list_elem by (by rewrite map_map).
  rewrite lookup_empty. split.
  - intros [Hin|[_ ?]]; [|done]. apply list_elem_of_fmap in Hin as ([i p] & [= -> ->] & Hin). apply elem_of_iterate in Hin as [Hp _]. cbn.
    destruct (rw_pair s Hw _ _ Hp) as (-> & _). by apply Hto.
  - intros (p & Hp & ->)%Hfrom. left. apply list_elem_of_fmap. exists (id, p). cbn.
    destruct (rw_pair s Hw _ _ Hp) as (-> & _). split; [done|]. by apply elem_of_iterate.
Qed.

Lemma precompiles_back (s : erc20_state) (m : gmap bytes bytes) :
  (forall k v, m !! k = Some v -> v = isTrue /\ precompile_ok s k) ->
  put_list ∅ (map (fun a => (str_bytes (Address_Hex (HexToAddress a)), isTrue)) (map bytes_str (iterate [] m).*1)) = m.
Proof.
  intros Hm. change ((iterate [] m).*1) with (map fst (iterate [] m)). rewrite !map_map. apply map_iterate.
  intros k v Hk. destruct (Hm _ _ Hk) as (-> & t & id & p & Ht & -> & _). cbn [fst]. by rewrite bytes_str_back, hex_address.
Qed.

(** A genesis exported from a consistent registry is imported without an error,
    and gives the registry back: parameters, pairs and both indices, allowances and
    precompiles. *)
Theorem erc20_genesis_roundtrip s enabled permissionless x ev : reg_wf s -> code_hash_writes ->
  exists s', erc20_InitGenesis true (erc20_ExportGenesis s) (E20 (reg_empty enabled permissionless) x ev) = (Ok tt, s') /\
    e_reg s' = s.
Proof.
  intros Hw Hc. unfold erc20_InitGenesis. cbn [negb].
  destruct (index_back (fun p => key_of p) (er_byERC20 s) s Hw) as [Hk Ha];
    [intros; by apply (rw_pair s Hw)|apply (rw_erc20 s Hw)|].
  destruct (index_back (fun p => str_bytes (tp_Denom p)) (er_byDenom s) s Hw) as [Hd Hb];
    [intros; by apply (rw_pair s Hw)|apply (rw_denom s Hw)|].
  set (g0 := erc20_SetParams (erc20_GetParams s) (reg_empty enabled permissionless)).
  rewrite (bind_run _ _ _ tt (E20 g0 x ev)) by done.
  rewrite (bind_run _ _ _ _ _ (set_tokens_run (GetTokenPairs s) g0 x ev Hk Hd ltac:(intros; split; apply lookup_empty))).
  cbn [negb]. set (g1 := with_tokens _ g0).
  destruct (enables_run PrecompileTypeNative (eg_NativePrecompiles (erc20_ExportGenesis s)) (E20 g1 x ev) Hc) as (s2 & Hs2 & Hg2).
  destruct (enables_run PrecompileTypeDynamic (eg_DynamicPrecompiles (erc20_ExportGenesis s)) s2 Hc) as (s3 & Hs3 & Hg3).
  rewrite (bind_run _ _ _ _ _ Hs2), (bind_run _ _ _ _ _ Hs3). cbn [eg_Allowances erc20_ExportGenesis]. unfold GetAllowances.
  destruct s3 as [g3 x3 ev3]. cbn [e_reg] in *. rewrite Hg2 in Hg3. clear Hs2 Hs3.
  assert (er_pairs g1 = er_pairs s) as Hp1.
  { unfold g1. cbn. unfold GetTokenPairs. change (?l.*2) with (map snd l). rewrite map_map. apply map_iterate.
    intros k p Hp. cbn. by destruct (rw_pair s Hw _ _ Hp) as (-> & _). }
  rewrite (allowances_run s); [|done|by rewrite Hg3|by rewrite Hg3|].
  - eexists. split; [done|]. cbn [e_reg]. rewrite Hg3. unfold with_precompiles, with_native, with_dynamic, with_allowances.
    cbn [er_enabled er_permissionless er_pairs er_byERC20 er_byDenom er_allowances er_native er_dynamic].
    change (er_native g1) with (∅ : gmap bytes bytes). change (er_dynamic g1) with (∅ : gmap bytes bytes).
    change (er_allowances g1) with (∅ : gmap bytes Allowance).
    unfold erc20_ExportGenesis, eg_NativePrecompiles, eg_DynamicPrecompiles, GetNativePrecompiles, GetDynamicPrecompiles.
    rewrite (precompiles_back s (er_native s) (rw_native s Hw)), (precompiles_back s (er_dynamic s) (rw_dynamic s Hw)).
    rewrite put_list_iterate, Hp1. unfold g1. cbn. rewrite Ha, Hb. by destruct s.
  - apply Forall_forall. intros [k al] [Hal _]%elem_of_iterate. by apply (rw_allowance s Hw).
Qed.

(** A registry in which governance has disabled the pair of an enabled dynamic
    precompile exports a genesis that its own validation refuses. *)
Theorem exported_genesis_rejected s t p : reg_wf s -> address_ok t ->
  IsDynamicPrecompileAvailable s t = true -> GetTokenPair s (GetERC20Map s t) = Some p -> Enabled p = false ->
  Erc20Genesis_Validate (erc20_ExportGenesis s) <> Ok tt.
Proof.
  intros Hw Ht Hav Hp Hdis Hv. unfold Erc20Genesis_Validate in Hv. apply rbind_ok in Hv as (seen & _ & Hv).
  apply rbind_ok in Hv as ([] & Hd & _). unfold validatePrecompiles in Hd. rewrite each_res_ok, Forall_forall in Hd.
  apply bool_decide_eq_true in Hav as [v Hk]. specialize (Hd (Address_Hex t)).
  assert (Address_Hex t ∈ eg_DynamicPrecompiles (erc20_ExportGenesis s)) as Hin.
  { cbn [erc20_ExportGenesis eg_DynamicPrecompiles]. apply list_elem_of_fmap. exists (str_bytes (Address_Hex t)).
    split; [by rewrite bytes_str_back|]. apply list_elem_of_fmap. exists (str_bytes (Address_Hex t), v).
    split; [done|]. by apply elem_of_iterate. }
  specialize (Hd Hin). destruct (hasActiveTokenPair _ _) eqn:Hact; [|done]. unfold hasActiveTokenPair in Hact.
  apply existsb_exists in Hact as (q & Hq & Hqa). zbool. apply list_elem_of_In in Hq.
  apply list_elem_of_fmap in Hq as ([id r] & -> & Hq). apply elem_of_iterate in Hq as [Hq _]. cbn [snd] in *.
  apply GetTokenPair_inv in Hp as (id' & Hid & Hp). destruct (rw_pair s Hw _ _ Hq) as (_ & _ & Hm & _).
  unfold GetERC20Contract in Hm. unfold GetERC20Map in Hid. rewrite H9, hex_address in Hm by done. congruence.
Qed.
End genesis.
