(* ===== verification/Erc20Model.v ===== *)
(** A concrete world for x/erc20: the bank of [BankModel] beside token contracts,
    one of them paused, on which the theorems about the registry, the conversions
    and the genesis are instantiated. *)
From S2P Require Import Prelude KVStore Sdk BankModel StateDB StateDBInv StateDBType VmKeeper VmKeeperThms EvmCompose TxData EthModel StateTransition StateTransitionThms.
From S2P Require Import Erc20 Erc20Reg Erc20Keeper Erc20Ibc Erc20Thms Erc20Conv Erc20Gen.

#[local] Arguments address_bytes : simpl never.

(** * Hashes and packets *)

#[global] Instance ModelTmhash : Tmhash := {| tmhash_Sum b := 1 :: b |}.
#[global] Instance ModelTmhashLaws : TmhashLaws.
Proof. split; [by intros x y [= ->]|done]. Qed.
#[global] Instance ModelIbcHash : IbcHash := {| ParseHexHash s := Some (str_bytes s) |}.
#[global] Instance ModelIbcHashLaws : IbcHashLaws.
Proof.
  split. intros s h [= <-]. unfold str_bytes. apply Forall_forall. intros z Hz.
  apply list_elem_of_fmap in Hz as (a & -> & _). pose proof (Ascii.nat_ascii_bounded a). lia.
Qed.

(** * Token contracts *)

Record world := mkWorld {
  w_bank : m_bank; w_tokens : gmap (Z * Z) Z; w_accounts : gmap Z Account; w_code : gmap Z bytes;
  w_metadata : gmap string Metadata;
}.
Definition w_on_bank {A} (m : M m_bank A) : M world A :=
  zoom w_bank (fun b w => mkWorld b (w_tokens w) (w_accounts w) (w_code w) (w_metadata w)) m.
Definition w_balance (c : Address) (w : world) (a : Address) : Z := default 0 (w_tokens w !! (c, a)) mod 2 ^ 256.
Definition w_module : Address := BytesToAddress (mb_module "erc20").
Definition w_token : Address := 500.
Definition w_paused : Address := 501.
Definition w_answer (b : bytes) (logs : list Log) : MsgEthereumTxResponse := mkResponse 0 logs b "" 30000.
Definition w_set_tokens (f : gmap (Z * Z) Z -> gmap (Z * Z) Z) (w : world) : world :=
  mkWorld (w_bank w) (f (w_tokens w)) (w_accounts w) (w_code w) (w_metadata w).
Definition w_transfer (c from to : Address) (n : Z) (w : world) : world :=
  let w := w_set_tokens <[(c, from) := w_balance c w from - n]> w in
  w_set_tokens <[(c, to) := w_balance c w to + n]> w.
Definition w_call (from c : Address) (data : bytes) (commit : bool) (s : erc20_state * world)
    : res MsgEthereumTxResponse * (erc20_state * world) :=
  match data with
  | 1 :: args =>
      let to := be_decode 0 (take 20 args) in
      let n := be_decode 0 (drop 20 args) in
      if (c =? w_paused) || (w_balance c s.2 from <? n) then (Err (Error ErrVMExecution ErrExecutionReverted), s)
      else (Ok (w_answer [1] []), if commit then (s.1, w_transfer c from to n s.2) else s)
  | 2 :: args => (Ok (w_answer (be 32 (w_balance c s.2 (be_decode 0 args))) []), s)
  | 3 :: name => (Ok (w_answer name []), s)
  | _ => (Err (Error ErrVMExecution ErrExecutionReverted), s)
  end.

#[global] Instance ModelErc20Env : Erc20Env := {|
  X := world;
  xb_GetBalance w a d := Ok (Coin d (mb_balance (w_bank w) a d));
  xb_BlockedAddr a := bool_decide (a = mb_module "erc20");
  xb_IsSendEnabled _ _ := true;
  xb_MintCoins m cs := w_on_bank (bk_MintCoins m cs);
  xb_BurnCoins m cs := w_on_bank (bk_BurnCoins m cs);
  xb_SendCoinsFromAccountToModule a m cs := w_on_bank (bk_SendCoinsFromAccountToModule a m cs);
  xb_SendCoinsFromModuleToAccount m a cs := w_on_bank (bk_SendCoinsFromModuleToAccount m a cs);
  xb_GetDenomMetaData w d := w_metadata w !! d;
  xb_SetDenomMetaData md w := mkWorld (w_bank w) (w_tokens w) (w_accounts w) (w_code w) (<[md_Base md := md]> (w_metadata w));
  metadata_Validate _ := Ok tt;
  xa_IsModuleAccount _ a := bool_decide (a = mb_module "erc20");
  xs_BondDenom _ := Ok "agxn";
  xe_GetAccountWithoutBalance w a := w_accounts w !! a;
  xe_GetAccount w a := inr (w_accounts w !! a);
  xe_SetAccount a acc w :=
    (Ok tt, mkWorld (w_bank w) (w_tokens w) (<[a := acc]> (w_accounts w)) (w_code w) (w_metadata w));
  xe_GetCode w h := w_code w !! h;
  xe_SetCode h b w := mkWorld (w_bank w) (w_tokens w) (w_accounts w) (<[h := b]> (w_code w)) (w_metadata w);
  xe_CallEVMWithData from to data commit :=
    match to with Some c => w_call from c data commit | None => fail ErrVMExecution "no contract" end;
|}.
Definition w_word (z : Z) : bool := (0 <=? z) && (z <? 2 ^ 256).
#[global] Instance ModelErc20Abi : Erc20Abi := {|
  pack_transfer to n :=
    if w_word n && (0 <=? to) && (to <? 2 ^ 160) then Ok (1 :: be 20 to ++ be 32 n) else Err (Error ErrOther "pack");
  pack_balanceOf a := if (0 <=? a) && (a <? 2 ^ 160) then Ok (2 :: be 20 a) else Err (Error ErrOther "pack");
  pack_getter name := Ok (3 :: str_bytes name);
  unpack_bool b := match b with [z] => Some (z =? 1) | _ => None end;
  unpack_balance b := if (length b =? 32)%nat then Some (be_decode 0 b) else None;
  unpack_string b := Some (bytes_str b);
  unpack_uint8 b := Some 6;
  Erc20Bytecode := [96; 128];
|}.

(** The contracts leave the registry alone. *)
#[global] Instance ModelErc20CallLaws : Erc20CallLaws.
Proof.
  split. intros from to data commit r x a r' x' Hr. destruct to as [c|]; [|by injection Hr as <- <- <-].
  unfold xe_CallEVMWithData, ModelErc20Env, w_call in Hr. cbn [fst snd] in Hr.
  destruct data as [|z args]; [by injection Hr as <- <- <-|].
  repeat case_match; by injection Hr as <- <- <-.
Qed.

(** * The laws of the theorems hold *)

Lemma w_amount d n : m_amount_of [Coin d n] d = n.
Proof. unfold m_amount_of, lsum. cbn. unfold m_weight. cbn. rewrite decide_True by done. lia. Qed.

Definition w_supply (d : string) (w : world) : Z := mb_supply (w_bank w) d.
Lemma w_bank_laws c d : bank_laws d (w_supply d) (w_balance c).
Proof.
  split.
  - intros n x x' Hr. unfold xb_MintCoins, ModelErc20Env, w_on_bank in Hr. apply zoom_ok in Hr as (b & Hr & ->).
    unfold bk_MintCoins, ModelBank in Hr. destruct (m_valid _); [|done]. injection Hr as <-. split; [|done].
    unfold w_supply. cbn [w_bank mb_supply mb_issue]. rewrite w_amount. lia.
  - intros n x x' Hr. unfold xb_BurnCoins, ModelErc20Env, w_on_bank in Hr. apply zoom_ok in Hr as (b & Hr & ->).
    unfold bk_BurnCoins, ModelBank in Hr. destruct (m_valid _); [|done]. cbn [negb] in Hr.
    destruct (mb_enough _ _ _); [|done]. injection Hr as <-. split; [|done]. unfold w_supply. cbn [w_bank mb_supply mb_issue]. rewrite w_amount. lia.
  - intros a n x x' Hr. unfold xb_SendCoinsFromAccountToModule, ModelErc20Env, w_on_bank in Hr. apply zoom_ok in Hr as (b & Hr & ->).
    unfold bk_SendCoinsFromAccountToModule, ModelBank, mb_send in Hr. destruct (m_valid _); [|done]. cbn [negb] in Hr.
    destruct (mb_enough _ _ _); [|done]. by injection Hr as <-.
  - intros a n x x' Hr. unfold xb_SendCoinsFromModuleToAccount, ModelErc20Env, w_on_bank in Hr. apply zoom_ok in Hr as (b & Hr & ->).
    unfold bk_SendCoinsFromModuleToAccount, ModelBank, mb_send in Hr. destruct (m_valid _); [|done]. cbn [negb] in Hr.
    destruct (mb_enough _ _ _); [|done]. by injection Hr as <-.
Qed.

(** [balanceOf] of the model, on the state and on the answer. *)
Lemma w_balance_read c a g w r g' w' : BalanceOf w_module c a (g, w) = (r, (g', w')) ->
  (g', w') = (g, w) /\ (r = Ok (Some (w_balance c w a)) \/ r = Ok None).
Proof.
  unfold BalanceOf, CallEVM, pack_balanceOf, ModelErc20Abi. destruct (_ && _) eqn:Ha; [|intros [= <- <- <-]; auto]; cbv iota.
  unfold wrapping, xe_CallEVMWithData, ModelErc20Env, w_call. cbn [fst snd]. intros E.
  pose proof (f_equal fst E) as Er. pose proof (f_equal snd E) as Es. clear E. cbn [fst snd] in Er, Es. split; [done|]. left.
  rewrite <- Er. cbn [r_Ret w_answer]. unfold unpack_balance. rewrite be_length, Nat.eqb_refl. zbool.
  rewrite (be_roundtrip 20) by (change (256 ^ Z.of_nat 20) with (2 ^ 160); lia).
  do 2 f_equal. apply be_roundtrip. change (256 ^ Z.of_nat 32) with (2 ^ 256). apply Z.mod_pos_bound. done.
Qed.
Lemma w_transfer_call from c to n data g w r g' w' : pack_transfer to n = Ok data ->
  xe_CallEVMWithData from (Some c) data true (g, w) = (Ok r, (g', w')) ->
  0 <= n < 2 ^ 256 /\ n <= w_balance c w from /\ w' = w_transfer c from to n w.
Proof.
  unfold pack_transfer, ModelErc20Abi. destruct (_ && _) eqn:Ha; [|done]. intros E.
  assert (data = 1 :: be 20 to ++ be 32 n) as -> by congruence. clear E. unfold w_word in Ha. zbool. unfold xe_CallEVMWithData, ModelErc20Env, w_call. cbn [fst snd].
  rewrite take_app_length', drop_app_length' by (by rewrite be_length).
  rewrite (be_roundtrip 20), (be_roundtrip 32) by
    (first [change (256 ^ Z.of_nat 20) with (2 ^ 160)|change (256 ^ Z.of_nat 32) with (2 ^ 256)]; lia).
  destruct (_ || _) eqn:Hc; [done|]. intros E. pose proof (f_equal (fun q => q.2.2) E) as Es. cbn [snd] in Es. zbool. done.
Qed.
Lemma w_token_laws c d : token_laws w_module c (w_supply d) (w_balance c).
Proof.
  split. intros a g x b g' x' Hr. apply w_balance_read in Hr as [[= -> ->] [[= ->]|[=]]]. done.
Qed.
(** The contract of the model takes from the module what the module sends. *)
Lemma w_takes c to n data g x r g' x' : pack_transfer to n = Ok data ->
  xe_CallEVMWithData w_module (Some c) data true (g, x) = (Ok r, (g', x')) ->
  w_balance c x w_module - n <= w_balance c x' w_module.
Proof.
  intros Hd Hr. apply (w_transfer_call _ _ _ _ _ _ _ _ _ _ Hd) in Hr as (Hn & Hle & ->).
  assert (0 <= w_balance c x w_module < 2 ^ 256) as Hb by (by apply Z.mod_pos_bound).
  unfold w_transfer. set (x1 := w_set_tokens _ x).
  assert (w_balance c x1 w_module = w_balance c x w_module - n) as H1.
  { unfold x1, w_balance at 1, w_set_tokens. cbn [w_tokens]. rewrite lookup_insert_eq. cbn [default]. unfold default, id.
    apply Z.mod_small. lia. }
  unfold w_balance at 2, w_set_tokens. cbn [w_tokens]. destruct (decide (to = w_module)) as [->|Hne].
  - rewrite lookup_insert_eq. unfold default, id. rewrite H1. unfold Datatypes.id. rewrite Z.mod_small; lia.
  - rewrite lookup_insert_ne by congruence. fold (w_balance c x1 w_module). lia.
Qed.
Lemma w_fair c d : fair w_module c (w_supply d) (w_balance c).
Proof.
  split.
  - intros from n data g x r g' x' Hd Hr. left. by apply (w_transfer_call _ _ _ _ _ _ _ _ _ _ Hd) in Hr as (_ & _ & ->).
  - intros to n data g x r g' x' Hd Hr. pose proof (w_takes c _ _ _ _ _ _ _ _ Hd Hr) as Hh.
    apply (w_transfer_call _ _ _ _ _ _ _ _ _ _ Hd) in Hr as (_ & _ & ->). unfold slack. change (w_supply d (w_transfer c w_module to n x)) with (w_supply d x). lia.
Qed.

(** * A registry of three pairs: a token, a paused token, a coin of another chain *)

Definition w_alice : Address := 11.
Definition w_bob : Address := 12.
Definition w_acc (a : Address) : string := bech32_of (address_bytes a).
Definition w_denom (c : Address) : string := CreateDenom (Address_Hex c).
Definition w_pair (c : Address) : TokenPair := NewTokenPair c (w_denom c) OWNER_EXTERNAL.
Definition w_reg : erc20_state := (SetToken (w_pair w_paused) (SetToken (w_pair w_token) (reg_empty true true)).2).2.
Definition w_world : world :=
  mkWorld
    (MBank (fun a d => if bool_decide (a = address_bytes w_alice) then
              if bool_decide (d = w_denom w_token) then 9 else if bool_decide (d = w_denom w_paused) then 5 else 0 else 0)
       (fun d => if bool_decide (d = w_denom w_token) then 9 else if bool_decide (d = w_denom w_paused) then 5 else 0))
    {[ (w_token, w_alice) := 100; (w_token, w_module) := 9; (w_paused, w_module) := 5 ]}
    {[ w_token := mkAccount 1 (Some 0) (Some 77); w_paused := mkAccount 1 (Some 0) (Some 77) ]} ∅ ∅.
Definition w_start : e20_state := E20 w_reg w_world [].

Lemma w_pair_hex c : address_ok c -> IsHexAddress (Erc20Address (w_pair c)) = true.
Proof. apply hex_is_address. Qed.
Lemma w_reg_wf : reg_wf w_reg.
Proof.
  unfold w_reg. set (s1 := (SetToken (w_pair w_token) _).2).
  assert (reg_wf s1) as H1.
  { eapply SetToken_wf; [apply (reg_empty_wf true true)|by apply (w_pair_hex w_token)|]. apply surjective_pairing. }
  eapply SetToken_wf; [exact H1|by apply (w_pair_hex w_paused)|]. apply surjective_pairing.
Qed.

#[global] Instance ModelIcs20 : Ics20 := {|
  decode_data b := Some (mkTokenData (bytes_str b) "7" ("guru1" ++ w_acc w_alice) ("guru1" ++ w_acc w_bob));
  ExtractDenomFromPath d := mkDenom d [];
  denom_HasPrefix _ _ _ := false;
  IBCDenom d := match dn_Trace d with [] => dn_Base d | (_, c) :: _ => ("ibc/" ++ c ++ dn_Base d)%string end;
  int_of_string s := Some (Z.of_nat (String.length s));
  GetFromBech32 s hrp := let n := S (String.length hrp) in acc_of_bech32 (String.substring n (String.length s - n) s);
  VerifyAddressFormat b := (length b =? 20)%nat;
|}.

Definition w_convert : MsgConvertERC20 := mkConvertERC20 (Address_Hex w_token) 30 (w_acc w_alice) (Address_Hex w_alice).
Definition w_back : MsgConvertCoin := mkConvertCoin (Coin (w_denom w_token) 4) (Address_Hex w_bob) (w_acc w_alice).
Definition w_packet : Packet := mkPacket "transfer" "channel-0" "transfer" "channel-1" (str_bytes "uatom").

(** A conversion, a registration, a transfer that arrives with a new coin, an
    allowance and governance. *)
Lemma erc20_registry_consistent_witness :
  exists l, Forall call_ok l /\ reg_wf (e_reg (run_calls w_module "gov" l w_start)) /\
    length (GetTokenPairs (e_reg (run_calls w_module "gov" l w_start))) = 4%nat.
Proof.
  exists [CallConvertERC20 w_convert; CallRegisterERC20 "anyone" [Address_Hex 600]; CallOnRecv w_packet;
    CallSetAllowance w_token w_alice w_bob (Some 8); CallToggleConversion "gov" (w_denom w_token); CallConvertCoin w_back].
  assert (Forall call_ok [CallConvertERC20 w_convert; CallRegisterERC20 "anyone" [Address_Hex 600]; CallOnRecv w_packet;
    CallSetAllowance w_token w_alice w_bob (Some 8); CallToggleConversion "gov" (w_denom w_token); CallConvertCoin w_back])
    as Hok by (repeat constructor; done).
  split_and!; [exact Hok| |vm_compute; reflexivity].
  apply (erc20_registry_consistent w_module "gov" _ w_start w_reg_wf Hok).
Defined.

(** * Conversions: 30 tokens of Alice into coins, then 4 coins into tokens of Bob *)

Definition w_converted : e20_state := (ConvertERC20 w_module w_convert w_start).2.
Definition w_returned : e20_state := (ConvertCoin w_module w_back w_converted).2.
Lemma w_converted_fst : (ConvertERC20 w_module w_convert w_start).1 = Ok tt.
Proof. vm_compute. reflexivity. Qed.
Lemma w_converted_ok : ConvertERC20 w_module w_convert w_start = (Ok tt, w_converted).
Proof. exact (run_fst (ConvertERC20 w_module w_convert) w_start (Ok tt) w_converted_fst). Qed.
Lemma w_returned_fst : (ConvertCoin w_module w_back w_converted).1 = Ok tt.
Proof. vm_compute. reflexivity. Qed.
Lemma w_returned_ok : ConvertCoin w_module w_back w_converted = (Ok tt, w_returned).
Proof. exact (run_fst (ConvertCoin w_module w_back) w_converted (Ok tt) w_returned_fst). Qed.
Lemma w_resolves s token id : GetTokenPairID (e_reg s) token = Some id -> er_pairs (e_reg s) !! id = Some (w_pair w_token) ->
  resolves w_token (w_denom w_token) s token.
Proof.
  intros Hid Hp id' p Hid' Hp'. rewrite Hid in Hid'. injection Hid' as <-. rewrite Hp in Hp'. injection Hp' as <-.
  split; [by apply (hex_address w_token)|done].
Qed.
Lemma w_resolves_token : resolves w_token (w_denom w_token) w_start (Address_Hex w_token).
Proof. apply (w_resolves _ _ (GetID (w_pair w_token))); vm_compute; reflexivity. Qed.
Lemma w_resolves_coin : resolves w_token (w_denom w_token) w_converted (w_denom w_token).
Proof. apply (w_resolves _ _ (GetID (w_pair w_token))); vm_compute; reflexivity. Qed.

Lemma ConvertERC20_exact_witness :
  w_supply (w_denom w_token) (e_x w_start) = 9 /\ exists receiver p, acc_of_bech32 (ce_Receiver w_convert) = Some receiver /\
    Enabled p = true /\ xb_BlockedAddr receiver = false /\
    if selfdestructed w_start p
    then w_converted = E20 (DeleteTokenPair p (e_reg w_start)) (e_x w_start) (e_events w_start)
    else token_to_coin w_module w_token (w_denom w_token) (w_supply (w_denom w_token)) (w_balance w_token)
      (HexToAddress (ce_Sender w_convert)) receiver 30 w_start w_converted.
Proof.
  split; [reflexivity|].
  exact (ConvertERC20_exact w_module w_token (w_denom w_token) (w_supply (w_denom w_token)) (w_balance w_token)
    (w_bank_laws w_token (w_denom w_token)) (w_token_laws w_token (w_denom w_token)) w_convert w_start w_converted
    w_resolves_token w_converted_ok).
Defined.
Lemma ConvertCoin_exact_witness :
  exists p, Enabled p = true /\
    if selfdestructed w_converted p
    then w_returned = E20 (DeleteTokenPair p (e_reg w_converted)) (e_x w_converted) (e_events w_converted)
    else coin_to_token w_module w_token (w_supply (w_denom w_token)) (w_balance w_token)
      (HexToAddress (cc_Receiver w_back)) 4 w_converted w_returned.
Proof.
  exact (ConvertCoin_exact w_module w_token (w_denom w_token) (w_supply (w_denom w_token)) (w_balance w_token)
    (w_bank_laws w_token (w_denom w_token)) (w_token_laws w_token (w_denom w_token)) w_back w_converted w_returned
    w_resolves_coin w_returned_ok).
Defined.
Lemma conversions_keep_backing_witness :
  backed w_module (w_supply (w_denom w_token)) (w_balance w_token) w_start /\ backed w_module (w_supply (w_denom w_token)) (w_balance w_token) w_returned.
Proof.
  assert (backed w_module (w_supply (w_denom w_token)) (w_balance w_token) w_start) as Hb by (vm_compute; discriminate). split; [exact Hb|].
  refine (proj2 (conversions_keep_backing w_module w_token (w_denom w_token) (w_supply (w_denom w_token)) (w_balance w_token)
    (w_bank_laws w_token (w_denom w_token)) (w_token_laws w_token (w_denom w_token)) w_start w_returned
    (w_fair w_token (w_denom w_token)) _) Hb).
  eapply rtc_l; [exact (conv_tokens w_module w_token (w_denom w_token) w_convert _ _ w_resolves_token w_converted_ok)|].
  eapply rtc_once, (conv_coins w_module w_token (w_denom w_token) w_back _ _ w_resolves_coin w_returned_ok).
Defined.

(** * A refund of the paused token *)

Definition w_refund : FungibleTokenPacketData := mkTokenData (w_denom w_paused) "abc" (w_acc w_alice) "elsewhere".
Definition w_coins (w : world) (a : addr) : Z := mb_balance (w_bank w) a (w_denom w_paused).
Lemma w_refund_laws : refund_laws w_module (w_denom w_paused) w_coins (mb_module "erc20").
Proof.
  split.
  - intros a n x x' Hne Hr. unfold xb_SendCoinsFromAccountToModule, ModelErc20Env, w_on_bank in Hr. apply zoom_ok in Hr as (b & Hr & ->).
    change (bk_SendCoinsFromAccountToModule a erc20_ModuleName) with (bk_SendCoins a (mb_module "erc20")) in Hr.
    destruct (@bank_send_ok ModelCoins ModelBank ModelAccounts _ a (mb_module "erc20") [Coin (w_denom w_paused) n] _ _ Hr) as (Hm & _).
    pose proof (Hm a (w_denom w_paused)) as Ha. pose proof (Hm (mb_module "erc20") (w_denom w_paused)) as Hb.
    change (amount_of [Coin (w_denom w_paused) n] (w_denom w_paused)) with (m_amount_of [Coin (w_denom w_paused) n] (w_denom w_paused)) in *.
    rewrite w_amount in *. rewrite decide_True, decide_False in Ha by done. rewrite decide_False, decide_True in Hb by done.
    unfold w_coins. cbn [w_bank]. change (@bk_balance ModelCoins ModelBank) with mb_balance in *. lia.
  - intros c a g x r g' x' Hr b. by apply w_balance_read in Hr as [[= -> ->] _].
  - intros from c data g x e g' x' Hr b. unfold CallEVM in Hr. destruct data as [d|e'|m]; [|by injection Hr as <- <- <-|done].
    unfold wrapping, xe_CallEVMWithData, ModelErc20Env, w_call in Hr. cbn [fst snd] in Hr.
    destruct d as [|z args]; [by injection Hr as <- <- <-|]. repeat case_match; simplify_eq; done.
Qed.
Lemma run_fst2 {S T A} (m : M (S * T) A) s r : (m s).1 = r -> m s = (r, ((m s).2.1, (m s).2.2)).
Proof. destruct (m s) as [? [? ?]]. simpl. by intros ->. Qed.
Definition w_read := BalanceOf w_module w_paused w_alice (w_reg, w_world).
Definition w_escrow := xb_SendCoinsFromAccountToModule (address_bytes w_alice) erc20_ModuleName
  [Coin (w_denom w_paused) 3] w_read.2.2.
Definition w_revert := CallEVM w_module w_paused true (pack_transfer w_alice 3) (w_read.2.1, w_escrow.2).
Lemma w_read_ok : w_read.1 = Ok (Some 0).
Proof. vm_compute. reflexivity. Qed.
Lemma w_escrow_ok : w_escrow.1 = Ok tt.
Proof. vm_compute. reflexivity. Qed.
Lemma w_revert_ok : w_revert.1 = Err (Error ErrVMExecution "contract call failed: execution reverted").
Proof. vm_compute. reflexivity. Qed.

Definition w_error : error := Error ErrVMExecution "contract call failed: execution reverted".
Lemma w_call_fails : call_fails w_module (w_denom w_paused) w_start (w_pair w_paused) (address_bytes w_alice) 3 w_error
  w_revert.2.1 w_revert.2.2.
Proof.
  apply (call_fails_at _ _ _ _ _ _ _ _ _ 0 w_read.2.1 w_read.2.2 w_escrow.2).
  - exact (run_fst2 (BalanceOf w_module w_paused w_alice) (w_reg, w_world) _ w_read_ok).
  - exact (run_fst (xb_SendCoinsFromAccountToModule (address_bytes w_alice) erc20_ModuleName [Coin (w_denom w_paused) 3])
      w_read.2.2 _ w_escrow_ok).
  - exact (run_fst2 (CallEVM w_module w_paused true (pack_transfer w_alice 3)) (w_read.2.1, w_escrow.2) _ w_revert_ok).
Qed.

(** Alice asked to send 3 coins of a paused token; the transfer timed out. *)
Lemma refund_failure_keeps_coins_witness :
  exists s', OnTimeoutPacket w_module w_refund w_start = (Ok tt, s') /\
    w_coins (e_x s') (address_bytes w_alice) = w_coins (e_x w_start) (address_bytes w_alice) - 3 /\
    w_coins (e_x s') (mb_module "erc20") = w_coins (e_x w_start) (mb_module "erc20") + 3.
Proof.
  refine (refund_failure_keeps_coins w_module (w_denom w_paused) w_coins (mb_module "erc20") w_refund
    (address_bytes w_alice) (w_pair w_paused) 3 w_start w_error w_revert.2.1 w_revert.2.2 w_refund_laws
    _ _ _ _ _ _ _ _ _ _ w_call_fails).
  - vm_compute. discriminate.
  - vm_compute. reflexivity.
  - vm_compute. reflexivity.
  - reflexivity.
  - reflexivity.
  - reflexivity.
  - vm_compute. reflexivity.
  - reflexivity.
  - reflexivity.
  - vm_compute. reflexivity.
Defined.

(** * A packet of IBC v2: 3 coins of the paused token come back to Alice *)

Definition w_payload : Payload := mkPayload "transfer" "transfer" "ics20-1" "json" [].
Definition w_unmarshal (_ : bytes) (_ _ : string) : res Representation :=
  Ok (mkRepresentation (mkDenom (w_denom w_paused) [("transfer", "client-0")]) "abc" ("guru1" ++ w_acc w_bob) ("guru1" ++ w_acc w_alice)).
Definition w_data : FungibleTokenPacketData :=
  mkTokenData (w_denom w_paused) "abc" ("guru1" ++ w_acc w_bob) ("guru1" ++ w_acc w_alice).
Definition w_path (d : IbcDenom) : string := dn_Base d.
Section v2.
(** Packets that carry the data of [w_data] as no bytes, of a coin that returns. *)
#[local] Instance w_ics20 : Ics20 := {|
  decode_data b := match b with [] => Some w_data | _ => None end;
  ExtractDenomFromPath d := mkDenom d [("transfer", "client-0")];
  denom_HasPrefix _ _ _ := true;
  IBCDenom d := dn_Base d;
  int_of_string s := Some (Z.of_nat (String.length s));
  GetFromBech32 s hrp := let n := S (String.length hrp) in acc_of_bech32 (String.substring n (String.length s - n) s);
  VerifyAddressFormat b := (length b =? 20)%nat;
|}.
Definition w_marshal (_ : FungibleTokenPacketData) : res bytes := Ok [].
Definition w_app (_ _ : string) (_ : Z) (_ : Payload) : M e20_state RecvPacketResult := ret (mkRecv false [1]).
Definition w_ack (b : bytes) : option bool := match b with [1] => Some false | _ => None end.
Lemma v2_recv_failure_acknowledged_witness :
  exists r s', rp_Failure r = false /\
    v2_OnRecvPacket w_module w_unmarshal w_path w_marshal w_app w_ack "client-0" "client-1" 1 w_payload w_start = (Ok r, s') /\
    w_coins (e_x s') (address_bytes w_alice) = w_coins (e_x w_start) (address_bytes w_alice) - 3.
Proof.
  exists (mkRecv false [1]), (E20 w_revert.2.1 w_revert.2.2 (e_events w_start)). split; [reflexivity|].
  assert (v2_OnRecvPacket w_module w_unmarshal w_path w_marshal w_app w_ack "client-0" "client-1" 1 w_payload w_start
      = (Ok (mkRecv false [1]), E20 w_revert.2.1 w_revert.2.2 (e_events w_start)) /\
    OnRecvPacket w_module (mkPacket "transfer" "client-0" "transfer" "client-1" []) w_start
      = (Ok (Some w_error), E20 w_revert.2.1 w_revert.2.2 (e_events w_start)) /\
    w_coins (e_x (E20 w_revert.2.1 w_revert.2.2 (e_events w_start))) (address_bytes w_alice)
      = w_coins (e_x w_start) (address_bytes w_alice) - 3 /\
    w_coins (e_x (E20 w_revert.2.1 w_revert.2.2 (e_events w_start))) (mb_module "erc20")
      = w_coins (e_x w_start) (mb_module "erc20") + 3) as (Hr & _ & Hc & _); [|exact (conj Hr Hc)].
  refine (v2_recv_failure_acknowledged w_module (w_denom w_paused) w_coins (mb_module "erc20") w_unmarshal w_path w_marshal
    w_app w_ack "client-0" "client-1" 1 w_payload (mkRecv false [1]) (mkPacket "transfer" "client-0" "transfer" "client-1" [])
    w_data (address_bytes w_bob) (address_bytes w_alice) "abc" "agxn" (w_pair w_paused) 3 w_start w_start w_error
    w_revert.2.1 w_revert.2.2 w_refund_laws _ eq_refl eq_refl _ eq_refl eq_refl _ _ _ eq_refl _ eq_refl _ _ eq_refl _ _ w_call_fails).
  - vm_compute. discriminate.
  - exists false. reflexivity.
  - vm_compute. reflexivity.
  - vm_compute. reflexivity.
  - vm_compute. reflexivity.
  - vm_compute. reflexivity.
  - vm_compute. discriminate.
  - vm_compute. reflexivity.
  - vm_compute. reflexivity.
  - reflexivity.
Defined.

End v2.

(** * Alice sends 20 coins of the token, of which she has 9 *)

Definition w_spendable (w : world) (a : addr) (d : string) : coin := Coin d (mb_balance (w_bank w) a d).
Definition w_send (msg : MsgTransfer) : M e20_state Z := ret 5.
Definition w_transfer_msg : MsgTransfer :=
  mkMsgTransfer "transfer" "channel-0" (Coin (w_denom w_token) 20) (w_acc w_alice) "elsewhere" 0 "".
Definition w_sent : e20_state := (Transfer w_module w_spendable w_send w_transfer_msg w_start).2.
Lemma w_sent_fst : (Transfer w_module w_spendable w_send w_transfer_msg w_start).1 = Ok 5.
Proof. vm_compute. reflexivity. Qed.
Lemma Transfer_converts_missing_witness :
  exists s1, w_send (with_token (Coin (w_denom w_token) 20) w_transfer_msg) s1 = (Ok 5, w_sent) /\
    if 11 <=? 0 then s1 = w_start
    else if selfdestructed w_start (w_pair w_token) then e_x s1 = e_x w_start
    else exists receiver, acc_of_bech32 (bech32_of (address_bytes w_alice)) = Some receiver /\
      token_to_coin w_module (GetERC20Contract (w_pair w_token)) (w_denom w_token) (w_supply (w_denom w_token)) (w_balance w_token)
        (HexToAddress (Address_Hex (BytesToAddress (address_bytes w_alice)))) receiver 11 w_start s1.
Proof.
  assert (GetERC20Contract (w_pair w_token) = w_token) as Hc by (by apply (hex_address w_token)).
  refine (Transfer_converts_missing w_module (w_supply (w_denom w_token)) (w_balance w_token) w_spendable w_send w_transfer_msg
    (address_bytes w_alice) (GetID (w_pair w_token)) (w_pair w_token) w_start 5 w_sent
    (w_bank_laws w_token (w_denom w_token)) _ w_reg_wf _ _ eq_refl eq_refl eq_refl _ _).
  - rewrite Hc. exact (w_token_laws w_token (w_denom w_token)).
  - vm_compute. reflexivity.
  - vm_compute. reflexivity.
  - vm_compute. reflexivity.
  - exact (run_fst (Transfer w_module w_spendable w_send w_transfer_msg) w_start (Ok 5) w_sent_fst).
Defined.

(** * The genesis of the registry *)

Lemma w_code_hash_writes : code_hash_writes.
Proof.
  intros a s. unfold RegisterERC20CodeHash. rewrite bind_gets. unfold set_code_hash.
  destruct (xe_GetCode _ _) as [[|]|]; unfold bind; cbn; repeat case_match; done.
Qed.
Lemma erc20_genesis_roundtrip_witness :
  length (eg_TokenPairs (erc20_ExportGenesis w_reg)) = 2%nat /\
  exists s', erc20_InitGenesis true (erc20_ExportGenesis w_reg) (E20 (reg_empty false false) w_world []) = (Ok tt, s') /\
    e_reg s' = w_reg.
Proof.
  split; [vm_compute; reflexivity|].
  exact (erc20_genesis_roundtrip w_reg false false w_world [] w_reg_wf w_code_hash_writes).
Defined.

(** The coin that arrived in [w_packet] has a precompile; its pair is disabled. *)
Definition w_disabled : erc20_state :=
  e_reg (run_calls w_module (w_acc w_bob)
    [CallOnRecv w_packet; CallToggleConversion (w_acc w_bob) "ibc/channel-1uatom"] w_start).
Definition w_extension : Address := match GetIBCDenomAddress "ibc/channel-1uatom" with Ok t => t | _ => 0 end.
Lemma w_disabled_wf : reg_wf w_disabled.
Proof.
  eapply reg_steps_wf; [|exact w_reg_wf]. apply (run_calls_moves w_module (w_acc w_bob) _ w_start).
  repeat constructor.
Qed.
Lemma exported_genesis_rejected_witness : Erc20Genesis_Validate (erc20_ExportGenesis w_disabled) <> Ok tt.
Proof.
  refine (exported_genesis_rejected w_disabled w_extension
    (mkPair (Address_Hex w_extension) "ibc/channel-1uatom" false OWNER_MODULE) w_disabled_wf _ _ _ _).
  - vm_compute. split; [discriminate|reflexivity].
  - vm_compute. reflexivity.
  - vm_compute. reflexivity.
  - reflexivity.
Defined.
