(* ===== verification/Precompile.v ===== *)
(** precompiles/common: what the precompiled contracts share.  The setup of a call
    ([RunSetup]: the journal entry, the commit into the cached context, the choice
    of the method, the gas meter), the end of a call, the topics of events and the
    mirror of bank events in the state database ([precompile.go], [abi.go],
    [balance_handler.go], [types.go], [utils.go], [revert.go]).

    The ABI of a contract is packed and unpacked by go-ethereum: it is the record
    [ABI].  A call runs on the state database and on the gas meter of its context;
    the stores of that context are the view of the database's cached context.  The
    panic of a gas meter is an error here: [HandleGasError] turns it into one. *)
From S2P Require Import Prelude KVStore Sdk EvmConfig StateDB VmKeeper VmGas.
Import Meter.

(** * go-ethereum *)

(** [abi.Method] *)
Inductive FunctionType := Constructor | FallbackType | ReceiveType | FunctionT.
#[global] Instance FunctionType_eq_dec : EqDecision FunctionType.
Proof. solve_decision. Defined.
Record Method := mkMethod { m_Name : string; m_Type : FunctionType }.

(** A value of the ABI, as [Unpack] returns it and [Pack] takes it.  A tuple of the
    ABI is a struct without a name; [VStruct] is a value of the named Go type. *)
Inductive abi_value :=
  | VAddress (a : Address) | VBig (n : Z) | VBool (b : bool) | VString (s : string) | VUint8 (n : Z)
  | VUint32 (n : Z) | VUint64 (n : Z) | VInt64 (n : Z) | VBytes (b : bytes)
  | VTuple (l : list abi_value) | VArray (l : list abi_value) | VStruct (type : string) (l : list abi_value)
  | VBalances (l : list (Address * Z)) | VOther.

Record ABI := mkABI {
  MethodById : bytes -> res Method;
  HasReceive : bool; HasFallback : bool; abi_Receive : Method; abi_Fallback : Method;
  Inputs_Unpack : Method -> bytes -> res (list abi_value);
  Outputs_Pack : Method -> list abi_value -> res bytes;
  Event_ID : string -> Hash;
  Event_Pack : string -> list abi_value -> res bytes;    (** the arguments of the event that are not indexed *)
}.

(** [vm.Contract] *)
Record Contract := mkContract { ct_Caller : Address; ct_Value : Z; ct_Input : bytes; ct_Gas : Z }.

(** * The gas meter of the SDK ([storetypes.NewGasMeter]) *)

Definition NewGasMeter (limit : Z) : gas_meter := mkMeter 0 limit.
Definition basic_ConsumeGas (amount : Z) : M gas_meter unit := fun g =>
  let '(c, overflow) := addUint64Overflow (consumed g) amount in
  if overflow then (Panic "gas overflow", mkMeter max_uint64 (limit g))
  else if limit g <? c then (Err (Error ErrOutOfGas "out of gas"), mkMeter c (limit g))
  else (Ok tt, mkMeter c (limit g)).

(** * Topics of events ([abi.go]) *)

Inductive topic_rule :=
  | THash (h : Hash) | TAddress (a : Address) | TBig (n : Z) | TBool (b : bool)
  | TInt (size : nat) (n : Z) | TUint (n : Z) | TText (b : bytes) | TArray (b : bytes) | TUnsupported.

Definition HashLength : nat := 32.

Definition genIntType (rule : Z) (size : nat) : bytes :=
  foldl (fun topic i => <[(HashLength - i - 1)%nat := Z.shiftr rule (8 * Z.of_nat i) mod 256]> topic)
    (replicate HashLength (if rule <? 0 then 255 else 0)) (seq 0 size).

(** [copy(topic[HashLength-len(blob):], blob)]: longer numbers are out of range. *)
Definition topic_of_number (n : Z) : res Hash :=
  if n <? 2 ^ 256 then Ok n else Panic "slice bounds out of range".

Definition MakeTopic `{Keccak} (rule : topic_rule) : res Hash :=
  match rule with
  | THash h => Ok h
  | TAddress a => Ok a
  | TBig n => topic_of_number (Z.abs n)
  | TBool b => Ok (if b then 1 else 0)
  | TInt size n => Ok (be_decode 0 (genIntType n size))
  | TUint n => Ok n
  | TText b => Ok (Keccak256Hash b)
  | TArray b =>
      if (length b <=? HashLength)%nat then Ok (be_decode 0 (b ++ replicate (HashLength - length b) 0))
      else Panic "slice bounds out of range"
  | TUnsupported => Err (Error ErrOther "unsupported indexed type")
  end.

(** [PackNum] of a number *)
Definition PackNum (value : Z) : bytes := be 32 (value mod 2 ^ 256).

(** * Coins ([types.go]) *)

Definition SafeAdd (a b : Z) : Z * bool := (a + b, negb (int_fits (a + b))).
Definition NewCoinsResponse (amount : coins) : list (string * Z) := map (fun c => (c_denom c, c_amt c)) amount.
(** An amount with eighteen decimals is truncated to an integer. *)
Definition NewDecCoinsResponse (amount : list (string * Z)) : res (list (string * Z * Z)) :=
  foldr (fun '(d, a) rest => let? n := dec_trunc_int a in let? l := rest in Ok ((d, n, 18) :: l)) (Ok []) amount.
Fixpoint sdk_coins `{CoinsLib} (l : list (string * Z)) : res coins :=
  match l with
  | [] => Ok []
  | (d, n) :: l =>
      let? a := int_chk n in
      if denom_ok d && (0 <=? a) then let? cs := sdk_coins l in Ok (Coin d a :: cs)
      else Err (Error ErrOther "invalid coin")
  end.
Fixpoint insert_coin (c : coin) (l : coins) : coins :=
  match l with
  | [] => [c]
  | c' :: l' => if String.leb (c_denom c) (c_denom c') then c :: l else c' :: insert_coin c l'
  end.
(** [NewSdkCoinsFromCoins]: valid coins in the order of their denoms *)
Definition NewSdkCoinsFromCoins `{CoinsLib} (l : list (string * Z)) : res coins :=
  let? cs := sdk_coins l in Ok (foldr insert_coin [] cs).

Section common.
Context `{CoinsLib, AddressCodec, Keccak, StateKeeper}.
Variable info : EvmCoinInfo.
Implicit Types (contract : Contract) (method : Method).

(** * The precompile, and the state of a call *)

Record GasConfig := mkGasConfig {
  ReadCostFlat : Z; ReadCostPerByte : Z; WriteCostFlat : Z; WriteCostPerByte : Z;
}.
Record Precompile := mkPrecompile { pc_ABI : ABI; pc_KvGasConfig : GasConfig; pc_Address : Address }.

Record pc_state := PCS { pc_db : StateDB; pc_gas : gas_meter }.
Definition on_db {A} (m : M StateDB A) : M pc_state A :=
  zoom pc_db (fun d s => PCS d (pc_gas s)) m.
Definition on_gas {A} (m : M gas_meter A) : M pc_state A :=
  zoom pc_gas (fun g s => PCS (pc_db s) g) m.
(** The stores of the context. *)
Definition on_ctx {A} (m : M KS A) : M pc_state A := on_db (zoom cache_view set_cache_view m).
Definition ctx_of (s : pc_state) : KS := cache_view (pc_db s).
(** The events of a context only grow. *)
Definition emit_cache (evs : list event) (d : StateDB) : StateDB :=
  with_cache (option_map (fun cc => mkCache (cc_layers cc) (cc_events cc ++ evs)) (cacheCtx d)) d.

Definition common_RequiredGas (p : Precompile) (input : bytes) (isTransaction : bool) : res Z :=
  if (length input <? 4)%nat then Panic "slice bounds out of range"
  else
    let n := Z.of_nat (length input) - 4 in
    let c := pc_KvGasConfig p in
    Ok (if isTransaction then wrap64 (WriteCostFlat c + wrap64 (WriteCostPerByte c * n))
        else wrap64 (ReadCostFlat c + wrap64 (ReadCostPerByte c * n))).

(** * The method of a call *)

Definition reverted {A} : res A := Err (Error ErrExecutionReverted "execution reverted").

Definition emptyCallData (p : Precompile) contract : res Method :=
  if (0 <? ct_Value contract) && HasReceive (pc_ABI p) then Ok (abi_Receive (pc_ABI p))
  else if HasFallback (pc_ABI p) then Ok (abi_Fallback (pc_ABI p))
  else reverted.
Definition methodIDCallData (p : Precompile) : res Method :=
  if negb (HasFallback (pc_ABI p)) then reverted else Ok (abi_Fallback (pc_ABI p)).
Definition standardCallData (p : Precompile) contract : res Method :=
  match MethodById (pc_ABI p) (take 4 (ct_Input contract)) with
  | Err e => if HasFallback (pc_ABI p) then Ok (abi_Fallback (pc_ABI p)) else Err e
  | r => r
  end.
Definition select_method (p : Precompile) contract : res Method :=
  match length (ct_Input contract) with
  | 0%nat => emptyCallData p contract
  | 1%nat | 2%nat | 3%nat => methodIDCallData p
  | _ => standardCallData p contract
  end.

(** * The setup and the end of a call *)

(** [initialGas] is what the context had consumed before the call. *)
Definition setup (p : Precompile) (initialGas : Z) contract (readOnly : bool) (isTransaction : Method -> bool)
    : M pc_state (Method * list abi_value) :=
  do! on_db (RunSetup (pc_Address p));
  let! method := lift (select_method p contract) in
  if readOnly && isTransaction method then fail ErrWriteProtection "write protection"
  else
    let! args := (if decide (m_Type method = FunctionT)
                  then lift (Inputs_Unpack (pc_ABI p) method (drop 4 (ct_Input contract))) else ret []) in
    do! on_gas (fun _ => (Ok tt, NewGasMeter (ct_Gas contract)));
    do! on_gas (basic_ConsumeGas initialGas);
    ret (method, args).

(** The gas of the call is taken from the contract: the output and what is left. *)
Definition charge (initialGas : Z) contract (bz : option bytes) : M pc_state (option bytes * Z) :=
  let! g := gets pc_gas in
  let cost := wrap64 (GasConsumed g - initialGas) in
  if ct_Gas contract <? cost then fail ErrOutOfGas "out of gas" else ret (bz, ct_Gas contract - cost).

(** [evmtypes.RevertReasonBytes]: the reason packed after the selector. *)
Variable pack_reason : string -> option bytes.
Definition RevertSelector : bytes := take 4 (be 32 (Keccak256Hash (str_bytes "Error(string)"))).
Definition RevertReasonBytes (reason : string) : option bytes :=
  match pack_reason reason with Some packed => Some (RevertSelector ++ packed) | None => None end.
Definition ReturnRevertError (err : error) : option bytes * error :=
  (RevertReasonBytes (e_msg err), Error ErrExecutionReverted "execution reverted").

(** * Bank events in the state database ([balance_handler.go], [utils.go]) *)

(** Attribute values are kept as they are before formatting; a text is parsed. *)
Fixpoint GetAttribute (key : string) (l : list (string * attr)) : option attr :=
  match l with
  | [] => None
  | (k, v) :: l => if decide (k = key) then Some v else GetAttribute key l
  end.
Definition ParseHexAddress (ev : event) (key : string) : res Address :=
  match GetAttribute key (ev_attrs ev) with
  | None => Err (Error ErrOther "missing attribute")
  | Some (AAddr a) => Ok (BytesToAddress a)
  | Some (AStr t) => match acc_of_bech32 t with
                     | Some a => Ok (BytesToAddress a)
                     | None => Err (Error ErrOther "invalid address")
                     end
  | Some _ => Err (Error ErrOther "invalid address")
  end.
Definition ParseAmount (ev : event) : res Z :=
  match GetAttribute "amount" (ev_attrs ev) with
  | None => Err (Error ErrOther "missing attribute")
  | Some (ACoins cs) =>
      match Uint256FromBigInt (ConvertAmountTo18DecimalsBigInt info (amount_of cs (Denom info))) with
      | Some n => Ok n
      | None => Err (Error ErrOther "failed to convert coin amount to Uint256")
      end
  | Some _ => Err (Error ErrOther "failed to parse coins")
  end.

Definition EventTypeCoinSpent : string := "coin_spent".
Definition EventTypeCoinReceived : string := "coin_received".

Definition apply_event (ev : event) : M StateDB unit :=
  if decide (ev_type ev = EventTypeCoinSpent) then
    let! spender := lift (ParseHexAddress ev "spender") in
    let! amount := lift (ParseAmount ev) in
    do! SubBalance spender amount; ret tt
  else if decide (ev_type ev = EventTypeCoinReceived) then
    let! receiver := lift (ParseHexAddress ev "receiver") in
    let! amount := lift (ParseAmount ev) in
    do! AddBalance receiver amount; ret tt
  else ret tt.
(** The events of the context after the call; [BeforeBalanceChange] kept how many
    there were. *)
Definition BeforeBalanceChange (events : list event) : nat := length events.
Definition AfterBalanceChange (prevEventsLen : nat) (events : list event) : M StateDB unit :=
  if (length events <? prevEventsLen)%nat then panic "slice bounds out of range"
  else each apply_event (drop prevEventsLen events).
End common.
