(* ===== verification/PrecompileThms.v ===== *)
(** precompiles/common: the topic of a signed integer is its two's complement, the
    bank events of a call are mirrored exactly in the balances the database shows,
    and what a call does is a sequence of journalled steps, so that reverting to
    the snapshot taken before it undoes it. *)
From S2P Require Import Prelude KVStore Sdk EvmConfig PreciseBank StateDB TxData VmKeeper VmGas Precompile.
From S2P Require Import StateDBInv StateDBRun StateDBOps StateDBMachine StateDBThms.
Import AccessList Transient Meter.

(** * Topics *)

Lemma be_lookup w n j : (j < w)%nat -> be w n !! j = Some ((n / 256 ^ (Z.of_nat w - 1 - Z.of_nat j)) mod 256).
Proof.
  revert n j. induction w as [|w IH]; intros n j Hj; [lia|]. cbn [be].
  destruct (decide (j = w)) as [->|Hne].
  - rewrite lookup_app_r by (rewrite be_length; lia). rewrite be_length, Nat.sub_diag. simpl.
    replace (Z.of_nat (S w) - 1 - Z.of_nat w) with 0 by lia. by rewrite Z.pow_0_r, Z.div_1_r.
  - rewrite lookup_app_l by (rewrite be_length; lia). rewrite IH by lia. do 2 f_equal.
    replace (Z.of_nat (S w) - 1 - Z.of_nat j) with (1 + (Z.of_nat w - 1 - Z.of_nat j)) by lia.
    rewrite Z.pow_add_r, Z.pow_1_r by lia. rewrite Z.div_div by lia. done.
Qed.

Lemma genIntType_length rule size : length (genIntType rule size) = 32%nat.
Proof.
  unfold genIntType. generalize (seq 0 size). set (l0 := replicate _ _).
  assert (length l0 = 32%nat) as Hl by apply length_replicate. revert Hl. generalize l0.
  intros l Hl l1. revert l Hl. induction l1 as [|i l1 IH]; intros l Hl; [done|].
  simpl. apply IH. by rewrite length_insert.
Qed.

(** The low [size] bytes are those of the number, the others its sign. *)
Lemma genIntType_lookup rule size i : (size <= 32)%nat -> (i < 32)%nat ->
  genIntType rule size !! (32 - i - 1)%nat =
    Some (if decide (i < size)%nat then Z.shiftr rule (8 * Z.of_nat i) mod 256 else if rule <? 0 then 255 else 0).
Proof.
  intros Hs Hi. induction size as [|size IH].
  - unfold genIntType. cbn [seq foldl]. rewrite decide_False by lia.
    apply lookup_replicate. split; [done|unfold HashLength; lia].
  - specialize (IH ltac:(lia)). pose proof (genIntType_length rule size) as Hl.
    unfold genIntType in *. rewrite seq_S, foldl_app. cbn [foldl]. rewrite Nat.add_0_l.
    destruct (decide (i = size)) as [->|Hne].
    + rewrite decide_True by lia. apply list_lookup_insert_eq. rewrite Hl. unfold HashLength. lia.
    + rewrite list_lookup_insert_ne by (unfold HashLength; lia). rewrite IH.
      repeat case_decide; (done || lia).
Qed.

Lemma genIntType_be rule (size : nat) : (size <= 32)%nat -> (0 < size)%nat ->
  - 2 ^ (8 * Z.of_nat size - 1) <= rule < 2 ^ (8 * Z.of_nat size - 1) ->
  genIntType rule size = be 32 (rule mod 2 ^ 256).
Proof.
  intros Hs Hp Hr. apply list_eq. intros j. destruct (decide (j < 32)%nat) as [Hj|Hj].
  2:{ rewrite !lookup_ge_None_2; [done| |]; rewrite ?be_length, ?genIntType_length; lia. }
  set (i := (31 - j)%nat). replace j with (32 - i - 1)%nat at 1 by lia.
  rewrite genIntType_lookup, be_lookup by lia. f_equal.
  replace (Z.of_nat 32 - 1 - Z.of_nat j) with (Z.of_nat i) by lia.
  assert (256 ^ Z.of_nat i = 2 ^ (8 * Z.of_nat i)) as Hpow by (change 256 with (2 ^ 8); rewrite <- Z.pow_mul_r; lia).
  assert ((rule mod 2 ^ 256) / 256 ^ Z.of_nat i mod 256 = (rule / 2 ^ (8 * Z.of_nat i)) mod 256) as ->.
  { rewrite Hpow. replace 256 with (8 * Z.of_nat i + (256 - 8 * Z.of_nat i)) at 1 by lia.
    rewrite Z.pow_add_r by lia. rewrite Z.rem_mul_r by lia.
    rewrite (Z.mul_comm (2 ^ _)), Z.div_add by lia. rewrite Z.div_small by (apply Z.mod_pos_bound; lia).
    rewrite Z.add_0_l. change 256 with (2 ^ 8). rewrite Z.mod_mod_divide; [done|].
    exists (2 ^ (256 - 8 * Z.of_nat i - 8)). rewrite <- Z.pow_add_r by lia. f_equal. lia. }
  case_decide as Hc.
  - by rewrite Z.shiftr_div_pow2 by lia.
  - assert (2 ^ (8 * Z.of_nat size - 1) <= 2 ^ (8 * Z.of_nat i)) by (apply Z.pow_le_mono_r; lia).
    destruct (Z.ltb_spec rule 0).
    + replace (rule / 2 ^ (8 * Z.of_nat i)) with (-1); [done|]. apply Z.div_unique_pos with (rule + 2 ^ (8 * Z.of_nat i)); lia.
    + by rewrite Z.div_small by lia.
Qed.

(**  The topic of a signed integer of eight, sixteen, thirty-two or sixty-four
    bits is its two's complement on 256 bits, and the topic of an unsigned one the
    number itself: no two integers of a type have the same topic. *)
Theorem MakeTopic_integer `{Keccak} (size : nat) n :
  (0 < size <= 8)%nat -> - 2 ^ (8 * Z.of_nat size - 1) <= n < 2 ^ (8 * Z.of_nat size - 1) ->
  MakeTopic (TInt size n) = Ok (n mod 2 ^ 256) /\
  (forall m, - 2 ^ (8 * Z.of_nat size - 1) <= m < 2 ^ (8 * Z.of_nat size - 1) ->
    MakeTopic (TInt size m) = MakeTopic (TInt size n) -> m = n).
Proof.
  intros Hs Hn. assert (forall m, - 2 ^ (8 * Z.of_nat size - 1) <= m < 2 ^ (8 * Z.of_nat size - 1) ->
    MakeTopic (TInt size m) = Ok (m mod 2 ^ 256)) as Ht.
  { intros m Hm. unfold MakeTopic. rewrite genIntType_be by lia. rewrite be_roundtrip; [done|].
    change (256 ^ Z.of_nat 32) with (2 ^ 256). apply Z.mod_pos_bound. lia. }
  split; [by apply Ht|]. intros m Hm. rewrite !Ht by done. intros E. apply (f_equal (fun r => match r with Ok x => x | _ => 0 end)) in E.
  assert (2 ^ (8 * Z.of_nat size - 1) <= 2 ^ 63) by (apply Z.pow_le_mono_r; lia).
  assert (2 ^ 63 < 2 ^ 255) by (apply Z.pow_lt_mono_r; lia).
  assert (2 ^ 256 = 2 * 2 ^ 255) as H256 by (rewrite <- Z.pow_succ_r by lia; done).
  rewrite !Z.mod_eq in E by lia.
  assert (m - n = 2 ^ 256 * (m / 2 ^ 256 - n / 2 ^ 256)) by lia. nia.
Qed.

Section db.
Context `{Keccak, StateKeeper}.
Implicit Types (s t : StateDB) (a b : Z).

(** * The balance the database shows *)

Definition shown s a : Z := match obj_at s a with Ok (Some o) => balance o | _ => 0 end.

(** What a change of one balance keeps. *)
Record balance_set (a : Z) (v : Z) s s' : Prop := {
  bs_addr : addr_wf s';
  bs_ctx : ctx s' = ctx s;
  bs_cache : cacheCtx s' = cacheCtx s;
  bs_logs : logs s' = logs s;
  bs_shown : forall b, shown s' b = if decide (b = a) then v else shown s b;
}.

Lemma shown_put s a o b : shown (put_obj a o s) b = if decide (b = a) then balance o else shown s b.
Proof. unfold shown. rewrite obj_at_put. by case_decide. Qed.
Lemma shown_jrnl s j b : shown (with_jrnl j s) b = shown s b.
Proof. done. Qed.

Lemma getOrNew_shown a s : addr_wf s ->
  match getOrNewStateObject a s with
  | (Ok o, s') => stateObjects s' !! a = Some o /\ address o = a /\ balance o = shown s a /\
      balance_set a (shown s a) s s'
  | (Err _, _) => False
  | (Panic _, _) => exists p, k_GetAccount (ctx s) a = inl p
  end.
Proof.
  intros Hw. unfold getOrNewStateObject, bind at 1. rewrite getStateObject_spec by done.
  destruct (obj_at s a) as [[o|]|e|m] eqn:Ho; [| |exfalso; unfold obj_at, load in Ho; repeat case_match; done|
    unfold obj_at, load in Ho; repeat case_match; try done; by eexists].
  - pose proof (obj_at_address _ _ _ Hw Ho) as Ha. assert (shown s a = balance o) as Hb by (unfold shown; by rewrite Ho).
    rewrite Hb. cbn. split_and!; [by rewrite lookup_insert_eq|done|done|].
    split; [by apply addr_wf_put|done|done|done|]. intros b. by rewrite shown_put.
  - unfold createObject, bind. rewrite getStateObject_spec, Ho by done. cbn.
    assert (shown s a = 0) as -> by (unfold shown; by rewrite Ho).
    split_and!; [by rewrite lookup_insert_eq|done|done|].
    split; [by apply (addr_wf_put (with_jrnl _ s))|done|done|done|]. intros b.
    change (shown (put_obj a (newObject a (mkAccount 0 None None)) (with_jrnl (journal_append (createObjectChange a) (jrnl s)) s)) b
      = if decide (b = a) then 0 else shown s b).
    by rewrite shown_put, shown_jrnl.
Qed.

Lemma set_balance_shown a (v : Z) (g : Z -> Z) s : addr_wf s ->
  match (let! o := getOrNewStateObject a in
         if v =? 0 then ret (balance o) else object_SetBalance o (g (balance o))) s with
  | (Ok _, s') => balance_set a (if v =? 0 then shown s a else g (shown s a)) s s'
  | (Err _, _) => False
  | (Panic _, _) => exists p, k_GetAccount (ctx s) a = inl p
  end.
Proof.
  intros Hw. pose proof (getOrNew_shown a s Hw) as Hg. unfold bind.
  destruct (getOrNewStateObject a s) as [[o|e|m] s1]; [|done|done]. destruct Hg as (Ho & Ha & Hb & Hs).
  destruct (v =? 0); [done|]. unfold object_SetBalance, bind. rewrite append_run.
  rewrite (update_live _ a) by (done || apply Hs). cbn. destruct Hs as [Hw1 Hc Hcc Hl Hsh].
  split; [by apply (addr_wf_put (with_jrnl _ s1))|done|done|done|]. intros b.
  match goal with |- shown ?x b = _ => change x with (put_obj a (setBalance (g (balance o)) o) (with_jrnl (jrnl x) s1)) end.
  rewrite shown_put, shown_jrnl. case_decide; [by rewrite Hb|]. by rewrite Hsh, decide_False.
Qed.
Lemma AddBalance_shown a v s : addr_wf s ->
  match AddBalance a v s with
  | (Ok _, s') => balance_set a (if v =? 0 then shown s a else uint256 (shown s a + v)) s s'
  | (Err _, _) => False
  | (Panic _, _) => exists p, k_GetAccount (ctx s) a = inl p
  end.
Proof. apply (set_balance_shown a v (fun b => uint256 (b + v))). Qed.
Lemma SubBalance_shown a v s : addr_wf s ->
  match SubBalance a v s with
  | (Ok _, s') => balance_set a (if v =? 0 then shown s a else uint256 (shown s a - v)) s s'
  | (Err _, _) => False
  | (Panic _, _) => exists p, k_GetAccount (ctx s) a = inl p
  end.
Proof.
  intros Hw. pose proof (set_balance_shown a v (fun b => uint256 (b - v)) s Hw) as Hs.
  unfold SubBalance, object_SubBalance. by destruct (v =? 0).
Qed.
End db.

(** * Bank events *)

Section events.
Context `{CoinsLib, AddressCodec, Keccak, StateKeeper}.
Variable info : EvmCoinInfo.
Implicit Types (s : StateDB) (a : Z) (cs : coins).

(** What the bank emits when coins leave and reach an account, among other events. *)
Inductive bank_event := BSpent a cs | BReceived a cs | BOther (e : event).
Definition event_of (b : bank_event) : event :=
  match b with
  | BSpent a cs => coin_spent (address_bytes a) cs
  | BReceived a cs => coin_received (address_bytes a) cs
  | BOther e => e
  end.
Definition native_of cs : Z := amount_of cs (Denom info) * ConversionFactor info.
Definition event_ok (b : bank_event) : Prop :=
  match b with
  | BSpent a cs | BReceived a cs => address_ok a /\ 0 <= native_of cs < 2 ^ 256
  | BOther e => ev_type e <> EventTypeCoinSpent /\ ev_type e <> EventTypeCoinReceived
  end.
Definition event_delta a (b : bank_event) : Z :=
  match b with
  | BSpent x cs => if decide (a = x) then - native_of cs else 0
  | BReceived x cs => if decide (a = x) then native_of cs else 0
  | BOther _ => 0
  end.

Definition loads s : Prop := forall a, exists x, k_GetAccount (ctx s) a = inr x.
Definition shows_u256 s : Prop := forall a, 0 <= shown s a < 2 ^ 256.

Lemma uint256_range n : 0 <= uint256 n < 2 ^ 256.
Proof. apply Z.mod_pos_bound. lia. Qed.
Lemma uint256_id n : 0 <= n < 2 ^ 256 -> uint256 n = n.
Proof. apply Z.mod_small. Qed.
Lemma uint256_add n m : uint256 (uint256 n + m) = uint256 (n + m).
Proof. unfold uint256. by rewrite Zplus_mod_idemp_l. Qed.

Lemma address_roundtrip a : address_ok a -> BytesToAddress (address_bytes a) = a.
Proof.
  intros Ha. unfold BytesToAddress, address_bytes. rewrite be_length. apply (be_roundtrip 20).
  exact Ha.
Qed.

Lemma parse_party x cs key typ : address_ok x ->
  ParseHexAddress (Event typ [(key, AAddr (address_bytes x)); ("amount", ACoins cs)]) key = Ok x.
Proof.
  intros Ha. unfold ParseHexAddress. cbn [ev_attrs GetAttribute]. rewrite decide_True by done.
  by rewrite address_roundtrip.
Qed.
Lemma parse_amount x cs key typ : key <> "amount" -> 0 <= native_of cs < 2 ^ 256 ->
  ParseAmount info (Event typ [(key, x); ("amount", ACoins cs)]) = Ok (native_of cs).
Proof.
  intros Hk Hn. unfold ParseAmount. cbn [ev_attrs GetAttribute]. rewrite decide_False, decide_True by done.
  unfold ConvertAmountTo18DecimalsBigInt. fold (native_of cs). unfold Uint256FromBigInt.
  by rewrite (proj2 (Z.ltb_ge (native_of cs) 0)), (proj2 (Z.leb_gt (2 ^ 256) (native_of cs))) by lia.
Qed.

Lemma apply_event_shown b s : addr_wf s -> loads s -> shows_u256 s -> event_ok b ->
  exists s', apply_event info (event_of b) s = (Ok tt, s') /\ addr_wf s' /\ ctx s' = ctx s /\
    cacheCtx s' = cacheCtx s /\ logs s' = logs s /\ forall a, shown s' a = uint256 (shown s a + event_delta a b).
Proof.
  intros Hw Hl Hu Hok.
  assert (forall x v (m : M StateDB Z) r, (match m s with
      | (Ok _, s') => balance_set x r s s' | (Err _, _) => False
      | (Panic _, _) => exists p, k_GetAccount (ctx s) x = inl p end) ->
    (forall a, (if decide (a = x) then r else shown s a) = uint256 (shown s a + (if decide (a = x) then v else 0))) ->
    exists s', (do! m; ret tt) s = (Ok tt, s') /\ addr_wf s' /\ ctx s' = ctx s /\
      cacheCtx s' = cacheCtx s /\ logs s' = logs s /\
      forall a, shown s' a = uint256 (shown s a + (if decide (a = x) then v else 0))) as Hgen.
  { intros x v m r Hm Hr. unfold bind. destruct (m s) as [[z|e|p] s1].
    - exists s1. destruct Hm. split_and!; try done. intros a. rewrite bs_shown0. apply Hr.
    - done.
    - destruct Hm as [q Hq]. destruct (Hl x) as [y Hy]. congruence. }
  destruct b as [x cs|x cs|e]; simpl in Hok.
  - destruct Hok as [Ha Hn]. unfold apply_event. cbn [event_of coin_spent ev_type]. rewrite decide_True by done.
    unfold coin_spent, coin_received. rewrite parse_party, parse_amount by done.
    unfold bind at 1, lift at 1. unfold bind at 1, lift at 1.
    apply (Hgen x (- native_of cs) _ _ (SubBalance_shown x (native_of cs) s Hw)). intros a. case_decide as Hc.
    + subst. destruct (Z.eqb_spec (native_of cs) 0) as [->|]; [|done]. rewrite uint256_id; [lia|]. specialize (Hu x). lia.
    + rewrite Z.add_0_r. by rewrite uint256_id.
  - destruct Hok as [Ha Hn]. unfold apply_event. cbn [event_of coin_received ev_type].
    rewrite decide_False, decide_True by done.
    unfold coin_spent, coin_received. rewrite parse_party, parse_amount by done.
    unfold bind at 1, lift at 1. unfold bind at 1, lift at 1.
    apply (Hgen x (native_of cs) _ _ (AddBalance_shown x (native_of cs) s Hw)). intros a. case_decide as Hc.
    + subst. destruct (Z.eqb_spec (native_of cs) 0) as [->|]; [|done]. rewrite uint256_id; [lia|]. specialize (Hu x). lia.
    + rewrite Z.add_0_r. by rewrite uint256_id.
  - destruct Hok. unfold apply_event. cbn [event_of]. rewrite !decide_False by done.
    exists s. split_and!; try done. intros a. simpl. rewrite Z.add_0_r. by rewrite uint256_id.
Qed.

(**  Of the events a precompile call emitted, the balance handler looks at
    exactly those that came after [BeforeBalanceChange], and after it every account
    shows its balance less what the bank events spent of the native coin and plus
    what they received, in units of eighteen decimals; no log is added and no store
    is written. *)
Theorem AfterBalanceChange_mirrors before evs s :
  addr_wf s -> loads s -> shows_u256 s -> Forall event_ok evs ->
  exists s', AfterBalanceChange info (BeforeBalanceChange before) (before ++ map event_of evs) s = (Ok tt, s') /\
    (forall a, shown s' a = uint256 (shown s a + lsum (map (event_delta a) evs))) /\
    ctx s' = ctx s /\ cacheCtx s' = cacheCtx s /\ logs s' = logs s.
Proof.
  intros Hw Hl Hu Hevs. unfold AfterBalanceChange, BeforeBalanceChange.
  rewrite (proj2 (Nat.ltb_ge _ _)) by (rewrite length_app; lia). rewrite drop_app_length. clear before.
  revert s Hw Hl Hu. induction Hevs as [|b evs Hb Hevs IH]; intros s Hw Hl Hu.
  - exists s. split_and!; try done. intros a. cbn. rewrite Z.add_0_r. symmetry. by apply uint256_id.
  - destruct (apply_event_shown b s Hw Hl Hu Hb) as (s1 & Hr & Hw1 & Hc1 & Hcc1 & Hl1 & Hs1).
    destruct (IH s1) as (s2 & Hr2 & Hs2 & Hc2 & Hcc2 & Hl2); [done| | |].
    { intros a. rewrite Hc1. apply Hl. }
    { intros a. rewrite Hs1. apply uint256_range. }
    exists s2. cbn [map each]. rewrite (bind_run _ _ _ _ _ Hr). split_and!; [done| |congruence..].
    intros a. rewrite Hs2, Hs1, uint256_add. cbn [lsum foldr map]. f_equal. unfold lsum. lia.
Qed.
End events.

(** * Calls as journalled steps *)

Section calls.
Context `{Keccak, StateKeeper}.
Implicit Types (d : StateDB) (s : pc_state).

(** The cached context of a call: its top layer has been written. *)
Definition cached d : Prop := exists L v evs, cacheCtx d = Some (mkCache (L ++ [Some v]) evs).

Lemma cached_view_set v d : cached d -> cache_view (set_cache_view v d) = v /\ cached (set_cache_view v d).
Proof.
  intros (L & x & evs & Hc). unfold set_cache_view, cache_view, cached. rewrite Hc. cbn [with_cache cacheCtx option_map cc_layers cc_events ctx].
  rewrite layers_set_snoc. split; [|eauto]. unfold layers_view. by rewrite foldl_app.
Qed.
Lemma set_view_again v w d : cached d -> set_cache_view v (set_cache_view w d) = set_cache_view v d.
Proof.
  intros (L & x & evs & Hc). unfold set_cache_view. cbn [with_cache cacheCtx]. rewrite Hc.
  cbn [option_map cc_layers cc_events]. by rewrite !layers_set_snoc.
Qed.
Lemma set_view_id d : cached d -> set_cache_view (cache_view d) d = d.
Proof.
  intros (L & x & evs & Hc). unfold set_cache_view, cache_view. rewrite Hc. cbn [option_map cc_layers cc_events].
  unfold layers_view. rewrite foldl_app, layers_set_snoc. cbn [foldl default]. destruct d; cbn in *. by subst.
Qed.

Lemma RunSetup_cached p d d' : RunSetup p d = (Ok tt, d') -> cached d'.
Proof.
  unfold RunSetup. intros Hr. apply bind_ok in Hr as (u1 & d1 & _ & Hr).
  apply bind_ok in Hr as (n & d2 & Hs & Hr). apply bind_ok in Hr as (c & d3 & [= <- <-] & Hr).
  apply bind_ok in Hr as (u2 & d4 & Hadd & Hr).
  unfold MultiStoreSnapshot in Hs. rewrite bind_gets in Hs. destruct (cacheCtx d1) as [cc|] eqn:Hc; [|done].
  apply bind_ok in Hs as (u3 & d5 & [= <- <-] & [= _ <-]).
  apply AddPrecompileFn_run in Hadd. destruct (getOrNewStateObject _ _) as [[o|e|m] d6] eqn:Hg in Hadd; [|done..].
  apply getOrNew_cache in Hg. cbn in Hg. subst d4.
  unfold CommitWithCacheCtx in Hr. rewrite bind_gets in Hr. cbn [with_counter with_jrnl cacheCtx] in Hr. rewrite Hg in Hr.
  unfold zoom in Hr. destruct (commitWithCtx _ _) as [r v]. injection Hr as _ <-.
  unfold set_cache_view. cbn [with_counter with_jrnl cacheCtx with_cache]. rewrite Hg.
  cbn [option_map cc_layers cc_events]. rewrite layers_set_snoc. unfold cached. cbn [with_cache cacheCtx]. eauto.
Qed.

(** What a call writes and emits in its context. *)
Definition wr (v : KS) (evs : list event) d : StateDB := emit_cache evs (set_cache_view v d).
Lemma wr_view v evs d : cached d -> cache_view (wr v evs d) = v /\ cached (wr v evs d).
Proof.
  intros Hc. destruct (cached_view_set v d Hc) as [Hv (L & x & es & Hc')]. unfold wr, emit_cache. rewrite Hc'.
  split; [|by exists L, x, (es ++ evs)]. rewrite <- Hv. unfold cache_view. by rewrite Hc'.
Qed.
Lemma wr_again v evs w es d : cached d -> wr v evs (wr w es d) = wr v (es ++ evs) d.
Proof.
  intros (L & x & es' & Hc). unfold wr, emit_cache, set_cache_view. rewrite Hc. cbn [option_map with_cache cacheCtx cc_layers cc_events].
  by rewrite !layers_set_snoc, app_assoc.
Qed.
Lemma wr_id d : cached d -> wr (cache_view d) [] d = d.
Proof.
  intros Hc. unfold wr. rewrite set_view_id by done. destruct Hc as (L & x & es & Hc). unfold emit_cache. rewrite Hc.
  cbn [option_map cc_layers cc_events]. rewrite app_nil_r. destruct d; cbn in *. by subst.
Qed.

(** What a computation does to the database: writes of the context's stores and
    events of the context, then journalled operations. *)
Definition wrote {A} (m : M pc_state A) : Prop := forall s r s',
  cached (pc_db s) -> m s = (r, s') -> exists v evs, pc_db s' = wr v evs (pc_db s).
Definition journalled {A} (m : M pc_state A) : Prop := forall s r s',
  sdb_wf (pc_db s) -> m s = (r, s') -> is_panic r = false -> rtc jstep (pc_db s) (pc_db s').
Definition two_phase {A} (m : M pc_state A) : Prop := forall s r s',
  cached (pc_db s) -> m s = (r, s') -> is_panic r = false ->
  exists v evs, sdb_wf (wr v evs (pc_db s)) -> rtc jstep (wr v evs (pc_db s)) (pc_db s').

Lemma wrote_none {A} (m : M pc_state A) : (forall s r s', m s = (r, s') -> pc_db s' = pc_db s) -> wrote m.
Proof. intros Hm s r s' Hc Hr. exists (ctx_of s), []. rewrite (Hm _ _ _ Hr). unfold ctx_of. by rewrite wr_id. Qed.
Lemma wrote_ctx {A} (m : M KS A) : wrote (on_ctx m).
Proof.
  intros s r s' (L & w & es & Hc). unfold on_ctx, on_db, zoom. destruct (m _) as [x k]. intros [= _ <-]. exists k, [].
  unfold wr, emit_cache, set_cache_view. cbn [pc_db]. rewrite Hc. cbn [option_map with_cache cacheCtx cc_layers cc_events].
  by rewrite app_nil_r.
Qed.
Lemma wrote_bind {A B} (m : M pc_state A) (f : A -> M pc_state B) :
  wrote m -> (forall x, wrote (f x)) -> wrote (bind m f).
Proof.
  intros Hm Hf s r s' Hc Hr. unfold bind in Hr. destruct (m s) as [[x|e|p] s1] eqn:E; destruct (Hm _ _ _ Hc E) as (v & evs & Hv).
  - destruct (Hf x s1 r s') as (w & es & Hw); [rewrite Hv; by apply wr_view|done|].
    exists w, (evs ++ es). by rewrite Hw, Hv, wr_again.
  - exists v, evs. by injection Hr as _ <-.
  - exists v, evs. by injection Hr as _ <-.
Qed.
Lemma wrote_two {A} (m : M pc_state A) : wrote m -> two_phase m.
Proof. intros Hm s r s' Hc Hr _. destruct (Hm _ _ _ Hc Hr) as (v & evs & ->). by exists v, evs. Qed.
Lemma two_after {A B} (m : M pc_state A) (f : A -> M pc_state B) :
  wrote m -> (forall x, two_phase (f x)) -> two_phase (bind m f).
Proof.
  intros Hm Hf s r s' Hc Hr Hp. unfold bind in Hr. destruct (m s) as [[x|e|p] s1] eqn:E; destruct (Hm _ _ _ Hc E) as (v & evs & Hv).
  - destruct (Hf x s1 r s') as (w & es & Hw); [rewrite Hv; by apply wr_view|done|done|].
    exists w, (evs ++ es). by rewrite Hv, wr_again in Hw.
  - exists v, evs. intros _. injection Hr as _ <-. by rewrite Hv.
  - by injection Hr as <- _.
Qed.
Lemma journalled_none {A} (m : M pc_state A) : (forall s r s', m s = (r, s') -> pc_db s' = pc_db s) -> journalled m.
Proof. intros Hm s r s' _ Hr _. by rewrite (Hm _ _ _ Hr). Qed.
Lemma journalled_bind {A B} (m : M pc_state A) (f : A -> M pc_state B) :
  journalled m -> (forall x, journalled (f x)) -> journalled (bind m f).
Proof.
  intros Hm Hf s r s' Hw Hr Hp. unfold bind in Hr. destruct (m s) as [[x|e|p] s1] eqn:E.
  - pose proof (Hm _ _ _ Hw E eq_refl) as H1. etrans; [exact H1|]. eapply Hf; [|done..]. by eapply jsteps_wf.
  - injection Hr as _ <-. by eapply Hm.
  - by injection Hr as <- _.
Qed.
Lemma journalled_db {A} (m : M StateDB A) : steps m -> (forall d e d', addr_wf d -> m d <> (Err e, d')) -> journalled (on_db m).
Proof.
  intros Hm He s r s' Hw. unfold on_db, zoom. destruct (m (pc_db s)) as [[x|e|p] d] eqn:E; intros [= <- <-] Hp; [|by destruct (He _ _ _ (wf_addr _ Hw) E)|done].
  by eapply Hm.
Qed.
Lemma two_then {A B} (m : M pc_state A) (f : A -> M pc_state B) :
  two_phase m -> (forall x, journalled (f x)) -> two_phase (bind m f).
Proof.
  intros Hm Hf s r s' Hc Hr Hp. unfold bind in Hr. destruct (m s) as [[x|e|p] s1] eqn:E.
  - destruct (Hm _ _ _ Hc E eq_refl) as (v & evs & Hv). exists v, evs. intros Hw. specialize (Hv Hw). etrans; [exact Hv|].
    eapply Hf; [|done..]. by eapply jsteps_wf.
  - injection Hr as _ <-. by eapply Hm.
  - by injection Hr as <- _.
Qed.
Lemma journalled_two {A} (m : M pc_state A) : journalled m -> two_phase m.
Proof.
  intros Hm s r s' Hc Hr Hp. exists (ctx_of s), []. unfold ctx_of. rewrite wr_id by done. intros Hw. by eapply Hm.
Qed.

Lemma bind_assoc {T A B C} (m : M T A) (f : A -> M T B) (g : B -> M T C) (x : T) :
  bind (bind m f) g x = bind m (fun y => bind (f y) g) x.
Proof. unfold bind. by destruct (m x) as [[a|e|p] x1]. Qed.

Lemma setup_journalled {A} p (m : M pc_state A) : two_phase m -> journalled (do! on_db (RunSetup p); m).
Proof.
  intros Hm s r s' Hw Hr Hp. unfold bind, on_db, zoom in Hr.
  destruct (RunSetup p (pc_db s)) as [[[]|e|msg] d] eqn:Hs; [| |by injection Hr as <- _].
  - apply RunSetup_cached in Hs as Hc. destruct (Hm (PCS d (pc_gas s)) _ _ Hc Hr Hp) as (v & evs & Hv). cbn [pc_db] in Hv.
    assert (precompile_call p (fun _ => (v, evs)) (pc_db s) = (Ok tt, wr v evs d)) as Hcall.
    { unfold precompile_call, try, bind. by rewrite Hs. }
    pose proof (precompile_call_steps _ _ _ _ _ Hw Hcall) as H1. etrans; [exact H1|]. apply Hv. by eapply jsteps_wf.
  - injection Hr as _ <-. cbn [pc_db]. eapply (precompile_call_steps p (fun k => (k, [])) _ tt); [done|].
    unfold precompile_call, try, bind. by rewrite Hs.
Qed.

(** A whole call: the setup, a body in two phases, the gas. *)
Lemma call_journalled p g contract ro isTx (body : Method * list abi_value -> M pc_state (option bytes)) :
  (forall ma, two_phase (body ma)) ->
  journalled (let! ma := setup p g contract ro isTx in let! bz := body ma in charge g contract bz).
Proof.
  intros Hb s r s' Hw Hr. unfold setup in Hr. rewrite bind_assoc in Hr.
  revert s r s' Hw Hr. apply setup_journalled. apply two_after.
  - apply wrote_none. intros s r s' Hr. unfold bind, lift, on_gas, zoom, fail, ret in Hr.
    repeat (case_match; simplify_eq/=; try done).
  - intros ma. apply two_then; [apply Hb|]. intros bz. apply journalled_none. intros s r s'.
    unfold charge. rewrite bind_gets. case_match; by intros [= <- <-].
Qed.

(** The operations of the bodies. *)
Lemma AddBalance_journalled a v : journalled (on_db (AddBalance a v)).
Proof.
  apply journalled_db; [apply AddBalance_steps|]. intros d e d' Hw E. pose proof (AddBalance_shown a v d Hw) as Hs. by rewrite E in Hs.
Qed.
Lemma SubBalance_journalled a v : journalled (on_db (SubBalance a v)).
Proof.
  apply journalled_db; [apply SubBalance_steps|]. intros d e d' Hw E. pose proof (SubBalance_shown a v d Hw) as Hs. by rewrite E in Hs.
Qed.
Lemma AddLog_journalled l : journalled (on_db (AddLog l)).
Proof. apply journalled_db; [apply AddLog_steps|]. intros d e d' _. unfold AddLog, bind. by rewrite append_run. Qed.
Lemma journalled_lift {A} (r : res A) : journalled (lift r).
Proof. apply journalled_none. by intros s x s' [= _ <-]. Qed.
Lemma journalled_ret {A} (x : A) : journalled (ret x).
Proof. apply journalled_none. by intros s y s' [= _ <-]. Qed.
Lemma journalled_fail {A} k m : journalled (@fail pc_state A k m).
Proof. apply journalled_none. by intros s y s' [= _ <-]. Qed.

(** Whatever a journalled computation did after a snapshot, reverting restores. *)
Lemma journalled_restored {A} (m : M pc_state A) d i d1 g r s2 : journalled m ->
  sdb_wf d -> Snapshot d = (Ok i, d1) -> m (PCS d1 g) = (r, s2) -> is_panic r = false ->
  exists t, RevertToSnapshot i (pc_db s2) = (Ok tt, t) /\ same_answers d t /\
    jrnl t = jrnl d /\ validRevisions t = validRevisions d /\
    ctx t = ctx d /\ ctx_events t = ctx_events d /\ cache_view t = cache_view d.
Proof.
  intros Hm Hw Hs Hr Hp. destruct (snapshot_above _ _ _ Hw Hs) as [Hw1 Hab].
  pose proof (Hm (PCS d1 g) _ _ Hw1 Hr Hp) as Hj. cbn [pc_db] in Hj. apply above_restored; [done|by eapply jsteps_wf|by eapply above_steps].
Qed.
End calls.

#[export] Hint Resolve AddBalance_journalled SubBalance_journalled AddLog_journalled journalled_lift journalled_ret
  journalled_fail wrote_ctx : guru.
