(* ===== verification/PrecompileErc20.v ===== *)
(** precompiles/erc20 and precompiles/werc20: the ERC-20 interface of a coin, and
    the interface of the wrapped native coin, as precompiled contracts over the
    registry of x/erc20, the bank and the state database. *)
From Stdlib Require Import Ascii.
From S2P Require Import Prelude KVStore Sdk EvmConfig PreciseBank StateDB TxData VmKeeper VmGas.
From S2P Require Import Erc20 Erc20Keeper Erc20Ibc Precompile.
Import Meter.

(** * Errors ([erc20/errors.go]) *)

(** The text of the sentinel an error wraps, where a test below looks for it. *)
Definition sentinel_text (k : errkind) : string :=
  match k with
  | ErrInvalidBaseDenom => "invalid base denomination"
  | ErrInsufficientFunds => "insufficient funds"
  | _ => ""
  end.
Definition err_text (e : error) : string := e_msg e ++ ": " ++ sentinel_text (e_kind e).
Definition contains (sub text : string) : bool :=
  match String.index 0 sub text with Some _ => true | None => false end.

Definition ErrTransferAmountExceedsBalance : error := Error ErrOther "ERC20: transfer amount exceeds balance".
Definition ErrInsufficientAllowance : error := Error ErrOther "ERC20: insufficient allowance".
Definition ErrDecreasedAllowanceBelowZero : error := Error ErrOther "ERC20: decreased allowance below zero".
Definition ErrNegativeAmount : error := Error ErrOther "cannot approve negative values".
Definition vm_ErrExecutionReverted : error := Error ErrExecutionReverted "execution reverted".

Definition ConvertErrToERC20Error (err : error) : error :=
  if contains "spendable balance" (err_text err) then ErrTransferAmountExceedsBalance
  else if contains "requested amount is more than spend limit" (err_text err) then ErrInsufficientAllowance
  else if contains "subtracted value cannot be greater than existing allowance" (err_text err)
  then ErrDecreasedAllowanceBelowZero
  else if contains "integer overflow when increasing allowance" (err_text err) then vm_ErrExecutionReverted
  else if bool_decide (e_kind err = ErrNoIBCVoucherDenom) || bool_decide (e_kind err = ErrDenomNotFound)
       || contains "invalid base denomination" (err_text err)
       || contains "display denomination not found" (err_text err)
       || contains "invalid decimals" (err_text err)
  then vm_ErrExecutionReverted
  else err.

(** [if err != nil { return ConvertErrToERC20Error(err) }] *)
Definition converting {S A} (m : M S A) : M S A := fun s =>
  match m s with (Err e, s') => (Err (ConvertErrToERC20Error e), s') | r => r end.
Definition converted {A} (r : res A) : res A :=
  match r with Err e => Err (ConvertErrToERC20Error e) | _ => r end.

(** * Arguments ([erc20/types.go]) *)

Definition wrong_args {A} (args : list abi_value) : res A := Err (Error ErrOther "invalid number of arguments").
Definition ParseTransferArgs (args : list abi_value) : res (Address * Z) :=
  match args with
  | [a0; a1] => match a0 with
      | VAddress to => match a1 with
          | VBig amount => Ok (to, amount)
          | _ => Err (Error ErrOther "invalid amount")
          end
      | _ => Err (Error ErrOther "invalid to address")
      end
  | _ => wrong_args args
  end.
Definition ParseTransferFromArgs (args : list abi_value) : res (Address * Address * Z) :=
  match args with
  | [a0; a1; a2] => match a0 with
      | VAddress from => match a1 with
          | VAddress to => match a2 with
              | VBig amount => Ok (from, to, amount)
              | _ => Err (Error ErrOther "invalid amount")
              end
          | _ => Err (Error ErrOther "invalid to address")
          end
      | _ => Err (Error ErrOther "invalid from address")
      end
  | _ => wrong_args args
  end.
Definition ParseApproveArgs (args : list abi_value) : res (Address * Z) :=
  match args with
  | [a0; a1] => match a0 with
      | VAddress spender => match a1 with
          | VBig amount => Ok (spender, amount)
          | _ => Err (Error ErrOther "invalid amount")
          end
      | _ => Err (Error ErrOther "invalid spender address")
      end
  | _ => wrong_args args
  end.
Definition ParseAllowanceArgs (args : list abi_value) : res (Address * Address) :=
  match args with
  | [a0; a1] => match a0 with
      | VAddress owner => match a1 with
          | VAddress spender => Ok (owner, spender)
          | _ => Err (Error ErrOther "invalid spender address")
          end
      | _ => Err (Error ErrOther "invalid owner address")
      end
  | _ => wrong_args args
  end.
Definition ParseBalanceOfArgs (args : list abi_value) : res Address :=
  match args with
  | [VAddress account] => Ok account
  | [_] => Err (Error ErrOther "invalid account address")
  | _ => wrong_args args
  end.

(** [strings.ToUpper] on ASCII text *)
Definition upper_char (c : ascii) : ascii :=
  let n := nat_of_ascii c in
  if ((97 <=? n) && (n <=? 122))%nat then ascii_of_nat (n - 32) else c.
Fixpoint ToUpper (s : string) : string :=
  match s with "" => "" | String c s => String (upper_char c) (ToUpper s) end.

(** * The keepers behind the precompile

    [cmn.BankKeeper], with the message server over it, and the keepers of
    x/erc20 and of ICS-20 transfers, on the stores of a context. *)
Inductive BankKind := BaseKeeper | PreciseBankKeeper | OtherKeeper.
Class PcEnv `{StateKeeper} := {
  kx_reg : KS -> erc20_state;
  kx_set_reg : erc20_state -> KS -> KS;
  kx_GetDenom : KS -> bytes -> option IbcDenom;
  kb_kind : BankKind;
  kb_Send : MsgSend -> M KS unit;
  kb_SendCoins : addr -> addr -> coins -> M KS unit;
  kb_SpendableCoin : KS -> addr -> string -> res coin;
  kb_GetSupply : KS -> string -> coin;
  kb_GetDenomMetaData : KS -> string -> option Metadata;
  kb_AccountBalances : KS -> addr -> list coin;      (** in iteration order *)
  kb_TotalSupply : KS -> list coin;
}.

Section erc20.
Context `{CoinsLib, AddressCodec, Keccak, EthHex, Tmhash, IbcHash, StateKeeper, !PcEnv}.
Variable info : EvmCoinInfo.
Variable height : Z.
Variable p : Precompile.
Variable tokenPair : TokenPair.
Implicit Types (contract : Contract) (method : Method).

Abbreviation self := (pc_Address p).
Abbreviation abi := (pc_ABI p).
Definition on_reg {A} (m : M erc20_state A) : M pc_state A := on_ctx (zoom kx_reg kx_set_reg m).

(** * Gas ([erc20.go]) *)

Definition GasTransfer : Z := 3000000.
Definition GasApprove : Z := 30956.
Definition GasName : Z := 3421.
Definition GasSymbol : Z := 3464.
Definition GasDecimals : Z := 427.
Definition GasTotalSupply : Z := 2477.
Definition GasBalanceOf : Z := 2851.
Definition GasAllowance : Z := 3246.

Definition erc20_RequiredGas (input : bytes) : Z :=
  if (length input <? 4)%nat then 0
  else match MethodById abi (take 4 input) with
  | Ok method =>
      if decide (m_Name method = "transfer") then GasTransfer
      else if decide (m_Name method = "transferFrom") then GasTransfer
      else if decide (m_Name method = "approve") then GasApprove
      else if decide (m_Name method = "name") then GasName
      else if decide (m_Name method = "symbol") then GasSymbol
      else if decide (m_Name method = "decimals") then GasDecimals
      else if decide (m_Name method = "totalSupply") then GasTotalSupply
      else if decide (m_Name method = "balanceOf") then GasBalanceOf
      else if decide (m_Name method = "allowance") then GasAllowance
      else 0
  | _ => 0
  end.

(** * Events ([events.go]) *)

Definition emit_event (name : string) (a b : Address) (value : Z) : M pc_state unit :=
  let! t1 := lift (MakeTopic (TAddress a)) in
  let! t2 := lift (MakeTopic (TAddress b)) in
  let! packed := lift (Event_Pack abi name [VBig value]) in
  on_db (AddLog (mkLog self [Event_ID abi name; t1; t2] packed height 0 0 0 0)).
Definition EmitTransferEvent (from to : Address) (value : Z) : M pc_state unit := emit_event "Transfer" from to value.
Definition EmitApprovalEvent (owner spender : Address) (value : Z) : M pc_state unit :=
  emit_event "Approval" owner spender value.

(** * Transactions ([tx.go], [approve.go], [bank_msg_server_wrapper.go]) *)

Definition MsgServer_Send (msg : MsgSend) : M pc_state unit :=
  match kb_kind with
  | BaseKeeper | PreciseBankKeeper => converting (on_ctx (kb_Send msg))
  | OtherKeeper => fail ErrInvalidRequest "invalid keeper type"
  end.

(** The allowance of a [transferFrom] is spent before the coins move.  The new
    allowance of this block is another variable than the one the event reads. *)
Definition spend_allowance (from spender : Address) (amount : Z) : M pc_state unit :=
  let! prevAllowance := gets (fun s => GetAllowance (kx_reg (ctx_of s)) self from spender) in
  let newAllowance := prevAllowance - amount in
  if newAllowance <? 0 then throw ErrInsufficientAllowance
  else converting (on_reg
    (if newAllowance =? 0 then DeleteAllowance self from spender
     else SetAllowance self from spender (Some newAllowance))).

(** The balances of the database follow the bank when the coin is the native one. *)
Definition mirror_native (from to : Address) (amount : Z) : M pc_state unit :=
  if decide (tp_Denom tokenPair = Denom info) then
    match Uint256FromBigInt (ConvertAmountTo18DecimalsBigInt info amount) with
    | None => fail ErrOther "overflow trying to convert *big.Int to uint256.Int"
    | Some convertedAmount =>
        do! on_db (SubBalance from convertedAmount);
        do! on_db (AddBalance to convertedAmount);
        ret tt
    end
  else ret tt.

Definition transfer contract method (from to : Address) (amount : Z) : M pc_state bytes :=
  let! a := lift (int_chk amount) in
  let coins := [Coin (tp_Denom tokenPair) a] in
  let msg := mkMsgSend (bech32_of (address_bytes from)) (bech32_of (address_bytes to)) coins in
  if negb (coins_valid coins) then fail ErrOther "invalid coins"
  else
    let isTransferFrom := bool_decide (m_Name method = "transferFrom") in
    let spenderAddr := ct_Caller contract in
    let newAllowance := 0 in
    do! (if isTransferFrom then spend_allowance from spenderAddr amount else ret tt);
    do! converting (MsgServer_Send msg);
    do! mirror_native from to amount;
    do! EmitTransferEvent from to amount;
    do! (if isTransferFrom then EmitApprovalEvent from spenderAddr newAllowance else ret tt);
    lift (Outputs_Pack abi method [VBool true]).
Definition erc20_Transfer contract method (args : list abi_value) : M pc_state bytes :=
  let! a := lift (ParseTransferArgs args) in
  transfer contract method (ct_Caller contract) a.1 a.2.
Definition TransferFrom contract method (args : list abi_value) : M pc_state bytes :=
  let! a := lift (ParseTransferFromArgs args) in
  transfer contract method a.1.1 a.1.2 a.2.

Definition precompile_setAllowance (owner spender : Address) (allowance : Z) : M pc_state unit :=
  if negb (int_fits allowance) then fail ErrOther "causes integer overflow"
  else on_reg (SetAllowance self owner spender (Some allowance)).
Definition Approve contract method (args : list abi_value) : M pc_state bytes :=
  let! a := lift (ParseApproveArgs args) in
  let spender := a.1 in let amount := a.2 in
  let owner := ct_Caller contract in
  let! allowance := gets (fun s => GetAllowance (kx_reg (ctx_of s)) self owner spender) in
  do! (if (allowance =? 0) && (amount <? 0) then throw ErrNegativeAmount
       else if (allowance =? 0) && (0 <? amount) then precompile_setAllowance owner spender amount
       else if (0 <? allowance) && (amount <=? 0) then on_reg (DeleteAllowance self owner spender)
       else if (0 <? allowance) && (0 <? amount) then precompile_setAllowance owner spender amount
       else ret tt);
  do! EmitApprovalEvent owner spender amount;
  lift (Outputs_Pack abi method [VBool true]).

(** * Queries ([query.go]) *)

Definition query {A} (f : KS -> res A) : M pc_state A := fun s => (f (ctx_of s), s).

Definition getBaseDenomFromIBCVoucher (k : KS) (voucherDenom : string) : res string :=
  let? denom := GetDenom (kx_GetDenom k) voucherDenom in
  if (String.length (dn_Base denom) <? 3)%nat
  then Err (Error ErrOther "invalid base denomination; should be at least length 3")
  else Ok (dn_Base denom).
Definition erc20_Name method : M pc_state bytes :=
  query (fun k =>
    match kb_GetDenomMetaData k (tp_Denom tokenPair) with
    | Some metadata => Outputs_Pack abi method [VString (md_Name metadata)]
    | None =>
        let? baseDenom := converted (getBaseDenomFromIBCVoucher k (tp_Denom tokenPair)) in
        let n := String.length baseDenom in
        Outputs_Pack abi method
          [VString (ToUpper (String.substring 1 1 baseDenom) ++ String.substring 2 (n - 2) baseDenom)]
    end).
Definition erc20_Symbol method : M pc_state bytes :=
  query (fun k =>
    match kb_GetDenomMetaData k (tp_Denom tokenPair) with
    | Some metadata => Outputs_Pack abi method [VString (md_Symbol metadata)]
    | None =>
        let? baseDenom := converted (getBaseDenomFromIBCVoucher k (tp_Denom tokenPair)) in
        Outputs_Pack abi method [VString (ToUpper (String.substring 1 (String.length baseDenom - 1) baseDenom))]
    end).
(** The last unit with the name of the display denomination. *)
Definition display_exponent (metadata : Metadata) : option Z :=
  match filter (fun u => du_Denom u = md_Display metadata) (rev (md_DenomUnits metadata)) with
  | [] => None
  | u :: _ => Some (du_Exponent u)
  end.
Definition erc20_Decimals method : M pc_state bytes :=
  query (fun k =>
    match kb_GetDenomMetaData k (tp_Denom tokenPair) with
    | None =>
        let? denom := converted (GetDenom (kx_GetDenom k) (tp_Denom tokenPair)) in
        let? decimals := converted (DeriveDecimalsFromDenom (dn_Base denom)) in
        Outputs_Pack abi method [VUint8 decimals]
    | Some metadata =>
        match display_exponent metadata with
        | None => Err (ConvertErrToERC20Error (Error ErrOther "display denomination not found for denom"))
        | Some decimals =>
            if 255 <? decimals
            then Err (ConvertErrToERC20Error (Error ErrOther "uint8 overflow: invalid decimals"))
            else Outputs_Pack abi method [VUint8 decimals]
        end
    end).
Definition erc20_TotalSupply method : M pc_state bytes :=
  query (fun k => Outputs_Pack abi method [VBig (c_amt (kb_GetSupply k (tp_Denom tokenPair)))]).
Definition erc20_BalanceOf method (args : list abi_value) : M pc_state bytes :=
  query (fun k =>
    let? account := ParseBalanceOfArgs args in
    let? balance := kb_SpendableCoin k (address_bytes account) (tp_Denom tokenPair) in
    Outputs_Pack abi method [VBig (c_amt balance)]).
Definition erc20_Allowance method (args : list abi_value) : M pc_state bytes :=
  query (fun k =>
    let? a := ParseAllowanceArgs args in
    Outputs_Pack abi method [VBig (GetAllowance (kx_reg k) self a.1 a.2)]).

(** * The call ([erc20.go]) *)

Definition erc20_IsTransaction method : bool :=
  bool_decide (m_Name method ∈ ["transfer"; "transferFrom"; "approve"]).
Definition HandleMethod contract method (args : list abi_value) : M pc_state bytes :=
  if decide (m_Name method = "transfer") then erc20_Transfer contract method args
  else if decide (m_Name method = "transferFrom") then TransferFrom contract method args
  else if decide (m_Name method = "approve") then Approve contract method args
  else if decide (m_Name method = "name") then erc20_Name method
  else if decide (m_Name method = "symbol") then erc20_Symbol method
  else if decide (m_Name method = "decimals") then erc20_Decimals method
  else if decide (m_Name method = "totalSupply") then erc20_TotalSupply method
  else if decide (m_Name method = "balanceOf") then erc20_BalanceOf method args
  else if decide (m_Name method = "allowance") then erc20_Allowance method args
  else fail ErrOther "unknown method".

Definition erc20_run (initialGas : Z) contract (readOnly : bool) : M pc_state (option bytes * Z) :=
  if 0 <? ct_Value contract then fail ErrOther "cannot receive funds"
  else
    let! ma := setup p initialGas contract readOnly erc20_IsTransaction in
    let! bz := HandleMethod contract ma.1 ma.2 in
    charge initialGas contract (Some bz).

(** [Run]: an error reverts, with its text as the reason. *)
Definition reverting (pack_reason : string -> option bytes) (m : M pc_state (option bytes * Z))
    : M pc_state (option bytes * option error) := fun s =>
  match m s with
  | (Ok r, s') => (Ok (r.1, None), s')
  | (Err e, s') => let '(bz, e') := ReturnRevertError pack_reason e in (Ok (bz, Some e'), s')
  | (Panic m, s') => (Panic m, s')
  end.
Definition erc20_Run (pack_reason : string -> option bytes) (initialGas : Z) contract (readOnly : bool)
    : M pc_state (option bytes * option error) :=
  reverting pack_reason (erc20_run initialGas contract readOnly).

(** * The wrapped native coin ([werc20/]) *)

Definition DepositRequiredGas : Z := 23878.
Definition WithdrawRequiredGas : Z := 9207.
Definition werc20_RequiredGas (input : bytes) : Z :=
  if (length input <? 4)%nat then DepositRequiredGas
  else match MethodById abi (take 4 input) with
  | Ok method =>
      if decide (m_Name method = "deposit") then DepositRequiredGas
      else if decide (m_Name method = "withdraw") then WithdrawRequiredGas
      else erc20_RequiredGas input
  | _ => 0
  end.

Definition createWERC20Event (name : string) (a : Address) (amount : Z) : M pc_state unit :=
  let! t1 := lift (MakeTopic (TAddress a)) in
  let! packed := lift (Event_Pack abi name [VBig amount]) in
  on_db (AddLog (mkLog self [Event_ID abi name; t1] packed height 0 0 0 0)).
Definition EmitDepositEvent (caller : Address) (amount : Z) : M pc_state unit :=
  createWERC20Event "Deposit" caller amount.
Definition EmitWithdrawalEvent (src : Address) (amount : Z) : M pc_state unit :=
  createWERC20Event "Withdrawal" src amount.

Definition Deposit contract : M pc_state unit :=
  let caller := ct_Caller contract in
  let depositedAmount := ct_Value contract in
  let! n := lift (int_chk depositedAmount) in
  let! cs := lift (new_coins [Coin (ExtendedDenom info) n]) in
  do! on_ctx (kb_SendCoins (address_bytes self) (address_bytes caller) cs);
  do! on_db (SubBalance self depositedAmount);
  do! on_db (AddBalance caller depositedAmount);
  EmitDepositEvent caller depositedAmount.
Definition Withdraw contract (args : list abi_value) : M pc_state unit :=
  match args with
  | [] => panic "index out of range"
  | VBig amount :: _ =>
      let! amountInt := lift (int_chk amount) in
      let caller := ct_Caller contract in
      let! nativeBalance := query (fun k => kb_SpendableCoin k (address_bytes caller) (Denom info)) in
      let! scaled := lift (int_mul (c_amt nativeBalance) (ConversionFactor info)) in
      if scaled <? amountInt then fail ErrOther "account balance is lower than withdraw balance"
      else EmitWithdrawalEvent caller amount
  | _ => fail ErrOther "invalid argument type"
  end.

Definition werc20_IsTransaction method : bool :=
  bool_decide (m_Name method ∈ ["deposit"; "withdraw"]) || bool_decide (m_Type method ∈ [FallbackType; ReceiveType])
  || erc20_IsTransaction method.
Definition werc20_run (initialGas : Z) contract (readOnly : bool) : M pc_state (option bytes * Z) :=
  let! ma := setup p initialGas contract readOnly werc20_IsTransaction in
  let method := ma.1 in let args := ma.2 in
  let! bz := (if decide (m_Type method = FallbackType \/ m_Type method = ReceiveType \/ m_Name method = "deposit")
              then do! Deposit contract; ret None
              else if decide (m_Name method = "withdraw") then do! Withdraw contract args; ret None
              else let! b := HandleMethod contract method args in ret (Some b)) in
  charge initialGas contract bz.
Definition werc20_Run (pack_reason : string -> option bytes) (initialGas : Z) contract (readOnly : bool)
    : M pc_state (option bytes * option error) :=
  reverting pack_reason (werc20_run initialGas contract readOnly).
End erc20.
