(* ===== verification/PrecompileErc20Thms.v ===== *)
(** precompiles/erc20 and werc20: a call is journalled, so the EVM can undo it; the
    transactions implement the abstract ERC-20 machine on the bank's balances and
    the registry's allowances; an account that approved nobody loses nothing to
    the calls of others; and the events and balances of the database they leave. *)
From S2P Require Import Prelude KVStore Sdk EvmConfig PreciseBank StateDB TxData VmKeeper VmGas.
From S2P Require Import Erc20 Erc20Reg Erc20Keeper Erc20Ibc Precompile PrecompileErc20.
From S2P Require Import StateDBInv StateDBRun StateDBOps StateDBMachine StateDBThms VmKeeperThms PrecompileThms.
Import AccessList Transient Meter.

Section journal.
Context `{CoinsLib, AddressCodec, Keccak, EthHex, Tmhash, IbcHash, StateKeeper, !PcEnv}.
Variable info : EvmCoinInfo.
Variable height : Z.
Variable p : Precompile.
Variable tokenPair : TokenPair.

Lemma wrote_lift {A} (r : res A) : wrote (lift r).
Proof. apply wrote_none. by intros s x s' [= _ <-]. Qed.
Lemma wrote_ret {A} (x : A) : wrote (ret x).
Proof. apply wrote_none. by intros s y s' [= _ <-]. Qed.
Lemma wrote_fail {A} k m : wrote (@fail pc_state A k m).
Proof. apply wrote_none. by intros s y s' [= _ <-]. Qed.
Lemma wrote_throw {A} e : wrote (@throw pc_state A e).
Proof. apply wrote_none. by intros s y s' [= _ <-]. Qed.
Lemma wrote_gets {A} (f : pc_state -> A) : wrote (gets f).
Proof. apply wrote_none. by intros s y s' [= _ <-]. Qed.
Lemma wrote_query {A} (f : KS -> res A) : wrote (query f).
Proof. apply wrote_none. by intros s y s' [= _ <-]. Qed.
Lemma wrote_converting {A} (m : M pc_state A) : wrote m -> wrote (converting m).
Proof.
  intros Hm s r s' Hc. unfold converting. destruct (m s) as [[x|e|q] s1] eqn:E; intros [= _ <-]; by eapply Hm.
Qed.
Hint Resolve wrote_lift wrote_ret wrote_fail wrote_throw wrote_gets wrote_query wrote_converting : guru.

Lemma spend_wrote from sp n : wrote (spend_allowance p from sp n).
Proof.
  apply wrote_bind; [eauto with guru|]. intros a. cbv zeta.
  destruct (_ <? 0); [eauto with guru|]. apply wrote_converting. apply wrote_ctx.
Qed.
Lemma send_wrote msg : wrote (MsgServer_Send msg).
Proof. unfold MsgServer_Send. case_match; eauto with guru. Qed.
Lemma emit_journalled name a b v : journalled (emit_event height p name a b v).
Proof. do 3 (apply journalled_bind; [eauto with guru|intros]). eauto with guru. Qed.
Lemma mirror_journalled from to n : journalled (mirror_native info tokenPair from to n).
Proof.
  unfold mirror_native. case_decide; [|eauto with guru]. case_match; [|eauto with guru].
  do 2 (apply journalled_bind; [eauto with guru|intros]). eauto with guru.
Qed.
Hint Resolve emit_journalled mirror_journalled : guru.

Lemma transfer_two contract method from to n : two_phase (transfer info height p tokenPair contract method from to n).
Proof.
  unfold transfer. apply two_after; [eauto with guru|]. intros a. case_match; [apply wrote_two; eauto with guru|].
  apply two_after; [case_match; [apply spend_wrote|eauto with guru]|]. intros _.
  apply two_after; [apply wrote_converting, send_wrote|]. intros _. apply journalled_two.
  do 2 (apply journalled_bind; [unfold EmitTransferEvent; eauto with guru|intros _]).
  apply journalled_bind; [case_match; unfold EmitApprovalEvent|]; eauto with guru.
Qed.
Lemma Approve_two contract method args : two_phase (Approve height p contract method args).
Proof.
  unfold Approve. apply two_after; [eauto with guru|]. intros [sp n]. cbv zeta.
  apply two_after; [eauto with guru|]. intros allowance. apply two_after.
  - unfold precompile_setAllowance, on_reg. repeat case_match; eauto with guru.
  - intros _. apply journalled_two, journalled_bind; unfold EmitApprovalEvent; eauto with guru.
Qed.
Lemma HandleMethod_two contract method args : two_phase (HandleMethod info height p tokenPair contract method args).
Proof.
  unfold HandleMethod. repeat case_decide;
    try (apply two_after; [eauto with guru|intros ?; apply transfer_two]);
    try apply Approve_two; apply wrote_two; try apply wrote_query; apply wrote_fail.
Qed.
Lemma werc20_event_journalled name a v : journalled (createWERC20Event height p name a v).
Proof. do 2 (apply journalled_bind; [eauto with guru|intros]). eauto with guru. Qed.
Lemma Deposit_two contract : two_phase (Deposit info height p contract).
Proof.
  unfold Deposit. do 3 (apply two_after; [eauto with guru|intros ?]). apply journalled_two.
  do 2 (apply journalled_bind; [eauto with guru|intros _]). apply werc20_event_journalled.
Qed.
Lemma Withdraw_two contract args : two_phase (Withdraw info height p contract args).
Proof.
  unfold Withdraw. destruct args as [|v args]; [|destruct v; try (apply wrote_two; by eauto with guru)].
  - apply wrote_two, wrote_none. by intros s r s' [= _ <-].
  - do 3 (apply two_after; [eauto with guru|intros ?]). case_match; [apply wrote_two; eauto with guru|].
    apply journalled_two, werc20_event_journalled.
Qed.

Lemma erc20_run_journalled g contract ro : journalled (erc20_run info height p tokenPair g contract ro).
Proof.
  unfold erc20_run. case_match; [eauto with guru|].
  intros s r s' Hw Hr.
  eapply (call_journalled p g contract ro (erc20_IsTransaction)
    (fun ma => let! b := HandleMethod info height p tokenPair contract ma.1 ma.2 in ret (Some b))); [|exact Hw|].
  - intros ma. apply two_then; [apply HandleMethod_two|eauto with guru].
  - rewrite <- Hr. unfold bind. destruct (setup _ _ _ _ _ s) as [[ma|e|q] s1]; [|done|done].
    by destruct (HandleMethod _ _ _ _ _ _ _ s1) as [[b|e|q] s2].
Qed.
Lemma werc20_run_journalled g contract ro : journalled (werc20_run info height p tokenPair g contract ro).
Proof.
  apply (call_journalled p g contract ro werc20_IsTransaction). intros ma. repeat case_decide;
    (apply two_then; [apply Deposit_two || apply Withdraw_two || apply HandleMethod_two|eauto with guru]).
Qed.
Lemma reverting_journalled pack_reason m : journalled m -> journalled (reverting pack_reason m).
Proof.
  intros Hm s r s' Hw. unfold reverting. destruct (m s) as [[x|e|q] s1] eqn:E; [intros [= <- <-] Hp..|intros [= <- _]; done].
  - by eapply Hm.
  - by eapply Hm.
Qed.

(** C22.  A call of the ERC-20 precompile or of the wrapped native coin, whatever
    its input and whether it returns or reverts (with an allowance spent and the
    coins not moved, for one), is undone by the revert of the EVM to a snapshot
    taken before it: the revert does not panic, every getter of the state database
    answers as before, and the stores of the context (allowances, balances, the
    rest of the chain) read as they did. *)
Theorem precompile_call_undone pack_reason gas contract ro d i d1 g r s2 :
  sdb_wf d -> Snapshot d = (Ok i, d1) ->
  erc20_Run info height p tokenPair pack_reason gas contract ro (PCS d1 g) = (Ok r, s2) \/
  werc20_Run info height p tokenPair pack_reason gas contract ro (PCS d1 g) = (Ok r, s2) ->
  exists t, RevertToSnapshot i (pc_db s2) = (Ok tt, t) /\ same_answers d t /\
    jrnl t = jrnl d /\ ctx t = ctx d /\ cache_view t = cache_view d.
Proof.
  intros Hw Hs Hr.
  assert (exists m, journalled m /\ m (PCS d1 g) = (Ok r, s2)) as (m & Hm & Hrun).
  { destruct Hr as [Hr|Hr]; eexists; (split; [|exact Hr]); apply reverting_journalled;
      [apply erc20_run_journalled|apply werc20_run_journalled]. }
  destruct (journalled_restored m d i d1 g (Ok r) s2 Hm Hw Hs Hrun eq_refl) as (t & ? & ? & ? & ? & ? & _ & ?).
  by exists t.
Qed.
End journal.

(** * The abstract ERC-20 machine *)

Record token := mkToken { t_bal : Address -> Z; t_allow : Address -> Address -> Z }.
Inductive token_call :=
  | CTransfer (to : Address) (n : Z) | CTransferFrom (from to : Address) (n : Z) | CApprove (spender : Address) (n : Z).

Definition t_move (from to : Address) (n : Z) (b : Address -> Z) (a : Address) : Z :=
  b a - (if decide (a = from) then n else 0) + (if decide (a = to) then n else 0).
Definition t_set (o sp : Address) (v : Z) (f : Address -> Address -> Z) (o' sp' : Address) : Z :=
  if decide (o' = o /\ sp' = sp) then v else f o' sp'.

(** A transfer moves a positive amount; a transfer on behalf of another spends the
    caller's allowance; an approval replaces the allowance, and a negative one is
    refused when there is none to remove. *)
Definition token_step (caller : Address) (c : token_call) (t : token) : option token :=
  match c with
  | CTransfer to n => if 0 <? n then Some (mkToken (t_move caller to n (t_bal t)) (t_allow t)) else None
  | CTransferFrom from to n =>
      if (0 <? n) && (n <=? t_allow t from caller)
      then Some (mkToken (t_move from to n (t_bal t)) (t_set from caller (t_allow t from caller - n) (t_allow t)))
      else None
  | CApprove sp n =>
      if (n <? 0) && (t_allow t caller sp =? 0) then None
      else Some (mkToken (t_bal t) (t_set caller sp (Z.max 0 n) (t_allow t)))
  end.

(** Machines that agree on the addresses there are. *)
Definition token_eq (t t' : token) : Prop :=
  (forall a, address_ok a -> t_bal t a = t_bal t' a) /\
  (forall o sp, address_ok o -> address_ok sp -> t_allow t o sp = t_allow t' o sp).

(** What the keepers of the context promise: the registry is one of its stores, and
    a [Send] of the bank moves one coin between accounts that may hold coins. *)
Class PcEnvLaws `{CoinsLib, AddressCodec, StateKeeper, !PcEnv} := {
  kb_ok : KS -> Prop;
  kb_open : addr -> Prop;
  kb_balance : KS -> addr -> string -> Z;
  kx_get_set : forall r k, kx_reg (kx_set_reg r k) = r;
  kb_ok_reg : forall r k, kb_ok k -> kb_ok (kx_set_reg r k);
  kb_balance_reg : forall r k a d, kb_balance (kx_set_reg r k) a d = kb_balance k a d;
  kb_Send_moves : forall from to d n k k', kb_ok k -> kb_open (address_bytes from) -> kb_open (address_bytes to) ->
    kb_Send (mkMsgSend (bech32_of (address_bytes from)) (bech32_of (address_bytes to)) [Coin d n]) k = (Ok tt, k') ->
    kb_ok k' /\ kx_reg k' = kx_reg k /\
    forall a, kb_balance k' a d = kb_balance k a d
      - (if decide (a = address_bytes from) then n else 0) + (if decide (a = address_bytes to) then n else 0);
  kb_SendCoins_moves : forall from to d n cs k k', kb_ok k -> kb_open (address_bytes from) -> kb_open (address_bytes to) ->
    denom_ok d = true -> 0 <= n -> new_coins [Coin d n] = Ok cs ->
    kb_SendCoins (address_bytes from) (address_bytes to) cs k = (Ok tt, k') ->
    kb_ok k' /\ kx_reg k' = kx_reg k /\
    forall a, kb_balance k' a d = kb_balance k a d
      - (if decide (a = address_bytes from) then n else 0) + (if decide (a = address_bytes to) then n else 0);
}.

Section refine.
Context `{CoinsLib, !CoinsLaws, AddressCodec, Keccak, EthHex, !EthHexLaws, Tmhash, !TmhashLaws, IbcHash, StateKeeper, !PcEnv, !PcEnvLaws}.
Variable info : EvmCoinInfo.
Variable height : Z.
Variable p : Precompile.
Variable tokenPair : TokenPair.
Hypothesis Hself : address_ok (pc_Address p).
Implicit Types (s : pc_state) (d : StateDB) (contract : Contract) (method : Method).

Abbreviation self := (pc_Address p).
Abbreviation denom := (tp_Denom tokenPair).
Abbreviation abi := (pc_ABI p).
Abbreviation allowance s := (GetAllowance (kx_reg (ctx_of s)) self).
Abbreviation bank s := (fun a => kb_balance (ctx_of s) a denom).

(** The token the precompile is for, in the stores of the context. *)
Definition tok (k : KS) : token :=
  mkToken (fun a => kb_balance k (address_bytes a) denom) (GetAllowance (kx_reg k) self).

(** ** Writes of the context *)

Lemma on_ctx_run {A} (m : M KS A) s r s' : cached (pc_db s) -> on_ctx m s = (r, s') ->
  exists k, m (ctx_of s) = (r, k) /\ pc_db s' = set_cache_view k (pc_db s) /\ ctx_of s' = k /\ cached (pc_db s').
Proof.
  intros Hc. unfold on_ctx, on_db, zoom. fold (ctx_of s). destruct (m (ctx_of s)) as [x k]. intros [= <- <-].
  exists k. destruct (cached_view_set k _ Hc). split_and!; try done.
Qed.
Lemma on_reg_run {A} (m : M erc20_state A) s r s' : cached (pc_db s) -> on_reg m s = (r, s') ->
  exists g, m (kx_reg (ctx_of s)) = (r, g) /\ pc_db s' = set_cache_view (kx_set_reg g (ctx_of s)) (pc_db s) /\
    ctx_of s' = kx_set_reg g (ctx_of s) /\ cached (pc_db s').
Proof.
  intros Hc Hr. apply on_ctx_run in Hr as (k & Hk & Hd & Hx & Hc'); [|done]. unfold zoom in Hk.
  destruct (m (kx_reg (ctx_of s))) as [x g]. injection Hk as <- <-. eauto.
Qed.
Lemma shown_view k d a : shown (set_cache_view k d) a = shown d a.
Proof. done. Qed.

Lemma allowance_set t o sp v g o' sp' : address_ok t -> address_ok o -> address_ok sp -> address_ok o' -> address_ok sp' ->
  GetAllowance (with_allowances (partial_alter (fun _ => allowance_entry t o sp v) (AllowanceKey t o sp)) g) t o' sp' =
    t_set o sp v (GetAllowance g t) o' sp'.
Proof.
  intros ? ? ? ? ?. unfold GetAllowance, t_set. cbn [with_allowances er_allowances]. case_decide as Hd.
  - destruct Hd as [-> ->]. rewrite lookup_partial_alter_eq. unfold allowance_entry. by destruct (Z.eqb_spec v 0) as [->|].
  - rewrite lookup_partial_alter_ne; [done|]. intros E. apply AllowanceKey_inj in E as (_ & -> & ->); by try apply Hd.
Qed.

(** A successful change of an allowance, from a handler. *)
Lemma set_allowance_run o sp v s s' : cached (pc_db s) -> kb_ok (ctx_of s) -> address_ok o -> address_ok sp ->
  on_reg (setAllowance self o sp (Some v) false) s = (Ok tt, s') ->
  0 <= v /\ pc_db s' = set_cache_view (ctx_of s') (pc_db s) /\ cached (pc_db s') /\ kb_ok (ctx_of s') /\
  (forall a, bank s' a = bank s a) /\
  (forall o' sp', address_ok o' -> address_ok sp' -> allowance s' o' sp' = t_set o sp v (allowance s) o' sp').
Proof.
  intros Hc Hk Ho Hsp Hr. apply on_reg_run in Hr as (g & Hg & Hd & Hx & Hc'); [|done].
  apply setAllowance_ok in Hg as (v' & q & [= <-] & Hv & _ & _ & _ & _ & ->). rewrite Hx.
  split_and!; [lia|done|done|by apply kb_ok_reg|intros a; apply kb_balance_reg|].
  intros o' sp' Ho' Hsp'. rewrite kx_get_set. by apply allowance_set.
Qed.

Lemma converting_ok {A} (m : M pc_state A) s x s' : converting m s = (Ok x, s') -> m s = (Ok x, s').
Proof. unfold converting. destruct (m s) as [[y|e|q] s1]; by intros [= <- <-]. Qed.

Lemma spend_ok from sp n s s' : cached (pc_db s) -> kb_ok (ctx_of s) -> address_ok from -> address_ok sp ->
  spend_allowance p from sp n s = (Ok tt, s') ->
  n <= allowance s from sp /\ pc_db s' = set_cache_view (ctx_of s') (pc_db s) /\ cached (pc_db s') /\ kb_ok (ctx_of s') /\
  (forall a, bank s' a = bank s a) /\
  (forall o' sp', address_ok o' -> address_ok sp' ->
    allowance s' o' sp' = t_set from sp (allowance s from sp - n) (allowance s) o' sp').
Proof.
  intros Hc Hk Ho Hsp. unfold spend_allowance. rewrite bind_gets. cbv zeta.
  destruct (Z.ltb_spec (allowance s from sp - n) 0) as [|Hge]; [done|]. intros Hr. apply converting_ok in Hr.
  split; [lia|]. unfold DeleteAllowance, SetAllowance in Hr.
  destruct (Z.eqb_spec (allowance s from sp - n) 0) as [E|E].
  - rewrite E. by apply set_allowance_run in Hr as (_ & ?).
  - by apply set_allowance_run in Hr as (_ & ?).
Qed.

Lemma send_ok from to n s s' : cached (pc_db s) -> kb_ok (ctx_of s) ->
  kb_open (address_bytes from) -> kb_open (address_bytes to) ->
  converting (MsgServer_Send (mkMsgSend (bech32_of (address_bytes from)) (bech32_of (address_bytes to)) [Coin denom n])) s
    = (Ok tt, s') ->
  pc_db s' = set_cache_view (ctx_of s') (pc_db s) /\ cached (pc_db s') /\ kb_ok (ctx_of s') /\
  kx_reg (ctx_of s') = kx_reg (ctx_of s) /\
  (forall a, bank s' a = bank s a
     - (if decide (a = address_bytes from) then n else 0) + (if decide (a = address_bytes to) then n else 0)).
Proof.
  intros Hc Hk Hf Ht Hr. apply converting_ok in Hr. unfold MsgServer_Send in Hr.
  assert (exists k, kb_Send (mkMsgSend (bech32_of (address_bytes from)) (bech32_of (address_bytes to)) [Coin denom n]) (ctx_of s)
    = (Ok tt, k) /\ pc_db s' = set_cache_view k (pc_db s) /\ ctx_of s' = k /\ cached (pc_db s')) as (k & Hs & Hd & Hx & Hc').
  { destruct kb_kind; [apply on_ctx_run; [done|by apply converting_ok]..|done]. }
  apply kb_Send_moves in Hs as (? & ? & Hb); [|done..]. rewrite Hx. done.
Qed.

(** ** Changes of the database *)

Definition db_kept s s' : Prop := ctx_of s' = ctx_of s /\ (cached (pc_db s) -> cached (pc_db s')) /\ addr_wf (pc_db s').
Lemma kept_of d d' (g g' : gas_meter) : ctx d' = ctx d -> cacheCtx d' = cacheCtx d -> addr_wf d' -> db_kept (PCS d g) (PCS d' g').
Proof.
  intros Hc Hcc Hw. unfold db_kept, ctx_of, cached, cache_view. cbn [pc_db]. by rewrite Hc, Hcc.
Qed.
Lemma db_kept_trans s1 s2 s3 : db_kept s1 s2 -> db_kept s2 s3 -> db_kept s1 s3.
Proof. intros (E1 & C1 & W1) (E2 & C2 & W2). split_and!; [congruence|auto|done]. Qed.

Lemma emit_ok name a b v s s' : addr_wf (pc_db s) -> emit_event height p name a b v s = (Ok tt, s') ->
  db_kept s s' /\ (forall x, shown (pc_db s') x = shown (pc_db s) x) /\
  exists data l, Event_Pack abi name [VBig v] = Ok data /\ logs (pc_db s') = logs (pc_db s) ++ [l] /\
    lg_Address l = self /\ lg_Topics l = [Event_ID abi name; a; b] /\ lg_Data l = data.
Proof.
  intros Hw Hr. unfold emit_event in Hr. apply bind_lift_ok in Hr as (t1 & [= <-] & Hr).
  apply bind_lift_ok in Hr as (t2 & [= <-] & Hr). apply bind_lift_ok in Hr as (data & Hd & Hr).
  unfold on_db, zoom, AddLog, bind in Hr. rewrite append_run in Hr. unfold modify in Hr. injection Hr as <-.
  destruct s as [d g]. split_and!; [by apply kept_of|done|]. exists data. eexists. by split_and!.
Qed.

(** A subtraction and an addition move the amount, in words of 256 bits. *)
Lemma shown_moved from to c d d1 d2 :
  balance_set from (if c =? 0 then shown d from else uint256 (shown d from - c)) d d1 ->
  balance_set to (if c =? 0 then shown d1 to else uint256 (shown d1 to + c)) d1 d2 ->
  forall a, uint256 (shown d2 a) = uint256 (t_move from to c (shown d) a).
Proof.
  intros [_ _ _ _ S1] [_ _ _ _ S2] a. rewrite S2. unfold t_move.
  assert (forall x, uint256 (uint256 x) = uint256 x) as Hid by (intros x; unfold uint256; apply Z.mod_mod; lia).
  assert (forall x y, uint256 (uint256 x + y) = uint256 (x + y)) as Hadd
    by (intros x y; unfold uint256; by rewrite Zplus_mod_idemp_l).
  destruct (Z.eqb_spec c 0) as [->|Hc]; rewrite ?S1; repeat case_decide; subst; rewrite ?Hid, ?Hadd; try f_equal; lia.
Qed.

(** The balances the database shows after the coins of a native token moved. *)
Definition mirrored (from to : Address) (n : Z) d d' : Prop := forall a,
  uint256 (shown d' a) = uint256 (if decide (denom = Denom info)
    then t_move from to (n * ConversionFactor info) (shown d) a else shown d a).
Lemma mirror_ok from to n s s' : addr_wf (pc_db s) -> mirror_native info tokenPair from to n s = (Ok tt, s') ->
  db_kept s s' /\ logs (pc_db s') = logs (pc_db s) /\ mirrored from to n (pc_db s) (pc_db s').
Proof.
  intros Hw Hr. unfold mirror_native, mirrored in *. destruct (decide (denom = Denom info)).
  2:{ injection Hr as <-. destruct s as [d g]. split_and!; [by apply kept_of|done|done]. }
  unfold ConvertAmountTo18DecimalsBigInt, Uint256FromBigInt in Hr.
  set (c := n * ConversionFactor info) in *. destruct (c <? 0); [done|]. destruct (2 ^ 256 <=? c); [done|].
  apply bind_ok in Hr as (z1 & s1 & K1 & Hr). apply bind_ok in Hr as (z2 & s2 & K2 & [= <-]).
  unfold on_db, zoom in K1, K2. pose proof (SubBalance_shown from c (pc_db s) Hw) as B1.
  destruct (SubBalance from c (pc_db s)) as [q1 d1]. injection K1 as -> <-. pose proof B1 as [W1 C1 CC1 L1 S1].
  pose proof (AddBalance_shown to c d1 W1) as B2. cbn [pc_db] in K2.
  destruct (AddBalance to c d1) as [q2 d2]. injection K2 as -> <-. pose proof B2 as [W2 C2 CC2 L2 S2].
  destruct s as [d g]. cbn [pc_db pc_gas] in *. split_and!; [apply kept_of; [congruence..|done]|congruence|].
  by apply (shown_moved from to c d d1 d2).
Qed.

(** ** Transfers *)

Lemma bytes_eq a x (n m : Z) : address_ok a -> address_ok x ->
  (if decide (address_bytes a = address_bytes x) then n else m) = (if decide (a = x) then n else m).
Proof.
  intros Ha Hx. pose proof (address_bytes_inj a x Ha Hx) as Hi. destruct (decide (a = x)) as [->|Hne].
  - by rewrite decide_True.
  - rewrite decide_False; [done|]. intros E. by apply Hne, Hi.
Qed.

Definition party (a : Address) : Prop := address_ok a /\ kb_open (address_bytes a).

Record transfer_done (isTransferFrom : bool) (caller from to : Address) (n : Z) s s' : Prop := {
  td_pos : 0 < n;
  td_cached : cached (pc_db s');
  td_addr : addr_wf (pc_db s');
  td_ok : kb_ok (ctx_of s');
  td_spent : isTransferFrom = true -> n <= allowance s from caller;
  td_allow : forall o sp, address_ok o -> address_ok sp -> allowance s' o sp =
    if isTransferFrom then t_set from caller (allowance s from caller - n) (allowance s) o sp else allowance s o sp;
  td_bal : forall a, address_ok a -> bank s' (address_bytes a) = t_move from to n (fun b => bank s (address_bytes b)) a;
  td_mirrored : mirrored from to n (pc_db s) (pc_db s');
  td_logs : exists l1 data, Event_Pack abi "Transfer" [VBig n] = Ok data /\ lg_Address l1 = self /\
    lg_Topics l1 = [Event_ID abi "Transfer"; from; to] /\ lg_Data l1 = data /\
    if isTransferFrom then exists l2 data2, Event_Pack abi "Approval" [VBig 0] = Ok data2 /\ lg_Address l2 = self /\
      lg_Topics l2 = [Event_ID abi "Approval"; from; caller] /\ lg_Data l2 = data2 /\
      logs (pc_db s') = logs (pc_db s) ++ [l1; l2]
    else logs (pc_db s') = logs (pc_db s) ++ [l1];
}.

Lemma coins_one_pos n : coins_valid [Coin denom n] = true -> 0 < n.
Proof. intros Hv%valid_positive. by inversion Hv. Qed.

Lemma transfer_ok contract method from to n s bz s' :
  cached (pc_db s) -> addr_wf (pc_db s) -> kb_ok (ctx_of s) ->
  party from -> party to -> address_ok (ct_Caller contract) ->
  transfer info height p tokenPair contract method from to n s = (Ok bz, s') ->
  transfer_done (bool_decide (m_Name method = "transferFrom")) (ct_Caller contract) from to n s s'.
Proof.
  intros Hc Hw Hk [Hfa Hfo] [Hta Hto] Hca Hr. unfold transfer in Hr.
  apply bind_lift_ok in Hr as (a & Ha & Hr). unfold int_chk in Ha. destruct (int_fits n); [|done]. injection Ha as <-.
  destruct (coins_valid _) eqn:Hv; [|done]. apply coins_one_pos in Hv. cbn [negb] in Hr. cbv zeta in Hr.
  set (isFrom := bool_decide (m_Name method = "transferFrom")) in *.
  apply bind_ok in Hr as ([] & s1 & R1 & Hr). apply bind_ok in Hr as ([] & s2 & R2 & Hr).
  apply bind_ok in Hr as ([] & s3 & R3 & Hr). apply bind_ok in Hr as ([] & s4 & R4 & Hr).
  apply bind_ok in Hr as ([] & s5 & R5 & Hr). assert (s' = s5) as -> by (unfold lift in Hr; congruence). clear Hr bz.
  assert ((isFrom = true -> n <= allowance s from (ct_Caller contract)) /\
    (forall a, shown (pc_db s1) a = shown (pc_db s) a) /\ logs (pc_db s1) = logs (pc_db s) /\ addr_wf (pc_db s1) /\
    cached (pc_db s1) /\ kb_ok (ctx_of s1) /\ (forall a, bank s1 a = bank s a) /\
    forall o sp, address_ok o -> address_ok sp -> allowance s1 o sp =
      if isFrom then t_set from (ct_Caller contract) (allowance s from (ct_Caller contract) - n) (allowance s) o sp
      else allowance s o sp) as (Hsp & Hsh1 & Hl1 & Hw1 & Hc1 & Hk1 & Hb1 & Hal1).
  { destruct isFrom; [|injection R1 as <-; by split_and!].
    apply spend_ok in R1 as (Hle & Hd & Hc1 & Hk1 & Hb1 & Hal1); [|done..]. split_and!; try done; by rewrite Hd. }
  apply send_ok in R2 as (Hd2 & Hc2 & Hk2 & Hreg2 & Hb2); [|done..].
  assert (addr_wf (pc_db s2)) as Hw2 by by rewrite Hd2.
  apply mirror_ok in R3 as (K3 & Hl3 & Hm3); [|done]. apply emit_ok in R4 as (K4 & Hsh4 & d1 & l1 & Hp1 & Hl4 & A1 & T1 & D1); [|apply K3].
  assert (db_kept s4 s5 /\ (forall x, shown (pc_db s5) x = shown (pc_db s4) x) /\
    if isFrom then exists l2 data2, Event_Pack abi "Approval" [VBig 0] = Ok data2 /\ lg_Address l2 = self /\
      lg_Topics l2 = [Event_ID abi "Approval"; from; ct_Caller contract] /\ lg_Data l2 = data2 /\
      logs (pc_db s5) = logs (pc_db s4) ++ [l2]
    else logs (pc_db s5) = logs (pc_db s4)) as (K5 & Hsh5 & Hl5).
  { destruct isFrom; [|injection R5 as <-; destruct K4 as (? & ? & ?); by split_and!].
    apply emit_ok in R5 as (K5 & Hsh5 & d2 & l2 & ? & ? & ? & ? & ?); [|apply K4]. split_and!; try done. by exists l2, d2. }
  destruct (db_kept_trans _ _ _ (db_kept_trans _ _ _ K3 K4) K5) as (Hx & Hcc & Hw5).
  constructor; try done.
  - by apply Hcc.
  - by rewrite Hx.
  - intros o sp Ho Hspp. rewrite Hx, Hreg2. by apply Hal1.
  - intros a Haa. rewrite Hx, Hb2, Hb1. unfold t_move. by rewrite !bytes_eq.
  - intros a. rewrite Hsh5, Hsh4, Hm3. unfold t_move.
    assert (forall x, shown (pc_db s2) x = shown (pc_db s) x) as Hsh2 by (intros x; by rewrite Hd2, shown_view).
    by rewrite !Hsh2.
  - exists l1, d1. split_and!; try done. assert (logs (pc_db s4) = logs (pc_db s) ++ [l1]) as E
      by (rewrite Hl4, Hl3, Hd2; cbn; by rewrite Hl1).
    destruct isFrom; [|congruence]. destruct Hl5 as (l2 & d2 & ? & ? & ? & ? & El). exists l2, d2.
    split_and!; try done. by rewrite El, E, <- app_assoc.
Qed.

(** ** Approvals *)

Lemma approve_ok contract method sp n s bz s' :
  cached (pc_db s) -> addr_wf (pc_db s) -> kb_ok (ctx_of s) -> address_ok sp -> address_ok (ct_Caller contract) ->
  0 <= allowance s (ct_Caller contract) sp ->
  Approve height p contract method [VAddress sp; VBig n] s = (Ok bz, s') ->
  let caller := ct_Caller contract in
  cached (pc_db s') /\ addr_wf (pc_db s') /\ kb_ok (ctx_of s') /\ ~ (n < 0 /\ allowance s caller sp = 0) /\
  (forall a, bank s' a = bank s a) /\
  (forall o x, address_ok o -> address_ok x -> allowance s' o x = t_set caller sp (Z.max 0 n) (allowance s) o x) /\
  (forall x, shown (pc_db s') x = shown (pc_db s) x) /\
  exists data l, Event_Pack abi "Approval" [VBig n] = Ok data /\ logs (pc_db s') = logs (pc_db s) ++ [l] /\
    lg_Address l = self /\ lg_Topics l = [Event_ID abi "Approval"; caller; sp] /\ lg_Data l = data.
Proof.
  intros Hc Hw Hk Hsp Hca Hal Hr caller. unfold Approve in Hr. apply bind_lift_ok in Hr as (a & [= <-] & Hr).
  cbn [fst snd] in Hr. rewrite bind_gets in Hr. fold caller in Hr. set (al := allowance s caller sp) in *.
  change (0 <= al) in Hal.
  apply bind_ok in Hr as ([] & s1 & R1 & Hr). apply bind_ok in Hr as ([] & s2 & R2 & Hr).
  assert (s' = s2) as -> by (unfold lift in Hr; congruence). clear Hr bz.
  assert (~ (n < 0 /\ al = 0) /\ (forall x, shown (pc_db s1) x = shown (pc_db s) x) /\ logs (pc_db s1) = logs (pc_db s) /\
    addr_wf (pc_db s1) /\ cached (pc_db s1) /\ kb_ok (ctx_of s1) /\ (forall a, bank s1 a = bank s a) /\
    forall o x, address_ok o -> address_ok x -> allowance s1 o x = t_set caller sp (Z.max 0 n) (allowance s) o x)
    as (Hneg & Hsh1 & Hl1 & Hw1 & Hc1 & Hk1 & Hb1 & Hal1).
  { assert (forall v, on_reg (setAllowance self caller sp (Some v) false) s = (Ok tt, s1) -> v = Z.max 0 n ->
      (forall x, shown (pc_db s1) x = shown (pc_db s) x) /\ logs (pc_db s1) = logs (pc_db s) /\
      addr_wf (pc_db s1) /\ cached (pc_db s1) /\ kb_ok (ctx_of s1) /\ (forall a, bank s1 a = bank s a) /\
      forall o x, address_ok o -> address_ok x -> allowance s1 o x = t_set caller sp (Z.max 0 n) (allowance s) o x) as Hset.
    { intros v Hv ->. apply set_allowance_run in Hv as (_ & Hd & ? & ? & ? & ?); [|done..].
      split_and!; try done; by rewrite Hd. }
    unfold precompile_setAllowance in R1. unfold DeleteAllowance, SetAllowance in R1.
    destruct (Z.eqb_spec al 0) as [E|E], (Z.ltb_spec n 0), (Z.ltb_spec 0 n), (Z.ltb_spec 0 al), (Z.leb_spec n 0);
      try lia; cbn [andb] in R1; try done;
      try (destruct (int_fits n); [cbn [negb] in R1|done]);
      (split; [lia|]); try (eapply Hset; [exact R1|lia]).
    injection R1 as <-. split_and!; try done. intros o x Ho Hx. unfold t_set. case_decide as Hd; [|done].
    destruct Hd as [-> ->]. fold al. lia. }
  apply emit_ok in R2 as ((Hx & Hcc & Hw2) & Hsh2 & data & l & Hp & Hl & ? & ? & ?); [|done].
  split_and!; [by apply Hcc|done|by rewrite Hx|done|intros a; by rewrite Hx, Hb1|intros o x ? ?; rewrite Hx; by apply Hal1|
    intros x; by rewrite Hsh2, Hsh1|]. exists data, l. by rewrite Hl, Hl1.
Qed.

(** ** The methods as steps of the machine *)

Record pc_inv s : Prop := {
  pi_cached : cached (pc_db s);
  pi_addr : addr_wf (pc_db s);
  pi_ok : kb_ok (ctx_of s);
  pi_allow : forall o sp, address_ok o -> address_ok sp -> 0 <= allowance s o sp;
}.
Definition args_ok (args : list abi_value) : Prop :=
  Forall (fun v => match v with VAddress a => party a | _ => True end) args.

Definition call_of method (args : list abi_value) : option token_call :=
  if decide (m_Name method = "transfer") then
    match args with [VAddress to; VBig n] => Some (CTransfer to n) | _ => None end
  else if decide (m_Name method = "transferFrom") then
    match args with [VAddress from; VAddress to; VBig n] => Some (CTransferFrom from to n) | _ => None end
  else if decide (m_Name method = "approve") then
    match args with [VAddress sp; VBig n] => Some (CApprove sp n) | _ => None end
  else None.

Lemma transfer_args args a : ParseTransferArgs args = Ok a -> args = [VAddress a.1; VBig a.2].
Proof. destruct args as [|x [|y [|z args]]]; try done. destruct x; try done. destruct y; try done. by intros [= <-]. Qed.
Lemma transferFrom_args args a : ParseTransferFromArgs args = Ok a -> args = [VAddress a.1.1; VAddress a.1.2; VBig a.2].
Proof.
  destruct args as [|x [|y [|z [|w args]]]]; try done. destruct x; try done. destruct y; try done. destruct z; try done.
  by intros [= <-].
Qed.
Lemma approve_args args a : ParseApproveArgs args = Ok a -> args = [VAddress a.1; VBig a.2].
Proof. destruct args as [|x [|y [|z args]]]; try done. destruct x; try done. destruct y; try done. by intros [= <-]. Qed.

Lemma done_refines isFrom contract from to n s s' :
  pc_inv s -> party (ct_Caller contract) -> address_ok from ->
  transfer_done isFrom (ct_Caller contract) from to n s s' ->
  (isFrom = false -> from = ct_Caller contract) ->
  pc_inv s' /\ exists t', token_step (ct_Caller contract)
    (if isFrom then CTransferFrom from to n else CTransfer to n) (tok (ctx_of s)) = Some t' /\ token_eq (tok (ctx_of s')) t'.
Proof.
  intros [_ _ _ Hal] [Hca _] Hfa [Hpos Hc Hw Hk Hsp Hall Hbal _ _] Hfrom. split.
  - split; try done. intros o sp Ho Hspp. rewrite Hall by done. destruct isFrom; [|by apply Hal].
    unfold t_set. case_decide; [specialize (Hsp eq_refl); lia|by apply Hal].
  - destruct isFrom; unfold token_step.
    + rewrite (proj2 (Z.ltb_lt 0 n) Hpos). cbn [tok t_allow andb].
      rewrite (proj2 (Z.leb_le _ _) (Hsp eq_refl)). eexists. split; [reflexivity|]. split; cbn; [done|].
      intros o sp Ho Hspp. by apply Hall.
    + rewrite <- (Hfrom eq_refl). rewrite (proj2 (Z.ltb_lt 0 n) Hpos). eexists. split; [reflexivity|]. by split.
Qed.

Lemma handle_refines contract method args s bz s' :
  pc_inv s -> party (ct_Caller contract) -> args_ok args ->
  HandleMethod info height p tokenPair contract method args s = (Ok bz, s') ->
  pc_inv s' /\
  match call_of method args with
  | Some c => exists t', token_step (ct_Caller contract) c (tok (ctx_of s)) = Some t' /\ token_eq (tok (ctx_of s')) t'
  | None => s' = s
  end.
Proof.
  intros Hi Hca Hargs Hr. pose proof Hi as [Hc Hw Hk Hal]. unfold HandleMethod in Hr. unfold call_of.
  destruct (decide (m_Name method = "transfer")) as [Hm|Hm].
  { unfold erc20_Transfer in Hr. apply bind_lift_ok in Hr as ([to n] & Ha & Hr). apply transfer_args in Ha as ->.
    inversion_clear Hargs as [|? ? Hto _]. cbn [fst snd] in *. apply transfer_ok in Hr; [|done..|apply Hca].
    rewrite bool_decide_false in Hr by (rewrite Hm; done). by apply (done_refines false) in Hr; [|try done; apply Hca..]. }
  destruct (decide (m_Name method = "transferFrom")) as [Hm2|Hm2].
  { unfold TransferFrom in Hr. apply bind_lift_ok in Hr as ([[from to] n] & Ha & Hr). apply transferFrom_args in Ha as ->.
    inversion_clear Hargs as [|? ? Hfrom Hrest]. inversion_clear Hrest as [|? ? Hto _]. cbn [fst snd] in *.
    apply transfer_ok in Hr; [|done..|apply Hca]. rewrite bool_decide_true in Hr by done.
    by apply (done_refines true) in Hr; [|try done; apply Hfrom..]. }
  destruct (decide (m_Name method = "approve")) as [Hm3|Hm3].
  { pose proof Hr as Hr'. unfold Approve in Hr'. apply bind_lift_ok in Hr' as ([sp n] & Ha & _). apply approve_args in Ha as ->.
    inversion_clear Hargs as [|? ? Hsp _]. cbn [fst snd] in *. destruct Hsp as [Hsp _], Hca as [Hca _].
    apply approve_ok in Hr as (Hc' & Hw' & Hk' & Hneg & Hb & Hall & _); [|try done; by apply Hal..]. split.
    - split; try done. intros o x Ho Hx. rewrite Hall by done. unfold t_set. case_decide; [lia|by apply Hal].
    - unfold token_step. cbn [tok t_allow t_bal]. destruct (_ && _) eqn:E.
      + apply andb_true_iff in E as [E1%Z.ltb_lt E2%Z.eqb_eq]. by destruct Hneg.
      + eexists. split; [reflexivity|]. split; cbn; [intros; apply Hb|done]. }
  assert (s' = s) as ->; [|done]. repeat (case_decide; [by injection Hr as _ <-|]). done.
Qed.

(** C7.  On the balances of the bank and the allowances of the registry, each
    transaction of the ERC-20 precompile is the step of the abstract ERC-20 machine
    for its caller and arguments (a transfer moves a positive amount and no
    allowance, a transfer on behalf of another spends exactly that much of the
    caller's allowance, an approval replaces one allowance and moves nothing), and
    a query changes nothing at all. *)
Theorem HandleMethod_refines contract method args s bz s' :
  pc_inv s -> party (ct_Caller contract) -> args_ok args ->
  HandleMethod info height p tokenPair contract method args s = (Ok bz, s') ->
  pc_inv s' /\
  match call_of method args with
  | Some c => exists t', token_step (ct_Caller contract) c (tok (ctx_of s)) = Some t' /\ token_eq (tok (ctx_of s')) t'
  | None => s' = s
  end.
Proof. exact (handle_refines contract method args s bz s'). Qed.

(** ** Sequences of calls *)

Record pc_call := mkCall { cl_contract : Contract; cl_method : Method; cl_args : list abi_value }.
(** A call that fails is undone. *)
Definition run_call s (c : pc_call) : pc_state :=
  match HandleMethod info height p tokenPair (cl_contract c) (cl_method c) (cl_args c) s with
  | (Ok _, s') => s'
  | _ => s
  end.
Definition call_ok (c : pc_call) : Prop := party (ct_Caller (cl_contract c)) /\ args_ok (cl_args c).

Lemma step_unapproved caller c t t' a : address_ok a -> address_ok caller -> caller <> a ->
  (forall sp, address_ok sp -> t_allow t a sp = 0) -> token_step caller c t = Some t' ->
  t_bal t a <= t_bal t' a /\ forall sp, address_ok sp -> t_allow t' a sp = 0.
Proof.
  intros Ha Hca Hne Hno. unfold token_step. destruct c as [to n|from to n|sp n].
  - destruct (Z.ltb_spec 0 n); [|done]. intros [= <-]. cbn [t_bal t_allow]. split; [|done].
    unfold t_move. rewrite decide_False by done. case_decide; lia.
  - destruct (Z.ltb_spec 0 n); [|done]. destruct (Z.leb_spec n (t_allow t from caller)) as [Hle|]; [|done].
    intros [= <-]. cbn [t_bal t_allow]. assert (a <> from) as Hf by (intros ->; rewrite Hno in Hle; lia || done). split.
    + unfold t_move. rewrite decide_False by done. case_decide; lia.
    + intros sp Hsp. unfold t_set. rewrite decide_False by (by intros [? _]). by apply Hno.
  - destruct (_ && _); [done|]. intros [= <-]. cbn [t_bal t_allow]. split; [lia|].
    intros x Hx. unfold t_set. rewrite decide_False by (intros [? _]; congruence). by apply Hno.
Qed.

(** C9.  An account that has approved nobody loses nothing of the token, whatever
    transactions and queries others send to the precompile and in whatever order,
    and it still has approved nobody. *)
Theorem unapproved_account_keeps_tokens a calls s :
  pc_inv s -> address_ok a -> (forall sp, address_ok sp -> allowance s a sp = 0) ->
  Forall (fun c => call_ok c /\ ct_Caller (cl_contract c) <> a) calls ->
  let s' := foldl run_call s calls in
  pc_inv s' /\ bank s (address_bytes a) <= bank s' (address_bytes a) /\
  forall sp, address_ok sp -> allowance s' a sp = 0.
Proof.
  intros Hi Ha Hno Hcalls. revert s Hi Hno. induction Hcalls as [|c calls [[Hca Hargs] Hne] _ IH]; intros s Hi Hno; [done|].
  cbn [foldl]. assert (pc_inv (run_call s c) /\ bank s (address_bytes a) <= bank (run_call s c) (address_bytes a) /\
    forall sp, address_ok sp -> allowance (run_call s c) a sp = 0) as (Hi1 & Hb1 & Hno1).
  { unfold run_call. destruct (HandleMethod _ _ _ _ _ _ _ s) as [[bz|e|m] s1] eqn:Hr; [|done|done].
    apply handle_refines in Hr as [Hi1 Hr]; [|done..]. destruct (call_of _ _) as [tc|]; [|by subst].
    destruct Hr as (t' & Ht & Hbal & Hall). split; [done|].
    apply (step_unapproved _ _ _ _ a) in Ht as [Hle Hz]; [|done|apply Hca|done|done].
    specialize (Hbal a Ha). cbn [tok t_bal t_allow] in *. split; [lia|]. intros sp Hsp. rewrite (Hall a sp Ha Hsp). by apply Hz. }
  destruct (IH _ Hi1 Hno1) as (? & ? & ?). split_and!; [done|lia|done].
Qed.

(** ** [transferFrom] *)

(**  The event that ends a [transferFrom] reports an allowance of zero, whatever
    is left of it: the new allowance of the block that spends it is another
    variable than the one the event is given. *)
Theorem transferFrom_event_zero contract method from to n s bz s' :
  pc_inv s -> party (ct_Caller contract) -> party from -> party to -> m_Name method = "transferFrom" ->
  n < allowance s from (ct_Caller contract) ->
  TransferFrom info height p tokenPair contract method [VAddress from; VAddress to; VBig n] s = (Ok bz, s') ->
  allowance s' from (ct_Caller contract) = allowance s from (ct_Caller contract) - n /\
  allowance s' from (ct_Caller contract) <> 0 /\
  exists l, last (logs (pc_db s')) = Some l /\ lg_Address l = self /\
    lg_Topics l = [Event_ID abi "Approval"; from; ct_Caller contract] /\ Event_Pack abi "Approval" [VBig 0] = Ok (lg_Data l).
Proof.
  intros [Hc Hw Hk _] [Hca _] Hf Ht Hm Hlt Hr. unfold TransferFrom in Hr. apply bind_lift_ok in Hr as (a & [= <-] & Hr).
  cbn [fst snd] in Hr. apply transfer_ok in Hr; [|done..]. rewrite bool_decide_true in Hr by done.
  destruct Hr as [_ _ _ _ _ Hall _ _ (l1 & d1 & _ & _ & _ & _ & l2 & d2 & Hp & Ha & Htp & <- & Hl)].
  rewrite Hall by (done || apply Hf). unfold t_set. rewrite decide_True by done. split_and!; [done|lia|].
  exists l2. split_and!; try done. rewrite Hl. change [l1; l2] with ([l1] ++ [l2]). by rewrite app_assoc, last_snoc.
Qed.

(**  A [transferFrom] above the allowance of the caller fails with the error of
    an ERC-20 contract and changes nothing. *)
Theorem transferFrom_over_allowance contract method from to n s :
  m_Name method = "transferFrom" -> denom_ok denom = true -> 0 < n < 2 ^ 256 ->
  allowance s from (ct_Caller contract) < n ->
  TransferFrom info height p tokenPair contract method [VAddress from; VAddress to; VBig n] s = (Err ErrInsufficientAllowance, s).
Proof.
  intros Hm Hd Hn Hlt. unfold TransferFrom, transfer. unfold bind at 1, lift at 1. cbn [ParseTransferFromArgs fst snd].
  unfold int_chk. assert (int_fits n = true) as -> by (unfold int_fits; rewrite Z.abs_eq by lia; apply Z.ltb_lt; lia).
  unfold bind at 1, lift at 1. rewrite valid_one by (done || lia). cbn [negb]. rewrite bool_decide_true by done.
  unfold bind at 1, spend_allowance. rewrite bind_gets. cbv zeta.
  by rewrite (proj2 (Z.ltb_lt (allowance s from (ct_Caller contract) - n) 0)) by lia.
Qed.

(** The database reads every account. *)
Lemma on_db_runs {A} (m : M StateDB A) s : addr_wf (pc_db s) ->
  (forall d, addr_wf d -> loads d -> match m d with
    | (Ok _, d') => addr_wf d' /\ ctx d' = ctx d | _ => False end) -> loads (pc_db s) ->
  exists x s', on_db m s = (Ok x, s') /\ addr_wf (pc_db s') /\ loads (pc_db s').
Proof.
  intros Hw Hm Hl. specialize (Hm _ Hw Hl). unfold on_db, zoom. destruct (m (pc_db s)) as [[x|e|q] d]; try done.
  exists x. eexists. split; [reflexivity|]. cbn [pc_db]. destruct Hm as [? Hc]. split; [done|]. intros a. rewrite Hc. apply Hl.
Qed.
Lemma balance_runs (m : Address -> Z -> M StateDB Z) (r : Address -> Z -> StateDB -> Z) :
  (forall a v d, addr_wf d -> match m a v d with
    | (Ok _, d') => balance_set a (r a v d) d d' | (Err _, _) => False
    | (Panic _, _) => exists q, k_GetAccount (ctx d) a = inl q end) ->
  forall a v s, addr_wf (pc_db s) -> loads (pc_db s) ->
  exists x s', on_db (m a v) s = (Ok x, s') /\ addr_wf (pc_db s') /\ loads (pc_db s').
Proof.
  intros Hm a v s Hw Hl. apply on_db_runs; [done| |done]. intros d Hd Hld. specialize (Hm a v d Hd).
  destruct (m a v d) as [[x|e|q] d']; [by destruct Hm|done|]. destruct Hm as [z Hz]. destruct (Hld a). congruence.
Qed.
Lemma emit_runs name a b v s data : addr_wf (pc_db s) -> loads (pc_db s) -> Event_Pack abi name [VBig v] = Ok data ->
  exists s', emit_event height p name a b v s = (Ok tt, s') /\ addr_wf (pc_db s') /\ loads (pc_db s').
Proof. intros Hw Hl Hp. unfold emit_event, bind, lift. cbn [MakeTopic]. rewrite Hp. eexists. by split_and!. Qed.

Lemma set_allowance_runs o sp v s q : GetTokenPair (kx_reg (ctx_of s)) (GetERC20Map (kx_reg (ctx_of s)) self) = Some q ->
  Enabled q = true -> o <> 0 -> sp <> 0 -> 0 <= v < 2 ^ 256 -> cached (pc_db s) ->
  exists g s', on_reg (setAllowance self o sp (Some v) false) s = (Ok tt, s') /\ ctx_of s' = kx_set_reg g (ctx_of s) /\
    pc_db s' = set_cache_view (kx_set_reg g (ctx_of s)) (pc_db s) /\ cached (pc_db s').
Proof.
  intros Hq He Ho Hsp Hv Hc.
  assert (exists g, setAllowance self o sp (Some v) false (kx_reg (ctx_of s)) = (Ok tt, g)) as [g Hg].
  { unfold setAllowance. rewrite bind_gets, Hq, He. cbn [negb andb]. rewrite (proj2 (Z.eqb_neq o 0) Ho), (proj2 (Z.eqb_neq sp 0) Hsp).
    rewrite (proj2 (Z.ltb_ge v 0)) by lia. assert (int_fits v = true) as Hf by (unfold int_fits; rewrite Z.abs_eq by lia; apply Z.ltb_lt; lia).
    rewrite Hf. cbn [negb]. destruct (v =? 0); [by eexists|]. unfold NewAllowance, int_chk. rewrite Hf. by eexists. }
  destruct (on_reg (setAllowance self o sp (Some v) false) s) as [r s'] eqn:E.
  apply on_reg_run in E as (g' & Hg' & Hd & Hx & Hc'); [|done]. rewrite Hg in Hg'. injection Hg' as <- <-. by exists g, s'.
Qed.

(**  A [transferFrom] within the allowance goes through when the pair of the
    contract is registered and enabled and the bank lets the owner send the coins,
    whatever the registry holds: nothing else stops it. *)
Theorem transferFrom_completes contract method from to n s q out data1 data2 :
  let caller := ct_Caller contract in
  let msg := mkMsgSend (bech32_of (address_bytes from)) (bech32_of (address_bytes to)) [Coin denom n] in
  m_Name method = "transferFrom" -> cached (pc_db s) -> addr_wf (pc_db s) -> loads (pc_db s) ->
  GetTokenPair (kx_reg (ctx_of s)) (GetERC20Map (kx_reg (ctx_of s)) self) = Some q -> Enabled q = true ->
  from <> 0 -> caller <> 0 -> denom_ok denom = true -> kb_kind <> OtherKeeper ->
  0 < n <= allowance s from caller -> allowance s from caller < 2 ^ 256 ->
  0 <= n * ConversionFactor info < 2 ^ 256 ->
  (forall g, exists k, kb_Send msg (kx_set_reg g (ctx_of s)) = (Ok tt, k)) ->
  Event_Pack abi "Transfer" [VBig n] = Ok data1 -> Event_Pack abi "Approval" [VBig 0] = Ok data2 ->
  Outputs_Pack abi method [VBool true] = Ok out ->
  exists s', TransferFrom info height p tokenPair contract method [VAddress from; VAddress to; VBig n] s = (Ok out, s').
Proof.
  intros caller msg Hm Hc Hw Hl Hq He Hf Hca Hd Hkind Hn Hal Hcf Hsend Hp1 Hp2 Hout.
  unfold TransferFrom, transfer. unfold bind at 1, lift at 1. cbn [ParseTransferFromArgs fst snd].
  unfold int_chk. assert (int_fits n = true) as -> by (unfold int_fits; rewrite Z.abs_eq by lia; apply Z.ltb_lt; lia).
  unfold bind at 1, lift at 1. rewrite valid_one by (done || lia). cbn [negb]. rewrite bool_decide_true by done.
  fold caller. fold msg. cbv zeta.
  assert (exists g s1, spend_allowance p from caller n s = (Ok tt, s1) /\ ctx_of s1 = kx_set_reg g (ctx_of s) /\
    pc_db s1 = set_cache_view (kx_set_reg g (ctx_of s)) (pc_db s) /\ cached (pc_db s1)) as (g & s1 & R1 & X1 & D1 & C1).
  { unfold spend_allowance. rewrite bind_gets. cbv zeta. rewrite (proj2 (Z.ltb_ge (allowance s from caller - n) 0)) by lia.
    unfold DeleteAllowance, SetAllowance, converting.
    destruct (Z.eqb_spec (allowance s from caller - n) 0) as [E|E];
      [destruct (set_allowance_runs from caller 0 s q) as (g & s1 & R1 & ?)|
       destruct (set_allowance_runs from caller (allowance s from caller - n) s q) as (g & s1 & R1 & ?)]; try done; try lia;
      exists g, s1; by rewrite R1. }
  rewrite (bind_run _ _ _ _ _ R1). destruct (Hsend g) as [k Hk].
  assert (exists s2, converting (MsgServer_Send msg) s1 = (Ok tt, s2) /\ pc_db s2 = set_cache_view k (pc_db s1)) as (s2 & R2 & D2).
  { assert (exists s2, on_ctx (kb_Send msg) s1 = (Ok tt, s2) /\ pc_db s2 = set_cache_view k (pc_db s1)) as (s2 & E & D2).
    { unfold on_ctx, on_db, zoom. fold (ctx_of s1). rewrite X1, Hk. by eexists. }
    exists s2. split; [|done]. unfold converting, MsgServer_Send. destruct kb_kind; [..|done]; unfold converting; by rewrite E. }
  rewrite (bind_run _ _ _ _ _ R2).
  assert (addr_wf (pc_db s2) /\ loads (pc_db s2)) as [W2 L2] by (rewrite D2, D1; done).
  assert (exists s3, mirror_native info tokenPair from to n s2 = (Ok tt, s3) /\ addr_wf (pc_db s3) /\ loads (pc_db s3))
    as (s3 & R3 & W3 & L3).
  { unfold mirror_native. case_decide; [|by exists s2]. unfold ConvertAmountTo18DecimalsBigInt, Uint256FromBigInt.
    rewrite (proj2 (Z.ltb_ge (n * ConversionFactor info) 0)), (proj2 (Z.leb_gt (2 ^ 256) (n * ConversionFactor info))) by lia.
    destruct (balance_runs _ _ SubBalance_shown from (n * ConversionFactor info) s2 W2 L2) as (x & s3 & R3 & W3 & L3).
    destruct (balance_runs _ _ AddBalance_shown to (n * ConversionFactor info) s3 W3 L3) as (y & s4 & R4 & W4 & L4).
    exists s4. cbn [orb]. by rewrite (bind_run _ _ _ _ _ R3), (bind_run _ _ _ _ _ R4). }
  rewrite (bind_run _ _ _ _ _ R3). unfold EmitTransferEvent, EmitApprovalEvent.
  destruct (emit_runs "Transfer" from to n s3 data1 W3 L3 Hp1) as (s4 & R4 & W4 & L4). rewrite (bind_run _ _ _ _ _ R4).
  destruct (emit_runs "Approval" from caller 0 s4 data2 W4 L4 Hp2) as (s5 & R5 & _). rewrite (bind_run _ _ _ _ _ R5).
  exists s5. unfold lift. by rewrite Hout.
Qed.

(** ** The native coin *)

(**  When the token is the native coin, a transfer through the precompile changes
    the balance the state database shows of every account by what it changed in the
    bank, in units of eighteen decimals (and the words of 256 bits of the EVM). *)
Theorem native_transfer_mirrored contract method from to n s bz s' a :
  pc_inv s -> party (ct_Caller contract) -> party from -> party to -> denom = Denom info -> address_ok a ->
  transfer info height p tokenPair contract method from to n s = (Ok bz, s') ->
  uint256 (shown (pc_db s') a) = uint256 (shown (pc_db s) a +
    (bank s' (address_bytes a) - bank s (address_bytes a)) * ConversionFactor info).
Proof.
  intros [Hc Hw Hk _] [Hca _] Hf Ht Hd Ha Hr. apply transfer_ok in Hr; [|done..].
  destruct Hr as [_ _ _ _ _ _ Hb Hm _]. rewrite Hm, Hb by done. rewrite decide_True by done.
  unfold t_move. f_equal. repeat case_decide; lia.
Qed.

(**  A deposit into the wrapped native coin gives the value back: in the bank and
    in the state database alike the deposited amount moves from the contract to the
    caller, allowances stay as they are, and the one log is the deposit. *)
Theorem Deposit_returns_value contract s s' :
  pc_inv s -> party (ct_Caller contract) -> party self -> denom_ok (ExtendedDenom info) = true ->
  0 <= ct_Value contract < 2 ^ 256 -> Deposit info height p contract s = (Ok tt, s') ->
  pc_inv s' /\ kx_reg (ctx_of s') = kx_reg (ctx_of s) /\
  (forall a, address_ok a -> kb_balance (ctx_of s') (address_bytes a) (ExtendedDenom info) =
    t_move self (ct_Caller contract) (ct_Value contract)
      (fun b => kb_balance (ctx_of s) (address_bytes b) (ExtendedDenom info)) a) /\
  (forall a, uint256 (shown (pc_db s') a) =
    uint256 (t_move self (ct_Caller contract) (ct_Value contract) (shown (pc_db s)) a)) /\
  exists l, logs (pc_db s') = logs (pc_db s) ++ [l] /\ lg_Topics l = [Event_ID abi "Deposit"; ct_Caller contract] /\
    Event_Pack abi "Deposit" [VBig (ct_Value contract)] = Ok (lg_Data l).
Proof.
  intros [Hc Hw Hk Hal] [Hca Hco] [_ Hso] Hd Hv Hr. unfold Deposit in Hr. cbv zeta in Hr.
  set (v := ct_Value contract) in *. set (caller := ct_Caller contract) in *.
  apply bind_lift_ok in Hr as (x & Hx & Hr). unfold int_chk in Hx. destruct (int_fits v); [|done]. injection Hx as <-.
  apply bind_lift_ok in Hr as (cs & Hcs & Hr). apply bind_ok in Hr as ([] & s1 & R1 & Hr).
  apply bind_ok in Hr as (z2 & s2 & R2 & Hr). apply bind_ok in Hr as (z3 & s3 & R3 & Hr).
  apply on_ctx_run in R1 as (k & Hs & D1 & X1 & C1); [|done].
  apply (kb_SendCoins_moves _ _ (ExtendedDenom info) v) in Hs as (Hk1 & Hreg1 & Hb1); [|done || lia..].
  assert (addr_wf (pc_db s1)) as W1 by by rewrite D1.
  unfold on_db, zoom in R2, R3. pose proof (SubBalance_shown self v (pc_db s1) W1) as B2.
  destruct (SubBalance self v (pc_db s1)) as [q2 d2]. injection R2 as -> <-. pose proof B2 as [W2 CX2 CC2 L2 S2].
  cbn [pc_db pc_gas] in R3. pose proof (AddBalance_shown caller v d2 W2) as B3.
  destruct (AddBalance caller v d2) as [q3 d3]. injection R3 as -> <-. pose proof B3 as [W3 CX3 CC3 L3 S3].
  unfold EmitDepositEvent, createWERC20Event in Hr. apply bind_lift_ok in Hr as (t1 & [= <-] & Hr).
  apply bind_lift_ok in Hr as (data & Hp & Hr). unfold on_db, zoom, AddLog, bind in Hr. rewrite append_run in Hr.
  unfold modify in Hr. injection Hr as <-. cbn [pc_db pc_gas].
  set (s4 := PCS _ _).
  assert (ctx_of s4 = k) as X4.
  { rewrite <- X1. unfold ctx_of, cache_view, s4. cbn [pc_db with_logs with_jrnl cacheCtx ctx]. by rewrite CC3, CC2, CX3, CX2. }
  assert (cached (pc_db s4)) as C4.
  { destruct C1 as (L & y & evs & E). exists L, y, evs. unfold s4. cbn [pc_db with_logs with_jrnl cacheCtx]. by rewrite CC3, CC2. }
  split_and!.
  - split; [done|exact W3|by rewrite X4|]. intros o sp Ho Hsp. rewrite X4, Hreg1. by apply Hal.
  - by rewrite X4.
  - intros a Ha. rewrite X4, Hb1. unfold t_move. by rewrite !bytes_eq.
  - intros a. match goal with |- uint256 ?x = _ => assert (x = shown d3 a) as -> by done end.
    rewrite (shown_moved _ _ _ _ _ _ B2 B3 a). by rewrite D1.
  - eexists. split; [cbn [pc_db with_logs logs with_jrnl]; rewrite L3, L2, D1; reflexivity|]. done.
Qed.
End refine.
