(* ===== verification/PrecompileApp.v ===== *)
(** The stores of the chain behind the precompiles: the EVM's keeper over
    x/precisebank beside the registry of x/erc20 and the denoms of ICS-20
    ([gurud/app.go]), and the proof that x/precisebank keeps what the ERC-20
    precompile asks of its bank. *)
From S2P Require Import Prelude KVStore Sdk EvmConfig PreciseBank PreciseBankInv PreciseBankSpec PreciseBankCoins PreciseBankThms.
From S2P Require Import Wrappers PreciseBankEvm StateDB TxData VmKeeper Erc20 Erc20Keeper Erc20Ibc.
From S2P Require Import Precompile PrecompileErc20 PrecompileErc20Thms.

Section app.
Context `{CoinsLib, !CoinsLaws, !BankKeeper, !AccountKeeper, !BankLaws} `{AddressCodec, !AddressLaws}.
Context `{Keccak, EvmAccounts}.
Variable info : EvmCoinInfo.
Variable reserve : addr.
Hypothesis Hwired : wired info reserve.
(** The iterations of x/bank, and its metadata. *)
Variable iter_balances : BankState -> addr -> list coin.
Variable iter_supply : BankState -> list coin.

#[local] Instance app_bank : EvmBank := PreciseEvmBank info.

Record app_state := mkApp {
  app_vm : vm_state; app_reg : erc20_state; app_denoms : gmap bytes IbcDenom; app_meta : gmap string Metadata;
}.
Definition with_vm (v : vm_state) (s : app_state) : app_state := mkApp v (app_reg s) (app_denoms s) (app_meta s).
Definition with_reg (r : erc20_state) (s : app_state) : app_state := mkApp (app_vm s) r (app_denoms s) (app_meta s).
Definition app_pb (s : app_state) : pb_state := vm_bank (app_vm s).
Definition with_pb (b : pb_state) (s : app_state) : app_state :=
  with_vm (mkVm (vm_kv (app_vm s)) (vm_accounts (app_vm s)) b) s.
Definition on_vm {A} (m : M vm_state A) : M app_state A := zoom app_vm with_vm m.
Definition on_pb {A} (m : M pb_state A) : M app_state A := zoom app_pb with_pb m.

Definition AppKeeper : StateKeeper := {|
  KS := app_state;
  k_GetAccount s a := vm_GetAccount info (app_vm s) a;
  k_GetState s a h := vm_GetState (app_vm s) a h;
  k_GetCode s h := vm_GetCode (app_vm s) h;
  k_ForEachStorage s a := vm_ForEachStorage (app_vm s) a;
  k_SetAccount a acct := on_vm (vm_SetAccount info a acct);
  k_DeleteState a h s := with_vm (vm_DeleteState a h (app_vm s)) s;
  k_SetState a h v s := with_vm (vm_SetState a h v (app_vm s)) s;
  k_DeleteCode h s := with_vm (vm_DeleteCode h (app_vm s)) s;
  k_SetCode h c s := with_vm (vm_SetCode h c (app_vm s)) s;
  k_DeleteAccount a := on_vm (vm_DeleteAccount info a);
|}.
#[local] Existing Instance AppKeeper.

Definition AppEnv : PcEnv := {|
  kx_reg := app_reg;
  kx_set_reg := with_reg;
  kx_GetDenom s h := app_denoms s !! h;
  kb_kind := PreciseBankKeeper;
  kb_Send msg := on_pb (Send info msg);
  kb_SendCoins from to cs := on_pb (SendCoins info from to cs);
  kb_SpendableCoin s a d := SpendableCoin info (app_pb s) a d;
  kb_GetSupply s d := Coin d (bk_supply (pb_bank (app_pb s)) d);
  kb_GetDenomMetaData s d := app_meta s !! d;
  kb_AccountBalances s a := iter_balances (pb_bank (app_pb s)) a;
  kb_TotalSupply s := iter_supply (pb_bank (app_pb s));
|}.
#[local] Existing Instance AppEnv.

(** What an account has of a coin: extended units of the extended coin, whole
    coins of the integer one. *)
Definition token_balance (s : app_state) (a : addr) (d : string) : Z :=
  if decide (d = ExtendedCoinDenom info) then abs_balance info reserve (app_pb s) a
  else if decide (d = IntegerCoinDenom info) then abs_balance info reserve (app_pb s) a / CF info
  else bk_balance (pb_bank (app_pb s)) a d.

Lemma cf_pos : 0 < CF info.
Proof. pose proof (cf_small info (info_ok info reserve Hwired)). lia. Qed.

(** One coin moves in the balances the token shows. *)
Lemma send_moves from to d n (b b' : pb_state) cs :
  pb_inv info reserve b -> from <> reserve -> to <> reserve -> (cs = [Coin d n] \/ (n = 0 /\ cs = [])) ->
  SendCoins info from to cs b = (Ok tt, b') ->
  pb_inv info reserve b' /\ forall s a,
    token_balance (with_pb b' s) a d = token_balance (with_pb b s) a d
      - (if decide (a = from) then n else 0) + (if decide (a = to) then n else 0).
Proof.
  intros Hi Hf Ht Hcs Hr. pose proof cf_pos as Hcf.
  apply (SendCoins_correct info reserve) in Hr as (Hi' & [Ha _] & Hb);
    [|apply (info_ok info reserve Hwired)|apply (reserve_ok info reserve Hwired)|done..].
  split; [done|]. intros s a.
  assert (forall d', amount_of cs d' = if decide (d = d') then n else 0) as Hamt.
  { intros d'. destruct Hcs as [->|[-> ->]]; [apply amount_of_one|rewrite amount_of_nil; by case_decide]. }
  assert (ext_amount info cs = if decide (d = ExtendedCoinDenom info) then n
    else if decide (d = IntegerCoinDenom info) then n * CF info else 0) as Hext.
  { unfold ext_amount. rewrite !Hamt. repeat case_decide; try congruence; lia. }
  unfold token_balance, app_pb, with_pb, with_vm. cbn [app_vm vm_bank].
  specialize (Ha a). cbn [abs l_balance l_transfer] in Ha. rewrite Hext in Ha.
  destruct (decide (d = ExtendedCoinDenom info)) as [->|Hne].
  - exact Ha.
  - destruct (decide (d = IntegerCoinDenom info)) as [Ed|Hni].
    + rewrite Ha.
      set (x := abs_balance info reserve b a).
      replace (x - (if decide (a = from) then n * CF info else 0) + (if decide (a = to) then n * CF info else 0))
        with (x + (- (if decide (a = from) then n else 0) + (if decide (a = to) then n else 0)) * CF info)
        by (repeat case_decide; lia).
      rewrite Z.div_add by lia. lia.
    + rewrite Hb by done. unfold pass_amount. rewrite Hamt. rewrite (decide_False (P := ExtendedCoinDenom info = d)) by congruence.
      by rewrite (decide_True (P := d = d)) by done.
Qed.

Abbreviation bank_ok := (fun s : app_state => pb_inv info reserve (app_pb s)).
Abbreviation moved_one s s' from to d n := (forall a, token_balance s' a d = token_balance s a d
  - (if decide (a = from) then n else 0) + (if decide (a = to) then n else 0)).

Lemma with_pb_id s : with_pb (app_pb s) s = s.
Proof. by destruct s as [[]]. Qed.

Lemma app_Send from to d n (s s' : app_state) : bank_ok s -> address_bytes from <> reserve -> address_bytes to <> reserve ->
  on_pb (Send info (mkMsgSend (bech32_of (address_bytes from)) (bech32_of (address_bytes to)) [Coin d n])) s = (Ok tt, s') ->
  bank_ok s' /\ app_reg s' = app_reg s /\ moved_one s s' (address_bytes from) (address_bytes to) d n.
Proof.
  intros Hi Hf Ht Hr. unfold on_pb, zoom in Hr.
  assert (forall x, is_bytes (address_bytes x) /\ address_bytes x <> []) as Hab by (intros x; split; [apply be_bytes|done]).
  destruct (Send info _ (app_pb s)) as [r b'] eqn:E. injection Hr as -> <-. unfold Send in E. cbn [ms_From ms_To ms_Amount] in E.
  rewrite !bech32_roundtrip in E by apply Hab. destruct (coins_valid _); [|done]. destruct (coins_all_positive _); [|done].
  cbn [negb] in E. apply bind_ok in E as ([] & b1 & E1 & E). injection E1 as _ <-. destruct (bk_blocked _); [done|].
  apply (send_moves _ _ d n) in E as [Hi' Hb]; [|done..|by left]. split_and!; [done|done|]. intros a.
  specialize (Hb s a). by rewrite with_pb_id in Hb.
Qed.
Lemma app_SendCoins from to d n cs (s s' : app_state) : bank_ok s -> address_bytes from <> reserve -> address_bytes to <> reserve ->
  denom_ok d = true -> 0 <= n -> new_coins [Coin d n] = Ok cs ->
  on_pb (SendCoins info (address_bytes from) (address_bytes to) cs) s = (Ok tt, s') ->
  bank_ok s' /\ app_reg s' = app_reg s /\ moved_one s s' (address_bytes from) (address_bytes to) d n.
Proof.
  intros Hi Hf Ht Hd Hn Hcs Hr. unfold on_pb, zoom in Hr. rewrite new_coins_one in Hcs by done. injection Hcs as <-.
  destruct (SendCoins info _ _ _ (app_pb s)) as [r b'] eqn:E. injection Hr as -> <-.
  apply (send_moves _ _ d n) in E as [Hi' Hb]; [|done..|destruct (Z.eqb_spec n 0); [right|left]; done].
  split_and!; [done|done|]. intros a. specialize (Hb s a). by rewrite with_pb_id in Hb.
Qed.

(** x/precisebank as the bank of the precompile: the reserve of x/precisebank is the
    one account outside. *)
#[export] Instance AppEnvLaws : PcEnvLaws :=
  @Build_PcEnvLaws _ _ AppKeeper AppEnv bank_ok (fun a => a <> reserve) token_balance
    (fun r s => eq_refl) (fun r s Hs => Hs) (fun r s a d => eq_refl) app_Send app_SendCoins.
End app.

(** * A concrete chain

    A concrete chain for the precompiles: the native coin in six decimals as an
    ERC-20 token, an owner with an allowance, an ABI, on which the theorems about
    the ERC-20 precompile are instantiated. *)
From S2P Require Import Prelude KVStore Sdk EvmConfig BankModel PreciseBank PreciseBankSpec PreciseBankThms PreciseBankEvm Wrappers.
From S2P Require Import StateDB StateDBInv StateDBRun StateDBMachine StateDBThms StateDBReach VmKeeper VmKeeperThms EvmCompose VmGas.
From S2P Require Import TxData EthModel Erc20 Erc20Reg Erc20Keeper Erc20Ibc Erc20Model.
From S2P Require Import Precompile PrecompileThms PrecompileErc20 PrecompileErc20Thms.
Import AccessList Transient Meter.

#[local] Arguments address_bytes : simpl never.

#[local] Instance a_keeper : StateKeeper := AppKeeper x_info.
#[local] Instance a_env : PcEnv := AppEnv x_info (fun _ _ => []) (fun _ => []).
#[local] Instance a_laws : PcEnvLaws := AppEnvLaws x_info x_reserve x_wired (fun _ _ => []) (fun _ => []).

(** * The contract, the registry, the ABI *)

Definition a_contract : Address := 700.
Definition a_carol : Address := 14.
Definition a_pair : TokenPair := NewTokenPair a_contract "uguru" OWNER_MODULE.
(** Alice lets Bob spend nine coins; she has five. *)
Definition a_reg : erc20_state :=
  (SetAllowance a_contract e_alice e_bob (Some 9) (SetToken a_pair (reg_empty true true)).2).2.
Definition a_app : KS := mkApp x_info e_vm a_reg ∅ ∅.

Definition a_names : list string :=
  ["transfer"; "transferFrom"; "approve"; "name"; "symbol"; "decimals"; "totalSupply"; "balanceOf"; "allowance"].
Definition a_method (name : string) : Method := mkMethod name FunctionT.
(** The first byte of the selector is the index of the method; addresses and
    amounts are words of 32 bytes. *)
Fixpoint a_unpack (types : list bool) (b : bytes) : list abi_value :=
  match types with
  | [] => []
  | t :: types => (if t then VAddress (be_decode 0 (take 32 b)) else VBig (be_decode 0 (take 32 b))) :: a_unpack types (drop 32 b)
  end.
Definition a_types (name : string) : list bool :=
  if decide (name = "transferFrom") then [true; true; false]
  else if decide (name = "allowance") then [true; true]
  else if decide (name = "balanceOf") then [true]
  else if decide (name = "transfer" \/ name = "approve") then [true; false] else [].
Definition a_abi : ABI := {|
  MethodById b :=
    match b with
    | i :: _ => match a_names !! Z.to_nat i with Some n => Ok (a_method n) | None => Err (Error ErrOther "no method") end
    | [] => Err (Error ErrOther "no method")
    end;
  HasReceive := false; HasFallback := false;
  abi_Receive := mkMethod "" ReceiveType; abi_Fallback := mkMethod "" FallbackType;
  Inputs_Unpack m b := Ok (a_unpack (a_types (m_Name m)) b);
  Outputs_Pack _ v :=
    match v with
    | [VBool b] => Ok (be 32 (if b then 1 else 0)) | [VBig n] | [VUint8 n] => Ok (be 32 n) | [VString s] => Ok (str_bytes s)
    | _ => Err (Error ErrOther "pack")
    end;
  Event_ID name := Keccak256Hash (str_bytes name);
  Event_Pack _ v := match v with [VBig n] => Ok (be 32 n) | _ => Err (Error ErrOther "pack") end;
|}.
Definition a_pre : Precompile := mkPrecompile a_abi (mkGasConfig 0 0 0 0) a_contract.
Definition a_call (caller : Address) : Contract := mkContract caller 0 [] 5000000.

Lemma a_reg_wf : reg_wf a_reg.
Proof.
  unfold a_reg. eapply (setAllowance_wf a_contract e_alice e_bob (Some 9) false); [|done..|apply surjective_pairing].
  eapply (SetToken_wf a_pair); [apply (reg_empty_wf true true)|by apply (hex_is_address a_contract)|]. apply surjective_pairing.
Qed.

(** * A call under way: its context holds the stores of the chain *)

Definition a_db : StateDB := New a_app [] (NewEmptyTxConfig 5).
Definition a_start : pc_state :=
  PCS (with_write (Some CacheEvents) (with_cache (Some (mkCache [Some a_app] [])) a_db)) (NewGasMeter 5000000).

Lemma a_inv : pc_inv a_pre a_start.
Proof.
  split.
  - by exists [], a_app, [].
  - apply map_Forall_empty.
  - apply e_pb_inv.
  - intros o sp Ho Hsp. change (0 <= GetAllowance a_reg a_contract o sp).
    destruct (decide (GetAllowance a_reg a_contract o sp = 0)) as [->|Hne]; [done|].
    destruct (allowance_registered a_reg a_contract o sp a_reg_wf) as [? _]; [done..|]. lia.
Qed.
Lemma a_party x : x = e_alice \/ x = e_bob \/ x = e_dapp \/ x = a_carol \/ x = a_contract -> party x.
Proof. intros Hx. split; [destruct Hx as [->|[->|[->|[->| ->]]]]; by split|destruct Hx as [->|[->|[->|[->| ->]]]]; done]. Qed.
Ltac a_party := apply a_party; tauto.

Definition a_args (n : Z) : list abi_value := [VAddress e_alice; VAddress a_carol; VBig n].
Definition a_moved : pc_state :=
  (TransferFrom x_info 9 a_pre a_pair (a_call e_bob) (a_method "transferFrom") (a_args 3) a_start).2.
Lemma a_moved_fst :
  (TransferFrom x_info 9 a_pre a_pair (a_call e_bob) (a_method "transferFrom") (a_args 3) a_start).1 = Ok (be 32 1).
Proof. vm_compute. reflexivity. Qed.
Lemma a_moved_run :
  TransferFrom x_info 9 a_pre a_pair (a_call e_bob) (a_method "transferFrom") (a_args 3) a_start = (Ok (be 32 1), a_moved).
Proof. exact (run_fst _ a_start _ a_moved_fst). Qed.

(** * The theorems on it *)

Lemma HandleMethod_refines_witness :
  pc_inv a_pre a_moved /\
  exists t', token_step e_bob (CTransferFrom e_alice a_carol 3) (tok a_pre a_pair (ctx_of a_start)) = Some t' /\
    token_eq (tok a_pre a_pair (ctx_of a_moved)) t'.
Proof.
  exact (HandleMethod_refines x_info 9 a_pre a_pair ltac:(by split) (a_call e_bob) (a_method "transferFrom") (a_args 3) a_start
    (be 32 1) a_moved a_inv ltac:(a_party) ltac:(repeat constructor; a_party) a_moved_run).
Defined.

Lemma a_nobody sp : address_ok sp -> GetAllowance a_reg a_contract e_dapp sp = 0.
Proof.
  intros Hsp. assert (er_allowances a_reg = {[ AllowanceKey a_contract e_alice e_bob :=
    mkAllowance (Address_Hex a_contract) (Address_Hex e_alice) (Address_Hex e_bob) 9 ]}) as E by (vm_compute; reflexivity).
  unfold GetAllowance. rewrite E, lookup_singleton_ne; [done|]. intros Hk. apply AllowanceKey_inj in Hk as (_ & Ha & _); try done.
Qed.
Definition a_calls : list pc_call := [
  mkCall (a_call e_bob) (a_method "transferFrom") (a_args 3);
  mkCall (a_call a_carol) (a_method "transfer") [VAddress e_dapp; VBig 2];
  mkCall (a_call e_bob) (a_method "transferFrom") [VAddress e_dapp; VAddress e_bob; VBig 1];
  mkCall (a_call e_bob) (a_method "balanceOf") [VAddress e_dapp]].
Definition a_end : pc_state := foldl (run_call x_info 9 a_pre a_pair) a_start a_calls.
Lemma unapproved_account_keeps_tokens_witness :
  (pc_inv a_pre a_end /\
   kb_balance (ctx_of a_start) (address_bytes e_dapp) "uguru" <= kb_balance (ctx_of a_end) (address_bytes e_dapp) "uguru" /\
   forall sp, address_ok sp -> GetAllowance (kx_reg (ctx_of a_end)) a_contract e_dapp sp = 0) /\
  kb_balance (ctx_of a_end) (address_bytes e_dapp) "uguru" = 2.
Proof.
  split; [|vm_compute; reflexivity].
  exact (unapproved_account_keeps_tokens x_info 9 a_pre a_pair ltac:(by split) e_dapp a_calls a_start a_inv
    ltac:(by split) a_nobody ltac:(repeat (constructor; [split; [split; [a_party|repeat constructor; a_party]|done]|]); constructor)).
Defined.

(** Bob asks for more than Alice has: the allowance is spent, the coins do not move. *)
Definition a_input (n : Z) : bytes := [1; 0; 0; 0] ++ be 32 e_alice ++ be 32 a_carol ++ be 32 n.
Definition a_contract_call (n : Z) : Contract := mkContract e_bob 0 (a_input n) 5000000.
Definition a_snap : StateDB := (Snapshot a_db).2.
Definition a_reason (s : string) : option bytes := Some (str_bytes s).
Definition a_failed : res (option bytes * option error) * pc_state :=
  erc20_Run x_info 9 a_pre a_pair a_reason 0 (a_contract_call 7) false (PCS a_snap (NewGasMeter 0)).
Definition a_revert : option bytes * option error :=
  (Some (RevertSelector ++ str_bytes "ERC20: transfer amount exceeds balance"),
   Some (Error ErrExecutionReverted "execution reverted")).
Lemma a_failed_fst : a_failed.1 = Ok a_revert.
Proof. vm_compute. reflexivity. Qed.
Lemma precompile_call_undone_witness :
  a_failed.1 = Ok a_revert /\ GetAllowance (kx_reg (ctx_of a_failed.2)) a_contract e_alice e_bob = 2 /\
  exists t, RevertToSnapshot 0 (pc_db a_failed.2) = (Ok tt, t) /\ same_answers a_db t /\
    jrnl t = jrnl a_db /\ ctx t = ctx a_db /\ cache_view t = cache_view a_db.
Proof.
  split; [exact a_failed_fst|split; [vm_compute; reflexivity|]].
  exact (precompile_call_undone x_info 9 a_pre a_pair a_reason 0 (a_contract_call 7) false a_db 0 a_snap (NewGasMeter 0)
    a_revert a_failed.2 (New_wf _ _ _) eq_refl (or_introl (run_fst _ _ _ a_failed_fst))).
Defined.

Lemma transferFrom_event_zero_witness :
  GetAllowance (kx_reg (ctx_of a_moved)) a_contract e_alice e_bob = 6 /\ 6 <> 0 /\
  exists l, last (logs (pc_db a_moved)) = Some l /\ lg_Address l = a_contract /\
    lg_Topics l = [Event_ID a_abi "Approval"; e_alice; e_bob] /\ Event_Pack a_abi "Approval" [VBig 0] = Ok (lg_Data l).
Proof.
  exact (transferFrom_event_zero x_info 9 a_pre a_pair ltac:(by split) (a_call e_bob) (a_method "transferFrom") e_alice a_carol 3
    a_start (be 32 1) a_moved a_inv ltac:(a_party) ltac:(a_party) ltac:(a_party) eq_refl eq_refl a_moved_run).
Defined.

Lemma a_loads : loads (pc_db a_start).
Proof.
  intros a. change (exists x, vm_GetAccount x_info e_vm a = inr x). unfold vm_GetAccount, GetAccountWithoutBalance.
  destruct (ea_GetAccount (vm_accounts e_vm) (address_bytes a)) as [x|] eqn:E; [|by eexists].
  assert (address_bytes a = address_bytes e_alice \/ address_bytes a = address_bytes e_dapp) as Ha.
  { unfold e_vm in E. cbn [vm_accounts ea_GetAccount ModelEvmAccounts fst list_to_map foldr] in E.
    destruct (decide (address_bytes a = address_bytes e_alice)); [by left|].
    destruct (decide (address_bytes a = address_bytes e_dapp)); [by right|].
    cbn in E. rewrite !lookup_insert_ne, lookup_empty in E by congruence. done. }
  unfold vm_SpendableCoin. destruct Ha as [-> | ->].
  - destruct (wrapper_SpendableCoin _ _ _ _) as [c|e|m] eqn:Es; [by eexists|vm_compute in Es; done..].
  - destruct (wrapper_SpendableCoin _ _ _ _) as [c|e|m] eqn:Es; [by eexists|vm_compute in Es; done..].
Qed.
Definition a_msg : MsgSend :=
  mkMsgSend (bech32_of (address_bytes e_alice)) (bech32_of (address_bytes a_carol)) [Coin "uguru" 3].
Lemma a_sends : (Send x_info a_msg e_pb).1 = Ok tt.
Proof. vm_compute. reflexivity. Qed.
Lemma a_send_any g : exists k, kb_Send a_msg (kx_set_reg g (ctx_of a_start)) = (Ok tt, k).
Proof.
  exists (with_pb x_info (Send x_info a_msg e_pb).2 (with_reg x_info g a_app)).
  change (kb_Send a_msg) with (on_pb x_info (Send x_info a_msg)). unfold on_pb, zoom.
  change (app_pb x_info (kx_set_reg g (ctx_of a_start))) with e_pb.
  rewrite (run_fst (Send x_info a_msg) e_pb (Ok tt) a_sends). reflexivity.
Qed.
Lemma a_registered : GetTokenPair a_reg (GetERC20Map a_reg a_contract) = Some a_pair.
Proof. vm_compute. reflexivity. Qed.
Lemma a_allowance : GetAllowance (kx_reg (ctx_of a_start)) a_contract e_alice e_bob = 9.
Proof. vm_compute. reflexivity. Qed.
Lemma a_enough : 0 < 3 <= GetAllowance (kx_reg (ctx_of a_start)) a_contract e_alice e_bob.
Proof. rewrite a_allowance. lia. Qed.
Lemma a_fits : GetAllowance (kx_reg (ctx_of a_start)) a_contract e_alice e_bob < 2 ^ 256.
Proof. rewrite a_allowance. done. Qed.
Lemma a_scaled : 0 <= 3 * ConversionFactor x_info < 2 ^ 256.
Proof. vm_compute. split; [discriminate|reflexivity]. Qed.
Lemma a_precise : kb_kind <> OtherKeeper.
Proof. done. Qed.
Lemma transferFrom_completes_witness :
  exists s', TransferFrom x_info 9 a_pre a_pair (a_call e_bob) (a_method "transferFrom") (a_args 3) a_start = (Ok (be 32 1), s').
Proof.
  exact (transferFrom_completes x_info 9 a_pre a_pair (a_call e_bob) (a_method "transferFrom") e_alice a_carol 3
    a_start a_pair (be 32 1) (be 32 3) (be 32 0) eq_refl (pi_cached _ _ a_inv) (pi_addr _ _ a_inv) a_loads
    a_registered eq_refl ltac:(discriminate) ltac:(discriminate) eq_refl a_precise a_enough a_fits a_scaled a_send_any eq_refl eq_refl eq_refl).
Defined.

Lemma native_transfer_mirrored_witness :
  uint256 (shown (pc_db a_moved) a_carol) = uint256 (shown (pc_db a_start) a_carol +
    (kb_balance (ctx_of a_moved) (address_bytes a_carol) "uguru" - kb_balance (ctx_of a_start) (address_bytes a_carol) "uguru")
    * ConversionFactor x_info) /\ shown (pc_db a_moved) a_carol = 3 * 10 ^ 12.
Proof.
  split; [|vm_compute; reflexivity].
  exact (native_transfer_mirrored x_info 9 a_pre a_pair ltac:(by split) (a_call e_bob) (a_method "transferFrom") e_alice a_carol 3
    a_start (be 32 1) a_moved a_carol a_inv ltac:(a_party) ltac:(a_party) ltac:(a_party) eq_refl ltac:(by split) a_moved_run).
Defined.
