(* ===== verification/PrecompileBank.v ===== *)
(** precompiles/bank, bech32 and p256: the balances of all coins with their ERC-20
    addresses, address texts, and the verification of P-256 signatures. *)
From Stdlib Require Import Ascii.
From S2P Require Import Prelude KVStore Sdk EvmConfig StateDB TxData VmKeeper VmGas.
From S2P Require Import Erc20 Erc20Keeper Erc20Ibc Precompile PrecompileErc20 PrecompileThms.
Import Meter.

(** * precompiles/bank *)

Section bank.
Context `{CoinsLib, AddressCodec, Keccak, EthHex, Tmhash, IbcHash, StateKeeper, !PcEnv}.
Variable p : Precompile.
Implicit Types (contract : Contract) (method : Method).

Abbreviation abi := (pc_ABI p).
Definition bank_GasBalances : Z := 2851.
Definition bank_GasTotalSupply : Z := 2477.
Definition bank_GasSupplyOf : Z := 2477.
Definition bank_RequiredGas (input : bytes) : Z :=
  if (length input <? 4)%nat then 0
  else match MethodById abi (take 4 input) with
  | Ok method =>
      if decide (m_Name method = "balances") then bank_GasBalances
      else if decide (m_Name method = "totalSupply") then bank_GasTotalSupply
      else if decide (m_Name method = "supplyOf") then bank_GasSupplyOf
      else 0
  | _ => 0
  end.

Definition ParseBalancesArgs (args : list abi_value) : res addr :=
  match args with
  | [VAddress account] => Ok (address_bytes account)
  | [_] => Err (Error ErrOther "invalid type for account")
  | _ => wrong_args args
  end.
Definition ParseSupplyOfArgs (args : list abi_value) : res Address :=
  match args with
  | [VAddress erc20Address] => Ok erc20Address
  | [_] => Err (Error ErrOther "invalid type for erc20Address")
  | _ => wrong_args args
  end.

(** The callback of the iterations: gas for every coin but the first, a row for
    every coin with a contract. *)
Fixpoint coin_rows (gas : Z) (first : bool) (l : list coin) : M pc_state (list (Address * Z)) :=
  match l with
  | [] => ret []
  | c :: l =>
      do! (if first then ret tt else on_gas (basic_ConsumeGas gas));
      let! s := gets ctx_of in
      match GetCoinAddress (kx_reg s) (c_denom c) with
      | Ok contractAddress => let! rest := coin_rows gas false l in ret ((contractAddress, c_amt c) :: rest)
      | Err _ => coin_rows gas false l
      | Panic m => panic m
      end
  end.
Definition bank_Balances method (args : list abi_value) : M pc_state bytes :=
  let! account := lift (ParseBalancesArgs args) in
  let! s := gets ctx_of in
  let! balances := coin_rows bank_GasBalances true (kb_AccountBalances s account) in
  lift (Outputs_Pack abi method [VBalances balances]).
Definition bank_TotalSupply method : M pc_state bytes :=
  let! s := gets ctx_of in
  let! totalSupply := coin_rows bank_GasTotalSupply true (kb_TotalSupply s) in
  lift (Outputs_Pack abi method [VBalances totalSupply]).
Definition bank_SupplyOf method (args : list abi_value) : M pc_state bytes :=
  let! erc20ContractAddress := lift (ParseSupplyOfArgs args) in
  let! s := gets ctx_of in
  match GetTokenPair (kx_reg s) (GetERC20Map (kx_reg s) erc20ContractAddress) with
  | None => lift (Outputs_Pack abi method [VBig 0])
  | Some tokenPair => lift (Outputs_Pack abi method [VBig (c_amt (kb_GetSupply s (tp_Denom tokenPair)))])
  end.

Definition bank_IsTransaction method : bool := false.
Definition bank_Run (initialGas : Z) contract (readOnly : bool) : M pc_state (option bytes * Z) :=
  let! ma := setup p initialGas contract readOnly bank_IsTransaction in
  let! bz := (let method := ma.1 in let args := ma.2 in
    if decide (m_Name method = "balances") then bank_Balances method args
    else if decide (m_Name method = "totalSupply") then bank_TotalSupply method
    else if decide (m_Name method = "supplyOf") then bank_SupplyOf method args
    else fail ErrOther "unknown method") in
  charge initialGas contract (Some bz).

(** ** The price of an iteration *)

(** The coins with a contract. *)
Definition registered_rows (g : erc20_state) (l : list coin) : list (Address * Z) :=
  omap (fun c => match GetCoinAddress g (c_denom c) with Ok a => Some (a, c_amt c) | _ => None end) l.

Lemma rows_length g l : (length (registered_rows g l) <= length l)%nat.
Proof.
  induction l as [|c l IH]; [done|]. unfold registered_rows in *. cbn [omap list_omap].
  destruct (GetCoinAddress g (c_denom c)); cbn [length] in *; lia.
Qed.
Lemma coin_rows_run gas l d n lim :
  (forall c, c ∈ l -> is_panic (GetCoinAddress (kx_reg (cache_view d)) (c_denom c)) = false) ->
  0 <= gas -> 0 <= n -> n + gas * Z.of_nat (length l) <= lim -> lim <= max_uint64 ->
  coin_rows gas false l (PCS d (mkMeter n lim)) =
    (Ok (registered_rows (kx_reg (cache_view d)) l), PCS d (mkMeter (n + gas * Z.of_nat (length l)) lim)).
Proof.
  intros Hp Hg Hn Hlim Hmax. revert n Hn Hlim. induction l as [|c l IH]; intros n Hn Hlim.
  { cbn. unfold ret. do 3 f_equal. lia. }
  cbn [length] in Hlim. rewrite Nat2Z.inj_succ in Hlim.
  assert (forall n', 0 <= n' -> n' + gas * Z.of_nat (length l) <= lim ->
    coin_rows gas false l (PCS d (mkMeter n' lim)) = (Ok (registered_rows (kx_reg (cache_view d)) l),
      PCS d (mkMeter (n' + gas * Z.of_nat (length l)) lim))) as IH' by (apply IH; intros; apply Hp; by right).
  specialize (Hp c ltac:(left)). cbn [coin_rows].
  unfold bind at 1, on_gas, zoom, basic_ConsumeGas, addUint64Overflow. cbn [pc_gas consumed limit].
  rewrite (proj2 (Z.ltb_ge (max_uint64 - n) gas)) by lia. rewrite (proj2 (Z.ltb_ge lim (n + gas))) by lia.
  unfold bind at 1, gets. unfold ctx_of. cbn [pc_db length registered_rows omap list_omap].
  destruct (GetCoinAddress (kx_reg (cache_view d)) (c_denom c)) as [a|e|m] eqn:Ha; [| |done].
  - unfold bind. rewrite IH' by lia. unfold ret. rewrite Nat2Z.inj_succ. do 3 f_equal. lia.
  - rewrite IH' by lia. rewrite Nat2Z.inj_succ. do 3 f_equal. lia.
Qed.

(**  The balances of an account are the coins with a contract, in the order of
    the iteration, and the price is the gas of one query for every further coin the
    account has, with or without a contract: more than one for each token returned. *)
Theorem bank_Balances_charges method account d n lim out :
  let coins := kb_AccountBalances (cache_view d) (address_bytes account) in
  let rows := registered_rows (kx_reg (cache_view d)) coins in
  (forall c, c ∈ coins -> is_panic (GetCoinAddress (kx_reg (cache_view d)) (c_denom c)) = false) ->
  0 <= n -> n + bank_GasBalances * Z.of_nat (length coins) <= lim -> lim <= max_uint64 ->
  Outputs_Pack abi method [VBalances rows] = Ok out ->
  bank_Balances method [VAddress account] (PCS d (mkMeter n lim)) =
    (Ok out, PCS d (mkMeter (n + bank_GasBalances * Z.max 0 (Z.of_nat (length coins) - 1)) lim)) /\
  (length rows <= length coins)%nat.
Proof.
  intros coins rows Hp Hn Hlim Hmax Hout. split.
  2:{ apply rows_length. }
  unfold bank_Balances. unfold bind at 1, lift at 1. cbn [ParseBalancesArgs]. unfold bind at 1, gets at 1. unfold ctx_of at 1.
  cbn [pc_db]. fold coins. destruct coins as [|c l] eqn:Hc.
  { cbn [coin_rows]. unfold bind, ret, lift. unfold rows in Hout. cbn in Hout. rewrite Hout. cbn. do 3 f_equal. unfold bank_GasBalances in *. lia. }
  cbn [length] in Hlim. rewrite Nat2Z.inj_succ in Hlim. unfold rows, registered_rows in Hout. cbn [omap list_omap] in Hout.
  fold (registered_rows (kx_reg (cache_view d)) l) in Hout.
  assert (coin_rows bank_GasBalances false l (PCS d (mkMeter n lim)) = (Ok (registered_rows (kx_reg (cache_view d)) l),
    PCS d (mkMeter (n + bank_GasBalances * Z.of_nat (length l)) lim))) as Hrun.
  { apply coin_rows_run; [intros; apply Hp; by right|done|done|unfold bank_GasBalances in *; lia|done]. }
  assert (n + bank_GasBalances * Z.max 0 (Z.of_nat (length (c :: l)) - 1) = n + bank_GasBalances * Z.of_nat (length l)) as ->
    by (cbn [length]; rewrite Nat2Z.inj_succ; unfold bank_GasBalances; lia).
  specialize (Hp c ltac:(left)). cbn [coin_rows]. unfold bind, ret, gets, ctx_of. cbn [pc_db].
  destruct (GetCoinAddress (kx_reg (cache_view d)) (c_denom c)) as [a|e|m] eqn:Ha; [| |done]; rewrite Hrun; unfold lift; by rewrite Hout.
Qed.
End bank.

(** * precompiles/bech32 *)

(** [sdk.Bech32ifyAddressBytes] and the white space of [strings.TrimSpace]. *)
Class Bech32Lib := { Bech32ify : string -> bytes -> option string }.
(** The text is the prefix, a separator and characters among which there is no
    separator; it decodes under the prefix it was written with and no other. *)
Class Bech32Laws `{Bech32Lib, Ics20} := {
  bech32_shape : forall hrp bz t, Bech32ify hrp bz = Some t ->
    exists data, t = (hrp ++ String "1" data)%string /\ before_one data = data;
  bech32_decodes : forall hrp bz t, Bech32ify hrp bz = Some t -> GetFromBech32 t hrp = Some bz;
  bech32_prefix : forall hrp hrp' bz t, Bech32ify hrp bz = Some t -> hrp' <> hrp -> GetFromBech32 t hrp' = None;
  address_format : forall a, address_ok a -> VerifyAddressFormat (address_bytes a) = true;
}.

Section bech32.
Context `{Bech32Lib, Ics20}.
Variable abi : ABI.
Variable baseGas : Z.

Definition bech32_RequiredGas (input : bytes) : Z := baseGas.
Definition HexToBech32 (method : Method) (args : list abi_value) : res bytes :=
  match args with
  | [a0; a1] =>
      match a0 with
      | VAddress address =>
          let prefix := match a1 with VString s => s | _ => ""%string end in
          if all_spaces (str_bytes prefix) then Err (Error ErrOther "invalid bech32 human readable prefix (HRP)")
          else if negb (VerifyAddressFormat (address_bytes address)) then Err (Error ErrOther "address format")
          else match Bech32ify prefix (address_bytes address) with
               | None => Err (Error ErrOther "bech32")
               | Some bech32Str => Outputs_Pack abi method [VString bech32Str]
               end
      | _ => Err (Error ErrOther "invalid hex address")
      end
  | _ => wrong_args args
  end.
Definition Bech32ToHex (method : Method) (args : list abi_value) : res bytes :=
  match args with
  | [VString address] =>
      if bool_decide (address = "") then Err (Error ErrOther "invalid bech32 address")
      else
        let bech32Prefix := before_one address in
        if bool_decide (bech32Prefix = address) then Err (Error ErrOther "invalid bech32 address")
        else match GetFromBech32 address bech32Prefix with
        | None => Err (Error ErrOther "invalid prefix or checksum")
        | Some addressBz =>
            if negb (VerifyAddressFormat addressBz) then Err (Error ErrOther "address format")
            else Outputs_Pack abi method [VAddress (BytesToAddress addressBz)]
        end
  | [_] => Err (Error ErrOther "invalid bech32 address")
  | _ => wrong_args args
  end.
Definition bech32_Run (contract : Contract) : res (option bytes) :=
  if (length (ct_Input contract) <? 4)%nat then reverted
  else
    let? method := MethodById abi (take 4 (ct_Input contract)) in
    let? args := Inputs_Unpack abi method (drop 4 (ct_Input contract)) in
    if decide (m_Name method = "hexToBech32") then let? b := HexToBech32 method args in Ok (Some b)
    else if decide (m_Name method = "bech32ToHex") then let? b := Bech32ToHex method args in Ok (Some b)
    else Ok None.

Context `{!Bech32Laws}.

Lemma before_one_app (a b : string) : before_one (a ++ String "1" b) = before_one a.
Proof.
  induction a as [|c a IH]; [done|]. change (String c a ++ String "1" b)%string with (String c (a ++ String "1" b)).
  cbn [before_one]. destruct (Ascii.eqb c "1"%char); [done|]. by f_equal.
Qed.
Lemma length_append (a b : string) : String.length (a ++ b) = (String.length a + String.length b)%nat.
Proof.
  induction a as [|c a IH]; [done|]. change (String c a ++ b)%string with (String c (a ++ b)).
  cbn [String.length]. by rewrite IH.
Qed.
Lemma before_one_length (a : string) : (String.length (before_one a) <= String.length a)%nat.
Proof.
  induction a as [|c a IH]; [done|]. cbn [before_one]. destruct (Ascii.eqb c "1"%char); cbn [String.length]; lia.
Qed.
Lemma prefix_shorter (hrp data : string) : before_one (hrp ++ String "1" data) <> (hrp ++ String "1" data)%string.
Proof.
  rewrite before_one_app. intros E. apply (f_equal String.length) in E. rewrite length_append in E. cbn in E.
  pose proof (before_one_length hrp). lia.
Qed.

(**  An address turned into text with a prefix and back is the same address when
    the prefix has no "1"; with a prefix that has one, which the encoder accepts, the
    text is refused, since the decoder takes the first "1" for the separator. *)
Theorem bech32_roundtrip_prefix hrp a t (method : Method) :
  address_ok a -> Bech32ify hrp (address_bytes a) = Some t ->
  Bech32ToHex method [VString t] =
    if decide (before_one hrp = hrp) then Outputs_Pack abi method [VAddress a]
    else Err (Error ErrOther "invalid prefix or checksum").
Proof.
  intros Ha Ht. destruct (bech32_shape _ _ _ Ht) as (data & -> & _). unfold Bech32ToHex. cbv zeta.
  rewrite (bool_decide_false _ (prefix_shorter hrp data)).
  rewrite bool_decide_false by (by destruct hrp). rewrite before_one_app. destruct (decide (before_one hrp = hrp)) as [->|Hne].
  - rewrite (bech32_decodes _ _ _ Ht), address_format by done. cbn [negb]. by rewrite address_roundtrip.
  - by rewrite (bech32_prefix _ _ _ _ Ht Hne).
Qed.
End bech32.

(** * precompiles/p256 *)

Section p256.
(** [secp256r1.Verify] of the hash, the signature and the public key *)
Variable Verify : bytes -> Z -> Z -> Z -> Z -> bool.
Definition VerifyGas : Z := 3450.
Definition VerifyInputLength : nat := 160.
Definition p256_RequiredGas (input : bytes) : Z := VerifyGas.
Definition SetBytes (b : bytes) : Z := be_decode 0 b.
Definition p256_Run (contract : Contract) : option bytes :=
  let input := ct_Input contract in
  if negb (length input =? VerifyInputLength)%nat then None
  else
    let word i := take 32 (drop (32 * i) input) in
    if Verify (word 0%nat) (SetBytes (word 1%nat)) (SetBytes (word 2%nat)) (SetBytes (word 3%nat)) (SetBytes (word 4%nat))
    then Some (be 32 1) else None.
End p256.
