(* ===== verification/PrecompileSdk.v ===== *)
(** What the precompiled contracts over modules of the SDK share: the messages they
    build, with the account each message is signed by; the message servers and the
    context these run on; the checks of arguments and of the caller; the call around
    a method, which mirrors the bank events of the context in the state database
    (the [run] functions of precompiles/staking, distribution, gov, slashing,
    evidence and ics20 are the same but for their methods).

    The modules are code of the SDK and of ibc-go: a server is a function on a
    context, that is on the stores behind the state database, on the gas meter of
    the call and on the events the call emits. *)
From Stdlib Require Import Ascii.
From S2P Require Import Prelude KVStore Sdk EvmConfig StateDB TxData VmKeeper VmGas Precompile PrecompileErc20.
Import Meter.

(** * Addresses of validators *)

(** [sdk.ValAddressFromBech32], [ValAddress.String], [ConsAddress.String] *)
Class ValCodec := {
  val_of_bech32 : string -> option addr;
  val_bech32_of : addr -> string;
  cons_bech32_of : addr -> string;
}.
Class ValLaws `{AddressCodec, !ValCodec} := {
  val_roundtrip : forall a, a <> [] -> Forall (fun z => 0 <= z < 256) a -> val_of_bech32 (val_bech32_of a) = Some a;
  (** The two kinds of texts have different prefixes. *)
  val_not_acc : forall s, acc_of_bech32 s <> None -> val_of_bech32 s = None;
}.

Definition from_bech32 (decode : string -> option addr) (s : string) : res addr :=
  match decode s with Some a => Ok a | None => Err (Error ErrInvalidAddress "invalid bech32 address") end.

(** [utils.HexAddressFromBech32String] *)
Definition PrefixValidator : string := "val".
Definition HexAddressFromBech32String `{AddressCodec, ValCodec} (text : string) : res Address :=
  if contains PrefixValidator text
  then let? valAddr := from_bech32 val_of_bech32 text in Ok (BytesToAddress valAddr)
  else let? accAddr := from_bech32 acc_of_bech32 text in Ok (BytesToAddress accAddr).

(** * Messages *)

Record Description := mkDescription {
  Moniker : string; Identity : string; Website : string; SecurityContact : string; Details : string;
}.
Record MsgCreateValidator := mkCreateValidator {
  cv_Description : Description; cv_Rate : Z; cv_MaxRate : Z; cv_MaxChangeRate : Z; cv_MinSelfDelegation : Z;
  cv_DelegatorAddress : string; cv_ValidatorAddress : string; cv_Pubkey : bytes; cv_Value : coin;
}.
Record MsgEditValidator := mkEditValidator {
  ed_Description : Description; ed_ValidatorAddress : string;
  ed_CommissionRate : option Z; ed_MinSelfDelegation : option Z;
}.
(** [MsgDelegate] and [MsgUndelegate] *)
Record MsgDelegation := mkDelegation { dg_DelegatorAddress : string; dg_ValidatorAddress : string; dg_Amount : coin }.
Record MsgBeginRedelegate := mkRedelegate {
  rd_DelegatorAddress : string; rd_ValidatorSrcAddress : string; rd_ValidatorDstAddress : string; rd_Amount : coin;
}.
Record MsgCancelUnbondingDelegation := mkCancelUnbonding {
  cu_DelegatorAddress : string; cu_ValidatorAddress : string; cu_Amount : coin; cu_CreationHeight : Z;
}.
Record MsgSetWithdrawAddress := mkSetWithdraw { sw_DelegatorAddress : string; sw_WithdrawAddress : string }.
Record MsgWithdrawDelegatorReward := mkWithdrawReward { wr_DelegatorAddress : string; wr_ValidatorAddress : string }.
Record MsgFundCommunityPool := mkFundPool { fp_Depositor : string; fp_Amount : coins }.
Record MsgDepositValidatorRewardsPool := mkDepositRewards {
  dr_Depositor : string; dr_ValidatorAddress : string; dr_Amount : coins;
}.
(** A proposed message is an [Any]: its type and its bytes. *)
Record MsgSubmitProposal := mkSubmitProposal {
  sp_Messages : list (string * bytes); sp_InitialDeposit : coins; sp_Proposer : string; sp_Metadata : string;
  sp_Title : string; sp_Summary : string; sp_Expedited : bool;
}.
Record MsgDeposit := mkDeposit { dp_ProposalId : Z; dp_Amount : coins; dp_Depositor : string }.
Record MsgCancelProposal := mkCancelProposal { cp_ProposalId : Z; cp_Proposer : string }.
Record MsgVote := mkVote { vt_ProposalId : Z; vt_Voter : string; vt_Option : Z; vt_Metadata : string }.
Record MsgVoteWeighted := mkVoteWeighted {
  vw_ProposalId : Z; vw_Voter : string; vw_Options : list (Z * string); vw_Metadata : string;
}.
(** The time is in seconds. *)
Record Equivocation := mkEquivocation {
  eq_Height : Z; eq_Time : Z; eq_Power : Z; eq_ConsensusAddress : string;
}.
Record MsgSubmitEvidence := mkSubmitEvidence { se_Submitter : string; se_Evidence : Equivocation }.
Record MsgIbcTransfer := mkIbcTransfer {
  it_SourcePort : string; it_SourceChannel : string; it_Token : coin; it_Sender : string; it_Receiver : string;
  it_TimeoutHeight : Z * Z; it_TimeoutTimestamp : Z; it_Memo : string;
}.

(** What the precompiles ask of the modules.  [mWithdrawDelegationRewards] is the
    call of the keeper of x/distribution, the others are messages. *)
Inductive sdk_msg :=
  | mCreateValidator (m : MsgCreateValidator) | mEditValidator (m : MsgEditValidator)
  | mDelegate (m : MsgDelegation) | mUndelegate (m : MsgDelegation)
  | mBeginRedelegate (m : MsgBeginRedelegate) | mCancelUnbondingDelegation (m : MsgCancelUnbondingDelegation)
  | mSetWithdrawAddress (m : MsgSetWithdrawAddress) | mWithdrawDelegatorReward (m : MsgWithdrawDelegatorReward)
  | mWithdrawValidatorCommission (ValidatorAddress : string)
  | mFundCommunityPool (m : MsgFundCommunityPool) | mDepositValidatorRewardsPool (m : MsgDepositValidatorRewardsPool)
  | mWithdrawDelegationRewards (delegator validator : addr)
  | mSubmitProposal (m : MsgSubmitProposal) | mDeposit (m : MsgDeposit) | mCancelProposal (m : MsgCancelProposal)
  | mVote (m : MsgVote) | mVoteWeighted (m : MsgVoteWeighted)
  | mUnjail (ValidatorAddr : string) | mSubmitEvidence (m : MsgSubmitEvidence) | mTransfer (m : MsgIbcTransfer).

(** The account a message is signed by ([cosmos.msg.v1.signer]). *)
Definition signer `{AddressCodec, ValCodec} (m : sdk_msg) : option addr :=
  match m with
  | mCreateValidator m => val_of_bech32 (cv_ValidatorAddress m)
  | mEditValidator m => val_of_bech32 (ed_ValidatorAddress m)
  | mDelegate m | mUndelegate m => acc_of_bech32 (dg_DelegatorAddress m)
  | mBeginRedelegate m => acc_of_bech32 (rd_DelegatorAddress m)
  | mCancelUnbondingDelegation m => acc_of_bech32 (cu_DelegatorAddress m)
  | mSetWithdrawAddress m => acc_of_bech32 (sw_DelegatorAddress m)
  | mWithdrawDelegatorReward m => acc_of_bech32 (wr_DelegatorAddress m)
  | mWithdrawValidatorCommission v => val_of_bech32 v
  | mFundCommunityPool m => acc_of_bech32 (fp_Depositor m)
  | mDepositValidatorRewardsPool m => acc_of_bech32 (dr_Depositor m)
  | mWithdrawDelegationRewards d _ => Some d
  | mSubmitProposal m => acc_of_bech32 (sp_Proposer m)
  | mDeposit m => acc_of_bech32 (dp_Depositor m)
  | mCancelProposal m => acc_of_bech32 (cp_Proposer m)
  | mVote m => acc_of_bech32 (vt_Voter m)
  | mVoteWeighted m => acc_of_bech32 (vw_Voter m)
  | mUnjail v => val_of_bech32 v
  | mSubmitEvidence m => acc_of_bech32 (se_Submitter m)
  | mTransfer m => acc_of_bech32 (it_Sender m)
  end.

(** What a server answers: completion times in seconds, amounts, the id of a
    proposal, the hash of an evidence, the sequence of a packet. *)
Definition response (m : sdk_msg) : Type :=
  match m with
  | mUndelegate _ | mBeginRedelegate _ | mSubmitProposal _ | mTransfer _ => Z
  | mWithdrawDelegatorReward _ | mWithdrawValidatorCommission _ | mWithdrawDelegationRewards _ _ => list coin
  | mSubmitEvidence _ => bytes
  | _ => unit
  end.

(** * Arguments *)

Definition bad {A} (msg : string) : res A := Err (Error ErrOther msg).
(** [args[i].(common.Address)], refused when it is the zero address *)
Definition as_address (v : abi_value) (msg : string) : res Address :=
  match v with VAddress a => if a =? 0 then bad msg else Ok a | _ => bad msg end.
Definition as_any_address (v : abi_value) (msg : string) : res Address :=
  match v with VAddress a => Ok a | _ => bad msg end.
Definition as_big (v : abi_value) (msg : string) : res Z := match v with VBig n => Ok n | _ => bad msg end.
Definition as_string (v : abi_value) (msg : string) : res string := match v with VString s => Ok s | _ => bad msg end.
Definition as_uint64 (v : abi_value) (msg : string) : res Z := match v with VUint64 n => Ok n | _ => bad msg end.
Definition as_uint32 (v : abi_value) (msg : string) : res Z := match v with VUint32 n => Ok n | _ => bad msg end.
Definition as_uint8 (v : abi_value) (msg : string) : res Z := match v with VUint8 n => Ok n | _ => bad msg end.
Definition as_bytes (v : abi_value) (msg : string) : res bytes := match v with VBytes b => Ok b | _ => bad msg end.
(** [s, _ := args[i].(string)] *)
Definition string_or_empty (v : abi_value) : string := match v with VString s => s | _ => "" end.
Definition number_of_args {A} : res A := bad "invalid number of arguments".

(** [cmn.ToCoins]: a slice of named coins is taken as it is, the fields of other
    structs are looked up and checked. *)
Definition ToCoin (v : abi_value) : res (string * Z) :=
  match v with
  | VTuple [VString d; VBig n] => if decide (d = "") then bad "invalid coin" else Ok (d, n)
  | VStruct "Coin" [VString d; VBig n] => Ok (d, n)
  | VTuple _ | VStruct _ _ => bad "coin tuple does not have expected fields"
  | _ => Panic "reflect: call of FieldByName on a value that is not a struct"
  end.
Fixpoint to_coins (l : list abi_value) : res (list (string * Z)) :=
  match l with
  | [] => Ok []
  | v :: l => let? c := ToCoin v in let? cs := to_coins l in Ok (c :: cs)
  end.
Definition ToCoins (v : abi_value) : res (list (string * Z)) :=
  match v with
  | VArray l => to_coins l
  | VBytes [] => Ok []
  | VBytes _ => Panic "reflect: call of FieldByName on a value that is not a struct"
  | _ => bad "expected slice"
  end.
(** The two conversions with the error of the caller. *)
Definition coins_arg `{CoinsLib} (v : abi_value) (msg : string) : res coins :=
  match (let? cs := ToCoins v in NewSdkCoinsFromCoins cs) with Err _ => bad msg | r => r end.

(** * Outputs *)

Definition VCoin (c : string * Z) : abi_value := VTuple [VString c.1; VBig c.2].
Definition VCoins (cs : coins) : abi_value := VArray (map VCoin (NewCoinsResponse cs)).
Definition VDecCoins (l : list (string * Z * Z)) : abi_value :=
  VArray (map (fun '(d, n, prec) => VTuple [VString d; VBig n; VUint8 prec]) l).
Definition VDec (value : Z) : abi_value := VTuple [VBig value; VUint8 18].
Record PageRequest := mkPage { pg_Key : bytes; pg_Offset : Z; pg_Limit : Z; pg_CountTotal : bool; pg_Reverse : bool }.
(** [PageResponse]; a nil one leaves the output's empty. *)
Record PageResponse := mkPageResponse { NextKey : bytes; Total : Z }.
Definition VPage (r : option PageResponse) : abi_value :=
  match r with
  | Some r => VTuple [VBytes (NextKey r); VUint64 (Total r)]
  | None => VTuple [VBytes []; VUint64 0]
  end.

(** [Arguments.Copy] of go-ethereum into the structs of the precompiles. *)
Class AbiCopy := {
  copy_page : abi_value -> res PageRequest;
  copy_options : abi_value -> res (list (Z * string));
  copy_height : abi_value -> res (Z * Z);
}.

Section sdk.
Context `{CoinsLib, AddressCodec, ValCodec, Keccak, StateKeeper}.

(** * The context of a message server *)

Record sdk_ctx := SdkCtx { sc_store : KS; sc_gas : gas_meter; sc_events : list event }.
Definition on_sdk {A} (m : M sdk_ctx A) : M pc_state A := fun s =>
  let '(r, c) := m (SdkCtx (ctx_of s) (pc_gas s) []) in
  (r, PCS (emit_cache (sc_events c) (set_cache_view (sc_store c) (pc_db s))) (sc_gas c)).
Definition cache_events (s : pc_state) : list event :=
  match cacheCtx (pc_db s) with Some cc => cc_events cc | None => [] end.

Class MsgServers := { serve : forall m : sdk_msg, M sdk_ctx (response m) }.

(** * A call *)

Variable info : EvmCoinInfo.
Variable height : Z.
Variable p : Precompile.
Abbreviation self := (pc_Address p).
Abbreviation abi := (pc_ABI p).

(** [if msgSender != requester] *)
Definition need_caller (contract : Contract) (requester : Address) : M pc_state unit :=
  if decide (ct_Caller contract = requester) then ret tt
  else fail ErrOther "msg.sender address does not match the requester address".

(** [stateDB.AddLog] of an event with its topics after the signature *)
Definition add_log (name : string) (topics : list Hash) (data : bytes) : M pc_state unit :=
  on_db (AddLog (mkLog self (Event_ID abi name :: topics) data height 0 0 0 0)).
Definition address_topic (a : Address) : M pc_state Hash := lift (MakeTopic (TAddress a)).
Definition pack_event (name : string) (l : list abi_value) : M pc_state bytes := lift (Event_Pack abi name l).
Definition pack_output (method : Method) (l : list abi_value) : M pc_state (option bytes) :=
  let! b := lift (Outputs_Pack abi method l) in ret (Some b).

Definition sdk_RequiredGas (isTransaction : Method -> bool) (input : bytes) : res Z :=
  if (length input <? 4)%nat then Ok 0
  else match MethodById abi (take 4 input) with
  | Ok method => common_RequiredGas p input (isTransaction method)
  | _ => Ok 0
  end.
Definition sdk_run (isTransaction : Method -> bool)
    (dispatch : Contract -> Method -> list abi_value -> M pc_state (option bytes))
    (initialGas : Z) (contract : Contract) (readOnly : bool) : M pc_state (option bytes * Z) :=
  let! ma := setup p initialGas contract readOnly isTransaction in
  let! prevEventsLen := gets (fun s => BeforeBalanceChange (cache_events s)) in
  let! bz := dispatch contract ma.1 ma.2 in
  let! r := charge initialGas contract bz in
  let! events := gets cache_events in
  do! on_db (AfterBalanceChange info prevEventsLen events);
  ret r.
End sdk.
