(* ===== verification/PrecompileStaking.v ===== *)
(** precompiles/staking: arguments, messages, events and queries of the staking
    contract ([staking.go], [tx.go], [types.go], [events.go], [query.go]), over the
    keeper of x/staking, which is an interface.  Consensus keys are texts in
    base64 ([encoding/base64]), whose encoding and decoding are here too. *)
From Stdlib Require Import Ascii.
From S2P Require Import Prelude KVStore Sdk EvmConfig StateDB TxData VmKeeper VmGas Erc20 Erc20Keeper Precompile PrecompileErc20 PrecompileSdk.

(** * Base64 ([base64.StdEncoding]) *)

Module Base64.
Definition alphabet : list Z :=
  str_bytes "ABCDEFGHIJKLMNOPQRSTUVWXYZabcdefghijklmnopqrstuvwxyz0123456789+/".
Definition padding : Z := 61.
Definition digit (n : Z) : Z := nth (Z.to_nat n) alphabet 0.
Fixpoint index_of (c : Z) (l : list Z) (i : Z) : option Z :=
  match l with [] => None | x :: l => if x =? c then Some i else index_of c l (i + 1) end.
Definition value (c : Z) : option Z := index_of c alphabet 0.

Fixpoint encode (b : bytes) : bytes :=
  match b with
  | x :: y :: z :: b =>
      digit (x / 4) :: digit (x mod 4 * 16 + y / 16) :: digit (y mod 16 * 4 + z / 64) :: digit (z mod 64) :: encode b
  | [x; y] => [digit (x / 4); digit (x mod 4 * 16 + y / 16); digit (y mod 16 * 4); padding]
  | [x] => [digit (x / 4); digit (x mod 4 * 16); padding; padding]
  | [] => []
  end.

(** Four characters at a time; the last four may end in padding, whose bits are
    ignored. *)
Definition quantum (a b c d : Z) : option bytes :=
  match value a, value b, value c, value d with
  | Some a, Some b, Some c, Some d => Some [a * 4 + b / 16; b mod 16 * 16 + c / 4; c mod 4 * 64 + d]
  | _, _, _, _ => None
  end.
Definition last_quantum (a b c d : Z) : option bytes :=
  if d =? padding then
    if c =? padding then
      match value a, value b with Some a, Some b => Some [a * 4 + b / 16] | _, _ => None end
    else
      match value a, value b, value c with
      | Some a, Some b, Some c => Some [a * 4 + b / 16; b mod 16 * 16 + c / 4]
      | _, _, _ => None
      end
  else quantum a b c d.
Fixpoint decode (l : bytes) : option bytes :=
  match l with
  | [] => Some []
  | [a; b; c; d] => last_quantum a b c d
  | a :: b :: c :: d :: l =>
      match quantum a b c d, decode l with Some x, Some y => Some (x ++ y) | _, _ => None end
  | _ => None
  end.
(** Line ends are skipped. *)
Definition newline (c : Z) : bool := (c =? 10) || (c =? 13).
Definition DecodeString (s : string) : option bytes := decode (filter (fun c => newline c = false) (str_bytes s)).
Definition EncodeToString (b : bytes) : string := bytes_str (encode b).
End Base64.

(** * Validators and delegations of x/staking *)

(** The cached value of the key of a validator, or the text of the [Any]. *)
Inductive consensus_key := CachedKey (key : bytes) | OtherKey (text : string).
Record Validator := mkValidator {
  v_OperatorAddress : string; v_ConsensusPubkey : consensus_key; v_Jailed : bool; v_Status : Z; v_Tokens : Z;
  v_DelegatorShares : Z; v_Description : Description; v_UnbondingHeight : Z; v_UnbondingTime : Z;
  v_CommissionRate : Z; v_MinSelfDelegation : Z;
}.
Record UnbondingEntry := mkUnbondingEntry {
  ue_CreationHeight : Z; ue_CompletionTime : Z; ue_InitialBalance : Z; ue_Balance : Z;
  ue_UnbondingId : Z; ue_UnbondingOnHoldRefCount : Z;
}.
Record UnbondingDelegation := mkUnbonding {
  ub_DelegatorAddress : string; ub_ValidatorAddress : string; ub_Entries : list UnbondingEntry;
}.
Record RedelegationEntry := mkRedelegationEntry {
  re_CreationHeight : Z; re_CompletionTime : Z; re_InitialBalance : Z; re_SharesDst : Z;
}.
Record Redelegation := mkRedelegation {
  rg_DelegatorAddress : string; rg_ValidatorSrcAddress : string; rg_ValidatorDstAddress : string;
  rg_Entries : list RedelegationEntry;
}.
(** A redelegation with the balance of each entry. *)
Record RedelegationResponse := mkRedelegationResponse {
  rr_Redelegation : Redelegation; rr_Entries : list (RedelegationEntry * Z);
}.

Section staking.
Context `{CoinsLib, AddressCodec, ValCodec, Keccak, EthHex, StateKeeper, !AbiCopy}.

Class StakingKeeper := {
  st_BondDenom : M sdk_ctx string;
  st_MaxValidators : M sdk_ctx Z;
  (** the operators of the validators of a delegator, at most so many *)
  st_GetDelegatorValidators : addr -> Z -> M sdk_ctx (list string);
  st_GetValidator : addr -> M sdk_ctx Validator;             (** an empty one when there is none *)
  st_SharesFromTokens : Validator -> Z -> res Z;
  st_GetRedelegation : addr -> addr -> addr -> M sdk_ctx Redelegation;
  (** the queries *)
  st_Delegation : string -> string -> M sdk_ctx (Z * coin);
  st_UnbondingDelegation : string -> string -> M sdk_ctx UnbondingDelegation;
  st_Validator : string -> M sdk_ctx Validator;
  st_Validators : string -> PageRequest -> M sdk_ctx (list Validator * option PageResponse);
  st_Redelegations : string -> string -> string -> PageRequest -> M sdk_ctx (list RedelegationResponse * option PageResponse);
}.
Context `{!MsgServers, !StakingKeeper}.

Variable height : Z.
Variable p : Precompile.
Implicit Types (contract : Contract) (method : Method) (args : list abi_value).

(** * Arguments of the transactions ([types.go]) *)

Definition DoNotModifyCommissionRate : Z := -1.
Definition DoNotModifyMinSelfDelegation : Z := -1.
Definition PubKeySize : nat := 32.

Definition as_description (v : abi_value) : res Description :=
  match v with
  | VTuple [VString m; VString i; VString w; VString s; VString d] => Ok (mkDescription m i w s d)
  | _ => bad "invalid description"
  end.
Definition as_commission (v : abi_value) : res (Z * Z * Z) :=
  match v with
  | VTuple [VBig rate; VBig maxRate; VBig maxChangeRate] => Ok (rate, maxRate, maxChangeRate)
  | _ => bad "invalid commission"
  end.

Definition NewMsgCreateValidator args (denom : string) : res (MsgCreateValidator * Address) :=
  match args with
  | [a0; a1; a2; a3; a4; a5] =>
      let? description := as_description a0 in
      let? commission := as_commission a1 in
      let? minSelfDelegation := as_big a2 "invalid amount" in
      let? validatorAddress := as_address a3 "invalid validator address" in
      let? pubkeyBase64Str := as_string a4 "invalid type for pubkey" in
      match Base64.DecodeString pubkeyBase64Str with
      | None => bad "illegal base64 data"
      | Some pubkeyBytes =>
          if negb (length pubkeyBytes =? PubKeySize)%nat then bad "consensus pubkey len is invalid"
          else
            let? value := as_big a5 "invalid amount" in
            let? min := int_chk minSelfDelegation in
            let? amount := int_chk value in
            Ok (mkCreateValidator description commission.1.1 commission.1.2 commission.2 min
                  (bech32_of (address_bytes validatorAddress)) (val_bech32_of (address_bytes validatorAddress))
                  pubkeyBytes (Coin denom amount), validatorAddress)
      end
  | _ => number_of_args
  end.
Definition NewMsgEditValidator args : res (MsgEditValidator * Address) :=
  match args with
  | [a0; a1; a2; a3] =>
      let? description := as_description a0 in
      let? validatorHexAddr := as_address a1 "invalid validator address" in
      let? commissionRate := as_big a2 "invalid type for commissionRate" in
      let? minSelfDelegation := as_big a3 "invalid type for minSelfDelegation" in
      let? min := (if minSelfDelegation =? DoNotModifyMinSelfDelegation then Ok None
                   else let? msd := int_chk minSelfDelegation in Ok (Some msd)) in
      Ok (mkEditValidator description (val_bech32_of (address_bytes validatorHexAddr))
            (if commissionRate =? DoNotModifyCommissionRate then None else Some commissionRate) min, validatorHexAddr)
  | _ => number_of_args
  end.
Definition checkDelegationUndelegationArgs args : res (Address * string * Z) :=
  match args with
  | [a0; a1; a2] =>
      let? delegatorAddr := as_address a0 "invalid delegator address" in
      let? validatorAddress := as_string a1 "invalid type for validatorAddress" in
      let? amount := as_big a2 "invalid amount" in
      Ok (delegatorAddr, validatorAddress, amount)
  | _ => number_of_args
  end.
Definition NewMsgDelegate args (denom : string) : res (MsgDelegation * Address) :=
  let? a := checkDelegationUndelegationArgs args in
  let? amount := int_chk a.2 in
  Ok (mkDelegation (bech32_of (address_bytes a.1.1)) a.1.2 (Coin denom amount), a.1.1).
Definition NewMsgUndelegate args (denom : string) : res (MsgDelegation * Address) :=
  let? a := checkDelegationUndelegationArgs args in
  let? amount := int_chk a.2 in
  Ok (mkDelegation (bech32_of (address_bytes a.1.1)) a.1.2 (Coin denom amount), a.1.1).
Definition NewMsgRedelegate args (denom : string) : res (MsgBeginRedelegate * Address) :=
  match args with
  | [a0; a1; a2; a3] =>
      let? delegatorAddr := as_address a0 "invalid delegator address" in
      let? validatorSrcAddress := as_string a1 "invalid type for validatorSrcAddress" in
      let? validatorDstAddress := as_string a2 "invalid type for validatorDstAddress" in
      let? amount := as_big a3 "invalid amount" in
      let? n := int_chk amount in
      Ok (mkRedelegate (bech32_of (address_bytes delegatorAddr)) validatorSrcAddress validatorDstAddress (Coin denom n),
          delegatorAddr)
  | _ => number_of_args
  end.
(** [creationHeight.Int64()] keeps the low 64 bits. *)
Definition NewMsgCancelUnbondingDelegation args (denom : string) : res (MsgCancelUnbondingDelegation * Address) :=
  match args with
  | [a0; a1; a2; a3] =>
      let? delegatorAddr := as_address a0 "invalid delegator address" in
      let? validatorAddress := as_string a1 "invalid type for validatorAddress" in
      let? amount := as_big a2 "invalid amount" in
      let? creationHeight := as_big a3 "invalid creation height" in
      let? n := int_chk amount in
      Ok (mkCancelUnbonding (bech32_of (address_bytes delegatorAddr)) validatorAddress (Coin denom n)
            (to_int64 creationHeight), delegatorAddr)
  | _ => number_of_args
  end.

(** * Events ([events.go]) *)

Definition createStakingTxTopics (delegatorAddr validatorAddr : Address) : M pc_state (list Hash) :=
  let! t1 := address_topic delegatorAddr in
  let! t2 := address_topic validatorAddr in
  ret [t1; t2].
Definition createEditValidatorTxTopics (validatorAddr : Address) : M pc_state (list Hash) :=
  let! t1 := address_topic validatorAddr in ret [t1].

Definition EmitCreateValidatorEvent (msg : MsgCreateValidator) (validatorAddr : Address) : M pc_state unit :=
  let! topics := createEditValidatorTxTopics validatorAddr in
  add_log height p "CreateValidator" topics (PackNum (c_amt (cv_Value msg))).
Definition EmitEditValidatorEvent (msg : MsgEditValidator) (validatorAddr : Address) : M pc_state unit :=
  let! topics := createEditValidatorTxTopics validatorAddr in
  let commissionRate := default DoNotModifyCommissionRate (ed_CommissionRate msg) in
  let minSelfDelegation := default DoNotModifyMinSelfDelegation (ed_MinSelfDelegation msg) in
  add_log height p "EditValidator" topics (PackNum commissionRate ++ PackNum minSelfDelegation).
Definition val_address (text : string) : M pc_state addr := lift (from_bech32 val_of_bech32 text).
Definition EmitDelegateEvent (msg : MsgDelegation) (delegatorAddr : Address) : M pc_state unit :=
  let! valAddr := val_address (dg_ValidatorAddress msg) in
  let! validator := on_sdk (st_GetValidator valAddr) in
  let! newShares := lift (st_SharesFromTokens validator (c_amt (dg_Amount msg))) in
  let! topics := createStakingTxTopics delegatorAddr (BytesToAddress valAddr) in
  add_log height p "Delegate" topics (PackNum (c_amt (dg_Amount msg)) ++ PackNum newShares).
Definition EmitUnbondEvent (msg : MsgDelegation) (delegatorAddr : Address) (completionTime : Z) : M pc_state unit :=
  let! valAddr := val_address (dg_ValidatorAddress msg) in
  let! topics := createStakingTxTopics delegatorAddr (BytesToAddress valAddr) in
  add_log height p "Unbond" topics (PackNum (c_amt (dg_Amount msg)) ++ PackNum completionTime).
Definition EmitRedelegateEvent (msg : MsgBeginRedelegate) (delegatorAddr : Address) (completionTime : Z) : M pc_state unit :=
  let! valSrcAddr := val_address (rd_ValidatorSrcAddress msg) in
  let! valDstAddr := val_address (rd_ValidatorDstAddress msg) in
  let! topics := createStakingTxTopics delegatorAddr (BytesToAddress valSrcAddr) in
  let! t3 := address_topic (BytesToAddress valDstAddr) in
  add_log height p "Redelegate" (topics ++ [t3]) (PackNum (c_amt (rd_Amount msg)) ++ PackNum completionTime).
Definition EmitCancelUnbondingDelegationEvent (msg : MsgCancelUnbondingDelegation) (delegatorAddr : Address) : M pc_state unit :=
  let! valAddr := val_address (cu_ValidatorAddress msg) in
  let! topics := createStakingTxTopics delegatorAddr (BytesToAddress valAddr) in
  add_log height p "CancelUnbondingDelegation" topics (PackNum (c_amt (cu_Amount msg)) ++ PackNum (cu_CreationHeight msg)).

(** * Transactions ([tx.go]) *)

(** [stateDB.GetCode(msgSender) != nil] *)
Definition refuse_contracts contract : M pc_state unit :=
  let! code := on_db (GetCode (ct_Caller contract)) in
  match code with
  | None => ret tt
  | Some _ => fail ErrOther "this method can only be called directly to the precompile, not from a smart contract"
  end.

Definition staking_CreateValidator contract method args : M pc_state (option bytes) :=
  let! bondDenom := on_sdk st_BondDenom in
  let! ma := lift (NewMsgCreateValidator args bondDenom) in
  do! refuse_contracts contract;
  do! need_caller contract ma.2;
  do! on_sdk (serve (mCreateValidator ma.1));
  do! EmitCreateValidatorEvent ma.1 ma.2;
  pack_output p method [VBool true].
Definition staking_EditValidator contract method args : M pc_state (option bytes) :=
  let! ma := lift (NewMsgEditValidator args) in
  do! refuse_contracts contract;
  do! need_caller contract ma.2;
  do! on_sdk (serve (mEditValidator ma.1));
  do! EmitEditValidatorEvent ma.1 ma.2;
  pack_output p method [VBool true].
Definition staking_Delegate contract method args : M pc_state (option bytes) :=
  let! bondDenom := on_sdk st_BondDenom in
  let! ma := lift (NewMsgDelegate args bondDenom) in
  do! need_caller contract ma.2;
  do! on_sdk (serve (mDelegate ma.1));
  do! EmitDelegateEvent ma.1 ma.2;
  pack_output p method [VBool true].
Definition staking_Undelegate contract method args : M pc_state (option bytes) :=
  let! bondDenom := on_sdk st_BondDenom in
  let! ma := lift (NewMsgUndelegate args bondDenom) in
  do! need_caller contract ma.2;
  let! completionTime := on_sdk (serve (mUndelegate ma.1)) in
  do! EmitUnbondEvent ma.1 ma.2 completionTime;
  pack_output p method [VInt64 completionTime].
Definition staking_Redelegate contract method args : M pc_state (option bytes) :=
  let! bondDenom := on_sdk st_BondDenom in
  let! ma := lift (NewMsgRedelegate args bondDenom) in
  do! need_caller contract ma.2;
  let! completionTime := on_sdk (serve (mBeginRedelegate ma.1)) in
  do! EmitRedelegateEvent ma.1 ma.2 completionTime;
  pack_output p method [VInt64 completionTime].
Definition staking_CancelUnbondingDelegation contract method args : M pc_state (option bytes) :=
  let! bondDenom := on_sdk st_BondDenom in
  let! ma := lift (NewMsgCancelUnbondingDelegation args bondDenom) in
  do! need_caller contract ma.2;
  do! on_sdk (serve (mCancelUnbondingDelegation ma.1));
  do! EmitCancelUnbondingDelegationEvent ma.1 ma.2;
  pack_output p method [VBool true].

(** * Queries ([query.go], [types.go]) *)

Definition delegator_and_validator args : res (string * string) :=
  match args with
  | [a0; a1] =>
      let? delegatorAddr := as_address a0 "invalid delegator address" in
      let? validatorAddress := as_string a1 "invalid type for validatorAddress" in
      Ok (bech32_of (address_bytes delegatorAddr), validatorAddress)
  | _ => number_of_args
  end.
Definition NewDelegationRequest args : res (string * string) := delegator_and_validator args.
Definition NewUnbondingDelegationRequest args : res (string * string) := delegator_and_validator args.
Definition NewValidatorRequest args : res string :=
  match args with
  | [a0] => let? validatorHexAddr := as_address a0 "invalid validator address" in
            Ok (val_bech32_of (address_bytes validatorHexAddr))
  | _ => number_of_args
  end.
(** A key of one zero byte stands for no key. *)
Definition NewValidatorsRequest args : res (string * PageRequest) :=
  match args with
  | [a0; a1] =>
      let? status := as_string a0 "error while unpacking args to ValidatorsInput struct" in
      let? page := copy_page a1 in
      Ok (status, if decide (pg_Key page = [0])
                  then mkPage [] (pg_Offset page) (pg_Limit page) (pg_CountTotal page) (pg_Reverse page) else page)
  | _ => number_of_args
  end.
Definition NewRedelegationRequest args : res (addr * addr * addr) :=
  match args with
  | [a0; a1; a2] =>
      let? delegatorAddr := as_address a0 "invalid delegator address" in
      let? src := as_string a1 "invalid type for validatorSrcAddress" in
      let? validatorSrcAddr := from_bech32 val_of_bech32 src in
      let? dst := as_string a2 "invalid type for validatorDstAddress" in
      let? validatorDstAddr := from_bech32 val_of_bech32 dst in
      Ok (address_bytes delegatorAddr, validatorSrcAddr, validatorDstAddr)
  | _ => number_of_args
  end.
Definition NewRedelegationsRequest args : res (string * string * string * PageRequest) :=
  match args with
  | [a0; a1; a2; a3] =>
      let? delegator := as_any_address a0 "error while unpacking args to RedelegationsInput struct" in
      let? src := as_string a1 "error while unpacking args to RedelegationsInput struct" in
      let? dst := as_string a2 "error while unpacking args to RedelegationsInput struct" in
      let? page := copy_page a3 in
      let delegatorAddr := if delegator =? 0 then "" else bech32_of (address_bytes delegator) in
      if bool_decide (delegatorAddr = "") && bool_decide (src = "")
      then bad "invalid query. Need to specify at least a source validator address or delegator address"
      else Ok (delegatorAddr, src, dst, page)
  | _ => number_of_args
  end.

Definition FormatConsensusPubkey (k : consensus_key) : string :=
  match k with CachedKey b => Base64.EncodeToString b | OtherKey t => t end.
(** The number of a status of the enumeration; others have no name in it. *)
Definition bond_status (n : Z) : Z := if (0 <=? n) && (n <=? 3) then n else 0.
Definition DefaultValidatorOutput : abi_value :=
  VTuple [VString ""; VString ""; VBool false; VUint8 0; VBig 0; VBig 0; VString ""; VInt64 0; VInt64 0; VBig 0; VBig 0].
Definition ValidatorInfo (v : Validator) : abi_value :=
  match val_of_bech32 (v_OperatorAddress v) with
  | None => DefaultValidatorOutput
  | Some operatorAddress =>
      VTuple [VString (Address_Hex (BytesToAddress operatorAddress)); VString (FormatConsensusPubkey (v_ConsensusPubkey v));
              VBool (v_Jailed v); VUint8 (bond_status (v_Status v)); VBig (v_Tokens v); VBig (v_DelegatorShares v);
              VString (Details (v_Description v)); VInt64 (v_UnbondingHeight v); VInt64 (v_UnbondingTime v);
              VBig (v_CommissionRate v); VBig (v_MinSelfDelegation v)]
  end.
Definition UnbondingDelegationOutput (u : UnbondingDelegation) : abi_value :=
  VTuple [VString (ub_DelegatorAddress u); VString (ub_ValidatorAddress u);
          VArray (map (fun e => VTuple [VInt64 (ue_CreationHeight e); VInt64 (ue_CompletionTime e);
            VBig (ue_InitialBalance e); VBig (ue_Balance e); VUint64 (ue_UnbondingId e);
            VInt64 (ue_UnbondingOnHoldRefCount e)]) (ub_Entries u))].
Definition VRedelegationEntry (e : RedelegationEntry) : abi_value :=
  VTuple [VInt64 (re_CreationHeight e); VInt64 (re_CompletionTime e); VBig (re_InitialBalance e); VBig (re_SharesDst e)].
Definition RedelegationOutput (r : Redelegation) : abi_value :=
  VTuple [VString (rg_DelegatorAddress r); VString (rg_ValidatorSrcAddress r); VString (rg_ValidatorDstAddress r);
          VArray (map VRedelegationEntry (rg_Entries r))].
Definition RedelegationsOutput (l : list RedelegationResponse) : abi_value :=
  VArray (map (fun r => VTuple [RedelegationOutput (rr_Redelegation r);
    VArray (map (fun e => VTuple [VRedelegationEntry e.1; VBig e.2]) (rr_Entries r))]) l).

(** [if strings.Contains(err.Error(), text)] the answer is another one *)
Definition or_not_found {A} (text : string) (m : M pc_state A) (k : M pc_state (option bytes))
    (f : A -> M pc_state (option bytes)) : M pc_state (option bytes) := fun s =>
  match m s with
  | (Ok x, s') => f x s'
  | (Err e, s') => if contains text (err_text e) then k s' else (Err e, s')
  | (Panic m, s') => (Panic m, s')
  end.

Definition staking_Delegation method args : M pc_state (option bytes) :=
  let! req := lift (NewDelegationRequest args) in
  or_not_found ("delegation with delegator " ++ req.1 ++ " not found for validator " ++ req.2)
    (on_sdk (st_Delegation req.1 req.2))
    (let! bondDenom := on_sdk st_BondDenom in pack_output p method [VBig 0; VCoin (bondDenom, 0)])
    (fun r => pack_output p method [VBig r.1; VCoin (c_denom r.2, c_amt r.2)]).
Definition staking_UnbondingDelegation method args : M pc_state (option bytes) :=
  let! req := lift (NewUnbondingDelegationRequest args) in
  or_not_found ("unbonding delegation with delegator " ++ req.1 ++ " not found for validator " ++ req.2)
    (on_sdk (st_UnbondingDelegation req.1 req.2))
    (pack_output p method [UnbondingDelegationOutput (mkUnbonding "" "" [])])
    (fun r => pack_output p method [UnbondingDelegationOutput r]).
Definition staking_Validator method args : M pc_state (option bytes) :=
  let! req := lift (NewValidatorRequest args) in
  or_not_found ("validator " ++ req ++ " not found")
    (on_sdk (st_Validator req))
    (pack_output p method [DefaultValidatorOutput])
    (fun r => pack_output p method [ValidatorInfo r]).
Definition staking_Validators method args : M pc_state (option bytes) :=
  let! req := lift (NewValidatorsRequest args) in
  let! r := on_sdk (st_Validators req.1 req.2) in
  pack_output p method [VArray (map ValidatorInfo r.1); VPage r.2].
Definition staking_Redelegation method args : M pc_state (option bytes) :=
  let! req := lift (NewRedelegationRequest args) in
  let! r := on_sdk (st_GetRedelegation req.1.1 req.1.2 req.2) in
  pack_output p method [RedelegationOutput r].
Definition staking_Redelegations method args : M pc_state (option bytes) :=
  let! req := lift (NewRedelegationsRequest args) in
  let! r := on_sdk (st_Redelegations req.1.1.1 req.1.1.2 req.1.2 req.2) in
  pack_output p method [RedelegationsOutput r.1; VPage r.2].

(** * The call ([staking.go]) *)

Definition staking_IsTransaction method : bool :=
  bool_decide (m_Name method ∈ ["createValidator"; "editValidator"; "delegate"; "undelegate"; "redelegate";
                                "cancelUnbondingDelegation"]).
(** A method that is none of these answers nothing. *)
Definition staking_dispatch contract method args : M pc_state (option bytes) :=
  if decide (m_Name method = "createValidator") then staking_CreateValidator contract method args
  else if decide (m_Name method = "editValidator") then staking_EditValidator contract method args
  else if decide (m_Name method = "delegate") then staking_Delegate contract method args
  else if decide (m_Name method = "undelegate") then staking_Undelegate contract method args
  else if decide (m_Name method = "redelegate") then staking_Redelegate contract method args
  else if decide (m_Name method = "cancelUnbondingDelegation")
  then staking_CancelUnbondingDelegation contract method args
  else if decide (m_Name method = "delegation") then staking_Delegation method args
  else if decide (m_Name method = "unbondingDelegation") then staking_UnbondingDelegation method args
  else if decide (m_Name method = "validator") then staking_Validator method args
  else if decide (m_Name method = "validators") then staking_Validators method args
  else if decide (m_Name method = "redelegation") then staking_Redelegation method args
  else if decide (m_Name method = "redelegations") then staking_Redelegations method args
  else ret None.
Definition staking_RequiredGas (input : bytes) : res Z := sdk_RequiredGas p staking_IsTransaction input.
Definition staking_run (info : EvmCoinInfo) : Z -> Contract -> bool -> M pc_state (option bytes * Z) :=
  sdk_run info p staking_IsTransaction staking_dispatch.
End staking.
