(* ===== verification/PrecompileDistr.v ===== *)
(** precompiles/distribution: the distribution contract ([distribution.go], [tx.go],
    [types.go], [events.go], [query.go]) over the keepers of x/distribution and
    x/staking. *)
From S2P Require Import Prelude KVStore Sdk EvmConfig StateDB TxData VmKeeper VmGas.
From S2P Require Import Precompile PrecompileErc20 PrecompileSdk PrecompileStaking.

(** Decimal coins of the SDK, with 18 decimals. *)
Abbreviation dec_coins := (list (string * Z)) (only parsing).

Section distribution.
Context `{CoinsLib, AddressCodec, ValCodec, Keccak, EthHex, StateKeeper, !AbiCopy}.

(** The queries of x/distribution. *)
Class DistributionQuerier := {
  ds_ValidatorDistributionInfo : string -> M sdk_ctx (string * dec_coins * dec_coins);
  ds_ValidatorOutstandingRewards : string -> M sdk_ctx dec_coins;
  ds_ValidatorCommission : string -> M sdk_ctx dec_coins;
  (** the periods and fractions of the slashes between two heights *)
  ds_ValidatorSlashes : string -> Z -> Z -> PageRequest -> M sdk_ctx (list (Z * Z) * option PageResponse);
  ds_DelegationRewards : string -> string -> M sdk_ctx dec_coins;
  ds_DelegationTotalRewards : string -> M sdk_ctx (list (string * dec_coins) * dec_coins);
  ds_DelegatorValidators : string -> M sdk_ctx (list string);
  ds_DelegatorWithdrawAddress : string -> M sdk_ctx string;
  ds_CommunityPool : M sdk_ctx dec_coins;
}.
Context `{!MsgServers, !StakingKeeper, !DistributionQuerier}.

Variable height : Z.
Variable p : Precompile.
Implicit Types (contract : Contract) (method : Method) (args : list abi_value).

(** * Arguments of the transactions ([types.go]) *)

Definition parseClaimRewardsArgs args : res (Address * Z) :=
  match args with
  | [a0; a1] =>
      let? delegatorAddress := as_address a0 "invalid delegator address" in
      let? maxRetrieve := as_uint32 a1 "invalid type for maxRetrieve" in
      Ok (delegatorAddress, maxRetrieve)
  | _ => number_of_args
  end.
(** A hex address becomes a bech32 one. *)
Definition NewMsgSetWithdrawAddress args : res (MsgSetWithdrawAddress * Address) :=
  match args with
  | [a0; a1] =>
      let? delegatorAddress := as_address a0 "invalid delegator address" in
      let withdrawerAddress := string_or_empty a1 in
      let withdrawerAddress := if IsHexAddress withdrawerAddress
        then bech32_of (address_bytes (HexToAddress withdrawerAddress)) else withdrawerAddress in
      Ok (mkSetWithdraw (bech32_of (address_bytes delegatorAddress)) withdrawerAddress, delegatorAddress)
  | _ => number_of_args
  end.
Definition NewMsgWithdrawDelegatorReward args : res (MsgWithdrawDelegatorReward * Address) :=
  match args with
  | [a0; a1] =>
      let? delegatorAddress := as_address a0 "invalid delegator address" in
      Ok (mkWithdrawReward (bech32_of (address_bytes delegatorAddress)) (string_or_empty a1), delegatorAddress)
  | _ => number_of_args
  end.
Definition NewMsgWithdrawValidatorCommission args : res (string * Address) :=
  match args with
  | [a0] =>
      let validatorAddress := string_or_empty a0 in
      let? validatorHexAddr := HexAddressFromBech32String validatorAddress in
      Ok (validatorAddress, validatorHexAddr)
  | _ => number_of_args
  end.
Definition NewMsgFundCommunityPool args : res (MsgFundCommunityPool * Address) :=
  match args with
  | [a0; a1] =>
      let? depositorAddress := as_address a0 "invalid hex address" in
      let? amt := coins_arg a1 "invalid amount amount arg" in
      Ok (mkFundPool (bech32_of (address_bytes depositorAddress)) amt, depositorAddress)
  | _ => number_of_args
  end.
Definition NewMsgDepositValidatorRewardsPool args : res (MsgDepositValidatorRewardsPool * Address) :=
  match args with
  | [a0; a1; a2] =>
      let? depositorAddress := as_address a0 "invalid hex address" in
      let validatorAddress := string_or_empty a1 in
      let? amount := coins_arg a2 "invalid amount" in
      Ok (mkDepositRewards (bech32_of (address_bytes depositorAddress)) validatorAddress amount, depositorAddress)
  | _ => number_of_args
  end.

(** * Events ([events.go]) *)

Definition EmitClaimRewardsEvent (delegatorAddress : Address) (totalCoins : coins) : M pc_state unit :=
  let! t1 := address_topic delegatorAddress in
  let! bondDenom := on_sdk st_BondDenom in
  let! packed := pack_event p "ClaimRewards" [VBig (amount_of totalCoins bondDenom)] in
  add_log height p "ClaimRewards" [t1] packed.
Definition EmitSetWithdrawAddressEvent (caller : Address) (withdrawerAddress : string) : M pc_state unit :=
  let! t1 := address_topic caller in
  let! packed := pack_event p "SetWithdrawerAddress" [VString withdrawerAddress] in
  add_log height p "SetWithdrawerAddress" [t1] packed.
(** [coins[0].Amount] *)
Definition first_amount (cs : coins) : M pc_state Z :=
  match cs with [] => panic "index out of range" | c :: _ => ret (c_amt c) end.
Definition EmitWithdrawDelegatorRewardEvent (delegatorAddress : Address) (validatorAddress : string) (cs : coins)
    : M pc_state unit :=
  let! valAddr := val_address validatorAddress in
  let! t1 := address_topic delegatorAddress in
  let! t2 := address_topic (BytesToAddress valAddr) in
  let! amount := first_amount cs in
  add_log height p "WithdrawDelegatorReward" [t1; t2] (PackNum amount).
Definition EmitWithdrawValidatorCommissionEvent (validatorAddress : string) (cs : coins) : M pc_state unit :=
  let! t1 := lift (MakeTopic (TText (str_bytes validatorAddress))) in
  let! amount := first_amount cs in
  add_log height p "WithdrawValidatorCommission" [t1] (PackNum amount).
Definition EmitFundCommunityPoolEvent (depositor : Address) (cs : coins) : M pc_state unit :=
  each (fun c =>
    let! t1 := address_topic depositor in
    let! data := pack_event p "FundCommunityPool" [VString (c_denom c); VBig (c_amt c)] in
    add_log height p "FundCommunityPool" [t1] data) cs.
Definition EmitDepositValidatorRewardsPoolEvent (depositor : Address) (validatorAddress : string) (cs : coins) : M pc_state unit :=
  let! valAddr := val_address validatorAddress in
  each (fun c =>
    let! t1 := address_topic depositor in
    let! t2 := address_topic (BytesToAddress valAddr) in
    let! data := pack_event p "DepositValidatorRewardsPool" [VString (c_denom c); VBig (c_amt c)] in
    add_log height p "DepositValidatorRewardsPool" [t1; t2] data) cs.

(** * Transactions ([tx.go]) *)

(** The rewards of each validator are withdrawn and added up. *)
Fixpoint claim_each (delegator : addr) (operators : list string) (totalCoins : coins) : M pc_state coins :=
  match operators with
  | [] => ret totalCoins
  | operator :: operators =>
      let! valAddr := val_address operator in
      let! cs := on_sdk (serve (mWithdrawDelegationRewards delegator valAddr)) in
      let! total := lift (coins_add totalCoins cs) in
      claim_each delegator operators total
  end.
Definition distr_ClaimRewards contract method args : M pc_state (option bytes) :=
  let! a := lift (parseClaimRewardsArgs args) in
  let delegatorAddr := a.1 in let maxRetrieve := a.2 in
  let! maxVals := on_sdk st_MaxValidators in
  if maxVals <? maxRetrieve then fail ErrOther "maxRetrieve parameter exceeds the maximum number of validators"
  else
    do! need_caller contract delegatorAddr;
    let! operators := on_sdk (st_GetDelegatorValidators (address_bytes delegatorAddr) maxRetrieve) in
    let! totalCoins := claim_each (address_bytes delegatorAddr) operators [] in
    do! EmitClaimRewardsEvent delegatorAddr totalCoins;
    pack_output p method [VBool true].
Definition distr_SetWithdrawAddress contract method args : M pc_state (option bytes) :=
  let! ma := lift (NewMsgSetWithdrawAddress args) in
  do! need_caller contract ma.2;
  do! on_sdk (serve (mSetWithdrawAddress ma.1));
  do! EmitSetWithdrawAddressEvent ma.2 (sw_WithdrawAddress ma.1);
  pack_output p method [VBool true].
Definition distr_WithdrawDelegatorReward contract method args : M pc_state (option bytes) :=
  let! ma := lift (NewMsgWithdrawDelegatorReward args) in
  do! need_caller contract ma.2;
  let! amount := on_sdk (serve (mWithdrawDelegatorReward ma.1)) in
  do! EmitWithdrawDelegatorRewardEvent ma.2 (wr_ValidatorAddress ma.1) amount;
  pack_output p method [VCoins amount].
Definition distr_WithdrawValidatorCommission contract method args : M pc_state (option bytes) :=
  let! ma := lift (NewMsgWithdrawValidatorCommission args) in
  do! need_caller contract ma.2;
  let! amount := on_sdk (serve (mWithdrawValidatorCommission ma.1)) in
  do! EmitWithdrawValidatorCommissionEvent ma.1 amount;
  pack_output p method [VCoins amount].
Definition distr_FundCommunityPool contract method args : M pc_state (option bytes) :=
  let! ma := lift (NewMsgFundCommunityPool args) in
  do! need_caller contract ma.2;
  do! on_sdk (serve (mFundCommunityPool ma.1));
  do! EmitFundCommunityPoolEvent ma.2 (fp_Amount ma.1);
  pack_output p method [VBool true].
Definition distr_DepositValidatorRewardsPool contract method args : M pc_state (option bytes) :=
  let! ma := lift (NewMsgDepositValidatorRewardsPool args) in
  do! need_caller contract ma.2;
  do! on_sdk (serve (mDepositValidatorRewardsPool ma.1));
  do! EmitDepositValidatorRewardsPoolEvent ma.2 (dr_ValidatorAddress ma.1) (dr_Amount ma.1);
  pack_output p method [VBool true].

(** * Queries ([query.go], [types.go]) *)

Definition validator_request args : res string :=
  match args with [a0] => Ok (string_or_empty a0) | _ => number_of_args end.
Definition NewValidatorDistributionInfoRequest args : res string := validator_request args.
Definition NewValidatorOutstandingRewardsRequest args : res string := validator_request args.
Definition NewValidatorCommissionRequest args : res string := validator_request args.
Definition NewValidatorSlashesRequest args : res (string * Z * Z * PageRequest) :=
  match args with
  | [a0; a1; a2; a3] =>
      let? startingHeight := as_uint64 a1 "invalid type for startingHeight" in
      let? endingHeight := as_uint64 a2 "invalid type for endingHeight" in
      let? validatorAddress := as_string a0 "error while unpacking args to ValidatorSlashesInput struct" in
      let? page := copy_page a3 in
      Ok (validatorAddress, startingHeight, endingHeight, page)
  | _ => number_of_args
  end.
Definition NewDelegationRewardsRequest args : res (string * string) :=
  match args with
  | [a0; a1] =>
      let? delegatorAddress := as_address a0 "invalid delegator address" in
      Ok (bech32_of (address_bytes delegatorAddress), string_or_empty a1)
  | _ => number_of_args
  end.
Definition delegator_request args : res string :=
  match args with
  | [a0] => let? delegatorAddress := as_address a0 "invalid delegator address" in
            Ok (bech32_of (address_bytes delegatorAddress))
  | _ => number_of_args
  end.
Definition NewDelegationTotalRewardsRequest args : res string := delegator_request args.
Definition NewDelegatorValidatorsRequest args : res string := delegator_request args.
Definition NewDelegatorWithdrawAddressRequest args : res string := delegator_request args.
Definition NewCommunityPoolRequest args : res unit := match args with [] => Ok tt | _ => number_of_args end.

Definition dec_coins_output (l : dec_coins) : M pc_state abi_value :=
  let! r := lift (NewDecCoinsResponse l) in ret (VDecCoins r).
Fixpoint total_rewards_output (l : list (string * dec_coins)) : M pc_state (list abi_value) :=
  match l with
  | [] => ret []
  | (v, reward) :: l =>
      let! o := dec_coins_output reward in
      let! rest := total_rewards_output l in
      ret (VTuple [VString v; o] :: rest)
  end.

Definition distr_ValidatorDistributionInfo method args : M pc_state (option bytes) :=
  let! req := lift (NewValidatorDistributionInfoRequest args) in
  let! r := on_sdk (ds_ValidatorDistributionInfo req) in
  let! selfBond := dec_coins_output r.1.2 in
  let! commission := dec_coins_output r.2 in
  pack_output p method [VTuple [VString r.1.1; selfBond; commission]].
Definition distr_ValidatorOutstandingRewards method args : M pc_state (option bytes) :=
  let! req := lift (NewValidatorOutstandingRewardsRequest args) in
  let! r := on_sdk (ds_ValidatorOutstandingRewards req) in
  let! o := dec_coins_output r in pack_output p method [o].
Definition distr_ValidatorCommission method args : M pc_state (option bytes) :=
  let! req := lift (NewValidatorCommissionRequest args) in
  let! r := on_sdk (ds_ValidatorCommission req) in
  let! o := dec_coins_output r in pack_output p method [o].
Definition distr_ValidatorSlashes method args : M pc_state (option bytes) :=
  let! req := lift (NewValidatorSlashesRequest args) in
  let! r := on_sdk (ds_ValidatorSlashes req.1.1.1 req.1.1.2 req.1.2 req.2) in
  pack_output p method [VArray (map (fun e => VTuple [VUint64 e.1; VDec e.2]) r.1); VPage r.2].
Definition distr_DelegationRewards method args : M pc_state (option bytes) :=
  let! req := lift (NewDelegationRewardsRequest args) in
  let! r := on_sdk (ds_DelegationRewards req.1 req.2) in
  let! o := dec_coins_output r in pack_output p method [o].
Definition distr_DelegationTotalRewards method args : M pc_state (option bytes) :=
  let! req := lift (NewDelegationTotalRewardsRequest args) in
  let! r := on_sdk (ds_DelegationTotalRewards req) in
  let! rewards := total_rewards_output r.1 in
  let! total := dec_coins_output r.2 in
  pack_output p method [VArray rewards; total].
Definition distr_DelegatorValidators method args : M pc_state (option bytes) :=
  let! req := lift (NewDelegatorValidatorsRequest args) in
  let! r := on_sdk (ds_DelegatorValidators req) in
  pack_output p method [VArray (map VString r)].
Definition distr_DelegatorWithdrawAddress method args : M pc_state (option bytes) :=
  let! req := lift (NewDelegatorWithdrawAddressRequest args) in
  let! r := on_sdk (ds_DelegatorWithdrawAddress req) in
  pack_output p method [VString r].
Definition distr_CommunityPool method args : M pc_state (option bytes) :=
  do! lift (NewCommunityPoolRequest args);
  let! r := on_sdk ds_CommunityPool in
  let! o := dec_coins_output r in pack_output p method [o].

(** * The call ([distribution.go]) *)

Definition distr_IsTransaction method : bool :=
  bool_decide (m_Name method ∈ ["claimRewards"; "setWithdrawAddress"; "withdrawDelegatorRewards";
                                "withdrawValidatorCommission"; "fundCommunityPool"; "depositValidatorRewardsPool"]).
Definition distr_dispatch contract method args : M pc_state (option bytes) :=
  if decide (m_Name method = "claimRewards") then distr_ClaimRewards contract method args
  else if decide (m_Name method = "setWithdrawAddress") then distr_SetWithdrawAddress contract method args
  else if decide (m_Name method = "withdrawDelegatorRewards") then distr_WithdrawDelegatorReward contract method args
  else if decide (m_Name method = "withdrawValidatorCommission")
  then distr_WithdrawValidatorCommission contract method args
  else if decide (m_Name method = "fundCommunityPool") then distr_FundCommunityPool contract method args
  else if decide (m_Name method = "depositValidatorRewardsPool")
  then distr_DepositValidatorRewardsPool contract method args
  else if decide (m_Name method = "validatorDistributionInfo") then distr_ValidatorDistributionInfo method args
  else if decide (m_Name method = "validatorOutstandingRewards") then distr_ValidatorOutstandingRewards method args
  else if decide (m_Name method = "validatorCommission") then distr_ValidatorCommission method args
  else if decide (m_Name method = "validatorSlashes") then distr_ValidatorSlashes method args
  else if decide (m_Name method = "delegationRewards") then distr_DelegationRewards method args
  else if decide (m_Name method = "delegationTotalRewards") then distr_DelegationTotalRewards method args
  else if decide (m_Name method = "delegatorValidators") then distr_DelegatorValidators method args
  else if decide (m_Name method = "delegatorWithdrawAddress") then distr_DelegatorWithdrawAddress method args
  else if decide (m_Name method = "communityPool") then distr_CommunityPool method args
  else ret None.
Definition distr_RequiredGas (input : bytes) : res Z := sdk_RequiredGas p distr_IsTransaction input.
Definition distr_run (info : EvmCoinInfo) : Z -> Contract -> bool -> M pc_state (option bytes * Z) :=
  sdk_run info p distr_IsTransaction distr_dispatch.
End distribution.
