(* ===== verification/PrecompileGov.v ===== *)
(** precompiles/gov, precompiles/slashing and precompiles/evidence: the contracts of
    governance, slashing and evidence, over the keepers of these modules. *)
From Stdlib Require Import Ascii.
From S2P Require Import Prelude KVStore Sdk EvmConfig StateDB TxData VmKeeper VmGas Erc20Keeper.
From S2P Require Import Precompile PrecompileErc20 PrecompileSdk.

(** * Governance: what the module keeps *)

Record TallyResult := mkTally { ty_Yes : string; ty_Abstain : string; ty_No : string; ty_NoWithVeto : string }.
(** Times are in seconds; those of the voting period are nil before it. *)
Record Proposal := mkProposal {
  pr_Id : Z; pr_Messages : list string; pr_Status : Z; pr_FinalTallyResult : TallyResult; pr_SubmitTime : Z;
  pr_DepositEndTime : Z; pr_TotalDeposit : coins; pr_VotingStartTime : option Z; pr_VotingEndTime : option Z;
  pr_Metadata : string; pr_Title : string; pr_Summary : string; pr_Proposer : string;
}.
Record Vote := mkVoteRecord { vr_ProposalId : Z; vr_Voter : string; vr_Options : list (Z * string); vr_Metadata : string }.
Record DepositRecord := mkDepositRecord { dd_ProposalId : Z; dd_Depositor : string; dd_Amount : coins }.
(** Durations are in nanoseconds. *)
Record GovParams := mkGovParams {
  gp_VotingPeriod : Z; gp_MinDeposit : coins; gp_MaxDepositPeriod : Z; gp_Quorum : string; gp_Threshold : string;
  gp_VetoThreshold : string; gp_MinInitialDepositRatio : string; gp_ProposalCancelRatio : string;
  gp_ProposalCancelDest : string; gp_ExpeditedVotingPeriod : Z; gp_ExpeditedThreshold : string;
  gp_ExpeditedMinDeposit : coins; gp_BurnVoteQuorum : bool; gp_BurnProposalDepositPrevote : bool;
  gp_BurnVoteVeto : bool; gp_MinDepositRatio : string;
}.
(** The envelope of a proposal in JSON. *)
Record ProposalJSON := mkProposalJSON {
  pj_Messages : list bytes; pj_Metadata : string; pj_Title : string; pj_Summary : string; pj_Expedited : bool;
}.

Section gov.
Context `{CoinsLib, AddressCodec, ValCodec, Keccak, StateKeeper, !AbiCopy}.

Class GovKeeper := {
  gv_Votes : Z -> PageRequest -> M sdk_ctx (list Vote * option PageResponse);
  gv_Vote : Z -> string -> M sdk_ctx Vote;
  gv_Deposit : Z -> string -> M sdk_ctx DepositRecord;
  gv_Deposits : Z -> PageRequest -> M sdk_ctx (list DepositRecord * option PageResponse);
  gv_TallyResult : Z -> M sdk_ctx TallyResult;
  gv_Proposal : Z -> M sdk_ctx Proposal;
  (** the status, the voter and the depositor asked for *)
  gv_Proposals : Z -> string -> string -> PageRequest -> M sdk_ctx (list Proposal * option PageResponse);
  gv_Params : M sdk_ctx GovParams;
  gv_Constitution : M sdk_ctx string;
  (** [json.Unmarshal] of the envelope; [UnmarshalInterfaceJSON] and the packing of a message *)
  json_proposal : bytes -> option ProposalJSON;
  json_message : bytes -> res (string * bytes);
}.
Context `{!MsgServers, !GovKeeper}.

Variable height : Z.
Variable p : Precompile.
Implicit Types (contract : Contract) (method : Method) (args : list abi_value).

(** * Arguments of the transactions ([gov/types.go]) *)

Fixpoint json_messages (l : list bytes) : res (list (string * bytes)) :=
  match l with
  | [] => Ok []
  | m :: l => let? any := json_message m in let? rest := json_messages l in Ok (any :: rest)
  end.
Definition NewMsgSubmitProposal args : res (MsgSubmitProposal * Address) :=
  match args with
  | [a0; a1; a2] =>
      let? proposer := as_address a0 "invalid proposer" in
      let? jsonBlob := as_bytes a1 "invalid proposal json jsonBlob arg" in
      if decide (jsonBlob = []) then bad "invalid proposal json jsonBlob arg"
      else
        let? amt := coins_arg a2 "invalid deposits deposit arg" in
        match json_proposal jsonBlob with
        | None => bad "invalid proposal JSON"
        | Some prop =>
            let? anys := json_messages (pj_Messages prop) in
            Ok (mkSubmitProposal anys amt (bech32_of (address_bytes proposer)) (pj_Metadata prop) (pj_Title prop)
                  (pj_Summary prop) (pj_Expedited prop), proposer)
        end
  | _ => number_of_args
  end.
(** The first argument is taken as an address without a test. *)
Definition NewMsgDeposit args : res (MsgDeposit * Address) :=
  match args with
  | [a0; a1; a2] =>
      let? depositor := match a0 with
        | VAddress a => Ok a | _ => Panic "interface conversion: interface is not common.Address" end in
      if depositor =? 0 then bad "invalid depositor address"
      else
        let? proposalID := as_uint64 a1 "invalid proposal id" in
        let? amt := coins_arg a2 "invalid deposits deposit arg" in
        Ok (mkDeposit proposalID amt (bech32_of (address_bytes depositor)), depositor)
  | _ => number_of_args
  end.
Definition NewMsgCancelProposal args : res (MsgCancelProposal * Address) :=
  match args with
  | [a0; a1] =>
      let? proposer := as_address a0 "invalid proposer" in
      let? proposalID := as_uint64 a1 "invalid proposal id" in
      Ok (mkCancelProposal proposalID (bech32_of (address_bytes proposer)), proposer)
  | _ => number_of_args
  end.
Definition NewMsgVote args : res (MsgVote * Address) :=
  match args with
  | [a0; a1; a2; a3] =>
      let? voterAddress := as_address a0 "invalid voter address" in
      let? proposalID := as_uint64 a1 "invalid proposal id" in
      let? option := as_uint8 a2 "invalid option" in
      let? metadata := as_string a3 "invalid metadata" in
      Ok (mkVote proposalID (bech32_of (address_bytes voterAddress)) option metadata, voterAddress)
  | _ => number_of_args
  end.
Definition NewMsgVoteWeighted args : res (MsgVoteWeighted * Address * list (Z * string)) :=
  match args with
  | [a0; a1; a2; a3] =>
      let? voterAddress := as_address a0 "invalid voter address" in
      let? proposalID := as_uint64 a1 "invalid proposal id" in
      let? options := copy_options a2 in
      let? metadata := as_string a3 "invalid metadata" in
      Ok (mkVoteWeighted proposalID (bech32_of (address_bytes voterAddress)) options metadata, voterAddress, options)
  | _ => number_of_args
  end.

(** * Events ([gov/events.go]) *)

Definition emit_gov (name : string) (who : Address) (l : list abi_value) : M pc_state unit :=
  let! t1 := address_topic who in
  let! packed := pack_event p name l in
  add_log height p name [t1] packed.
Definition EmitSubmitProposalEvent (proposerAddress : Address) (proposalID : Z) : M pc_state unit :=
  emit_gov "SubmitProposal" proposerAddress [VUint64 proposalID].
Definition EmitCancelProposalEvent (proposerAddress : Address) (proposalID : Z) : M pc_state unit :=
  emit_gov "CancelProposal" proposerAddress [VUint64 proposalID].
Definition gov_EmitDepositEvent (depositorAddress : Address) (proposalID : Z) (amount : coins) : M pc_state unit :=
  emit_gov "Deposit" depositorAddress [VUint64 proposalID; VCoins amount].
Definition EmitVoteEvent (voterAddress : Address) (proposalID option : Z) : M pc_state unit :=
  emit_gov "Vote" voterAddress [VUint64 proposalID; VUint8 (option mod 256)].
Definition VOptions (l : list (Z * string)) : abi_value := VArray (map (fun o => VTuple [VUint8 o.1; VString o.2]) l).
Definition EmitVoteWeightedEvent (voterAddress : Address) (proposalID : Z) (options : list (Z * string)) : M pc_state unit :=
  emit_gov "VoteWeighted" voterAddress [VUint64 proposalID; VOptions options].

(** * Transactions ([gov/tx.go]) *)

Definition gov_SubmitProposal contract method args : M pc_state (option bytes) :=
  let! ma := lift (NewMsgSubmitProposal args) in
  do! need_caller contract ma.2;
  let! proposalId := on_sdk (serve (mSubmitProposal ma.1)) in
  do! EmitSubmitProposalEvent ma.2 proposalId;
  pack_output p method [VUint64 proposalId].
Definition gov_Deposit contract method args : M pc_state (option bytes) :=
  let! ma := lift (NewMsgDeposit args) in
  do! need_caller contract ma.2;
  do! on_sdk (serve (mDeposit ma.1));
  do! gov_EmitDepositEvent ma.2 (dp_ProposalId ma.1) (dp_Amount ma.1);
  pack_output p method [VBool true].
Definition gov_CancelProposal contract method args : M pc_state (option bytes) :=
  let! ma := lift (NewMsgCancelProposal args) in
  do! need_caller contract ma.2;
  do! on_sdk (serve (mCancelProposal ma.1));
  do! EmitCancelProposalEvent ma.2 (cp_ProposalId ma.1);
  pack_output p method [VBool true].
Definition gov_Vote contract method args : M pc_state (option bytes) :=
  let! ma := lift (NewMsgVote args) in
  do! need_caller contract ma.2;
  do! on_sdk (serve (mVote ma.1));
  do! EmitVoteEvent ma.2 (vt_ProposalId ma.1) (vt_Option ma.1);
  pack_output p method [VBool true].
Definition gov_VoteWeighted contract method args : M pc_state (option bytes) :=
  let! ma := lift (NewMsgVoteWeighted args) in
  do! need_caller contract ma.1.2;
  do! on_sdk (serve (mVoteWeighted ma.1.1));
  do! EmitVoteWeightedEvent ma.1.2 (vw_ProposalId ma.1.1) ma.2;
  pack_output p method [VBool true].

(** * Queries ([gov/query.go], [gov/types.go]) *)

Definition proposal_and_page args (msg : string) : res (Z * PageRequest) :=
  match args with
  | [a0; a1] => let? proposalId := as_uint64 a0 msg in let? page := copy_page a1 in Ok (proposalId, page)
  | _ => number_of_args
  end.
Definition ParseVotesArgs args : res (Z * PageRequest) :=
  proposal_and_page args "error while unpacking args to VotesInput".
Definition ParseDepositsArgs args : res (Z * PageRequest) :=
  proposal_and_page args "error while unpacking args to DepositsInput".
Definition proposal_and_account args (msg : string) : res (Z * string) :=
  match args with
  | [a0; a1] =>
      let? proposalID := as_uint64 a0 "invalid proposal id" in
      let? account := as_any_address a1 msg in
      Ok (proposalID, bech32_of (address_bytes account))
  | _ => number_of_args
  end.
Definition ParseVoteArgs args : res (Z * string) := proposal_and_account args "invalid voter address".
Definition ParseDepositArgs args : res (Z * string) := proposal_and_account args "invalid depositor address".
Definition proposal_request args : res Z :=
  match args with [a0] => as_uint64 a0 "invalid proposal id" | _ => number_of_args end.
Definition ParseTallyResultArgs args : res Z := proposal_request args.
Definition ParseProposalArgs args : res Z := proposal_request args.
Definition bech32_or_empty (a : Address) : string := if a =? 0 then "" else bech32_of (address_bytes a).
(** [govv1.ProposalStatus(input.ProposalStatus)] is a signed integer of 32 bits. *)
Definition ParseProposalsArgs args : res (Z * string * string * PageRequest) :=
  match args with
  | [a0; a1; a2; a3] =>
      let? status := as_uint32 a0 "error while unpacking args to ProposalsInput" in
      let? voter := as_any_address a1 "error while unpacking args to ProposalsInput" in
      let? depositor := as_any_address a2 "error while unpacking args to ProposalsInput" in
      let? page := copy_page a3 in
      Ok (to_int32 status, bech32_or_empty voter, bech32_or_empty depositor, page)
  | _ => number_of_args
  end.
Definition BuildQueryParamsRequest args : res unit := match args with [] => Ok tt | _ => number_of_args end.
Definition BuildQueryConstitutionRequest args : res unit := match args with [] => Ok tt | _ => number_of_args end.

(** [FromResponse] returns nil when an address cannot be decoded, and the field of
    the output is read through it. *)
Definition hex_or_nil (text : string) : res Address :=
  match HexAddressFromBech32String text with
  | Err _ => Panic "invalid memory address or nil pointer dereference"
  | r => r
  end.
Fixpoint map_res {A B} (f : A -> res B) (l : list A) : res (list B) :=
  match l with [] => Ok [] | x :: l => let? y := f x in let? ys := map_res f l in Ok (y :: ys) end.

Definition VoteOutput (v : Vote) : res abi_value :=
  let? voter := hex_or_nil (vr_Voter v) in
  Ok (VTuple [VUint64 (vr_ProposalId v); VAddress voter;
              VOptions (map (fun o => (o.1 mod 256, o.2)) (vr_Options v)); VString (vr_Metadata v)]).
Definition DepositOutput (d : DepositRecord) : res abi_value :=
  let? depositor := hex_or_nil (dd_Depositor d) in
  Ok (VTuple [VUint64 (dd_ProposalId d); VAddress depositor; VCoins (dd_Amount d)]).
Definition TallyResultOutput (t : TallyResult) : abi_value :=
  VTuple [VString (ty_Yes t); VString (ty_Abstain t); VString (ty_No t); VString (ty_NoWithVeto t)].
Definition proposal_data (q : Proposal) (proposer : Address) (votingStartTime votingEndTime : Z) : abi_value :=
  VTuple [VUint64 (pr_Id q); VArray (map VString (pr_Messages q)); VUint32 (wrap32 (pr_Status q));
          TallyResultOutput (pr_FinalTallyResult q); VUint64 (wrap64 (pr_SubmitTime q));
          VUint64 (wrap64 (pr_DepositEndTime q)); VCoins (pr_TotalDeposit q);
          VUint64 (wrap64 votingStartTime); VUint64 (wrap64 votingEndTime);
          VString (pr_Metadata q); VString (pr_Title q); VString (pr_Summary q); VAddress proposer].
(** One proposal: a nil time leaves the field zero. *)
Definition ProposalOutput (q : Proposal) : res abi_value :=
  let? proposer := hex_or_nil (pr_Proposer q) in
  Ok (proposal_data q proposer (default 0 (pr_VotingStartTime q)) (default 0 (pr_VotingEndTime q))).
(** A list of proposals: the times are read without a test. *)
Definition time_of (t : option Z) : res Z :=
  match t with Some t => Ok t | None => Panic "invalid memory address or nil pointer dereference" end.
Definition ProposalsOutput (q : Proposal) : res abi_value :=
  let? proposer := hex_or_nil (pr_Proposer q) in
  let? votingStartTime := time_of (pr_VotingStartTime q) in
  let? votingEndTime := time_of (pr_VotingEndTime q) in
  Ok (proposal_data q proposer votingStartTime votingEndTime).
Definition ParamsOutput (g : GovParams) : abi_value :=
  VTuple [VInt64 (gp_VotingPeriod g); VCoins (gp_MinDeposit g); VInt64 (gp_MaxDepositPeriod g); VString (gp_Quorum g);
          VString (gp_Threshold g); VString (gp_VetoThreshold g); VString (gp_MinInitialDepositRatio g);
          VString (gp_ProposalCancelRatio g); VString (gp_ProposalCancelDest g); VInt64 (gp_ExpeditedVotingPeriod g);
          VString (gp_ExpeditedThreshold g); VCoins (gp_ExpeditedMinDeposit g); VBool (gp_BurnVoteQuorum g);
          VBool (gp_BurnProposalDepositPrevote g); VBool (gp_BurnVoteVeto g); VString (gp_MinDepositRatio g)].

Definition gov_GetVotes method args : M pc_state (option bytes) :=
  let! req := lift (ParseVotesArgs args) in
  let! r := on_sdk (gv_Votes req.1 req.2) in
  let! votes := lift (map_res VoteOutput r.1) in
  pack_output p method [VArray votes; VPage r.2].
Definition gov_GetVote method args : M pc_state (option bytes) :=
  let! req := lift (ParseVoteArgs args) in
  let! r := on_sdk (gv_Vote req.1 req.2) in
  let! vote := lift (VoteOutput r) in
  pack_output p method [vote].
Definition gov_GetDeposit method args : M pc_state (option bytes) :=
  let! req := lift (ParseDepositArgs args) in
  let! r := on_sdk (gv_Deposit req.1 req.2) in
  let! deposit := lift (DepositOutput r) in
  pack_output p method [deposit].
Definition gov_GetDeposits method args : M pc_state (option bytes) :=
  let! req := lift (ParseDepositsArgs args) in
  let! r := on_sdk (gv_Deposits req.1 req.2) in
  let! deposits := lift (map_res DepositOutput r.1) in
  pack_output p method [VArray deposits; VPage r.2].
Definition gov_GetTallyResult method args : M pc_state (option bytes) :=
  let! req := lift (ParseTallyResultArgs args) in
  let! r := on_sdk (gv_TallyResult req) in
  pack_output p method [TallyResultOutput r].
Definition gov_GetProposal method args : M pc_state (option bytes) :=
  let! req := lift (ParseProposalArgs args) in
  let! r := on_sdk (gv_Proposal req) in
  let! proposal := lift (ProposalOutput r) in
  pack_output p method [proposal].
Definition gov_GetProposals method args : M pc_state (option bytes) :=
  let! req := lift (ParseProposalsArgs args) in
  let! r := on_sdk (gv_Proposals req.1.1.1 req.1.1.2 req.1.2 req.2) in
  let! proposals := lift (map_res ProposalsOutput r.1) in
  pack_output p method [VArray proposals; VPage r.2].
Definition gov_GetParams method args : M pc_state (option bytes) :=
  do! lift (BuildQueryParamsRequest args);
  let! r := on_sdk gv_Params in
  pack_output p method [ParamsOutput r].
Definition gov_GetConstitution method args : M pc_state (option bytes) :=
  do! lift (BuildQueryConstitutionRequest args);
  let! r := on_sdk gv_Constitution in
  pack_output p method [VString r].

(** * The call ([gov/gov.go]) *)

Definition gov_IsTransaction method : bool :=
  bool_decide (m_Name method ∈ ["vote"; "voteWeighted"; "submitProposal"; "deposit"; "cancelProposal"]).
Definition gov_dispatch contract method args : M pc_state (option bytes) :=
  if decide (m_Name method = "vote") then gov_Vote contract method args
  else if decide (m_Name method = "voteWeighted") then gov_VoteWeighted contract method args
  else if decide (m_Name method = "submitProposal") then gov_SubmitProposal contract method args
  else if decide (m_Name method = "deposit") then gov_Deposit contract method args
  else if decide (m_Name method = "cancelProposal") then gov_CancelProposal contract method args
  else if decide (m_Name method = "getVote") then gov_GetVote method args
  else if decide (m_Name method = "getVotes") then gov_GetVotes method args
  else if decide (m_Name method = "getDeposit") then gov_GetDeposit method args
  else if decide (m_Name method = "getDeposits") then gov_GetDeposits method args
  else if decide (m_Name method = "getTallyResult") then gov_GetTallyResult method args
  else if decide (m_Name method = "getProposal") then gov_GetProposal method args
  else if decide (m_Name method = "getProposals") then gov_GetProposals method args
  else if decide (m_Name method = "getParams") then gov_GetParams method args
  else if decide (m_Name method = "getConstitution") then gov_GetConstitution method args
  else fail ErrOther "unknown method".
Definition gov_RequiredGas (input : bytes) : res Z := sdk_RequiredGas p gov_IsTransaction input.
Definition gov_run (info : EvmCoinInfo) : Z -> Contract -> bool -> M pc_state (option bytes * Z) :=
  sdk_run info p gov_IsTransaction gov_dispatch.
End gov.

(** * Slashing *)

(** The address is the bech32 text of the consensus address. *)
Record ValidatorSigningInfo := mkSigningInfo {
  si_Address : string; si_StartHeight : Z; si_IndexOffset : Z; si_JailedUntil : Z; si_Tombstoned : bool;
  si_MissedBlocksCounter : Z;
}.

Section slashing.
Context `{CoinsLib, AddressCodec, ValCodec, Keccak, StateKeeper, !AbiCopy}.
Class SlashingKeeper := {
  sl_SigningInfo : string -> M sdk_ctx ValidatorSigningInfo;
  sl_SigningInfos : PageRequest -> M sdk_ctx (list ValidatorSigningInfo * option PageResponse);
}.
Context `{!MsgServers, !SlashingKeeper}.
Variable height : Z.
Variable p : Precompile.
Implicit Types (contract : Contract) (method : Method) (args : list abi_value).

Definition EmitValidatorUnjailedEvent (validator : Address) : M pc_state unit :=
  let! t1 := address_topic validator in
  add_log height p "ValidatorUnjailed" [t1] [].
Definition Unjail contract method args : M pc_state (option bytes) :=
  match args with
  | [a0] =>
      let! validatorAddress := lift (as_any_address a0 "invalid validator hex address") in
      do! need_caller contract validatorAddress;
      do! on_sdk (serve (mUnjail (val_bech32_of (address_bytes validatorAddress))));
      do! EmitValidatorUnjailedEvent validatorAddress;
      pack_output p method [VBool true]
  | _ => lift number_of_args
  end.

Definition ParseSigningInfoArgs args : res string :=
  match args with
  | [a0] => let? hexAddr := as_address a0 "invalid consensus address" in Ok (cons_bech32_of (address_bytes hexAddr))
  | _ => number_of_args
  end.
Definition ParseSigningInfosArgs args : res PageRequest :=
  match args with [a0] => copy_page a0 | _ => number_of_args end.
(** [common.BytesToAddress([]byte(info.Address))]: the end of the text. *)
Definition SigningInfoOutput (i : ValidatorSigningInfo) : abi_value :=
  VTuple [VAddress (BytesToAddress (str_bytes (si_Address i))); VInt64 (si_StartHeight i); VInt64 (si_IndexOffset i);
          VInt64 (si_JailedUntil i); VBool (si_Tombstoned i); VInt64 (si_MissedBlocksCounter i)].
Definition GetSigningInfo method args : M pc_state (option bytes) :=
  let! req := lift (ParseSigningInfoArgs args) in
  let! r := on_sdk (sl_SigningInfo req) in
  pack_output p method [SigningInfoOutput r].
Definition GetSigningInfos method args : M pc_state (option bytes) :=
  let! req := lift (ParseSigningInfosArgs args) in
  let! r := on_sdk (sl_SigningInfos req) in
  pack_output p method [VArray (map SigningInfoOutput r.1); VPage r.2].

Definition slashing_IsTransaction method : bool := bool_decide (m_Name method = "unjail").
Definition slashing_dispatch contract method args : M pc_state (option bytes) :=
  if decide (m_Name method = "unjail") then Unjail contract method args
  else if decide (m_Name method = "getSigningInfo") then GetSigningInfo method args
  else if decide (m_Name method = "getSigningInfos") then GetSigningInfos method args
  else fail ErrOther "unknown method".
Definition slashing_RequiredGas (input : bytes) : res Z := sdk_RequiredGas p slashing_IsTransaction input.
Definition slashing_run (info : EvmCoinInfo) : Z -> Contract -> bool -> M pc_state (option bytes * Z) :=
  sdk_run info p slashing_IsTransaction slashing_dispatch.
End slashing.

(** * Evidence *)

(** [strings.ToUpper(hex.EncodeToString(b))] *)
Definition hex_digit (n : Z) : ascii := ascii_of_nat (Z.to_nat (if n <? 10 then 48 + n else 55 + n)).
Fixpoint hex_upper (b : bytes) : string :=
  match b with [] => "" | z :: b => String (hex_digit (z / 16)) (String (hex_digit (z mod 16)) (hex_upper b)) end.

Section evidence.
Context `{CoinsLib, AddressCodec, ValCodec, Keccak, StateKeeper}.
(** An evidence is an [Any], whose cached value need not be an equivocation. *)
Class EvidenceKeeper := {
  ek_Evidence : string -> M sdk_ctx (option Equivocation);
  ek_AllEvidence : PageRequest -> M sdk_ctx (list (option Equivocation) * option PageResponse);
}.
Context `{!MsgServers, !EvidenceKeeper}.
Variable height : Z.
Variable p : Precompile.
Implicit Types (contract : Contract) (method : Method) (args : list abi_value).

(** The second argument has to be of the named type [EquivocationData]. *)
Definition as_equivocation (v : abi_value) : res Equivocation :=
  match v with
  | VStruct "EquivocationData" [VInt64 h; VInt64 t; VInt64 power; VString a] => Ok (mkEquivocation h t power a)
  | _ => bad "invalid equivocation evidence"
  end.
Definition NewMsgSubmitEvidence args : res (MsgSubmitEvidence * Address) :=
  match args with
  | [a0; a1] =>
      let? submitterAddress := as_any_address a0 "invalid submitter address" in
      let? evidence := as_equivocation a1 in
      Ok (mkSubmitEvidence (bech32_of (address_bytes submitterAddress)) evidence, submitterAddress)
  | _ => number_of_args
  end.
Definition EmitSubmitEvidenceEvent (origin : Address) (evidenceHash : bytes) : M pc_state unit :=
  let! t1 := address_topic origin in
  let! packed := pack_event p "SubmitEvidence" [VBytes evidenceHash] in
  add_log height p "SubmitEvidence" [t1] packed.
Definition evidence_SubmitEvidence contract method args : M pc_state (option bytes) :=
  let! ma := lift (NewMsgSubmitEvidence args) in
  do! need_caller contract ma.2;
  let! hash := on_sdk (serve (mSubmitEvidence ma.1)) in
  do! EmitSubmitEvidenceEvent ma.2 hash;
  pack_output p method [VBool true].

Definition VEquivocation (e : Equivocation) : abi_value :=
  VTuple [VInt64 (eq_Height e); VInt64 (eq_Time e); VInt64 (eq_Power e); VString (eq_ConsensusAddress e)].
Definition equivocation_output (e : option Equivocation) : res abi_value :=
  match e with Some e => Ok (VEquivocation e) | None => bad "invalid evidence type: expected Equivocation" end.
Definition evidence_Evidence method args : M pc_state (option bytes) :=
  match args with
  | [a0] =>
      let! evidenceHash := lift (as_bytes a0 "invalid request; hash is empty") in
      let! r := on_sdk (ek_Evidence (hex_upper evidenceHash)) in
      let! evidence := lift (equivocation_output r) in
      pack_output p method [evidence]
  | _ => lift number_of_args
  end.
(** The argument has to be a pointer to a [query.PageRequest]. *)
Definition as_page_pointer (v : abi_value) : res PageRequest :=
  match v with
  | VStruct "*query.PageRequest" [VBytes key; VUint64 offset; VUint64 limit; VBool countTotal; VBool reverse] =>
      Ok (mkPage key offset limit countTotal reverse)
  | _ => bad "invalid page request"
  end.
Definition evidence_GetAllEvidence method args : M pc_state (option bytes) :=
  match args with
  | [a0] =>
      let! pageRequest := lift (as_page_pointer a0) in
      let! r := on_sdk (ek_AllEvidence pageRequest) in
      let! evidenceList := lift (map_res equivocation_output r.1) in
      pack_output p method [VArray evidenceList; VPage r.2]
  | _ => lift number_of_args
  end.

Definition evidence_IsTransaction method : bool := bool_decide (m_Name method = "submitEvidence").
Definition evidence_dispatch contract method args : M pc_state (option bytes) :=
  if decide (m_Name method = "submitEvidence") then evidence_SubmitEvidence contract method args
  else if decide (m_Name method = "evidence") then evidence_Evidence method args
  else if decide (m_Name method = "getAllEvidence") then evidence_GetAllEvidence method args
  else fail ErrOther "unknown method".
Definition evidence_RequiredGas (input : bytes) : res Z := sdk_RequiredGas p evidence_IsTransaction input.
Definition evidence_run (info : EvmCoinInfo) : Z -> Contract -> bool -> M pc_state (option bytes * Z) :=
  sdk_run info p evidence_IsTransaction evidence_dispatch.
End evidence.
