(* ===== verification/PrecompileIcs20.v ===== *)
(** precompiles/ics20: transfers to other chains as a precompiled contract
    ([ics20.go], [tx.go], [types.go], [events.go], [query.go]), over the keeper of
    x/ibc/transfer and the channels of ibc-go. *)
From S2P Require Import Prelude KVStore Sdk EvmConfig StateDB TxData VmKeeper VmGas.
From S2P Require Import Precompile PrecompileErc20 PrecompileSdk PrecompileStaking.

(** A channel of ibc-go, and a denomination with its hops. *)
Record Channel := mkChannel { ch_Open : bool; ch_ConnectionHops : list string }.
Record TransferDenom := mkTransferDenom { td_Base : string; td_Trace : list (string * string) }.

Section ics20.
Context `{CoinsLib, AddressCodec, ValCodec, Keccak, StateKeeper, !AbiCopy}.

Class TransferKeeper := {
  ch_GetChannel : string -> string -> M sdk_ctx (option Channel);
  ch_GetConnection : string -> M sdk_ctx bool;                 (** whether the connection is open *)
  channel_ValidateBasic : Channel -> res unit;
  transfer_ValidateBasic : MsgIbcTransfer -> res unit;
  IsChannelIDFormat : string -> bool;
  ClientIdentifierValidator : string -> res unit;
  tr_Denom : string -> M sdk_ctx TransferDenom;
  tr_Denoms : PageRequest -> M sdk_ctx (list TransferDenom * option PageResponse);
  tr_DenomHash : string -> M sdk_ctx string;
}.
Context `{!MsgServers, !TransferKeeper}.
Variable height : Z.
Variable p : Precompile.
Implicit Types (contract : Contract) (method : Method) (args : list abi_value).

(** * Arguments ([types.go]) *)

Definition CreateAndValidateMsgTransfer (sourcePort sourceChannel : string) (token : coin) (sender receiver : string)
    (timeoutHeight : Z * Z) (timeoutTimestamp : Z) (memo : string) : res MsgIbcTransfer :=
  let msg := mkIbcTransfer sourcePort sourceChannel token sender receiver timeoutHeight timeoutTimestamp memo in
  let? _ := transfer_ValidateBasic msg in Ok msg.
Definition NewMsgTransfer args : res (MsgIbcTransfer * Address) :=
  match args with
  | [a0; a1; a2; a3; a4; a5; a6; a7; a8] =>
      let? sourcePort := as_string a0 "invalid source port" in
      let? sourceChannel := as_string a1 "invalid source port" in
      let? denom := as_string a2 "invalid denom" in
      let? amount := as_big a3 "invalid amount" in
      let? sender := as_any_address a4 "invalid sender" in
      let? receiver := as_string a5 "invalid receiver" in
      let? timeoutHeight := copy_height a6 in
      let? timeoutTimestamp := as_uint64 a7 "invalid timeout timestamp" in
      let? memo := as_string a8 "invalid memo" in
      let? n := int_chk amount in
      let? msg := CreateAndValidateMsgTransfer sourcePort sourceChannel (Coin denom n) (bech32_of (address_bytes sender))
                    receiver timeoutHeight timeoutTimestamp memo in
      Ok (msg, sender)
  | _ => number_of_args
  end.
Definition NewDenomRequest args : res string :=
  match args with [a0] => as_string a0 "invalid hash" | _ => number_of_args end.
Definition NewDenomsRequest args : res PageRequest := match args with [a0] => copy_page a0 | _ => number_of_args end.
Definition NewDenomHashRequest args : res string :=
  match args with [a0] => as_string a0 "invalid trace" | _ => number_of_args end.

(** * Transfer ([tx.go], [events.go]) *)

Definition validateV1TransferChannel (msg : MsgIbcTransfer) : M pc_state unit :=
  do! lift (transfer_ValidateBasic msg);
  let! channel := on_sdk (ch_GetChannel (it_SourcePort msg) (it_SourceChannel msg)) in
  match channel with
  | None => fail ErrOther "channel not found"
  | Some channel =>
      do! lift (channel_ValidateBasic channel);
      if negb (ch_Open channel) then fail ErrOther "channel is not open"
      else
        match ch_ConnectionHops channel with
        | [] => panic "index out of range"
        | hop :: _ =>
            let! connection_open := on_sdk (ch_GetConnection hop) in
            if negb connection_open then fail ErrOther "connection is not open" else ret tt
        end
  end.
Definition EmitIBCTransferEvent (sender : Address) (receiver sourcePort sourceChannel : string) (token : coin)
    (memo : string) : M pc_state unit :=
  let! t1 := address_topic sender in
  let! t2 := lift (MakeTopic (TText (str_bytes receiver))) in
  let! packed := pack_event p "IBCTransfer"
    [VString sourcePort; VString sourceChannel; VString (c_denom token); VBig (c_amt token); VString memo] in
  add_log height p "IBCTransfer" [t1; t2] packed.
Definition ics20_Transfer contract method args : M pc_state (option bytes) :=
  let! ma := lift (NewMsgTransfer args) in
  let msg := ma.1 in
  do! (if IsChannelIDFormat (it_SourceChannel msg) then validateV1TransferChannel msg
       else match ClientIdentifierValidator (it_SourceChannel msg) with
            | Err _ => fail ErrOther "invalid channel ID on v2 packet"
            | r => lift r
            end);
  do! need_caller contract ma.2;
  let! sequence := on_sdk (serve (mTransfer msg)) in
  do! EmitIBCTransferEvent ma.2 (it_Receiver msg) (it_SourcePort msg) (it_SourceChannel msg) (it_Token msg) (it_Memo msg);
  pack_output p method [VUint64 sequence].
(** Not called by the contract. *)
Definition CheckOriginAndSender contract (origin sender : Address) : res Address :=
  if decide (ct_Caller contract = sender) then Ok sender
  else if negb (origin =? sender) then bad "origin address is not the same as sender address"
  else Ok sender.

(** * Queries ([query.go]) *)

Definition VDenom (d : TransferDenom) : abi_value :=
  VTuple [VString (td_Base d); VArray (map (fun h => VTuple [VString h.1; VString h.2]) (td_Trace d))].
Definition denom_not_found : string := "denomination not found".
Definition ics20_Denom method args : M pc_state (option bytes) :=
  let! req := lift (NewDenomRequest args) in
  or_not_found denom_not_found (on_sdk (tr_Denom req))
    (pack_output p method [VDenom (mkTransferDenom "" [])])
    (fun r => pack_output p method [VDenom r]).
Definition ics20_Denoms method args : M pc_state (option bytes) :=
  let! req := lift (NewDenomsRequest args) in
  let! r := on_sdk (tr_Denoms req) in
  pack_output p method [VArray (map VDenom r.1); VPage r.2].
Definition ics20_DenomHash method args : M pc_state (option bytes) :=
  let! req := lift (NewDenomHashRequest args) in
  or_not_found denom_not_found (on_sdk (tr_DenomHash req))
    (pack_output p method [VString ""])
    (fun r => pack_output p method [VString r]).

(** * The call ([ics20.go]) *)

Definition ics20_IsTransaction method : bool := bool_decide (m_Name method = "transfer").
Definition ics20_dispatch contract method args : M pc_state (option bytes) :=
  if decide (m_Name method = "transfer") then ics20_Transfer contract method args
  else if decide (m_Name method = "denom") then ics20_Denom method args
  else if decide (m_Name method = "denoms") then ics20_Denoms method args
  else if decide (m_Name method = "denomHash") then ics20_DenomHash method args
  else fail ErrOther "unknown method".
Definition ics20_RequiredGas (input : bytes) : res Z := sdk_RequiredGas p ics20_IsTransaction input.
Definition ics20_run (info : EvmCoinInfo) : Z -> Contract -> bool -> M pc_state (option bytes * Z) :=
  sdk_run info p ics20_IsTransaction ics20_dispatch.
End ics20.
