(* ===== verification/PrecompileSdkThms.v ===== *)
(** The contracts over staking, distribution, governance, slashing, evidence and
    ICS-20: a message reaches its module only in the name of the caller; a call is
    journalled, so the EVM can undo it; the balances of the state database follow
    the bank events of the call; what claiming rewards does; and the methods that
    cannot answer. *)
From S2P Require Import Prelude KVStore Sdk EvmConfig StateDB TxData VmKeeper VmGas.
From S2P Require Import StateDBInv StateDBRun StateDBOps StateDBMachine StateDBThms VmKeeperThms.
From S2P Require Import Precompile PrecompileThms PrecompileErc20 PrecompileErc20Thms.
From S2P Require Import PrecompileSdk PrecompileStaking PrecompileDistr PrecompileGov PrecompileIcs20.
Import Meter.

(** The six contracts as one. *)
Inductive sdk_contract := StakingContract | DistributionContract | GovContract | SlashingContract | EvidenceContract | Ics20Contract.

Section contracts.
Context `{CoinsLib, AddressCodec, ValCodec, Keccak, EthHex, StateKeeper, !AbiCopy}.
Context `{!StakingKeeper, !DistributionQuerier, !GovKeeper, !SlashingKeeper, !EvidenceKeeper, !TransferKeeper}.
Variable info : EvmCoinInfo.
Variable height : Z.
Variable p : Precompile.
Implicit Types (contract : Contract) (method : Method) (args : list abi_value).

Definition contract_dispatch `{servers : !MsgServers} (c : sdk_contract) contract method args : M pc_state (option bytes) :=
  match c with
  | StakingContract => staking_dispatch height p contract method args
  | DistributionContract => distr_dispatch height p contract method args
  | GovContract => gov_dispatch height p contract method args
  | SlashingContract => slashing_dispatch height p contract method args
  | EvidenceContract => evidence_dispatch height p contract method args
  | Ics20Contract => ics20_dispatch height p contract method args
  end.
Definition contract_IsTransaction (c : sdk_contract) : Method -> bool :=
  match c with
  | StakingContract => staking_IsTransaction
  | DistributionContract => distr_IsTransaction
  | GovContract => gov_IsTransaction
  | SlashingContract => slashing_IsTransaction
  | EvidenceContract => evidence_IsTransaction
  | Ics20Contract => ics20_IsTransaction
  end.
Definition contract_run `{servers : !MsgServers} (c : sdk_contract) : Z -> Contract -> bool -> M pc_state (option bytes * Z) :=
  match c with
  | StakingContract => staking_run height p info
  | DistributionContract => distr_run height p info
  | GovContract => gov_run height p info
  | SlashingContract => slashing_run height p info
  | EvidenceContract => evidence_run height p info
  | Ics20Contract => ics20_run height p info
  end.
Lemma contract_run_is `{servers : !MsgServers} c : contract_run c = sdk_run info p (contract_IsTransaction c) (contract_dispatch c).
Proof. by destruct c. Qed.

(** * In whose name *)

Definition acts_for (who : Address) (m : sdk_msg) : Prop :=
  match signer m with Some a => BytesToAddress a = who | None => True end.
#[export] Instance acts_for_dec who m : Decision (acts_for who m).
Proof. unfold acts_for. destruct (signer m); apply _. Defined.
(** Servers that refuse the messages of others. *)
Definition guarded (who : Address) (SV : MsgServers) : MsgServers :=
  {| serve m := if decide (acts_for who m) then @serve _ SV m else panic "a message of another account" |}.

Context `{!AddressLaws, !ValLaws}.

Lemma address_text a : address_ok a ->
  acc_of_bech32 (bech32_of (address_bytes a)) = Some (address_bytes a) /\
  val_of_bech32 (val_bech32_of (address_bytes a)) = Some (address_bytes a).
Proof.
  intros Ha. split; [apply bech32_roundtrip|apply val_roundtrip]; try apply be_bytes;
    intros E; apply (f_equal length) in E; unfold address_bytes in E; by rewrite be_length in E.
Qed.
Lemma acts_signed a m : address_ok a -> signer m = Some (address_bytes a) -> acts_for a m.
Proof. intros Ha Hs. unfold acts_for. rewrite Hs. by apply address_roundtrip. Qed.
Ltac acts_as := intros Hm ?; repeat (run_inv || (case_match; try discriminate Hm)); simplify_eq/=;
  (apply acts_signed; [done|]; by apply address_text).

Lemma acts_CreateValidator args d ma : NewMsgCreateValidator args d = Ok ma -> address_ok ma.2 -> acts_for ma.2 (mCreateValidator ma.1).
Proof. unfold NewMsgCreateValidator. acts_as. Qed.
Lemma acts_EditValidator args ma : NewMsgEditValidator args = Ok ma -> address_ok ma.2 -> acts_for ma.2 (mEditValidator ma.1).
Proof. unfold NewMsgEditValidator. acts_as. Qed.
Lemma acts_Delegate args d ma : NewMsgDelegate args d = Ok ma -> address_ok ma.2 -> acts_for ma.2 (mDelegate ma.1).
Proof. unfold NewMsgDelegate. acts_as. Qed.
Lemma acts_Undelegate args d ma : NewMsgUndelegate args d = Ok ma -> address_ok ma.2 -> acts_for ma.2 (mUndelegate ma.1).
Proof. unfold NewMsgUndelegate. acts_as. Qed.
Lemma acts_Redelegate args d ma : NewMsgRedelegate args d = Ok ma -> address_ok ma.2 -> acts_for ma.2 (mBeginRedelegate ma.1).
Proof. unfold NewMsgRedelegate. acts_as. Qed.
Lemma acts_CancelUnbonding args d ma : NewMsgCancelUnbondingDelegation args d = Ok ma -> address_ok ma.2 ->
  acts_for ma.2 (mCancelUnbondingDelegation ma.1).
Proof. unfold NewMsgCancelUnbondingDelegation. acts_as. Qed.
Lemma acts_SetWithdraw args ma : NewMsgSetWithdrawAddress args = Ok ma -> address_ok ma.2 -> acts_for ma.2 (mSetWithdrawAddress ma.1).
Proof. unfold NewMsgSetWithdrawAddress. acts_as. Qed.
Lemma acts_WithdrawReward args ma : NewMsgWithdrawDelegatorReward args = Ok ma -> address_ok ma.2 ->
  acts_for ma.2 (mWithdrawDelegatorReward ma.1).
Proof. unfold NewMsgWithdrawDelegatorReward. acts_as. Qed.
Lemma acts_FundPool args ma : NewMsgFundCommunityPool args = Ok ma -> address_ok ma.2 -> acts_for ma.2 (mFundCommunityPool ma.1).
Proof. unfold NewMsgFundCommunityPool. acts_as. Qed.
Lemma acts_DepositRewards args ma : NewMsgDepositValidatorRewardsPool args = Ok ma -> address_ok ma.2 ->
  acts_for ma.2 (mDepositValidatorRewardsPool ma.1).
Proof. unfold NewMsgDepositValidatorRewardsPool. acts_as. Qed.
Lemma acts_SubmitProposal args ma : NewMsgSubmitProposal args = Ok ma -> address_ok ma.2 -> acts_for ma.2 (mSubmitProposal ma.1).
Proof. unfold NewMsgSubmitProposal. acts_as. Qed.
Lemma acts_Deposit args ma : NewMsgDeposit args = Ok ma -> address_ok ma.2 -> acts_for ma.2 (mDeposit ma.1).
Proof. unfold NewMsgDeposit. acts_as. Qed.
Lemma acts_CancelProposal args ma : NewMsgCancelProposal args = Ok ma -> address_ok ma.2 -> acts_for ma.2 (mCancelProposal ma.1).
Proof. unfold NewMsgCancelProposal. acts_as. Qed.
Lemma acts_Vote args ma : NewMsgVote args = Ok ma -> address_ok ma.2 -> acts_for ma.2 (mVote ma.1).
Proof. unfold NewMsgVote. acts_as. Qed.
Lemma acts_VoteWeighted args ma : NewMsgVoteWeighted args = Ok ma -> address_ok ma.1.2 -> acts_for ma.1.2 (mVoteWeighted ma.1.1).
Proof. unfold NewMsgVoteWeighted. acts_as. Qed.
Lemma acts_SubmitEvidence args ma : NewMsgSubmitEvidence args = Ok ma -> address_ok ma.2 -> acts_for ma.2 (mSubmitEvidence ma.1).
Proof. unfold NewMsgSubmitEvidence. acts_as. Qed.
Lemma acts_Transfer args ma : NewMsgTransfer args = Ok ma -> address_ok ma.2 -> acts_for ma.2 (mTransfer ma.1).
Proof. unfold NewMsgTransfer, CreateAndValidateMsgTransfer. acts_as. Qed.
(** The text is a validator's, or an account's that no validator has. *)
Lemma acts_WithdrawCommission args ma : NewMsgWithdrawValidatorCommission args = Ok ma ->
  acts_for ma.2 (mWithdrawValidatorCommission ma.1).
Proof.
  unfold NewMsgWithdrawValidatorCommission, HexAddressFromBech32String, from_bech32, rbind. intros Hm.
  unfold acts_for. cbn [signer]. repeat (case_match; simplify_eq/=; try done).
  match goal with E : acc_of_bech32 _ = Some _ |- _ => rewrite val_not_acc in * by (by rewrite E) end. done.
Qed.

Lemma bind_cong {T A B} (m m' : M T A) (f f' : A -> M T B) x :
  m x = m' x -> (forall y x', m' x = (Ok y, x') -> f y x' = f' y x') -> bind m f x = bind m' f' x.
Proof. intros Hm Hf. unfold bind. rewrite Hm. destruct (m' x) as [[y|e|q] x'] eqn:E; auto. Qed.
Lemma need_caller_ok contract a s u s' : need_caller contract a s = (Ok u, s') -> ct_Caller contract = a.
Proof. unfold need_caller. by case_decide. Qed.
Lemma serve_guarded who SV m s : acts_for who m -> on_sdk (@serve _ (guarded who SV) m) s = on_sdk (@serve _ SV m) s.
Proof. intros Ha. unfold on_sdk, guarded. cbn [serve]. by rewrite decide_True. Qed.

Section guard.
Variable SV : MsgServers.
Variable contract : Contract.
Hypothesis Hcaller : address_ok (ct_Caller contract).
(** The servers and the guarded servers cannot be told apart. *)
Definition same {A} (f : MsgServers -> M pc_state A) : Prop := forall s, f (guarded (ct_Caller contract) SV) s = f SV s.

(** A method that makes a message, checks the caller against the account it names
    and hands the message to its server. *)
Ltac same_until_serve lem :=
  intros ?; cbv beta;
  repeat (apply bind_cong; [reflexivity|intros ? ? ?]);
  apply bind_cong; [apply serve_guarded|reflexivity];
  match goal with
  | E : need_caller _ _ _ = (Ok _, _), L : lift _ _ = (Ok _, _) |- _ =>
      apply need_caller_ok in E; rewrite E in *; unfold lift in L; simplify_eq/=; eapply lem; eassumption
  end.

Lemma CreateValidator_guarded method args : same (fun _ => staking_CreateValidator height p contract method args).
Proof. same_until_serve acts_CreateValidator. Qed.
Lemma EditValidator_guarded method args : same (fun _ => staking_EditValidator height p contract method args).
Proof. same_until_serve acts_EditValidator. Qed.
Lemma Delegate_guarded method args : same (fun _ => staking_Delegate height p contract method args).
Proof. same_until_serve acts_Delegate. Qed.
Lemma Undelegate_guarded method args : same (fun _ => staking_Undelegate height p contract method args).
Proof. same_until_serve acts_Undelegate. Qed.
Lemma Redelegate_guarded method args : same (fun _ => staking_Redelegate height p contract method args).
Proof. same_until_serve acts_Redelegate. Qed.
Lemma CancelUnbonding_guarded method args : same (fun _ => staking_CancelUnbondingDelegation height p contract method args).
Proof. same_until_serve acts_CancelUnbonding. Qed.
Lemma SetWithdraw_guarded method args : same (fun _ => distr_SetWithdrawAddress height p contract method args).
Proof. same_until_serve acts_SetWithdraw. Qed.
Lemma WithdrawReward_guarded method args : same (fun _ => distr_WithdrawDelegatorReward height p contract method args).
Proof. same_until_serve acts_WithdrawReward. Qed.
Lemma WithdrawCommission_guarded method args : same (fun _ => distr_WithdrawValidatorCommission height p contract method args).
Proof. same_until_serve acts_WithdrawCommission. Qed.
Lemma FundPool_guarded method args : same (fun _ => distr_FundCommunityPool height p contract method args).
Proof. same_until_serve acts_FundPool. Qed.
Lemma DepositRewards_guarded method args : same (fun _ => distr_DepositValidatorRewardsPool height p contract method args).
Proof. same_until_serve acts_DepositRewards. Qed.
Lemma SubmitProposal_guarded method args : same (fun _ => gov_SubmitProposal height p contract method args).
Proof. same_until_serve acts_SubmitProposal. Qed.
Lemma Deposit_guarded method args : same (fun _ => gov_Deposit height p contract method args).
Proof. same_until_serve acts_Deposit. Qed.
Lemma CancelProposal_guarded method args : same (fun _ => gov_CancelProposal height p contract method args).
Proof. same_until_serve acts_CancelProposal. Qed.
Lemma Vote_guarded method args : same (fun _ => gov_Vote height p contract method args).
Proof. same_until_serve acts_Vote. Qed.
Lemma VoteWeighted_guarded method args : same (fun _ => gov_VoteWeighted height p contract method args).
Proof. same_until_serve acts_VoteWeighted. Qed.
Lemma SubmitEvidence_guarded method args : same (fun _ => evidence_SubmitEvidence height p contract method args).
Proof. same_until_serve acts_SubmitEvidence. Qed.
Lemma Transfer_guarded method args : same (fun _ => ics20_Transfer height p contract method args).
Proof. same_until_serve acts_Transfer. Qed.
Lemma claim_each_guarded d operators total : address_ok d -> ct_Caller contract = d ->
  same (fun _ => claim_each (address_bytes d) operators total).
Proof.
  intros Hd <-. revert total. induction operators as [|o operators IH]; intros total s; [done|]. cbn [claim_each].
  apply bind_cong; [done|]. intros val s1 _. apply bind_cong; [by apply serve_guarded, acts_signed|]. intros cs s2 _.
  apply bind_cong; [done|]. intros t s3 _. apply IH.
Qed.
Lemma ClaimRewards_guarded method args : same (fun _ => distr_ClaimRewards height p contract method args).
Proof.
  intros s. unfold distr_ClaimRewards. do 2 (apply bind_cong; [done|intros ? ? _]). case_match; [done|].
  apply bind_cong; [done|]. intros u s3 E%need_caller_ok. apply bind_cong; [done|]. intros ops s4 _.
  apply bind_cong; [apply claim_each_guarded; [by rewrite <- E|done]|done].
Qed.
Lemma Unjail_guarded method args : same (fun _ => Unjail height p contract method args).
Proof.
  intros s. unfold Unjail. destruct args as [|a0 [|a1 args]]; [done| |done]. apply bind_cong; [done|]. intros v s1 _.
  apply bind_cong; [done|]. intros u s2 E%need_caller_ok. apply bind_cong; [|done]. apply serve_guarded. rewrite E in *.
  apply acts_signed; [done|]. by apply address_text.
Qed.
Lemma dispatch_guarded c method args : same (fun _ => contract_dispatch c contract method args).
Proof.
  destruct c; cbn [contract_dispatch];
    unfold staking_dispatch, distr_dispatch, gov_dispatch, slashing_dispatch, evidence_dispatch, ics20_dispatch;
    repeat (case_decide; [first [apply CreateValidator_guarded|apply EditValidator_guarded|apply Delegate_guarded|
      apply Undelegate_guarded|apply Redelegate_guarded|apply CancelUnbonding_guarded|apply ClaimRewards_guarded|
      apply SetWithdraw_guarded|apply WithdrawReward_guarded|apply WithdrawCommission_guarded|apply FundPool_guarded|
      apply DepositRewards_guarded|apply SubmitProposal_guarded|apply Deposit_guarded|apply CancelProposal_guarded|
      apply Vote_guarded|apply VoteWeighted_guarded|apply Unjail_guarded|apply SubmitEvidence_guarded|
      apply Transfer_guarded|intros ?; reflexivity]|]); intros s0; reflexivity.
Qed.

(** C8.  A contract over a module of the SDK acts for its caller only: of the
    messages it hands to the servers of staking, distribution, governance, slashing,
    evidence and ICS-20, none is signed by an account other than the one that
    called it (for the validator of a commission, by the last twenty bytes of its
    address), whatever the input, the state and the servers are.  Servers that
    refuse the messages of anybody else cannot be told from the servers. *)
Theorem messages_act_for_caller c gas readOnly s :
  contract_run (servers := guarded (ct_Caller contract) SV) c gas contract readOnly s =
  contract_run (servers := SV) c gas contract readOnly s.
Proof.
  rewrite !contract_run_is. unfold sdk_run. do 2 (apply bind_cong; [done|intros ? ? _]).
  apply bind_cong; [apply dispatch_guarded|done].
Qed.
End guard.
End contracts.

(** * Undoing a call *)

Section journal.
Context `{CoinsLib, AddressCodec, ValCodec, Keccak, EthHex, StateKeeper, !AbiCopy}.
Context `{!MsgServers, !StakingKeeper, !DistributionQuerier, !GovKeeper, !SlashingKeeper, !EvidenceKeeper, !TransferKeeper}.
Variable info : EvmCoinInfo.
Variable height : Z.
Variable p : Precompile.
Implicit Types (contract : Contract) (method : Method) (args : list abi_value).

Lemma wrote_sdk {A} (m : M sdk_ctx A) : wrote (on_sdk m).
Proof. intros s r s' _. unfold on_sdk. destruct (m _) as [x c]. intros [= _ <-]. by exists (sc_store c), (sc_events c). Qed.
Lemma wrote_panic {A} msg : wrote (@panic pc_state A msg).
Proof. apply wrote_none. by intros s y s' [= _ <-]. Qed.
Lemma wrote_need contract a : wrote (need_caller contract a).
Proof. unfold need_caller. case_decide; [apply wrote_ret|apply wrote_fail]. Qed.
Hint Resolve wrote_lift wrote_ret wrote_fail wrote_gets wrote_sdk wrote_panic wrote_need : guru.
Lemma wrote_each {A} (f : A -> M pc_state unit) l : (forall x, wrote (f x)) -> wrote (each f l).
Proof. intros Hf. induction l as [|x l IH]; [apply wrote_ret|]. by apply wrote_bind. Qed.
Lemma journalled_each {A} (f : A -> M pc_state unit) l : (forall x, journalled (f x)) -> journalled (each f l).
Proof. intros Hf. induction l as [|x l IH]; [apply journalled_ret|]. by apply journalled_bind. Qed.
Lemma wrote_not_found {A} text (m : M pc_state A) k f : wrote m -> wrote k -> (forall x, wrote (f x)) -> wrote (or_not_found text m k f).
Proof.
  intros Hm Hk Hf s r s' Hc. unfold or_not_found. destruct (m s) as [[x|e|q] s1] eqn:E; destruct (Hm _ _ _ Hc E) as (v & evs & Hv).
  - intros Hr. destruct (Hf x s1 r s') as (w & es & Hw); [rewrite Hv; by apply wr_view|done|].
    exists w, (evs ++ es). by rewrite Hw, Hv, wr_again.
  - case_match; intros Hr; [|injection Hr as _ <-; eauto].
    destruct (Hk s1 r s') as (w & es & Hw); [rewrite Hv; by apply wr_view|done|].
    exists w, (evs ++ es). by rewrite Hw, Hv, wr_again.
  - intros [= _ <-]. eauto.
Qed.

(** A reading of the database does not depend on what the call wrote. *)
Definition quiet {A} (m : M pc_state A) : Prop := journalled m /\ forall v evs s,
  cached (pc_db s) -> m (PCS (wr v evs (pc_db s)) (pc_gas s)) = ((m s).1, PCS (wr v evs (pc_db (m s).2)) (pc_gas (m s).2)) /\ cached (pc_db (m s).2).
Lemma two_quiet {A B} (m : M pc_state A) (f : A -> M pc_state B) :
  quiet m -> (forall x, two_phase (f x)) -> two_phase (bind m f).
Proof.
  intros [Hj Hq] Hf s r s' Hc Hr Hp. unfold bind in Hr. destruct (m s) as [[x|e|q] s1] eqn:E; [| |by injection Hr as <- _].
  - destruct (Hq (ctx_of s) [] s Hc) as [_ Hc1]. rewrite E in Hc1. cbn in Hc1.
    destruct (Hf x s1 r s' Hc1 Hr Hp) as (v & evs & Hv). exists v, evs. intros Hw.
    destruct (Hq v evs s Hc) as [Hm _]. rewrite E in Hm. cbn in Hm.
    pose proof (Hj (PCS (wr v evs (pc_db s)) (pc_gas s)) _ _ Hw Hm eq_refl) as Hst. cbn in Hst.
    etrans; [exact Hst|]. apply Hv. by eapply jsteps_wf.
  - injection Hr as <- <-. exists (ctx_of s), []. unfold ctx_of. rewrite wr_id by done. intros Hw. by eapply Hj.
Qed.

Lemma GetCode_with_cache a c s :
  GetCode a (with_cache c s) = ((GetCode a s).1, with_cache c (GetCode a s).2) /\ cacheCtx (GetCode a s).2 = cacheCtx s.
Proof.
  unfold GetCode, getStateObject, object_Code, update, bind, gets, lift, ret, setStateObject, modify. simpl.
  destruct (stateObjects s !! a) as [o|] eqn:E; simpl.
  - destruct (code o); [done|]. by destruct (IsEmptyCodeHash (codehash o)).
  - destruct (k_GetAccount (ctx s) a) as [q|[acct|]] eqn:Ek; simpl; [done| |done].
    by destruct (IsEmptyCodeHash (default EmptyCodeHash (CodeHash acct))).
Qed.
Lemma GetCode_quiet a : quiet (on_db (GetCode a)).
Proof.
  split.
  - apply journalled_db; [apply GetCode_steps|]. intros d e d' _. unfold GetCode, getStateObject, object_Code, update, bind, gets, lift, ret, setStateObject, modify.
    repeat (case_match; simplify_eq/=; try done).
  - intros v evs s Hc. unfold on_db, zoom. cbn [pc_db pc_gas].
    destruct (GetCode_with_cache a (cacheCtx (wr v evs (pc_db s))) (pc_db s)) as [E1 E2].
    assert (forall d, cacheCtx d = cacheCtx (pc_db s) -> wr v evs d = with_cache (cacheCtx (wr v evs (pc_db s))) d) as Hwr.
    { intros d Hd. unfold wr, emit_cache, set_cache_view. cbn [with_cache cacheCtx]. by rewrite Hd. }
    rewrite (Hwr (pc_db s)) by done. rewrite E1. destruct (GetCode a (pc_db s)) as [r d] eqn:Eg. cbn in *.
    split; [by rewrite (Hwr d)|]. destruct Hc as (L & x & es & Hc). exists L, x, es. congruence.
Qed.

(** * The methods in two phases *)

Lemma wrote_topic a : wrote (address_topic a).
Proof. apply wrote_lift. Qed.
Lemma wrote_event name l : wrote (pack_event p name l).
Proof. apply wrote_lift. Qed.
Lemma wrote_val t : wrote (val_address t).
Proof. apply wrote_lift. Qed.
Lemma wrote_output method l : wrote (pack_output p method l).
Proof. apply wrote_bind; eauto with guru. Qed.
Lemma journalled_output method l : journalled (pack_output p method l).
Proof. apply journalled_bind; eauto with guru. Qed.
Lemma journalled_log name topics data : journalled (add_log height p name topics data).
Proof. unfold add_log. eauto with guru. Qed.
Lemma two_log name topics data : two_phase (add_log height p name topics data).
Proof. apply journalled_two, journalled_log. Qed.
Lemma two_output method l : two_phase (pack_output p method l).
Proof. apply wrote_two, wrote_output. Qed.
Hint Resolve two_output wrote_topic wrote_event wrote_val wrote_output journalled_output journalled_log two_log wrote_not_found wrote_bind wrote_each : guru.

Lemma wrote_topics a b : wrote (createStakingTxTopics a b).
Proof. do 2 (apply wrote_bind; [eauto with guru|intros ?]). eauto with guru. Qed.
Lemma wrote_edit_topics a : wrote (createEditValidatorTxTopics a).
Proof. apply wrote_bind; eauto with guru. Qed.
Lemma wrote_first cs : wrote (first_amount cs).
Proof. destruct cs; eauto with guru. Qed.
Lemma wrote_claim d operators total : wrote (claim_each d operators total).
Proof.
  revert total. induction operators as [|o operators IH]; intros total; [eauto with guru|]. cbn [claim_each].
  do 3 (apply wrote_bind; [eauto with guru|intros ?]). apply IH.
Qed.
Lemma wrote_dec_coins l : wrote (dec_coins_output l).
Proof. apply wrote_bind; eauto with guru. Qed.
Lemma wrote_total_rewards l : wrote (total_rewards_output l).
Proof.
  induction l as [|[v r] l IH]; [apply wrote_ret|]. cbn [total_rewards_output].
  apply wrote_bind; [apply wrote_dec_coins|intros ?]. apply wrote_bind; eauto with guru.
Qed.
Lemma wrote_channel msg : wrote (validateV1TransferChannel msg).
Proof.
  do 2 (apply wrote_bind; [eauto with guru|intros ?]). case_match; [|eauto with guru].
  apply wrote_bind; [eauto with guru|intros ?]. repeat case_match; eauto with guru.
  apply wrote_bind; [eauto with guru|intros ?]. case_match; eauto with guru.
Qed.
Hint Resolve wrote_topics wrote_edit_topics wrote_first wrote_claim wrote_dec_coins wrote_total_rewards wrote_channel : guru.
Lemma two_refuse {B} contract (f : unit -> M pc_state B) : (forall u, two_phase (f u)) -> two_phase (bind (refuse_contracts contract) f).
Proof.
  intros Hf. unfold refuse_contracts. intros s r s'. rewrite bind_assoc. revert s r s'. apply two_quiet; [apply GetCode_quiet|].
  intros [c|]; [|exact (Hf tt)]. apply two_after; eauto with guru.
Qed.

(** A method: what it writes, its log, its output. *)
Ltac two_phases :=
  repeat first
    [ apply two_refuse; intros ?
    | apply two_after; [by eauto with guru|intros ?]
    | apply two_then; [|intros ?; by eauto with guru] ];
  repeat first [apply two_after; [by eauto with guru|intros ?]];
  first [by eauto with guru|apply wrote_two; by eauto with guru|idtac].

Lemma staking_two contract method args : two_phase (staking_dispatch height p contract method args).
Proof.
  unfold staking_dispatch. repeat case_decide;
    unfold staking_CreateValidator, staking_EditValidator, staking_Delegate, staking_Undelegate, staking_Redelegate,
      staking_CancelUnbondingDelegation, staking_Delegation, staking_UnbondingDelegation, staking_Validator,
      staking_Validators, staking_Redelegation, staking_Redelegations, EmitCreateValidatorEvent, EmitEditValidatorEvent,
      EmitDelegateEvent, EmitUnbondEvent, EmitRedelegateEvent, EmitCancelUnbondingDelegationEvent;
    try (apply wrote_two; by eauto 10 with guru); two_phases.
Qed.
Lemma two_each {A} (f : A -> M pc_state unit) l : (forall x, journalled (f x)) -> two_phase (each f l).
Proof. intros Hf. by apply journalled_two, journalled_each. Qed.
Lemma distr_two contract method args : two_phase (distr_dispatch height p contract method args).
Proof.
  unfold distr_dispatch. repeat case_decide;
    unfold distr_ClaimRewards, distr_SetWithdrawAddress, distr_WithdrawDelegatorReward, distr_WithdrawValidatorCommission,
      distr_FundCommunityPool, distr_DepositValidatorRewardsPool, distr_ValidatorDistributionInfo,
      distr_ValidatorOutstandingRewards, distr_ValidatorCommission, distr_ValidatorSlashes, distr_DelegationRewards,
      distr_DelegationTotalRewards, distr_DelegatorValidators, distr_DelegatorWithdrawAddress, distr_CommunityPool,
      EmitClaimRewardsEvent, EmitSetWithdrawAddressEvent, EmitWithdrawDelegatorRewardEvent,
      EmitWithdrawValidatorCommissionEvent, EmitFundCommunityPoolEvent, EmitDepositValidatorRewardsPoolEvent;
    try (apply wrote_two; by eauto 10 with guru); cbv zeta; two_phases.
  - case_match; [apply wrote_two; eauto with guru|]. two_phases.
  - apply two_each. intros c. repeat (apply journalled_bind; [unfold address_topic, pack_event; eauto with guru|intros ?]). eauto with guru.
  - apply two_each. intros c. repeat (apply journalled_bind; [unfold address_topic, pack_event; eauto with guru|intros ?]). eauto with guru.
Qed.
Lemma gov_two contract method args : two_phase (gov_dispatch height p contract method args).
Proof.
  unfold gov_dispatch. repeat case_decide;
    unfold gov_Vote, gov_VoteWeighted, gov_SubmitProposal, gov_Deposit, gov_CancelProposal, gov_GetVote, gov_GetVotes,
      gov_GetDeposit, gov_GetDeposits, gov_GetTallyResult, gov_GetProposal, gov_GetProposals, gov_GetParams,
      gov_GetConstitution, EmitSubmitProposalEvent, EmitCancelProposalEvent, gov_EmitDepositEvent, EmitVoteEvent,
      EmitVoteWeightedEvent, emit_gov;
    try (apply wrote_two; by eauto 10 with guru); two_phases.
Qed.
Lemma slashing_two contract method args : two_phase (slashing_dispatch height p contract method args).
Proof.
  unfold slashing_dispatch. repeat case_decide; unfold Unjail, GetSigningInfo, GetSigningInfos, EmitValidatorUnjailedEvent;
    try (apply wrote_two; by eauto 10 with guru).
  destruct args as [|a0 [|a1 args]]; [apply wrote_two; eauto with guru| |apply wrote_two; eauto with guru]. two_phases.
Qed.
Lemma evidence_two contract method args : two_phase (evidence_dispatch height p contract method args).
Proof.
  unfold evidence_dispatch. repeat case_decide;
    unfold evidence_SubmitEvidence, evidence_Evidence, evidence_GetAllEvidence, EmitSubmitEvidenceEvent;
    try (apply wrote_two; by eauto 10 with guru); [two_phases|..];
    (destruct args as [|a0 [|a1 args]]; [apply wrote_two; eauto with guru|two_phases|apply wrote_two; eauto with guru]).
Qed.
Lemma ics20_two contract method args : two_phase (ics20_dispatch height p contract method args).
Proof.
  unfold ics20_dispatch. repeat case_decide; unfold ics20_Transfer, ics20_Denom, ics20_Denoms, ics20_DenomHash, EmitIBCTransferEvent;
    try (apply wrote_two; by eauto 10 with guru).
  apply two_after; [eauto with guru|intros ?]. cbv zeta. apply two_after; [|intros ?; two_phases].
  case_match; [eauto with guru|]. case_match; eauto with guru.
Qed.
Lemma dispatch_two c contract method args : two_phase (contract_dispatch height p c contract method args).
Proof.
  destruct c; [apply staking_two|apply distr_two|apply gov_two|apply slashing_two|apply evidence_two|apply ics20_two].
Qed.

(** * The whole call *)

Lemma journalled_ext {A} (m m' : M pc_state A) : (forall s, m s = m' s) -> journalled m -> journalled m'.
Proof. intros E Hm s r s' Hw Hr. rewrite <- E in Hr. by apply (Hm s r s'). Qed.
Lemma on_db_bind {A B} (m : M StateDB A) (f : A -> M StateDB B) s :
  on_db (bind m f) s = bind (on_db m) (fun x => on_db (f x)) s.
Proof. unfold on_db, zoom, bind. destruct (m (pc_db s)) as [[x|e|q] d]; [|done|done]. cbn. by destruct (f x d). Qed.
Lemma journalled_db_bind {A B} (m : M StateDB A) (f : A -> M StateDB B) :
  journalled (on_db m) -> (forall x, journalled (on_db (f x))) -> journalled (on_db (bind m f)).
Proof. intros Hm Hf. eapply journalled_ext; [intros s; symmetry; apply on_db_bind|]. by apply journalled_bind. Qed.
Lemma journalled_db_lift {A} (r : res A) : journalled (on_db (lift r)).
Proof. apply journalled_none. by intros s x s' [= _ <-]. Qed.
Lemma journalled_event ev : journalled (on_db (apply_event info ev)).
Proof.
  unfold apply_event. repeat case_decide; [..|apply (journalled_db_lift (Ok tt))];
    do 2 (apply journalled_db_bind; [apply journalled_db_lift|intros ?]);
    (apply journalled_db_bind; [eauto with guru|intros _; apply (journalled_db_lift (Ok tt))]).
Qed.
Lemma journalled_mirror n evs : journalled (on_db (AfterBalanceChange info n evs)).
Proof.
  unfold AfterBalanceChange. case_match; [apply (journalled_db_lift (Panic _))|].
  induction (drop n evs) as [|ev l IH]; [apply (journalled_db_lift (Ok tt))|].
  cbn [each]. apply journalled_db_bind; [apply journalled_event|by intros _].
Qed.
Lemma charge_same g contract bz s r s' : charge g contract bz s = (r, s') -> s' = s.
Proof. unfold charge. rewrite bind_gets. case_match; by intros [= _ <-]. Qed.
Lemma contract_run_journalled c g contract ro : journalled (contract_run info height p c g contract ro).
Proof.
  rewrite contract_run_is. unfold sdk_run. intros s r s' Hw Hr. unfold setup in Hr. rewrite bind_assoc in Hr.
  revert s r s' Hw Hr. apply setup_journalled. apply two_after.
  - apply wrote_none. intros s r s' Hr. unfold bind, lift, on_gas, zoom, fail, ret in Hr.
    repeat (case_match; simplify_eq/=; try done).
  - intros ma. apply two_after; [eauto with guru|intros n]. apply two_then; [apply dispatch_two|]. intros bz.
    apply journalled_bind; [apply journalled_none; intros s r s' E; by rewrite (charge_same _ _ _ _ _ _ E)|intros r].
    apply journalled_bind; [apply journalled_none; by intros s x s' [= _ <-]|intros evs].
    apply journalled_bind; [apply journalled_mirror|eauto with guru].
Qed.

(** C23.  A call of one of these contracts, whatever its input and whatever it
    answers, also an error after the module has written, is undone by the revert of
    the EVM to a snapshot taken before it: the revert does not panic, every getter
    of the state database answers as before, and the stores of the context, those
    of the modules included, read as they did. *)
Theorem sdk_call_undone pack_reason c gas contract ro d i d1 g r s2 :
  sdb_wf d -> Snapshot d = (Ok i, d1) ->
  reverting pack_reason (contract_run info height p c gas contract ro) (PCS d1 g) = (Ok r, s2) ->
  exists t, RevertToSnapshot i (pc_db s2) = (Ok tt, t) /\ same_answers d t /\
    jrnl t = jrnl d /\ ctx t = ctx d /\ cache_view t = cache_view d.
Proof.
  intros Hw Hs Hr.
  destruct (journalled_restored _ d i d1 g (Ok r) s2 (reverting_journalled pack_reason _ (contract_run_journalled c gas contract ro)) Hw Hs Hr eq_refl)
    as (t & ? & ? & ? & ? & ? & _ & ?).
  by exists t.
Qed.
End journal.

(** * The balances follow the bank *)

Section mirror.
Context `{CoinsLib, AddressCodec, ValCodec, Keccak, EthHex, StateKeeper, !AbiCopy}.
Context `{!MsgServers, !StakingKeeper, !DistributionQuerier, !GovKeeper, !SlashingKeeper, !EvidenceKeeper, !TransferKeeper}.
Variable info : EvmCoinInfo.
Variable height : Z.
Variable p : Precompile.
Implicit Types (contract : Contract) (method : Method) (args : list abi_value) (s : pc_state).

(** The part of a state the balance handler works on is kept, and events are only
    added. *)
Record kept s s' : Prop := {
  kp_addr : addr_wf (pc_db s');
  kp_ctx : ctx (pc_db s') = ctx (pc_db s);
  kp_shown : forall a, shown (pc_db s') a = shown (pc_db s) a;
  kp_events : exists evs, cache_events s' = cache_events s ++ evs;
}.
Definition steady {A} (m : M pc_state A) : Prop := forall s r s', addr_wf (pc_db s) -> m s = (Ok r, s') -> kept s s'.

Lemma kept_refl s : addr_wf (pc_db s) -> kept s s.
Proof. split; [done..|]. exists []. by rewrite app_nil_r. Qed.
Lemma kept_trans s1 s2 s3 : kept s1 s2 -> kept s2 s3 -> kept s1 s3.
Proof.
  intros [? ? H1a [e1 E1]] [? ? H2a [e2 E2]]. split; [done|congruence|intros a; by rewrite H2a|].
  exists (e1 ++ e2). by rewrite E2, E1, app_assoc.
Qed.
Lemma steady_bind {A B} (m : M pc_state A) (f : A -> M pc_state B) : steady m -> (forall x, steady (f x)) -> steady (bind m f).
Proof.
  intros Hm Hf s r s' Hw Hr. apply bind_ok in Hr as (x & s1 & H1r & H2r). pose proof (Hm _ _ _ Hw H1r) as Hk.
  eapply kept_trans; [done|]. eapply Hf; [apply Hk|done].
Qed.
Lemma steady_same {A} (m : M pc_state A) : (forall s r s', m s = (Ok r, s') -> pc_db s' = pc_db s) -> steady m.
Proof.
  intros Hm s r s' Hw Hr. pose proof (Hm _ _ _ Hr) as E. split; rewrite ?E; [done..|]. exists [].
  unfold cache_events. by rewrite E, app_nil_r.
Qed.
Lemma steady_lift {A} (r : res A) : steady (lift r).
Proof. apply steady_same. by intros s x s' [= _ <-]. Qed.
Lemma steady_fail {A} k msg : steady (@fail pc_state A k msg).
Proof. by intros s r s' _. Qed.
Lemma steady_panic {A} msg : steady (@panic pc_state A msg).
Proof. by intros s r s' _. Qed.
Lemma shown_wr v evs (d : StateDB) a : shown (wr v evs d) a = shown d a.
Proof. done. Qed.
Lemma steady_sdk {A} (m : M sdk_ctx A) : steady (on_sdk m).
Proof.
  intros s r s' Hw. unfold on_sdk. destruct (m _) as [x c]. intros [= _ <-]. split; [done..|].
  unfold cache_events, emit_cache, set_cache_view. cbn [pc_db with_cache cacheCtx].
  destruct (cacheCtx (pc_db s)); cbn [option_map cc_events]; [by eexists|by exists []].
Qed.
Lemma steady_db {A} (m : M StateDB A) :
  (forall d r d', addr_wf d -> m d = (Ok r, d') -> addr_wf d' /\ ctx d' = ctx d /\ cacheCtx d' = cacheCtx d /\ forall a, shown d' a = shown d a) ->
  steady (on_db m).
Proof.
  intros Hm s r s' Hw. unfold on_db, zoom. destruct (m (pc_db s)) as [x d] eqn:E. intros [= -> <-].
  destruct (Hm _ _ _ Hw E) as (? & ? & Hc & ?). split; [done..|]. exists []. unfold cache_events. cbn [pc_db].
  by rewrite Hc, app_nil_r.
Qed.
Lemma steady_log name topics data : steady (add_log height p name topics data).
Proof. apply steady_db. intros d r d' Hw. unfold AddLog, bind. rewrite append_run. by intros [= _ <-]. Qed.
Lemma steady_code contract : steady (refuse_contracts contract).
Proof.
  apply steady_bind; [|intros [c|]; [apply steady_fail|apply (steady_lift (Ok tt))]]. apply steady_db. intros d r d' Hw Hr.
  destruct (GetCode_with_cache (ct_Caller contract) (cacheCtx d) d) as [_ Hc]. rewrite Hr in Hc. cbn in Hc.
  unfold GetCode, bind in Hr. rewrite getStateObject_spec in Hr by done.
  destruct (obj_at d (ct_Caller contract)) as [[o|]|e|msg] eqn:Ho; [|unfold ret in Hr; by simplify_eq/=..].
  pose proof (obj_at_address _ _ _ Hw Ho) as Ha. pose proof (addr_wf_put d _ o Hw Ha) as Hw1.
  assert (forall b, shown (put_obj (ct_Caller contract) o d) b = shown d b) as Hs1.
  { intros b. rewrite shown_put. case_decide; [|done]. subst. unfold shown. by rewrite Ho. }
  unfold object_Code, ret in Hr. destruct (code o); [by simplify_eq/=|]. destruct (IsEmptyCodeHash (codehash o)); [by simplify_eq/=|].
  unfold bind, gets in Hr. rewrite (update_live _ (ct_Caller contract)) in Hr by (done || cbn; by rewrite lookup_insert_eq).
  simplify_eq/=. split_and!; [by apply addr_wf_put|done|done|]. intros b.
  match goal with |- shown ?x b = _ => rewrite <- Hs1; change x with (put_obj (ct_Caller contract)
    (cacheCode (k_GetCode (ctx d) (codehash o)) o) (put_obj (ct_Caller contract) o d)) end.
  rewrite !shown_put. by case_decide.
Qed.
Lemma steady_need contract a : steady (need_caller contract a).
Proof. unfold need_caller. case_decide; [apply (steady_lift (Ok tt))|apply steady_fail]. Qed.
Lemma steady_each {A} (f : A -> M pc_state unit) l : (forall x, steady (f x)) -> steady (each f l).
Proof. intros Hf. induction l as [|x l IH]; [apply (steady_lift (Ok tt))|]. by apply steady_bind. Qed.
Lemma steady_not_found {A} text (m : M sdk_ctx A) k f : steady k -> (forall x, steady (f x)) -> steady (or_not_found text (on_sdk m) k f).
Proof.
  intros Hk Hf s r s' Hw. unfold or_not_found.
  assert (kept s (on_sdk m s).2) as Hs1.
  { unfold on_sdk. destruct (m _) as [y c]. cbn. by apply (steady_sdk (fun _ => (Ok tt, c)) s tt). }
  pose proof (kp_addr _ _ Hs1) as Hw1. destruct (on_sdk m s) as [[x|e|q] s1]; cbn in *; [|case_match; [|done]|done];
    intros Hr; (eapply kept_trans; [exact Hs1|]); [by eapply Hf|by eapply Hk].
Qed.
Hint Resolve steady_lift steady_fail steady_panic steady_sdk steady_log steady_code steady_need : guru.

Lemma steady_topic a : steady (address_topic a).
Proof. apply steady_lift. Qed.
Lemma steady_event name l : steady (pack_event p name l).
Proof. apply steady_lift. Qed.
Lemma steady_val t : steady (val_address t).
Proof. apply steady_lift. Qed.
Lemma steady_ret {A} (x : A) : steady (ret x).
Proof. apply (steady_lift (Ok x)). Qed.
Lemma steady_output method l : steady (pack_output p method l).
Proof. apply steady_bind; [apply steady_lift|intros; apply steady_ret]. Qed.
Lemma steady_first cs : steady (first_amount cs).
Proof. destruct cs; [apply steady_panic|apply steady_ret]. Qed.
Hint Resolve steady_topic steady_event steady_val steady_ret steady_output steady_first : guru.
Lemma steady_claim d operators total : steady (claim_each d operators total).
Proof.
  revert total. induction operators as [|o operators IH]; intros total; [eauto with guru|]. cbn [claim_each].
  do 3 (apply steady_bind; [eauto with guru|intros ?]). apply IH.
Qed.
Lemma steady_dec_coins l : steady (dec_coins_output l).
Proof. apply steady_bind; eauto with guru. Qed.
Lemma steady_total_rewards l : steady (total_rewards_output l).
Proof.
  induction l as [|[v r] l IH]; [eauto with guru|]. cbn [total_rewards_output].
  apply steady_bind; [apply steady_dec_coins|intros ?]. apply steady_bind; eauto with guru.
Qed.
Hint Resolve steady_claim steady_dec_coins steady_total_rewards : guru.

(** Binds, branches and loops are taken apart, what is left is one of the above. *)
Ltac keep_all :=
  repeat first
    [ by eauto with guru
    | apply steady_not_found; [|intros ?]
    | apply steady_bind; [|intros ?]
    | apply steady_each; intros ?
    | case_match ].
Lemma staking_keeps contract method args : steady (staking_dispatch height p contract method args).
Proof. unfold staking_dispatch. repeat case_decide; keep_all. Qed.
Lemma distr_keeps contract method args : steady (distr_dispatch height p contract method args).
Proof. unfold distr_dispatch. repeat case_decide; keep_all. Qed.
Lemma gov_keeps contract method args : steady (gov_dispatch height p contract method args).
Proof. unfold gov_dispatch. repeat case_decide; keep_all. Qed.
Lemma slashing_keeps contract method args : steady (slashing_dispatch height p contract method args).
Proof. unfold slashing_dispatch, Unjail. repeat case_decide; keep_all. Qed.
Lemma evidence_keeps contract method args : steady (evidence_dispatch height p contract method args).
Proof. unfold evidence_dispatch, evidence_Evidence, evidence_GetAllEvidence. repeat case_decide; keep_all. Qed.
Lemma ics20_keeps contract method args : steady (ics20_dispatch height p contract method args).
Proof. unfold ics20_dispatch. repeat case_decide; keep_all. Qed.
Lemma dispatch_keeps c contract method args : steady (contract_dispatch height p c contract method args).
Proof.
  destruct c; [apply staking_keeps|apply distr_keeps|apply gov_keeps|apply slashing_keeps|apply evidence_keeps|apply ics20_keeps].
Qed.

Lemma RunSetup_keeps q s r s' : sdb_wf (pc_db s) -> on_db (RunSetup q) s = (Ok r, s') -> kept s s' /\ cache_events s' = cache_events s.
Proof.
  intros Hw. unfold on_db, zoom. destruct (RunSetup q (pc_db s)) as [x d'] eqn:Hr. intros [= -> <-].
  unfold RunSetup in Hr. apply bind_ok in Hr as (u1 & d1 & Hg & Hr). apply bind_ok in Hr as (n & d2 & Hs & Hr).
  apply bind_ok in Hr as (c & d3 & [= <- <-] & Hr). apply bind_ok in Hr as (u2 & d4 & Hadd & Hr).
  assert (addr_wf d1 /\ ctx d1 = ctx (pc_db s) /\ (forall a, shown d1 a = shown (pc_db s) a) /\
    cache_events (PCS d1 (pc_gas s)) = cache_events s) as (Hw1 & Hc1 & Hs1 & He1).
  { unfold GetCacheContext, modify in Hg. injection Hg as _ <-. destruct (writeCache (pc_db s)) eqn:Hwr; (split_and!; [apply Hw|done|done|]).
    - done.
    - unfold cache_events. cbn. by rewrite (wf_sync _ Hw). }
  unfold MultiStoreSnapshot in Hs. rewrite bind_gets in Hs. destruct (cacheCtx d1) as [cc|] eqn:Hcc; [|done].
  apply bind_ok in Hs as (u3 & d5 & [= <- <-] & [= _ <-]).
  apply AddPrecompileFn_run in Hadd. pose proof (getOrNew_shown q (with_cache (Some (mkCache (cc_layers cc ++ [None]) (cc_events cc))) d1)) as Ho.
  destruct (getOrNewStateObject q _) as [[o|e|m] d6]; [|done..]. destruct Ho as (_ & _ & _ & [Hw6 Hc6 Hcc6 _ Hs6]); [exact Hw1|].
  subst d4. unfold CommitWithCacheCtx in Hr. rewrite bind_gets in Hr. cbn [with_counter with_jrnl cacheCtx] in Hr. rewrite Hcc6 in Hr.
  cbn [with_cache cacheCtx] in Hr. unfold zoom in Hr. destruct (commitWithCtx _ _) as [r' v]. injection Hr as _ <-.
  assert (cache_events (PCS (set_cache_view v (with_counter ((precompileCallsCounter d6 + 1) mod 256)
    (with_jrnl (journal_append (precompileCallChange n (cc_events cc)) (jrnl d6)) d6))) (pc_gas s)) = cache_events s) as He.
  { rewrite <- He1. unfold cache_events, set_cache_view. cbn. by rewrite Hcc6, Hcc. }
  split; [|done]. split; [exact Hw6|cbn; rewrite Hc6; exact Hc1| |exists []; rewrite app_nil_r; exact He].
  intros a. cbn [pc_db]. etrans; [exact (Hs6 a)|]. case_decide; [|exact (Hs1 a)]. subst. exact (Hs1 q).
Qed.

(** The balance handler works on the database alone. *)
Lemma apply_event_cache ev d r d' : addr_wf d -> apply_event info ev d = (Ok r, d') -> addr_wf d' /\ cacheCtx d' = cacheCtx d.
Proof.
  intros Hw. unfold apply_event. repeat case_decide; [..|by intros [= _ <-]]; intros Hr; run_inv;
    match goal with E : _ ?a ?v ?x = (Ok _, _), Hx : addr_wf ?x |- _ =>
      first [pose proof (SubBalance_shown a v x Hx) as Hs; rewrite E in Hs | pose proof (AddBalance_shown a v x Hx) as Hs; rewrite E in Hs] end;
    by destruct Hs.
Qed.
Lemma mirror_cache n evs d r d' : addr_wf d -> AfterBalanceChange info n evs d = (Ok r, d') -> cacheCtx d' = cacheCtx d.
Proof.
  unfold AfterBalanceChange. case_match; [done|]. revert d. induction (drop n evs) as [|ev l IH]; intros d Hw; [by intros [= _ <-]|].
  cbn [each]. intros Hr. apply bind_ok in Hr as (u & d1 & He & Hr). destruct (apply_event_cache _ _ _ _ Hw He) as [Hw1 Hc].
  by rewrite (IH d1).
Qed.
Lemma setup_keeps gas contract ro isTx s ma s' : sdb_wf (pc_db s) -> setup p gas contract ro isTx s = (Ok ma, s') ->
  kept s s' /\ cache_events s' = cache_events s.
Proof.
  intros Hw Hr. unfold setup in Hr. apply bind_ok in Hr as (u & s1 & Hs & Hr).
  destruct (RunSetup_keeps _ _ _ _ Hw Hs) as [Hk He].
  assert (pc_db s' = pc_db s1) as E.
  { unfold bind, lift, on_gas, zoom, fail, ret in Hr. repeat (case_match; simplify_eq/=; try done). }
  assert (cache_events s' = cache_events s1) as Ee by (unfold cache_events; by rewrite E).
  split; [|congruence]. eapply kept_trans; [exact Hk|]. split; rewrite ?E; [apply Hk|done..|]. exists []. by rewrite Ee, app_nil_r.
Qed.

(** C28.  The native coin that a module moves during a call of one of these contracts
    is moved in the state database too: after a call that succeeds every account
    shows the balance it showed before, less what the bank events emitted during the
    call spent and plus what they received, in units of eighteen decimals.  Neither
    the setup, nor the method, nor its logs change a balance otherwise, and earlier
    events are not counted again. *)
Theorem sdk_call_mirrors_bank c gas contract ro s r s' :
  sdb_wf (pc_db s) -> loads (pc_db s) -> shows_u256 (pc_db s) ->
  contract_run info height p c gas contract ro s = (Ok r, s') ->
  exists evs, cache_events s' = cache_events s ++ evs /\
    forall bs, evs = map event_of bs -> Forall (event_ok info) bs ->
      forall a, shown (pc_db s') a = uint256 (shown (pc_db s) a + lsum (map (event_delta info a) bs)).
Proof.
  intros Hw Hl Hu. rewrite contract_run_is. unfold sdk_run. intros Hr.
  apply bind_ok in Hr as (ma & s1 & Hs & Hr). apply bind_ok in Hr as (n & s1' & [= <- <-] & Hr).
  apply bind_ok in Hr as (bz & s2 & Hd & Hr). apply bind_ok in Hr as (rr & s3 & Hch & Hr). apply charge_same in Hch as ->.
  apply bind_ok in Hr as (es & s3' & [= <- <-] & Hr). apply bind_ok in Hr as (u & s4 & Ha & [= _ <-]).
  destruct (setup_keeps _ _ _ _ _ _ _ Hw Hs) as [Hk1 He1].
  pose proof (dispatch_keeps _ _ _ _ _ _ _ (kp_addr _ _ Hk1) Hd) as Hk2. pose proof (kept_trans _ _ _ Hk1 Hk2) as Hk.
  destruct (kp_events _ _ Hk2) as [evs He2]. exists evs.
  assert (cache_events s4 = cache_events s2) as He4.
  { unfold on_db, zoom in Ha. destruct (AfterBalanceChange _ _ _ (pc_db s2)) as [x d] eqn:E. injection Ha as -> <-.
    unfold cache_events. cbn. by rewrite (mirror_cache _ _ _ _ _ (kp_addr _ _ Hk) E). }
  split; [by rewrite He4, He2, He1|]. intros bs -> Hbs a.
  destruct (AfterBalanceChange_mirrors info (cache_events s1) bs (pc_db s2)) as (d & Hm & Hsh & _); [apply Hk|..|done|].
  { intros b. rewrite (kp_ctx _ _ Hk). apply Hl. }
  { intros b. rewrite (kp_shown _ _ Hk). apply Hu. }
  unfold on_db, zoom in Ha. rewrite He2, Hm in Ha. injection Ha as _ <-. cbn [pc_db]. by rewrite Hsh, (kp_shown _ _ Hk).
Qed.
End mirror.
