(* ===== verification/PrecompileSdkSpec.v ===== *)
(** The contracts over modules of the SDK: keys of validators survive their text,
    what claiming rewards withdraws and reports, and the methods that cannot answer
    or panic. *)
From Stdlib Require Import Ascii.
From S2P Require Import Prelude KVStore Sdk EvmConfig StateDB TxData VmKeeper VmGas Erc20Keeper.
From S2P Require Import StateDBInv StateDBRun StateDBOps PrecompileThms.
From S2P Require Import Precompile PrecompileErc20 PrecompileSdk PrecompileStaking PrecompileDistr PrecompileGov PrecompileIcs20.

(** * Base64 *)

Module Base64Thms.
Import Base64.
Definition sextet (n : Z) : Prop := 0 <= n < 64.
Lemma digit_value n : sextet n -> value (digit n) = Some n /\ digit n <> padding /\ newline (digit n) = false /\ 0 <= digit n < 256.
Proof.
  intros Hn. assert (Forall (fun n => value (digit n) = Some n /\ digit n <> padding /\ newline (digit n) = false /\ 0 <= digit n < 256)
    (seqZ 0 64)) as Hf by (apply (bool_decide_unpack _); vm_compute; exact I).
  rewrite Forall_forall in Hf. apply Hf. apply elem_of_seqZ. unfold sextet in Hn. lia.
Qed.
Definition byte_ok (z : Z) : Prop := 0 <= z < 256.
Lemma sextets x y z : byte_ok x -> byte_ok y -> byte_ok z ->
  sextet (x / 4) /\ sextet (x mod 4 * 16 + y / 16) /\ sextet (y mod 16 * 4 + z / 64) /\ sextet (z mod 64) /\
  sextet (x mod 4 * 16) /\ sextet (y mod 16 * 4).
Proof. unfold byte_ok, sextet. intros. repeat split; Z.div_mod_to_equations; lia. Qed.
(** The bits of three bytes, cut into four and put together again. *)
Lemma regroup x y z : byte_ok x -> byte_ok y -> byte_ok z ->
  x / 4 * 4 + (x mod 4 * 16 + y / 16) / 16 = x /\
  (x mod 4 * 16 + y / 16) mod 16 * 16 + (y mod 16 * 4 + z / 64) / 4 = y /\
  (y mod 16 * 4 + z / 64) mod 4 * 64 + z mod 64 = z.
Proof. unfold byte_ok. intros. repeat split; Z.div_mod_to_equations; lia. Qed.

Lemma quantum_digits a b c d : sextet a -> sextet b -> sextet c -> sextet d ->
  quantum (digit a) (digit b) (digit c) (digit d) = Some [a * 4 + b / 16; b mod 16 * 16 + c / 4; c mod 4 * 64 + d].
Proof. intros Ha Hb Hc Hd. unfold quantum. by rewrite (proj1 (digit_value a Ha)), (proj1 (digit_value b Hb)), (proj1 (digit_value c Hc)), (proj1 (digit_value d Hd)). Qed.
Lemma decode_more a b c d l : l <> [] -> decode (a :: b :: c :: d :: l) =
  match quantum a b c d, decode l with Some x, Some y => Some (x ++ y) | _, _ => None end.
Proof. by destruct l. Qed.
Lemma encode_nonempty b : b <> [] -> encode b <> [].
Proof. by destruct b as [|x [|y [|z b]]]. Qed.
Lemma not_padding n : sextet n -> (digit n =? padding) = false.
Proof. intros Hn. apply Z.eqb_neq. by apply digit_value. Qed.

(** Three bytes at a time. *)
Lemma triples (P : bytes -> Prop) : P [] -> (forall x, P [x]) -> (forall x y, P [x; y]) ->
  (forall x y z b, P b -> P (x :: y :: z :: b)) -> forall b, P b.
Proof.
  intros H0 H1 H2 H3. fix IH 1. intros [|x [|y [|z b]]]; [done|apply H1|apply H2|]. apply H3, IH.
Qed.
Lemma decode_encode b : Forall byte_ok b -> decode (encode b) = Some b.
Proof.
  induction b as [|x|x y|x y z b IH] using triples; intros Hf; [done|..].
  - inversion_clear Hf as [|? ? Hx _]. destruct (sextets x 0 0 Hx ltac:(done) ltac:(done)) as (S1 & _ & _ & _ & S2 & _).
    cbn [encode decode last_quantum]. unfold last_quantum. cbn [padding Z.eqb Pos.eqb].
    rewrite (proj1 (digit_value _ S1)), (proj1 (digit_value _ S2)).
    do 2 f_equal. destruct (regroup x 0 0 Hx ltac:(done) ltac:(done)) as (E & _). by rewrite Z.add_0_r in E.
  - inversion_clear Hf as [|? ? Hx Hf']. inversion_clear Hf' as [|? ? Hy _].
    destruct (sextets x y 0 Hx Hy ltac:(done)) as (S1 & S2 & _ & _ & _ & S3).
    cbn [encode decode]. unfold last_quantum. rewrite Z.eqb_refl, (not_padding _ S3).
    rewrite (proj1 (digit_value _ S1)), (proj1 (digit_value _ S2)), (proj1 (digit_value _ S3)).
    destruct (regroup x y 0 Hx Hy ltac:(done)) as (E1 & E2 & _). rewrite Z.add_0_r in E2. by rewrite E1, E2.
  - inversion_clear Hf as [|? ? Hx Hf']. inversion_clear Hf' as [|? ? Hy Hf]. inversion_clear Hf as [|? ? Hz Hb].
    destruct (sextets x y z Hx Hy Hz) as (S1 & S2 & S3 & S4 & _). destruct (regroup x y z Hx Hy Hz) as (E1 & E2 & E3).
    cbn [encode]. destruct (decide (b = [])) as [->|Hne].
    + cbn [encode decode]. unfold last_quantum. rewrite (not_padding _ S4), quantum_digits by done. by rewrite E1, E2, E3.
    + rewrite decode_more by (by apply encode_nonempty). rewrite quantum_digits, IH by done. by rewrite E1, E2, E3.
Qed.
Definition text_ok (c : Z) : Prop := newline c = false /\ byte_ok c.
Ltac each_char := cbn [encode]; repeat (apply List.Forall_cons; [by auto|]); auto using List.Forall_nil.
Lemma encode_text b : Forall byte_ok b -> Forall text_ok (encode b).
Proof.
  assert (forall n, sextet n -> text_ok (digit n)) as Hd by (intros n Hn; split; by apply digit_value).
  assert (text_ok padding) as Hp by (split; [done|by unfold byte_ok]).
  induction b as [|x|x y|x y z b IH] using triples; intros Hf; [constructor|..].
  - inversion_clear Hf as [|? ? Hx _]. destruct (sextets x 0 0 Hx ltac:(done) ltac:(done)) as (? & _ & _ & _ & ? & _). each_char.
  - inversion_clear Hf as [|? ? Hx Hf']. inversion_clear Hf' as [|? ? Hy _].
    destruct (sextets x y 0 Hx Hy ltac:(done)) as (? & ? & _ & _ & _ & ?). each_char.
  - inversion_clear Hf as [|? ? Hx Hf']. inversion_clear Hf' as [|? ? Hy Hf]. inversion_clear Hf as [|? ? Hz Hb].
    destruct (sextets x y z Hx Hy Hz) as (? & ? & ? & ? & _). each_char.
Qed.
Lemma str_bytes_back l : Forall byte_ok l -> str_bytes (bytes_str l) = l.
Proof.
  intros Hl. unfold str_bytes, bytes_str. rewrite String.list_ascii_of_string_of_list_ascii, map_map.
  induction Hl as [|z l Hz _ IH]; [done|]. cbn [map]. rewrite IH. f_equal. unfold byte_ok in Hz.
  rewrite nat_ascii_embedding; [lia|]. apply Nat2Z.inj_lt. rewrite Z2Nat.id; lia.
Qed.
Lemma DecodeString_EncodeToString b : Forall byte_ok b -> DecodeString (EncodeToString b) = Some b.
Proof.
  intros Hb. pose proof (encode_text b Hb) as Ht. unfold DecodeString, EncodeToString.
  rewrite str_bytes_back by (eapply Forall_impl; [exact Ht|by intros ? []]).
  assert (filter (fun c => newline c = false) (encode b) = encode b) as ->; [|by apply decode_encode].
  induction Ht as [|c l [Hc _] _ IH]; [done|]. rewrite filter_cons_True by done. by f_equal.
Qed.
End Base64Thms.

Section keys.
Context `{CoinsLib, AddressCodec, ValCodec, Keccak, EthHex, StateKeeper, !AbiCopy}.

(**  The text in which the staking contract shows the consensus key of a
    validator is one from which the contract makes the same key again: a validator
    created with the key another call has read gets exactly its 32 bytes, and the
    rest of the message is what the arguments say. *)
Theorem consensus_key_roundtrip key mo id we se de rate maxRate maxChange min a value denom :
  Forall Base64Thms.byte_ok key -> length key = PubKeySize -> a <> 0 -> int_fits min = true -> int_fits value = true ->
  NewMsgCreateValidator
    [VTuple [VString mo; VString id; VString we; VString se; VString de]; VTuple [VBig rate; VBig maxRate; VBig maxChange];
     VBig min; VAddress a; VString (FormatConsensusPubkey (CachedKey key)); VBig value] denom =
  Ok (mkCreateValidator (mkDescription mo id we se de) rate maxRate maxChange min (bech32_of (address_bytes a))
        (val_bech32_of (address_bytes a)) key (Coin denom value), a).
Proof.
  intros Hk Hl Ha Hm Hv. unfold NewMsgCreateValidator, as_description, as_commission, as_big, as_address, as_string.
  cbn [rbind FormatConsensusPubkey]. rewrite (proj2 (Z.eqb_neq a 0)) by done. cbn [rbind].
  rewrite Base64Thms.DecodeString_EncodeToString, Hl by done. cbn [Nat.eqb negb PubKeySize].
  unfold int_chk. rewrite Hm. cbn [rbind]. by rewrite Hv.
Qed.
End keys.

(** * Claiming rewards *)

Section claims.
Context `{CoinsLib, !CoinsLaws, AddressCodec, ValCodec, Keccak, EthHex, StateKeeper, !AbiCopy}.
Context `{!MsgServers, !StakingKeeper, !DistributionQuerier}.
Variable height : Z.
Variable p : Precompile.
Implicit Types (s : pc_state) (contract : Contract) (method : Method).

(** The rewards of the validators, withdrawn one after the other. *)
Inductive withdrawn (d : addr) : list string -> list coins -> pc_state -> pc_state -> Prop :=
  | withdrawn_nil s : withdrawn d [] [] s s
  | withdrawn_cons op ops v cs css s s1 s2 : val_of_bech32 op = Some v ->
      on_sdk (serve (mWithdrawDelegationRewards d v)) s = (Ok cs, s1) -> withdrawn d ops css s1 s2 ->
      withdrawn d (op :: ops) (cs :: css) s s2.

(** x/distribution answers with coins it has sorted, or with one zero coin. *)
Hypothesis rewards_wf : forall d v c cs c', serve (mWithdrawDelegationRewards d v) c = (Ok cs, c') -> coins_wf cs = true.

Lemma on_sdk_ok {A} (m : M sdk_ctx A) s x s' : on_sdk m s = (Ok x, s') -> exists c c', m c = (Ok x, c').
Proof. unfold on_sdk. destruct (m _) as [r c] eqn:E. intros [= -> _]. eauto. Qed.
Lemma claim_each_withdrawn d ops : forall total s r s', coins_wf total = true -> claim_each d ops total s = (Ok r, s') ->
  exists css, withdrawn d ops css s s' /\ forall den, amount_of r den = amount_of total den + lsum (map (fun cs => amount_of cs den) css).
Proof.
  induction ops as [|op ops IH]; intros total s r s' Hw Hr; cbn [claim_each] in Hr.
  - injection Hr as <- <-. exists []. split; [constructor|]. intros den. cbn. lia.
  - apply bind_ok in Hr as (v & s0 & Hv & Hr). unfold val_address, lift, from_bech32 in Hv.
    destruct (val_of_bech32 op) as [v'|] eqn:Ev; [|done]. injection Hv as -> ->.
    apply bind_ok in Hr as (cs & s1 & Hs & Hr). apply bind_ok in Hr as (t & s2 & Ht & Hr). injection Ht as Ht <-.
    destruct (on_sdk_ok _ _ _ _ Hs) as (c & c' & Hc). pose proof (rewards_wf _ _ _ _ _ Hc) as Hwc.
    destruct (coins_add_law total cs Hw Hwc) as (t' & Et & Hvalid & Hsum). rewrite Et in Ht. injection Ht as <-.
    destruct (IH t' s1 r s' (valid_wf _ Hvalid) Hr) as (css & Hwd & Ham). exists (cs :: css).
    split; [by econstructor|]. intros den. rewrite Ham, Hsum. unfold lsum. cbn [map foldr]. lia.
Qed.

(**  A successful claim of rewards was made by the delegator itself, for no more
    validators than the chain may have; it withdrew the rewards of exactly the
    validators x/staking lists for the delegator, one after the other; and its event
    reports, of the bond denomination, the sum of what these withdrawals paid. *)
Theorem ClaimRewards_claims contract method d n s out s' :
  distr_ClaimRewards height p contract method [VAddress d; VUint32 n] s = (Ok out, s') ->
  exists maxVals ops css denom data s1 s2 s3 s4 l,
    ct_Caller contract = d /\ on_sdk st_MaxValidators s = (Ok maxVals, s1) /\ n <= maxVals /\
    on_sdk (st_GetDelegatorValidators (address_bytes d) n) s1 = (Ok ops, s2) /\
    withdrawn (address_bytes d) ops css s2 s3 /\ on_sdk st_BondDenom s3 = (Ok denom, s4) /\
    Event_Pack (pc_ABI p) "ClaimRewards" [VBig (lsum (map (fun cs => amount_of cs denom) css))] = Ok data /\
    logs (pc_db s') = logs (pc_db s4) ++ [l] /\ lg_Address l = pc_Address p /\
    lg_Topics l = [Event_ID (pc_ABI p) "ClaimRewards"; d] /\ lg_Data l = data.
Proof.
  unfold distr_ClaimRewards, parseClaimRewardsArgs, as_address, as_uint32. destruct (d =? 0); [done|]. cbn [rbind].
  intros Hr. apply bind_ok in Hr as (a & s0 & [= <- <-] & Hr). cbn [fst snd] in Hr.
  apply bind_ok in Hr as (maxVals & s1 & Hmax & Hr). destruct (Z.ltb_spec maxVals n); [done|].
  apply bind_ok in Hr as (u & s1' & Hn & Hr). unfold need_caller in Hn. case_decide as Hcaller; [|done]. injection Hn as _ <-.
  apply bind_ok in Hr as (ops & s2 & Hops & Hr). apply bind_ok in Hr as (total & s3 & Hclaim & Hr).
  apply bind_ok in Hr as (u' & s5 & Hev & Hr).
  assert (s5 = s') as ->. { unfold pack_output in Hr. run_inv. done. }
  destruct (claim_each_withdrawn _ _ [] _ _ _ (valid_wf _ valid_nil) Hclaim) as (css & Hwd & Ham).
  unfold EmitClaimRewardsEvent, address_topic, pack_event in Hev. cbn [MakeTopic] in Hev.
  apply bind_ok in Hev as (t1 & s3' & [= <- <-] & Hev). apply bind_ok in Hev as (denom & s4 & Hden & Hev).
  apply bind_ok in Hev as (data & s4' & [= Hpack <-] & Hev). rewrite Ham, amount_of_nil, Z.add_0_l in Hpack.
  unfold add_log, on_db, zoom, AddLog, bind in Hev. rewrite append_run in Hev. injection Hev as _ <-.
  do 10 eexists. by split_and!.
Qed.
End claims.

(** * Methods that do not answer *)

Section errors.
Context `{CoinsLib, AddressCodec, ValCodec, Keccak, EthHex, StateKeeper, !AbiCopy}.
Context `{!MsgServers, !StakingKeeper, !DistributionQuerier, !GovKeeper, !SlashingKeeper, !EvidenceKeeper}.
Variable info : EvmCoinInfo.
Variable height : Z.
Variable p : Precompile.
Implicit Types (s : pc_state) (contract : Contract) (method : Method).

(** go-ethereum unpacks a tuple into a struct without a name. *)
Definition unnamed (v : abi_value) : Prop := match v with VStruct _ _ => False | _ => True end.
Definition unpacks_unnamed : Prop := forall method b args, Inputs_Unpack (pc_ABI p) method b = Ok args -> Forall unnamed args.

Definition answered {A} (r : res A) : Prop := exists x, r = Ok x.

Lemma setup_args gas contract ro isTx s ma s' : setup p gas contract ro isTx s = (Ok ma, s') ->
  select_method p contract = Ok ma.1 /\ (ma.2 = [] \/ Inputs_Unpack (pc_ABI p) ma.1 (drop 4 (ct_Input contract)) = Ok ma.2).
Proof.
  unfold setup. intros Hr. apply bind_ok in Hr as (u & s1 & _ & Hr). apply bind_ok in Hr as (m & s2 & [= Hm ->] & Hr).
  case_match; [done|]. apply bind_ok in Hr as (args & s3 & Ha & Hr). run_inv; cbn; auto.
Qed.
Lemma sdk_run_answered isTx dispatch gas contract ro s r s' : sdk_run info p isTx dispatch gas contract ro s = (Ok r, s') ->
  exists method args s1 bz s2, select_method p contract = Ok method /\
    (args = [] \/ Inputs_Unpack (pc_ABI p) method (drop 4 (ct_Input contract)) = Ok args) /\
    dispatch contract method args s1 = (Ok bz, s2).
Proof.
  unfold sdk_run. intros Hr. apply bind_ok in Hr as ([method args] & s1 & Hs & Hr). apply bind_ok in Hr as (n & s2 & [= <- <-] & Hr).
  apply bind_ok in Hr as (bz & s3 & Hd & _). apply setup_args in Hs as [? ?]. cbn in *. eauto 10.
Qed.

(**  Three methods of the published interfaces never answer, whatever they are
    called with: [submitEvidence] and [getAllEvidence] of the evidence contract test
    their argument for a named Go type, which the values that go-ethereum unpacks
    from call data do not have, and [getParams] of the slashing contract is not
    among the methods its call knows. *)
Theorem methods_never_answer gas contract ro s :
  unpacks_unnamed ->
  (forall method, select_method p contract = Ok method ->
     m_Name method = "submitEvidence" \/ m_Name method = "getAllEvidence" ->
     ~ answered (evidence_run height p info gas contract ro s).1) /\
  (forall method, select_method p contract = Ok method -> m_Name method = "getParams" ->
     ~ answered (slashing_run height p info gas contract ro s).1).
Proof.
  intros Hu. split.
  - intros method Hm Hname [x Hx].
    destruct (evidence_run height p info gas contract ro s) as [r s'] eqn:E. cbn in Hx. subst r.
    apply sdk_run_answered in E as (m & args & s1 & bz & s2 & Hm' & Ha & Hd). rewrite Hm in Hm'. injection Hm' as <-.
    assert (Forall unnamed args) as Hargs by (destruct Ha as [->|Ha]; [constructor|by eapply Hu]).
    unfold evidence_dispatch in Hd. destruct Hname as [Hname | Hname]; rewrite Hname in Hd.
    + rewrite decide_True in Hd by done. apply bind_ok in Hd as (ma & s3 & [= Hn _] & _).
      unfold NewMsgSubmitEvidence in Hn. destruct args as [|a0 [|a1 [|a2 args]]]; try done. run_inv.
      inversion_clear Hargs as [|? ? _ H']. inversion_clear H' as [|? ? Ha1 _]. by destruct a1.
    + rewrite !decide_False in Hd by done. rewrite decide_True in Hd by done. unfold evidence_GetAllEvidence in Hd.
      destruct args as [|a0 [|a1 args]]; try done. apply bind_ok in Hd as (pg & s3 & [= Hn _] & _).
      inversion_clear Hargs as [|? ? Ha0 _]. by destruct a0.
  - intros method Hm Hname [x Hx].
    destruct (slashing_run height p info gas contract ro s) as [r s'] eqn:E. cbn in Hx. subst r.
    apply sdk_run_answered in E as (m & args & s1 & bz & s2 & Hm' & _ & Hd). rewrite Hm in Hm'. injection Hm' as <-.
    unfold slashing_dispatch in Hd. by rewrite Hname, !decide_False in Hd.
Qed.

(**  [getProposals] panics as soon as one of the proposals it is to return has
    no voting period yet, although [getProposal] answers for each of them alone:
    the times of the voting period are nil before it, and only the second tests
    for that. *)
Theorem getProposals_panics method args req l page s s1 q :
  ParseProposalsArgs args = Ok req ->
  on_sdk (gv_Proposals req.1.1.1 req.1.1.2 req.1.2 req.2) s = (Ok (l, page), s1) ->
  q ∈ l -> pr_VotingStartTime q = None ->
  Forall (fun q => answered (HexAddressFromBech32String (pr_Proposer q))) l ->
  (exists msg, (gov_GetProposals p method args s).1 = Panic msg) /\ Forall (fun q => answered (ProposalOutput q)) l.
Proof.
  intros Hreq Hq Hin Hnone Hdec. split.
  - unfold gov_GetProposals. rewrite Hreq. unfold bind, lift. rewrite Hq. cbn [fst].
    assert (exists msg, map_res ProposalsOutput l = Panic msg) as [msg ->]; [|by eexists].
    clear Hq Hreq. induction l as [|q' l IH]; [by apply not_elem_of_nil in Hin|].
    inversion_clear Hdec as [|? ? [a Ha] Hl]. cbn [map_res]. unfold ProposalsOutput at 1, hex_or_nil. rewrite Ha. cbn [rbind].
    apply elem_of_cons in Hin as [->|Hin]; [rewrite Hnone; cbn; eauto|].
    destruct (pr_VotingStartTime q'); cbn [time_of rbind]; [|eauto].
    destruct (pr_VotingEndTime q'); cbn [time_of rbind]; [|eauto]. destruct (IH Hin Hl) as [msg ->]. cbn [rbind]. eauto.
  - eapply Forall_impl; [exact Hdec|]. intros q' [a Ha]. unfold ProposalOutput, hex_or_nil. rewrite Ha. cbn [rbind]. by eexists.
Qed.

(** A withdrawal that pays nothing, a commission below one unit for one, panics
    after the module has made it: the event reads the first coin. *)
Theorem empty_commission_panics contract method v s s1 :
  HexAddressFromBech32String v = Ok (ct_Caller contract) ->
  on_sdk (serve (mWithdrawValidatorCommission v)) s = (Ok [], s1) ->
  distr_WithdrawValidatorCommission height p contract method [VString v] s = (Panic "index out of range", s1).
Proof.
  intros Hv Hs. unfold distr_WithdrawValidatorCommission, NewMsgWithdrawValidatorCommission. cbn [string_or_empty]. rewrite Hv.
  cbn [rbind]. unfold bind at 1, lift at 1. cbn [fst snd]. unfold bind at 1, need_caller. rewrite decide_True by done.
  unfold ret at 1, bind at 1. by rewrite Hs.
Qed.
(** A height above 64 bits cancels the unbonding of another height. *)
Theorem creation_height_truncated a v n h k denom : a <> 0 -> int_fits n = true -> 0 <= h < 2 ^ 63 ->
  NewMsgCancelUnbondingDelegation [VAddress a; VString v; VBig n; VBig (h + k * 2 ^ 64)] denom =
  NewMsgCancelUnbondingDelegation [VAddress a; VString v; VBig n; VBig h] denom.
Proof.
  intros Ha Hn Hh. unfold NewMsgCancelUnbondingDelegation, as_address, as_string, as_big. rewrite (proj2 (Z.eqb_neq a 0)) by done.
  cbn [rbind]. unfold int_chk. rewrite Hn. cbn [rbind]. do 3 f_equal. unfold to_int64, wrap64. by rewrite Z.mod_add by lia.
Qed.
End errors.
