(* ===== verification/PrecompileSdkModel.v ===== *)
(** A concrete chain for the contracts over modules of the SDK: balances of the
    native coin behind the state database, a staking module that takes delegations
    and pays rewards, an ABI, on which the theorems about these contracts are
    instantiated. *)
From Stdlib Require Import Ascii.
From S2P Require Import Prelude KVStore Sdk EvmConfig BankModel PreciseBank PreciseBankThms.
From S2P Require Import StateDB StateDBInv StateDBRun StateDBMachine StateDBThms StateDBReach VmKeeper VmKeeperThms EvmCompose VmGas TxData EthModel Erc20Keeper.
From S2P Require Import Precompile PrecompileThms PrecompileErc20 PrecompileSdk PrecompileStaking PrecompileDistr PrecompileGov PrecompileIcs20.
From S2P Require Import PrecompileSdkThms PrecompileSdkSpec.
Import Meter.

#[local] Arguments address_bytes : simpl never.

(** * Texts of validators *)

(** The text of the account behind a prefix no account has. *)
Definition v_prefix : list ascii := String.list_ascii_of_string "val".
Definition v_decode (l : list ascii) : option addr :=
  match l with
  | "v"%char :: "a"%char :: "l"%char :: l => match m_decode l with Some [] => None | r => r end
  | _ => None
  end.
#[local] Instance ModelVal : ValCodec := {|
  val_of_bech32 s := v_decode (String.list_ascii_of_string s);
  val_bech32_of a := String.string_of_list_ascii (v_prefix ++ m_encode a);
  cons_bech32_of a := String.string_of_list_ascii (v_prefix ++ m_encode a);
|}.
#[local] Instance ModelValLaws : ValLaws.
Proof.
  split.
  - intros a Hne Hb. cbn. rewrite String.list_ascii_of_string_of_list_ascii, m_decode_encode by done. by destruct a.
  - intros s Hs. cbn in *. unfold v_decode. repeat case_match; try done; subst.
Qed.

(** * The stores, the modules *)

(** Balances in units of eighteen decimals, and what the module holds. *)
Record s_store := SStore { ss_bal : gmap Z Z; ss_bonded : Z }.
#[local] Instance s_keeper : StateKeeper := {|
  KS := s_store;
  k_GetAccount k a := inr (option_map (fun b => mkAccount 0 (Some b) None) (ss_bal k !! a));
  k_GetState _ _ _ := 0;
  k_GetCode _ _ := None;
  k_ForEachStorage _ _ := [];
  k_SetAccount a x := modify (fun k => SStore (<[a := default 0 (Balance x)]> (ss_bal k)) (ss_bonded k));
  k_DeleteState _ _ k := k;
  k_SetState _ _ _ k := k;
  k_DeleteCode _ k := k;
  k_SetCode _ _ k := k;
  k_DeleteAccount a := modify (fun k => SStore (delete a (ss_bal k)) (ss_bonded k));
|}.

Definition s_pool : Address := 900.
Definition s_scale (n : Z) : Z := n * 10 ^ 12.
(** The bank of this chain moves coins and says so. *)
Definition s_move (from to : Address) (cs : coins) (n bonded : Z) : M sdk_ctx unit := fun c =>
  let k := sc_store c in
  let b := default 0 (ss_bal k !! from) in
  if b <? s_scale n then (Err (Error ErrOther "insufficient funds"), c)
  else
    let m := <[from := b - s_scale n]> (ss_bal k) in
    let m := <[to := default 0 (m !! to) + s_scale n]> m in
    (Ok tt, SdkCtx (SStore m (ss_bonded k + bonded)) (sc_gas c)
      (sc_events c ++ [coin_spent (address_bytes from) cs; coin_received (address_bytes to) cs])).
Definition s_delegate (m : MsgDelegation) : M sdk_ctx unit :=
  match acc_of_bech32 (dg_DelegatorAddress m) with
  | Some a => s_move (BytesToAddress a) s_pool [dg_Amount m] (c_amt (dg_Amount m)) (c_amt (dg_Amount m))
  | None => fail ErrOther "delegator"
  end.
(** Every validator owes two coins. *)
Definition s_reward (d : addr) : M sdk_ctx coins :=
  do! s_move s_pool (BytesToAddress d) [Coin "uguru" 2] 2 0; ret [Coin "uguru" 2].
Definition s_serve (m : sdk_msg) : M sdk_ctx (response m) :=
  match m return M sdk_ctx (response m) with
  | mDelegate m => s_delegate m
  | mWithdrawDelegationRewards d _ => s_reward d
  | _ => fail ErrOther "not served"
  end.
#[local] Instance s_servers : MsgServers := {| serve := s_serve |}.

Definition none {A} : M sdk_ctx A := fail ErrOther "not served".
(** A validator without tokens has no exchange rate. *)
Definition s_validator (v : addr) : Validator :=
  mkValidator "" (OtherKey "") false 3 (if BytesToAddress v =? 31 then 0 else 1) 1 (mkDescription "" "" "" "" "") 0 0 0 0.
#[local] Instance s_staking : StakingKeeper := {|
  st_BondDenom := ret "uguru";
  st_MaxValidators := ret 50;
  st_GetDelegatorValidators _ _ := ret [val_bech32_of (address_bytes 30); val_bech32_of (address_bytes 32)];
  st_GetValidator v := ret (s_validator v);
  st_SharesFromTokens v n := if v_Tokens v =? 0 then bad "insufficient delegation shares" else Ok (n * 10 ^ 18);
  st_GetRedelegation _ _ _ := none; st_Delegation _ _ := none; st_UnbondingDelegation _ _ := none;
  st_Validator _ := none; st_Validators _ _ := none; st_Redelegations _ _ _ _ := none;
|}.
#[local] Instance s_distr : DistributionQuerier := {|
  ds_ValidatorDistributionInfo _ := none; ds_ValidatorOutstandingRewards _ := none; ds_ValidatorCommission _ := none;
  ds_ValidatorSlashes _ _ _ _ := none; ds_DelegationRewards _ _ := none; ds_DelegationTotalRewards _ := none;
  ds_DelegatorValidators _ := none; ds_DelegatorWithdrawAddress _ := none; ds_CommunityPool := none;
|}.
(** Two proposals; the second is in its deposit period. *)
Definition s_proposal (id : Z) (voting : option Z) : Proposal :=
  mkProposal id [] 1 (mkTally "0" "0" "0" "0") 100 200 [] voting voting "" "title" "summary" (bech32_of (address_bytes e_alice)).
#[local] Instance s_gov : GovKeeper := {|
  gv_Votes _ _ := none; gv_Vote _ _ := none; gv_Deposit _ _ := none; gv_Deposits _ _ := none; gv_TallyResult _ := none;
  gv_Proposal _ := none; gv_Proposals _ _ _ _ := ret ([s_proposal 1 (Some 150); s_proposal 2 None], None); gv_Params := none;
  gv_Constitution := none; json_proposal _ := None; json_message _ := bad "json";
|}.
#[local] Instance s_slashing : SlashingKeeper := {| sl_SigningInfo _ := none; sl_SigningInfos _ := none |}.
#[local] Instance s_evidence : EvidenceKeeper := {| ek_Evidence _ := none; ek_AllEvidence _ := none |}.
#[local] Instance s_transfer : TransferKeeper := {|
  ch_GetChannel _ _ := none; ch_GetConnection _ := none; channel_ValidateBasic _ := Ok tt; transfer_ValidateBasic _ := Ok tt;
  IsChannelIDFormat _ := true; ClientIdentifierValidator _ := Ok tt; tr_Denom _ := none; tr_Denoms _ := none; tr_DenomHash _ := none;
|}.
#[local] Instance s_copy : AbiCopy := {|
  copy_page _ := Ok (mkPage [] 0 100 false false); copy_options _ := bad "copy"; copy_height _ := bad "copy";
|}.

(** * The ABI, a state *)

Definition s_names : list string := ["delegate"; "submitEvidence"; "getAllEvidence"; "getParams"].
(** Words of 32 bytes, and the text of a validator behind them. *)
Definition s_unpack (name : string) (b : bytes) : list abi_value :=
  if decide (name = "delegate")
  then [VAddress (be_decode 0 (take 32 b)); VString (bytes_str (drop 64 b)); VBig (be_decode 0 (take 32 (drop 32 b)))]
  else if decide (name = "submitEvidence")
  then [VAddress (be_decode 0 (take 32 b)); VTuple [VInt64 1; VInt64 2; VInt64 3; VString ""]]
  else if decide (name = "getAllEvidence") then [VTuple [VBytes []; VUint64 0; VUint64 0; VBool false; VBool false]] else [].
Definition s_abi : ABI := {|
  MethodById b :=
    match b with
    | i :: _ => match s_names !! Z.to_nat i with Some n => Ok (mkMethod n FunctionT) | None => Err (Error ErrOther "no method") end
    | [] => Err (Error ErrOther "no method")
    end;
  HasReceive := false; HasFallback := false;
  abi_Receive := mkMethod "" ReceiveType; abi_Fallback := mkMethod "" FallbackType;
  Inputs_Unpack m b := Ok (s_unpack (m_Name m) b);
  Outputs_Pack _ v := match v with [VBool b] => Ok (be 32 (if b then 1 else 0)) | _ => Err (Error ErrOther "pack") end;
  Event_ID name := Keccak256Hash (str_bytes name);
  Event_Pack _ v := match v with [VBig n] => Ok (be 32 n) | _ => Err (Error ErrOther "pack") end;
|}.
Definition s_pre : Precompile := mkPrecompile s_abi (mkGasConfig 0 0 0 0) 2048.
Definition s_delegation (who validator : Address) (n : Z) : bytes :=
  [0; 0; 0; 0] ++ be 32 who ++ be 32 n ++ str_bytes (val_bech32_of (address_bytes validator)).
Definition s_call (caller : Address) (input : bytes) : Contract := mkContract caller 0 input 5000000.
Definition s_input (i : Z) : bytes := [i; 0; 0; 0] ++ be 32 e_alice.

(** Alice has five coins, the module a hundred. *)
Definition s_app : KS := SStore (<[e_alice := s_scale 5]> (<[s_pool := s_scale 100]> ∅)) 0.
Definition s_db : StateDB := New s_app [] (NewEmptyTxConfig 5).
Definition s_start : pc_state := PCS s_db (NewGasMeter 5000000).

Lemma s_loads : loads s_db.
Proof. intros a. by eexists. Qed.
Lemma s_shows : shows_u256 s_db.
Proof.
  intros a. unfold shown, obj_at. cbn [stateObjects s_db New]. rewrite lookup_empty. unfold load. cbn.
  destruct (decide (a = e_alice)) as [->|]; [by split|]. rewrite lookup_insert_ne by done.
  destruct (decide (a = s_pool)) as [->|]; [by split|]. by rewrite lookup_insert_ne by done.
Qed.

(** * The theorems on it *)

Definition s_run (SV : MsgServers) (caller who validator : Address) (n : Z) : res (option bytes * Z) * pc_state :=
  contract_run (servers := SV) x_info 9 s_pre StakingContract 5000000 (s_call caller (s_delegation who validator n)) false s_start.
Lemma s_caller caller input : caller = e_alice \/ caller = e_bob -> address_ok (ct_Caller (s_call caller input)).
Proof. intros [-> | ->]; by split. Qed.
(** Alice delegates for herself; Bob cannot for her. *)
Lemma messages_act_for_caller_witness :
  s_run (guarded e_alice s_servers) e_alice e_alice 30 3 = s_run s_servers e_alice e_alice 30 3 /\
  s_run (guarded e_bob s_servers) e_bob e_alice 30 3 = s_run s_servers e_bob e_alice 30 3 /\
  answered (s_run s_servers e_alice e_alice 30 3).1 /\ ~ answered (s_run s_servers e_bob e_alice 30 3).1.
Proof.
  split; [exact (messages_act_for_caller x_info 9 s_pre s_servers (s_call e_alice (s_delegation e_alice 30 3))
    (s_caller e_alice _ (or_introl eq_refl)) StakingContract 5000000 false s_start)|].
  split; [exact (messages_act_for_caller x_info 9 s_pre s_servers (s_call e_bob (s_delegation e_alice 30 3))
    (s_caller e_bob _ (or_intror eq_refl)) StakingContract 5000000 false s_start)|].
  split; [eexists; vm_compute; reflexivity|]. intros [x Hx]. vm_compute in Hx. discriminate.
Defined.

Definition s_delegated : res (option bytes * Z) * pc_state := s_run s_servers e_alice e_alice 30 3.
Definition s_answer : option bytes * Z := Eval vm_compute in match s_delegated.1 with Ok r => r | _ => (None, 0) end.
Lemma s_delegated_fst : s_delegated.1 = Ok s_answer.
Proof. vm_compute. reflexivity. Qed.
Definition s_moved : list bank_event := [BSpent e_alice [Coin "uguru" 3]; BReceived s_pool [Coin "uguru" 3]].
Lemma sdk_call_mirrors_bank_witness :
  shown (pc_db s_delegated.2) e_alice = uint256 (shown s_db e_alice + lsum (map (event_delta x_info e_alice) s_moved)) /\
  shown (pc_db s_delegated.2) e_alice = s_scale 2.
Proof.
  split; [|vm_compute; reflexivity].
  destruct (sdk_call_mirrors_bank x_info 9 s_pre StakingContract 5000000 (s_call e_alice (s_delegation e_alice 30 3)) false s_start
    s_answer s_delegated.2 (New_wf _ _ _) s_loads s_shows (run_fst _ _ _ s_delegated_fst)) as (evs & He & Hall).
  apply (Hall s_moved).
  - cut (cache_events s_delegated.2 = map event_of s_moved); [|vm_compute; reflexivity]. intros E. rewrite <- E, He. done.
  - repeat constructor; done.
Defined.

(** The module takes the coins, then the event cannot be made. *)
Definition s_snap : StateDB := (Snapshot s_db).2.
Definition s_reason (s : string) : option bytes := Some (str_bytes s).
Definition s_failed : res (option bytes * option error) * pc_state :=
  reverting s_reason (contract_run x_info 9 s_pre StakingContract 5000000 (s_call e_alice (s_delegation e_alice 31 3)) false)
    (PCS s_snap (NewGasMeter 5000000)).
Definition s_revert : option bytes * option error :=
  (Some (RevertSelector ++ str_bytes "insufficient delegation shares"), Some (Error ErrExecutionReverted "execution reverted")).
Lemma s_failed_fst : s_failed.1 = Ok s_revert.
Proof. vm_compute. reflexivity. Qed.
Lemma sdk_call_undone_witness :
  ss_bonded (ctx_of s_failed.2) = 3 /\
  exists t, RevertToSnapshot 0 (pc_db s_failed.2) = (Ok tt, t) /\ same_answers s_db t /\
    jrnl t = jrnl s_db /\ ctx t = ctx s_db /\ cache_view t = cache_view s_db.
Proof.
  split; [vm_compute; reflexivity|].
  exact (sdk_call_undone x_info 9 s_pre s_reason StakingContract 5000000 (s_call e_alice (s_delegation e_alice 31 3)) false
    s_db 0 s_snap (NewGasMeter 5000000) s_revert s_failed.2 (New_wf _ _ _) eq_refl (run_fst _ _ _ s_failed_fst)).
Defined.

Definition s_key : bytes := map Z.of_nat (seq 100 32).
Lemma consensus_key_roundtrip_witness :
  NewMsgCreateValidator
    [VTuple [VString "m"; VString ""; VString ""; VString ""; VString ""]; VTuple [VBig 1; VBig 2; VBig 3]; VBig 1;
     VAddress e_alice; VString (FormatConsensusPubkey (CachedKey s_key)); VBig 3] "uguru" =
  Ok (mkCreateValidator (mkDescription "m" "" "" "" "") 1 2 3 1 (bech32_of (address_bytes e_alice))
        (val_bech32_of (address_bytes e_alice)) s_key (Coin "uguru" 3), e_alice).
Proof.
  exact (consensus_key_roundtrip s_key "m" "" "" "" "" 1 2 3 1 e_alice 3 "uguru"
    ltac:(repeat constructor; done) eq_refl ltac:(done) eq_refl eq_refl).
Defined.

Lemma s_rewards d v c cs c' : serve (mWithdrawDelegationRewards d v) c = (Ok cs, c') -> coins_wf cs = true.
Proof. cbn. unfold s_reward, bind. destruct (s_move _ _ _ _ _ c) as [[]]; [|done..]. by intros [= <- _]. Qed.
Definition s_claim : res (option bytes) * pc_state :=
  distr_ClaimRewards 9 s_pre (s_call e_alice []) (mkMethod "claimRewards" FunctionT) [VAddress e_alice; VUint32 10]
    (PCS (with_write (Some CacheEvents) (with_cache (Some (mkCache [Some s_app] [])) s_db)) (NewGasMeter 5000000)).
Lemma s_claim_fst : s_claim.1 = Ok (Some (be 32 1)).
Proof. vm_compute. reflexivity. Qed.
Lemma ClaimRewards_claims_witness :
  (exists css l, length css = 2%nat /\ last (logs (pc_db s_claim.2)) = Some l /\
    Event_Pack s_abi "ClaimRewards" [VBig (lsum (map (fun cs => amount_of cs "uguru") css))] = Ok (lg_Data l)) /\
  option_map lg_Data (last (logs (pc_db s_claim.2))) = Some (be 32 4).
Proof.
  split; [|vm_compute; reflexivity].
  destruct (ClaimRewards_claims 9 s_pre s_rewards (s_call e_alice []) (mkMethod "claimRewards" FunctionT) e_alice 10
    (PCS (with_write (Some CacheEvents) (with_cache (Some (mkCache [Some s_app] [])) s_db)) (NewGasMeter 5000000))
    (Some (be 32 1)) s_claim.2 (run_fst _ _ _ s_claim_fst))
    as (maxVals & ops & css & denom & data & s1 & s2 & s3 & s4 & l & _ & _ & _ & Hops & Hw & Hd & Hp & Hl & _ & _ & Hdata).
  exists css, l. injection Hops as <- <-. injection Hd as <- <-. split_and!.
  - inversion_clear Hw as [|? ? ? ? ? ? ? ? _ _ Hw']. inversion_clear Hw' as [|? ? ? ? ? ? ? ? _ _ Hw]. by inversion_clear Hw.
  - by rewrite Hl, last_snoc.
  - by rewrite Hdata.
Defined.

Lemma s_unnamed : unpacks_unnamed s_pre.
Proof. intros method b args [= <-]. unfold s_unpack. repeat case_decide; repeat constructor. Qed.
Lemma methods_never_answer_witness :
  ~ answered (evidence_run 9 s_pre x_info 5000000 (s_call e_alice (s_input 1)) false s_start).1 /\
  ~ answered (evidence_run 9 s_pre x_info 5000000 (s_call e_alice (s_input 2)) false s_start).1 /\
  ~ answered (slashing_run 9 s_pre x_info 5000000 (s_call e_alice (s_input 3)) false s_start).1.
Proof.
  split_and!.
  - exact (proj1 (methods_never_answer x_info 9 s_pre 5000000 (s_call e_alice (s_input 1)) false s_start s_unnamed)
      (mkMethod "submitEvidence" FunctionT) eq_refl (or_introl eq_refl)).
  - exact (proj1 (methods_never_answer x_info 9 s_pre 5000000 (s_call e_alice (s_input 2)) false s_start s_unnamed)
      (mkMethod "getAllEvidence" FunctionT) eq_refl (or_intror eq_refl)).
  - exact (proj2 (methods_never_answer x_info 9 s_pre 5000000 (s_call e_alice (s_input 3)) false s_start s_unnamed)
      (mkMethod "getParams" FunctionT) eq_refl eq_refl).
Defined.

Lemma getProposals_panics_witness :
  (exists msg, (gov_GetProposals s_pre (mkMethod "getProposals" FunctionT) [VUint32 0; VAddress 0; VAddress 0; VTuple []] s_start).1
    = Panic msg) /\
  Forall (fun q => answered (ProposalOutput q)) [s_proposal 1 (Some 150); s_proposal 2 None].
Proof.
  exact (getProposals_panics s_pre (mkMethod "getProposals" FunctionT) [VUint32 0; VAddress 0; VAddress 0; VTuple []]
    (0, "", "", mkPage [] 0 100 false false) [s_proposal 1 (Some 150); s_proposal 2 None] None s_start _ (s_proposal 2 None)
    eq_refl eq_refl ltac:(apply list_elem_of_further, list_elem_of_here) eq_refl
    ltac:(repeat constructor; eexists; vm_compute; reflexivity)).
Defined.
