(* ===== verification/CallEvm.v ===== *)
(** Calls of contracts by the modules of the chain ([x/vm/keeper/call_evm.go]): a
    message without value or price under a fixed gas limit, charged to the gas meter
    of the context.  What a call changes: a query nothing but the meter, a failed
    call the whole limit of the meter. *)
From S2P Require Import Prelude KVStore Sdk EvmConfig BankModel PreciseBank PreciseBankThms FeeMarket FeeMarketThms StateDB StateDBInv StateDBRun StateDBOps.
From S2P Require Import StateDBMachine StateDBThms StateDBType StateDBCommit StateDBReach.
From S2P Require Import Wrappers VmKeeper VmKeeperThms TxData TxDataThms VmGas VmParams StateTransition StateTransitionThms.
From S2P Require Import EvmCompose EthModel EthAnte EthAnteThms EthCompose Precompile.
Import AccessList Transient Meter.

(** * The context under a database

    Only a commit writes the store and the events the database was opened on. *)

Section context.
Context `{Keccak, StateKeeper}.
Implicit Types (s t : StateDB).

Definition same_context s t : Prop := ctx t = ctx s /\ ctx_events t = ctx_events s.
#[local] Instance same_context_preorder : PreOrder same_context.
Proof. split; [by intros s|]. intros s t u [? ?] [? ?]. split; congruence. Qed.

Lemma getStateObject_context a s r s' : getStateObject a s = (r, s') -> same_context s s'.
Proof.
  unfold getStateObject. rewrite bind_gets. destruct (stateObjects s !! a); [by intros [= _ <-]|].
  destruct (k_GetAccount (ctx s) a) as [m|[acct|]]; by intros [= _ <-].
Qed.
Lemma on_object_context a f s r s' : on_object a f s = (r, s') -> same_context s s'.
Proof.
  unfold on_object, bind. destruct (getStateObject a s) as [[[o|]|e|m] s1] eqn:E; apply getStateObject_context in E;
    unfold update, modify, panic; by intros [= _ <-].
Qed.
Lemma Revert_entry_context e s r s' : Revert_entry e s = (r, s') -> same_context s s'.
Proof.
  destruct e; simpl; try apply on_object_context; try by intros [= _ <-].
  - unfold bind. destruct (getStateObject a s) as [[[o|]|e|m] s1] eqn:E; apply getStateObject_context in E;
      unfold update, modify, ret; by intros [= _ <-].
  - rewrite bind_gets. destruct (logs s); by intros [= _ <-].
  - rewrite bind_gets. unfold bind, lift. destruct (DeleteSlot _ _ _); by intros [= _ <-].
  - unfold RevertMultiStore. rewrite bind_gets. destruct (cacheCtx s); [|by intros [= _ <-]]. case_match; by intros [= _ <-].
Qed.
Lemma undo_context l s r s' : each undo_entry l s = (r, s') -> same_context s s'.
Proof.
  revert s. induction l as [|e l IH]; intros s; cbn [each]; [by intros [= _ <-]|]. unfold bind at 1.
  destruct (undo_entry e s) as [[[]|er|m] s1] eqn:E; unfold undo_entry, bind in E;
    destruct (Revert_entry e s) as [[[]|er'|m'] s2] eqn:E2; apply Revert_entry_context in E2; unfold modify in E; simplify_eq.
  - intros Hr. apply IH in Hr. etrans; [exact E2|]. etrans; [|exact Hr]. done.
  - by intros [= _ <-].
  - by intros [= _ <-].
Qed.
Lemma jstep_context s s' : jstep s s' -> same_context s s'.
Proof.
  intros [_ _ _ _ (es & t & _ & _ & _ & Hu & Hr)]. apply undo_context in Hu as [E1 E2].
  split; [by rewrite <- E1, (rs_ctx _ _ Hr)|by rewrite <- E2, (rs_events _ _ Hr)].
Qed.
Lemma run_op_context op s s' : sdb_wf s -> run_op op s = (Ok tt, s') -> same_context s s'.
Proof.
  intros Hw Hr. destruct (is_step op) eqn:Hop.
  - pose proof (op_steps op Hop _ _ _ Hw Hr) as Hs. clear Hr Hw. induction Hs; [reflexivity|]. etrans; [by apply jstep_context|done].
  - destruct op; try done; simpl in Hr.
    + unfold void, Snapshot, bind, gets, modify, ret in Hr. by injection Hr as <-.
    + apply RevertToSnapshot_run in Hr as (i & q & t & _ & _ & Hu & ->). by apply undo_context in Hu.
Qed.
Lemma reachable_context c evs txc s : reachable c evs txc s -> ctx s = c /\ ctx_events s = evs.
Proof.
  induction 1 as [|rules sender coinbase dst pre l s Hp|s op s' Hs IH Hr].
  - done.
  - unfold Prepare in Hp. destruct (_ && _); [done|]. apply bind_ok in Hp as ([] & s1 & Hp & [= <-]).
    assert (exists al, s1 = with_access al (New c evs txc)) as [al ->].
    { destruct (IsEIP2929 rules); [apply bind_lift_ok in Hp as (al & _ & [= <-]); eauto|].
      injection Hp as <-. by exists (access (New c evs txc)). }
    done.
  - apply reachable_wf in Hs as Hw. destruct (run_op_context _ _ _ Hw Hr) as [E1 E2]. destruct IH. split; congruence.
Qed.
End context.

(** * The gas meter of the context

    The infinite meter of Ethereum transactions, or the one of the SDK, which stops
    at its limit. *)
Class GasMeterLib := { meter_ConsumeGas : Z -> M gas_meter unit }.
Class GasMeterLaws `{GasMeterLib} := {
  meter_consumes : forall n g u g', meter_ConsumeGas n g = (Ok u, g') -> g' = mkMeter (consumed g + n) (limit g);
  meter_reaches : forall l, 0 <= l < 2 ^ 64 -> meter_ConsumeGas l (mkMeter 0 l) = (Ok tt, mkMeter l l);
}.
(** Out of gas is a panic here: only precompiled contracts recover it. *)
Definition limited_ConsumeGas (amount : Z) : M gas_meter unit := fun g =>
  match basic_ConsumeGas amount g with
  | (Err (Error _ m), g') => (Panic m, g')
  | x => x
  end.
Definition InfiniteMeter : GasMeterLib := {| meter_ConsumeGas := ConsumeGas |}.
Definition BasicMeter : GasMeterLib := {| meter_ConsumeGas := limited_ConsumeGas |}.

Lemma no_overflow l : 0 <= l < 2 ^ 64 -> addUint64Overflow 0 l = (l, false).
Proof. intros. unfold addUint64Overflow, max_uint64. by destruct (Z.ltb_spec (2 ^ 64 - 1 - 0) l); [lia|]. Qed.
#[export] Instance InfiniteMeterLaws : @GasMeterLaws InfiniteMeter.
Proof.
  split; cbn [meter_ConsumeGas InfiniteMeter]; unfold ConsumeGas.
  - intros n g u g'. rewrite bind_gets. unfold addUint64Overflow. destruct (_ <? n); [done|]. by intros [= _ <-].
  - intros l Hl. rewrite bind_gets. cbn [consumed]. by rewrite no_overflow.
Qed.
#[export] Instance BasicMeterLaws : @GasMeterLaws BasicMeter.
Proof.
  split; cbn [meter_ConsumeGas BasicMeter]; unfold limited_ConsumeGas, basic_ConsumeGas.
  - intros n g u g'. unfold addUint64Overflow. destruct (_ <? n); [done|]. destruct (_ <? _); [done|]. by intros [= _ <-].
  - intros l Hl. cbn [consumed limit]. rewrite no_overflow by done. by rewrite Z.ltb_irrefl.
Qed.

Section call.
Context `{DecLib, Keccak, EthCore, EvmAccounts, EvmBank, GasMeterLib}.
Variable info : EvmCoinInfo.
#[local] Instance ce_keeper : StateKeeper := VmStateKeeper info.
Context `{!Interp}.
Variable chain : ChainConfig.
Variable consensus_params : option (option Z).
Variable GetValidatorByConsAddr : bytes -> res string.

Definition DefaultGasCap : Z := 25000000.

(** [accountKeeper.GetSequence] *)
Definition GetSequence (s : vm_state) (a : Address) : res Z :=
  match ea_GetAccount (vm_accounts s) (address_bytes a) with
  | None => Err (Error ErrUnknownAddress "account does not exist")
  | Some acc => Ok (ea_sequence acc)
  end.
Definition call_message (from : Address) (contract : option Address) (nonce : Z) (data : bytes) : Message :=
  mkMessage from contract nonce 0 DefaultGasCap 0 0 0 data (Some []).
Definition meter_reset (n : Z) : M gas_meter unit :=
  let! c := gets GasConsumed in do! RefundGas c; meter_ConsumeGas n.

Definition on_stores {A} (m : M (vm_state * list event) A) : M evm_state A :=
  zoom (fun s => (es_store s, es_events s)) (fun p s => ES p.1 p.2 (es_transient s) (es_meter s)) m.

(** The response of a failed call is returned with the error; it is not used. *)
Definition CallEVMWithData (c : EvmCtx) (fm : fm_state) (params : option VmParams) (from : Address)
    (contract : option Address) (data : bytes) (commit : bool) : M evm_state MsgEthereumTxResponse :=
  let! nonce := (fun s => (GetSequence (es_store s) from, s)) in
  let msg := call_message from contract nonce data in
  let! res := on_stores (ApplyMessage info chain consensus_params GetValidatorByConsAddr c fm params msg commit true) in
  if Failed res then
    do! on_meter (let! l := gets Limit in meter_reset l);
    throw (Error ErrVMExecution (r_VmError res))
  else
    do! on_meter (meter_ConsumeGas (r_GasUsed res));
    ret res.
Definition vm_CallEVM (c : EvmCtx) (fm : fm_state) (params : option VmParams) (from contract : Address)
    (commit : bool) (packed : res bytes) : M evm_state MsgEthereumTxResponse :=
  match packed with
  | Ok data => wrapping "contract call failed" (CallEVMWithData c fm params from (Some contract) data commit)
  | Err e => fail ErrABIPack "failed to create transaction data"
  | Panic m => panic m
  end.
End call.

Section thms.
Context `{DecLib, !DecLaws, Keccak, EthCore, !EthCoreLaws, EvmAccounts, !EvmAccountsLaws, EvmBank, GasMeterLib, !GasMeterLaws}.
Variable info : EvmCoinInfo.
Hypothesis Hkeccak : forall b, u256 (Keccak256Hash b).
#[local] Instance ct_keeper : StateKeeper := VmStateKeeper info.
#[local] Instance ct_types : KeeperTypes := VmKeeperTypes info Hkeccak.
Context `{!Interp, !InterpLaws}.
Variable chain : ChainConfig.
Variable consensus_params : option (option Z).
Variable GetValidatorByConsAddr : bytes -> res string.

Abbreviation call c fm params := (CallEVMWithData info chain consensus_params GetValidatorByConsAddr c fm params).

Lemma sequence_u64 s a n : GetSequence s a = Ok n -> 0 <= n < 2 ^ 64.
Proof.
  unfold GetSequence. destruct (ea_GetAccount _ _) as [x|] eqn:E; [|done]. intros [= <-]. by eapply ea_sequence_u64.
Qed.

Lemma call_message_typed from contract nonce data :
  u160 from -> (forall a, contract = Some a -> u160 a) -> u64 nonce -> msg_typed (call_message from contract nonce data).
Proof. intros Hf Hc Hn. split_and!; try done. Qed.

(** The two ways a call can end without an error of its own message. *)
Lemma CallEVMWithData_run c fm params from contract data commit s r s' nonce res p :
  GetSequence (es_store s) from = Ok nonce ->
  ApplyMessage info chain consensus_params GetValidatorByConsAddr c fm params (call_message from contract nonce data)
    commit true (es_store s, es_events s) = (Ok res, p) ->
  call c fm params from contract data commit s = (r, s') ->
  let t := ES p.1 p.2 (es_transient s) (es_meter s) in
  if Failed res
  then (do! on_meter (let! l := gets Limit in meter_reset l);
        throw (Error ErrVMExecution (r_VmError res)) : M evm_state MsgEthereumTxResponse) t = (r, s')
  else (do! on_meter (meter_ConsumeGas (r_GasUsed res)); ret res) t = (r, s').
Proof.
  intros Hn Ha Hr. unfold CallEVMWithData in Hr. unfold bind at 1 in Hr. rewrite Hn in Hr. unfold bind at 1 in Hr.
  unfold on_stores, zoom, ce_keeper in Hr. unfold ct_keeper in Ha. rewrite Ha in Hr. cbv zeta. by destruct (Failed res).
Qed.

Lemma ApplyMessage_effect c fm params msg commit st res p :
  kv_ok (vm_kv st.1) -> msg_typed msg -> Params_Validate (GetParams fm) = Ok tt ->
  ApplyMessage info chain consensus_params GetValidatorByConsAddr c fm params msg commit true st = (Ok res, p) ->
  (commit = false -> p = st) /\ 0 <= r_GasUsed res <= msg_GasLimit msg.
Proof.
  intros Hk Hm Hv Hr. unfold ApplyMessage in Hr. unfold bind, wrapping, lift in Hr.
  destruct (EVMConfig_of _ _ _ _ _ _ _) as [cfg|e|m] in Hr; [|by destruct e|done].
  destruct (@message_effect _ _ _ ct_keeper ct_types _ _ _ _ info chain consensus_params c fm msg commit cfg _ true
    st res p Hk Hm Hv Hr) as (db & db' & Hreach & Ht & Hc & -> & _ & intrinsic & m & Hi & _ & [Hlo Hu] & _).
  split; [|cbv zeta in Hlo; rewrite Z.div_1_r in Hlo; lia].
  intros ->. subst db'. apply reachable_context in Hreach as [-> ->]. by destruct st.
Qed.
Lemma GetSequence_state s a r s' : (fun s => (GetSequence (es_store s) a, s)) s = (Ok r, s') ->
  GetSequence (es_store s) a = Ok r /\ s' = s.
Proof. by intros [= -> ->]. Qed.

(** A call that is not committed and returns has changed the gas meter only, by the
    gas it used, which is at most the cap: no store, event or transient value. *)
Theorem query_changes_meter_only c fm params from contract data s res s' :
  kv_ok (vm_kv (es_store s)) -> u160 from -> (forall a, contract = Some a -> u160 a) ->
  Params_Validate (GetParams fm) = Ok tt ->
  call c fm params from contract data false s = (Ok res, s') ->
  Failed res = false /\ 0 <= r_GasUsed res <= DefaultGasCap /\
  s' = ES (es_store s) (es_events s) (es_transient s)
    (mkMeter (consumed (es_meter s) + r_GasUsed res) (limit (es_meter s))).
Proof.
  intros Hk Hf Hc Hv Hr. pose proof Hr as Hr'. unfold CallEVMWithData in Hr'. apply bind_ok in Hr' as (nonce & s1 & Hn & Hr').
  apply GetSequence_state in Hn as [Hn ->]. apply bind_ok in Hr' as (r & s1 & Ha & _).
  apply zoom_ok in Ha as (p & Ha & _).
  destruct (ApplyMessage_effect _ _ _ _ _ (es_store s, es_events s) _ _ Hk (call_message_typed _ _ _ data Hf Hc (sequence_u64 _ _ _ Hn)) Hv Ha)
    as [Hp Hu].
  pose proof (CallEVMWithData_run _ _ _ _ _ _ _ _ _ _ _ _ _ Hn Ha Hr) as Hend. rewrite (Hp eq_refl) in Hend.
  destruct (Failed r) eqn:Hfail; apply bind_ok in Hend as ([] & t & Hm & Hend); [done|].
  injection Hend as <- <-. apply zoom_ok in Hm as (g & Hm & ->). apply meter_consumes in Hm as ->. done.
Qed.

(** A call whose contract fails, committed or not, ends in [ErrVMExecution] with the
    context's meter at its limit. *)
Theorem failed_call_takes_limit c fm params from contract data commit s nonce res p :
  0 <= consumed (es_meter s) -> u64 (limit (es_meter s)) ->
  GetSequence (es_store s) from = Ok nonce ->
  ApplyMessage info chain consensus_params GetValidatorByConsAddr c fm params (call_message from contract nonce data)
    commit true (es_store s, es_events s) = (Ok res, p) ->
  Failed res = true ->
  call c fm params from contract data commit s =
    (Err (Error ErrVMExecution (r_VmError res)),
     ES p.1 p.2 (es_transient s) (mkMeter (limit (es_meter s)) (limit (es_meter s)))).
Proof.
  intros Hg Hl Hn Ha Hfail. destruct (call c fm params from contract data commit s) as [r s'] eqn:Hr.
  pose proof (CallEVMWithData_run _ _ _ _ _ _ _ _ _ _ _ _ _ Hn Ha Hr) as Hend. rewrite Hfail in Hend. rewrite <- Hend.
  unfold bind at 1, on_meter, zoom. cbn [es_meter]. unfold meter_reset. rewrite bind_gets, bind_gets.
  unfold bind at 1, RefundGas, GasConsumed. rewrite bind_gets, Z.ltb_irrefl. unfold modify. rewrite Z.sub_diag.
  unfold Limit. by rewrite meter_reaches.
Qed.
End thms.

(** * A query of the model chain

    Alice's account asks the contract that stores its first byte: the value is not
    there afterwards; the call that reverts takes the whole meter. *)
Definition q_state : evm_state := ES e_vm [] ∅ (mkMeter 500 90000000).
Definition q_call (data : bytes) : res MsgEthereumTxResponse * evm_state :=
  @CallEVMWithData _ _ _ _ _ BasicMeter x_info ModelInterp h_chain None h_validator h_ctx h_fm None e_alice (Some e_dapp)
    data false q_state.
Definition q_answer (data : bytes) : MsgEthereumTxResponse :=
  match (q_call data).1 with Ok r => r | _ => mkResponse 0 [] [] "" 0 end.
Lemma q_call_ok data : is_ok (q_call data).1 = true ->
  @CallEVMWithData _ _ _ _ _ BasicMeter x_info ModelInterp h_chain None h_validator h_ctx h_fm None e_alice (Some e_dapp)
    data false q_state = (Ok (q_answer data), (q_call data).2).
Proof. unfold q_answer. fold (q_call data). by destruct (q_call data) as [[] ?]. Qed.
Lemma q_dapp a : Some e_dapp = Some a -> u160 a.
Proof. by intros [= <-]. Qed.
Lemma q_alice : u160 e_alice.
Proof. done. Qed.

Lemma query_changes_meter_only_witness :
  es_store (q_call [5]).2 = e_vm /\ consumed (es_meter (q_call [5]).2) = 500 + r_GasUsed (q_answer [5]) /\
  21000 < r_GasUsed (q_answer [5]).
Proof.
  assert (is_ok (q_call [5]).1 = true) as Ho by (vm_compute; reflexivity).
  destruct (@query_changes_meter_only _ _ _ _ _ _ _ _ BasicMeter _ x_info model_keccak ModelInterp _ h_chain None
    h_validator h_ctx h_fm None e_alice (Some e_dapp) [5] q_state (q_answer [5]) (q_call [5]).2 e_kv_ok
    q_alice q_dapp h_fm_valid (q_call_ok [5] Ho)) as (_ & _ & E).
  split; [exact (f_equal es_store E)|]. split; [exact (f_equal (fun s => consumed (es_meter s)) E)|].
  vm_compute. reflexivity.
Defined.
