(* ===== verification/VmQuery.v ===== *)
(** Queries and genesis of x/vm: the arguments of a call ([types/tx_args.go]), the
    queries of accounts, code and storage, simulated calls, gas estimation and
    tracing ([keeper/grpc_query.go]), and the import and export of contracts
    ([genesis.go], [types/genesis.go], [types/storage.go]).

    The decoding of JSON, tracers and the texts of byte strings are parameters.  A
    number or hash that a response carries as text is the number here. *)
From S2P Require Import Prelude KVStore Sdk EvmConfig FeeMarket StateDB Wrappers VmKeeper TxData VmGas VmParams StateTransition.

(** * Arguments of a call *)

(** A nil pointer is [None].  The fields of blob transactions and of authorizations,
    which the state transition does not read, are left out. *)
Record TransactionArgs := mkArgs {
  ta_From : option Address; ta_To : option Address; ta_Gas : option Z; ta_GasPrice : option Z;
  ta_MaxFeePerGas : option Z; ta_MaxPriorityFeePerGas : option Z; ta_Value : option Z; ta_Nonce : option Z;
  ta_Data : option bytes; ta_Input : option bytes; ta_AccessList : option (list (Address * list Hash));
  ta_ChainID : option Z;
}.
Definition args_GetFrom (args : TransactionArgs) : Address := default 0 (ta_From args).
Definition args_GetData (args : TransactionArgs) : bytes :=
  match ta_Input args with Some b => b | None => default [] (ta_Data args) end.
Definition with_nonce (n : Z) (args : TransactionArgs) : TransactionArgs :=
  mkArgs (ta_From args) (ta_To args) (ta_Gas args) (ta_GasPrice args) (ta_MaxFeePerGas args)
    (ta_MaxPriorityFeePerGas args) (ta_Value args) (Some n) (ta_Data args) (ta_Input args) (ta_AccessList args) (ta_ChainID args).

(** The price of the gas, the fee cap and the tip cap. *)
Definition args_prices (args : TransactionArgs) (baseFee : option Z) : Z * Z * Z :=
  match baseFee with
  | None => let gasPrice := default 0 (ta_GasPrice args) in (gasPrice, gasPrice, gasPrice)
  | Some baseFee =>
      match ta_GasPrice args with
      | Some gasPrice => (gasPrice, gasPrice, gasPrice)
      | None =>
          let gasFeeCap := default 0 (ta_MaxFeePerGas args) in
          let gasTipCap := default 0 (ta_MaxPriorityFeePerGas args) in
          let gasPrice := if negb (gasFeeCap =? 0) || negb (gasTipCap =? 0)
            then let gasPrice := gasTipCap + baseFee in if gasFeeCap <? gasPrice then gasFeeCap else gasPrice
            else 0 in
          (gasPrice, gasFeeCap, gasTipCap)
      end
  end.
Definition args_gas (args : TransactionArgs) (globalGasCap : Z) : Z :=
  let gas := if globalGasCap =? 0 then max_uint64 / 2 else globalGasCap in
  let gas := default gas (ta_Gas args) in
  if negb (globalGasCap =? 0) && (globalGasCap <? gas) then globalGasCap else gas.
(** The flags that skip checks of go-ethereum are left out: the state transition
    makes none of them. *)
Definition ToMessage (args : TransactionArgs) (globalGasCap : Z) (baseFee : option Z) : res Message :=
  if bool_decide (is_Some (ta_GasPrice args)) &&
     (bool_decide (is_Some (ta_MaxFeePerGas args)) || bool_decide (is_Some (ta_MaxPriorityFeePerGas args)))
  then Err (Error ErrOther "both gasPrice and (maxFeePerGas or maxPriorityFeePerGas) specified")
  else
    let '(gasPrice, gasFeeCap, gasTipCap) := args_prices args baseFee in
    Ok (mkMessage (args_GetFrom args) (ta_To args) (default 0 (ta_Nonce args)) (default 0 (ta_Value args))
          (args_gas args globalGasCap) gasPrice gasFeeCap gasTipCap (args_GetData args) (ta_AccessList args)).

Section to_transaction.
Context `{EthHex, EthTypes}.
(** [sdkmath.NewIntFromBigInt] of a number that may be nil *)
Definition int_arg (n : option Z) : res (option Z) :=
  match n with None => Ok None | Some n => let? z := int_chk n in Ok (Some z) end.
Definition args_data (args : TransactionArgs) : res TxData :=
  let? chainID := int_arg (ta_ChainID args) in
  let? gasPrice := int_arg (ta_GasPrice args) in
  let? maxFeePerGas := int_arg (ta_MaxFeePerGas args) in
  let? maxPriorityFeePerGas := int_arg (ta_MaxPriorityFeePerGas args) in
  let? value := int_arg (ta_Value args) in
  let nonce := default 0 (ta_Nonce args) in
  let gas := default 0 (ta_Gas args) in
  let to := to_hex (ta_To args) in
  let data := args_GetData args in
  Ok (match ta_MaxFeePerGas args, ta_AccessList args with
      | Some _, al =>
          TDynamic (mkDynamicFeeTx chainID nonce maxPriorityFeePerGas maxFeePerGas gas to value data
            (match al with None => Some [] | al => NewAccessList al end) [] [] [])
      | None, Some al =>
          TAccessList (mkAccessListTx chainID nonce gasPrice gas to value data (NewAccessList (Some al)) [] [] [])
      | None, None => TLegacy (mkLegacyTx nonce gasPrice gas to value data [] [] [])
      end).
Definition ToTransaction (args : TransactionArgs) : res MsgEthereumTx :=
  let? data := args_data args in
  Ok (mkMsgEth (Some data) 0 (Hash_Hex (tx_Hash (NewTx (AsEthereumData data)))) (to_hex (ta_From args))).
End to_transaction.

(** * Queries *)

(** [status.Error(code, err.Error())] *)
Definition status {A} (r : res A) : res A :=
  match r with Err e => Err (Error ErrOther (e_msg e)) | r => r end.
Definition status_run {S A} (m : M S A) : M S A := fun s => let '(r, s') := m s in (status r, s').
Definition code_error {A} (msg : string) (r : res A) : res A :=
  match r with Err _ => Err (Error ErrOther msg) | r => r end.

(** The number an account of x/auth has. *)
Class AccountNumbers `{EvmAccounts} := { ea_number : acct -> Z }.

Record EthCallRequest := mkCallRequest { rq_Args : bytes; rq_GasCap : Z; rq_ProposerAddress : bytes }.
Record EstimateGasResponse := mkEstimate { eg_Gas : Z; eg_Ret : bytes; eg_VmError : string }.
Inductive CallType := RPC | Internal.
Definition TxGas : Z := 21000.
(** [vm.ErrOutOfGas.Error()] *)
Definition OutOfGasText : string := "out of gas".

Record TraceConfig := mkTraceConfig { tc_Tracer : string; tc_Timeout : string; tc_Limit : Z; tc_rest : bytes }.
(** Of go-ethereum and of the standard library: whether a tracer and its timeout can
    be made, and what the tracer reports of a run. *)
Class Tracers := {
  TraceResult : Type;
  tracer_New : TraceConfig -> TxConfig -> res unit;
  ParseDuration : string -> res unit;
  tracer_GetResult : TraceConfig -> TxConfig -> Message -> MsgEthereumTxResponse -> res TraceResult;
}.
Record TraceTxRequest := mkTraceTx {
  tt_Msg : MsgEthereumTx; tt_TraceConfig : option TraceConfig; tt_Predecessors : list MsgEthereumTx; tt_BlockNumber : Z;
  tt_BlockHash : bytes; tt_BlockTime : Z; tt_ProposerAddress : bytes; tt_BlockMaxGas : Z;
}.
Record TraceBlockRequest := mkTraceBlock {
  tb_Txs : list MsgEthereumTx; tb_TraceConfig : option TraceConfig; tb_BlockNumber : Z;
  tb_BlockHash : bytes; tb_BlockTime : Z; tb_ProposerAddress : bytes; tb_BlockMaxGas : Z;
}.
Definition maxTracePredecessors : nat := 10000.

Section query.
Context `{DecLib, Keccak, EthHex, EthTypes, !EthSigner, EthCore, EvmAccounts, EvmBank, AddressCodec}.
Variable info : EvmCoinInfo.
#[local] Instance q_keeper : StateKeeper := VmStateKeeper info.
Context `{!Interp, !AccountNumbers, !Tracers}.
Variable chain : ChainConfig.
Variable consensus_params : option (option Z).
Variable GetValidatorByConsAddr : bytes -> res string.
(** [sdk.ConsAddressFromBech32], [ValidatorAddressCodec().StringToBytes],
    [json.Unmarshal] into [TransactionArgs] *)
Variable cons_of_bech32 : string -> res bytes.
Variable val_bytes : string -> res addr.
Variable unmarshal_args : bytes -> res TransactionArgs.
Implicit Types (c : EvmCtx) (fm : fm_state) (params : option VmParams) (s : vm_state).

(** ** Accounts *)

Definition query_Account s (address : string) : res (Z * Hash * Z) :=
  let? _ := status (ValidateAddress address) in
  match GetAccountOrEmpty info s (HexToAddress address) with
  | inl m => Panic m
  | inr acct =>
      match Balance acct with
      | None => Panic "nil pointer dereference"
      | Some balance => Ok (balance, default 0 (CodeHash acct), Nonce acct)
      end
  end.
Definition account_numbers s (a : addr) : Z * Z :=
  match ea_GetAccount (vm_accounts s) a with Some x => (ea_sequence x, ea_number x) | None => (0, 0) end.
Definition query_CosmosAccount s (address : string) : res (string * (Z * Z)) :=
  let? _ := status (ValidateAddress address) in
  let cosmosAddr := address_bytes (HexToAddress address) in
  Ok (bech32_of cosmosAddr, account_numbers s cosmosAddr).
Definition query_ValidatorAccount s (consAddress : string) : res (string * (Z * Z)) :=
  let? consAddr := status (cons_of_bech32 consAddress) in
  let? valAddr := code_error "error while getting validator" (GetValidatorByConsAddr consAddr) in
  let? addrBz := code_error "error while getting validator" (val_bytes valAddr) in
  Ok (bech32_of addrBz, account_numbers s addrBz).
Definition query_Balance s (address : string) : res Z :=
  let? _ := code_error "address must not be zero" (ValidateAddress address) in
  let? b := vm_SpendableCoin info s (HexToAddress address) in
  match b with Some b => Ok b | None => Panic "nil pointer dereference" end.
Definition query_Storage s (address key : string) : res Hash :=
  let? _ := code_error "address must not be zero" (ValidateAddress address) in
  Ok (vm_GetState s (HexToAddress address) (HexToHash key)).
Definition query_Code s (address : string) : res (option bytes) :=
  let? _ := code_error "address must not be zero" (ValidateAddress address) in
  Ok (match GetAccountWithoutBalance s (HexToAddress address) with
      | Some acct => if IsContract acct then vm_GetCode s (default 0 (CodeHash acct)) else None
      | None => None
      end).
Definition query_BaseFee c fm : res (option Z) := vm_GetBaseFee info chain c fm.
Definition query_GlobalMinGasPrice fm : res Z :=
  let? p := GetMinGasPrice info fm in let? d := dec_val p in dec_trunc_int d.

(** ** Simulated calls *)

(** The stores and the events of a context. *)
Abbreviation st := (vm_state * list event)%type.
Definition simulated_config c : TxConfig := NewEmptyTxConfig (BytesToHash (x_header_hash c)).
Definition config_for c fm params (proposer : bytes) : res EVMConfig :=
  EVMConfig_of info chain GetValidatorByConsAddr c params fm (GetProposerAddress c proposer).

Definition EthCall c fm params (req : EthCallRequest) : M st MsgEthereumTxResponse :=
  let! args := lift (status (unmarshal_args (rq_Args req))) in
  let! cfg := lift (status (config_for c fm params (rq_ProposerAddress req))) in
  let! nonce := gets (fun x => vm_GetNonce x.1 (args_GetFrom args)) in
  let! msg := lift (status (ToMessage (with_nonce nonce args) (rq_GasCap req) (cfg_BaseFee cfg))) in
  status_run (ApplyMessageWithConfig info chain consensus_params c fm msg false cfg (simulated_config c) false).

(** ** Gas estimation *)

(** The highest gas the estimation may use: the gas asked for, the limit of a block
    or the cap of the request. *)
Definition highest_gas c (args : TransactionArgs) (gasCap : Z) : Z :=
  let hi := match ta_Gas args with
    | Some gas => if TxGas <=? gas then Some gas else None
    | None => None
    end in
  let hi := match hi with
    | Some gas => gas
    | None => match x_max_gas c with Some g => if 0 <? g then wrap64 g else gasCap | None => gasCap end
    end in
  if negb (gasCap =? 0) && (gasCap <? hi) then gasCap else hi.
(** What the sender can pay for. *)
Definition cap_by_funds s (args : TransactionArgs) (msg : Message) (hi : Z) : res Z :=
  if msg_GasFeeCap msg =? 0 then Ok hi
  else match ta_From args with
  | None => Panic "nil pointer dereference"
  | Some from =>
      let? balance := wrapper_SpendableCoin info (vm_bank s) (address_bytes from) (Denom info) in
      let? available := (match ta_Value args with
        | None => Ok (c_amt balance)
        | Some value =>
            if c_amt balance <=? value then Err (Error ErrInsufficientFunds "insufficient funds for transfer")
            else let? v := int_chk value in int_sub (c_amt balance) v
        end) in
      let? feeCap := int_chk (msg_GasFeeCap msg) in
      let? allowance := int_quo available feeCap in
      if is_uint64 allowance && (allowance <? hi)
      then if allowance <? TxGas then Err (Error ErrInsufficientFunds "insufficient funds for gas * price + value") else Ok allowance
      else Ok hi
  end.

Definition with_gas (gas : Z) (msg : Message) : Message :=
  mkMessage (msg_From msg) (msg_To msg) (msg_Nonce msg) (msg_Value msg) gas (msg_GasPrice msg) (msg_GasFeeCap msg)
    (msg_GasTipCap msg) (msg_Data msg) (msg_AccessList msg).
(** The account of the sender as the ante handler leaves it: a nonce further. *)
Definition simulate_nonce (from : Address) (nonce : Z) : M vm_state unit :=
  let! s := gets (fun s => s) in
  match vm_GetAccount info s from with
  | inl m => panic m
  | inr acct =>
      let! acct := (match acct with
        | Some acct => ret acct
        | None =>
            do! modify (on_accounts (fun k =>
                  let '(x, k) := ea_NewAccountWithAddress (address_bytes from) k in ea_SetAccount x k));
            ret (mkAccount 0 (Some 0) (Some EmptyCodeHash))
        end) in
      vm_SetAccount info from (mkAccount (wrap64 (nonce + 1)) (Balance acct) (CodeHash acct))
  end.
(** Whether a run fails, and its response.  The cached context of a query is dropped,
    and no run is committed. *)
Definition executable c fm (cfg : EVMConfig) (fromType : CallType) (nonce : Z) (msg : Message) (x : st) (gas : Z)
    : res (bool * option MsgEthereumTxResponse) :=
  let msg := with_gas gas msg in
  let prepared : res st :=
    match fromType with
    | Internal => Ok x
    | RPC => match simulate_nonce (msg_From msg) nonce x.1 with
             | (Ok _, s') => Ok (s', [])
             | (Err e, _) => Err e
             | (Panic m, _) => Panic m
             end
    end in
  let? y := prepared in
  match (ApplyMessageWithConfig info chain consensus_params c fm msg false cfg (simulated_config c) false y).1 with
  | Ok rsp => Ok (Failed rsp, Some rsp)
  | Err e => if decide (e_kind e = ErrIntrinsicGas) then Ok (true, None) else Err e
  | Panic m => Panic m
  end.

(** The answer when the run fails at the highest gas, too. *)
Definition last_failure (result : option MsgEthereumTxResponse) : res EstimateGasResponse :=
  match result with
  | Some r =>
      if bool_decide (r_VmError r = OutOfGasText) then Err (Error ErrOther "gas required exceeds allowance")
      else if bool_decide (r_VmError r = StateTransition.ErrExecutionReverted)
      then Ok (mkEstimate 0 (r_Ret r) (r_VmError r))
      else Err (Error ErrOther (r_VmError r))
  | None => Err (Error ErrOther "gas required exceeds allowance")
  end.
Definition search_gas (hi gasCap : Z) (run : Z -> res (bool * option MsgEthereumTxResponse)) : res EstimateGasResponse :=
  match BinSearch 64 (TxGas - 1) hi (fun g => let? r := run g in Ok r.1) with
  | None => Panic "out of fuel"
  | Some r =>
      let? hi := r in
      if hi =? gasCap
      then let? last := run hi in
           if last.1 then last_failure last.2 else Ok (mkEstimate hi [] "")
      else Ok (mkEstimate hi [] "")
  end.
Definition EstimateGasInternal c fm params (req : EthCallRequest) (fromType : CallType) (x : st) : res EstimateGasResponse :=
  if rq_GasCap req <? TxGas then Err (Error ErrOther "gas cap cannot be lower than 21000")
  else
    let? args := status (unmarshal_args (rq_Args req)) in
    let gasCap := highest_gas c args (rq_GasCap req) in
    let? cfg := code_error "failed to load evm config" (config_for c fm params (rq_ProposerAddress req)) in
    let nonce := vm_GetNonce x.1 (args_GetFrom args) in
    let? msg := status (ToMessage (with_nonce nonce args) (rq_GasCap req) (cfg_BaseFee cfg)) in
    let? hi := cap_by_funds x.1 args msg gasCap in
    search_gas hi gasCap (executable c fm cfg fromType nonce msg x).
Definition EstimateGas c fm params (req : EthCallRequest) (x : st) : res EstimateGasResponse :=
  EstimateGasInternal c fm params req RPC x.

(** ** Tracing *)

Definition trace_ctx c (number : Z) (hash : bytes) (time maxGas : Z) : EvmCtx :=
  mkEvmCtx (if number <? 1 then 1 else number) time hash (x_proposer c) (Some maxGas) (x_block_meter c)
    (x_check_tx c) (x_recheck_tx c) (x_min_gas_prices c).
(** The base fee of the height that is traced. *)
Definition trace_config c fm params (proposer : bytes) : res EVMConfig :=
  let? cfg := code_error "failed to load evm config" (config_for c fm params proposer) in
  let? baseFee := wrapper_CalculateBaseFee info (mkCtx (x_height c) (x_max_gas c) None) fm in
  Ok (match baseFee with Some b => mkEVMConfig (cfg_Params cfg) (cfg_CoinBase cfg) (Some b) | None => cfg end).
Definition negative_limit (t : option TraceConfig) : bool := match t with Some t => tc_Limit t <? 0 | None => false end.
Definition set_tx (hash : Hash) (index : Z) (t : TxConfig) : TxConfig := mkTxConfig (BlockHash t) hash index (LogIndex t).
Definition set_log_index (n : Z) (t : TxConfig) : TxConfig := mkTxConfig (BlockHash t) (TxHash t) (TxIndex t) n.

Definition traceTx c fm (cfg : EVMConfig) (txConfig : TxConfig) (tx : Transaction) (traceConfig : option TraceConfig)
    (commitMessage : bool) : M st (TraceResult * Z) :=
  let! msg := lift (status (TransactionToMessage tx (MakeSigner (x_height c) (x_time c)) (cfg_BaseFee cfg))) in
  let tc := default (mkTraceConfig "" "" 0 []) traceConfig in
  do! (if bool_decide (tc_Tracer tc = "") then ret tt else lift (status (tracer_New tc txConfig)));
  do! (if bool_decide (tc_Timeout tc = "") then ret tt else lift (status (ParseDuration (tc_Timeout tc))));
  let! res := status_run (ApplyMessageWithConfig info chain consensus_params c fm msg commitMessage cfg txConfig false) in
  let! result := lift (status (tracer_GetResult tc txConfig msg res)) in
  ret (result, LogIndex txConfig + Z.of_nat (length (r_Logs res))).

(** The transactions before the one that is traced; one that fails is skipped. *)
Fixpoint predecessors c fm (cfg : EVMConfig) (i : Z) (l : list Transaction) (txConfig : TxConfig) : M st TxConfig :=
  match l with
  | [] => ret txConfig
  | ethTx :: l =>
      match TransactionToMessage ethTx (MakeSigner (x_height c) (x_time c)) (cfg_BaseFee cfg) with
      | Panic m => panic m
      | Err _ => predecessors c fm cfg (i + 1) l txConfig
      | Ok msg =>
          let txConfig := set_tx (tx_Hash ethTx) i txConfig in
          let! r := try (ApplyMessageWithConfig info chain consensus_params c fm msg true cfg txConfig false) in
          predecessors c fm cfg (i + 1) l
            (match r with
             | inl rsp => set_log_index (LogIndex txConfig + Z.of_nat (length (r_Logs rsp))) txConfig
             | inr _ => txConfig
             end)
      end
  end.
(** [AsTransaction] of a message that does not unpack is nil, which panics. *)
Definition transaction_of (m : MsgEthereumTx) : res Transaction :=
  match AsTransaction m with Some t => Ok t | None => Panic "nil pointer dereference" end.
Fixpoint transactions_of (l : list MsgEthereumTx) : res (list Transaction) :=
  match l with
  | [] => Ok []
  | m :: l => let? t := transaction_of m in let? ts := transactions_of l in Ok (t :: ts)
  end.
Definition TraceTx c fm params (req : TraceTxRequest) : M st TraceResult :=
  if negative_limit (tt_TraceConfig req) then fail ErrOther "output limit cannot be negative"
  else if (maxTracePredecessors <? length (tt_Predecessors req))%nat then fail ErrOther "too many predecessors"
  else
    let c := trace_ctx c (tt_BlockNumber req) (tt_BlockHash req) (tt_BlockTime req) (tt_BlockMaxGas req) in
    let! cfg := lift (trace_config c fm params (tt_ProposerAddress req)) in
    let! before := lift (transactions_of (tt_Predecessors req)) in
    let! txConfig := predecessors c fm cfg 0 before (simulated_config c) in
    let! tx := lift (transaction_of (tt_Msg req)) in
    let index := match tt_Predecessors req with [] => TxIndex txConfig | _ => TxIndex txConfig + 1 end in
    let! r := traceTx c fm cfg (set_tx (tx_Hash tx) index txConfig) tx (tt_TraceConfig req) false in
    ret r.1.

(** The result or the text of the error of every transaction. *)
Fixpoint trace_all c fm (cfg : EVMConfig) (traceConfig : option TraceConfig) (i : Z) (l : list Transaction)
    (txConfig : TxConfig) : M st (list (TraceResult + string)) :=
  match l with
  | [] => ret []
  | ethTx :: l =>
      let txConfig := set_tx (tx_Hash ethTx) i txConfig in
      let! r := try (traceTx c fm cfg txConfig ethTx traceConfig true) in
      match r with
      | inl (result, logIndex) =>
          let! rest := trace_all c fm cfg traceConfig (i + 1) l (set_log_index logIndex txConfig) in
          ret (inl result :: rest)
      | inr e =>
          let! rest := trace_all c fm cfg traceConfig (i + 1) l txConfig in
          ret (inr (e_msg e) :: rest)
      end
  end.
Definition TraceBlock c fm params (req : TraceBlockRequest) : M st (list (TraceResult + string)) :=
  if negative_limit (tb_TraceConfig req) then fail ErrOther "output limit cannot be negative"
  else
    let c := trace_ctx c (tb_BlockNumber req) (tb_BlockHash req) (tb_BlockTime req) (tb_BlockMaxGas req) in
    let! cfg := lift (trace_config c fm params (tb_ProposerAddress req)) in
    let! txs := lift (transactions_of (tb_Txs req)) in
    trace_all c fm cfg (tb_TraceConfig req) 0 txs (simulated_config c).
End query.

(** * Genesis *)

Record State := mkState { st_Key : string; st_Value : string }.
Record GenesisAccount := mkGenAccount { ga_Address : string; ga_Code : string; ga_Storage : list State }.
Record VmGenesis := mkVmGenesis { vg_Accounts : list GenesisAccount; vg_Params : VmParams }.

(** [common.Hex2Bytes] and [common.Bytes2Hex] of go-ethereum, [strings.TrimSpace] *)
Class EthBytes := { Hex2Bytes : string -> bytes; Bytes2Hex : bytes -> string; TrimSpace : string -> string }.
Class EthBytesLaws `{EthHex, EthBytes} := {
  hash_text : forall h, TrimSpace (Hash_Hex h) <> "";
  hex_bytes : forall b, Forall (fun z => 0 <= z < 256) b -> Hex2Bytes (Bytes2Hex b) = b;
}.

Section genesis.
Context `{Keccak, EthHex, EthBytes, EvmAccounts, EvmBank}.
(** [accountKeeper.GetModuleAddress(types.ModuleName)] *)
Variable module_address : option addr.
Variable ValidEip : Z -> bool.
Variable ChannelIdentifierValidator : string -> res unit.

Definition State_Validate (x : State) : res unit :=
  if bool_decide (TrimSpace (st_Key x) = "") then Err (Error ErrOther "state key hash cannot be blank") else Ok tt.
Fixpoint storage_check (seen : list string) (l : list State) : res unit :=
  match l with
  | [] => Ok tt
  | x :: l =>
      if decide (st_Key x ∈ seen) then Err (Error ErrOther "duplicate state key")
      else do? State_Validate x; storage_check (st_Key x :: seen) l
  end.
Definition Storage_Validate (l : list State) : res unit := storage_check [] l.
Definition GenesisAccount_Validate (a : GenesisAccount) : res unit :=
  do? ValidateAddress (ga_Address a); Storage_Validate (ga_Storage a).
Fixpoint accounts_check (seen : list string) (l : list GenesisAccount) : res unit :=
  match l with
  | [] => Ok tt
  | a :: l =>
      if decide (ga_Address a ∈ seen) then Err (Error ErrOther "duplicated genesis account")
      else do? code_error "invalid genesis account" (GenesisAccount_Validate a); accounts_check (ga_Address a :: seen) l
  end.
Definition VmGenesis_Validate (gs : VmGenesis) : res unit :=
  do? accounts_check [] (vg_Accounts gs); vm_Params_Validate ValidEip ChannelIdentifierValidator (vg_Params gs).

Definition NewState (key value : Hash) : State := mkState (Hash_Hex key) (Hash_Hex value).
Definition GetAccountStorage (s : vm_state) (a : Address) : list State :=
  map (fun kv => NewState kv.1 kv.2) (vm_ForEachStorage s a).

Definition set_storage (a : Address) (l : list State) (s : vm_state) : vm_state :=
  foldl (fun s x => vm_SetState a (HexToHash (st_Key x)) (hash_bytes (HexToHash (st_Value x))) s) s l.
Definition init_account (account : GenesisAccount) : M vm_state unit :=
  let address := HexToAddress (ga_Address account) in
  let! s := gets (fun s => s) in
  match ea_GetAccount (vm_accounts s) (address_bytes address) with
  | None => panic "account not found"
  | Some _ =>
      let code := Hex2Bytes (ga_Code account) in
      let codeHash := Keccak256Hash code in
      do! (if IsEmptyCodeHash codeHash then ret tt
           else modify (SetCodeHash (address_bytes address) (hash_bytes codeHash)));
      do! (match code with [] => ret tt | _ => modify (vm_SetCode codeHash code) end);
      modify (set_storage address (ga_Storage account))
  end.
(** On the store and the parameters. *)
Definition vm_InitGenesis (data : VmGenesis) : M (vm_state * option VmParams) unit :=
  do! (fun x => match vm_SetParams ValidEip ChannelIdentifierValidator (vg_Params data) x.2 with
        | (Ok _, p) => (Ok tt, (x.1, p))
        | (Err e, p) => (Panic "error setting params", (x.1, p))
        | (Panic m, p) => (Panic m, (x.1, p))
        end);
  match module_address with
  | None => panic "the EVM module account has not been set"
  | Some _ => zoom fst (fun s x => (s, x.2)) (each init_account (vg_Accounts data))
  end.
Definition vm_ExportGenesis (s : vm_state) (params : option VmParams) : VmGenesis :=
  mkVmGenesis
    (map (fun ch => mkGenAccount (Address_Hex ch.1) (Bytes2Hex (default [] (vm_GetCode s ch.2))) (GetAccountStorage s ch.1))
       (IterateContracts s))
    (vm_GetParams params).
End genesis.
