(* ===== verification/VmQueryThms.v ===== *)
(** Queries and genesis of x/vm: a gas estimate is the least gas that works, apart
    from one the sender's funds cap; a simulated call changes nothing and simulates
    the transaction the arguments stand for; a transaction traced alone is traced as
    in its block; contracts survive an export and an import. *)
From S2P Require Import Prelude KVStore Sdk EvmConfig FeeMarket StateDB StateDBInv StateDBRun StateDBType StateDBReach Wrappers VmKeeper VmKeeperThms.
From S2P Require Import TxData TxDataThms VmGas VmParams StateTransition StateTransitionThms CallEvm VmQuery.
From S2P Require Import PreciseBankThms EvmCompose EthModel EthCompose.

(** * Gas estimation *)

(** The search when it returns: no round failed with an error. *)
Lemma BinSearch_found fuel lo hi ex g :
  0 <= lo < 2 ^ 63 -> hi < 2 ^ 63 -> BinSearch fuel lo hi ex = Some (Ok g) ->
  (hi <= lo + 1 /\ g = hi) \/
  (lo < g <= hi /\ (g = hi \/ ex g = Ok false) /\ (g - 1 = lo \/ ex (g - 1) = Ok true)).
Proof.
  revert lo hi. induction fuel as [|fuel IH]; intros lo hi Hlo Hhi Hr; simpl in Hr;
    unfold wrap64 in Hr; rewrite ?(Z.mod_small (lo + 1)) in Hr by lia;
    destruct (Z.ltb_spec (lo + 1) hi) as [Hlt|Hge]; simpl in Hr; simplify_eq; [left; lia| |left; lia].
  rewrite Z.mod_small in Hr by lia. pose proof (Z.div_mod (hi + lo) 2 ltac:(lia)) as Hm.
  pose proof (Z.mod_pos_bound (hi + lo) 2 ltac:(lia)). set (mid := (hi + lo) / 2) in *.
  destruct (ex mid) as [[|]|e|m] eqn:Hmid; [| |done..]; right; apply IH in Hr; try lia;
    destruct Hr as [[? ->]|(Hr & Hw & Hb)]; split_and!; try lia; auto.
  - assert (hi - 1 = mid) as -> by lia. auto.
  - destruct Hb as [Hb|]; [rewrite Hb|]; auto.
  - destruct Hw as [->|]; auto.
Qed.
(** Within 64 rounds the search ends. *)
Lemma BinSearch_ends fuel lo hi ex : 0 <= lo < 2 ^ 63 -> hi < 2 ^ 63 -> hi - lo <= 2 ^ Z.of_nat fuel ->
  BinSearch fuel lo hi ex <> None.
Proof.
  revert lo hi. induction fuel as [|fuel IH]; intros lo hi Hlo Hhi Hf; simpl;
    unfold wrap64; rewrite ?(Z.mod_small (lo + 1)) by lia; destruct (Z.ltb_spec (lo + 1) hi); simpl; try done.
  - simpl in Hf. lia.
  - rewrite Z.mod_small by lia. rewrite Nat2Z.inj_succ, Z.pow_succ_r in Hf by lia.
    pose proof (Z.div_mod (hi + lo) 2 ltac:(lia)) as Hm. pose proof (Z.mod_pos_bound (hi + lo) 2 ltac:(lia)).
    destruct (ex _) as [[|]|e|m]; try done; apply IH; lia.
Qed.

Section estimate.
Context `{DecLib, Keccak, EthHex, EthTypes, !EthSigner, EthCore, EvmAccounts, EvmBank, AddressCodec}.
Variable info : EvmCoinInfo.
#[local] Instance qe_keeper : StateKeeper := VmStateKeeper info.
Context `{!Interp}.
Variable chain : ChainConfig.
Variable consensus_params : option (option Z).
Variable GetValidatorByConsAddr : bytes -> res string.
Variable unmarshal_args : bytes -> res TransactionArgs.

Abbreviation estimate := (EstimateGasInternal info chain consensus_params GetValidatorByConsAddr unmarshal_args).
Abbreviation run_with := (executable info chain consensus_params).
(** What the estimation works on: arguments, configuration, message, and the highest
    gas before and after the funds of the sender are looked at. *)
Definition estimates c fm params req (x : vm_state * list event) (args : TransactionArgs) (cfg : EVMConfig) (msg : Message) (hi : Z) : Prop :=
  TxGas <= rq_GasCap req /\ unmarshal_args (rq_Args req) = Ok args /\
  config_for info chain GetValidatorByConsAddr c fm params (rq_ProposerAddress req) = Ok cfg /\
  ToMessage (with_nonce (vm_GetNonce x.1 (args_GetFrom args)) args) (rq_GasCap req) (cfg_BaseFee cfg) = Ok msg /\
  cap_by_funds info x.1 args msg (highest_gas c args (rq_GasCap req)) = Ok hi.

Lemma estimate_search c fm params req ft x args cfg msg hi :
  estimates c fm params req x args cfg msg hi ->
  estimate c fm params req ft x =
  search_gas hi (highest_gas c args (rq_GasCap req)) (run_with c fm cfg ft (vm_GetNonce x.1 (args_GetFrom args)) msg x).
Proof.
  intros (Hc & Ha & Hg & Hm & Hh). unfold EstimateGasInternal. destruct (Z.ltb_spec (rq_GasCap req) TxGas); [lia|].
  rewrite Ha. cbn [status rbind]. rewrite Hg. cbn [code_error rbind]. rewrite Hm. cbn [status rbind]. by rewrite Hh.
Qed.
Lemma estimate_inv c fm params req ft x r : estimate c fm params req ft x = Ok r ->
  exists args cfg msg hi, estimates c fm params req x args cfg msg hi.
Proof.
  unfold EstimateGasInternal. destruct (Z.ltb_spec (rq_GasCap req) TxGas); [done|]. intros Hr.
  apply rbind_ok in Hr as (args & Ha & Hr). apply rbind_ok in Hr as (cfg & Hc & Hr).
  apply rbind_ok in Hr as (msg & Hm & Hr). apply rbind_ok in Hr as (hi & Hh & _). exists args, cfg, msg, hi.
  unfold status, code_error in *. split_and!; [done|..]; [by destruct (unmarshal_args _)|by destruct (config_for _ _ _ _ _ _ _)|
    by destruct (ToMessage _ _ _)|done].
Qed.
Lemma highest_capped c args cap : 0 < cap -> highest_gas c args cap <= cap.
Proof.
  intros Hc. unfold highest_gas. destruct (Z.eqb_spec cap 0); [lia|]. cbn [negb andb].
  match goal with |- (if cap <? ?h then _ else _) <= _ => destruct (Z.ltb_spec cap h) end; lia.
Qed.
Lemma funds_lower s args msg hi hi' : cap_by_funds info s args msg hi = Ok hi' -> hi' <= hi.
Proof.
  unfold cap_by_funds. destruct (msg_GasFeeCap msg =? 0); [by intros [= <-]|]. destruct (ta_From args); [|done]. intros Hr.
  apply rbind_ok in Hr as (b & _ & Hr). apply rbind_ok in Hr as (av & _ & Hr). apply rbind_ok in Hr as (cap & _ & Hr).
  apply rbind_ok in Hr as (al & _ & Hr). destruct (is_uint64 al && (al <? hi)) eqn:E; [|by injection Hr as <-].
  apply andb_true_iff in E as [_ E%Z.ltb_lt]. destruct (al <? TxGas); [done|]. injection Hr as <-. lia.
Qed.
(** A run that does not fail has a response without an error of the interpreter. *)
Lemma executable_answer c fm cfg ft nonce msg x g failed rsp :
  run_with c fm cfg ft nonce msg x g = Ok (failed, rsp) -> failed = match rsp with Some r => Failed r | None => true end.
Proof.
  unfold executable. intros Hr. apply rbind_ok in Hr as (y & _ & Hr).
  destruct (ApplyMessageWithConfig _ _ _ _ _ _ _ _ _ _ _) as [[r|e|m] z]; cbn [fst] in Hr; [by injection Hr as <- <-| |done].
  case_decide; [by injection Hr as <- <-|done].
Qed.

Lemma last_failure_not_estimate r g : last_failure r <> Ok (mkEstimate g [] "").
Proof.
  unfold last_failure. destruct r as [r|]; [|done]. repeat case_bool_decide; try done. intros [= _ _ E]. match goal with X : r_VmError r = StateTransition.ErrExecutionReverted |- _ => by rewrite E in X end.
Qed.

(** The search over runs that answer with a response whenever they do not fail. *)
Lemma search_gas_found hi highest (run : Z -> res (bool * option MsgEthereumTxResponse)) g :
  hi < 2 ^ 63 -> hi <= highest ->
  (forall k failed rsp, run k = Ok (failed, rsp) -> failed = match rsp with Some r => Failed r | None => true end) ->
  search_gas hi highest run = Ok (mkEstimate g [] "") ->
  g <= hi /\
  ((exists rsp, run g = Ok (false, Some rsp) /\ Failed rsp = false) \/ (g = hi /\ hi < highest)) /\
  (g <= TxGas \/ exists rsp, run (g - 1) = Ok (true, rsp)).
Proof.
  intros Hlt Hle Hans. unfold search_gas. generalize 64%nat as fuel. intros fuel Hr. destruct (BinSearch fuel _ hi _) as [r|] eqn:Hb; [|done].
  apply rbind_ok in Hr as (h & -> & Hr).
  assert (forall k rsp, run k = Ok (false, rsp) -> exists r, run k = Ok (false, Some r) /\ Failed r = false) as Hok.
  { intros k rsp Hk. pose proof (Hans _ _ _ Hk) as E. destruct rsp as [r|]; [|done]. by exists r. }
  assert (h = g /\ (h = highest -> exists r, run h = Ok (false, Some r) /\ Failed r = false)) as [-> Hlast].
  { destruct (Z.eqb_spec h highest); [|by injection Hr as <-]. apply rbind_ok in Hr as ([failed rsp] & Hrun & Hr). cbn [fst snd] in Hr.
    destruct failed; [by apply last_failure_not_estimate in Hr|]. injection Hr as <-. split; [done|]. by eauto. }
  apply BinSearch_found in Hb; [|unfold TxGas; lia|lia].
  assert (forall k b, (let? r := run k in Ok r.1) = Ok b -> exists rsp, run k = Ok (b, rsp)) as Hfst.
  { intros k b Hk. apply rbind_ok in Hk as ([f rsp] & Hk & [= <-]). by exists rsp. }
  destruct Hb as [[Hsmall ->]|(Hgt & Hw & Hl)].
  - split_and!; try lia. destruct (decide (hi = highest)) as [E|]; [left; by apply Hlast|right; lia].
  - split_and!; try lia.
    + destruct Hw as [->|Hw]; [|left; apply Hfst in Hw as [rsp Hw]; by eauto].
      destruct (decide (hi = highest)) as [E|]; [left; by apply Hlast|right; lia].
    + destruct Hl as [Hl|Hl]; [left; lia|right; by apply Hfst].
Qed.

(** C27.  A gas estimate is the least gas that works: the message runs at the
    estimate without an error of the interpreter, and fails with one unit less, or
    the estimate is the price of a plain transfer at most.  The exception is an
    estimate equal to what the funds of the sender pay for, below the highest gas
    the estimation may use: that one is not tried out. *)
Theorem estimate_is_least c fm params req ft x g :
  rq_GasCap req < 2 ^ 63 -> estimate c fm params req ft x = Ok (mkEstimate g [] "") ->
  exists args cfg msg hi, estimates c fm params req x args cfg msg hi /\
    let run := run_with c fm cfg ft (vm_GetNonce x.1 (args_GetFrom args)) msg x in
    let highest := highest_gas c args (rq_GasCap req) in
    g <= hi <= highest /\ highest <= rq_GasCap req /\
    ((exists rsp, run g = Ok (false, Some rsp) /\ Failed rsp = false) \/ (g = hi /\ hi < highest)) /\
    (g <= TxGas \/ exists rsp, run (g - 1) = Ok (true, rsp)).
Proof.
  intros Hcap Hr. destruct (estimate_inv _ _ _ _ _ _ _ Hr) as (args & cfg & msg & hi & Hin).
  exists args, cfg, msg, hi. split; [done|]. cbv zeta. rewrite (estimate_search _ _ _ _ _ _ _ _ _ _ Hin) in Hr.
  destruct Hin as (Hmin & _ & _ & _ & Hf). apply funds_lower in Hf.
  pose proof (highest_capped c args (rq_GasCap req) ltac:(unfold TxGas in *; lia)) as Hh.
  apply search_gas_found in Hr as (Hg & Hrun & Hless); [done|lia|done|]. intros k failed rsp. apply executable_answer.
Qed.

(**  An estimate that the funds of the sender cap is given without a trial: when
    the message fails with less gas, the estimate is what the funds pay for, also
    when the message fails with that, too.  The same message of a sender with more
    funds is refused. *)
Theorem capped_estimate_untested c fm params req ft x args cfg msg hi :
  rq_GasCap req < 2 ^ 63 -> estimates c fm params req x args cfg msg hi ->
  TxGas <= hi < highest_gas c args (rq_GasCap req) ->
  (forall g, TxGas <= g < hi -> exists rsp, run_with c fm cfg ft (vm_GetNonce x.1 (args_GetFrom args)) msg x g = Ok (true, rsp)) ->
  estimate c fm params req ft x = Ok (mkEstimate hi [] "").
Proof.
  intros Hcap Hin [Hlo Hhi] Hfail. rewrite (estimate_search _ _ _ _ _ _ _ _ _ _ Hin). destruct Hin as [Hmin _].
  pose proof (highest_capped c args (rq_GasCap req) ltac:(unfold TxGas in *; lia)) as Hh.
  set (run := run_with c fm cfg ft _ msg x) in *. unfold TxGas in *.
  assert (hi - (21000 - 1) <= 2 ^ Z.of_nat 64) as Hfuel by (change (2 ^ Z.of_nat 64) with (2 ^ 64); lia).
  unfold search_gas, TxGas. revert Hfuel. generalize 64%nat as fuel. intros fuel Hfuel.
  destruct (BinSearch_ends_at fuel (21000 - 1) hi (fun g => let? r := run g in Ok r.1)) as (r & -> & Hr); [lia..|].
  destruct r as [g|e|m]; [|by destruct Hr as (g & Hg & E); destruct (Hfail g) as [rsp E']; [lia|]; rewrite E' in E..].
  destruct Hr as (Hg & Hw & _).
  assert (g = hi) as ->.
  { destruct Hw as [|Hw]; [done|]. destruct (decide (g = hi)) as [|Hne]; [done|].
    destruct (Hfail g) as [rsp E]; [lia|]. by rewrite E in Hw. }
  cbn [rbind]. destruct (Z.eqb_spec hi (highest_gas c args (rq_GasCap req))); [lia|done].
Qed.
End estimate.

(** * Simulated calls *)

Section calls.
Context `{DecLib, !DecLaws, Keccak, EthHex, EthTypes, !EthSigner, EthCore, !EthCoreLaws, EvmAccounts, !EvmAccountsLaws, EvmBank}.
Variable info : EvmCoinInfo.
Hypothesis Hkeccak : forall b, u256 (Keccak256Hash b).
#[local] Instance qc_keeper : StateKeeper := VmStateKeeper info.
#[local] Instance qc_types : KeeperTypes := VmKeeperTypes info Hkeccak.
Context `{!Interp, !InterpLaws}.
Variable chain : ChainConfig.
Variable consensus_params : option (option Z).
Variable GetValidatorByConsAddr : bytes -> res string.
Variable unmarshal_args : bytes -> res TransactionArgs.

(** The Go types of the arguments. *)
Definition args_typed (args : TransactionArgs) : Prop :=
  (forall a, ta_From args = Some a -> u160 a) /\ (forall a, ta_To args = Some a -> u160 a) /\
  (forall g, ta_Gas args = Some g -> u64 g).
Hypothesis json_typed : forall b args, unmarshal_args b = Ok args -> args_typed args.

Lemma ToMessage_ok args cap b msg : ToMessage args cap b = Ok msg ->
  msg_From msg = args_GetFrom args /\ msg_To msg = ta_To args /\ msg_Nonce msg = default 0 (ta_Nonce args) /\
  msg_GasLimit msg = args_gas args cap.
Proof.
  unfold ToMessage. destruct (_ && _); [done|]. destruct (args_prices args b) as [[p f] t]. by intros [= <-].
Qed.
Lemma args_gas_range args cap : args_typed args -> 0 < cap -> 0 <= args_gas args cap <= cap.
Proof.
  intros (_ & _ & Hg) Hc. unfold args_gas. destruct (Z.eqb_spec cap 0); [lia|]. cbn [negb andb].
  destruct (ta_Gas args) as [g|]; cbn [from_option]; unfold Datatypes.id; [|rewrite Z.ltb_irrefl; lia].
  specialize (Hg g eq_refl). unfold u64 in Hg. destruct (Z.ltb_spec cap g); lia.
Qed.
Lemma nonce_u64 s a : u64 (vm_GetNonce s a).
Proof.
  unfold vm_GetNonce. destruct (ea_GetAccount _ _) as [x|] eqn:E; [|done]. by apply ea_sequence_u64 in E.
Qed.
Lemma ToMessage_typed args s cap b msg : args_typed args -> 0 < cap < 2 ^ 63 ->
  ToMessage (with_nonce (vm_GetNonce s (args_GetFrom args)) args) cap b = Ok msg -> msg_typed msg.
Proof.
  intros Ha Hc (Hf & Ht & Hn & Hg)%ToMessage_ok. unfold msg_typed. rewrite Hf, Ht, Hn, Hg.
  pose proof (args_gas_range args cap Ha ltac:(lia)) as Hr. destruct Ha as (Hfrom & Hto & _). split_and!.
  - unfold args_GetFrom. cbn. destruct (ta_From args) as [a|]; [by apply Hfrom|done].
  - intros a. apply Hto.
  - apply nonce_u64.
  - change (args_gas (with_nonce _ args) cap) with (args_gas args cap). lia.
  - change (args_gas (with_nonce _ args) cap) with (args_gas args cap). lia.
Qed.

(**  A simulated call that answers has changed nothing: not a store, an account,
    a balance or an event, whatever the contracts it ran did; and it used at most the
    gas cap of the request. *)
Theorem EthCall_changes_nothing c fm params req x rsp x' :
  kv_ok (vm_kv x.1) -> Params_Validate (GetParams fm) = Ok tt -> 0 < rq_GasCap req < 2 ^ 63 ->
  EthCall info chain consensus_params GetValidatorByConsAddr unmarshal_args c fm params req x = (Ok rsp, x') ->
  x' = x /\ 0 <= r_GasUsed rsp <= rq_GasCap req.
Proof.
  intros Hk Hv Hcap Hr. unfold EthCall in Hr. apply bind_lift_ok in Hr as (args & Ha & Hr).
  apply bind_lift_ok in Hr as (cfg & _ & Hr). rewrite bind_gets in Hr. apply bind_lift_ok in Hr as (msg & Hm & Hr).
  assert (unmarshal_args (rq_Args req) = Ok args) as Ha' by (unfold status in Ha; by destruct (unmarshal_args _)).
  assert (forall r, status r = Ok msg -> r = Ok msg) as Hst by (intros []; [done..|done]). apply Hst in Hm.
  pose proof (json_typed _ _ Ha') as Hty. pose proof (ToMessage_typed _ _ _ _ _ Hty Hcap Hm) as Hmt.
  apply ToMessage_ok in Hm as (_ & _ & _ & Hgas).
  pose proof (args_gas_range args (rq_GasCap req) Hty ltac:(lia)) as Hrange.
  change (args_gas (with_nonce _ args) (rq_GasCap req)) with (args_gas args (rq_GasCap req)) in Hgas.
  unfold status_run in Hr. match type of Hr with (let '(_, _) := ?t in _) = _ => destruct t as [r y] eqn:E end.
  destruct r as [r|e|m]; [|done..]. injection Hr as <- <-.
  destruct (@message_effect _ _ _ qc_keeper qc_types _ _ _ _ info chain consensus_params c fm msg false cfg _ false
    x r y Hk Hmt Hv E) as (db & db' & Hreach & _ & -> & -> & _ & intrinsic & m & Hi & _ & Hu & _).
  apply reachable_context in Hreach as [-> ->]. split; [by destruct x|].
  apply intrinsic_u64 in Hi. destruct (IsLondon chain (x_height c)); cbv iota zeta in Hu; split; try lia.
  all: destruct Hu as [Hu _]; (etrans; [|exact Hu]); pose proof (Z.div_le_upper_bound intrinsic) as Hd.
  all: assert (intrinsic / 5 <= intrinsic /\ intrinsic / 2 <= intrinsic) by (split; apply Hd; lia); lia.
Qed.
End calls.

(** The message a transaction of these arguments makes. *)
Section arguments.
Context `{EthHex, !EthHexLaws, EthTypes, !EthTypesLaws, !EthSigner, !EthSignerLaws}.

Lemma int_arg_ok n m : int_arg n = Ok m -> m = n.
Proof.
  unfold int_arg. destruct n as [n|]; [|by intros [= <-]]. intros Hr. apply rbind_ok in Hr as (z & ->%int_chk_ok & [= <-]).
  done.
Qed.
(** The prices of the transaction the arguments stand for. *)
Definition one_fee_style (args : TransactionArgs) (b : option Z) : Prop :=
  match b with
  | Some b => 0 <= b /\ (ta_MaxFeePerGas args = None -> ta_MaxPriorityFeePerGas args = None) /\
      (forall p, ta_GasPrice args = Some p -> 0 <= p) /\ (forall p, ta_MaxFeePerGas args = Some p -> 0 <= p) /\
      (forall p, ta_MaxPriorityFeePerGas args = Some p -> 0 <= p)
  | None => ta_MaxFeePerGas args = None /\ ta_MaxPriorityFeePerGas args = None
  end.
Lemma args_data_ok args d : args_data args = Ok d ->
  GetNonce d = default 0 (ta_Nonce args) /\ GetGas d = default 0 (ta_Gas args) /\ GetData d = args_GetData args /\
  GetValue d = ta_Value args /\ to_text d = to_hex (ta_To args) /\
  match ta_MaxFeePerGas args with
  | Some f => TxType d = DynamicFeeTxType /\ GetGasFeeCap d = Some f /\ GetGasTipCap d = ta_MaxPriorityFeePerGas args
  | None => TxType d <> DynamicFeeTxType /\ GetGasPrice d = ta_GasPrice args
  end.
Proof.
  unfold args_data. intros Hr. apply rbind_ok in Hr as (c & ->%int_arg_ok & Hr). apply rbind_ok in Hr as (p & ->%int_arg_ok & Hr).
  apply rbind_ok in Hr as (f & ->%int_arg_ok & Hr). apply rbind_ok in Hr as (t & ->%int_arg_ok & Hr).
  apply rbind_ok in Hr as (v & ->%int_arg_ok & Hr). injection Hr as <-.
  destruct (ta_MaxFeePerGas args) as [f|]; [by split_and!|]. destruct (ta_AccessList args); by split_and!.
Qed.
Lemma GetTo_hex d to : (forall a, to = Some a -> address_ok a) -> to_text d = to_hex to -> GetTo d = to.
Proof.
  intros Ha E. unfold GetTo. rewrite E. destruct to as [a|]; cbn [to_hex]; [|done].
  rewrite bool_decide_false by apply hex_address_text. by rewrite hex_address by auto.
Qed.
Lemma common_fields d : eth_common (AsEthereumData d) = fields_of d.
Proof. by destruct d. Qed.
Lemma transaction_fields d : let t := NewTx (AsEthereumData d) in
  tx_Nonce t = GetNonce d /\ tx_Data t = GetData d /\ tx_Gas t = GetGas d /\ tx_To t = GetTo d /\
  tx_Value t = Some (default 0 (GetValue d)).
Proof.
  intros t. destruct (tx_common (AsEthereumData d)) as (E1 & E2 & E3 & E4 & E5 & _). fold t in E1, E2, E3, E4, E5.
  assert (eth_common (eth_copy (AsEthereumData d)) = copy_fields (fields_of d)) as Ec by (by destruct d). rewrite Ec in *.
  unfold fields_of in *. destruct (GetRawSignatureValues d) as [[v r] sg]. cbn in *. by split_and!.
Qed.
Lemma transaction_prices d : let t := NewTx (AsEthereumData d) in
  (tx_GasPrice t, tx_GasTipCap t, tx_GasFeeCap t) =
  if TxType d =? DynamicFeeTxType then (set_ (GetGasFeeCap d), set_ (GetGasTipCap d), set_ (GetGasFeeCap d))
  else (set_ (GetGasPrice d), set_ (GetGasPrice d), set_ (GetGasPrice d)).
Proof. intros t. destruct (tx_typed (AsEthereumData d)) as (_ & E & _). fold t in E. rewrite E. by destruct d. Qed.

Lemma args_prices_agree args d b : args_data args = Ok d -> one_fee_style args b ->
  (is_Some (ta_GasPrice args) -> ta_MaxFeePerGas args = None) ->
  let t := NewTx (AsEthereumData d) in
  exists p tip cap, (tx_GasPrice t, tx_GasTipCap t, tx_GasFeeCap t) = (Some p, Some tip, Some cap) /\
    args_prices args b = (match b with Some b => Z.min (tip + b) cap | None => p end, cap, tip).
Proof.
  intros Hd Hs Hone t. destruct (args_data_ok _ _ Hd) as (_ & _ & _ & _ & _ & Hp). pose proof (transaction_prices d) as Ht.
  cbv zeta in Ht. fold t in Ht. rewrite Ht. clear Ht. unfold args_prices, one_fee_style in *.
  destruct (ta_MaxFeePerGas args) as [f|] eqn:Hf.
  - destruct Hp as (-> & -> & ->). rewrite Z.eqb_refl. unfold set_. do 3 eexists. split; [reflexivity|].
    destruct (ta_GasPrice args) as [p|]; [by specialize (Hone ltac:(by eexists))|].
    destruct b as [b|]; [|by destruct Hs]. destruct Hs as (Hb & _ & _ & Hf0 & Ht0).
    assert (0 <= default 0 (ta_MaxPriorityFeePerGas args)) as Htip by (destruct (ta_MaxPriorityFeePerGas args); [by apply Ht0|done]).
    specialize (Hf0 f eq_refl). change (default 0 (Some f)) with f. generalize dependent (default 0 (ta_MaxPriorityFeePerGas args)).
    intros tip Htip. f_equal. f_equal.
    destruct (Z.eqb_spec f 0), (Z.eqb_spec tip 0); cbn [negb orb]; try lia; destruct (Z.ltb_spec f (tip + b)); lia.
  - destruct Hp as [Hty ->]. destruct (Z.eqb_spec (TxType d) DynamicFeeTxType); [done|]. unfold set_. do 3 eexists.
    split; [reflexivity|]. destruct b as [b|]; [|done]. destruct Hs as (Hb & Hno & Hp0 & _).
    rewrite (Hno eq_refl). destruct (ta_GasPrice args) as [p|]; cbn; unfold Datatypes.id; f_equal; f_equal; [|lia].
    specialize (Hp0 p eq_refl). lia.
Qed.

(**  Simulating a call and sending it as a transaction is the same message: when
    the arguments give the gas, what [ToMessage] makes for a simulation agrees with
    what go-ethereum makes of the transaction [ToTransaction] builds, in receiver,
    nonce, value, gas, data and in all three prices, under any base fee. *)
Theorem simulated_message_is_sent args tx d sg b sent simulated gas :
  (forall a, ta_To args = Some a -> address_ok a) -> one_fee_style args b -> ta_Gas args = Some gas ->
  ToTransaction args = Ok tx -> m_Data tx = Some d ->
  TransactionToMessage (NewTx (AsEthereumData d)) sg b = Ok sent -> ToMessage args 0 b = Ok simulated ->
  msg_To simulated = msg_To sent /\ msg_Nonce simulated = msg_Nonce sent /\ msg_Value simulated = msg_Value sent /\
  msg_GasLimit simulated = msg_GasLimit sent /\ msg_Data simulated = msg_Data sent /\
  msg_GasFeeCap simulated = msg_GasFeeCap sent /\ msg_GasTipCap simulated = msg_GasTipCap sent /\
  msg_GasPrice simulated = msg_GasPrice sent.
Proof.
  intros Hto Hstyle Hgas Htx Hd Hsent Hsim.
  apply rbind_ok in Htx as (d' & Hdata & [= <-]). cbn in Hd. injection Hd as <-.
  destruct (args_data_ok _ _ Hdata) as (En & Eg & Edata & Ev & Et & _).
  destruct (message_of _ _ _ _ Hsent) as (_ & Mto & Mn & Mv & Mg & Mtip & Mcap & Mprice).
  destruct (message_data _ _ _ _ Hsent) as [Mdata _]. destruct (transaction_fields d') as (Tn & Td & Tg & Tt & Tv).
  rewrite Tt, (GetTo_hex _ _ Hto Et) in Mto. rewrite Tn, En in Mn. rewrite Tv, Ev in Mv. injection Mv as Mv.
  rewrite Tg, Eg, Hgas in Mg. rewrite Td, Edata in Mdata.
  unfold ToMessage in Hsim. destruct (_ && _) eqn:Hboth; [done|].
  assert (is_Some (ta_GasPrice args) -> ta_MaxFeePerGas args = None) as Hone.
  { intros [p Hp]. rewrite Hp in Hboth. destruct (ta_MaxFeePerGas args); [discriminate Hboth|done]. }
  destruct (args_prices_agree _ _ _ Hdata Hstyle Hone) as (p & tip & cap & Ht & Ep). rewrite Ep in Hsim. cbv zeta in Ht.
  injection Ht as Tp Ttip Tcap. rewrite Ttip in Mtip. rewrite Tcap in Mcap. injection Mtip as Mtip. injection Mcap as Mcap.
  injection Hsim as <-. cbn [msg_To msg_Nonce msg_Value msg_GasLimit msg_Data msg_GasFeeCap msg_GasTipCap msg_GasPrice].
  split_and!; try done.
  - unfold args_gas. by rewrite Hgas, Mg.
  - destruct b as [b|]; [by rewrite Mprice, Mtip, Mcap|]. rewrite Tp in Mprice. by injection Mprice.
Qed.
End arguments.

(** * Tracing *)

Lemma Commit_logs `{Keccak, StateKeeper} (s : StateDB) u s' : Commit s = (Ok u, s') -> logs s' = logs s.
Proof.
  unfold Commit. intros Hr. apply bind_ok in Hr as ([] & s1 & Hw & Hr). rewrite bind_gets in Hr.
  apply zoom_ok in Hr as (c & _ & ->). unfold run_writeCache, modify in Hw. injection Hw as <-.
  by destruct (writeCache s), (cacheCtx s).
Qed.
(** A run answers the same whether it is committed or not. *)
Lemma uncommitted_answer `{DecLib, Keccak, StateKeeper, EthCore, !Interp} info chain cp c fm msg cfg txc internal x r y :
  ApplyMessageWithConfig info chain cp c fm msg true cfg txc internal x = (Ok r, y) ->
  exists z, ApplyMessageWithConfig info chain cp c fm msg false cfg txc internal x = (Ok r, z).
Proof.
  unfold ApplyMessageWithConfig. destruct (apply_message _ _ _ _ _ _ true _ _ _ _) as [r0 db] eqn:Ha. intros [= -> <-].
  cut (exists db', apply_message info chain cp c fm msg false cfg txc internal (New x.1 x.2 txc) = (Ok r, db')).
  { intros [db' ->]. by eexists. }
  unfold apply_message in *. apply bind_lift_ok in Ha as (env & Henv & Ha). unfold bind at 1, lift at 1. rewrite Henv.
  apply bind_ok in Ha as (intrinsic & s0 & Hi & Ha). rewrite (bind_run _ _ _ _ _ Hi).
  destruct (msg_GasLimit msg <? intrinsic); [done|]. apply bind_ok in Ha as ([] & s1 & Hp & Ha). rewrite (bind_run _ _ _ _ _ Hp).
  destruct (Uint256FromBigInt (msg_Value msg)) as [v|]; [|done]. apply bind_ok in Ha as (rr & s2 & Hx & Ha).
  rewrite (bind_run _ _ _ _ _ Hx). destruct (msg_GasLimit msg <? rr_gas rr); [done|].
  unfold GetRefund in *. rewrite bind_gets in *. apply bind_ok in Ha as ([] & s3 & Hc & Ha).
  apply wrapping_ok, Commit_logs in Hc. unfold bind at 1, ret at 1. apply bind_lift_ok in Ha as (used & Hu & Ha).
  unfold bind at 1, lift at 1. rewrite Hu. unfold Logs in *. rewrite bind_gets in *. rewrite Hc in Ha. injection Ha as <- _.
  by eexists.
Qed.

Section trace.
Context `{DecLib, Keccak, EthHex, EthTypes, !EthSigner, EthCore, EvmAccounts, EvmBank}.
Variable info : EvmCoinInfo.
#[local] Instance qt_keeper : StateKeeper := VmStateKeeper info.
Context `{!Interp, !Tracers}.
Variable chain : ChainConfig.
Variable consensus_params : option (option Z).
Variable GetValidatorByConsAddr : bytes -> res string.
Implicit Types (l : list Transaction) (t : TxConfig) (y : vm_state * list event).

Abbreviation trace := (traceTx info chain consensus_params).
Abbreviation before := (predecessors info chain consensus_params).
Abbreviation block := (trace_all info chain consensus_params).

Lemma status_ok {A} (r : res A) x : status r = Ok x -> r = Ok x.
Proof. by destruct r. Qed.
Lemma status_run_ok {S A} (m : M S A) s x s' : status_run m s = (Ok x, s') -> m s = (Ok x, s').
Proof. unfold status_run. destruct (m s) as [[]]; cbn; congruence. Qed.

Lemma unless_ok {S} (b : bool) r (x x' : S) : (if b then ret tt else lift r) x = (Ok tt, x') -> x' = x.
Proof. destruct b; unfold ret, lift; congruence. Qed.

(** What a trace that succeeds has run, and the same trace without the commit. *)
Lemma traceTx_ok c fm cfg t tx tc y r n y' : trace c fm cfg t tx tc true y = (Ok (r, n), y') ->
  (exists msg rsp, TransactionToMessage tx (MakeSigner (x_height c) (x_time c)) (cfg_BaseFee cfg) = Ok msg /\
    ApplyMessageWithConfig info chain consensus_params c fm msg true cfg t false y = (Ok rsp, y') /\
    n = LogIndex t + Z.of_nat (length (r_Logs rsp))) /\
  exists z, trace c fm cfg t tx tc false y = (Ok (r, n), z).
Proof.
  unfold traceTx. intros Hr. apply bind_lift_ok in Hr as (msg & Hm & Hr). unfold bind at 1, lift at 1. rewrite Hm.
  apply bind_ok in Hr as ([] & y1 & H1r & Hr). rewrite (bind_run _ _ _ _ _ H1r).
  apply bind_ok in Hr as ([] & y2 & H2r & Hr). rewrite (bind_run _ _ _ _ _ H2r).
  apply unless_ok in H1r as ->. apply unless_ok in H2r as ->.
  apply bind_ok in Hr as (rsp & y3 & Ha%status_run_ok & Hr). apply bind_lift_ok in Hr as (result & Hg & Hr). injection Hr as <- <- <-.
  split; [exists msg, rsp; split_and!; [by apply status_ok|done|done]|].
  destruct (@uncommitted_answer _ _ qt_keeper _ _ _ _ _ _ _ _ _ _ _ _ _ _ Ha) as [z Hz]. exists z.
  unfold bind at 1, status_run at 1. change (q_keeper info) with qt_keeper. rewrite Hz. cbn [status]. unfold bind, lift. by rewrite Hg.
Qed.

(** The transactions of a block before one of them leave what tracing them leaves. *)
Lemma trace_all_before c fm cfg tc l : forall j t y rs y' i tx r,
  block c fm cfg tc j l t y = (Ok (map inl rs), y') -> l !! i = Some tx -> rs !! i = Some r ->
  exists t' z n z', before c fm cfg j (take i l) t y = (Ok t', z) /\
    trace c fm cfg (set_tx (tx_Hash tx) (j + Z.of_nat i) t') tx tc true z = (Ok (r, n), z') /\
    match i with O => t' = t | _ => TxIndex t' = j + Z.of_nat i - 1 end.
Proof.
  induction l as [|tx0 l IH]; intros j t y rs y' i tx r Hb Hl Hrs; [done|]. cbn [trace_all] in Hb.
  apply bind_ok in Hb as (r0 & y1 & Ht%try_ok & Hb). destruct r0 as [[r0 n0]|e].
  2:{ apply bind_ok in Hb as (rest & y2 & _ & Hb). destruct rs; injection Hb; done. }
  apply bind_ok in Hb as (rest & y2 & Hrest & Hb). destruct rs as [|r0' rs]; [done|]. injection Hb as -> -> ->.
  destruct i as [|i].
  - injection Hl as ->. injection Hrs as ->. exists t, y, n0, y1. rewrite Z.add_0_r. by split_and!.
  - cbn in Hl, Hrs. destruct (IH _ _ _ _ _ i tx r Hrest Hl Hrs) as (t' & z & n & z' & Hp & Htr & Hi).
    destruct (traceTx_ok _ _ _ _ _ _ _ _ _ _ Ht) as [(msg & rsp & Hm & Ha & ->) _].
    exists t', z, n, z'. split; [|split].
    + cbn [take predecessors]. rewrite Hm. unfold bind at 1, try. change (q_keeper info) with qt_keeper. by rewrite Ha.
    + by replace (j + Z.of_nat (S i)) with (j + 1 + Z.of_nat i) by lia.
    + destruct i; [by rewrite Hi; cbn; lia|lia].
Qed.
Lemma transactions_lookup ms : forall ts i m, transactions_of ms = Ok ts -> ms !! i = Some m ->
  exists tx, ts !! i = Some tx /\ transaction_of m = Ok tx /\ transactions_of (take i ms) = Ok (take i ts).
Proof.
  induction ms as [|m0 ms IH]; intros ts i m Ht Hm; [done|]. cbn [transactions_of] in Ht.
  apply rbind_ok in Ht as (t0 & H0t & Ht). apply rbind_ok in Ht as (ts' & Hts & [= <-]). destruct i as [|i].
  - injection Hm as ->. by exists t0.
  - cbn in Hm. destruct (IH _ _ _ Hts Hm) as (tx & Hl & Hx & Htake). exists tx. split_and!; [done..|].
    cbn [take transactions_of]. by rewrite H0t, Htake.
Qed.

(** C37.  A transaction traced alone, with those before it in its block given as its
    predecessors, is reported as in the trace of the whole block, when that trace
    succeeds for every transaction: it is run on the same state, with the same index
    in the block and the same index of its first log. *)
Theorem traced_alone_as_in_block c fm params txs tc number hash time proposer maxGas x rs x' i m r :
  TraceBlock info chain consensus_params GetValidatorByConsAddr c fm params
    (mkTraceBlock txs tc number hash time proposer maxGas) x = (Ok (map inl rs), x') ->
  txs !! i = Some m -> rs !! i = Some r -> (i <= maxTracePredecessors)%nat ->
  (TraceTx info chain consensus_params GetValidatorByConsAddr c fm params
    (mkTraceTx m tc (take i txs) number hash time proposer maxGas) x).1 = Ok r.
Proof.
  intros Hb Hm Hr Hi. unfold TraceBlock, TraceTx in *. cbn [tb_TraceConfig tb_Txs tb_BlockNumber tb_BlockHash tb_BlockTime
    tb_ProposerAddress tb_BlockMaxGas tt_Msg tt_TraceConfig tt_Predecessors tt_BlockNumber tt_BlockHash tt_BlockTime
    tt_ProposerAddress tt_BlockMaxGas] in *. destruct (negative_limit tc); [done|].
  assert ((maxTracePredecessors <? length (take i txs))%nat = false) as ->.
  { apply Nat.ltb_ge. rewrite length_take. revert Hi. generalize maxTracePredecessors. lia. }
  apply bind_lift_ok in Hb as (cfg & Hcfg & Hb). unfold bind at 1, lift at 1. rewrite Hcfg.
  apply bind_lift_ok in Hb as (ts & Hts & Hb). destruct (transactions_lookup _ _ _ _ Hts Hm) as (tx & Hl & Htx & Htake).
  unfold bind at 1, lift at 1. rewrite Htake.
  destruct (trace_all_before _ _ _ _ _ _ _ _ _ _ _ _ _ Hb Hl Hr) as (t' & z & n & z' & Hp & Ht & Hidx).
  unfold bind at 1. rewrite Hp. unfold bind at 1, lift at 1. rewrite Htx.
  destruct (traceTx_ok _ _ _ _ _ _ _ _ _ _ Ht) as [_ [w Hw]].
  assert (match take i txs with [] => TxIndex t' | _ => TxIndex t' + 1 end = 0 + Z.of_nat i) as ->.
  { destruct i as [|i]; [rewrite Hidx; by rewrite take_0|]. destruct txs; [done|]. cbn [take]. rewrite Hidx. lia. }
  unfold bind. by rewrite Hw.
Qed.
End trace.

(** * Genesis *)

Section genesis.
Context `{Keccak, EthHex, !EthHexLaws, EthBytes, !EthBytesLaws, EvmAccounts, EvmBank}.
Variable module_address : option addr.
Variable ValidEip : Z -> bool.
Variable ChannelIdentifierValidator : string -> res unit.
Implicit Types (s : vm_state) (a : Address) (h : Hash).

Abbreviation codehash_key a := (KeyPrefixCodeHash ++ address_bytes a).
Abbreviation code_key h := (KeyPrefixCode ++ hash_bytes h).

(** A contract of the store: the record of its code hash, its code and its account. *)
Record contract_at s a h (code : bytes) : Prop := {
  ct_address : u160 a;
  ct_word : u256 h;
  ct_record : vm_kv s !! codehash_key a = Some (hash_bytes h);
  ct_code : vm_kv s !! code_key h = Some code;
  ct_bytes : is_bytes code;
  ct_some : code <> [];
  ct_hash : Keccak256Hash code = h;
  ct_other : h <> EmptyCodeHash;
  ct_account : is_Some (ea_GetAccount (vm_accounts s) (address_bytes a));
}.
(** Every record of a code hash is of a contract, and a slot is a word under a word. *)
Record contracts_ok s : Prop := {
  co_records : forall k v, vm_kv s !! k = Some v -> is_prefix KeyPrefixCodeHash k = true ->
    exists a h code, k = codehash_key a /\ v = hash_bytes h /\ contract_at s a h code;
  co_slots : forall k v, vm_kv s !! k = Some v -> is_prefix KeyPrefixStorage k = true ->
    exists a x y, u160 a /\ u256 x /\ u256 y /\ k = StateKey a (hash_bytes x) /\ v = hash_bytes y;
}.
(** The records a genesis carries: those of the contracts. *)
Definition exported s (k : bytes) : Prop :=
  exists a h code, contract_at s a h code /\
    (k = codehash_key a \/ k = code_key h \/ exists x, u256 x /\ k = StateKey a (hash_bytes x) /\ is_Some (vm_kv s !! k)).

Lemma BytesToAddress_suffix p a : u160 a -> BytesToAddress (p ++ address_bytes a) = a.
Proof.
  intros Ha. unfold BytesToAddress, address_bytes. rewrite length_app, be_length.
  replace (length p + 20 - 20)%nat with (length p) by lia. rewrite drop_app_length. by apply be_roundtrip.
Qed.
Lemma contract_exported s a h code : contract_at s a h code -> (a, h) ∈ IterateContracts s.
Proof.
  intros Hc. unfold IterateContracts. apply list_elem_of_fmap. exists (codehash_key a, hash_bytes h). split.
  - cbn [fst snd]. by rewrite BytesToAddress_suffix, BytesToHash_be by apply Hc.
  - apply elem_of_iterate. split; [apply Hc|]. apply is_prefix_app.
Qed.
Lemma exported_contract s a h : contracts_ok s -> (a, h) ∈ IterateContracts s -> exists code, contract_at s a h code.
Proof.
  intros Hok Hin. apply list_elem_of_fmap in Hin as ([k v] & E & Hin). apply elem_of_iterate in Hin as [Hv Hp].
  destruct (co_records s Hok k v Hv Hp) as (a' & h' & code & -> & -> & Hc). cbn [fst snd] in E.
  rewrite BytesToAddress_suffix, BytesToHash_be in E by apply Hc. injection E as -> ->. by exists code.
Qed.
(** The key of a slot, as a record of the store. *)
Lemma slot_of s : contracts_ok s -> forall a k v, u160 a -> vm_kv s !! k = Some v -> is_prefix (AddressStoragePrefix a) k = true ->
  exists x, u256 x /\ k = StateKey a (hash_bytes x).
Proof.
  intros Hok a k v Ha Hv Hp. apply is_prefix_spec in Hp as [t ->].
  destruct (co_slots s Hok _ v Hv) as (b & x & y & Hb & Hx & Hy & Hk & ->).
  { apply is_prefix_spec. eexists. unfold AddressStoragePrefix. by rewrite <- app_assoc. }
  exists x. split; [done|]. rewrite Hk. unfold AddressStoragePrefix, StateKey, AddressStoragePrefix in Hk |- *.
  rewrite <- !app_assoc in Hk. apply app_inj_1 in Hk as [_ Hk]; [|done].
  apply app_inj_1 in Hk as [Hk _]; [by rewrite Hk|]. unfold address_bytes. by rewrite !be_length.
Qed.
(** The slots of an account are its records of the store. *)
Lemma slot_record s a x y : contracts_ok s -> u160 a -> (x, y) ∈ vm_ForEachStorage s a ->
  u256 x /\ u256 y /\ vm_kv s !! StateKey a (hash_bytes x) = Some (hash_bytes y).
Proof.
  intros Hok Ha Hin. apply list_elem_of_fmap in Hin as ([k v] & E & Hin). apply elem_of_iterate in Hin as [Hv Hp].
  destruct (slot_of s Hok a k v Ha Hv Hp) as (x' & Hx & ->).
  destruct (co_slots s Hok _ v Hv) as (b & x2 & y' & _ & _ & Hy & _ & ->).
  { unfold StateKey, AddressStoragePrefix. rewrite <- app_assoc. apply is_prefix_app. }
  unfold StateKey in E. cbn [fst snd] in E. rewrite BytesToHash_suffix, BytesToHash_be in E by done. by injection E as -> ->.
Qed.

(** What the import of an exported contract writes. *)
Definition contract_writes s (ah : Address * Hash) : list (bytes * bytes) :=
  (codehash_key ah.1, hash_bytes ah.2) :: (code_key ah.2, default [] (vm_GetCode s ah.2)) ::
  map (fun xy => (StateKey ah.1 (hash_bytes xy.1), hash_bytes xy.2)) (vm_ForEachStorage s ah.1).
Definition writes s : list (bytes * bytes) := concat (map (contract_writes s) (IterateContracts s)).

Lemma set_storage_writes a l s1 : Forall (fun xy => u256 xy.1 /\ u256 xy.2) l ->
  set_storage a (map (fun kv => NewState kv.1 kv.2) l) s1 =
  on_kv (fun m => put_list m (map (fun xy => (StateKey a (hash_bytes xy.1), hash_bytes xy.2)) l)) s1.
Proof.
  intros Hl. revert s1. induction Hl as [|[x y] l [Hx Hy] _ IH]; intros s1; [by destruct s1|].
  unfold set_storage in *. cbn [map foldl NewState st_Key st_Value fst snd]. rewrite IH.
  rewrite !hex_hash by done. by destruct s1.
Qed.
Lemma init_account_writes s s1 a h code : contracts_ok s -> contract_at s a h code -> vm_accounts s1 = vm_accounts s ->
  init_account (mkGenAccount (Address_Hex a) (Bytes2Hex (default [] (vm_GetCode s h))) (GetAccountStorage s a)) s1 =
  (Ok tt, on_kv (fun m => put_list m (contract_writes s (a, h))) s1).
Proof.
  intros Hok Hc Hacc. unfold init_account. cbn [ga_Address ga_Code ga_Storage]. rewrite hex_address by apply Hc.
  rewrite bind_gets, Hacc. destruct (ct_account _ _ _ _ Hc) as [acc ->].
  assert (vm_GetCode s h = Some code) as Hcode by apply Hc. unfold contract_writes. cbn [fst snd].
  rewrite Hcode. unfold default, from_option, Datatypes.id. cbv zeta. rewrite hex_bytes by apply Hc. rewrite (ct_hash _ _ _ _ Hc).
  assert (IsEmptyCodeHash h = false) as ->.
  { unfold IsEmptyCodeHash. pose proof (ct_other _ _ _ _ Hc). first [by apply Z.eqb_neq|by apply bool_decide_eq_false]. }
  destruct code as [|b code]; [by destruct (ct_some _ _ _ _ Hc)|]. unfold bind, modify, GetAccountStorage.
  rewrite set_storage_writes; [by destruct s1|]. apply Forall_forall. intros [x y] Hin.
  destruct (slot_record s a x y Hok (ct_address _ _ _ _ Hc) Hin) as (? & ? & _). done.
Qed.

(** Records that agree with a store, written one after the other. *)
Lemma put_list_agree (m0 m : gmap bytes bytes) l k : Forall (fun kv => m0 !! kv.1 = Some kv.2) l ->
  put_list m l !! k = if decide (k ∈ l.*1) then m0 !! k else m !! k.
Proof.
  intros Hl. revert m. induction Hl as [|[k0 v0] l H0k _ IH]; intros m; [done|]. cbn [put_list foldl fst snd fmap list_fmap].
  change (foldl _ ?x l) with (put_list x l). rewrite IH. cbn [fst snd] in H0k. destruct (decide (k = k0)) as [->|Hk].
  - rewrite (decide_True (P := k0 ∈ k0 :: l.*1)) by apply list_elem_of_here. rewrite lookup_insert_eq, H0k. by case_decide.
  - rewrite lookup_insert_ne by done. case_decide as E1; case_decide as E2; set_solver.
Qed.
Lemma each_writes s l s1 : contracts_ok s -> (forall ah, ah ∈ l -> ah ∈ IterateContracts s) -> vm_accounts s1 = vm_accounts s ->
  each init_account (map (fun ch => mkGenAccount (Address_Hex ch.1) (Bytes2Hex (default [] (vm_GetCode s ch.2)))
    (GetAccountStorage s ch.1)) l) s1 = (Ok tt, on_kv (fun m => put_list m (concat (map (contract_writes s) l))) s1).
Proof.
  intros Hok. revert s1. induction l as [|[a h] l IH]; intros s1 Hl Hacc; [by destruct s1|]. cbn [map each fst snd].
  destruct (exported_contract s a h Hok) as [code Hc]; [apply Hl; set_solver|].
  unfold bind at 1. rewrite (init_account_writes s s1 a h code) by done. rewrite IH; [|set_solver|by destruct s1].
  destruct s1. unfold on_kv. cbn. unfold put_list. by rewrite foldl_app.
Qed.
Lemma writes_agree s : contracts_ok s -> Forall (fun kv => vm_kv s !! kv.1 = Some kv.2) (writes s).
Proof.
  intros Hok. apply Forall_forall. intros kv Hin. apply list_elem_of_In, in_concat in Hin as (l & Hl & Hin).
  apply in_map_iff in Hl as ([a h] & <- & Hah). apply list_elem_of_In in Hah, Hin.
  destruct (exported_contract s a h Hok Hah) as [code Hc]. unfold contract_writes in Hin. cbn [fst snd] in Hin.
  rewrite !elem_of_cons in Hin. destruct Hin as [->|[->|Hin]]; [apply Hc|cbn [fst snd]|].
  - unfold vm_GetCode. by rewrite (ct_code _ _ _ _ Hc).
  - apply list_elem_of_fmap in Hin as ([x y] & -> & Hin). destruct (slot_record s a x y Hok (ct_address _ _ _ _ Hc) Hin) as (_ & _ & ?). done.
Qed.
Lemma writes_exported s k : contracts_ok s -> k ∈ (writes s).*1 <-> exported s k.
Proof.
  intros Hok. unfold writes. rewrite list_elem_of_fmap. split.
  - intros (kv & -> & Hin). apply list_elem_of_In, in_concat in Hin as (l & Hl & Hin).
    apply in_map_iff in Hl as ([a h] & <- & Hah). apply list_elem_of_In in Hah, Hin.
    destruct (exported_contract s a h Hok Hah) as [code Hc]. exists a, h, code. split; [done|].
    unfold contract_writes in Hin. rewrite !elem_of_cons in Hin. destruct Hin as [->|[->|Hin]]; [by left|by right; left|].
    apply list_elem_of_fmap in Hin as ([x y] & -> & Hin). right. right. cbn [fst snd] in *.
    destruct (slot_record s a x y Hok (ct_address _ _ _ _ Hc) Hin) as (? & _ & Hs). exists x. by rewrite Hs.
  - intros (a & h & code & Hc & Hk). pose proof (contract_exported s a h code Hc) as Hin.
    cut (exists v, (k, v) ∈ contract_writes s (a, h)).
    { intros [v Hv]. exists (k, v). split; [done|]. apply list_elem_of_In, in_concat. exists (contract_writes s (a, h)).
      split; [apply in_map|]; by apply list_elem_of_In. }
    unfold contract_writes. cbn [fst snd]. destruct Hk as [->|[->|(x & Hx & -> & [v Hv])]].
    + eexists. apply list_elem_of_here.
    + eexists. apply list_elem_of_further, list_elem_of_here.
    + destruct (co_slots s Hok _ v Hv) as (b & x' & y & Hb & Hx' & Hy & Hk & ->); [by unfold StateKey, AddressStoragePrefix; rewrite <- app_assoc; apply is_prefix_app|].
      exists (hash_bytes y). do 2 apply list_elem_of_further. apply list_elem_of_fmap. exists (x, y). split; [done|].
      apply list_elem_of_fmap. exists (StateKey a (hash_bytes x), hash_bytes y). split.
      * cbn [fst snd]. unfold StateKey. by rewrite BytesToHash_suffix, BytesToHash_be.
      * apply elem_of_iterate. split; [done|]. apply is_prefix_app.
Qed.

(** ** Validity *)

#[local] Instance str_le_antisymm : AntiSymm eq str_le.
Proof. intros x y Hx Hy. by apply str_bytes_inj, bytes_le_antisym. Qed.
Lemma sorted_sort l : Sorted str_le l -> sort_strings l = l.
Proof.
  intros Hl. apply (StronglySorted_unique str_le); [|by apply Sorted_StronglySorted; [apply _|]|apply sort_strings_perm].
  apply Sorted_StronglySorted; [apply _|apply sort_strings_sorted].
Qed.
Lemma set_exported_params p x : vm_Params_Validate ValidEip ChannelIdentifierValidator p = Ok tt ->
  vm_SetParams ValidEip ChannelIdentifierValidator p x = (Ok tt, Some p).
Proof.
  intros Hp. pose proof Hp as Hv. unfold vm_Params_Validate in Hv. rewrite !seq_ok in Hv. destruct Hv as (_ & Hpre & _).
  apply (ValidatePrecompiles_spec ChannelIdentifierValidator) in Hpre as (_ & _ & Hs). unfold vm_SetParams. rewrite sorted_sort by done.
  assert (with_precompiles (ActiveStaticPrecompiles p) p = p) as -> by by destruct p.
  unfold bind, lift, modify. by rewrite Hp.
Qed.
Lemma storage_check_ok l : forall seen, NoDup (map st_Key l) -> (forall x, x ∈ l -> st_Key x ∉ seen) ->
  Forall (fun x => TrimSpace (st_Key x) <> "") l -> storage_check seen l = Ok tt.
Proof.
  induction l as [|x l IH]; intros seen Hnd Hs Ht; [done|]. apply NoDup_cons in Hnd as [Hn Hnd]. apply Forall_cons in Ht as [Hx Ht].
  cbn [storage_check]. rewrite decide_False by (apply Hs; set_solver). unfold State_Validate.
  rewrite bool_decide_eq_false_2 by done. cbn. apply IH; [done| |done]. intros y Hy [E|Hin]%elem_of_cons.
  - apply Hn. rewrite <- E. apply list_elem_of_fmap. by exists y.
  - by apply (Hs y); [set_solver|].
Qed.
Lemma accounts_check_ok l : forall seen, NoDup (map ga_Address l) -> (forall x, x ∈ l -> ga_Address x ∉ seen) ->
  Forall (fun x => GenesisAccount_Validate x = Ok tt) l -> accounts_check seen l = Ok tt.
Proof.
  induction l as [|x l IH]; intros seen Hnd Hs Ht; [done|]. apply NoDup_cons in Hnd as [Hn Hnd]. apply Forall_cons in Ht as [Hx Ht].
  cbn [accounts_check]. rewrite decide_False by (apply Hs; set_solver). rewrite Hx. cbn.
  apply IH; [done| |done]. intros y Hy [E|Hin]%elem_of_cons.
  - apply Hn. rewrite <- E. apply list_elem_of_fmap. by exists y.
  - by apply (Hs y); [set_solver|].
Qed.
(** The image of a list without repetitions under a function that tells its elements apart. *)
Lemma NoDup_map_on {A B} (f : A -> B) l : NoDup l -> (forall x y, x ∈ l -> y ∈ l -> f x = f y -> x = y) -> NoDup (map f l).
Proof.
  induction 1 as [|x l Hx _ IH]; intros Hinj; [constructor|]. cbn [map]. apply NoDup_cons. split.
  - intros (y & E & Hy)%list_elem_of_fmap. apply Hx. rewrite (Hinj x y); [done|set_solver..].
  - apply IH. intros y z Hy Hz. apply Hinj; set_solver.
Qed.
Lemma exported_storage_valid s a : contracts_ok s -> u160 a -> Storage_Validate (GetAccountStorage s a) = Ok tt.
Proof.
  intros Hok Ha. apply storage_check_ok.
  - unfold GetAccountStorage, vm_ForEachStorage. rewrite !map_map. cbn [NewState st_Key fst snd].
    rewrite <- (map_map fst (fun k => Hash_Hex (BytesToHash k))). apply NoDup_map_on; [apply iterate_NoDup|].
    intros k1 k2 H1k H2k E. apply list_elem_of_fmap in H1k as ([? v1] & -> & H1k), H2k as ([? v2] & -> & H2k). cbn [fst] in *.
    apply elem_of_iterate in H1k as [Hv1 Hp1], H2k as [Hv2 Hp2].
    destruct (slot_of s Hok a _ v1 Ha Hv1 Hp1) as (x1 & Hx1 & ->), (slot_of s Hok a _ v2 Ha Hv2 Hp2) as (x2 & Hx2 & ->).
    unfold StateKey in E. rewrite !BytesToHash_suffix in E by done. by rewrite <- (hex_hash x1), <- (hex_hash x2), E by done.
  - set_solver.
  - apply Forall_forall. intros y Hy. apply list_elem_of_fmap in Hy as ([k v] & -> & _). apply hash_text.
Qed.
Lemma exported_accounts_valid s : contracts_ok s ->
  accounts_check [] (vg_Accounts (vm_ExportGenesis s None)) = Ok tt.
Proof.
  intros Hok. cbn [vm_ExportGenesis vg_Accounts]. apply accounts_check_ok; [|set_solver|].
  - rewrite map_map. cbn [ga_Address]. unfold IterateContracts. rewrite map_map. cbn [fst].
    rewrite <- (map_map fst (fun k => Address_Hex (BytesToAddress k))). apply NoDup_map_on; [apply iterate_NoDup|].
    intros k1 k2 H1k H2k E. apply list_elem_of_fmap in H1k as ([? v1] & -> & H1k), H2k as ([? v2] & -> & H2k). cbn [fst] in *.
    apply elem_of_iterate in H1k as [Hv1 Hp1], H2k as [Hv2 Hp2].
    destruct (co_records s Hok _ _ Hv1 Hp1) as (a1 & h1 & c1 & -> & -> & Hc1).
    destruct (co_records s Hok _ _ Hv2 Hp2) as (a2 & h2 & c2 & -> & -> & Hc2).
    rewrite !BytesToAddress_suffix in E by first [apply Hc1|apply Hc2].
    by rewrite <- (hex_address a1 (ct_address _ _ _ _ Hc1)), <- (hex_address a2 (ct_address _ _ _ _ Hc2)), E.
  - apply Forall_forall. intros y Hy. apply list_elem_of_fmap in Hy as ([a h] & -> & Hin).
    destruct (exported_contract s a h Hok Hin) as [code Hc]. unfold GenesisAccount_Validate. cbn [ga_Address ga_Storage fst].
    unfold ValidateAddress. rewrite hex_is_address by apply Hc. cbn. apply exported_storage_valid; [done|apply Hc].
Qed.

(** C38.  A store whose contracts are in order exports a genesis that is valid, and
    importing it, on an empty store with the same accounts and balances, succeeds and
    gives back the parameters, the code hash, the code and every slot of every
    contract, and no other record. *)
Theorem genesis_restored s params x :
  contracts_ok s -> is_Some module_address ->
  vm_Params_Validate ValidEip ChannelIdentifierValidator (vm_GetParams params) = Ok tt ->
  let gs := vm_ExportGenesis s params in
  VmGenesis_Validate ValidEip ChannelIdentifierValidator gs = Ok tt /\
  exists kv, vm_InitGenesis module_address ValidEip ChannelIdentifierValidator gs (on_kv (fun _ => ∅) s, x) =
      (Ok tt, (on_kv (fun _ => kv) s, Some (vm_GetParams params))) /\
    (forall k, exported s k -> kv !! k = vm_kv s !! k) /\ (forall k, ~ exported s k -> kv !! k = None).
Proof.
  intros Hok [m Hm] Hp. cbv zeta. split.
  - unfold VmGenesis_Validate. apply seq_ok. split; [by apply exported_accounts_valid|done].
  - exists (put_list ∅ (writes s)). split; [|split].
    + unfold vm_InitGenesis. cbn [vg_Params vg_Accounts vm_ExportGenesis]. unfold bind at 1. cbn [snd fst].
      rewrite set_exported_params, Hm by done. unfold zoom. cbn [fst snd].
      rewrite each_writes by (done || by destruct s). by destruct s.
    + intros k Hk. rewrite (put_list_agree (vm_kv s)) by by apply writes_agree. by rewrite decide_True by by apply writes_exported.
    + intros k Hk. rewrite (put_list_agree (vm_kv s)) by by apply writes_agree. by rewrite decide_False by by rewrite writes_exported.
Qed.
End genesis.

(** * The queries of the model chain

    Every byte of data costs 16 gas here, on top of what a transaction costs. *)
#[local] Instance w_core : EthCore := {|
  IntrinsicGas data _ _ _ _ _ :=
    let gas := 21000 + 16 * Z.of_nat (length data) in
    if gas <? 2 ^ 64 then Ok gas else Err (Error ErrOther "gas uint64 overflow");
|}.
#[local] Instance w_core_laws : EthCoreLaws.
Proof. split. intros d al c h i s g. simpl. destruct (Z.ltb_spec (21000 + 16 * Z.of_nat (length d)) (2 ^ 64)); [|done]. intros [= <-]. lia. Qed.
Definition w_args (data : bytes) (cap : option Z) : TransactionArgs :=
  mkArgs (Some e_alice) (Some e_dapp) None None cap None (Some 7) None None (Some data) None None.
Definition w_json (data : bytes) (cap : option Z) (b : bytes) : res TransactionArgs := Ok (w_args data cap).
Definition w_request : EthCallRequest := mkCallRequest [] 100000 [].
Abbreviation w_estimate data cap :=
  (EstimateGasInternal x_info h_chain None h_validator (w_json data cap) h_ctx h_fm None w_request RPC (e_vm, [])).
Definition w_cfg : EVMConfig :=
  match config_for x_info h_chain h_validator h_ctx h_fm None [] with Ok cfg => cfg | _ => h_cfg end.
Definition w_msg (data : bytes) (cap : option Z) : Message :=
  match ToMessage (with_nonce 4 (w_args data cap)) 100000 (cfg_BaseFee w_cfg) with Ok m => m | _ => h_message_of end.
Abbreviation w_run data cap := (executable x_info h_chain None h_ctx h_fm w_cfg RPC 4 (w_msg data cap) (e_vm, [])).

Lemma Ok_inj {A} (x y : A) : Ok x = Ok y -> x = y.
Proof. by intros [= ->]. Qed.
Lemma estimate_is_least_witness :
  w_estimate [5] None = Ok (mkEstimate 21016 [] "") /\ exists rsp, w_run [5] None 21016 = Ok (false, Some rsp).
Proof.
  assert (w_estimate [5] None = Ok (mkEstimate 21016 [] "")) as He by (vm_compute; reflexivity). split; [exact He|].
  destruct (estimate_is_least x_info h_chain None h_validator (w_json [5] None) h_ctx h_fm None w_request RPC (e_vm, []) 21016
    eq_refl He) as (args & cfg & msg & hi & (_ & [= <-] & Hcfg & Hmsg & Hf) & _ & _ & Hg & _).
  assert (config_for x_info h_chain h_validator h_ctx h_fm None [] = Ok w_cfg) as Hc by (vm_compute; reflexivity).
  change (rq_ProposerAddress w_request) with (@nil Z) in Hcfg. rewrite Hc in Hcfg. apply Ok_inj in Hcfg as <-.
  assert (ToMessage (with_nonce 4 (w_args [5] None)) 100000 (cfg_BaseFee w_cfg) = Ok (w_msg [5] None)) as Hw by (vm_compute; reflexivity).
  assert (vm_GetNonce e_vm (args_GetFrom (w_args [5] None)) = 4) as Hn by (vm_compute; reflexivity).
  cbn [fst] in *. rewrite Hn in *. change (rq_GasCap w_request) with 100000 in *. rewrite Hw in Hmsg. apply Ok_inj in Hmsg as <-.
  destruct Hg as [(rsp & Hrun & _)|[<- Hlt]]; [by exists rsp|]. exfalso. revert Hf. vm_compute. discriminate.
Defined.

(** A call that reverts on all gas is given an estimate, when the sender can pay for
    21005 units. *)
Definition w_cap : option Z := Some 238038562.
Lemma capped_estimate_untested_witness : w_estimate [0] w_cap = Ok (mkEstimate 21005 [] "") /\
  w_estimate [0] None = Ok (mkEstimate 0 [] StateTransition.ErrExecutionReverted).
Proof.
  split; [|vm_compute; reflexivity].
  apply (capped_estimate_untested x_info h_chain None h_validator (w_json [0] w_cap) h_ctx h_fm None w_request RPC (e_vm, [])
    (w_args [0] w_cap) w_cfg (w_msg [0] w_cap) 21005).
  - done.
  - repeat split; try (vm_compute; reflexivity). vm_compute. discriminate.
  - split; vm_compute; congruence.
  - intros g Hg. assert (g = 21000 \/ g = 21001 \/ g = 21002 \/ g = 21003 \/ g = 21004) as Hcase by (unfold TxGas in Hg; lia).
    destruct Hcase as [->|[->|[->|[->| ->]]]]; eexists; vm_compute; reflexivity.
Defined.

(** A simulated call and a trace of three transactions, of one log each. *)
Definition w_call : res MsgEthereumTxResponse * (vm_state * list event) :=
  EthCall x_info h_chain None h_validator (w_json [5] None) h_ctx h_fm None w_request (e_vm, []).
Definition w_answer : MsgEthereumTxResponse := match w_call.1 with Ok r => r | _ => mkResponse 0 [] [] "" 0 end.
Lemma w_call_ok : is_ok w_call.1 = true ->
  EthCall x_info h_chain None h_validator (w_json [5] None) h_ctx h_fm None w_request (e_vm, []) = (Ok w_answer, w_call.2).
Proof. unfold w_answer. fold w_call. by destruct w_call as [[] ?]. Qed.
Lemma w_typed data cap b args : w_json data cap b = Ok args -> args_typed args.
Proof. intros [= <-]. split_and!; [by intros a [= <-]..|done]. Qed.

Lemma EthCall_changes_nothing_witness : w_call.2 = (e_vm, []) /\ r_GasUsed w_answer <= 100000.
Proof.
  assert (is_ok w_call.1 = true) as Ho by (vm_compute; reflexivity). assert (0 < rq_GasCap w_request < 2 ^ 63) as Hc by (split; vm_compute; reflexivity).
  destruct (EthCall_changes_nothing x_info model_keccak h_chain None h_validator (w_json [5] None) (w_typed [5] None)
    h_ctx h_fm None w_request (e_vm, []) w_answer w_call.2 e_kv_ok h_fm_valid Hc (w_call_ok Ho)) as [E [_ Hg]].
  split; [exact E|exact Hg].
Defined.

Definition w_sent : TransactionArgs :=
  mkArgs (Some e_alice) (Some e_dapp) (Some 50000) None (Some 20) (Some 2) (Some 7) (Some 4) None (Some [5]) None (Some 631).
Definition w_data : TxData := match args_data w_sent with Ok d => d | _ => TLegacy (mkLegacyTx 0 None 0 "" None [] [] [] []) end.
Definition w_transaction : Message :=
  match TransactionToMessage (NewTx (AsEthereumData w_data)) (MakeSigner 7 1700) (Some 10) with Ok m => m | _ => h_message_of end.
Definition w_simulated : Message := match ToMessage w_sent 0 (Some 10) with Ok m => m | _ => h_message_of end.
Definition w_message : MsgEthereumTx := match ToTransaction w_sent with Ok m => m | _ => mkMsgEth None 0 "" "" end.
Lemma simulated_message_is_sent_witness : msg_GasPrice w_simulated = msg_GasPrice w_transaction /\ msg_GasPrice w_transaction = 12.
Proof.
  assert (ToTransaction w_sent = Ok w_message) as Ht by (vm_compute; reflexivity).
  assert (m_Data w_message = Some w_data) as Hd by (vm_compute; reflexivity).
  assert (TransactionToMessage (NewTx (AsEthereumData w_data)) (MakeSigner 7 1700) (Some 10) = Ok w_transaction) as Hm
    by (vm_compute; reflexivity).
  assert (ToMessage w_sent 0 (Some 10) = Ok w_simulated) as Hs by (vm_compute; reflexivity).
  assert (forall a, ta_To w_sent = Some a -> address_ok a) as Ha by (by intros a [= <-]).
  assert (one_fee_style w_sent (Some 10)) as Hf by (split_and!; [done..|by intros p [= <-]|by intros p [= <-]]).
  split; [|vm_compute; reflexivity].
  apply (simulated_message_is_sent w_sent w_message w_data (MakeSigner 7 1700) (Some 10) w_transaction w_simulated 50000 Ha Hf eq_refl
    Ht Hd Hm Hs).
Defined.

#[local] Instance w_tracers : Tracers := {|
  TraceResult := Z * Z * Z;
  tracer_New _ _ := Ok tt;
  ParseDuration _ := Ok tt;
  tracer_GetResult _ t _ r := Ok (TxIndex t, LogIndex t, r_GasUsed r);
|}.
Definition w_txs : list MsgEthereumTx := [h_msg [5]; h_msg [6]; h_msg [7]].
Definition w_block : res (list (TraceResult + string)) * (vm_state * list event) :=
  TraceBlock x_info h_chain None h_validator h_ctx h_fm None (mkTraceBlock w_txs None 7 [] 1700 [] 100000) (e_vm, []).
Definition w_results : list TraceResult := [(0, 0, 35508); (1, 1, 35508); (2, 2, 35508)].
Lemma w_block_ok : w_block.1 = Ok (map inl w_results) ->
  TraceBlock x_info h_chain None h_validator h_ctx h_fm None (mkTraceBlock w_txs None 7 [] 1700 [] 100000) (e_vm, [])
    = (Ok (map inl w_results), w_block.2).
Proof. intros <-. fold w_block. by destruct w_block. Qed.
Lemma traced_alone_as_in_block_witness :
  (TraceTx x_info h_chain None h_validator h_ctx h_fm None (mkTraceTx (h_msg [7]) None [h_msg [5]; h_msg [6]] 7 [] 1700 [] 100000)
    (e_vm, [])).1 = Ok (2, 2, 35508).
Proof.
  assert (w_block.1 = Ok (map inl w_results)) as Hb by (vm_compute; reflexivity).
  assert (2 <= maxTracePredecessors)%nat as Hm by (apply Nat.leb_le; vm_compute; reflexivity).
  exact (traced_alone_as_in_block x_info h_chain None h_validator h_ctx h_fm None w_txs None 7 [] 1700 [] 100000
    (e_vm, []) w_results w_block.2 2 (h_msg [7]) (2, 2, 35508) (w_block_ok Hb) eq_refl eq_refl Hm).
Defined.

(** A store of one contract with one slot; its code hashes to 483329 here. *)
Definition is_space (c : Ascii.ascii) : bool := bool_decide (c = Ascii.ascii_of_nat 32) || bool_decide (c = Ascii.ascii_of_nat 10).
Fixpoint drop_spaces (l : list Ascii.ascii) : list Ascii.ascii :=
  match l with [] => [] | c :: l' => if is_space c then drop_spaces l' else l end.
#[local] Instance w_bytes : EthBytes := {|
  Hex2Bytes s := default [] (BankModel.m_decode (String.list_ascii_of_string s));
  Bytes2Hex b := String.string_of_list_ascii (BankModel.m_encode b);
  TrimSpace s := String.string_of_list_ascii (rev (drop_spaces (rev (drop_spaces (String.list_ascii_of_string s)))));
|}.
Lemma drop_spaces_keeps l c : is_space c = false -> drop_spaces (l ++ [c]) <> [].
Proof. intros Hc. induction l as [|d l IH]; cbn; [by rewrite Hc|]. by destruct (is_space d). Qed.
#[local] Instance w_bytes_laws : EthBytesLaws.
Proof.
  split.
  - intros h E. cbn [TrimSpace w_bytes] in E. apply (f_equal String.list_ascii_of_string) in E.
    rewrite String.list_ascii_of_string_of_list_ascii in E. apply (f_equal (@rev _)) in E. rewrite rev_involutive in E.
    unfold Hash_Hex, ModelEthHex, text_of in E. cbn [String.list_ascii_of_string] in E.
    revert E. generalize (String.list_ascii_of_string (String.string_of_list_ascii (BankModel.m_encode (be 32 h)))).
    intros l. cbn [drop_spaces]. change (is_space _) with false. cbn [rev]. by apply drop_spaces_keeps.
  - intros b Hb. cbn [Hex2Bytes Bytes2Hex w_bytes]. rewrite String.list_ascii_of_string_of_list_ascii.
    by rewrite BankModel.m_decode_encode.
Qed.
Definition w_records : list (bytes * bytes) :=
  [(StateKey e_dapp (hash_bytes 1), hash_bytes 77); (KeyPrefixCodeHash ++ address_bytes e_dapp, hash_bytes 483329);
   (KeyPrefixCode ++ hash_bytes 483329, [96; 0])].
Definition w_store : vm_state := on_kv (fun _ => list_to_map w_records) e_vm.
Lemma w_contract : contract_at w_store e_dapp 483329 [96; 0].
Proof.
  split; try (split; vm_compute; congruence); try (vm_compute; congruence).
  - repeat constructor; vm_compute; congruence.
  - eexists. vm_compute. reflexivity.
Qed.
Lemma w_store_ok : contracts_ok w_store.
Proof.
  split; intros k v Hv Hp; apply elem_of_list_to_map_2 in Hv; unfold w_records in Hv;
    rewrite !elem_of_cons in Hv; destruct Hv as [[= -> ->]|[[= -> ->]|[[= -> ->]|Hv]]]; try (by inversion Hv); try done.
  - exists e_dapp, 483329, [96; 0]. split_and!; [done..|exact w_contract].
  - exists e_dapp, 1, 77. split_and!; done.
Qed.
Lemma genesis_restored_witness : exists kv,
  vm_InitGenesis (Some [1]) (fun _ => true) (fun _ => Ok tt) (vm_ExportGenesis w_store (Some vm_DefaultParams))
    (on_kv (fun _ => ∅) w_store, None) = (Ok tt, (on_kv (fun _ => kv) w_store, Some vm_DefaultParams)) /\
  kv !! StateKey e_dapp (hash_bytes 1) = Some (hash_bytes 77).
Proof.
  assert (vm_Params_Validate (fun _ => true) (fun _ => Ok tt) (vm_GetParams (Some vm_DefaultParams)) = Ok tt) as Hp by (vm_compute; reflexivity).
  assert (is_Some (Some [1])) as Hm by by eexists.
  destruct (genesis_restored (Some [1]) (fun _ => true) (fun _ => Ok tt) w_store (Some vm_DefaultParams) None w_store_ok Hm Hp)
    as (_ & kv & Hr & Hin & _).
  exists kv. split; [exact Hr|]. rewrite Hin; [vm_compute; reflexivity|].
  exists e_dapp, 483329, [96; 0]. split; [exact w_contract|]. right. right. exists 1. split; [split; vm_compute; congruence|].
  split; [reflexivity|]. exists (hash_bytes 77). vm_compute. reflexivity.
Defined.
