(* ===== verification/CosmosAnte.v ===== *)
(** The ante handlers of Cosmos transactions beside their fees: the limiter of
    authz messages ([ante/cosmos/authz.go]), the rejection of Ethereum messages
    ([ante/cosmos/reject_msgs.go]), the gas of signatures ([ante/sigverify.go]), and
    the handlers put together and chosen by the extension options
    ([gurud/ante/ante.go], [cosmos_handler.go], [evm_handler.go]).

    A message is what the type switches of the handlers tell apart.  The decorators
    of the SDK and of ibc-go are parameters: each may do anything to the state and
    may refuse. *)
From S2P Require Import Prelude KVStore Sdk EvmConfig FeeMarket FeePolicy FeeChecker DeductFee StateDB Wrappers VmKeeper.
From S2P Require Import TxData VmGas VmParams StateTransition EthAnte Precompile CallEvm.
Import Meter.

(** * Messages *)

(** [authz.MsgExec] unpacks its messages and [authz.MsgGrant] its authorization,
    which may fail; of an authorization only the type URL is read. *)
Inductive SdkMsg :=
  | MEthereumTx (m : MsgEthereumTx)
  | MExec (packed : res (list SdkMsg))
  | MGrant (authorization : res string)
  | MOther (url : string).

Definition EthereumTxURL : string := "/cosmos.evm.vm.v1.MsgEthereumTx".
Definition VestingURL : string := "/cosmos.vesting.v1beta1.MsgCreateVestingAccount".
(** [sdk.MsgTypeURL] *)
Definition MsgTypeURL (m : SdkMsg) : string :=
  match m with
  | MEthereumTx _ => EthereumTxURL
  | MExec _ => "/cosmos.authz.v1beta1.MsgExec"
  | MGrant _ => "/cosmos.authz.v1beta1.MsgGrant"
  | MOther url => url
  end.

(** * The limiter of authz messages *)

Definition maxNestedMsgs : Z := 7.

Section limiter.
Variable disabledMsgTypes : list string.

Definition isDisabledMsg (msgTypeURL : string) : bool := existsb (String.eqb msgTypeURL) disabledMsgTypes.
Definition disabled_error {A} : res A := Err (Error ErrOther "found disabled msg type").

(** The body of the loop: the level the loop goes on with.  It is increased by a
    [MsgExec] and never decreased, so it counts the ones before in the list too. *)
Fixpoint check_msg (msg : SdkMsg) (isAuthzInnerMsg : bool) (nestedLvl : Z) : res Z :=
  match msg with
  | MExec packed =>
      match packed with
      | Ok innerMsgs =>
          let nestedLvl := nestedLvl + 1 in
          do? (if maxNestedMsgs <=? nestedLvl then Err (Error ErrOther "found more nested msgs than permitted")
               else (fix loop (msgs : list SdkMsg) (lvl : Z) : res unit :=
                       match msgs with
                       | [] => Ok tt
                       | m :: msgs => let? lvl := check_msg m true lvl in loop msgs lvl
                       end) innerMsgs nestedLvl);
          Ok nestedLvl
      | Err e => Err e
      | Panic p => Panic p
      end
  | MGrant authorization =>
      let? url := authorization in
      if isDisabledMsg url then disabled_error else Ok nestedLvl
  | m => if isAuthzInnerMsg && isDisabledMsg (MsgTypeURL m) then disabled_error else Ok nestedLvl
  end.
Fixpoint check_msgs (msgs : list SdkMsg) (isAuthzInnerMsg : bool) (nestedLvl : Z) : res unit :=
  match msgs with
  | [] => Ok tt
  | m :: msgs => let? lvl := check_msg m isAuthzInnerMsg nestedLvl in check_msgs msgs isAuthzInnerMsg lvl
  end.
Definition checkDisabledMsgs (msgs : list SdkMsg) (isAuthzInnerMsg : bool) (nestedLvl : Z) : res unit :=
  if maxNestedMsgs <=? nestedLvl then Err (Error ErrOther "found more nested msgs than permitted")
  else check_msgs msgs isAuthzInnerMsg nestedLvl.

Definition AuthzLimiter_AnteHandle (msgs : list SdkMsg) : res unit :=
  match checkDisabledMsgs msgs false 1 with
  | Err e => Err (Error ErrUnauthorized (e_msg e))
  | r => r
  end.
End limiter.

(** * The rejection of Ethereum messages *)

Fixpoint RejectMessages_AnteHandle (msgs : list SdkMsg) : res unit :=
  match msgs with
  | [] => Ok tt
  | MEthereumTx _ :: _ => Err (Error ErrInvalidType "MsgEthereumTx needs to be contained within a tx with its option")
  | _ :: msgs => RejectMessages_AnteHandle msgs
  end.

(** * The gas of signatures *)

(** The key types the consumer tells apart, and the data of a signature. *)
Inductive PubKey := KeyEthSecp256k1 | KeyEd25519 | KeyMultisig (keys : list PubKey) | KeyOther.
Inductive SignatureData := SingleSignature | MultiSignature (bits : list bool) (sigs : list SignatureData).

Definition Secp256k1VerifyCost : Z := 200.

Section signatures.
Context `{GasMeterLib}.
Variable SigVerifyCostED25519 : Z.

(** The loop of [ConsumeMultisignatureVerificationGas] over the bits: keys are
    taken by their index, signatures one after the other. *)
Fixpoint SigVerificationGasConsumer (pubkey : PubKey) (data : SignatureData) : M gas_meter unit :=
  match pubkey with
  | KeyEthSecp256k1 => meter_ConsumeGas Secp256k1VerifyCost
  | KeyEd25519 => do! meter_ConsumeGas SigVerifyCostED25519; fail ErrInvalidPubKey "ED25519 public keys are unsupported"
  | KeyMultisig keys =>
      match data with
      | MultiSignature bits sigs =>
          (fix loop (keys : list PubKey) (bits : list bool) (sigs : list SignatureData) : M gas_meter unit :=
             match bits with
             | [] => ret tt
             | b :: bits =>
                 match keys with
                 | [] => (* the index is past the keys as soon as a bit is set *)
                     if existsb (fun b => b) (b :: bits) then panic "index out of range" else ret tt
                 | k :: keys =>
                     if b then
                       match sigs with
                       | [] => panic "index out of range"
                       | sg :: sigs => do! SigVerificationGasConsumer k sg; loop keys bits sigs
                       end
                     else loop keys bits sigs
                 end
             end) keys bits sigs
      | SingleSignature => fail ErrOther "expected multi signature data"
      end
  | KeyOther => fail ErrInvalidPubKey "unrecognized/unsupported public key type"
  end.
End signatures.

(** * The handlers *)

(** A transaction: what the fee decorators and the EVM's decorator read of it, and
    the type URLs of its extension options, [None] when its type has none. *)
Record SdkTx := mkSdkTx {
  s_fee_tx : FeeTx SdkMsg;
  s_ValidateBasic : option (res unit); s_proto : option ProtoTx; s_is_gas_tx : bool;
  s_opts : option (list string);
}.
Definition GetMsgs (tx : SdkTx) : list SdkMsg := tx_msgs (s_fee_tx tx).
Definition as_eth (m : SdkMsg) : option MsgEthereumTx := match m with MEthereumTx e => Some e | _ => None end.
Definition eth_view (tx : SdkTx) : EthTx :=
  mkEthTx (s_ValidateBasic tx) (s_proto tx) (s_is_gas_tx tx)
    (if tx_is_fee_tx (s_fee_tx tx) then Some (tx_gas (s_fee_tx tx)) else None) (map as_eth (GetMsgs tx)).

Definition EthereumOption : string := "/cosmos.evm.vm.v1.ExtensionOptionsEthereumTx".
Definition DynamicFeeOption : string := "/cosmos.evm.types.v1.ExtensionOptionDynamicFeeTx".
Definition DisabledAuthzMsgs : list string := [EthereumTxURL; VestingURL].

(** The decorators that are not of this repository, on the state [S] of a context. *)
Record SdkDecorators (S : Type) := mkSdkDecorators {
  SetUpContext : SdkTx -> bool -> M S unit; ExtensionOptions : SdkTx -> bool -> M S unit;
  ValidateBasic : SdkTx -> bool -> M S unit; TxTimeoutHeight : SdkTx -> bool -> M S unit;
  ValidateMemo : SdkTx -> bool -> M S unit; ConsumeGasForTxSize : SdkTx -> bool -> M S unit;
  SetPubKey : SdkTx -> bool -> M S unit; ValidateSigCount : SdkTx -> bool -> M S unit;
  SigGasConsume : SdkTx -> bool -> M S unit; SigVerification : SdkTx -> bool -> M S unit;
  IncrementSequence : SdkTx -> bool -> M S unit; RedundantRelay : SdkTx -> bool -> M S unit;
}.
Arguments SetUpContext {S}. Arguments ExtensionOptions {S}. Arguments ValidateBasic {S}.
Arguments TxTimeoutHeight {S}. Arguments ValidateMemo {S}. Arguments ConsumeGasForTxSize {S}.
Arguments SetPubKey {S}. Arguments ValidateSigCount {S}. Arguments SigGasConsume {S}.
Arguments SigVerification {S}. Arguments IncrementSequence {S}. Arguments RedundantRelay {S}.

Section handler.
Context `{DecLib, CoinsLib, Keccak, EthHex, EthTypes, !EthSigner, EthCore, EvmAccounts, EvmBank, !EvmAuth}.
Context `{!BankKeeper, !AccountKeeper}.
Variable info : EvmCoinInfo.
#[local] Instance cosmos_keeper : StateKeeper := VmStateKeeper info.
Variable chain : ChainConfig.
Variable consensus_params : option (option Z).
Variable core_CanTransfer : Address -> Z -> M StateDB bool.
Variable maxGasWanted : Z.
(** The fee decorator's own parameters, see [DeductFee]. *)
Variable GrantState : Type.
Variable UseGrantedFees : addr -> addr -> coins -> list SdkMsg -> M GrantState unit.
Variable feegrant_enabled : bool.
Variable has_account : addr -> bool.
Variable DeductFees : addr -> coins -> M BankState unit.
Variable BytesToString : addr -> res string.
Variable txFeeChecker : AnteCtx -> FeeTx SdkMsg -> res (coins * coins * Z).
Variable GetDiscount : string -> list SdkMsg -> Discount.
(** The state of a context, with the parts the decorators of this repository work on. *)
Variable S : Type.
Variable ante_of : S -> ante_state.
Variable set_ante : ante_state -> S -> S.
Variable fees_of : S -> df_state GrantState.
Variable set_fees : df_state GrantState -> S -> S.
Variable sdk : SdkDecorators S.
Variable ctx : EvmCtx.
Variable ante_ctx : AnteCtx.
Variable params : option VmParams.
Implicit Types (tx : SdkTx) (sim : bool).

Definition on_ante {A} (m : M ante_state A) : M S A := zoom ante_of set_ante m.
Definition on_fees {A} (m : M (df_state GrantState) A) : M S A := zoom fees_of set_fees m.

Definition MinGasPrice_step tx sim : M S unit := fun s =>
  (MinGasPriceDecorator_AnteHandle info (as_fm (ante_of s)) (s_fee_tx tx) sim, s).
Definition DeductFee_step tx sim : M S unit :=
  do! on_fees (AnteHandle GrantState UseGrantedFees feegrant_enabled has_account DeductFees BytesToString
    txFeeChecker GetDiscount ante_ctx (s_fee_tx tx) sim);
  ret tt.
Definition GasWanted_AnteHandle tx sim : M S unit :=
  on_ante (CheckGasWanted ctx (eth_view tx) (IsLondon chain (x_height ctx))).

(** [sdk.ChainAnteDecorators]: one after the other. *)
Fixpoint ChainAnteDecorators (l : list (SdkTx -> bool -> M S unit)) tx sim : M S unit :=
  match l with
  | [] => ret tt
  | d :: l => do! d tx sim; ChainAnteDecorators l tx sim
  end.
Definition newCosmosAnteHandler : SdkTx -> bool -> M S unit :=
  ChainAnteDecorators [
    (fun tx _ => lift (RejectMessages_AnteHandle (GetMsgs tx)));
    (fun tx _ => lift (AuthzLimiter_AnteHandle DisabledAuthzMsgs (GetMsgs tx)));
    SetUpContext sdk; ExtensionOptions sdk; ValidateBasic sdk; TxTimeoutHeight sdk; ValidateMemo sdk;
    MinGasPrice_step; ConsumeGasForTxSize sdk; DeductFee_step; SetPubKey sdk; ValidateSigCount sdk;
    SigGasConsume sdk; SigVerification sdk; IncrementSequence sdk; RedundantRelay sdk; GasWanted_AnteHandle].
Definition newMonoEVMAnteHandler : SdkTx -> bool -> M S unit :=
  ChainAnteDecorators [
    (fun tx sim => do! on_ante (MonoDecorator_AnteHandle info chain consensus_params core_CanTransfer maxGasWanted
                                  ctx params sim (eth_view tx)); ret tt)].

Definition NewAnteHandler tx sim : M S unit :=
  match s_opts tx with
  | Some (typeURL :: _) =>
      if decide (typeURL = EthereumOption) then newMonoEVMAnteHandler tx sim
      else if decide (typeURL = DynamicFeeOption) then newCosmosAnteHandler tx sim
      else fail ErrUnknownExtensionOptions "rejecting tx with unsupported extension option"
  | _ => newCosmosAnteHandler tx sim
  end.
End handler.
