(* ===== verification/CosmosAnteThms.v ===== *)
(** The ante handlers of Cosmos transactions: exactly which authz messages the
    limiter accepts, that an Ethereum message is accepted only by the EVM's ante
    handler, at whatever depth it is packed, and the gas of signatures. *)
From S2P Require Import Prelude KVStore Sdk EvmConfig FeeMarket FeePolicy FeeChecker DeductFee StateDB Wrappers VmKeeper.
From S2P Require Import TxData VmGas VmParams StateTransition EthAnte BankModel PreciseBank PreciseBankThms EthModel EvmCompose EthCompose.
From S2P Require Import Precompile CallEvm CosmosAnte.
Import Meter.

(** * Messages inside messages *)

(** [m] is in the list of a [MsgExec] somewhere below [msgs]. *)
Inductive inside (m : SdkMsg) : list SdkMsg -> Prop :=
  | inside_here l msgs : MExec (Ok l) ∈ msgs -> m ∈ l -> inside m msgs
  | inside_deep l msgs : MExec (Ok l) ∈ msgs -> inside m l -> inside m msgs.

Lemma inside_nil m : ~ inside m [].
Proof. intros Hi. inversion Hi; set_solver. Qed.
Lemma inside_cons m x l : inside m (x :: l) <->
  (exists inner, x = MExec (Ok inner) /\ (m ∈ inner \/ inside m inner)) \/ inside m l.
Proof.
  split.
  - intros Hi. inversion Hi as [l0 ? Hin Hm|l0 ? Hin Hm]; subst; apply elem_of_cons in Hin as [<-|Hin]; eauto using inside.
  - intros [(inner & -> & [Hm|Hm])|Hi].
    + apply (inside_here m inner); [left|done].
    + apply (inside_deep m inner); [left|done].
    + inversion Hi as [l0 ? Hin Hm|l0 ? Hin Hm]; subst; [apply (inside_here m l0)|apply (inside_deep m l0)]; try done; by right.
Qed.

(** Induction over messages and, with it, over lists of messages. *)
Fixpoint SdkMsg_tree_ind (P : SdkMsg -> Prop) (Hx : forall l, Forall P l -> P (MExec (Ok l)))
    (Ho : forall m, (forall l, m <> MExec (Ok l)) -> P m) (m : SdkMsg) : P m.
Proof.
  destruct m as [e|[l|e|p]|a|u]; try by apply Ho. apply Hx.
  induction l as [|x l IH]; constructor; [exact (SdkMsg_tree_ind P Hx Ho x)|exact IH].
Defined.
Lemma msgs_ind (Q : list SdkMsg -> Prop) : Q [] ->
  (forall m l, Q l -> (forall inner, m = MExec (Ok inner) -> Q inner) -> Q (m :: l)) -> forall l, Q l.
Proof.
  intros H0 Hc. set (P m := forall inner, m = MExec (Ok inner) -> Q inner).
  assert (forall l, Forall P l -> Q l) as HQ by (intros l; induction 1; auto).
  assert (forall m, P m) as HP.
  { apply SdkMsg_tree_ind; [intros l Hl inner [= <-]; auto|]. intros m Hm inner ->. by destruct (Hm inner). }
  intros l. apply HQ, Forall_forall. auto.
Qed.

Section limiter.
Variable disabled : list string.

(** What the limiter asks of a message, inside an authz message or not. *)
Definition allowed (inner : bool) (m : SdkMsg) : Prop :=
  match m with
  | MExec packed => exists l, packed = Ok l
  | MGrant authorization => exists url, authorization = Ok url /\ url ∉ disabled
  | _ => inner = true -> MsgTypeURL m ∉ disabled
  end.
(** How deep the messages are nested, where a [MsgExec] counts as nested in the ones
    before it in its list. *)
Fixpoint weight (m : SdkMsg) (rest : Z) : Z :=
  match m with
  | MExec (Ok l) =>
      1 + Z.max ((fix go (l : list SdkMsg) : Z := match l with [] => 0 | m :: l => weight m (go l) end) l) rest
  | _ => rest
  end.
Definition nesting (msgs : list SdkMsg) : Z := foldr weight 0 msgs.

Lemma nesting_exec l rest : nesting (MExec (Ok l) :: rest) = 1 + Z.max (nesting l) (nesting rest).
Proof. by induction l. Qed.
Lemma nesting_nonneg l : 0 <= nesting l.
Proof.
  induction l as [|m l IH]; [done|]. destruct m as [e|[inner|e|p]|a|u]; try exact IH. rewrite nesting_exec. lia.
Qed.

Lemma isDisabledMsg_spec url : isDisabledMsg disabled url = false <-> url ∉ disabled.
Proof.
  unfold isDisabledMsg. rewrite list_elem_of_In, <- not_true_iff_false, existsb_exists. split; intros Hn Hx; apply Hn.
  - exists url. by rewrite String.eqb_refl.
  - destruct Hx as (x & Hx & ->%String.eqb_eq). done.
Qed.
Lemma check_msg_exec l b lvl :
  check_msg disabled (MExec (Ok l)) b lvl = let? _ := checkDisabledMsgs disabled l true (lvl + 1) in Ok (lvl + 1).
Proof.
  cbn [check_msg]. unfold checkDisabledMsgs. destruct (_ <=? _); [done|]. f_equal. generalize (lvl + 1). clear.
  induction l as [|m l IH]; intros n; [done|]. cbn [check_msgs]. destruct (check_msg disabled m true n); [apply IH|done..].
Qed.

Definition good (b : bool) (l : list SdkMsg) : Prop :=
  (forall m, m ∈ l -> allowed b m) /\ (forall m, inside m l -> allowed true m).
Lemma good_nil b : good b [].
Proof. split; intros m Hm; [set_solver|by destruct (inside_nil m)]. Qed.
Lemma good_cons b m l : good b (m :: l) <->
  allowed b m /\ (forall inner, m = MExec (Ok inner) -> good true inner) /\ good b l.
Proof.
  unfold good. setoid_rewrite elem_of_cons. setoid_rewrite inside_cons. split.
  - intros [Ha Hi]. split; [by apply Ha; left|]. split.
    + intros inner ->. split; intros x Hx; apply Hi; left; eauto.
    + split; eauto.
  - intros (Ha & Hx & Hl & Hin). split; [by intros x [->|?]; auto|].
    intros x [(inner & -> & Hi)|?]; [|auto]. destruct (Hx inner eq_refl) as [? ?]. destruct Hi; auto.
Qed.

(** A message that holds no others keeps the level of the loop or ends it. *)
Lemma check_msg_other m b lvl : (forall l, m <> MExec (Ok l)) ->
  (check_msg disabled m b lvl = Ok lvl /\ allowed b m) \/
  ((forall x, check_msg disabled m b lvl <> Ok x) /\ ~ allowed b m).
Proof.
  intros Hne. destruct m as [e|[inner|e|p]|[url|e|p]|u]; try by destruct (Hne inner).
  2, 3: right; split; [done|]; by intros [? ?].
  3, 4: right; split; [done|]; by intros (? & ? & ?).
  2: { cbn [check_msg rbind allowed]. destruct (isDisabledMsg disabled url) eqn:E.
    - right. split; [done|]. intros (x & [= <-] & Ha). apply isDisabledMsg_spec in Ha. congruence.
    - apply isDisabledMsg_spec in E. left. eauto. }
  all: cbn [check_msg allowed]; destruct b; cbn [andb]; [|by left].
  all: match goal with |- context [isDisabledMsg disabled ?u] => destruct (isDisabledMsg disabled u) eqn:E end.
  1, 3: right; split; [done|]; intros Ha; specialize (Ha eq_refl); apply isDisabledMsg_spec in Ha; congruence.
  all: apply isDisabledMsg_spec in E; by left.
Qed.
Lemma nesting_other m l : (forall inner, m <> MExec (Ok inner)) -> nesting (m :: l) = nesting l.
Proof. intros Hne. destruct m as [e|[inner|e|p]|a|u]; try done. by destruct (Hne inner). Qed.

Lemma check_msgs_spec l : forall b lvl, lvl <= 6 ->
  check_msgs disabled l b lvl = Ok tt <-> good b l /\ lvl + nesting l <= 6.
Proof.
  induction l as [|m l IHl IHm] using msgs_ind; intros b lvl Hlvl.
  { cbn. split; [intros _; split; [apply good_nil|lia]|done]. }
  cbn [check_msgs]. rewrite good_cons.
  assert ((exists inner, m = MExec (Ok inner)) \/ forall inner, m <> MExec (Ok inner)) as [[inner ->]|Hne].
  { destruct m as [e|[inner|e|p]|a|u]; eauto. }
  - rewrite check_msg_exec, nesting_exec. specialize (IHm inner eq_refl).
    pose proof (nesting_nonneg inner). pose proof (nesting_nonneg l). unfold checkDisabledMsgs, maxNestedMsgs.
    destruct (Z.leb_spec 7 (lvl + 1)); [split; [done|lia]|]. specialize (IHm true (lvl + 1) ltac:(lia)).
    destruct (check_msgs disabled inner true (lvl + 1)) as [[]|e|p] eqn:E; cbn [rbind].
    2, 3: split; [done|]; intros [(_ & Hg & _) Hn]; assert (lvl + 1 + nesting inner <= 6) as Hle by lia;
      by discriminate (proj2 IHm (conj (Hg _ eq_refl) Hle)).
    rewrite IHl by lia. destruct (proj1 IHm eq_refl) as [Hg Hn]. split; [intros [Hgl Hnl]|intros [(_ & _ & Hgl) Hnl]].
    + split; [|lia]. split_and!; [by eexists|by intros x [= <-]|done].
    + split; [done|lia].
  - rewrite nesting_other by done. destruct (check_msg_other m b lvl Hne) as [[-> Ha]|[Hno Ha]].
    + cbn [rbind]. rewrite IHl by done. naive_solver.
    + split; [|naive_solver]. intros Hr. apply rbind_ok in Hr as (x & Hx & _). by destruct (Hno x).
Qed.

(** The limiter, for the theorems below. *)
Lemma limiter_accepts msgs : AuthzLimiter_AnteHandle disabled msgs = Ok tt <->
  (forall m, m ∈ msgs -> allowed false m) /\ (forall m, inside m msgs -> allowed true m) /\ nesting msgs <= 5.
Proof.
  unfold AuthzLimiter_AnteHandle. pose proof (check_msgs_spec msgs false 1 ltac:(lia)) as Hs.
  unfold checkDisabledMsgs, maxNestedMsgs. cbn [Z.leb Z.compare Pos.compare Pos.compare_cont] in *. unfold good in Hs.
  destruct (check_msgs disabled msgs false 1) as [[]|e|p].
  - split; [intros _|done]. destruct (proj1 Hs eq_refl) as [[? ?] ?]. split_and!; [done..|lia].
  - split; [done|]. intros (? & ? & ?). discriminate (proj2 Hs). split; [done|lia].
  - split; [done|]. intros (? & ? & ?). discriminate (proj2 Hs). split; [done|lia].
Qed.

(**  The limiter of authz messages accepts a transaction exactly when every
    packed message and authorization can be unpacked, no message inside a [MsgExec],
    however deep, is of a disabled type, no [MsgGrant] at any depth is for one, and
    the messages are nested at most five deep, where a [MsgExec] counts as nested in
    those before it in its list. *)
Theorem authz_limiter_exact msgs : AuthzLimiter_AnteHandle disabled msgs = Ok tt <->
  (forall m, m ∈ msgs -> allowed false m) /\ (forall m, inside m msgs -> allowed true m) /\ nesting msgs <= 5.
Proof. apply limiter_accepts. Qed.
End limiter.

(** * Which handler accepts Ethereum messages *)

Lemma RejectMessages_spec msgs : RejectMessages_AnteHandle msgs = Ok tt -> forall e, MEthereumTx e ∉ msgs.
Proof.
  induction msgs as [|m msgs IH]; [set_solver|]. intros Hr e He. apply elem_of_cons in He as [<-|He]; [done|].
  destruct m; try done; by eapply IH.
Qed.

Section handler.
Context `{DecLib, CoinsLib, Keccak, EthHex, EthTypes, !EthSigner, EthCore, EvmAccounts, EvmBank, !EvmAuth}.
Context `{!BankKeeper, !AccountKeeper}.
Variable info : EvmCoinInfo.
#[local] Instance ch_keeper : StateKeeper := VmStateKeeper info.
Variable chain : ChainConfig.
Variable consensus_params : option (option Z).
Variable core_CanTransfer : Address -> Z -> M StateDB bool.
Variable maxGasWanted : Z.

Lemma ante_messages_all c sim tx msgs : forall u i s r s',
  ante_messages info chain consensus_params core_CanTransfer maxGasWanted c sim tx u i msgs s = (Ok r, s') ->
  Forall (fun m => is_Some m) msgs.
Proof.
  induction msgs as [|m msgs IH]; intros u i s r s' Hr; [done|]. cbn [ante_messages] in Hr.
  apply bind_ok in Hr as (x & s1 & Hm & Hr). apply bind_ok in Hr as (y & s2 & Hr & _). constructor; [|by eapply IH].
  destruct m as [m|]; [by eexists|]. done.
Qed.
Lemma MonoDecorator_all c params sim tx s r s' :
  MonoDecorator_AnteHandle info chain consensus_params core_CanTransfer maxGasWanted c params sim tx s = (Ok r, s') ->
  Forall (fun m => is_Some m) (t_msgs tx).
Proof.
  unfold MonoDecorator_AnteHandle. intros Hr. apply bind_ok in Hr as (a & s1 & _ & Hr).
  apply bind_ok in Hr as (b & s2 & _ & Hr). rewrite bind_gets in Hr. apply bind_ok in Hr as (u & s3 & _ & Hr).
  apply bind_ok in Hr as (x & s4 & Hr & _). by eapply ante_messages_all.
Qed.

Variable GrantState : Type.
Variable UseGrantedFees : addr -> addr -> coins -> list SdkMsg -> M GrantState unit.
Variable feegrant_enabled : bool.
Variable has_account : addr -> bool.
Variable DeductFees : addr -> coins -> M BankState unit.
Variable BytesToString : addr -> res string.
Variable txFeeChecker : AnteCtx -> FeeTx SdkMsg -> res (coins * coins * Z).
Variable GetDiscount : string -> list SdkMsg -> Discount.
Variable S : Type.
Variable ante_of : S -> ante_state.
Variable set_ante : ante_state -> S -> S.
Variable fees_of : S -> df_state GrantState.
Variable set_fees : df_state GrantState -> S -> S.
Variable sdk : SdkDecorators S.
Variable ctx : EvmCtx.
Variable ante_ctx : AnteCtx.
Variable params : option VmParams.

Abbreviation handler := (NewAnteHandler info chain consensus_params core_CanTransfer maxGasWanted GrantState UseGrantedFees
  feegrant_enabled has_account DeductFees BytesToString txFeeChecker GetDiscount S ante_of set_ante fees_of set_fees sdk
  ctx ante_ctx params).

(** C10.  A transaction the chain accepts either has the Ethereum option and holds
    nothing but Ethereum messages, each checked by the EVM's ante handler, or it
    holds no Ethereum message at all, neither directly nor inside authz messages at
    any depth, and grants nobody the right to send one: whatever the decorators of
    the SDK do. *)
Theorem ethereum_messages_routed tx sim s u s' : handler tx sim s = (Ok u, s') ->
  (exists rest, s_opts tx = Some (EthereumOption :: rest) /\ forall m, m ∈ GetMsgs tx -> exists e, m = MEthereumTx e) \/
  (forall e, (MEthereumTx e ∉ GetMsgs tx) /\ ~ inside (MEthereumTx e) (GetMsgs tx)) /\
  (forall m, m ∈ GetMsgs tx \/ inside m (GetMsgs tx) -> m <> MGrant (Ok EthereumTxURL)).
Proof.
  intros Hr. unfold NewAnteHandler in Hr.
  assert ((exists rest, s_opts tx = Some (EthereumOption :: rest) /\ forall m, m ∈ GetMsgs tx -> exists e, m = MEthereumTx e)
    \/ RejectMessages_AnteHandle (GetMsgs tx) = Ok tt /\ AuthzLimiter_AnteHandle DisabledAuthzMsgs (GetMsgs tx) = Ok tt)
    as [Hl|[Hrej Hlim]]; [|by left|right].
  { assert (forall s0, newCosmosAnteHandler info chain GrantState UseGrantedFees feegrant_enabled has_account DeductFees
        BytesToString txFeeChecker GetDiscount S ante_of set_ante fees_of set_fees sdk ctx ante_ctx tx sim s0 = (Ok u, s') ->
      RejectMessages_AnteHandle (GetMsgs tx) = Ok tt /\ AuthzLimiter_AnteHandle DisabledAuthzMsgs (GetMsgs tx) = Ok tt) as Hc.
    { intros s0 Hc. unfold newCosmosAnteHandler in Hc. cbn [ChainAnteDecorators] in Hc.
      apply bind_lift_ok in Hc as ([] & Hrej & Hc). by apply bind_lift_ok in Hc as ([] & Hlim & _). }
    destruct (s_opts tx) as [[|url rest]|]; [right; by eapply Hc| |right; by eapply Hc].
    case_decide as E1; [left|case_decide; [right; by eapply Hc|done]].
    exists rest. split; [by rewrite E1|]. unfold newMonoEVMAnteHandler in Hr. cbn [ChainAnteDecorators] in Hr.
    apply bind_ok in Hr as (v & s1 & Hr & _). apply bind_ok in Hr as (x & s2 & Hr & _).
    apply zoom_ok in Hr as (t & Hr & _). apply MonoDecorator_all in Hr. cbn [eth_view t_msgs] in Hr.
    intros m Hm. rewrite Forall_map, Forall_forall in Hr. destruct (Hr m Hm) as [e He]. destruct m; try done. eauto. }
  apply limiter_accepts in Hlim as (Hout & Hin & _). split.
  - intros e. split; [by apply RejectMessages_spec|]. intros He. apply Hin in He. cbn in He. apply He; [done|]. left.
  - intros m Hm ->. assert (exists b, allowed DisabledAuthzMsgs b (MGrant (Ok EthereumTxURL))) as (b & url & [= <-] & Hno).
    { destruct Hm; eauto. }
    apply Hno. left.
Qed.
End handler.

(** * The gas of signatures *)

(** The keys whose bits are set, down to the single keys. *)
Fixpoint signers (pubkey : PubKey) (data : SignatureData) : list PubKey :=
  match pubkey with
  | KeyMultisig keys =>
      match data with
      | MultiSignature bits sigs =>
          (fix loop (keys : list PubKey) (bits : list bool) (sigs : list SignatureData) : list PubKey :=
             match keys, bits with
             | k :: keys, b :: bits =>
                 if b then match sigs with [] => [] | sg :: sigs => signers k sg ++ loop keys bits sigs end
                 else loop keys bits sigs
             | _, _ => []
             end) keys bits sigs
      | SingleSignature => []
      end
  | k => [k]
  end.

Fixpoint PubKey_tree_ind (P : PubKey -> Prop) (Hm : forall l, Forall P l -> P (KeyMultisig l))
    (Ho : forall k, (forall l, k <> KeyMultisig l) -> P k) (k : PubKey) : P k.
Proof.
  destruct k as [| |l|]; try by apply Ho. apply Hm.
  induction l as [|x l IH]; constructor; [exact (PubKey_tree_ind P Hm Ho x)|exact IH].
Defined.

(**  A signature whose gas is accepted is charged the same for every single key
    that signed, through multisigs of any depth, and all of those keys are Ethereum
    keys. *)
Theorem signature_gas_exact `{GasMeterLaws} cost pubkey data g u g' :
  SigVerificationGasConsumer cost pubkey data g = (Ok u, g') ->
  Forall (fun k => k = KeyEthSecp256k1) (signers pubkey data) /\
  g' = mkMeter (consumed g + Secp256k1VerifyCost * Z.of_nat (length (signers pubkey data))) (limit g).
Proof.
  revert data g u g'. induction pubkey as [keys IH|k Hk] using PubKey_tree_ind; intros data g u g' Hr.
  - destruct data as [|bits sigs]; [done|]. cbn [SigVerificationGasConsumer signers] in *.
    revert bits sigs g u Hr. induction IH as [|k keys IHk _ IHkeys]; intros bits sigs g u Hr.
    + destruct bits as [|b bits]; [|destruct (existsb _ _); [done|]];
        injection Hr as _ <-; split; try constructor; cbn [length]; destruct g; cbn [consumed limit]; f_equal; lia.
    + destruct bits as [|b bits].
      { injection Hr as _ <-. split; [constructor|]. cbn [length]. destruct g. cbn [consumed limit]. f_equal. lia. }
      destruct b; [|by eapply IHkeys]. destruct sigs as [|sg sigs]; [done|].
      apply bind_ok in Hr as (v & g1 & Hk & Hr). apply IHk in Hk as [Hf1 ->]. apply IHkeys in Hr as [Hf2 ->].
      split; [by apply Forall_app|]. rewrite length_app. cbn [consumed limit]. f_equal. lia.
  - destruct k as [| |l|]; [| |by destruct (Hk l)|done].
    + apply meter_consumes in Hr as ->. by split; [repeat constructor|].
    + by apply bind_ok in Hr as (v & g1 & _ & Hr).
Qed.

(** * Concrete transactions *)

Definition no_decorator : SdkTx -> bool -> M (ante_state * df_state unit) unit := fun _ _ => ret tt.
Definition no_decorators : SdkDecorators (ante_state * df_state unit) :=
  mkSdkDecorators _ no_decorator no_decorator no_decorator no_decorator no_decorator no_decorator no_decorator
    no_decorator no_decorator no_decorator no_decorator no_decorator.
(** A transfer and a grant inside two authz messages, without a fee. *)
Definition sdk_tx : SdkTx :=
  mkSdkTx (mkFeeTx _ true 50000 None [1] None
    [MExec (Ok [MExec (Ok [MOther "/cosmos.bank.v1beta1.MsgSend"; MGrant (Ok "/cosmos.bank.v1beta1.MsgSend")])])] (Some []))
    None None true (Some [DynamicFeeOption]).
Definition sdk_state : ante_state * df_state unit := (h_state, DF unit (MBank (fun _ _ => 0) (fun _ => 0)) tt []).
Definition sdk_handle : M (ante_state * df_state unit) unit :=
  NewAnteHandler x_info h_chain None h_CanTransfer 0 unit (fun _ _ _ _ => ret tt) true (fun _ => true)
    (fun a fee => bk_SendCoinsFromAccountToModule a FeeCollectorName fee) (fun a => Ok (bech32_of a))
    (fun _ tx => Ok (GetFee tx, [], 0)) (fun _ _ => mkDiscount "" "" None) (ante_state * df_state unit) fst
    (fun a s => (a, s.2)) snd (fun f s => (s.1, f)) no_decorators h_ctx (mkAnteCtx 7 false []) None sdk_tx false.

Lemma ethereum_messages_routed_witness :
  (forall e, ~ inside (MEthereumTx e) (GetMsgs sdk_tx)) /\ ~ inside (MGrant (Ok EthereumTxURL)) (GetMsgs sdk_tx).
Proof.
  assert ((sdk_handle sdk_state).1 = Ok tt) as E by (vm_compute; reflexivity).
  destruct (ethereum_messages_routed x_info h_chain None h_CanTransfer 0 unit (fun _ _ _ _ => ret tt) true (fun _ => true)
    (fun a fee => bk_SendCoinsFromAccountToModule a FeeCollectorName fee) (fun a => Ok (bech32_of a))
    (fun _ tx => Ok (GetFee tx, [], 0)) (fun _ _ => mkDiscount "" "" None) (ante_state * df_state unit) fst
    (fun a s => (a, s.2)) snd (fun f s => (s.1, f)) no_decorators h_ctx (mkAnteCtx 7 false []) None sdk_tx false
    sdk_state tt (sdk_handle sdk_state).2 (run_fst _ _ _ E)) as [(rest & Ho & _)|[Hno Hg]]; [discriminate Ho|].
  split; [intros e; exact (proj2 (Hno e))|]. intros Hin. exact (Hg _ (or_intror Hin) eq_refl).
Defined.

(** Two of three keys, one of them a multisig of two. *)
Definition sig_key : PubKey :=
  KeyMultisig [KeyEthSecp256k1; KeyEd25519; KeyMultisig [KeyEthSecp256k1; KeyEthSecp256k1]].
Definition sig_data : SignatureData :=
  MultiSignature [true; false; true] [SingleSignature; MultiSignature [true; true] [SingleSignature; SingleSignature]].
Lemma signature_gas_exact_witness :
  (@SigVerificationGasConsumer BasicMeter 590 sig_key sig_data (mkMeter 50 10000)).2 = mkMeter 650 10000.
Proof.
  assert ((@SigVerificationGasConsumer BasicMeter 590 sig_key sig_data (mkMeter 50 10000)).1 = Ok tt) as E by reflexivity.
  destruct (@signature_gas_exact BasicMeter _ 590 sig_key sig_data (mkMeter 50 10000) tt _ (run_fst _ _ _ E)) as [_ Hg].
  exact Hg.
Defined.
