(* ===== verification/Indexer.v ===== *)
(** The indexer of Ethereum transactions for JSON-RPC: what it reads from the events
    of a transaction ([rpc/types/events.go], [rpc/types/utils.go]), the index of a
    block ([indexer/kv_indexer.go]) and the service that follows the chain
    ([server/indexer_service.go]).

    The database is a map of bytes; its own failures, which are those of the disk,
    are left out.  The codec of the results and the decoder of transactions are
    classes. *)
From Stdlib Require Import DecimalString DecimalN.
From S2P Require Import Prelude KVStore Sdk StateDB VmKeeper TxData CosmosAnte.

(** * Numbers as text *)

(** [strconv.ParseUint] in base 10 and [strconv.FormatUint]. *)
Definition ParseUint (bitSize : Z) (s : string) : res Z :=
  match NilZero.uint_of_string s with
  | Some d => let n := Z.of_N (N.of_uint d) in
              if n <? 2 ^ bitSize then Ok n else Err (Error ErrOther "value out of range")
  | None => Err (Error ErrOther "invalid syntax")
  end.
Definition FormatUint (n : Z) : string := NilZero.string_of_uint (N.to_uint (Z.to_N n)).

(** * Events of a transaction *)

Record abci_event := AbciEvent { ab_Type : string; ab_Attributes : list (string * string) }.
Record ExecTxResult := mkExec { ex_Code : Z; ex_Log : string; ex_GasUsed : Z; ex_Events : list abci_event }.

Inductive EventFormat := eventFormatUnknown | eventFormat1 | eventFormat2.

Record ParsedTx := mkParsed { pt_MsgIndex : Z; pt_Hash : Hash; pt_EthTxIndex : Z; pt_GasUsed : Z; pt_Failed : bool }.
Definition NewParsedTx (msgIndex : Z) : ParsedTx := mkParsed msgIndex 0 (-1) 0 false.

Record ParsedTxs := mkTxs { Txs : list ParsedTx; TxHashes : gmap Hash Z }.

Section events.
Context `{EthHex}.

Definition fillTxAttribute (tx : ParsedTx) (key value : string) : res ParsedTx :=
  let '(mkParsed i h n g f) := tx in
  if decide (key = "ethereumTxHash") then Ok (mkParsed i (HexToHash value) n g f)
  else if decide (key = "txIndex") then
    let? txIndex := ParseUint 31 value in Ok (mkParsed i h txIndex g f)
  else if decide (key = "txGasUsed") then
    let? gasUsed := ParseUint 64 value in Ok (mkParsed i h n gasUsed f)
  else if decide (key = "ethereumTxFailed") then Ok (mkParsed i h n g (0 <? String.length value)%nat)
  else Ok tx.
Fixpoint fillTxAttributes (tx : ParsedTx) (attrs : list (string * string)) : res ParsedTx :=
  match attrs with
  | [] => Ok tx
  | (key, value) :: attrs => let? tx := fillTxAttribute tx key value in fillTxAttributes tx attrs
  end.

Definition newTx (p : ParsedTxs) (attrs : list (string * string)) : res ParsedTxs :=
  let msgIndex := Z.of_nat (length (Txs p)) in
  let? tx := fillTxAttributes (NewParsedTx msgIndex) attrs in
  Ok (mkTxs (Txs p ++ [tx]) (<[pt_Hash tx := msgIndex]> (TxHashes p))).
Definition updateTx (p : ParsedTxs) (eventIndex : nat) (attrs : list (string * string)) : res ParsedTxs :=
  let? tx := fillTxAttributes (NewParsedTx (Z.of_nat eventIndex)) attrs in
  match Txs p !! eventIndex with
  | None => Panic "index out of range"
  | Some old =>
      Ok (mkTxs (<[eventIndex := tx]> (Txs p))
            (if pt_Hash tx =? pt_Hash old then TxHashes p else <[pt_Hash tx := Z.of_nat eventIndex]> (TxHashes p)))
  end.

(** The loop over the events; [eventIndex] is the number of events of the second
    part so far. *)
Fixpoint parse_events (events : list abci_event) (format : EventFormat) (eventIndex : nat) (p : ParsedTxs)
    : res ParsedTxs :=
  match events with
  | [] => Ok p
  | event :: events =>
      if negb (bool_decide (ab_Type event = "ethereum_tx")) then parse_events events format eventIndex p
      else
        let attrs := ab_Attributes event in
        let format := match format with
                      | eventFormatUnknown => if (2 <? length attrs)%nat then eventFormat1 else eventFormat2
                      | f => f
                      end in
        if (length attrs =? 2)%nat then let? p := newTx p attrs in parse_events events format eventIndex p
        else
          let? p := match format with
                    | eventFormat1 => newTx p attrs
                    | _ => updateTx p eventIndex attrs
                    end in
          parse_events events format (S eventIndex) p
  end.

(** What a failed transaction is charged: its gas limit, for every message. *)
Fixpoint fail_all (txs : list ParsedTx) (msgs : list SdkMsg) : res (list ParsedTx) :=
  match txs with
  | [] => Ok []
  | tx :: txs =>
      match msgs with
      | MEthereumTx m :: msgs =>
          let? rest := fail_all txs msgs in
          Ok (mkParsed (pt_MsgIndex tx) (pt_Hash tx) (pt_EthTxIndex tx) (msg_GetGas m) true :: rest)
      | [] => Panic "index out of range"
      | _ => Panic "interface conversion"
      end
  end.
Definition with_gas (g : Z) (tx : ParsedTx) : ParsedTx :=
  mkParsed (pt_MsgIndex tx) (pt_Hash tx) (pt_EthTxIndex tx) g (pt_Failed tx).
Definition ParseTxResult (result : ExecTxResult) (tx : option SdkTx) : res ParsedTxs :=
  let? p := parse_events (ex_Events result) eventFormatUnknown 0 (mkTxs [] ∅) in
  let gasUsed := wrap64 (ex_GasUsed result) in
  let txs := match Txs p with [tx] => [with_gas gasUsed tx] | l => l end in
  match tx with
  | Some tx => if negb (ex_Code result =? 0)
               then let? txs := fail_all txs (GetMsgs tx) in Ok (mkTxs txs (TxHashes p))
               else Ok (mkTxs txs (TxHashes p))
  | None => Ok (mkTxs txs (TxHashes p))
  end.

Definition GetTxByMsgIndex (p : ParsedTxs) (i : Z) : option ParsedTx :=
  if (i <? 0) || (Z.of_nat (length (Txs p)) <=? i) then None else Txs p !! Z.to_nat i.
(** The map holds indices of the list only. *)
Definition GetTxByHash (p : ParsedTxs) (hash : Hash) : res (option ParsedTx) :=
  match TxHashes p !! hash with
  | Some idx => match Txs p !! Z.to_nat idx with Some tx => Ok (Some tx) | None => Panic "index out of range" end
  | None => Ok None
  end.
Definition GetTxByTxIndex (p : ParsedTxs) (txIndex : Z) : option ParsedTx :=
  match Txs p with
  | [] => None
  | tx :: _ => GetTxByMsgIndex p (txIndex - pt_EthTxIndex tx)
  end.
(** Up to and with [msgIndex]; [uint64] sums wrap. *)
Fixpoint sum_gas (n : nat) (txs : list ParsedTx) (acc : Z) : res Z :=
  match n with
  | O => Ok acc
  | S n => match txs with
           | [] => Panic "index out of range"
           | tx :: txs => sum_gas n txs (wrap64 (acc + pt_GasUsed tx))
           end
  end.
Definition AccumulativeGasUsed (p : ParsedTxs) (msgIndex : Z) : res Z := sum_gas (Z.to_nat (msgIndex + 1)) (Txs p) 0.

(** ** The results of transactions ([types.TxResult]) *)

Record TxResult := mkTxResult {
  Height : Z; TxIndex : Z; MsgIndex : Z; EthTxIndex : Z; tr_Failed : bool; tr_GasUsed : Z; CumulativeGasUsed : Z;
}.
Definition ParseTxIndexerResult (height index : Z) (result : ExecTxResult) (tx : option SdkTx)
    (getter : ParsedTxs -> option ParsedTx) : res TxResult :=
  match ParseTxResult result tx with
  | Err e => Err (Error ErrOther "failed to parse tx events")
  | Panic m => Panic m
  | Ok txs =>
      match getter txs with
      | None => Err (Error ErrOther "ethereum tx not found in msgs")
      | Some parsedTx =>
          let? cumulative := AccumulativeGasUsed txs (pt_MsgIndex parsedTx) in
          Ok (mkTxResult height index (wrap32 (pt_MsgIndex parsedTx)) (pt_EthTxIndex parsedTx) (pt_Failed parsedTx)
                (pt_GasUsed parsedTx) cumulative)
      end
  end.

Definition contains_text (sub text : string) : bool :=
  match String.index 0 sub text with Some _ => true | None => false end.
Definition TxExceedBlockGasLimit (r : ExecTxResult) : bool :=
  contains_text "out of gas in location: block gas meter; gasWanted:" (ex_Log r).
Definition TxStateDBCommitError (r : ExecTxResult) : bool := contains_text "failed to commit stateDB" (ex_Log r).
Definition TxSucessOrExpectedFailure (r : ExecTxResult) : bool :=
  (ex_Code r =? 0) || TxExceedBlockGasLimit r || TxStateDBCommitError r.
End events.

(** * The index of blocks ([kv_indexer.go]) *)

Definition KeyPrefixTxHash : Z := 1.
Definition KeyPrefixTxIndex : Z := 2.
Definition TxIndexKeyLength : nat := 17.

Definition TxHashKey (hash : Hash) : bytes := KeyPrefixTxHash :: be 32 hash.
Definition TxIndexKey (blockNumber txIndex : Z) : bytes :=
  KeyPrefixTxIndex :: be64 (wrap64 blockNumber) ++ be64 (wrap64 txIndex).
Definition parseBlockNumberFromKey (key : bytes) : res Z :=
  if negb (length key =? TxIndexKeyLength)%nat then Err (Error ErrOther "wrong tx index key length")
  else Ok (to_int64 (be64_decode (take 8 (drop 1 key)))).

(** The protobuf codec of results and the decoder of transactions. *)
Class IndexerLib := {
  MarshalTxResult : TxResult -> bytes;
  UnmarshalTxResult : bytes -> res TxResult;
  TxDecoder : bytes -> res SdkTx;
}.
(** A result with a height is not encoded as the empty text. *)
Class IndexerLaws `{IndexerLib} := {
  unmarshal_marshal : forall r, UnmarshalTxResult (MarshalTxResult r) = Ok r;
  marshal_nonempty : forall r, Height r <> 0 -> MarshalTxResult r <> [];
}.

Definition kv_db := gmap bytes bytes.
Record Block := mkBlock { bl_Height : Z; bl_Txs : list bytes }.

Section index.
Context `{EthHex, IndexerLib}.

Definition isEthTx (tx : SdkTx) : bool :=
  match s_opts tx with Some [url] => bool_decide (url = EthereumOption) | _ => false end.

(** The sets of a batch, in order. *)
Definition saveTxResult (txHash : Hash) (txResult : TxResult) : list (bytes * bytes) :=
  [(TxHashKey txHash, MarshalTxResult txResult);
   (TxIndexKey (Height txResult) (EthTxIndex txResult), be 32 txHash)].

(** The gas used and the failure of a message: a transaction that did not succeed
    is charged the limit; a message without an event is left out. *)
Definition message_outcome (result : ExecTxResult) (txs : ParsedTxs) (msgIndex : Z) (ethMsg : MsgEthereumTx)
    : option (Z * bool) :=
  if negb (ex_Code result =? 0) then Some (msg_GetGas ethMsg, true)
  else match GetTxByMsgIndex txs msgIndex with
       | None => None
       | Some parsedTx => Some (pt_GasUsed parsedTx, pt_Failed parsedTx)
       end.
(** The loop over the messages of a transaction: the index of the next Ethereum
    transaction and the sets. *)
Fixpoint index_msgs (height txIndex : Z) (result : ExecTxResult) (txs : ParsedTxs) (msgs : list SdkMsg) (msgIndex : Z)
    (ethTxIndex cumulativeGasUsed : Z) : res (Z * list (Hash * TxResult)) :=
  match msgs with
  | [] => Ok (ethTxIndex, [])
  | MEthereumTx ethMsg :: msgs =>
      let txHash := HexToHash (m_Hash ethMsg) in
      match message_outcome result txs msgIndex ethMsg with
      | None => index_msgs height txIndex result txs msgs (msgIndex + 1) ethTxIndex cumulativeGasUsed
      | Some (gasUsed, failed) =>
          let cumulativeGasUsed := wrap64 (cumulativeGasUsed + gasUsed) in
          let txResult := mkTxResult height (wrap32 txIndex) (wrap32 msgIndex) ethTxIndex failed gasUsed cumulativeGasUsed in
          let? r := index_msgs height txIndex result txs msgs (msgIndex + 1) (to_int32 (ethTxIndex + 1)) cumulativeGasUsed in
          Ok (r.1, (txHash, txResult) :: r.2)
      end
  | _ => Panic "interface conversion"
  end.
(** The loop over the transactions of a block. *)
Fixpoint index_txs (height : Z) (txs : list bytes) (results : list ExecTxResult) (txIndex ethTxIndex : Z)
    : res (list (Hash * TxResult)) :=
  match txs with
  | [] => Ok []
  | tx :: txs =>
      match results with
      | [] => Panic "index out of range"
      | result :: results =>
          let skip := index_txs height txs results (txIndex + 1) ethTxIndex in
          if negb (TxSucessOrExpectedFailure result) then skip
          else match TxDecoder tx with
          | Err _ => skip
          | Panic m => Panic m
          | Ok tx =>
              if negb (isEthTx tx) then skip
              else match ParseTxResult result (Some tx) with
              | Err _ => skip
              | Panic m => Panic m
              | Ok parsed =>
                  let? r := index_msgs height txIndex result parsed (GetMsgs tx) 0 ethTxIndex 0 in
                  let? rest := index_txs height txs results (txIndex + 1) r.1 in
                  Ok (r.2 ++ rest)
              end
          end
      end
  end.
Definition IndexBlock (block : Block) (txResults : list ExecTxResult) : M kv_db unit :=
  let! saved := lift (index_txs (bl_Height block) (bl_Txs block) txResults 0 0) in
  modify (fun db => put_list db (mjoin (map (fun '(h, r) => saveTxResult h r) saved))).

Definition GetByTxHash (db : kv_db) (hash : Hash) : res TxResult :=
  match db !! TxHashKey hash with
  | None | Some [] => Err (Error ErrNotFound "tx not found")
  | Some bz => UnmarshalTxResult bz
  end.
Definition GetByBlockAndIndex (db : kv_db) (blockNumber txIndex : Z) : res TxResult :=
  match db !! TxIndexKey blockNumber txIndex with
  | None | Some [] => Err (Error ErrNotFound "tx not found")
  | Some bz => GetByTxHash db (BytesToHash bz)
  end.

(** The keys of the index by height, in their order. *)
Definition index_keys (db : kv_db) : list bytes := (iterate [KeyPrefixTxIndex] db).*1.
Definition LoadLastBlock (db : kv_db) : res Z :=
  match last (index_keys db) with Some k => parseBlockNumberFromKey k | None => Ok (-1) end.
Definition LoadFirstBlock (db : kv_db) : res Z :=
  match head (index_keys db) with Some k => parseBlockNumberFromKey k | None => Ok (-1) end.

(** * The service ([indexer_service.go])

    The main loop and the goroutine that watches the headers, one step at a time.
    [sv_next] is the height the inner loop is at, [None] at the top of the outer
    loop; [sv_err] says that [blockErr] is set. *)
Record service := mkService { sv_latest : Z; sv_last : Z; sv_err : bool; sv_next : option Z; sv_db : kv_db }.

Definition OnStart (latest : Z) (db : kv_db) : res service :=
  let? lastBlock := LoadLastBlock db in
  Ok (mkService latest (if lastBlock =? -1 then latest else lastBlock) false None db).

(** The answer of the node for a height: the block, and its results with their
    height; either fetch may fail. *)
Record answer := mkAnswer { an_block : option Block; an_results : option (Z * list ExecTxResult) }.
Inductive input := IHeader (height : Z) | IRun (fetch : Z -> answer).

Definition service_step (s : service) (i : input) : res service :=
  let '(mkService latest lst err next db) := s in
  match i with
  | IHeader h => Ok (mkService (if latest <? h then h else latest) lst err next db)
  | IRun fetch =>
      match next with
      | None =>
          if (latest <=? lst) || err then Ok s                       (* wait, then [continue] *)
          else Ok (mkService latest lst err (Some (lst + 1)) db)
      | Some n =>
          if latest <? n then Ok (mkService latest lst err None db)
          else
            match an_block (fetch n), an_results (fetch n) with
            | Some block, Some (height, results) =>
                match IndexBlock block results db with
                | (Panic m, _) => Panic m
                | (_, db') => Ok (mkService latest height false (Some (n + 1)) db')
                end
            | _, _ => Ok (mkService latest lst true None db)         (* [break] *)
            end
      end
  end.
Fixpoint run_service (s : service) (l : list input) : res service :=
  match l with
  | [] => Ok s
  | i :: l => let? s := service_step s i in run_service s l
  end.
End index.
