(* ===== verification/IndexerThms.v ===== *)
(** The indexer of Ethereum transactions: the events the chain emits are read back,
    an indexed message is found by its hash and by its place in the block, the
    service indexes every block once and in order, and never again after a fetch
    that failed. *)
From Stdlib Require Import DecimalString DecimalN.
From S2P Require Import Prelude KVStore Sdk StateDB VmKeeper TxData StateTransition EthAnte CosmosAnte Indexer.

(** * Numbers as text *)

Lemma to_uint_nonnil n : N.to_uint n <> Decimal.Nil.
Proof. destruct n as [|p]; [done|]. apply DecimalPos.Unsigned.to_uint_nonnil. Qed.
Lemma ParseUint_FormatUint w n : 0 <= n < 2 ^ w -> ParseUint w (FormatUint n) = Ok n.
Proof.
  intros Hn. unfold ParseUint, FormatUint. rewrite NilZero.usu by apply to_uint_nonnil.
  rewrite Unsigned.of_to, Z2N.id by lia. destruct (Z.ltb_spec n (2 ^ w)); [done|lia].
Qed.

(** * The events of the chain *)

Section parse.
Context `{EthHex, !EthHexLaws, EthTypes}.
(** How the SDK formats the other values. *)
Variable fmt : attr -> string.
Definition attr_text (a : attr) : string :=
  match a with AStr t => t | AInt n => if n <? 0 then fmt a else FormatUint n | a => fmt a end.
Definition abci_of (e : event) : abci_event :=
  AbciEvent (ev_type e) (map (fun kv => (kv.1, attr_text kv.2)) (ev_attrs e)).

Definition is_eth_event (e : abci_event) : Prop := ab_Type e = "ethereum_tx".
#[global] Instance is_eth_event_dec e : Decision (is_eth_event e).
Proof. unfold is_eth_event. apply _. Defined.
Lemma parse_events_filter evs : forall format i p,
  parse_events evs format i p = parse_events (filter is_eth_event evs) format i p.
Proof.
  induction evs as [|e evs IH]; intros format i p; [done|]. rewrite filter_cons. cbn [parse_events].
  case_decide as E.
  - cbn [parse_events]. rewrite (bool_decide_true _ E). cbn [negb]. cbv zeta.
    destruct (_ =? _)%nat; [destruct (newTx _ _); cbn [rbind]; auto|].
    match goal with |- rbind ?r _ = _ => destruct r; cbn [rbind]; auto end.
  - rewrite bool_decide_false by done. apply IH.
Qed.

(** What the message server and the ante handler emit for one message. *)
Record applied := mkApplied {
  ap_msg : MsgEthereumTx; ap_tx : Transaction; ap_index : Z; ap_response : MsgEthereumTxResponse; ap_block_index : Z;
}.
Definition applied_ok (x : applied) : Prop :=
  0 <= ap_index x < 2 ^ 31 /\ 0 <= r_GasUsed (ap_response x) < 2 ^ 64 /\ hash_ok (r_Hash (ap_response x)).
Definition parsed_of (i : nat) (x : applied) : ParsedTx :=
  mkParsed (Z.of_nat i) (r_Hash (ap_response x)) (ap_index x) (r_GasUsed (ap_response x)) (Failed (ap_response x)).

Definition first_event (i : nat) (x : applied) : abci_event :=
  abci_of (tx_hash_event (ap_msg x) (ap_block_index x) (Z.of_nat i)).
Definition second_event (bytesHash : option string) (logText : Log -> string) (x : applied) : abci_event :=
  abci_of (hd (Event "" []) (ethereum_tx_events bytesHash logText (ap_msg x) (ap_tx x) (ap_index x) (ap_response x))).

Lemma fill_first i x : 0 <= ap_block_index x + Z.of_nat i < 2 ^ 31 ->
  exists t, fillTxAttributes (NewParsedTx (Z.of_nat i)) (ab_Attributes (first_event i x)) = Ok t.
Proof.
  intros Hi. unfold first_event, tx_hash_event, abci_of, NewParsedTx. cbn [ab_Attributes ev_attrs map fst snd attr_text].
  assert (wrap64 (ap_block_index x + Z.of_nat i) = ap_block_index x + Z.of_nat i) as -> by (apply Z.mod_small; lia).
  rewrite (proj2 (Z.ltb_ge _ 0)) by lia. cbn [fillTxAttributes]. unfold fillTxAttribute at 1. cbn [decide].
  rewrite decide_True by done. cbn [rbind]. unfold fillTxAttribute.
  rewrite decide_False, decide_True by done. rewrite ParseUint_FormatUint by lia. cbn [rbind]. eauto.
Qed.
Lemma fill_other i h n g f key value : key ∉ ["ethereumTxHash"; "txIndex"; "txGasUsed"; "ethereumTxFailed"] ->
  fillTxAttribute (mkParsed i h n g f) key value = Ok (mkParsed i h n g f).
Proof. intros Hk. unfold fillTxAttribute. by repeat (rewrite decide_False by set_solver). Qed.
Lemma fill_app l1 l2 : forall t t', fillTxAttributes t l1 = Ok t' -> fillTxAttributes t (l1 ++ l2) = fillTxAttributes t' l2.
Proof.
  induction l1 as [|[k v] l1 IH]; intros t t' Hl; cbn [fillTxAttributes app] in *; [by injection Hl as ->|].
  apply rbind_ok in Hl as (t1 & -> & Hl). cbn [rbind]. by apply IH.
Qed.
Lemma fill_second bytesHash logText i x : applied_ok x ->
  fillTxAttributes (NewParsedTx (Z.of_nat i)) (ab_Attributes (second_event bytesHash logText x)) = Ok (parsed_of i x).
Proof.
  intros (Hi & Hg & Hh). unfold second_event, ethereum_tx_events, abci_of, parsed_of, NewParsedTx. cbn [hd ev_attrs ab_Attributes].
  rewrite !map_app. cbn [map fst snd attr_text].
  rewrite (proj2 (Z.ltb_ge (ap_index x) 0)), (proj2 (Z.ltb_ge (r_GasUsed (ap_response x)) 0)) by lia.
  erewrite fill_app; [|cbn [fillTxAttributes]; rewrite fill_other by set_solver; cbn [rbind];
    unfold fillTxAttribute at 1; rewrite decide_True by done; cbn [rbind]; rewrite hex_hash by done;
    unfold fillTxAttribute at 1; rewrite decide_False, decide_True by done; rewrite ParseUint_FormatUint by lia; cbn [rbind];
    unfold fillTxAttribute at 1; do 2 rewrite decide_False by done; rewrite decide_True by done;
    rewrite ParseUint_FormatUint by lia; cbn [rbind]; reflexivity].
  erewrite fill_app; [|destruct bytesHash; cbn [map fst snd fillTxAttributes]; rewrite ?fill_other by set_solver; reflexivity].
  erewrite fill_app; [|destruct (tx_To (ap_tx x)); cbn [map fst snd fillTxAttributes]; rewrite ?fill_other by set_solver; reflexivity].
  unfold Failed. case_bool_decide as E; cbn [negb map fst snd fillTxAttributes attr_text]; [done|].
  unfold fillTxAttribute. do 3 rewrite decide_False by done. rewrite decide_True by done. cbn [rbind].
  by destruct (r_VmError (ap_response x)).
Qed.
Lemma second_length bytesHash logText x : (4 <= length (ab_Attributes (second_event bytesHash logText x)))%nat.
Proof. unfold second_event, ethereum_tx_events, abci_of. cbn [hd ev_attrs ab_Attributes]. rewrite length_map, length_app. cbn [length]. lia. Qed.

Lemma parse_first rest : forall xs k format p, format <> eventFormat1 -> length (Txs p) = k ->
  (forall i x, xs !! i = Some x -> 0 <= ap_block_index x + Z.of_nat (k + i) < 2 ^ 31) ->
  exists p', length (Txs p') = (k + length xs)%nat /\
    parse_events (imap (fun i => first_event (k + i)) xs ++ rest) format 0 p =
      parse_events rest (match xs with [] => format | _ => eventFormat2 end) 0 p'.
Proof.
  induction xs as [|x xs IH]; intros k format p Hf Hk Hi; [exists p; split; [cbn; lia|done]|].
  cbn [imap app]. rewrite Nat.add_0_r.
  destruct (fill_first k x) as [t Ht]; [by specialize (Hi 0%nat x eq_refl); rewrite Nat.add_0_r in Hi|].
  assert (newTx p (ab_Attributes (first_event k x)) =
    Ok (mkTxs (Txs p ++ [t]) (<[pt_Hash t := Z.of_nat k]> (TxHashes p)))) as Hnew by (unfold newTx; by rewrite Hk, Ht).
  destruct (IH (S k) eventFormat2 (mkTxs (Txs p ++ [t]) (<[pt_Hash t := Z.of_nat k]> (TxHashes p)))) as (p' & Hl & Hp).
  { done. }
  { cbn [Txs]. rewrite length_app. cbn [length]. lia. }
  { intros i y Hy. specialize (Hi (S i) y Hy). by rewrite Nat.add_succ_r in Hi. }
  exists p'. split; [cbn [length]; lia|].
  transitivity (parse_events (imap (fun i => first_event (S k + i)) xs ++ rest) eventFormat2 0
    (mkTxs (Txs p ++ [t]) (<[pt_Hash t := Z.of_nat k]> (TxHashes p)))); [|rewrite Hp; by destruct xs].
  cbn [parse_events]. rewrite bool_decide_true by done. cbn [negb]. cbv zeta.
  change (length (ab_Attributes (first_event k x))) with 2%nat. cbn [Nat.eqb Nat.ltb Nat.leb]. rewrite Hnew. cbn [rbind].
  assert (match format with eventFormatUnknown => eventFormat2 | f => f end = eventFormat2) as -> by by destruct format.
  f_equal. f_equal. apply imap_ext. intros i y _. unfold compose. by rewrite Nat.add_succ_r.
Qed.
Lemma parse_second bytesHash logText : forall xs k p, Forall applied_ok xs -> (k + length xs <= length (Txs p))%nat ->
  exists hashes, parse_events (map (second_event bytesHash logText) xs) eventFormat2 k p =
    Ok (mkTxs (take k (Txs p) ++ imap (fun i => parsed_of (k + i)) xs ++ drop (k + length xs) (Txs p)) hashes).
Proof.
  induction xs as [|x xs IH]; intros k p Hok Hl.
  { exists (TxHashes p). cbn [length map parse_events imap app]. rewrite Nat.add_0_r, take_drop. by destruct p. }
  apply Forall_cons in Hok as [Hx Hok]. cbn [length] in Hl.
  cbn [map parse_events]. rewrite bool_decide_true by done. cbn [negb]. cbv zeta.
  pose proof (second_length bytesHash logText x) as H4.
  destruct (Nat.eqb_spec (length (ab_Attributes (second_event bytesHash logText x))) 2); [lia|].
  destruct (lookup_lt_is_Some_2 (Txs p) k ltac:(lia)) as [old Hold].
  unfold updateTx. rewrite fill_second by done. cbn [rbind]. rewrite Hold. cbn [rbind].
  match goal with |- context [parse_events _ _ _ ?q] => destruct (IH (S k) q Hok) as [hashes ->] end.
  { cbn [Txs]. rewrite length_insert. lia. }
  exists hashes. do 2 f_equal. cbn [Txs imap length]. rewrite Nat.add_0_r, Nat.add_succ_r, drop_insert_lt by lia.
  rewrite (take_S_r _ _ (parsed_of k x)) by (apply list_lookup_insert_eq; lia).
  rewrite take_insert_ge by lia. rewrite <- app_assoc. f_equal. cbn [app]. f_equal. f_equal.
  apply imap_ext. intros i y _. unfold compose. by rewrite Nat.add_succ_r.
Qed.

(**  What the chain emits about an Ethereum transaction of any number of messages
    is read back exactly: among whatever other events, the hash events of the ante
    handler followed by the events of the message server give for each message its
    hash, its index in the block, the gas it used and whether it failed.  The gas of
    a single message is that of the whole transaction. *)
Theorem ParseTxResult_reads_events bytesHash logText result tx xs : xs <> [] -> ex_Code result = 0 -> Forall applied_ok xs ->
  (forall i x, xs !! i = Some x -> 0 <= ap_block_index x + Z.of_nat i < 2 ^ 31) ->
  filter is_eth_event (ex_Events result) = imap first_event xs ++ map (second_event bytesHash logText) xs ->
  exists p, ParseTxResult result tx = Ok p /\ length (Txs p) = length xs /\
    forall i x, xs !! i = Some x -> GetTxByMsgIndex p (Z.of_nat i) =
      Some (if decide (length xs = 1%nat) then with_gas (wrap64 (ex_GasUsed result)) (parsed_of i x) else parsed_of i x).
Proof.
  intros Hne Hcode Hok Hidx Hev.
  destruct (parse_first (map (second_event bytesHash logText) xs) xs 0 eventFormatUnknown (mkTxs [] ∅)) as (p1 & Hl & Hp); [done..|].
  destruct (parse_second bytesHash logText xs 0 p1 Hok) as [hashes Hs]; [lia|].
  assert (parse_events (ex_Events result) eventFormatUnknown 0 (mkTxs [] ∅) = Ok (mkTxs (imap parsed_of xs) hashes)) as Hparse.
  { rewrite parse_events_filter, Hev. rewrite (imap_ext _ (fun i => first_event (0 + i)) xs) by done. rewrite Hp.
    destruct xs as [|x xs]; [done|]. rewrite Hs. do 2 f_equal. rewrite take_0. cbn [app]. rewrite drop_ge by lia. by rewrite app_nil_r. }
  unfold ParseTxResult. rewrite Hparse. cbn [rbind Txs TxHashes].
  set (txs := match imap parsed_of xs with [t] => _ | l => l end).
  exists (mkTxs txs hashes). assert (length txs = length xs) as Hlen by (subst txs; destruct xs as [|? [|? ?]]; [done..|]; cbn [imap length]; by rewrite length_imap).
  split; [destruct tx; [rewrite Hcode|]; done|]. split; [done|]. intros i x Hx. apply lookup_lt_Some in Hx as Hi.
  unfold GetTxByMsgIndex. cbn [Txs]. rewrite Hlen, (proj2 (Z.ltb_ge _ 0)), (proj2 (Z.leb_gt _ _)) by lia. cbn [orb].
  rewrite Nat2Z.id. subst txs. destruct xs as [|y [|z xs]]; [done| |].
  - destruct i; [|done]. injection Hx as ->. done.
  - rewrite decide_False by done. change (imap parsed_of (y :: z :: xs) !! i = Some (parsed_of i x)).
    by rewrite list_lookup_imap, Hx.
Qed.
End parse.

(** * The index *)

Section index.
Context `{EthHex, !EthHexLaws, IndexerLib, !IndexerLaws}.

Lemma to_int32_small n : 0 <= n < 2 ^ 31 -> to_int32 n = n.
Proof. intros Hn. unfold to_int32. rewrite Z.mod_small by lia. by destruct (Z.ltb_spec n (2 ^ 31)); [|lia]. Qed.

(** The results are numbered one after the other. *)
Definition numbered (height eth : Z) (l : list (Hash * TxResult)) : Prop :=
  forall k h r, l !! k = Some (h, r) -> Height r = height /\ EthTxIndex r = eth + Z.of_nat k /\ hash_ok h.
Lemma numbered_nil height eth : numbered height eth [].
Proof. by intros k h r. Qed.
Lemma numbered_cons height eth h r l : Height r = height -> EthTxIndex r = eth -> hash_ok h ->
  numbered height (eth + 1) l -> numbered height eth ((h, r) :: l).
Proof.
  intros Hh He Hok Hl [|k] h' r' Hk; [injection Hk as <- <-; split_and!; [done|lia|done]|].
  destruct (Hl k h' r' Hk) as (? & ? & ?). split_and!; [done|lia|done].
Qed.
Lemma numbered_app height eth l1 l2 : numbered height eth l1 -> numbered height (eth + Z.of_nat (length l1)) l2 ->
  numbered height eth (l1 ++ l2).
Proof.
  intros Hl1 Hl2 k h r Hk. apply lookup_app_Some in Hk as [Hk|[Hle Hk]]; [by apply Hl1|].
  destruct (Hl2 _ _ _ Hk) as (? & ? & ?). split_and!; [done|lia|done].
Qed.

Lemma index_msgs_numbered height ti result txs : forall msgs mi eth cum eth' l,
  index_msgs height ti result txs msgs mi eth cum = Ok (eth', l) -> 0 <= eth -> eth + Z.of_nat (length l) < 2 ^ 31 ->
  eth' = eth + Z.of_nat (length l) /\ numbered height eth l.
Proof.
  induction msgs as [|m msgs IH]; intros mi eth cum eth' l Hr He Hl; cbn [index_msgs] in Hr.
  { injection Hr as <- <-. split; [cbn; lia|apply numbered_nil]. }
  destruct m as [m| | |]; try done. destruct (message_outcome _ _ _ _) as [[g f]|]; [|by eapply IH].
  apply rbind_ok in Hr as ([e1 l1] & Hr & [= <- <-]). cbn [length fst snd] in *.
  rewrite to_int32_small in Hr by lia. apply IH in Hr as [-> Hn]; [|lia..]. split; [lia|].
  apply numbered_cons; try done. apply hex_hash_range.
Qed.
Lemma index_txs_numbered height : forall txs results ti eth l,
  index_txs height txs results ti eth = Ok l -> 0 <= eth -> eth + Z.of_nat (length l) < 2 ^ 31 -> numbered height eth l.
Proof.
  induction txs as [|tx txs IH]; intros results ti eth l Hr He Hl; cbn [index_txs] in Hr.
  { injection Hr as <-. apply numbered_nil. }
  destruct results as [|result results]; [done|]. destruct (negb (TxSucessOrExpectedFailure result)); [by eapply IH|].
  destruct (TxDecoder tx) as [d|e|m]; [|by eapply IH|done]. destruct (negb (isEthTx d)); [by eapply IH|].
  destruct (ParseTxResult result (Some d)) as [p|e|m]; [|by eapply IH|done].
  apply rbind_ok in Hr as ([e1 l1] & Hm & Hr). apply rbind_ok in Hr as (l2 & Hr & [= <-]). cbn [fst snd] in *.
  rewrite length_app in Hl. apply index_msgs_numbered in Hm as [-> Hn]; [|lia..]. apply numbered_app; [done|].
  eapply IH; [exact Hr|lia..].
Qed.

(** A message with an outcome is among the results. *)
Definition recorded (ti mi : Z) (m : MsgEthereumTx) (g : Z) (f : bool) (l : list (Hash * TxResult)) : Prop :=
  exists r, (HexToHash (m_Hash m), r) ∈ l /\ TxIndex r = wrap32 ti /\ MsgIndex r = wrap32 mi /\ tr_GasUsed r = g /\ tr_Failed r = f.
Lemma recorded_sub ti mi m g f l l' : l ⊆ l' -> recorded ti mi m g f l -> recorded ti mi m g f l'.
Proof. intros Hs (r & Hr & ?). exists r. split; [by apply Hs|done]. Qed.
Lemma index_msgs_recorded height ti result txs m g f : forall msgs mi j eth cum eth' l,
  index_msgs height ti result txs msgs mi eth cum = Ok (eth', l) -> msgs !! j = Some (MEthereumTx m) ->
  message_outcome result txs (mi + Z.of_nat j) m = Some (g, f) -> recorded ti (mi + Z.of_nat j) m g f l.
Proof.
  induction msgs as [|m0 msgs IH]; intros mi j eth cum eth' l Hr Hj Ho; [done|]. cbn [index_msgs] in Hr.
  destruct m0 as [m0| | |]; try done. destruct j as [|j].
  - injection Hj as ->. rewrite Z.add_0_r in *. rewrite Ho in Hr. apply rbind_ok in Hr as ([e1 l1] & Hr & [= _ <-]).
    eexists. split; [left|]. done.
  - assert (mi + Z.of_nat (S j) = mi + 1 + Z.of_nat j) as E by lia. rewrite E in *.
    destruct (message_outcome result txs mi m0) as [[g0 f0]|]; [|by eapply IH].
    apply rbind_ok in Hr as ([e1 l1] & Hr & [= _ <-]). eapply recorded_sub; [|by eapply IH]. cbn [snd]. set_solver.
Qed.
Lemma index_txs_recorded height b result d p m g f : forall txs results ti i j eth l,
  index_txs height txs results ti eth = Ok l -> txs !! i = Some b -> results !! i = Some result ->
  TxSucessOrExpectedFailure result = true -> TxDecoder b = Ok d -> isEthTx d = true -> ParseTxResult result (Some d) = Ok p ->
  GetMsgs d !! j = Some (MEthereumTx m) -> message_outcome result p (Z.of_nat j) m = Some (g, f) ->
  recorded (ti + Z.of_nat i) (Z.of_nat j) m g f l.
Proof.
  induction txs as [|tx txs IH]; intros results ti i j eth l Hr Hb Hres Hs Hd He Hp Hj Ho; [done|]. cbn [index_txs] in Hr.
  destruct results as [|r0 results]; [done|]. destruct i as [|i].
  - injection Hb as ->. injection Hres as ->. rewrite Hs, Hd, He, Hp in Hr. cbn [negb] in Hr. rewrite Z.add_0_r.
    apply rbind_ok in Hr as ([e1 l1] & Hm & Hr). apply rbind_ok in Hr as (l2 & _ & [= <-]). cbn [fst snd].
    eapply recorded_sub; [|eapply (index_msgs_recorded height ti result p m g f _ 0 j); done]. set_solver.
  - assert (ti + Z.of_nat (S i) = ti + 1 + Z.of_nat i) as -> by lia.
    assert (forall e l0, index_txs height txs results (ti + 1) e = Ok l0 -> recorded (ti + 1 + Z.of_nat i) (Z.of_nat j) m g f l0) as IH'
      by (intros; by eapply IH).
    destruct (negb (TxSucessOrExpectedFailure r0)); [by eapply IH'|].
    destruct (TxDecoder tx) as [d0|e|q]; [|by eapply IH'|done]. destruct (negb (isEthTx d0)); [by eapply IH'|].
    destruct (ParseTxResult r0 (Some d0)) as [p0|e|q]; [|by eapply IH'|done].
    apply rbind_ok in Hr as ([e1 l1] & Hm & Hr). apply rbind_ok in Hr as (l2 & Hr & [= <-]). cbn [fst snd] in *.
    eapply recorded_sub; [|by eapply IH']. set_solver.
Qed.

(** ** Keys *)

Lemma TxHashKey_inj h1 h2 : hash_ok h1 -> hash_ok h2 -> TxHashKey h1 = TxHashKey h2 -> h1 = h2.
Proof.
  intros Hok1 Hok2 E. assert (be 32 h1 = be 32 h2) as E' by exact (f_equal (@tl _) E). by apply be_inj in E'.
Qed.
Lemma TxIndexKey_inj b1 i1 b2 i2 : 0 <= b1 < 2 ^ 63 -> 0 <= i1 < 2 ^ 31 -> 0 <= b2 < 2 ^ 63 -> 0 <= i2 < 2 ^ 31 ->
  TxIndexKey b1 i1 = TxIndexKey b2 i2 -> b1 = b2 /\ i1 = i2.
Proof.
  intros ? ? ? ? E. unfold TxIndexKey in E. rewrite !wrap64_small in E by (unfold max_uint64; lia). apply (f_equal (@tl _)) in E. cbn [tl] in E.
  apply app_inj_1 in E as [E1 E2]; [|unfold be64; by rewrite !be_length].
  apply be64_inj in E1; [|unfold max_uint64; lia..]. apply be64_inj in E2; [done|unfold max_uint64; lia..].
Qed.
Lemma keys_differ h b i : TxHashKey h <> TxIndexKey b i.
Proof. done. Qed.

Definition batch (saved : list (Hash * TxResult)) : list (bytes * bytes) :=
  mjoin (map (fun '(h, r) => saveTxResult h r) saved).
Lemma elem_of_batch kv saved : kv ∈ batch saved <-> exists h r, (h, r) ∈ saved /\ kv ∈ saveTxResult h r.
Proof.
  unfold batch. rewrite list_elem_of_join. setoid_rewrite list_elem_of_In. setoid_rewrite in_map_iff. split.
  - intros (l & Hkv & (h & r) & <- & Hin). exists h, r. split; [done|]. done.
  - intros (h & r & Hin & Hkv). exists (saveTxResult h r). split; [done|]. by exists (h, r).
Qed.
Lemma put_list_out l : forall (m : kv_db) k, k ∉ l.*1 -> put_list m l !! k = m !! k.
Proof.
  unfold put_list. induction l as [|[k0 v0] l IH]; intros m k Hk; [done|]. cbn [foldl fst snd].
  rewrite IH by set_solver. apply lookup_insert_ne. set_solver.
Qed.
Lemma put_list_in l : forall (m : kv_db) k v, (k, v) ∈ l -> (forall v', (k, v') ∈ l -> v' = v) -> put_list m l !! k = Some v.
Proof.
  induction l as [|[k0 v0] l IH]; intros m k v Hin Hu; [set_solver|].
  change (put_list (<[k0:=v0]> m : kv_db) l !! k = Some v). destruct (decide (k ∈ l.*1)) as [Hk|Hk].
  - apply list_elem_of_fmap in Hk as ([k' v'] & -> & Hin'). cbn [fst] in *.
    apply IH; [|set_solver]. by rewrite <- (Hu v') by (by right).
  - rewrite put_list_out by done. apply elem_of_cons in Hin as [[= <- <-]|Hin]; [apply lookup_insert_eq|].
    destruct Hk. apply list_elem_of_fmap. by exists (k, v).
Qed.

Lemma save_unique height saved h r : 0 < height < 2 ^ 63 -> Z.of_nat (length saved) < 2 ^ 31 ->
  numbered height 0 saved -> NoDup saved.*1 -> (h, r) ∈ saved ->
  (forall v, (TxHashKey h, v) ∈ batch saved -> v = MarshalTxResult r) /\
  (forall v, (TxIndexKey height (EthTxIndex r), v) ∈ batch saved -> v = be 32 h).
Proof.
  intros Hh Hl Hn Hnd Hin. apply list_elem_of_lookup in Hin as [k Hk]. destruct (Hn _ _ _ Hk) as (Hr1 & Hr2 & Hr3).
  apply lookup_lt_Some in Hk as Hlt.
  split; intros v Hv; apply elem_of_batch in Hv as (h' & r' & Hin' & Hv);
    apply list_elem_of_lookup in Hin' as [k' Hk']; destruct (Hn _ _ _ Hk') as (Hr1' & Hr2' & Hr3');
    apply lookup_lt_Some in Hk' as Hlt'; unfold saveTxResult in Hv.
  - apply elem_of_cons in Hv as [E|Hv]; [|apply list_elem_of_singleton in Hv; exfalso; apply (keys_differ h (Height r') (EthTxIndex r')); exact (f_equal fst Hv)].
    assert (h = h') as <- by (apply TxHashKey_inj; [done..|exact (f_equal fst E)]).
    assert (k = k') as <-.
    { apply (NoDup_lookup saved.*1 k k' h); [done|by rewrite list_lookup_fmap, Hk|by rewrite list_lookup_fmap, Hk']. }
    rewrite Hk in Hk'. injection Hk' as <-. exact (f_equal snd E).
  - apply elem_of_cons in Hv as [E|Hv]; [exfalso; apply (keys_differ h' height (EthTxIndex r)); symmetry; exact (f_equal fst E)|].
    apply list_elem_of_singleton in Hv. assert (TxIndexKey height (EthTxIndex r) = TxIndexKey height (EthTxIndex r')) as E
      by (rewrite <- Hr1' at 2; exact (f_equal fst Hv)).
    apply TxIndexKey_inj in E as [_ E]; [|lia..]. assert (k = k') as <- by lia. rewrite Hk in Hk'. injection Hk' as <- <-.
    exact (f_equal snd Hv).
Qed.

(** Reading a database after a batch. *)
Lemma be32_nonempty h : be 32 h <> [].
Proof. intros E. apply (f_equal length) in E. by rewrite be_length in E. Qed.
Lemma BytesToHash_be32 h : hash_ok h -> BytesToHash (be 32 h) = h.
Proof. intros Hh. unfold BytesToHash. rewrite be_length. cbn [Nat.sub drop]. by apply be_roundtrip. Qed.
Lemma saved_found height saved h r db : 0 < height < 2 ^ 63 -> Z.of_nat (length saved) < 2 ^ 31 ->
  numbered height 0 saved -> NoDup saved.*1 -> (h, r) ∈ saved ->
  GetByTxHash (put_list db (batch saved)) h = Ok r /\
  GetByBlockAndIndex (put_list db (batch saved)) height (EthTxIndex r) = Ok r.
Proof.
  intros Hh Hl Hn Hnd Hin. destruct (save_unique _ _ _ _ Hh Hl Hn Hnd Hin) as [U1 U2].
  apply list_elem_of_lookup in Hin as Hk. destruct Hk as [k Hk]. destruct (Hn _ _ _ Hk) as (Hr1 & Hr2 & Hr3).
  assert (GetByTxHash (put_list db (batch saved)) h = Ok r) as Hget.
  { unfold GetByTxHash. rewrite (put_list_in _ db (TxHashKey h) (MarshalTxResult r)); [|apply elem_of_batch; exists h, r; split; [done|left]|done].
    destruct (MarshalTxResult r) eqn:E; [by apply marshal_nonempty in E; [|lia]|]. rewrite <- E. apply unmarshal_marshal. }
  split; [done|]. unfold GetByBlockAndIndex.
  rewrite (put_list_in _ db (TxIndexKey height (EthTxIndex r)) (be 32 h)); [|apply elem_of_batch; exists h, r; split; [done|right]|done].
  2: { rewrite <- Hr1. left. }
  destruct (be 32 h) eqn:E; [by apply be32_nonempty in E|]. rewrite <- E. by rewrite BytesToHash_be32.
Qed.

(** C40.  A message of an Ethereum transaction that succeeded, or failed for the block
    gas limit or in the commit, is found after its block is indexed, by its hash and
    by its place among the Ethereum transactions of the block, with the positions of
    its transaction and message, the gas it used and whether it failed. *)
Theorem IndexBlock_finds block results db db' i b result d p j m g f :
  0 < bl_Height block < 2 ^ 63 -> IndexBlock block results db = (Ok tt, db') ->
  (forall saved, index_txs (bl_Height block) (bl_Txs block) results 0 0 = Ok saved ->
    Z.of_nat (length saved) < 2 ^ 31 /\ NoDup saved.*1) ->
  bl_Txs block !! i = Some b -> results !! i = Some result -> TxSucessOrExpectedFailure result = true ->
  TxDecoder b = Ok d -> isEthTx d = true -> ParseTxResult result (Some d) = Ok p ->
  GetMsgs d !! j = Some (MEthereumTx m) -> message_outcome result p (Z.of_nat j) m = Some (g, f) ->
  exists r, GetByTxHash db' (HexToHash (m_Hash m)) = Ok r /\
    GetByBlockAndIndex db' (bl_Height block) (EthTxIndex r) = Ok r /\
    Height r = bl_Height block /\ TxIndex r = wrap32 (Z.of_nat i) /\ MsgIndex r = wrap32 (Z.of_nat j) /\
    tr_GasUsed r = g /\ tr_Failed r = f.
Proof.
  intros Hh Hr Hfit Hb Hres Hs Hd He Hp Hj Ho. unfold IndexBlock in Hr.
  apply bind_lift_ok in Hr as (saved & Hsv & Hr). injection Hr as <-. destruct (Hfit _ Hsv) as [Hl Hnd].
  pose proof (index_txs_numbered _ _ _ _ _ _ Hsv ltac:(done) ltac:(lia)) as Hn.
  destruct (index_txs_recorded _ _ _ _ _ _ _ _ _ _ _ _ _ _ _ Hsv Hb Hres Hs Hd He Hp Hj Ho) as (r & Hin & ? & ? & ? & ?).
  exists r. destruct (saved_found _ _ _ _ db Hh Hl Hn Hnd Hin) as [G1 G2].
  apply list_elem_of_lookup in Hin as [k Hk]. destruct (Hn _ _ _ Hk) as (? & _). by split_and!.
Qed.

(** ** The first and the last block *)

(** The index by height holds keys of blocks only. *)
Definition index_ok (db : kv_db) : Prop := forall k v, db !! k = Some v -> is_prefix [KeyPrefixTxIndex] k = true ->
  exists h i, k = TxIndexKey h i /\ 0 < h < 2 ^ 63 /\ 0 <= i < 2 ^ 31.
Lemma index_ok_empty : index_ok ∅.
Proof. intros k v Hk. done. Qed.
Lemma IndexBlock_index_ok block results db db' : 0 < bl_Height block < 2 ^ 63 ->
  (forall saved, index_txs (bl_Height block) (bl_Txs block) results 0 0 = Ok saved -> Z.of_nat (length saved) < 2 ^ 31) ->
  index_ok db -> IndexBlock block results db = (Ok tt, db') -> index_ok db'.
Proof.
  intros Hh Hfit Hok Hr. apply bind_lift_ok in Hr as (saved & Hsv & Hr). injection Hr as <-. specialize (Hfit _ Hsv).
  pose proof (index_txs_numbered _ _ _ _ _ _ Hsv ltac:(done) ltac:(lia)) as Hn. intros k v Hk Hp.
  destruct (decide (k ∈ (batch saved).*1)) as [Hin|Hout].
  - apply list_elem_of_fmap in Hin as ([k' v'] & -> & Hin). apply elem_of_batch in Hin as (h & r & Hin & Hkv).
    apply list_elem_of_lookup in Hin as [n Hlk]. destruct (Hn _ _ _ Hlk) as (Hr1 & Hr2 & _). apply lookup_lt_Some in Hlk.
    cbn [fst] in *. apply elem_of_cons in Hkv as [[= -> _]|Hkv]; [done|]. apply list_elem_of_singleton in Hkv as [= -> _].
    exists (Height r), (EthTxIndex r). split; [done|lia].
  - rewrite (put_list_out (batch saved)) in Hk by done. by eapply Hok.
Qed.

Lemma parse_TxIndexKey h i : 0 <= h < 2 ^ 63 -> parseBlockNumberFromKey (TxIndexKey h i) = Ok h.
Proof.
  intros Hh. unfold parseBlockNumberFromKey, TxIndexKey. cbn [length]. rewrite length_app. unfold be64 at 1 2. rewrite !be_length.
  cbn [Nat.add Nat.eqb TxIndexKeyLength negb drop]. rewrite drop_0, take_app_length' by (unfold be64; by rewrite be_length).
  rewrite wrap64_small by (unfold max_uint64; lia). rewrite be64_roundtrip by (unfold max_uint64; lia). f_equal. unfold to_int64. rewrite wrap64_small by (unfold max_uint64; lia).
  by destruct (Z.ltb_spec h (2 ^ 63)); [|lia].
Qed.
Lemma bytes_le_front a : forall b s t, length a = length b -> bytes_le (a ++ s) (b ++ t) = true -> bytes_le a b = true.
Proof.
  induction a as [|x a IH]; intros [|y b] s t Hl; try done. cbn [app bytes_le]. injection Hl as Hl.
  destruct (x <? y), (x =? y); cbn [orb andb]; try done. by apply IH.
Qed.
Lemma TxIndexKey_le h1 i1 h2 i2 : 0 <= h1 < 2 ^ 63 -> 0 <= h2 < 2 ^ 63 ->
  bytes_le (TxIndexKey h1 i1) (TxIndexKey h2 i2) = true -> h1 <= h2.
Proof.
  intros Hh1 Hh2 Hle. unfold TxIndexKey in Hle. cbn [bytes_le] in Hle. rewrite Z.ltb_irrefl, Z.eqb_refl in Hle. cbn [orb andb] in Hle.
  apply bytes_le_front in Hle; [|unfold be64; by rewrite !be_length]. rewrite !wrap64_small in Hle by (unfold max_uint64; lia).
  unfold be64 in Hle. rewrite be_le in Hle by (cbn; lia). by apply Z.leb_le.
Qed.

Lemma elem_of_index_keys db k : k ∈ index_keys db <-> is_Some (db !! k) /\ is_prefix [KeyPrefixTxIndex] k = true.
Proof.
  unfold index_keys. rewrite list_elem_of_fmap. split.
  - intros ([k' v] & -> & Hin). apply elem_of_iterate in Hin as [? ?]. eauto.
  - intros [[v Hv] Hp]. exists (k, v). split; [done|]. by apply elem_of_iterate.
Qed.
Lemma index_keys_sorted db : StronglySorted (fun a b => bytes_le a b = true) (index_keys db).
Proof.
  unfold index_keys. pose proof (iterate_sorted [KeyPrefixTxIndex] db) as Hs.
  induction Hs as [|[k v] l Hs IH Hf]; cbn; constructor; [done|]. apply Forall_map. exact Hf.
Qed.
#[local] Instance bytes_le_refl : Reflexive (fun a b => bytes_le a b = true).
Proof. intros a. by destruct (bytes_le_total a a). Qed.
Lemma last_max {A} (R : A -> A -> Prop) `{!Reflexive R} l x y : StronglySorted R l -> last l = Some x -> y ∈ l -> R y x.
Proof.
  induction 1 as [|z l Hs IH Hf]; intros Hl Hy; [done|]. apply elem_of_cons in Hy as [->|Hy].
  - destruct l as [|w l]; [by injection Hl as ->|]. rewrite Forall_forall in Hf. apply Hf.
    change (last (w :: l) = Some x) in Hl. by apply last_Some_elem_of.
  - destruct l as [|w l]; [by apply elem_of_nil in Hy|]. by apply IH.
Qed.

(**  The service starts from the highest block that has an Ethereum transaction in
    the index, and from nowhere when there is none. *)
Theorem LoadLastBlock_max db : index_ok db ->
  (LoadLastBlock db = Ok (-1) /\ forall h i, db !! TxIndexKey h i = None) \/
  exists n i, LoadLastBlock db = Ok n /\ 0 < n /\ is_Some (db !! TxIndexKey n i) /\
    forall h j, 0 <= h < 2 ^ 63 -> is_Some (db !! TxIndexKey h j) -> h <= n.
Proof.
  intros Hok. unfold LoadLastBlock. destruct (last (index_keys db)) as [k|] eqn:E.
  - right. pose proof (last_Some_elem_of _ _ E) as Hin. apply elem_of_index_keys in Hin as [[v Hv] Hp].
    destruct (Hok _ _ Hv Hp) as (n & i & -> & Hn & Hi). exists n, i. split; [apply parse_TxIndexKey; lia|].
    split; [lia|]. split; [by eexists|]. intros h j Hh Hj.
    apply (TxIndexKey_le h j n i); [lia..|]. apply (last_max _ _ _ _ (index_keys_sorted db) E), elem_of_index_keys. done.
  - left. split; [done|]. intros h i. apply last_None in E. destruct (db !! TxIndexKey h i) eqn:Hk; [|done].
    assert (TxIndexKey h i ∈ index_keys db) as Hin by (apply elem_of_index_keys; split; [by eexists|done]).
    rewrite E in Hin. by apply elem_of_nil in Hin.
Qed.

(** * The service *)

(**  After one fetch from the node has failed the service never indexes again,
    whatever the node answers and whatever blocks are announced: the error is
    remembered at the top of the loop, where nothing clears it. *)
Theorem service_stuck_after_error s inputs : sv_err s = true -> sv_next s = None ->
  exists s', run_service s inputs = Ok s' /\ sv_db s' = sv_db s /\ sv_last s' = sv_last s /\ sv_next s' = None.
Proof.
  revert s. induction inputs as [|i inputs IH]; intros s He Hn; [by exists s|].
  destruct s as [latest lst err next db]. cbn [sv_err sv_next] in *. subst err next. cbn [run_service].
  destruct i as [h|fetch]; cbn [service_step rbind].
  - by destruct (IH (mkService (if latest <? h then h else latest) lst true None db) eq_refl eq_refl) as (s' & ? & ? & ?); exists s'.
  - rewrite orb_true_r. cbn [rbind]. by apply IH.
Qed.

(** A node that answers every fetch with the blocks of one chain. *)
Variable blocks : Z -> Block.
Variable results : Z -> list ExecTxResult.
Definition honest (i : input) : Prop :=
  match i with IHeader _ => True | IRun fetch => forall n, fetch n = mkAnswer (Some (blocks n)) (Some (n, results n)) end.
(** The blocks after [lst], one after the other; indexing one must not panic. *)
Fixpoint indexed (n : nat) (lst : Z) (db : kv_db) : kv_db :=
  match n with
  | O => db
  | S n => (IndexBlock (blocks (lst + Z.of_nat n + 1)) (results (lst + Z.of_nat n + 1)) (indexed n lst db)).2
  end.
Definition follows (lst0 : Z) (db0 : kv_db) (s : service) : Prop :=
  sv_err s = false /\ (exists n : nat, sv_last s = lst0 + Z.of_nat n /\ sv_db s = indexed n lst0 db0) /\
  (sv_next s = None \/ sv_next s = Some (sv_last s + 1)) /\ sv_last s <= Z.max lst0 (sv_latest s).
Lemma step_follows lst0 db0 s i s' : honest i -> follows lst0 db0 s -> service_step s i = Ok s' -> follows lst0 db0 s'.
Proof.
  destruct s as [latest lst err next db]. intros Hi (He & (n & Hl & Hd) & Hnx & Hle) Hr. cbn [sv_err sv_last sv_db sv_next sv_latest] in *.
  subst err. destruct i as [h|fetch]; cbn [service_step] in Hr.
  - injection Hr as <-. split_and!; cbn [sv_err sv_last sv_db sv_next sv_latest]; [done|by exists n|done|]. destruct (Z.ltb_spec latest h); lia.
  - destruct next as [m|].
    + destruct Hnx as [|[= ->]]; [done|]. destruct (Z.ltb_spec latest (lst + 1)).
      { injection Hr as <-. split_and!; cbn; [done|by exists n|by left|lia]. }
      rewrite Hi in Hr. cbn [an_block an_results] in Hr.
      destruct (IndexBlock (blocks (lst + 1)) (results (lst + 1)) db) as [r db1] eqn:E.
      assert (s' = mkService latest (lst + 1) false (Some (lst + 1 + 1)) db1) as -> by (destruct r; congruence).
      split_and!; cbn [sv_err sv_last sv_db sv_next sv_latest]; [done| |by right|lia].
      exists (S n). split; [lia|]. cbn [indexed]. rewrite <- Hl, <- Hd, E. done.
    + rewrite orb_false_r in Hr. destruct (Z.leb_spec latest lst); injection Hr as <-;
        (split_and!; cbn [sv_err sv_last sv_db sv_next sv_latest]; [done|by exists n| |lia]); [by left|by right].
Qed.

(** C30.  As long as no fetch fails, the index is at every moment that of the blocks
    after the one the service started from, each indexed once and in order, however
    the announcements of new blocks come in between; and it is never ahead of the
    announced blocks. *)
Theorem service_follows_chain lst0 latest db0 inputs s' : Forall honest inputs ->
  run_service (mkService latest lst0 false None db0) inputs = Ok s' ->
  exists n : nat, sv_last s' = lst0 + Z.of_nat n /\ sv_db s' = indexed n lst0 db0 /\
    sv_last s' <= Z.max lst0 (sv_latest s') /\ sv_err s' = false.
Proof.
  intros Hh Hr. assert (follows lst0 db0 (mkService latest lst0 false None db0)) as Hf.
  { split_and!; cbn [sv_err sv_last sv_db sv_next sv_latest]; [done|exists 0%nat; split; [lia|done]|by left|lia]. }
  revert Hf Hr. generalize (mkService latest lst0 false None db0). induction Hh as [|i inputs Hi _ IH]; intros s Hf Hr.
  - injection Hr as <-. destruct Hf as (? & (n & ? & ?) & _ & ?). by exists n.
  - cbn [run_service] in Hr. apply rbind_ok in Hr as (s1 & Hs & Hr). eapply IH; [|exact Hr]. by eapply step_follows.
Qed.
End index.

(** * A concrete block

    A block with one Ethereum transaction of two messages, the second of them
    reverted, on which the theorems about the indexer are instantiated. *)
From S2P Require Import Prelude KVStore Sdk StateDB VmKeeper TxData StateTransition EthAnte EthModel BankModel EvmCompose.
From S2P Require Import StateTransitionThms EthAnteThms EthCompose FeeChecker CosmosAnte CosmosAnteThms Indexer.

Definition y_hash (i : Z) : string := Hash_Hex (1000 + i).
Definition y_msg (i : Z) : MsgEthereumTx := mkMsgEth (Some (h_data [i])) 0 (y_hash i) "".
Definition y_tx : SdkTx :=
  mkSdkTx (mkFeeTx _ true 100000 None [] None [MEthereumTx (y_msg 0); MEthereumTx (y_msg 1)] (Some []))
    None None true (Some [EthereumOption]).

(** A codec that writes the fields one after the other. *)
Definition y_marshal (r : TxResult) : bytes :=
  [Height r; TxIndex r; MsgIndex r; EthTxIndex r; (if tr_Failed r then 1 else 0); tr_GasUsed r; CumulativeGasUsed r].
Definition y_unmarshal (b : bytes) : res TxResult :=
  match b with
  | [h; t; m; e; f; g; c] => Ok (mkTxResult h t m e (f =? 1) g c)
  | _ => Err (Error ErrOther "unexpected EOF")
  end.
#[global] Instance ModelIndexer : IndexerLib := {|
  MarshalTxResult := y_marshal;
  UnmarshalTxResult := y_unmarshal;
  TxDecoder b := if decide (b = [7]) then Ok y_tx else Err (Error ErrTxDecode "tx parse error");
|}.
#[global] Instance ModelIndexerLaws : IndexerLaws.
Proof. split; [intros [h t m e f g c]; by destruct f|done]. Qed.

(** What the chain emitted: an event of another module in between. *)
Definition y_response (i gas : Z) (err : string) : MsgEthereumTxResponse := mkResponse (1000 + i) [] [] err gas.
Definition y_applied : list applied :=
  [mkApplied (y_msg 0) (tx_of (h_data [0])) 4 (y_response 0 21000 "") 4;
   mkApplied (y_msg 1) (tx_of (h_data [1])) 5 (y_response 1 33000 "execution reverted") 4].
Definition y_events : list abci_event :=
  imap (first_event (fun _ => "")) y_applied ++ [AbciEvent "transfer" [("amount", "5agxn")]]
  ++ map (second_event (fun _ => "") None (fun _ => "")) y_applied.
Definition y_result : ExecTxResult := mkExec 0 "" 54000 y_events.

Lemma ParseTxResult_reads_events_witness :
  exists p, ParseTxResult y_result (Some y_tx) = Ok p /\ GetTxByMsgIndex p 1 = Some (mkParsed 1 1001 5 33000 true).
Proof.
  destruct (ParseTxResult_reads_events (fun _ => "") None (fun _ => "") y_result (Some y_tx) y_applied) as (p & Hp & _ & Hm).
  - discriminate.
  - reflexivity.
  - repeat constructor; vm_compute; discriminate.
  - intros [|[|i]] x Hx; [injection Hx as <-|injection Hx as <-|discriminate Hx]; split; vm_compute; discriminate || reflexivity.
  - vm_compute. reflexivity.
  - exists p. split; [exact Hp|]. exact (Hm 1%nat _ eq_refl).
Defined.

Definition y_block (n : Z) : Block := mkBlock n [[9]; [7]].
Definition y_results (n : Z) : list ExecTxResult := [mkExec 0 "" 100 []; y_result].
Definition y_db : kv_db := (IndexBlock (y_block 12) (y_results 12) ∅).2.
Definition y_parsed : ParsedTxs := match ParseTxResult y_result (Some y_tx) with Ok p => p | _ => mkTxs [] ∅ end.

Lemma y_saved_fits saved : index_txs 12 (bl_Txs (y_block 12)) (y_results 12) 0 0 = Ok saved ->
  Z.of_nat (length saved) < 2 ^ 31 /\ NoDup saved.*1.
Proof.
  intros Hs. assert (length saved = 2%nat /\ saved.*1 = [1000; 1001]) as [-> ->].
  { assert (match index_txs 12 (bl_Txs (y_block 12)) (y_results 12) 0 0 with
            | Ok l => Some (length l, l.*1) | _ => None end = Some (2%nat, [1000; 1001])) as E by (vm_compute; reflexivity).
    rewrite Hs in E. by injection E as -> ->. }
  split; [done|]. repeat constructor; set_solver.
Qed.
(** The second message, in the second transaction of block 12. *)
Lemma IndexBlock_finds_witness :
  exists r, GetByTxHash y_db 1001 = Ok r /\ GetByBlockAndIndex y_db 12 (EthTxIndex r) = Ok r /\
    TxIndex r = 1 /\ MsgIndex r = 1 /\ tr_GasUsed r = 33000 /\ tr_Failed r = true.
Proof.
  assert (IndexBlock (y_block 12) (y_results 12) ∅ = (Ok tt, y_db)) as Hr by (apply run_fst; vm_compute; reflexivity).
  assert (0 < bl_Height (y_block 12) < 2 ^ 63) as Hh by (split; reflexivity).
  assert (ParseTxResult y_result (Some y_tx) = Ok y_parsed) as Hp by (vm_compute; reflexivity).
  assert (message_outcome y_result y_parsed 1 (y_msg 1) = Some (33000, true)) as Ho by (vm_compute; reflexivity).
  destruct (IndexBlock_finds (y_block 12) (y_results 12) ∅ y_db 1 [7] y_result y_tx y_parsed 1 (y_msg 1) 33000 true
    Hh Hr y_saved_fits eq_refl eq_refl eq_refl eq_refl eq_refl Hp eq_refl Ho)
    as (r & Hg & Hb & _ & Ht & Hm & Hu & Hf).
  assert (HexToHash (m_Hash (y_msg 1)) = 1001) as E by (vm_compute; reflexivity). rewrite E in Hg.
  exists r. split; [exact Hg|]. split; [exact Hb|]. split; [exact Ht|]. split; [exact Hm|]. split; [exact Hu|exact Hf].
Defined.

Lemma y_index_ok : index_ok y_db.
Proof.
  apply (IndexBlock_index_ok (y_block 12) (y_results 12) ∅); [split; reflexivity| |apply index_ok_empty|].
  - intros saved Hs. apply (y_saved_fits saved Hs).
  - apply run_fst. vm_compute. reflexivity.
Qed.
Lemma LoadLastBlock_max_witness : exists i, LoadLastBlock y_db = Ok 12 /\ is_Some (y_db !! TxIndexKey 12 i).
Proof.
  assert (LoadLastBlock y_db = Ok 12) as E by (vm_compute; reflexivity).
  destruct (LoadLastBlock_max y_db y_index_ok) as [[Hn _]|(n & i & Hn & _ & Hs & _)]; rewrite E in Hn; [discriminate Hn|].
  injection Hn as <-. exists i. split; [exact E|exact Hs].
Defined.

(** The service from block 12 on: two blocks announced, then a failed fetch. *)
Definition y_fetch (n : Z) : answer := mkAnswer (Some (y_block n)) (Some (n, y_results n)).
Definition y_inputs : list input := [IHeader 14; IRun y_fetch; IRun y_fetch; IHeader 15; IRun y_fetch].
Definition y_service : service :=
  match run_service (mkService 12 12 false None y_db) y_inputs with Ok s => s | _ => mkService 0 0 false None ∅ end.
Lemma service_follows_chain_witness :
  sv_last y_service = 14 /\ exists n : nat, sv_db y_service = indexed y_block y_results n 12 y_db /\ 14 = 12 + Z.of_nat n.
Proof.
  assert (sv_last y_service = 14) as El by (vm_compute; reflexivity).
  assert (run_service (mkService 12 12 false None y_db) y_inputs = Ok y_service) as Hr by (vm_compute; reflexivity).
  destruct (service_follows_chain y_block y_results 12 12 y_db y_inputs y_service) as (n & Hl & Hd & _).
  - repeat constructor.
  - exact Hr.
  - split; [exact El|]. exists n. split; [exact Hd|]. rewrite <- El. exact Hl.
Defined.

Definition y_failed : service :=
  match run_service y_service [IRun (fun _ => mkAnswer None None)] with Ok s => s | _ => y_service end.
Lemma service_stuck_after_error_witness :
  exists s', run_service y_failed [IHeader 99; IRun y_fetch; IRun y_fetch; IRun y_fetch] = Ok s' /\
    sv_last s' = 14 /\ sv_db s' = sv_db y_failed.
Proof.
  destruct (service_stuck_after_error y_failed [IHeader 99; IRun y_fetch; IRun y_fetch; IRun y_fetch]) as (s' & Hr & Hd & Hl & _);
    [vm_compute; reflexivity|vm_compute; reflexivity|].
  exists s'. split; [exact Hr|]. split; [|exact Hd]. rewrite Hl. vm_compute. reflexivity.
Defined.
