(* ===== verification/Rpc.v ===== *)
(** JSON-RPC of the node: block numbers ([rpc/types/block.go]), blocks, transactions,
    receipts and fees ([rpc/backend], [rpc/types/utils.go]), log filters and the API of
    installed filters ([rpc/namespaces/ethereum/eth/filters]).

    The clients of CometBFT and of the application are the class [Node]: what they
    answer while a request is served.  Signers, blooms, the decoding of JSON and
    floating-point numbers are parameters.  Logging is left out. *)
From S2P Require Import Prelude KVStore Sdk EvmConfig FeeMarket FeeChecker StateDB Wrappers VmKeeper TxData VmGas VmParams StateTransition EthAnte CosmosAnte Indexer VmQuery.

(** * Block numbers *)

(** [BlockNumber], an [int64] *)
Definition EthPendingBlockNumber : Z := -2.
Definition EthLatestBlockNumber : Z := -1.
Definition EthEarliestBlockNumber : Z := 0.

Definition NewBlockNumber (n : Z) : Z := if is_int64 n then n else EthLatestBlockNumber.
Definition bn_Int64 (bn : Z) : Z := if bn <? 0 then 0 else if bn =? 0 then 1 else bn.
Definition TmHeight (bn : Z) : option Z := if bn <? 0 then None else Some (bn_Int64 bn).

Record BlockNumberOrHash := mkNumberOrHash { bnh_BlockNumber : option Z; bnh_BlockHash : option Hash }.

(** [hexutil.DecodeUint64], whose error may be a missing prefix; [cast.ToUint64];
    [Hash.UnmarshalText]. *)
Class RpcText := {
  DecodeUint64 : string -> res Z;
  is_missing_prefix : error -> bool;
  ToUint64 : string -> Z;
  Hash_UnmarshalText : string -> res Hash;
}.
Section block_number.
Context `{RpcText, EthBytes}.

(** The text between the quotation marks, if there are two. *)
Definition unquote (input : string) : string :=
  let n := String.length input in
  if (2 <=? n)%nat && bool_decide (String.get 0 input = Some (Ascii.ascii_of_nat 34)) &&
     bool_decide (String.get (n - 1) input = Some (Ascii.ascii_of_nat 34))
  then String.substring 1 (n - 2) input else input.
Definition BlockNumber_UnmarshalJSON (data : string) : res Z :=
  let input := unquote (TrimSpace data) in
  if decide (input = "earliest") then Ok EthEarliestBlockNumber
  else if decide (input = "latest" \/ input = "finalized" \/ input = "safe") then Ok EthLatestBlockNumber
  else if decide (input = "pending") then Ok EthPendingBlockNumber
  else
    let? blckNum := (match DecodeUint64 input with
      | Err e => if is_missing_prefix e then Ok (ToUint64 input) else Err e
      | r => r
      end) in
    if max_int64 <? blckNum then Err (Error ErrOther "block number larger than int64") else Ok blckNum.

Definition checkUnmarshal (e : BlockNumberOrHash) : res BlockNumberOrHash :=
  match bnh_BlockNumber e, bnh_BlockHash e with
  | Some _, Some _ => Err (Error ErrOther "cannot specify both BlockHash and BlockNumber, choose one or the other")
  | _, _ => Ok e
  end.
Definition number (n : Z) : BlockNumberOrHash := mkNumberOrHash (Some n) None.
Definition decodeFromString (input : string) : res BlockNumberOrHash :=
  if decide (input = "earliest") then Ok (number EthEarliestBlockNumber)
  else if decide (input = "latest" \/ input = "finalized") then Ok (number EthLatestBlockNumber)
  else if decide (input = "pending") then Ok (number EthPendingBlockNumber)
  else if (String.length input =? 66)%nat then
    let? hash := Hash_UnmarshalText input in Ok (mkNumberOrHash None (Some hash))
  else
    let? blockNumber := DecodeUint64 input in
    let? bnInt := SafeInt64 blockNumber in
    Ok (number bnInt).
End block_number.

(** * Logs and blooms *)

Section filter_logs.
(** [ethtypes.BloomLookup]; a bloom is a number of 2048 bits *)
Variable BloomLookup : Z -> bytes -> bool.

(** [big.Int.Int64] and [Uint64] of a bound that may be nil *)
Definition below (fromBlock : option Z) (n : Z) : bool :=
  match fromBlock with Some b => (0 <=? to_int64 b) && (n <? wrap64 b) | None => false end.
Definition above (toBlock : option Z) (n : Z) : bool :=
  match toBlock with Some b => (0 <=? to_int64 b) && (wrap64 b <? n) | None => false end.
(** Whether the rules, one for every place, let the topics through; there are at
    least as many topics as rules. *)
Fixpoint topics_match (topics : list (list Hash)) (log : list Hash) : bool :=
  match topics, log with
  | [], _ => true
  | sub :: topics, t :: log => ((length sub =? 0)%nat || existsb (Z.eqb t) sub) && topics_match topics log
  | _ :: _, [] => false
  end.
Definition keep_log (fromBlock toBlock : option Z) (addresses : list Address) (topics : list (list Hash)) (log : Log) : bool :=
  negb (below fromBlock (lg_BlockNumber log)) && negb (above toBlock (lg_BlockNumber log)) &&
  ((length addresses =? 0)%nat || existsb (Z.eqb (lg_Address log)) addresses) &&
  negb (length (lg_Topics log) <? length topics)%nat && topics_match topics (lg_Topics log).
Definition FilterLogs (logs : list Log) (fromBlock toBlock : option Z) (addresses : list Address)
    (topics : list (list Hash)) : list Log := List.filter (keep_log fromBlock toBlock addresses topics) logs.

Definition bloomFilter (bloom : Z) (addresses : list Address) (topics : list (list Hash)) : bool :=
  ((length addresses =? 0)%nat || existsb (fun a => BloomLookup bloom (address_bytes a)) addresses) &&
  forallb (fun sub => (length sub =? 0)%nat || existsb (fun t => BloomLookup bloom (hash_bytes t)) sub) topics.
End filter_logs.

(** The bytes and bits of a bloom a text stands for; [keccak] gives the hash. *)
Record BloomIV := mkBloomIV { biv_I : list Z; biv_V : list Z }.
Definition BloomByteLength : Z := 256.
Definition be_uint16 (hi lo : Z) : Z := hi * 256 + lo.
Section bloom_iv.
Variable keccak : bytes -> bytes.
Definition bloom_byte (hi lo : Z) : Z := BloomByteLength - Z.shiftr (Z.land (be_uint16 hi lo) 2047) 3 - 1.
Definition bloom_bit (lo : Z) : Z := Z.shiftl 1 (Z.land lo 7) mod 256.
Definition calcBloomIVs (data : bytes) : BloomIV :=
  match take 6 (keccak data) with
  | [b0; b1; b2; b3; b4; b5] =>
      mkBloomIV [bloom_byte b0 b1; bloom_byte b2 b3; bloom_byte b4 b5] [bloom_bit b1; bloom_bit b3; bloom_bit b5]
  | _ => mkBloomIV [] []
  end.
(** No clause is nil: they are the bytes of addresses and topics. *)
Definition createBloomFilters (filters : list (list bytes)) : list (list BloomIV) :=
  map (map calcBloomIVs) (List.filter (fun f => negb (length f =? 0)%nat) filters).
End bloom_iv.

(** * What the node answers *)

Record TmHeader := mkHeader {
  th_Height : Z; th_Time : Z; th_LastBlockID : bytes; th_DataHash : bytes; th_AppHash : bytes;
  th_ProposerAddress : bytes; th_Hash : bytes;
}.
Record TmBlock := mkTmBlock { bk_Header : TmHeader; bk_Txs : list bytes; bk_Size : Z; bk_ID : bytes }.
Record BlockResults := mkResults { br_Height : Z; br_TxsResults : list ExecTxResult; br_FinalizeBlockEvents : list abci_event }.
Record ResultTx := mkResultTx { rt_Height : Z; rt_Index : Z; rt_TxResult : ExecTxResult; rt_Tx : bytes }.

(** A query at height 0 is one of the latest state.  A nil result is [None]; so is an
    account that is not found. *)
Class Node := {
  node_Block : Z -> res (option TmBlock);
  node_BlockByHash : Hash -> res (option TmBlock);
  node_HeaderByHash : Hash -> res (option TmHeader);
  node_BlockResults : option Z -> res BlockResults;
  node_UnconfirmedTxs : res (list bytes);
  node_ConsensusParams : Z -> res Z;
  node_TxSearch : string -> res (list ResultTx);
  app_HeightHeader : res (list string);             (** of the query of parameters *)
  app_BaseFee : Z -> res (option Z);
  app_ValidatorAccount : Z -> bytes -> res string;
  app_Account : Z -> Address -> res (option Z);     (** its sequence *)
  app_EnsureExists : Address -> bool;
  app_FeeMarketParams : res Params;
  app_GlobalMinGasPrice : res Z;
  app_EstimateGas : Z -> EthCallRequest -> res EstimateGasResponse;
  app_EthCall : Z -> EthCallRequest -> res MsgEthereumTxResponse;
  node_Broadcast : bytes -> res unit;
  app_Code : Z -> Address -> res bytes;
  app_Storage : Z -> Address -> string -> res string;
  app_Balance : Z -> Address -> res string;
}.

Record EthHeader := mkEthHeader {
  eh_ParentHash : Hash; eh_Coinbase : Address; eh_Root : Hash; eh_TxHash : Hash; eh_Bloom : Z; eh_Number : Z;
  eh_GasLimit : Z; eh_GasUsed : Z; eh_Time : Z; eh_BaseFee : option Z;
}.
(** Of go-ethereum: the root of an empty trie, blooms as numbers, signers, the next
    base fee, the decoding of a transaction; the JSON of a log and of the arguments of
    a call; [sdkmath.NewIntFromString]. *)
Class EthRpc `{EthTypes, !EthSigner} := {
  EmptyRootHash : Hash;
  BloomLookup : Z -> bytes -> bool;
  bloom_Add : bytes -> Z -> Z;
  BytesToBloom : string -> Z;
  unmarshal_log : string -> res Log;
  LatestSignerForChainID : option Z -> Signer;
  LatestSigner : Signer;
  signer_Hash : Signer -> Transaction -> Hash;
  HomesteadSigner : Signer;
  CalcBaseFee : EthHeader -> res Z;
  tx_UnmarshalBinary : bytes -> res Transaction;
  EffectiveGasTipValue : Transaction -> option Z -> option Z;
  marshal_args : TransactionArgs -> bytes;
  NewIntFromString : string -> option Z;
}.
(** Floating-point numbers: shares of gas, percentiles, the cap on the fee in ether;
    and [sort.Sort] of the rewards. *)
Class FeeFloats := {
  Ratio : Type;
  gas_ratio : Z -> Z -> Ratio;
  Percentile : Type;
  threshold : Z -> Percentile -> Z;                 (** [uint64(gasUsed * p / 100)] *)
  fee_above_cap : Z -> bool;                         (** in ether, of a fee in the smallest unit *)
  sort_rewards : list (Z * Z) -> list (Z * Z);       (** gas used and reward *)
}.

Record RpcConfig := mkRpcConfig {
  FeeHistoryCap : Z; FixRevertGasRefundHeight : Z; RPCGasCap : Z; UnprotectedAllowed : bool; RPCMinGasPrice : Z;
  RPCFilterCap : Z; RPCLogsCap : Z; RPCBlockRangeCap : Z;
}.

Record RPCTransaction := mkRPCTx {
  rx_Type : Z; rx_From : Address; rx_Gas : Z; rx_GasPrice : option Z; rx_Hash : Hash; rx_Input : bytes; rx_Nonce : Z;
  rx_To : option Address; rx_Value : option Z; rx_sig : option Z * option Z * option Z; rx_ChainID : option Z;
  rx_place : option (Hash * Z * Z);                  (** block hash, block number, index *)
  rx_Accesses : option (list (Address * list Hash)); rx_GasFeeCap : option Z; rx_GasTipCap : option Z;
}.
Record RPCBlock := mkRPCBlock {
  rb_number : Z; rb_hash : bytes; rb_parentHash : Hash; rb_logsBloom : Z; rb_stateRoot : bytes; rb_miner : Address;
  rb_size : Z; rb_gasLimit : Z; rb_gasUsed : Z; rb_timestamp : Z; rb_transactionsRoot : Hash;
  rb_transactions : list (Hash + RPCTransaction); rb_baseFeePerGas : option Z;
}.
Record TxReceipt := mkTxReceipt {
  re_status : Z; re_cumulativeGasUsed : Z; re_logsBloom : Z; re_logs : list Log; re_transactionHash : Hash;
  re_contractAddress : option Address; re_gasUsed : Z; re_blockHash : Hash; re_blockNumber : Z; re_transactionIndex : Z;
  re_effectiveGasPrice : option Z; re_from : Address; re_to : option Address; re_type : Z;
}.

Section backend.
Context `{DecLib, CoinsLib, AddressCodec, EthHex, EthTypes, !EthSigner, EthReceipts, !EthRpc, IndexerLib, !FeeFloats, !Node}.
Variable info : EvmCoinInfo.
Variable chain : ChainConfig.
(** [config.IsEIP155] *)
Variable IsEIP155 : Z -> bool.
Variable cfg : RpcConfig.
Variable indexer : option kv_db.
(** [b.chainID] *)
Variable chainID : Z.

(** ** Blocks *)

Definition BlockNumber : res Z :=
  let? header := app_HeightHeader in
  match header with
  | [h] => match ParseUint 64 h with Err _ => Err (Error ErrOther "failed to parse block height") | r => r end
  | _ => Err (Error ErrOther "unexpected gRPC header length")
  end.
Definition TendermintBlockByNumber (blockNum : Z) : res (option TmBlock) :=
  let height := bn_Int64 blockNum in
  let? height := (if height <=? 0 then let? n := BlockNumber in Ok (to_int64 n) else Ok height) in
  node_Block height.
Definition TendermintBlockByHash (hash : Hash) : res (option TmBlock) := node_BlockByHash hash.
Definition TendermintBlockResultByNumber (height : Z) : res BlockResults := node_BlockResults (Some height).

Definition BlockNumberFromTendermintByHash (hash : Hash) : res Z :=
  let? header := node_HeaderByHash hash in
  match header with
  | None => Err (Error ErrOther "block not found for hash")
  | Some h => Ok (th_Height h)
  end.
Definition BlockNumberFromTendermint (b : BlockNumberOrHash) : res Z :=
  match bnh_BlockHash b, bnh_BlockNumber b with
  | None, None => Err (Error ErrOther "types BlockHash and BlockNumber cannot be both nil")
  | Some hash, _ => let? n := BlockNumberFromTendermintByHash hash in Ok (NewBlockNumber n)
  | None, Some n => Ok n
  end.

(** The messages of a transaction, each with the hash of its transaction. *)
Definition with_hash (m : MsgEthereumTx) : res MsgEthereumTx :=
  let? tx := transaction_of m in Ok (mkMsgEth (m_Data m) (m_Size m) (Hash_Hex (tx_Hash tx)) (m_From m)).
Fixpoint eth_msgs (msgs : list SdkMsg) : res (list MsgEthereumTx) :=
  match msgs with
  | [] => Ok []
  | MEthereumTx m :: msgs => let? m := with_hash m in let? rest := eth_msgs msgs in Ok (m :: rest)
  | _ :: msgs => eth_msgs msgs
  end.
Fixpoint block_msgs (txs : list bytes) (results : list ExecTxResult) : res (list MsgEthereumTx) :=
  match txs with
  | [] => Ok []
  | tx :: txs =>
      match results with
      | [] => Panic "index out of range"
      | result :: results =>
          if negb (TxSucessOrExpectedFailure result) then block_msgs txs results
          else match TxDecoder tx with
          | Err _ => block_msgs txs results
          | Panic m => Panic m
          | Ok tx => let? l := eth_msgs (GetMsgs tx) in let? rest := block_msgs txs results in Ok (l ++ rest)
          end
      end
  end.
Definition EthMsgsFromTendermintBlock (block : TmBlock) (blockRes : BlockResults) : res (list MsgEthereumTx) :=
  block_msgs (bk_Txs block) (br_TxsResults blockRes).

(** The first attribute of that key in the first event of that type that has it. *)
Fixpoint find_attribute (key : string) (attrs : list (string * string)) : option string :=
  match attrs with
  | [] => None
  | (k, v) :: attrs => if decide (k = key) then Some v else find_attribute key attrs
  end.
Fixpoint bloom_of_events (events : list abci_event) : option string :=
  match events with
  | [] => None
  | e :: events =>
      if decide (ab_Type e = "block_bloom")
      then match find_attribute "bloom" (ab_Attributes e) with Some v => Some v | None => bloom_of_events events end
      else bloom_of_events events
  end.
Definition BlockBloom (blockRes : BlockResults) : res Z :=
  match bloom_of_events (br_FinalizeBlockEvents blockRes) with
  | Some v => Ok (BytesToBloom v)
  | None => Err (Error ErrOther "block bloom event is not found")
  end.

(** ** Fees *)

(** The loop goes through the events from the last one. *)
Fixpoint base_fee_of_events (events : list abci_event) : option Z :=
  match events with
  | [] => None
  | e :: events =>
      match ab_Attributes e with
      | (_, v) :: _ => if decide (ab_Type e = "evm_fee_market") then NewIntFromString v else base_fee_of_events events
      | [] => base_fee_of_events events
      end
  end.
Definition rpc_BaseFee (blockRes : BlockResults) : res (option Z) :=
  let fallback (r : res (option Z)) : res (option Z) :=
    match base_fee_of_events (rev (br_FinalizeBlockEvents blockRes)) with Some b => Ok (Some b) | None => r end in
  match app_BaseFee (br_Height blockRes) with
  | Ok (Some b) => Ok (Some b)
  | Panic m => Panic m
  | r => fallback r
  end.
(** [err] is logged and the value is nil. *)
Definition or_nil {A} (r : res (option A)) : res (option A) := match r with Err _ => Ok None | r => r end.

Definition EthHeaderFromTendermint (header : TmHeader) (bloom : Z) (baseFee : option Z) : EthHeader :=
  mkEthHeader (BytesToHash (th_LastBlockID header)) (BytesToAddress (th_ProposerAddress header))
    (BytesToHash (th_AppHash header))
    (match th_DataHash header with [] => EmptyRootHash | h => BytesToHash h end)
    bloom (th_Height header) 0 0 (wrap64 (th_Time header)) baseFee.
Definition bloom_or_empty (r : res Z) : res Z := match r with Err _ => Ok 0 | r => r end.
Definition header_with (header : TmHeader) (blockRes : BlockResults) : res EthHeader :=
  let? bloom := bloom_or_empty (BlockBloom blockRes) in
  let? baseFee := or_nil (rpc_BaseFee blockRes) in
  Ok (EthHeaderFromTendermint header bloom baseFee).
Definition results_at (height : Z) : res BlockResults :=
  code_error "block result not found for height" (node_BlockResults (Some height)).
Definition HeaderByNumber (blockNum : Z) : res EthHeader :=
  let? resBlock := TendermintBlockByNumber blockNum in
  match resBlock with
  | None => Err (Error ErrOther "block not found for height")
  | Some b => let? blockRes := results_at (th_Height (bk_Header b)) in header_with (bk_Header b) blockRes
  end.
Definition HeaderByHash (hash : Hash) : res EthHeader :=
  let? resHeader := node_HeaderByHash hash in
  match resHeader with
  | None => Err (Error ErrOther "header not found for hash")
  | Some h => let? blockRes := results_at (th_Height h) in header_with h blockRes
  end.
Definition CurrentHeader : res EthHeader := HeaderByNumber EthLatestBlockNumber.

(** [int64] products wrap. *)
Definition SuggestGasTipCap (baseFee : option Z) : res Z :=
  match baseFee with
  | None => Ok 0
  | Some baseFee =>
      let? params := app_FeeMarketParams in
      if BaseFeeChangeDenominator params =? 0 then Panic "integer divide by zero"
      else
        let maxDelta := Z.quot (to_int64 (to_int64 baseFee * (ElasticityMultiplier params - 1))) (BaseFeeChangeDenominator params) in
        Ok (if maxDelta <? 0 then 0 else maxDelta)
  end.
Definition GasPrice : res Z :=
  let? head := CurrentHeader in
  let? result := (match eh_BaseFee head with
    | Some b => let? tip := SuggestGasTipCap (Some b) in Ok (tip + b)
    | None => Ok (RPCMinGasPrice cfg)
    end) in
  let? minGasPrice := app_GlobalMinGasPrice in
  Ok (if result <? minGasPrice then minGasPrice else result).

(** ** Logs *)

Fixpoint logs_of_attributes (attrs : list (string * string)) : res (list Log) :=
  match attrs with
  | [] => Ok []
  | (k, v) :: attrs =>
      if decide (k = "txLog") then let? log := unmarshal_log v in let? logs := logs_of_attributes attrs in Ok (log :: logs)
      else logs_of_attributes attrs
  end.
Definition ParseTxLogsFromEvent (event : abci_event) : res (list Log) := logs_of_attributes (ab_Attributes event).
Fixpoint AllTxLogsFromEvents (events : list abci_event) : res (list (list Log)) :=
  match events with
  | [] => Ok []
  | e :: events =>
      if decide (ab_Type e = "tx_log")
      then let? logs := ParseTxLogsFromEvent e in let? rest := AllTxLogsFromEvents events in Ok (logs :: rest)
      else AllTxLogsFromEvents events
  end.
Fixpoint TxLogsFromEvents (events : list abci_event) (msgIndex : Z) : res (list Log) :=
  match events with
  | [] => Err (Error ErrOther "eth tx logs not found for message index")
  | e :: events =>
      if decide (ab_Type e = "tx_log")
      then if 0 <? msgIndex then TxLogsFromEvents events (msgIndex - 1) else ParseTxLogsFromEvent e
      else TxLogsFromEvents events msgIndex
  end.
Fixpoint logs_of_results (results : list ExecTxResult) : res (list (list Log)) :=
  match results with
  | [] => Ok []
  | r :: results => let? logs := AllTxLogsFromEvents (ex_Events r) in let? rest := logs_of_results results in Ok (logs ++ rest)
  end.
Definition GetLogsFromBlockResults (blockRes : BlockResults) : res (list (list Log)) := logs_of_results (br_TxsResults blockRes).
Definition GetLogsByHeight (height : option Z) : res (list (list Log)) :=
  let? blockRes := node_BlockResults height in GetLogsFromBlockResults blockRes.
Definition GetLogs (hash : Hash) : res (list (list Log)) :=
  let? resBlock := TendermintBlockByHash hash in
  match resBlock with
  | None => Err (Error ErrOther "block not found for hash")
  | Some b => GetLogsByHeight (Some (th_Height (bk_Header b)))
  end.

(** ** Transactions *)

Definition ChainID_ : res (option Z) :=
  match BlockNumber with
  | Err _ => Ok (Some chainID)
  | Panic m => Panic m
  | Ok bn => if IsEIP155 bn then Ok (Some (ChainID chain))
             else Err (Error ErrOther "chain not synced beyond EIP-155 replay-protection fork block")
  end.
Definition GetSender (m : MsgEthereumTx) (chainID : option Z) : res Address :=
  let? tx := transaction_of m in signer_Sender (LatestSignerForChainID chainID) tx.

(** [errors.Wrap] of the lookups keeps no more than the text. *)
Definition queryTendermintTxIndexer (query : string) (txGetter : ParsedTxs -> option ParsedTx) : res TxResult :=
  let? txs := node_TxSearch query in
  match txs with
  | [] => Err (Error ErrOther "ethereum tx not found")
  | r :: _ =>
      if negb (TxSucessOrExpectedFailure (rt_TxResult r)) then Err (Error ErrOther "invalid ethereum tx")
      else
        let? tx := (if ex_Code (rt_TxResult r) =? 0 then Ok None
                    else let? tx := code_error "invalid ethereum tx" (TxDecoder (rt_Tx r)) in Ok (Some tx)) in
        ParseTxIndexerResult (rt_Height r) (rt_Index r) (rt_TxResult r) tx txGetter
  end.
Definition GetTxByEthHash (hash : Hash) : res TxResult :=
  match indexer with
  | Some db => GetByTxHash db hash
  | None =>
      queryTendermintTxIndexer ("ethereum_tx.ethereumTxHash='" ++ Hash_Hex hash ++ "'")
        (fun txs => match GetTxByHash txs hash with Ok t => t | _ => None end)
  end.
Definition rpc_GetTxByTxIndex (height index : Z) : res TxResult :=
  match indexer with
  | Some db => GetByBlockAndIndex db height (to_int32 index)
  | None =>
      queryTendermintTxIndexer ("tx.height=" ++ FormatUint height ++ " AND ethereum_tx.txIndex=" ++ FormatUint index)
        (fun txs => GetTxByTxIndex txs index)
  end.

Definition NewRPCTransaction (tx : Transaction) (blockHash : Hash) (blockNumber index : Z) (baseFee chainID : option Z)
    : res RPCTransaction :=
  let signer := if tx_Protected tx then LatestSignerForChainID (tx_ChainId tx) else HomesteadSigner in
  let? from := (match signer_Sender signer tx with Err _ => Ok 0 | r => r end) in
  let place := if blockHash =? 0 then None else Some (blockHash, blockNumber, index) in
  let result := mkRPCTx (tx_Type tx) from (tx_Gas tx) (tx_GasPrice tx) (tx_Hash tx) (tx_Data tx) (tx_Nonce tx) (tx_To tx)
    (tx_Value tx) (tx_RawSignatureValues tx) in
  if tx_Type tx =? AccessListTxType then Ok (result (tx_ChainId tx) place (Some (default [] (tx_AccessList tx))) None None)
  else if tx_Type tx =? DynamicFeeTxType then
    let? gasPrice := (match baseFee, place with
      | Some b, Some _ =>
          match tx_GasTipCap tx, tx_GasFeeCap tx with
          | Some tip, Some cap => let price := tip + b in Ok (Some (if cap <? price then cap else price))
          | _, _ => Panic "nil pointer dereference"
          end
      | _, _ => Ok (tx_GasFeeCap tx)
      end) in
    Ok (mkRPCTx (tx_Type tx) from (tx_Gas tx) gasPrice (tx_Hash tx) (tx_Data tx) (tx_Nonce tx) (tx_To tx) (tx_Value tx)
          (tx_RawSignatureValues tx) (tx_ChainId tx) place (Some (default [] (tx_AccessList tx))) (tx_GasFeeCap tx) (tx_GasTipCap tx))
  else Ok (result chainID place None None None).
Definition NewTransactionFromMsg (m : MsgEthereumTx) (blockHash : Hash) (blockNumber index : Z) (baseFee chainID : option Z)
    : res RPCTransaction :=
  let? tx := transaction_of m in NewRPCTransaction tx blockHash blockNumber index baseFee chainID.

(** The place of a message in a list, by the text of its hash. *)
Fixpoint msg_place (hash : string) (msgs : list MsgEthereumTx) (i : Z) : option Z :=
  match msgs with
  | [] => None
  | m :: msgs => if decide (m_Hash m = hash) then Some i else msg_place hash msgs (i + 1)
  end.
(** The index of the transaction, looked for in the block if it is not recorded. *)
Definition eth_index (recorded : Z) (hash : string) (msgs : res (list MsgEthereumTx)) : res Z :=
  let? i := (if recorded =? -1
             then let? msgs := msgs in Ok (match msg_place hash msgs 0 with Some i => to_int32 i | None => recorded end)
             else Ok recorded) in
  if i =? -1 then Err (Error ErrOther "can't find index of ethereum tx") else Ok i.

(** A transaction of a block and a message of a transaction, by index. *)
Definition tx_at (b : TmBlock) (i : Z) : res bytes :=
  match bk_Txs b !! Z.to_nat i with Some tx => Ok tx | None => Panic "index out of range" end.
Definition msg_at (tx : SdkTx) (i : Z) : res SdkMsg :=
  match GetMsgs tx !! Z.to_nat i with Some m => Ok m | None => Panic "index out of range" end.
Definition result_at (r : BlockResults) (i : Z) : res ExecTxResult :=
  match br_TxsResults r !! Z.to_nat i with Some x => Ok x | None => Panic "index out of range" end.
Definition no_block {A} (b : option A) : res A := match b with Some b => Ok b | None => Panic "nil pointer dereference" end.

(** The decoder of transactions of the mempool. *)
Fixpoint decode_all (l : list bytes) : res (list SdkTx) :=
  match l with
  | [] => Ok []
  | tx :: l => let? tx := TxDecoder tx in let? rest := decode_all l in Ok (tx :: rest)
  end.
Definition PendingTransactions : res (list SdkTx) := let? txs := node_UnconfirmedTxs in decode_all txs.

(** [evmtypes.UnwrapEthereumMsg] *)
Fixpoint unwrap_msgs (msgs : list SdkMsg) (ethHash : Hash) : res MsgEthereumTx :=
  match msgs with
  | [] => Err (Error ErrOther "eth tx not found")
  | MEthereumTx m :: msgs =>
      let? tx := transaction_of m in
      if tx_Hash tx =? ethHash then with_hash m else unwrap_msgs msgs ethHash
  | _ :: _ => Err (Error ErrOther "invalid tx type")
  end.
Definition UnwrapEthereumMsg (tx : SdkTx) (ethHash : Hash) : res MsgEthereumTx := unwrap_msgs (GetMsgs tx) ethHash.

Fixpoint pending_with_hash (txs : list SdkTx) (hash : Hash) : res (option RPCTransaction) :=
  match txs with
  | [] => Ok None
  | tx :: txs =>
      match UnwrapEthereumMsg tx hash with
      | Err _ => pending_with_hash txs hash
      | Panic m => Panic m
      | Ok m =>
          if decide (m_Hash m = Hash_Hex hash)
          then let? rpctx := NewTransactionFromMsg m 0 0 0 None (Some chainID) in Ok (Some rpctx)
          else pending_with_hash txs hash
      end
  end.
Definition getTransactionByHashPending (hash : Hash) : res (option RPCTransaction) :=
  match PendingTransactions with
  | Err _ => Ok None
  | Panic m => Panic m
  | Ok txs => pending_with_hash txs hash
  end.

Definition decoded_message (b : TmBlock) (txRes : TxResult) : res SdkMsg :=
  let? bz := tx_at b (TxIndex txRes) in let? tx := TxDecoder bz in msg_at tx (MsgIndex txRes).
Definition GetTransactionByHash (hash : Hash) : res (option RPCTransaction) :=
  match GetTxByEthHash hash with
  | Err _ => getTransactionByHashPending hash
  | Panic m => Panic m
  | Ok txRes =>
      let? block := TendermintBlockByNumber (Height txRes) in
      let? block := no_block block in
      let? msg := decoded_message block txRes in
      match msg with
      | MEthereumTx msg =>
          let? blockRes := code_error "block result not found" (node_BlockResults (Some (th_Height (bk_Header block)))) in
          let? index := eth_index (EthTxIndex txRes) (Hash_Hex hash) (EthMsgsFromTendermintBlock block blockRes) in
          let? baseFee := or_nil (rpc_BaseFee blockRes) in
          let? tx := NewTransactionFromMsg msg (BytesToHash (bk_ID block)) (wrap64 (Height txRes)) (wrap64 index) baseFee (Some chainID) in
          Ok (Some tx)
      | _ => Err (Error ErrOther "invalid ethereum tx")
      end
  end.

(** A lookup that fails is answered with nil. *)
Definition or_none {A B} (r : res A) (k : A -> res (option B)) : res (option B) :=
  match r with Ok x => k x | Err _ => Ok None | Panic m => Panic m end.
Definition message_by_index (block : TmBlock) (blockRes : BlockResults) (idx : Z) : res (option MsgEthereumTx) :=
  match rpc_GetTxByTxIndex (th_Height (bk_Header block)) idx with
  | Ok txRes =>
      let? bz := tx_at block (TxIndex txRes) in
      or_none (TxDecoder bz) (fun tx =>
        let? msg := msg_at tx (MsgIndex txRes) in
        Ok (match msg with MEthereumTx m => Some m | _ => None end))
  | Err _ =>
      let? ethMsgs := EthMsgsFromTendermintBlock block blockRes in
      Ok (if Z.of_nat (length ethMsgs) <=? idx then None else ethMsgs !! Z.to_nat idx)
  | Panic m => Panic m
  end.
Definition GetTransactionByBlockAndIndex (block : TmBlock) (idx : Z) : res (option RPCTransaction) :=
  or_none (node_BlockResults (Some (th_Height (bk_Header block)))) (fun blockRes =>
    let? msg := message_by_index block blockRes idx in
    match msg with
    | None => Ok None
    | Some msg =>
        let? baseFee := or_nil (rpc_BaseFee blockRes) in
        let? tx := NewTransactionFromMsg msg (BytesToHash (th_Hash (bk_Header block))) (wrap64 (th_Height (bk_Header block)))
          idx baseFee (Some chainID) in
        Ok (Some tx)
    end).
Definition GetTransactionByBlockHashAndIndex (hash : Hash) (idx : Z) : res (option RPCTransaction) :=
  or_none (node_BlockByHash hash) (fun b => match b with Some b => GetTransactionByBlockAndIndex b idx | None => Ok None end).
(** A block that is not found is a nil pointer here. *)
Definition GetTransactionByBlockNumberAndIndex (blockNum idx : Z) : res (option RPCTransaction) :=
  or_none (TendermintBlockByNumber blockNum) (fun b => let? b := no_block b in GetTransactionByBlockAndIndex b idx).

(** ** Receipts *)

Definition GetGasUsed (txRes : TxResult) (price : option Z) (gas : Z) : res Z :=
  if tr_Failed txRes && (Height txRes <? FixRevertGasRefundHeight cfg)
  then match price with Some p => Ok (wrap64 (p * gas)) | None => Panic "nil pointer dereference" end
  else Ok (tr_GasUsed txRes).
Definition ReceiptStatusFailed : Z := 0.
Definition ReceiptStatusSuccessful : Z := 1.
(** The gas of the transactions before, as [uint64] values. *)
Definition sum_results (l : list ExecTxResult) : Z := foldl (fun acc r => wrap64 (acc + wrap64 (ex_GasUsed r))) 0 l.
Definition cumulative_gas (blockRes : BlockResults) (txRes : TxResult) : res Z :=
  if Z.of_nat (length (br_TxsResults blockRes)) <? TxIndex txRes then Panic "slice bounds out of range"
  else Ok (wrap64 (sum_results (take (Z.to_nat (TxIndex txRes)) (br_TxsResults blockRes)) + CumulativeGasUsed txRes)).
Definition effective_price (txData : TxData) (blockRes : BlockResults) : res (option Z) :=
  match txData with
  | TDynamic _ =>
      match rpc_BaseFee blockRes with
      | Err _ => Ok (GetGasPrice txData)
      | Panic m => Panic m
      | Ok baseFee => tx_EffectiveGasPrice txData baseFee
      end
  | _ => Ok (GetGasPrice txData)
  end.
(** The logs of the message; a failure to parse them is logged. *)
Definition receipt_logs (blockRes : BlockResults) (txRes : TxResult) : res (list Log) :=
  let? r := result_at blockRes (TxIndex txRes) in
  match TxLogsFromEvents (ex_Events r) (MsgIndex txRes) with Err _ => Ok [] | r => r end.

Definition log_bloom (bloom : Z) (log : Log) : Z :=
  foldl (fun b t => bloom_Add (hash_bytes t) b) (bloom_Add (address_bytes (lg_Address log)) bloom) (lg_Topics log).
Definition GetTransactionReceipt (hash : Hash) : res (option TxReceipt) :=
  or_none (GetTxByEthHash hash) (fun txRes =>
  or_none (TendermintBlockByNumber (Height txRes)) (fun resBlock =>
    let? resBlock := no_block resBlock in
    let? bz := tx_at resBlock (TxIndex txRes) in
    let? tx := code_error "failed to decode tx" (TxDecoder bz) in
    let? msg := msg_at tx (MsgIndex txRes) in
    match msg with
    | MEthereumTx ethMsg =>
        match m_Data ethMsg with
        | None => Err (Error ErrOther "failed to unpack tx data")
        | Some txData =>
            let? blockRes := code_error "block result not found at height" (node_BlockResults (Some (Height txRes))) in
            let? cumulativeGasUsed := cumulative_gas blockRes txRes in
            let? chainID := ChainID_ in
            let? from := GetSender ethMsg chainID in
            let? logs := receipt_logs blockRes txRes in
            let? index := eth_index (EthTxIndex txRes) (Hash_Hex hash) (EthMsgsFromTendermintBlock resBlock blockRes) in
            let bin := foldl log_bloom 0 logs in
            let? gasUsed := GetGasUsed txRes (GetGasPrice txData) (GetGas txData) in
            let? price := effective_price txData blockRes in
            Ok (Some (mkTxReceipt (if tr_Failed txRes then ReceiptStatusFailed else ReceiptStatusSuccessful) cumulativeGasUsed bin logs
              hash (match GetTo txData with None => Some (CreateAddress from (GetNonce txData)) | _ => None end) gasUsed
              (BytesToHash (th_Hash (bk_Header resBlock))) (wrap64 (Height txRes)) (wrap64 index) price from (GetTo txData)
              (TxType txData)))
        end
    | _ => Panic "interface conversion"
    end)).

Definition formatTxReceipt (ethMsg : MsgEthereumTx) (blockMsgs : list MsgEthereumTx) (blockRes : BlockResults) (blockHeaderHash : Hash)
    : res TxReceipt :=
  let? txRes := code_error "tx not found" (GetTxByEthHash (HexToHash (m_Hash ethMsg))) in
  match m_Data ethMsg with
  | None => Err (Error ErrOther "failed to unpack tx data")
  | Some txData =>
      let? cumulativeGasUsed := cumulative_gas blockRes txRes in
      let? chainID := ChainID_ in
      let? from := GetSender ethMsg chainID in
      let? logs := receipt_logs blockRes txRes in
      let? index := eth_index (EthTxIndex txRes) (m_Hash ethMsg) (Ok blockMsgs) in
      let? gasUsed := GetGasUsed txRes (GetGasPrice txData) (GetGas txData) in
      let? price := effective_price txData blockRes in
      Ok (mkTxReceipt (if tr_Failed txRes then ReceiptStatusFailed else ReceiptStatusSuccessful) cumulativeGasUsed (CreateBloom logs) logs
        (HexToHash (m_Hash ethMsg)) (match GetTo txData with None => Some (CreateAddress from (GetNonce txData)) | _ => None end) gasUsed
        blockHeaderHash (wrap64 (Height txRes)) (wrap64 index) price from (GetTo txData) (TxType txData))
  end.
Fixpoint format_all (l blockMsgs : list MsgEthereumTx) (blockRes : BlockResults) (hash : Hash) : res (list TxReceipt) :=
  match l with
  | [] => Ok []
  | m :: l =>
      let? r := code_error "failed to get transaction receipt" (formatTxReceipt m blockMsgs blockRes hash) in
      let? rest := format_all l blockMsgs blockRes hash in Ok (r :: rest)
  end.
Definition GetBlockReceipts (blockNrOrHash : BlockNumberOrHash) : res (list TxReceipt) :=
  let? blockNum := code_error "failed to get block number from hash" (BlockNumberFromTendermint blockNrOrHash) in
  let? resBlock := code_error "failed to get block by number" (TendermintBlockByNumber blockNum) in
  match resBlock with
  | None => match TmHeight blockNum with
            | None => Panic "nil pointer dereference"
            | Some _ => Err (Error ErrOther "block not found for height")
            end
  | Some b =>
      let? blockRes := code_error "block result not found for height" (node_BlockResults (TmHeight blockNum)) in
      let? msgs := EthMsgsFromTendermintBlock b blockRes in
      format_all msgs msgs blockRes (BytesToHash (th_Hash (bk_Header b)))
  end.
Definition GetTransactionLogs (hash : Hash) : res (list Log) :=
  match GetTxByEthHash hash with
  | Err _ => Ok []
  | Panic m => Panic m
  | Ok txRes =>
      if tr_Failed txRes then Ok []
      else match node_BlockResults (Some (Height txRes)) with
      | Err _ => Ok []
      | Panic m => Panic m
      | Ok blockRes => let? r := result_at blockRes (TxIndex txRes) in TxLogsFromEvents (ex_Events r) (MsgIndex txRes)
      end
  end.

(** ** Blocks in the format of Ethereum *)

Definition ShouldIgnoreGasUsed (r : ExecTxResult) : bool :=
  (ex_Code r =? 11) && contains_text "no block gas left to run tx: out of gas" (ex_Log r).
Fixpoint block_gas (results : list ExecTxResult) (gasUsed : Z) : Z :=
  match results with
  | [] => gasUsed
  | r :: results => if ShouldIgnoreGasUsed r then gasUsed else block_gas results (wrap64 (gasUsed + wrap64 (ex_GasUsed r)))
  end.
Definition defaultGasLimit : Z := 2 ^ 32 - 1.
Definition BlockMaxGasFromConsensusParams (height : Z) : res Z :=
  let? gasLimit := node_ConsensusParams height in Ok (if gasLimit =? -1 then defaultGasLimit else gasLimit).
Fixpoint rpc_txs (header : TmHeader) (fullTx : bool) (baseFee : option Z) (msgs : list MsgEthereumTx) (i : Z)
    : res (list (Hash + RPCTransaction)) :=
  match msgs with
  | [] => Ok []
  | m :: msgs =>
      if negb fullTx
      then let? rest := rpc_txs header fullTx baseFee msgs (i + 1) in Ok (inl (HexToHash (m_Hash m)) :: rest)
      else
        let? tx := transaction_of m in
        match NewRPCTransaction tx (BytesToHash (th_Hash header)) (wrap64 (th_Height header)) i baseFee (Some chainID) with
        | Ok rpcTx => let? rest := rpc_txs header fullTx baseFee msgs (i + 1) in Ok (inr rpcTx :: rest)
        | Err _ => rpc_txs header fullTx baseFee msgs (i + 1)
        | Panic m => Panic m
        end
  end.
Definition FormatBlock (header : TmHeader) (size gasLimit gasUsed : Z) (transactions : list (Hash + RPCTransaction)) (bloom : Z)
    (validatorAddr : Address) (baseFee : option Z) : RPCBlock :=
  mkRPCBlock (wrap64 (th_Height header)) (th_Hash header) (BytesToHash (th_LastBlockID header)) bloom (th_AppHash header)
    validatorAddr (wrap64 size) (wrap64 gasLimit) gasUsed (wrap64 (th_Time header))
    (match transactions with [] => EmptyRootHash | _ => BytesToHash (th_DataHash header) end) transactions baseFee.
Definition RPCBlockFromTendermintBlock (b : TmBlock) (blockRes : BlockResults) (fullTx : bool) : res RPCBlock :=
  let header := bk_Header b in
  let? baseFee := or_nil (rpc_BaseFee blockRes) in
  let? msgs := EthMsgsFromTendermintBlock b blockRes in
  let? ethRPCTxs := rpc_txs header fullTx baseFee msgs 0 in
  let? bloom := bloom_or_empty (BlockBloom blockRes) in
  let? validatorAcc := (match app_ValidatorAccount (th_Height header) (th_ProposerAddress header) with
    | Err _ => Ok (address_bytes 0)
    | Panic m => Panic m
    | Ok a => match acc_of_bech32 a with Some x => Ok x | None => Err (Error ErrOther "decoding bech32 failed") end
    end) in
  let? gasLimit := (match BlockMaxGasFromConsensusParams (th_Height header) with Err _ => Ok defaultGasLimit | r => r end) in
  Ok (FormatBlock header (bk_Size b) gasLimit (block_gas (br_TxsResults blockRes) 0) ethRPCTxs bloom
        (BytesToAddress validatorAcc) baseFee).
Definition GetBlockByNumber (blockNum : Z) (fullTx : bool) : res (option RPCBlock) :=
  or_none (TendermintBlockByNumber blockNum) (fun b =>
    match b with
    | None => Ok None
    | Some b =>
        or_none (node_BlockResults (Some (th_Height (bk_Header b)))) (fun blockRes =>
          let? r := RPCBlockFromTendermintBlock b blockRes fullTx in Ok (Some r))
    end).
Definition GetBlockByHash (hash : Hash) (fullTx : bool) : res (option RPCBlock) :=
  let? b := TendermintBlockByHash hash in
  match b with
  | None => Ok None
  | Some b =>
      or_none (node_BlockResults (Some (th_Height (bk_Header b)))) (fun blockRes =>
        let? r := RPCBlockFromTendermintBlock b blockRes fullTx in Ok (Some r))
  end.
Definition GetBlockTransactionCount (b : TmBlock) : res (option Z) :=
  or_none (node_BlockResults (Some (th_Height (bk_Header b)))) (fun blockRes =>
    let? msgs := EthMsgsFromTendermintBlock b blockRes in Ok (Some (Z.of_nat (length msgs)))).
Definition GetBlockTransactionCountByHash (hash : Hash) : res (option Z) :=
  or_none (node_BlockByHash hash) (fun b => match b with Some b => GetBlockTransactionCount b | None => Ok None end).
Definition GetBlockTransactionCountByNumber (blockNum : Z) : res (option Z) :=
  or_none (TendermintBlockByNumber blockNum) (fun b => let? b := no_block b in GetBlockTransactionCount b).

(** ** Nonces *)

Fixpoint count_msgs (msgs : list SdkMsg) (a : Address) (nonce : Z) : res Z :=
  match msgs with
  | MEthereumTx m :: msgs =>
      match GetSender m (Some chainID) with
      | Ok sender => count_msgs msgs a (if sender =? a then wrap64 (nonce + 1) else nonce)
      | Err _ => count_msgs msgs a nonce
      | Panic m => Panic m
      end
  | _ => Ok nonce                                    (* [break] *)
  end.
Fixpoint count_pending (txs : list SdkTx) (a : Address) (nonce : Z) : res Z :=
  match txs with
  | [] => Ok nonce
  | tx :: txs => let? nonce := count_msgs (GetMsgs tx) a nonce in count_pending txs a nonce
  end.
Definition getAccountNonce (a : Address) (pending : bool) (height : Z) : res Z :=
  let? acc := app_Account height a in
  match acc with
  | None => Ok 0
  | Some nonce =>
      if negb pending then Ok nonce
      else match PendingTransactions with
      | Err _ => Ok nonce
      | Panic m => Panic m
      | Ok txs => count_pending txs a nonce
      end
  end.
Definition GetTransactionCount (a : Address) (blockNum : Z) : res Z :=
  let? bn := BlockNumber in
  if to_int64 bn <? bn_Int64 blockNum then Err (Error ErrOther "cannot query with height in the future")
  else if negb (app_EnsureExists a) then Ok 0
  else getAccountNonce a (blockNum =? EthPendingBlockNumber) (bn_Int64 blockNum).

(** ** Fee history *)

Fixpoint rewards_of (baseFee : option Z) (gasUsed : Z) (msgs : list SdkMsg) : res (list (Z * Z)) :=
  match msgs with
  | [] => Ok []
  | MEthereumTx m :: msgs =>
      let? tx := transaction_of m in
      let reward := match EffectiveGasTipValue tx baseFee with Some r => if r <? 0 then 0 else r | None => 0 end in
      let? rest := rewards_of baseFee gasUsed msgs in Ok ((gasUsed, reward) :: rest)
  | _ :: msgs => rewards_of baseFee gasUsed msgs
  end.
Fixpoint block_rewards (baseFee : option Z) (txs : list bytes) (results : list ExecTxResult) : res (list (Z * Z)) :=
  match txs with
  | [] => Ok []
  | tx :: txs =>
      match results with
      | [] => Panic "index out of range"
      | result :: results =>
          match TxDecoder tx with
          | Err _ => block_rewards baseFee txs results
          | Panic m => Panic m
          | Ok tx =>
              let? l := rewards_of baseFee (wrap64 (ex_GasUsed result)) (GetMsgs tx) in
              let? rest := block_rewards baseFee txs results in Ok (l ++ rest)
          end
      end
  end.
(** On to the first transaction at which the gas used so far reaches the threshold,
    or to the last one. *)
Fixpoint advance (reward sum : Z) (rest : list (Z * Z)) (limit : Z) : Z * Z * list (Z * Z) :=
  match rest with
  | (g, r) :: rest' => if sum <? limit then advance r (wrap64 (sum + g)) rest' limit else (reward, sum, rest)
  | [] => (reward, sum, [])
  end.
Fixpoint percentiles (gasUsed : Z) (ps : list Percentile) (reward sum : Z) (rest : list (Z * Z)) : list Z :=
  match ps with
  | [] => []
  | p :: ps =>
      let '(reward, sum, rest) := advance reward sum rest (threshold gasUsed p) in
      reward :: percentiles gasUsed ps reward sum rest
  end.
Record OneFeeHistory := mkOneFee { of_BaseFee : option Z; of_NextBaseFee : Z; of_Reward : list Z; of_GasUsedRatio : Ratio }.
Definition processBlock (b : TmBlock) (ethBlock : RPCBlock) (ps : list Percentile) (blockRes : BlockResults) : res OneFeeHistory :=
  let? blockBaseFee := rpc_BaseFee blockRes in
  let? next := (if IsLondon chain (th_Height (bk_Header b) + 1) then let? header := CurrentHeader in CalcBaseFee header else Ok 0) in
  if rb_gasLimit ethBlock <=? 0 then Err (Error ErrOther "gasLimit of block should be bigger than 0")
  else
    let? l := block_rewards blockBaseFee (bk_Txs b) (br_TxsResults blockRes) in
    let rewards := match sort_rewards l with
      | [] => map (fun _ => 0) ps
      | (g, r) :: rest => percentiles (rb_gasUsed ethBlock) ps r g rest
      end in
    Ok (mkOneFee blockBaseFee next rewards (gas_ratio (rb_gasUsed ethBlock) (rb_gasLimit ethBlock))).

(** The base fees, one more than there are blocks, the shares of gas and the rewards. *)
Record FeeHistoryResult := mkFeeHistory {
  fh_OldestBlock : Z; fh_BaseFee : list (option Z); fh_GasUsedRatio : list (option Ratio); fh_Reward : list (list Z);
}.
Fixpoint fee_blocks (n : nat) (blockID : Z) (i : nat) (ps : list Percentile) (h : FeeHistoryResult) : res (option FeeHistoryResult) :=
  match n with
  | O => Ok (Some h)
  | S n =>
      let? b := TendermintBlockByNumber blockID in
      let? ethBlock := (match b with None => Ok None | Some _ => GetBlockByNumber blockID true end) in
      match b, ethBlock with
      | Some b, Some ethBlock =>
          let? blockRes := node_BlockResults (Some (th_Height (bk_Header b))) in
          let? one := processBlock b ethBlock ps blockRes in
          fee_blocks n (blockID + 1) (S i) ps
            (mkFeeHistory (fh_OldestBlock h)
               (<[S i := Some (of_NextBaseFee one)]> (<[i := of_BaseFee one]> (fh_BaseFee h)))
               (<[i := Some (of_GasUsedRatio one)]> (fh_GasUsedRatio h))
               (match ps with [] => fh_Reward h | _ => <[i := of_Reward one]> (fh_Reward h) end))
      | _, _ => Ok None
      end
  end.
Definition FeeHistory (userBlockCount lastBlock : Z) (ps : list Percentile) : res (option FeeHistoryResult) :=
  let? blockEnd := (if lastBlock <? 0 then let? n := BlockNumber in Ok (to_int64 n) else Ok lastBlock) in
  if FeeHistoryCap cfg <? userBlockCount then Err (Error ErrOther "FeeHistory user block count higher than cap")
  else
    let past := to_int64 (blockEnd + 1) in
    let blocks := if past <? userBlockCount then past else userBlockCount in
    if blocks <? 0 then Panic "makeslice: len out of range"
    else
      let blockStart := past - blocks in
      let n := Z.to_nat blocks in
      fee_blocks n blockStart 0 ps
        (mkFeeHistory blockStart (replicate (S n) None) (replicate n None)
           (match ps with [] => [] | _ => replicate n (map (fun _ => 0) ps) end)).

(** ** Calls and new transactions *)

Definition handleRevertError (vmError : string) (ret : bytes) : res unit :=
  if bool_decide (vmError = "") then Ok tt
  else if negb (bool_decide (vmError = StateTransition.ErrExecutionReverted)) then Err (Error ErrOther vmError)
  (* [NewExecErrorWithReason] unpacks the text from the data *)
  else match ret with
       | [] => Err (Error ErrOther vmError)
       | _ => Err (Error ErrOther "execution reverted with a reason")
       end.
Definition call_request (args : TransactionArgs) (b : TmBlock) : EthCallRequest :=
  mkCallRequest (marshal_args args) (RPCGasCap cfg) (th_ProposerAddress (bk_Header b)).
Definition header_of (blockNr : Z) : res TmBlock :=
  let? b := code_error "header not found" (TendermintBlockByNumber blockNr) in no_block b.
Definition rpc_EstimateGas (args : TransactionArgs) (blockNrOptional : option Z) : res Z :=
  let blockNr := default EthPendingBlockNumber blockNrOptional in
  let? header := header_of blockNr in
  let? r := app_EstimateGas (bn_Int64 blockNr) (call_request args header) in
  do? handleRevertError (eg_VmError r) (eg_Ret r);
  Ok (eg_Gas r).
Definition DoCall (args : TransactionArgs) (blockNr : Z) : res MsgEthereumTxResponse :=
  let? header := header_of blockNr in
  let? r := app_EthCall (bn_Int64 blockNr) (call_request args header) in
  do? handleRevertError (r_VmError r) (r_Ret r);
  Ok r.

Definition with_fees (price maxFee maxPriority : option Z) (a : TransactionArgs) : TransactionArgs :=
  mkArgs (ta_From a) (ta_To a) (ta_Gas a) price maxFee maxPriority (ta_Value a) (ta_Nonce a) (ta_Data a) (ta_Input a)
    (ta_AccessList a) (ta_ChainID a).
(** The fields that are not given: the prices of the gas. *)
Definition default_fees (head : EthHeader) (a : TransactionArgs) : res TransactionArgs :=
  match ta_MaxPriorityFeePerGas a, ta_MaxFeePerGas a with
  | Some tip, Some cap => if cap <? tip then Err (Error ErrOther "maxFeePerGas < maxPriorityFeePerGas") else Ok a
  | _, _ =>
      match eh_BaseFee head, ta_GasPrice a with
      | Some baseFee, None =>
          let? tip := (match ta_MaxPriorityFeePerGas a with Some t => Ok t | None => SuggestGasTipCap (Some baseFee) end) in
          let cap := match ta_MaxFeePerGas a with Some c => c | None => tip + baseFee * 2 end in
          if cap <? tip then Err (Error ErrOther "maxFeePerGas < maxPriorityFeePerGas")
          else Ok (with_fees None (Some cap) (Some tip) a)
      | _, _ =>
          if bool_decide (is_Some (ta_MaxFeePerGas a)) || bool_decide (is_Some (ta_MaxPriorityFeePerGas a))
          then Err (Error ErrOther "maxFeePerGas or maxPriorityFeePerGas specified but london is not active yet")
          else match ta_GasPrice a with
          | Some _ => Ok a
          | None =>
              let? price := SuggestGasTipCap (eh_BaseFee head) in
              Ok (with_fees (Some (match eh_BaseFee head with Some b => price + b | None => price end)) None None a)
          end
      end
  end.
Definition default_value_nonce (a : TransactionArgs) : res TransactionArgs :=
  let? nonce := (match ta_Nonce a with
    | Some n => Ok n
    | None => match ta_From a with
              | None => Panic "nil pointer dereference"
              | Some from => match getAccountNonce from true 0 with Err _ => Ok 0 | r => r end
              end
    end) in
  Ok (mkArgs (ta_From a) (ta_To a) (ta_Gas a) (ta_GasPrice a) (ta_MaxFeePerGas a) (ta_MaxPriorityFeePerGas a)
        (Some (default 0 (ta_Value a))) (Some nonce) (ta_Data a) (ta_Input a) (ta_AccessList a) (ta_ChainID a)).
Definition check_input (a : TransactionArgs) : res unit :=
  do? (match ta_Data a, ta_Input a with
       | Some d, Some i => if decide (d = i) then Ok tt
                           else Err (Error ErrOther "both 'data' and 'input' are set and not equal")
       | _, _ => Ok tt
       end);
  match ta_To a with
  | Some _ => Ok tt
  | None =>
      let input := match ta_Data a with Some d => d | None => default [] (ta_Input a) end in
      if (length input =? 0)%nat then Err (Error ErrOther "contract creation without any data provided") else Ok tt
  end.
Definition default_gas (a : TransactionArgs) : res TransactionArgs :=
  match ta_Gas a with
  | Some _ => Ok a
  | None =>
      let input := match ta_Input a with Some i => Some i | None => ta_Data a end in
      let callArgs := mkArgs (ta_From a) (ta_To a) (ta_Gas a) (ta_GasPrice a) (ta_MaxFeePerGas a) (ta_MaxPriorityFeePerGas a)
        (ta_Value a) (ta_Nonce a) input None (ta_AccessList a) (ta_ChainID a) in
      let? estimated := rpc_EstimateGas callArgs (Some (NewBlockNumber 0)) in
      Ok (mkArgs (ta_From a) (ta_To a) (Some estimated) (ta_GasPrice a) (ta_MaxFeePerGas a) (ta_MaxPriorityFeePerGas a) (ta_Value a)
            (ta_Nonce a) (ta_Data a) (ta_Input a) (ta_AccessList a) (ta_ChainID a))
  end.
Definition default_chain (a : TransactionArgs) : TransactionArgs :=
  mkArgs (ta_From a) (ta_To a) (ta_Gas a) (ta_GasPrice a) (ta_MaxFeePerGas a) (ta_MaxPriorityFeePerGas a) (ta_Value a) (ta_Nonce a)
    (ta_Data a) (ta_Input a) (ta_AccessList a) (Some (default chainID (ta_ChainID a))).
Definition SetTxDefaults (a : TransactionArgs) : res TransactionArgs :=
  if bool_decide (is_Some (ta_GasPrice a)) &&
     (bool_decide (is_Some (ta_MaxFeePerGas a)) || bool_decide (is_Some (ta_MaxPriorityFeePerGas a)))
  then Err (Error ErrOther "both gasPrice and (maxFeePerGas or maxPriorityFeePerGas) specified")
  else
    let? head := code_error "latest header is nil" CurrentHeader in
    let? a := default_fees head a in
    let? a := default_value_nonce a in
    do? check_input a;
    let? a := default_gas a in
    Ok (default_chain a).

(** What the builder makes of a message: a transaction with the extension option,
    without memo, signatures, payer or granter. *)
Record BuiltTx := mkBuilt { bt_msg : MsgEthereumTx; bt_opts : list string; bt_proto : ProtoTx }.
Definition BuildTx (m : MsgEthereumTx) (evmDenom : string) : res BuiltTx :=
  match m_Data m with
  | None => Err (Error ErrOther "failed to unpack tx data")
  | Some txData =>
      let? f := Fee txData in
      let? feeAmt := int_chk f in
      let fees := if 0 <? feeAmt then ConvertCoinsDenomToExtendedDenom info [Coin evmDenom feeAmt] else [] in
      Ok (mkBuilt (mkMsgEth (m_Data m) (m_Size m) (m_Hash m) "") [EthereumOption]
            (mkProtoTx "" 0 0 1 0 "" "" 0 fees (msg_GetGas m)))
  end.

(** [TxConfig.TxEncoder]; the keyring: whether it has the key of an address, and the
    signature with it; [Transaction.WithSignature] *)
Variable TxEncoder : BuiltTx -> res bytes.
Variable KeyByAddress : Address -> res unit.
Variable SignByAddress : Address -> bytes -> res bytes.
Variable WithSignature : Transaction -> Signer -> bytes -> res Transaction.
Variable AllowInsecureUnlock : bool.

Definition SendRawTransaction (data : bytes) : res Hash :=
  let? tx := tx_UnmarshalBinary data in
  do? (if UnprotectedAllowed cfg then Ok tt
       else if negb (tx_Protected tx) then Err (Error ErrOther "only replay-protected (EIP-155) transactions allowed over RPC")
       else match tx_ChainId tx with
       | None => Panic "nil pointer dereference"
       | Some c => if wrap64 c =? wrap64 chainID then Ok tt else Err (Error ErrOther "incorrect chain-id")
       end);
  let? ethereumTx := FromEthereumTx (mkMsgEth None 0 "" "") tx in
  do? MsgEthereumTx_ValidateBasic ethereumTx;
  let? cosmosTx := BuildTx ethereumTx (Denom info) in
  let? txBytes := TxEncoder cosmosTx in
  let? t := transaction_of ethereumTx in
  do? node_Broadcast txBytes;
  Ok (tx_Hash t).

Definition msg_Sign (m : MsgEthereumTx) (signer : Signer) : res MsgEthereumTx :=
  match GetFrom m with
  | None => Err (Error ErrOther "sender address not defined for message")
  | Some from =>
      let? tx := transaction_of m in
      let? sig := SignByAddress from (hash_bytes (signer_Hash signer tx)) in
      let? tx := WithSignature tx signer sig in
      FromEthereumTx m tx
  end.
Definition SendTransaction (args : TransactionArgs) : res Hash :=
  if negb AllowInsecureUnlock then Err (Error ErrOther "account unlock with HTTP access is forbidden")
  else
    do? code_error "failed to find key in the node's keyring" (KeyByAddress (args_GetFrom args));
    do? (match ta_ChainID args with
         | Some c => if c =? chainID then Ok tt else Err (Error ErrOther "chainId does not match node's")
         | None => Ok tt
         end);
    let? args := SetTxDefaults args in
    let? bn := BlockNumber in
    let? header := CurrentHeader in
    let? m := ToTransaction args in
    let? m := msg_Sign m (MakeSigner bn (eh_Time header)) in
    do? MsgEthereumTx_ValidateBasic m;
    let? tx := BuildTx m (Denom info) in
    let? txBytes := TxEncoder tx in
    let? ethTx := transaction_of m in
    if negb (UnprotectedAllowed cfg) && negb (tx_Protected ethTx)
    then Err (Error ErrOther "only replay-protected (EIP-155) transactions allowed over RPC")
    else do? node_Broadcast txBytes; Ok (tx_Hash ethTx).

(** [rpctypes.CheckTxFee] with the cap of the node *)
Definition rpc_CheckTxFee (gasPrice gas : Z) : res unit :=
  if fee_above_cap (gasPrice * gas) then Err (Error ErrOther "tx fee exceeds the configured cap") else Ok tt.
Fixpoint resend_pending (pending : list SdkTx) (args : TransactionArgs) (matchTx : Transaction) (gasPrice gasLimit : option Z) : res Hash :=
  match pending with
  | [] => Err (Error ErrOther "transaction not found")
  | tx :: pending =>
      match UnwrapEthereumMsg tx 0 with
      | Err _ => resend_pending pending args matchTx gasPrice gasLimit
      | Panic m => Panic m
      | Ok p =>
          let? pTx := transaction_of p in
          match signer_Sender LatestSigner pTx with
          | Err _ => resend_pending pending args matchTx gasPrice gasLimit
          | Panic m => Panic m
          | Ok pFrom =>
              let? from := no_block (ta_From args) in
              if (pFrom =? from) && (signer_Hash LatestSigner pTx =? signer_Hash LatestSigner matchTx)
              then
                let price := match gasPrice with Some p => if p =? 0 then ta_GasPrice args else Some p | None => ta_GasPrice args end in
                let gas := match gasLimit with Some g => if g =? 0 then ta_Gas args else Some g | None => ta_Gas args end in
                SendTransaction (mkArgs (ta_From args) (ta_To args) gas price (ta_MaxFeePerGas args) (ta_MaxPriorityFeePerGas args)
                  (ta_Value args) (ta_Nonce args) (ta_Data args) (ta_Input args) (ta_AccessList args) (ta_ChainID args))
              else resend_pending pending args matchTx gasPrice gasLimit
          end
      end
  end.
Definition Resend (args : TransactionArgs) (gasPrice gasLimit : option Z) : res Hash :=
  match ta_Nonce args with
  | None => Err (Error ErrOther "missing transaction nonce in transaction spec")
  | Some _ =>
      let? args := SetTxDefaults args in
      let? m := ToTransaction args in
      let? matchTx := transaction_of m in
      let? price := (match gasPrice with
        | Some p => Ok p
        | None => match tx_GasPrice matchTx with Some p => Ok p | None => Panic "nil pointer dereference" end
        end) in
      do? rpc_CheckTxFee price (default (tx_Gas matchTx) gasLimit);
      let? pending := PendingTransactions in
      resend_pending pending args matchTx gasPrice gasLimit
  end.

(** ** Accounts *)

Definition rpc_GetCode (a : Address) (b : BlockNumberOrHash) : res bytes :=
  let? blockNum := BlockNumberFromTendermint b in app_Code (bn_Int64 blockNum) a.
Definition GetStorageAt (a : Address) (key : string) (b : BlockNumberOrHash) : res bytes :=
  let? blockNum := BlockNumberFromTendermint b in
  let? value := app_Storage (bn_Int64 blockNum) a key in
  Ok (hash_bytes (HexToHash value)).
Definition rpc_GetBalance (a : Address) (b : BlockNumberOrHash) : res Z :=
  let? blockNum := BlockNumberFromTendermint b in
  do? (let? _ := TendermintBlockByNumber blockNum in Ok tt);
  let? balance := app_Balance (bn_Int64 blockNum) a in
  match NewIntFromString balance with
  | None => Err (Error ErrOther "invalid balance")
  | Some val => if val <? 0 then Err (Error ErrOther "couldn't fetch balance. Node state is pruned") else Ok val
  end.

(** ** Tracing

    The requests the node sends to the application, without the configuration of the
    tracer, and the height of the state they are answered on. *)
Record TraceRequest := mkTraceRequest {
  tq_BlockNumber : Z; tq_BlockTime : Z; tq_BlockHash : bytes; tq_ProposerAddress : bytes; tq_ChainId : Z; tq_BlockMaxGas : Z;
  tq_ContextHeight : Z;
}.
(** The Ethereum messages of transactions, whatever became of them. *)
Definition only_eth (msgs : list SdkMsg) : list MsgEthereumTx := omap as_eth msgs.
Fixpoint decoded_msgs (txs : list bytes) : res (list MsgEthereumTx) :=
  match txs with
  | [] => Ok []
  | tx :: txs =>
      match TxDecoder tx with
      | Err _ => decoded_msgs txs
      | Panic m => Panic m
      | Ok tx => let? rest := decoded_msgs txs in Ok (only_eth (GetMsgs tx) ++ rest)
      end
  end.
Definition context_height (height : Z) : Z := if height - 1 <? 1 then 1 else height - 1.
Definition trace_request (b : TmBlock) (height : Z) : res TraceRequest :=
  let? maxGas := node_ConsensusParams (th_Height (bk_Header b)) in
  Ok (mkTraceRequest (th_Height (bk_Header b)) (th_Time (bk_Header b)) (bk_ID b) (th_ProposerAddress (bk_Header b)) (to_int64 chainID)
        maxGas (context_height height)).
(** The message, those before it and the rest of the request. *)
Definition TraceTransaction_request (hash : Hash) : res (MsgEthereumTx * list MsgEthereumTx * TraceRequest) :=
  let? transaction := GetTxByEthHash hash in
  if Height transaction =? 0 then Err (Error ErrOther "genesis is not traceable")
  else
    let? blk := TendermintBlockByNumber (Height transaction) in
    let? blk := no_block blk in
    if Z.of_nat (length (bk_Txs blk)) <? TxIndex transaction then Err (Error ErrOther "transaction not included in block")
    else
      let? before := decoded_msgs (take (Z.to_nat (TxIndex transaction)) (bk_Txs blk)) in
      let? bz := tx_at blk (TxIndex transaction) in
      let? tx := TxDecoder bz in
      let? msg := msg_at tx (MsgIndex transaction) in
      let predecessors := before ++ only_eth (take (Z.to_nat (MsgIndex transaction)) (GetMsgs tx)) in
      match msg with
      | MEthereumTx m => let? r := trace_request blk (Height transaction) in Ok (m, predecessors, r)
      | _ => Err (Error ErrOther "invalid transaction type")
      end.
(** No request is made for a block without transactions. *)
Definition TraceBlock_request (height : Z) (b : TmBlock) : res (option (list MsgEthereumTx * TraceRequest)) :=
  match bk_Txs b with
  | [] => Ok None
  | txs => let? msgs := decoded_msgs txs in let? r := trace_request b height in Ok (Some (msgs, r))
  end.
(** What [ethtypes.NewBlock] gets. *)
Definition EthBlockFromTendermintBlock (b : TmBlock) (blockRes : BlockResults) : res (EthHeader * list Transaction) :=
  let? header := header_with (bk_Header b) blockRes in
  let? msgs := EthMsgsFromTendermintBlock b blockRes in
  let? txs := transactions_of msgs in
  Ok (header, txs).
Definition EthBlockByNumber (blockNum : Z) : res (EthHeader * list Transaction) :=
  let? resBlock := TendermintBlockByNumber blockNum in
  match resBlock with
  | None => Err (Error ErrOther "block not found for height")
  | Some b => let? blockRes := results_at (th_Height (bk_Header b)) in EthBlockFromTendermintBlock b blockRes
  end.

(** * Log filters *)

Record FilterCriteria := mkCriteria {
  fc_BlockHash : option Hash; fc_FromBlock : option Z; fc_ToBlock : option Z; fc_Addresses : list Address; fc_Topics : list (list Hash);
}.
Definition maxToOverhang : Z := 600.
Definition blockLogs (crit : FilterCriteria) (blockRes : BlockResults) (bloom : Z) : res (list Log) :=
  if negb (bloomFilter BloomLookup bloom (fc_Addresses crit) (fc_Topics crit)) then Ok []
  else
    let? logsList := code_error "failed to fetch logs block number" (GetLogsFromBlockResults blockRes) in
    Ok (FilterLogs (mjoin logsList) None None (fc_Addresses crit) (fc_Topics crit)).
Fixpoint range_logs (crit : FilterCriteria) (logLimit : Z) (heights : list Z) (logs : list Log) : res (list Log) :=
  match heights with
  | [] => Ok logs
  | height :: heights =>
      let? blockRes := code_error "failed to fetch block result from Tendermint" (TendermintBlockResultByNumber height) in
      let? bloom := code_error "failed to query block bloom filter from block results" (BlockBloom blockRes) in
      let? filtered := code_error "failed to fetch block by number" (blockLogs crit blockRes bloom) in
      if logLimit <? Z.of_nat (length logs) + Z.of_nat (length filtered)
      then Err (Error ErrOther "query returned more than the limit of results")
      else range_logs crit logLimit heights (logs ++ filtered)
  end.
(** A bound as the loop uses it: a negative one is the head. *)
Definition block_bound (head : Z) (b : option Z) : res Z :=
  match b with
  | None => Panic "nil pointer dereference"
  | Some b => Ok (if to_int64 b <? 0 then head else if to_int64 b =? 0 then 1 else b)
  end.
(** The zero hash is no hash. *)
Definition block_hash (crit : FilterCriteria) : option Hash :=
  match fc_BlockHash crit with Some h => if h =? 0 then None else Some h | None => None end.
Definition Logs (crit : FilterCriteria) (logLimit blockLimit : Z) : res (list Log) :=
  match block_hash crit with
  | Some hash =>
      let? resBlock := code_error "failed to fetch header by hash" (TendermintBlockByHash hash) in
      let? b := no_block resBlock in
      match TendermintBlockResultByNumber (th_Height (bk_Header b)) with
      | Err _ => Ok []
      | Panic m => Panic m
      | Ok blockRes => let? bloom := BlockBloom blockRes in blockLogs crit blockRes bloom
      end
  | None =>
      let? header := code_error "failed to fetch header by number (latest)" (HeaderByNumber EthLatestBlockNumber) in
      let head := to_int64 (eh_Number header) in
      let? from := block_bound head (fc_FromBlock crit) in
      let? to := block_bound head (fc_ToBlock crit) in
      let from := to_int64 from in
      let to := to_int64 to in
      if blockLimit <? to_int64 (to - from) then Err (Error ErrOther "maximum [from, to] blocks distance")
      else if head <? from then Err (Error ErrOther "invalid block range params: from block is greater than head block")
      else
        let to := if to_int64 (head + maxToOverhang) <? to then to_int64 (head + maxToOverhang) else to in
        range_logs crit logLimit (seqZ from (to - from + 1)) []
  end.
Definition NewRangeFilter (begin end_ : Z) (addresses : list Address) (topics : list (list Hash)) : FilterCriteria :=
  mkCriteria None (Some begin) (Some end_) addresses topics.
(** [rpc.LatestBlockNumber] of go-ethereum *)
Definition rpc_LatestBlockNumber : Z := -2.
Definition api_GetLogs (crit : FilterCriteria) : res (list Log) :=
  let crit := match fc_BlockHash crit with
    | Some _ => crit
    | None =>
        let begin := match fc_FromBlock crit with Some b => to_int64 b | None => rpc_LatestBlockNumber end in
        let end_ := match fc_ToBlock crit with Some b => to_int64 b | None => rpc_LatestBlockNumber end in
        NewRangeFilter begin end_ (fc_Addresses crit) (fc_Topics crit)
    end in
  Logs crit (RPCLogsCap cfg) (RPCBlockRangeCap cfg).

(** ** Installed filters

    The map of filters under its mutex.  A subscription's goroutine handles its
    events one at a time; [fi_listening] is whether it still runs, [fi_expired]
    whether the deadline of the filter has passed. *)
Inductive FilterType := LogsSubscription | PendingTransactionsSubscription | BlocksSubscription.
Record filter_info := mkFilter {
  fi_typ : FilterType; fi_crit : FilterCriteria; fi_hashes : list Hash; fi_logs : list Log; fi_listening : bool; fi_expired : bool;
}.
Definition filters := gmap string filter_info.
(** What a goroutine receives: a transaction, with the hashes of its Ethereum
    messages; a header; the result of a transaction, whose logs may not decode; the
    end of its channel, or an error. *)
Inductive delivery :=
  | DTx (hashes : list Hash) | DHeader (hash : Hash) | DResult (logs : res (list Log)) | DClosed | DErr.
Inductive api_input :=
  | INewPending (id : res string) | INewBlock (id : res string) | INewLogs (crit : FilterCriteria) (id : res string)
  | IDeliver (id : string) (d : delivery)
  | IUninstall (id : string)
  | IChanges (id : string)
  | IExpire (id : string)
  | ITimeout.
Inductive api_output := OId (r : res string) | ODone (found : bool) | OHashes (l : list Hash) | OLogs (l : list Log) | OFail | ONone.

(** The goroutines of the three kinds of filters, one event at a time; [None] if the
    filter is deleted. *)
Definition pending_event (f : filter_info) (d : delivery) : option filter_info :=
  match d with
  | DTx l => Some (mkFilter (fi_typ f) (fi_crit f) (fi_hashes f ++ l) (fi_logs f) (fi_listening f) (fi_expired f))
  | DClosed | DErr => None
  | _ => Some f                                                          (* [continue] *)
  end.
Definition block_event (f : filter_info) (d : delivery) : option filter_info :=
  match d with
  | DHeader h => Some (mkFilter (fi_typ f) (fi_crit f) (fi_hashes f ++ [h]) (fi_logs f) (fi_listening f) (fi_expired f))
  | DClosed | DErr => None
  | _ => Some f                                                          (* [continue] *)
  end.
Definition logs_event (f : filter_info) (d : delivery) : option filter_info :=
  match d with
  | DResult (Ok l) =>
      let crit := fi_crit f in
      let logs := FilterLogs l (fc_FromBlock crit) (fc_ToBlock crit) (fc_Addresses crit) (fc_Topics crit) in
      Some (mkFilter (fi_typ f) crit (fi_hashes f) (fi_logs f ++ logs) (fi_listening f) (fi_expired f))
  | DResult _ => Some (mkFilter (fi_typ f) (fi_crit f) (fi_hashes f) (fi_logs f) false (fi_expired f))    (* [return] *)
  | DClosed | DErr => None
  | _ => Some f                                                          (* [continue] *)
  end.
Definition deliver (f : filter_info) (d : delivery) : option filter_info :=
  match fi_typ f with
  | PendingTransactionsSubscription => pending_event f d
  | BlocksSubscription => block_event f d
  | LogsSubscription => logs_event f d
  end.
Definition GetFilterChanges (fs : filters) (id : string) : filters * api_output :=
  match fs !! id with
  | None => (fs, OFail)
  | Some (mkFilter typ crit hashes logs listening _) =>
      match typ with
      | PendingTransactionsSubscription | BlocksSubscription => (<[id := mkFilter typ crit [] logs listening false]> fs, OHashes hashes)
      | LogsSubscription => (<[id := mkFilter typ crit hashes [] listening false]> fs, OLogs logs)
      end
  end.
(** [id] is what the event system answers: the identifier of the subscription. *)
Definition add_filter (fs : filters) (typ : FilterType) (crit : FilterCriteria) (id : res string) : filters * api_output :=
  if RPCFilterCap cfg <=? Z.of_nat (size fs) then (fs, OId (Err (Error ErrOther "error creating filter: max limit reached")))
  else match id with
  | Ok i => (<[i := mkFilter typ crit [] [] true false]> fs, OId (Ok i))
  | r => (fs, OId r)
  end.
Definition no_criteria : FilterCriteria := mkCriteria None None None [] [].
Definition NewPendingTransactionFilter (fs : filters) (id : res string) : filters * api_output :=
  add_filter fs PendingTransactionsSubscription no_criteria id.
Definition NewBlockFilter (fs : filters) (id : res string) : filters * api_output := add_filter fs BlocksSubscription no_criteria id.
Definition SubscribeLogs (crit : FilterCriteria) (id : res string) : res string :=
  let from := match fc_FromBlock crit with Some b => to_int64 b | None => rpc_LatestBlockNumber end in
  let to := match fc_ToBlock crit with Some b => to_int64 b | None => rpc_LatestBlockNumber end in
  if ((from =? rpc_LatestBlockNumber) && (to =? rpc_LatestBlockNumber)) || ((0 <=? from) && (0 <=? to) && (from <=? to))
     || ((0 <=? from) && (to =? rpc_LatestBlockNumber))
  then id else Err (Error ErrOther "invalid from and to block combination: from > to").
Definition NewFilter (fs : filters) (crit : FilterCriteria) (id : res string) : filters * api_output :=
  add_filter fs LogsSubscription crit (SubscribeLogs crit id).
Definition UninstallFilter (fs : filters) (id : string) : filters * api_output :=
  (delete id fs, ODone (bool_decide (is_Some (fs !! id)))).
Definition timeoutLoop (fs : filters) : filters := base.filter (fun kf => fi_expired kf.2 = false) fs.
Definition api_step (fs : filters) (i : api_input) : filters * api_output :=
  match i with
  | INewPending id => NewPendingTransactionFilter fs id
  | INewBlock id => NewBlockFilter fs id
  | INewLogs crit id => NewFilter fs crit id
  | IDeliver id d =>
      (match fs !! id with
       | Some f => if fi_listening f then match deliver f d with Some f => <[id := f]> fs | None => delete id fs end else fs
       | None => fs
       end, ONone)
  | IUninstall id => UninstallFilter fs id
  | IChanges id => GetFilterChanges fs id
  | IExpire id =>
      (match fs !! id with
       | Some (mkFilter typ crit hashes logs listening _) => <[id := mkFilter typ crit hashes logs listening true]> fs
       | None => fs
       end, ONone)
  | ITimeout => (timeoutLoop fs, ONone)
  end.
Fixpoint api_run (fs : filters) (l : list api_input) : filters * list (api_input * api_output) :=
  match l with
  | [] => (fs, [])
  | i :: l => let '(fs, o) := api_step fs i in let '(fs', os) := api_run fs l in (fs', (i, o) :: os)
  end.
Definition GetFilterLogs (fs : filters) (id : string) : res (list Log) :=
  match fs !! id with
  | None => Err (Error ErrOther "filter not found")
  | Some f =>
      match fi_typ f with
      | LogsSubscription => api_GetLogs (fi_crit f)
      | _ => Err (Error ErrOther "filter doesn't have a LogsSubscription type")
      end
  end.
End backend.

(** ** Subscriptions

    The event bus ([rpc/ethereum/pubsub]) and the event system ([filter_system.go]).
    The channel of a subscriber is the number the bus gave it, [eb_subs] the channels
    of each topic, [eb_closed] those that are closed; closing one of these again
    panics.  [es_ending] are the topics whose source is closed and whose publisher has
    not noticed yet. *)
Record event_bus := mkBus {
  eb_topics : gset string; eb_subs : gset (string * Z); eb_current : Z; eb_total : Z; eb_closed : gset Z;
}.
Record Subscription := mkSub { sb_id : string; sb_typ : FilterType; sb_event : string }.
#[global] Instance FilterType_eq_dec : EqDecision FilterType.
Proof. solve_decision. Defined.

Section bus.
Variable maxTotalSubscribers : Z.

Definition AddTopic (b : event_bus) (name : string) : res event_bus :=
  if decide (name ∈ eb_topics b) then Err (Error ErrOther "topic already registered")
  else Ok (mkBus ({[name]} ∪ eb_topics b) (eb_subs b) (eb_current b) (eb_total b) (eb_closed b)).
Definition RemoveTopic (b : event_bus) (name : string) : event_bus :=
  mkBus (eb_topics b ∖ {[name]}) (eb_subs b) (eb_current b) (eb_total b) (eb_closed b).
Definition Subscribe (b : event_bus) (name : string) : res (Z * event_bus) :=
  if decide (name ∈ eb_topics b) then
    if (0 <? maxTotalSubscribers) && (maxTotalSubscribers <=? eb_total b) then Err (Error ErrOther "too many subscribers")
    else
      let id := wrap64 (eb_current b + 1) in
      Ok (id, mkBus (eb_topics b) ({[(name, id)]} ∪ eb_subs b) id (eb_total b + 1) (eb_closed b))
  else Err (Error ErrOther "topic not found").
Definition unsubscribe (b : event_bus) (name : string) (id : Z) : res event_bus :=
  if decide ((name, id) ∈ eb_subs b) then
    if decide (id ∈ eb_closed b) then Panic "close of closed channel"
    else Ok (mkBus (eb_topics b) (eb_subs b ∖ {[(name, id)]}) (eb_current b) (eb_total b - 1) ({[id]} ∪ eb_closed b))
  else Ok b.
Definition channels (b : event_bus) (name : string) : gset (string * Z) := filter (fun x => x.1 = name) (eb_subs b).
Definition closeAllSubscribers (b : event_bus) (name : string) : res event_bus :=
  let l := channels b name in
  let ids : gset Z := set_map snd l in
  if decide (ids ## eb_closed b)
  then Ok (mkBus (eb_topics b) (eb_subs b ∖ l) (eb_current b) (eb_total b - Z.of_nat (size l)) (ids ∪ eb_closed b))
  else Panic "close of closed channel".
(** The publisher of a topic at the end of its source. *)
Definition publishTopic_end (b : event_bus) (name : string) : res event_bus :=
  let? b := closeAllSubscribers b name in Ok (RemoveTopic b name).

Record event_system := mkES {
  es_index : gmap string Subscription; es_topicChans : gset string; es_bus : event_bus; es_ending : list string;
}.
(** The loop takes a subscription in. *)
Definition es_install (s : event_system) (f : Subscription) : event_system :=
  let index := <[sb_id f := f]> (es_index s) in
  match AddTopic (es_bus s) (sb_event f) with
  | Ok bus => mkES index ({[sb_event f]} ∪ es_topicChans s) bus (es_ending s)
  | _ => mkES index (es_topicChans s) (es_bus s) (es_ending s)
  end.
(** [ws] is the error of the client of the node, if any; the result is the channel. *)
Definition es_subscribe (s : event_system) (f : Subscription) (ws : option error) : event_system * res Z :=
  let on s :=
    match Subscribe (es_bus s) (sb_event f) with
    | Ok (id, bus) => (mkES (es_index s) (es_topicChans s) bus (es_ending s), Ok id)
    | Err e => (s, Err e)
    | Panic m => (s, Panic m)
    end in
  if decide (sb_event f ∈ eb_topics (es_bus s)) then on s
  else match ws with None => on (es_install s f) | Some e => (s, Err e) end.
(** The loop lets a subscription go. *)
Definition in_use (index : gmap string Subscription) (f : Subscription) : bool :=
  existsb (fun kv => bool_decide (sb_typ kv.2 = sb_typ f) && bool_decide (sb_event kv.2 = sb_event f)) (map_to_list index).
Definition es_uninstall (s : event_system) (f : Subscription) : event_system :=
  let index := delete (sb_id f) (es_index s) in
  if in_use index f then mkES index (es_topicChans s) (es_bus s) (es_ending s)
  else if decide (sb_event f ∈ es_topicChans s)
  then mkES index (es_topicChans s ∖ {[sb_event f]}) (RemoveTopic (es_bus s) (sb_event f)) (es_ending s ++ [sb_event f])
  else mkES index (es_topicChans s) (es_bus s) (es_ending s).

(** What happens: a subscription, the end of one, its function to cancel, and a
    publisher that finds its source closed. *)
Inductive es_input := ESubscribe (f : Subscription) (ws : option error) | EUninstall (f : Subscription) | ECancel (name : string) (id : Z)
  | EEnding (name : string).
Definition on_bus (s : event_system) (r : res event_bus) : res event_system :=
  let? b := r in Ok (mkES (es_index s) (es_topicChans s) b (es_ending s)).
Definition es_step (s : event_system) (i : es_input) : res event_system :=
  match i with
  | ESubscribe f ws => match es_subscribe s f ws with (_, Panic m) => Panic m | (s, _) => Ok s end
  | EUninstall f => Ok (es_uninstall s f)
  | ECancel name id => on_bus s (unsubscribe (es_bus s) name id)
  | EEnding name =>
      if decide (name ∈ es_ending s)
      then let? b := publishTopic_end (es_bus s) name in
           Ok (mkES (es_index s) (es_topicChans s) b (list_difference (es_ending s) [name]))
      else Ok s
  end.
Fixpoint es_run (s : event_system) (l : list es_input) : res event_system :=
  match l with [] => Ok s | i :: l => let? s := es_step s i in es_run s l end.
Definition es_start : event_system := mkES ∅ ∅ (mkBus ∅ ∅ 0 0 ∅) [].
End bus.
