(* ===== verification/RpcThms.v ===== *)
(** JSON-RPC: a log query returns exactly the logs that match, in order, and the bloom
    of a block hides none; the index and the block give the same transactions, and the
    two ways to a receipt the same receipt; a filter that is polled loses and repeats
    nothing; defaults of a transaction are stable; what a raw transaction becomes passes
    the checks of the ante handler. *)
From S2P Require Import Prelude KVStore Sdk EvmConfig FeeMarket FeeChecker StateDB Wrappers VmKeeper VmKeeperThms TxData TxDataThms VmGas VmParams.
From S2P Require Import StateTransition EthAnte CosmosAnte Indexer IndexerThms VmQuery VmQueryThms Rpc.

(** * Log filters *)

(** The rules of [FilterLogs]: an empty list of addresses or topics is no rule. *)
Record log_matches (addresses : list Address) (topics : list (list Hash)) (log : Log) : Prop := {
  match_address : addresses = [] \/ lg_Address log ∈ addresses;
  match_topics : forall i sub, topics !! i = Some sub ->
    exists t, lg_Topics log !! i = Some t /\ (sub = [] \/ t ∈ sub);
}.

Lemma existsb_in (x : Z) l : existsb (Z.eqb x) l = true <-> x ∈ l.
Proof.
  rewrite existsb_exists. setoid_rewrite <- list_elem_of_In. split.
  - intros (y & Hy & ->%Z.eqb_eq). done.
  - intros Hx. exists x. by rewrite Z.eqb_refl.
Qed.
Lemma length_eqb_nil {A} (l : list A) : (length l =? 0)%nat = true <-> l = [].
Proof. destruct l; cbn; naive_solver. Qed.
Lemma topics_match_spec topics : forall log, topics_match topics log = true <->
  forall i sub, topics !! i = Some sub -> exists t, log !! i = Some t /\ (sub = [] \/ t ∈ sub).
Proof.
  induction topics as [|sub topics IH]; intros log; cbn [topics_match]; [by split|]. destruct log as [|t log].
  - split; [done|]. intros Hall. by destruct (Hall 0%nat sub eq_refl) as (t & Ht & _).
  - rewrite andb_true_iff, orb_true_iff, length_eqb_nil, existsb_in, IH. split.
    + intros [Hs Hr] [|i] s Hi; [injection Hi as ->; by exists t|]. by apply Hr.
    + intros Hall. split; [by destruct (Hall 0%nat sub eq_refl) as (t' & [= <-] & ?)|]. intros i s Hi. by apply (Hall (S i) s).
Qed.
Lemma keep_log_spec addresses topics log : keep_log None None addresses topics log = true <-> log_matches addresses topics log.
Proof.
  unfold keep_log. cbn [below above negb]. rewrite !andb_true_iff, orb_true_iff, length_eqb_nil, existsb_in, topics_match_spec. split.
  - intros [[[_ Ha] _] Ht]. by split.
  - intros [Ha Ht]. split_and!; [done|done|done| |done]. rewrite negb_true_iff, Nat.ltb_ge. apply Nat.nlt_ge. intros Hlt.
    destruct (lookup_lt_is_Some_2 topics (length (lg_Topics log)) Hlt) as [sub Hs]. destruct (Ht _ _ Hs) as (t & Hl & _).
    apply lookup_lt_Some in Hl. lia.
Qed.
#[global] Instance log_matches_dec addresses topics log : Decision (log_matches addresses topics log).
Proof. refine (cast_if (decide (keep_log None None addresses topics log = true))); by rewrite <- keep_log_spec. Defined.
Lemma filter_bool {A} (f : A -> bool) (P : A -> Prop) `{!forall x, Decision (P x)} l :
  (forall x, f x = true <-> P x) -> List.filter f l = filter P l.
Proof.
  intros Hf. induction l as [|x l IH]; [done|]. rewrite filter_cons. cbn [List.filter]. rewrite IH.
  case_decide as Hx; [by rewrite (proj2 (Hf x) Hx)|]. by destruct (f x) eqn:E; [apply Hf in E|].
Qed.
Lemma FilterLogs_matches logs addresses topics :
  FilterLogs logs None None addresses topics = filter (log_matches addresses topics) logs.
Proof. apply filter_bool. intros x. apply keep_log_spec. Qed.

(** A list none of whose elements has the property. *)
Lemma filter_out {A} (P : A -> Prop) `{!forall x, Decision (P x)} l : (forall x, x ∈ l -> ~ P x) -> filter P l = [].
Proof.
  intros Hl. induction l as [|x l IH]; [done|]. rewrite filter_cons_False by (apply Hl; set_solver). apply IH. set_solver.
Qed.

Section logs.
Context `{DecLib, CoinsLib, AddressCodec, EthHex, EthTypes, !EthSigner, EthReceipts, !EthRpc, IndexerLib, !FeeFloats, !Node}.

(** The bloom has the addresses and topics of the logs. *)
Definition bloom_covers (bloom : Z) (logs : list Log) : Prop :=
  forall log, log ∈ logs -> BloomLookup bloom (address_bytes (lg_Address log)) = true /\
    forall t, t ∈ lg_Topics log -> BloomLookup bloom (hash_bytes t) = true.

Lemma bloom_finds bloom logs addresses topics log : bloom_covers bloom logs -> log ∈ logs -> log_matches addresses topics log ->
  bloomFilter BloomLookup bloom addresses topics = true.
Proof.
  intros Hc Hin [Ha Ht]. destruct (Hc log Hin) as [Hca Hct]. unfold bloomFilter. rewrite andb_true_iff, orb_true_iff, length_eqb_nil. split.
  - destruct Ha as [->|Ha]; [by left|right]. apply existsb_exists. exists (lg_Address log). by rewrite <- list_elem_of_In.
  - apply forallb_forall. intros sub Hs%list_elem_of_In. apply list_elem_of_lookup in Hs as [i Hi].
    destruct (Ht i sub Hi) as (t & Hl & Hsub). rewrite orb_true_iff, length_eqb_nil. destruct Hsub as [->|Hsub]; [by left|right].
    apply existsb_exists. exists t. rewrite <- list_elem_of_In. split; [done|]. apply Hct. by eapply list_elem_of_lookup_2.
Qed.
(** What a block holds, as far as a query sees it. *)
Record block_logged (height : Z) (logs : list Log) : Prop := {
  bl_results : exists r b l, node_BlockResults (Some height) = Ok r /\ BlockBloom r = Ok b /\ GetLogsFromBlockResults r = Ok l /\
    logs = mjoin l /\ bloom_covers b logs;
}.
Lemma blockLogs_exact crit r bloom l : GetLogsFromBlockResults r = Ok l -> bloom_covers bloom (mjoin l) ->
  blockLogs crit r bloom = Ok (filter (log_matches (fc_Addresses crit) (fc_Topics crit)) (mjoin l)).
Proof.
  intros Hl Hc. unfold blockLogs. destruct (bloomFilter _ _ _ _) eqn:Hb; cbn [negb].
  - rewrite Hl. cbn [code_error rbind]. by rewrite FilterLogs_matches.
  - f_equal. symmetry. apply filter_out. intros log Hin Hm. by rewrite (bloom_finds _ _ _ _ _ Hc Hin Hm) in Hb.
Qed.

(** The logs of the blocks of a range, and those a query may return. *)
Section range.
Variable logs_at : Z -> list Log.
Variable crit : FilterCriteria.
Abbreviation matching := (filter (log_matches (fc_Addresses crit) (fc_Topics crit))).
Definition range_all (heights : list Z) : list Log := matching (mjoin (map logs_at heights)).

Lemma range_logs_exact limit heights : forall acc, 0 <= limit -> Z.of_nat (length acc) <= limit ->
  (forall h, h ∈ heights -> block_logged h (logs_at h)) ->
  if limit <? Z.of_nat (length (acc ++ range_all heights)) then exists e, range_logs crit limit heights acc = Err e
  else range_logs crit limit heights acc = Ok (acc ++ range_all heights).
Proof.
  induction heights as [|h heights IH]; intros acc Hl Ha Hh.
  { change (range_all []) with (@nil Log). rewrite app_nil_r. destruct (Z.ltb_spec limit (Z.of_nat (length acc))); [lia|done]. }
  destruct (Hh h) as [(r & b & l & Hr & Hb & Hg & El & Hc)]; [set_solver|].
  cbn [range_logs]. unfold TendermintBlockResultByNumber. rewrite Hr. cbn [code_error rbind]. rewrite Hb. cbn [code_error rbind].
  rewrite El in Hc. rewrite (blockLogs_exact crit r b l Hg Hc), <- El. cbn [code_error rbind].
  assert (acc ++ range_all (h :: heights) = (acc ++ matching (logs_at h)) ++ range_all heights) as E.
  { unfold range_all. change (mjoin (map logs_at (h :: heights))) with (logs_at h ++ mjoin (map logs_at heights)). by rewrite filter_app, app_assoc. }
  rewrite E. destruct (Z.ltb_spec limit (Z.of_nat (length acc) + Z.of_nat (length (matching (logs_at h))))) as [Hlt|Hge].
  - rewrite !length_app. destruct (Z.ltb_spec limit (Z.of_nat (length acc + length (matching (logs_at h)) + length (range_all heights)))); [by eexists|lia].
  - apply IH; [done|rewrite length_app; lia|]. intros h' Hin. apply Hh. set_solver.
Qed.
End range.

(** The bound of a query as the documentation of the parameters has it. *)
Definition query_bound (head b : Z) : Z := if b <? 0 then head else if b =? 0 then 1 else b.
Lemma to_int64_id n : - 2 ^ 63 <= n < 2 ^ 63 -> to_int64 n = n.
Proof.
  intros Hn. unfold to_int64, wrap64. destruct (decide (0 <= n)) as [Hpos|Hneg].
  - rewrite Z.mod_small by lia. by destruct (Z.ltb_spec n (2 ^ 63)); [|lia].
  - replace (n mod 2 ^ 64) with (n + 2 ^ 64) by (rewrite <- (Z.mod_small (n + 2 ^ 64) (2 ^ 64)) by lia;
      rewrite <- (Z_mod_plus_full n 1 (2 ^ 64)); f_equal; lia).
    destruct (Z.ltb_spec (n + 2 ^ 64) (2 ^ 63)); lia.
Qed.
Lemma block_bound_int head b : - 2 ^ 63 <= b < 2 ^ 63 -> 0 <= head < 2 ^ 62 ->
  exists n, block_bound head (Some b) = Ok n /\ to_int64 n = query_bound head b.
Proof.
  intros Hb Hh. unfold block_bound, query_bound. rewrite (to_int64_id b) by lia.
  destruct (Z.ltb_spec b 0); [exists head|destruct (Z.eqb_spec b 0); [exists 1|exists b]]; (split; [done|apply to_int64_id; lia]).
Qed.

(** C35.  A log query over a range of blocks returns exactly the logs of these blocks
    that match the addresses and topics, in the order of the chain, or an error if
    they are more than the limit; the blooms, which skip blocks, hide none of them. *)
Theorem Logs_exact crit from to limit blockLimit header logs_at :
  fc_BlockHash crit = None -> fc_FromBlock crit = Some from -> fc_ToBlock crit = Some to ->
  - 2 ^ 62 <= from < 2 ^ 62 -> - 2 ^ 62 <= to < 2 ^ 62 -> 0 <= limit ->
  HeaderByNumber EthLatestBlockNumber = Ok header -> 0 <= eh_Number header < 2 ^ 62 ->
  let first := query_bound (eh_Number header) from in
  let last := query_bound (eh_Number header) to in
  last - first <= blockLimit -> first <= eh_Number header -> last <= eh_Number header + maxToOverhang ->
  let heights := seqZ first (last - first + 1) in
  (forall h, h ∈ heights -> block_logged h (logs_at h)) ->
  let all := filter (log_matches (fc_Addresses crit) (fc_Topics crit)) (mjoin (map logs_at heights)) in
  if limit <? Z.of_nat (length all) then exists e, Logs crit limit blockLimit = Err e else Logs crit limit blockLimit = Ok all.
Proof.
  intros Hbh Hf Ht Hfr Htr Hlim Hhd Hn first last Hdist Hfirst Hlast heights Hh all.
  destruct (block_bound_int (eh_Number header) from) as (f & Ef & Tf); [lia..|].
  destruct (block_bound_int (eh_Number header) to) as (t & Et & Tt); [lia..|].
  assert (Logs crit limit blockLimit = range_logs crit limit heights []) as ->.
  { unfold Logs, block_hash. rewrite Hbh, Hhd, Hf, Ht. cbn [code_error rbind]. cbv zeta. rewrite (to_int64_id (eh_Number header)) by lia.
    rewrite Ef, Et. cbn [rbind]. rewrite Tf, Tt. fold first last.
    assert (- 2 ^ 62 <= first < 2 ^ 62 /\ - 2 ^ 62 <= last < 2 ^ 62) as [B1 B2].
    { unfold first, last, query_bound. destruct (from <? 0), (to <? 0), (from =? 0), (to =? 0); lia. }
    unfold maxToOverhang in *. rewrite (to_int64_id (last - first)), (to_int64_id (eh_Number header + 600)) by lia.
    destruct (Z.ltb_spec blockLimit (last - first)); [lia|]. destruct (Z.ltb_spec (eh_Number header) first); [lia|].
    by destruct (Z.ltb_spec (eh_Number header + 600) last); [lia|]. }
  apply (range_logs_exact logs_at crit limit heights []); done || lia.
Qed.

(**  A query that reaches beyond the head is not cut there: it fails, as the node has
    no results for the block after the head. *)
Theorem query_beyond_head_fails crit from to limit blockLimit header e :
  fc_BlockHash crit = None -> fc_FromBlock crit = Some from -> fc_ToBlock crit = Some to ->
  0 < from -> HeaderByNumber EthLatestBlockNumber = Ok header ->
  from <= eh_Number header < to -> to < 2 ^ 62 -> node_BlockResults (Some (eh_Number header + 1)) = Err e ->
  is_ok (Logs crit limit blockLimit) = false.
Proof.
  intros Hbh Hf Ht Hpos Hhd Hr Hto Hnone. unfold Logs, block_hash. rewrite Hbh, Hhd, Hf, Ht. cbn [code_error rbind block_bound]. cbv zeta.
  rewrite !(to_int64_id from), !(to_int64_id to), !(to_int64_id (eh_Number header)) by lia.
  destruct (Z.ltb_spec from 0); [lia|]. destruct (Z.eqb_spec from 0); [lia|]. destruct (Z.ltb_spec to 0); [lia|].
  destruct (Z.eqb_spec to 0); [lia|]. cbn [rbind]. rewrite !(to_int64_id from), !(to_int64_id to) by lia.
  destruct (blockLimit <? _); [done|]. destruct (Z.ltb_spec (eh_Number header) from); [lia|].
  unfold maxToOverhang. rewrite !(to_int64_id (eh_Number header + 600)) by lia.
  match goal with |- is_ok (range_logs _ _ (seqZ from (?t - from + 1)) _) = false =>
    assert (eh_Number header + 1 ∈ seqZ from (t - from + 1)) as Hin by (apply elem_of_seqZ; destruct (Z.ltb_spec (eh_Number header + 600) to); lia);
    revert Hin; generalize (seqZ from (t - from + 1)) end.
  intros l. generalize (@nil Log). induction l as [|h l IH]; intros acc Hin; [by apply elem_of_nil in Hin|]. cbn [range_logs].
  unfold TendermintBlockResultByNumber. apply elem_of_cons in Hin as [<-|Hin]; [by rewrite Hnone|].
  destruct (node_BlockResults (Some h)) as [r| |]; [|done..]. cbn [code_error rbind]. destruct (BlockBloom r) as [b| |]; [|done..]. cbn [code_error rbind].
  destruct (blockLogs crit r b) as [l'| |]; [|done..]. cbn [code_error rbind]. destruct (limit <? _); [done|]. by apply IH.
Qed.
End logs.

(** * The index and the blocks *)

Section index.
Context `{DecLib, CoinsLib, AddressCodec, EthHex, !EthHexLaws, EthTypes, !EthSigner, EthReceipts, !EthRpc, IndexerLib, !IndexerLaws, !FeeFloats, !Node}.

(** A message that carries the hash of its transaction, as the ante handler demands. *)
Definition hashed (e : MsgEthereumTx) : Prop := exists t, transaction_of e = Ok t /\ m_Hash e = Hash_Hex (tx_Hash t).
Lemma with_hash_id e : hashed e -> with_hash e = Ok e.
Proof. intros (t & Ht & Hm). unfold with_hash. rewrite Ht. cbn [rbind]. rewrite <- Hm. by destruct e. Qed.

(** A transaction of the chain: of the EVM, with events for each of its messages, or
    without messages of the EVM. *)
Definition chain_tx (result : ExecTxResult) (d : SdkTx) : Prop :=
  (isEthTx d = true /\ Z.of_nat (length (GetMsgs d)) < 2 ^ 31 /\ exists p, ParseTxResult result (Some d) = Ok p /\
    forall j m, GetMsgs d !! j = Some m ->
      exists e, m = MEthereumTx e /\ hashed e /\ is_Some (message_outcome result p (Z.of_nat j) e)) \/
  (isEthTx d = false /\ forall e, MEthereumTx e ∉ GetMsgs d).

Lemma index_msgs_places height ti result p msgs : forall mi eth cum eth' l,
  index_msgs height ti result p msgs mi eth cum = Ok (eth', l) ->
  (forall j m, msgs !! j = Some m ->
    exists e, m = MEthereumTx e /\ hashed e /\ is_Some (message_outcome result p (mi + Z.of_nat j) e)) ->
  exists es, eth_msgs msgs = Ok es /\ length l = length es /\
    forall k e, es !! k = Some e -> msgs !! k = Some (MEthereumTx e) /\
      exists r, l !! k = Some (HexToHash (m_Hash e), r) /\ TxIndex r = wrap32 ti /\ MsgIndex r = wrap32 (mi + Z.of_nat k).
Proof.
  induction msgs as [|m msgs IH]; intros mi eth cum eth' l Hr Hall; cbn [index_msgs] in Hr.
  { injection Hr as <- <-. by exists []. }
  destruct (Hall 0%nat m eq_refl) as (e & -> & He & [[g f] Ho]). rewrite Z.add_0_r in Ho. rewrite Ho in Hr.
  apply rbind_ok in Hr as ([e1 l1] & Hr & [= <- <-]). destruct (IH _ _ _ _ _ Hr) as (es & Hes & Hl & Hk).
  { intros j m Hj. destruct (Hall (S j) m Hj) as (e' & -> & He' & Ho'). exists e'. split_and!; [done..|].
    by replace (mi + 1 + Z.of_nat j) with (mi + Z.of_nat (S j)) by lia. }
  exists (e :: es). cbn [eth_msgs]. rewrite (with_hash_id e He), Hes. cbn [rbind length fst snd]. split_and!; [done|by rewrite Hl|].
  intros [|k] e' Hk'.
  - injection Hk' as <-. split; [done|]. eexists. split; [done|]. cbn [TxIndex MsgIndex]. by rewrite Z.add_0_r.
  - destruct (Hk k e' Hk') as (Hm & r & Hlk & Ht & Hmi). split; [done|]. exists r. split_and!; [done..|].
    rewrite Hmi. f_equal. lia.
Qed.
Lemma eth_msgs_none msgs : (forall e, MEthereumTx e ∉ msgs) -> eth_msgs msgs = Ok [].
Proof.
  induction msgs as [|m msgs IH]; intros Hm; [done|]. cbn [eth_msgs].
  destruct m as [e| | |]; [by destruct (Hm e); left|apply IH; set_solver..].
Qed.
Lemma index_txs_places height : forall txs results ti eth saved,
  index_txs height txs results ti eth = Ok saved ->
  (forall i bz result d, txs !! i = Some bz -> results !! i = Some result -> TxSucessOrExpectedFailure result = true ->
    TxDecoder bz = Ok d -> chain_tx result d) ->
  exists es, block_msgs txs results = Ok es /\ length saved = length es /\
    forall k e, es !! k = Some e -> exists r i j bz d, saved !! k = Some (HexToHash (m_Hash e), r) /\ txs !! i = Some bz /\ TxDecoder bz = Ok d /\
      GetMsgs d !! j = Some (MEthereumTx e) /\ (Z.of_nat j < 2 ^ 31) /\
      TxIndex r = wrap32 (ti + Z.of_nat i) /\ MsgIndex r = wrap32 (Z.of_nat j).
Proof.
  induction txs as [|tx txs IH]; intros results ti eth saved Hr Hall; cbn [index_txs] in Hr.
  { injection Hr as <-. by exists []. }
  destruct results as [|result results]; [done|]. cbn [block_msgs].
  assert (forall saved' eth', index_txs height txs results (ti + 1) eth' = Ok saved' ->
    exists es, block_msgs txs results = Ok es /\ length saved' = length es /\
    forall k e, es !! k = Some e -> exists r i j bz d, saved' !! k = Some (HexToHash (m_Hash e), r) /\ (tx :: txs) !! i = Some bz /\ TxDecoder bz = Ok d /\
      GetMsgs d !! j = Some (MEthereumTx e) /\ (Z.of_nat j < 2 ^ 31) /\
      TxIndex r = wrap32 (ti + Z.of_nat i) /\ MsgIndex r = wrap32 (Z.of_nat j)) as Hrest.
  { intros saved' eth' Hr'. destruct (IH _ _ _ _ Hr') as (es & Hes & Hl & Hk).
    { intros i bz result' d Hbz Hres. by apply (Hall (S i) bz result' d). }
    exists es. split_and!; [done..|]. intros k e He. destruct (Hk k e He) as (r & i & j & bz & d & ? & ? & ? & ? & ? & Hi & ?).
    exists r, (S i), j, bz, d. split_and!; try done. rewrite Hi. f_equal. lia. }
  destruct (TxSucessOrExpectedFailure result) eqn:Hs; cbn [negb] in *; [|by eapply Hrest].
  destruct (TxDecoder tx) as [d|e|m] eqn:Hd; [|by eapply Hrest|done].
  destruct (Hall 0%nat tx result d eq_refl eq_refl Hs Hd) as [(He & Hlen & p & Hp & Hm)|[He Hm]]; rewrite He in Hr; cbn [negb] in Hr.
  - rewrite Hp in Hr. apply rbind_ok in Hr as ([e1 l1] & Hi & Hr). apply rbind_ok in Hr as (l2 & Hr & [= <-]). cbn [fst snd] in *.
    destruct (index_msgs_places _ _ _ _ _ _ _ _ _ _ Hi) as (es1 & Hes1 & Hl1 & Hk1); [done|].
    destruct (Hrest _ _ Hr) as (es2 & Hes2 & Hl2 & Hk2). exists (es1 ++ es2). rewrite Hes1, Hes2. cbn [rbind].
    split_and!; [done|by rewrite !length_app, Hl1, Hl2|]. intros k e He'. apply lookup_app_Some in He' as [He'|[Hge He']].
    + destruct (Hk1 k e He') as (Hmk & r & Hlk & Ht & Hmi). exists r, 0%nat, k, tx, d. rewrite Z.add_0_r. split_and!; try done.
      * by apply lookup_app_l_Some.
      * apply lookup_lt_Some in Hmk. lia.
    + destruct (Hk2 _ e He') as (r & i & j & bz & d' & Hlk & ?). exists r, i, j, bz, d'. split; [|done].
      rewrite lookup_app_r by lia. by rewrite Hl1.
  - rewrite (eth_msgs_none _ Hm). cbn [rbind]. destruct (Hrest _ _ Hr) as (es & -> & Hk). by exists es.
Qed.

(** The block as the indexer gets it. *)
Definition indexer_block (b : TmBlock) : Block := mkBlock (th_Height (bk_Header b)) (bk_Txs b).
Lemma no_place_beyond height saved db k : 0 < height < 2 ^ 63 -> Z.of_nat (length saved) <= k < 2 ^ 31 ->
  numbered height 0 saved -> (forall i, db !! TxIndexKey height i = None) ->
  GetByBlockAndIndex (put_list db (batch saved)) height k = Err (Error ErrNotFound "tx not found").
Proof.
  intros Hh Hk Hn Hdb. unfold GetByBlockAndIndex. rewrite put_list_out, Hdb; [done|]. intros Hin.
  apply list_elem_of_fmap in Hin as ([k' v] & E & Hin). cbn [fst] in E. apply elem_of_batch in Hin as (h & r & Hin & Hkv).
  apply list_elem_of_lookup in Hin as [i Hi]. destruct (Hn _ _ _ Hi) as (Hr1 & Hr2 & _). apply lookup_lt_Some in Hi.
  unfold saveTxResult in Hkv. apply elem_of_cons in Hkv as [Ekv|Hkv].
  - injection Ekv as -> ->. by apply (keys_differ h height k).
  - apply list_elem_of_singleton in Hkv. injection Hkv as -> ->. rewrite Hr1 in E.
    apply TxIndexKey_inj in E as [_ E]; lia.
Qed.

Lemma empty_no_place h i : GetByBlockAndIndex ∅ h i = Err (Error ErrNotFound "tx not found").
Proof. done. Qed.

(** What is known of a block that was indexed into a database without it. *)
Record block_indexed (b : TmBlock) (r : BlockResults) (db : kv_db) : Prop := {
  bi_height : 0 < th_Height (bk_Header b) < 2 ^ 63;
  bi_txs : Z.of_nat (length (bk_Txs b)) < 2 ^ 31;
  bi_fits : forall saved, index_txs (th_Height (bk_Header b)) (bk_Txs b) (br_TxsResults r) 0 0 = Ok saved ->
    Z.of_nat (length saved) < 2 ^ 31 /\ NoDup saved.*1;
  bi_chain : forall i bz result d, bk_Txs b !! i = Some bz -> br_TxsResults r !! i = Some result ->
    TxSucessOrExpectedFailure result = true -> TxDecoder bz = Ok d -> chain_tx result d;
  bi_run : exists db0, IndexBlock (indexer_block b) (br_TxsResults r) db0 = (Ok tt, db) /\
    forall i, db0 !! TxIndexKey (th_Height (bk_Header b)) i = None;
}.
Lemma block_indexed_places b r db : block_indexed b r db ->
  exists es, EthMsgsFromTendermintBlock b r = Ok es /\ Z.of_nat (length es) < 2 ^ 31 /\
    (forall k, Z.of_nat (length es) <= k < 2 ^ 31 -> exists err, GetByBlockAndIndex db (th_Height (bk_Header b)) k = Err err) /\
    forall k e, es !! k = Some e -> exists txRes bz d,
      GetByTxHash db (HexToHash (m_Hash e)) = Ok txRes /\ GetByBlockAndIndex db (th_Height (bk_Header b)) (Z.of_nat k) = Ok txRes /\
      Height txRes = th_Height (bk_Header b) /\ EthTxIndex txRes = Z.of_nat k /\
      tx_at b (TxIndex txRes) = Ok bz /\ TxDecoder bz = Ok d /\ msg_at d (MsgIndex txRes) = Ok (MEthereumTx e).
Proof.
  intros [Hh Htx Hfit Hch (db0 & Hr & Hdb)]. apply bind_lift_ok in Hr as (saved & Hsv & Hr). injection Hr as <-.
  change (index_txs (th_Height (bk_Header b)) (bk_Txs b) (br_TxsResults r) 0 0 = Ok saved) in Hsv.
  destruct (Hfit _ Hsv) as [Hl Hnd]. pose proof (index_txs_numbered _ _ _ _ _ _ Hsv ltac:(done) ltac:(lia)) as Hn.
  destruct (index_txs_places _ _ _ _ _ _ Hsv Hch) as (es & Hes & Hle & Hk).
  exists es. split; [done|]. rewrite <- Hle. split; [done|]. split.
  { intros k Hk'. change (mjoin _) with (batch saved). rewrite no_place_beyond by done. by eexists. }
  intros k e He. destruct (Hk k e He) as (x & i & j & bz & d & Hs & Hi & Hd & Hj & Hjl & Ht & Hm).
  destruct (Hn _ _ _ Hs) as (Hx1 & Hx2 & _). apply list_elem_of_lookup_2 in Hs as Hin.
  destruct (saved_found _ _ _ _ db0 Hh Hl Hn Hnd Hin) as [G1 G2]. rewrite Hx2 in G2.
  apply lookup_lt_Some in Hi as Hil. rewrite Z.add_0_l in *. rewrite wrap32_small in Ht, Hm by lia.
  exists x, bz, d. split_and!; [done..|lia| |done|].
  - unfold tx_at. by rewrite Ht, Nat2Z.id, Hi.
  - unfold msg_at. by rewrite Hm, Nat2Z.id, Hj.
Qed.
Lemma message_by_index_indexed b r db es idx : block_indexed b r db -> EthMsgsFromTendermintBlock b r = Ok es ->
  0 <= idx < 2 ^ 31 -> message_by_index (Some db) b r idx = Ok (es !! Z.to_nat idx).
Proof.
  intros Hb Hes Hidx. destruct (block_indexed_places b r db Hb) as (es' & Hes' & Hl & Hno & Hk).
  rewrite Hes in Hes'. injection Hes' as <-. unfold message_by_index, rpc_GetTxByTxIndex. rewrite to_int32_small by done.
  destruct (es !! Z.to_nat idx) as [e|] eqn:He.
  - destruct (Hk _ _ He) as (x & bz & d & _ & G & _ & _ & Ht & Hd & Hm). rewrite Z2Nat.id in G by lia. rewrite G, Ht.
    cbn [rbind]. rewrite Hd. cbn [or_none]. by rewrite Hm.
  - apply lookup_ge_None in He. destruct (Hno idx) as [err ->]; [lia|].
    rewrite Hes. cbn [rbind]. by destruct (Z.leb_spec (Z.of_nat (length es)) idx); [|lia].
Qed.

(** The node has the block and its results; the hash of a block is that of its header. *)
Record node_serves (b : TmBlock) (r : BlockResults) : Prop := {
  ns_block : node_Block (th_Height (bk_Header b)) = Ok (Some b);
  ns_results : node_BlockResults (Some (th_Height (bk_Header b))) = Ok r;
  ns_id : BytesToHash (bk_ID b) = BytesToHash (th_Hash (bk_Header b));
}.
Lemma serves_by_number b r : 0 < th_Height (bk_Header b) -> node_serves b r ->
  TendermintBlockByNumber (th_Height (bk_Header b)) = Ok (Some b).
Proof.
  intros Hh [Hb _ _]. unfold TendermintBlockByNumber, bn_Int64. destruct (Z.ltb_spec (th_Height (bk_Header b)) 0); [lia|].
  destruct (Z.eqb_spec (th_Height (bk_Header b)) 0); [lia|]. by destruct (Z.leb_spec (th_Height (bk_Header b)) 0); [lia|].
Qed.

Variables (chain : ChainConfig) (IsEIP155 : Z -> bool) (cfg : RpcConfig) (chainID : Z).

(** What a request for the transaction at a place of a block should return. *)
Definition transaction_at (b : TmBlock) (r : BlockResults) (es : list MsgEthereumTx) (idx : Z) : res (option RPCTransaction) :=
  match es !! Z.to_nat idx with
  | None => Ok None
  | Some e =>
      let? baseFee := or_nil (rpc_BaseFee r) in
      let? tx := NewTransactionFromMsg e (BytesToHash (th_Hash (bk_Header b))) (wrap64 (th_Height (bk_Header b))) idx baseFee (Some chainID) in
      Ok (Some tx)
  end.
(** C31.  The answers about the transactions of a block do not depend on the way that is
    taken: the transaction at a place of the block is the message at that place
    of the list the block itself gives, whether the block is in the index or not, and
    the hash of a message leads to the same answer as its place. *)
Theorem transaction_paths_agree b r db : block_indexed b r db -> node_serves b r ->
  exists es, EthMsgsFromTendermintBlock b r = Ok es /\
    (forall idx, 0 <= idx < 2 ^ 31 ->
      GetTransactionByBlockNumberAndIndex (Some db) chainID (th_Height (bk_Header b)) idx = transaction_at b r es idx /\
      GetTransactionByBlockNumberAndIndex (Some ∅) chainID (th_Height (bk_Header b)) idx = transaction_at b r es idx) /\
    forall k e, es !! k = Some e ->
      GetTransactionByHash (Some db) chainID (HexToHash (m_Hash e)) = transaction_at b r es (Z.of_nat k).
Proof.
  intros Hb Hn. pose proof (bi_height _ _ _ Hb) as Hh. destruct (block_indexed_places b r db Hb) as (es & Hes & Hl & _ & Hk).
  pose proof (serves_by_number b r ltac:(lia) Hn) as Hnum. exists es. split; [done|]. split.
  - intros idx Hidx. unfold GetTransactionByBlockNumberAndIndex, GetTransactionByBlockAndIndex, transaction_at. rewrite Hnum.
    cbn [or_none no_block rbind]. rewrite (ns_results _ _ Hn). cbn [or_none].
    rewrite (message_by_index_indexed b r db es idx) by done. split; [done|].
    unfold message_by_index, rpc_GetTxByTxIndex. rewrite empty_no_place, Hes. cbn [rbind].
    destruct (Z.leb_spec (Z.of_nat (length es)) idx); [|done]. by rewrite lookup_ge_None_2 by lia.
  - intros k e He. destruct (Hk k e He) as (x & bz & d & G & _ & Hx1 & Hx2 & Ht & Hd & Hm). apply lookup_lt_Some in He as Hlt.
    unfold GetTransactionByHash, GetTxByEthHash, transaction_at, decoded_message. rewrite G, Hx1, Hnum, Nat2Z.id, He. cbn [rbind no_block].
    rewrite Ht. cbn [rbind]. rewrite Hd. cbn [rbind]. rewrite Hm. cbn [rbind]. rewrite (ns_results _ _ Hn). cbn [code_error rbind].
    unfold eth_index. rewrite Hx2. destruct (Z.eqb_spec (Z.of_nat k) (-1)); [lia|]. cbn [rbind].
    rewrite (proj2 (Z.eqb_neq (Z.of_nat k) (-1))) by done. cbn [rbind]. rewrite (wrap64_small (Z.of_nat k)) by (unfold max_uint64; lia). by rewrite (ns_id _ _ Hn).
Qed.

(** The bloom of a list of logs has the address and the topics of each of them. *)
Variable bloom_law : forall logs, CreateBloom logs = foldl log_bloom 0 logs.

Lemma receipt_formats b r db es k e : block_indexed b r db -> node_serves b r -> EthMsgsFromTendermintBlock b r = Ok es ->
  es !! k = Some e ->
  GetTransactionReceipt chain IsEIP155 cfg (Some db) chainID (HexToHash (m_Hash e)) =
    (let? re := formatTxReceipt chain IsEIP155 cfg (Some db) chainID e es r (BytesToHash (th_Hash (bk_Header b))) in Ok (Some re)).
Proof.
  intros Hb Hn Hes He. destruct (block_indexed_places b r db Hb) as (es' & Hes' & Hl & _ & Hk). rewrite Hes in Hes'. injection Hes' as <-.
  destruct (Hk k e He) as (x & bz & d & G & _ & Hx1 & Hx2 & Ht & Hd & Hm).
  pose proof (serves_by_number b r ltac:(by apply (bi_height _ _ _ Hb)) Hn) as Hnum.
  unfold GetTransactionReceipt, formatTxReceipt, GetTxByEthHash. rewrite G. cbn [or_none code_error rbind]. rewrite Hx1, Hnum.
  cbn [or_none no_block rbind]. rewrite Ht. cbn [rbind]. rewrite Hd. cbn [code_error rbind]. rewrite Hm. cbn [rbind].
  destruct (m_Data e) as [data|]; [|done]. rewrite (ns_results _ _ Hn). cbn [code_error rbind]. unfold eth_index. rewrite Hx2.
  rewrite !(proj2 (Z.eqb_neq (Z.of_nat k) (-1))) by lia. cbn [rbind]. rewrite (proj2 (Z.eqb_neq (Z.of_nat k) (-1))) by lia. cbn [rbind].
  destruct (cumulative_gas r x) as [c| |]; [|done..]. cbn [rbind]. destruct (ChainID_ _ _ _) as [i| |]; [|done..]. cbn [rbind].
  destruct (GetSender e i) as [from| |]; [|done..]. cbn [rbind]. destruct (receipt_logs r x) as [logs| |]; [|done..]. cbn [rbind].
  destruct (GetGasUsed _ _ _ _) as [g| |]; [|done..]. cbn [rbind]. destruct (effective_price data r) as [price| |]; [|done..].
  cbn [rbind]. by rewrite bloom_law.
Qed.
(** C32.  The receipts of a block are the receipts of its transactions: the request for
    them all succeeds with a list exactly if the request for each, by its hash, succeeds
    with the receipt at its place. *)
Theorem receipts_agree b r db : block_indexed b r db -> node_serves b r ->
  exists es, EthMsgsFromTendermintBlock b r = Ok es /\ forall rs,
    GetBlockReceipts chain IsEIP155 cfg (Some db) chainID (number (th_Height (bk_Header b))) = Ok rs <->
    Forall2 (fun e re => GetTransactionReceipt chain IsEIP155 cfg (Some db) chainID (HexToHash (m_Hash e)) = Ok (Some re)) es rs.
Proof.
  intros Hb Hn. destruct (block_indexed_places b r db Hb) as (es & Hes & _ & _ & _). exists es. split; [done|]. intros rs.
  assert (GetBlockReceipts chain IsEIP155 cfg (Some db) chainID (number (th_Height (bk_Header b))) =
    format_all chain IsEIP155 cfg (Some db) chainID es es r (BytesToHash (th_Hash (bk_Header b)))) as ->.
  { unfold GetBlockReceipts, number. cbn [BlockNumberFromTendermint bnh_BlockHash bnh_BlockNumber code_error rbind].
    pose proof (bi_height _ _ _ Hb). rewrite (serves_by_number b r) by (done || lia). cbn [code_error rbind].
    assert (TmHeight (th_Height (bk_Header b)) = Some (th_Height (bk_Header b))) as ->.
    { unfold TmHeight, bn_Int64. destruct (Z.ltb_spec (th_Height (bk_Header b)) 0); [lia|]. by destruct (Z.eqb_spec (th_Height (bk_Header b)) 0); [lia|]. }
    rewrite (ns_results _ _ Hn). cbn [code_error rbind]. by rewrite Hes. }
  assert (forall l, (forall e, e ∈ l -> e ∈ es) -> forall rs,
    format_all chain IsEIP155 cfg (Some db) chainID l es r (BytesToHash (th_Hash (bk_Header b))) = Ok rs <->
    Forall2 (fun e re => GetTransactionReceipt chain IsEIP155 cfg (Some db) chainID (HexToHash (m_Hash e)) = Ok (Some re)) l rs) as Hall;
    [|by apply Hall].
  clear rs. induction l as [|e l IH]; intros Hin rs; cbn [format_all].
  { split; [intros [= <-]; constructor|intros ->%Forall2_nil_inv_l; done]. }
  destruct (proj1 (list_elem_of_lookup es e) (Hin e ltac:(left))) as [k Hk]. pose proof (receipt_formats b r db es k e Hb Hn Hes Hk) as E.
  specialize (IH ltac:(intros; apply Hin; by right)).
  destruct (formatTxReceipt _ _ _ _ _ e es r _) as [re| |]; cbn [code_error rbind] in *;
    [|split; [done|intros (? & ? & ? & ? & ->)%Forall2_cons_inv_l; congruence]..].
  split.
  - intros (rest & Hr & [= <-])%rbind_ok. constructor; [done|by apply IH].
  - intros (re' & rest & E' & Hr & ->)%Forall2_cons_inv_l. apply IH in Hr as ->. cbn [rbind]. congruence.
Qed.
End index.

(** * Installed filters *)

Section filter_api.
Variable cfg : RpcConfig.

(** What a filter has gathered, what a delivery adds to it, what a poll returns. *)
Definition buffer (f : filter_info) : list (Hash + Log) :=
  match fi_typ f with LogsSubscription => map inr (fi_logs f) | _ => map inl (fi_hashes f) end.
Definition gained (typ : FilterType) (crit : FilterCriteria) (d : delivery) : list (Hash + Log) :=
  match typ, d with
  | PendingTransactionsSubscription, DTx l => map inl l
  | BlocksSubscription, DHeader h => [inl h]
  | LogsSubscription, DResult (Ok l) =>
      map inr (List.filter (keep_log (fc_FromBlock crit) (fc_ToBlock crit) (fc_Addresses crit) (fc_Topics crit)) l)
  | _, _ => []
  end.
Definition answered (o : api_output) : list (Hash + Log) :=
  match o with OHashes l => map inl l | OLogs l => map inr l | _ => [] end.
Definition delivered (id : string) (typ : FilterType) (crit : FilterCriteria) (l : list api_input) : list (Hash + Log) :=
  mjoin (map (fun i => match i with IDeliver id' d => if decide (id' = id) then gained typ crit d else [] | _ => [] end) l).
Definition polled (id : string) (os : list (api_input * api_output)) : list (Hash + Log) :=
  mjoin (map (fun io => match io.1 with IChanges id' => if decide (id' = id) then answered io.2 else [] | _ => [] end) os).
(** Identifiers of subscriptions are not used twice. *)
Definition not_new (id : string) (i : api_input) : Prop :=
  match i with INewPending (Ok id') | INewBlock (Ok id') | INewLogs _ (Ok id') => id' <> id | _ => True end.

Lemma deliver_buffer f d f' : fi_listening f = true -> deliver f d = Some f' ->
  fi_typ f' = fi_typ f /\ fi_crit f' = fi_crit f /\ buffer f' = buffer f ++ gained (fi_typ f) (fi_crit f) d.
Proof.
  intros Hl Hd. unfold deliver, pending_event, block_event, logs_event, buffer, gained in *.
  destruct (fi_typ f) eqn:Ht, d as [l|h|[l|e|m]| |]; try discriminate Hd; injection Hd as <-; cbn [fi_typ fi_crit fi_hashes fi_logs];
    rewrite ?Ht, ?app_nil_r, ?map_app; done.
Qed.
(** One step: the filter keeps its kind; what it holds and what a poll took from it is
    what it held and what came in.  A filter that is gone, or deaf, stays so. *)
Definition step_keeps (id : string) (i : api_input) (o : api_output) (f f' : filter_info) : Prop :=
  fi_typ f' = fi_typ f /\ fi_crit f' = fi_crit f /\ (fi_listening f = false -> fi_listening f' = false) /\
  (fi_listening f = true -> polled id [(i, o)] ++ buffer f' = buffer f ++ delivered id (fi_typ f) (fi_crit f) [i]).
Lemma step_keeps_id id i o f f' : fi_typ f' = fi_typ f -> fi_crit f' = fi_crit f -> fi_hashes f' = fi_hashes f -> fi_logs f' = fi_logs f ->
  fi_listening f' = fi_listening f -> polled id [(i, o)] = [] -> delivered id (fi_typ f) (fi_crit f) [i] = [] -> step_keeps id i o f f'.
Proof.
  intros Ht Hc Hh Hl Hs Hp Hd. unfold step_keeps. rewrite Hp, Hd, Hs. unfold buffer. rewrite Ht, Hh, Hl. by rewrite app_nil_r.
Qed.
Lemma add_filter_keeps fs i typ crit r id fs' o : (match i with INewPending _ | INewBlock _ | INewLogs _ _ => True | _ => False end) ->
  match r with Ok n => n <> id | _ => True end -> add_filter cfg fs typ crit r = (fs', o) ->
  match fs !! id with
  | Some f => match fs' !! id with Some f' => step_keeps id i o f f' | None => True end
  | None => fs' !! id = None
  end.
Proof.
  intros Hi Hr Hs. unfold add_filter, filters in *. assert (forall f, step_keeps id i o f f) as Hid by (intros f; destruct i; try done; by apply step_keeps_id).
  destruct (_ <=? _); [|destruct r as [n| |]]; injection Hs as <- <-; rewrite ?lookup_insert_ne by exact Hr; (destruct (fs !! id); [apply Hid|done]).
Qed.
Lemma api_step_keeps fs i id fs' o : not_new id i -> api_step cfg fs i = (fs', o) ->
  match fs !! id with
  | Some f => match fs' !! id with Some f' => step_keeps id i o f f' | None => True end
  | None => fs' !! id = None
  end.
Proof.
  intros Hnew Hs. destruct i as [r|r|crit r|id' d|id'|id'|id'|]; cbn [api_step] in Hs;
    [eapply add_filter_keeps; [done..|exact Hs] | eapply add_filter_keeps; [done..|exact Hs] | |..];
    [eapply add_filter_keeps; [done| |exact Hs]; unfold SubscribeLogs; destruct (_ || _ || _); [by destruct r|done]|..];
    unfold GetFilterChanges, UninstallFilter, timeoutLoop, filters in *.
  - injection Hs as <- <-. destruct (decide (id' = id)) as [->|Hne].
    + destruct (fs !! id) as [f|] eqn:Hf; [|done]. destruct (fi_listening f) eqn:Hl.
      * destruct (deliver f d) as [f'|] eqn:Hd; [|by rewrite lookup_delete_eq]. rewrite lookup_insert_eq.
        destruct (deliver_buffer f d f' Hl Hd) as (Ht & Hc & Hb). split_and!; [done..|by rewrite Hl|]. intros _.
        unfold polled, delivered. cbn [map mjoin list_join fst app]. rewrite decide_True by done. by rewrite app_nil_r.
      * rewrite Hf. split_and!; [done..|]. congruence.
    + assert (forall f, step_keeps id (IDeliver id' d) ONone f f) as Hid.
      { intros f. apply step_keeps_id; try done. unfold delivered. cbn. by rewrite decide_False. }
      destruct (fs !! id') as [f'|]; [|by destruct (fs !! id)]. destruct (fi_listening f'); [|by destruct (fs !! id)].
      destruct (deliver f' d); rewrite ?lookup_insert_ne, ?lookup_delete_ne by done; by destruct (fs !! id).
  - injection Hs as <- <-. destruct (decide (id' = id)) as [->|Hne]; [rewrite lookup_delete_eq|rewrite lookup_delete_ne by done];
      destruct (fs !! id); try done. by apply step_keeps_id.
  - destruct (decide (id' = id)) as [->|Hne].
    + destruct (fs !! id) as [[typ crit hs ls li ex]|] eqn:Hf; [|by injection Hs as <- <-].
      destruct typ; injection Hs as <- <-; rewrite lookup_insert_eq; (split_and!; [done..|]); intros _;
        unfold polled, delivered, buffer; cbn [map mjoin list_join fst snd app answered fi_typ fi_hashes fi_logs];
        rewrite decide_True by done; by rewrite !app_nil_r.
    + assert (forall f f', fi_typ f' = fi_typ f -> f' = f -> step_keeps id (IChanges id') o f f') as Hid.
      { intros f f' _ ->. apply step_keeps_id; try done. unfold polled. cbn. by rewrite decide_False. }
      destruct (fs !! id') as [[typ crit hs ls li ex]|]; [destruct typ|]; injection Hs as <- <-;
        rewrite ?lookup_insert_ne by done; (destruct (fs !! id); [by apply Hid|done]).
  - injection Hs as <- <-. destruct (decide (id' = id)) as [->|Hne].
    + destruct (fs !! id) as [[typ crit hs ls li ex]|] eqn:Hf; [|done]. rewrite lookup_insert_eq. by apply step_keeps_id.
    + destruct (fs !! id') as [[typ crit hs ls li ex]|]; rewrite ?lookup_insert_ne by done; (destruct (fs !! id); [by apply step_keeps_id|done]).
  - injection Hs as <- <-. destruct (fs !! id) as [f|] eqn:Hf.
    + match goal with |- match ?x with _ => _ end => destruct x as [f'|] eqn:E; [|done] end. apply map_lookup_filter_Some in E as [E _].
      assert (f' = f) as -> by congruence. by apply step_keeps_id.
    + apply map_lookup_filter_None. by left.
Qed.
Lemma gone_stays_gone l id : Forall (not_new id) l -> forall fs fs' os, fs !! id = None -> api_run cfg fs l = (fs', os) -> fs' !! id = None.
Proof.
  induction 1 as [|i l Hi _ IH]; intros fs fs' os Hf Hr; cbn [api_run] in Hr; [by injection Hr as <- <-|].
  destruct (api_step cfg fs i) as [fs1 o] eqn:Hs. destruct (api_run cfg fs1 l) as [fs2 os2] eqn:Hr2. injection Hr as <- <-.
  pose proof (api_step_keeps fs i id fs1 o Hi Hs) as Hk. rewrite Hf in Hk. by eapply IH.
Qed.
Lemma deaf_stays_deaf l id : Forall (not_new id) l -> forall fs f fs' os f', fs !! id = Some f -> fi_listening f = false ->
  api_run cfg fs l = (fs', os) -> fs' !! id = Some f' -> fi_listening f' = false.
Proof.
  induction 1 as [|i l Hi Hn IH]; intros fs f fs' os f' Hf Hl Hr Hf'; cbn [api_run] in Hr; [injection Hr as <- <-; congruence|].
  destruct (api_step cfg fs i) as [fs1 o] eqn:Hs. destruct (api_run cfg fs1 l) as [fs2 os2] eqn:Hr2. injection Hr as <- <-.
  pose proof (api_step_keeps fs i id fs1 o Hi Hs) as Hk. rewrite Hf in Hk. destruct (fs1 !! id) as [f1|] eqn:Hf1.
  - destruct Hk as (_ & _ & Hd & _). eapply (IH fs1 f1); [done|by apply Hd|done..].
  - by rewrite (gone_stays_gone l id Hn fs1 fs2 os2 Hf1 Hr2) in Hf'.
Qed.

(** C36.  Polling loses nothing and repeats nothing: for a filter that is still installed
    and whose subscription still runs, the answers to the polls, one after the other,
    with what is waiting for the next one, are exactly what was delivered to it since
    (of logs those that match), in order, whatever other requests come in between. *)
Theorem changes_complete l id : Forall (not_new id) l -> forall fs f fs' os f', fs !! id = Some f -> fi_listening f = true ->
  api_run cfg fs l = (fs', os) -> fs' !! id = Some f' -> fi_listening f' = true ->
  polled id os ++ buffer f' = buffer f ++ delivered id (fi_typ f) (fi_crit f) l.
Proof.
  induction 1 as [|i l Hi Hn IH]; intros fs f fs' os f' Hf Hl Hr Hf' Hl'; cbn [api_run] in Hr.
  { injection Hr as <- <-. assert (f' = f) as -> by congruence. unfold polled, delivered. cbn. by rewrite app_nil_r. }
  destruct (api_step cfg fs i) as [fs1 o] eqn:Hs. destruct (api_run cfg fs1 l) as [fs2 os2] eqn:Hr2. injection Hr as <- <-.
  pose proof (api_step_keeps fs i id fs1 o Hi Hs) as Hk. rewrite Hf in Hk. destruct (fs1 !! id) as [f1|] eqn:Hf1;
    [|by rewrite (gone_stays_gone l id Hn fs1 fs2 os2 Hf1 Hr2) in Hf'].
  destruct Hk as (Ht & Hc & _ & Hb). specialize (Hb Hl).
  destruct (fi_listening f1) eqn:Hl1; [|by rewrite (deaf_stays_deaf l id Hn fs1 f1 fs2 os2 f' Hf1 Hl1 Hr2 Hf') in Hl'].
  specialize (IH fs1 f1 fs2 os2 f' Hf1 Hl1 Hr2 Hf' Hl'). rewrite Ht, Hc in IH.
  assert (polled id ((i, o) :: os2) = polled id [(i, o)] ++ polled id os2) as -> by (unfold polled; cbn; by rewrite app_nil_r).
  assert (delivered id (fi_typ f) (fi_crit f) (i :: l) = delivered id (fi_typ f) (fi_crit f) [i] ++ delivered id (fi_typ f) (fi_crit f) l) as ->
    by (unfold delivered; cbn; by rewrite app_nil_r).
  by rewrite <- app_assoc, IH, !app_assoc, Hb.
Qed.
End filter_api.

(** * Tracing *)

Section trace.
Context `{EthHex, EthTypes, !EthSigner, !EthRpc, IndexerLib, !Node}.
Variables (indexer : option kv_db) (chainID : Z).

Lemma decoded_msgs_app l1 : forall l2 msgs, decoded_msgs (l1 ++ l2) = Ok msgs ->
  exists a c, decoded_msgs l1 = Ok a /\ decoded_msgs l2 = Ok c /\ msgs = a ++ c.
Proof.
  induction l1 as [|tx l1 IH]; intros l2 msgs Hd; cbn [decoded_msgs app] in *; [by exists [], msgs|].
  destruct (TxDecoder tx) as [t|e|m]; [|by apply IH|done]. apply rbind_ok in Hd as (rest & Hd & [= <-]).
  destruct (IH l2 rest Hd) as (a & c & -> & -> & ->). cbn [rbind]. eexists _, c. split_and!; [done..|]. by rewrite app_assoc.
Qed.
Lemma only_eth_app l1 l2 : only_eth (l1 ++ l2) = only_eth l1 ++ only_eth l2.
Proof. apply omap_app. Qed.
(**  The request to trace a transaction is the one to trace its block cut off at
    it: the messages before it are those of the block before it, in order, so that
    the message is at the place of the block that has as many before it; and the rest
    of the two requests is the same. *)
Theorem trace_requests_agree hash txRes b m before rq msgs :
  GetTxByEthHash indexer hash = Ok txRes -> TendermintBlockByNumber (Height txRes) = Ok (Some b) -> decoded_msgs (bk_Txs b) = Ok msgs ->
  TraceTransaction_request indexer chainID hash = Ok (m, before, rq) ->
  TraceBlock_request chainID (Height txRes) b = Ok (Some (msgs, rq)) /\ take (length before) msgs = before /\ msgs !! length before = Some m.
Proof.
  intros Hg Hb Hd Hr. unfold TraceTransaction_request in Hr. rewrite Hg in Hr. cbn [rbind] in Hr. destruct (_ =? 0); [done|].
  rewrite Hb in Hr. cbn [rbind no_block] in Hr. destruct (_ <? _); [done|].
  apply rbind_ok in Hr as (pre & Hp & Hr). apply rbind_ok in Hr as (bz & Hbz & Hr). apply rbind_ok in Hr as (tx & Htx & Hr).
  apply rbind_ok in Hr as (msg & Hm & Hr). destruct msg as [e| | |]; try done. apply rbind_ok in Hr as (rq' & Hrq & [= <- <- <-]).
  unfold tx_at in Hbz. destruct (bk_Txs b !! _) as [bz'|] eqn:Hi; [|done]. injection Hbz as ->.
  unfold msg_at in Hm. destruct (GetMsgs tx !! _) as [m'|] eqn:Hj; [|done]. injection Hm as ->.
  pose proof Hd as Hd'. rewrite <- (take_drop_middle _ _ _ Hi) in Hd'. apply decoded_msgs_app in Hd' as (a & c & Ha & Hc & ->).
  rewrite Hp in Ha. injection Ha as <-. cbn [decoded_msgs] in Hc. rewrite Htx in Hc. apply rbind_ok in Hc as (rest & _ & [= <-]).
  assert (only_eth (GetMsgs tx) = only_eth (take (Z.to_nat (MsgIndex txRes)) (GetMsgs tx)) ++ e ::
    only_eth (drop (S (Z.to_nat (MsgIndex txRes))) (GetMsgs tx))) as Em.
  { rewrite <- (take_drop_middle _ _ _ Hj) at 1. by rewrite only_eth_app. }
  split.
  - unfold TraceBlock_request. destruct (bk_Txs b) as [|t l] eqn:Ht; [done|]. by rewrite Hd, Hrq.
  - rewrite Em, <- app_assoc, (app_assoc pre). split; [apply take_app_length|]. by apply list_lookup_middle.
Qed.
End trace.

(** * Subscriptions *)

Section bus.
Variable maxTotalSubscribers : Z.

(** The channels of the bus: numbered without repetition, open, and counted. *)
Record bus_ok (b : event_bus) : Prop := {
  bo_current : 0 <= eb_current b;
  bo_open : forall n i, (n, i) ∈ eb_subs b -> i <= eb_current b /\ i ∉ eb_closed b;
  bo_one : forall n n' i, (n, i) ∈ eb_subs b -> (n', i) ∈ eb_subs b -> n = n';
  bo_closed : forall i, i ∈ eb_closed b -> i <= eb_current b;
  bo_total : eb_total b = Z.of_nat (size (eb_subs b));
  bo_max : 0 < maxTotalSubscribers -> eb_total b <= maxTotalSubscribers;
}.
Lemma bus_ok_topics b t : bus_ok b -> bus_ok (mkBus t (eb_subs b) (eb_current b) (eb_total b) (eb_closed b)).
Proof. intros []. by split. Qed.
Lemma Subscribe_ok b name id b' : bus_ok b -> eb_current b + 1 < 2 ^ 64 -> Subscribe maxTotalSubscribers b name = Ok (id, b') ->
  bus_ok b' /\ id = eb_current b + 1 /\ eb_current b' = id /\ (name, id) ∈ eb_subs b' /\ eb_subs b ⊆ eb_subs b' /\ eb_closed b' = eb_closed b.
Proof.
  intros [C O U K T M] Hc Hs. unfold Subscribe in Hs. destruct (decide (name ∈ eb_topics b)); [|done]. destruct (_ && _) eqn:Hm; [done|].
  rewrite wrap64_small in Hs by (unfold max_uint64; lia). injection Hs as <- <-.
  assert ((name, eb_current b + 1) ∉ eb_subs b) as Hnew by (intros [Hle _]%O; lia).
  cbn [eb_subs eb_current eb_closed]. split_and!; [|done|done|set_solver|set_solver|done]. split; cbn [eb_subs eb_current eb_total eb_closed].
  - lia.
  - intros n i [[= -> ->]%elem_of_singleton|Hin]%elem_of_union; [split; [lia|intros Hcl%K; lia]|]. destruct (O n i Hin). split; [lia|done].
  - intros n n' i [[= -> ->]%elem_of_singleton|Hin]%elem_of_union [[=]%elem_of_singleton|Hin']%elem_of_union; subst; try done.
    + apply O in Hin' as [? _]. lia.
    + apply O in Hin as [? _]. lia.
    + by eapply U.
  - intros i Hi. specialize (K i Hi). lia.
  - rewrite size_union, size_singleton by set_solver. lia.
  - intros Hpos. destruct (Z.ltb_spec 0 maxTotalSubscribers); [|lia]. destruct (Z.leb_spec maxTotalSubscribers (eb_total b)); [done|lia].
Qed.
(** Closing some of the channels. *)
Lemma close_ok b l : bus_ok b -> l ⊆ eb_subs b ->
  (set_map snd l : gset Z) ## eb_closed b /\
  forall t, bus_ok (mkBus t (eb_subs b ∖ l) (eb_current b) (eb_total b - Z.of_nat (size l)) (set_map snd l ∪ eb_closed b)).
Proof.
  intros [C O U K T M] Hl. split.
  - intros i ([n j] & -> & Hin)%elem_of_map Hc. by destruct (O n j (Hl _ Hin)).
  - intros t. split; cbn [eb_subs eb_current eb_total eb_closed].
    + done.
    + intros n i [Hin Hout]%elem_of_difference. destruct (O n i Hin) as [? Ho]. split; [done|].
      intros [([n' j] & E & Hin')%elem_of_map|Hc]%elem_of_union; [|done]. cbn in E. subst j.
      rewrite (U n' n i (Hl _ Hin') Hin) in Hin'. done.
    + intros n n' i [Hin _]%elem_of_difference [Hin' _]%elem_of_difference. by eapply U.
    + intros i [([n j] & -> & Hin)%elem_of_map|Hc]%elem_of_union; [|by apply K]. by destruct (O n j (Hl _ Hin)).
    + rewrite size_difference by done. pose proof (subseteq_size _ _ Hl). lia.
    + intros Hpos. specialize (M Hpos). lia.
Qed.
Lemma unsubscribe_ok b name id : bus_ok b -> exists b', unsubscribe b name id = Ok b' /\ bus_ok b' /\ eb_current b' = eb_current b.
Proof.
  intros Hb. unfold unsubscribe. destruct (decide ((name, id) ∈ eb_subs b)) as [Hin|]; [|by exists b].
  destruct (close_ok b {[(name, id)]} Hb) as [Hd Hok]; [set_solver|]. rewrite decide_False; [|destruct (bo_open b Hb _ _ Hin); done].
  eexists. split; [done|]. split; [|done]. specialize (Hok (eb_topics b)). by rewrite size_singleton, set_map_singleton_L in Hok.
Qed.
Lemma publishTopic_end_ok b name : bus_ok b -> exists b', publishTopic_end b name = Ok b' /\ bus_ok b' /\ eb_current b' = eb_current b /\
  forall id, (name, id) ∈ eb_subs b -> id ∈ eb_closed b'.
Proof.
  intros Hb. unfold publishTopic_end, closeAllSubscribers. destruct (close_ok b (channels b name) Hb) as [Hd Hok].
  { intros x Hx. unfold channels in Hx. by apply elem_of_filter in Hx as [_ ?]. }
  rewrite decide_True by done. cbn [rbind]. eexists. split; [done|]. split; [apply (Hok _)|]. split; [done|]. intros id Hin.
  cbn [RemoveTopic eb_closed]. apply elem_of_union_l, elem_of_map. exists (name, id). split; [done|]. unfold channels. by apply elem_of_filter.
Qed.

Lemma es_step_ok s i : bus_ok (es_bus s) -> eb_current (es_bus s) + 1 < 2 ^ 64 ->
  exists s', es_step maxTotalSubscribers s i = Ok s' /\ bus_ok (es_bus s') /\ eb_current (es_bus s') <= eb_current (es_bus s) + 1.
Proof.
  intros Hb Hc. destruct i as [f ws|f|name id|name]; cbn [es_step].
  - assert (forall s0, bus_ok (es_bus s0) -> eb_current (es_bus s0) = eb_current (es_bus s) ->
      exists s', match (match Subscribe maxTotalSubscribers (es_bus s0) (sb_event f) with
        | Ok (id, bus) => (mkES (es_index s0) (es_topicChans s0) bus (es_ending s0), Ok id)
        | Err e => (s0, Err e) | Panic m => (s0, Panic m) end) with (_, Panic m) => Panic m | (s, _) => Ok s end = Ok s' /\
      bus_ok (es_bus s') /\ eb_current (es_bus s') <= eb_current (es_bus s) + 1) as Hon.
    { intros s0 Hb0 Hc0. destruct (Subscribe _ _ _) as [[id b']|e|m] eqn:E.
      - apply Subscribe_ok in E as (Hb' & Hid & Hcur & _); [|done|lia]. eexists. split; [done|]. split; [done|cbn; lia].
      - eexists. split; [done|]. split; [done|lia].
      - unfold Subscribe in E. destruct (decide _); [|done]. by destruct (_ && _). }
    unfold es_subscribe. destruct (decide (sb_event f ∈ _)); [by apply Hon|]. destruct ws; [exists s; split; [done|]; split; [done|lia]|].
    apply Hon; unfold es_install; destruct (AddTopic _ _) as [b'| |] eqn:E; try done; unfold AddTopic in E; destruct (decide _); try done;
      injection E as <-; [by apply bus_ok_topics|done].
  - eexists. split; [done|]. unfold es_uninstall. destruct (in_use _ _); [split; [done|cbn; lia]|]. destruct (decide _); (split; [|cbn; lia]);
      [by apply bus_ok_topics|done].
  - destruct (unsubscribe_ok (es_bus s) name id Hb) as (b' & -> & Hb' & Hcur). eexists. split; [done|]. split; [done|cbn; lia].
  - destruct (decide (name ∈ es_ending s)); [|exists s; split; [done|]; split; [done|lia]].
    destruct (publishTopic_end_ok (es_bus s) name Hb) as (b' & -> & Hb' & Hcur & _). eexists. split; [done|]. split; [done|cbn; lia].
Qed.
Lemma es_run_ok l : forall s, bus_ok (es_bus s) -> eb_current (es_bus s) + Z.of_nat (length l) < 2 ^ 64 ->
  exists s', es_run maxTotalSubscribers s l = Ok s' /\ bus_ok (es_bus s').
Proof.
  induction l as [|i l IH]; intros s Hb Hc; [by exists s|]. cbn [length es_run] in *.
  destruct (es_step_ok s i Hb) as (s1 & -> & Hb1 & Hc1); [lia|]. cbn [rbind]. apply IH; [done|lia].
Qed.
(**  However subscriptions come and go, and whenever publishers notice the end of
    their topics, no channel is closed twice, which would stop the node, the channels
    of subscribers are open, and the counter that limits them is their number. *)
Theorem bus_never_closes_twice l : Z.of_nat (length l) < 2 ^ 64 -> 0 <= maxTotalSubscribers ->
  exists s, es_run maxTotalSubscribers es_start l = Ok s /\ bus_ok (es_bus s).
Proof. intros Hl Hm. apply es_run_ok; [split; cbn; set_solver || lia|done]. Qed.

Lemma uninstall_last s f : es_index s = {[sb_id f := f]} -> sb_event f ∈ es_topicChans s ->
  es_uninstall s f = mkES ∅ (es_topicChans s ∖ {[sb_event f]}) (RemoveTopic (es_bus s) (sb_event f)) (es_ending s ++ [sb_event f]).
Proof.
  intros Hi Ht. unfold es_uninstall. rewrite Hi, delete_singleton_eq. unfold in_use. rewrite map_to_list_empty. cbn [existsb].
  by rewrite decide_True.
Qed.
(**  The end of a subscription silences the others on its topic: one that was made
    when the topic was there is not in the index that says whether the topic is in
    use, so the topic is removed and the channel of the other one closed. *)
Theorem uninstall_silences_others s f g ws id s1 : bus_ok (es_bus s) -> eb_current (es_bus s) + 1 < 2 ^ 64 ->
  es_index s = {[sb_id f := f]} -> sb_event f ∈ es_topicChans s -> sb_event f ∈ eb_topics (es_bus s) -> sb_event g = sb_event f ->
  es_subscribe maxTotalSubscribers s g ws = (s1, Ok id) ->
  exists s2, es_run maxTotalSubscribers s1 [EUninstall f; EEnding (sb_event f)] = Ok s2 /\ id ∈ eb_closed (es_bus s2) /\
    sb_event f ∉ eb_topics (es_bus s2).
Proof.
  intros Hb Hc Hi Ht Htop Eg Hs. unfold es_subscribe in Hs. rewrite Eg, decide_True in Hs by done.
  destruct (Subscribe _ _ _) as [[id' b']| |] eqn:E; [|done..]. injection Hs as <- <-.
  apply Subscribe_ok in E as (Hb' & _ & _ & Hin & _); [|done..]. cbn [es_run es_step rbind].
  rewrite uninstall_last by done. cbn [es_index es_topicChans es_bus es_ending]. rewrite decide_True by set_solver.
  destruct (publishTopic_end_ok (RemoveTopic b' (sb_event f)) (sb_event f)) as (b2 & E2 & _ & _ & Hcl); [by apply bus_ok_topics|].
  rewrite E2. cbn [rbind]. eexists. split; [done|]. cbn [es_bus]. split; [by apply Hcl|].
  unfold publishTopic_end in E2. apply rbind_ok in E2 as (b3 & _ & [= <-]). cbn [RemoveTopic eb_topics]. set_solver.
Qed.
End bus.

(** * New transactions *)

Lemma code_error_ok {A} msg (r : res A) x : code_error msg r = Ok x -> r = Ok x.
Proof. by destruct r. Qed.

Section send.
Context `{DecLib, CoinsLib, !CoinsLaws, AddressCodec, EthHex, EthTypes, !EthSigner, EthReceipts, !EthRpc, IndexerLib, !FeeFloats, !Node}.
Variables (info : EvmCoinInfo) (cfg : RpcConfig) (chainID : Z).
Variable TxEncoder : BuiltTx -> res bytes.

Lemma sign_from_gas t td d : sign_from t td = Ok d -> GetGas d = GetGas td.
Proof.
  unfold sign_from. destruct (tx_RawSignatureValues t) as [[v r] s]. destruct td as [[]|[]|[]]; cbn [SetSignatureValues].
  - by intros [= <-].
  - by intros (c & _ & [= <-])%rbind_ok.
  - by intros (c & _ & [= <-])%rbind_ok.
Qed.
Lemma NewTxDataFromTx_gas t d : NewTxDataFromTx t = Ok d -> GetGas d = tx_Gas t.
Proof.
  unfold NewTxDataFromTx. repeat case_match; unfold NewDynamicFeeTx, newAccessListTx, NewLegacyTx; intros Hd;
    repeat (apply rbind_ok in Hd as (? & _ & Hd)); by rewrite (sign_from_gas _ _ _ Hd).
Qed.
(** The fee of the transaction the builder makes is the one the ante handler adds up. *)
Lemma built_fee m d fee built : m_Data m = Some d -> Fee d = Ok fee -> 0 <= fee -> BuildTx info m (Denom info) = Ok built ->
  CheckTxFee info (Some (bt_proto built)) fee (msg_GetGas m) = Ok tt.
Proof.
  intros Hd Hf Hpos Hb. unfold BuildTx in Hb. rewrite Hd, Hf in Hb. cbn [rbind] in Hb. apply rbind_ok in Hb as (f & Hi & [= <-]).
  unfold CheckTxFee. rewrite Hi. cbn [rbind bt_proto p_FeeAmount p_FeeGasLimit]. assert (f = fee) as -> by (apply int_chk_ok in Hi; by destruct Hi).
  assert (amount_of (if 0 <? fee then ConvertCoinsDenomToExtendedDenom info [Coin (Denom info) fee] else []) (ExtendedDenom info) = fee) as ->.
  { destruct (Z.ltb_spec 0 fee); [|rewrite amount_of_nil; lia]. unfold ConvertCoinsDenomToExtendedDenom, ConvertEvmCoinDenomToExtendedDenom.
    cbn [map c_denom c_amt]. rewrite !bool_decide_true by done.
    change (amount_of [Coin (ExtendedDenom info) fee] (ExtendedDenom info) = fee). rewrite amount_of_one. by rewrite decide_True. }
  by rewrite !Z.eqb_refl.
Qed.

(**  A raw transaction the node accepts becomes a transaction of the chain that
    passes the checks of the ante handler which need no state: its form, its sender,
    its hash, and its fee and gas limit, which are those of the message. *)
Theorem raw_passes_checks data h : (forall t, tx_UnmarshalBinary data = Ok t -> 0 <= tx_Gas t) ->
  SendRawTransaction info cfg chainID TxEncoder data = Ok h ->
  exists t m d built bz fee, tx_UnmarshalBinary data = Ok t /\ NewTxDataFromTx t = Ok d /\ m = mkMsgEth (Some d) 0 (Hash_Hex (tx_Hash t)) "" /\
    BuildTx info m (Denom info) = Ok built /\ bt_msg built = m /\ TxEncoder built = Ok bz /\ node_Broadcast bz = Ok tt /\
    MsgEthereumTx_ValidateBasic m = Ok tt /\ m_Hash m = Hash_Hex h /\
    (forall signatures gasTx, let tx := mkEthTx (Some (Err (Error ErrNoSignatures signatures))) (Some (bt_proto built)) gasTx
        (Some (msg_GetGas m)) [Some m] in ValidateTx tx = Ok (bt_proto built)) /\
    (forall params, ValidateMsg params d (GetFrom m) = checkDisabledCreateCall d (Access params)) /\
    Fee d = Ok fee /\ CheckTxFee info (Some (bt_proto built)) fee (msg_GetGas m) = Ok tt.
Proof.
  intros Hgas Hs. unfold SendRawTransaction in Hs. apply rbind_ok in Hs as (t & Ht & Hs). apply rbind_ok in Hs as (_ & _ & Hs).
  apply rbind_ok in Hs as (m & Hm & Hs). apply rbind_ok in Hs as ([] & Hv & Hs). apply rbind_ok in Hs as (built & Hb & Hs).
  apply rbind_ok in Hs as (bz & He & Hs). apply rbind_ok in Hs as (t' & Ht' & Hs). apply rbind_ok in Hs as ([] & Hn & [= <-]).
  unfold FromEthereumTx in Hm. apply rbind_ok in Hm as (d & Hd & [= <-]). cbn [m_Size m_From] in *.
  pose proof (NewTxDataFromTx_gas t d Hd) as Hg. specialize (Hgas t Ht).
  assert (Validate d = Ok tt /\ Hash_Hex (tx_Hash t) = Hash_Hex (tx_Hash t')) as [Hval Hh].
  { cbn in Ht'. injection Ht' as <-. unfold MsgEthereumTx_ValidateBasic in Hv. cbn [m_From m_Size m_Data m_Hash] in Hv.
    repeat (apply seq_ok in Hv as [? Hv]). split; [done|]. by rewrite check_ok, negb_false_iff, bool_decide_eq_true in Hv. }
  apply Validate_spec in Hval as (tip & cap & (Ht1 & Hc & Hr & _) & _); [|by rewrite Hg].
  assert (Fee d = Ok (cap * GetGas d)) as Hfee by (apply (check_fee_ok d cap Hc); [lia|by rewrite Hg]).
  assert (0 <= cap * GetGas d) by (rewrite Hg; nia).
  pose proof Hb as Hb'. unfold BuildTx in Hb'. cbn [m_Data] in Hb'. rewrite Hfee in Hb'. cbn [rbind] in Hb'. apply rbind_ok in Hb' as (f & _ & [= <-]).
  eexists t, _, d, _, bz, (cap * GetGas d). split_and!; try done. by eapply built_fee.
Qed.

Lemma unwrap_hash msgs h m : unwrap_msgs msgs h = Ok m -> exists e t, MEthereumTx e ∈ msgs /\ transaction_of e = Ok t /\ tx_Hash t = h.
Proof.
  induction msgs as [|[m0| | |] msgs IH]; cbn [unwrap_msgs]; try done. intros (t & Ht & Hr)%rbind_ok.
  destruct (Z.eqb_spec (tx_Hash t) h); [exists m0, t; split_and!; [left|done..]|].
  destruct (IH Hr) as (e & t' & Hin & ?). exists e, t'. split; [by right|done].
Qed.
(** No pending message has a transaction of hash zero. *)
Definition pending_hashed (pending : list SdkTx) : Prop :=
  forall tx e t, tx ∈ pending -> MEthereumTx e ∈ GetMsgs tx -> transaction_of e = Ok t -> tx_Hash t <> 0.
(**  The request to send a transaction again with another price never finds one,
    whatever is pending: it looks for the zero hash. *)
Theorem Resend_never KeyByAddress SignByAddress WithSignature AllowInsecureUnlock args gasPrice gasLimit :
  (forall pending, PendingTransactions = Ok pending -> pending_hashed pending) ->
  is_ok (Resend info cfg chainID TxEncoder KeyByAddress SignByAddress WithSignature AllowInsecureUnlock args gasPrice gasLimit) = false.
Proof.
  intros Hz. assert (forall pending, pending_hashed pending -> forall a t, is_ok (resend_pending info cfg chainID TxEncoder KeyByAddress
    SignByAddress WithSignature AllowInsecureUnlock pending a t gasPrice gasLimit) = false) as Hp.
  { induction pending as [|tx pending IH]; intros Hh a t; [done|]. cbn [resend_pending].
    destruct (UnwrapEthereumMsg tx 0) as [m|e|q] eqn:E; [| |done].
    - apply unwrap_hash in E as (e & t' & Hin & Ht & E). destruct (Hh tx e t'); [left|done..].
    - apply IH. intros tx' e' t' Hin. apply Hh. by right. }
  unfold Resend. destruct (ta_Nonce args); [|done]. destruct (SetTxDefaults _ _ _); cbn [rbind]; [|done..].
  destruct (ToTransaction _); cbn [rbind]; [|done..]. destruct (transaction_of _); cbn [rbind]; [|done..].
  match goal with |- is_ok (rbind ?r _) = _ => destruct r; cbn [rbind]; [|done..] end.
  destruct (rpc_CheckTxFee _ _); cbn [rbind]; [|done..]. destruct PendingTransactions as [pending| |] eqn:E; cbn [rbind]; [|done..].
  by apply Hp, Hz.
Qed.

(** The fields of the arguments of a transaction that is ready to be signed. *)
Record args_ready (a : TransactionArgs) : Prop := {
  ar_fees : is_Some (ta_GasPrice a) /\ ta_MaxFeePerGas a = None /\ ta_MaxPriorityFeePerGas a = None \/
    exists tip cap, ta_GasPrice a = None /\ ta_MaxPriorityFeePerGas a = Some tip /\ ta_MaxFeePerGas a = Some cap /\ tip <= cap;
  ar_value : is_Some (ta_Value a);
  ar_nonce : is_Some (ta_Nonce a);
  ar_gas : is_Some (ta_Gas a);
  ar_chain : is_Some (ta_ChainID a);
  ar_input : check_input a = Ok tt;
}.
(** The fields that are given are kept. *)
Definition kept {A} (o o' : option A) : Prop := forall x, o = Some x -> o' = Some x.
Record args_extend (a a' : TransactionArgs) : Prop := {
  ae_same : ta_From a' = ta_From a /\ ta_To a' = ta_To a /\ ta_Data a' = ta_Data a /\ ta_Input a' = ta_Input a /\ ta_AccessList a' = ta_AccessList a;
  ae_price : kept (ta_GasPrice a) (ta_GasPrice a') /\ kept (ta_MaxFeePerGas a) (ta_MaxFeePerGas a') /\
    kept (ta_MaxPriorityFeePerGas a) (ta_MaxPriorityFeePerGas a');
  ae_rest : kept (ta_Gas a) (ta_Gas a') /\ kept (ta_Value a) (ta_Value a') /\ kept (ta_Nonce a) (ta_Nonce a') /\ kept (ta_ChainID a) (ta_ChainID a');
}.
Lemma default_fees_ready head a a' : ~ (is_Some (ta_GasPrice a) /\ (is_Some (ta_MaxFeePerGas a) \/ is_Some (ta_MaxPriorityFeePerGas a))) ->
  default_fees head a = Ok a' ->
  (is_Some (ta_GasPrice a') /\ ta_MaxFeePerGas a' = None /\ ta_MaxPriorityFeePerGas a' = None \/
    exists tip cap, ta_GasPrice a' = None /\ ta_MaxPriorityFeePerGas a' = Some tip /\ ta_MaxFeePerGas a' = Some cap /\ tip <= cap) /\
  exists p c t, a' = with_fees p c t a /\ kept (ta_GasPrice a) p /\ kept (ta_MaxFeePerGas a) c /\ kept (ta_MaxPriorityFeePerGas a) t.
Proof.
  destruct a as [from to gas price cap tip value nonce dat input al ci]. intros Hx Hd. unfold default_fees, with_fees, kept in *.
  cbn [ta_GasPrice ta_MaxFeePerGas ta_MaxPriorityFeePerGas] in *.
  destruct tip as [tip|], cap as [cap|].
  - destruct (Z.ltb_spec cap tip); [done|]. injection Hd as <-. destruct price as [p|]; [destruct Hx; eauto|].
    split; [right; exists tip, cap; by split_and!|]. by eexists _, _, _.
  - destruct price; [destruct Hx; eauto|]. destruct (eh_BaseFee head) as [b|]; [|done]. cbn [rbind] in Hd.
    destruct (Z.ltb_spec (tip + b * 2) tip); [done|]. injection Hd as <-. split; [right; by eexists _, _|]. by eexists _, _, _.
  - destruct price; [destruct Hx; eauto|]. destruct (eh_BaseFee head) as [b|]; [|done]. apply rbind_ok in Hd as (t & _ & Hd).
    destruct (Z.ltb_spec cap t); [done|]. injection Hd as <-. split; [right; by eexists _, _|]. by eexists _, _, _.
  - destruct price as [p|].
    + assert (a' = mkArgs from to gas (Some p) None None value nonce dat input al ci) as -> by (destruct (eh_BaseFee head); by injection Hd as <-).
      split; [left; by split_and!|]. by eexists _, _, _.
    + destruct (eh_BaseFee head) as [b|].
      * apply rbind_ok in Hd as (t & _ & Hd). destruct (Z.ltb_spec (t + b * 2) t); [done|]. injection Hd as <-.
        split; [right; by eexists _, _|]. by eexists _, _, _.
      * cbn in Hd. injection Hd as <-. split; [left; by split_and!|]. by eexists _, _, _.
Qed.
Lemma default_value_nonce_ready a a' : default_value_nonce chainID a = Ok a' ->
  exists v n, a' = mkArgs (ta_From a) (ta_To a) (ta_Gas a) (ta_GasPrice a) (ta_MaxFeePerGas a) (ta_MaxPriorityFeePerGas a) (Some v) (Some n)
    (ta_Data a) (ta_Input a) (ta_AccessList a) (ta_ChainID a) /\ kept (ta_Value a) (Some v) /\ kept (ta_Nonce a) (Some n).
Proof.
  intros (n & Hn & [= <-])%rbind_ok. eexists _, n. split_and!; [done|by intros x ->|]. intros x Hx. rewrite Hx in Hn. by injection Hn as ->.
Qed.
Lemma default_gas_ready a a' : default_gas cfg a = Ok a' ->
  exists g, a' = mkArgs (ta_From a) (ta_To a) (Some g) (ta_GasPrice a) (ta_MaxFeePerGas a) (ta_MaxPriorityFeePerGas a) (ta_Value a) (ta_Nonce a)
    (ta_Data a) (ta_Input a) (ta_AccessList a) (ta_ChainID a) /\ kept (ta_Gas a) (Some g).
Proof.
  unfold default_gas. destruct (ta_Gas a) as [g|] eqn:Hg.
  - intros [= <-]. exists g. split; [|by intros x [= ->]]. destruct a. cbn in *. by rewrite Hg.
  - intros (g & _ & [= <-])%rbind_ok. by exists g.
Qed.
Lemma SetTxDefaults_ready head a : CurrentHeader = Ok head -> args_ready a -> SetTxDefaults cfg chainID a = Ok a.
Proof.
  intros Hh [Hf [v Hv] [n Hn] [g Hg] [c Hc] Hi]. unfold SetTxDefaults. rewrite Hh. cbn [code_error rbind].
  destruct a as [from to gas price cap tip value nonce dat input al ci]. cbn [ta_GasPrice ta_MaxFeePerGas ta_MaxPriorityFeePerGas ta_Value ta_Nonce ta_Gas ta_ChainID] in *.
  subst. assert (default_fees head (mkArgs from to (Some g) price cap tip (Some v) (Some n) dat input al (Some c)) =
    Ok (mkArgs from to (Some g) price cap tip (Some v) (Some n) dat input al (Some c))) as E.
  { unfold default_fees. cbn [ta_GasPrice ta_MaxFeePerGas ta_MaxPriorityFeePerGas].
    destruct Hf as [([p ->] & -> & ->)|(t & q & -> & -> & -> & Hle)]; [by destruct (eh_BaseFee head)|]. by destruct (Z.ltb_spec q t); [lia|]. }
  rewrite E. cbn [rbind]. unfold default_value_nonce. cbn [ta_Nonce rbind]. cbn.
  change (check_input _) with (check_input (mkArgs from to (Some g) price cap tip (Some v) (Some n) dat input al (Some c))). rewrite Hi. cbn.
  destruct Hf as [([p ->] & -> & ->)|(t & q & -> & -> & -> & Hle)]; done.
Qed.
(**  The defaults of a transaction complete it without changing what is given, and
    a transaction they completed they leave as it is. *)
Theorem SetTxDefaults_stable a a' : SetTxDefaults cfg chainID a = Ok a' ->
  args_ready a' /\ args_extend a a' /\ SetTxDefaults cfg chainID a' = Ok a'.
Proof.
  intros Hs. enough (args_ready a' /\ args_extend a a' /\ exists head, CurrentHeader = Ok head) as (Hr & He & head & Hh)
    by (split_and!; [done..|by eapply SetTxDefaults_ready]).
  unfold SetTxDefaults in Hs. destruct (bool_decide _ && _) eqn:Hx; [done|].
  apply rbind_ok in Hs as (head & Hh & Hs). apply code_error_ok in Hh. apply rbind_ok in Hs as (a1 & Hd1 & Hs).
  apply rbind_ok in Hs as (a2 & H2' & Hs). apply rbind_ok in Hs as ([] & Hi & Hs). apply rbind_ok in Hs as (a3 & H3' & [= <-]).
  apply default_fees_ready in Hd1 as (Hf & p & c & t & -> & Kp & Kc & Kt).
  2: { intros [Hp Hm]. rewrite (bool_decide_true _ Hp) in Hx. cbn [andb] in Hx. apply orb_false_iff in Hx as [X1 X2].
       rewrite bool_decide_eq_false in X1, X2. tauto. }
  apply default_value_nonce_ready in H2' as (v & n & -> & Kv & Kn). apply default_gas_ready in H3' as (g & -> & Kg).
  unfold with_fees in *. cbn in *. split_and!; [| |by exists head].
  - split; cbn; try done; try (by eexists).
  - split; cbn; split_and!; try done. by intros x ->.
Qed.
End send.

(** * Fee history *)

Section fees.
Context `{DecLib, CoinsLib, AddressCodec, EthHex, EthTypes, !EthSigner, EthReceipts, !EthRpc, IndexerLib, !FeeFloats, !Node}.
Variables (chain : ChainConfig) (cfg : RpcConfig) (chainID : Z).

(** The gas of the first transactions, and the reward at a threshold of gas: that of
    the first transaction with which the gas reaches it, or of the last one. *)
Definition gas_of (l : list (Z * Z)) : Z := foldr (fun x acc => x.1 + acc) 0 l.
Definition reward_at (l : list (Z * Z)) (limit r : Z) : Prop :=
  exists k g, l !! k = Some (g, r) /\ (limit <= gas_of (take (S k) l) \/ S k = length l) /\
    forall j, (j < k)%nat -> gas_of (take (S j) l) < limit.

Lemma gas_of_app l1 l2 : gas_of (l1 ++ l2) = gas_of l1 + gas_of l2.
Proof. induction l1 as [|x l1 IH]; cbn in *; [done|]. unfold gas_of in *. cbn. lia. Qed.
Lemma gas_of_nonneg l : Forall (fun x => 0 <= x.1) l -> 0 <= gas_of l.
Proof. induction 1 as [|x l Hx _ IH]; [done|]. unfold gas_of in *. cbn. lia. Qed.
Lemma gas_of_take l j k : Forall (fun x => 0 <= x.1) l -> (j <= k)%nat -> gas_of (take j l) <= gas_of (take k l).
Proof.
  intros Hl Hjk. replace (take k l) with (take j l ++ take (k - j) (drop j l)) by (rewrite take_take_drop; f_equal; lia).
  rewrite gas_of_app. enough (0 <= gas_of (take (k - j) (drop j l))) by lia. by apply gas_of_nonneg, Forall_take, Forall_drop.
Qed.
(** The state of the loop: it has come to a transaction of the list. *)
Definition at_tx (l : list (Z * Z)) (k : nat) (reward sum : Z) (rest : list (Z * Z)) : Prop :=
  (exists g, l !! k = Some (g, reward)) /\ sum = gas_of (take (S k) l) /\ rest = drop (S k) l.
Lemma advance_spec l limit : Forall (fun x => 0 <= x.1) l -> gas_of l < 2 ^ 64 -> forall rest k reward sum,
  at_tx l k reward sum rest -> (forall j, (j < k)%nat -> gas_of (take (S j) l) < limit) ->
  exists k' reward' sum' rest', advance reward sum rest limit = (reward', sum', rest') /\ (k <= k')%nat /\ at_tx l k' reward' sum' rest' /\
    (limit <= sum' \/ S k' = length l) /\ forall j, (j < k')%nat -> gas_of (take (S j) l) < limit.
Proof.
  intros Hl Hs. induction rest as [|[g r] rest IH]; intros k reward sum Ha Hb; cbn [advance].
  - exists k, reward, sum, []. split_and!; try done. right. destruct Ha as ([g Hg] & _ & Hd).
    apply lookup_lt_Some in Hg. symmetry in Hd. apply (f_equal length) in Hd. rewrite length_drop in Hd. cbn in Hd. lia.
  - destruct (Z.ltb_spec sum limit) as [Hlt|Hge]; [|exists k, reward, sum, ((g, r) :: rest); by split_and!; [..|left|]].
    destruct Ha as (Hg & -> & Hd).
    assert (l !! S k = Some (g, r)) as Hk by (rewrite <- (Nat.add_0_r (S k)), <- lookup_drop, <- Hd; done).
    assert (gas_of (take (S (S k)) l) = gas_of (take (S k) l) + g) as Eg.
    { rewrite (take_S_r l (S k) (g, r) Hk), gas_of_app. unfold gas_of at 2. cbn. lia. }
    assert (wrap64 (gas_of (take (S k) l) + g) = gas_of (take (S (S k)) l)) as Ew.
    { rewrite <- Eg. apply wrap64_small. unfold max_uint64. pose proof (gas_of_nonneg _ (Forall_take _ (S (S k)) _ Hl)).
      pose proof (gas_of_take l (S (S k)) (length l) Hl) as Hle. apply lookup_lt_Some in Hk. rewrite firstn_all in Hle. lia. }
    rewrite Ew. destruct (IH (S k) r (gas_of (take (S (S k)) l))) as (k' & reward' & sum' & rest' & E & Hle & Ha & Hlim & Hbefore).
    { split_and!; [by exists g|done|]. apply (f_equal (drop 1)) in Hd. rewrite drop_drop, Nat.add_1_r in Hd. exact Hd. }
    { intros j Hj. destruct (decide (j = k)) as [->|]; [done|apply Hb; lia]. }
    exists k', reward', sum', rest'. split_and!; [done|lia|done..].
Qed.

(**  The rewards of a block in the fee history are those of its percentiles: for
    each threshold, in increasing order, the reward of the first of the sorted
    transactions with which the gas used reaches it, or that of the last one. *)
Theorem percentiles_exact gasUsed ps g r l : Forall (fun x => 0 <= x.1) ((g, r) :: l) -> gas_of ((g, r) :: l) < 2 ^ 64 ->
  StronglySorted (fun p q => threshold gasUsed p <= threshold gasUsed q) ps ->
  Forall2 (fun p => reward_at ((g, r) :: l) (threshold gasUsed p)) ps (percentiles gasUsed ps r g l).
Proof.
  intros Hl Hs. set (all := (g, r) :: l) in *.
  assert (forall ps, StronglySorted (fun p q => threshold gasUsed p <= threshold gasUsed q) ps -> forall k reward sum rest,
    at_tx all k reward sum rest -> (forall p, p ∈ ps -> forall j, (j < k)%nat -> gas_of (take (S j) all) < threshold gasUsed p) ->
    Forall2 (fun p => reward_at all (threshold gasUsed p)) ps (percentiles gasUsed ps reward sum rest)) as Hall.
  { induction 1 as [|p ps' _ IH Hp]; intros k reward sum rest Ha Hb; cbn [percentiles]; [constructor|].
    destruct (advance_spec all (threshold gasUsed p) Hl Hs rest k reward sum Ha) as (k' & reward' & sum' & rest' & -> & Hle & Ha' & Hlim & Hbefore).
    { apply Hb. left. }
    constructor.
    - destruct Ha' as ([g' Hg'] & -> & _). exists k', g'. by split_and!.
    - apply (IH k'); [done|]. intros q Hq j Hj. rewrite Forall_forall in Hp. specialize (Hp q Hq). specialize (Hbefore j Hj). lia. }
  intros Hsort. apply (Hall ps Hsort 0%nat); [|lia]. subst all. split_and!; [by exists g| |done].
  change (g = g + 0). lia.
Qed.

(** What the history says of one block. *)
Definition block_fee (ps : list Percentile) (blockID : Z) (one : OneFeeHistory) : Prop :=
  exists b e r, TendermintBlockByNumber blockID = Ok (Some b) /\ GetBlockByNumber chainID blockID true = Ok (Some e) /\
    node_BlockResults (Some (th_Height (bk_Header b))) = Ok r /\ processBlock chain b e ps r = Ok one.
Definition entry_of (ps : list Percentile) (h : FeeHistoryResult) (j : nat) (one : OneFeeHistory) : Prop :=
  fh_BaseFee h !! j = Some (of_BaseFee one) /\ fh_GasUsedRatio h !! j = Some (Some (of_GasUsedRatio one)) /\
  (ps <> [] -> fh_Reward h !! j = Some (of_Reward one)).
Record sized (ps : list Percentile) (n : nat) (h : FeeHistoryResult) : Prop := {
  sz_base : length (fh_BaseFee h) = S n;
  sz_ratio : length (fh_GasUsedRatio h) = n;
  sz_reward : ps <> [] -> length (fh_Reward h) = n;
}.
Lemma fee_blocks_exact ps n : forall blockID i h h', sized ps (i + n) h -> fee_blocks chain chainID n blockID i ps h = Ok (Some h') ->
  fh_OldestBlock h' = fh_OldestBlock h /\ sized ps (i + n) h' /\
  (forall j one, (j < i)%nat -> entry_of ps h j one -> entry_of ps h' j one) /\
  (forall j, (j < n)%nat -> exists one, block_fee ps (blockID + Z.of_nat j) one /\ entry_of ps h' (i + j) one) /\
  ((0 < n)%nat -> exists one, block_fee ps (blockID + Z.of_nat n - 1) one /\ fh_BaseFee h' !! (i + n)%nat = Some (Some (of_NextBaseFee one))) /\
  (n = 0%nat -> h' = h).
Proof.
  induction n as [|n IH]; intros blockID i h h' Hz Hr; cbn [fee_blocks] in Hr.
  { injection Hr as <-. split_and!; try done; lia. }
  apply rbind_ok in Hr as (b & Hb & Hr). apply rbind_ok in Hr as (e & He & Hr). destruct b as [b|]; [|by destruct e].
  destruct e as [e|]; [|done]. apply rbind_ok in Hr as (r & Hres & Hr). apply rbind_ok in Hr as (one & Hone & Hr).
  set (h1 := mkFeeHistory _ _ _ _) in Hr. destruct Hz as [Zb Zr Zw].
  assert (sized ps (S i + n) h1) as Hz1.
  { subst h1. split; cbn [fh_BaseFee fh_GasUsedRatio fh_Reward]; rewrite ?length_insert; [lia..|]. intros Hps. destruct ps; [done|].
    rewrite length_insert, Zw by done. lia. }
  assert (entry_of ps h1 i one) as H1i.
  { subst h1. split_and!; cbn [fh_BaseFee fh_GasUsedRatio fh_Reward].
    - rewrite list_lookup_insert_ne by lia. apply list_lookup_insert_eq. lia.
    - apply list_lookup_insert_eq. lia.
    - intros Hps. destruct ps; [done|]. apply list_lookup_insert_eq. rewrite Zw by done. lia. }
  destruct (IH (blockID + 1) (S i) h1 h' Hz1 Hr) as (Ho & Hz' & Hold & Hnew & Hlast & Hnil).
  assert (block_fee ps blockID one) as Hbf by (by exists b, e, r).
  rewrite Nat.add_succ_r. split_and!; [done|done| | | |done].
  - intros j one' Hj (E1 & E2 & E3). apply Hold; [lia|]. subst h1. split_and!; cbn [fh_BaseFee fh_GasUsedRatio fh_Reward];
      [by rewrite !list_lookup_insert_ne by lia|by rewrite list_lookup_insert_ne by lia|]. intros Hps. destruct ps; [done|].
    rewrite list_lookup_insert_ne by lia. by apply E3.
  - intros [|j] Hj; [exists one; rewrite Z.add_0_r, Nat.add_0_r; split; [done|by apply Hold; [lia|]]|].
    destruct (Hnew j) as (one' & Hb' & He'); [lia|]. exists one'. split; [|by rewrite Nat.add_succ_r].
    by replace (blockID + Z.of_nat (S j)) with (blockID + 1 + Z.of_nat j) by lia.
  - intros _. destruct n as [|n].
    + exists one. split; [by replace (blockID + Z.of_nat 1 - 1) with blockID by lia|]. rewrite (Hnil eq_refl), Nat.add_0_r.
      subst h1. cbn [fh_BaseFee]. apply list_lookup_insert_eq. rewrite length_insert. lia.
    + destruct (Hlast ltac:(lia)) as (one' & Hb' & Hl'). exists one'. split; [|done].
      by replace (blockID + Z.of_nat (S (S n)) - 1) with (blockID + 1 + Z.of_nat (S n) - 1) by lia.
Qed.

Definition history_start (last_block : Z) (n : nat) (ps : list Percentile) : FeeHistoryResult :=
  mkFeeHistory (last_block + 1 - Z.of_nat n) (replicate (S n) None) (replicate n None)
    (match ps with [] => [] | _ => replicate n (map (fun _ => 0) ps) end).
Lemma history_start_sized last_block n ps : sized ps (0 + n) (history_start last_block n ps).
Proof.
  split; cbn [history_start fh_BaseFee fh_GasUsedRatio fh_Reward]; rewrite ?length_replicate; [done..|]. intros Hps.
  destruct ps; [done|]. by rewrite length_replicate.
Qed.
Lemma FeeHistory_runs count last_block ps r : 0 <= count -> 0 <= last_block < 2 ^ 62 -> FeeHistory chain cfg chainID count last_block ps = Ok r ->
  let n := Z.to_nat (Z.min count (last_block + 1)) in
  fee_blocks chain chainID n (last_block + 1 - Z.of_nat n) 0 ps (history_start last_block n ps) = Ok r.
Proof.
  intros Hc Hl Hr n. unfold FeeHistory in Hr. destruct (Z.ltb_spec last_block 0); [lia|]. cbn [rbind] in Hr. destruct (_ <? count); [done|].
  cbv zeta in Hr. rewrite to_int64_id in Hr by lia.
  assert ((if last_block + 1 <? count then last_block + 1 else count) = Z.of_nat n) as E.
  { unfold n. destruct (Z.ltb_spec (last_block + 1) count); lia. }
  rewrite E in Hr. destruct (Z.ltb_spec (Z.of_nat n) 0); [lia|]. by rewrite Nat2Z.id in Hr.
Qed.

(**  The fee history of the blocks up to a given one has an entry for each of them
    and for no other, oldest first, with the base fee, the share of gas used and the
    rewards of that block, and after the last one the base fee it predicts. *)
Theorem fee_history_exact count last_block ps h : 0 <= count -> 0 <= last_block < 2 ^ 62 ->
  FeeHistory chain cfg chainID count last_block ps = Ok (Some h) ->
  let n := Z.to_nat (Z.min count (last_block + 1)) in
  fh_OldestBlock h = last_block + 1 - Z.of_nat n /\ sized ps n h /\
  (forall j, (j < n)%nat -> exists one, block_fee ps (fh_OldestBlock h + Z.of_nat j) one /\ entry_of ps h j one) /\
  ((0 < n)%nat -> exists one, block_fee ps last_block one /\ fh_BaseFee h !! n = Some (Some (of_NextBaseFee one))).
Proof.
  intros Hc Hl Hr%FeeHistory_runs n; [|done..]. cbv zeta in Hr. fold n in Hr.
  destruct (fee_blocks_exact ps n _ 0 _ h (history_start_sized _ _ _) Hr) as (Ho & Hz & _ & Hj & Hlast & _).
  cbn [fh_OldestBlock history_start] in Ho. rewrite Ho. split_and!; [done|done|done|]. intros Hn. destruct (Hlast Hn) as (one & Hb & Hf). exists one.
  split; [|done]. by replace last_block with (last_block + 1 - Z.of_nat n + Z.of_nat n - 1) by lia.
Qed.

Lemma block_fee_fun ps blockID one one' : block_fee ps blockID one -> block_fee ps blockID one' -> one = one'.
Proof. intros (b & e & r & ? & ? & ? & ?) (b' & e' & r' & ? & ? & ? & ?). congruence. Qed.
(**  A fee history that reaches back to the genesis says of block 0 what it says of
    block 1: the number 0 stands for the earliest block. *)
Theorem fee_history_first_twice count last_block ps h : 1 <= last_block < 2 ^ 62 -> last_block < count ->
  FeeHistory chain cfg chainID count last_block ps = Ok (Some h) ->
  fh_OldestBlock h = 0 /\ exists one, entry_of ps h 0 one /\ entry_of ps h 1 one.
Proof.
  intros Hl Hc Hr%FeeHistory_runs; [|lia..]. cbv zeta in Hr. rewrite Z.min_r in Hr by lia. set (n := Z.to_nat (last_block + 1)) in Hr.
  destruct (fee_blocks_exact ps n _ 0 _ h (history_start_sized _ _ _) Hr) as (Ho & _ & _ & Hj & _).
  assert (last_block + 1 - Z.of_nat n = 0) as E by (unfold n; lia). cbn [fh_OldestBlock history_start] in Ho. rewrite E in *.
  split; [done|]. destruct (Hj 0%nat) as (one & Hb & He); [unfold n; lia|]. destruct (Hj 1%nat) as (one' & Hb' & He'); [unfold n; lia|].
  assert (one = one') as <- by exact (block_fee_fun ps 1 one one' Hb Hb'). by exists one.
Qed.

(** The header of a block has neither gas limit nor gas used. *)
Lemma header_no_gas n head : HeaderByNumber n = Ok head -> eh_GasLimit head = 0 /\ eh_GasUsed head = 0.
Proof.
  intros (b & _ & Hr)%rbind_ok. destruct b as [b|]; [|done]. apply rbind_ok in Hr as (r & _ & Hr).
  apply rbind_ok in Hr as (bl & _ & Hr). by apply rbind_ok in Hr as (bf & _ & [= <-]).
Qed.
(**  The base fee the history predicts after a block is the one of the latest
    block, whatever the block and however much gas it used: the calculation gets a
    header without gas, for which the rule of EIP-1559 leaves the fee as it is. *)
Theorem next_base_fee_stale b ethBlock ps r one head baseFee :
  (forall h f, eh_GasLimit h = 0 -> eh_GasUsed h = 0 -> eh_BaseFee h = Some f -> CalcBaseFee h = Ok f) ->
  IsLondon chain (th_Height (bk_Header b) + 1) = true -> CurrentHeader = Ok head -> eh_BaseFee head = Some baseFee ->
  processBlock chain b ethBlock ps r = Ok one -> of_NextBaseFee one = baseFee.
Proof.
  intros Hlaw Hlon Hh Hf Hp. destruct (header_no_gas _ _ Hh) as [H1' H2']. unfold processBlock in Hp.
  apply rbind_ok in Hp as (bf & _ & Hp). rewrite Hlon, Hh in Hp. cbn [rbind] in Hp. rewrite (Hlaw _ _ H1' H2' Hf) in Hp. cbn [rbind] in Hp.
  destruct (_ <=? 0); [done|]. by apply rbind_ok in Hp as (l & _ & [= <-]).
Qed.
End fees.

(** * A concrete node

    Two blocks, each with one transaction of two Ethereum messages, the second of them
    reverted; a third transaction in the pool. *)
From S2P Require Import EthModel BankModel PreciseBankThms EvmCompose StateTransitionThms EthAnteThms EthCompose CosmosAnteThms.

Definition v_eth (n : Z) : EthTxData :=
  EthDynamicFeeTx (mkEth n 50000 (Some e_dapp) (Some 7) [1] (Some 1) (Some e_alice) (Some 88)) (Some 631) (Some 2) (Some 20) None.
Definition v_data (n : Z) : TxData :=
  match NewTxDataFromTx (v_eth n) with Ok d => d | _ => TLegacy (mkLegacyTx 0 None 0 "" None [] [] [] []) end.
Definition v_msg (n : Z) : MsgEthereumTx := mkMsgEth (Some (v_data n)) 0 (Hash_Hex (1000 + n)) "".
Definition v_tx (msgs : list MsgEthereumTx) : SdkTx :=
  mkSdkTx (mkFeeTx _ true 100000 None [] None (map MEthereumTx msgs) (Some [])) None None true (Some [EthereumOption]).
#[local] Instance v_indexer : IndexerLib := {|
  MarshalTxResult := y_marshal;
  UnmarshalTxResult := y_unmarshal;
  TxDecoder b := if decide (b = [7]) then Ok (v_tx [v_msg 4; v_msg 5]) else if decide (b = [8]) then Ok (v_tx [v_msg 6])
                 else Err (Error ErrTxDecode "tx parse error");
|}.
#[local] Instance v_indexer_laws : IndexerLaws.
Proof. split; [intros [h t m e f g c]; by destruct f|done]. Qed.

(** A bloom of 64 bits, and two logs. *)
Definition v_bit (b : bytes) : Z := (foldl Z.add 0 b) mod 64.
Definition v_log (i : Z) : Log := mkLog e_dapp [i] [i] 2 (1004 + i) 77 i i.
Definition v_bloom_of (l : list Log) : Z :=
  foldl (fun b log => foldl (fun b t => Z.lor b (Z.shiftl 1 (v_bit (hash_bytes t))))
    (Z.lor b (Z.shiftl 1 (v_bit (address_bytes (lg_Address log))))) (lg_Topics log)) 0 l.
#[local] Instance v_receipts : EthReceipts := {| CreateBloom := v_bloom_of; CreateAddress a n := (a + n) mod 2 ^ 160 |}.
#[local] Instance v_rpc : EthRpc := {|
  EmptyRootHash := 5;
  BloomLookup z b := Z.testbit z (v_bit b);
  bloom_Add b z := Z.lor z (Z.shiftl 1 (v_bit b));
  BytesToBloom s := if decide (s = "bloom") then v_bloom_of [v_log 0; v_log 1] else 0;
  unmarshal_log s := if decide (s = "log0") then Ok (v_log 0) else if decide (s = "log1") then Ok (v_log 1)
                     else Err (Error ErrOther "invalid character");
  LatestSignerForChainID _ := tt;
  LatestSigner := tt;
  signer_Hash _ t := tx_Hash t;
  HomesteadSigner := tt;
  CalcBaseFee h := match eh_BaseFee h with
                   | Some b => if eh_GasUsed h =? eh_GasLimit h / 2 then Ok b else Ok (b + 1)
                   | None => Panic "nil pointer dereference"
                   end;
  tx_UnmarshalBinary b := if decide (b = [1]) then Ok (v_eth 6) else Err (Error ErrOther "typed transaction too short");
  EffectiveGasTipValue t _ := Some (tx_Nonce t);
  marshal_args _ := [];
  NewIntFromString _ := None;
|}.
Definition reward_le (a b : Z * Z) : Prop := a.2 <= b.2.
#[local] Instance reward_le_dec a b : Decision (reward_le a b).
Proof. unfold reward_le. apply _. Defined.
#[local] Instance v_floats : FeeFloats := {|
  Ratio := Z * Z;
  gas_ratio a b := (a, b);
  Percentile := Z;
  threshold g p := g * p / 100;
  fee_above_cap _ := false;
  sort_rewards := merge_sort reward_le;
|}.

Definition v_applied : list applied :=
  [mkApplied (v_msg 4) (tx_of (v_data 4)) 0 (y_response 4 21000 "") 0;
   mkApplied (v_msg 5) (tx_of (v_data 5)) 1 (y_response 5 33000 "execution reverted") 0].
Definition v_result : ExecTxResult :=
  mkExec 0 "" 54000 (imap (first_event (fun _ => "")) v_applied ++ [AbciEvent "tx_log" [("txLog", "log0")]; AbciEvent "tx_log" [("txLog", "log1")]]
    ++ map (second_event (fun _ => "") None (fun _ => "")) v_applied).
Definition v_header (h : Z) : TmHeader := mkHeader h 1700 [3] [4] [5] [6] [50 + h].
Definition v_block (h : Z) : TmBlock := mkTmBlock (v_header h) [[9]; [7]] 300 [50 + h].
Definition v_results (h : Z) : BlockResults := mkResults h [mkExec 0 "" 100 []; v_result] [AbciEvent "block_bloom" [("bloom", "bloom")]].
Definition v_at (h : Z) : bool := (h =? 1) || (h =? 2).
#[local] Instance v_node : Node := {|
  node_Block h := if v_at h then Ok (Some (v_block h)) else Err (Error ErrOther "height must be less than or equal to the head");
  node_BlockByHash _ := Ok None;
  node_HeaderByHash _ := Ok None;
  node_BlockResults o := let h := default 2 o in if v_at h then Ok (v_results h) else Err (Error ErrOther "could not find results");
  node_UnconfirmedTxs := Ok [[8]];
  node_ConsensusParams _ := Ok 1000000;
  node_TxSearch _ := Ok [];
  app_HeightHeader := Ok ["2"];
  app_BaseFee _ := Ok (Some 10);
  app_ValidatorAccount _ _ := Err (Error ErrOther "not found");
  app_Account _ _ := Ok (Some 6);
  app_EnsureExists _ := true;
  app_FeeMarketParams := Ok (mkParams false 8 2 0 (Some (10 ^ 7)) (Some 0) (Some (dec_one / 2)) (Some 0) (Some (dec_one / 4)));
  app_GlobalMinGasPrice := Ok 1;
  app_EstimateGas _ _ := Ok (mkEstimate 30000 [] "");
  app_EthCall _ _ := Err (Error ErrOther "unavailable");
  node_Broadcast _ := Ok tt;
  app_Code _ _ := Ok [96; 0];
  app_Storage _ _ _ := Ok (Hash_Hex 77);
  app_Balance _ _ := Ok "5";
|}.
Definition v_cfg : RpcConfig := mkRpcConfig 100 0 25000000 false 1 200 10000 10000.
Definition v_db : kv_db := (IndexBlock (indexer_block (v_block 2)) (br_TxsResults (v_results 2)) ∅).2.

Lemma Logs_exact_witness :
  Logs (mkCriteria None (Some 1) (Some (-1)) [e_dapp] [[1; 5]]) 2 100 = Ok [v_log 1; v_log 1].
Proof.
  assert (HeaderByNumber EthLatestBlockNumber = Ok (EthHeaderFromTendermint (v_header 2) (v_bloom_of [v_log 0; v_log 1]) (Some 10))) as Hh
    by (vm_compute; reflexivity).
  assert (forall h, h ∈ [1; 2] -> block_logged h [v_log 0; v_log 1]) as Hb.
  { intros h Hin. assert (h = 1 \/ h = 2) as Hh' by set_solver. clear Hin. split.
    exists (v_results h), (v_bloom_of [v_log 0; v_log 1]), [[v_log 0]; [v_log 1]].
    split; [destruct Hh' as [-> | ->]; vm_compute; reflexivity|]. split; [vm_compute; reflexivity|]. split; [vm_compute; reflexivity|].
    split; [reflexivity|]. intros log Hlog. assert (log = v_log 0 \/ log = v_log 1) as [-> | ->] by set_solver; (split; [vm_compute; reflexivity|]);
      intros t Ht; [assert (t = 0) as -> by set_solver|assert (t = 1) as -> by set_solver]; vm_compute; reflexivity. }
  pose proof (Logs_exact (mkCriteria None (Some 1) (Some (-1)) [e_dapp] [[1; 5]]) 1 (-1) 2 100 _ (fun _ => [v_log 0; v_log 1])
    eq_refl eq_refl eq_refl ltac:(lia) ltac:(lia) ltac:(lia) Hh ltac:(cbn; lia)) as Hl.
  cbv zeta in Hl. specialize (Hl ltac:(vm_compute; discriminate) ltac:(vm_compute; discriminate) ltac:(vm_compute; discriminate) Hb). vm_compute in Hl |- *. exact Hl.
Defined.
Lemma query_beyond_head_fails_witness : is_ok (Logs (mkCriteria None (Some 1) (Some 3) [] []) 2 100) = false.
Proof.
  assert (HeaderByNumber EthLatestBlockNumber = Ok (EthHeaderFromTendermint (v_header 2) (v_bloom_of [v_log 0; v_log 1]) (Some 10))) as Hh
    by (vm_compute; reflexivity).
  eapply (query_beyond_head_fails (mkCriteria None (Some 1) (Some 3) [] []) 1 3 2 100 _ _ eq_refl eq_refl eq_refl); [lia|exact Hh|cbn; lia|lia|].
  vm_compute. reflexivity.
Defined.

Lemma v_saved saved : index_txs 2 (bk_Txs (v_block 2)) (br_TxsResults (v_results 2)) 0 0 = Ok saved ->
  Z.of_nat (length saved) < 2 ^ 31 /\ NoDup saved.*1.
Proof.
  intros Hs. assert (match index_txs 2 (bk_Txs (v_block 2)) (br_TxsResults (v_results 2)) 0 0 with
    | Ok l => Some (length l, l.*1) | _ => None end = Some (2%nat, [1004; 1005])) as E by (vm_compute; reflexivity).
  rewrite Hs in E. injection E as -> ->. split; [done|]. repeat constructor; set_solver.
Qed.
Definition v_parsed : ParsedTxs := match ParseTxResult v_result (Some (v_tx [v_msg 4; v_msg 5])) with Ok p => p | _ => mkTxs [] ∅ end.
Lemma v_chain_tx : chain_tx v_result (v_tx [v_msg 4; v_msg 5]).
Proof.
  left. split; [vm_compute; reflexivity|]. split; [vm_compute; reflexivity|]. exists v_parsed. split; [vm_compute; reflexivity|].
  intros [|[|j]] m Hm; [injection Hm as <-; exists (v_msg 4)|injection Hm as <-; exists (v_msg 5)|done].
  - split; [reflexivity|]. split; [exists (eth_copy (AsEthereumData (v_data 4))); split; vm_compute; reflexivity|]. eexists. vm_compute. reflexivity.
  - split; [reflexivity|]. split; [exists (eth_copy (AsEthereumData (v_data 5))); split; vm_compute; reflexivity|]. eexists. vm_compute. reflexivity.
Qed.
Lemma v_indexed : block_indexed (v_block 2) (v_results 2) v_db.
Proof.
  split.
  - split; reflexivity.
  - reflexivity.
  - exact v_saved.
  - intros [|[|i]] bz result d Hbz Hres Hs Hd; cbn in Hbz, Hres; [| |discriminate Hbz].
    + injection Hbz as <-. discriminate Hd.
    + injection Hbz as <-. injection Hres as <-. cbn in Hd. injection Hd as <-. exact v_chain_tx.
  - exists ∅. split; [apply run_fst; vm_compute; reflexivity|]. intros i. reflexivity.
Qed.
Lemma v_serves : node_serves (v_block 2) (v_results 2).
Proof. split; reflexivity. Qed.

(** The second message, by its place and by its hash. *)
Lemma transaction_paths_agree_witness : exists tx,
  GetTransactionByBlockNumberAndIndex (Some v_db) 631 2 1 = Ok (Some tx) /\ GetTransactionByHash (Some v_db) 631 1005 = Ok (Some tx) /\
  rx_Hash tx = 1005 /\ rx_place tx = Some (52, 2, 1).
Proof.
  destruct (transaction_paths_agree 631 (v_block 2) (v_results 2) v_db v_indexed v_serves) as (es & Hes & Hi & Hh).
  assert (EthMsgsFromTendermintBlock (v_block 2) (v_results 2) = Ok [v_msg 4; v_msg 5]) as E by (vm_compute; reflexivity).
  rewrite E in Hes. apply Ok_inj in Hes. subst es. destruct (Hi 1 ltac:(lia)) as [H1 _]. pose proof (Hh 1%nat (v_msg 5) eq_refl) as H2.
  assert (HexToHash (m_Hash (v_msg 5)) = 1005) as E5 by (vm_compute; reflexivity). rewrite E5 in H2.
  change (th_Height (bk_Header (v_block 2))) with 2 in H1. change (Z.of_nat 1) with 1 in H2.
  destruct (transaction_at 631 (v_block 2) (v_results 2) [v_msg 4; v_msg 5] 1) as [[tx|]| |] eqn:T; [|vm_compute in T; discriminate T..].
  exists tx. split; [exact H1|]. split; [exact H2|].
  assert (match transaction_at 631 (v_block 2) (v_results 2) [v_msg 4; v_msg 5] 1 with
    | Ok (Some tx) => Some (rx_Hash tx, rx_place tx) | _ => None end = Some (1005, Some (52, 2, 1))) as E2 by (vm_compute; reflexivity).
  rewrite T in E2. injection E2 as -> ->. split; reflexivity.
Defined.
Lemma v_bloom_law logs : CreateBloom logs = foldl log_bloom 0 logs.
Proof. reflexivity. Qed.
Lemma receipts_agree_witness : exists rs,
  GetBlockReceipts h_chain (fun _ => true) v_cfg (Some v_db) 631 (number 2) = Ok rs /\ map re_status rs = [1; 0] /\
  map re_cumulativeGasUsed rs = [21100; 54100] /\ map re_logs rs = [[v_log 0]; [v_log 1]] /\
  Forall2 (fun e re => GetTransactionReceipt h_chain (fun _ => true) v_cfg (Some v_db) 631 (HexToHash (m_Hash e)) = Ok (Some re))
    [v_msg 4; v_msg 5] rs.
Proof.
  destruct (receipts_agree h_chain (fun _ => true) v_cfg 631 v_bloom_law (v_block 2) (v_results 2) v_db v_indexed v_serves)
    as (es & Hes & Hr).
  assert (EthMsgsFromTendermintBlock (v_block 2) (v_results 2) = Ok [v_msg 4; v_msg 5]) as E by (vm_compute; reflexivity).
  rewrite E in Hes. apply Ok_inj in Hes. subst es. change (number (th_Height (bk_Header (v_block 2)))) with (number 2) in Hr.
  destruct (GetBlockReceipts h_chain (fun _ => true) v_cfg (Some v_db) 631 (number 2)) as [rs| |] eqn:G;
    [|vm_compute in G; discriminate G..].
  exists rs. split; [reflexivity|].
  assert (match GetBlockReceipts h_chain (fun _ => true) v_cfg (Some v_db) 631 (number 2) with
    | Ok rs => Some (map re_status rs, map re_cumulativeGasUsed rs, map re_logs rs) | _ => None end =
    Some ([1; 0], [21100; 54100], [[v_log 0]; [v_log 1]])) as E2 by (vm_compute; reflexivity).
  rewrite G in E2. injection E2 as -> -> ->. split; [reflexivity|]. split; [reflexivity|]. split; [reflexivity|]. apply Hr. reflexivity.
Defined.

(** A filter for the logs of topic 1, polled between two deliveries. *)
Definition v_filter : filter_info := mkFilter LogsSubscription (mkCriteria None None None [] [[1]]) [] [] true false.
Definition v_requests : list api_input :=
  [INewBlock (Ok "b"); IDeliver "a" (DResult (Ok [v_log 0; v_log 1])); IExpire "a"; IChanges "a";
   ITimeout; IDeliver "b" (DHeader 77); IDeliver "a" (DResult (Ok [v_log 1])); IUninstall "b"].
Definition v_filters : filters := {["a" := v_filter]}.
Lemma changes_complete_witness : exists f', (api_run v_cfg v_filters v_requests).1 !! "a" = Some f' /\ fi_logs f' = [v_log 1] /\
  polled "a" (api_run v_cfg v_filters v_requests).2 ++ buffer f' = [inr (v_log 1); inr (v_log 1)].
Proof.
  destruct (api_run v_cfg v_filters v_requests) as [fs os] eqn:E.
  destruct (fs !! "a") as [f'|] eqn:Hf.
  - assert (match (api_run v_cfg v_filters v_requests).1 !! "a" with Some f => Some (fi_logs f, fi_listening f) | None => None end =
      Some ([v_log 1], true)) as E2 by (vm_compute; reflexivity).
    rewrite E in E2. cbn [fst] in E2. rewrite Hf in E2. injection E2 as El Elis.
    exists f'. split; [exact Hf|]. split; [exact El|]. cbn [snd].
    rewrite (changes_complete v_cfg v_requests "a" ltac:(repeat constructor; discriminate) v_filters v_filter fs os f'
      ltac:(vm_compute; reflexivity) eq_refl E Hf Elis). vm_compute. reflexivity.
  - exfalso. assert (is_Some ((api_run v_cfg v_filters v_requests).1 !! "a")) as [x Hx] by (vm_compute; eauto).
    rewrite E in Hx. cbn [fst] in Hx. rewrite Hf in Hx. discriminate Hx.
Defined.

Definition v_encode (_ : BuiltTx) : res bytes := Ok [8].
Lemma raw_passes_checks_witness : SendRawTransaction x_info v_cfg 631 v_encode [1] = Ok 1006 /\
  exists built, BuildTx x_info (v_msg 6) (Denom x_info) = Ok built /\ CheckTxFee x_info (Some (bt_proto built)) 1000000 50000 = Ok tt.
Proof.
  assert (SendRawTransaction x_info v_cfg 631 v_encode [1] = Ok 1006) as Hs by (vm_compute; reflexivity). split; [exact Hs|].
  destruct (raw_passes_checks x_info v_cfg 631 v_encode [1] 1006) as (t & m & d & built & bz & fee & Ht & Hd & -> & Hb & _ & _ & _ & _ & _ & _ & _ & Hf & Hc).
  - intros t Ht. cbn in Ht. apply Ok_inj in Ht. subst t. vm_compute. discriminate.
  - exact Hs.
  - apply Ok_inj in Ht. subst t. assert (NewTxDataFromTx (v_eth 6) = Ok (v_data 6)) as E by (vm_compute; reflexivity).
    rewrite E in Hd. apply Ok_inj in Hd. subst d. exists built. split; [exact Hb|].
    assert (Fee (v_data 6) = Ok 1000000) as Ef by (vm_compute; reflexivity). rewrite Ef in Hf. apply Ok_inj in Hf. subst fee. exact Hc.
Defined.
Definition v_args : TransactionArgs := mkArgs (Some e_alice) (Some e_dapp) None None None None (Some 7) (Some 6) None None None None.
Lemma Resend_never_witness :
  is_ok (Resend x_info v_cfg 631 v_encode (fun _ => Ok tt) (fun _ _ => Ok []) (fun t _ _ => Ok t) true v_args (Some 9) None) = false.
Proof.
  apply Resend_never. intros pending Hp tx e t Hin He Ht. assert (PendingTransactions = Ok [v_tx [v_msg 6]]) as E by (vm_compute; reflexivity).
  rewrite E in Hp. apply Ok_inj in Hp. subst pending. apply list_elem_of_singleton in Hin. subst tx.
  assert (e = v_msg 6) as -> by (apply list_elem_of_singleton in He; injection He as ->; reflexivity).
  assert (match transaction_of (v_msg 6) with Ok t => tx_Hash t | _ => 0 end = 1006) as Eh by (vm_compute; reflexivity).
  rewrite Ht in Eh. rewrite Eh. discriminate.
Defined.
Definition v_ready : TransactionArgs :=
  match SetTxDefaults v_cfg 631 v_args with Ok a => a | _ => v_args end.
Lemma SetTxDefaults_stable_witness : ta_Gas v_ready = Some 30000 /\ ta_MaxFeePerGas v_ready = Some 21 /\ SetTxDefaults v_cfg 631 v_ready = Ok v_ready.
Proof.
  assert (SetTxDefaults v_cfg 631 v_args = Ok v_ready) as Hs by (vm_compute; reflexivity).
  destruct (SetTxDefaults_stable v_cfg 631 v_args v_ready Hs) as (_ & _ & Hr). split; [vm_compute; reflexivity|]. split; [vm_compute; reflexivity|exact Hr].
Defined.
Lemma percentiles_exact_witness :
  Forall2 (fun p => reward_at [(10, 1); (20, 3); (30, 7)] (60 * p / 100)) [0; 50; 51; 100] (percentiles 60 ([0; 50; 51; 100] : list (@Percentile v_floats)) 1 10 [(20, 3); (30, 7)]).
Proof.
  apply (percentiles_exact 60 ([0; 50; 51; 100] : list (@Percentile v_floats)) 10 1 [(20, 3); (30, 7)]).
  - repeat constructor; vm_compute; discriminate.
  - vm_compute. reflexivity.
  - repeat constructor; vm_compute; discriminate.
Defined.
Definition v_ps : list (@Percentile v_floats) := [50].
Definition v_history (count : Z) : FeeHistoryResult :=
  match FeeHistory h_chain v_cfg 631 count 2 v_ps with Ok (Some h) => h | _ => mkFeeHistory 0 [] [] [] end.
Lemma fee_history_exact_witness : fh_OldestBlock (v_history 2) = 1 /\ sized v_ps 2 (v_history 2).
Proof.
  assert (FeeHistory h_chain v_cfg 631 2 2 v_ps = Ok (Some (v_history 2))) as Hr by (vm_compute; reflexivity).
  destruct (fee_history_exact h_chain v_cfg 631 2 2 v_ps (v_history 2) ltac:(lia) ltac:(lia) Hr) as (Ho & Hz & _).
  split; [exact Ho|exact Hz].
Defined.
Lemma fee_history_first_twice_witness : fh_OldestBlock (v_history 5) = 0 /\ exists one, entry_of v_ps (v_history 5) 0 one /\ entry_of v_ps (v_history 5) 1 one.
Proof.
  assert (FeeHistory h_chain v_cfg 631 5 2 v_ps = Ok (Some (v_history 5))) as Hr by (vm_compute; reflexivity).
  exact (fee_history_first_twice h_chain v_cfg 631 5 2 v_ps (v_history 5) ltac:(lia) ltac:(lia) Hr).
Defined.
Definition v_eth_block : RPCBlock :=
  match GetBlockByNumber 631 1 true with Ok (Some b) => b | _ => mkRPCBlock 0 [] 0 0 [] 0 0 0 0 0 0 [] None end.
Lemma next_base_fee_stale_witness : exists one, processBlock h_chain (v_block 1) v_eth_block v_ps (v_results 1) = Ok one /\
  of_Reward one = [4] /\ of_NextBaseFee one = 10.
Proof.
  destruct (processBlock h_chain (v_block 1) v_eth_block v_ps (v_results 1)) as [one| |] eqn:E; [|vm_compute in E; discriminate E..].
  exists one. split; [reflexivity|].
  assert (match processBlock h_chain (v_block 1) v_eth_block v_ps (v_results 1) with Ok o => of_Reward o | _ => [] end = [4]) as E2
    by (vm_compute; reflexivity).
  rewrite E in E2. split; [exact E2|].
  apply (next_base_fee_stale h_chain (v_block 1) v_eth_block v_ps (v_results 1) one
    (EthHeaderFromTendermint (v_header 2) (v_bloom_of [v_log 0; v_log 1]) (Some 10)) 10).
  - intros h f Hl Hu Hf. cbn. rewrite Hf, Hu, Hl. reflexivity.
  - reflexivity.
  - vm_compute. reflexivity.
  - reflexivity.
  - exact E.
Defined.

Definition v_rq : TraceRequest := mkTraceRequest 2 1700 [52] [6] 631 1000000 1.
Lemma trace_requests_agree_witness : TraceTransaction_request (Some v_db) 631 1005 = Ok (v_msg 5, [v_msg 4], v_rq) /\
  TraceBlock_request 631 2 (v_block 2) = Ok (Some ([v_msg 4; v_msg 5], v_rq)).
Proof.
  destruct (GetTxByEthHash (Some v_db) 1005) as [x| |] eqn:G; [|vm_compute in G; discriminate G..].
  assert (Height x = 2) as Hx.
  { assert (match GetTxByEthHash (Some v_db) 1005 with Ok x => Height x | _ => 0 end = 2) as E by (vm_compute; reflexivity). by rewrite G in E. }
  assert (TraceTransaction_request (Some v_db) 631 1005 = Ok (v_msg 5, [v_msg 4], v_rq)) as Ht by (vm_compute; reflexivity).
  split; [exact Ht|].
  destruct (trace_requests_agree (Some v_db) 631 1005 x (v_block 2) (v_msg 5) [v_msg 4] v_rq [v_msg 4; v_msg 5] G) as (Hb & _);
    [rewrite Hx; vm_compute; reflexivity|vm_compute; reflexivity|exact Ht|]. rewrite Hx in Hb. exact Hb.
Defined.

(** Two filters for logs: the first one makes the topic, the second one finds it. *)
Definition v_sub (id : string) : Subscription := mkSub id LogsSubscription "tm.event='Tx'".
Definition v_first : event_system := match es_step 500000 es_start (ESubscribe (v_sub "a") None) with Ok s => s | _ => es_start end.
Definition v_second : event_system := (es_subscribe 500000 v_first (v_sub "b") None).1.
Lemma bus_never_closes_twice_witness : exists s,
  es_run 500000 es_start [ESubscribe (v_sub "a") None; ESubscribe (v_sub "b") None; EUninstall (v_sub "a"); EEnding "tm.event='Tx'";
    ECancel "tm.event='Tx'" 2; ECancel "tm.event='Tx'" 1] = Ok s /\ bus_ok 500000 (es_bus s).
Proof. apply bus_never_closes_twice; vm_compute; congruence. Defined.
Lemma uninstall_silences_others_witness : exists s2,
  es_run 500000 v_second [EUninstall (v_sub "a"); EEnding "tm.event='Tx'"] = Ok s2 /\ 2 ∈ eb_closed (es_bus s2) /\
  "tm.event='Tx'" ∉ eb_topics (es_bus s2).
Proof.
  apply (uninstall_silences_others 500000 v_first (v_sub "a") (v_sub "b") None 2 v_second).
  - destruct (es_run_ok 500000 [ESubscribe (v_sub "a") None] es_start) as (s & Hs & Hb); [split; cbn; set_solver || lia|vm_compute; reflexivity|].
    assert (v_first = s) as -> by (unfold v_first; cbn [es_run] in Hs; apply rbind_ok in Hs as (s1 & -> & [= <-]); reflexivity). exact Hb.
  - vm_compute. reflexivity.
  - vm_compute. reflexivity.
  - vm_compute. reflexivity.
  - vm_compute. reflexivity.
  - reflexivity.
  - apply injective_projections; vm_compute; reflexivity.
Defined.
