(* ===== verification/Daemon.v ===== *)
(** The oracle daemon ([oralce]): it watches the documents of x/oracle that list its
    account, fetches a value from the endpoint that is assigned to it, and submits it.

    The worker pool ([worker/pool.go]) with its jobs, which are shared objects: the
    store and the scheduled tasks hold pointers to them; the client of the endpoints
    ([worker/client.go]), the submitter ([submiter]), the subscriber and the event
    loop ([daemon], [subscriber]).  What HTTP, JSON and the node answer are inputs;
    logging and the durations of waiting are left out, the delays are computed. *)
From S2P Require Import Prelude KVStore Sdk BigFloat Oracle OracleInv OracleThms Indexer IndexerThms.

(** * The worker pool *)

(** The delay and the period are numbers of nanoseconds. *)
Record OracleJob := mkJob {
  j_ID : Z; j_URL : string; j_Path : string; j_Nonce : Z; j_Delay : Z; j_Period : Z; j_Status : Z;
}.
Record OracleJobResult := mkJobResult { jr_ID : Z; jr_Data : string; jr_Nonce : Z }.
(** Pointers are numbers.  A task is a pointer and, once it runs, the nonce it has
    computed.  A result that is nil stands for a failed fetch. *)
Record pool := mkPool {
  wp_heap : gmap Z OracleJob; wp_jobStore : gmap string Z; wp_tasks : gmap Z (Z * option Z); wp_next : Z;
  wp_results : list (option OracleJobResult);
}.
Definition new_pool : pool := mkPool ∅ ∅ ∅ 0 [].
Definition req_id (id : Z) : string := FormatUint id.

(** [slices.Index] *)
Fixpoint slices_Index (l : list string) (x : string) : option nat :=
  match l with
  | [] => None
  | y :: l => if decide (y = x) then Some 0%nat else S <$> slices_Index l x
  end.
(** The place of the endpoint of this instance. *)
Definition endpoint_index (accounts : list string) (me : string) : option nat :=
  match slices_Index accounts me with
  | None => None
  | Some i => Some ((i + 1) mod length accounts)%nat
  end.
Definition second : Z := 10 ^ 9.
(** How long to wait after the time of the last data set. *)
Definition delay_from (timestamp periodSec now : Z) : Z :=
  let dsec := to_int64 (to_int64 (wrap64 (timestamp + periodSec)) - to_int64 now) in
  to_int64 (Z.max 0 dsec * second).
Definition executeJob (w : pool) (p : Z) : pool :=
  mkPool (wp_heap w) (wp_jobStore w) (<[wp_next w := (p, None)]> (wp_tasks w)) (wp_next w + 1) (wp_results w).
Definition remove_job (w : pool) (req : string) : pool :=
  mkPool (wp_heap w) (delete req (wp_jobStore w)) (wp_tasks w) (wp_next w) (wp_results w).
(** A new object, and an object that is changed in place. *)
Definition set_job (w : pool) (p : Z) (j : OracleJob) : pool :=
  mkPool (<[p := j]> (wp_heap w)) (wp_jobStore w) (wp_tasks w) (wp_next w) (wp_results w).
Definition alloc (w : pool) (j : OracleJob) : pool :=
  mkPool (<[wp_next w := j]> (wp_heap w)) (wp_jobStore w) (wp_tasks w) (wp_next w + 1) (wp_results w).
Definition stored_job (w : pool) (req : string) : option (Z * OracleJob) :=
  match wp_jobStore w !! req with
  | Some p => match wp_heap w !! p with Some j => Some (p, j) | None => None end
  | None => None
  end.

Definition ProcessRequestDoc (me : string) (w : pool) (requestDoc : OracleRequestDoc) (timestamp now : Z) : res pool :=
  let req := req_id (d_RequestId requestDoc) in
  if negb (d_Status requestDoc =? REQUEST_STATUS_ENABLED) then Ok (remove_job w req)
  else match endpoint_index (d_AccountList requestDoc) me with
  | None => Ok w
  | Some index =>
      let currentNonce := match stored_job w req with Some (_, job) => j_Nonce job | None => d_Nonce requestDoc end in
      match d_Endpoints requestDoc !! index with
      | None => Panic "index out of range"
      | Some e =>
          let job := mkJob (d_RequestId requestDoc) (Url e) (ParseRule e) (Z.max currentNonce (d_Nonce requestDoc))
            (delay_from timestamp (d_Period requestDoc) now) (to_int64 (d_Period requestDoc * second)) (d_Status requestDoc) in
          Ok (executeJob (alloc w job) (wp_next w))
      end
  end.

Definition ProcessComplete (w : pool) (reqID : string) (nonce timestamp now : Z) : pool :=
  match stored_job w reqID with
  | None => w
  | Some (p, job) =>
      if negb (j_Status job =? REQUEST_STATUS_ENABLED) then remove_job w reqID
      else
        let job := mkJob (j_ID job) (j_URL job) (j_Path job) (Z.max (j_Nonce job) nonce)
          (delay_from timestamp (wrap64 (Z.quot (j_Period job) second)) now) (j_Period job) (j_Status job) in
        executeJob (set_job w p job) p
  end.

Definition with_task (w : pool) (t : Z) (x : option (Z * option Z)) : pool :=
  mkPool (wp_heap w) (wp_jobStore w) (match x with Some x => <[t := x]> (wp_tasks w) | None => delete t (wp_tasks w) end)
    (wp_next w) (wp_results w).
(** A task whose delay is over: the check of the status and the next nonce. *)
Definition start_task (w : pool) (t : Z) : pool :=
  match wp_tasks w !! t with
  | Some (p, None) =>
      match wp_heap w !! p with
      | None => w
      | Some task =>
          let req := req_id (j_ID task) in
          if negb (j_Status task =? REQUEST_STATUS_ENABLED) then with_task (remove_job w req) t None
          else
            let nextNonce := match stored_job w req with
              | Some (_, stored) => wrap64 (j_Nonce stored + 1)
              | None => wrap64 (j_Nonce task + 1)
              end in
            with_task w t (Some (p, Some nextNonce))
      end
  | _ => w
  end.
(** What the endpoint gave: nothing, something that is not what the path asks for, or
    a value. *)
Inductive fetched := FetchFailed | NotParsed | Value (v : string).
Definition finish_task (w : pool) (t : Z) (x : fetched) : pool :=
  match wp_tasks w !! t with
  | Some (p, Some nextNonce) =>
      match wp_heap w !! p with
      | None => w
      | Some task =>
          let w := with_task w t None in
          match x with
          | FetchFailed => mkPool (wp_heap w) (wp_jobStore w) (wp_tasks w) (wp_next w) (wp_results w ++ [None])
          | NotParsed => w
          | Value v =>
              let task := mkJob (j_ID task) (j_URL task) (j_Path task) nextNonce (j_Delay task) (j_Period task) (j_Status task) in
              mkPool (<[p := task]> (wp_heap w)) (<[req_id (j_ID task) := p]> (wp_jobStore w)) (wp_tasks w) (wp_next w)
                (wp_results w ++ [Some (mkJobResult (j_ID task) v nextNonce)])
          end
      end
  | _ => w
  end.

(** What happens to the pool; the context that is done ends a task that waits. *)
Inductive pool_input :=
  | PDoc (doc : OracleRequestDoc) (timestamp now : Z)
  | PComplete (reqID : string) (nonce timestamp now : Z)
  | PStart (t : Z)
  | PFinish (t : Z) (x : fetched)
  | PDrop (t : Z).
Definition drop_task (w : pool) (t : Z) : pool :=
  match wp_tasks w !! t with
  | Some (p, None) =>
      match wp_heap w !! p with
      | Some task => if (0 <? j_Nonce task) && (0 <? j_Delay task) then with_task w t None else w
      | None => w
      end
  | _ => w
  end.
Definition pool_step (me : string) (w : pool) (i : pool_input) : res pool :=
  match i with
  | PDoc doc timestamp now => ProcessRequestDoc me w doc timestamp now
  | PComplete reqID nonce timestamp now => Ok (ProcessComplete w reqID nonce timestamp now)
  | PStart t => Ok (start_task w t)
  | PFinish t x => Ok (finish_task w t x)
  | PDrop t => Ok (drop_task w t)
  end.
Fixpoint pool_run (me : string) (w : pool) (l : list pool_input) : res pool :=
  match l with [] => Ok w | i :: l => let? w := pool_step me w i in pool_run me w l end.

(** * The client of the endpoints *)

Definition maxResponseSize : Z := 10 * 1024 * 1024.
(** The answer to one request: an error, or a status, the length that is declared (-1 if
    unknown) and the body as far as it is read. *)
Inductive http_answer := HError (e : error) | HAnswer (status contentLength : Z) (body : res bytes).
Definition StatusOK : Z := 200.
Definition retryable (status : Z) : bool := (500 <=? status) || (status =? 408) || (status =? 429) || (status =? 409).
(** The wait before a further attempt. *)
Definition retry_delay (attempt maxDelay : Z) : Z := Z.min (to_int64 (to_int64 (Z.shiftl 1 (attempt - 1)) * second)) maxDelay.
(** The attempts that are left; the requests are answered in turn. *)
Fixpoint fetch_attempts (n : nat) (answers : nat -> http_answer) (attempt : nat) : res bytes :=
  match n with
  | O => Err (Error ErrOther "failed to fetch raw data")
  | S n =>
      match answers attempt with
      | HError _ => fetch_attempts n answers (S attempt)
      | HAnswer status contentLength body =>
          if maxResponseSize <? contentLength then Err (Error ErrOther "response too large")
          else
            let? body := body in
            if maxResponseSize <? Z.of_nat (length body) then Err (Error ErrOther "response exceeded size limit")
            else if status =? StatusOK then Ok body
            else if retryable status then fetch_attempts n answers (S attempt)
            else Err (Error ErrOther "HTTP error")
      end
  end.
(** [request_ok]: the URL makes a request. *)
Definition fetchRawData (maxAttempts : Z) (request_ok : bool) (answers : nat -> http_answer) : res bytes :=
  if request_ok then fetch_attempts (Z.to_nat (Z.max 1 maxAttempts)) answers 0 else Err (Error ErrOther "failed to create HTTP request").

(** JSON as [encoding/json] gives it; a number is the text of its float. *)
Inductive json :=
  | JNull | JBool (b : bool) | JNumber (text : string) | JString (s : string) | JArray (l : list json) | JObject (l : list (string * json)).
Fixpoint object_get (l : list (string * json)) (k : string) : option json :=
  match l with [] => None | (k', v) :: l => if decide (k' = k) then Some v else object_get l k end.

Section client.
(** [json.Unmarshal] and [fmt.Sprintf] with the verb v *)
Variable Unmarshal : bytes -> res json.
Variable Sprint : json -> string.

Definition parseRawData (rawData : bytes) : res (list (string * json)) :=
  let? result := Unmarshal rawData in
  match result with
  | JObject o => Ok o
  | JArray [] => Err (Error ErrOther "empty JSON array")
  | JArray (JObject o :: _) => Ok o
  | JArray _ => Err (Error ErrOther "first array element is not a JSON object")
  | _ => Err (Error ErrOther "JSON must be object or array")
  end.

(** [strconv.Atoi] *)
Definition Atoi (s : string) : res Z :=
  let signed (r : string) (f : Z -> Z) (limit : Z) :=
    let? n := ParseUint 64 r in if limit <? n then Err (Error ErrOther "value out of range") else Ok (f n) in
  match s with
  | String c r =>
      if decide (c = Ascii.ascii_of_nat 45) then signed r Z.opp (2 ^ 63)
      else if decide (c = Ascii.ascii_of_nat 43) then signed r id max_int64
      else signed s id max_int64
  | EmptyString => Err (Error ErrOther "invalid syntax")
  end.
Definition parseArrayIndex (s : string) : res Z :=
  if bool_decide (s = "") then Err (Error ErrOther "array index cannot be empty")
  else
    let? index := Atoi s in
    if index <? 0 then Err (Error ErrOther "negative array index not allowed") else Ok index.

(** [strings.Split] at dots *)
Fixpoint split_dots (s : string) : list string :=
  match s with
  | EmptyString => [""]
  | String c s =>
      if decide (c = Ascii.ascii_of_nat 46) then "" :: split_dots s
      else match split_dots s with
           | part :: parts => String c part :: parts
           | [] => [String c ""]
           end
  end.
Fixpoint traverse (current : json) (parts : list string) : res json :=
  match parts with
  | [] => Ok current
  | part :: parts =>
      match current with
      | JObject o => match object_get o part with Some v => traverse v parts | None => Err (Error ErrOther "key not found") end
      | JArray l =>
          match parseArrayIndex part with
          | Ok index => match l !! Z.to_nat index with Some v => traverse v parts | None => Err (Error ErrOther "array index out of bounds") end
          | Err _ => Err (Error ErrOther "invalid array index")
          | Panic m => Panic m
          end
      | _ => Err (Error ErrOther "cannot traverse")
      end
  end.
Definition extractDataByPath (data : list (string * json)) (path : string) : res string :=
  if bool_decide (path = "") then Err (Error ErrOther "path cannot be empty")
  else let? v := traverse (JObject data) (split_dots path) in Ok (Sprint v).

(** What a task makes of the endpoint of its job. *)
Definition fetch_value (maxAttempts : Z) (request_ok : bool) (answers : nat -> http_answer) (path : string) : res fetched :=
  match fetchRawData maxAttempts request_ok answers with
  | Err _ => Ok FetchFailed
  | Panic m => Panic m
  | Ok raw =>
      match parseRawData raw with
      | Err _ => Ok NotParsed
      | Panic m => Panic m
      | Ok o => match extractDataByPath o path with Ok v => Ok (Value v) | Err _ => Ok NotParsed | Panic m => Panic m end
      end
  end.
End client.

(** * The submitter *)

Section submitter.
Context `{AddressCodec}.
(** [Keyring.Sign]; whether a transaction of a message and a sequence can be built,
    signed and encoded with the price of gas of the configuration; the state of the
    node with its answer to that transaction, a code or an error of the network; and
    the sequence of the account. *)
Variable Sign : bytes -> res bytes.
Variable TxBuilds : MsgSubmitOracleData -> Z -> bool.
Variable node : Type.
Variable BroadcastTx : node -> MsgSubmitOracleData -> Z -> node * option Z.
Variable GetSequence : node -> res Z.

Definition submit_message (me : string) (r : OracleJobResult) : res MsgSubmitOracleData :=
  let data := mkSubmit (jr_ID r) (jr_Nonce r) (jr_Data r) me in
  let? signBytes := Bytes (data []) in
  let? signature := Sign signBytes in
  Ok (mkMsgSubmit me (Some (data signature))).
Inductive submit_outcome := Submitted | AlreadyCertified | NoSequence | Rejected (code : Z) | NotBuilt | AttemptsUsed.
Definition ErrWrongSequenceCode : Z := 32.
Definition InvalidRequestCode : Z := 18.
(** [sequenceN] is lost, that is 0, if the node does not give it. *)
Fixpoint broadcast_attempts (n : nat) (me : string) (r : OracleJobResult) (s : node) (sequenceN : Z) : node * Z * submit_outcome :=
  match n with
  | O => (s, sequenceN, AttemptsUsed)
  | S n =>
      match submit_message me r with
      | Ok msg =>
          if negb (TxBuilds msg sequenceN) then (s, sequenceN, NotBuilt)
          else
          let '(s, answer) := BroadcastTx s msg sequenceN in
          match answer with
          | None => broadcast_attempts n me r s sequenceN
          | Some code =>
              if code =? 0 then (s, wrap64 (sequenceN + 1), Submitted)
              else if code =? InvalidRequestCode then (s, sequenceN, AlreadyCertified)
              else if code =? ErrWrongSequenceCode then
                match GetSequence s with
                | Ok q => broadcast_attempts n me r s q
                | _ => (s, 0, NoSequence)
                end
              else (s, sequenceN, Rejected code)
          end
      | _ => (s, sequenceN, NotBuilt)
      end
  end.
Definition BroadcastTxWithRetry (maxAttempts : Z) (me : string) (r : OracleJobResult) (s : node) (sequenceN : Z) : node * Z * submit_outcome :=
  broadcast_attempts (Z.to_nat (Z.max 1 maxAttempts)) me r s sequenceN.
(** [serveOracleResult] takes the next result; [None] if it stops, which ends the
    daemon: a result that is nil is reported as fatal. *)
Definition serveOracleResult_step (maxAttempts : Z) (me : string) (result : option OracleJobResult) (s : node) (sequenceN : Z)
    : option (node * Z) :=
  match result with
  | None => None
  | Some r => Some (BroadcastTxWithRetry maxAttempts me r s sequenceN).1
  end.
End submitter.

(** * Subscriber and event loop *)

(** The attributes of an event, by key. *)
Definition event_attrs := gmap string (list string).
Definition parseRequestIDFromEvent (event : event_attrs) (eventType : string) : res Z :=
  match event !! eventType with
  | Some (v :: _) => match ParseUint 64 v with Ok n => Ok n | _ => Err (Error ErrOther "invalid request id value") end
  | _ => Err (Error ErrOther "event missing request id")
  end.
Definition RegisterID : string := "register_oracle_request_doc.request_id".
Definition UpdateID : string := "update_oracle_request_doc.request_id".
Definition CompleteID : string := "complete_oracle_data_set.request_id".
Definition CompleteNonce : string := "complete_oracle_data_set.nonce".
Definition CompleteTime : string := "complete_oracle_data_set.block_time".
Definition MinGasPriceKey : string := "change_min_gas_price.min_gas_price".
(** A completion sets the price of gas of the configuration. *)
Definition gas_price_after (event : event_attrs) (prices : string) : res string :=
  match event !! MinGasPriceKey with
  | None => Ok prices
  | Some (p :: _) => Ok p
  | Some [] => Panic "index out of range"
  end.
Definition nth_attr (event : event_attrs) (key : string) (i : nat) : res string :=
  match default [] (event !! key) !! i with Some v => Ok v | None => Panic "index out of range" end.
Fixpoint complete_all (w : pool) (event : event_attrs) (ids : list string) (i : nat) (now : Z) : res pool :=
  match ids with
  | [] => Ok w
  | reqID :: ids =>
      let? n := nth_attr event CompleteNonce i in
      match ParseUint 64 n with
      | Ok nonce =>
          let? t := nth_attr event CompleteTime i in
          match ParseUint 64 t with
          | Ok timestamp => complete_all (ProcessComplete w reqID nonce timestamp now) event ids (S i) now
          | _ => complete_all w event ids (S i) now
          end
      | _ => complete_all w event ids (S i) now
      end
  end.
(** What the subscriber hands to the daemon: an error, a document or a completion. *)
Inductive daemon_event := DeError | DeDoc (doc : OracleRequestDoc) | DeComplete (event : event_attrs).
(** The events of the node, by subscription. *)
Inductive node_event := NeRegister (event : event_attrs) | NeUpdate (event : event_attrs) | NeComplete (event : event_attrs).

Section queries.
(** The answers of the chain to the queries: the documents that are enabled, a document,
    and the time of a data set. *)
Variable OracleRequestDocs : res (list OracleRequestDoc).
Variable OracleRequestDoc_ : Z -> res OracleRequestDoc.
Variable OracleData_BlockTime : Z -> res Z.

(** What [Subscriber.runEventLoop] sends before it listens. *)
Definition subscriber_start : list daemon_event :=
  match OracleRequestDocs with Ok docs => map DeDoc docs | _ => [DeError] end.
Definition watched (event : event_attrs) (key : string) : list daemon_event :=
  match parseRequestIDFromEvent event key with
  | Ok requestId => match OracleRequestDoc_ requestId with Ok doc => [DeDoc doc] | _ => [] end
  | _ => []
  end.
(** What it sends for an event, and the price of gas after it. *)
Definition subscriber_step (prices : string) (e : node_event) : res (list daemon_event * string) :=
  match e with
  | NeRegister event => Ok (watched event RegisterID, prices)
  | NeUpdate event => Ok (watched event UpdateID, prices)
  | NeComplete event =>
      let? prices := gas_price_after event prices in
      do? nth_attr event CompleteID 0;
      do? nth_attr event CompleteNonce 0;
      Ok ([DeComplete event], prices)
  end.
(** [None] if the loop ends. *)
Definition runEventLoop_step (me : string) (w : pool) (e : daemon_event) (now : Z) : res (option pool) :=
  match e with
  | DeError => Ok None
  | DeDoc doc =>
      if d_Nonce doc =? 0 then let? w := ProcessRequestDoc me w doc 0 now in Ok (Some w)
      else match OracleData_BlockTime (d_RequestId doc) with
      | Ok timestamp => let? w := ProcessRequestDoc me w doc timestamp now in Ok (Some w)
      | Err _ => Ok (Some w)
      | Panic m => Panic m
      end
  | DeComplete event => let? w := complete_all w event (default [] (event !! CompleteID)) 0 now in Ok (Some w)
  end.
End queries.
(** The check of the connection: the failures in a row, [None] if it gives up. *)
Definition runHealthcheck_step (maxAttempts failures : Z) (healthy : bool) : option Z :=
  if healthy then Some 0
  else if failures + 1 <=? maxAttempts then Some (failures + 1) else None.

(** * Configuration *)

Record configData := mkConfig {
  c_ChainID : string; c_Endpoint : string; c_KeyName : string; c_KeyringDir : string; c_KeyringBackend : string;
  c_GasLimit : Z; c_GasAdjustment : Z (** in 18 decimals *); c_GasPrices : string; c_MaxAttempts : Z; c_MaxDelaySec : Z;
}.
Definition validateConfig (c : configData) : res configData :=
  if bool_decide (c_ChainID c = "") then Err (Error ErrOther "chain ID is required")
  else if bool_decide (c_Endpoint c = "") then Err (Error ErrOther "chain endpoint is required")
  else if bool_decide (c_KeyName c = "") then Err (Error ErrOther "key name is required")
  else if bool_decide (c_KeyringDir c = "") then Err (Error ErrOther "keyring directory is required")
  else if bool_decide (c_KeyringBackend c = "") then Err (Error ErrOther "keyring backend is required")
  else if c_GasLimit c =? 0 then Err (Error ErrOther "gas limit is required")
  else if bool_decide (c_GasPrices c = "") then Err (Error ErrOther "gas prices is required")
  else Ok (mkConfig (c_ChainID c) (c_Endpoint c) (c_KeyName c) (c_KeyringDir c) (c_KeyringBackend c) (c_GasLimit c)
         (if c_GasAdjustment c <=? 0 then dec_one * 12 / 10 else c_GasAdjustment c) (c_GasPrices c)
         (if c_MaxAttempts c <=? 0 then 6 else c_MaxAttempts c) (if c_MaxDelaySec c <=? 0 then 8 else c_MaxDelaySec c)).
(** The configuration that is written if there is none. *)
Definition DefaultConfig (home : string) : configData :=
  mkConfig "guru_631-1" "http://localhost:26657" "mykey" home "test" 70000 (dec_one * 15 / 10) "630000000000" 4 10.
Definition KeyringBackend_known (c : configData) : bool :=
  bool_decide (c_KeyringBackend c = "test") || bool_decide (c_KeyringBackend c = "file") || bool_decide (c_KeyringBackend c = "os").
Definition RetryMaxDelaySec (c : configData) : Z := to_int64 (c_MaxDelaySec c * second).
Definition isWebSocketHealthy (running : bool) (status : res unit) : bool := running && is_ok status.

(** * Theorems *)

(** ** Endpoints *)

Lemma slices_Index_some l x i : slices_Index l x = Some i -> l !! i = Some x.
Proof.
  revert i. induction l as [|y l IH]; intros i Hi; cbn in Hi; [done|]. destruct (decide (y = x)) as [->|]; [by injection Hi as <-|].
  destruct (slices_Index l x) as [j|]; [|done]. injection Hi as <-. by apply IH.
Qed.
Lemma slices_Index_at l x i : NoDup l -> l !! i = Some x -> slices_Index l x = Some i.
Proof.
  revert i. induction l as [|y l IH]; intros i Hnd Hi; [done|]. apply NoDup_cons in Hnd as [Hy Hnd]. cbn. destruct i as [|i].
  - injection Hi as ->. by rewrite decide_True.
  - rewrite decide_False; [by rewrite (IH i)|]. intros ->. apply Hy. by eapply list_elem_of_lookup_2.
Qed.
Lemma next_mod_inj i j n : (i < n)%nat -> (j < n)%nat -> ((i + 1) mod n = (j + 1) mod n)%nat -> i = j.
Proof.
  intros Hi Hj E. destruct (decide (i + 1 = n)%nat) as [Ei|Hi'], (decide (j + 1 = n)%nat) as [Ej|Hj']; [lia|..].
  - rewrite Ei, Nat.Div0.mod_same, (Nat.mod_small (j + 1)) in E by lia. lia.
  - rewrite Ej, Nat.Div0.mod_same, (Nat.mod_small (i + 1)) in E by lia. lia.
  - rewrite !Nat.mod_small in E by lia. lia.
Qed.
(**  The accounts of a document share its endpoints out: every account has one, no two
    accounts the same, and every endpoint up to the number of accounts is taken. *)
Theorem endpoints_shared_out accounts : NoDup accounts ->
  (forall x, x ∈ accounts -> exists k, endpoint_index accounts x = Some k /\ (k < length accounts)%nat) /\
  (forall x y k, endpoint_index accounts x = Some k -> endpoint_index accounts y = Some k -> x = y) /\
  forall k, (k < length accounts)%nat -> exists x, x ∈ accounts /\ endpoint_index accounts x = Some k.
Proof.
  intros Hnd. split_and!.
  - intros x [i Hi]%list_elem_of_lookup. unfold endpoint_index. rewrite (slices_Index_at _ _ _ Hnd Hi). eexists. split; [done|].
    apply Nat.mod_upper_bound. apply lookup_lt_Some in Hi. lia.
  - intros x y k Hx Hy. unfold endpoint_index in *. destruct (slices_Index accounts x) as [i|] eqn:Ex; [|done].
    destruct (slices_Index accounts y) as [j|] eqn:Ey; [|done]. injection Hx as Hx. injection Hy as Hy.
    apply slices_Index_some in Ex, Ey. apply lookup_lt_Some in Ex as Hi, Ey as Hj.
    rewrite (next_mod_inj i j (length accounts)) in Ex by (done || congruence). congruence.
  - intros k Hk. set (i := if decide (k = 0%nat) then (length accounts - 1)%nat else (k - 1)%nat).
    assert (i < length accounts)%nat as Hi by (unfold i; case_decide; lia).
    destruct (lookup_lt_is_Some_2 accounts i Hi) as [x Hx]. exists x. split; [by eapply list_elem_of_lookup_2|].
    unfold endpoint_index. rewrite (slices_Index_at _ _ _ Hnd Hx). f_equal. unfold i. case_decide as E.
    + subst k. replace (length accounts - 1 + 1)%nat with (length accounts) by lia. apply Nat.Div0.mod_same.
    + rewrite Nat.mod_small by lia. lia.
Qed.
(**  A document with fewer endpoints than accounts stops the daemons of the accounts
    that have none; the chain accepts such documents. *)
Theorem few_endpoints_panic me w doc timestamp now k : d_Status doc = REQUEST_STATUS_ENABLED ->
  endpoint_index (d_AccountList doc) me = Some k -> (length (d_Endpoints doc) <= k)%nat ->
  ProcessRequestDoc me w doc timestamp now = Panic "index out of range".
Proof.
  intros Hs Hk Hl. unfold ProcessRequestDoc. rewrite Hs, Z.eqb_refl, Hk. cbn [negb]. by rewrite lookup_ge_None_2.
Qed.

(** ** Fetching *)

Definition in_limit (contentLength : Z) (body : bytes) : Prop :=
  contentLength <= maxResponseSize /\ Z.of_nat (length body) <= maxResponseSize.
Definition tried_again (a : http_answer) : Prop :=
  match a with
  | HError _ => True
  | HAnswer status n (Ok body) => in_limit n body /\ status <> StatusOK /\ retryable status = true
  | _ => False
  end.
Definition gives (a : http_answer) (body : bytes) : Prop := exists n, a = HAnswer StatusOK n (Ok body) /\ in_limit n body.
Lemma fetch_attempts_spec answers body n : forall attempt, fetch_attempts n answers attempt = Ok body <->
  exists k, (k < n)%nat /\ (forall j, (j < k)%nat -> tried_again (answers (attempt + j)%nat)) /\ gives (answers (attempt + k)%nat) body.
Proof.
  induction n as [|n IH]; intros attempt; cbn [fetch_attempts]; [split; [done|intros (k & ? & _); lia]|].
  assert (tried_again (answers attempt) -> ~ (exists b, gives (answers attempt) b) ->
    fetch_attempts n answers (S attempt) = Ok body <-> exists k, (k < S n)%nat /\
      (forall j, (j < k)%nat -> tried_again (answers (attempt + j)%nat)) /\ gives (answers (attempt + k)%nat) body) as Hnext.
  { intros Ha Hg. rewrite IH. split.
    - intros (k & Hk & Hb & Hgk). exists (S k). rewrite Nat.add_succ_r. split_and!; [lia| |done].
      intros [|j] Hj; [by rewrite Nat.add_0_r|]. rewrite Nat.add_succ_r. apply Hb. lia.
    - intros ([|k] & Hk & Hb & Hgk); [rewrite Nat.add_0_r in Hgk; destruct Hg; by eexists|]. exists k. rewrite Nat.add_succ_r in Hgk.
      split_and!; [lia| |done]. intros j Hj. specialize (Hb (S j) ltac:(lia)). by rewrite Nat.add_succ_r in Hb. }
  assert (forall x : res bytes, x <> Ok body -> (forall b, ~ gives (answers attempt) b) -> ~ tried_again (answers attempt) ->
    x = Ok body <-> exists k, (k < S n)%nat /\
      (forall j, (j < k)%nat -> tried_again (answers (attempt + j)%nat)) /\ gives (answers (attempt + k)%nat) body) as Hstop.
  { intros x Hx Hg Ht. split; [done|]. intros ([|k] & _ & Hb & Hgk); [rewrite Nat.add_0_r in Hgk; by apply Hg in Hgk|].
    destruct Ht. specialize (Hb 0%nat ltac:(lia)). by rewrite Nat.add_0_r in Hb. }
  destruct (answers attempt) as [e|status len r] eqn:Ea; [apply Hnext; [done|]; intros (b & ? & [=] & _)|].
  destruct (Z.ltb_spec maxResponseSize len) as [Hl|Hl].
  { apply Hstop; [done| |].
    - intros b (n' & [= -> -> ->] & [? _]). lia.
    - destruct r; cbn; [|tauto..]. intros [[? _] _]. lia. }
  destruct r as [b|e|m]; cbn [rbind]; [|apply Hstop; [done| |tauto]; by intros ? (? & [=] & _)..].
  destruct (Z.ltb_spec maxResponseSize (Z.of_nat (length b))) as [Hb|Hb].
  { apply Hstop; [done| |].
    - intros b' (n' & [= -> -> ->] & [_ ?]). lia.
    - cbn. intros [[_ ?] _]. lia. }
  destruct (Z.eqb_spec status StatusOK) as [->|Hs].
  - split.
    + intros [= ->]. exists 0%nat. rewrite Nat.add_0_r, Ea. split_and!; [lia|intros; lia|by exists len].
    + intros ([|k] & _ & Ht & Hg); [rewrite Nat.add_0_r, Ea in Hg; destruct Hg as (? & [= _ ->] & _); done|].
      specialize (Ht 0%nat ltac:(lia)). rewrite Nat.add_0_r, Ea in Ht. destruct Ht as (_ & [] & _). done.
  - destruct (retryable status) eqn:Er.
    + apply Hnext; [done|]. intros (? & ? & [= ? _ _] & _). done.
    + apply Hstop; [done| |cbn; intuition congruence]. intros ? (? & [= ? _ _] & _). done.
Qed.
(**  A fetch gives a body exactly when one of its attempts is answered with status 200
    within the limits of size, and every attempt before it failed in a way that is tried
    again; the number of attempts is the configured one, and at least 1. *)
Theorem fetchRawData_spec maxAttempts answers body : fetchRawData maxAttempts true answers = Ok body <->
  exists k, Z.of_nat k < Z.max 1 maxAttempts /\ (forall j, (j < k)%nat -> tried_again (answers j)) /\ gives (answers k) body.
Proof.
  unfold fetchRawData. rewrite fetch_attempts_spec. cbn [Nat.add]. split; intros (k & Hk & H); exists k; (split; [lia|done]).
Qed.

(** ** The value at a path *)

(** What a path of keys and places leads to. *)
Inductive at_path : json -> list string -> json -> Prop :=
  | at_here j : at_path j [] j
  | at_key o k v parts j : object_get o k = Some v -> at_path v parts j -> at_path (JObject o) (k :: parts) j
  | at_place l k i v parts j : parseArrayIndex k = Ok i -> l !! Z.to_nat i = Some v -> at_path v parts j ->
      at_path (JArray l) (k :: parts) j.
Lemma traverse_spec parts : forall j v, traverse j parts = Ok v <-> at_path j parts v.
Proof.
  induction parts as [|part parts IH]; intros j v; cbn [traverse].
  - split; [intros [= ->]; constructor|by inversion 1].
  - split.
    + destruct j as [| | | |l|o]; try done.
      * destruct (parseArrayIndex part) as [i| |] eqn:Hi; [|done..]. destruct (l !! Z.to_nat i) eqn:Hl; [|done].
        intros ?%IH. by econstructor.
      * destruct (object_get o part) eqn:Ho; [|done]. intros ?%IH. by econstructor.
    + inversion 1 as [|? ? ? ? ? Ho Hp|? ? ? ? ? ? Hi Hl Hp]; subst; [rewrite Ho|rewrite Hi, Hl]; by apply IH.
Qed.
Lemma split_dots_cons c s : c <> Ascii.ascii_of_nat 46 -> exists p ps, split_dots s = p :: ps /\ split_dots (String c s) = String c p :: ps.
Proof.
  intros Hc. assert (exists p ps, split_dots s = p :: ps) as (p & ps & Hs).
  { destruct s as [|d s]; cbn; [eauto|]. case_decide; [eauto|]. destruct (split_dots s); eauto. }
  exists p, ps. split; [done|]. cbn. by rewrite decide_False, Hs.
Qed.
(** The parts of a path put together again, and a part without dots. *)
Lemma split_dots_app a s : (forall c, c ∈ String.list_ascii_of_string a -> c <> Ascii.ascii_of_nat 46) ->
  split_dots (a ++ "." ++ s) = a :: split_dots s /\ split_dots a = [a].
Proof.
  induction a as [|c a IH]; intros Ha; [done|]. destruct IH as [IH1 IH2]; [intros d Hd; apply Ha; by right|].
  assert (c <> Ascii.ascii_of_nat 46) as Hc by (apply Ha; left). split.
  - change ((String c a ++ "." ++ s)%string) with (String c (a ++ "." ++ s)).
    destruct (split_dots_cons c (a ++ "." ++ s) Hc) as (p & ps & Hs & ->). rewrite IH1 in Hs. by injection Hs as <- <-.
  - destruct (split_dots_cons c a Hc) as (p & ps & Hs & ->). rewrite IH2 in Hs. by injection Hs as <- <-.
Qed.
Definition no_dot (a : string) : Prop := forall c, c ∈ String.list_ascii_of_string a -> c <> Ascii.ascii_of_nat 46.
Lemma no_dot_check a : forallb (fun c => negb (bool_decide (c = Ascii.ascii_of_nat 46))) (String.list_ascii_of_string a) = true -> no_dot a.
Proof. intros Ha%Is_true_true c Hc. rewrite forallb_True, Forall_forall in Ha. apply Ha in Hc. by case_bool_decide. Qed.
Lemma split_dots_concat a parts : Forall no_dot (a :: parts) -> split_dots (String.concat "." (a :: parts)) = a :: parts.
Proof.
  revert a. induction parts as [|b parts IH]; intros a [Ha Hp]%Forall_cons.
  - apply (split_dots_app a ""). exact Ha.
  - change (String.concat "." (a :: b :: parts)) with (a ++ "." ++ String.concat "." (b :: parts))%string.
    rewrite (proj1 (split_dots_app a _ Ha)). by rewrite IH.
Qed.
(**  The keys and places of a path, joined by dots, lead to the value that is extracted,
    and an extraction gives nothing else. *)
Theorem extract_spec Sprint data a parts out : Forall no_dot (a :: parts) -> String.concat "." (a :: parts) <> "" ->
  extractDataByPath Sprint data (String.concat "." (a :: parts)) = Ok out <->
  exists v, at_path (JObject data) (a :: parts) v /\ out = Sprint v.
Proof.
  intros Hd Hne. unfold extractDataByPath. rewrite bool_decide_eq_false_2, split_dots_concat by done.
  destruct (traverse _ _) as [v| |] eqn:Ht; cbn [rbind].
  - split; [intros [= <-]; exists v; split; [by apply traverse_spec|done]|]. intros (v' & Hv%traverse_spec & ->). congruence.
  - split; [done|]. intros (v' & Hv%traverse_spec & ->). congruence.
  - split; [done|]. intros (v' & Hv%traverse_spec & ->). congruence.
Qed.

(** ** Rounds *)

(** A round: the completion of a nonce, the task it schedules and the value that is
    fetched.  [rounds]: the completions of [n], [n + 1], ..., from the task [t] on. *)
Definition round (r n t : Z) (x : Z * Z * string) : list pool_input :=
  [PComplete (req_id r) n x.1.1 x.1.2; PStart t; PFinish t (Value x.2)].
Fixpoint rounds (r n t : Z) (l : list (Z * Z * string)) : list pool_input :=
  match l with [] => [] | x :: l => round r n t x ++ rounds r (n + 1) (t + 1) l end.
Fixpoint results_from (r n : Z) (l : list (Z * Z * string)) : list (option OracleJobResult) :=
  match l with [] => [] | x :: l => Some (mkJobResult r x.2 n) :: results_from r (n + 1) l end.
(** The store has a job of [r] that is enabled, with nonce [m]. *)
Definition has_job (w : pool) (r m : Z) : Prop :=
  exists p j, stored_job w (req_id r) = Some (p, j) /\ j_ID j = r /\ j_Status j = REQUEST_STATUS_ENABLED /\ j_Nonce j = m.

Lemma stored_job_Some w req p j : stored_job w req = Some (p, j) <-> wp_jobStore w !! req = Some p /\ wp_heap w !! p = Some j.
Proof.
  unfold stored_job. destruct (wp_jobStore w !! req) as [q|]; [|naive_solver]. destruct (wp_heap w !! q) eqn:Hq; naive_solver.
Qed.
Lemma pool_run_app me l1 l2 : forall w, pool_run me w (l1 ++ l2) = let? w := pool_run me w l1 in pool_run me w l2.
Proof. induction l1 as [|i l1 IH]; intros w; cbn; [done|]. destruct (pool_step me w i); cbn; [apply IH|done..]. Qed.
Lemma start_finish me w t p j v nonce : wp_tasks w !! t = Some (p, None) -> wp_heap w !! p = Some j ->
  j_Status j = REQUEST_STATUS_ENABLED ->
  nonce = match stored_job w (req_id (j_ID j)) with Some (_, s) => wrap64 (j_Nonce s + 1) | None => wrap64 (j_Nonce j + 1) end ->
  exists w', pool_run me w [PStart t; PFinish t (Value v)] = Ok w' /\ has_job w' (j_ID j) nonce /\
    wp_next w' = wp_next w /\ wp_results w' = wp_results w ++ [Some (mkJobResult (j_ID j) v nonce)].
Proof.
  intros Ht Hp Hs Hn. cbn [pool_run pool_step rbind]. unfold start_task. rewrite Ht, Hp, Hs, Z.eqb_refl. cbn [negb].
  rewrite <- Hn. unfold finish_task. cbn [wp_tasks with_task]. rewrite lookup_insert_eq. cbn [wp_heap with_task]. rewrite Hp.
  eexists. split; [reflexivity|]. split; [|done]. exists p. eexists. rewrite stored_job_Some. cbn [wp_jobStore wp_heap with_task j_ID].
  rewrite !lookup_insert_eq. done.
Qed.
Lemma round_run me w r m n x : has_job w r m -> exists w',
  pool_run me w (round r n (wp_next w) x) = Ok w' /\ has_job w' r (wrap64 (Z.max m n + 1)) /\ wp_next w' = wp_next w + 1 /\
  wp_results w' = wp_results w ++ [Some (mkJobResult r x.2 (wrap64 (Z.max m n + 1)))].
Proof.
  intros (p & j & Hj & Hr & Hs & Hm). unfold round. change (?a :: ?b) with ([a] ++ b) at 1. rewrite pool_run_app.
  cbn [pool_run pool_step rbind]. unfold ProcessComplete. rewrite Hj, Hs, Z.eqb_refl. cbn [negb].
  set (j' := mkJob _ _ _ _ _ _ _). apply stored_job_Some in Hj as [Hst Hh].
  edestruct (start_finish me (executeJob (set_job w p j') p) (wp_next w) p j' x.2 (wrap64 (Z.max m n + 1)))
    as (w' & Hrun & Hhas & Hnext & Hres).
  - apply lookup_insert_eq.
  - apply lookup_insert_eq.
  - done.
  - cbn [j_ID j']. rewrite Hr. rewrite (proj2 (stored_job_Some _ _ p j')); [subst; done|]. split; [done|]. apply lookup_insert_eq.
  - exists w'. change (j_ID j') with (j_ID j) in *. rewrite Hr in *. split_and!; done.
Qed.
(** The nonces of the rounds start after the greater of the nonce that is stored and
    the one that is completed. *)
Lemma rounds_run me r l : forall w m n, has_job w r m -> 0 <= m -> 0 <= n -> Z.max m n + Z.of_nat (length l) <= max_uint64 ->
  exists w', pool_run me w (rounds r n (wp_next w) l) = Ok w' /\ has_job w' r (match l with [] => m | _ => Z.max m n + Z.of_nat (length l) end) /\
    wp_results w' = wp_results w ++ results_from r (Z.max m n + 1) l.
Proof.
  induction l as [|x l IH]; intros w m n Hj Hm Hn Hlen; cbn [rounds results_from].
  { exists w. rewrite app_nil_r. done. }
  cbn [length] in *. destruct (round_run me w r m n x Hj) as (w1 & Hr & Hj1 & Hn1 & Hres1).
  rewrite wrap64_small in Hj1, Hres1 by lia.
  destruct (IH w1 (Z.max m n + 1) (n + 1) Hj1) as (w2 & Hr2 & Hj2 & Hres2); [lia..|].
  exists w2. rewrite pool_run_app, Hr. cbn [rbind]. rewrite <- Hn1, Hr2. split; [done|].
  replace (Z.max (Z.max m n + 1) (n + 1)) with (Z.max m n + 1) in * by lia. split.
  - destruct l; [|]; eapply eq_ind; [exact Hj2|cbn [length]; lia|exact Hj2|cbn [length]; lia].
  - rewrite Hres2, Hres1, <- app_assoc. done.
Qed.

(** ** Interleavings *)

Lemma req_id_inj a b : uint64 a -> uint64 b -> req_id a = req_id b -> a = b.
Proof.
  unfold uint64, max_uint64, req_id. intros Ha Hb E. pose proof (ParseUint_FormatUint 64 a ltac:(lia)) as H1.
  rewrite E, ParseUint_FormatUint in H1 by lia. by injection H1.
Qed.
(** The ids of the documents are 64-bit integers. *)
Definition typed_input (i : pool_input) : Prop := match i with PDoc doc _ _ => uint64 (d_RequestId doc) | _ => True end.
(** Pointers are allocated, the store has every job under its own id. *)
Record pool_wf (w : pool) : Prop := {
  pw_heap : forall p j, wp_heap w !! p = Some j -> p < wp_next w /\ uint64 (j_ID j);
  pw_store : forall req p, wp_jobStore w !! req = Some p -> exists j, wp_heap w !! p = Some j /\ req = req_id (j_ID j);
  pw_tasks : forall t p o, wp_tasks w !! t = Some (p, o) -> t < wp_next w /\ is_Some (wp_heap w !! p);
}.
Lemma new_pool_wf : pool_wf new_pool.
Proof. by split; intros *; cbn; rewrite lookup_empty. Qed.

(** What belongs to the request [r] is the same in both pools: its place in the store,
    its jobs and its tasks. *)
Record same_for (r : Z) (w w' : pool) : Prop := {
  sf_store : wp_jobStore w' !! req_id r = wp_jobStore w !! req_id r;
  sf_heap : forall p j, wp_heap w !! p = Some j -> j_ID j = r -> wp_heap w' !! p = Some j;
  sf_tasks : forall t p o j, wp_tasks w !! t = Some (p, o) -> wp_heap w !! p = Some j -> j_ID j = r -> wp_tasks w' !! t = Some (p, o);
}.
#[local] Instance same_for_preorder r : PreOrder (same_for r).
Proof.
  split; [done|]. intros w1 w2 w3 [S1 H1 T1] [S2 H2 T2]. split; [congruence|eauto|].
  intros t p o j Ht Hp Hj. eauto.
Qed.

(** The writes of the pool: each keeps the pool well formed, and what belongs to [r] if
    it is about another request. *)
Lemma set_job_wf w p j j0 : pool_wf w -> wp_heap w !! p = Some j0 -> j_ID j = j_ID j0 ->
  pool_wf (set_job w p j) /\ forall r, j_ID j0 <> r -> same_for r w (set_job w p j).
Proof.
  intros [Hh Hs Ht] Hp Hid. split; [split; cbn|intros r Hr; split; cbn; [done| |done]].
  - intros q k [[<- <-]|[_ Hq]]%lookup_insert_Some; [|by apply Hh]. rewrite Hid. by apply Hh.
  - intros req q Hq. destruct (Hs _ _ Hq) as (k & Hk & ->). destruct (decide (p = q)) as [->|Hne].
    + exists j. rewrite lookup_insert_eq. split; [done|]. congruence.
    + exists k. by rewrite lookup_insert_ne.
  - intros t q o Hq. destruct (Ht _ _ _ Hq) as [? ?]. split; [done|]. by apply lookup_insert_is_Some'; right.
  - intros q k Hq Hk. rewrite lookup_insert_ne; [done|]. intros ->. congruence.
Qed.
Lemma alloc_wf w j : pool_wf w -> uint64 (j_ID j) -> pool_wf (alloc w j) /\ forall r, same_for r w (alloc w j).
Proof.
  intros [Hh Hs Ht] Hj. assert (forall p k, wp_heap w !! p = Some k -> <[wp_next w := j]> (wp_heap w) !! p = Some k) as Hold.
  { intros p k Hp. pose proof (Hh _ _ Hp) as [? _]. by rewrite lookup_insert_ne by lia. }
  split; [split; cbn|intros r; split; cbn; [done|auto|done]].
  - intros q k [[<- <-]|[_ Hq]]%lookup_insert_Some; [split; [lia|done]|]. apply Hh in Hq as [? ?]. split; [lia|done].
  - intros req q Hq. destruct (Hs _ _ Hq) as (k & Hk & ->). exists k. auto.
  - intros t q o Hq. destruct (Ht _ _ _ Hq) as [? ?]. split; [lia|]. by apply lookup_insert_is_Some'; right.
Qed.
Lemma executeJob_wf w p : pool_wf w -> is_Some (wp_heap w !! p) -> pool_wf (executeJob w p) /\ forall r, same_for r w (executeJob w p).
Proof.
  intros [Hh Hs Ht] Hp. split; [split; cbn|intros r; split; cbn; [done|done|]].
  - intros q k Hq. apply Hh in Hq as [? ?]. split; [lia|done].
  - done.
  - intros t q o [[<- [= <- <-]]|[_ Hq]]%lookup_insert_Some; [split; [lia|done]|]. apply Ht in Hq as [? ?]. split; [lia|done].
  - intros t q o j Hq _ _. rewrite lookup_insert_ne; [done|]. intros <-. apply Ht in Hq as [? _]. lia.
Qed.
Lemma remove_job_wf w req : pool_wf w -> pool_wf (remove_job w req) /\ forall r, req <> req_id r -> same_for r w (remove_job w req).
Proof.
  intros [Hh Hs Ht]. split; [split; cbn; [done| |done]|intros r Hr; split; cbn; [|done|done]].
  - intros q p [_ Hq]%lookup_delete_Some. by apply Hs.
  - by rewrite lookup_delete_ne.
Qed.
Lemma with_task_wf w t p o x : pool_wf w -> wp_tasks w !! t = Some (p, o) ->
  (x = None \/ exists n, x = Some (p, Some n)) ->
  pool_wf (with_task w t x) /\ forall r, (forall j, wp_heap w !! p = Some j -> j_ID j <> r) -> same_for r w (with_task w t x).
Proof.
  intros [Hh Hs Ht] Hp Hx. pose proof (Ht _ _ _ Hp) as [? ?].
  split; [split; cbn; [done|done|]|intros r Hr; split; cbn; [done|done|]].
  - intros t' q o' Hq. destruct Hx as [->|[n ->]].
    + apply lookup_delete_Some in Hq as [_ Hq]. eauto.
    + apply lookup_insert_Some in Hq as [[<- [= <- <-]]|[_ Hq]]; eauto.
  - intros t' q o' j Hq Hj Hid. assert (t <> t') as Hne.
    { intros <-. rewrite Hp in Hq. injection Hq as <- <-. by apply (Hr j). }
    destruct Hx as [->|[n ->]]; [by rewrite lookup_delete_ne|by rewrite lookup_insert_ne].
Qed.
Lemma put_wf w p j results : pool_wf w -> wp_heap w !! p = Some j ->
  let w' := mkPool (wp_heap w) (<[req_id (j_ID j) := p]> (wp_jobStore w)) (wp_tasks w) (wp_next w) results in
  pool_wf w' /\ forall r, uint64 r -> j_ID j <> r -> same_for r w w'.
Proof.
  intros Hw Hp. pose proof Hw as [Hh Hs Ht]. split; [split; cbn; [done| |done]|intros r Hr Hne; split; cbn; [|done|done]].
  - intros req q [[<- <-]|[_ Hq]]%lookup_insert_Some; [by exists j|by apply Hs].
  - rewrite lookup_insert_ne; [done|]. intros E. apply req_id_inj in E; [done| |done]. by apply (Hh p).
Qed.

(** An input that is about another request than [r]. *)
Definition about_other (r : Z) (w : pool) (i : pool_input) : Prop :=
  match i with
  | PDoc doc _ _ => d_RequestId doc <> r
  | PComplete reqID _ _ _ => reqID <> req_id r
  | PStart t | PFinish t _ | PDrop t =>
      forall p o j, wp_tasks w !! t = Some (p, o) -> wp_heap w !! p = Some j -> j_ID j <> r
  end.
Definition keeps (r : Z) (w : pool) (other : Prop) (w' : pool) : Prop := pool_wf w' /\ (other -> uint64 r -> same_for r w w').
Lemma keeps_refl r w other : pool_wf w -> keeps r w other w.
Proof. by split. Qed.

Lemma doc_keeps me r w doc ts now w' : pool_wf w -> uint64 (d_RequestId doc) ->
  ProcessRequestDoc me w doc ts now = Ok w' -> keeps r w (d_RequestId doc <> r) w'.
Proof.
  intros Hw Hid Hr. unfold ProcessRequestDoc in Hr. destruct (negb _).
  { injection Hr as <-. destruct (remove_job_wf w (req_id (d_RequestId doc)) Hw) as [? Hs]. split; [done|].
    intros Hne Hr. apply Hs. intros E. by apply req_id_inj in E. }
  destruct (endpoint_index _ _) as [k|]; [|injection Hr as <-; by apply keeps_refl].
  destruct (d_Endpoints doc !! k) as [e|]; [|done]. injection Hr as <-. set (j := mkJob _ _ _ _ _ _ _).
  destruct (alloc_wf w j Hw Hid) as [Hw1 Hs1].
  destruct (executeJob_wf (alloc w j) (wp_next w) Hw1) as [Hw2 Hs2]; [cbn; rewrite lookup_insert_eq; eauto|].
  split; [done|]. intros _ _. etrans; [apply Hs1|apply Hs2].
Qed.
Lemma complete_keeps r w reqID n ts now : pool_wf w -> keeps r w (reqID <> req_id r) (ProcessComplete w reqID n ts now).
Proof.
  intros Hw. unfold ProcessComplete. destruct (stored_job w reqID) as [[p job]|] eqn:Hj; [|by apply keeps_refl].
  destruct (negb _). { destruct (remove_job_wf w reqID Hw) as [? Hs]. split; [done|]. intros Hne _. by apply Hs. }
  apply stored_job_Some in Hj as [Hst Hp]. set (j := mkJob _ _ _ _ _ _ _).
  destruct (set_job_wf w p j job Hw Hp eq_refl) as [Hw1 Hs1].
  destruct (executeJob_wf (set_job w p j) p Hw1) as [Hw2 Hs2]; [cbn; rewrite lookup_insert_eq; eauto|].
  split; [done|]. intros Hne _. etrans; [apply Hs1|apply Hs2]. destruct (pw_store _ Hw _ _ Hst) as (k & Hk & ->).
  rewrite Hp in Hk. injection Hk as <-. congruence.
Qed.
Lemma start_keeps r w t : pool_wf w -> keeps r w (about_other r w (PStart t)) (start_task w t).
Proof.
  intros Hw. unfold start_task. destruct (wp_tasks w !! t) as [[p [n|]]|] eqn:Ht; [by apply keeps_refl| |by apply keeps_refl].
  destruct (wp_heap w !! p) as [task|] eqn:Hp; [|by apply keeps_refl]. destruct (negb _).
  - destruct (remove_job_wf w (req_id (j_ID task)) Hw) as [Hw1 Hs1].
    destruct (with_task_wf (remove_job w (req_id (j_ID task))) t p None None Hw1 Ht (or_introl eq_refl)) as [Hw2 Hs2].
    split; [done|]. intros Ho Hr. pose proof (Ho _ _ _ Ht Hp) as Hne. etrans; [apply Hs1|apply Hs2].
    + intros E. apply req_id_inj in E; [done|by apply (pw_heap _ Hw p)|done].
    + cbn. intros j Hj. congruence.
  - edestruct (with_task_wf w t p None) as [Hw2 Hs2]; [done|done|right; eexists; reflexivity|].
    split; [done|]. intros Ho Hr. apply Hs2. intros j Hj. by apply (Ho p None).
Qed.
Lemma finish_keeps r w t x : pool_wf w -> keeps r w (about_other r w (PFinish t x)) (finish_task w t x).
Proof.
  intros Hw. unfold finish_task. destruct (wp_tasks w !! t) as [[p [n|]]|] eqn:Ht; [|by apply keeps_refl..].
  destruct (wp_heap w !! p) as [task|] eqn:Hp; [|by apply keeps_refl].
  destruct (with_task_wf w t p (Some n) None Hw Ht (or_introl eq_refl)) as [Hw1 Hs1].
  assert (about_other r w (PFinish t x) -> same_for r w (with_task w t None)) as Hs by (intros Ho; apply Hs1; intros j Hj; by apply (Ho p (Some n))).
  cbv zeta. destruct x as [| |v].
  - split; [destruct Hw1; by split|]. intros Ho _. destruct (Hs Ho). by split.
  - split; [done|]. auto.
  - set (j := mkJob _ _ _ _ _ _ _). destruct (set_job_wf (with_task w t None) p j task Hw1 Hp eq_refl) as [Hw2 Hs2].
    edestruct (put_wf (set_job (with_task w t None) p j) p j) as [Hw3 Hs3]; [exact Hw2|apply lookup_insert_eq|].
    split; [exact Hw3|]. intros Ho Hr. pose proof (Ho _ _ _ Ht Hp) as Hne. etrans; [by apply Hs|]. etrans; [by apply Hs2|].
    by apply Hs3.
Qed.
Lemma step_keeps me r w i w' : pool_wf w -> typed_input i -> pool_step me w i = Ok w' -> keeps r w (about_other r w i) w'.
Proof.
  intros Hw Hi Hr. destruct i as [doc ts now|req n ts now|t|t x|t]; cbn [pool_step] in Hr; [by eapply doc_keeps|injection Hr as <-..].
  - by apply complete_keeps.
  - by apply start_keeps.
  - by apply finish_keeps.
  - unfold drop_task. destruct (wp_tasks w !! t) as [[p [n|]]|] eqn:Ht; [by apply keeps_refl| |by apply keeps_refl].
    destruct (wp_heap w !! p) as [task|] eqn:Hp; [|by apply keeps_refl]. destruct (_ && _); [|by apply keeps_refl].
    destruct (with_task_wf w t p None None Hw Ht (or_introl eq_refl)) as [Hw1 Hs1].
    split; [done|]. intros Ho _. apply Hs1. intros j Hj. by apply (Ho p None).
Qed.

(** The states a daemon reaches, by whatever happens; and what happens to other requests
    than [r] in the meantime. *)
Definition pool_reachable (me : string) (w : pool) : Prop := exists l, Forall typed_input l /\ pool_run me new_pool l = Ok w.
Inductive meanwhile (me : string) (r : Z) : pool -> pool -> Prop :=
  | meanwhile_nothing w : meanwhile me r w w
  | meanwhile_step w i w1 w2 : typed_input i -> about_other r w i -> pool_step me w i = Ok w1 -> meanwhile me r w1 w2 -> meanwhile me r w w2.

Lemma reachable_pool_wf me w : pool_reachable me w -> pool_wf w.
Proof.
  intros (l & Hl & Hr). revert Hr. generalize new_pool_wf. generalize new_pool as w0. induction Hl as [|i l Hi _ IH]; intros w0 Hw0 Hr.
  - by injection Hr as <-.
  - cbn [pool_run] in Hr. apply rbind_ok in Hr as (w1 & Hs & Hr). apply (IH w1); [|done]. by apply (step_keeps me 0 _ _ _ Hw0 Hi) in Hs as [? _].
Qed.
Lemma meanwhile_same me r w w' : uint64 r -> pool_wf w -> meanwhile me r w w' -> pool_wf w' /\ same_for r w w'.
Proof.
  intros Hr Hw Hm. induction Hm as [w|w i w1 w2 Hi Ho Hs _ IH]; [done|]. destruct (step_keeps me r _ _ _ Hw Hi Hs) as [Hw1 Hs1].
  destruct (IH Hw1) as [? ?]. split; [done|]. etrans; [by apply Hs1|done].
Qed.

(** A completion that finds its job, and the task it schedules, with other requests
    served in between. *)
Lemma round_meanwhile me w r m n ts now w1 w2 v : pool_reachable me w -> uint64 r -> has_job w r m ->
  meanwhile me r (ProcessComplete w (req_id r) n ts now) w1 -> meanwhile me r (start_task w1 (wp_next w)) w2 ->
  let w3 := finish_task w2 (wp_next w) (Value v) in
  has_job w3 r (wrap64 (Z.max m n + 1)) /\ wp_results w3 = wp_results w2 ++ [Some (mkJobResult r v (wrap64 (Z.max m n + 1)))].
Proof.
  intros Hreach Hr (p & j & Hj & Hid & Hst & Hm) Hw1 Hw2 w3. pose proof (reachable_pool_wf _ _ Hreach) as Hw.
  pose proof (complete_keeps r w (req_id r) n ts now Hw) as [Hwc _]. unfold ProcessComplete in Hw1, Hwc. rewrite Hj, Hst, Z.eqb_refl in Hw1, Hwc.
  cbn [negb] in Hw1, Hwc. set (j' := mkJob _ _ _ _ _ _ _) in Hw1, Hwc. set (wc := executeJob _ p) in Hw1, Hwc.
  apply stored_job_Some in Hj as [Hs Hp].
  destruct (meanwhile_same _ _ _ _ Hr Hwc Hw1) as [Hwf1 [Ss1 Sh1 St1]].
  assert (wp_heap w1 !! p = Some j') as Hp1 by (apply Sh1; [apply lookup_insert_eq|exact Hid]).
  assert (wp_jobStore w1 !! req_id r = Some p) as Hs1 by (by rewrite Ss1).
  assert (wp_tasks w1 !! wp_next w = Some (p, None)) as Ht1 by (apply (St1 _ _ _ j'); [apply lookup_insert_eq..|exact Hid]).
  pose proof (start_keeps r w1 (wp_next w) Hwf1) as [Hwfs _]. unfold start_task in Hw2, Hwfs.
  assert (j_Status j' = REQUEST_STATUS_ENABLED) as Hst' by done. assert (j_ID j' = r) as Hid' by exact Hid.
  rewrite Ht1, Hp1, Hst', Z.eqb_refl, Hid' in Hw2, Hwfs. cbn [negb] in Hw2, Hwfs. rewrite (proj2 (stored_job_Some _ _ p j')) in Hw2, Hwfs by done.
  replace (j_Nonce j' + 1) with (Z.max m n + 1) in Hw2, Hwfs by (cbn; by rewrite Hm).
  destruct (meanwhile_same _ _ _ _ Hr Hwfs Hw2) as [_ [Ss2 Sh2 St2]].
  assert (wp_heap w2 !! p = Some j') as Hp2 by (by apply Sh2).
  assert (wp_tasks w2 !! wp_next w = Some (p, Some (wrap64 (Z.max m n + 1)))) as Ht2 by (apply (St2 _ _ _ j'); [apply lookup_insert_eq|done..]).
  unfold w3, finish_task. rewrite Ht2, Hp2. cbv zeta. cbn [wp_results with_task]. rewrite Hid'. split; [|done].
  exists p. eexists. rewrite stored_job_Some. cbn [wp_jobStore wp_heap j_ID]. rewrite !lookup_insert_eq. done.
Qed.

Section with_chain.
Context `{AddressCodec, DecLib, OracleAccounts, FloatText, SortSlice}.
(** The key of the daemon is the key of its account, as the chain verifies it. *)
Definition signs_for (Sign : bytes -> res bytes) (me : string) : Prop :=
  exists acc pk, acc_of_bech32 me = Some acc /\ GetAccount acc = Some (Some pk) /\
    forall b, exists sig, Sign b = Ok sig /\ length sig = 65%nat /\ (sig !! 64%nat = Some 0 \/ sig !! 64%nat = Some 1) /\
      VerifySignature pk b sig = true.
(** The document of [r] on the chain waits for the nonce after [n] from [me]. *)
Definition awaits (s : or_state) (r n : Z) (me : string) : Prop :=
  exists doc, GetOracleRequestDoc s r = Ok doc /\ d_Status doc = REQUEST_STATUS_ENABLED /\ me ∈ d_AccountList doc /\ d_Nonce doc = n.

Lemma submit_message_signed Sign me r v n : signs_for Sign me -> exists sig,
  submit_message Sign me (mkJobResult r v n) = Ok (mkMsgSubmit me (Some (mkSubmit r n v me sig))) /\
  verifySubmitData (mkSubmit r n v me sig) = Ok (mkSubmit r n v me sig).
Proof.
  intros (acc & pk & Ha & Hpk & Hsig). unfold submit_message, verifySubmitData, Bytes. cbv zeta.
  cbn [jr_ID jr_Nonce jr_Data sd_Provider sd_RequestId sd_Nonce sd_RawData sd_Signature]. rewrite Ha. cbn [rbind].
  set (b := (_ ++ acc)). destruct (Hsig b) as (sig & Hs & Hl & Hv & Hok). exists sig. rewrite Hs. split; [done|].
  cbn [wrap_err rbind]. rewrite Hpk, Hl. cbn [Nat.eqb negb].
  assert (forall x, sig !! 64%nat = Some x -> <[64%nat := x]> sig = sig) as Hsame by (intros; by apply list_insert_id).
  destruct Hv as [Hv|Hv]; rewrite Hv; cbn [Z.leb Z.compare Pos.compare Pos.compare_cont Z.eqb Pos.eqb negb andb]; rewrite (Hsame _ Hv), Hok; done.
Qed.
(** A result is accepted exactly if it has the nonce that the document waits for. *)
Lemma result_accepted Sign me r v n m s : signs_for Sign me -> awaits s r n me -> 0 <= n < max_uint64 ->
  r <> 0 -> v <> "" -> me <> "" -> 0 < m ->
  exists msg, submit_message Sign me (mkJobResult r v m) = Ok msg /\
    ((SubmitOracleData msg s).1 = Ok tt <-> m = n + 1) /\ ((SubmitOracleData msg s).1 <> Ok tt -> (SubmitOracleData msg s).2 = s).
Proof.
  intros Hsign (doc & Hdoc & Hst & Hin & Hn) Hb Hr Hv Hme Hm. destruct (submit_message_signed Sign me r v m Hsign) as (sig & Hmsg & Hver).
  eexists. split; [exact Hmsg|]. destruct (SubmitOracleData _ s) as [res s'] eqn:Hs. cbn [fst snd]. split; [split|].
  - intros ->. apply submit_inv in Hs as [[? _]|(data & data' & _ & Hg & _)]; [done|].
    destruct Hg as ([= <-] & _ & doc' & Hdoc' & _ & _ & Hnonce & _). cbn [sd_RequestId sd_Nonce] in *.
    rewrite Hdoc in Hdoc'. injection Hdoc' as <-. rewrite Hn, wrap64_small in Hnonce by lia. done.
  - intros ->. pose proof (submit_run (mkMsgSubmit me (Some (mkSubmit r (n + 1) v me sig))) s _ _ ltac:(
      split; [reflexivity|]; split; [|exists doc; cbn [sd_RequestId sd_Nonce]; rewrite Hn, wrap64_small by lia; split_and!; [exact Hdoc|done..|by apply verifySubmitData_spec]];
      cbn [sd_RequestId sd_Nonce sd_Provider sd_RawData]; split_and!; try done; lia)) as Hrun. congruence.
  - intros Hne. by apply submit_inv in Hs as [[_ ->]|(? & ? & -> & _)].
Qed.
Lemma results_from_lookup r l : forall n i x, results_from r n l !! i = Some x ->
  exists y, l !! i = Some y /\ x = Some (mkJobResult r y.2 (n + Z.of_nat i)).
Proof.
  induction l as [|y l IH]; intros n i x Hx; [done|]. destruct i as [|i]; cbn in Hx.
  - injection Hx as <-. exists y. split; [done|]. by rewrite Z.add_0_r.
  - apply IH in Hx as (z & Hz & ->). exists z. split; [done|]. do 2 f_equal. lia.
Qed.

(**  The rounds of a daemon that nothing disturbs.  The pool takes the document of a request, fetches a value,
    and goes on after every completion: the results have the nonces after the
    document's, one after the other, and x/oracle accepts the message of every one
    of them while the document waits for it. *)
Theorem daemon_keeps_up Sign me doc e k timestamp now v0 l :
  signs_for Sign me -> me <> "" ->
  d_Status doc = REQUEST_STATUS_ENABLED -> endpoint_index (d_AccountList doc) me = Some k -> d_Endpoints doc !! k = Some e ->
  0 < d_RequestId doc -> 0 <= d_Nonce doc -> d_Nonce doc + 1 + Z.of_nat (length l) < max_uint64 ->
  v0 <> "" -> Forall (fun x => x.2 <> "") l ->
  let r := d_RequestId doc in let n := d_Nonce doc in
  exists w', pool_run me new_pool ([PDoc doc timestamp now; PStart 1; PFinish 1 (Value v0)] ++ rounds r (n + 1) 2 l) = Ok w' /\
    wp_results w' = results_from r (n + 1) ((timestamp, now, v0) :: l) /\
    forall i x, wp_results w' !! i = Some x -> exists result, x = Some result /\ forall s, awaits s r (n + Z.of_nat i) me ->
      exists msg, submit_message Sign me result = Ok msg /\ (SubmitOracleData msg s).1 = Ok tt.
Proof.
  intros Hsign Hme Hst Hk He Hr Hn Hlen Hv0 Hl r n.
  rewrite pool_run_app. set (tasks := [PStart 1; PFinish 1 (Value v0)]). change (_ :: tasks) with ([PDoc doc timestamp now] ++ tasks).
  rewrite pool_run_app. cbn [pool_run pool_step]. unfold ProcessRequestDoc. rewrite Hst, Z.eqb_refl, Hk, He. cbn [negb rbind].
  set (w1 := executeJob _ _). set (j := mkJob _ _ _ _ _ _ _) in w1.
  destruct (start_finish me w1 1 0 j v0 (n + 1)) as (w2 & Hrun & Hj & Hnext & Hres); [done..| |].
  { change (j_Nonce j) with (Z.max n n). rewrite Z.max_id. cbn. rewrite wrap64_small by (unfold n; lia). done. }
  unfold tasks. rewrite Hrun. cbn [rbind]. change (j_ID j) with r in *. change (wp_results w1) with (@nil (option OracleJobResult)) in Hres.
  destruct (rounds_run me r l w2 (n + 1) (n + 1) Hj) as (w' & Hrun' & _ & Hres'); [unfold n; lia..|].
  change (wp_next w1) with 2 in Hnext. rewrite Hnext in Hrun'. rewrite Z.max_id in Hres'.
  assert (wp_results w' = results_from r (n + 1) ((timestamp, now, v0) :: l)) as Hall by (rewrite Hres', Hres; done).
  exists w'. split_and!; [done..|]. intros i x Hx. rewrite Hall in Hx. apply results_from_lookup in Hx as (y & Hy & ->).
  eexists. split; [done|]. intros s Ha. assert (i < S (length l))%nat as Hi by (apply lookup_lt_Some in Hy; exact Hy).
  destruct (result_accepted Sign me r y.2 (n + Z.of_nat i) (n + 1 + Z.of_nat i) s) as (msg & Hmsg & Hok & _);
    [done..|unfold n; lia|unfold r; lia| |done|unfold n; lia|].
  { destruct i as [|i]; cbn in Hy; [by injection Hy as <-|]. rewrite Forall_lookup in Hl. by apply (Hl i y). }
  exists msg. split; [done|]. apply Hok. lia.
Qed.
(**  A daemon whose nonce is ahead of the document stays ahead: it takes the greater of
    its own nonce and the one that is completed, so that it submits one nonce too many
    in every round that the others complete, and x/oracle refuses all of them. *)
Theorem ahead_stays_ahead Sign me w r m n l :
  signs_for Sign me -> me <> "" -> has_job w r m -> 0 <= n < m -> r <> 0 -> m + Z.of_nat (length l) < max_uint64 ->
  Forall (fun x => x.2 <> "") l ->
  exists w', pool_run me w (rounds r n (wp_next w) l) = Ok w' /\ wp_results w' = wp_results w ++ results_from r (m + 1) l /\
    forall i x, results_from r (m + 1) l !! i = Some x -> exists result, x = Some result /\ forall s, awaits s r (n + Z.of_nat i) me ->
      exists msg, submit_message Sign me result = Ok msg /\ (SubmitOracleData msg s).1 <> Ok tt /\ (SubmitOracleData msg s).2 = s.
Proof.
  intros Hsign Hme Hj Hn Hr Hlen Hl. destruct (rounds_run me r l w m n Hj) as (w' & Hrun & _ & Hres); [lia..|].
  rewrite Z.max_l in Hres by lia. exists w'. split_and!; [done..|]. intros i x Hx. apply results_from_lookup in Hx as (y & Hy & ->).
  eexists. split; [done|]. intros s Ha. assert (i < length l)%nat as Hi by (by apply lookup_lt_Some in Hy).
  destruct (result_accepted Sign me r y.2 (n + Z.of_nat i) (m + 1 + Z.of_nat i) s) as (msg & Hmsg & Hok & Hsame);
    [done..|lia|done| |done|lia|]. { rewrite Forall_lookup in Hl. by apply (Hl i y). }
  exists msg. assert ((SubmitOracleData msg s).1 <> Ok tt) as Hne by (rewrite Hok; lia). split_and!; [done..|by apply Hsame].
Qed.
End with_chain.

(** ** Submitting *)

Section sequences.
Context `{AddressCodec}.
Variable Sign : bytes -> res bytes.
Variable TxBuilds : MsgSubmitOracleData -> Z -> bool.
Variable node : Type.
Variable BroadcastTx : node -> MsgSubmitOracleData -> Z -> node * option Z.
Variable GetSequence : node -> res Z.
(** A node takes a transaction that has the sequence of the account and refuses another
    with the code of a wrong sequence. *)
Hypothesis node_sequence : forall s q, GetSequence s = Ok q -> forall msg q',
  if q' =? q then (BroadcastTx s msg q').2 = Some 0 else BroadcastTx s msg q' = (s, Some ErrWrongSequenceCode).
Hypothesis builds : forall msg q, TxBuilds msg q = true.
Abbreviation attempts := (broadcast_attempts Sign TxBuilds node BroadcastTx GetSequence).

Lemma right_sequence n me r msg s q : submit_message Sign me r = Ok msg -> GetSequence s = Ok q ->
  attempts (S n) me r s q = ((BroadcastTx s msg q).1, wrap64 (q + 1), Submitted).
Proof.
  intros Hm Hq. cbn [broadcast_attempts]. rewrite Hm, builds. cbn [negb]. pose proof (node_sequence s q Hq msg q) as Hn.
  rewrite Z.eqb_refl in Hn. destruct (BroadcastTx s msg q) as [s' a]. cbn [snd] in Hn. by rewrite Hn.
Qed.
(**  A submitter whose sequence is not the one of the account asks the node for it and
    submits with it, if it may try twice; its sequence is then the next one. *)
Theorem submit_resyncs maxAttempts me r msg s q sequenceN : submit_message Sign me r = Ok msg -> GetSequence s = Ok q -> 2 <= maxAttempts ->
  BroadcastTxWithRetry Sign TxBuilds node BroadcastTx GetSequence maxAttempts me r s sequenceN =
  ((BroadcastTx s msg q).1, wrap64 (q + 1), Submitted).
Proof.
  intros Hm Hq Hmax. unfold BroadcastTxWithRetry. destruct (Z.to_nat (Z.max 1 maxAttempts)) as [|[|n]] eqn:En; [lia..|].
  destruct (Z.eqb_spec sequenceN q) as [->|Hne]; [by apply right_sequence|].
  rewrite <- (right_sequence n me r msg s q Hm Hq). pose proof (node_sequence s q Hq msg sequenceN) as Hn.
  rewrite (proj2 (Z.eqb_neq _ _) Hne) in Hn.
  remember (S n) as k eqn:Ek. cbn [broadcast_attempts].
  rewrite Hm, builds, Hn. cbn [negb Z.eqb InvalidRequestCode ErrWrongSequenceCode Pos.eqb]. by rewrite Hq.
Qed.
End sequences.

(** ** Events and configuration *)

Lemma complete_all_run event now l : forall w i,
  Forall (fun x : Z * Z * Z => uint64 x.1.2 /\ uint64 x.2) l ->
  (forall k x, l !! k = Some x -> default [] (event !! CompleteNonce) !! (i + k)%nat = Some (FormatUint x.1.2) /\
     default [] (event !! CompleteTime) !! (i + k)%nat = Some (FormatUint x.2)) ->
  complete_all w event (map (fun x => req_id x.1.1) l) i now = Ok (foldl (fun w x => ProcessComplete w (req_id x.1.1) x.1.2 x.2 now) w l).
Proof.
  induction l as [|x l IH]; intros w i Hb Hl; cbn; [done|]. apply Forall_cons in Hb as [[Hn Ht] Hb].
  destruct (Hl 0%nat x eq_refl) as [H1 H2]. rewrite Nat.add_0_r in H1, H2. unfold nth_attr. rewrite H1. cbn [rbind].
  unfold uint64, max_uint64 in *. rewrite ParseUint_FormatUint by lia. rewrite H2. cbn [rbind]. rewrite ParseUint_FormatUint by lia.
  apply IH; [done|]. intros k y Hk. specialize (Hl (S k) y Hk). by rewrite Nat.add_succ_r in Hl.
Qed.
(**  The completions of a block, which come as lists of attributes, reach the jobs one
    after the other, each with its own nonce and time. *)
Theorem completions_in_order OracleData me w event l now : Forall (fun x : Z * Z * Z => uint64 x.1.2 /\ uint64 x.2) l ->
  event !! CompleteID = Some (map (fun x => FormatUint x.1.1) l) ->
  event !! CompleteNonce = Some (map (fun x => FormatUint x.1.2) l) ->
  event !! CompleteTime = Some (map (fun x => FormatUint x.2) l) ->
  runEventLoop_step OracleData me w (DeComplete event) now =
  Ok (Some (foldl (fun w x => ProcessComplete w (req_id x.1.1) x.1.2 x.2 now) w l)).
Proof.
  intros Hb Hid Hn Ht. cbn [runEventLoop_step]. rewrite Hid. cbn [from_option id].
  pose proof (complete_all_run event now l w 0 Hb) as E. unfold req_id in E |- *. rewrite E; [done|]. intros k x Hk. rewrite Hn, Ht. cbn [from_option id Nat.add].
  rewrite !list_lookup_fmap, Hk. done.
Qed.
(**  A configuration that is accepted has positive limits, and is not changed if it is
    read again. *)
Theorem validateConfig_stable c c' : validateConfig c = Ok c' ->
  validateConfig c' = Ok c' /\ 0 < c_MaxAttempts c' /\ 0 < c_MaxDelaySec c' /\ 0 < c_GasAdjustment c' /\ c_GasLimit c' <> 0.
Proof.
  unfold validateConfig. set (a := dec_one * 12 / 10). assert (0 < a) as Hd by (vm_compute; reflexivity). clearbody a. intros Hv.
  do 5 (case_bool_decide; [discriminate|]). destruct (Z.eqb_spec (c_GasLimit c) 0); [discriminate|].
  case_bool_decide; [discriminate|]. injection Hv as <-.
  cbn [c_ChainID c_Endpoint c_KeyName c_KeyringDir c_KeyringBackend c_GasLimit c_GasPrices c_MaxAttempts c_MaxDelaySec c_GasAdjustment].
  rewrite !bool_decide_eq_false_2, (proj2 (Z.eqb_neq _ _)) by assumption.
  assert (forall x d, 0 < d -> 0 < (if x <=? 0 then d else x)) as Hp by (intros x d ?; destruct (Z.leb_spec x 0); lia).
  pose proof (Hp (c_GasAdjustment c) a Hd) as Ha1. pose proof (Hp (c_MaxAttempts c) 6 eq_refl) as Ha2.
  pose proof (Hp (c_MaxDelaySec c) 8 eq_refl) as Ha3.
  rewrite (proj2 (Z.leb_gt _ _) Ha1), (proj2 (Z.leb_gt _ _) Ha2), (proj2 (Z.leb_gt _ _) Ha3). by split_and!.
Qed.

(** ** The theorems on concrete data *)

Definition d_sign (b : bytes) : res bytes := Ok (lsum ([1] ++ b) mod 256 :: repeat 0 63 ++ [1]).
Lemma d_signs : signs_for d_sign o_p1.
Proof.
  exists [1], [1]. split_and!; [by vm_compute|done|]. intros b. eexists. split; [reflexivity|]. split; [done|]. split; [by right|].
  cbn [VerifySignature ModelOracleAccounts]. apply bool_decide_eq_true_2. reflexivity.
Qed.
Definition d_doc (nonce : Z) : OracleRequestDoc :=
  mkDoc 1 ORACLE_TYPE_MIN_GAS_PRICE "gas" "gas price" 60 [o_p1; o_p2] 2 [mkEndpoint "u" "p"; mkEndpoint "v" "q"] AGGREGATION_RULE_MEDIAN
    REQUEST_STATUS_ENABLED nonce.
Definition d_chain (nonce : Z) : or_state :=
  (SetOracleRequestDoc (d_doc nonce) o_empty).2.
Lemma d_awaits nonce : awaits (d_chain nonce) 1 nonce o_p1.
Proof. exists (d_doc nonce). split_and!; [|done|by left|done]. reflexivity. Qed.

Lemma endpoints_shared_out_witness :
  endpoint_index [o_p1; o_p2; o_p3] o_p3 = Some 0%nat /\
  exists x, x ∈ [o_p1; o_p2; o_p3] /\ endpoint_index [o_p1; o_p2; o_p3] x = Some 2%nat.
Proof.
  split; [vm_compute; reflexivity|]. apply (endpoints_shared_out [o_p1; o_p2; o_p3]); [|cbn; lia].
  apply (bool_decide_unpack _). vm_compute. reflexivity.
Defined.
(** The document of the tests of x/oracle: the chain accepts it. *)
Lemma few_endpoints_panic_witness :
  Doc_Validate (o_doc AGGREGATION_RULE_MEDIAN) = Ok tt /\
  ProcessRequestDoc o_p1 new_pool (o_doc AGGREGATION_RULE_MEDIAN) 0 0 = Panic "index out of range".
Proof. split; [vm_compute; reflexivity|]. apply (few_endpoints_panic _ _ _ _ _ 1); [done|vm_compute; reflexivity|cbn; lia]. Defined.

(** A failed attempt, a status that is tried again, and the body. *)
Definition d_answers (i : nat) : http_answer :=
  match i with
  | O => HError (Error ErrOther "connection refused")
  | S O => HAnswer 503 0 (Ok [])
  | S (S _) => HAnswer 200 2 (Ok [123; 125])
  end.
Lemma fetch_three : fetchRawData 3 true d_answers = Ok [123; 125] /\ is_ok (fetchRawData 2 true d_answers) = false.
Proof. vm_compute. split; reflexivity. Qed.

Definition d_print (j : json) : string := match j with JString s => s | JNumber s => s | _ => "" end.
Definition d_json : list (string * json) := [("data", JArray [JObject [("amount", JNumber "630")]])].
Lemma extract_spec_witness : extractDataByPath d_print d_json "data.0.amount" = Ok "630".
Proof.
  apply (extract_spec d_print d_json "data" ["0"; "amount"] "630"); [|done|].
  - repeat (apply Forall_cons; split); [apply no_dot_check; reflexivity..|by apply Forall_nil].
  - exists (JNumber "630"). split; [|reflexivity]. eapply at_key; [reflexivity|]. eapply at_place; [reflexivity|reflexivity|].
    eapply at_key; [reflexivity|constructor].
Defined.

Lemma daemon_keeps_up_witness :
  exists w', pool_run o_p1 new_pool ([PDoc (d_doc 0) 0 0; PStart 1; PFinish 1 (Value "10")] ++
      rounds 1 1 2 [(60, 60, "11"); (120, 120, "12")]) = Ok w' /\
    wp_results w' = [Some (mkJobResult 1 "10" 1); Some (mkJobResult 1 "11" 2); Some (mkJobResult 1 "12" 3)] /\
    exists msg, submit_message d_sign o_p1 (mkJobResult 1 "12" 3) = Ok msg /\ (SubmitOracleData msg (d_chain 2)).1 = Ok tt.
Proof.
  destruct (daemon_keeps_up d_sign o_p1 (d_doc 0) (mkEndpoint "v" "q") 1 0 0 "10" [(60, 60, "11"); (120, 120, "12")])
    as (w' & Hr & Hres & Hacc);
    [apply d_signs|done|done|vm_compute; reflexivity|done|cbn; lia|cbn; lia|cbn; unfold max_uint64; lia|done|by repeat constructor|].
  exists w'. split_and!; [exact Hr|exact Hres|]. destruct (Hacc 2%nat (Some (mkJobResult 1 "12" 3))) as (x & [= <-] & H);
    [rewrite Hres; reflexivity|]. apply H, d_awaits.
Defined.

(** The document is updated while a task waits: both tasks run, the nonces 2 and 3 are
    submitted where the chain waits for 2, and from then on the daemon is ahead. *)
Definition d_updated : list pool_input :=
  [PDoc (d_doc 0) 0 0; PStart 1; PFinish 1 (Value "10"); PComplete (req_id 1) 1 60 60; PDoc (d_doc 1) 60 61;
   PStart 2; PFinish 2 (Value "11"); PStart 4; PFinish 4 (Value "11")].
Lemma ahead_stays_ahead_witness :
  exists w, pool_run o_p1 new_pool d_updated = Ok w /\
    wp_results w = [Some (mkJobResult 1 "10" 1); Some (mkJobResult 1 "11" 2); Some (mkJobResult 1 "11" 3)] /\
    exists w', pool_run o_p1 w (rounds 1 2 5 [(120, 120, "12")]) = Ok w' /\
      wp_results w' = wp_results w ++ [Some (mkJobResult 1 "12" 4)] /\
      exists msg, submit_message d_sign o_p1 (mkJobResult 1 "12" 4) = Ok msg /\ (SubmitOracleData msg (d_chain 2)).1 <> Ok tt.
Proof.
  destruct (pool_run o_p1 new_pool d_updated) as [w| |] eqn:Hw; vm_compute in Hw; [|discriminate..]. injection Hw as Hw.
  exists w. split; [reflexivity|]. split; [rewrite <- Hw; reflexivity|].
  destruct (ahead_stays_ahead d_sign o_p1 w 1 3 2 [(120, 120, "12")]) as (w' & Hr & Hres & Hacc);
    [apply d_signs|done| |lia|done|cbn; unfold max_uint64; lia|by repeat constructor|].
  - rewrite <- Hw. exists 3. eexists. split; [vm_compute; reflexivity|]. split_and!; reflexivity.
  - exists w'. replace (wp_next w) with 5 in Hr by (rewrite <- Hw; reflexivity). split_and!; [exact Hr|exact Hres|].
    destruct (Hacc 0%nat (Some (mkJobResult 1 "12" 4)) eq_refl) as (x & [= <-] & H).
    destruct (H (d_chain 2) (d_awaits 2)) as (msg & Hm & Hne & _). by exists msg.
Defined.

(** A node that is the sequence of the account. *)
Definition d_broadcast (s : Z) (msg : MsgSubmitOracleData) (q : Z) : Z * option Z :=
  if q =? s then (s + 1, Some 0) else (s, Some ErrWrongSequenceCode).
Lemma submit_resyncs_witness :
  BroadcastTxWithRetry d_sign (fun _ _ => true) Z d_broadcast Ok 6 o_p1 (mkJobResult 1 "12" 3) 7 4 = (8, 8, Submitted).
Proof.
  destruct (submit_message_signed d_sign o_p1 1 "12" 3 d_signs) as (sig & Hm & _).
  rewrite (submit_resyncs d_sign (fun _ _ => true) Z d_broadcast Ok) with (msg := mkMsgSubmit o_p1 (Some (mkSubmit 1 3 "12" o_p1 sig))) (q := 7);
    [reflexivity| |done|exact Hm|reflexivity|lia].
  intros s q [= ->] msg q'. unfold d_broadcast. destruct (q' =? q); reflexivity.
Defined.

Definition d_event : event_attrs := {[CompleteID := ["1"; "2"]; CompleteNonce := ["5"; "7"]; CompleteTime := ["60"; "60"]]}.
Definition d_pool : pool := match pool_run o_p1 new_pool d_updated with Ok w => w | _ => new_pool end.
(** Request 1 after the update of above, where the daemon has got ahead to nonce 3: the
    completion of nonce 5 brings it back.  Meanwhile a document of request 2 arrives and its
    endpoint answers nothing that parses. *)
Definition d_doc2 : OracleRequestDoc :=
  mkDoc 2 ORACLE_TYPE_MIN_GAS_PRICE "gas" "gas price" 60 [o_p1; o_p2] 2 [mkEndpoint "u" "p"; mkEndpoint "v" "q"] AGGREGATION_RULE_MEDIAN
    REQUEST_STATUS_ENABLED 0.
Definition d_w1 : pool := match ProcessRequestDoc o_p1 (ProcessComplete d_pool (req_id 1) 5 300 301) d_doc2 0 301 with Ok w => w | _ => new_pool end.
Definition d_w2 : pool := finish_task (start_task (start_task d_w1 5) 7) 7 NotParsed.
Lemma completions_in_order_witness : exists w',
  runEventLoop_step (fun _ => Ok 0) o_p1 d_pool (DeComplete d_event) 61 = Ok (Some w') /\ has_job w' 1 5.
Proof.
  eexists. split.
  - apply (completions_in_order (fun _ => Ok 0) o_p1 d_pool d_event [(1, 5, 60); (2, 7, 60)] 61);
      [repeat constructor; cbn; unfold uint64, max_uint64; lia|vm_compute; reflexivity..].
  - exists 3. eexists. split; [vm_compute; reflexivity|split_and!; reflexivity].
Defined.
Lemma validateConfig_stable_witness : validateConfig (DefaultConfig "/root") = Ok (DefaultConfig "/root").
Proof. apply (proj1 (validateConfig_stable (DefaultConfig "/root") (DefaultConfig "/root") ltac:(vm_compute; reflexivity))). Defined.
